(* ===== verification/_CoqProject ===== *)
-Q . S2P
Prelude.v
Slices.v
Qualify.v
Glob.v
Float64.v
Utf8.v
Json.v
JsonCanon.v
Marshal.v
Sha256.v
PolicyDoc.v
Catalog.v
Text.v
Routes.v
Hashes.v
PolicyCanon.v
TimeFmt.v
Live.v
Boundary.v
Narrow.v
Intent.v
Bundle.v
FirstAttach.v
Findings.v
FindingFacts.v
Lifecycle.v
FindingStore.v
Plan.v
Recover.v
Resume.v
Health.v
HealthFacts.v
Authz.v
Pdp.v
PlanSet.v
Compile.v
CompileFacts.v
TargetFacts.v
RemoveFacts.v
Split.v
SplitFacts.v
RoleOnly.v
RoleOnlyFacts.v
JobQueue.v
AttemptLog.v
AttemptFacts.v
AwsAdapter.v
Executor.v
ExecutorFacts.v
ExecutorSafety.v
Rollout.v
RolloutFacts.v
RolloutSafety.v
