(* ===== verification/Prelude.v ===== *)
(** * AuthSec: a verification of the identity-governance core

    AuthSec issues and checks identities, discovers the IAM roles of cloud
    accounts and right-sizes them: it derives findings from what a role may do
    and what it did, turns an approved removal into a permissions boundary,
    deploys it through a plan that can be interrupted, watches the canary and
    expands the rollout. The decisions of that pipeline are pure Go functions
    of package [igagov] (src/internal/igagov); services around them read and
    write PostgreSQL and call AWS. Requests reach them through the
    authorization middleware (src/internal/authz), and tokens are issued
    behind a policy decision point (src/internal/policy). This library models
    those decisions as executable functions and proves what they decide.

    ** How the parts interact

    A scan's snapshot is evaluated ([Evaluate]) into findings, evidence rows
    and unknown conditions; the interval a grant has been unused comes from
    [Qualify], the ways a removed service could still be reached from
    [AnalyzeRoutes], the services a workload needs from [Dependencies]. The
    findings meet the stored table through [PlanFindingUpdates], in a
    transaction among those of the observer, the drift worker, exceptions and
    policy authoring ([FindingStore]). A version's intent is validated
    ([ValidateIntent]), its evidence collected in a bundle ([BuildBundle]); a
    role without a boundary needs the proof [ProveFirstAttachment], a customer
    boundary is narrowed statement by statement with [NarrowCustomerBoundary],
    and [CompileTarget] turns intent, evidence and live read into an apply plan
    and its undo. A control is taken away by [CompileRemoveControl]; a boundary
    that gained users is undone for one role by [CompileRoleOnlyRecovery]; a
    workload gets a role of its own through [CompileSplit]. Every document,
    plan and precondition is bound by a hash of canonical JSON. A plan is run
    by a worker that claimed its job under a lease ([JobQueue]); the executor
    ([ExecutePlan]) sends its operations through the AWS adapter, each recorded
    in the write-ahead attempt log ([AttemptLog]) before it leaves; whenever it
    stops or is replaced, [Classify] places the live role before, inside, after
    or outside the plan.
    A rollout ([Rollout]) drives a version through its stages: it observes
    ([EvaluateObservation]), deploys to one canary target under the approval,
    and expands when the canary's gates ([EvaluateCanary]) allow; its calls and
    jobs are transactions that interleave with those of the other services.

    ** Files, and the code they model

    - [Prelude], [Slices]: Go errors, byte strings and [sort.Slice]; tactics,
      hints and list lemmas. [Utf8], [Float64], [Sha256], [TimeFmt], [Text]:
      the parts of the Go standard library the code depends on
      (unicode/utf8, strconv, crypto/sha256, time formatting, the regular
      expressions of intent.go), written out so that everything computes.
    - canonical.go: [Json] (parser and canonical writer), [JsonCanon] (their
      theory), [Marshal] ([encoding/json] and [CanonicalizeValue]), [Hashes]
      (content, plan, impact, precondition and material hashes), [Glob]
      (IAM patterns), [PolicyDoc] (policy documents), [PolicyCanon] (a
      document and its canonical text mean the same).
    - qualify.go: [Qualify]. catalog.go: [Catalog]. routes.go: [Routes].
    - compile.go: [Live] (the read of a role), [Boundary], [Narrow],
      [FirstAttach], [Plan] (plans, their storage checks and impact),
      [PlanSet] (assignments to a plan's fields, impact and unanalysed lists),
      [Compile] (the apply with its undo, the removal of a control, sealing),
      [RoleOnly] (role-only recovery). Their theory: [CompileFacts] (what a
      compiled pair of plans consists of, case by case), [TargetFacts],
      [RemoveFacts], [RoleOnlyFacts].
    - split.go: [Split] (a dedicated role for a workload, and its revert),
      [SplitFacts].
    - intent.go: [Intent]. bundle.go: [Bundle].
    - findings.go: [Findings] with [FindingFacts] (the evaluation and what it
      derives) and [Lifecycle]; services/iga_gov_evaluator.go,
      iga_gov_deploy_observer.go, iga_gov_deploy_drift.go,
      iga_gov_finding_rules.go, iga_gov_authoring_service.go and
      repository/iga_gov_evaluation_repository.go: [FindingStore].
    - recover.go: [Recover], and [Resume] for the executor's view of it.
    - repository/iga_gov_job_repository.go and the fenced run of
      services/iga_gov_job_worker.go: [JobQueue].
    - services/iga_gov_attempt_log.go: [AttemptLog], and [AttemptFacts] for the
      log under concurrent workers, with the constraints of its table
      (migrations/master/001_bootstrap.sql).
    - internal/awsenforce (deploy.go, reads.go): [AwsAdapter], over the two
      interfaces [IAM] and [DiscoveryIAM].
    - services/iga_gov_aws_executor.go: [Executor] (the run of a deployment, a
      state and error monad over an environment [env]; its state keeps the log
      of the requests, live reads and waits in the order the run made them),
      [ExecutorFacts] (a
      weakest-precondition calculus for it and what each part changes),
      [ExecutorSafety] (its guarantees, and a compiled plan run to its end
      against a small IAM).
    - health.go and the gate decision of services/iga_gov_rollout_service.go:
      [Health], [HealthFacts].
    - services/iga_gov_rollout_service.go, iga_gov_rollout_jobs.go,
      iga_gov_rollout_canary.go and the approval rule of
      iga_gov_approval_service.go: [Rollout] (one function per transaction, and
      the handlers that run them), [RolloutFacts] (the stage machine, and what
      each transaction does to it), [RolloutSafety] (its guarantees over the
      history of a workspace, and a rollout run from start to end).
    - internal/authz: [Authz]. internal/policy and the gate of
      controllers/platform/oauth_as_controller.go: [Pdp].

    A comment [src: path:lines (symbol)] before a definition names the code it
    translates, relative to src/.

    ** Conventions

    A Go string is a sequence of bytes ([string] of [ascii]); an instant is a
    number of nanoseconds in [Z]; [(T, error)] is [result T]; a nil pointer is
    [None]; a map is a [gmap] and ranging over it takes its keys in order where
    the code sorts them. Nil and empty slices are told apart only where JSON
    text depends on it. [strings.ToLower] and [EqualFold] change ASCII letters
    only: AWS namespaces, actions and tag values are ASCII. [int64] wrap-around
    is written out where a product may overflow ([hours]); [Sub] of two
    instants saturates as in Go. [sort.Slice] is a stable sort ([sort_slice]),
    one of the orders Go leaves open for ties. Quoting for messages takes every
    valid character beyond ASCII as printable. The results of a return
    statement such as [return v, v.seal()] are evaluated in the order of the gc
    compiler. [run_op] of the recovery theorems is the contract the comment of
    [opEffects] states: an operation that succeeds leaves the value its fact
    announces.

    ** What is proved

    - Tables and their writers: every transaction on stored findings keeps the
      table's constraints, the evaluator's writes refine an abstract step, a
      replay changes nothing, and the status of a revision is characterised.
    - Recovery: the classification is sound for any interrupted run, resuming
      where it says completes the plan, and a retry happens only when AWS
      refused the operation.
    - Jobs and attempts: the job table keeps its constraints, a lease once lost
      never becomes valid again, no attempt is sent twice or before it is
      recorded, a deployment has one open attempt, and the log's transactions
      satisfy the trigger and the checks of its table.
    - Execution: in any environment a run ends; what it sends is on record and
      belongs to the plan; no operation is sent again once completed; and when
      it reports applied, its log ends with a read of the plan's after state, a
      wait, and a second such read, made after the last request.
    - Plans: an undo has its apply's facts with before and after exchanged;
      for direct delivery, apply and then undo, interrupted and resumed any
      number of times, bring the role back to what was read; operations leave
      the values the facts announce, write no policy that others use, and an
      eligible plan's removals are justified by its evidence. A removal
      restores the control's baseline and can be finished. A role-only
      recovery writes no policy that was there, and reads back the state its
      undo stored. A split gives the new role exactly the source role's
      authorization, forgets no policy that names the source role, and its
      revert takes it back; a role with AWS-managed policies is refused, unless
      an ARN of its intent hides one behind a comma.
    - Evidence: the verdict of [Qualify], the maximal run of a grant, exact
      conditions for unused-service and ownership findings, bundle trust and
      first attachment; none-observed and unknown are kept apart.
    - Documents: narrowing gives exactly the intended subset, the exclusion
      boundary excludes exactly the removed namespaces, patterns match what
      they denote, hashes bind the fields they claim to (for text in UTF-8 and
      numbers a double holds).
    - Canonical JSON: equal texts exactly for equal values, round trips of
      text, numbers and documents, totality of the parser.
    - Canary: when a canary passes or pauses, what accepting a gate can and
      cannot override, agreement of restriction and posture, the fresh-report
      rule. Its success evidence is of this change where the declared
      validations start after it; the code does not ask for that.
    - Rollout: a call or job is refused, does nothing, commits one transaction
      after revalidations, or starts a removal of control; the transactions
      refine the documented stages; in any history, a stage past observing has
      an observation behind it that a tick evaluated from the version's own
      observe_until and the evidence it read; every deployment created is of a
      target of the version, with that target's plan and control, under a usable
      approval by someone else than the author; no expansion but from a healthy
      canary; when an expansion ends, and how; pausing and resuming; an attempt
      on a removed service sends the version back to draft with its approvals
      revoked.
    - Requests and tokens: middleware and stated permissions agree, role
      bindings are checked exactly and fail closed, a deny wins at issuance.

    ** Fuel and bounds

    Recursion that is not structural takes fuel and is proved not to run out:
    the JSON parser's fuel grows with the length of the text and every call
    consumes a byte ([parse_fuel_enough], [parse_total]); [runes] and
    [chunks_fuel] have the length of the string; the loop of [globMatch] moves
    its mark at most once per byte of the text and reads at most both strings
    between two moves ([globFuel], [glob_match_correct]). The shortest digits
    of a double are searched up to 17, with the exact expansion behind them so
    that no bound is assumed ([format_number_roundtrip]). The executor's loop
    has a turn for each operation and one more ([run_fuel]): a turn that goes on
    moves the cursor past an operation ([executor_terminates]). SHA-256 is computed
    by its rounds; no theorem assumes it has no collisions: statements about
    hashes are about the bytes hashed.

    ** Not modelled, and why

    - Decoding of stored JSON columns into structs ([ParseIntent],
      [ParseBundle], [ParseFindingRule], [FactsFromDiff]): reflection of
      encoding/json; the structs are the models' inputs. The exception is the
      undo's precondition, which [RoleOnly] reads as encoding/json reads a
      text in canonical form.
    - The owner review, the enforcement binding, memberships, revalidation and
      the facts of a deployment, as the rollout reads them: functions of the rows
      in [services], for which its theorems hold. The views and notices of a
      rollout, and the refresh_activity job: presentation, and a queue of scans.
    - The deploy, verify and drift jobs around the executor, and the authoring
      routes: sequences of reads and writes over many tables, whose decisions are
      the functions above.
    - Controllers, routing, SQL reads, the graph projection, provider clients
      (AWS, GCP, Kubernetes, GitHub), SPIFFE and OAuth servers, notifications
      and set-up: network, database and third-party libraries, with little
      decision logic of their own.

    This file is the shared vocabulary: the error monad of the Go code, the
    byte-string routines of package [strings], the tactics and hint databases
    of the components. *)

From stdpp Require Export base gmap strings list sorting.
From Stdlib Require Export ZArith Lia.
From Stdlib Require Import Ascii.

#[global] Open Scope Z_scope.
#[global] Set Default Goal Selector "!".

(** * Errors *)

(** A Go [error] value. [CompileError] is the struct of compile.go; the other
    constructors are the sentinel errors the package wraps, with the message
    that distinguishes them. *)
Inductive goError :=
  | CompileError (code : string) (reasons : list string)
  | ErrNotIJSON (msg : string)
  | ErrPolicyDocument (msg : string)
  | ErrNotStorable
  | ErrOther (msg : string).

(** The [(T, error)] results of the code. *)
Inductive result (A : Type) :=
  | Ok (a : A)
  | Err (e : goError).
Arguments Ok {A} _.
Arguments Err {A} _.

#[export] Instance result_ret : MRet result := fun _ a => Ok a.
#[export] Instance result_bind : MBind result := fun _ _ k r =>
  match r with Ok a => k a | Err e => Err e end.
#[export] Instance result_fmap : FMap result := fun _ _ f r =>
  match r with Ok a => Ok (f a) | Err e => Err e end.

Definition is_Ok {A} (r : result A) : bool :=
  match r with Ok _ => true | Err _ => false end.

Lemma bind_Ok {A B} (r : result A) (k : A -> result B) b :
  r ≫= k = Ok b <-> exists a, r = Ok a /\ k a = Ok b.
Proof. destruct r as [a|e]; cbn; naive_solver. Qed.

Lemma mapM_Ok {A B} (f : A -> result B) l k :
  mapM f l = Ok k <-> Forall2 (fun a b => f a = Ok b) l k.
Proof.
  revert k. induction l as [|x l IH]; intros k; cbn.
  - split; [intros [= <-]; constructor | by inversion 1].
  - rewrite bind_Ok. split.
    + intros (b & Hb & (bs & Hbs & [= <-])%bind_Ok). constructor; [done|by apply IH].
    + inversion 1 as [|? b ? bs Hb Hbs]; subst. exists b. split; [done|].
      apply bind_Ok. exists bs. split; [by apply IH|done].
Qed.

(** [inv_result H] takes apart a computation known to return a value. *)
Ltac inv_result H :=
  repeat match type of H with
  | mbind _ _ = Ok _ =>
      let a := fresh "a" in let Ha := fresh "H" a in
      apply bind_Ok in H as (a & Ha & H)
  | Ok _ = Ok _ => injection H as H; subst
  | Err _ = Ok _ => discriminate H
  end.

(** [case_bool] splits on the innermost boolean or option scrutinee of the
    goal, keeping the equation. *)
Ltac case_scrut :=
  match goal with
  | |- context [match ?x with _ => _ end] =>
      lazymatch x with context [match _ with _ => _ end] => fail | _ => idtac end;
      destruct x eqn:?
  end.

(** Boolean hypotheses to propositions. *)
Ltac bool_prop :=
  repeat match goal with
  | H : (_ && _)%bool = true |- _ => apply andb_prop in H as [? ?]
  | H : (_ || _)%bool = false |- _ => apply orb_false_elim in H as [? ?]
  | H : negb _ = true |- _ => apply negb_true_iff in H
  | H : negb _ = false |- _ => apply negb_false_iff in H
  | H : bool_decide _ = true |- _ => apply bool_decide_eq_true in H
  | H : bool_decide _ = false |- _ => apply bool_decide_eq_false in H
  | H : (_ =? _)%string = true |- _ => apply String.eqb_eq in H
  | H : (_ =? _)%string = false |- _ => apply String.eqb_neq in H
  | H : (_ <=? _) = true |- _ => apply Z.leb_le in H
  | H : (_ <=? _) = false |- _ => apply Z.leb_gt in H
  | H : (_ <? _) = true |- _ => apply Z.ltb_lt in H
  | H : (_ <? _) = false |- _ => apply Z.ltb_ge in H
  | H : (_ =? _) = true |- _ => apply Z.eqb_eq in H
  | H : (_ =? _) = false |- _ => apply Z.eqb_neq in H
  end.

Create HintDb igagov.
Create Rewrite HintDb igagov.

(** * Byte strings *)

(** A Go string is a sequence of bytes; [ascii] is a byte here. *)
Definition byte_val (c : ascii) : Z := Z.of_N (N_of_ascii c).

Fixpoint str_length (s : string) : nat :=
  match s with "" => O | String _ s => S (str_length s) end.

(** [strings.HasPrefix]. *)
Fixpoint HasPrefix (s p : string) : bool :=
  match p, s with
  | "", _ => true
  | String a p, String b s => bool_decide (a = b) && HasPrefix s p
  | String _ _, "" => false
  end.

(** [strings.Contains]. *)
Fixpoint Contains (s sub : string) : bool :=
  HasPrefix s sub ||
  match s with "" => false | String _ s => Contains s sub end.

(** The suffix of [s] after its first [n] bytes. *)
Fixpoint str_drop (n : nat) (s : string) : string :=
  match n, s with
  | O, _ => s
  | S n, String _ s => str_drop n s
  | S _, "" => ""
  end.

(** [s[:i], s[i+1:]] for the first byte [c] of [s] at index [i], as
    [strings.IndexByte] finds it. *)
Fixpoint cut_byte (c : ascii) (s : string) : option (string * string) :=
  match s with
  | "" => None
  | String a s =>
      if bool_decide (a = c) then Some ("", s)
      else match cut_byte c s with
           | Some (l, r) => Some (String a l, r)
           | None => None
           end
  end.

(** [strings.SplitN(s, sep, n)] for a one-byte separator. *)
Fixpoint SplitN (n : nat) (c : ascii) (s : string) : list string :=
  match n with
  | O => []
  | S O => [s]
  | S n => match cut_byte c s with
           | Some (l, r) => l :: SplitN n c r
           | None => [s]
           end
  end.

(** [unicode.ToLower] of a byte below 0x80. Bytes of multi-byte characters are
    left alone: IAM action names, namespaces and tag values compared this way
    are ASCII. *)
Definition lower_byte (c : ascii) : ascii :=
  let n := N_of_ascii c in
  if (65 <=? n)%N && (n <=? 90)%N then ascii_of_N (n + 32) else c.

(** [strings.ToLower]. *)
Fixpoint ToLower (s : string) : string :=
  match s with "" => "" | String c s => String (lower_byte c) (ToLower s) end.

(** [strings.EqualFold]. *)
Definition EqualFold (a b : string) : bool := (ToLower a =? ToLower b)%string.

(** [strings.ContainsAny] against a set of bytes. *)
Fixpoint ContainsAny (s : string) (cs : list ascii) : bool :=
  match s with
  | "" => false
  | String a s => bool_decide (a ∈ cs) || ContainsAny s cs
  end.

(** [strings.Join]. *)
Fixpoint Join (l : list string) (sep : string) : string :=
  match l with
  | [] => ""
  | [s] => s
  | s :: l => s +:+ sep +:+ Join l sep
  end.

Definition is_empty (s : string) : bool := (s =? "")%string.

Lemma is_empty_true s : is_empty s = true <-> s = "".
Proof. apply String.eqb_eq. Qed.

Lemma str_app_assoc (a b c : string) : (a +:+ b) +:+ c = a +:+ b +:+ c.
Proof. induction a as [|x a IH]; [done|]. change (String x ((a +:+ b) +:+ c) = String x (a +:+ b +:+ c)). by rewrite IH. Qed.

Lemma str_app_nil_r (a : string) : a +:+ "" = a.
Proof. induction a as [|x a IH]; [done|]. change (String x (a +:+ "") = String x a). by rewrite IH. Qed.

Lemma str_app_cons c (a b : string) : String c a +:+ b = String c (a +:+ b).
Proof. done. Qed.

Lemma str_length_app a b : str_length (a +:+ b) = (str_length a + str_length b)%nat.
Proof. induction a as [|x a IH]; [done|]. rewrite str_app_cons. cbn. by rewrite IH. Qed.

Lemma lower_byte_idem c : lower_byte (lower_byte c) = lower_byte c.
Proof. destruct c as [[][][][][][][][]]; reflexivity. Qed.

Lemma ToLower_idem s : ToLower (ToLower s) = ToLower s.
Proof. induction s as [|c s IH]; cbn; [done|]. by rewrite lower_byte_idem, IH. Qed.

Lemma cut_byte_Some c s l r : cut_byte c s = Some (l, r) -> s = l +:+ String c r.
Proof.
  revert l. induction s as [|a s IH]; intros l; cbn; [done|].
  case_bool_decide as Ha; [by intros [= <- <-]; subst|].
  destruct (cut_byte c s) as [[l' r']|]; [|done]. intros [= <- <-].
  rewrite (IH l') by done. done.
Qed.

#[export] Hint Rewrite str_app_assoc str_app_nil_r ToLower_idem lower_byte_idem : igagov.

(** * Byte order *)

(** Go's [<] on strings compares bytes. *)
Abbreviation str_lt := String.ltb.

Lemma str_lt_irrefl s : str_lt s s = false.
Proof.
  unfold String.ltb. assert ((s ?= s)%string = Eq) as ->; [|done].
  induction s as [|c s IH]; cbn; [done|]. unfold Ascii.compare.
  by rewrite N.compare_refl.
Qed.

Lemma str_lt_leb a b : str_lt a b = negb (String.leb b a).
Proof.
  unfold String.ltb, String.leb. rewrite (String.compare_antisym b a).
  by destruct (a ?= b)%string.
Qed.

Lemma str_lt_trans a b c : str_lt a b = true -> str_lt b c = true -> str_lt a c = true.
Proof.
  rewrite !str_lt_leb, !negb_true_iff. intros Hab Hbc.
  destruct (String.leb c a) eqn:Hca; [|done]. exfalso.
  assert (String.leb b c = true) as H.
  { destruct (String.leb_total b c); congruence. }
  assert (String.le b a) as Hba.
  { etrans; unfold String.le; [rewrite H|rewrite Hca]; done. }
  unfold String.le in Hba. rewrite Hab in Hba. done.
Qed.

Lemma str_lt_tri a b : str_lt a b = false -> str_lt b a = false -> a = b.
Proof.
  rewrite !str_lt_leb, !negb_false_iff. intros. by apply String.leb_antisym.
Qed.
