(* ===== verification/Slices.v ===== *)
(** Sorted slices: [sort.Slice] with a [less] function, [sort.Strings],
    [sortedUnique] of canonical.go, and why their results do not depend on the
    order of the input. *)

From stdpp Require Import base list strings sorting.
From S2P Require Import Prelude.

(** * Strict total orders given as [less] functions *)

Class StrictTotal {A} (less : A -> A -> bool) : Prop := {
  less_irrefl x : less x x = false;
  less_trans x y z : less x y = true -> less y z = true -> less x z = true;
  less_tri x y : less x y = false -> less y x = false -> x = y
}.

(** What [sort.Slice] needs of [less]: ties may relate different elements. *)
Class StrictWeak {A} (less : A -> A -> bool) : Prop := {
  less_asym x y : less x y = true -> less y x = false;
  less_negtrans x y z : less y x = false -> less z y = false -> less z x = false
}.

#[export] Instance strict_total_weak {A} (less : A -> A -> bool) :
  StrictTotal less -> StrictWeak less.
Proof.
  intros H. split.
  - intros x y Hxy. destruct (less y x) eqn:Hyx; [|done].
    pose proof (less_trans _ _ _ Hxy Hyx). rewrite less_irrefl in *. done.
  - intros x y z Hxy Hyz. destruct (less z x) eqn:Hzx; [exfalso|done].
    destruct (less x y) eqn:E.
    + pose proof (less_trans _ _ _ Hzx E). congruence.
    + assert (x = y) as -> by by apply less_tri. congruence.
Qed.

#[export] Instance str_lt_total : StrictTotal str_lt.
Proof. split; [apply str_lt_irrefl | apply str_lt_trans | apply str_lt_tri]. Qed.

(** The lexicographic order on lists of strings: the shape of every
    multi-field [less] of the package. *)
Fixpoint lex_lt (a b : list string) : bool :=
  match a, b with
  | _, [] => false
  | [], _ :: _ => true
  | x :: a, y :: b => if (x =? y)%string then lex_lt a b else str_lt x y
  end.

#[export] Instance lex_lt_total : StrictTotal lex_lt.
Proof.
  split.
  - intros x. induction x as [|s x IH]; cbn; [done|]. by rewrite String.eqb_refl.
  - intros x. induction x as [|s x IH]; intros [|t y] [|u z]; cbn; try done.
    destruct (String.eqb_spec s t) as [E1|E1], (String.eqb_spec t u) as [E2|E2],
      (String.eqb_spec s u) as [E3|E3]; subst; eauto; try done.
    + intros H1 H2. pose proof (str_lt_trans _ _ _ H1 H2). rewrite str_lt_irrefl in *. done.
    + apply str_lt_trans.
  - intros x. induction x as [|s x IH]; intros [|t y]; cbn; try done.
    rewrite (String.eqb_sym t s).
    destruct (String.eqb_spec s t) as [->|Hst]; [intros; f_equal; by apply IH|].
    intros. exfalso. apply Hst. by apply str_lt_tri.
Qed.

(** [less] by a list of keys; total when the keys identify the element. *)
Definition less_by {A} (keys : A -> list string) (x y : A) : bool :=
  lex_lt (keys x) (keys y).

Lemma less_by_total {A} (keys : A -> list string) :
  Inj (=) (=) keys -> StrictTotal (less_by keys).
Proof.
  intros Hinj. unfold less_by. split.
  - intros. apply less_irrefl.
  - intros x y z. apply less_trans.
  - intros x y ??. apply Hinj. by apply (less_tri (less:=lex_lt)).
Qed.

#[export] Instance less_by_weak {A} (keys : A -> list string) : StrictWeak (less_by keys).
Proof.
  unfold less_by. split.
  - intros x y. apply less_asym.
  - intros x y z. apply less_negtrans.
Qed.

(** * Sorting *)

(** [sort.Slice] (and [sort.SliceStable]): insertion sort, stable. Where
    [less] has ties between different elements Go leaves their order open for
    [sort.Slice]; this is then one of the results Go allows. *)
Section Sort.
Context {A : Type} (less : A -> A -> bool).

Fixpoint insert_sorted (x : A) (l : list A) : list A :=
  match l with
  | [] => [x]
  | y :: l' => if less y x then y :: insert_sorted x l' else x :: l
  end.

Definition sort_slice (l : list A) : list A := foldr insert_sorted [] l.

Lemma insert_sorted_perm x l : insert_sorted x l ≡ₚ x :: l.
Proof.
  induction l as [|y l IH]; cbn; [done|]. destruct (less y x); [|done].
  rewrite IH. by constructor.
Qed.

Lemma sort_slice_perm l : sort_slice l ≡ₚ l.
Proof. induction l as [|x l IH]; cbn; [done|]. by rewrite insert_sorted_perm, IH. Qed.

Lemma elem_of_sort_slice x l : x ∈ sort_slice l <-> x ∈ l.
Proof. by rewrite sort_slice_perm. Qed.

Lemma length_sort_slice l : length (sort_slice l) = length l.
Proof. by rewrite sort_slice_perm. Qed.

Lemma sort_slice_nil l : sort_slice l = [] <-> l = [].
Proof.
  rewrite <- !length_zero_iff_nil, length_sort_slice. done.
Qed.

Definition not_after (x y : A) : Prop := less y x = false.

#[local] Instance not_after_trans `{!StrictWeak less} : Transitive not_after.
Proof. intros x y z. apply less_negtrans. Qed.

#[local] Instance not_after_antisymm `{!StrictTotal less} : AntiSymm (=) not_after.
Proof. intros x y ??. by apply less_tri. Qed.

Lemma insert_sorted_sorted `{!StrictWeak less} x l :
  StronglySorted not_after l -> StronglySorted not_after (insert_sorted x l).
Proof.
  induction 1 as [|y l Hl IH Hy]; cbn; [repeat constructor|].
  destruct (less y x) eqn:Hyx.
  - constructor; [done|]. rewrite insert_sorted_perm. constructor; [|done].
    by apply less_asym.
  - constructor; [by constructor|]. constructor; [done|].
    eapply Forall_impl; [exact Hy|]. intros z Hz. by etrans.
Qed.

Lemma sort_slice_sorted `{!StrictWeak less} l : StronglySorted not_after (sort_slice l).
Proof. induction l; cbn; [constructor|]. by apply insert_sorted_sorted. Qed.

(** The result depends only on the multiset of elements. *)
Lemma sort_slice_unique `{!StrictTotal less} l1 l2 : l1 ≡ₚ l2 -> sort_slice l1 = sort_slice l2.
Proof.
  intros H. apply (StronglySorted_unique not_after); [apply sort_slice_sorted..|].
  by rewrite !sort_slice_perm.
Qed.

(** A sorted list is left alone, ties included. *)
Lemma sort_slice_id l : StronglySorted not_after l -> sort_slice l = l.
Proof.
  induction 1 as [|x l _ IH Hx]; [done|].
  change (sort_slice (x :: l)) with (insert_sorted x (sort_slice l)). rewrite IH.
  destruct l as [|y l]; cbn; [done|]. apply Forall_cons in Hx as [Hxy _].
  unfold not_after in Hxy. by rewrite Hxy.
Qed.

Lemma sort_slice_idem `{!StrictWeak less} l : sort_slice (sort_slice l) = sort_slice l.
Proof. apply sort_slice_id, sort_slice_sorted. Qed.
End Sort.

(** Sorting by a key whose order is total: with distinct keys the result
    depends only on the multiset of elements. *)
Section SortOn.
Context {A B : Type} (f : A -> B) (lt : B -> B -> bool) `{!StrictTotal lt}.

Definition less_on (x y : A) : bool := lt (f x) (f y).

#[export] Instance less_on_weak : StrictWeak less_on.
Proof.
  unfold less_on. split.
  - intros x y. apply less_asym.
  - intros x y z. apply less_negtrans.
Qed.

Lemma insert_sorted_on x l : f <$> insert_sorted less_on x l = insert_sorted lt (f x) (f <$> l).
Proof.
  induction l as [|y l IH]; cbn; [done|]. unfold less_on at 1.
  destruct (lt (f y) (f x)); cbn; [by rewrite <- IH|done].
Qed.

Lemma sort_slice_on l : f <$> sort_slice less_on l = sort_slice lt (f <$> l).
Proof.
  induction l as [|x l IH]; [done|].
  change (f <$> insert_sorted less_on x (sort_slice less_on l) =
          insert_sorted lt (f x) (sort_slice lt (f <$> l))).
  by rewrite insert_sorted_on, IH.
Qed.

Lemma perm_key_eq (k1 k2 : list A) :
  NoDup (f <$> k1) -> k1 ≡ₚ k2 -> f <$> k1 = f <$> k2 -> k1 = k2.
Proof.
  revert k2. induction k1 as [|x k1 IH]; intros [|y k2] Hnd Hp Hf; try done.
  cbn in *. apply NoDup_cons in Hnd as [Hx Hnd]. injection Hf as Hxy Hf.
  assert (x = y) as <-.
  { assert (x ∈ y :: k2) as Hin by (rewrite <- Hp; left).
    apply elem_of_cons in Hin as [->|Hin]; [done|].
    destruct Hx. rewrite Hf. by apply list_elem_of_fmap_2. }
  f_equal. apply IH; [done| |done]. by eapply Permutation_cons_inv.
Qed.

Lemma sort_slice_on_unique l1 l2 :
  NoDup (f <$> l1) -> l1 ≡ₚ l2 -> sort_slice less_on l1 = sort_slice less_on l2.
Proof.
  intros Hnd Hp. apply perm_key_eq.
  - by rewrite sort_slice_perm.
  - by rewrite !sort_slice_perm.
  - rewrite !sort_slice_on. by apply (sort_slice_unique lt), fmap_Permutation.
Qed.
End SortOn.

(** * [sortedUnique] *)

(** Dropping an element equal to the one kept before it, as the compaction
    loops of [sortedUnique] and [uniqueConsumers] do. *)
Section Dedup.
Context {A : Type} `{!EqDecision A}.

Fixpoint dedup_from (x : A) (l : list A) : list A :=
  match l with
  | [] => []
  | y :: l => if decide (y = x) then dedup_from x l else y :: dedup_from y l
  end.

Definition dedup_adjacent (l : list A) : list A :=
  match l with [] => [] | x :: l => x :: dedup_from x l end.

Lemma elem_of_dedup_from x z l : z ∈ x :: dedup_from x l <-> z ∈ x :: l.
Proof.
  revert x. induction l as [|y l IH]; intros x; cbn; [done|].
  case_decide as H; [subst; rewrite IH; set_solver|].
  specialize (IH y). set_solver.
Qed.

Lemma elem_of_dedup z l : z ∈ dedup_adjacent l <-> z ∈ l.
Proof. destruct l as [|x l]; cbn; [done|]. apply elem_of_dedup_from. Qed.
End Dedup.

(* src: internal/igagov/canonical.go:1017-1029 (sortedUnique) *)
Definition sortedUnique (l : list string) : list string :=
  dedup_adjacent (sort_slice str_lt l).

Lemma elem_of_sortedUnique x l : x ∈ sortedUnique l <-> x ∈ l.
Proof. unfold sortedUnique. by rewrite elem_of_dedup, elem_of_sort_slice. Qed.

Lemma sortedUnique_nil l : sortedUnique l = [] <-> l = [].
Proof.
  split; [|by intros ->]. intros H. destruct l as [|x l]; [done|].
  assert (x ∈ sortedUnique (x :: l)) as Hx by (apply elem_of_sortedUnique; left).
  rewrite H in Hx. by apply not_elem_of_nil in Hx.
Qed.

(** Strictly sorted lists: sorting and dropping duplicates gives one list per
    set of elements. *)
Section SortedSet.
Context {A : Type} `{!EqDecision A} (less : A -> A -> bool) `{!StrictTotal less}.

Definition before (a b : A) : Prop := less a b = true.

Lemma dedup_from_sorted x l :
  StronglySorted (not_after less) (x :: l) -> StronglySorted before (x :: dedup_from x l).
Proof.
  revert x. induction l as [|y l IH]; intros x H; cbn; [repeat constructor|].
  apply StronglySorted_inv in H as [Hyl Hx]. case_decide as Hyx.
  - subst. apply IH. done.
  - specialize (IH y Hyl). constructor; [done|].
    apply Forall_cons in Hx as [Hxy _].
    assert (less x y = true) as Hlt.
    { destruct (less x y) eqn:E; [done|]. destruct Hyx. by apply less_tri. }
    constructor; [done|]. apply StronglySorted_inv in IH as [_ IH].
    eapply Forall_impl; [exact IH|]. intros z Hz. by eapply less_trans.
Qed.

Lemma dedup_sort_sorted l : StronglySorted before (dedup_adjacent (sort_slice less l)).
Proof.
  pose proof (sort_slice_sorted less l) as H.
  destruct (sort_slice less l) as [|x k]; cbn; [constructor|].
  by apply dedup_from_sorted.
Qed.

Lemma before_sorted_ext l1 l2 :
  StronglySorted before l1 -> StronglySorted before l2 ->
  (forall x, x ∈ l1 <-> x ∈ l2) -> l1 = l2.
Proof.
  assert (forall y l, Forall (before y) l -> y ∉ l) as Hirr.
  { intros y l Hl Hy. rewrite Forall_forall in Hl. specialize (Hl _ Hy).
    unfold before in Hl. by rewrite less_irrefl in Hl. }
  revert l2. induction l1 as [|x l1 IH]; intros l2 H1 H2 Hx.
  - destruct l2 as [|y l2]; [done|]. exfalso.
    apply (not_elem_of_nil y). apply Hx. left.
  - destruct l2 as [|y l2].
    { exfalso. apply (not_elem_of_nil x). apply Hx. left. }
    apply StronglySorted_inv in H1 as [H1 F1], H2 as [H2 F2].
    assert (x = y) as ->.
    { assert (x ∈ y :: l2) as Hxy by (apply Hx; left).
      assert (y ∈ x :: l1) as Hyx by (apply Hx; left).
      apply elem_of_cons in Hxy as [?|Hxy]; [done|].
      apply elem_of_cons in Hyx as [?|Hyx]; [done|]. rewrite Forall_forall in F1, F2.
      pose proof (less_trans _ _ _ (F1 _ Hyx) (F2 _ Hxy)) as Hc. by rewrite less_irrefl in Hc. }
    f_equal. apply IH; [done..|]. intros z.
    pose proof (Hirr y l1 F1). pose proof (Hirr y l2 F2).
    assert (z ∈ y :: l1 <-> z ∈ y :: l2) as Hz by apply Hx.
    rewrite !elem_of_cons in Hz. naive_solver.
Qed.

Lemma dedup_sort_ext l1 l2 :
  (forall x, x ∈ l1 <-> x ∈ l2) ->
  dedup_adjacent (sort_slice less l1) = dedup_adjacent (sort_slice less l2).
Proof.
  intros H. apply before_sorted_ext; [apply dedup_sort_sorted..|].
  intros x. by rewrite !elem_of_dedup, !elem_of_sort_slice.
Qed.
End SortedSet.

Lemma sortedUnique_sorted l : StronglySorted (before str_lt) (sortedUnique l).
Proof. apply (dedup_sort_sorted str_lt). Qed.

Lemma sortedUnique_NoDup l : NoDup (sortedUnique l).
Proof.
  induction (sortedUnique_sorted l) as [|x k _ IH Hall]; [constructor|]. constructor; [|done]. intros Hx.
  rewrite Forall_forall in Hall. specialize (Hall x Hx). unfold before in Hall. by rewrite str_lt_irrefl in Hall.
Qed.

(** [sortedUnique] is a function of the set of its elements. *)
Lemma sortedUnique_ext l1 l2 :
  (forall x, x ∈ l1 <-> x ∈ l2) -> sortedUnique l1 = sortedUnique l2.
Proof. apply (dedup_sort_ext str_lt). Qed.

#[export] Hint Rewrite elem_of_sortedUnique @elem_of_sort_slice : igagov.

(** * Filters *)

Lemma elem_of_filter_b {A} (f : A -> bool) l x : x ∈ List.filter f l <-> x ∈ l /\ f x = true.
Proof. by rewrite list_elem_of_In, filter_In, <- list_elem_of_In. Qed.

Lemma filter_nil_false {A} (f : A -> bool) l : List.filter f l = [] -> forall x, x ∈ l -> f x = false.
Proof.
  intros H x Hx. destruct (f x) eqn:E; [|done]. assert (In x (List.filter f l)) as Hin.
  { apply filter_In. split; [by apply list_elem_of_In|done]. }
  by rewrite H in Hin.
Qed.

Lemma filter_none {A} (f : A -> bool) l : (forall x, x ∈ l -> f x = false) -> List.filter f l = [].
Proof.
  induction l as [|x l IH]; intros H; cbn; [done|]. rewrite (H x) by left. apply IH. intros y Hy. apply H. by right.
Qed.

Lemma filter_all {A} (f : A -> bool) l : (forall x, x ∈ l -> f x = true) -> List.filter f l = l.
Proof.
  induction l as [|x l IH]; intros H; cbn; [done|]. rewrite (H x) by left. f_equal. apply IH. intros y Hy. apply H. by right.
Qed.

Lemma filter_sublist {A} (f : A -> bool) l : List.filter f l `sublist_of` l.
Proof. induction l as [|x l IH]; cbn; [done|]. destruct (f x); [by apply sublist_skip|by apply sublist_cons]. Qed.

Lemma existsb_elem {A} (f : A -> bool) l : existsb f l = true <-> exists x, x ∈ l /\ f x = true.
Proof. rewrite List.existsb_exists. apply exist_proper. intros x. by rewrite list_elem_of_In. Qed.

Lemma elem_of_map_filter {A B} (f : A -> B) (P : A -> bool) l s :
  s ∈ map f (List.filter P l) <-> exists x, x ∈ l /\ P x = true /\ f x = s.
Proof.
  rewrite list_elem_of_In, List.in_map_iff. setoid_rewrite <- list_elem_of_In. setoid_rewrite elem_of_filter_b. naive_solver.
Qed.
