(* ===== verification/Qualify.v ===== *)
(** Grant intervals and the qualified window (internal/igagov/qualify.go).

    A grant path holds while every one of its components holds; a service is
    granted while some path holds. The code computes this with sorted lists of
    half-open intervals; the specification is the set of instants they cover.
    [Qualify] turns a last-accessed report and the grant history of one
    role × service into an outcome. *)

From stdpp Require Import base list strings sorting.
From S2P Require Import Prelude Slices.

(** Instants are nanoseconds since the epoch in UTC ([time.Time]); durations
    are [int64] nanoseconds ([time.Duration]). *)
Abbreviation Time := Z.

Definition Hour : Z := 3600 * 1000000000.

(** [t.Sub(u)] saturates at the ends of [int64]. *)
Definition time_sub (t u : Time) : Z :=
  Z.max (- 2 ^ 63) (Z.min (2 ^ 63 - 1) (t - u)).

(* src: internal/igagov/qualify.go:11-11 (ReportingLag) *)
Definition ReportingLag : Z := 4 * Hour.
(* src: internal/igagov/qualify.go:14-14 (MinQualifiedDays) *)
Definition MinQualifiedDays : Z := 30.
(* src: internal/igagov/qualify.go:17-17 (DefaultWindowDays) *)
Definition DefaultWindowDays : Z := 90.
(* src: internal/igagov/qualify.go:18-18 (MinWindowDays) *)
Definition MinWindowDays : Z := 30.
(* src: internal/igagov/qualify.go:19-19 (MaxWindowDays) *)
Definition MaxWindowDays : Z := 400.

Definition QualObserved := "observed".
Definition QualNoAttempt := "no_attempt".
Definition QualNotEnoughHistory := "not_enough_history".
Definition QualUnreviewed := "unreviewed".

Definition ConfidenceQualified := "qualified".
Definition ConfidenceAgeUnverified := "age_unverified".
Definition ConfidenceNotApplicable := "not_applicable".
Definition GrantAgeObservedSinceChange := "observed_since_change".
Definition GrantAgePredatesObservation := "predates_observation".
Definition GrantAgeUnknown := "unknown".

(** * Intervals *)

(* src: internal/igagov/qualify.go:44-48 (Interval) *)
Record Interval := { iv_From : Time; iv_To : option Time; iv_OpenStart : bool }.

#[export] Instance Interval_eq_dec : EqDecision Interval.
Proof. solve_decision. Defined.

(* src: internal/igagov/qualify.go:50-52 (Interval.contains) *)
Definition contains (iv : Interval) (t : Time) : bool :=
  negb (t <? iv_From iv) &&
  match iv_To iv with None => true | Some e => t <? e end.

(* src: internal/igagov/qualify.go:58-62 (GrantPath) *)
Record GrantPath := { gp_Key : string; gp_Components : list (list Interval) }.

(* src: internal/igagov/qualify.go:64-74 (minEnd) *)
Definition minEnd (a b : option Time) : option Time :=
  match a, b with
  | None, _ => b
  | _, None => a
  | Some x, Some y => if x <? y then a else b
  end.

(* src: internal/igagov/qualify.go:78-88 (intersect) *)
Definition intersect (a b : Interval) : option Interval :=
  let out := {| iv_From := if iv_From a <? iv_From b then iv_From b else iv_From a;
                iv_To := minEnd (iv_To a) (iv_To b);
                iv_OpenStart := iv_OpenStart a && iv_OpenStart b |} in
  match iv_To out with
  | Some e => if negb (iv_From out <? e) then None else Some out
  | None => Some out
  end.

(** The [less] of [normalizeIntervals]. *)
Definition iv_less (a b : Interval) : bool :=
  if negb (iv_From a =? iv_From b) then iv_From a <? iv_From b
  else iv_OpenStart a && negb (iv_OpenStart b).

(** The interval [last] extended by [iv] (the body of the merging loop). *)
Definition iv_extend (last iv : Interval) : Interval :=
  {| iv_From := iv_From last;
     iv_To := match iv_To last, iv_To iv with
              | None, _ => None
              | Some _, None => None
              | Some e, Some e' => if e <? e' then Some e' else Some e
              end;
     iv_OpenStart := (iv_OpenStart last) || ((iv_From iv =? iv_From last) && iv_OpenStart iv) |}.

(** [last.To == nil || !iv.From.After of last.To]. *)
Definition iv_touches (last iv : Interval) : bool :=
  match iv_To last with None => true | Some e => negb (e <? iv_From iv) end.

Fixpoint merge_run (last : Interval) (ivs : list Interval) : list Interval :=
  match ivs with
  | [] => [last]
  | iv :: ivs =>
      if iv_touches last iv then merge_run (iv_extend last iv) ivs
      else last :: merge_run iv ivs
  end.

(* src: internal/igagov/qualify.go:116-142 (normalizeIntervals) *)
Definition normalizeIntervals (l : list Interval) : list Interval :=
  match sort_slice iv_less l with
  | [] => []
  | iv :: ivs => merge_run iv ivs
  end.

(** One step of [PathIntervals]: the pairwise intersections. *)
Definition intersect_all (acc comp : list Interval) : list Interval :=
  a ← acc; b ← normalizeIntervals comp; option_list (intersect a b).

(* src: internal/igagov/qualify.go:93-110 (PathIntervals) *)
Definition PathIntervals (p : GrantPath) : list Interval :=
  match gp_Components p with
  | [] => []
  | c :: cs =>
      foldl (fun acc comp => normalizeIntervals (intersect_all acc comp))
            (normalizeIntervals c) cs
  end.

(* src: internal/igagov/qualify.go:145-151 (GrantedIntervals) *)
Definition GrantedIntervals (paths : list GrantPath) : list Interval :=
  normalizeIntervals (paths ≫= PathIntervals).

(* src: internal/igagov/qualify.go:155-162 (CurrentGrant) *)
Definition CurrentGrant (paths : list GrantPath) (at_ : Time) : option Interval :=
  snd <$> list_find (fun iv => contains iv at_ = true) (GrantedIntervals paths).

(* src: internal/igagov/qualify.go:168-178 (VerifiedGrantFrom) *)
Definition VerifiedGrantFrom (paths : list GrantPath) (at_ : Time)
    : option Time * string * bool :=
  match CurrentGrant paths at_ with
  | None => (None, GrantAgeUnknown, false)
  | Some cur =>
      if iv_OpenStart cur then (None, GrantAgePredatesObservation, true)
      else (Some (iv_From cur), GrantAgeObservedSinceChange, true)
  end.

(** * Qualification *)

(* src: internal/igagov/qualify.go:181-200 (QualifyInput) *)
Record QualifyInput := {
  qi_Service : string;
  qi_ReportGeneratedAt : Time;
  qi_LastAuthenticatedAt : option Time;
  qi_RoleCreatedAt : Time;
  qi_TrackingFrom : option Time;
  qi_TrackingReason : string;
  qi_RequestedWindowDays : Z;
  qi_Paths : list GrantPath;
  qi_At : Time
}.

(* src: internal/igagov/qualify.go:204-220 (Qualification) *)
Record Qualification := {
  q_Service : string;
  q_Outcome : string;
  q_Reason : string;
  q_ReportGeneratedAt : Time;
  q_LastAuthenticatedAt : option Time;
  q_CoveredUntil : Time;
  q_CoverageStart : Time;
  q_RoleFrom : Time;
  q_TrackingFrom : option Time;
  q_RequestedWindowDays : Z;
  q_VerifiedGrantFrom : option Time;
  q_GrantAgeBasis : string;
  q_WindowStart : Time;
  q_QualifiedDays : Z;
  q_Confidence : string
}.

(* src: internal/igagov/qualify.go:223-233 (ClampWindowDays) *)
Definition ClampWindowDays (d : Z) : Z :=
  if d =? 0 then DefaultWindowDays
  else if d <? MinWindowDays then MinWindowDays
  else if MaxWindowDays <? d then MaxWindowDays
  else d.

(* src: internal/igagov/qualify.go:235-243 (maxTime) *)
Definition maxTime (t : Time) (ts : list Time) : Time :=
  foldl (fun m t => if m <? t then t else m) t ts.

(* src: internal/igagov/qualify.go:246-251 (wholeDays) *)
Definition wholeDays (d : Z) : Z :=
  if d <=? 0 then 0 else d / (24 * Hour).

(* src: internal/igagov/qualify.go:265-319 (Qualify) *)
Definition Qualify (i : QualifyInput) : Qualification :=
  let window := ClampWindowDays (qi_RequestedWindowDays i) in
  let covered_until := qi_ReportGeneratedAt i - ReportingLag in
  let window_floor := covered_until - window * (24 * Hour) in
  let coverage_start :=
    match qi_TrackingFrom i with
    | Some tf => maxTime window_floor [qi_RoleCreatedAt i; tf]
    | None => maxTime window_floor [qi_RoleCreatedAt i]
    end in
  let '(from, basis, ok) := VerifiedGrantFrom (qi_Paths i) (qi_At i) in
  let window_start :=
    match from with
    | Some f => if coverage_start <? f then f else coverage_start
    | None => coverage_start
    end in
  let days := wholeDays (time_sub covered_until window_start) in
  let q outcome reason confidence :=
    {| q_Service := qi_Service i; q_Outcome := outcome; q_Reason := reason;
       q_ReportGeneratedAt := qi_ReportGeneratedAt i;
       q_LastAuthenticatedAt := qi_LastAuthenticatedAt i;
       q_CoveredUntil := covered_until; q_CoverageStart := coverage_start;
       q_RoleFrom := qi_RoleCreatedAt i; q_TrackingFrom := qi_TrackingFrom i;
       q_RequestedWindowDays := window; q_VerifiedGrantFrom := from;
       q_GrantAgeBasis := basis; q_WindowStart := window_start;
       q_QualifiedDays := days; q_Confidence := confidence |} in
  if negb ok then
    q QualUnreviewed "grant_path_not_reconstructable" ConfidenceNotApplicable
  else match qi_TrackingFrom i with
  | None =>
      q QualUnreviewed
        (if is_empty (qi_TrackingReason i) then "service_not_in_tracking_catalog"
         else qi_TrackingReason i)
        ConfidenceNotApplicable
  | Some _ =>
      let confidence :=
        if (basis =? GrantAgeObservedSinceChange)%string then ConfidenceQualified
        else ConfidenceAgeUnverified in
      let attempted :=
        match qi_LastAuthenticatedAt i with
        | Some t => negb (t <? window_start)
        | None => false
        end in
      if attempted then q QualObserved "" ConfidenceNotApplicable
      else if days <? MinQualifiedDays then q QualNotEnoughHistory "" ConfidenceNotApplicable
      else q QualNoAttempt "" confidence
  end.

(** * What the intervals denote *)

(** The instants a list of intervals covers. *)
Definition covers (l : list Interval) (t : Time) : Prop :=
  exists iv, iv ∈ l /\ contains iv t = true.

(** A path holds at [t] when it has components and each of them does; the
    service is granted when some path holds. *)
Definition path_holds (p : GrantPath) (t : Time) : Prop :=
  gp_Components p <> [] /\ Forall (fun c => covers c t) (gp_Components p).

Definition granted (paths : list GrantPath) (t : Time) : Prop :=
  exists p, p ∈ paths /\ path_holds p t.

(** Consecutive intervals leave a gap. *)
Definition before_gap (a b : Interval) : Prop :=
  match iv_To a with Some e => e < iv_From b | None => False end.

Lemma contains_spec iv t :
  contains iv t = true <->
  iv_From iv <= t /\ match iv_To iv with Some e => t < e | None => True end.
Proof. unfold contains. destruct (iv_To iv); lia. Qed.

Lemma covers_nil t : ~ covers [] t.
Proof. intros (iv & Hiv & _). by apply not_elem_of_nil in Hiv. Qed.

Lemma covers_cons iv l t : covers (iv :: l) t <-> contains iv t = true \/ covers l t.
Proof.
  unfold covers. setoid_rewrite elem_of_cons. naive_solver.
Qed.

Lemma covers_app l k t : covers (l ++ k) t <-> covers l t \/ covers k t.
Proof. unfold covers. setoid_rewrite elem_of_app. naive_solver. Qed.

#[export] Instance covers_perm : Proper ((≡ₚ) ==> eq ==> iff) covers.
Proof. intros l k H t ? <-. unfold covers. by setoid_rewrite H. Qed.

Lemma covers_bind {A} (f : A -> list Interval) l t :
  covers (l ≫= f) t <-> exists x, x ∈ l /\ covers (f x) t.
Proof. unfold covers. setoid_rewrite list_elem_of_bind. naive_solver. Qed.

Lemma intersect_spec a b t :
  covers (option_list (intersect a b)) t <-> contains a t = true /\ contains b t = true.
Proof.
  unfold covers, intersect. rewrite !contains_spec. cbn.
  destruct a as [af [ae|] ao], b as [bf [be|] bo]; cbn.
  all: try destruct (ae <? be) eqn:?; destruct (af <? bf) eqn:?; cbn.
  all: try match goal with |- context [negb ?c] => destruct c eqn:? end; cbn.
  all: setoid_rewrite contains_spec; bool_prop.
  all: split; [intros (iv & Hiv & H); try (by apply not_elem_of_nil in Hiv);
               apply list_elem_of_singleton in Hiv as ->; cbn in H; lia
              | intros ((? & ?) & ? & ?);
                try (eexists; split; [by apply list_elem_of_singleton|]; cbn); lia ].
Qed.

#[export] Instance iv_less_weak : StrictWeak iv_less.
Proof.
  split; intros [x ? []] [y ? []]; try intros [z ? []]; unfold iv_less; cbn;
    repeat match goal with |- context [?a =? ?b] => destruct (Z.eqb_spec a b) end; cbn; lia.
Qed.

Lemma iv_sorted_from l :
  StronglySorted (not_after iv_less) l ->
  StronglySorted (fun a b => iv_From a <= iv_From b) l.
Proof.
  induction 1 as [|x l _ IH Hx]; constructor; [done|].
  eapply Forall_impl; [exact Hx|]. intros y. unfold not_after, iv_less.
  destruct (Z.eqb_spec (iv_From y) (iv_From x)); cbn; lia.
Qed.

(** ** Merging *)

Lemma iv_extend_contains last iv t :
  iv_touches last iv = true -> iv_From last <= iv_From iv ->
  contains (iv_extend last iv) t = true <-> contains last t = true \/ contains iv t = true.
Proof.
  rewrite !contains_spec. unfold iv_touches, iv_extend. cbn.
  destruct (iv_To last) as [e|], (iv_To iv) as [e'|]; try destruct (e <? e') eqn:?;
    bool_prop; lia.
Qed.

Abbreviation from_after x := (Forall (fun iv : Interval => x <= iv_From iv)).

Lemma merge_run_covers last ivs t :
  from_after (iv_From last) ivs ->
  StronglySorted (fun a b => iv_From a <= iv_From b) ivs ->
  covers (merge_run last ivs) t <-> contains last t = true \/ covers ivs t.
Proof.
  revert last. induction ivs as [|iv ivs IH]; intros last Hf Hs; cbn.
  - by rewrite covers_cons.
  - apply Forall_cons in Hf as [Hf Hfs]. apply StronglySorted_inv in Hs as [Hs Hiv].
    rewrite covers_cons. destruct (iv_touches last iv) eqn:Ht.
    + rewrite IH by done. rewrite iv_extend_contains by done. tauto.
    + rewrite covers_cons, IH by done. tauto.
Qed.

Lemma merge_run_from last ivs :
  exists e o rest, merge_run last ivs = {| iv_From := iv_From last; iv_To := e; iv_OpenStart := o |} :: rest.
Proof.
  revert last. induction ivs as [|iv ivs IH]; intros [f e o]; cbn; [by eauto|].
  destruct (iv_touches _ iv); [|by eauto].
  destruct (IH (iv_extend {| iv_From := f; iv_To := e; iv_OpenStart := o |} iv)) as (e' & o' & r & ->).
  cbn. eauto.
Qed.

Lemma merge_run_from_after x last ivs :
  x <= iv_From last -> from_after x ivs -> from_after x (merge_run last ivs).
Proof.
  revert last. induction ivs as [|iv ivs IH]; intros last Hl Hf; cbn.
  - by repeat constructor.
  - apply Forall_cons in Hf as [Hf Hfs].
    destruct (iv_touches last iv); [by apply IH|]. constructor; [done|]. by apply IH.
Qed.

Lemma merge_run_gaps last ivs :
  from_after (iv_From last) ivs ->
  StronglySorted (fun a b => iv_From a <= iv_From b) ivs ->
  StronglySorted before_gap (merge_run last ivs).
Proof.
  revert last. induction ivs as [|iv ivs IH]; intros last Hf Hs; cbn.
  - repeat constructor.
  - apply Forall_cons in Hf as [Hf Hfs]. apply StronglySorted_inv in Hs as [Hs Hiv].
    destruct (iv_touches last iv) eqn:Ht; [by apply IH|].
    constructor; [by apply IH|]. unfold iv_touches in Ht. unfold before_gap.
    destruct (iv_To last) as [e|]; [|done]. bool_prop.
    eapply (Forall_impl (fun b => iv_From iv <= iv_From b)).
    + by apply merge_run_from_after.
    + intros b. cbn. lia.
Qed.

Lemma normalize_inv l :
  normalizeIntervals l = [] /\ l = [] \/
  exists iv ivs, normalizeIntervals l = merge_run iv ivs /\ l ≡ₚ iv :: ivs /\
    from_after (iv_From iv) ivs /\ StronglySorted (fun a b => iv_From a <= iv_From b) ivs.
Proof.
  unfold normalizeIntervals. pose proof (sort_slice_sorted iv_less l) as Hs.
  pose proof (sort_slice_perm iv_less l) as Hp.
  destruct (sort_slice iv_less l) as [|iv ivs]; [left; split; [done|]; by apply Permutation_nil_l in Hp|].
  right. exists iv, ivs. apply iv_sorted_from, StronglySorted_inv in Hs as [Hs Hf].
  symmetry in Hp. auto.
Qed.

(** Normalising keeps exactly the instants covered. *)
Lemma normalize_covers l t : covers (normalizeIntervals l) t <-> covers l t.
Proof.
  destruct (normalize_inv l) as [[-> ->]|(iv & ivs & -> & Hp & Hf & Hs)]; [done|].
  rewrite merge_run_covers by done. rewrite Hp, covers_cons. done.
Qed.

(** The result is a list of runs separated by gaps. *)
Lemma normalize_gaps l : StronglySorted before_gap (normalizeIntervals l).
Proof.
  destruct (normalize_inv l) as [[-> ->]|(iv & ivs & -> & Hp & Hf & Hs)]; [constructor|].
  by apply merge_run_gaps.
Qed.

(** ** Paths *)

Lemma intersect_all_covers acc comp t :
  covers (intersect_all acc comp) t <-> covers acc t /\ covers comp t.
Proof.
  unfold intersect_all. rewrite covers_bind. setoid_rewrite covers_bind.
  setoid_rewrite intersect_spec. rewrite <- (normalize_covers comp).
  unfold covers. naive_solver.
Qed.

Lemma path_fold_covers acc cs t :
  covers (foldl (fun acc comp => normalizeIntervals (intersect_all acc comp)) acc cs) t <->
  covers acc t /\ Forall (fun c => covers c t) cs.
Proof.
  revert acc. induction cs as [|c cs IH]; intros acc; cbn.
  - split; [by intros|by intros [? _]].
  - rewrite IH, normalize_covers, intersect_all_covers, Forall_cons. tauto.
Qed.

Lemma PathIntervals_spec p t : covers (PathIntervals p) t <-> path_holds p t.
Proof.
  unfold PathIntervals, path_holds. destruct (gp_Components p) as [|c cs].
  - split; [by intros ?%covers_nil|]. by intros [? _].
  - rewrite path_fold_covers, normalize_covers, Forall_cons. naive_solver.
Qed.

Lemma GrantedIntervals_spec paths t : covers (GrantedIntervals paths) t <-> granted paths t.
Proof.
  unfold GrantedIntervals, granted. rewrite normalize_covers, covers_bind.
  by setoid_rewrite PathIntervals_spec.
Qed.

(** ** The current grant *)

Lemma CurrentGrant_None paths t : CurrentGrant paths t = None <-> ~ granted paths t.
Proof.
  rewrite <- GrantedIntervals_spec. unfold CurrentGrant, covers.
  rewrite fmap_None, list_find_None, Forall_forall. naive_solver.
Qed.

Lemma CurrentGrant_Some paths t iv :
  CurrentGrant paths t = Some iv -> iv ∈ GrantedIntervals paths /\ contains iv t = true.
Proof.
  unfold CurrentGrant. intros ([i iv'] & (Hi & ? & _)%list_find_Some & ->)%fmap_Some.
  split; [|done]. by apply list_elem_of_lookup_2 in Hi.
Qed.

Lemma gaps_maximal l iv :
  StronglySorted before_gap l -> iv ∈ l ->
  (exists t, contains iv t = true) ->
  ~ covers l (iv_From iv - 1) /\
  match iv_To iv with Some e => ~ covers l e | None => True end.
Proof.
  induction 1 as [|x l Hl IH Hx]; intros Hiv (t & Ht).
  { by apply not_elem_of_nil in Hiv. }
  rewrite Forall_forall in Hx. rewrite contains_spec in Ht.
  apply elem_of_cons in Hiv as [->|Hiv].
  - assert (forall b, b ∈ l -> iv_From x - 1 < iv_From b /\
              match iv_To x with Some e => e < iv_From b | None => False end) as Hb.
    { intros b Hb. specialize (Hx _ Hb). unfold before_gap in Hx.
      destruct (iv_To x); [lia|done]. }
    split; [|destruct (iv_To x) as [e|] eqn:E; [|done]];
      (intros (b & Hin & Hc); rewrite contains_spec in Hc;
       apply elem_of_cons in Hin as [->|Hin];
       [rewrite ?E in *|specialize (Hb _ Hin)]; lia).
  - destruct IH as [IH1 IH2]; [done|exists t; by rewrite contains_spec|].
    specialize (Hx _ Hiv). unfold before_gap in Hx. destruct (iv_To x) as [e|] eqn:E; [|done].
    split; [|destruct (iv_To iv) as [e'|] eqn:E'; [|done]];
      (rewrite covers_cons, contains_spec, E; intros [?|?]; [lia|done]).
Qed.

(** Every path whose components all hold from [iv_From cur] on was merged into
    the current grant: the current grant is the maximal run of granted
    instants around [t]. *)
Lemma CurrentGrant_maximal paths t cur :
  CurrentGrant paths t = Some cur ->
  (forall u, contains cur u = true -> granted paths u) /\
  ~ granted paths (iv_From cur - 1) /\
  match iv_To cur with Some e => ~ granted paths e | None => True end.
Proof.
  intros (Hin & Hc)%CurrentGrant_Some.
  destruct (gaps_maximal (GrantedIntervals paths) cur) as [H1 H2];
    [apply normalize_gaps|done|by eauto|].
  rewrite GrantedIntervals_spec in H1. split_and!.
  - intros u Hu. apply GrantedIntervals_spec. by exists cur.
  - done.
  - destruct (iv_To cur); [|done]. by rewrite GrantedIntervals_spec in H2.
Qed.

(** ** Open starts *)

(** An interval that covers at least one instant, as a row with a validity
    range does. *)
Definition iv_ok (iv : Interval) : Prop :=
  match iv_To iv with Some e => iv_From iv < e | None => True end.

Lemma iv_ok_contains iv : iv_ok iv -> contains iv (iv_From iv) = true.
Proof. unfold iv_ok. rewrite contains_spec. destruct (iv_To iv); lia. Qed.

Lemma merge_run_ok last ivs :
  iv_ok last -> Forall iv_ok ivs -> Forall iv_ok (merge_run last ivs).
Proof.
  revert last. induction ivs as [|iv ivs IH]; intros last Hl Hf; cbn; [by constructor|].
  apply Forall_cons in Hf as [Hf Hfs].
  destruct (iv_touches last iv); [|constructor; [done|by apply IH]].
  apply IH; [|done]. unfold iv_ok, iv_extend in *. cbn.
  destruct (iv_To last) as [e|], (iv_To iv) as [e'|]; try destruct (e <? e') eqn:?;
    bool_prop; lia.
Qed.

(** An interval swallowed by [last] starts no run of the result. *)
Lemma merge_run_swallowed last y ivs iv :
  from_after (iv_From last) (y :: ivs) ->
  StronglySorted (fun a b => iv_From a <= iv_From b) (y :: ivs) ->
  iv_ok last -> iv_ok y -> Forall iv_ok ivs -> iv_touches last y = true ->
  iv ∈ merge_run (iv_extend last y) ivs ->
  iv_From y = iv_From iv -> iv_From y = iv_From last.
Proof.
  intros [Hf Hfs]%Forall_cons [Hs _]%StronglySorted_inv Hl Hy Hok Ht Hiv Heq.
  destruct (Z.eq_dec (iv_From y) (iv_From last)) as [|Hne]; [done|exfalso].
  pose proof (merge_run_ok last (y :: ivs) Hl (Forall_cons_2 _ _ _ Hy Hok)) as Hall.
  cbn in Hall. rewrite Ht, Forall_forall in Hall. specialize (Hall _ Hiv).
  destruct (gaps_maximal (merge_run (iv_extend last y) ivs) iv) as [Hmax _];
    [by apply merge_run_gaps|done|by eauto using iv_ok_contains|].
  apply Hmax, merge_run_covers; [done..|]. left. apply iv_extend_contains; [done..|].
  rewrite !contains_spec. unfold iv_touches, iv_ok in *.
  destruct (iv_To last), (iv_To y); bool_prop; lia.
Qed.

Lemma merge_run_open last ivs iv :
  from_after (iv_From last) ivs ->
  StronglySorted (fun a b => iv_From a <= iv_From b) ivs ->
  iv_ok last -> Forall iv_ok ivs -> iv ∈ merge_run last ivs ->
  iv_OpenStart iv = true <->
  exists x, x ∈ last :: ivs /\ iv_From x = iv_From iv /\ iv_OpenStart x = true.
Proof.
  revert last. induction ivs as [|y ivs IH]; intros last Hf Hs Hl Hok; cbn.
  - rewrite list_elem_of_singleton. intros ->. setoid_rewrite list_elem_of_singleton. naive_solver.
  - intros Hiv. pose proof (merge_run_swallowed last y ivs iv Hf Hs Hl) as Hsw.
    apply Forall_cons in Hf as [Hf Hfs], Hok as [Hy Hok].
    apply StronglySorted_inv in Hs as [Hs Hys]. setoid_rewrite elem_of_cons.
    destruct (iv_touches last y) eqn:Ht.
    + assert (iv_ok (iv_extend last y)) as Hxo.
      { apply Forall_cons_1 with (l:=[]). apply (merge_run_ok last [y]) in Hl as Hr; [|by constructor].
        cbn in Hr. by rewrite Ht in Hr. }
      rewrite (IH (iv_extend last y)) by done. setoid_rewrite elem_of_cons.
      change (iv_OpenStart (iv_extend last y)) with
        (iv_OpenStart last || ((iv_From y =? iv_From last) && iv_OpenStart y)).
      split.
      * intros (x & [->|Hx] & Hfr & Ho); [|by eauto 6]. cbn in Hfr, Ho.
        apply orb_true_iff in Ho as [Ho|[Heq%Z.eqb_eq Ho]%andb_prop]; [by eauto 6|].
        exists y. split_and!; [auto|lia|done].
      * intros (x & [->|[->|Hx]] & Hfr & Ho); [..|by eauto 6].
        { exists (iv_extend last y). split_and!; [auto|done|]. cbn. by rewrite Ho. }
        assert (iv_From y = iv_From last) as Heq by by apply Hsw.
        exists (iv_extend last y). split_and!; [auto|cbn; congruence|].
        cbn. rewrite Heq, Z.eqb_refl, Ho. apply orb_true_r.
    + assert (iv_From last < iv_From y) as Hlt.
      { unfold iv_touches, iv_ok in *. destruct (iv_To last); [|done]. bool_prop. lia. }
      apply elem_of_cons in Hiv as [->|Hiv].
      * split; [by eauto|]. intros (x & [->|[->|Hx]%elem_of_cons] & Hfr & Ho); [done|lia|].
        rewrite Forall_forall in Hys. specialize (Hys _ Hx). lia.
      * rewrite (IH y Hys Hs Hy Hok Hiv). setoid_rewrite elem_of_cons.
        split; [naive_solver|]. intros (x & [->|Hx] & Hfr & Ho); [|by eauto].
        assert (from_after (iv_From y) (merge_run y ivs)) as Hfa by by apply merge_run_from_after.
        rewrite Forall_forall in Hfa. specialize (Hfa _ Hiv). lia.
Qed.

Lemma normalize_open l iv :
  Forall iv_ok l -> iv ∈ normalizeIntervals l ->
  iv_OpenStart iv = true <->
  exists x, x ∈ l /\ iv_From x = iv_From iv /\ iv_OpenStart x = true.
Proof.
  intros Hok. destruct (normalize_inv l) as [[-> ->]|(iv' & ivs & -> & Hp & Hf & Hs)].
  { by intros ?%not_elem_of_nil. }
  rewrite Hp in Hok. apply Forall_cons in Hok as [??]. intros ?.
  setoid_rewrite Hp. by apply merge_run_open.
Qed.

(** ** The window *)

Lemma ClampWindowDays_bounds d : MinWindowDays <= ClampWindowDays d <= MaxWindowDays.
Proof.
  unfold ClampWindowDays, DefaultWindowDays, MinWindowDays, MaxWindowDays.
  repeat case_match; bool_prop; lia.
Qed.

Lemma maxTime_ge t ts u : u ∈ t :: ts -> u <= maxTime t ts.
Proof.
  revert t u. induction ts as [|x ts IH]; intros t u; cbn.
  - rewrite list_elem_of_singleton. by intros ->.
  - intros Hu. unfold maxTime in IH. assert (t <= if t <? x then x else t) by (case_match; bool_prop; lia).
    assert (x <= if t <? x then x else t) by (case_match; bool_prop; lia).
    apply elem_of_cons in Hu as [->|Hu].
    + etrans; [|apply IH; left]. done.
    + apply elem_of_cons in Hu as [->|Hu]; [etrans; [|apply IH; left]; done|].
      apply IH. by right.
Qed.

Lemma wholeDays_ge d n : 0 < n -> n <= wholeDays d <-> n * (24 * Hour) <= d.
Proof.
  intros Hn. unfold wholeDays, Hour. case_match; bool_prop; [lia|].
  pose proof (Z.div_mod d (24 * (3600 * 1000000000))) as Hd.
  pose proof (Z.mod_pos_bound d (24 * (3600 * 1000000000))). nia.
Qed.

Lemma wholeDays_nonneg d : 0 <= wholeDays d.
Proof. unfold wholeDays, Hour. destruct (Z.leb_spec d 0); [lia|]. apply Z.div_pos; lia. Qed.

(** Every field of a qualification but the verdict. *)
Lemma Qualify_fields i :
  let q := Qualify i in
  let '(from, basis, ok) := VerifiedGrantFrom (qi_Paths i) (qi_At i) in
  q_RequestedWindowDays q = ClampWindowDays (qi_RequestedWindowDays i) /\
  q_CoveredUntil q = qi_ReportGeneratedAt i - ReportingLag /\
  q_VerifiedGrantFrom q = from /\ q_GrantAgeBasis q = basis /\
  q_WindowStart q = (match from with
                     | Some f => if q_CoverageStart q <? f then f else q_CoverageStart q
                     | None => q_CoverageStart q end) /\
  q_QualifiedDays q = wholeDays (time_sub (q_CoveredUntil q) (q_WindowStart q)) /\
  q_CoverageStart q =
    maxTime (q_CoveredUntil q - q_RequestedWindowDays q * (24 * Hour))
      (qi_RoleCreatedAt i :: option_list (qi_TrackingFrom i)).
Proof.
  cbn zeta. unfold Qualify. destruct (VerifiedGrantFrom _ _) as [[from basis] ok].
  destruct (negb ok); [by destruct (qi_TrackingFrom i)|].
  destruct (qi_TrackingFrom i) as [tf|]; [|done].
  match goal with |- context [if ?c then _ else _] => destruct c end; [done|].
  match goal with |- context [if ?c then _ else _] => destruct c end; done.
Qed.

(** The verdict as a function of the window. *)
Lemma Qualify_outcome i :
  let q := Qualify i in
  q_Outcome q =
    match CurrentGrant (qi_Paths i) (qi_At i), qi_TrackingFrom i with
    | None, _ | _, None => QualUnreviewed
    | Some _, Some _ =>
        if match qi_LastAuthenticatedAt i with
           | Some t => negb (t <? q_WindowStart q) | None => false end
        then QualObserved
        else if q_QualifiedDays q <? MinQualifiedDays then QualNotEnoughHistory
        else QualNoAttempt
    end.
Proof.
  unfold Qualify, VerifiedGrantFrom.
  destruct (CurrentGrant (qi_Paths i) (qi_At i)) as [cur|]; [|done].
  destruct (iv_OpenStart cur); cbn zeta; cbn [negb];
    (destruct (qi_TrackingFrom i) as [tf|]; [|done]);
    repeat (case_match; try done); cbn in *; congruence.
Qed.

Lemma Qualify_window i :
  let q := Qualify i in
  q_CoveredUntil q - q_RequestedWindowDays q * (24 * Hour) <= q_WindowStart q /\
  qi_RoleCreatedAt i <= q_WindowStart q /\
  (forall tf, qi_TrackingFrom i = Some tf -> tf <= q_WindowStart q) /\
  (forall f, q_VerifiedGrantFrom q = Some f -> f <= q_WindowStart q) /\
  (forall n, 0 < n -> n <= q_QualifiedDays q <->
                      n * (24 * Hour) <= q_CoveredUntil q - q_WindowStart q).
Proof.
  pose proof (Qualify_fields i) as H. cbn zeta in *.
  destruct (VerifiedGrantFrom _ _) as [[from basis] ok].
  destruct H as (Hw & Hc & Hf & Hb & Hs & Hd & Hcs).
  pose proof (ClampWindowDays_bounds (qi_RequestedWindowDays i)) as Hcl.
  unfold MinWindowDays, MaxWindowDays in Hcl. rewrite <- Hw in Hcl.
  assert (q_CoverageStart (Qualify i) <= q_WindowStart (Qualify i)) as Hle.
  { rewrite Hs. destruct from; [|lia]. case_match; bool_prop; lia. }
  assert (forall u, u ∈ (q_CoveredUntil (Qualify i) - q_RequestedWindowDays (Qualify i) * (24 * Hour))
                       :: qi_RoleCreatedAt i :: option_list (qi_TrackingFrom i) ->
          u <= q_WindowStart (Qualify i)) as Hmax.
  { intros u Hu%maxTime_ge. rewrite <- Hcs in Hu. lia. }
  split_and!.
  - apply Hmax. left.
  - apply Hmax. right. left.
  - intros tf Htf. apply Hmax. rewrite Htf. cbn. set_solver.
  - intros f Hf'. rewrite Hs, <- Hf, Hf'.
    destruct (Z.ltb_spec (q_CoverageStart (Qualify i)) f); lia.
  - intros n Hn. rewrite Hd, wholeDays_ge by done.
    assert (q_CoveredUntil (Qualify i) - q_RequestedWindowDays (Qualify i) * (24 * Hour)
              <= q_WindowStart (Qualify i)) by (apply Hmax; left).
    unfold Hour in *. unfold time_sub. nia.
Qed.

(** * Properties *)

(** [normalizeIntervals] keeps exactly the covered instants, returns runs in
    order separated by gaps, and (for rows with a non-empty validity range) a run
    is open-start exactly when some interval starting where the run starts is. *)
Theorem normalize_correct l :
  Forall iv_ok l ->
  (forall t, covers (normalizeIntervals l) t <-> covers l t) /\
  StronglySorted before_gap (normalizeIntervals l) /\
  (forall iv, iv ∈ normalizeIntervals l ->
     iv_OpenStart iv = true <->
     exists x, x ∈ l /\ iv_From x = iv_From iv /\ iv_OpenStart x = true).
Proof.
  intros Hok. split_and!; [apply normalize_covers|apply normalize_gaps|].
  intros iv. by apply normalize_open.
Qed.

(** Two touching revisions and a later one: one merged run and a second run. *)
Lemma normalize_correct_witness :
  let l := [{| iv_From := 20; iv_To := None; iv_OpenStart := false |};
            {| iv_From := 5; iv_To := Some 9; iv_OpenStart := false |};
            {| iv_From := 0; iv_To := Some 5; iv_OpenStart := true |}] in
  normalizeIntervals l =
    [{| iv_From := 0; iv_To := Some 9; iv_OpenStart := true |};
     {| iv_From := 20; iv_To := None; iv_OpenStart := false |}] /\
  (forall t, covers (normalizeIntervals l) t <-> covers l t).
Proof.
  intros l. split; [reflexivity|].
  apply (normalize_correct l). repeat constructor.
Defined.

(** [CurrentGrant] decides whether the service is granted at the evaluation
    time — some grant path has every component holding — and returns the maximal
    run of granted instants around it: granted throughout, not granted just
    before its start nor at its end. *)
Theorem current_grant_maximal_run paths at_ :
  match CurrentGrant paths at_ with
  | None => ~ granted paths at_
  | Some cur =>
      contains cur at_ = true /\
      (forall t, contains cur t = true -> granted paths t) /\
      ~ granted paths (iv_From cur - 1) /\
      match iv_To cur with Some e => ~ granted paths e | None => True end
  end.
Proof.
  destruct (CurrentGrant paths at_) as [cur|] eqn:E.
  - split; [by apply CurrentGrant_Some in E as [_ ?]|]. by apply CurrentGrant_maximal in E.
  - by apply CurrentGrant_None.
Qed.

(** C28 The verdict of [Qualify]: a service is reported unused ([no_attempt])
    exactly when some grant path holds at the evaluation time, the service is
    tracked, the covered window is at least 30 whole days and no attempt is
    reported inside it; an attempt in the window makes it [observed]; a missing
    grant path or tracking start makes it [unreviewed]. *)
Theorem qualify_verdict i :
  let q := Qualify i in
  let attempt := exists t, qi_LastAuthenticatedAt i = Some t /\ q_WindowStart q <= t in
  let reviewable := granted (qi_Paths i) (qi_At i) /\ is_Some (qi_TrackingFrom i) in
  let long := MinQualifiedDays * (24 * Hour) <= q_CoveredUntil q - q_WindowStart q in
  (q_Outcome q = QualUnreviewed <-> ~ reviewable) /\
  (q_Outcome q = QualObserved <-> reviewable /\ attempt) /\
  (q_Outcome q = QualNotEnoughHistory <-> reviewable /\ ~ attempt /\ ~ long) /\
  (q_Outcome q = QualNoAttempt <-> reviewable /\ ~ attempt /\ long).
Proof.
  cbn zeta. pose proof (Qualify_outcome i) as Ho. cbn zeta in Ho.
  destruct (Qualify_window i) as (_ & _ & _ & _ & Hdays).
  specialize (Hdays MinQualifiedDays ltac:(done)).
  pose proof (CurrentGrant_None (qi_Paths i) (qi_At i)) as Hg.
  destruct (CurrentGrant (qi_Paths i) (qi_At i)) as [cur|] eqn:Ec.
  2:{ rewrite Ho. assert (~ granted (qi_Paths i) (qi_At i)) by by apply Hg.
      split_and!; split; (tauto || done). }
  assert (granted (qi_Paths i) (qi_At i)) as Hgr.
  { apply GrantedIntervals_spec. apply CurrentGrant_Some in Ec as [??]. by exists cur. }
  destruct (qi_TrackingFrom i) as [tf|].
  2:{ rewrite Ho. assert (~ is_Some (@None Time)) by by intros []%is_Some_None.
      split_and!; split; (tauto || done). }
  assert (is_Some (Some tf)) by done.
  destruct (qi_LastAuthenticatedAt i) as [t|] eqn:Et.
  - destruct (negb (t <? q_WindowStart (Qualify i))) eqn:Ea; bool_prop.
    + assert (exists t0, Some t = Some t0 /\ q_WindowStart (Qualify i) <= t0) by by eauto.
      rewrite Ho. split_and!; split; (tauto || done).
    + assert (~ exists t0, Some t = Some t0 /\ q_WindowStart (Qualify i) <= t0)
        by (intros (? & [= <-] & ?); lia).
      destruct (Z.ltb_spec (q_QualifiedDays (Qualify i)) MinQualifiedDays); rewrite Ho;
        split_and!; split; (done || lia || (intros; split_and!; tauto || lia) || (intros; exfalso; lia)|| tauto).
  - assert (~ exists t0, @None Time = Some t0 /\ q_WindowStart (Qualify i) <= t0) by (by intros (? & ? & ?)).
    destruct (Z.ltb_spec (q_QualifiedDays (Qualify i)) MinQualifiedDays); rewrite Ho;
        split_and!; split; (done || lia || (intros; split_and!; tauto || lia) || (intros; exfalso; lia)|| tauto).
Qed.

(** C38 The window [Qualify] judges: it lies within the requested 30..400 days,
    starts no earlier than the role, the tracking start and a verified grant
    start, its length is at most the requested window, and when the grant start is
    verified the service was granted at every instant from it to the evaluation
    time and not just before it. *)
Theorem qualify_window_sound i :
  let q := Qualify i in
  MinWindowDays <= q_RequestedWindowDays q <= MaxWindowDays /\
  0 <= q_QualifiedDays q <= q_RequestedWindowDays q /\
  qi_RoleCreatedAt i <= q_WindowStart q /\
  (forall tf, qi_TrackingFrom i = Some tf -> tf <= q_WindowStart q) /\
  (forall f, q_VerifiedGrantFrom q = Some f ->
     f <= q_WindowStart q /\
     (forall t, f <= t <= qi_At i -> granted (qi_Paths i) t) /\
     ~ granted (qi_Paths i) (f - 1)).
Proof.
  cbn zeta. pose proof (Qualify_fields i) as H. cbn zeta in H.
  destruct (Qualify_window i) as (Hfloor & Hrole & Htf & Hvf & Hdays). cbn zeta in *.
  pose proof (ClampWindowDays_bounds (qi_RequestedWindowDays i)) as Hcl.
  destruct (VerifiedGrantFrom (qi_Paths i) (qi_At i)) as [[from basis] ok] eqn:Ev.
  destruct H as (Hw & Hc & Hf & Hb & Hs & Hd & Hcs). rewrite Hw in *.
  split_and!; try lia; [..|done|].
  - rewrite Hd. apply wholeDays_nonneg.
  - destruct (Z_lt_le_dec (ClampWindowDays (qi_RequestedWindowDays i)) (q_QualifiedDays (Qualify i)))
      as [Hlt|]; [|done].
    unfold MinWindowDays in Hcl.
    destruct (Hdays (ClampWindowDays (qi_RequestedWindowDays i) + 1)) as [Hd1 _]; [lia|].
    unfold Hour in *. lia.
  - intros f Hff. split; [by apply Hvf|]. rewrite Hf in Hff.
    unfold VerifiedGrantFrom in Ev. rewrite Hff in Ev.
    destruct (CurrentGrant _ _) as [cur|] eqn:Ec; [|done]. destruct (iv_OpenStart cur); [done|].
    injection Ev as <- _ _. pose proof (CurrentGrant_maximal _ _ _ Ec) as (Hall & Hbefore & _).
    split; [|done]. intros t Ht. apply Hall. apply CurrentGrant_Some in Ec as [_ Ec].
    clear - Ec Ht.
    rewrite contains_spec in *. destruct (iv_To cur); lia.
Qed.
