(* ===== verification/Glob.v ===== *)
(** IAM patterns (internal/igagov/canonical.go, "Action patterns and
    namespaces"): [globMatch], the iterative matcher with one backtrack point,
    and [globsIntersect], against the language a pattern denotes. *)

From stdpp Require Import base list strings.
From Stdlib Require Import Ascii.
From S2P Require Import Prelude.

#[local] Open Scope nat_scope.

Abbreviation star := "*"%char.
Abbreviation qmark := "?"%char.

(** * The matcher *)

(** The loop after the text is read: skip ['*'], then test for the end. *)
Fixpoint only_stars (p : string) : bool :=
  match p with
  | "" => true
  | String a p => bool_decide (a = star) && only_stars p
  end.

(** The loop of [globMatch]. Its state is the unread pattern [p] and text
    [t] (the suffixes at [pi] and [ti]) and the backtrack point: the pattern
    after the last ['*'] and the text at [mark]. [None] is out of fuel. *)
Fixpoint globLoop (fuel : nat) (p t : string) (bt : option (string * string)) : option bool :=
  match fuel with
  | O => None
  | S fuel =>
      match t with
      | "" => Some (only_stars p)
      | String c t' =>
          let backtrack :=
            match bt with
            | Some (sp, mk) =>
                let mk' := str_drop 1 mk in globLoop fuel sp mk' (Some (sp, mk'))
            | None => Some false
            end in
          match p with
          | String a p' =>
              if bool_decide (a = qmark) || bool_decide (a = c) then globLoop fuel p' t' bt
              else if bool_decide (a = star) then globLoop fuel p' t (Some (p', t))
              else backtrack
          | "" => backtrack
          end
      end
  end.

(** Enough iterations: the mark moves at most [|t|] times, and between two
    moves the loop reads at most [|p| + |t|] bytes. *)
Definition globFuel (p t : string) : nat :=
  S (str_length t * S (str_length p + str_length t) + str_length t + str_length p).

(* src: internal/igagov/canonical.go:1345-1368 (globMatch) *)
Definition globMatch (pattern s : string) : bool :=
  let p := ToLower pattern in
  let t := ToLower s in
  default false (globLoop (globFuel p t) p t None).

(** [rec] of [globsIntersect] on the unread suffixes of both patterns. The
    Go code memoises it by the two positions, which only grow. *)
Fixpoint globs_rec (fuel : nat) (a b : string) : bool :=
  match fuel with
  | O => false
  | S fuel =>
      match a, b with
      | "", "" => true
      | String x a', _ =>
          if bool_decide (x = star) then
            globs_rec fuel a' b ||
            match b with String _ b' => globs_rec fuel a b' | "" => false end
          else match b with
          | String y b' =>
              if bool_decide (y = star) then globs_rec fuel a b' || globs_rec fuel a' b
              else (bool_decide (x = qmark) || bool_decide (y = qmark) || bool_decide (x = y))
                   && globs_rec fuel a' b'
          | "" => false
          end
      | "", String y b' => if bool_decide (y = star) then globs_rec fuel a b' else false
      end
  end.

(* src: internal/igagov/canonical.go:1373-1399 (globsIntersect) *)
Definition globsIntersect (a b : string) : bool :=
  let a := ToLower a in
  let b := ToLower b in
  globs_rec (S (str_length a + str_length b)) a b.

(** * The language of a pattern *)

Inductive globs : string -> string -> Prop :=
  | globs_nil : globs "" ""
  | globs_star_skip p t : globs p t -> globs (String star p) t
  | globs_star_read p c t : globs (String star p) t -> globs (String star p) (String c t)
  | globs_any p c t : globs p t -> globs (String qmark p) (String c t)
  | globs_char p c t : c <> star -> c <> qmark -> globs p t -> globs (String c p) (String c t).
#[export] Hint Constructors globs : igagov.

(** [t] has no byte ['*'] (no action or namespace has). *)
Fixpoint no_star (t : string) : bool :=
  match t with "" => true | String c t => negb (bool_decide (c = star)) && no_star t end.

Lemma globs_empty p : globs p "" <-> only_stars p = true.
Proof.
  induction p as [|a p IH]; cbn.
  - split; auto with igagov.
  - split.
    + inversion 1; subst. cbn. by apply IH.
    + intros [->%bool_decide_eq_true ?]%andb_prop. constructor. by apply IH.
Qed.

Lemma globs_star p t : globs (String star p) t <-> exists l r, t = l +:+ r /\ globs p r.
Proof.
  split.
  - intros H. remember (String star p) as q eqn:Hq. revert p Hq.
    induction H as [|? t ? _|? c t ? IH|? c t ? _|? c t Hs ? ? _]; intros p' Hq; simplify_eq/=.
    + exists "", t. done.
    + destruct (IH p' eq_refl) as (l & r & -> & ?). by exists (String c l), r.
  - intros (l & r & -> & H). induction l as [|c l IH]; [by apply globs_star_skip|].
    by apply globs_star_read.
Qed.

(** A longer text matches a leading star too. *)
Lemma globs_star_app p l r : globs (String star p) r -> globs (String star p) (l +:+ r).
Proof.
  rewrite !globs_star. intros (l' & r' & -> & ?). exists (l +:+ l'), r'.
  by rewrite str_app_assoc.
Qed.

(** ** Pattern prefixes without a star *)

(** [u] (no star) matches [v] byte by byte. *)
Inductive plain_match : string -> string -> Prop :=
  | plain_nil : plain_match "" ""
  | plain_cons a u c v : a <> star -> a = qmark \/ a = c -> plain_match u v ->
      plain_match (String a u) (String c v).

Lemma plain_match_length u v : plain_match u v -> str_length u = str_length v.
Proof. induction 1; cbn; congruence. Qed.

Lemma plain_match_snoc u v a c :
  plain_match u v -> a <> star -> a = qmark \/ a = c ->
  plain_match (u +:+ String a "") (v +:+ String c "").
Proof.
  intros H Ha Hc. induction H as [|? ? ? ? ? ? ? IH]; [by constructor; [..|constructor]|].
  rewrite !str_app_cons. by constructor.
Qed.

Lemma plain_globs u p t :
  no_star u = true ->
  globs (u +:+ p) t <-> exists v r, t = v +:+ r /\ plain_match u v /\ globs p r.
Proof.
  revert t. induction u as [|a u IH]; intros t; cbn.
  - intros _. split; [intros H; exists "", t; by repeat constructor|].
    intros (v & r & -> & Hv & ?). by inversion Hv; subst.
  - intros [Ha%negb_true_iff%bool_decide_eq_false Hu]%andb_prop. rewrite str_app_cons. split.
    + inversion 1; subst; try done.
      all: match goal with H : globs (_ +:+ _) _ |- _ => apply IH in H as (v & r & -> & ? & ?); [|done] end.
      * exists (String c v), r. split_and!; [done| |done]. constructor; auto.
      * exists (String a v), r. split_and!; [done| |done]. constructor; auto.
    + intros (v & r & -> & Hv & Hp). inversion Hv; subst. rewrite str_app_cons.
      assert (globs (u +:+ p) (v0 +:+ r)) by (apply IH; eauto).
      destruct (decide (a = qmark)) as [->|Hq]; [by constructor|].
      match goal with H : _ \/ _ |- _ => destruct H; [done|subst] end. by constructor.
Qed.

Lemma plain_match_no_star u v : plain_match u v -> no_star u = true.
Proof. induction 1; cbn; [done|]. by rewrite bool_decide_eq_false_2. Qed.

(** [r] is a suffix of [t] shorter by at least one byte. *)
Definition proper_suffix (r t : string) : Prop :=
  exists c l, t = String c l +:+ r.

Lemma proper_suffix_cons r c t : proper_suffix r (String c t) <-> r = t \/ proper_suffix r t.
Proof.
  unfold proper_suffix. split.
  - intros (c' & [|c2 l] & [= -> Ht]); [by left|right]. by exists c2, l.
  - intros [->|(c2 & l & ->)]; [by exists c, ""|]. by exists c, (String c2 l).
Qed.

Lemma proper_suffix_nil r : ~ proper_suffix r "".
Proof. by intros (c & l & ?). Qed.

Lemma proper_suffix_length r t : proper_suffix r t -> str_length r < str_length t.
Proof. intros (c & l & ->). rewrite str_app_cons. cbn. rewrite str_length_app. lia. Qed.

Lemma suffix_order (x y a b : string) :
  x +:+ a = y +:+ b -> str_length a <= str_length b -> exists z, b = z +:+ a.
Proof.
  revert y. induction x as [|c x IH]; intros y.
  - change ("" +:+ a) with a. intros -> H. destruct y as [|d y]; [by exists ""|].
    rewrite str_app_cons in H. cbn in H. rewrite str_length_app in H. lia.
  - destruct y as [|d y]; intros H Hl.
    + change ("" +:+ b) with b in H. subst b. by exists (String c x).
    + rewrite !str_app_cons in H. injection H as -> H. by apply (IH y).
Qed.

(** ** The loop *)

(** The backtrack point: since the star the loop read the star-free [u] of
    the pattern against [v]. *)
Definition bt_ok (p t : string) (bt : option (string * string)) : Prop :=
  match bt with
  | None => True
  | Some (sp, mk) => exists u v, sp = u +:+ p /\ mk = v +:+ t /\ plain_match u v
  end.

(** What is still possible: match here, or let the last star read more. *)
Definition loop_spec (p t : string) (bt : option (string * string)) : Prop :=
  globs p t \/
  match bt with
  | None => False
  | Some (sp, mk) => exists mk', proper_suffix mk' mk /\ globs sp mk'
  end.

Lemma loop_spec_empty p bt : bt_ok p "" bt -> loop_spec p "" bt <-> globs p "".
Proof.
  intros Hok. unfold loop_spec. split; [|by left]. intros [?|H]; [done|].
  destruct bt as [[sp mk]|]; [|done]. destruct Hok as (u & v & -> & -> & Huv).
  destruct H as (mk' & Hlt%proper_suffix_length & Hg).
  apply plain_globs in Hg as (v' & r & -> & Hv' & _); [|by eapply plain_match_no_star].
  apply plain_match_length in Huv, Hv'. rewrite !str_length_app in Hlt. cbn in Hlt. lia.
Qed.

(** At a new star the older backtrack point is redundant. *)
Lemma loop_spec_new_star p t bt :
  bt_ok (String star p) t bt -> loop_spec (String star p) t bt <-> globs (String star p) t.
Proof.
  intros Hok. unfold loop_spec. split; [|by left]. intros [?|H]; [done|].
  destruct bt as [[sp mk]|]; [|done]. destruct Hok as (u & v & -> & -> & Huv).
  destruct H as (mk' & Hs & Hg).
  apply plain_globs in Hg as (v' & r & -> & Hv' & Hr); [|by eapply plain_match_no_star].
  pose proof (proper_suffix_length _ _ Hs) as Hlt.
  apply plain_match_length in Huv, Hv'. rewrite !str_length_app in Hlt.
  destruct Hs as (c & l & Hl). rewrite <- str_app_assoc in Hl.
  destruct (suffix_order (String c l +:+ v') v r t) as (z & ->); [done|lia|].
  by apply globs_star_app.
Qed.

Lemma loop_spec_backtrack p t sp mk :
  ~ globs p t -> mk <> "" ->
  loop_spec p t (Some (sp, mk)) <->
  loop_spec sp (str_drop 1 mk) (Some (sp, str_drop 1 mk)).
Proof.
  intros Hn Hmk. destruct mk as [|c mk]; [done|]. unfold loop_spec. cbn.
  setoid_rewrite proper_suffix_cons. naive_solver.
Qed.

Lemma no_star_app a b : no_star (a +:+ b) = no_star a && no_star b.
Proof. induction a as [|c a IH]; [done|]. rewrite str_app_cons. cbn. by rewrite IH, andb_assoc. Qed.

Lemma str_length_drop1 s : str_length (str_drop 1 s) = str_length s - 1.
Proof. destruct s; cbn; lia. Qed.

Lemma no_star_drop1 s : no_star s = true -> no_star (str_drop 1 s) = true.
Proof. destruct s; cbn; [done|]. by intros [_ ?]%andb_prop. Qed.

Section Loop.
Context (P T : nat).
#[local] Arguments str_drop : simpl never.

Definition bt_len (bt : option (string * string)) : nat :=
  match bt with None => 0 | Some (_, mk) => str_length mk end.

Definition bt_bounded (bt : option (string * string)) : Prop :=
  match bt with
  | None => True
  | Some (sp, mk) => str_length sp <= P /\ str_length mk <= T /\ no_star mk = true
  end.

(** With enough fuel the loop answers, and its answer is right. *)
Lemma globLoop_spec fuel p t bt :
  bt_ok p t bt -> bt_bounded bt -> str_length p <= P -> str_length t <= T -> no_star t = true ->
  Nat.max (bt_len bt) (str_length t) * S (P + T) + str_length t + str_length p < fuel ->
  exists b, globLoop fuel p t bt = Some b /\ (b = true <-> loop_spec p t bt).
Proof.
  revert p t bt. induction fuel as [|fuel IH]; intros p t bt Hok Hb Hp Ht Hns Hf; [lia|].
  destruct t as [|c t]; cbn [globLoop].
  { eexists. split; [done|]. rewrite loop_spec_empty, globs_empty by done. done. }
  pose proof Hns as Hns'. cbn in Hns.
  apply andb_prop in Hns as [Hc%negb_true_iff%bool_decide_eq_false Hns].
  assert (forall (Hno : ~ globs p (String c t)),
    exists b, match bt with
              | Some (sp, mk) => globLoop fuel sp (str_drop 1 mk) (Some (sp, str_drop 1 mk))
              | None => Some false
              end = Some b /\ (b = true <-> loop_spec p (String c t) bt)) as Hback.
  { intros Hno. destruct bt as [[sp mk]|]; [|exists false; split; [done|]; unfold loop_spec; naive_solver].
    destruct Hok as (u & v & Hsp & Hmk & Huv). destruct Hb as (Hb1 & Hb2 & Hb3).
    assert (str_length mk >= S (str_length t)) as Hlen by (subst mk; rewrite str_length_app; cbn; lia).
    assert (mk <> "") as Hne by (intros ->; cbn in Hlen; lia).
    destruct (IH sp (str_drop 1 mk) (Some (sp, str_drop 1 mk))) as (b & Hb' & Hspec); cbn.
    - by exists "", ""; repeat constructor.
    - split_and!; [done|rewrite str_length_drop1; lia|by apply no_star_drop1].
    - done.
    - rewrite str_length_drop1. lia.
    - by apply no_star_drop1.
    - rewrite str_length_drop1. cbn in Hf. rewrite Nat.max_id. nia.
    - exists b. split; [done|]. rewrite Hspec. symmetry. by apply loop_spec_backtrack. }
  destruct p as [|a p]; [apply Hback; inversion 1|]. cbn in Hp.
  destruct (bool_decide (a = qmark) || bool_decide (a = c)) eqn:Hac.
  - apply orb_true_iff in Hac. rewrite !bool_decide_eq_true in Hac.
    assert (a <> star) as Has by (destruct Hac as [->| ->]; done).
    destruct (IH p t bt) as (b & Hb' & Hspec); [|done|lia|cbn in Ht; lia|done|cbn in Hf; nia|].
    { destruct bt as [[sp mk]|]; [|done]. destruct Hok as (u & v & -> & -> & Huv).
      exists (u +:+ String a ""), (v +:+ String c "").
      rewrite !str_app_assoc. split_and!; [done..|]. by apply plain_match_snoc. }
    exists b. split; [done|]. rewrite Hspec. unfold loop_spec.
    assert (globs p t <-> globs (String a p) (String c t)) as ->; [|done]. split.
    + destruct (decide (a = qmark)) as [->|]; [by constructor|].
      destruct Hac as [->| ->]; [done|]. by constructor.
    + inversion 1; subst; done.
  - apply orb_false_iff in Hac as [Hq%bool_decide_eq_false Hne%bool_decide_eq_false].
    destruct (bool_decide (a = star)) eqn:Has.
    + apply bool_decide_eq_true in Has as ->.
      destruct (IH p (String c t) (Some (p, String c t))) as (b & Hb' & Hspec).
      * by exists "", ""; repeat constructor.
      * split_and!; [lia|done|done].
      * lia.
      * done.
      * done.
      * cbn in *. nia.
      * exists b. split; [done|]. rewrite Hspec, loop_spec_new_star by done.
        rewrite globs_star. unfold loop_spec. split.
        -- intros [H|(mk' & (d & l & ->) & ?)]; [by exists "", (String c t)|]. by exists (String d l), mk'.
        -- intros ([|d l] & r & Hr & ?); [left; by rewrite Hr|right]. exists r.
           split; [by exists d, l|done].
    + apply bool_decide_eq_false in Has. apply Hback. inversion 1; subst; done.
Qed.
End Loop.

Lemma no_star_lower s : no_star (ToLower s) = no_star s.
Proof.
  induction s as [|c s IH]; cbn; [done|]. rewrite IH. f_equal. f_equal.
  apply bool_decide_ext. destruct c as [[][][][][][][][]]; done.
Qed.

Lemma globMatch_loop p s :
  no_star s = true ->
  exists b, globLoop (globFuel (ToLower p) (ToLower s)) (ToLower p) (ToLower s) None = Some b /\
            (b = true <-> globs (ToLower p) (ToLower s)).
Proof.
  intros Hs. destruct (globLoop_spec (str_length (ToLower p)) (str_length (ToLower s))
    (globFuel (ToLower p) (ToLower s)) (ToLower p) (ToLower s) None) as (b & Hb & Hspec);
    [done|done|done|done|by rewrite no_star_lower|unfold globFuel; cbn; lia|].
  exists b. split; [done|]. rewrite Hspec. unfold loop_spec. tauto.
Qed.

Lemma globMatch_spec p s :
  no_star s = true -> globMatch p s = true <-> globs (ToLower p) (ToLower s).
Proof.
  intros Hs. unfold globMatch. by destruct (globMatch_loop p s Hs) as (b & -> & <-).
Qed.

(** ** Intersection *)

Lemma globs_read_char y b s : y <> star -> globs b s ->
  exists c, globs (String y b) (String c s) /\ (y <> qmark -> c = y).
Proof.
  intros Hy Hb. destruct (decide (y = qmark)) as [->|Hq].
  - exists "x"%char. by split; [constructor|].
  - exists y. by split; [constructor|].
Qed.

Lemma globs_rec_sound n a b :
  globs_rec n a b = true -> exists s, globs a s /\ globs b s.
Proof.
  revert a b. induction n as [|n IH]; intros a b; cbn [globs_rec]; [done|].
  assert (forall x a' b', globs_rec n (String star a') b' = true ->
     exists s, globs (String star a') s /\ globs (String x b') s) as Hstar.
  { intros y a' b' (s & Ha & Hb)%IH. destruct (decide (y = star)) as [->|Hy].
    { exists s. split; [done|by constructor]. }
    destruct (globs_read_char y b' s) as (c & ? & _); [done..|].
    exists (String c s). split; [by constructor|done]. }
  destruct a as [|x a], b as [|y b].
  - exists "". by repeat constructor.
  - case_bool_decide as Hy; [subst|done]. intros (s & ? & ?)%IH. exists s. by split; [|constructor].
  - case_bool_decide as Hx; [subst|done]. rewrite orb_false_r. intros (s & ? & ?)%IH.
    exists s. by split; [constructor|].
  - case_bool_decide as Hx; [subst|].
    { intros [(s & ? & ?)%IH|H]%orb_true_iff; [|by apply Hstar].
      exists s. by split; [constructor|]. }
    case_bool_decide as Hy; [subst|].
    { intros [(s & ? & ?)%IH|H]%orb_true_iff; [exists s; by split; [|constructor]|].
      apply IH in H as (s & Ha & Hb). destruct (globs_read_char x a s) as (c & ? & _); [done..|].
      exists (String c s). split; [done|by constructor]. }
    intros [Hxy (s & Ha & Hb)%IH]%andb_prop.
    destruct (globs_read_char x a s) as (c & Hc & Hcx); [done..|].
    destruct (globs_read_char y b s) as (d & Hd & Hdy); [done..|].
    destruct (decide (x = qmark)) as [->|Hxq].
    { exists (String d s). split; [by constructor|done]. }
    exists (String x s). rewrite Hcx in Hc by done. split; [done|].
    destruct (decide (y = qmark)) as [->|Hyq]; [by constructor|].
    rewrite !bool_decide_eq_false_2 in Hxy by done. cbn in Hxy.
    apply bool_decide_eq_true in Hxy as ->. by rewrite Hdy in Hd.
Qed.

Lemma globs_rec_star_l n a b :
  globs_rec n a b = true -> globs_rec (S n) (String star a) b = true.
Proof. intros H. cbn. by rewrite H. Qed.

Lemma globs_rec_star_read_l n a y b :
  globs_rec n (String star a) b = true -> globs_rec (S n) (String star a) (String y b) = true.
Proof.
  intros H. cbn [globs_rec]. rewrite bool_decide_eq_true_2 by done. rewrite H. apply orb_true_r.
Qed.

Lemma globs_rec_star_r n x a b :
  x <> star -> globs_rec n (String x a) b = true \/ globs_rec n a (String star b) = true ->
  globs_rec (S n) (String x a) (String star b) = true.
Proof.
  intros Hx H. cbn [globs_rec]. rewrite bool_decide_eq_false_2 by done.
  rewrite bool_decide_eq_true_2 by done. by apply orb_true_iff.
Qed.

Lemma globs_rec_complete n a b s :
  globs a s -> globs b s -> str_length a + str_length b < n -> globs_rec n a b = true.
Proof.
  revert a b s. induction n as [|n IH]; intros a b s Ha Hb Hn; [lia|].
  induction s as [|c s IHs].
  - destruct a as [|x a], b as [|y b]; [done|..].
    + inversion Hb; subst. cbn [globs_rec]. rewrite bool_decide_eq_true_2 by done.
      eapply IH; [done..|cbn in *; lia].
    + inversion Ha; subst. apply globs_rec_star_l. eapply IH; [done..|cbn in *; lia].
    + inversion Ha; subst. apply globs_rec_star_l. eapply IH; [done..|cbn in *; lia].
  - destruct a as [|x a]; [by inversion Ha|]. destruct b as [|y b]; [by inversion Hb|].
    cbn in Hn. destruct (decide (x = star)) as [->|Hx]; [|destruct (decide (y = star)) as [->|Hy]].
    + inversion Ha; subst; try done.
      { apply globs_rec_star_l. eapply IH; [done..|cbn; lia]. }
      inversion Hb; subst.
      * apply globs_rec_star_read_l. eapply IH; [exact Ha|done|cbn; lia].
      * by apply IHs.
      * apply globs_rec_star_read_l. eapply (IH _ _ s); [done..|cbn; lia].
      * apply globs_rec_star_read_l. eapply (IH _ _ s); [done..|cbn; lia].
    + apply globs_rec_star_r; [done|]. inversion Hb; subst; try done.
      { left. eapply IH; [exact Ha|done|cbn; lia]. }
      right. inversion Ha; subst; try done; (eapply (IH _ _ s); [done..|cbn; lia]).
    + cbn [globs_rec]. rewrite !(bool_decide_eq_false_2 (_ = star)) by done.
      assert (globs a s /\ globs b s /\ (x = qmark \/ y = qmark \/ x = y)) as (? & ? & Hxy).
      { inversion Ha; subst; try done; inversion Hb; subst; try done; auto. }
      apply andb_true_iff. split; [|eapply IH; [done..|lia]].
      rewrite !orb_true_iff, !bool_decide_eq_true. tauto.
Qed.

(** * Properties *)

(** [globMatch] decides the language of the pattern: on a text without ['*']
    (an action or a namespace) it answers with its own loop bound, and it answers
    true exactly when the text is in the case-insensitive language of the pattern,
    where ['*'] stands for any run and ['?'] for one character. *)
Theorem glob_match_correct pattern s :
  no_star s = true ->
  is_Some (globLoop (globFuel (ToLower pattern) (ToLower s)) (ToLower pattern) (ToLower s) None) /\
  (globMatch pattern s = true <-> globs (ToLower pattern) (ToLower s)).
Proof.
  intros Hs. split; [|by apply globMatch_spec].
  destruct (globMatch_loop pattern s Hs) as (b & -> & _). by eexists.
Qed.

Lemma glob_match_correct_witness :
  globMatch "S*:Get??ject*" "s3:getobjectAcl" = true /\
  globs (ToLower "S*:Get??ject*") (ToLower "s3:getobjectAcl").
Proof.
  split; [vm_compute; reflexivity|].
  apply (glob_match_correct "S*:Get??ject*" "s3:getobjectAcl"); vm_compute; reflexivity.
Defined.

(** A text that itself contains ['*'] is read byte by byte: [globMatch] does not
    let the pattern ["*"] match ["*a"], although ["*"] stands for any run. *)
Theorem glob_match_literal_star_differs :
  globs (ToLower "*") (ToLower "*a") /\ globMatch "*" "*a" = false.
Proof.
  split; [|vm_compute; reflexivity]. cbn. by repeat constructor.
Qed.

Lemma globsIntersect_spec a b :
  globsIntersect a b = true <-> exists s, globs (ToLower a) s /\ globs (ToLower b) s.
Proof.
  unfold globsIntersect. split; [apply globs_rec_sound|].
  intros (s & Ha & Hb). eapply globs_rec_complete; [done..|lia].
Qed.

(** [globsIntersect] is exact: it answers true exactly when some string matches
    both patterns. *)
Theorem globs_intersect_correct a b :
  globsIntersect a b = true <-> exists s, globs (ToLower a) s /\ globs (ToLower b) s.
Proof. apply globsIntersect_spec. Qed.
