(* ===== verification/Float64.v ===== *)
(** IEEE 754 doubles and their decimal texts: [strconv.ParseFloat],
    [strconv.FormatFloat(f, 'e', -1, 64)] (the shortest digits that read back)
    and [FormatNumberES6] of internal/igagov/canonical.go.

    A finite double is a sign, a mantissa and an exponent in canonical form;
    reading rounds the exact rational to nearest, ties to even. *)

From stdpp Require Import base list strings.
From Stdlib Require Import Ascii.
From S2P Require Import Prelude.

(** * Finite doubles *)

Record float64 := { f_neg : bool; f_m : Z; f_e : Z }.

#[export] Instance float64_eq_dec : EqDecision float64.
Proof. solve_decision. Defined.

Definition minExp : Z := -1074.
Definition maxExp : Z := 971.

(** The canonical representations: 0, subnormals and normals. *)
Definition f_canonical (m e : Z) : Prop :=
  0 < m < 2 ^ 53 /\ minExp <= e <= maxExp /\ (2 ^ 52 <= m \/ e = minExp).

Definition f_wf (f : float64) : Prop :=
  f_m f = 0 /\ f_e f = minExp \/ f_canonical (f_m f) (f_e f).

Definition f_zero : float64 := {| f_neg := false; f_m := 0; f_e := minExp |}.

(** [f == 0] holds of both zeros. *)
Definition f_is_zero (f : float64) : bool := f_m f =? 0.

(** * Rounding a positive rational *)

(** [floor(log2(num/den))]. *)
Definition log2_ratio (num den : Z) : Z :=
  let k := Z.log2 num - Z.log2 den in
  if (if 0 <=? k then den * 2 ^ k <=? num else den <=? num * 2 ^ (- k)) then k else k - 1.

(** The double nearest to [num/den] (ties to even); [None] is overflow. *)
Definition round_pos (num den : Z) : option (Z * Z) :=
  let e := Z.max (log2_ratio num den - 52) minExp in
  let n := if 0 <=? e then num else num * 2 ^ (- e) in
  let d := if 0 <=? e then den * 2 ^ e else den in
  let q := n / d in
  let r := n mod d in
  let q' := if (d <? 2 * r) || ((2 * r =? d) && Z.odd q) then q + 1 else q in
  let '(m, e) := if q' =? 2 ^ 53 then (2 ^ 52, e + 1) else (q', e) in
  if maxExp <? e then None else Some (m, e).

(** The double nearest to [D * 10^p], for [D > 0]. *)
Definition round_dec (D p : Z) : option (Z * Z) :=
  if 0 <=? p then round_pos (D * 10 ^ p) 1 else round_pos D (10 ^ (- p)).

(** * Decimal digits *)

Definition is_digit (c : ascii) : bool :=
  let n := N_of_ascii c in (48 <=? n)%N && (n <=? 57)%N.

Definition digit_val (c : ascii) : Z := byte_val c - 48.

Definition digit_char (d : Z) : ascii := ascii_of_N (Z.to_N (d + 48)).

(** The value of a digit string read after [acc]. *)
Fixpoint digits_val (acc : Z) (s : string) : Z :=
  match s with "" => acc | String c s => digits_val (10 * acc + digit_val c) s end.

(** The decimal digits of [n >= 0] before [acc] ([strconv.Itoa] of a
    non-negative number). *)
Fixpoint digits_go (fuel : nat) (n : Z) (acc : string) : string :=
  match fuel with
  | O => acc
  | S fuel =>
      if n <? 10 then String (digit_char n) acc
      else digits_go fuel (n / 10) (String (digit_char (n mod 10)) acc)
  end.

Definition digits_of (n : Z) : string := digits_go (S (S (Z.to_nat (Z.log2 n)))) n "".

(** [strconv.Itoa]. *)
Definition Itoa (n : Z) : string :=
  if n <? 0 then String "-" (digits_of (- n)) else digits_of n.

(** * [strconv.ParseFloat] on a JSON number *)

(** The longest run of digits of [s], and the rest. *)
Fixpoint span_digits (s : string) : string * string :=
  match s with
  | String c s' =>
      if is_digit c then let '(ds, r) := span_digits s' in (String c ds, r) else ("", s)
  | "" => ("", "")
  end.

(** The exponent digits; [readFloat] stops accumulating at 10000. *)
Fixpoint exp_val (acc : Z) (s : string) : Z :=
  match s with
  | "" => acc
  | String c s => exp_val (if acc <? 10000 then 10 * acc + digit_val c else acc) s
  end.

(** [readFloat]: the sign, the digits as one integer, the power of ten. *)
Definition read_float (s : string) : bool * Z * Z :=
  let '(neg, s) := match s with String "-" r => (true, r) | _ => (false, s) end in
  let '(ip, s) := span_digits s in
  let '(fp, s) := match s with String "." r => span_digits r | _ => ("", s) end in
  let e :=
    match s with
    | String _ r =>
        match r with
        | String "+" r => exp_val 0 r
        | String "-" r => - exp_val 0 r
        | _ => exp_val 0 r
        end
    | "" => 0
    end in
  (neg, digits_val (digits_val 0 ip) fp, e - Z.of_nat (str_length fp)).

(** [strconv.ParseFloat(s, 64)]; [None] is the range error. *)
Definition ParseFloat (s : string) : option float64 :=
  let '(neg, D, p) := read_float s in
  if D =? 0 then Some {| f_neg := neg; f_m := 0; f_e := minExp |}
  else match round_dec D p with
       | Some (m, e) => Some {| f_neg := neg; f_m := m; f_e := if m =? 0 then minExp else e |}
       | None => None
       end.

(** * The shortest digits *)

(** [D * 10^p] without trailing zeros of [D]. *)
Fixpoint strip_zeros (fuel : nat) (D p : Z) : Z * Z :=
  match fuel with
  | O => (D, p)
  | S fuel => if (D mod 10 =? 0) && (10 <=? D) then strip_zeros fuel (D / 10) (p + 1) else (D, p)
  end.

Definition f_ratio (m e : Z) : Z * Z :=
  if 0 <=? e then (m * 2 ^ e, 1) else (m, 2 ^ (- e)).

(** [floor(log10(num/den))], from an estimate. *)
Definition log10_ratio (num den : Z) : Z :=
  let x := (log2_ratio num den * 30103) / 100000 in
  let le (x : Z) := if 0 <=? x then den * 10 ^ x <=? num else den <=? num * 10 ^ (- x) in
  if le (x + 1) then x + 1 else if le x then x else x - 1.

Definition reads_back (m e : Z) (c : Z * Z) : bool :=
  (0 <? c.1) && bool_decide (round_dec c.1 c.2 = Some (m, e)).

(** Candidates with [n] digits, the truncation [D] and [D + 1], without
    trailing zeros: the nearer one that reads back as [(m, e)], if any. *)
Definition shortest_at (m e : Z) (n : Z) : option (Z * Z) :=
  let '(num, den) := f_ratio m e in
  let p := log10_ratio num den + 1 - n in
  let num' := if 0 <=? p then num else num * 10 ^ (- p) in
  let den' := if 0 <=? p then den * 10 ^ p else den in
  let D := num' / den' in
  let r := num' mod den' in
  let cut D := strip_zeros (Z.to_nat (Z.log2 D)) D p in
  let down := reads_back m e (cut D) in
  let up := reads_back m e (cut (D + 1)) in
  let round_up := (den' <? 2 * r) || ((2 * r =? den') && Z.odd D) in
  if down && up then Some (if round_up then cut (D + 1) else cut D)
  else if down then Some (cut D)
  else if up then Some (cut (D + 1))
  else None.

Fixpoint shortest_from (fuel : nat) (m e n : Z) : option (Z * Z) :=
  match fuel with
  | O => None
  | S fuel =>
      match shortest_at m e n with
      | Some r => Some r
      | None => shortest_from fuel m e (n + 1)
      end
  end.

(** The exact decimal expansion, where the digit loop of [FormatFloat] ends. *)
Definition exact_dec (m e : Z) : Z * Z :=
  if 0 <=? e then (m * 2 ^ e, 0) else (m * 5 ^ (- e), e).

(** The digits of [FormatFloat(f, 'e', -1, 64)] for [f = m * 2^e > 0]: an
    integer and a power of ten. Seventeen digits always read back; the exact
    expansion keeps the function total without that fact. *)
Definition shortest (m e : Z) : Z * Z :=
  default (exact_dec m e) (shortest_from 17 m e 1).

(** The first [n] bytes of [s]. *)
Fixpoint str_take (n : nat) (s : string) : string :=
  match n, s with
  | S n, String c s => String c (str_take n s)
  | _, _ => ""
  end.

Fixpoint zeros (n : nat) : string :=
  match n with O => "" | S n => String "0" (zeros n) end.

(** The layout of [digits] with the decimal point after [n] digits. *)
Definition layout (digits : string) (n : Z) : string :=
  let k := Z.of_nat (str_length digits) in
  if (k <=? n) && (n <=? 21) then digits +:+ zeros (Z.to_nat (n - k))
  else if (0 <? n) && (n <=? 21) then
    str_take (Z.to_nat n) digits +:+ "." +:+ str_drop (Z.to_nat n) digits
  else if (-6 <? n) && (n <=? 0) then "0." +:+ zeros (Z.to_nat (- n)) +:+ digits
  else
    str_take 1 digits +:+
    (if 1 <? k then "." +:+ str_drop 1 digits else "") +:+
    "e" +:+ (if 0 <=? n - 1 then "+" else "") +:+ Itoa (n - 1).

(* src: internal/igagov/canonical.go:458-498 (FormatNumberES6) *)
Definition FormatNumberES6 (f : float64) : string :=
  if f_is_zero f then "0"
  else
    let '(D, p) := shortest (f_m f) (f_e f) in
    let digits := digits_of D in
    let n := p + Z.of_nat (str_length digits) in
    (if f_neg f then "-" else "") +:+ layout digits n.

(** Numbers of RFC 8785 appendix B and of the package's tests. *)
Example format_examples :
  (fun s => FormatNumberES6 <$> ParseFloat s) <$>
  ["-0.0"; "333333333.33333329"; "1E30"; "4.50"; "2e-3"; "1e21"; "1e20"; "0.000001"; "0.0000001";
   "9007199254740993"; "1e400"; "9.5"; "1e23"] =
  [Some "0"; Some "333333333.3333333"; Some "1e+30"; Some "4.5"; Some "0.002"; Some "1e+21";
   Some "100000000000000000000"; Some "0.000001"; Some "1e-7"; Some "9007199254740992"; None;
   Some "9.5"; Some "1e+23"].
Proof. vm_compute. reflexivity. Qed.

(** * Rounding is exact on doubles *)

Lemma log2_ratio_unique num den k J :
  0 < num -> 0 < den -> 0 <= J -> 0 <= k + J ->
  den * 2 ^ (k + J) <= num * 2 ^ J < den * 2 ^ (k + J + 1) ->
  log2_ratio num den = k.
Proof.
  intros Hn Hd HJ HkJ [Hlo Hhi]. unfold log2_ratio.
  destruct (Z.log2_spec num) as [Hn1 Hn2]; [done|]. destruct (Z.log2_spec den) as [Hd1 Hd2]; [done|].
  pose proof (Z.log2_nonneg num) as Ha. pose proof (Z.log2_nonneg den) as Hb.
  set (a := Z.log2 num) in *. set (b := Z.log2 den) in *. rewrite <- Z.add_1_r in Hn2, Hd2.
  assert (0 < 2 ^ J) by (apply Z.pow_pos_nonneg; lia).
  assert (0 < 2 ^ (k + J)) by (apply Z.pow_pos_nonneg; lia).
  assert (b + (k + J) < a + 1 + J) as H1.
  { apply (Z.pow_lt_mono_r_iff 2); [lia..|]. rewrite (Z.pow_add_r 2 b), (Z.pow_add_r 2 (a + 1)) by lia. nia. }
  assert (a + J < b + 1 + (k + J + 1)) as H2.
  { apply (Z.pow_lt_mono_r_iff 2); [lia..|]. rewrite (Z.pow_add_r 2 a), (Z.pow_add_r 2 (b + 1)) by lia.
    assert (0 < 2 ^ (k + J + 1)) by (apply Z.pow_pos_nonneg; lia). nia. }
  assert (forall k0, k <= k0 -> (if 0 <=? k0 then den * 2 ^ k0 <=? num else den <=? num * 2 ^ (- k0))
            = (den * 2 ^ (k0 + J) <=? num * 2 ^ J)) as Htest.
  { intros k0 Hk0. destruct (Z.leb_spec 0 k0).
    - rewrite Z.pow_add_r by lia. assert (0 < 2 ^ k0) by (apply Z.pow_pos_nonneg; lia).
      destruct (Z.leb_spec (den * 2 ^ k0) num), (Z.leb_spec (den * (2 ^ k0 * 2 ^ J)) (num * 2 ^ J)); nia.
    - replace (2 ^ J) with (2 ^ (- k0) * 2 ^ (k0 + J)) by (rewrite <- Z.pow_add_r by lia; f_equal; lia).
      assert (0 < 2 ^ (k0 + J)) by (apply Z.pow_pos_nonneg; lia).
      assert (0 < 2 ^ (- k0)) by (apply Z.pow_pos_nonneg; lia).
      destruct (Z.leb_spec den (num * 2 ^ (- k0))),
        (Z.leb_spec (den * 2 ^ (k0 + J)) (num * (2 ^ (- k0) * 2 ^ (k0 + J)))); nia. }
  rewrite Htest by lia. destruct (Z.eq_dec (a - b) k) as [Hk|Hk].
  - rewrite Hk. destruct (Z.leb_spec (den * 2 ^ (k + J)) (num * 2 ^ J)); lia.
  - assert (a - b = k + 1) as Hk1 by lia. rewrite Hk1.
    replace (k + 1 + J) with (k + J + 1) by lia.
    destruct (Z.leb_spec (den * 2 ^ (k + J + 1)) (num * 2 ^ J)); lia.
Qed.

Lemma round_pos_exact m e num den :
  f_canonical m e -> 0 < num -> 0 < den ->
  (if 0 <=? e then num = m * (den * 2 ^ e) else num * 2 ^ (- e) = m * den) ->
  round_pos num den = Some (m, e).
Proof.
  intros (Hm & He & Hc) Hn Hd Heq. unfold minExp, maxExp in *.
  destruct (Z.log2_spec m) as [Hl1 Hl2]; [lia|]. rewrite <- Z.add_1_r in Hl2.
  pose proof (Z.log2_nonneg m) as Hl0. set (l := Z.log2 m) in *.
  assert (l <= 52) as Hl52.
  { assert (l < 53); [|lia]. apply (Z.pow_lt_mono_r_iff 2); lia. }
  assert (log2_ratio num den = l + e) as Hk.
  { destruct (Z.leb_spec 0 e).
    - apply (log2_ratio_unique _ _ _ 0); [lia..|].
      rewrite Heq, !Z.add_0_r, (Z.pow_add_r 2 l e), <- Z.add_assoc, (Z.add_comm e 1),
        Z.add_assoc, (Z.pow_add_r 2 (l + 1) e) by lia.
      assert (0 < 2 ^ e) by (apply Z.pow_pos_nonneg; lia). nia.
    - apply (log2_ratio_unique _ _ _ (- e)); [lia..|]. rewrite Heq.
      replace (l + e + - e) with l by lia. nia. }
  unfold round_pos, minExp, maxExp. rewrite Hk.
  assert (Z.max (l + e - 52) (-1074) = e) as ->.
  { destruct Hc as [Hc|Hc]; [|lia]. assert (52 <= l); [|lia].
    assert (52 < l + 1); [|lia]. apply (Z.pow_lt_mono_r_iff 2); lia. }
  set (n := if 0 <=? e then num else num * 2 ^ (- e)).
  set (d := if 0 <=? e then den * 2 ^ e else den).
  assert (n = m * d) as Hnd by (unfold n, d; destruct (Z.leb_spec 0 e); lia).
  assert (0 < d) as Hd0.
  { unfold d. destruct (Z.leb_spec 0 e); [|done]. assert (0 < 2 ^ e) by (apply Z.pow_pos_nonneg; lia). nia. }
  rewrite Hnd, Z.div_mul, Z.mod_mul by lia.
  destruct (Z.ltb_spec d (2 * 0)); [lia|]. destruct (Z.eqb_spec (2 * 0) d); [lia|]. cbn [orb andb].
  destruct (Z.eqb_spec m (2 ^ 53)); [lia|]. destruct (Z.ltb_spec 971 e); [lia|]. done.
Qed.

Lemma exact_dec_reads m e :
  f_canonical m e -> reads_back m e (exact_dec m e) = true.
Proof.
  intros Hc. pose proof Hc as (Hm & He & _). unfold reads_back, exact_dec, round_dec.
  destruct (Z.leb_spec 0 e); cbn [fst snd].
  - assert (0 < 2 ^ e) by (apply Z.pow_pos_nonneg; lia).
    apply andb_true_iff. split; [apply Z.ltb_lt; nia|]. apply bool_decide_eq_true.
    apply round_pos_exact; [done|cbn; nia|done|]. destruct (Z.leb_spec 0 e); cbn; nia.
  - assert (0 < 5 ^ (- e)) by (apply Z.pow_pos_nonneg; lia).
    apply andb_true_iff. split; [apply Z.ltb_lt; nia|]. apply bool_decide_eq_true.
    destruct (Z.leb_spec 0 e); [lia|].
    apply round_pos_exact; [done|nia|apply Z.pow_pos_nonneg; lia|].
    destruct (Z.leb_spec 0 e); [lia|]. change 10 with (5 * 2). rewrite Z.pow_mul_l. lia.
Qed.

Lemma shortest_reads m e : f_canonical m e -> reads_back m e (shortest m e) = true.
Proof.
  intros Hc. unfold shortest.
  assert (forall fuel n r, shortest_from fuel m e n = Some r -> reads_back m e r = true) as H.
  { induction fuel as [|fuel IH]; intros n r; cbn; [done|].
    destruct (shortest_at m e n) as [r'|] eqn:E; [|apply IH]. intros [= <-]. revert E.
    unfold shortest_at. destruct (f_ratio m e) as [num den]. cbn zeta.
    destruct (reads_back _ _ _) eqn:E1 at 1; destruct (reads_back m e _) eqn:E2 at 1;
      cbn [andb]; repeat case_match; intros [= <-]; congruence. }
  destruct (shortest_from 17 m e 1) as [r|] eqn:E; [by eapply H|]. by apply exact_dec_reads.
Qed.

(** * Digit strings *)

Fixpoint all_digits (s : string) : bool :=
  match s with "" => true | String c s => is_digit c && all_digits s end.

Lemma digit_char_spec d : 0 <= d < 10 ->
  is_digit (digit_char d) = true /\ digit_val (digit_char d) = d /\
  (digit_char d = "0"%char <-> d = 0).
Proof.
  intros H. assert (d = 0 \/ d = 1 \/ d = 2 \/ d = 3 \/ d = 4 \/ d = 5 \/ d = 6 \/ d = 7 \/ d = 8 \/ d = 9)
    as Hd by lia.
  repeat (destruct Hd as [->|Hd]; [vm_compute; intuition congruence|]). subst. vm_compute. intuition congruence.
Qed.

Lemma digit_val_bounds c : is_digit c = true -> 0 <= digit_val c <= 9.
Proof.
  unfold is_digit, digit_val, byte_val. intros [?%N.leb_le ?%N.leb_le]%andb_prop. lia.
Qed.

Lemma all_digits_app a b : all_digits (a +:+ b) = all_digits a && all_digits b.
Proof. induction a as [|c a IH]; [done|]. rewrite str_app_cons. cbn. by rewrite IH, andb_assoc. Qed.

Lemma digits_val_app acc a b : digits_val acc (a +:+ b) = digits_val (digits_val acc a) b.
Proof. revert acc. induction a as [|c a IH]; intros acc; [done|]. rewrite str_app_cons. cbn. apply IH. Qed.

Lemma digits_val_acc acc s :
  digits_val acc s = acc * 10 ^ Z.of_nat (str_length s) + digits_val 0 s.
Proof.
  revert acc. induction s as [|c s IH]; intros acc; cbn [digits_val str_length]; [cbn; lia|].
  rewrite (IH (10 * acc + digit_val c)), (IH (10 * 0 + digit_val c)), Nat2Z.inj_succ, Z.pow_succ_r by lia. lia.
Qed.

(** What [digits_go] builds. *)
Lemma digits_go_spec fuel n acc :
  0 <= n -> n < 2 ^ Z.of_nat fuel ->
  exists ds, digits_go (S fuel) n acc = ds +:+ acc /\ all_digits ds = true /\
    digits_val 0 ds = n /\ ds <> "" /\
    (0 < n -> exists c r, ds = String c r /\ c <> "0"%char) /\ (n = 0 -> ds = "0").
Proof.
  revert n acc. induction fuel as [|fuel IH]; intros n acc Hn Hf.
  - assert (n = 0) as -> by (cbn in Hf; lia). exists "0". repeat split; done || lia.
  - cbn [digits_go]. destruct (Z.ltb_spec n 10).
    + destruct (digit_char_spec n) as (? & ? & ?); [lia|].
      exists (String (digit_char n) ""). cbn. split_and!; try done; try lia.
      * by rewrite andb_true_r.
      * intros Hpos. eexists _, _. split; [done|]. intros E. naive_solver lia.
      * intros ->. done.
    + destruct (digit_char_spec (n mod 10)) as (Hd1 & Hd2 & _); [by apply Z.mod_pos_bound|].
      destruct (IH (n / 10) (String (digit_char (n mod 10)) acc)) as (ds & Heq & Had & Hv & Hne & Hpos & _).
      { apply Z.div_pos; lia. }
      { rewrite Nat2Z.inj_succ, Z.pow_succ_r in Hf by lia. apply Z.div_lt_upper_bound; [lia|].
        assert (0 < 2 ^ Z.of_nat fuel) by (apply Z.pow_pos_nonneg; lia). lia. }
      cbn [digits_go] in Heq. exists (ds +:+ String (digit_char (n mod 10)) ""). split_and!.
      * rewrite Heq, str_app_assoc. done.
      * by rewrite all_digits_app, Had; cbn; rewrite Hd1.
      * rewrite digits_val_app, Hv. cbn. rewrite Hd2. pose proof (Z.div_mod n 10). lia.
      * by destruct ds.
      * intros _. destruct Hpos as (c & r & -> & ?); [apply Z.div_str_pos; lia|].
        by exists c, (r +:+ String (digit_char (n mod 10)) "").
      * lia.
Qed.

Lemma digits_of_spec n :
  0 <= n ->
  all_digits (digits_of n) = true /\ digits_val 0 (digits_of n) = n /\ digits_of n <> "" /\
  (0 < n -> exists c r, digits_of n = String c r /\ c <> "0"%char) /\ (n = 0 -> digits_of n = "0").
Proof.
  intros Hn. unfold digits_of.
  destruct (digits_go_spec (S (Z.to_nat (Z.log2 n))) n "") as (ds & -> & H); [done|..].
  { rewrite Nat2Z.inj_succ, Z2Nat.id by apply Z.log2_nonneg.
    destruct (Z.eq_dec n 0) as [->|]; [done|]. apply Z.log2_spec. lia. }
  rewrite str_app_nil_r. tauto.
Qed.

(** * Number texts by their parts *)

(** [ip[.fp][e(sign)ds]] *)
Record numparts := { np_ip : string; np_fp : string; np_ex : option (bool * string) }.

Definition np_exp_text (ex : option (bool * string)) : string :=
  match ex with
  | None => ""
  | Some (neg, ds) => "e" +:+ (if neg then "-" else "+") +:+ ds
  end.

Definition np_text (x : numparts) : string :=
  np_ip x +:+ (if is_empty (np_fp x) then "" else "." +:+ np_fp x) +:+ np_exp_text (np_ex x).

(** A valid JSON number: no leading zero, no empty part. *)
Definition np_ok (x : numparts) : Prop :=
  all_digits (np_ip x) = true /\ all_digits (np_fp x) = true /\
  (np_ip x = "0" \/ exists c r, np_ip x = String c r /\ c <> "0"%char) /\
  match np_ex x with
  | None => True
  | Some (_, ds) => all_digits ds = true /\ ds <> "" /\ digits_val 0 ds < 10000
  end.

Definition np_digits (x : numparts) : Z := digits_val (digits_val 0 (np_ip x)) (np_fp x).
Definition np_power (x : numparts) : Z :=
  match np_ex x with
  | None => 0
  | Some (neg, ds) => if neg then - digits_val 0 ds else digits_val 0 ds
  end - Z.of_nat (str_length (np_fp x)).

(** [r] does not start with a digit. *)
Definition no_digit_head (r : string) : bool :=
  match r with "" => true | String c _ => negb (is_digit c) end.

Lemma span_digits_app ds r :
  all_digits ds = true -> no_digit_head r = true -> span_digits (ds +:+ r) = (ds, r).
Proof.
  intros Hds Hr. induction ds as [|c ds IH].
  - change ("" +:+ r) with r. destruct r as [|c r]; [done|]. cbn in *. by apply negb_true_iff in Hr as ->.
  - cbn in Hds. apply andb_prop in Hds as [Hc Hds]. rewrite str_app_cons. cbn. by rewrite Hc, IH.
Qed.

Lemma exp_val_small acc ds :
  all_digits ds = true -> 0 <= acc -> digits_val acc ds < 10000 -> exp_val acc ds = digits_val acc ds.
Proof.
  revert acc. induction ds as [|c ds IH]; intros acc Hd Ha Hlt; cbn; [done|].
  cbn in Hd. apply andb_prop in Hd as [Hc Hd]. pose proof (digit_val_bounds c Hc).
  assert (acc < 10000).
  { cbn in Hlt. rewrite digits_val_acc in Hlt.
    assert (0 <= digits_val 0 ds).
    { clear -Hd. assert (forall a, 0 <= a -> 0 <= digits_val a ds) as H; [|by apply H].
      induction ds as [|c ds IH]; intros a Ha; cbn; [done|].
      cbn in Hd. apply andb_prop in Hd as [Hc Hd]. pose proof (digit_val_bounds c Hc).
      apply IH; [done|lia]. }
    assert (1 <= 10 ^ Z.of_nat (str_length ds)) by (apply (Z.pow_le_mono_r 10 0); lia). nia. }
  destruct (Z.ltb_spec acc 10000); [|lia]. apply IH; [done|lia|done].
Qed.

Lemma no_digit_head_exp ex : no_digit_head (np_exp_text ex) = true.
Proof. by destruct ex as [[[] ds]|]. Qed.

Lemma is_digit_not c : is_digit c = true -> c <> "-"%char /\ c <> "+"%char /\ c <> "."%char.
Proof. intros H. repeat split; by intros ->. Qed.

Lemma read_float_np (neg : bool) x :
  np_ok x -> read_float ((if neg then "-" else "") +:+ np_text x) = (neg, np_digits x, np_power x).
Proof.
  intros (Hip & Hfp & Hlead & Hex). unfold read_float, np_digits, np_power.
  assert ((match (if neg then "-" else "") +:+ np_text x with
           | String "-" r => (true, r) | _ => (false, (if neg then "-" else "") +:+ np_text x) end)
          = (neg, np_text x)) as ->.
  { destruct neg; [done|]. change ("" +:+ np_text x) with (np_text x).
    assert (exists c r, np_text x = String c r /\ is_digit c = true) as (c & r & -> & Hc).
    { unfold np_text. destruct Hlead as [->|(c & r & E & _)]; [by eexists _, _|].
      rewrite E in *. cbn in Hip. apply andb_prop in Hip as [? ?]. by eexists _, _. }
    destruct c as [[][][][][][][][]]; done. }
  unfold np_text. rewrite span_digits_app; [|done|destruct (is_empty (np_fp x)); [|done]; apply no_digit_head_exp].
  set (ex := np_exp_text (np_ex x)).
  assert ((match (if is_empty (np_fp x) then "" else "." +:+ np_fp x) +:+ ex with
           | String "." r => span_digits r
           | _ => ("", (if is_empty (np_fp x) then "" else "." +:+ np_fp x) +:+ ex) end)
          = (np_fp x, ex)) as ->.
  { destruct (is_empty (np_fp x)) eqn:E.
    - apply is_empty_true in E as ->. change ("" +:+ ex) with ex. unfold ex.
      by destruct (np_ex x) as [[[] ?]|].
    - transitivity (span_digits (np_fp x +:+ ex)); [reflexivity|]. apply span_digits_app; [done|apply no_digit_head_exp]. }
  f_equal. f_equal. unfold ex. destruct (np_ex x) as [[en ds]|]; cbn; [|done].
  destruct Hex as (? & ? & ?). f_equal.
  transitivity (if en then - exp_val 0 ds else exp_val 0 ds); [by destruct en|].
  by rewrite exp_val_small.
Qed.

(** * The exponent stays small *)

Lemma log2_ratio_spec num den J :
  0 < num -> 0 < den -> 0 <= J -> 0 <= log2_ratio num den + J ->
  den * 2 ^ (log2_ratio num den + J) <= num * 2 ^ J < den * 2 ^ (log2_ratio num den + J + 1).
Proof.
  intros Hn Hd HJ. unfold log2_ratio.
  destruct (Z.log2_spec num) as [Hn1 Hn2]; [done|]. destruct (Z.log2_spec den) as [Hd1 Hd2]; [done|].
  pose proof (Z.log2_nonneg num) as Ha. pose proof (Z.log2_nonneg den) as Hb.
  set (a := Z.log2 num) in *. set (b := Z.log2 den) in *. rewrite <- Z.add_1_r in Hn2, Hd2.
  set (k := a - b). assert (0 < 2 ^ J) by (apply Z.pow_pos_nonneg; lia).
  assert (0 <= k + J -> (if 0 <=? k then den * 2 ^ k <=? num else den <=? num * 2 ^ (- k))
            = (den * 2 ^ (k + J) <=? num * 2 ^ J)) as Htest.
  { intros HkJ. destruct (Z.leb_spec 0 k).
    - rewrite Z.pow_add_r by lia. assert (0 < 2 ^ k) by (apply Z.pow_pos_nonneg; lia).
      destruct (Z.leb_spec (den * 2 ^ k) num), (Z.leb_spec (den * (2 ^ k * 2 ^ J)) (num * 2 ^ J)); nia.
    - replace (2 ^ J) with (2 ^ (- k) * 2 ^ (k + J)) by (rewrite <- Z.pow_add_r by lia; f_equal; lia).
      assert (0 < 2 ^ (k + J)) by (apply Z.pow_pos_nonneg; lia).
      assert (0 < 2 ^ (- k)) by (apply Z.pow_pos_nonneg; lia).
      destruct (Z.leb_spec den (num * 2 ^ (- k))),
        (Z.leb_spec (den * 2 ^ (k + J)) (num * (2 ^ (- k) * 2 ^ (k + J)))); nia. }
  assert (0 <= k + J -> num * 2 ^ J < den * 2 ^ (k + J + 1)) as Hup.
  { intros HkJ. assert (2 ^ b * 2 ^ (k + J + 1) = 2 ^ (a + 1) * 2 ^ J) as E.
    { rewrite <- !Z.pow_add_r by lia. f_equal. lia. }
    assert (0 < 2 ^ (k + J + 1)) by (apply Z.pow_pos_nonneg; lia). nia. }
  assert (0 <= k - 1 + J -> den * 2 ^ (k - 1 + J) <= num * 2 ^ J) as Hdown.
  { intros HkJ. assert (2 ^ (b + 1) * 2 ^ (k - 1 + J) = 2 ^ a * 2 ^ J) as E.
    { rewrite <- !Z.pow_add_r by lia. f_equal. lia. }
    assert (0 < 2 ^ (k - 1 + J)) by (apply Z.pow_pos_nonneg; lia). nia. }
  destruct (if 0 <=? k then den * 2 ^ k <=? num else den <=? num * 2 ^ (- k)) eqn:Et; intros HkJ.
  - specialize (Htest HkJ). symmetry in Htest. bool_prop. split; [done|by apply Hup].
  - split; [by apply Hdown|]. specialize (Htest ltac:(lia)). symmetry in Htest. bool_prop.
    replace (k - 1 + J + 1) with (k + J) by lia. done.
Qed.

Lemma round_pos_bounds num den m e :
  0 < num -> 0 < den -> round_pos num den = Some (m, e) -> 0 < m ->
  num < den * 2 ^ 1026 /\ den <= num * 2 ^ 1076.
Proof.
  intros Hn Hd. unfold round_pos, minExp, maxExp.
  pose proof (log2_ratio_spec num den) as Hk. set (k := log2_ratio num den) in *.
  set (e0 := Z.max (k - 52) (-1074)). cbn zeta.
  set (q := _ / _). set (r := _ mod _). intros Hr Hm. split.
  - assert (k <= 1023) as Hk1.
    { revert Hr. destruct (_ =? 2 ^ 53);
        [destruct (Z.ltb_spec 971 (e0 + 1))|destruct (Z.ltb_spec 971 e0)]; intros [=]; lia. }
    destruct (Hk (Z.max 0 (- k))) as [_ H2]; [lia..|].
    assert (num * 2 ^ Z.max 0 (- k) < den * 2 ^ 1026 * 2 ^ Z.max 0 (- k)); [|nia].
    rewrite <- Z.mul_assoc, <- Z.pow_add_r by lia.
    eapply Z.lt_le_trans; [exact H2|]. apply Z.mul_le_mono_nonneg_l; [lia|].
    apply Z.pow_le_mono_r; lia.
  - destruct (Z_lt_le_dec k (-1076)) as [Hlt|Hge].
    + exfalso. assert (e0 = -1074) as He0 by lia. destruct (Hk (- k)) as [_ H2]; [lia..|].
      rewrite Z.add_opp_diag_r in H2. cbn in H2.
      assert (2 * (num * 2 ^ 1074) < den) as Hs.
      { replace (2 * (num * 2 ^ 1074)) with (num * 2 ^ 1075).
        2:{ change 1075 with (Z.succ 1074). rewrite Z.pow_succ_r; lia. }
        assert (num * 2 ^ 1075 * 2 ^ 1 < den * 2); [|lia].
        rewrite <- Z.mul_assoc, <- Z.pow_add_r by lia. eapply Z.le_lt_trans; [|exact H2].
        apply Z.mul_le_mono_nonneg_l; [lia|]. apply Z.pow_le_mono_r; lia. }
      assert (0 < num * 2 ^ 1074) by (assert (0 < 2 ^ 1074) by (apply Z.pow_pos_nonneg; lia); nia).
      assert (q = 0) as Hq.
      { unfold q. rewrite He0. change (0 <=? -1074) with false. cbv iota. apply Z.div_small.
        change (- -1074) with 1074. lia. }
      assert (r = num * 2 ^ 1074) as Hrr.
      { unfold r. rewrite He0. change (0 <=? -1074) with false. cbv iota. apply Z.mod_small.
        change (- -1074) with 1074. lia. }
      revert Hr. rewrite Hq, Hrr, He0. change (0 <=? -1074) with false. cbv iota.
      destruct (Z.ltb_spec den (2 * (num * 2 ^ 1074))); [lia|].
      destruct (Z.eqb_spec (2 * (num * 2 ^ 1074)) den); [lia|].
      cbn [orb andb]. change (0 =? 2 ^ 53) with false. cbv iota. destruct (971 <? -1074); [done|].
      intros [= <- _]. lia.
    + destruct (Hk (Z.max 0 (- k) + 1076)) as [H1 _]; [lia..|].
      assert (den * 2 ^ Z.max 0 (- k) <= num * 2 ^ 1076 * 2 ^ Z.max 0 (- k)); [|nia].
      rewrite <- Z.mul_assoc, <- Z.pow_add_r, (Z.add_comm 1076) by lia.
      etrans; [|exact H1]. apply Z.mul_le_mono_nonneg_l; [lia|]. apply Z.pow_le_mono_r; lia.
Qed.

Lemma digits_val_lt ds : all_digits ds = true -> 0 <= digits_val 0 ds < 10 ^ Z.of_nat (str_length ds).
Proof.
  induction ds as [|c ds IH]; cbn [all_digits digits_val str_length]; [done|].
  intros [Hc%digit_val_bounds Hds%IH]%andb_prop. rewrite digits_val_acc.
  rewrite Nat2Z.inj_succ, Z.pow_succ_r by lia. nia.
Qed.

Lemma digit_val_pos c : is_digit c = true -> c <> "0"%char -> 1 <= digit_val c.
Proof.
  intros Hc Hne. pose proof (digit_val_bounds c Hc). destruct (Z.eq_dec (digit_val c) 0) as [E|]; [|lia].
  destruct Hne. unfold digit_val, byte_val in E.
  rewrite <- (ascii_N_embedding c). assert (N_of_ascii c = 48%N) as -> by lia. done.
Qed.

Lemma digits_of_length n :
  0 < n -> let k := Z.of_nat (str_length (digits_of n)) in
  1 <= k /\ 10 ^ (k - 1) <= n < 10 ^ k.
Proof.
  intros Hn. destruct (digits_of_spec n) as (Hd & Hv & _ & Hpos & _); [lia|].
  destruct (Hpos Hn) as (c & r & E & Hc). rewrite E in *. cbn zeta. cbn [str_length].
  split; [lia|]. rewrite <- Hv. split; [|rewrite Hv, <- Hv; by apply digits_val_lt].
  cbn in Hd |- *. apply andb_prop in Hd as [Hd Hr]. rewrite digits_val_acc.
  pose proof (digits_val_lt r Hr). pose proof (digit_val_pos c Hd Hc).
  replace (Z.of_nat (S (str_length r)) - 1) with (Z.of_nat (str_length r)) by lia. nia.
Qed.

Lemma reads_back_exponent m e D p :
  0 < m -> reads_back m e (D, p) = true ->
  -1100 < p + Z.of_nat (str_length (digits_of D)) < 1100.
Proof.
  unfold reads_back. cbn [fst snd]. intros Hm [HD%Z.ltb_lt Hr%bool_decide_eq_true]%andb_prop.
  destruct (digits_of_length D HD) as (Hk1 & Hlo & Hhi). set (k := Z.of_nat (str_length (digits_of D))) in *.
  assert (2 ^ 1026 <= 10 ^ 1026) as H2 by (apply Z.pow_le_mono_l; lia).
  assert (2 ^ 1076 <= 10 ^ 1076) as H3 by (apply Z.pow_le_mono_l; lia).
  unfold round_dec in Hr. destruct (Z.leb_spec 0 p).
  - assert (0 < 10 ^ p) by (apply Z.pow_pos_nonneg; lia).
    apply round_pos_bounds in Hr as [Hr _]; [|nia|lia|done]. split; [lia|].
    assert (k - 1 + p < 1026); [|lia]. apply (Z.pow_lt_mono_r_iff 10); [lia..|].
    rewrite Z.pow_add_r by lia. nia.
  - assert (0 < 10 ^ (- p)) by (apply Z.pow_pos_nonneg; lia).
    apply round_pos_bounds in Hr as [Hr1 Hr2]; [|lia|lia|done]. split.
    + assert (- p < k + 1076 + 1); [|lia]. apply (Z.pow_lt_mono_r_iff 10); [lia..|].
      rewrite !Z.pow_add_r by lia. nia.
    + assert (k - 1 < - p + 1026); [|lia]. apply (Z.pow_lt_mono_r_iff 10); [lia..|].
      rewrite Z.pow_add_r by lia. nia.
Qed.

(** * The layouts are number texts *)

Lemma str_take_drop n s : str_take n s +:+ str_drop n s = s.
Proof.
  revert n. induction s as [|c s IH]; intros [|n]; cbn; [done..|]. rewrite str_app_cons. by rewrite IH.
Qed.

Lemma str_length_drop n s : str_length (str_drop n s) = (str_length s - n)%nat.
Proof. revert n. induction s as [|c s IH]; intros [|n]; cbn; [done..|]. apply IH. Qed.

Lemma str_length_zeros n : str_length (zeros n) = n.
Proof. induction n; cbn; congruence. Qed.

Lemma all_digits_zeros n : all_digits (zeros n) = true.
Proof. by induction n. Qed.

Lemma digits_val_zeros acc n : digits_val acc (zeros n) = acc * 10 ^ Z.of_nat n.
Proof.
  rewrite digits_val_acc, str_length_zeros.
  assert (digits_val 0 (zeros n) = 0) as ->; [|lia]. induction n; [done|]. by cbn.
Qed.

Lemma all_digits_split n s :
  all_digits s = true -> all_digits (str_take n s) = true /\ all_digits (str_drop n s) = true.
Proof. rewrite <- (str_take_drop n s) at 1. rewrite all_digits_app. by intros [? ?]%andb_prop. Qed.

Lemma digits_val_split n s : digits_val (digits_val 0 (str_take n s)) (str_drop n s) = digits_val 0 s.
Proof. by rewrite <- digits_val_app, str_take_drop. Qed.

Lemma is_empty_length s : is_empty s = (str_length s =? 0)%nat.
Proof. by destruct s. Qed.

Section Layout.
Context (D p : Z) (ds : string) (HD : 0 < D) (Hds : ds = digits_of D).

Lemma layout_digits :
  all_digits ds = true /\ digits_val 0 ds = D /\ 1 <= Z.of_nat (str_length ds) /\
  exists c r, ds = String c r /\ c <> "0"%char.
Proof.
  destruct (digits_of_spec D) as (Hd & Hv & _ & Hpos & _); [lia|].
  destruct (digits_of_length D HD) as (Hk1 & _ & _). rewrite Hds. auto.
Qed.

Lemma layout_integer :
  0 <= p ->
  let x := {| np_ip := ds +:+ zeros (Z.to_nat p); np_fp := ""; np_ex := None |} in
  np_text x = ds +:+ zeros (Z.to_nat p) /\ np_ok x /\ 0 < np_digits x /\
  round_dec (np_digits x) (np_power x) = round_dec D p.
Proof.
  intros Hp x. destruct layout_digits as (Hd & Hv & _ & c & r & E & Hc).
  assert (np_digits x = D * 10 ^ p) as HDx.
  { unfold np_digits. cbn. by rewrite digits_val_app, Hv, digits_val_zeros, Z2Nat.id. }
  assert (0 < 10 ^ p) by (apply Z.pow_pos_nonneg; lia).
  split_and!.
  - unfold np_text. cbn. by rewrite !str_app_nil_r.
  - split_and!; cbn; [by rewrite all_digits_app, all_digits_zeros, Hd|done| |done].
    right. rewrite E. by eexists _, _.
  - rewrite HDx. nia.
  - rewrite HDx. unfold round_dec, np_power. cbn. destruct (Z.leb_spec 0 p); [|lia].
    by rewrite Z.mul_1_r.
Qed.

Lemma layout_split (n : nat) ex :
  (0 < n <= str_length ds)%nat ->
  match ex with None => True | Some (_, es) => all_digits es = true /\ es <> "" /\ digits_val 0 es < 10000 end ->
  let x := {| np_ip := str_take n ds; np_fp := str_drop n ds; np_ex := ex |} in
  np_ok x /\ np_digits x = D.
Proof.
  intros Hn Hex x. destruct layout_digits as (Hd & Hv & _ & c & r & E & Hc).
  destruct (all_digits_split n ds Hd) as [??]. split.
  - split_and!; cbn; [done|done| |done]. right. rewrite E.
    destruct n as [|n]; [lia|]. by eexists _, _.
  - unfold np_digits. cbn. by rewrite digits_val_split.
Qed.

Lemma layout_np k :
  k = Z.of_nat (str_length ds) -> -1100 < p + k < 1100 ->
  exists x, layout ds (p + k) = np_text x /\ np_ok x /\ 0 < np_digits x /\
    round_dec (np_digits x) (np_power x) = round_dec D p.
Proof.
  intros Hk Hb. destruct layout_digits as (Hd & Hv & Hk1 & _).
  unfold layout. rewrite <- Hk in *.
  destruct ((k <=? p + k) && (p + k <=? 21)) eqn:C1.
  { bool_prop. destruct layout_integer as (? & ? & ? & ?); [lia|]. eexists. split_and!; [|done..].
    replace (p + k - k) with p by lia. done. }
  destruct ((0 <? p + k) && (p + k <=? 21)) eqn:C2.
  { bool_prop. assert (p < 0) by (apply andb_false_iff in C1 as [?|?]; bool_prop; lia).
    destruct (layout_split (Z.to_nat (p + k)) None) as (Hok & HDD); [lia|done|].
    eexists. split_and!; [|exact Hok|lia|].
    - unfold np_text. cbn [np_ip np_fp np_ex np_exp_text]. rewrite is_empty_length, str_length_drop.
      destruct (Nat.eqb_spec (str_length ds - Z.to_nat (p + k)) 0); [lia|]. by rewrite str_app_nil_r.
    - rewrite HDD. f_equal. unfold np_power. cbn. rewrite str_length_drop. lia. }
  destruct ((-6 <? p + k) && (p + k <=? 0)) eqn:C3.
  { bool_prop. exists {| np_ip := "0"; np_fp := zeros (Z.to_nat (- (p + k))) +:+ ds; np_ex := None |}.
    split_and!.
    - unfold np_text. cbn [np_ip np_fp np_ex np_exp_text]. rewrite is_empty_length, str_length_app.
      destruct (Nat.eqb_spec (str_length (zeros (Z.to_nat (- (p + k)))) + str_length ds) 0); [lia|].
      by rewrite str_app_nil_r.
    - split_and!; cbn; [done|by rewrite all_digits_app, all_digits_zeros|by left|done].
    - unfold np_digits. cbn [np_ip np_fp]. rewrite digits_val_app, digits_val_zeros.
      change (digits_val 0 "0") with 0. rewrite Z.mul_0_l. lia.
    - unfold np_digits, np_power. cbn [np_ip np_fp np_ex]. rewrite digits_val_app, digits_val_zeros.
      change (digits_val 0 "0") with 0. rewrite Z.mul_0_l, Hv. f_equal.
      rewrite str_length_app, str_length_zeros. lia. }
  destruct (digits_of_spec (Z.abs (p + k - 1))) as (He & Hev & Hne & _ & _); [lia|].
  destruct (layout_split 1 (Some (p + k - 1 <? 0, digits_of (Z.abs (p + k - 1))))) as (Hok & HDD);
    [lia|split_and!; [done..|lia]|].
  eexists. split_and!; [|exact Hok|lia|].
  - unfold np_text, np_exp_text. cbn [np_ip np_fp np_ex]. rewrite is_empty_length, str_length_drop.
    do 2 f_equal.
    { destruct (Z.ltb_spec 1 k), (Nat.eqb_spec (str_length ds - 1) 0); [lia|done|done|lia]. }
    f_equal. unfold Itoa. destruct (Z.ltb_spec (p + k - 1) 0), (Z.leb_spec 0 (p + k - 1)); try lia.
    + by rewrite Z.abs_neq by lia.
    + by rewrite Z.abs_eq by lia.
  - rewrite HDD. f_equal. unfold np_power. cbn [np_ex np_fp]. rewrite Hev, str_length_drop.
    destruct (Z.ltb_spec (p + k - 1) 0); lia.
Qed.
End Layout.

(** What [FormatNumberES6] writes for a non-zero double reads back as it. *)
Lemma FormatNumberES6_np f :
  f_wf f -> f_is_zero f = false ->
  exists x, FormatNumberES6 f = (if f_neg f then "-" else "") +:+ np_text x /\ np_ok x /\
    np_digits x <> 0 /\ round_dec (np_digits x) (np_power x) = Some (f_m f, f_e f).
Proof.
  intros Hwf Hz. unfold f_is_zero in Hz. bool_prop.
  destruct Hwf as [[? _]|Hc]; [done|]. pose proof Hc as (Hm & _ & _).
  pose proof (shortest_reads _ _ Hc) as Hs. unfold FormatNumberES6, f_is_zero.
  destruct (Z.eqb_spec (f_m f) 0); [done|]. destruct (shortest (f_m f) (f_e f)) as [D p].
  pose proof (reads_back_exponent _ _ _ _ (proj1 Hm) Hs) as Hb.
  unfold reads_back in Hs. cbn [fst snd] in Hs. apply andb_prop in Hs as [HD%Z.ltb_lt Hr%bool_decide_eq_true].
  destruct (layout_np D p _ HD eq_refl _ eq_refl Hb) as (x & Hx & Hok & Hpos & Hrd).
  exists x. rewrite <- Hx, Hrd. split_and!; [done|done|lia|done].
Qed.

(** * Reading gives canonical doubles *)

Lemma round_pos_wf num den m e :
  0 < num -> 0 < den -> round_pos num den = Some (m, e) -> m = 0 \/ f_canonical m e.
Proof.
  intros Hn Hd. unfold round_pos. pose proof (log2_ratio_spec num den) as Hk.
  set (k := log2_ratio num den) in *. set (e0 := Z.max (k - 52) minExp).
  cbn zeta. set (n := if 0 <=? e0 then num else num * 2 ^ (- e0)).
  set (d := if 0 <=? e0 then den * 2 ^ e0 else den).
  assert (0 < d) as Hd0.
  { unfold d. destruct (Z.leb_spec 0 e0); [|done]. assert (0 < 2 ^ e0) by (apply Z.pow_pos_nonneg; lia). nia. }
  assert (n < d * 2 ^ 53 /\ (e0 <> minExp -> d * 2 ^ 52 <= n)) as [Hhi Hlo].
  { unfold n, d, minExp in *. destruct (Z.leb_spec 0 e0).
    - destruct (Hk 0) as [H1 H2]; [lia..|]. change (2 ^ 0) with 1 in *.
      rewrite Z.add_0_r, Z.mul_1_r in H1, H2.
      assert (k = e0 + 52) as Hke by lia. rewrite Hke in H1, H2.
      rewrite (Z.pow_add_r 2 e0 52) in H1 by lia.
      rewrite <- Z.add_assoc, (Z.pow_add_r 2 e0 (52 + 1)) in H2 by lia. change (52 + 1) with 53 in H2.
      rewrite <- !Z.mul_assoc. auto.
    - destruct (Z_lt_le_dec k e0).
      + split; [|lia]. destruct (Hk (- k)) as [_ H2]; [lia..|].
        rewrite Z.add_opp_diag_r in H2. change (2 ^ (0 + 1)) with 2 in H2.
        assert (num * 2 ^ (- e0) * 2 ^ 1 <= num * 2 ^ (- k)).
        { rewrite <- Z.mul_assoc, <- Z.pow_add_r by lia. apply Z.mul_le_mono_nonneg_l; [lia|].
          apply Z.pow_le_mono_r; lia. }
        lia.
      + destruct (Hk (- e0)) as [H1 H2]; [lia..|]. split.
        * eapply Z.lt_le_trans; [exact H2|]. apply Z.mul_le_mono_nonneg_l; [lia|]. apply Z.pow_le_mono_r; lia.
        * intros ?. etrans; [|exact H1]. apply Z.mul_le_mono_nonneg_l; [lia|]. apply Z.pow_le_mono_r; lia. }
  assert (0 <= n) as Hn0.
  { unfold n. destruct (Z.leb_spec 0 e0); [lia|]. assert (0 < 2 ^ (- e0)) by (apply Z.pow_pos_nonneg; lia). nia. }
  assert (0 <= n / d < 2 ^ 53) as Hq.
  { split; [apply Z.div_pos; lia|]. apply Z.div_lt_upper_bound; lia. }
  assert (e0 <> minExp -> 2 ^ 52 <= n / d) as Hq52.
  { intros He. apply Z.div_le_lower_bound; [done|]. by apply Hlo. }
  match goal with |- context [if ?c then n / d + 1 else n / d] => set (q' := if c then n / d + 1 else n / d) end.
  assert (n / d <= q' <= n / d + 1) as Hq'.
  { unfold q'. destruct (_ || _); lia. }
  destruct (Z.eqb_spec q' (2 ^ 53)) as [E|E];
    [destruct (Z.ltb_spec maxExp (e0 + 1))|destruct (Z.ltb_spec maxExp e0)]; intros [= <- <-].
  - right. unfold f_canonical, minExp, maxExp in *. lia.
  - destruct (Z.eq_dec q' 0); [by left|right]. unfold f_canonical, minExp, maxExp in *.
    split_and!; lia.
Qed.

Lemma span_digits_all s ds r : span_digits s = (ds, r) -> all_digits ds = true /\ s = ds +:+ r.
Proof.
  revert ds. induction s as [|c s IH]; intros ds; cbn; [by intros [= <- <-]|].
  destruct (is_digit c) eqn:Hc; [|by intros [= <- <-]].
  destruct (span_digits s) as [ds' r'] eqn:E. intros [= <- <-]. cbn. rewrite Hc.
  destruct (IH ds' eq_refl) as [-> ->]. done.
Qed.

Lemma read_float_nonneg s neg D p : read_float s = (neg, D, p) -> 0 <= D.
Proof.
  unfold read_float. destruct (match s with String _ _ => _ | _ => _ end) as [neg' s'].
  destruct (span_digits s') as [ip r] eqn:E1. apply span_digits_all in E1 as [H1 _].
  destruct (match r with String _ _ => _ | _ => _ end) as [fp r'] eqn:E2.
  assert (all_digits fp = true) as H2.
  { destruct r as [|c r]; [by injection E2 as <- <-|].
    destruct c as [[][][][][][][][]]; try (by injection E2 as <- <-).
    by apply span_digits_all in E2 as [? _]. }
  intros [= _ <- _]. rewrite digits_val_acc.
  pose proof (digits_val_lt ip H1). pose proof (digits_val_lt fp H2).
  assert (0 < 10 ^ Z.of_nat (str_length fp)) by (apply Z.pow_pos_nonneg; lia). nia.
Qed.

Lemma ParseFloat_wf s f : ParseFloat s = Some f -> f_wf f.
Proof.
  unfold ParseFloat. destruct (read_float s) as [[neg D] p] eqn:E. apply read_float_nonneg in E.
  destruct (Z.eqb_spec D 0); [intros [= <-]; by left|].
  destruct (round_dec D p) as [[m e]|] eqn:Er; [|done]. intros [= <-]. unfold f_wf. cbn.
  destruct (Z.eqb_spec m 0) as [->|Hm]; [by left|right].
  unfold round_dec in Er. destruct (Z.leb_spec 0 p).
  - assert (0 < 10 ^ p) by (apply Z.pow_pos_nonneg; lia).
    apply round_pos_wf in Er as [?|?]; [done|done|nia|lia].
  - apply round_pos_wf in Er as [?|?]; [done|done|lia|apply Z.pow_pos_nonneg; lia].
Qed.

(** [-0] and [0] are one JSON number. *)
Definition f_norm (f : float64) : float64 := if f_is_zero f then f_zero else f.

Lemma f_norm_idem f : f_norm (f_norm f) = f_norm f.
Proof. unfold f_norm. destruct (f_is_zero f) eqn:E; [done|by rewrite E]. Qed.

Lemma f_norm_wf f : f_wf f -> f_wf (f_norm f).
Proof. unfold f_norm. destruct (f_is_zero f); [by left|done]. Qed.

Lemma Format_norm f : FormatNumberES6 (f_norm f) = FormatNumberES6 f.
Proof. unfold f_norm. destruct (f_is_zero f) eqn:E; [|done]. unfold FormatNumberES6. by rewrite E. Qed.

(** Every double has a number text [ip.fp e x] that reads back as it. *)
Lemma Format_parts f :
  f_wf f -> exists neg x, FormatNumberES6 f = (if (neg : bool) then "-" else "") +:+ np_text x /\ np_ok x /\
    ParseFloat (FormatNumberES6 f) = Some (f_norm f).
Proof.
  intros Hwf. unfold f_norm. destruct (f_is_zero f) eqn:Hz.
  - exists false, {| np_ip := "0"; np_fp := ""; np_ex := None |}. unfold FormatNumberES6. rewrite Hz.
    split_and!; [done| |done]. split_and!; cbn; auto.
  - destruct (FormatNumberES6_np f Hwf Hz) as (x & Hx & Hok & Hne & Hr).
    exists (f_neg f), x. split_and!; [done..|]. rewrite Hx. unfold ParseFloat.
    rewrite read_float_np by done. destruct (Z.eqb_spec (np_digits x) 0); [done|].
    rewrite Hr. unfold f_is_zero in Hz. rewrite Hz. by destruct f.
Qed.

(** Numbers survive the trip: [FormatNumberES6] writes a JSON number text that
    [ParseFloat] reads back as the same finite double (both zeros as [0]). *)
Theorem format_number_roundtrip f :
  f_wf f -> ParseFloat (FormatNumberES6 f) = Some (f_norm f).
Proof. intros (neg & x & _ & _ & H)%Format_parts. exact H. Qed.

Lemma format_number_roundtrip_witness :
  let f := {| f_neg := true; f_m := 7205759403792794; f_e := -56 |} in
  FormatNumberES6 f = "-0.1" /\ ParseFloat (FormatNumberES6 f) = Some f.
Proof.
  split; [vm_compute; reflexivity|].
  apply (format_number_roundtrip {| f_neg := true; f_m := 7205759403792794; f_e := -56 |}).
  right. unfold f_canonical, minExp, maxExp. cbn. lia.
Defined.
