(* ===== verification/Utf8.v ===== *)
(** UTF-8 and UTF-16 as packages [unicode/utf8] and [unicode/utf16] define
    them: the decoder the JSON parser validates strings with, the encoder of
    [strings.Builder.WriteRune], and the code units member names are ordered
    by. *)

From stdpp Require Import base list strings.
From Stdlib Require Import Ascii.
From S2P Require Import Prelude.

(** * Bytes *)

Definition byte_of (z : Z) : ascii := ascii_of_N (Z.to_N z).

Lemma byte_val_of z : 0 <= z < 256 -> byte_val (byte_of z) = z.
Proof.
  intros H. unfold byte_val, byte_of. rewrite N_ascii_embedding; lia.
Qed.

Lemma byte_of_val c : byte_of (byte_val c) = c.
Proof. unfold byte_val, byte_of. rewrite N2Z.id. apply ascii_N_embedding. Qed.

Lemma byte_val_bounds c : 0 <= byte_val c < 256.
Proof.
  unfold byte_val. pose proof (N_ascii_bounded c). lia.
Qed.

Lemma byte_val_inj a b : byte_val a = byte_val b -> a = b.
Proof. intros H. by rewrite <- (byte_of_val a), <- (byte_of_val b), H. Qed.

(** * UTF-8 *)

Definition in_range (lo hi : Z) (c : ascii) : bool :=
  (lo <=? byte_val c) && (byte_val c <=? hi).

Definition cont : ascii -> bool := in_range 128 191.

(** [utf8.DecodeRune]: the first rune and its size; [None] where Go returns
    [RuneError] with size 0 or 1. *)
Definition DecodeRune (s : string) : option (Z * nat) :=
  match s with
  | "" => None
  | String c0 s1 =>
      let b0 := byte_val c0 in
      if b0 <? 128 then Some (b0, 1%nat)
      else match s1 with
      | "" => None
      | String c1 s2 =>
          let b1 := byte_val c1 in
          if in_range 194 223 c0 then
            if cont c1 then Some ((b0 - 192) * 64 + (b1 - 128), 2%nat) else None
          else match s2 with
          | "" => None
          | String c2 s3 =>
              let b2 := byte_val c2 in
              if in_range 224 239 c0 then
                if in_range (if b0 =? 224 then 160 else 128) (if b0 =? 237 then 159 else 191) c1 && cont c2
                then Some ((b0 - 224) * 4096 + (b1 - 128) * 64 + (b2 - 128), 3%nat) else None
              else match s3 with
              | "" => None
              | String c3 _ =>
                  let b3 := byte_val c3 in
                  if in_range 240 244 c0 &&
                     in_range (if b0 =? 240 then 144 else 128) (if b0 =? 244 then 143 else 191) c1 &&
                     cont c2 && cont c3
                  then Some ((b0 - 240) * 262144 + (b1 - 128) * 4096 + (b2 - 128) * 64 + (b3 - 128), 4%nat)
                  else None
              end
          end
      end
  end.

(** A Unicode scalar value. *)
Definition scalar (r : Z) : Prop := 0 <= r < 55296 \/ 57344 <= r < 1114112.

(** [utf8.EncodeRune] on scalar values. *)
Definition EncodeRune (r : Z) : string :=
  if r <? 128 then String (byte_of r) ""
  else if r <? 2048 then
    String (byte_of (192 + r / 64)) (String (byte_of (128 + r mod 64)) "")
  else if r <? 65536 then
    String (byte_of (224 + r / 4096))
      (String (byte_of (128 + r / 64 mod 64)) (String (byte_of (128 + r mod 64)) ""))
  else
    String (byte_of (240 + r / 262144))
      (String (byte_of (128 + r / 4096 mod 64))
         (String (byte_of (128 + r / 64 mod 64)) (String (byte_of (128 + r mod 64)) ""))).

Ltac utf8_cases :=
  repeat match goal with
  | H : context [if ?b then _ else _] |- _ => destruct b eqn:?; try discriminate H
  | H : context [match ?x with "" => _ | String _ _ => _ end] |- _ => destruct x eqn:?; try discriminate H
  end; unfold cont, in_range in *; bool_prop.

Lemma byte_of_eq c z : byte_val c = z -> byte_of z = c.
Proof. intros <-. apply byte_of_val. Qed.

Ltac bytes_bounds :=
  repeat match goal with
  | c : ascii |- _ =>
      lazymatch goal with
      | _ : 0 <= byte_val c < 256 |- _ => fail
      | _ => pose proof (byte_val_bounds c)
      end
  end.

Lemma str_cons_eq c c' s s' : c = c' -> s = s' -> String c s = String c' s'.
Proof. by intros -> ->. Qed.

(** What the decoder accepts is the encoding of a scalar value. *)
Lemma DecodeRune_inv s r n :
  DecodeRune s = Some (r, n) ->
  exists rest, s = EncodeRune r +:+ rest /\ n = str_length (EncodeRune r) /\ scalar r.
Proof.
  intros H. destruct s as [|c0 s]; [done|].
  unfold DecodeRune in H. utf8_cases; injection H as <- <-; bytes_bounds; unfold EncodeRune, scalar.
  all: repeat match goal with
       | H : context [if ?b then _ else _] |- _ => destruct b eqn:?
       end; bool_prop.
  all: repeat match goal with
       | |- context [?a <? ?b] => destruct (Z.ltb_spec a b); try (exfalso; lia)
       end.
  all: try lia.
  all: eexists; split; [rewrite !str_app_cons; repeat (apply str_cons_eq; [symmetry; apply byte_of_eq; Z.div_mod_to_equations; lia|]); reflexivity|split; [reflexivity|lia]].
Qed.

Ltac decide_bools :=
  repeat match goal with
  | |- context [?a =? ?b] => destruct (Z.eqb_spec a b); try (exfalso; Z.div_mod_to_equations; lia)
  | |- context [?a <? ?b] => destruct (Z.ltb_spec a b); try (exfalso; Z.div_mod_to_equations; lia)
  | |- context [?a <=? ?b] => destruct (Z.leb_spec a b); try (exfalso; Z.div_mod_to_equations; lia)
  end.

(** Every scalar value is decoded from its encoding, whatever follows. *)
Lemma DecodeRune_Encode r rest :
  scalar r -> DecodeRune (EncodeRune r +:+ rest) = Some (r, str_length (EncodeRune r)).
Proof.
  unfold scalar, EncodeRune. intros H.
  repeat match goal with
  | |- context [?a <? ?b] => destruct (Z.ltb_spec a b)
  end; rewrite !str_app_cons; unfold DecodeRune, cont, in_range; rewrite !byte_val_of by (Z.div_mod_to_equations; lia).
  all: decide_bools; cbn [andb str_length]; f_equal; f_equal; Z.div_mod_to_equations; lia.
Qed.

(** Valid UTF-8. *)
Inductive valid_utf8 : string -> Prop :=
  | valid_nil : valid_utf8 ""
  | valid_rune r s : scalar r -> valid_utf8 s -> valid_utf8 (EncodeRune r +:+ s).

Lemma valid_utf8_app a b : valid_utf8 a -> valid_utf8 b -> valid_utf8 (a +:+ b).
Proof.
  intros Ha Hb. induction Ha as [|r s Hr _ IH]; [done|].
  rewrite str_app_assoc. by constructor.
Qed.

Lemma valid_one r : scalar r -> valid_utf8 (EncodeRune r).
Proof. intros H. rewrite <- (str_app_nil_r (EncodeRune r)). constructor; [done|constructor]. Qed.

Lemma EncodeRune_cons r : exists c u, EncodeRune r = String c u.
Proof. unfold EncodeRune. repeat case_match; eauto. Qed.

Lemma EncodeRune_ascii c : byte_val c < 128 -> EncodeRune (byte_val c) = String c "".
Proof.
  intros H. unfold EncodeRune. destruct (Z.ltb_spec (byte_val c) 128); [|lia]. by rewrite byte_of_val.
Qed.

(** The bytes of a rune outside ASCII are outside ASCII. *)
Fixpoint all_high (s : string) : Prop :=
  match s with "" => True | String c s => 128 <= byte_val c /\ all_high s end.

Lemma EncodeRune_high r : scalar r -> 128 <= r -> all_high (EncodeRune r).
Proof.
  intros Hs Hr. unfold scalar in Hs. unfold EncodeRune.
  repeat match goal with |- context [?a <? ?b] => destruct (Z.ltb_spec a b) end;
    cbn; rewrite ?byte_val_of by (Z.div_mod_to_equations; lia); Z.div_mod_to_equations; lia.
Qed.

(** [ []rune(s) ]: a byte that starts no rune becomes U+FFFD. *)
Fixpoint runes_fuel (fuel : nat) (s : string) : list Z :=
  match fuel with
  | O => []
  | S fuel =>
      match s with
      | "" => []
      | String _ s' =>
          match DecodeRune s with
          | Some (r, n) => r :: runes_fuel fuel (str_drop n s)
          | None => 65533 :: runes_fuel fuel s'
          end
      end
  end.

Definition runes (s : string) : list Z := runes_fuel (str_length s) s.

Lemma str_drop_app a b : str_drop (str_length a) (a +:+ b) = b.
Proof. induction a as [|c a IH]; [by destruct b|]. rewrite str_app_cons. done. Qed.

Lemma runes_fuel_rune fuel r s :
  scalar r -> runes_fuel (S fuel) (EncodeRune r +:+ s) = r :: runes_fuel fuel s.
Proof.
  intros Hr. destruct (EncodeRune_cons r) as (c & u & E). cbn [runes_fuel].
  pose proof (DecodeRune_Encode r s Hr) as Hd. pose proof (str_drop_app (EncodeRune r) s) as Hdrop.
  rewrite E, str_app_cons in *. by rewrite Hd, Hdrop.
Qed.

Lemma runes_inj_fuel n m a b :
  valid_utf8 a -> valid_utf8 b -> (str_length a <= n)%nat -> (str_length b <= m)%nat ->
  runes_fuel n a = runes_fuel m b -> a = b.
Proof.
  intros Ha. revert n m b. induction Ha as [|r a Hr Ha IH]; intros n m b Hb Hn Hm He.
  - destruct Hb as [|r b Hr Hb]; [done|]. exfalso. destruct (EncodeRune_cons r) as (c & u & E).
    rewrite str_length_app, E in Hm. cbn in Hm. destruct m as [|m]; [lia|].
    rewrite runes_fuel_rune in He by done. by destruct n.
  - destruct (EncodeRune_cons r) as (c & u & E).
    rewrite str_length_app, E in Hn. cbn in Hn. destruct n as [|n]; [lia|].
    rewrite runes_fuel_rune in He by done.
    destruct Hb as [|r' b Hr' Hb]; [by destruct m|].
    destruct (EncodeRune_cons r') as (c' & u' & E').
    rewrite str_length_app, E' in Hm. cbn in Hm. destruct m as [|m]; [lia|].
    rewrite runes_fuel_rune in He by done. injection He as <- He.
    f_equal. eapply (IH n m); [done|lia|lia|done].
Qed.

Lemma runes_inj a b : valid_utf8 a -> valid_utf8 b -> runes a = runes b -> a = b.
Proof. intros. by eapply runes_inj_fuel. Qed.

Lemma runes_scalar_fuel n s : Forall scalar (runes_fuel n s).
Proof.
  revert s. induction n as [|n IH]; intros s; cbn; [constructor|].
  destruct s as [|c s]; [constructor|]. destruct (DecodeRune _) as [[r k]|] eqn:E.
  - apply DecodeRune_inv in E as (? & _ & _ & Hr). by constructor.
  - constructor; [right; lia|done].
Qed.

(** * UTF-16 *)

(** [utf16.Encode]. *)
Definition units16 (r : Z) : list Z :=
  if r <? 65536 then [r]
  else [55296 + (r - 65536) / 1024; 56320 + (r - 65536) mod 1024].

Definition utf16_Encode (rs : list Z) : list Z := flat_map units16 rs.

(** [utf16.IsSurrogate] and [utf16.DecodeRune]; [None] is [RuneError]. *)
Definition IsSurrogate (r : Z) : bool := (55296 <=? r) && (r <? 57344).

Definition utf16_DecodeRune (r1 r2 : Z) : option Z :=
  if (55296 <=? r1) && (r1 <? 56320) && (56320 <=? r2) && (r2 <? 57344)
  then Some ((r1 - 55296) * 1024 + (r2 - 56320) + 65536) else None.

Lemma utf16_Encode_inj a b :
  Forall scalar a -> Forall scalar b -> utf16_Encode a = utf16_Encode b -> a = b.
Proof.
  intros Ha. revert b. induction Ha as [|r a Hr _ IH]; intros b Hb He.
  - destruct Hb as [|r b Hr _]; [done|]. cbn in He. unfold units16 in He. by destruct (r <? 65536).
  - destruct Hb as [|r' b Hr' Hb].
    { cbn in He. unfold units16 in He. by destruct (r <? 65536). }
    cbn in He. unfold units16 in He. unfold scalar in *.
    destruct (Z.ltb_spec r 65536), (Z.ltb_spec r' 65536); cbn in He; injection He as H1; simplify_eq.
    + f_equal. auto.
    + exfalso. Z.div_mod_to_equations. lia.
    + exfalso. Z.div_mod_to_equations. lia.
    + f_equal; [Z.div_mod_to_equations; lia|auto].
Qed.
