(* ===== verification/Json.v ===== *)
(** RFC 8785 canonical JSON (internal/igagov/canonical.go): the strict I-JSON
    parser, the member order by UTF-16 code units, the canonical writer, and
    [Canonicalize].

    The parser of the code keeps a position in a byte slice; here every routine
    takes the unread suffix and returns the one it leaves. Error messages are
    kept without the offset the code prints. *)

From stdpp Require Import base list strings sorting.
From Stdlib Require Import Ascii.
From S2P Require Import Prelude Slices Float64 Utf8.

(** * Values *)

(* src: internal/igagov/canonical.go:52-64 (jsonValue, jsonMember) *)
Inductive json :=
  | JNull
  | JBool (b : bool)
  | JNumber (num : float64)
  | JString (str : string)
  | JArray (arr : list json)
  | JObject (obj : list (string * json)).

(* src: internal/igagov/canonical.go:35-35 (maxJSONDepth) *)
Definition maxJSONDepth : nat := 512.

(** * The parser *)

Definition is_char (n : N) (c : ascii) : bool := (N_of_ascii c =? n)%N.

(** The suffix after a first byte [n], when [s] starts with it. *)
Definition eat (n : N) (s : string) : option string :=
  match s with String c r => if is_char n c then Some r else None | "" => None end.

Definition quote : ascii := "034".
Definition backslash : ascii := "092".

(** JSON texts of examples, with apostrophes for quotes. *)
Fixpoint quoted (s : string) : string :=
  match s with
  | "" => ""
  | String c s => String (if is_char 39 c then quote else c) (quoted s)
  end.

(* src: internal/igagov/canonical.go:71-73 (jsonParser.fail) *)
Definition fail {A} (msg : string) : result A := Err (ErrNotIJSON msg).

(** Raised by no input: the fuel given suffices ([parse_fuel_enough]). *)
Definition out_of_fuel : goError := ErrOther "json: out of fuel".

Definition is_ws (c : ascii) : bool :=
  is_char 32 c || is_char 9 c || is_char 10 c || is_char 13 c.

(* src: internal/igagov/canonical.go:75-84 (jsonParser.skipWS) *)
Fixpoint skipWS (s : string) : string :=
  match s with
  | String c s' => if is_ws c then skipWS s' else s
  | "" => ""
  end.

(* src: internal/igagov/canonical.go:134-140 (jsonParser.literal) *)
Definition literal (word : string) (v : json) (s : string) : result (json * string) :=
  if HasPrefix s word then Ok (v, str_drop (str_length word) s) else fail "invalid literal".

(** The text of a number and the suffix after it. *)
Definition scan_sign (s : string) : string * string :=
  match eat 45 s with Some r => ("-", r) | None => ("", s) end.

Definition scan_int (s : string) : result (string * string) :=
  match eat 48 s with
  | Some r => Ok ("0", r)
  | None =>
      let '(ds, r) := span_digits s in
      if is_empty ds then fail "invalid number" else Ok (ds, r)
  end.

Definition scan_frac (s : string) : result (string * string) :=
  match eat 46 s with
  | Some r =>
      let '(ds, r) := span_digits r in
      if is_empty ds then fail "invalid fraction" else Ok ("." +:+ ds, r)
  | None => Ok ("", s)
  end.

Definition scan_exp (s : string) : result (string * string) :=
  match s with
  | String c r =>
      if is_char 101 c || is_char 69 c then
        let '(sg, r) :=
          match eat 43 r with Some r => ("+", r) | None => scan_sign r end in
        let '(ds, r) := span_digits r in
        if is_empty ds then fail "invalid exponent" else Ok (String c (sg +:+ ds), r)
      else Ok ("", s)
  | "" => Ok ("", s)
  end.

(* src: internal/igagov/canonical.go:142-174 (jsonParser.number, scanning) *)
Definition scan_number (s : string) : result (string * string) :=
  let '(sign, s) := scan_sign s in
  '(ip, s) ← scan_int s;
  '(fp, s) ← scan_frac s;
  '(ex, s) ← scan_exp s;
  Ok (sign +:+ ip +:+ fp +:+ ex, s).

(* src: internal/igagov/canonical.go:142-180 (jsonParser.number) *)
Definition number (s : string) : result (json * string) :=
  '(text, r) ← scan_number s;
  match ParseFloat text with
  | Some f => Ok (JNumber f, r)
  | None => fail "number is not an IEEE 754 double"
  end.

(* src: internal/igagov/canonical.go:182-192 (hexVal) *)
Definition hexVal (c : ascii) : option Z :=
  let n := byte_val c in
  if (48 <=? n) && (n <=? 57) then Some (n - 48)
  else if (97 <=? n) && (n <=? 102) then Some (n - 97 + 10)
  else if (65 <=? n) && (n <=? 70) then Some (n - 65 + 10)
  else None.

(* src: internal/igagov/canonical.go:194-208 (jsonParser.hex4) *)
Definition hex4 (s : string) : result (Z * string) :=
  match s with
  | String a (String b (String c (String d r))) =>
      match hexVal a, hexVal b, hexVal c, hexVal d with
      | Some a, Some b, Some c, Some d => Ok (((a * 16 + b) * 16 + c) * 16 + d, r)
      | _, _, _, _ => fail "invalid \u escape"
      end
  | _ => fail "short \u escape"
  end.

(** The escape after a backslash: the bytes it stands for and the suffix. *)
(* src: internal/igagov/canonical.go:222-265 (jsonParser.string, escapes) *)
Definition escape (s : string) : result (string * string) :=
  match s with
  | "" => fail "unterminated escape"
  | String e s =>
      if is_char 34 e || is_char 92 e || is_char 47 e then Ok (String e "", s)
      else if is_char 98 e then Ok (String "008" "", s)
      else if is_char 102 e then Ok (String "012" "", s)
      else if is_char 110 e then Ok (String "010" "", s)
      else if is_char 114 e then Ok (String "013" "", s)
      else if is_char 116 e then Ok (String "009" "", s)
      else if is_char 117 e then
        '(r, s) ← hex4 s;
        if IsSurrogate r then
          if (56320 <=? r) || negb (HasPrefix s "\u") then fail "lone surrogate"
          else
            '(r2, s) ← hex4 (str_drop 2 s);
            match utf16_DecodeRune r r2 with
            | Some r => Ok (EncodeRune r, s)
            | None => fail "lone surrogate"
            end
        else Ok (EncodeRune r, s)
      else fail "invalid escape"
  end.

(** The loop of [jsonParser.string], after the opening quote. *)
(* src: internal/igagov/canonical.go:210-280 (jsonParser.string) *)
Fixpoint string_loop (fuel : nat) (s : string) : result (string * string) :=
  match fuel with
  | O => Err out_of_fuel
  | S fuel =>
      match s with
      | "" => fail "unterminated string"
      | String c s' =>
          if is_char 34 c then Ok ("", s')
          else if is_char 92 c then
            '(u, s) ← escape s';
            '(t, s) ← string_loop fuel s; Ok (u +:+ t, s)
          else if byte_val c <? 32 then fail "unescaped control character"
          else if byte_val c <? 128 then
            '(t, s) ← string_loop fuel s'; Ok (String c t, s)
          else
            match DecodeRune s with
            | None => fail "invalid UTF-8"
            | Some (_, size) =>
                '(t, r) ← string_loop fuel (str_drop size s);
                Ok (str_take size s +:+ t, r)
            end
      end
  end.

Definition string_lit (s : string) : result (string * string) :=
  string_loop (S (str_length s)) s.

(** [value], and the loops of [array] and [object] after the first bracket;
    [seen] holds the member names read so far. *)
(* src: internal/igagov/canonical.go:103-132 (jsonParser.value) *)
Fixpoint value (fuel : nat) (depth : nat) (s : string) {struct fuel} : result (json * string) :=
  match fuel with
  | O => Err out_of_fuel
  | S fuel =>
      if (maxJSONDepth <? depth)%nat then fail "nesting deeper than 512" else
      match s with
      | "" => fail "unexpected end of input"
      | String c s' =>
          if is_char 123 c then
            match eat 125 (skipWS s') with
            | Some r => Ok (JObject [], r)
            | None => '(ms, r) ← object_loop fuel depth [] (skipWS s'); Ok (JObject ms, r)
            end
          else if is_char 91 c then
            match eat 93 (skipWS s') with
            | Some r => Ok (JArray [], r)
            | None => '(vs, r) ← array_loop fuel depth (skipWS s'); Ok (JArray vs, r)
            end
          else if is_char 34 c then '(t, r) ← string_lit s'; Ok (JString t, r)
          else if is_char 116 c then literal "true" (JBool true) s
          else if is_char 102 c then literal "false" (JBool false) s
          else if is_char 110 c then literal "null" JNull s
          else if is_char 45 c || is_digit c then number s
          else fail "unexpected character"
      end
  end
(* src: internal/igagov/canonical.go:282-311 (jsonParser.array) *)
with array_loop (fuel : nat) (depth : nat) (s : string) {struct fuel} : result (list json * string) :=
  match fuel with
  | O => Err out_of_fuel
  | S fuel =>
      '(v, s) ← value fuel (S depth) (skipWS s);
      match skipWS s with
      | "" => fail "unterminated array"
      | String c r =>
          if is_char 44 c then '(vs, r) ← array_loop fuel depth r; Ok (v :: vs, r)
          else if is_char 93 c then Ok ([v], r)
          else fail "expected , or ]"
      end
  end
(* src: internal/igagov/canonical.go:313-360 (jsonParser.object) *)
with object_loop (fuel : nat) (depth : nat) (seen : list string) (s : string) {struct fuel}
  : result (list (string * json) * string) :=
  match fuel with
  | O => Err out_of_fuel
  | S fuel =>
      match eat 34 (skipWS s) with
      | Some s =>
          '(k, s) ← string_lit s;
          if bool_decide (k ∈ seen) then fail "duplicate member name" else
          match eat 58 (skipWS s) with
          | Some s =>
              '(v, s) ← value fuel (S depth) (skipWS s);
              match skipWS s with
              | "" => fail "unterminated object"
              | String c r =>
                  if is_char 44 c then
                    '(ms, r) ← object_loop fuel depth (k :: seen) r; Ok ((k, v) :: ms, r)
                  else if is_char 125 c then Ok ([(k, v)], r)
                  else fail "expected , or }"
              end
          | None => fail "expected :"
          end
      | None => fail "expected member name"
      end
  end.

(** Each byte is entered at most twice, by a loop and by [value]. *)
Definition parse_fuel (s : string) : nat := (2 * str_length s + 2)%nat.

(* src: internal/igagov/canonical.go:89-101 (parseJSON) *)
Definition parseJSON (data : string) : result json :=
  let s := skipWS data in
  '(v, s) ← value (parse_fuel s) 0 s;
  if is_empty (skipWS s) then Ok v else fail "trailing data".

(** * The canonical writer *)

Fixpoint units_lt (a b : list Z) : bool :=
  match a, b with
  | x :: a, y :: b => if x =? y then units_lt a b else x <? y
  | [], _ :: _ => true
  | _, [] => false
  end.

(* src: internal/igagov/canonical.go:365-373 (lessUTF16) *)
Definition lessUTF16 (a b : string) : bool :=
  units_lt (utf16_Encode (runes a)) (utf16_Encode (runes b)).

Definition hexdigit (n : Z) : ascii :=
  byte_of (if n <? 10 then 48 + n else 97 + (n - 10)).

Definition escape_byte (c : ascii) : string :=
  if is_char 34 c then String backslash (String quote "")
  else if is_char 92 c then String backslash (String backslash "")
  else if is_char 8 c then "\b"
  else if is_char 12 c then "\f"
  else if is_char 10 c then "\n"
  else if is_char 13 c then "\r"
  else if is_char 9 c then "\t"
  else if byte_val c <? 32 then
    "\u00" +:+ String (hexdigit (Z.shiftr (byte_val c) 4)) (String (hexdigit (Z.land (byte_val c) 15)) "")
  else String c "".

Fixpoint escape_string (s : string) : string :=
  match s with "" => "" | String c s => escape_byte c +:+ escape_string s end.

(* src: internal/igagov/canonical.go:419-450 (writeCanonicalString) *)
Definition writeCanonicalString (s : string) : string :=
  String quote (escape_string s +:+ String quote "").

(** The order of members: [lessUTF16] of their names. *)
Definition member_less {B} : string * B -> string * B -> bool :=
  fun m1 m2 => lessUTF16 m1.1 m2.1.

Definition write_member (m : string * string) : string :=
  writeCanonicalString m.1 +:+ ":" +:+ m.2.

Definition map_snd {A B} (g : A -> B) (m : string * A) : string * B := (m.1, g m.2).

(** Members are sorted by name only, so writing the values before sorting
    gives the same text. *)
(* src: internal/igagov/canonical.go:375-413 (jsonValue.writeCanonical) *)
Fixpoint writeCanonical (v : json) : string :=
  match v with
  | JNull => "null"
  | JBool true => "true"
  | JBool false => "false"
  | JNumber f => FormatNumberES6 f
  | JString s => writeCanonicalString s
  | JArray l => "[" +:+ Join (map writeCanonical l) "," +:+ "]"
  | JObject ms =>
      "{" +:+
      Join (map write_member (sort_slice member_less (map (map_snd writeCanonical) ms))) ","
      +:+ "}"
  end.

(* src: internal/igagov/canonical.go:504-512 (Canonicalize) *)
Definition Canonicalize (data : string) : result string :=
  v ← parseJSON data; Ok (writeCanonical v).

(* src: internal/igagov/canonical.go:532-537 (checkStorable) *)
Definition checkStorable (canonical : string) : result unit :=
  if Contains canonical "\u0000" then Err ErrNotStorable else Ok tt.
