(* ===== verification/JsonCanon.v ===== *)
(** The theory of Json: the parser consumes its input and never runs out of
    fuel, returns well-formed values only, reads canonical text back, and
    [Canonicalize] is a normal form for JSON values up to member order. *)

From stdpp Require Import base list strings sorting.
From Stdlib Require Import Ascii.
From S2P Require Import Prelude Slices Float64 Utf8 Json.

(** * Termination *)

(** [inv_bind H] takes apart a bind that returned a pair. *)
Ltac inv_bind H :=
  let a := fresh "a" in let b := fresh "b" in let Ha := fresh "Hb" in
  apply bind_Ok in H as ([a b] & Ha & H).

Lemma skipWS_len s : (str_length (skipWS s) <= str_length s)%nat.
Proof. induction s as [|c s IH]; cbn; [lia|]. destruct (is_ws c); cbn; lia. Qed.

Lemma str_drop_len n s : (str_length (str_drop n s) <= str_length s)%nat.
Proof. rewrite str_length_drop. lia. Qed.

Lemma HasPrefix_app s p : HasPrefix s p = true -> exists r, s = p +:+ r.
Proof.
  revert s. induction p as [|a p IH]; intros s H; [by exists s|].
  destruct s as [|b s]; [done|]. cbn in H. bool_prop. subst.
  destruct (IH s) as [r ->]; [done|]. by exists r.
Qed.

Lemma span_digits_len s ds r : span_digits s = (ds, r) -> str_length s = (str_length ds + str_length r)%nat.
Proof. intros H. apply span_digits_all in H as [_ ->]. apply str_length_app. Qed.

Lemma hex4_len s z r : hex4 s = Ok (z, r) -> str_length s = (4 + str_length r)%nat.
Proof.
  unfold hex4. destruct s as [|a [|b [|c [|d s]]]]; try discriminate.
  destruct (hexVal a), (hexVal b), (hexVal c), (hexVal d); try discriminate.
  intros [= <- <-]. done.
Qed.

Lemma escape_len s u r : escape s = Ok (u, r) -> (str_length r < str_length s)%nat.
Proof.
  unfold escape. destruct s as [|e s]; [done|].
  repeat match goal with |- context [if ?b then Ok _ else _] => destruct b; [by intros [= <- <-]; cbn; lia|] end.
  destruct (is_char 117 e); [|done]. intros H. inv_bind H.
  apply hex4_len in Hb. cbn. destruct (IsSurrogate a); [|injection H as <- <-; lia].
  destruct (_ || _); [done|]. inv_bind H. apply hex4_len in Hb0.
  pose proof (str_drop_len 2 b). destruct (utf16_DecodeRune _ _); [|done].
  injection H as <- <-. lia.
Qed.

Lemma DecodeRune_pos s r n : DecodeRune s = Some (r, n) -> (1 <= n)%nat.
Proof.
  intros (rest & _ & -> & _)%DecodeRune_inv. destruct (EncodeRune_cons r) as (c & u & ->). cbn. lia.
Qed.

Lemma string_loop_len fuel s t r : string_loop fuel s = Ok (t, r) -> (str_length r < str_length s)%nat.
Proof.
  revert s t. induction fuel as [|fuel IH]; intros s t; [done|]. cbn [string_loop].
  destruct s as [|c s]; [done|]. destruct (is_char 34 c); [intros [= <- <-]; cbn; lia|].
  destruct (is_char 92 c).
  { intros H. inv_bind H. inv_bind H. injection H as <- <-. apply escape_len in Hb. apply IH in Hb0. cbn. lia. }
  destruct (_ <? 32); [done|]. destruct (_ <? 128).
  { intros H. inv_bind H. injection H as <- <-. apply IH in Hb. cbn. lia. }
  destruct (DecodeRune _) as [[z n]|] eqn:E; [|done].
  intros H. inv_bind H. injection H as <- <-. apply IH in Hb. rewrite str_length_drop in Hb. lia.
Qed.

Lemma eat_Some n s r : eat n s = Some r <-> exists c, s = String c r /\ N_of_ascii c = n.
Proof.
  unfold eat, is_char. destruct s as [|c s]; [naive_solver|].
  destruct (N.eqb_spec (N_of_ascii c) n); naive_solver.
Qed.

Lemma eat_len n s r : eat n s = Some r -> str_length s = S (str_length r).
Proof. by intros (c & -> & _)%eat_Some. Qed.

Lemma scan_sign_len s sg r : scan_sign s = (sg, r) -> (str_length r <= str_length s)%nat.
Proof.
  unfold scan_sign. destruct (eat 45 s) as [q|] eqn:E; intros [= <- <-]; [|done].
  apply eat_len in E. lia.
Qed.

Lemma span_digits_nonempty s ds r :
  span_digits s = (ds, r) -> is_empty ds = false -> (str_length r < str_length s)%nat.
Proof.
  intros E%span_digits_len. rewrite is_empty_length, Nat.eqb_neq. lia.
Qed.

Lemma scan_int_len s t r : scan_int s = Ok (t, r) -> (str_length r < str_length s)%nat.
Proof.
  unfold scan_int. destruct (eat 48 s) as [q|] eqn:E.
  { intros [= <- <-]. apply eat_len in E. lia. }
  destruct (span_digits s) as [ds q] eqn:Es. destruct (is_empty ds) eqn:Ee; [done|].
  intros [= <- <-]. by eapply span_digits_nonempty.
Qed.

Lemma scan_frac_len s t r : scan_frac s = Ok (t, r) -> (str_length r <= str_length s)%nat.
Proof.
  unfold scan_frac. destruct (eat 46 s) as [q|] eqn:E; [|by intros [= <- <-]].
  apply eat_len in E. destruct (span_digits q) as [ds p] eqn:Es.
  destruct (is_empty ds) eqn:Ee; [done|]. intros [= <- <-].
  pose proof (span_digits_nonempty _ _ _ Es Ee). lia.
Qed.

Lemma scan_exp_len s t r : scan_exp s = Ok (t, r) -> (str_length r <= str_length s)%nat.
Proof.
  unfold scan_exp. destruct s as [|c s]; [by intros [= <- <-]|].
  destruct (_ || _); [|by intros [= <- <-]].
  assert (exists sg q, match eat 43 s with Some r => ("+", r) | None => scan_sign s end = (sg, q) /\
    (str_length q <= str_length s)%nat) as (sg & q & -> & Hq).
  { destruct (eat 43 s) as [q|] eqn:E; [apply eat_len in E; eexists _, _; split; [done|lia]|].
    destruct (scan_sign s) as [sg q] eqn:E'. eexists _, _. split; [done|]. by eapply scan_sign_len. }
  destruct (span_digits q) as [ds p] eqn:Es. destruct (is_empty ds) eqn:Ee; [done|].
  intros [= <- <-]. pose proof (span_digits_nonempty _ _ _ Es Ee). cbn. lia.
Qed.

Lemma scan_number_len s t r : scan_number s = Ok (t, r) -> (str_length r < str_length s)%nat.
Proof.
  unfold scan_number. destruct (scan_sign s) as [sg s1] eqn:E. apply scan_sign_len in E.
  intros H. do 3 inv_bind H. injection H as _ <-.
  apply scan_int_len in Hb. apply scan_frac_len in Hb0. apply scan_exp_len in Hb1. lia.
Qed.

Lemma number_len s v r : number s = Ok (v, r) -> (str_length r < str_length s)%nat.
Proof.
  unfold number. intros H. inv_bind H. apply scan_number_len in Hb.
  destruct (ParseFloat a); [|done]. by injection H as <- <-.
Qed.

Lemma literal_len w v s v' r :
  w <> "" -> literal w v s = Ok (v', r) -> (str_length r < str_length s)%nat.
Proof.
  unfold literal. intros Hw. destruct (HasPrefix s w) eqn:E; [|done]. intros [= <- <-].
  apply HasPrefix_app in E as [q ->]. rewrite str_drop_app, str_length_app.
  destruct w; [done|]. cbn. lia.
Qed.

Lemma HasPrefix_same p r : HasPrefix (p +:+ r) p = true.
Proof.
  induction p as [|c p IH]; [by destruct r|]. rewrite str_app_cons. cbn.
  by rewrite bool_decide_eq_true_2, IH.
Qed.

Lemma literal_app w v r : literal w v (w +:+ r) = Ok (v, r).
Proof. unfold literal. by rewrite HasPrefix_same, str_drop_app. Qed.

Lemma string_lit_len s t r : string_lit s = Ok (t, r) -> (str_length r < str_length s)%nat.
Proof. apply string_loop_len. Qed.

(** Everything the parser returns leaves a strictly shorter suffix. *)
Lemma parse_len fuel :
  (forall d s v r, value fuel d s = Ok (v, r) -> (str_length r < str_length s)%nat) /\
  (forall d s v r, array_loop fuel d s = Ok (v, r) -> (str_length r < str_length s)%nat) /\
  (forall d seen s v r, object_loop fuel d seen s = Ok (v, r) -> (str_length r < str_length s)%nat).
Proof.
  induction fuel as [|fuel (IHv & IHa & IHo)]; [done|]. split_and!.
  - intros d s v r. cbn [value]. destruct (_ <? _)%nat; [done|]. destruct s as [|c s]; [done|].
    pose proof (skipWS_len s). destruct (is_char 123 c).
    { destruct (eat 125 (skipWS s)) as [q|] eqn:E.
      - intros [= <- <-]. apply eat_len in E. cbn. lia.
      - intros Hx. inv_bind Hx. injection Hx as <- <-. apply IHo in Hb. cbn. lia. }
    destruct (is_char 91 c).
    { destruct (eat 93 (skipWS s)) as [q|] eqn:E.
      - intros [= <- <-]. apply eat_len in E. cbn. lia.
      - intros Hx. inv_bind Hx. injection Hx as <- <-. apply IHa in Hb. cbn. lia. }
    destruct (is_char 34 c).
    { intros Hx. inv_bind Hx. injection Hx as <- <-. apply string_lit_len in Hb. cbn. lia. }
    do 3 (destruct (is_char _ c); [by apply literal_len|]).
    destruct (_ || _); [apply number_len|done].
  - intros d s v r Hx. cbn [array_loop] in Hx. inv_bind Hx. apply IHv in Hb.
    pose proof (skipWS_len s). pose proof (skipWS_len b).
    destruct (skipWS b) as [|c q]; [done|]. cbn in *. destruct (is_char 44 c).
    { inv_bind Hx. injection Hx as <- <-. apply IHa in Hb0. lia. }
    destruct (is_char 93 c); [|done]. injection Hx as <- <-. lia.
  - intros d seen s v r Hx. cbn [object_loop] in Hx. pose proof (skipWS_len s).
    destruct (eat 34 (skipWS s)) as [s1|] eqn:E1; [|done]. apply eat_len in E1.
    inv_bind Hx. apply string_lit_len in Hb. destruct (bool_decide _); [done|].
    pose proof (skipWS_len b). destruct (eat 58 (skipWS b)) as [s2|] eqn:E2; [|done].
    apply eat_len in E2. inv_bind Hx. apply IHv in Hb0. pose proof (skipWS_len s2).
    pose proof (skipWS_len b0). destruct (skipWS b0) as [|c q]; [done|]. cbn in *.
    destruct (is_char 44 c).
    { inv_bind Hx. injection Hx as <- <-. apply IHo in Hb1. lia. }
    destruct (is_char 125 c); [|done]. injection Hx as <- <-. lia.
Qed.

(** No routine fails for want of fuel. *)
Definition fuel_ok {A} (r : result A) : Prop := r <> Err out_of_fuel.

Lemma bind_fuel_ok {A B} (r : result A) (k : A -> result B) :
  fuel_ok r -> (forall a, r = Ok a -> fuel_ok (k a)) -> fuel_ok (r ≫= k).
Proof. unfold fuel_ok. destruct r as [a|e]; cbn; [by auto|]. intros H _ [= ->]. done. Qed.

Ltac fuel_cases :=
  repeat first [ discriminate
               | apply bind_fuel_ok; [|intros [? ?] ?]
               | match goal with |- context [match ?x with _ => _ end] =>
                   lazymatch x with context [match _ with _ => _ end] => fail | _ => destruct x eqn:? end
                 end ].

Lemma hex4_fuel s : fuel_ok (hex4 s).
Proof. unfold hex4, fuel_ok. fuel_cases. Qed.

Lemma escape_fuel s : fuel_ok (escape s).
Proof.
  unfold escape. destruct s as [|e s]; [discriminate|].
  repeat match goal with |- fuel_ok (if ?b then Ok _ else _) => destruct b; [discriminate|] end.
  destruct (is_char 117 e); [|discriminate]. apply bind_fuel_ok; [apply hex4_fuel|]. intros [z r] _.
  destruct (IsSurrogate z); [|discriminate]. destruct (_ || _); [discriminate|].
  apply bind_fuel_ok; [apply hex4_fuel|]. intros [z' r'] _. by destruct (utf16_DecodeRune _ _).
Qed.

Lemma string_loop_fuel fuel s : (str_length s < fuel)%nat -> fuel_ok (string_loop fuel s).
Proof.
  revert s. induction fuel as [|fuel IH]; intros s Hs; [lia|]. cbn [string_loop].
  destruct s as [|c s]; [discriminate|]. cbn in Hs. destruct (is_char 34 c); [discriminate|].
  destruct (is_char 92 c).
  { apply bind_fuel_ok; [apply escape_fuel|]. intros [u r] Hu%escape_len.
    apply bind_fuel_ok; [apply IH; lia|]. intros [t q] _. discriminate. }
  destruct (_ <? 32); [discriminate|]. destruct (_ <? 128).
  { apply bind_fuel_ok; [apply IH; lia|]. intros [t q] _. discriminate. }
  destruct (DecodeRune _) as [[z n]|] eqn:E; [|discriminate]. apply DecodeRune_pos in E.
  apply bind_fuel_ok; [apply IH; rewrite str_length_drop; cbn; lia|]. intros [t q] _. discriminate.
Qed.

Lemma string_lit_fuel s : fuel_ok (string_lit s).
Proof. apply string_loop_fuel. lia. Qed.

Lemma number_fuel s : fuel_ok (number s).
Proof.
  unfold number, scan_number, scan_int, scan_frac, scan_exp.
  destruct (scan_sign s) as [sg s1]. unfold fuel_ok. fuel_cases.
Qed.

Lemma parse_fuel_ok fuel :
  (forall d s, (2 * str_length s < fuel)%nat -> fuel_ok (value fuel d s)) /\
  (forall d s, (2 * str_length s + 1 < fuel)%nat -> fuel_ok (array_loop fuel d s)) /\
  (forall d seen s, (2 * str_length s + 1 < fuel)%nat -> fuel_ok (object_loop fuel d seen s)).
Proof.
  destruct (parse_len fuel) as [_ _]. induction fuel as [|fuel (IHv & IHa & IHo)]; [split_and!; lia|].
  destruct (parse_len fuel) as (Lv & _ & _). split_and!.
  - intros d s Hs. cbn [value]. destruct (_ <? _)%nat; [discriminate|]. destruct s as [|c s]; [discriminate|].
    pose proof (skipWS_len s). cbn in Hs. destruct (is_char 123 c).
    { destruct (eat 125 _); [discriminate|].
      apply bind_fuel_ok; [apply IHo; lia|]. intros [? ?] _. discriminate. }
    destruct (is_char 91 c).
    { destruct (eat 93 _); [discriminate|].
      apply bind_fuel_ok; [apply IHa; lia|]. intros [? ?] _. discriminate. }
    destruct (is_char 34 c).
    { apply bind_fuel_ok; [apply string_lit_fuel|]. intros [? ?] _. discriminate. }
    do 3 (destruct (is_char _ c); [unfold literal; by destruct (HasPrefix _ _)|]).
    destruct (_ || _); [apply number_fuel|discriminate].
  - intros d s Hs. cbn [array_loop]. pose proof (skipWS_len s).
    apply bind_fuel_ok; [apply IHv; lia|]. intros [v r] Hv%Lv. pose proof (skipWS_len r).
    destruct (skipWS r) as [|c q]; [discriminate|]. cbn in *. destruct (is_char 44 c).
    { apply bind_fuel_ok; [apply IHa; lia|]. intros [? ?] _. discriminate. }
    by destruct (is_char 93 c).
  - intros d seen s Hs. cbn [object_loop]. pose proof (skipWS_len s).
    destruct (eat 34 (skipWS s)) as [s1|] eqn:E1; [|discriminate]. apply eat_len in E1.
    apply bind_fuel_ok; [apply string_lit_fuel|]. intros [k r] Hk%string_lit_len.
    destruct (bool_decide _); [discriminate|]. pose proof (skipWS_len r).
    destruct (eat 58 (skipWS r)) as [s2|] eqn:E2; [|discriminate]. apply eat_len in E2.
    pose proof (skipWS_len s2). apply bind_fuel_ok; [apply IHv; lia|]. intros [v q] Hv%Lv.
    pose proof (skipWS_len q). destruct (skipWS q) as [|c p]; [discriminate|]. cbn in *.
    destruct (is_char 44 c).
    { apply bind_fuel_ok; [apply IHo; lia|]. intros [? ?] _. discriminate. }
    by destruct (is_char 125 c).
Qed.

Lemma parse_fuel_enough s : fuel_ok (parseJSON s).
Proof.
  unfold parseJSON. destruct (parse_fuel_ok (parse_fuel (skipWS s))) as (Hv & _ & _).
  apply bind_fuel_ok; [apply Hv; unfold parse_fuel; lia|]. intros [v r] _. by destruct (is_empty _).
Qed.

(** * Well-formed values and normal forms *)

Section JsonInd.
Variable P : json -> Prop.
Hypothesis HNull : P JNull.
Hypothesis HBool : forall b, P (JBool b).
Hypothesis HNumber : forall f, P (JNumber f).
Hypothesis HString : forall s, P (JString s).
Hypothesis HArray : forall l, Forall P l -> P (JArray l).
Hypothesis HObject : forall ms, Forall (fun m => P m.2) ms -> P (JObject ms).

Fixpoint json_ind' (v : json) : P v :=
  match v with
  | JNull => HNull
  | JBool b => HBool b
  | JNumber f => HNumber f
  | JString s => HString s
  | JArray l =>
      HArray l ((fix go l : Forall P l :=
        match l with
        | [] => Forall_nil_2 P
        | v :: l => Forall_cons_2 P v l (json_ind' v) (go l)
        end) l)
  | JObject ms =>
      HObject ms ((fix go ms : Forall (fun m => P m.2) ms :=
        match ms with
        | [] => Forall_nil_2 _
        | m :: ms => Forall_cons_2 _ m ms (json_ind' m.2) (go ms)
        end) ms)
  end.
End JsonInd.

(** How deep values nest below this one. *)
Fixpoint height (v : json) : nat :=
  match v with
  | JArray l => max_list_with (fun v => S (height v)) l
  | JObject ms => max_list_with (fun m => S (height m.2)) ms
  | _ => O
  end.

Lemma height_array v l : height (JArray (v :: l)) = Nat.max (S (height v)) (height (JArray l)).
Proof. done. Qed.
Lemma height_object m ms : height (JObject (m :: ms)) = Nat.max (S (height m.2)) (height (JObject ms)).
Proof. done. Qed.

(** Finite doubles in canonical form, valid UTF-8, distinct member names. *)
Inductive wf_json : json -> Prop :=
  | wf_null : wf_json JNull
  | wf_bool b : wf_json (JBool b)
  | wf_number f : f_wf f -> wf_json (JNumber f)
  | wf_string s : valid_utf8 s -> wf_json (JString s)
  | wf_array l : Forall wf_json l -> wf_json (JArray l)
  | wf_object ms :
      NoDup ms.*1 -> Forall (fun m => valid_utf8 m.1) ms ->
      Forall (fun m => wf_json m.2) ms -> wf_json (JObject ms).

(** The value canonical text stands for: members in order, [0] for [-0]. *)
Fixpoint norm (v : json) : json :=
  match v with
  | JNumber f => JNumber (f_norm f)
  | JArray l => JArray (map norm l)
  | JObject ms => JObject (sort_slice member_less (map (map_snd norm) ms))
  | v => v
  end.

(** ** Sorting members *)

Definition name_units {B} (m : string * B) : list Z := utf16_Encode (runes m.1).

#[export] Instance units_lt_total : StrictTotal units_lt.
Proof.
  split.
  - intros x. induction x as [|u x IH]; cbn; [done|]. by rewrite Z.eqb_refl.
  - intros x. induction x as [|u x IH]; intros [|v y] [|w z]; cbn; try done.
    destruct (Z.eqb_spec u v), (Z.eqb_spec v w), (Z.eqb_spec u w); subst; eauto; try lia.
  - intros x. induction x as [|u x IH]; intros [|v y]; cbn; try done. rewrite (Z.eqb_sym v u).
    destruct (Z.eqb_spec u v) as [->|]; [intros; f_equal; by apply IH|]. rewrite !Z.ltb_ge. lia.
Qed.

#[export] Instance member_less_weak {B} : StrictWeak (member_less (B:=B)).
Proof. apply (less_on_weak name_units units_lt). Qed.

Lemma insert_map_snd {A B} (g : A -> B) m ms :
  map (map_snd g) (insert_sorted member_less m ms) =
  insert_sorted member_less (map_snd g m) (map (map_snd g) ms).
Proof.
  induction ms as [|x ms IH]; [done|]. cbn [insert_sorted map].
  change (member_less (map_snd g x) (map_snd g m)) with (member_less x m).
  destruct (member_less x m); [|done]. cbn [map]. f_equal. exact IH.
Qed.

Lemma sort_map_snd {A B} (g : A -> B) ms :
  sort_slice member_less (map (map_snd g) ms) = map (map_snd g) (sort_slice member_less ms).
Proof.
  induction ms as [|x ms IH]; [done|].
  change (insert_sorted member_less (map_snd g x) (sort_slice member_less (map (map_snd g) ms)) =
          map (map_snd g) (insert_sorted member_less x (sort_slice member_less ms))).
  by rewrite IH, insert_map_snd.
Qed.

Lemma map_snd_fst {A B} (g : A -> B) ms : (map (map_snd g) ms).*1 = ms.*1.
Proof. induction ms as [|m ms IH]; cbn; [done|]. by f_equal. Qed.

Lemma utf16_name_inj a b :
  valid_utf8 a -> valid_utf8 b -> utf16_Encode (runes a) = utf16_Encode (runes b) -> a = b.
Proof.
  intros Ha Hb H. apply runes_inj; [done..|]. apply utf16_Encode_inj; [apply runes_scalar_fuel..|done].
Qed.

(** Distinct valid names have distinct code units. *)
Lemma NoDup_name_units {B} (ms : list (string * B)) :
  NoDup ms.*1 -> Forall (fun m => valid_utf8 m.1) ms -> NoDup (name_units <$> ms).
Proof.
  induction ms as [|m ms IH]; cbn; [constructor|].
  intros [Hm Hnd]%NoDup_cons [Hv Hvs]%Forall_cons. constructor; [|by apply IH].
  intros (m' & E & Hin)%list_elem_of_fmap. destruct Hm. apply list_elem_of_fmap. exists m'. split; [|done].
  rewrite Forall_forall in Hvs. apply utf16_name_inj; [done|by apply Hvs|done].
Qed.

Lemma sort_members_unique {B} (ms ms' : list (string * B)) :
  NoDup ms.*1 -> Forall (fun m => valid_utf8 m.1) ms -> ms ≡ₚ ms' ->
  sort_slice member_less ms = sort_slice member_less ms'.
Proof.
  intros. apply (sort_slice_on_unique name_units units_lt); [by apply NoDup_name_units|done].
Qed.

(** The normal form has the same canonical text. *)
Lemma write_norm v : writeCanonical (norm v) = writeCanonical v.
Proof.
  induction v as [| | | |l IH|ms IH] using json_ind'; cbn; try done.
  - apply Format_norm.
  - rewrite map_map. by rewrite (map_ext_Forall _ _ IH).
  - rewrite (sort_map_snd writeCanonical (sort_slice _ _)), (sort_slice_idem member_less).
    rewrite <- sort_map_snd, map_map.
    assert (map (fun m => map_snd writeCanonical (map_snd norm m)) ms = map (map_snd writeCanonical) ms) as ->; [|done].
    apply map_ext_Forall. eapply Forall_impl; [exact IH|]. intros [k x] H. unfold map_snd. cbn in *. by rewrite H.
Qed.

(** * Reading string bodies *)

(** The body text [t] of a string literal stands for the bytes [s]: literal
    bytes, literal runes, and escapes. *)
Inductive denotes : string -> string -> Prop :=
  | den_nil : denotes "" ""
  | den_plain c t s :
      32 <= byte_val c < 128 -> is_char 34 c = false -> is_char 92 c = false ->
      denotes t s -> denotes (String c t) (String c s)
  | den_rune r t s :
      scalar r -> 128 <= r -> denotes t s -> denotes (EncodeRune r +:+ t) (EncodeRune r +:+ s)
  | den_escape x u t s :
      (forall rest, escape (x +:+ rest) = Ok (u, rest)) ->
      denotes t s -> denotes (String backslash (x +:+ t)) (u +:+ s).

Lemma str_take_app a b : str_take (str_length a) (a +:+ b) = a.
Proof. induction a as [|c a IH]; [by destruct b|]. rewrite str_app_cons. cbn. by rewrite IH. Qed.

Lemma fuel_ok_bind {A B} (r : result A) (k : A -> result B) : fuel_ok (r ≫= k) -> fuel_ok r.
Proof. destruct r as [a|e]; [done|]. by intros H [= ->]. Qed.

Lemma is_char_byte n c : is_char n c = true <-> byte_val c = Z.of_N n.
Proof. unfold is_char, byte_val. rewrite N.eqb_eq. lia. Qed.

Lemma is_char_high n c : 128 <= byte_val c -> (n < 128)%N -> is_char n c = false.
Proof. intros. apply not_true_iff_false. rewrite is_char_byte. lia. Qed.

Lemma string_loop_denotes t s :
  denotes t s -> forall fuel rest,
  fuel_ok (string_loop fuel (t +:+ String quote rest)) ->
  string_loop fuel (t +:+ String quote rest) = Ok (s, rest).
Proof.
  induction 1 as [|c t s Hc Hq Hb _ IH|r t s Hr Hhi _ IH|x u t s Hx _ IH];
    intros [|fuel] rest Hf; try done.
  - rewrite str_app_cons in *. cbn [string_loop] in *. rewrite Hq, Hb in *.
    destruct (Z.ltb_spec (byte_val c) 32); [lia|]. destruct (Z.ltb_spec (byte_val c) 128); [|lia].
    rewrite IH; [done|]. by eapply fuel_ok_bind.
  - rewrite str_app_assoc in *. destruct (EncodeRune_cons r) as (c & w & E).
    pose proof (EncodeRune_high r Hr Hhi) as Hall. pose proof (DecodeRune_Encode r (t +:+ String quote rest) Hr) as Hd.
    pose proof (str_drop_app (EncodeRune r) (t +:+ String quote rest)) as Hdrop.
    pose proof (str_take_app (EncodeRune r) (t +:+ String quote rest)) as Htake.
    rewrite E, str_app_cons in *. destruct Hall as [Hc _]. cbn [string_loop] in *.
    rewrite !is_char_high in * by done.
    destruct (Z.ltb_spec (byte_val c) 32); [lia|]. destruct (Z.ltb_spec (byte_val c) 128); [lia|].
    rewrite Hd, Hdrop, Htake in *. rewrite IH; [done|]. by eapply fuel_ok_bind.
  - rewrite str_app_cons, str_app_assoc in *. cbn [string_loop] in *.
    change (is_char 34 backslash) with false in *. change (is_char 92 backslash) with true in *. cbv iota in *.
    rewrite Hx in *. cbn [mbind result_bind] in *. rewrite IH; [done|]. by eapply fuel_ok_bind.
Qed.

(** ASCII bytes: written as they are or escaped, they read back. *)
Lemma escape_byte_ascii c :
  byte_val c < 128 ->
  (escape_byte c = String c "" /\ 32 <= byte_val c < 128 /\ is_char 34 c = false /\ is_char 92 c = false) \/
  (exists x, escape_byte c = String backslash x /\ forall rest, escape (x +:+ rest) = Ok (String c "", rest)).
Proof.
  destruct c as [[][][][][][][][]]; intros H; try (by exfalso; vm_compute in H);
    first [ left; split_and!; vm_compute; solve [reflexivity | discriminate] | right; eexists; split; [vm_compute; reflexivity|]; intros rest; reflexivity].
Qed.

Lemma escape_string_high u s : all_high u -> escape_string (u +:+ s) = u +:+ escape_string s.
Proof.
  induction u as [|c u IH]; intros Hu; [done|]. destruct Hu as [Hc Hu].
  rewrite !str_app_cons. cbn [escape_string]. rewrite IH by done. unfold escape_byte.
  rewrite !is_char_high by done. destruct (Z.ltb_spec (byte_val c) 32); [lia|]. done.
Qed.

Lemma escape_string_denotes s : valid_utf8 s -> denotes (escape_string s) s.
Proof.
  induction 1 as [|r s Hr Hs IH]; [constructor|].
  destruct (Z.ltb_spec r 128) as [Hlo|Hhi].
  - unfold scalar in Hr.
    assert (exists c, EncodeRune r = String c "" /\ byte_val c < 128) as (c & -> & Hc).
    { exists (byte_of r). rewrite byte_val_of by lia. split; [|done].
      unfold EncodeRune. by destruct (Z.ltb_spec r 128); [|lia]. }
    rewrite str_app_cons. change ("" +:+ s) with s. cbn [escape_string].
    destruct (escape_byte_ascii c Hc) as [(-> & ? & ? & ?)|(x & -> & Hx)].
    + by constructor.
    + rewrite str_app_cons. by apply (den_escape x (String c "")).
  - rewrite escape_string_high by by apply EncodeRune_high. by constructor.
Qed.

(** * Reading numbers *)

(** What may follow a value inside canonical text. *)
Definition stops (s : string) : Prop :=
  s = "" \/ exists c r, s = String c r /\ (is_char 44 c || is_char 93 c || is_char 125 c = true).

Lemma stops_not s (n : N) : stops s -> n <> 44%N -> n <> 93%N -> n <> 125%N -> eat n s = None.
Proof.
  intros [->|(c & r & -> & Hc)] ???; [done|]. unfold eat. destruct (is_char n c) eqn:E; [|done].
  unfold is_char in *. rewrite !orb_true_iff, !N.eqb_eq in *. lia.
Qed.

Lemma stops_no_digit s : stops s -> no_digit_head s = true.
Proof.
  intros [->|(c & r & -> & Hc)]; [done|]. cbn. unfold is_digit, is_char in *.
  rewrite !orb_true_iff, !N.eqb_eq in Hc. destruct Hc as [[->| ->]| ->]; done.
Qed.

Lemma scan_exp_stops s : stops s -> scan_exp s = Ok ("", s).
Proof.
  intros [->|(c & r & -> & Hc)]; [done|]. unfold scan_exp, is_char in *.
  rewrite !orb_true_iff, !N.eqb_eq in Hc. destruct Hc as [[->| ->]| ->]; done.
Qed.

Lemma all_digits_head c s : all_digits (String c s) = true -> (48 <= N_of_ascii c <= 57)%N.
Proof. cbn. unfold is_digit. intros [[?%N.leb_le ?%N.leb_le]%andb_prop _]%andb_prop. lia. Qed.

Lemma eat_cons_no n c s : N_of_ascii c <> n -> eat n (String c s) = None.
Proof. intros. unfold eat, is_char. by destruct (N.eqb_spec (N_of_ascii c) n). Qed.

Lemma scan_exp_np ex rest :
  match ex with None => True | Some (_, ds) => all_digits ds = true /\ ds <> "" /\ digits_val 0 ds < 10000 end ->
  stops rest -> scan_exp (np_exp_text ex +:+ rest) = Ok (np_exp_text ex, rest).
Proof.
  intros Hex Hr. destruct ex as [[en ds]|]; [|by apply scan_exp_stops]. destruct Hex as (Hds & Hne & _).
  pose proof (span_digits_app ds rest Hds (stops_no_digit _ Hr)) as Hsp.
  assert (is_empty ds = false) as He by (by destruct ds).
  destruct en; cbn [np_exp_text]; rewrite !str_app_assoc.
  - change (scan_exp ("e" +:+ "-" +:+ ds +:+ rest)) with
      (let '(ds, r) := span_digits (ds +:+ rest) in
       if is_empty ds then fail "invalid exponent" else Ok ("e" +:+ "-" +:+ ds, r)).
    by rewrite Hsp, He.
  - change (scan_exp ("e" +:+ "+" +:+ ds +:+ rest)) with
      (let '(ds, r) := span_digits (ds +:+ rest) in
       if is_empty ds then fail "invalid exponent" else Ok ("e" +:+ "+" +:+ ds, r)).
    by rewrite Hsp, He.
Qed.

(** A suffix an integer part can end at. *)
Lemma np_tail_no_digit x rest : stops rest ->
  no_digit_head ((if is_empty (np_fp x) then "" else "." +:+ np_fp x) +:+ np_exp_text (np_ex x) +:+ rest) = true.
Proof.
  intros Hr. destruct (is_empty (np_fp x)); [|done]. destruct (np_ex x) as [[[] ds]|]; try done.
  by apply stops_no_digit.
Qed.

Lemma scan_int_np x tail :
  np_ok x -> no_digit_head tail = true -> scan_int (np_ip x +:+ tail) = Ok (np_ip x, tail).
Proof.
  intros (Hip & _ & Hlead & _) Ht. unfold scan_int. destruct Hlead as [->|(c & r & E & Hc)]; [done|].
  rewrite E in *. rewrite str_app_cons, eat_cons_no, <- str_app_cons, span_digits_app by
    (try done; intros Hn; apply Hc; apply byte_val_inj; unfold byte_val; by rewrite Hn). done.
Qed.

Lemma scan_frac_np x rest :
  np_ok x -> stops rest ->
  scan_frac ((if is_empty (np_fp x) then "" else "." +:+ np_fp x) +:+ np_exp_text (np_ex x) +:+ rest) =
  Ok (if is_empty (np_fp x) then "" else "." +:+ np_fp x, np_exp_text (np_ex x) +:+ rest).
Proof.
  intros (_ & Hfp & _ & _) Hr. unfold scan_frac. destruct (is_empty (np_fp x)) eqn:E.
  - change ("" +:+ ?s) with s. destruct (np_ex x) as [[[] ds]|]; [done..|].
    change (np_exp_text None +:+ rest) with rest. by rewrite (stops_not rest 46) by done.
  - rewrite str_app_assoc. change (eat 46 ("." +:+ ?s)) with (Some s). cbv iota.
    rewrite span_digits_app; [by rewrite E|done|].
    destruct (np_ex x) as [[[] ds]|]; try done. by apply stops_no_digit.
Qed.

Lemma scan_number_np (neg : bool) x rest :
  np_ok x -> stops rest ->
  scan_number ((if neg then "-" else "") +:+ np_text x +:+ rest) =
  Ok ((if neg then "-" else "") +:+ np_text x, rest).
Proof.
  intros Hok Hr. unfold scan_number.
  assert (scan_sign ((if neg then "-" else "") +:+ np_text x +:+ rest) =
          (if neg then "-" else "", np_text x +:+ rest)) as ->.
  { destruct neg; [done|]. change ("" +:+ ?s) with s. destruct Hok as (Hip & _ & Hlead & _).
    unfold scan_sign, np_text. rewrite !str_app_assoc. destruct (np_ip x) as [|c r]; [naive_solver|].
    apply all_digits_head in Hip. rewrite str_app_cons, eat_cons_no by lia. done. }
  unfold np_text. rewrite !str_app_assoc, (scan_int_np x) by (try done; by apply np_tail_no_digit).
  cbn [mbind result_bind]. rewrite scan_frac_np by done. cbn [mbind result_bind].
  rewrite scan_exp_np; [done|apply Hok|done].
Qed.

Lemma number_canonical f rest :
  f_wf f -> stops rest -> number (FormatNumberES6 f +:+ rest) = Ok (JNumber (f_norm f), rest).
Proof.
  intros (neg & x & Hx & Hok & Hp)%Format_parts Hr. unfold number.
  rewrite Hx, str_app_assoc, scan_number_np by done. cbn [mbind result_bind]. rewrite <- Hx, Hp. done.
Qed.

(** The first byte of a number text. *)
Lemma Format_head f :
  f_wf f -> exists c r, FormatNumberES6 f = String c r /\ (is_char 45 c = true \/ is_digit c = true).
Proof.
  intros (neg & x & -> & (Hip & _ & Hlead & _) & _)%Format_parts. destruct neg; [by eexists _, _; split; [|left]|].
  unfold np_text. destruct (np_ip x) as [|c r]; [naive_solver|]. eexists _, _. split; [done|right].
  cbn in Hip. by apply andb_prop in Hip as [? _].
Qed.

(** * Reading values *)

Lemma number_byte c :
  is_char 45 c = true \/ is_digit c = true -> (N_of_ascii c = 45 \/ 48 <= N_of_ascii c <= 57)%N.
Proof.
  unfold is_char, is_digit. rewrite andb_true_iff, N.eqb_eq, !N.leb_le. lia.
Qed.

Lemma is_char_ne n c : N_of_ascii c <> n -> is_char n c = false.
Proof. intros. unfold is_char. by apply N.eqb_neq. Qed.

Lemma skipWS_cons c s : is_ws c = false -> skipWS (String c s) = String c s.
Proof. intros H. cbn. by rewrite H. Qed.

Lemma skipWS_stops s : stops s -> skipWS s = s.
Proof.
  intros [->|(c & r & -> & Hc)]; [done|]. apply skipWS_cons. unfold is_ws, is_char in *.
  rewrite !orb_true_iff, !N.eqb_eq in Hc. destruct Hc as [[->| ->]| ->]; done.
Qed.

(** The text [t] reads as [v] wherever [h] more levels of nesting are
    allowed. *)
Record parses (t : string) (h : nat) (v : json) : Prop := {
  parses_head : exists c r, t = String c r /\ is_ws c = false /\ is_char 93 c = false;
  parses_value : forall fuel d rest, (d + h <= maxJSONDepth)%nat -> stops rest ->
    fuel_ok (value fuel d (t +:+ rest)) -> value fuel d (t +:+ rest) = Ok (v, rest)
}.

Lemma parses_mono t h h' v : (h <= h')%nat -> parses t h v -> parses t h' v.
Proof. intros Hh [Hhd Hv]. split; [done|]. intros fuel d rest Hd. apply Hv. lia. Qed.

Lemma parses_skipWS t h v rest : parses t h v -> skipWS (t +:+ rest) = t +:+ rest.
Proof. intros [(c & r & -> & H & _) _]. rewrite str_app_cons. by apply skipWS_cons. Qed.

Lemma stops_comma s : stops (String "," s).
Proof. right. by eexists _, _. Qed.
Lemma stops_bracket s : stops (String "]" s).
Proof. right. by eexists _, _. Qed.
Lemma stops_brace s : stops (String "}" s).
Proof. right. by eexists _, _. Qed.

Lemma Join_cons_app t t' (ts : list string) rest :
  Join (t :: t' :: ts) "," +:+ rest = t +:+ String "," (Join (t' :: ts) "," +:+ rest).
Proof.
  change (Join (t :: t' :: ts) ",") with (t +:+ String "," (Join (t' :: ts) ",")).
  by rewrite str_app_assoc, str_app_cons.
Qed.

Lemma array_loop_parses h ts vs :
  ts <> [] -> Forall2 (fun t v => parses t h v) ts vs ->
  forall fuel d rest, (d + S h <= maxJSONDepth)%nat ->
  fuel_ok (array_loop fuel d (Join ts "," +:+ String "]" rest)) ->
  array_loop fuel d (Join ts "," +:+ String "]" rest) = Ok (vs, rest).
Proof.
  intros Hne Hp. induction Hp as [|t v ts vs Ht Hts IH]; [done|].
  intros [|fuel] d rest Hd Hf; [done|]. cbn [array_loop] in *. destruct Ht as [Hh Hv] eqn:E; clear E.
  pose proof (fun rest => parses_skipWS t h v rest Ht) as Hsk.
  destruct Hts as [|t' v' ts vs Ht' Hts].
  - cbn [Join] in *. rewrite Hsk in *.
    rewrite (Hv fuel (S d) _ ltac:(lia) (stops_bracket rest) (fuel_ok_bind _ _ Hf)) in Hf |- *.
    cbn [mbind result_bind]. by rewrite skipWS_stops by apply stops_bracket.
  - rewrite Join_cons_app, Hsk in *.
    rewrite (Hv fuel (S d) _ ltac:(lia) (stops_comma _) (fuel_ok_bind _ _ Hf)) in Hf |- *.
    cbn [mbind result_bind] in *. rewrite skipWS_stops in * by apply stops_comma.
    change (is_char 44 ",") with true in *. cbv iota in *.
    rewrite IH; [done|done|done|by eapply fuel_ok_bind].
Qed.

Lemma parses_array_nil h : parses "[]" h (JArray []).
Proof.
  split; [by eexists _, _|]. intros [|fuel] d rest Hd Hs Hf; [done|].
  cbn [value]. destruct (Nat.ltb_spec maxJSONDepth d); [lia|done].
Qed.

Lemma parses_array h ts vs :
  Forall2 (fun t v => parses t h v) ts vs -> parses ("[" +:+ Join ts "," +:+ "]") (S h) (JArray vs).
Proof.
  intros Hp. destruct (decide (ts = [])) as [->|Hne].
  { inversion Hp. apply parses_array_nil. }
  split; [by eexists _, _|]. intros [|fuel] d rest Hd Hs Hf; [done|].
  rewrite !str_app_assoc in *. change ("]" +:+ rest) with (String "]" rest) in *.
  rewrite str_app_cons in *. change ("" +:+ ?s) with s in *. cbn [value] in *.
  destruct (Nat.ltb_spec maxJSONDepth d); [lia|].
  change (is_char 123 "[") with false in *. change (is_char 91 "[") with true in *. cbv iota in *.
  assert (exists t v s, Join ts "," +:+ String "]" rest = t +:+ s /\ parses t h v) as (t & v & s & E & Ht).
  { destruct Hp as [|t v ts vs Ht Hts]; [done|]. destruct ts as [|t' ts]; [by eexists _, _, _|].
    rewrite Join_cons_app. by eexists _, _, _. }
  assert (skipWS (Join ts "," +:+ String "]" rest) = Join ts "," +:+ String "]" rest) as Hsk.
  { rewrite E. by eapply parses_skipWS. }
  assert (eat 93 (Join ts "," +:+ String "]" rest) = None) as He.
  { destruct Ht as [(c & r & -> & _ & Hc) _]. rewrite E, str_app_cons. cbn [eat]. by rewrite Hc. }
  rewrite Hsk, He in Hf |- *. rewrite (array_loop_parses h ts vs); [done|done|done|done|].
  by eapply fuel_ok_bind.
Qed.

(** A member: the text of its name, the text of its value. *)
Definition member_text (m : string * string) : string :=
  String quote (m.1 +:+ String quote (String ":" m.2)).

Definition parses_member (h : nat) (mt : string * string) (m : string * json) : Prop :=
  denotes mt.1 m.1 /\ parses mt.2 h m.2.

Lemma string_lit_denotes t s rest : denotes t s -> string_lit (t +:+ String quote rest) = Ok (s, rest).
Proof. intros. apply string_loop_denotes; [done|apply string_lit_fuel]. Qed.

Lemma object_loop_parses h mts ms :
  mts <> [] -> Forall2 (parses_member h) mts ms -> NoDup ms.*1 ->
  forall fuel d seen rest, (d + S h <= maxJSONDepth)%nat ->
  (forall k, k ∈ ms.*1 -> k ∉ seen) ->
  fuel_ok (object_loop fuel d seen (Join (map member_text mts) "," +:+ String "}" rest)) ->
  object_loop fuel d seen (Join (map member_text mts) "," +:+ String "}" rest) = Ok (ms, rest).
Proof.
  intros Hne Hp. induction Hp as [|[kt t] [k v] mts ms [Hk Ht] Hms IH]; [done|]. cbn [fst snd] in *.
  intros Hnd [|fuel] d seen rest Hd Hseen Hf; [done|]. apply NoDup_cons in Hnd as [Hnk Hnd].
  assert (exists tail, Join (map member_text ((kt, t) :: mts)) "," +:+ String "}" rest =
      String quote (kt +:+ String quote (String ":" (t +:+ tail))) /\
    stops tail /\ tail = (match mts with [] => String "}" rest
                          | _ => String "," (Join (map member_text mts) "," +:+ String "}" rest) end))
    as (tail & E & Hst & Htail).
  { destruct mts as [|m mts]; (eexists; split_and!; [| |reflexivity]).
    - cbn [map Join]. unfold member_text. by rewrite str_app_cons, str_app_assoc, !str_app_cons.
    - apply stops_brace.
    - cbn [map]. rewrite Join_cons_app. unfold member_text at 1. by rewrite str_app_cons, str_app_assoc, !str_app_cons.
    - apply stops_comma. }
  rewrite E in *. cbn [object_loop] in *. rewrite skipWS_cons in * by done.
  change (eat 34 (String quote ?s)) with (Some s) in *. cbv iota in *.
  rewrite (string_lit_denotes _ _ _ Hk) in *. cbn [mbind result_bind] in *.
  rewrite bool_decide_eq_false_2 in * by (apply Hseen; left). rewrite skipWS_cons in * by done.
  change (eat 58 (String ":" ?s)) with (Some s) in *. cbv iota in *.
  rewrite (parses_skipWS _ _ _ _ Ht) in *.
  rewrite (parses_value _ _ _ Ht fuel (S d) _ ltac:(lia) Hst (fuel_ok_bind _ _ Hf)) in Hf |- *.
  cbn [mbind result_bind] in *. rewrite skipWS_stops in * by done. subst tail.
  destruct mts as [|m mts]; [by inversion Hms|].
  change (is_char 44 ",") with true in *. cbv iota in *.
  rewrite IH; [done|done|done|done| |by eapply fuel_ok_bind].
  intros k' Hk'. apply not_elem_of_cons. split; [|apply Hseen; by right]. by intros ->.
Qed.

Lemma parses_object_nil h : parses "{}" h (JObject []).
Proof.
  split; [by eexists _, _|]. intros [|fuel] d rest Hd Hs Hf; [done|].
  cbn [value]. destruct (Nat.ltb_spec maxJSONDepth d); [lia|done].
Qed.

Lemma parses_object h mts ms :
  Forall2 (parses_member h) mts ms -> NoDup ms.*1 ->
  parses ("{" +:+ Join (map member_text mts) "," +:+ "}") (S h) (JObject ms).
Proof.
  intros Hp Hnd. destruct (decide (mts = [])) as [->|Hne].
  { inversion Hp. apply parses_object_nil. }
  split; [by eexists _, _|]. intros [|fuel] d rest Hd Hs Hf; [done|].
  rewrite !str_app_assoc in *. change ("}" +:+ rest) with (String "}" rest) in *.
  rewrite str_app_cons in *. change ("" +:+ ?s) with s in *. cbn [value] in *.
  destruct (Nat.ltb_spec maxJSONDepth d); [lia|].
  change (is_char 123 "{") with true in *. cbv iota in *.
  assert (exists s, Join (map member_text mts) "," +:+ String "}" rest = String quote s) as [s E].
  { destruct mts as [|m mts]; [done|]. destruct mts; cbn [map Join]; unfold member_text at 1; by eexists. }
  assert (skipWS (Join (map member_text mts) "," +:+ String "}" rest) =
          Join (map member_text mts) "," +:+ String "}" rest) as Hsk by (rewrite E; done).
  assert (eat 125 (Join (map member_text mts) "," +:+ String "}" rest) = None) as He by (rewrite E; done).
  rewrite Hsk, He in Hf |- *.
  rewrite (object_loop_parses h mts ms); [done|done|done|done|done|set_solver|by eapply fuel_ok_bind].
Qed.

Lemma parses_literal w v :
  (w = "null" /\ v = JNull) \/ (w = "true" /\ v = JBool true) \/ (w = "false" /\ v = JBool false) ->
  parses w 0 v.
Proof.
  intros [[-> ->]|[[-> ->]|[-> ->]]]; (split; [by eexists _, _|]); intros [|fuel] d rest Hd Hs Hf; try done;
    cbn [value]; (destruct (Nat.ltb_spec maxJSONDepth d); [lia|]).
  - apply (literal_app "null").
  - apply (literal_app "true").
  - apply (literal_app "false").
Qed.

Lemma parses_string t s : denotes t s -> parses (String quote (t +:+ String quote "")) 0 (JString s).
Proof.
  intros Ht. split; [by eexists _, _|]. intros [|fuel] d rest Hd Hs Hf; [done|].
  rewrite str_app_cons, str_app_assoc, str_app_cons. cbn [value].
  destruct (Nat.ltb_spec maxJSONDepth d); [lia|].
  change (is_char 34 quote) with true. change (is_char 123 quote) with false. change (is_char 91 quote) with false.
  cbv iota. change ("" +:+ rest) with rest. by rewrite (string_lit_denotes _ _ _ Ht).
Qed.

Lemma parses_number t f :
  (exists c r, t = String c r /\ (is_char 45 c = true \/ is_digit c = true)) ->
  (forall rest, stops rest -> number (t +:+ rest) = Ok (JNumber f, rest)) -> parses t 0 (JNumber f).
Proof.
  intros (c & r & -> & Hc) Hn. pose proof (number_byte c Hc) as Hc'.
  split; [exists c, r; unfold is_ws; by rewrite !is_char_ne by lia|].
  intros [|fuel] d rest Hd Hs Hf; [done|]. specialize (Hn rest Hs). rewrite str_app_cons in *. cbn [value].
  destruct (Nat.ltb_spec maxJSONDepth d); [lia|].
  assert (is_char 45 c || is_digit c = true) as -> by (by rewrite orb_true_iff).
  rewrite !is_char_ne by lia. done.
Qed.

Lemma parses_text t h v : parses t h v -> (h <= maxJSONDepth)%nat -> parseJSON t = Ok v.
Proof.
  intros Hp Hh. unfold parseJSON. rewrite <- (str_app_nil_r t), (parses_skipWS t h v) by done.
  rewrite (parses_value _ _ _ Hp); [done|done|by left|]. apply parse_fuel_ok. unfold parse_fuel. lia.
Qed.

(** ** Canonical text *)

Lemma object_text ms :
  writeCanonical (JObject ms) =
  "{" +:+ Join (map member_text (map (fun m => (escape_string m.1, writeCanonical m.2)) (sort_slice member_less ms))) ","
    +:+ "}".
Proof.
  cbn [writeCanonical]. rewrite sort_map_snd, !map_map. f_equal. f_equal. f_equal. apply map_ext.
  intros [k v]. unfold write_member, map_snd, writeCanonicalString, member_text. cbn [fst snd].
  by rewrite str_app_cons, str_app_assoc.
Qed.

Lemma object_norm ms :
  norm (JObject ms) = JObject (map (map_snd norm) (sort_slice member_less ms)).
Proof. cbn [norm]. by rewrite sort_map_snd. Qed.

Lemma height_object_perm ms ms' : ms ≡ₚ ms' -> height (JObject ms) = height (JObject ms').
Proof. induction 1; rewrite ?height_object; try lia; congruence. Qed.

Lemma height_array_in l v : v ∈ l -> (S (height v) <= height (JArray l))%nat.
Proof. induction 1 as [v l|v w l _ IH]; rewrite height_array; lia. Qed.

Lemma height_object_in ms m : m ∈ ms -> (S (height m.2) <= height (JObject ms))%nat.
Proof. induction 1 as [m l|m w l _ IH]; rewrite height_object; lia. Qed.

Lemma Forall2_map_both {A B C} (P : B -> C -> Prop) (f : A -> B) (g : A -> C) l :
  Forall (fun x => P (f x) (g x)) l -> Forall2 P (map f l) (map g l).
Proof. induction 1; constructor; auto. Qed.

Lemma parses_canonical v : wf_json v -> parses (writeCanonical v) (height v) (norm v).
Proof.
  induction v as [|b|f|s|l IH|ms IH] using json_ind'; intros Hwf.
  - by apply parses_literal; auto.
  - apply parses_literal. destruct b; auto.
  - inversion Hwf as [| |? Hf| | |]; subst. apply parses_number; [by apply Format_head|].
    intros. by apply number_canonical.
  - inversion Hwf as [| | |? Hs| |]; subst. by apply parses_string, escape_string_denotes.
  - inversion Hwf as [| | | |? Hl|]; subst. destruct l as [|w l]; [apply parses_array_nil|].
    assert (height (JArray (w :: l)) = S (pred (height (JArray (w :: l))))) as -> by (rewrite height_array; lia).
    apply (parses_array _ (map writeCanonical (w :: l)) (map norm (w :: l))), Forall2_map_both.
    rewrite Forall_forall in IH, Hl. apply Forall_forall. intros v Hv.
    eapply parses_mono; [|by apply IH, Hl]. apply height_array_in in Hv. lia.
  - inversion Hwf as [| | | | |? Hnd Hval Hl]; subst. rewrite object_text, object_norm.
    pose proof (sort_slice_perm member_less ms) as Hp. rewrite <- (height_object_perm _ _ Hp).
    rewrite <- Hp in Hnd, Hval, Hl, IH. clear Hp Hwf. destruct (sort_slice member_less ms) as [|w l].
    { apply parses_object_nil. }
    assert (height (JObject (w :: l)) = S (pred (height (JObject (w :: l))))) as -> by (rewrite height_object; lia).
    apply parses_object; [|by rewrite map_snd_fst]. apply Forall2_map_both.
    rewrite Forall_forall in IH, Hl, Hval. apply Forall_forall. intros m Hm. split; cbn [fst snd map_snd].
    + by apply escape_string_denotes, Hval.
    + eapply parses_mono; [|by apply IH, Hl]. apply height_object_in in Hm. lia.
Qed.

Lemma parse_canonical v :
  wf_json v -> (height v <= maxJSONDepth)%nat -> parseJSON (writeCanonical v) = Ok (norm v).
Proof. intros Hwf Hh. eapply parses_text; [by apply parses_canonical|done]. Qed.

(** * What the parser returns *)

Lemma hexVal_bounds c z : hexVal c = Some z -> 0 <= z < 16.
Proof. unfold hexVal. intros H. repeat case_match; simplify_eq; bool_prop; lia. Qed.

Lemma hex4_bounds s z r : hex4 s = Ok (z, r) -> 0 <= z < 65536.
Proof.
  unfold hex4. destruct s as [|a [|b [|c [|d s]]]]; try done.
  destruct (hexVal a) eqn:Ea, (hexVal b) eqn:Eb, (hexVal c) eqn:Ec, (hexVal d) eqn:Ed; try done.
  apply hexVal_bounds in Ea, Eb, Ec, Ed. intros [= <- <-]. lia.
Qed.

Lemma escape_valid s u r : escape s = Ok (u, r) -> valid_utf8 u.
Proof.
  assert (forall n, 0 <= n < 128 -> valid_utf8 (String (byte_of n) "")) as Hlow.
  { intros n Hn. assert (EncodeRune n = String (byte_of n) "") as <-.
    { unfold EncodeRune. by destruct (Z.ltb_spec n 128); [|lia]. }
    apply valid_one. left. lia. }
  unfold escape. destruct s as [|e s]; [done|].
  destruct (is_char 34 e || is_char 92 e || is_char 47 e) eqn:E0.
  { intros [= <- <-]. rewrite <- (byte_of_val e). apply Hlow.
    rewrite !orb_true_iff, !is_char_byte in E0. lia. }
  destruct (is_char 98 e); [intros [= <- <-]; by apply (Hlow 8)|].
  destruct (is_char 102 e); [intros [= <- <-]; by apply (Hlow 12)|].
  destruct (is_char 110 e); [intros [= <- <-]; by apply (Hlow 10)|].
  destruct (is_char 114 e); [intros [= <- <-]; by apply (Hlow 13)|].
  destruct (is_char 116 e); [intros [= <- <-]; by apply (Hlow 9)|].
  destruct (is_char 117 e); [|done]. intros H. inv_bind H. apply hex4_bounds in Hb.
  destruct (IsSurrogate a) eqn:Es.
  - destruct ((56320 <=? a) || _); [done|]. inv_bind H. unfold utf16_DecodeRune in H.
    match type of H with context [if ?b then _ else _] => destruct b eqn:E end; [|done]. injection H as <- <-. bool_prop. apply valid_one. right. lia.
  - injection H as <- <-. apply valid_one. unfold IsSurrogate in Es. unfold scalar.
    apply andb_false_iff in Es as [?%Z.leb_gt|?%Z.ltb_ge]; lia.
Qed.

Lemma string_loop_valid fuel s t r : string_loop fuel s = Ok (t, r) -> valid_utf8 t.
Proof.
  revert s t. induction fuel as [|fuel IH]; intros s t; [done|]. cbn [string_loop].
  destruct s as [|c s]; [done|]. destruct (is_char 34 c); [intros [= <- <-]; constructor|].
  destruct (is_char 92 c).
  { intros H. do 2 inv_bind H. injection H as <- <-. apply valid_utf8_app; [by eapply escape_valid|by eapply IH]. }
  destruct (_ <? 32); [done|]. destruct (Z.ltb_spec (byte_val c) 128).
  { intros H'. inv_bind H'. injection H' as <- <-. change (String c a) with (String c "" +:+ a).
    rewrite <- EncodeRune_ascii by done. pose proof (byte_val_bounds c).
    constructor; [left; lia|by eapply IH]. }
  destruct (DecodeRune _) as [[z n]|] eqn:E; [|done]. apply DecodeRune_inv in E as (q & -> & -> & Hz).
  rewrite str_take_app, str_drop_app. intros H'. inv_bind H'. injection H' as <- <-.
  constructor; [done|by eapply IH].
Qed.

(** Values are well formed and no deeper than the limit; member names of an
    object are new. *)
Lemma parse_wf fuel :
  (forall d s v r, value fuel d s = Ok (v, r) -> wf_json v /\ (d + height v <= maxJSONDepth)%nat) /\
  (forall d s l r, array_loop fuel d s = Ok (l, r) ->
     Forall wf_json l /\ (d <= maxJSONDepth -> d + height (JArray l) <= maxJSONDepth)%nat) /\
  (forall d seen s ms r, object_loop fuel d seen s = Ok (ms, r) ->
     NoDup ms.*1 /\ Forall (fun m => (m.1 ∉ seen) /\ valid_utf8 m.1) ms /\ Forall (fun m => wf_json m.2) ms /\
     (d <= maxJSONDepth -> d + height (JObject ms) <= maxJSONDepth)%nat).
Proof.
  induction fuel as [|fuel (IHv & IHa & IHo)]; [done|]. split_and!.
  - intros d s v r. cbn [value]. destruct (Nat.ltb_spec maxJSONDepth d); [done|]. destruct s as [|c s]; [done|].
    assert (d + 0 <= maxJSONDepth)%nat as Hd by lia. destruct (is_char 123 c).
    { destruct (eat 125 _); [intros [= <- <-]; split; [constructor; constructor|done]|].
      intros Hx. inv_bind Hx. injection Hx as <- <-. apply IHo in Hb as (Hnd & Hk & Hw & Hh).
      split; [|auto]. constructor; [done| |done]. eapply Forall_impl; [exact Hk|]. by intros ? []. }
    destruct (is_char 91 c).
    { destruct (eat 93 _); [intros [= <- <-]; split; [constructor; constructor|done]|].
      intros Hx. inv_bind Hx. injection Hx as <- <-. apply IHa in Hb as (Hw & Hh). split; [by constructor|auto]. }
    destruct (is_char 34 c).
    { intros Hx. inv_bind Hx. injection Hx as <- <-. split; [|done]. constructor. by eapply string_loop_valid. }
    unfold literal. do 3 (destruct (is_char _ c);
      [destruct (HasPrefix _ _); [intros [= <- <-]; split; [constructor|done]|done]|]).
    destruct (_ || _); [|done]. unfold number. intros Hx. inv_bind Hx.
    destruct (ParseFloat a) eqn:E; [|done]. injection Hx as <- <-. split; [|done].
    constructor. by eapply ParseFloat_wf.
  - intros d s l r Hx. cbn [array_loop] in Hx. inv_bind Hx. apply IHv in Hb as [Hw Hh].
    destruct (skipWS b) as [|c q]; [done|]. destruct (is_char 44 c).
    + inv_bind Hx. injection Hx as <- <-. apply IHa in Hb as [Hws Hhs].
      split; [by constructor|]. rewrite height_array. lia.
    + destruct (is_char 93 c); [|done]. injection Hx as <- <-. rewrite height_array.
      split; [by repeat constructor|]. cbn [height max_list_with]. lia.
  - intros d seen s ms r Hx. cbn [object_loop] in Hx.
    destruct (eat 34 (skipWS s)) as [s1|] eqn:E1; [|done].
    inv_bind Hx. apply string_loop_valid in Hb. destruct (bool_decide _) eqn:Hseen; [done|]. bool_prop.
    destruct (eat 58 (skipWS b)) as [s2|] eqn:E2; [|done]. inv_bind Hx. apply IHv in Hb0 as [Hw Hh].
    destruct (skipWS b0) as [|c q]; [done|]. destruct (is_char 44 c).
    + inv_bind Hx. injection Hx as <- <-. apply IHo in Hb0 as (Hnd & Hk & Hws & Hhs).
      rewrite height_object. split_and!; [|constructor; [done|]|by constructor|cbn [snd]; lia].
      * cbn. constructor; [|done]. intros (m & E & Hm)%list_elem_of_fmap. rewrite Forall_forall in Hk.
        destruct (Hk m Hm) as [Hn _]. set_solver.
      * eapply Forall_impl; [exact Hk|]. set_solver.
    + destruct (is_char 125 c); [|done]. injection Hx as <- <-. rewrite height_object.
      split_and!; [cbn; apply NoDup_singleton|by repeat constructor|by repeat constructor|].
      cbn [height max_list_with snd]. lia.
Qed.

Lemma parseJSON_wf s v : parseJSON s = Ok v -> wf_json v /\ (height v <= maxJSONDepth)%nat.
Proof.
  unfold parseJSON. intros H. inv_bind H. apply parse_wf in Hb. destruct (is_empty _); [|done].
  injection H as <-. done.
Qed.

(** * Canonical text identifies the value *)

(** Equality of JSON values: member order and the sign of zero are not part
    of a value. *)
Inductive jeq : json -> json -> Prop :=
  | je_null : jeq JNull JNull
  | je_bool b : jeq (JBool b) (JBool b)
  | je_number f g : f = g \/ (f_is_zero f = true /\ f_is_zero g = true) -> jeq (JNumber f) (JNumber g)
  | je_string s : jeq (JString s) (JString s)
  | je_array l l' : Forall2 jeq l l' -> jeq (JArray l) (JArray l')
  | je_object ms ms' ms'' :
      ms' ≡ₚ ms'' -> Forall2 (fun m m' => m.1 = m'.1 /\ jeq m.2 m'.2) ms ms'' ->
      jeq (JObject ms) (JObject ms').

Lemma f_norm_eq f g : f_norm f = f_norm g <-> f = g \/ (f_is_zero f = true /\ f_is_zero g = true).
Proof.
  unfold f_norm. destruct (f_is_zero f) eqn:Ef, (f_is_zero g) eqn:Eg; try naive_solver.
  - split; [|intros [->|[? ?]]; congruence]. intros <-. done.
  - split; [|intros [->|[? ?]]; congruence]. intros ->. done.
Qed.

Lemma wf_map_norm ms : NoDup ms.*1 -> Forall (fun m => valid_utf8 m.1) ms ->
  NoDup (map (map_snd norm) ms).*1 /\ Forall (fun m : string * json => valid_utf8 m.1) (map (map_snd norm) ms).
Proof. intros Hnd Hv. rewrite map_snd_fst. split; [done|]. by apply Forall_map. Qed.

Lemma jeq_norm v w : wf_json v -> jeq v w -> norm v = norm w.
Proof.
  revert w. induction v as [|b|f|s|l IH|ms IH] using json_ind'; intros w Hwf Hj; inversion Hj; subst; try done.
  - cbn. f_equal. by apply f_norm_eq.
  - cbn. f_equal. inversion Hwf as [| | | |? Hl|]; subst. clear Hj Hwf.
    match goal with H : Forall2 _ _ _ |- _ => induction H as [|x y l l' Hxy _ IHl] end; [done|].
    apply Forall_cons in IH as [? ?], Hl as [? ?]. cbn. f_equal; auto.
  - inversion Hwf as [| | | | |? Hnd Hv Hw]; subst. cbn.
    destruct (wf_map_norm ms Hnd Hv) as [Hnd' Hv'].
    rewrite (sort_members_unique _ (map (map_snd norm) ms')); [done|done|done|].
    etransitivity; [|apply Permutation_map; symmetry; eassumption].
 apply Permutation_refl'. clear -IH Hw H1. induction H1 as [|x y l l' [Hk Hxy] _ IHl]; [done|].
    apply Forall_cons in IH as [? ?], Hw as [? ?]. cbn. f_equal; [|auto]. unfold map_snd. f_equal; auto.
Qed.

Lemma norm_jeq v w : norm v = norm w -> jeq v w.
Proof.
  revert w. induction v as [|b|f|s|l IH|ms IH] using json_ind'; intros w Hn;
    destruct w as [|b'|f'|s'|l'|ms']; try discriminate Hn; cbn in Hn.
  - constructor.
  - injection Hn as ->. constructor.
  - injection Hn as Hn. constructor. by apply f_norm_eq.
  - injection Hn as ->. constructor.
  - constructor. injection Hn as Hn. revert l' Hn. induction IH as [|x l Hx _ IHl]; intros [|y l'] Hn; try done.
    injection Hn as Hxy Hn. constructor; auto.
  - injection Hn as Hn.
    assert (map (map_snd norm) ms ≡ₚ map (map_snd norm) ms') as Hp.
    { rewrite <- (sort_slice_perm member_less (map _ ms)), Hn. apply sort_slice_perm. }
    apply Permutation_map_inv in Hp as (ms'' & Hms & Hp'). apply (je_object _ _ ms''); [done|].
    clear Hn Hp'. revert ms'' Hms. induction IH as [|x l Hx _ IHl]; intros [|y l'] Hm; try done.
    cbn in Hm. injection Hm as Hk Hxy Hm. constructor; auto.
Qed.

Lemma norm_text v w :
  wf_json v -> wf_json w -> (height v <= maxJSONDepth)%nat -> (height w <= maxJSONDepth)%nat ->
  writeCanonical v = writeCanonical w <-> norm v = norm w.
Proof.
  intros Hv Hw Hhv Hhw. split; intros H.
  - assert (Ok (norm v) = Ok (norm w)) as [=]; [|done]. by rewrite <- !parse_canonical, H.
  - by rewrite <- (write_norm v), <- (write_norm w), H.
Qed.

(** The parser always answers: on every byte string it returns a value that
    is well formed (finite doubles, valid UTF-8, distinct member names) and no
    deeper than the limit, or an I-JSON error; the loops terminate within the
    fuel [2 * len + 2]. *)
Theorem parse_total s :
  match parseJSON s with
  | Ok v => wf_json v /\ (height v <= maxJSONDepth)%nat
  | Err e => e <> out_of_fuel
  end.
Proof.
  pose proof (parse_fuel_enough s) as Hf. destruct (parseJSON s) as [v|e] eqn:E.
  - by apply parseJSON_wf in E.
  - intros ->. by apply Hf.
Qed.

(** Canonical text reads back: the parser returns, for the text the writer
    produces, the same value with its members in UTF-16 order and [-0] as [0]. *)
Theorem canonical_roundtrip v :
  wf_json v -> (height v <= maxJSONDepth)%nat ->
  parseJSON (writeCanonical v) = Ok (norm v) /\ jeq v (norm v).
Proof.
  intros Hv Hh. split; [by apply parse_canonical|]. apply norm_jeq.
  pose proof (parse_canonical v Hv Hh) as Hp. apply parseJSON_wf in Hp as [Hwn Hhn].
  by apply norm_text; [..|rewrite write_norm].
Qed.

Lemma canonical_roundtrip_witness :
  let v := JObject [("b", JArray [JNull; JBool true]); ("a", JString "x")] in
  parseJSON (writeCanonical v) = Ok (JObject [("a", JString "x"); ("b", JArray [JNull; JBool true])]).
Proof.
  apply (canonical_roundtrip (JObject [("b", JArray [JNull; JBool true]); ("a", JString "x")])).
  - assert (forall c, byte_val c < 128 -> valid_utf8 (String c "")) as H.
    { intros c Hc. rewrite <- (EncodeRune_ascii c Hc). apply valid_one. pose proof (byte_val_bounds c). left. lia. }
    constructor; [apply (bool_decide_unpack _); vm_compute; done|repeat constructor; by apply H|].
    repeat constructor. by apply H.
  - vm_compute. lia.
Defined.

(** [Canonicalize] is idempotent: canonical text is its own canonical form. *)
Theorem canonicalize_idempotent s t : Canonicalize s = Ok t -> Canonicalize t = Ok t.
Proof.
  unfold Canonicalize. intros (v & Hp & [= <-])%bind_Ok. apply parseJSON_wf in Hp as [Hw Hh].
  rewrite parse_canonical by done. cbn. by rewrite write_norm.
Qed.

Lemma canonicalize_idempotent_witness :
  let t := quoted "{'a':1.5,'b':[null]}" in
  Canonicalize (quoted " { 'b' : [ null ], 'a' : 15e-1 } ") = Ok t /\ Canonicalize t = Ok t.
Proof.
  split; [vm_compute; reflexivity|].
  apply (canonicalize_idempotent (quoted " { 'b' : [ null ], 'a' : 15e-1 } ")). vm_compute. reflexivity.
Defined.

(** C39 Two JSON texts have the same canonical form exactly when they denote the
    same value: array by array, member by member in any order, with [-0] equal
    to [0]. In particular hashes of canonical text identify values. *)
Theorem canonicalize_equal_iff s t v w :
  parseJSON s = Ok v -> parseJSON t = Ok w ->
  Canonicalize s = Canonicalize t <-> jeq v w.
Proof.
  intros Hs Ht. unfold Canonicalize. rewrite Hs, Ht. cbn.
  apply parseJSON_wf in Hs as [? ?], Ht as [? ?]. split.
  - intros [= E]. by apply norm_jeq, norm_text.
  - intros E. f_equal. by apply norm_text, jeq_norm.
Qed.

Lemma canonicalize_equal_iff_witness :
  Canonicalize (quoted "{'a':1,'b':-0}") = Canonicalize (quoted "{'b':0, 'a':1.0}").
Proof.
  eapply canonicalize_equal_iff; [vm_compute; reflexivity..|].
  eapply je_object; [apply Permutation_swap|].
  repeat (constructor; [split; [reflexivity|constructor; vm_compute; auto]|]). constructor.
Defined.

(** The storage check refuses every canonical text of a value holding a
    string with U+0000: the byte is written as the escape it looks for. *)
Theorem storable_no_nul s :
  (exists a b, s = a +:+ String "000" b) -> checkStorable (writeCanonicalString s) = Err ErrNotStorable.
Proof.
  intros (a & b & ->). unfold checkStorable, writeCanonicalString.
  assert (forall x y z, Contains (x +:+ y +:+ z) y = true) as Hc.
  { intros x y z. induction x as [|c x IH].
    - change ("" +:+ y +:+ z) with (y +:+ z). pose proof (HasPrefix_same y z) as H.
      destruct (y +:+ z); cbn in *; by rewrite H.
    - rewrite str_app_cons. cbn. rewrite IH. apply orb_true_r. }
  assert (forall x y, escape_string (x +:+ y) = escape_string x +:+ escape_string y) as He.
  { intros x y. induction x as [|c x IH]; [done|]. rewrite str_app_cons. cbn. by rewrite IH, str_app_assoc. }
  rewrite He. cbn [escape_string]. change (escape_byte "000") with "\u0000".
  rewrite !str_app_assoc. change (String quote (?x +:+ ?y)) with (String quote x +:+ y).
  by rewrite Hc.
Qed.

Lemma storable_no_nul_witness : checkStorable (writeCanonicalString (String "000" "")) = Err ErrNotStorable.
Proof. apply (storable_no_nul (String "000" "")). by exists "", "". Defined.

(** It refuses more than that: a backslash followed by the five characters
    u0000 is written with its backslash doubled, which the byte search cannot
    tell from the escape, though the string holds no U+0000. *)
Theorem storable_refuses_backslash :
  checkStorable (writeCanonicalString "\u0000") = Err ErrNotStorable.
Proof. vm_compute. reflexivity. Qed.
