(* ===== verification/Marshal.v ===== *)
(** [CanonicalizeValue] (internal/igagov/canonical.go): Go values written by
    [encoding/json], then canonicalised. The text [json.Marshal] writes is
    modelled byte for byte (compact, HTML-escaped, U+FFFD for invalid UTF-8),
    and proved to denote the value the struct stands for, so the rest of the
    development can reason about values instead of text. *)

From stdpp Require Import base list strings sorting.
From Stdlib Require Import Ascii.
From S2P Require Import Prelude Slices Float64 Utf8 Json JsonCanon.

(** What [json.Marshal] is given: structs and maps as their fields in the order
    they are written ([omitempty] fields left out when empty), nil pointers as
    [GNull], [json.RawMessage] values as the canonical text they hold. *)
Inductive goval :=
  | GNull
  | GBool (b : bool)
  | GInt (z : Z)
  | GString (s : string)
  | GSlice (l : list goval)
  | GStruct (fields : list (string * goval))
  | GRaw (v : json).

(** * [json.Marshal] *)

Definition marshal_byte (c : ascii) : string :=
  if is_char 34 c || is_char 92 c then String backslash (String c "")
  else if is_char 8 c then "\b"
  else if is_char 12 c then "\f"
  else if is_char 10 c then "\n"
  else if is_char 13 c then "\r"
  else if is_char 9 c then "\t"
  else if (byte_val c <? 32) || is_char 60 c || is_char 62 c || is_char 38 c then
    "\u00" +:+ String (hexdigit (Z.shiftr (byte_val c) 4)) (String (hexdigit (Z.land (byte_val c) 15)) "")
  else String c "".

Definition marshal_rune (r : Z) : string :=
  if r <? 128 then marshal_byte (byte_of r)
  else if r =? 8232 then "\u2028"
  else if r =? 8233 then "\u2029"
  else EncodeRune r.

Fixpoint marshal_body (fuel : nat) (s : string) : string :=
  match fuel with
  | O => ""
  | S fuel =>
      match s with
      | "" => ""
      | String _ s' =>
          match DecodeRune s with
          | Some (r, n) => marshal_rune r +:+ marshal_body fuel (str_drop n s)
          | None => "\ufffd" +:+ marshal_body fuel s'
          end
      end
  end.

Definition marshal_name (s : string) : string := marshal_body (str_length s) s.

Definition marshal_string (s : string) : string :=
  String quote (marshal_name s +:+ String quote "").

Fixpoint Marshal (g : goval) : string :=
  match g with
  | GNull => "null"
  | GBool true => "true"
  | GBool false => "false"
  | GInt z => Itoa z
  | GString s => marshal_string s
  | GSlice l => "[" +:+ Join (map Marshal l) "," +:+ "]"
  | GStruct fs =>
      "{" +:+ Join (map member_text (map (fun m => (marshal_name m.1, Marshal m.2)) fs)) "," +:+ "}"
  | GRaw v => writeCanonical v
  end.

(* src: internal/igagov/canonical.go:517-523 (CanonicalizeValue) *)
Definition CanonicalizeValue (g : goval) : result string := Canonicalize (Marshal g).

(** * The value a Go value stands for *)

(** Invalid bytes become U+FFFD. *)
Definition sanitize (s : string) : string :=
  foldr (fun r t => EncodeRune r +:+ t) "" (runes s).

Definition int_float (z : Z) : float64 := default f_zero (ParseFloat (Itoa z)).

Fixpoint value_of (g : goval) : json :=
  match g with
  | GNull => JNull
  | GBool b => JBool b
  | GInt z => JNumber (int_float z)
  | GString s => JString (sanitize s)
  | GSlice l => JArray (map value_of l)
  | GStruct fs => JObject (map (fun m => (sanitize m.1, value_of m.2)) fs)
  | GRaw v => norm v
  end.

(** Integers of 64 bits, field names that stay distinct. *)
Inductive gok : goval -> Prop :=
  | gok_null : gok GNull
  | gok_bool b : gok (GBool b)
  | gok_int z : - 2 ^ 63 <= z < 2 ^ 63 -> gok (GInt z)
  | gok_string s : gok (GString s)
  | gok_slice l : Forall gok l -> gok (GSlice l)
  | gok_struct fs :
      NoDup (map (fun m => sanitize m.1) fs) -> Forall (fun m => gok m.2) fs -> gok (GStruct fs)
  | gok_raw v : wf_json v -> gok (GRaw v).

Fixpoint gheight (g : goval) : nat :=
  match g with
  | GSlice l => max_list_with (fun v => S (gheight v)) l
  | GStruct fs => max_list_with (fun m => S (gheight m.2)) fs
  | GRaw v => height v
  | _ => O
  end.

Section GovalInd.
Variable P : goval -> Prop.
Hypothesis HNull : P GNull.
Hypothesis HBool : forall b, P (GBool b).
Hypothesis HInt : forall z, P (GInt z).
Hypothesis HString : forall s, P (GString s).
Hypothesis HSlice : forall l, Forall P l -> P (GSlice l).
Hypothesis HStruct : forall fs, Forall (fun m => P m.2) fs -> P (GStruct fs).
Hypothesis HRaw : forall v, P (GRaw v).

Fixpoint goval_ind' (g : goval) : P g :=
  match g with
  | GNull => HNull
  | GBool b => HBool b
  | GInt z => HInt z
  | GString s => HString s
  | GSlice l =>
      HSlice l ((fix go l : Forall P l :=
        match l with
        | [] => Forall_nil_2 P
        | v :: l => Forall_cons_2 P v l (goval_ind' v) (go l)
        end) l)
  | GStruct ms =>
      HStruct ms ((fix go ms : Forall (fun m => P m.2) ms :=
        match ms with
        | [] => Forall_nil_2 _
        | m :: ms => Forall_cons_2 _ m ms (goval_ind' m.2) (go ms)
        end) ms)
  | GRaw v => HRaw v
  end.
End GovalInd.

(** ** Strings *)

Lemma marshal_byte_ascii c :
  byte_val c < 128 ->
  (marshal_byte c = String c "" /\ 32 <= byte_val c < 128 /\ is_char 34 c = false /\ is_char 92 c = false) \/
  (exists x, marshal_byte c = String backslash x /\ forall rest, escape (x +:+ rest) = Ok (String c "", rest)).
Proof.
  destruct c as [[][][][][][][][]]; intros H; try (by exfalso; vm_compute in H);
    first [ left; split_and!; vm_compute; solve [reflexivity | discriminate]
          | right; eexists; split; [vm_compute; reflexivity|]; intros rest; reflexivity].
Qed.

Lemma denotes_rune r t s : scalar r -> denotes t s -> denotes (marshal_rune r +:+ t) (EncodeRune r +:+ s).
Proof.
  intros Hr Ht. unfold marshal_rune. destruct (Z.ltb_spec r 128).
  { assert (0 <= r) as Hr0 by (unfold scalar in Hr; lia).
    assert (byte_val (byte_of r) = r) as Hb by (apply byte_val_of; lia).
    assert (EncodeRune r = String (byte_of r) "") as ->.
    { rewrite <- Hb at 1. apply EncodeRune_ascii. lia. }
    destruct (marshal_byte_ascii (byte_of r)) as [(-> & ? & ? & ?)|(x & -> & Hx)]; [lia|by constructor|].
    rewrite str_app_cons. by apply (den_escape x (String (byte_of r) "")). }
  destruct (Z.eqb_spec r 8232) as [->|].
  { apply (den_escape "u2028" (EncodeRune 8232) t s); [by intros|done]. }
  destruct (Z.eqb_spec r 8233) as [->|].
  { apply (den_escape "u2029" (EncodeRune 8233) t s); [by intros|done]. }
  by constructor.
Qed.

Lemma marshal_body_denotes fuel s :
  denotes (marshal_body fuel s) (foldr (fun r t => EncodeRune r +:+ t) "" (runes_fuel fuel s)).
Proof.
  revert s. induction fuel as [|fuel IH]; intros s; cbn; [constructor|].
  destruct s as [|c s]; [constructor|]. destruct (DecodeRune _) as [[r n]|] eqn:E.
  - apply DecodeRune_inv in E as (? & _ & _ & Hr). by apply denotes_rune.
  - apply (den_escape "ufffd" (EncodeRune 65533)); [by intros|done].
Qed.

Lemma marshal_name_denotes s : denotes (marshal_name s) (sanitize s).
Proof. apply marshal_body_denotes. Qed.

Lemma sanitize_valid s : valid_utf8 (sanitize s).
Proof.
  unfold sanitize, runes. pose proof (runes_scalar_fuel (str_length s) s) as H.
  induction H as [|r l Hr _ IH]; cbn; by constructor.
Qed.

Lemma sanitize_id_fuel n s :
  valid_utf8 s -> (str_length s <= n)%nat -> foldr (fun r t => EncodeRune r +:+ t) "" (runes_fuel n s) = s.
Proof.
  intros Hs. revert n. induction Hs as [|r s Hr Hs IH]; intros n Hn; [by destruct n|].
  destruct (EncodeRune_cons r) as (c & u & E). rewrite str_length_app, E in Hn. cbn in Hn.
  destruct n as [|n]; [lia|]. rewrite runes_fuel_rune by done. cbn. rewrite IH by lia. done.
Qed.

Lemma sanitize_id s : valid_utf8 s -> sanitize s = s.
Proof. intros. by apply sanitize_id_fuel. Qed.

(** ** Integers *)

Lemma round_pos_int z : 0 < z < 2 ^ 64 -> exists m e, round_pos z 1 = Some (m, e).
Proof.
  intros Hz. unfold round_pos, minExp, maxExp.
  assert (0 <= Z.log2 z < 64) as Hl.
  { split; [apply Z.log2_nonneg|]. apply Z.log2_lt_pow2; lia. }
  assert (log2_ratio z 1 = Z.log2 z) as ->.
  { unfold log2_ratio. change (Z.log2 1) with 0. rewrite Z.sub_0_r.
    destruct (Z.leb_spec 0 (Z.log2 z)); [|lia]. rewrite Z.mul_1_l.
    destruct (Z.log2_spec z) as [H1 _]; [lia|]. destruct (Z.leb_spec (2 ^ Z.log2 z) z); lia. }
  set (q := if _ : bool then _ else _ / _ : Z). destruct (q =? 2 ^ 53);
    (match goal with |- context [971 <? ?e] => destruct (Z.ltb_spec 971 e); [lia|] end); eauto.
Qed.

Lemma round_pos_int_exact z :
  0 < z < 2 ^ 53 -> round_pos z 1 = Some (z * 2 ^ (52 - Z.log2 z), Z.log2 z - 52).
Proof.
  intros Hz. assert (0 <= Z.log2 z < 53) as Hl.
  { split; [apply Z.log2_nonneg|]. apply Z.log2_lt_pow2; lia. }
  destruct (Z.log2_spec z) as [H1 H2]; [lia|]. rewrite <- Z.add_1_r in H2.
  assert (0 < 2 ^ (52 - Z.log2 z)) as Hp by (apply Z.pow_pos_nonneg; lia).
  apply round_pos_exact; [|lia|lia|].
  - unfold f_canonical, minExp, maxExp. split_and!; [nia| |lia|lia|left].
    + change (2 ^ 53) with (2 ^ (1 + 52)).
      replace (1 + 52) with (Z.log2 z + 1 + (52 - Z.log2 z)) by lia. rewrite Z.pow_add_r by lia. nia.
    + replace 52 with (Z.log2 z + (52 - Z.log2 z)) at 1 by lia. rewrite Z.pow_add_r by lia. nia.
  - destruct (Z.leb_spec 0 (Z.log2 z - 52)).
    + replace (Z.log2 z) with 52 by lia. cbn. lia.
    + rewrite Z.opp_sub_distr, Z.add_comm. replace (52 + - Z.log2 z) with (52 - Z.log2 z) by lia. lia.
Qed.

Definition int_parts (z : Z) : numparts := {| np_ip := digits_of (Z.abs z); np_fp := ""; np_ex := None |}.

Lemma int_parts_ok z :
  np_ok (int_parts z) /\ Itoa z = (if z <? 0 then "-" else "") +:+ np_text (int_parts z) /\
  np_digits (int_parts z) = Z.abs z /\ np_power (int_parts z) = 0.
Proof.
  destruct (digits_of_spec (Z.abs z)) as (Hd & Hv & Hne & Hlead & Hz); [lia|].
  split_and!; [|unfold Itoa, np_text|done|done].
  - unfold np_ok. cbn. split_and!; [done|done| |done]. destruct (Z.eq_dec z 0) as [->|]; [by left|right].
    apply Hlead. lia.
  - cbn [np_ip np_fp np_ex int_parts is_empty]. change (is_empty "") with true. cbn [np_exp_text].
    rewrite str_app_nil_r. destruct (Z.ltb_spec z 0).
    + by rewrite Z.abs_neq, ?str_app_nil_r by lia.
    + by rewrite Z.abs_eq, ?str_app_nil_r by lia.
Qed.

Lemma ParseFloat_Itoa z :
  - 2 ^ 63 <= z < 2 ^ 63 -> ParseFloat (Itoa z) = Some (int_float z).
Proof.
  intros Hz. unfold int_float. destruct (int_parts_ok z) as (Hok & E & Hd & Hp).
  assert (is_Some (ParseFloat (Itoa z))) as [f ->]; [|done].
  rewrite E. unfold ParseFloat. rewrite read_float_np by done. rewrite Hd, Hp.
  destruct (Z.eqb_spec (Z.abs z) 0); [done|]. unfold round_dec. cbn [Z.leb Z.compare].
  rewrite Z.mul_1_r. destruct (round_pos_int (Z.abs z)) as (m & e & ->); [lia|done].
Qed.

(** Up to 53 bits the double is the integer. *)
Lemma int_float_inj z z' :
  - 2 ^ 53 < z < 2 ^ 53 -> - 2 ^ 53 < z' < 2 ^ 53 ->
  f_norm (int_float z) = f_norm (int_float z') -> z = z'.
Proof.
  assert (forall z, - 2 ^ 53 < z < 2 ^ 53 -> int_float z =
    if z =? 0 then f_zero else {| f_neg := z <? 0; f_m := Z.abs z * 2 ^ (52 - Z.log2 (Z.abs z)); f_e := Z.log2 (Z.abs z) - 52 |}) as H.
  { intros x Hx. assert (Some (int_float x) = Some (if x =? 0 then f_zero else
      {| f_neg := x <? 0; f_m := Z.abs x * 2 ^ (52 - Z.log2 (Z.abs x)); f_e := Z.log2 (Z.abs x) - 52 |})) as [=]; [|done].
    rewrite <- ParseFloat_Itoa by lia. destruct (int_parts_ok x) as (Hok & -> & Hd & Hp).
    unfold ParseFloat. rewrite read_float_np by done. rewrite Hd, Hp.
    destruct (Z.eqb_spec (Z.abs x) 0), (Z.eqb_spec x 0); try lia; [by subst|].
    unfold round_dec. cbn [Z.leb Z.compare]. rewrite Z.mul_1_r, round_pos_int_exact by lia.
    assert (0 < Z.abs x * 2 ^ (52 - Z.log2 (Z.abs x))).
    { apply Z.mul_pos_pos; [lia|]. apply Z.pow_pos_nonneg; [lia|].
      assert (Z.log2 (Z.abs x) < 53); [|lia]. apply Z.log2_lt_pow2; lia. }
    destruct (Z.eqb_spec (Z.abs x * 2 ^ (52 - Z.log2 (Z.abs x))) 0); [lia|done]. }
  intros Hz Hz'. rewrite !H by done. unfold f_norm, f_is_zero.
  assert (forall x, x <> 0 -> - 2 ^ 53 < x < 2 ^ 53 -> (Z.abs x * 2 ^ (52 - Z.log2 (Z.abs x)) =? 0) = false) as Hn.
  { intros x Hx Hb. apply Z.eqb_neq. assert (0 < 2 ^ (52 - Z.log2 (Z.abs x))); [|nia].
    apply Z.pow_pos_nonneg; [lia|]. assert (Z.log2 (Z.abs x) < 53); [|lia]. apply Z.log2_lt_pow2; lia. }
  destruct (Z.eqb_spec z 0) as [->|Hz0], (Z.eqb_spec z' 0) as [->|Hz0']; cbn [f_m f_zero]; try done.
  - change (0 =? 0) with true. rewrite Hn by done. intros [= _ Hm _]. exfalso.
    specialize (Hn z' Hz0' Hz'). apply Z.eqb_neq in Hn. lia.
  - change (0 =? 0) with true. rewrite Hn by done. intros [= _ Hm _]. exfalso.
    specialize (Hn z Hz0 Hz). apply Z.eqb_neq in Hn. lia.
  - rewrite !Hn by done. intros [= Hs Hm He].
    assert (Z.abs z = Z.abs z') as Ha.
    { assert (Z.log2 (Z.abs z) = Z.log2 (Z.abs z')) as Hl by lia. rewrite Hl in Hm.
      apply Z.mul_reg_r in Hm; [done|]. apply Z.pow_nonzero; [lia|].
      assert (Z.log2 (Z.abs z') < 53); [|lia]. apply Z.log2_lt_pow2; lia. }
    destruct (Z.ltb_spec z 0), (Z.ltb_spec z' 0); try done; lia.
Qed.

(** ** Values *)

Lemma parses_int z : - 2 ^ 63 <= z < 2 ^ 63 -> parses (Itoa z) 0 (JNumber (int_float z)).
Proof.
  intros Hz. pose proof (ParseFloat_Itoa z Hz) as Hp. destruct (int_parts_ok z) as (Hok & E & _ & _).
  apply parses_number.
  - rewrite E. destruct (z <? 0); [by eexists _, _; split; [|left]|].
    destruct Hok as (Hip & _ & Hlead & _). unfold np_text. destruct (np_ip (int_parts z)) as [|c r]; [naive_solver|].
    eexists _, _. split; [done|right]. cbn in Hip. by apply andb_prop in Hip as [? _].
  - intros rest Hr. unfold number. rewrite E, str_app_assoc, scan_number_np by done.
    cbn [mbind result_bind]. by rewrite <- E, Hp.
Qed.

Lemma int_float_wf z : - 2 ^ 63 <= z < 2 ^ 63 -> f_wf (int_float z).
Proof. intros Hz. eapply ParseFloat_wf. by apply ParseFloat_Itoa. Qed.

Lemma gheight_slice v l : gheight (GSlice (v :: l)) = Nat.max (S (gheight v)) (gheight (GSlice l)).
Proof. done. Qed.
Lemma gheight_struct m ms : gheight (GStruct (m :: ms)) = Nat.max (S (gheight m.2)) (gheight (GStruct ms)).
Proof. done. Qed.

Lemma gheight_slice_in l v : v ∈ l -> (S (gheight v) <= gheight (GSlice l))%nat.
Proof. induction 1 as [v l|v w l _ IH]; rewrite gheight_slice; lia. Qed.
Lemma gheight_struct_in ms m : m ∈ ms -> (S (gheight m.2) <= gheight (GStruct ms))%nat.
Proof. induction 1 as [m l|m w l _ IH]; rewrite gheight_struct; lia. Qed.

Lemma Marshal_parses g : gok g -> parses (Marshal g) (gheight g) (value_of g).
Proof.
  induction g as [|b|z|s|l IH|ms IH|v] using goval_ind'; intros Hg.
  - by apply parses_literal; auto.
  - apply parses_literal. destruct b; auto.
  - inversion Hg. by apply parses_int.
  - apply parses_string, marshal_name_denotes.
  - inversion Hg as [| | | |? Hl| |]; subst. destruct l as [|w l]; [apply parses_array_nil|].
    assert (gheight (GSlice (w :: l)) = S (pred (gheight (GSlice (w :: l))))) as -> by (rewrite gheight_slice; lia).
    apply (parses_array _ (map Marshal (w :: l)) (map value_of (w :: l))), Forall2_map_both.
    rewrite Forall_forall in IH, Hl. apply Forall_forall. intros v Hv.
    eapply parses_mono; [|by apply IH, Hl]. apply gheight_slice_in in Hv. lia.
  - inversion Hg as [| | | | |? Hnd Hl|]; subst. destruct ms as [|w l]; [apply parses_object_nil|].
    assert (gheight (GStruct (w :: l)) = S (pred (gheight (GStruct (w :: l))))) as -> by (rewrite gheight_struct; lia).
    apply (parses_object _ (map (fun m => (marshal_name m.1, Marshal m.2)) (w :: l))
             (map (fun m => (sanitize m.1, value_of m.2)) (w :: l))).
    + apply Forall2_map_both. rewrite Forall_forall in IH, Hl. apply Forall_forall. intros m Hm.
      split; cbn [fst snd]; [apply marshal_name_denotes|].
      eapply parses_mono; [|by apply IH, Hl]. apply gheight_struct_in in Hm. lia.
    + change (NoDup (map fst (map (fun m => (sanitize m.1, value_of m.2)) (w :: l)))). by rewrite map_map.
  - inversion Hg. by apply parses_canonical.
Qed.

Lemma Marshal_parse g : gok g -> (gheight g <= maxJSONDepth)%nat -> parseJSON (Marshal g) = Ok (value_of g).
Proof. intros Hg Hh. eapply parses_text; [by apply Marshal_parses|done]. Qed.

Lemma CanonicalizeValue_ok g :
  gok g -> (gheight g <= maxJSONDepth)%nat -> CanonicalizeValue g = Ok (writeCanonical (value_of g)).
Proof. intros. unfold CanonicalizeValue, Canonicalize. by rewrite Marshal_parse. Qed.

(** Two values have the same canonical text exactly when they stand for the
    same JSON value. *)
Lemma CanonicalizeValue_eq g g' t :
  gok g -> gok g' -> (gheight g <= maxJSONDepth)%nat -> (gheight g' <= maxJSONDepth)%nat ->
  CanonicalizeValue g = Ok t -> CanonicalizeValue g' = Ok t -> jeq (value_of g) (value_of g').
Proof.
  intros Hg Hg' Hh Hh'. rewrite !CanonicalizeValue_ok by done. intros [= <-] [= E].
  pose proof (Marshal_parse g Hg Hh) as Hp. pose proof (Marshal_parse g' Hg' Hh') as Hp'.
  apply parseJSON_wf in Hp as [? ?], Hp' as [? ?]. apply norm_jeq, norm_text; done.
Qed.

(** Objects with the same distinct names in the same order are equal field by
    field. *)
Lemma jeq_fields ms ms' :
  jeq (JObject ms) (JObject ms') -> ms.*1 = ms'.*1 -> NoDup ms.*1 -> Forall2 jeq ms.*2 ms'.*2.
Proof.
  inversion 1 as [| | | | |? ? ms'' Hp Hf]; subst. intros Hk Hnd.
  assert (ms''.*1 = ms.*1) as Hk'.
  { clear -Hf. induction Hf as [|m m' l l' [Hm _] _ IH]; cbn; [done|]. by rewrite Hm, IH. }
  assert (ms'' = ms') as ->.
  { apply (perm_key_eq fst).
    - change (NoDup ms''.*1). by rewrite Hk'.
    - by symmetry.
    - change (ms''.*1 = ms'.*1). congruence. }
  clear -Hf. induction Hf as [|m m' l l' [_ Hm] _ IH]; cbn; by constructor.
Qed.

Lemma jeq_string s s' : jeq (JString s) (JString s') -> s = s'.
Proof. by inversion 1. Qed.
Lemma jeq_bool b b' : jeq (JBool b) (JBool b') -> b = b'.
Proof. by inversion 1. Qed.
