(* ===== verification/Sha256.v ===== *)
(** Package [crypto/sha256] as FIPS 180-4 defines it, on 32-bit words held in
    [Z] with the wrap-around written out, and [hex.EncodeToString]. *)

From stdpp Require Import base list strings.
From Stdlib Require Import Ascii.
From S2P Require Import Prelude Utf8.

Definition word (z : Z) : Z := z mod 2 ^ 32.
Definition wadd (a b : Z) : Z := word (a + b).
Definition rotr (n x : Z) : Z := Z.lor (Z.shiftr x n) (word (Z.shiftl x (32 - n))).

Definition Ch (x y z : Z) : Z := Z.lxor (Z.land x y) (Z.land (Z.lxor x 4294967295) z).
Definition Maj (x y z : Z) : Z := Z.lxor (Z.lxor (Z.land x y) (Z.land x z)) (Z.land y z).
Definition Sigma0 (x : Z) : Z := Z.lxor (Z.lxor (rotr 2 x) (rotr 13 x)) (rotr 22 x).
Definition Sigma1 (x : Z) : Z := Z.lxor (Z.lxor (rotr 6 x) (rotr 11 x)) (rotr 25 x).
Definition sigma0 (x : Z) : Z := Z.lxor (Z.lxor (rotr 7 x) (rotr 18 x)) (Z.shiftr x 3).
Definition sigma1 (x : Z) : Z := Z.lxor (Z.lxor (rotr 17 x) (rotr 19 x)) (Z.shiftr x 10).

(** The constants of FIPS 180-4, as it derives them: the first 32 bits of the
    fractional parts of the cube roots of the first 64 primes, and of the square
    roots of the first 8. *)
Definition is_prime (n : nat) : bool :=
  forallb (fun d => negb (n mod d =? 0)%nat) (seq 2 (n - 2)).

Definition primes : list Z :=
  Eval vm_compute in (Z.of_nat <$> List.filter is_prime (seq 2 310)).

(** The integer part of the [k]-th root, bit by bit from [b]. *)
Fixpoint root_from (b : nat) (k n r : Z) : Z :=
  match b with
  | O => r
  | S b =>
      let r' := r + 2 ^ Z.of_nat b in
      root_from b k n (if r' ^ k <=? n then r' else r)
  end.

Definition fraction32 (k p : Z) : Z := word (root_from 37 k (p * 2 ^ (32 * k)) 0).

Definition K : list Z := Eval vm_compute in (fraction32 3 <$> take 64 primes).
Definition H0 : list Z := Eval vm_compute in (fraction32 2 <$> take 8 primes).

(** The message schedule, most recent word first. *)
Fixpoint schedule (n : nat) (rev : list Z) : list Z :=
  match n with
  | O => rev
  | S n =>
      let w k := nth k rev 0 in
      schedule n (wadd (wadd (sigma1 (w 1%nat)) (w 6%nat)) (wadd (sigma0 (w 14%nat)) (w 15%nat)) :: rev)
  end.

Definition round (st : list Z) (kw : Z * Z) : list Z :=
  match st with
  | [a; b; c; d; e; f; g; h] =>
      let t1 := wadd (wadd h (Sigma1 e)) (wadd (Ch e f g) (wadd kw.1 kw.2)) in
      let t2 := wadd (Sigma0 a) (Maj a b c) in
      [wadd t1 t2; a; b; c; wadd d t1; e; f; g]
  | _ => st
  end.

Definition compress (st block : list Z) : list Z :=
  let ws := rev (schedule 48 (rev block)) in
  zip_with wadd st (foldl round st (zip K ws)).

(** The bytes of a word, big-endian. *)
Definition be_bytes (n : nat) (z : Z) : list Z :=
  map (fun i => Z.shiftr z (8 * Z.of_nat i) mod 256) (rev (seq 0 n)).

Fixpoint bytes_of (s : string) : list Z :=
  match s with "" => [] | String c s => byte_val c :: bytes_of s end.

Definition pad (m : list Z) : list Z :=
  let n := Z.of_nat (length m) in
  m ++ [128] ++ replicate (Z.to_nat ((55 - n) mod 64)) 0 ++ be_bytes 8 (8 * n).

Fixpoint words (l : list Z) : list Z :=
  match l with
  | a :: b :: c :: d :: l => (a * 2 ^ 24 + b * 2 ^ 16 + c * 2 ^ 8 + d) :: words l
  | _ => []
  end.

Fixpoint blocks (fuel : nat) (st ws : list Z) : list Z :=
  match fuel, ws with
  | S fuel, _ :: _ => blocks fuel (compress st (take 16 ws)) (drop 16 ws)
  | _, _ => st
  end.

(** [sha256.Sum256]. *)
Definition Sum256 (s : string) : list Z :=
  let ws := words (pad (bytes_of s)) in
  flat_map (be_bytes 4) (blocks (length ws) H0 ws).

Definition hex_digit (n : Z) : ascii := byte_of (if n <? 10 then 48 + n else 97 + (n - 10)).

(** [hex.EncodeToString]. *)
Fixpoint hexString (l : list Z) : string :=
  match l with
  | [] => ""
  | b :: l => String (hex_digit (b / 16)) (String (hex_digit (b mod 16)) (hexString l))
  end.

(** FIPS 180-4 vectors: the empty message, one block, two blocks. *)
Example sha256_vectors :
  (fun s => hexString (Sum256 s)) <$>
  [""; "abc"; "abcdbcdecdefdefgefghfghighijhijkijkljklmklmnlmnomnopnopq"] =
  ["e3b0c44298fc1c149afbf4c8996fb92427ae41e4649b934ca495991b7852b855";
   "ba7816bf8f01cfea414140de5dae2223b00361a396177a9cb410ff61f20015ad";
   "248d6a61d20638b8e5c026930c3e6039a33ce45964ff2167f6ecedd419db06c1"].
Proof. vm_compute. reflexivity. Qed.
