(* ===== verification/PolicyDoc.v ===== *)
(** IAM policy documents (internal/igagov/canonical.go): decoding of the text
    AWS returns, statements in normalised form, and the relation between action
    patterns and service namespaces. *)

From stdpp Require Import base list strings gmap sorting.
From Stdlib Require Import Ascii.
From S2P Require Import Prelude Slices Glob Float64 Utf8 Json JsonCanon.

(** * Data *)

(* src: internal/igagov/canonical.go:1040-1043 (EffectAllow, EffectDeny) *)
Definition EffectAllow : string := "Allow".
Definition EffectDeny : string := "Deny".

(* src: internal/igagov/canonical.go:1050-1053 (Principal) *)
Record Principal := {
  Wildcard : bool;
  Values : gmap string (list string)
}.

(* src: internal/igagov/canonical.go:1057-1061 (ConditionEntry) *)
Record ConditionEntry := {
  Operator : string;
  Key : string;
  CondValues : list string
}.

(** [st_Resource] and [st_NotResource] keep Go's distinction between a nil and
    an empty slice. *)
(* src: internal/igagov/canonical.go:1067-1082 (Statement) *)
Record Statement := {
  st_Sid : string;
  st_Effect : string;
  st_Action : list string;
  st_NotAction : list string;
  st_IsNotAction : bool;
  st_Resource : option (list string);
  st_NotResource : option (list string);
  st_Principal : option Principal;
  st_NotPrincipal : option Principal;
  st_Conditions : list ConditionEntry;
  st_Raw : string;
  st_Unknown : list string
}.

(* src: internal/igagov/canonical.go:1086-1090 (PolicyDocument) *)
Record PolicyDocument := {
  doc_Version : string;
  doc_ID : string;
  doc_Statements : list Statement
}.

(** * Text *)

(** The runes of a string with their bytes; [None] for an invalid byte. *)
Fixpoint chunks_fuel (fuel : nat) (s : string) : list (option Z * string) :=
  match fuel with
  | O => []
  | S fuel =>
      match s with
      | "" => []
      | String c s' =>
          match DecodeRune s with
          | Some (r, n) => (Some r, str_take n s) :: chunks_fuel fuel (str_drop n s)
          | None => (None, String c "") :: chunks_fuel fuel s'
          end
      end
  end.

(** [unicode.IsSpace]. *)
Definition IsSpace (r : Z) : bool :=
  ((9 <=? r) && (r <=? 13)) || (r =? 32) || (r =? 133) || (r =? 160) || (r =? 5760) ||
  ((8192 <=? r) && (r <=? 8202)) || (r =? 8232) || (r =? 8233) || (r =? 8239) || (r =? 8287) || (r =? 12288).

Definition space_chunk (c : option Z * string) : bool :=
  match c.1 with Some r => IsSpace r | None => false end.

Fixpoint drop_spaces (l : list (option Z * string)) : list (option Z * string) :=
  match l with c :: l' => if space_chunk c then drop_spaces l' else l | [] => [] end.

(** [strings.TrimSpace]. *)
Definition TrimSpace (s : string) : string :=
  foldr (fun c t => c.2 +:+ t) ""
    (rev (drop_spaces (rev (drop_spaces (chunks_fuel (str_length s) s))))).

(** [url.PathUnescape]; [None] is an [EscapeError]. *)
Fixpoint PathUnescape (s : string) : option string :=
  match s with
  | "" => Some ""
  | String c s' =>
      if is_char 37 c then
        match s' with
        | String a (String b r) =>
            match hexVal a, hexVal b, PathUnescape r with
            | Some x, Some y, Some t => Some (String (byte_of (16 * x + y)) t)
            | _, _, _ => None
            end
        | _ => None
        end
      else match PathUnescape s' with Some t => Some (String c t) | None => None end
  end.

(* src: internal/igagov/canonical.go:1097-1107 (DecodePolicyText) *)
Definition DecodePolicyText (text : string) : result string :=
  let t := TrimSpace text in
  if HasPrefix t "{" then Ok t
  else match PathUnescape t with
       | None => Err (ErrPolicyDocument "url-decode")
       | Some u => Ok (TrimSpace u)
       end.

(** * Decoding *)

Definition derr {A} (msg : string) : result A := Err (ErrPolicyDocument msg).

(* src: internal/igagov/canonical.go:1169-1184 (stringOrArray) *)
Definition stringOrArray (v : json) (name : string) : result (list string) :=
  match v with
  | JString s => Ok [s]
  | JArray l =>
      mapM (fun el => match el with
                      | JString s => Ok s
                      | _ => derr (name +:+ " has a non-string entry")
                      end) l
  | _ => derr (name +:+ " is neither a string nor an array")
  end.

(* src: internal/igagov/canonical.go:1186-1213 (decodePrincipal) *)
Definition decodePrincipal (v : json) (name : string) : result Principal :=
  match v with
  | JString s =>
      if (s =? "*")%string then Ok {| Wildcard := true; Values := ∅ |}
      else derr (name +:+ " string must be *")
  | JObject ms =>
      foldl (fun acc (m : string * json) =>
               p ← acc;
               vals ← stringOrArray m.2 (name +:+ "." +:+ m.1);
               Ok {| Wildcard := Wildcard p || ((m.1 =? "AWS")%string && bool_decide ("*" ∈ vals));
                     Values := <[m.1 := vals]> (Values p) |})
            (Ok {| Wildcard := false; Values := ∅ |}) ms
  | _ => derr (name +:+ " is neither * nor an object")
  end.

(* src: internal/igagov/canonical.go:1215-1225 (conditionValueText) *)
Definition conditionValueText (v : json) : result string :=
  match v with
  | JString s => Ok s
  | JBool _ | JNumber _ | JNull => Ok (writeCanonical v)
  | _ => derr "condition value must be a scalar"
  end.

Definition condition_values (v : json) : result (list string) :=
  match v with
  | JArray l => mapM conditionValueText l
  | _ => s ← conditionValueText v; Ok [s]
  end.

Definition condition_keys (c : ConditionEntry) : list string := [Operator c; Key c].

(* src: internal/igagov/canonical.go:1227-1264 (decodeCondition) *)
Definition decodeCondition (v : json) : result (list ConditionEntry) :=
  match v with
  | JObject ops =>
      out ← mapM (fun op : string * json =>
        match op.2 with
        | JObject ks =>
            mapM (fun k : string * json =>
                    vals ← condition_values k.2;
                    Ok {| Operator := op.1; Key := k.1; CondValues := vals |}) ks
        | _ => derr ("Condition operator " +:+ op.1 +:+ " is not an object")
        end) ops;
      Ok (sort_slice (less_by condition_keys) (concat out))
  | _ => derr "Condition is not an object"
  end.

(** Field updates. *)
Definition set_Sid x '(Build_Statement _ b c d e f g h i j k l) := Build_Statement x b c d e f g h i j k l.
Definition set_Effect x '(Build_Statement a _ c d e f g h i j k l) := Build_Statement a x c d e f g h i j k l.
Definition set_Action x '(Build_Statement a b _ d e f g h i j k l) := Build_Statement a b x d e f g h i j k l.
Definition set_NotAction x '(Build_Statement a b c _ e f g h i j k l) := Build_Statement a b c x e f g h i j k l.
Definition set_IsNotAction x '(Build_Statement a b c d _ f g h i j k l) := Build_Statement a b c d x f g h i j k l.
Definition set_Resource x '(Build_Statement a b c d e _ g h i j k l) := Build_Statement a b c d e x g h i j k l.
Definition set_NotResource x '(Build_Statement a b c d e f _ h i j k l) := Build_Statement a b c d e f x h i j k l.
Definition set_Principal x '(Build_Statement a b c d e f g _ i j k l) := Build_Statement a b c d e f g x i j k l.
Definition set_NotPrincipal x '(Build_Statement a b c d e f g h _ j k l) := Build_Statement a b c d e f g h x j k l.
Definition set_Conditions x '(Build_Statement a b c d e f g h i _ k l) := Build_Statement a b c d e f g h i x k l.
Definition set_Unknown x '(Build_Statement a b c d e f g h i j k _) := Build_Statement a b c d e f g h i j k x.

(** The loop state of [decodeStatement]: the statement so far, and whether
    Action and NotAction were seen. *)
Record decoding := {
  dc_st : Statement;
  dc_hasAction : bool;
  dc_hasNotAction : bool
}.

Definition empty_statement (raw : string) : Statement :=
  {| st_Sid := ""; st_Effect := ""; st_Action := []; st_NotAction := []; st_IsNotAction := false;
     st_Resource := None; st_NotResource := None; st_Principal := None; st_NotPrincipal := None;
     st_Conditions := []; st_Raw := raw; st_Unknown := [] |}.

(** One member of a statement object. *)
(* src: internal/igagov/canonical.go:1276-1321 (decodeStatement, members) *)
Definition decode_member (d : decoding) (m : string * json) : result decoding :=
  let st := dc_st d in
  let keep st' := {| dc_st := st'; dc_hasAction := dc_hasAction d; dc_hasNotAction := dc_hasNotAction d |} in
  let '(k, v) := m in
  if (k =? "Sid")%string then
    match v with JString s => Ok (keep (set_Sid s st)) | _ => derr "Sid is not a string" end
  else if (k =? "Effect")%string then
    match v with
    | JString s =>
        if (s =? EffectAllow)%string || (s =? EffectDeny)%string then Ok (keep (set_Effect s st))
        else derr "Effect must be Allow or Deny"
    | _ => derr "Effect must be Allow or Deny"
    end
  else if (k =? "Action")%string then
    l ← stringOrArray v "Action";
    Ok {| dc_st := set_Action l st; dc_hasAction := true; dc_hasNotAction := dc_hasNotAction d |}
  else if (k =? "NotAction")%string then
    l ← stringOrArray v "NotAction";
    Ok {| dc_st := set_NotAction l st; dc_hasAction := dc_hasAction d; dc_hasNotAction := true |}
  else if (k =? "Resource")%string then
    l ← stringOrArray v "Resource"; Ok (keep (set_Resource (Some l) st))
  else if (k =? "NotResource")%string then
    l ← stringOrArray v "NotResource"; Ok (keep (set_NotResource (Some l) st))
  else if (k =? "Principal")%string then
    p ← decodePrincipal v "Principal"; Ok (keep (set_Principal (Some p) st))
  else if (k =? "NotPrincipal")%string then
    p ← decodePrincipal v "NotPrincipal"; Ok (keep (set_NotPrincipal (Some p) st))
  else if (k =? "Condition")%string then
    c ← decodeCondition v; Ok (keep (set_Conditions c st))
  else Ok (keep (set_Unknown (st_Unknown st ++ [k]) st)).

Fixpoint foldM {A B} (f : A -> B -> result A) (a : A) (l : list B) : result A :=
  match l with [] => Ok a | x :: l => a ← f a x; foldM f a l end.

(* src: internal/igagov/canonical.go:1266-1337 (decodeStatement) *)
Definition decodeStatement (v : json) : result Statement :=
  match v with
  | JObject ms =>
      d ← foldM decode_member
            {| dc_st := empty_statement (writeCanonical v); dc_hasAction := false; dc_hasNotAction := false |} ms;
      let st := dc_st d in
      if is_empty (st_Effect st) then derr "no Effect"
      else if eqb (dc_hasAction d) (dc_hasNotAction d) then
        derr "exactly one of Action and NotAction is required"
      else if bool_decide (is_Some (st_Principal st)) && bool_decide (is_Some (st_NotPrincipal st)) then
        derr "Principal and NotPrincipal are mutually exclusive"
      else if bool_decide (is_Some (st_Resource st)) && bool_decide (is_Some (st_NotResource st)) then
        derr "Resource and NotResource are mutually exclusive"
      else Ok (set_IsNotAction (dc_hasNotAction d)
                (set_Unknown (sort_slice str_lt (st_Unknown st)) st))
  | _ => derr "statement is not an object"
  end.

(** The top-level members: version, id and the statement value. *)
Definition decode_top (acc : string * string * option json) (m : string * json)
  : result (string * string * option json) :=
  let '(version, id, stmts) := acc in
  let '(k, v) := m in
  if (k =? "Version")%string then
    match v with JString s => Ok (s, id, stmts) | _ => derr "Version is not a string" end
  else if (k =? "Id")%string then
    match v with JString s => Ok (version, s, stmts) | _ => derr "Id is not a string" end
  else if (k =? "Statement")%string then Ok (version, id, Some v)
  else Ok acc.

(* src: internal/igagov/canonical.go:1116-1167 (DecodePolicyDocument) *)
Definition DecodePolicyDocument (text : string) : result PolicyDocument :=
  raw ← DecodePolicyText text;
  v ← match parseJSON raw with Ok v => Ok v | Err _ => derr "not I-JSON" end;
  match v with
  | JObject ms =>
      '(version, id, stmts) ← foldM decode_top ("", "", None) ms;
      match stmts with
      | None => derr "no Statement"
      | Some sv =>
          list ← match sv with
                 | JObject _ => Ok [sv]
                 | JArray l => Ok l
                 | _ => derr "Statement is neither an object nor an array"
                 end;
          sts ← mapM decodeStatement list;
          Ok {| doc_Version := version; doc_ID := id; doc_Statements := sts |}
      end
  | _ => derr "document is not an object"
  end.

(** * Action patterns and namespaces *)

(* src: internal/igagov/canonical.go:1403-1409 (SplitAction) *)
Definition SplitAction (action : string) : option (string * string) :=
  match cut_byte ":" action with
  | Some (ns, act) => if is_empty ns then None else Some (ns, act)
  | None => None
  end.

(** [s != "" && strings.Trim(s, "*") == ""]: only stars, and at least one. *)
(* src: internal/igagov/canonical.go:1411-1413 (allStars) *)
Definition allStars (s : string) : bool := negb (is_empty s) && only_stars s.

(* src: internal/igagov/canonical.go:1417-1423 (PatternCoversNamespace) *)
Definition PatternCoversNamespace (pattern ns : string) : bool :=
  allStars pattern ||
  match SplitAction pattern with Some (pns, _) => globMatch pns ns | None => false end.

(* src: internal/igagov/canonical.go:1427-1433 (patternCoversWholeNamespace) *)
Definition patternCoversWholeNamespace (pattern ns : string) : bool :=
  allStars pattern ||
  match SplitAction pattern with Some (pns, act) => allStars act && globMatch pns ns | None => false end.

(* src: internal/igagov/canonical.go:1438-1456 (Statement.GrantsNamespace) *)
Definition GrantsNamespace (st : Statement) (ns : string) : bool :=
  if negb (st_Effect st =? EffectAllow)%string then false
  else if st_IsNotAction st then
    negb (existsb (fun p => patternCoversWholeNamespace p ns) (st_NotAction st))
  else existsb (fun p => PatternCoversNamespace p ns) (st_Action st).

(* src: internal/igagov/canonical.go:1461-1473 (Statement.ExplicitNamespaces) *)
Definition ExplicitNamespaces (st : Statement) : list string :=
  if negb (st_Effect st =? EffectAllow)%string || st_IsNotAction st then []
  else sortedUnique (omap (fun p =>
    match SplitAction p with
    | Some (ns, _) => if ContainsAny ns ["*"%char; "?"%char] then None else Some (ToLower ns)
    | None => None
    end) (st_Action st)).

(* src: internal/igagov/canonical.go:1477-1487 (Statement.ResourceIsWildcard) *)
Definition ResourceIsWildcard (st : Statement) : bool :=
  match st_NotResource st with
  | Some _ => true
  | None => bool_decide ("*" ∈ default [] (st_Resource st))
  end.

(** * Patterns against actions *)

(** IAM's reading of an action pattern. *)
Definition matches (pattern action : string) : Prop := globs (ToLower pattern) (ToLower action).

(** The action [act] of namespace [ns]. *)
Definition action_of (ns act : string) : string := ns +:+ String ":" act.

(** What the statement allows. *)
Definition allows (st : Statement) (action : string) : Prop :=
  st_Effect st = EffectAllow /\
  if st_IsNotAction st then Forall (fun p => ~ matches p action) (st_NotAction st)
  else Exists (fun p => matches p action) (st_Action st).

(** [s] does not hold the byte [c]. *)
Fixpoint lacks (c : ascii) (s : string) : bool :=
  match s with "" => true | String a s => negb (bool_decide (a = c)) && lacks c s end.

(** A pattern IAM accepts: stars only, or one colon after a namespace. *)
Definition pattern_ok (p : string) : Prop :=
  allStars p = true \/ exists pns pact, SplitAction p = Some (pns, pact) /\ lacks ":" pact = true.

Lemma lacks_app c a b : lacks c (a +:+ b) = lacks c a && lacks c b.
Proof. induction a as [|x a IH]; [done|]. rewrite str_app_cons. cbn. by rewrite IH, andb_assoc. Qed.

Lemma cut_byte_lacks c s l r : cut_byte c s = Some (l, r) -> lacks c l = true.
Proof.
  revert l. induction s as [|a s IH]; intros l; cbn; [done|].
  case_bool_decide as Ha; [by intros [= <- <-]|].
  destruct (cut_byte c s) as [[l' r']|]; [|done]. intros [= <- <-]. cbn.
  rewrite bool_decide_eq_false_2 by done. by apply (IH l').
Qed.

Lemma ToLower_app a b : ToLower (a +:+ b) = ToLower a +:+ ToLower b.
Proof. induction a as [|c a IH]; [done|]. rewrite str_app_cons. cbn. by rewrite IH. Qed.

Lemma lacks_colon_lower s : lacks ":" (ToLower s) = lacks ":" s.
Proof.
  induction s as [|c s IH]; cbn; [done|]. rewrite IH. f_equal. f_equal.
  apply bool_decide_ext. destruct c as [[][][][][][][][]]; done.
Qed.

Lemma only_stars_lower s : only_stars s = true -> only_stars (ToLower s) = true.
Proof.
  induction s as [|c s IH]; cbn; [done|]. intros [->%bool_decide_eq_true Hs]%andb_prop.
  cbn. by apply IH.
Qed.

Lemma globs_stars p t : only_stars p = true -> p <> "" -> globs p t.
Proof.
  destruct p as [|c p]; [done|]. cbn. intros [->%bool_decide_eq_true Hp]%andb_prop _.
  induction t as [|c t IH]; [constructor; by apply globs_empty|by constructor].
Qed.

Lemma allStars_matches p a : allStars p = true -> matches p a.
Proof.
  intros [Hne Hs]%andb_prop. apply globs_stars; [by apply only_stars_lower|].
  destruct p; [done|]. done.
Qed.

(** A literal colon of the pattern needs one in the text. *)
Lemma globs_colon_lacks p q t : globs (p +:+ String ":" q) t -> lacks ":" p = true -> lacks ":" t = true -> False.
Proof.
  intros Hg. remember (p +:+ String ":" q) as P eqn:E. revert p E.
  induction Hg as [|P t Hg IH|P c t Hg IH|P c t Hg IH|P c t Hc Hc' Hg IH]; intros p E Hp Ht.
  - by destruct p.
  - destruct p as [|a p]; [done|]. injection E as <- ->. cbn in Hp. bool_prop. by eapply IH.
  - cbn in Ht. bool_prop. by eapply IH.
  - destruct p as [|a p]; [done|]. injection E as <- ->. cbn in Hp, Ht. bool_prop. by eapply IH.
  - destruct p as [|a p].
    + injection E as -> ->. cbn in Ht. done.
    + injection E as <- ->. cbn in Hp, Ht. bool_prop. by eapply IH.
Qed.

(** Around the one colon of an action the pattern splits. *)
Lemma globs_colon p q ns act :
  lacks ":" p = true -> lacks ":" ns = true -> lacks ":" act = true ->
  globs (p +:+ String ":" q) (ns +:+ String ":" act) -> globs p ns /\ globs q act.
Proof.
  intros Hp Hns Hact Hg. remember (p +:+ String ":" q) as P eqn:EP. remember (ns +:+ String ":" act) as T eqn:ET.
  revert p ns EP ET Hp Hns.
  induction Hg as [|P t Hg IH|P c t Hg IH|P c t Hg IH|P c t Hc Hc' Hg IH]; intros p ns EP ET Hp Hns.
  - by destruct p.
  - destruct p as [|a p]; [done|]. injection EP as <- ->. cbn in Hp. bool_prop.
    destruct (IH p ns) as [? ?]; auto with igagov.
  - destruct p as [|a p]; [done|]. injection EP as <- ->. destruct ns as [|b ns].
    + injection ET as -> ->. exfalso. by eapply (globs_colon_lacks (String star p)).
    + injection ET as -> ->. cbn in Hns. bool_prop. destruct (IH (String star p) ns) as [? ?]; auto with igagov.
  - destruct p as [|a p]; [done|]. injection EP as <- ->. cbn in Hp. bool_prop. destruct ns as [|b ns].
    + injection ET as -> ->. exfalso. by eapply globs_colon_lacks.
    + injection ET as -> ->. cbn in Hns. bool_prop. destruct (IH p ns) as [? ?]; auto with igagov.
  - destruct p as [|a p].
    + injection EP as -> ->. destruct ns as [|b ns]; [injection ET as ->; by split; [constructor|]|].
      injection ET as <- ->. cbn in Hns. done.
    + injection EP as <- ->. cbn in Hp. bool_prop. destruct ns as [|b ns]; [injection ET as -> ->; done|].
      injection ET as <- ->. cbn in Hns. bool_prop. destruct (IH p ns) as [? ?]; auto with igagov.
Qed.

Lemma globs_app p q a b : globs p a -> globs q b -> globs (p +:+ q) (a +:+ b).
Proof.
  induction 1 as [|p t _ IH|p c t _ IH|p c t _ IH|p c t Hc Hc' _ IH]; intros Hq;
    rewrite ?str_app_cons in *; auto with igagov.
Qed.

Lemma matches_colon pns pact ns act :
  lacks ":" pns = true -> lacks ":" ns = true -> lacks ":" act = true ->
  matches (pns +:+ String ":" pact) (action_of ns act) <->
  globs (ToLower pns) (ToLower ns) /\ globs (ToLower pact) (ToLower act).
Proof.
  intros Hp Hn Ha. unfold matches, action_of. rewrite !ToLower_app. cbn [ToLower].
  change (lower_byte ":") with ":"%char. split.
  - apply globs_colon; by rewrite lacks_colon_lower.
  - intros [? ?]. apply globs_app; [done|]. by constructor.
Qed.

Lemma SplitAction_Some p pns pact :
  SplitAction p = Some (pns, pact) -> p = pns +:+ String ":" pact /\ lacks ":" pns = true /\ pns <> "".
Proof.
  unfold SplitAction. destruct (cut_byte ":" p) as [[l r]|] eqn:E; [|done].
  destruct (is_empty l) eqn:El; [done|]. intros [= -> ->]. split_and!.
  - by apply cut_byte_Some.
  - by eapply cut_byte_lacks.
  - intros ->. done.
Qed.

(** Some string without a colon matches a pattern without one. *)
Lemma globs_inhabited p : lacks ":" p = true -> exists t, globs (ToLower p) (ToLower t) /\ lacks ":" t = true.
Proof.
  induction p as [|c p IH]; cbn; [exists ""; split; [constructor|done]|]. intros Hp. bool_prop.
  destruct IH as (t & Ht & Hl); [done|]. destruct (decide (lower_byte c = star)) as [->|Hs].
  { exists t. split; [by constructor|done]. }
  destruct (decide (lower_byte c = qmark)) as [->|Hq].
  { exists (String "a" t). split; [by constructor|done]. }
  exists (String c t). cbn. split; [by constructor|]. by rewrite bool_decide_eq_false_2.
Qed.

(** [PatternCoversNamespace] answers exactly whether the pattern matches some
    action of the namespace. *)
Theorem pattern_covers_namespace_exact p ns :
  pattern_ok p -> lacks ":" ns = true -> no_star ns = true ->
  PatternCoversNamespace p ns = true <->
  exists act, lacks ":" act = true /\ matches p (action_of ns act).
Proof.
  intros Hok Hns Hst. unfold PatternCoversNamespace. destruct (allStars p) eqn:Ea; cbn [orb].
  { split; [intros _|done]. exists "x". split; [done|]. by apply allStars_matches. }
  destruct Hok as [?|(pns & pact & E & Hpact)]; [congruence|]. rewrite E.
  apply SplitAction_Some in E as (-> & Hpns & _). rewrite globMatch_spec by done. split.
  - intros Hg. destruct (globs_inhabited pact Hpact) as (act & Hact & Hl).
    exists act. split; [done|]. by apply matches_colon.
  - intros (act & Hl & Hm). by apply matches_colon in Hm as [? _].
Qed.

Lemma pattern_covers_namespace_exact_witness :
  PatternCoversNamespace "s?s:Send*" "SQS" = true /\
  exists act, lacks ":" act = true /\ matches "s?s:Send*" (action_of "SQS" act).
Proof.
  split; [vm_compute; reflexivity|]. apply (pattern_covers_namespace_exact "s?s:Send*" "SQS").
  - right. exists "s?s", "Send*". split; vm_compute; reflexivity.
  - vm_compute. reflexivity.
  - vm_compute. reflexivity.
  - vm_compute. reflexivity.
Defined.

Lemma covers_whole_matches p ns act :
  lacks ":" ns = true -> no_star ns = true -> lacks ":" act = true ->
  patternCoversWholeNamespace p ns = true -> matches p (action_of ns act).
Proof.
  intros Hns Hst Hact. unfold patternCoversWholeNamespace. destruct (allStars p) eqn:Ea; cbn [orb].
  { intros _. by apply allStars_matches. }
  destruct (SplitAction p) as [[pns pact]|] eqn:E; [|done]. apply SplitAction_Some in E as (-> & Hpns & _).
  intros [Hs Hg]%andb_prop. apply matches_colon; [done..|]. split; [by apply globMatch_spec|].
  apply allStars_matches, Hs.
Qed.

Lemma grants_of_allows st ns act :
  lacks ":" ns = true -> no_star ns = true -> Forall pattern_ok (st_Action st) ->
  lacks ":" act = true -> allows st (action_of ns act) -> GrantsNamespace st ns = true.
Proof.
  unfold GrantsNamespace, allows. intros Hns Hst Hok Hact [HA Hall]. rewrite HA.
  change (EffectAllow =? EffectAllow)%string with true. cbn [negb]. destruct (st_IsNotAction st).
  - apply negb_true_iff, not_true_is_false. rewrite existsb_exists. intros (p & Hp & Hc).
    rewrite Forall_forall in Hall. apply (Hall p); [by apply list_elem_of_In|]. by apply covers_whole_matches.
  - apply existsb_exists. apply Exists_exists in Hall as (p & Hp & Hm). exists p. split; [by apply list_elem_of_In|].
    rewrite Forall_forall in Hok. specialize (Hok p Hp). unfold PatternCoversNamespace.
    destruct (allStars p) eqn:Ea; [done|]. destruct Hok as [?|(pns & pact & E & Hpact)]; [congruence|].
    rewrite E. apply SplitAction_Some in E as (-> & Hpns & _). cbn [orb].
    apply globMatch_spec; [done|]. by apply matches_colon in Hm as [? _].
Qed.

Lemma allows_of_grants st ns :
  lacks ":" ns = true -> no_star ns = true -> Forall pattern_ok (st_Action st) ->
  st_IsNotAction st = false -> GrantsNamespace st ns = true ->
  exists act, lacks ":" act = true /\ allows st (action_of ns act).
Proof.
  unfold GrantsNamespace, allows. intros Hns Hst Hok Hn. rewrite Hn.
  destruct (String.eqb_spec (st_Effect st) EffectAllow) as [HA|]; [|done]. cbn [negb].
  intros (p & Hp & Hc)%existsb_exists. apply list_elem_of_In in Hp.
  rewrite Forall_forall in Hok. specialize (Hok p Hp). unfold PatternCoversNamespace in Hc.
  destruct (allStars p) eqn:Ea.
  { exists "x". split_and!; [done..|]. apply Exists_exists. exists p. split; [done|]. by apply allStars_matches. }
  destruct Hok as [?|(pns & pact & E & Hpact)]; [congruence|]. rewrite E in Hc. cbn [orb] in Hc.
  apply SplitAction_Some in E as (-> & Hpns & _). apply globMatch_spec in Hc; [|done].
  destruct (globs_inhabited pact Hpact) as (act & Hact & Hl). exists act. split_and!; [done..|].
  apply Exists_exists. eexists. split; [done|]. by apply matches_colon.
Qed.

(** [GrantsNamespace] misses nothing: a statement that allows an action of
    the namespace is reported as granting it; and for Action statements the
    answer is exact. *)
Theorem grants_namespace_sound st ns :
  lacks ":" ns = true -> no_star ns = true -> Forall pattern_ok (st_Action st) ->
  ((exists act, lacks ":" act = true /\ allows st (action_of ns act)) -> GrantsNamespace st ns = true) /\
  (st_IsNotAction st = false -> GrantsNamespace st ns = true ->
   exists act, lacks ":" act = true /\ allows st (action_of ns act)).
Proof.
  intros Hns Hst Hok. split; [|by apply allows_of_grants].
  intros (act & Hact & Hall). by eapply grants_of_allows.
Qed.

Lemma grants_namespace_sound_witness :
  let st := set_Effect "Allow" (set_Action ["s3:Get*"] (empty_statement "")) in
  GrantsNamespace st "s3" = true /\
  exists act, lacks ":" act = true /\ allows st (action_of "s3" act).
Proof.
  split; [vm_compute; reflexivity|].
  apply (grants_namespace_sound (set_Effect "Allow" (set_Action ["s3:Get*"] (empty_statement ""))) "s3");
    try (vm_compute; reflexivity).
  constructor; [|constructor]. right. exists "s3", "Get*". split; vm_compute; reflexivity.
Defined.

(** * What decoding keeps *)

Lemma foldM_app {A B} (f : A -> B -> result A) a l k :
  foldM f a (l ++ k) = (b ← foldM f a l; foldM f b k).
Proof. revert a. induction l as [|x l IH]; intros a; cbn; [done|]. destruct (f a x); cbn; [apply IH|done]. Qed.

(** Invariants of a member loop over distinct names: [I] is kept by every
    member that is new. *)
Lemma foldM_members {A} (f : A -> string * json -> result A) (I : list (string * json) -> A -> Prop) a ms a' :
  I [] a -> NoDup ms.*1 ->
  (forall l x k v y, I l x -> k ∉ l.*1 -> f x (k, v) = Ok y -> I (l ++ [(k, v)]) y) ->
  foldM f a ms = Ok a' -> I ms a'.
Proof.
  intros H0 Hnd Hs. revert a'. induction ms as [|[k v] ms IH] using rev_ind; intros a'; [by intros [= <-]|].
  rewrite fmap_app in Hnd. apply NoDup_app in Hnd as (Hnd & Hk & _).
  rewrite foldM_app. intros (x & Hx & Hf)%bind_Ok. cbn in Hf. apply bind_Ok in Hf as (y & Hy & [= <-]).
  eapply Hs; [by apply IH| |done]. intros Hin. eapply Hk; [done|]. cbn. left.
Qed.

(** The field [x] of the result holds the decoded member [K], or the member is
    absent. *)
Definition field_of {A} (K : string) (dec : json -> result A) (ms : list (string * json)) (x : option A) : Prop :=
  match x with
  | Some y => exists v, (K, v) ∈ ms /\ dec v = Ok y
  | None => K ∉ ms.*1
  end.

Lemma field_of_other {A} K (dec : json -> result A) ms x k v :
  k <> K -> field_of K dec ms x -> field_of K dec (ms ++ [(k, v)]) x.
Proof.
  intros Hk. destruct x as [y|]; cbn.
  - intros (w & Hw & ?). exists w. split; [|done]. apply elem_of_app. by left.
  - rewrite fmap_app, not_elem_of_app. intros ?. split; [done|]. cbn. set_solver.
Qed.

Lemma field_of_new {A} K (dec : json -> result A) ms v y :
  dec v = Ok y -> field_of K dec (ms ++ [(K, v)]) (Some y).
Proof. intros. exists v. split; [apply elem_of_app; right; left|done]. Qed.

Definition effect_dec (v : json) : result string :=
  match v with
  | JString s => if (s =? EffectAllow)%string || (s =? EffectDeny)%string then Ok s else derr "Effect must be Allow or Deny"
  | _ => derr "Effect must be Allow or Deny"
  end.

(** What the loop has recorded after the members [ms]. *)
Definition recorded (raw : string) (ms : list (string * json)) (d : decoding) : Prop :=
  let st := dc_st d in
  st_Raw st = raw /\
  field_of "Effect" effect_dec ms (if is_empty (st_Effect st) then None else Some (st_Effect st)) /\
  (field_of "Action" (fun v => stringOrArray v "Action") ms (if dc_hasAction d then Some (st_Action st) else None) /\
   (dc_hasAction d = false -> st_Action st = [])) /\
  (field_of "NotAction" (fun v => stringOrArray v "NotAction") ms
     (if dc_hasNotAction d then Some (st_NotAction st) else None) /\
   (dc_hasNotAction d = false -> st_NotAction st = [])) /\
  field_of "Resource" (fun v => stringOrArray v "Resource") ms (st_Resource st) /\
  field_of "NotResource" (fun v => stringOrArray v "NotResource") ms (st_NotResource st) /\
  field_of "Principal" (fun v => decodePrincipal v "Principal") ms (st_Principal st) /\
  field_of "NotPrincipal" (fun v => decodePrincipal v "NotPrincipal") ms (st_NotPrincipal st).

Ltac recorded_step :=
  match goal with
  | H : recorded _ _ ?d |- _ => destruct d as [[] ? ?]; cbn in *
  end;
  unfold recorded in *; cbn in *; destruct_and!;
  split_and!; try done; first [by apply field_of_other | by apply field_of_new].

Lemma decode_member_recorded raw l d k v d' :
  recorded raw l d -> k ∉ l.*1 -> decode_member d (k, v) = Ok d' -> recorded raw (l ++ [(k, v)]) d'.
Proof.
  intros HI Hk. unfold decode_member. cbn zeta.
  repeat match goal with
  | |- context [if (k =? ?s)%string then _ else _] =>
      destruct (String.eqb_spec k s) as [->|]
  end; intros H.
  - destruct v; try discriminate. injection H as <-. recorded_step.
  - destruct v as [| | |s| |]; try discriminate.
    destruct (_ || _) eqn:E; [|discriminate]. injection H as <-.
    assert (is_empty s = false) as Hs.
    { apply orb_true_iff in E as [->%String.eqb_eq| ->%String.eqb_eq]; done. }
    assert (effect_dec (JString s) = Ok s) as Hd by (cbn; by rewrite E).
    unfold is_empty in Hs. destruct d as [[] ? ?]; unfold recorded, is_empty in *; cbn in *. rewrite Hs. destruct_and!.
    split_and!; try done; first [by apply field_of_other | by apply field_of_new].
  - apply bind_Ok in H as (y & Hy & [= <-]). recorded_step.
  - apply bind_Ok in H as (y & Hy & [= <-]). recorded_step.
  - apply bind_Ok in H as (y & Hy & [= <-]). recorded_step.
  - apply bind_Ok in H as (y & Hy & [= <-]). recorded_step.
  - apply bind_Ok in H as (y & Hy & [= <-]). recorded_step.
  - apply bind_Ok in H as (y & Hy & [= <-]). recorded_step.
  - apply bind_Ok in H as (y & Hy & [= <-]). recorded_step.
  - injection H as <-. recorded_step.
Qed.

Lemma not_both {A B} (x : option A) (y : option B) :
  bool_decide (is_Some x) && bool_decide (is_Some y) = false -> x = None \/ y = None.
Proof.
  rewrite andb_false_iff, !bool_decide_eq_false, <- !eq_None_not_Some. done.
Qed.

(** A decoded statement says what its object says: it has an Effect of Allow
    or Deny, exactly one of Action and NotAction, never both a Principal and a
    NotPrincipal or a Resource and a NotResource, every element it holds is the
    decoded member of that name, an element it lacks is not in the object, and
    [Raw] is the object's canonical text. *)
Theorem decode_statement_faithful ms st :
  NoDup ms.*1 -> decodeStatement (JObject ms) = Ok st ->
  st_Raw st = writeCanonical (JObject ms) /\
  (st_Effect st = EffectAllow \/ st_Effect st = EffectDeny) /\ ("Effect", JString (st_Effect st)) ∈ ms /\
  field_of "Action" (fun v => stringOrArray v "Action") ms (if st_IsNotAction st then None else Some (st_Action st)) /\
  field_of "NotAction" (fun v => stringOrArray v "NotAction") ms
    (if st_IsNotAction st then Some (st_NotAction st) else None) /\
  (if st_IsNotAction st then st_Action st = [] else st_NotAction st = []) /\
  field_of "Resource" (fun v => stringOrArray v "Resource") ms (st_Resource st) /\
  field_of "NotResource" (fun v => stringOrArray v "NotResource") ms (st_NotResource st) /\
  field_of "Principal" (fun v => decodePrincipal v "Principal") ms (st_Principal st) /\
  field_of "NotPrincipal" (fun v => decodePrincipal v "NotPrincipal") ms (st_NotPrincipal st) /\
  (st_Resource st = None \/ st_NotResource st = None) /\ (st_Principal st = None \/ st_NotPrincipal st = None).
Proof.
  intros Hnd. unfold decodeStatement. set (raw := writeCanonical (JObject ms)). intros (d & Hd & H)%bind_Ok.
  apply (foldM_members _ (recorded raw)) in Hd; [|by repeat split; cbn; set_solver|done|apply decode_member_recorded].
  destruct Hd as (Hraw & Heff & [Ha Ha'] & [Hn Hn'] & Hr & Hnr & Hp & Hnp).
  destruct (is_empty (st_Effect (dc_st d))); [discriminate|].
  destruct (eqb _ _) eqn:Eb in H; [discriminate|]. apply eqb_false_iff in Eb.
  destruct (_ && _) eqn:Ep in H; [discriminate|]. destruct (_ && _) eqn:Er in H; [discriminate|].
  injection H as <-. destruct Heff as (v & Hv & Hdec).
  assert (v = JString (st_Effect (dc_st d)) /\ (st_Effect (dc_st d) = EffectAllow \/ st_Effect (dc_st d) = EffectDeny)) as [-> He].
  { unfold effect_dec in Hdec. destruct v as [| | |s| |]; try discriminate.
    destruct (_ || _) eqn:E; [|discriminate]. injection Hdec as <-.
    apply orb_true_iff in E as [E%String.eqb_eq|E%String.eqb_eq]; auto. }
  apply not_both in Ep, Er.
  destruct d as [[] ha hn]; cbn in *. destruct ha, hn; try done; split_and!; auto.
Qed.

Lemma decode_statement_faithful_witness :
  let ms := [("Effect", JString "Allow"); ("Action", JString "s3:Get*"); ("Resource", JArray [JString "*"])] in
  exists st, decodeStatement (JObject ms) = Ok st /\ st_Action st = ["s3:Get*"] /\
    ("Effect", JString (st_Effect st)) ∈ ms.
Proof.
  set (ms := [("Effect", JString "Allow"); ("Action", JString "s3:Get*"); ("Resource", JArray [JString "*"])]).
  assert (exists st, decodeStatement (JObject ms) = Ok st /\ st_Action st = ["s3:Get*"]) as (st & Hd & Ha).
  { eexists. split; [vm_compute; reflexivity|reflexivity]. }
  exists st. split_and!; [done|done|]. apply (decode_statement_faithful ms st); [|done].
  apply (bool_decide_unpack _). vm_compute. done.
Defined.
