(* ===== verification/Catalog.v ===== *)
(** The catalogs of internal/igagov/catalog.go: dependencies of workload
    contexts, tracking start dates, policy-bearing forms and escalation
    patterns. *)

From stdpp Require Import base list strings gmap sorting.
From Stdlib Require Import Ascii.
From S2P Require Import Prelude Slices Glob Float64 Utf8 Json PolicyDoc.

(* src: internal/igagov/catalog.go:15-18 (CatalogVersion, CatalogLabel) *)
Definition CatalogVersion : Z := 1.
Definition CatalogLabel : string := "catalog@" +:+ Itoa CatalogVersion.

(** * Dependency catalog *)

Definition CtxLambdaExecution : string := "lambda-execution".
Definition CtxECSTaskExecution : string := "ecs-task-execution".
Definition CtxECSTaskRole : string := "ecs-task-role".
Definition CtxEC2InstanceRole : string := "ec2-instance-profile".
Definition CtxBedrockAgent : string := "bedrock-agent".
Definition CtxAgentCoreRuntime : string := "agentcore-runtime".
Definition CtxKMSViaService : string := "kms-via-service".

Definition RelExecutesAs : string := "executes_as".
Definition RelTaskExecutionRole : string := "task_execution_role".

(* src: internal/igagov/catalog.go:37-44 (DependencyContext) *)
Record DependencyContext := {
  dcx_Context : string;
  TracingActive : bool;
  ReferencesSecrets : bool
}.

(* src: internal/igagov/catalog.go:48-52 (Dependency) *)
Record Dependency := {
  dep_Service : string;
  dep_Catalog : string;
  dep_Reason : string
}.

(* src: internal/igagov/catalog.go:54-59 (depRule) *)
Record depRule := {
  always : list string;
  tracing : list string;
  secrets : list string;
  description : string
}.

(* src: internal/igagov/catalog.go:65-73 (dependencyCatalog) *)
Definition dependencyCatalog : list (string * depRule) :=
  [(CtxLambdaExecution,
      {| always := ["logs"]; tracing := ["xray"]; secrets := []; description := "Lambda execution role" |});
   (CtxECSTaskExecution,
      {| always := ["ecr"; "logs"]; tracing := []; secrets := ["kms"; "secretsmanager"; "ssm"];
         description := "ECS task execution role" |});
   (CtxECSTaskRole, {| always := []; tracing := []; secrets := []; description := "ECS task role" |});
   (CtxEC2InstanceRole, {| always := []; tracing := []; secrets := []; description := "EC2 instance profile role" |});
   (CtxBedrockAgent,
      {| always := ["bedrock"; "bedrock-agentcore"; "logs"]; tracing := []; secrets := [];
         description := "Bedrock agent role" |});
   (CtxAgentCoreRuntime,
      {| always := ["bedrock"; "bedrock-agentcore"; "logs"]; tracing := []; secrets := [];
         description := "AgentCore runtime role" |});
   (CtxKMSViaService,
      {| always := ["kms"]; tracing := []; secrets := []; description := "statement using kms:ViaService" |})].

(** Lookup in a table by its first column. *)
Fixpoint assoc {A} (k : string) (l : list (string * A)) : option A :=
  match l with
  | [] => None
  | (k', a) :: l => if (k =? k')%string then Some a else assoc k l
  end.

(* src: internal/igagov/catalog.go:78-94 (DependencyContextFor) *)
Definition DependencyContextFor (runtimeKind relationship : string) : option string :=
  let rk s := (runtimeKind =? s)%string in
  let rel s := (relationship =? s)%string in
  if rk "lambda_function" && rel RelExecutesAs then Some CtxLambdaExecution
  else if rk "ecs_task_definition" && rel RelTaskExecutionRole then Some CtxECSTaskExecution
  else if rk "ecs_task_definition" && rel RelExecutesAs then Some CtxECSTaskRole
  else if rk "ec2_instance" && rel RelExecutesAs then Some CtxEC2InstanceRole
  else if rk "bedrock_agent" && rel RelExecutesAs then Some CtxBedrockAgent
  else if (rk "bedrock_agentcore_runtime" || rk "bedrock_agentcore_gateway") && rel RelExecutesAs
  then Some CtxAgentCoreRuntime
  else None.

(* src: internal/igagov/catalog.go:97-99 (DependencyRef) *)
Definition DependencyRef (context : string) : string := context +:+ "@" +:+ Itoa CatalogVersion.

(** [s[:i], s[i+1:]] for the last byte [c], as [strings.LastIndexByte]. *)
Fixpoint cut_last (c : ascii) (s : string) : option (string * string) :=
  match s with
  | "" => None
  | String a s =>
      match cut_last c s with
      | Some (l, r) => Some (String a l, r)
      | None => if bool_decide (a = c) then Some ("", s) else None
      end
  end.

(** [strconv.Atoi]: an optional sign, then digits; [None] is an error. *)
Definition Atoi (s : string) : option Z :=
  let digits t := if negb (is_empty t) && all_digits t then Some (digits_val 0 t) else None in
  let bound z := if (- 2 ^ 63 <=? z) && (z <? 2 ^ 63) then Some z else None in
  match s with
  | String "-" t => z ← digits t; bound (- z)
  | String "+" t => z ← digits t; bound z
  | _ => z ← digits s; bound z
  end.

(* src: internal/igagov/catalog.go:103-117 (ParseDependencyRef) *)
Definition ParseDependencyRef (ref : string) : result (string * Z) :=
  match cut_last "@" ref with
  | Some (context, v) =>
      if is_empty context then Err (ErrOther "not <context>@<version>") else
      match Atoi v with
      | Some version =>
          if (version <? 1) || (CatalogVersion <? version) then Err (ErrOther "unknown catalog version")
          else match assoc context dependencyCatalog with
               | Some _ => Ok (context, version)
               | None => Err (ErrOther "unknown context")
               end
      | None => Err (ErrOther "unknown catalog version")
      end
  | None => Err (ErrOther "not <context>@<version>")
  end.

(** The [add] closure of [Dependencies]: the first context to name a service
    keeps it. *)
Definition dep_add (ctx why : string) (out : list Dependency) (svc : string) : list Dependency :=
  if existsb (fun d => (dep_Service d =? svc)%string) out then out
  else out ++ [{| dep_Service := svc; dep_Catalog := DependencyRef ctx; dep_Reason := why |}].

Definition dep_context (out : list Dependency) (c : DependencyContext) : list Dependency :=
  match assoc (dcx_Context c) dependencyCatalog with
  | None => out
  | Some rule =>
      let out := foldl (dep_add (dcx_Context c) (description rule)) out (always rule) in
      let out := if TracingActive c
                 then foldl (dep_add (dcx_Context c) (description rule +:+ " with active tracing")) out (tracing rule)
                 else out in
      if ReferencesSecrets c
      then foldl (dep_add (dcx_Context c) (description rule +:+ " referencing secrets")) out (secrets rule)
      else out
  end.

(* src: internal/igagov/catalog.go:122-155 (Dependencies) *)
Definition Dependencies (ctxs : list DependencyContext) : list Dependency :=
  sort_slice (less_by (fun d => [dep_Service d]))
    (foldl dep_context [] (sort_slice (less_by (fun c => [dcx_Context c])) ctxs)).

(* src: internal/igagov/catalog.go:159-166 (IsDependency) *)
Definition IsDependency (service : string) (ctxs : list DependencyContext) : option Dependency :=
  List.find (fun d => (dep_Service d =? service)%string) (Dependencies ctxs).

(** * Tracking catalog *)

(** Days from 1970-01-01 to a date of the Gregorian calendar. *)
Definition days_from_civil (y m d : Z) : Z :=
  let y := if m <=? 2 then y - 1 else y in
  let era := y / 400 in
  let yoe := y - era * 400 in
  let mp := (m + 9) mod 12 in
  let doy := (153 * mp + 2) / 5 + d - 1 in
  let doe := yoe * 365 + yoe / 4 - yoe / 100 + doy in
  era * 146097 + doe - 719468.

(** [time.Date(y, m, d, 0, 0, 0, 0, time.UTC)], in nanoseconds since 1970. *)
(* src: internal/igagov/catalog.go:175-175 (day) *)
Definition day (y m d : Z) : Z := days_from_civil y m d * 86400 * 1000000000.

(** [time.Time{}]: 1 January of year 1. *)
Definition zeroTime : Z := day 1 1 1.

Example day_examples : (day 1970 1 1, day 2000 3 1 / (86400 * 1000000000), zeroTime / 1000000000) = (0, 11017, -62135596800).
Proof. vm_compute. reflexivity. Qed.

(* src: internal/igagov/catalog.go:180-211 (regionTrackingStart) *)
Definition regionTrackingStart : list (string * Z) :=
  [("us-east-2", day 2017 10 27); ("us-east-1", day 2015 10 1); ("us-west-1", day 2015 10 1);
   ("us-west-2", day 2015 10 1); ("af-south-1", day 2020 4 22); ("ap-east-1", day 2019 4 24);
   ("ap-south-2", day 2022 11 22); ("ap-southeast-3", day 2021 12 13); ("ap-southeast-4", day 2023 1 23);
   ("ap-south-1", day 2016 6 27); ("ap-northeast-3", day 2018 2 11); ("ap-northeast-2", day 2016 1 6);
   ("ap-southeast-1", day 2015 10 1); ("ap-southeast-2", day 2015 10 1); ("ap-northeast-1", day 2015 10 1);
   ("ca-central-1", day 2017 10 28); ("eu-central-1", day 2015 10 1); ("eu-west-1", day 2015 10 1);
   ("eu-west-2", day 2017 10 28); ("eu-south-1", day 2020 4 28); ("eu-west-3", day 2017 12 18);
   ("eu-south-2", day 2022 11 15); ("eu-north-1", day 2018 12 12); ("eu-central-2", day 2022 11 8);
   ("il-central-1", day 2023 8 1); ("me-south-1", day 2019 7 29); ("me-central-1", day 2022 8 30);
   ("sa-east-1", day 2015 12 11); ("us-gov-east-1", day 2023 7 1); ("us-gov-west-1", day 2023 7 1)].

(* src: internal/igagov/catalog.go:221-232 (trackedServices) *)
Definition trackedServices : list (string * Z) :=
  map (fun s => (s, zeroTime))
  ["acm"; "apigateway"; "athena"; "autoscaling"; "backup"; "bedrock"; "cloudformation"; "cloudfront";
   "cloudtrail"; "cloudwatch"; "codebuild"; "codecommit"; "codedeploy"; "codepipeline"; "cognito-idp";
   "dynamodb"; "ec2"; "ecr"; "ecs"; "eks"; "elasticache"; "elasticfilesystem"; "elasticloadbalancing"; "es";
   "events"; "firehose"; "glue"; "iam"; "kinesis"; "kms"; "lambda"; "logs"; "rds"; "redshift"; "route53"; "s3";
   "sagemaker"; "secretsmanager"; "ses"; "sns"; "sqs"; "ssm"; "states"; "sts"; "xray"].

Fixpoint latest_start (start : Z) (regions : list string) : Z + string :=
  match regions with
  | [] => inl start
  | r :: rest =>
      match assoc r regionTrackingStart with
      | None => inr ("region_not_tracked:" +:+ r)
      | Some rs => latest_start (if start <? rs then rs else start) rest
      end
  end.

(** [inr] is the reason of [ok=false]. *)
(* src: internal/igagov/catalog.go:240-259 (TrackingStart) *)
Definition TrackingStart (service : string) (regions : list string) : Z + string :=
  match assoc service trackedServices with
  | None => inr "service_not_in_tracking_catalog"
  | Some svcStart =>
      match regions with
      | [] => inr "no_enabled_regions"
      | _ => latest_start svcStart (sortedUnique regions)
      end
  end.

(** * Policy-bearing forms *)

Definition FormCollected : string := "collected".
Definition FormUncollected : string := "uncollected".
Definition ScopeRegion : string := "region".
Definition ScopeAccount : string := "account".

(* src: internal/igagov/catalog.go:279-284 (PolicyBearingForm) *)
Record PolicyBearingForm := {
  frm_Name : string;
  frm_Namespace : string;
  frm_State : string;
  frm_Scope : string
}.

(* src: internal/igagov/catalog.go:293-326 (policyBearingForms) *)
Definition policyBearingForms : list PolicyBearingForm :=
  [Build_PolicyBearingForm "s3_bucket" "s3" FormCollected ScopeAccount;
   Build_PolicyBearingForm "s3_directory_bucket" "s3express" FormCollected ScopeRegion;
   Build_PolicyBearingForm "s3_access_point" "s3" FormCollected ScopeRegion;
   Build_PolicyBearingForm "s3_multi_region_access_point" "s3" FormCollected ScopeAccount;
   Build_PolicyBearingForm "s3_object_lambda_access_point" "s3-object-lambda" FormCollected ScopeRegion;
   Build_PolicyBearingForm "kms_key" "kms" FormCollected ScopeRegion;
   Build_PolicyBearingForm "sqs_queue" "sqs" FormCollected ScopeRegion;
   Build_PolicyBearingForm "sns_topic" "sns" FormCollected ScopeRegion;
   Build_PolicyBearingForm "lambda_function" "lambda" FormCollected ScopeRegion;
   Build_PolicyBearingForm "lambda_function_version" "lambda" FormCollected ScopeRegion;
   Build_PolicyBearingForm "lambda_alias" "lambda" FormCollected ScopeRegion;
   Build_PolicyBearingForm "lambda_layer_version" "lambda" FormCollected ScopeRegion;
   Build_PolicyBearingForm "secretsmanager_secret" "secretsmanager" FormCollected ScopeRegion;
   Build_PolicyBearingForm "ecr_repository" "ecr" FormUncollected ScopeRegion;
   Build_PolicyBearingForm "ecr_registry" "ecr" FormUncollected ScopeRegion;
   Build_PolicyBearingForm "events_event_bus" "events" FormUncollected ScopeRegion;
   Build_PolicyBearingForm "apigateway_rest_api" "execute-api" FormUncollected ScopeRegion;
   Build_PolicyBearingForm "glue_data_catalog" "glue" FormUncollected ScopeRegion;
   Build_PolicyBearingForm "backup_vault" "backup" FormUncollected ScopeRegion;
   Build_PolicyBearingForm "opensearch_domain" "es" FormUncollected ScopeRegion;
   Build_PolicyBearingForm "logs_resource_policy" "logs" FormUncollected ScopeRegion;
   Build_PolicyBearingForm "logs_destination" "logs" FormUncollected ScopeRegion;
   Build_PolicyBearingForm "dynamodb_table" "dynamodb" FormUncollected ScopeRegion;
   Build_PolicyBearingForm "dynamodb_stream" "dynamodb" FormUncollected ScopeRegion;
   Build_PolicyBearingForm "kinesis_stream" "kinesis" FormUncollected ScopeRegion;
   Build_PolicyBearingForm "efs_file_system" "elasticfilesystem" FormUncollected ScopeRegion;
   Build_PolicyBearingForm "glacier_vault" "glacier" FormUncollected ScopeRegion;
   Build_PolicyBearingForm "codeartifact_domain" "codeartifact" FormUncollected ScopeRegion;
   Build_PolicyBearingForm "codeartifact_repository" "codeartifact" FormUncollected ScopeRegion;
   Build_PolicyBearingForm "ses_identity" "ses" FormUncollected ScopeRegion;
   Build_PolicyBearingForm "serverlessrepo_application" "serverlessrepo" FormUncollected ScopeRegion].

Definition form_less : PolicyBearingForm -> PolicyBearingForm -> bool := less_by (fun f => [frm_Name f]).

(* src: internal/igagov/catalog.go:330-339 (FormsForNamespace) *)
Definition FormsForNamespace (ns : string) : list PolicyBearingForm :=
  sort_slice form_less (List.filter (fun f => (frm_Namespace f =? ns)%string) policyBearingForms).

(* src: internal/igagov/catalog.go:342-349 (LookupForm) *)
Definition LookupForm (name : string) : option PolicyBearingForm :=
  List.find (fun f => (frm_Name f =? name)%string) policyBearingForms.

(* src: internal/igagov/catalog.go:352-356 (AllForms) *)
Definition AllForms : list PolicyBearingForm := sort_slice form_less policyBearingForms.

Lemma elem_of_FormsForNamespace ns f :
  f ∈ FormsForNamespace ns <-> f ∈ policyBearingForms /\ frm_Namespace f = ns.
Proof. unfold FormsForNamespace. by rewrite elem_of_sort_slice, elem_of_filter_b, String.eqb_eq. Qed.

(** A form is known by its name. *)
Lemma form_names_unique f g :
  f ∈ policyBearingForms -> g ∈ policyBearingForms -> frm_Name f = frm_Name g -> f = g.
Proof.
  intros Hf Hg E. assert (NoDup (frm_Name <$> policyBearingForms)) as Hnd by (apply (bool_decide_unpack _); vm_compute; done).
  apply list_elem_of_lookup in Hf as [i Hi], Hg as [j Hj].
  assert (i = j) as ->; [|congruence]. eapply (NoDup_lookup _ _ _ (frm_Name f) Hnd);
    rewrite list_lookup_fmap; [by rewrite Hi|by rewrite Hj, E].
Qed.

(** * Escalation catalog *)

(* src: internal/igagov/catalog.go:362-365 (EscalationAction) *)
Record EscalationAction := {
  Pattern : string;
  OnWildcardResource : bool
}.

(* src: internal/igagov/catalog.go:367-375 (escalationCatalog) *)
Definition escalationCatalog : list EscalationAction :=
  [Build_EscalationAction "iam:PassRole" true;
   Build_EscalationAction "iam:Create*" false;
   Build_EscalationAction "iam:Attach*" false;
   Build_EscalationAction "iam:Put*Policy" false;
   Build_EscalationAction "iam:UpdateAssumeRolePolicy" false;
   Build_EscalationAction "sts:AssumeRole" true;
   Build_EscalationAction "lambda:UpdateFunctionCode" true].

Definition escalation_granted (st : Statement) (e : EscalationAction) : bool :=
  if OnWildcardResource e && negb (ResourceIsWildcard st) then false
  else if st_IsNotAction st then
    let ens := match SplitAction (Pattern e) with Some (ns, _) => ns | None => "" end in
    negb (existsb (fun n => EqualFold n (Pattern e) || patternCoversWholeNamespace n ens) (st_NotAction st))
  else existsb (fun p => globsIntersect p (Pattern e)) (st_Action st).

(* src: internal/igagov/catalog.go:389-423 (EscalationsGranted) *)
Definition EscalationsGranted (st : Statement) : list string :=
  if negb (st_Effect st =? EffectAllow)%string then []
  else sort_slice str_lt (Pattern <$> List.filter (escalation_granted st) escalationCatalog).

(** The tables are looked up, never unfolded. *)
#[global] Arguments regionTrackingStart : simpl never.
#[global] Arguments trackedServices : simpl never.
#[global] Arguments dependencyCatalog : simpl never.
#[global] Arguments policyBearingForms : simpl never.

(** * Dependencies *)

(** The services a context retains, as the table says. *)
Definition retains (c : DependencyContext) (svc : string) : Prop :=
  exists rule, assoc (dcx_Context c) dependencyCatalog = Some rule /\
    (svc ∈ always rule \/ (TracingActive c = true /\ svc ∈ tracing rule) \/
     (ReferencesSecrets c = true /\ svc ∈ secrets rule)).

Lemma dep_add_services ctx why out svc x :
  x ∈ dep_Service <$> dep_add ctx why out svc <-> x ∈ dep_Service <$> out \/ x = svc.
Proof.
  unfold dep_add. destruct (existsb _ out) eqn:E.
  - apply existsb_exists in E as (d & Hd & Hs%String.eqb_eq). split; [auto|].
    intros [?| ->]; [done|]. rewrite <- Hs. apply list_elem_of_fmap_2. by apply list_elem_of_In.
  - rewrite fmap_app, elem_of_app. cbn. set_solver.
Qed.

Lemma dep_add_nodup ctx why out svc :
  NoDup (dep_Service <$> out) -> NoDup (dep_Service <$> dep_add ctx why out svc).
Proof.
  unfold dep_add. destruct (existsb _ out) eqn:E; [done|]. intros H.
  rewrite fmap_app. apply NoDup_app. split_and!; [done| |apply NoDup_singleton].
  intros x (d & -> & Hd)%list_elem_of_fmap Hx. cbn in Hx. apply list_elem_of_singleton in Hx.
  apply not_true_iff_false in E. apply E. apply existsb_exists. exists d.
  split; [by apply list_elem_of_In|]. by apply String.eqb_eq.
Qed.

Lemma dep_adds_services ctx why l out x :
  x ∈ dep_Service <$> foldl (dep_add ctx why) out l <-> x ∈ dep_Service <$> out \/ x ∈ l.
Proof.
  revert out. induction l as [|s l IH]; intros out; cbn; [set_solver|].
  rewrite IH, dep_add_services. set_solver.
Qed.

Lemma dep_adds_nodup ctx why l out :
  NoDup (dep_Service <$> out) -> NoDup (dep_Service <$> foldl (dep_add ctx why) out l).
Proof. revert out. induction l as [|s l IH]; intros out H; cbn; [done|]. by apply IH, dep_add_nodup. Qed.

Lemma dep_context_services out c x :
  x ∈ dep_Service <$> dep_context out c <-> x ∈ dep_Service <$> out \/ retains c x.
Proof.
  unfold dep_context, retains. destruct (assoc (dcx_Context c) dependencyCatalog) as [rule|].
  - cbn zeta. destruct (TracingActive c), (ReferencesSecrets c); rewrite !dep_adds_services;
      split; [|naive_solver| |naive_solver| |naive_solver| |naive_solver]; intros; destruct_or?; eauto 8.
  - split; [auto|]. intros [?|(? & ? & _)]; [done|discriminate].
Qed.

Lemma dep_context_nodup out c :
  NoDup (dep_Service <$> out) -> NoDup (dep_Service <$> dep_context out c).
Proof.
  intros H. unfold dep_context. destruct (assoc _ _) as [rule|]; [|done]. cbn zeta.
  destruct (TracingActive c), (ReferencesSecrets c); repeat apply dep_adds_nodup; done.
Qed.

Lemma dep_contexts l out :
  NoDup (dep_Service <$> out) ->
  NoDup (dep_Service <$> foldl dep_context out l) /\
  forall x, x ∈ dep_Service <$> foldl dep_context out l <->
    x ∈ dep_Service <$> out \/ exists c, c ∈ l /\ retains c x.
Proof.
  revert out. induction l as [|c l IH]; intros out H; cbn.
  - split; [done|]. intros x. split; [auto|]. intros [?|(c & Hc & _)]; [done|]. by apply not_elem_of_nil in Hc.
  - destruct (IH (dep_context out c)) as [Hn Hs]; [by apply dep_context_nodup|]. split; [done|].
    intros x. rewrite Hs, dep_context_services. split.
    + intros [[?|?]|(c' & ? & ?)]; [by left|right; exists c; split; [left|done]|right; exists c'; split; [by right|done]].
    + intros [?|(c' & [->|?]%elem_of_cons & ?)]; eauto.
Qed.

(** The dependency list names each service once, and a service is a dependency
    exactly when the catalog row of one of the role's contexts retains it:
    always, with active tracing, or with referenced secrets. *)
Theorem dependencies_exact ctxs :
  NoDup (dep_Service <$> Dependencies ctxs) /\
  forall svc, (exists d, IsDependency svc ctxs = Some d) <-> exists c, c ∈ ctxs /\ retains c svc.
Proof.
  destruct (dep_contexts (sort_slice (less_by (fun c => [dcx_Context c])) ctxs) []) as [Hn Hs]; [constructor|].
  unfold Dependencies. split; [by rewrite sort_slice_perm|]. intros svc.
  assert (svc ∈ dep_Service <$> Dependencies ctxs <-> exists c, c ∈ ctxs /\ retains c svc) as <-.
  { unfold Dependencies. rewrite sort_slice_perm, Hs. cbn. split.
    - intros [?%not_elem_of_nil|(c & Hc%elem_of_sort_slice & ?)]; [done|eauto].
    - intros (c & Hc & ?). right. exists c. by rewrite elem_of_sort_slice. }
  unfold IsDependency. split.
  - intros (d & [Hd Heq]%List.find_some). apply String.eqb_eq in Heq as <-.
    apply list_elem_of_fmap_2. by apply list_elem_of_In.
  - intros (d & -> & Hd)%list_elem_of_fmap. destruct (List.find _ _) as [d'|] eqn:E; [eauto|].
    apply List.find_none with (x := d) in E; [by rewrite String.eqb_refl in E|by apply list_elem_of_In].
Qed.

(** * Tracking *)

Lemma latest_start_spec start regions t :
  latest_start start regions = inl t <->
  (forall r, r ∈ regions -> is_Some (assoc r regionTrackingStart)) /\
  t = foldr Z.max start (omap (fun r => assoc r regionTrackingStart) regions).
Proof.
  revert start. induction regions as [|r l IH]; intros start; cbn.
  - split; [intros [= <-]; split; [set_solver|done]|]. by intros [_ ->].
  - destruct (assoc r regionTrackingStart) as [rs|] eqn:E; cbn.
    + rewrite IH. assert ((if start <? rs then rs else start) = Z.max rs start) as -> by (destruct (Z.ltb_spec start rs); lia).
      assert (foldr Z.max (Z.max rs start) (omap (fun r => assoc r regionTrackingStart) l) =
              Z.max rs (foldr Z.max start (omap (fun r => assoc r regionTrackingStart) l))) as ->.
      { generalize (omap (fun r => assoc r regionTrackingStart) l). intros k. induction k; cbn; lia. }
      split; intros [H ->]; (split; [|done]); intros r' Hr'.
      * apply elem_of_cons in Hr' as [->|?]; [by rewrite E|auto].
      * apply H. by right.
    + split; [done|]. intros [H _]. destruct (H r) as [? ?]; [left|congruence].
Qed.

(** The tracking start is the latest date over the service and every enabled
    region, and exists exactly when the service is in the catalog, the region
    set is not empty and every region provides last-accessed information. *)
Theorem tracking_start_latest service regions :
  match TrackingStart service regions with
  | inl t =>
      regions <> [] /\ exists s, assoc service trackedServices = Some s /\
      (s <= t /\ (forall r, r ∈ regions -> exists d, assoc r regionTrackingStart = Some d /\ d <= t)) /\
      (t = s \/ exists r, r ∈ regions /\ assoc r regionTrackingStart = Some t)
  | inr _ =>
      assoc service trackedServices = None \/ regions = [] \/
      exists r, r ∈ regions /\ assoc r regionTrackingStart = None
  end.
Proof.
  unfold TrackingStart. destruct (assoc service trackedServices) as [s|]; [|by left].
  destruct regions as [|r0 l]; [by right; left|]. set (regions := r0 :: l).
  destruct (latest_start s (sortedUnique regions)) as [t|e] eqn:E.
  - apply latest_start_spec in E as [Hall ->]. split; [done|]. exists s. split; [done|].
    assert (forall k : list Z, s <= foldr Z.max s k /\ (forall d, d ∈ k -> d <= foldr Z.max s k) /\
            (foldr Z.max s k = s \/ foldr Z.max s k ∈ k)) as Hmax.
    { induction k as [|d k (H1 & H2 & H3)]; cbn; [split_and!; [lia|set_solver|by left]|].
      split_and!; [lia| |].
      - intros d' [->|Hd']%elem_of_cons; [lia|]. specialize (H2 d' Hd'). lia.
      - destruct (Z.max_spec d (foldr Z.max s k)) as [[_ ->]|[_ ->]]; [|right; left].
        destruct H3 as [H3|H3]; [by left|right; by right]. }
    specialize (Hmax (omap (fun r => assoc r regionTrackingStart) (sortedUnique regions))) as (H1 & H2 & H3).
    split_and!; [done| |].
    + intros r Hr. rewrite <- elem_of_sortedUnique in Hr. destruct (Hall r Hr) as [d Hd]. exists d.
      split; [done|]. apply H2. apply list_elem_of_omap. eauto.
    + destruct H3 as [H3|H3]; [by left|right]. apply list_elem_of_omap in H3 as (r & Hr & Hd).
      exists r. by rewrite <- elem_of_sortedUnique.
  - right. right. assert (~ (forall r, r ∈ sortedUnique regions -> is_Some (assoc r regionTrackingStart))) as Hn.
    { intros H. assert (latest_start s (sortedUnique regions) = inl
        (foldr Z.max s (omap (fun r => assoc r regionTrackingStart) (sortedUnique regions)))) as H'.
      { by apply latest_start_spec. } congruence. }
    destruct (decide (Exists (fun r => assoc r regionTrackingStart = None) regions)) as [Hx|Hx].
    { by apply Exists_exists in Hx. }
    destruct Hn. intros r Hr. rewrite elem_of_sortedUnique in Hr.
    apply not_eq_None_Some. intros Hnone. apply Hx. apply Exists_exists. eauto.
Qed.

(** * Escalations *)

Lemma globs_literal p t : ContainsAny p [star; qmark] = false -> globs p t -> t = p.
Proof.
  intros Hp Hg. induction Hg as [|p t _ _|p c t _ _|p c t _ _|p c t _ _ _ IH]; cbn in Hp; try done.
  apply orb_false_elim in Hp as [_ Hp]. by rewrite IH.
Qed.

Definition escalation_ok (e : EscalationAction) : bool :=
  match SplitAction (Pattern e) with
  | Some (ens, _) => lacks ":" ens && no_star ens && negb (ContainsAny (ToLower ens) [star; qmark])
  | None => false
  end.

Lemma escalation_literal e : e ∈ escalationCatalog ->
  exists ens eact, SplitAction (Pattern e) = Some (ens, eact) /\ lacks ":" ens = true /\ no_star ens = true /\
    ContainsAny (ToLower ens) [star; qmark] = false.
Proof.
  assert (forallb escalation_ok escalationCatalog = true) as H by (vm_compute; reflexivity).
  rewrite forallb_forall in H. intros He%list_elem_of_In%H. unfold escalation_ok in He.
  destruct (SplitAction (Pattern e)) as [[ens eact]|]; [|done]. bool_prop. eauto 8.
Qed.

(** No escalation is missed: an Allow statement that allows an action of an
    escalation pattern (with a wildcard resource where the catalog asks for one)
    is reported as granting that pattern. *)
Theorem escalations_never_missed st e ns act :
  e ∈ escalationCatalog -> (OnWildcardResource e = true -> ResourceIsWildcard st = true) ->
  lacks ":" ns = true -> lacks ":" act = true ->
  matches (Pattern e) (action_of ns act) -> allows st (action_of ns act) ->
  Pattern e ∈ EscalationsGranted st.
Proof.
  intros He Hw Hns Hact Hm [HA Hall]. unfold EscalationsGranted. rewrite HA.
  change (EffectAllow =? EffectAllow)%string with true. cbn [negb].
  rewrite elem_of_sort_slice. apply list_elem_of_fmap_2. apply list_elem_of_In, List.filter_In.
  split; [by apply list_elem_of_In|]. unfold escalation_granted.
  assert (OnWildcardResource e && negb (ResourceIsWildcard st) = false) as ->.
  { destruct (OnWildcardResource e); [by rewrite Hw|done]. }
  destruct (st_IsNotAction st).
  - destruct (escalation_literal e He) as (ens & eact & Hsp & Hens & Hst & Hlit). rewrite Hsp.
    apply negb_true_iff, not_true_is_false. rewrite existsb_exists. intros (n & Hn & Hx).
    rewrite Forall_forall in Hall. apply (Hall n); [by apply list_elem_of_In|].
    apply orb_true_iff in Hx as [Hx|Hx].
    + apply String.eqb_eq in Hx. unfold matches. by rewrite Hx.
    + apply SplitAction_Some in Hsp as (Hp & _ & _). rewrite Hp in Hm.
      apply matches_colon in Hm as [Hm _]; [|done..]. apply globs_literal in Hm; [|done].
      assert (matches n (action_of ens act)) as Hc by (by apply covers_whole_matches).
      unfold matches, action_of in *. rewrite ToLower_app in *. by rewrite <- Hm in Hc.
  - apply existsb_exists. apply Exists_exists in Hall as (p & Hp & Hpm). exists p.
    split; [by apply list_elem_of_In|]. apply globsIntersect_spec. eauto.
Qed.

Lemma escalations_never_missed_witness :
  "iam:Create*" ∈ EscalationsGranted (set_Effect "Allow" (set_Action ["iam:c*"] (empty_statement ""))).
Proof.
  apply (escalations_never_missed _ (Build_EscalationAction "iam:Create*" false) "iam" "CreateRole").
  - apply elem_of_cons. right. apply elem_of_cons. by left.
  - done.
  - done.
  - done.
  - apply (matches_colon "iam" "Create*"); [done..|]. split; apply globMatch_spec; reflexivity.
  - split; [done|]. constructor. apply (matches_colon "iam" "c*"); [done..|]. split; apply globMatch_spec; reflexivity.
Defined.
