(* ===== verification/Text.v ===== *)
(** Text routines of the Go library the package uses: [strconv.Quote], the
    regular expressions of internal/igagov/intent.go as matchers on byte
    strings, and [time.Parse] for the two layouts of [validDate]. *)

From stdpp Require Import base list strings gmap sorting.
From Stdlib Require Import Ascii.
From S2P Require Import Prelude Slices Glob Float64 Utf8 Json JsonCanon PolicyDoc Catalog.

(** * Quoting *)

(** [%q] of a refusal detail: [strconv.Quote], with every character beyond
    ASCII taken as printable. *)
Definition quote_rune (c : option Z * string) : string :=
  let hex z := "\x" +:+ String (hexdigit (Z.shiftr z 4)) (String (hexdigit (Z.land z 15)) "") in
  match c.1 with
  | None => match c.2 with String b _ => hex (byte_val b) | "" => "" end
  | Some r =>
      if r =? 34 then String backslash (String quote "")
      else if r =? 92 then "\\"
      else if (32 <=? r) && negb (r =? 127) then c.2
      else if r =? 7 then "\a" else if r =? 8 then "\b" else if r =? 12 then "\f" else if r =? 10 then "\n"
      else if r =? 13 then "\r" else if r =? 9 then "\t" else if r =? 11 then "\v"
      else hex r
  end.

Definition Quote (s : string) : string :=
  String quote (foldr (fun c t => quote_rune c +:+ t) (String quote "") (chunks_fuel (str_length s) s)).

(** * Character classes *)

Definition in_range (lo hi : N) (c : ascii) : bool := (lo <=? N_of_ascii c)%N && (N_of_ascii c <=? hi)%N.
Definition digit_char : ascii -> bool := in_range 48 57.
Definition lower_char : ascii -> bool := in_range 97 122.
Definition upper_char : ascii -> bool := in_range 65 90.
Definition hyphen (c : ascii) : bool := is_char 45 c.

(** [[0-9a-fA-F]] *)
Definition hex_char (c : ascii) : bool := digit_char c || in_range 97 102 c || in_range 65 70 c.

(** [[a-z0-9-]] *)
Definition service_char (c : ascii) : bool := lower_char c || digit_char c || hyphen c.

(** [[\w+=,.@-]] *)
Definition name_char (c : ascii) : bool :=
  lower_char c || upper_char c || digit_char c || is_char 95 c ||
  is_char 43 c || is_char 61 c || is_char 44 c || is_char 46 c || is_char 64 c || hyphen c.

Fixpoint all_chars (f : ascii -> bool) (s : string) : bool :=
  match s with "" => true | String c s => f c && all_chars f s end.

(** Between [lo] and [hi] characters of the class. *)
Definition class_between (f : ascii -> bool) (lo hi : nat) (s : string) : bool :=
  all_chars f s && (lo <=? str_length s)%nat && (str_length s <=? hi)%nat.

(** The string is one character of each class, in order. *)
Fixpoint match_classes (fs : list (ascii -> bool)) (s : string) : bool :=
  match fs, s with
  | [], "" => true
  | f :: fs, String c s => f c && match_classes fs s
  | _, _ => false
  end.

(** * The regular expressions *)

(* src: internal/igagov/intent.go:241-241 (reUUID) *)
Definition reUUID : string -> bool :=
  match_classes (replicate 8 hex_char ++ [hyphen] ++ replicate 4 hex_char ++ [hyphen] ++ replicate 4 hex_char ++
                 [hyphen] ++ replicate 4 hex_char ++ [hyphen] ++ replicate 12 hex_char).

(* src: internal/igagov/intent.go:242-242 (reAccount) *)
Definition reAccount : string -> bool := match_classes (replicate 12 digit_char).

(* src: internal/igagov/intent.go:243-243 (reRoleID) *)
Definition reRoleID (s : string) : bool :=
  HasPrefix s "AROA" && class_between (fun c => upper_char c || digit_char c) 8 124 (str_drop 4 s).

(* src: internal/igagov/intent.go:244-244 (reService) *)
Definition reService (s : string) : bool := negb (is_empty s) && all_chars service_char s.

(* src: internal/igagov/intent.go:245-245 (reHash) *)
Definition reHash (s : string) : bool :=
  HasPrefix s "sha256:" && match_classes (replicate 64 (fun c => digit_char c || in_range 97 102 c)) (str_drop 7 s).

(* src: internal/igagov/intent.go:246-246 (reRoleName) *)
Definition reRoleName : string -> bool := class_between name_char 1 64.

(** A slash, or a slash, up to 510 visible characters and a slash. *)
(* src: internal/igagov/intent.go:247-247 (reRolePath) *)
Definition reRolePath (s : string) : bool :=
  (s =? "/")%string ||
  match s with
  | String "/" t =>
      match cut_last "/" t with
      | Some (mid, "") => class_between (in_range 33 126) 0 510 mid
      | _ => false
      end
  | _ => false
  end.

(** [.] is any character but a newline. *)
(* src: internal/igagov/intent.go:248-248 (reARN) *)
Definition reARN (s : string) : bool :=
  match SplitN 6 ":" s with
  | [a; p; svc; r; acct; rest] =>
      (a =? "arn")%string && reService p && all_chars service_char svc && all_chars service_char r &&
      all_chars digit_char acct && negb (is_empty rest) && all_chars (fun c => negb (is_char 10 c)) rest
  | _ => false
  end.

(* src: internal/igagov/intent.go:249-249 (reInlineNm) *)
Definition reInlineNm : string -> bool := class_between name_char 1 128.

(** * [time.Parse] *)

(** [n] digits at the front. *)
Fixpoint take_digits (n : nat) (acc : Z) (s : string) : option (Z * string) :=
  match n, s with
  | O, _ => Some (acc, s)
  | S n, String c s => if digit_char c then take_digits n (10 * acc + (byte_val c - 48)) s else None
  | S _, "" => None
  end.

(** [getnum(s, false)]: one digit, or two. *)
Definition one_or_two (s : string) : option (Z * string) :=
  match take_digits 2 0 s with Some x => Some x | None => take_digits 1 0 s end.

Definition lit (c : ascii) (s : string) : option string :=
  match s with String a s => if bool_decide (a = c) then Some s else None | "" => None end.

Definition leap (y : Z) : bool := (y mod 4 =? 0) && (negb (y mod 100 =? 0) || (y mod 400 =? 0)).

Definition daysIn (m y : Z) : Z :=
  if m =? 2 then (if leap y then 29 else 28)
  else if (m =? 4) || (m =? 6) || (m =? 9) || (m =? 11) then 30 else 31.

(** [2006-01-02]: the rest of the text, when the date exists. *)
Definition parse_day (s : string) : option string :=
  '(y, s) ← take_digits 4 0 s;
  s ← lit "-" s;
  '(m, s) ← take_digits 2 0 s;
  s ← lit "-" s;
  '(d, s) ← take_digits 2 0 s;
  if (1 <=? m) && (m <=? 12) && (1 <=? d) && (d <=? daysIn m y) then Some s else None.

Fixpoint skip_digits (s : string) : string :=
  match s with String c s' => if digit_char c then skip_digits s' else s | "" => "" end.

(** A fraction the layout does not name: a period or comma, then digits. *)
Definition skip_fraction (s : string) : string :=
  match s with
  | String p (String c s') => if (is_char 46 p || is_char 44 p) && digit_char c then skip_digits s' else s
  | _ => s
  end.

(** [Z07:00]: hours up to 24 and minutes up to 60 are accepted. *)
Definition parse_zone (s : string) : option string :=
  match s with
  | String c s' =>
      if is_char 90 c then Some s'
      else if is_char 43 c || is_char 45 c then
        '(h, s) ← take_digits 2 0 s';
        s ← lit ":" s;
        '(m, s) ← take_digits 2 0 s;
        if (h <=? 24) && (m <=? 60) then Some s else None
      else None
  | "" => None
  end.

(** [2006-01-02T15:04:05Z07:00]. *)
Definition parse_instant (s : string) : option string :=
  s ← parse_day s;
  s ← lit "T" s;
  '(h, s) ← one_or_two s;
  s ← lit ":" s;
  '(m, s) ← take_digits 2 0 s;
  s ← lit ":" s;
  '(sec, s) ← take_digits 2 0 s;
  if (h <? 24) && (m <? 60) && (sec <? 60) then parse_zone (skip_fraction s) else None.

(* src: internal/igagov/intent.go:353-359 (validDate) *)
Definition validDate (s : string) : bool :=
  bool_decide (parse_day s = Some "") || bool_decide (parse_instant s = Some "").

Example dates :
  map validDate ["2026-02-28"; "2026-02-29"; "2024-02-29"; "2026-1-02"; "2026-07-01T09:30:00Z";
                 "2026-07-01T9:30:00.25+05:30"; "2026-07-01T24:00:00Z"; "2026-07-01 "] =
  [true; false; true; false; true; true; false; false].
Proof. vm_compute. reflexivity. Qed.

(** * Facts *)

Lemma all_chars_app f a b : all_chars f (a +:+ b) = all_chars f a && all_chars f b.
Proof. induction a as [|c a IH]; [done|]. rewrite str_app_cons. cbn. by rewrite IH, andb_assoc. Qed.

Lemma ascii_valid s : all_chars (fun c => byte_val c <? 128) s = true -> valid_utf8 s.
Proof.
  induction s as [|c s IH]; cbn; [constructor|]. intros [Hc Hs]%andb_prop. apply Z.ltb_lt in Hc.
  assert (0 <= byte_val c) by (unfold byte_val; lia).
  assert (EncodeRune (byte_val c) = String c "") as E.
  { unfold EncodeRune. destruct (Z.ltb_spec (byte_val c) 128); [|lia]. unfold byte_of, byte_val. f_equal.
    rewrite N2Z.id. apply ascii_N_embedding. }
  change (String c s) with (String c "" +:+ s). rewrite <- E. constructor; [|by apply IH]. unfold scalar. lia.
Qed.

(** What a service name is made of. *)
Lemma service_char_facts c :
  service_char c = true ->
  lower_byte c = c /\ byte_val c < 128 /\ c <> ":"%char /\ c <> star /\ c <> qmark.
Proof. destruct c as [[][][][][][][][]]; vm_compute; intuition congruence. Qed.

Lemma reService_facts s :
  reService s = true ->
  s <> "" /\ ToLower s = s /\ valid_utf8 s /\ lacks ":" s = true /\ no_star s = true /\
  ContainsAny s [star; qmark] = false.
Proof.
  unfold reService. intros [Hne Hs]%andb_prop. split; [intros ->; done|]. clear Hne.
  induction s as [|c s IH]; [repeat split; constructor|]. cbn in Hs. apply andb_prop in Hs as [Hc Hs].
  destruct (IH Hs) as (Hl & Hv & Hk & Hn & Hq). destruct (service_char_facts c Hc) as (H1 & H2 & H3 & H4 & H5).
  split_and!.
  - cbn. by rewrite H1, Hl.
  - change (String c s) with (String c "" +:+ s). apply valid_utf8_app; [|done]. apply ascii_valid. cbn.
    apply andb_true_iff. split; [by apply Z.ltb_lt|done].
  - cbn. by rewrite Hk, bool_decide_eq_false_2.
  - cbn. by rewrite Hn, bool_decide_eq_false_2.
  - cbn. rewrite Hq, bool_decide_eq_false_2; [done|]. set_solver.
Qed.
