(* ===== verification/Routes.v ===== *)
(** Resource-policy route analysis (internal/igagov/routes.go): which routes a
    service keeps that a boundary on the role would not close, and what the
    evidence could not establish. *)

From stdpp Require Import base list strings gmap sorting.
From Stdlib Require Import Ascii.
From S2P Require Import Prelude Slices Glob Utf8 Json PolicyDoc Catalog.

(** * Vocabulary *)

Definition RouteUsageNoneObserved : string := "none_observed".
Definition RouteUsageConfirmRequired : string := "confirm_required".

Definition RouteStateNoneObserved : string := "none_observed".
Definition RouteStateBypassKnown : string := "bypass_known".
Definition RouteStateEffectUnknown : string := "effect_unknown".
Definition RouteStateNotAnalysed : string := "not_analysed".

Definition PrincipalRoleARN : string := "role_arn".
Definition PrincipalRoleSession : string := "role_session".
Definition PrincipalWildcard : string := "wildcard".

Definition RouteEffectLimited : string := "limited".
Definition RouteEffectBypassKnown : string := RouteStateBypassKnown.
Definition RouteEffectEffectUnknown : string := RouteStateEffectUnknown.
Definition RouteEffectNotAnalysed : string := RouteStateNotAnalysed.

Definition CoverageComplete : string := "complete".
Definition CoverageNotCollected : string := "not_collected".
Definition ParseUnparseable : string := "unparseable".
Definition ReasonEnabledRegionsUnknown : string := "enabled_regions_unknown".

(* src: internal/igagov/routes.go:57-65 (Route) *)
Record Route := {
  rt_Service : string;
  rt_Form : string;
  rt_Region : string;
  rt_Resource : string;
  rt_Principal : string;
  rt_Effect : string;
  rt_Reason : string
}.

#[export] Instance Route_eq_dec : EqDecision Route.
Proof. solve_decision. Defined.

Definition route_keys (r : Route) : list string :=
  [rt_Service r; rt_Resource r; rt_Form r; rt_Region r; rt_Principal r; rt_Effect r; rt_Reason r].

(* src: internal/igagov/routes.go:68-79 (SortRoutes) *)
Definition SortRoutes (rs : list Route) : list Route := sort_slice (less_by route_keys) rs.

(* src: internal/igagov/routes.go:82-87 (CoverageRow) *)
Record CoverageRow := {
  cov_Form : string;
  cov_Region : string;
  cov_State : string;
  cov_Reason : string
}.

(* src: internal/igagov/routes.go:91-99 (ResourcePolicyObservation) *)
Record ResourcePolicyObservation := {
  ob_Form : string;
  ob_Region : string;
  ob_ResourceARN : string;
  ob_PolicyPresent : bool;
  ob_DocumentHash : string;
  ob_ParseState : string;
  ob_Document : option PolicyDocument
}.

(* src: internal/igagov/routes.go:103-113 (ResourcePolicyEvidence) *)
Record ResourcePolicyEvidence := {
  Coverage : list CoverageRow;
  Observations : list ResourcePolicyObservation;
  EnabledRegionsUnknown : bool
}.

(* src: internal/igagov/routes.go:121-123 (ResourcePolicyEvidence.coverageOnly) *)
Definition coverageOnly (ev : ResourcePolicyEvidence) : ResourcePolicyEvidence :=
  {| Coverage := Coverage ev; Observations := []; EnabledRegionsUnknown := EnabledRegionsUnknown ev |}.

(* src: internal/igagov/routes.go:126-132 (RoleRef) *)
Record RoleRef := {
  rr_RoleID : string;
  rr_ARN : string;
  rr_Name : string;
  rr_AccountID : string;
  rr_Partition : string
}.

(* src: internal/igagov/routes.go:137-142 (RouteAnalysis) *)
Record RouteAnalysis := {
  ra_Service : string;
  ra_Usage : string;
  ra_State : string;
  ra_Routes : list Route
}.

(* src: internal/igagov/routes.go:147-155 (RouteAnalysis.RemainingRoutes) *)
Definition RemainingRoutes (ra : RouteAnalysis) : list Route :=
  List.filter (fun r => negb (rt_Effect r =? RouteEffectLimited)%string) (ra_Routes ra).

(** * Principals *)

(* src: internal/igagov/routes.go:157-162 (RoleRef.partition) *)
Definition partition (r : RoleRef) : string :=
  if is_empty (rr_Partition r) then "aws" else rr_Partition r.

(* src: internal/igagov/routes.go:166-172 (arnAccount) *)
Definition arnAccount (arn : string) : string :=
  let parts := SplitN 6 ":" arn in
  if (length parts <? 6)%nat then "" else nth 4 parts "".

(* src: internal/igagov/routes.go:178-189 (classifyAWSPrincipal) *)
Definition classifyAWSPrincipal (v : string) (role : RoleRef) : string :=
  if (v =? "*")%string then PrincipalWildcard
  else if (v =? rr_ARN role)%string || (negb (is_empty (rr_RoleID role)) && (v =? rr_RoleID role)%string)
  then PrincipalRoleARN
  else if negb (is_empty (rr_Name role)) &&
          HasPrefix v ("arn:" +:+ partition role +:+ ":sts::" +:+ rr_AccountID role +:+ ":assumed-role/" +:+
                       rr_Name role +:+ "/")
  then PrincipalRoleSession
  else "".

Definition aws_values (p : Principal) : list string := default [] (Values p !! "AWS").

(* src: internal/igagov/routes.go:191-204 (principalLists) *)
Definition principalLists (p : option Principal) (role : RoleRef) : bool :=
  match p with
  | None => false
  | Some p =>
      existsb (fun v =>
        (negb (is_empty (classifyAWSPrincipal v role)) && negb (v =? "*")%string) ||
        (v =? rr_AccountID role)%string ||
        (v =? "arn:" +:+ partition role +:+ ":iam::" +:+ rr_AccountID role +:+ ":root")%string) (aws_values p)
  end.

(* src: internal/igagov/routes.go:208-233 (statementRoutes) *)
Definition statementRoutes (st : Statement) (ns : string) (role : RoleRef) : list string :=
  if negb (st_Effect st =? EffectAllow)%string || negb (GrantsNamespace st ns) then []
  else match st_NotPrincipal st with
  | Some np => if principalLists (Some np) role then [] else [PrincipalWildcard]
  | None =>
      match st_Principal st with
      | None => []
      | Some p =>
          if Wildcard p then [PrincipalWildcard]
          else sortedUnique (List.filter (fun k => negb (is_empty k))
                 (map (fun v => classifyAWSPrincipal v role) (aws_values p)))
      end
  end.

(* src: internal/igagov/routes.go:235-243 (effectFor) *)
Definition effectFor (principal : string) : string :=
  if (principal =? PrincipalRoleARN)%string then RouteEffectLimited
  else if (principal =? PrincipalRoleSession)%string then RouteEffectBypassKnown
  else RouteEffectEffectUnknown.

(** * The analysis *)

(* src: internal/igagov/routes.go:362-369 (sortedKeys) *)
Definition sortedKeys {V} (m : gmap string V) : list string :=
  sort_slice str_lt (map_to_list m).*1.

Definition not_analysed (service form region resource reason : string) : Route :=
  {| rt_Service := service; rt_Form := form; rt_Region := region; rt_Resource := resource;
     rt_Principal := ""; rt_Effect := RouteEffectNotAnalysed; rt_Reason := reason |}.

(** [rows]: the last coverage row of the form per region. *)
Definition coverage_rows (form : string) (cov : list CoverageRow) : gmap string CoverageRow :=
  foldl (fun m c => if (cov_Form c =? form)%string then <[cov_Region c := c]> m else m) ∅ cov.

(** A region whose row is missing or not complete. *)
Definition incomplete_route (service form : string) (rows : gmap string CoverageRow) (region : string) : list Route :=
  match rows !! region with
  | None => [not_analysed service form region "" CoverageNotCollected]
  | Some c =>
      if (cov_State c =? CoverageComplete)%string then []
      else [not_analysed service form region "" (cov_State c)]
  end.

(** The body of the loop over the forms of the namespace. *)
(* src: internal/igagov/routes.go:274-311 (AnalyzeRoutes, forms) *)
Definition form_routes (service : string) (ev : ResourcePolicyEvidence) (enabledRegions : list string)
    (f : PolicyBearingForm) : list Route :=
  let na region reason := not_analysed service (frm_Name f) region "" reason in
  if (frm_State f =? FormUncollected)%string then [na "" "form_not_collected"]
  else
    let rows := coverage_rows (frm_Name f) (Coverage ev) in
    let incomplete := incomplete_route service (frm_Name f) rows in
    if (frm_Scope f =? ScopeAccount)%string then
      (if bool_decide (rows = ∅) then [na "" CoverageNotCollected] else []) ++
      flat_map incomplete (sortedKeys rows)
    else
      (if EnabledRegionsUnknown ev then [na "" ReasonEnabledRegionsUnknown] else []) ++
      flat_map incomplete (sortedUnique (enabledRegions ++ sortedKeys rows)).

(** The principals of a document's statements, each once, in order. *)
Definition document_principals (doc : PolicyDocument) (service : string) (role : RoleRef) : list string :=
  foldl (fun seen p => if bool_decide (p ∈ seen) then seen else seen ++ [p]) []
    (flat_map (fun st => statementRoutes st service role) (doc_Statements doc)).

(** The body of the loop over the observations. *)
(* src: internal/igagov/routes.go:312-335 (AnalyzeRoutes, observations) *)
Definition observation_routes (service : string) (role : RoleRef) (formNames : list string)
    (ob : ResourcePolicyObservation) : list Route :=
  if negb (bool_decide (ob_Form ob ∈ formNames)) || negb (ob_PolicyPresent ob) then []
  else
    let acct := arnAccount (ob_ResourceARN ob) in
    if negb (is_empty acct) && negb (is_empty (rr_AccountID role)) && negb (acct =? rr_AccountID role)%string
    then []
    else
      let unparseable := [not_analysed service (ob_Form ob) (ob_Region ob) (ob_ResourceARN ob) "policy_unparseable"] in
      if (ob_ParseState ob =? ParseUnparseable)%string then unparseable
      else match ob_Document ob with
      | None => unparseable
      | Some doc =>
          map (fun p => {| rt_Service := service; rt_Form := ob_Form ob; rt_Region := ob_Region ob;
                           rt_Resource := ob_ResourceARN ob; rt_Principal := p; rt_Effect := effectFor p;
                           rt_Reason := "" |})
            (document_principals doc service role)
      end.

(* src: internal/igagov/routes.go:339-360 (RouteAnalysis.finish) *)
Definition finish (service : string) (routes : list Route) : RouteAnalysis :=
  let rs := SortRoutes routes in
  let has e := existsb (fun r => (rt_Effect r =? e)%string) rs in
  {| ra_Service := service;
     ra_Usage := match rs with [] => RouteUsageNoneObserved | _ => RouteUsageConfirmRequired end;
     ra_State := if has RouteEffectBypassKnown then RouteStateBypassKnown
                 else if has RouteEffectEffectUnknown then RouteStateEffectUnknown
                 else if has RouteEffectNotAnalysed then RouteStateNotAnalysed
                 else RouteStateNoneObserved;
     ra_Routes := rs |}.

(* src: internal/igagov/routes.go:268-337 (AnalyzeRoutes) *)
Definition AnalyzeRoutes (service : string) (role : RoleRef) (ev : option ResourcePolicyEvidence)
    (enabledRegions : list string) : RouteAnalysis :=
  match ev with
  | None => finish service [not_analysed service "" "" "" "no_resource_policy_coverage"]
  | Some ev =>
      let forms := FormsForNamespace service in
      finish service
        (flat_map (form_routes service ev enabledRegions) forms ++
         flat_map (observation_routes service role (frm_Name <$> forms)) (Observations ev))
  end.

(** The namespace's forms are a table lookup: never unfolded in proofs. *)
#[global] Opaque FormsForNamespace.

(** * Determinism *)

#[export] Instance route_less_total : StrictTotal (less_by route_keys).
Proof. apply less_by_total. intros [] []. unfold route_keys. cbn. by intros [= -> -> -> -> -> -> ->]. Qed.

Lemma SortRoutes_perm rs : SortRoutes rs ≡ₚ rs.
Proof. apply sort_slice_perm. Qed.

Lemma finish_perm service rs rs' : rs ≡ₚ rs' -> finish service rs = finish service rs'.
Proof.
  intros H. unfold finish, SortRoutes. by rewrite (sort_slice_unique (less_by route_keys) _ _ H).
Qed.

Lemma flat_map_perm {A B} (f : A -> list B) l l' : l ≡ₚ l' -> flat_map f l ≡ₚ flat_map f l'.
Proof. apply Permutation_flat_map. Qed.

Lemma form_routes_ext service ev ev' rs rs' f :
  Coverage ev = Coverage ev' -> EnabledRegionsUnknown ev = EnabledRegionsUnknown ev' ->
  (forall r, r ∈ rs <-> r ∈ rs') -> form_routes service ev rs f = form_routes service ev' rs' f.
Proof.
  intros Hc Hu H. unfold form_routes. rewrite Hc, Hu. destruct (_ =? FormUncollected)%string; [done|]. cbn zeta.
  destruct (_ =? ScopeAccount)%string; [done|]. f_equal. f_equal. apply sortedUnique_ext.
  intros r. rewrite !elem_of_app, H. done.
Qed.

(** The analysis does not depend on read order: observations in any order, and
    enabled regions in any order or repeated, give the same routes, usage and
    state. *)
Theorem analysis_order_independent service role cov obs obs' unknown rs rs' :
  obs ≡ₚ obs' -> (forall r, r ∈ rs <-> r ∈ rs') ->
  AnalyzeRoutes service role (Some {| Coverage := cov; Observations := obs; EnabledRegionsUnknown := unknown |}) rs =
  AnalyzeRoutes service role (Some {| Coverage := cov; Observations := obs'; EnabledRegionsUnknown := unknown |}) rs'.
Proof.
  intros Ho Hr. unfold AnalyzeRoutes. generalize (FormsForNamespace service). intros forms.
  apply finish_perm, Permutation_app; [|by apply flat_map_perm].
  apply Permutation_refl', flat_map_ext. intros f. by apply form_routes_ext.
Qed.

Lemma analysis_order_independent_witness :
  let role := Build_RoleRef "AROA1" "arn:aws:iam::1:role/r" "r" "1" "" in
  let ob r := Build_ResourcePolicyObservation "sqs_queue" r "arn:aws:sqs:x:1:q" true "h" "unparseable" None in
  AnalyzeRoutes "sqs" role (Some {| Coverage := []; Observations := [ob "a"; ob "b"]; EnabledRegionsUnknown := false |}) ["b"; "a"] =
  AnalyzeRoutes "sqs" role (Some {| Coverage := []; Observations := [ob "b"; ob "a"]; EnabledRegionsUnknown := false |}) ["a"; "b"; "a"].
Proof. apply analysis_order_independent; [apply Permutation_swap|set_solver]. Defined.

(** * Usage and state *)

Definition known_effect (r : Route) : Prop :=
  rt_Effect r ∈ [RouteEffectLimited; RouteEffectBypassKnown; RouteEffectEffectUnknown; RouteEffectNotAnalysed].

Lemma not_analysed_known s f r res why : known_effect (not_analysed s f r res why).
Proof. unfold known_effect. cbn. set_solver. Qed.

Lemma Forall_flat_map' {A B} (P : B -> Prop) (f : A -> list B) l :
  (forall x, x ∈ l -> Forall P (f x)) -> Forall P (flat_map f l).
Proof.
  intros H. apply Forall_forall. intros y Hy. apply list_elem_of_In, in_flat_map in Hy as (x & Hx & Hy).
  specialize (H x). rewrite Forall_forall in H. apply H; by apply list_elem_of_In.
Qed.

Lemma form_routes_known service ev rs f : Forall known_effect (form_routes service ev rs f).
Proof.
  unfold form_routes. destruct (_ =? FormUncollected)%string; [repeat constructor; apply not_analysed_known|].
  cbn zeta. assert (forall rows l, Forall known_effect (flat_map (incomplete_route service (frm_Name f) rows) l)) as Hin.
  { intros rows l. apply Forall_flat_map'. intros r _. unfold incomplete_route.
    repeat case_match; repeat constructor; apply not_analysed_known. }
  destruct (_ =? ScopeAccount)%string; apply Forall_app; (split; [|apply Hin]);
    case_match; repeat constructor; apply not_analysed_known.
Qed.

Lemma observation_routes_known service role names ob : Forall known_effect (observation_routes service role names ob).
Proof.
  unfold observation_routes. destruct (_ || _); [constructor|]. cbn zeta. destruct (_ && _); [constructor|].
  destruct (_ =? ParseUnparseable)%string; [repeat constructor; apply not_analysed_known|].
  destruct (ob_Document ob) as [doc|]; [|repeat constructor; apply not_analysed_known].
  apply Forall_forall. intros r (p & <- & _)%list_elem_of_In%in_map_iff. unfold known_effect, effectFor. cbn [rt_Effect].
  repeat case_match; set_solver.
Qed.

(** The routes before sorting. *)
Definition raw_routes (service : string) (role : RoleRef) (ev : option ResourcePolicyEvidence) (rs : list string) : list Route :=
  match ev with
  | None => [not_analysed service "" "" "" "no_resource_policy_coverage"]
  | Some ev =>
      flat_map (form_routes service ev rs) (FormsForNamespace service) ++
      flat_map (observation_routes service role (frm_Name <$> FormsForNamespace service)) (Observations ev)
  end.

Lemma AnalyzeRoutes_raw service role ev rs : AnalyzeRoutes service role ev rs = finish service (raw_routes service role ev rs).
Proof. destruct ev; reflexivity. Qed.

Lemma raw_routes_known service role ev rs : Forall known_effect (raw_routes service role ev rs).
Proof.
  destruct ev as [ev|]; cbn; [|repeat constructor; apply not_analysed_known].
  apply Forall_app. split; apply Forall_flat_map'; intros x _; [apply form_routes_known|apply observation_routes_known].
Qed.

Lemma finish_has rs e :
  existsb (fun r => (rt_Effect r =? e)%string) (SortRoutes rs) = true <-> exists r, r ∈ rs /\ rt_Effect r = e.
Proof.
  rewrite existsb_exists. split.
  - intros (r & Hr & He%String.eqb_eq). exists r. split; [|done]. rewrite <- SortRoutes_perm. by apply list_elem_of_In.
  - intros (r & Hr & He). exists r. split; [|by apply String.eqb_eq]. apply list_elem_of_In. by rewrite SortRoutes_perm.
Qed.

(** The two conclusions agree with the route list: usage is none_observed
    exactly when no route is listed, and state is none_observed exactly when no
    remaining route is (only role-ARN routes, which the boundary limits). *)
Theorem route_state_iff_remaining service role ev rs :
  let ra := AnalyzeRoutes service role ev rs in
  (ra_Usage ra = RouteUsageNoneObserved <-> ra_Routes ra = []) /\
  (ra_State ra = RouteStateNoneObserved <-> RemainingRoutes ra = []).
Proof.
  cbn zeta. rewrite AnalyzeRoutes_raw. pose proof (raw_routes_known service role ev rs) as Hk.
  set (raw := raw_routes service role ev rs) in *. clearbody raw. split.
  - unfold finish. cbn. destruct (SortRoutes raw); split; done.
  - assert (RemainingRoutes (finish service raw) = [] <-> forall r, r ∈ raw -> rt_Effect r = RouteEffectLimited) as ->.
    { unfold RemainingRoutes, finish. cbn [ra_Routes]. split.
      - intros H r Hr. destruct (String.eqb_spec (rt_Effect r) RouteEffectLimited) as [|Hn]; [done|]. exfalso.
        assert (r ∈ List.filter (fun r => negb (rt_Effect r =? RouteEffectLimited)%string) (SortRoutes raw)) as Hin.
        { apply list_elem_of_In, List.filter_In. split; [apply list_elem_of_In; by rewrite SortRoutes_perm|].
          by apply negb_true_iff, String.eqb_neq. }
        rewrite H in Hin. by apply not_elem_of_nil in Hin.
      - intros H. destruct (List.filter _ _) as [|r l] eqn:E; [done|]. exfalso.
        assert (r ∈ r :: l) as Hin by left. rewrite <- E in Hin. apply list_elem_of_In, List.filter_In in Hin as [Hin Hn].
        apply list_elem_of_In in Hin. rewrite SortRoutes_perm in Hin. rewrite (H r Hin) in Hn. done. }
    unfold finish. cbn [ra_State]. rewrite Forall_forall in Hk. split.
    + destruct (existsb _ _) eqn:E1; [done|]. destruct (existsb _ _) eqn:E2 at 1; [done|].
      destruct (existsb _ _) eqn:E3 at 1; [done|]. intros _ r Hr. specialize (Hk r Hr).
      apply not_true_iff_false in E1, E2, E3. rewrite finish_has in E1, E2, E3.
      unfold known_effect in Hk. rewrite !elem_of_cons in Hk.
      destruct Hk as [?|[?|[?|[?|?%not_elem_of_nil]]]]; [done|exfalso; eauto..].
    + intros H.
      assert (forall e, e <> RouteEffectLimited -> existsb (fun r => (rt_Effect r =? e)%string) (SortRoutes raw) = false) as Hf.
      { intros e He. apply not_true_iff_false. rewrite finish_has. intros (r & Hr & <-). by apply He, H. }
      rewrite !Hf by done. done.
Qed.

(** * What "none observed" means *)

(** The scan covers the form wherever its policies could be. *)
Definition fully_covered (ev : ResourcePolicyEvidence) (enabledRegions : list string) (f : PolicyBearingForm) : Prop :=
  let rows := coverage_rows (frm_Name f) (Coverage ev) in
  frm_State f <> FormUncollected /\
  (forall region c, rows !! region = Some c -> cov_State c = CoverageComplete) /\
  (if (frm_Scope f =? ScopeAccount)%string then rows <> ∅
   else EnabledRegionsUnknown ev = false /\ forall region, region ∈ enabledRegions -> is_Some (rows !! region)).

(** The observation is a policy of one of the forms, on a resource of the
    role's account. *)
Definition relevant (role : RoleRef) (formNames : list string) (ob : ResourcePolicyObservation) : Prop :=
  ob_Form ob ∈ formNames /\ ob_PolicyPresent ob = true /\
  (arnAccount (ob_ResourceARN ob) = "" \/ rr_AccountID role = "" \/ arnAccount (ob_ResourceARN ob) = rr_AccountID role).

(** Its document was read and grants the namespace to no route principal. *)
Definition grants_no_route (service : string) (role : RoleRef) (ob : ResourcePolicyObservation) : Prop :=
  ob_ParseState ob <> ParseUnparseable /\
  exists doc, ob_Document ob = Some doc /\ forall st, st ∈ doc_Statements doc -> statementRoutes st service role = [].

Lemma flat_map_nil {A B} (f : A -> list B) l : flat_map f l = [] <-> forall x, x ∈ l -> f x = [].
Proof.
  induction l as [|x l IH]; cbn; [set_solver|]. rewrite app_nil, IH. split.
  - intros [Hx Hl] y [->|Hy]%elem_of_cons; auto.
  - intros H. split; [apply H; left|]. intros y Hy. apply H. by right.
Qed.

Lemma elem_of_sortedKeys {V} (m : gmap string V) k : k ∈ sortedKeys m <-> is_Some (m !! k).
Proof.
  unfold sortedKeys. rewrite elem_of_sort_slice, list_elem_of_fmap. split.
  - intros ([k' v] & -> & H%elem_of_map_to_list). by exists v.
  - intros [v H]. exists (k, v). split; [done|]. by apply elem_of_map_to_list.
Qed.

Lemma form_routes_nil service ev rs f : form_routes service ev rs f = [] <-> fully_covered ev rs f.
Proof.
  unfold form_routes, fully_covered. cbn zeta.
  destruct (String.eqb_spec (frm_State f) FormUncollected) as [|Hs]; [naive_solver|].
  set (rows := coverage_rows (frm_Name f) (Coverage ev)). set (inc := incomplete_route service (frm_Name f) rows).
  assert (forall k, inc k = [] <-> exists c, rows !! k = Some c /\ cov_State c = CoverageComplete) as Hinc.
  { intros k. unfold inc, incomplete_route. destruct (rows !! k) as [c|]; [|naive_solver].
    destruct (String.eqb_spec (cov_State c) CoverageComplete); naive_solver. }
  destruct (frm_Scope f =? ScopeAccount)%string; rewrite app_nil, flat_map_nil.
  - split.
    + intros [He Hk]. split_and!; [done| |].
      * intros k c Hc. assert (k ∈ sortedKeys rows) as Hin by (apply elem_of_sortedKeys; by exists c).
        apply Hk, Hinc in Hin as (c' & Hc' & ?). naive_solver.
      * case_bool_decide; [discriminate|done].
    + intros (_ & Hc & Hne). split; [by rewrite bool_decide_eq_false_2|].
      intros k [c Hk]%elem_of_sortedKeys. apply Hinc. eauto.
  - split.
    + intros [He Hk]. split_and!; [done| | |].
      * intros k c Hc. assert (k ∈ sortedUnique (rs ++ sortedKeys rows)) as Hin.
        { apply elem_of_sortedUnique, elem_of_app. right. apply elem_of_sortedKeys. by exists c. }
        apply Hk, Hinc in Hin as (c' & Hc' & ?). naive_solver.
      * by destruct (EnabledRegionsUnknown ev).
      * intros k Hin. assert (k ∈ sortedUnique (rs ++ sortedKeys rows)) as Hin'.
        { apply elem_of_sortedUnique, elem_of_app. by left. }
        apply Hk, Hinc in Hin' as (c & -> & _). eauto.
    + intros (_ & Hc & Hu & Hr). rewrite Hu. split; [done|].
      intros k [Hk|Hk]%elem_of_sortedUnique%elem_of_app.
      * destruct (Hr k Hk) as [c Hkc]. apply Hinc. eauto.
      * apply elem_of_sortedKeys in Hk as [c Hkc]. apply Hinc. eauto.
Qed.

Lemma dedup_seen_nil (l : list string) :
  foldl (fun seen p => if bool_decide (p ∈ seen) then seen else seen ++ [p]) [] l = [] <-> l = [].
Proof.
  split; [|by intros ->]. destruct l as [|x l]; [done|]. cbn [foldl].
  rewrite bool_decide_eq_false_2 by apply not_elem_of_nil. cbn [app]. intros H. exfalso.
  assert (forall acc, acc <> [] -> foldl (fun seen p => if bool_decide (p ∈ seen) then seen else seen ++ [p]) acc l <> []) as Hn.
  { clear H. induction l as [|y l IH]; intros acc Ha; cbn; [done|]. apply IH.
    case_bool_decide; [done|]. by destruct acc. }
  by apply (Hn [x]).
Qed.

Lemma document_principals_nil doc service role :
  document_principals doc service role = [] <->
  forall st, st ∈ doc_Statements doc -> statementRoutes st service role = [].
Proof. unfold document_principals. by rewrite dedup_seen_nil, flat_map_nil. Qed.

Lemma observation_routes_nil service role names ob :
  observation_routes service role names ob = [] <-> (relevant role names ob -> grants_no_route service role ob).
Proof.
  unfold observation_routes, relevant, grants_no_route. case_bool_decide as Hf; cbn [negb orb]; [|naive_solver].
  destruct (ob_PolicyPresent ob); cbn [negb]; [|naive_solver]. cbn zeta.
  set (acct := arnAccount (ob_ResourceARN ob)).
  destruct (negb (is_empty acct) && _ && _) eqn:Ea.
  { split; [|done]. intros _ (_ & _ & H). exfalso. bool_prop. unfold is_empty in *. bool_prop. naive_solver. }
  assert (acct = "" \/ rr_AccountID role = "" \/ acct = rr_AccountID role) as Hacct.
  { unfold is_empty in Ea. destruct (String.eqb_spec acct ""), (String.eqb_spec (rr_AccountID role) ""),
      (String.eqb_spec acct (rr_AccountID role)); cbn in Ea; auto; discriminate. }
  clear Ea. destruct (String.eqb_spec (ob_ParseState ob) ParseUnparseable) as [He|He]; [naive_solver|].
  destruct (ob_Document ob) as [doc|]; [|naive_solver]. split.
  - intros H%map_eq_nil _. split; [done|]. exists doc. split; [done|]. by apply document_principals_nil.
  - intros H. destruct H as (_ & doc' & [= <-] & Hd); [done|].
    assert (document_principals doc service role = []) as -> by (by apply document_principals_nil). done.
Qed.

(** "No route" is never claimed from missing evidence: usage is none_observed
    exactly when the run collected resource policies, every policy-bearing form
    of the namespace is collected and complete (in every enabled region, or for
    the account), and every policy observed on a resource of the account was
    parsed and grants the namespace to no principal that reaches the role. *)
Theorem none_observed_means_analysed service role ev rs :
  ra_Usage (AnalyzeRoutes service role ev rs) = RouteUsageNoneObserved <->
  exists e, ev = Some e /\
    (forall f, f ∈ FormsForNamespace service -> fully_covered e rs f) /\
    (forall ob, ob ∈ Observations e -> relevant role (frm_Name <$> FormsForNamespace service) ob ->
       grants_no_route service role ob).
Proof.
  rewrite AnalyzeRoutes_raw.
  assert (ra_Usage (finish service (raw_routes service role ev rs)) = RouteUsageNoneObserved <->
          raw_routes service role ev rs = []) as ->.
  { unfold finish. cbn [ra_Usage]. rewrite <- (sort_slice_nil (less_by route_keys)). unfold SortRoutes.
    destruct (sort_slice _ _); split; done. }
  destruct ev as [e|]; cbn [raw_routes]; [|naive_solver].
  rewrite app_nil, !flat_map_nil. setoid_rewrite form_routes_nil. setoid_rewrite observation_routes_nil. naive_solver.
Qed.
