(* ===== verification/Hashes.v ===== *)
(** The hashes of internal/igagov/canonical.go: content addresses, finding
    fingerprints, preconditions, impact, plan and material hashes. SHA-256 is
    computed; what is proved is about the bytes hashed: which inputs give the
    same bytes, and which cannot. *)

From stdpp Require Import base list strings gmap sorting.
From Stdlib Require Import Ascii.
From S2P Require Import Prelude Slices Float64 Utf8 Json JsonCanon Marshal Sha256 PolicyDoc Catalog Routes.

(** * Labels and domains *)

(* src: internal/igagov/canonical.go:547-547 (HashPrefix) *)
Definition HashPrefix : string := "sha256:".

(* src: internal/igagov/canonical.go:550-550 (unitSep) *)
Definition unitSep : ascii := "031".

Definition DomainIntent : string := "authsec.igagov.intent.v1".
Definition DomainImpact : string := "authsec.igagov.impact.v1".
Definition DomainPrecondition : string := "authsec.igagov.precondition.v1".
Definition DomainStateOnly : string := "authsec.igagov.precondition.state.v1".
Definition DomainPlan : string := "authsec.igagov.plan.v1".
Definition DomainMaterial : string := "authsec.igagov.material.v1".
Definition DomainGap : string := "authsec.igagov.gap.v1".
Definition DomainUnanalysed : string := "authsec.igagov.unanalysed.v1".

(* src: internal/igagov/canonical.go:569-572 (sha256Label) *)
Definition sha256Label (b : string) : string := HashPrefix +:+ hexString (Sum256 b).

(* src: internal/igagov/canonical.go:579-579 (ContentHash) *)
Definition ContentHash (canonical : string) : string := sha256Label canonical.

(** The bytes [taggedHash] hashes. *)
Fixpoint tagged (domain : string) (parts : list string) : string :=
  match parts with
  | [] => domain
  | p :: parts => domain +:+ String unitSep (tagged p parts)
  end.

(* src: internal/igagov/canonical.go:584-592 (taggedHash) *)
Definition taggedHash (domain : string) (parts : list string) : string := sha256Label (tagged domain parts).

(* src: internal/igagov/canonical.go:596-602 (HashCanonicalTagged) *)
Definition HashCanonicalTagged (domain : string) (v : goval) : result string :=
  c ← CanonicalizeValue v; Ok (taggedHash domain [c]).

(* src: internal/igagov/canonical.go:610-620 (Fingerprint) *)
Definition Fingerprint (kind roleID detailKey : string) : result string :=
  if existsb (fun f => Contains f (String unitSep "")) [kind; roleID; detailKey]
  then Err (ErrOther "fingerprint field contains U+001F")
  else if is_empty kind || is_empty roleID then Err (ErrOther "fingerprint needs a kind and a RoleId")
  else Ok (sha256Label (tagged kind [roleID; detailKey])).

(* src: internal/igagov/canonical.go:626-639 (CanonicalDocument) *)
Definition CanonicalDocument (text : string) : result (string * string) :=
  raw ← DecodePolicyText text;
  c ← Canonicalize raw;
  _ ← checkStorable c;
  Ok (c, ContentHash c).

(* src: internal/igagov/canonical.go:643-646 (DocumentHash) *)
Definition DocumentHash (text : string) : result string := snd <$> CanonicalDocument text.

(* src: internal/igagov/canonical.go:651-657 (IntentHash) *)
Definition IntentHash (intentJSON : string) : result string :=
  c ← Canonicalize intentJSON; Ok (taggedHash DomainIntent [c]).

(** * Artifact state *)

(* src: internal/igagov/canonical.go:662-667 (AttachedEntity) *)
Record AttachedEntity := {
  ae_Kind : string;
  ae_ID : string;
  ae_Name : string;
  ae_Usage : string
}.

Definition UsageBoundary : string := "boundary".
Definition UsagePermissions : string := "permissions".

Definition AttachedEntity_val (e : AttachedEntity) : goval :=
  GStruct [("kind", GString (ae_Kind e)); ("id", GString (ae_ID e)); ("name", GString (ae_Name e));
           ("usage", GString (ae_Usage e))].

(* src: internal/igagov/canonical.go:682-687 (ArtifactStateFacts) *)
Record ArtifactStateFacts := {
  as_RoleID : string;
  as_BoundaryARN : option string;
  as_BoundaryDocumentHash : option string;
  as_AttachmentSet : list AttachedEntity
}.

Definition opt_val (o : option string) : goval :=
  match o with None => GNull | Some s => GString s end.

Definition ArtifactStateFacts_val (s : ArtifactStateFacts) : goval :=
  GStruct [("role_id", GString (as_RoleID s)); ("boundary_arn", opt_val (as_BoundaryARN s));
           ("boundary_document_hash", opt_val (as_BoundaryDocumentHash s));
           ("attachment_set", GSlice (map AttachedEntity_val (as_AttachmentSet s)))].

Definition entity_keys (e : AttachedEntity) : list string := [ae_Kind e; ae_ID e; ae_Usage e; ae_Name e].

(* src: internal/igagov/canonical.go:691-708 (ArtifactStateFacts.Normalized) *)
Definition state_Normalized (s : ArtifactStateFacts) : ArtifactStateFacts :=
  {| as_RoleID := as_RoleID s; as_BoundaryARN := as_BoundaryARN s;
     as_BoundaryDocumentHash := as_BoundaryDocumentHash s;
     as_AttachmentSet := sort_slice (less_by entity_keys) (as_AttachmentSet s) |}.

(* src: internal/igagov/canonical.go:711-719 (ArtifactStateFacts.Canonical) *)
Definition state_Canonical (s : ArtifactStateFacts) : result string :=
  if is_empty (as_RoleID s) then Err (ErrOther "artifact_state needs the role_id")
  else if negb (eqb (bool_decide (as_BoundaryARN s = None)) (bool_decide (as_BoundaryDocumentHash s = None)))
  then Err (ErrOther "artifact_state boundary ARN and document hash must be both set or both null")
  else CanonicalizeValue (ArtifactStateFacts_val (state_Normalized s)).

(* src: internal/igagov/canonical.go:723-726 (PolicyRef) *)
Record PolicyRef := {
  pr_Ref : string;
  pr_DocumentHash : string
}.

Definition PolicyRef_val (p : PolicyRef) : goval :=
  GStruct [("ref", GString (pr_Ref p)); ("document_hash", GString (pr_DocumentHash p))].

(** A nil tag map and an empty one are written alike, so a [gmap] stands for
    both. *)
(* src: internal/igagov/canonical.go:731-738 (ApplyPrecondition) *)
Record ApplyPrecondition := {
  ap_ArtifactState : ArtifactStateFacts;
  ap_RoleARN : string;
  ap_RolePath : string;
  ap_ProtectionTags : gmap string string;
  ap_ManagedPolicies : list PolicyRef;
  ap_InlinePolicies : list PolicyRef
}.

(* src: internal/igagov/canonical.go:740-744 (sortedRefs) *)
Definition sortedRefs (l : list PolicyRef) : list PolicyRef :=
  sort_slice (less_by (fun p => [pr_Ref p])) l.

(** [json.Marshal] of a map: members by sorted key. *)
Definition tags_val (m : gmap string string) : goval :=
  GStruct (map (fun k => (k, GString (default "" (m !! k)))) (sortedKeys m)).

Definition ApplyPrecondition_val (p : ApplyPrecondition) : goval :=
  GStruct [("artifact_state", ArtifactStateFacts_val (ap_ArtifactState p)); ("role_arn", GString (ap_RoleARN p));
           ("role_path", GString (ap_RolePath p)); ("protection_tags", tags_val (ap_ProtectionTags p));
           ("managed_policies", GSlice (map PolicyRef_val (ap_ManagedPolicies p)));
           ("inline_policies", GSlice (map PolicyRef_val (ap_InlinePolicies p)))].

(* src: internal/igagov/canonical.go:747-759 (ApplyPrecondition.Canonical) *)
Definition precondition_Canonical (p : ApplyPrecondition) : result string :=
  _ ← state_Canonical (ap_ArtifactState p);
  CanonicalizeValue (ApplyPrecondition_val
    {| ap_ArtifactState := state_Normalized (ap_ArtifactState p); ap_RoleARN := ap_RoleARN p;
       ap_RolePath := ap_RolePath p; ap_ProtectionTags := ap_ProtectionTags p;
       ap_ManagedPolicies := sortedRefs (ap_ManagedPolicies p);
       ap_InlinePolicies := sortedRefs (ap_InlinePolicies p) |}).

(* src: internal/igagov/canonical.go:763-769 (ApplyPreconditionHash) *)
Definition ApplyPreconditionHash (p : ApplyPrecondition) : result string :=
  c ← precondition_Canonical p; Ok (taggedHash DomainPrecondition [c]).

(* src: internal/igagov/canonical.go:775-786 (StatePreconditionHash) *)
Definition StatePreconditionHash (s : ArtifactStateFacts) : result string :=
  _ ← state_Canonical s;
  c ← CanonicalizeValue (GStruct [("artifact_state", ArtifactStateFacts_val (state_Normalized s))]);
  Ok (taggedHash DomainStateOnly [c]).

(** * Impact *)

(* src: internal/igagov/canonical.go:790-793 (ImpactConsumer) *)
Record ImpactConsumer := {
  ic_WorkloadID : string;
  ic_Relationship : string
}.

#[export] Instance ImpactConsumer_eq_dec : EqDecision ImpactConsumer.
Proof. solve_decision. Defined.

(* src: internal/igagov/canonical.go:796-799 (ImpactService) *)
Record ImpactService := {
  is_Service : string;
  is_Basis : string
}.

(* src: internal/igagov/canonical.go:805-817 (Impact) *)
Record Impact := {
  im_Consumers : list ImpactConsumer;
  im_OwnerUserIDs : list string;
  im_Removed : list ImpactService;
  im_Retained : list ImpactService;
  im_StatementRevisions : list string;
  im_Routes : list Route;
  im_Restored : list ImpactService
}.

(** [omitempty] *)
Definition omit_empty (k v : string) : list (string * goval) :=
  if is_empty v then [] else [(k, GString v)].

Definition Route_val (r : Route) : goval :=
  GStruct ([("service", GString (rt_Service r))] ++ omit_empty "form" (rt_Form r) ++
           omit_empty "region" (rt_Region r) ++ omit_empty "resource" (rt_Resource r) ++
           omit_empty "principal" (rt_Principal r) ++ [("effect", GString (rt_Effect r))] ++
           omit_empty "reason" (rt_Reason r)).

Definition ImpactService_val (s : ImpactService) : goval :=
  GStruct [("service", GString (is_Service s)); ("basis", GString (is_Basis s))].

Definition ImpactConsumer_val (c : ImpactConsumer) : goval :=
  GStruct [("workload_id", GString (ic_WorkloadID c)); ("relationship", GString (ic_Relationship c))].

Definition Impact_val (im : Impact) : goval :=
  GStruct ([("consumers", GSlice (map ImpactConsumer_val (im_Consumers im)));
            ("owners", GSlice (map GString (im_OwnerUserIDs im)));
            ("removed", GSlice (map ImpactService_val (im_Removed im)));
            ("retained", GSlice (map ImpactService_val (im_Retained im)));
            ("statement_revisions", GSlice (map GString (im_StatementRevisions im)));
            ("routes", GSlice (map Route_val (im_Routes im)))] ++
           match im_Restored im with
           | [] => []
           | l => [("restored", GSlice (map ImpactService_val l))]
           end).

(* src: internal/igagov/canonical.go:856-865 (uniqueConsumers) *)
Definition uniqueConsumers (l : list ImpactConsumer) : list ImpactConsumer := dedup_adjacent l.

Definition consumer_keys (c : ImpactConsumer) : list string := [ic_WorkloadID c; ic_Relationship c].
Definition service_keys (s : ImpactService) : list string := [is_Service s; is_Basis s].

(* src: internal/igagov/canonical.go:821-854 (Impact.Normalized) *)
Definition impact_Normalized (im : Impact) : Impact :=
  {| im_Consumers := uniqueConsumers (sort_slice (less_by consumer_keys) (im_Consumers im));
     im_OwnerUserIDs := sortedUnique (im_OwnerUserIDs im);
     im_Removed := sort_slice (less_by service_keys) (im_Removed im);
     im_Retained := sort_slice (less_by service_keys) (im_Retained im);
     im_StatementRevisions := sortedUnique (im_StatementRevisions im);
     im_Routes := SortRoutes (im_Routes im);
     im_Restored := sort_slice (less_by service_keys) (im_Restored im) |}.

(* src: internal/igagov/canonical.go:869-871 (ImpactHash) *)
Definition ImpactHash (im : Impact) : result string :=
  HashCanonicalTagged DomainImpact (Impact_val (impact_Normalized im)).

(* src: internal/igagov/canonical.go:877-881 (UnanalysedItem) *)
Record UnanalysedItem := {
  ui_Key : string;
  ui_Form : string;
  ui_Reason : string
}.

Definition UnanalysedItem_val (u : UnanalysedItem) : goval :=
  GStruct ([("key", GString (ui_Key u))] ++ omit_empty "form" (ui_Form u) ++ omit_empty "reason" (ui_Reason u)).

(* src: internal/igagov/canonical.go:885-887 (UnanalysedItemHash) *)
Definition UnanalysedItemHash (it : UnanalysedItem) : result string :=
  HashCanonicalTagged DomainUnanalysed (UnanalysedItem_val it).

(* src: internal/igagov/canonical.go:891-894 (GapRef) *)
Record GapRef := {
  gr_Key : string;
  gr_Hash : string
}.

Definition GapRef_val (g : GapRef) : goval :=
  GStruct [("key", GString (gr_Key g)); ("hash", GString (gr_Hash g))].

(** * Plans *)

(** [Ops] is any JSON-marshalable value; [None] is Go's nil interface. *)
(* src: internal/igagov/canonical.go:900-918 (PlanHashInput) *)
Record PlanHashInput := {
  ph_ControlID : string;
  ph_Kind : string;
  ph_Delivery : string;
  ph_DesiredAttachment : string;
  ph_DesiredBoundaryARN : option string;
  ph_DesiredDocumentHash : option string;
  ph_ReplacedBoundaryARN : option string;
  ph_ArtifactDisposition : string;
  ph_BundleHash : string;
  ph_EvidenceRev : Z;
  ph_ResourcePolicyScanRunID : option string;
  ph_FirstAttachment : bool;
  ph_Unanalysed : list UnanalysedItem;
  ph_PreconditionHash : string;
  ph_Ops : option goval
}.

(* src: internal/igagov/canonical.go:922-926 (MaterialHashInput) *)
Record MaterialHashInput := {
  mh_Plan : PlanHashInput;
  mh_ImpactHash : string;
  mh_Gaps : list GapRef
}.

(* src: internal/igagov/canonical.go:928-930 (canonField) *)
Definition canonField (v : goval) : result string := CanonicalizeValue v.

(* src: internal/igagov/canonical.go:932-936 (sortedUnanalysed) *)
Definition sortedUnanalysed (l : list UnanalysedItem) : list UnanalysedItem :=
  sort_slice (less_by (fun u => [ui_Key u])) l.

(* src: internal/igagov/canonical.go:938-944 (PlanHashInput.validate) *)
Definition plan_validate (p : PlanHashInput) : result unit :=
  if is_empty (ph_ControlID p) || is_empty (ph_Kind p) || is_empty (ph_Delivery p) ||
     is_empty (ph_DesiredAttachment p) || is_empty (ph_ArtifactDisposition p) || is_empty (ph_PreconditionHash p)
  then Err (ErrOther "plan hash input is missing a required field") else Ok tt.

Definition plan_head (p : PlanHashInput) : list goval :=
  [GString (ph_ControlID p); GString (ph_Kind p); GString (ph_Delivery p); GString (ph_DesiredAttachment p);
   opt_val (ph_DesiredBoundaryARN p); opt_val (ph_DesiredDocumentHash p); opt_val (ph_ReplacedBoundaryARN p);
   GString (ph_ArtifactDisposition p)].

Definition plan_evidence (p : PlanHashInput) : list goval :=
  [GString (ph_BundleHash p); GInt (ph_EvidenceRev p); opt_val (ph_ResourcePolicyScanRunID p)].

Definition plan_tail (p : PlanHashInput) : list goval :=
  [GBool (ph_FirstAttachment p); GSlice (map UnanalysedItem_val (sortedUnanalysed (ph_Unanalysed p)));
   GString (ph_PreconditionHash p); default (GSlice []) (ph_Ops p)].

(* src: internal/igagov/canonical.go:948-974 (PlanHashInput.fields) *)
Definition plan_fields (p : PlanHashInput) (withEvidence : bool) : result (list string) :=
  _ ← plan_validate p;
  ev ← (if withEvidence then
          if is_empty (ph_BundleHash p) || (ph_EvidenceRev p <=? 0)
          then Err (ErrOther "plan hash needs the bundle hash and evidence revision")
          else Ok (plan_evidence p)
        else Ok []);
  mapM canonField (plan_head p ++ ev ++ plan_tail p).

(* src: internal/igagov/canonical.go:983-989 (PlanHash) *)
Definition PlanHash (p : PlanHashInput) : result string :=
  f ← plan_fields p true; Ok (taggedHash DomainPlan f).

(* src: internal/igagov/canonical.go:995-1015 (MaterialHash) *)
Definition MaterialHash (m : MaterialHashInput) : result string :=
  f ← plan_fields (mh_Plan m) false;
  if is_empty (mh_ImpactHash m) then Err (ErrOther "material hash needs the impact hash")
  else
    ih ← canonField (GString (mh_ImpactHash m));
    gc ← canonField (GSlice (map GapRef_val (sort_slice (less_by (fun g => [gr_Key g])) (mh_Gaps m))));
    Ok (taggedHash DomainMaterial (f ++ [ih; gc])).

(** * The join is injective *)

Lemma lacks_cut c a b x y :
  lacks c a = true -> lacks c b = true -> a +:+ String c x = b +:+ String c y -> a = b /\ x = y.
Proof.
  revert b. induction a as [|u a IH]; intros [|v b] Ha Hb; rewrite ?str_app_cons; cbn in Ha, Hb; bool_prop.
  - by intros [= ->].
  - intros [= -> _]. done.
  - intros [= -> _]. done.
  - intros [= -> E]. destruct (IH b) as [-> ->]; done.
Qed.

Lemma lacks_no_cut c a x b : lacks c b = true -> a +:+ String c x = b -> False.
Proof. intros Hb <-. rewrite lacks_app in Hb. cbn in Hb. rewrite bool_decide_eq_true_2, andb_false_r in Hb by done. done. Qed.

Lemma tagged_inj d d' ps ps' :
  Forall (fun s => lacks unitSep s = true) (d :: ps) -> Forall (fun s => lacks unitSep s = true) (d' :: ps') ->
  tagged d ps = tagged d' ps' -> d = d' /\ ps = ps'.
Proof.
  revert d d' ps'. induction ps as [|p ps IH]; intros d d' [|p' ps'] [Hd Hps]%Forall_cons [Hd' Hps']%Forall_cons;
    cbn [tagged].
  - by intros ->.
  - intros E. exfalso. by apply (lacks_no_cut _ d' (tagged p' ps') d Hd).
  - intros E. exfalso. by apply (lacks_no_cut _ d (tagged p ps) d' Hd').
  - intros [-> E]%lacks_cut; [|done..]. apply IH in E as [-> ->]; done.
Qed.

(** ** Canonical text has no unit separator *)

Lemma escape_byte_lacks c : lacks unitSep (escape_byte c) = true.
Proof. destruct c as [[][][][][][][][]]; vm_compute; reflexivity. Qed.

Lemma escape_string_lacks s : lacks unitSep (escape_string s) = true.
Proof. induction s as [|c s IH]; cbn; [done|]. by rewrite lacks_app, escape_byte_lacks, IH. Qed.

Lemma all_digits_lacks s : all_digits s = true -> lacks unitSep s = true.
Proof.
  induction s as [|c s IH]; cbn; [done|]. intros [Hc Hs]%andb_prop. rewrite IH by done.
  rewrite bool_decide_eq_false_2; [done|]. by intros ->.
Qed.

Lemma Format_lacks f : f_wf f -> lacks unitSep (FormatNumberES6 f) = true.
Proof.
  intros (neg & x & -> & (Hip & Hfp & _ & Hex) & _)%Format_parts.
  unfold np_text. rewrite !lacks_app, (all_digits_lacks (np_ip x)) by done.
  assert (lacks unitSep (if neg then "-" else "") = true) as -> by (by destruct neg).
  assert (lacks unitSep (if is_empty (np_fp x) then "" else "." +:+ np_fp x) = true) as ->.
  { destruct (is_empty (np_fp x)); [done|]. rewrite lacks_app. by rewrite (all_digits_lacks (np_fp x)). }
  destruct (np_ex x) as [[[] ds]|]; cbn [np_exp_text]; [..|done]; destruct Hex as (Hds & _);
    rewrite !lacks_app; by rewrite (all_digits_lacks ds).
Qed.

Lemma Join_lacks l : Forall (fun s => lacks unitSep s = true) l -> lacks unitSep (Join l ",") = true.
Proof.
  induction 1 as [|s l Hs Hl IH]; [done|]. destruct l as [|s' l]; [done|].
  change (lacks unitSep (s +:+ "," +:+ Join (s' :: l) ",") = true). by rewrite !lacks_app, Hs, IH.
Qed.

Lemma writeCanonical_lacks v : wf_json v -> lacks unitSep (writeCanonical v) = true.
Proof.
  induction v as [|b|f|s|l IH|ms IH] using json_ind'; intros Hwf; inversion Hwf; subst.
  - done.
  - by destruct b.
  - by apply Format_lacks.
  - cbn. unfold writeCanonicalString. cbn. by rewrite lacks_app, escape_string_lacks.
  - cbn [writeCanonical]. rewrite !lacks_app, Join_lacks; [done|]. apply Forall_map.
    rewrite Forall_forall in *. auto.
  - rewrite object_text, !lacks_app, Join_lacks; [done|]. rewrite map_map. apply Forall_map, Forall_forall.
    intros m Hm. rewrite elem_of_sort_slice in Hm. rewrite Forall_forall in *. unfold member_text. cbn [fst snd lacks].
    rewrite lacks_app, escape_string_lacks. cbn. rewrite (IH m) by auto. reflexivity.
Qed.

Lemma CanonicalizeValue_lacks g t :
  CanonicalizeValue g = Ok t -> lacks unitSep t = true.
Proof.
  unfold CanonicalizeValue, Canonicalize. intros (v & Hv & [= <-])%bind_Ok.
  apply writeCanonical_lacks. by apply parseJSON_wf in Hv as [? _].
Qed.

(** * Members by name *)

Lemma assoc_elem {A} k (ms : list (string * A)) v : NoDup ms.*1 -> assoc k ms = Some v <-> (k, v) ∈ ms.
Proof.
  induction ms as [|[k' v'] ms IH]; cbn; intros Hnd; [set_solver|]. apply NoDup_cons in Hnd as [Hk Hnd].
  destruct (String.eqb_spec k k') as [->|Hne].
  - split; [intros [= ->]; left|]. intros [[= ->]|H]%elem_of_cons; [done|].
    destruct Hk. by apply (list_elem_of_fmap_2 fst) in H.
  - rewrite IH by done. rewrite elem_of_cons. naive_solver.
Qed.

Definition opt_jeq (x y : option json) : Prop :=
  match x, y with Some v, Some w => jeq v w | None, None => True | _, _ => False end.

Lemma jeq_assoc ms ms' k :
  jeq (JObject ms) (JObject ms') -> NoDup ms.*1 -> NoDup ms'.*1 -> opt_jeq (assoc k ms) (assoc k ms').
Proof.
  inversion 1 as [| | | | |? ? ms'' Hp Hf]; subst. intros Hnd Hnd'.
  assert (NoDup ms''.*1) as Hnd'' by (by rewrite <- Hp).
  assert (assoc k ms' = assoc k ms'') as ->.
  { apply option_eq. intros v. rewrite !assoc_elem by done. by rewrite Hp. }
  clear -Hf. induction Hf as [|[k1 v] [k2 w] ms ms'' [Hk Hj] _ IH]; [done|]. cbn in *. subst k2.
  by destruct (k =? k1)%string.
Qed.

Lemma jeq_strings s s' : valid_utf8 s -> valid_utf8 s' -> jeq (value_of (GString s)) (value_of (GString s')) -> s = s'.
Proof. intros Hs Hs' H. apply jeq_string in H. by rewrite !sanitize_id in H by done. Qed.

Definition opt_valid (o : option string) : Prop := match o with Some s => valid_utf8 s | None => True end.

Lemma jeq_opt o o' : opt_valid o -> opt_valid o' -> jeq (value_of (opt_val o)) (value_of (opt_val o')) -> o = o'.
Proof.
  destruct o as [s|], o' as [s'|]; cbn [opt_val]; intros Hs Hs' H; [|by inversion H..|done].
  f_equal. by apply jeq_strings.
Qed.

Lemma jeq_int z z' :
  - 2 ^ 53 < z < 2 ^ 53 -> - 2 ^ 53 < z' < 2 ^ 53 -> jeq (value_of (GInt z)) (value_of (GInt z')) -> z = z'.
Proof. intros Hz Hz' H. inversion H; subst. apply int_float_inj; [done..|]. by apply f_norm_eq. Qed.

Lemma jeq_slice {A} (f : A -> goval) (P : A -> Prop) l l' :
  (forall x y, P x -> P y -> jeq (value_of (f x)) (value_of (f y)) -> x = y) -> Forall P l -> Forall P l' ->
  jeq (value_of (GSlice (map f l))) (value_of (GSlice (map f l'))) -> l = l'.
Proof.
  intros Hf Hl Hl' H. inversion H as [| | | |? ? H2|]; subst. clear H. rewrite !map_map in H2.
  revert l' Hl' H2. induction Hl as [|x l Hx _ IH]; intros [|y l'] Hl' H2; inversion H2; subst; [done|].
  apply Forall_cons in Hl' as [? ?]. f_equal; auto.
Qed.

Definition unanalysed_valid (u : UnanalysedItem) : Prop :=
  valid_utf8 (ui_Key u) /\ valid_utf8 (ui_Form u) /\ valid_utf8 (ui_Reason u).

Lemma UnanalysedItem_inj u u' :
  unanalysed_valid u -> unanalysed_valid u' ->
  jeq (value_of (UnanalysedItem_val u)) (value_of (UnanalysedItem_val u')) -> u = u'.
Proof.
  assert (forall u, NoDup (map (fun m : string * goval => (sanitize m.1, value_of m.2))
    ([("key", GString (ui_Key u))] ++ omit_empty "form" (ui_Form u) ++ omit_empty "reason" (ui_Reason u))).*1) as Hnd.
  { intros v. unfold omit_empty. destruct (is_empty (ui_Form v)), (is_empty (ui_Reason v));
      apply (bool_decide_unpack _); vm_compute; done. }
  intros (Hk & Hf & Hr) (Hk' & Hf' & Hr') H. unfold UnanalysedItem_val in H. cbn [value_of] in H.
  pose proof (jeq_assoc _ _ "key" H (Hnd u) (Hnd u')) as H1.
  pose proof (jeq_assoc _ _ "form" H (Hnd u) (Hnd u')) as H2.
  pose proof (jeq_assoc _ _ "reason" H (Hnd u) (Hnd u')) as H3. clear H Hnd.
  destruct u as [k f r], u' as [k' f' r']. unfold omit_empty in *. cbn [ui_Key ui_Form ui_Reason] in *.
  change (sanitize "key") with "key" in *. 
  assert (k = k') as ->.
  { destruct (is_empty f), (is_empty r), (is_empty f'), (is_empty r'); cbn in H1;
      by apply jeq_strings. }
  assert (f = f') as ->.
  { destruct (is_empty f) eqn:E, (is_empty f') eqn:E', (is_empty r), (is_empty r'); cbn in H2; try done;
      try (by apply is_empty_true in E, E'; subst); by apply jeq_strings. }
  assert (r = r') as ->; [|done].
  destruct (is_empty f'), (is_empty r) eqn:E, (is_empty r') eqn:E'; cbn in H3; try done;
      try (by apply is_empty_true in E, E'; subst); by apply jeq_strings.
Qed.

(** * What the hashes bind *)

Lemma Contains_lacks s : Contains s (String unitSep "") = false -> lacks unitSep s = true.
Proof.
  induction s as [|c s IH]; cbn; [done|]. intros H. apply orb_false_elim in H as [Hc Hs].
  rewrite IH by done. apply andb_false_iff in Hc as [Hc|Hc].
  - rewrite bool_decide_eq_false_2; [done|]. apply bool_decide_eq_false in Hc. congruence.
  - by destruct s.
Qed.

(** Fingerprints identify findings: two findings that get fingerprints hash the
    same bytes only when kind, role and detail key are all the same. *)
Theorem fingerprint_binds k r d k' r' d' h h' :
  Fingerprint k r d = Ok h -> Fingerprint k' r' d' = Ok h' ->
  tagged k [r; d] = tagged k' [r'; d'] -> (k, r, d) = (k', r', d').
Proof.
  unfold Fingerprint. cbn [existsb].
  destruct (Contains k _ || (Contains r _ || (Contains d _ || false))) eqn:E; [done|].
  destruct (Contains k' _ || (Contains r' _ || (Contains d' _ || false))) eqn:E'; [done|]. intros _ _ H.
  repeat match goal with H : _ || _ = false |- _ => apply orb_false_elim in H as [? ?] end.
  apply tagged_inj in H as [-> [= -> ->]]; [done|..]; repeat constructor; by apply Contains_lacks.
Qed.

Lemma fingerprint_binds_witness :
  (exists h, Fingerprint "unused_service" "AROA1" "s3" = Ok h) /\
  (("unused_service", "AROA1", "s3") = ("unused_service", "AROA1", "s3")).
Proof.
  split; [eexists; vm_compute; reflexivity|].
  eapply (fingerprint_binds "unused_service" "AROA1" "s3" "unused_service" "AROA1" "s3");
    [vm_compute; reflexivity..|reflexivity].
Defined.

(** Plan inputs the hash functions are given: valid UTF-8, a revision a double
    holds exactly, operations within the nesting limit. *)
Record plan_ok (p : PlanHashInput) : Prop := {
  po_strings : Forall valid_utf8 [ph_ControlID p; ph_Kind p; ph_Delivery p; ph_DesiredAttachment p;
                 ph_ArtifactDisposition p; ph_BundleHash p; ph_PreconditionHash p];
  po_options : Forall opt_valid [ph_DesiredBoundaryARN p; ph_DesiredDocumentHash p; ph_ReplacedBoundaryARN p;
                 ph_ResourcePolicyScanRunID p];
  po_rev : - 2 ^ 53 < ph_EvidenceRev p < 2 ^ 53;
  po_unanalysed : Forall unanalysed_valid (ph_Unanalysed p);
  po_ops : gok (default (GSlice []) (ph_Ops p)) /\ (gheight (default (GSlice []) (ph_Ops p)) <= maxJSONDepth)%nat
}.

Lemma UnanalysedItem_gok u : gok (UnanalysedItem_val u) /\ (gheight (UnanalysedItem_val u) <= 1)%nat.
Proof.
  unfold UnanalysedItem_val, omit_empty. split.
  - constructor.
    + destruct (is_empty (ui_Form u)), (is_empty (ui_Reason u)); apply (bool_decide_unpack _); vm_compute; done.
    + destruct (is_empty (ui_Form u)), (is_empty (ui_Reason u)); repeat constructor.
  - destruct (is_empty (ui_Form u)), (is_empty (ui_Reason u)); cbn; lia.
Qed.

Lemma slice_gok {A} (f : A -> goval) l n :
  (forall x, x ∈ l -> gok (f x) /\ (gheight (f x) <= n)%nat) ->
  gok (GSlice (map f l)) /\ (gheight (GSlice (map f l)) <= S n)%nat.
Proof.
  intros H. split.
  - constructor. apply Forall_map, Forall_forall. intros x Hx. by apply H.
  - induction l as [|x l IH]; cbn [map]; [cbn; lia|]. rewrite gheight_slice.
    destruct (H x) as [_ ?]; [left|]. assert (gheight (GSlice (map f l)) <= S n)%nat; [|lia].
    apply IH. intros y Hy. apply H. by right.
Qed.

Lemma opt_gok o : gok (opt_val o) /\ (gheight (opt_val o) <= maxJSONDepth)%nat.
Proof. destruct o; (split; [constructor|vm_compute; lia]). Qed.

Lemma mapM_canon_jeq vs ws ts :
  Forall (fun g => gok g /\ (gheight g <= maxJSONDepth)%nat) vs ->
  Forall (fun g => gok g /\ (gheight g <= maxJSONDepth)%nat) ws ->
  mapM canonField vs = Ok ts -> mapM canonField ws = Ok ts ->
  Forall2 (fun g g' => jeq (value_of g) (value_of g')) vs ws.
Proof.
  rewrite !mapM_Ok. intros Hv Hw H. revert ws Hw. induction H as [|g t vs ts Hg _ IH]; intros ws Hw H'.
  - inversion H'; subst. constructor.
  - inversion H' as [|g' ? ws' ? Hg' Hws]; subst. apply Forall_cons in Hv as [[? ?] ?], Hw as [[? ?] ?].
    constructor; [by eapply CanonicalizeValue_eq|]. by apply IH.
Qed.

(** The plan fields as the hash covers them: everything, the unanalysed items
    as a set sorted by key, the operations as a JSON value. *)
Definition plan_agree (p q : PlanHashInput) : Prop :=
  ph_ControlID p = ph_ControlID q /\ ph_Kind p = ph_Kind q /\ ph_Delivery p = ph_Delivery q /\
  ph_DesiredAttachment p = ph_DesiredAttachment q /\ ph_DesiredBoundaryARN p = ph_DesiredBoundaryARN q /\
  ph_DesiredDocumentHash p = ph_DesiredDocumentHash q /\ ph_ReplacedBoundaryARN p = ph_ReplacedBoundaryARN q /\
  ph_ArtifactDisposition p = ph_ArtifactDisposition q /\ ph_BundleHash p = ph_BundleHash q /\
  ph_EvidenceRev p = ph_EvidenceRev q /\ ph_ResourcePolicyScanRunID p = ph_ResourcePolicyScanRunID q /\
  ph_FirstAttachment p = ph_FirstAttachment q /\
  sortedUnanalysed (ph_Unanalysed p) = sortedUnanalysed (ph_Unanalysed q) /\
  ph_PreconditionHash p = ph_PreconditionHash q /\
  jeq (value_of (default (GSlice []) (ph_Ops p))) (value_of (default (GSlice []) (ph_Ops q))).

Lemma plan_values_ok p :
  plan_ok p -> Forall (fun g => gok g /\ (gheight g <= maxJSONDepth)%nat) (plan_head p ++ plan_evidence p ++ plan_tail p).
Proof.
  intros []. assert (forall s, gok (GString s) /\ (gheight (GString s) <= maxJSONDepth)%nat) as Hs.
  { intros s. split; [constructor|vm_compute; lia]. }
  unfold plan_head, plan_evidence, plan_tail. cbn [app].
  repeat (apply Forall_cons; split; [first [apply Hs | apply opt_gok | split; [constructor; lia|vm_compute; lia]
    | split; [constructor|vm_compute; lia] | done | idtac]|]); [|constructor].
  destruct (slice_gok UnanalysedItem_val (sortedUnanalysed (ph_Unanalysed p)) 1) as [? ?].
  { intros u _. apply UnanalysedItem_gok. }
  split; [done|]. etrans; [done|]. vm_compute. lia.
Qed.

Lemma plan_fields_lacks p b f : plan_fields p b = Ok f -> Forall (fun s => lacks unitSep s = true) f.
Proof.
  unfold plan_fields. intros (_ & _ & (ev & _ & Hm%mapM_Ok)%bind_Ok)%bind_Ok.
  induction Hm as [|g t vs ts Hg _ IH]; [constructor|]. constructor; [by eapply CanonicalizeValue_lacks|done].
Qed.

(** C32 A plan hash covers the whole plan, for plans within [plan_ok]: the
    strings, the optional strings and the strings of the unanalysed items are
    valid UTF-8, the evidence revision is of magnitude below 2^53, and the
    operations are a value with integers of 64 bits and distinct field names
    ([gok]), nested no deeper than [maxJSONDepth]. If two such plans both hash, and the bytes they hash
    are the same, every field agrees, including the evidence identifiers, null
    against empty, the unanalysed items as sorted by key and the operations in
    order, as JSON values whose numbers are doubles. Outside these conditions two plans may hash the same
    bytes: the encoder replaces bytes that are not UTF-8, and the canonical
    form rounds larger numbers. *)
Theorem plan_hash_binds p q fp fq :
  plan_ok p -> plan_ok q -> plan_fields p true = Ok fp -> plan_fields q true = Ok fq ->
  tagged DomainPlan fp = tagged DomainPlan fq -> plan_agree p q.
Proof.
  intros Hp Hq Hfp Hfq E.
  apply tagged_inj in E as [_ <-];
    [|constructor; [done|by eapply plan_fields_lacks]..].
  assert (forall r f, plan_fields r true = Ok f ->
    mapM canonField (plan_head r ++ plan_evidence r ++ plan_tail r) = Ok f) as Hm.
  { intros r f. unfold plan_fields. intros (_ & _ & (ev & Hev & H)%bind_Ok)%bind_Ok.
    destruct (_ || _); [done|]. by injection Hev as <-. }
  pose proof (mapM_canon_jeq _ _ _ (plan_values_ok p Hp) (plan_values_ok q Hq) (Hm _ _ Hfp) (Hm _ _ Hfq)) as HF.
  destruct Hp as [Hs Ho Hr Hu _], Hq as [Hs' Ho' Hr' Hu' _]. unfold plan_head, plan_evidence, plan_tail in HF.
  cbn [app] in HF. rewrite !Forall_cons in Hs, Hs'. rewrite !Forall_cons in Ho, Ho'. destruct_and!.
  repeat match goal with H : Forall2 _ (_ :: _) (_ :: _) |- _ => apply Forall2_cons in H as [? H] end.
  unfold plan_agree. split_and!; first [by apply jeq_strings | by apply jeq_opt | by apply jeq_int | by apply jeq_bool | done |idtac].
  apply (jeq_slice UnanalysedItem_val unanalysed_valid); [apply UnanalysedItem_inj|..|done];
    unfold sortedUnanalysed; by rewrite sort_slice_perm.
Qed.

(** Two plans that list the same unanalysed items in two orders and carry the
    same operation: they hash the same bytes. *)
Definition w_plan (items : list UnanalysedItem) : PlanHashInput :=
  Build_PlanHashInput "c" "apply" "direct" "present" (Some "arn") None None "keep" "b" 1 (Some "s") true items "h"
    (Some (GSlice [GStruct [("n", GInt 1); ("kind", GString "create")]])).

Lemma plan_hash_binds_witness :
  let k1 := Build_UnanalysedItem "k1" "f" "" in
  let k2 := Build_UnanalysedItem "k2" "" "r" in
  let p := w_plan [k1; k2] in let q := w_plan [k2; k1] in
  p <> q /\ plan_ok p /\ plan_ok q /\ plan_agree p q /\
  exists f, plan_fields p true = Ok f /\ plan_fields q true = Ok f.
Proof.
  assert (forall c s, byte_val c < 128 -> valid_utf8 s -> valid_utf8 (String c s)) as Hc.
  { intros c s Hc Hs. change (String c s) with (String c "" +:+ s). rewrite <- (EncodeRune_ascii c Hc).
    constructor; [|done]. pose proof (byte_val_bounds c). left. lia. }
  intros k1 k2 p q.
  assert (forall items, Forall unanalysed_valid items -> plan_ok (w_plan items)) as Hok.
  { intros items Hi. split; cbn; [|..|lia|done|].
    - repeat constructor; repeat (apply Hc; [done|]); constructor.
    - repeat constructor; repeat (apply Hc; [done|]); constructor.
    - split; [|vm_compute; lia]. constructor. apply Forall_singleton. constructor;
        [apply (bool_decide_unpack _); vm_compute; done|repeat constructor; lia]. }
  assert (plan_ok p) as Hp by (apply Hok; repeat constructor; repeat (apply Hc; [done|]); constructor).
  assert (plan_ok q) as Hq by (apply Hok; repeat constructor; repeat (apply Hc; [done|]); constructor).
  split_and!; [done|exact Hp|exact Hq| |].
  - eapply (plan_hash_binds p q); [exact Hp|exact Hq|vm_compute; reflexivity|vm_compute; reflexivity|reflexivity].
  - eexists. split; vm_compute; reflexivity.
Defined.

(** A rescan that changes nothing reproduces the material hash: it does not
    depend on the bundle hash, the evidence revision or the scan run, nor on the
    order of gaps with distinct keys. *)
Theorem material_hash_rescan p q ih gaps gaps' :
  plan_head p = plan_head q -> plan_tail p = plan_tail q ->
  NoDup (gr_Key <$> gaps) -> gaps ≡ₚ gaps' ->
  MaterialHash {| mh_Plan := p; mh_ImpactHash := ih; mh_Gaps := gaps |} =
  MaterialHash {| mh_Plan := q; mh_ImpactHash := ih; mh_Gaps := gaps' |}.
Proof.
  intros Hh Ht Hnd Hg. unfold MaterialHash. cbn [mh_Plan mh_ImpactHash mh_Gaps].
  assert (plan_fields p false = plan_fields q false) as ->.
  { unfold plan_fields. rewrite Hh, Ht. assert (plan_validate p = plan_validate q) as ->; [|done].
    unfold plan_validate. injection Hh as H1 H2 H3 H4 _ _ _ H5. injection Ht as _ _ H6 _.
    by rewrite H1, H2, H3, H4, H5, H6. }
  assert (sort_slice (less_by (fun g => [gr_Key g])) gaps = sort_slice (less_by (fun g => [gr_Key g])) gaps') as ->; [|done].
  apply (sort_slice_on_unique (fun g => [gr_Key g]) lex_lt); [|done].
  apply (NoDup_fmap_2_strong (fun k => [k])) in Hnd; [|by intros ? ? _ _ [= ->]]. by rewrite <- list_fmap_compose in Hnd.
Qed.

Lemma material_hash_rescan_witness :
  let p b r := Build_PlanHashInput "c" "apply" "direct" "present" None None None "keep" b r None true [] "h" None in
  let g k := Build_GapRef k "x" in
  MaterialHash {| mh_Plan := p "b1" 1; mh_ImpactHash := "i"; mh_Gaps := [g "a"; g "b"] |} =
  MaterialHash {| mh_Plan := p "b2" 7; mh_ImpactHash := "i"; mh_Gaps := [g "b"; g "a"] |}.
Proof.
  apply material_hash_rescan; [reflexivity..| |apply Permutation_swap].
  apply (bool_decide_unpack _). vm_compute. done.
Defined.

#[export] Instance consumer_less_total : StrictTotal (less_by consumer_keys).
Proof. apply less_by_total. intros [] []. cbn. by intros [= -> ->]. Qed.
#[export] Instance service_less_total : StrictTotal (less_by service_keys).
Proof. apply less_by_total. intros [] []. cbn. by intros [= -> ->]. Qed.
#[export] Instance entity_less_total : StrictTotal (less_by entity_keys).
Proof. apply less_by_total. intros [] []. cbn. by intros [= -> -> -> ->]. Qed.

(** Two reads of the same impact: consumers, owners and revisions as sets,
    services and routes in any order. *)
Definition same_impact (a b : Impact) : Prop :=
  (forall x, x ∈ im_Consumers a <-> x ∈ im_Consumers b) /\
  (forall x, x ∈ im_OwnerUserIDs a <-> x ∈ im_OwnerUserIDs b) /\
  im_Removed a ≡ₚ im_Removed b /\ im_Retained a ≡ₚ im_Retained b /\
  (forall x, x ∈ im_StatementRevisions a <-> x ∈ im_StatementRevisions b) /\
  im_Routes a ≡ₚ im_Routes b /\ im_Restored a ≡ₚ im_Restored b.

(** The impact hash and the state precondition do not depend on read order:
    the same impact gives the same hash, and the same attachment set gives the
    same artifact state. *)
Theorem impact_hash_order_independent a b s ents :
  same_impact a b -> as_AttachmentSet s ≡ₚ ents ->
  ImpactHash a = ImpactHash b /\
  StatePreconditionHash s = StatePreconditionHash
    {| as_RoleID := as_RoleID s; as_BoundaryARN := as_BoundaryARN s;
       as_BoundaryDocumentHash := as_BoundaryDocumentHash s; as_AttachmentSet := ents |}.
Proof.
  intros (Hc & Ho & Hrm & Hrt & Hsr & Hro & Hre) He. split.
  - unfold ImpactHash, impact_Normalized, uniqueConsumers, SortRoutes.
    rewrite (dedup_sort_ext (less_by consumer_keys) _ _ Hc), (sortedUnique_ext _ _ Ho), (sortedUnique_ext _ _ Hsr),
      (sort_slice_unique (less_by service_keys) _ _ Hrm), (sort_slice_unique (less_by service_keys) _ _ Hrt),
      (sort_slice_unique (less_by service_keys) _ _ Hre), (sort_slice_unique (less_by route_keys) _ _ Hro). reflexivity.
  - unfold StatePreconditionHash, state_Canonical, state_Normalized.
    cbn [as_RoleID as_BoundaryARN as_BoundaryDocumentHash as_AttachmentSet].
    rewrite (sort_slice_unique (less_by entity_keys) _ _ He). reflexivity.
Qed.

Lemma impact_hash_order_independent_witness :
  let a := Build_Impact [Build_ImpactConsumer "w" "r"; Build_ImpactConsumer "w" "r"] ["u"; "v"] [] [] [] [] [] in
  let b := Build_Impact [Build_ImpactConsumer "w" "r"] ["v"; "u"; "u"] [] [] [] [] [] in
  ImpactHash a = ImpactHash b.
Proof.
  intros a b.
  refine (proj1 (impact_hash_order_independent a b (Build_ArtifactStateFacts "r" None None []) [] _ (Permutation_refl _))).
  unfold same_impact, a, b. cbn. split_and!; set_solver.
Defined.
