(* ===== verification/PolicyCanon.v ===== *)
(** Decoding a policy document is a function of its canonical text: the member
    loops of canonical.go refine lookups by member name, which do not depend on
    member order, so a document and its canonical form (what is stored and
    hashed) have the same statements. *)

From stdpp Require Import base list strings gmap sorting.
From Stdlib Require Import Ascii.
From S2P Require Import Prelude Slices Glob Float64 Utf8 Json JsonCanon Marshal Sha256 PolicyDoc Catalog Routes Hashes.

Lemma filter_perm {A} (f : A -> bool) l l' : l ≡ₚ l' -> List.filter f l ≡ₚ List.filter f l'.
Proof.
  induction 1 as [|x l l' _ IH|x y l|]; cbn; [done|by destruct (f x); rewrite IH| |by etrans].
  destruct (f x), (f y); try done. apply Permutation_swap.
Qed.

(** * Lookups by name *)

Lemma assoc_None {A} k (l : list (string * A)) : assoc k l = None <-> k ∉ l.*1.
Proof.
  induction l as [|[k' v] l IH]; cbn; [set_solver|]. destruct (String.eqb_spec k k') as [->|Hne].
  - split; [done|]. intros H. destruct H. left.
  - rewrite IH, not_elem_of_cons. naive_solver.
Qed.

Lemma assoc_snoc {A} K k (v : A) l :
  k ∉ l.*1 -> assoc K (l ++ [(k, v)]) = if (K =? k)%string then Some v else assoc K l.
Proof.
  induction l as [|[k' v'] l IH]; cbn; [done|]. rewrite not_elem_of_cons. intros [Hk Hl].
  destruct (String.eqb_spec K k') as [->|]; [|by apply IH].
  destruct (String.eqb_spec k' k) as [->|]; [congruence|done].
Qed.

Lemma assoc_perm {A} K (l l' : list (string * A)) : NoDup l.*1 -> l ≡ₚ l' -> assoc K l = assoc K l'.
Proof.
  intros Hnd Hp. apply option_eq. intros v. rewrite !assoc_elem; [by rewrite Hp| |done]. by rewrite <- Hp.
Qed.

Lemma assoc_map_snd {A B} (g : A -> B) K l : assoc K (map (map_snd g) l) = g <$> assoc K l.
Proof. induction l as [|[k v] l IH]; cbn; [done|]. by destruct (K =? k)%string. Qed.

(** The members of the normal form, by name. *)
Lemma assoc_norm K ms ms' :
  NoDup ms.*1 -> norm (JObject ms) = JObject ms' -> assoc K ms' = norm <$> assoc K ms.
Proof.
  intros Hnd [= <-]. rewrite <- assoc_map_snd. symmetry. apply assoc_perm; [by rewrite map_snd_fst|].
  by rewrite sort_slice_perm.
Qed.

(** * Decoders do not see the normal form *)

Lemma mapM_ext_norm {A} (f : json -> result A) l :
  (forall v, f (norm v) = f v) -> mapM f (map norm l) = mapM f l.
Proof. intros H. induction l as [|v l IH]; cbn; [done|]. by rewrite H, IH. Qed.

Lemma stringOrArray_norm v name : stringOrArray (norm v) name = stringOrArray v name.
Proof.
  destruct v as [| | | |l|]; cbn; try done. induction l as [|v l IH]; cbn; [done|].
  rewrite IH. by destruct v.
Qed.

Lemma conditionValueText_norm v : conditionValueText (norm v) = conditionValueText v.
Proof. destruct v; cbn; try done. by rewrite Format_norm. Qed.

Lemma condition_values_norm v : condition_values (norm v) = condition_values v.
Proof.
  destruct v as [| |f| |l|]; cbn; try done; [by rewrite Format_norm|].
  apply mapM_ext_norm, conditionValueText_norm.
Qed.

Lemma mapM_cons {A B} (f : A -> result B) x l :
  mapM f (x :: l) = (y ← f x; ys ← mapM f l; Ok (y :: ys)).
Proof. done. Qed.

(** Success of a [mapM] does not depend on the order. *)
Lemma mapM_perm {A B} (f : A -> result B) l l' k :
  l ≡ₚ l' -> mapM f l = Ok k -> exists k', mapM f l' = Ok k' /\ k ≡ₚ k'.
Proof.
  intros Hp Hm. apply mapM_Ok in Hm. revert k Hm. induction Hp as [|x l l' _ IH|x y l|l l' l'' _ IH1 _ IH2]; intros k Hm.
  - inversion Hm; subst. exists []. done.
  - inversion Hm as [|? b ? k1 Hb Hk]; subst. destruct (IH _ Hk) as (k2 & Hk2 & Hp2). exists (b :: k2).
    split; [|by constructor]. apply mapM_Ok. constructor; [done|]. by apply mapM_Ok.
  - inversion Hm as [|? b ? k1 Hb Hk]; subst. inversion Hk as [|? c ? k2 Hc Hk2]; subst.
    exists (c :: b :: k2). split; [|apply Permutation_swap]. apply mapM_Ok. by repeat constructor.
  - destruct (IH1 _ Hm) as (k1 & Hk1 & Hp1). apply mapM_Ok in Hk1. destruct (IH2 _ Hk1) as (k2 & Hk2 & Hp2).
    exists k2. split; [done|]. by etrans.
Qed.

Lemma mapM_map {A B C} (f : B -> result C) (g : A -> B) l : mapM f (map g l) = mapM (fun x => f (g x)) l.
Proof. induction l as [|x l IH]; cbn; [done|]. by rewrite IH. Qed.

Lemma mapM_ext_ok {A B} (f g : A -> result B) l k :
  (forall x b, x ∈ l -> f x = Ok b -> g x = Ok b) -> mapM f l = Ok k -> mapM g l = Ok k.
Proof.
  intros H Hm. apply mapM_Ok. apply mapM_Ok in Hm.
  induction Hm as [|x b l k Hx _ IH]; [constructor|]. constructor; [apply H; [left|done]|].
  apply IH. intros y c Hy. apply H. by right.
Qed.

(** ** Principals *)

Definition principal_member (name : string) (m : string * json) : result (string * list string) :=
  vals ← stringOrArray m.2 (name +:+ "." +:+ m.1); Ok (m.1, vals).

Lemma decodePrincipal_object name ms p :
  decodePrincipal (JObject ms) name = Ok p <->
  exists kvs, mapM (principal_member name) ms = Ok kvs /\
    p = {| Wildcard := existsb (fun kv : string * list string => (kv.1 =? "AWS")%string && bool_decide ("*" ∈ kv.2)) kvs;
           Values := foldl (fun m (kv : string * list string) => <[kv.1 := kv.2]> m) ∅ kvs |}.
Proof.
  cbn [decodePrincipal].
  set (step := fun (acc : result Principal) (m : string * json) => _).
  assert (forall ms e, foldl step (Err e) ms = Err e) as Herr.
  { intros ms'. induction ms' as [|m ms' IH]; intros e; cbn; [done|]. apply IH. }
  assert (forall ms p0 p, foldl step (Ok p0) ms = Ok p <-> exists kvs, mapM (principal_member name) ms = Ok kvs /\
    p = {| Wildcard := Wildcard p0 || existsb (fun kv : string * list string => (kv.1 =? "AWS")%string && bool_decide ("*" ∈ kv.2)) kvs;
           Values := foldl (fun m (kv : string * list string) => <[kv.1 := kv.2]> m) (Values p0) kvs |}) as Hgen.
  { intros ms'. induction ms' as [|m ms' IH]; intros p0 p1.
    - cbn. split.
      + intros [= <-]. exists []. split; [done|]. cbn. rewrite orb_false_r. by destruct p0.
      + intros (kvs & [= <-] & ->). cbn. rewrite orb_false_r. by destruct p0.
    - rewrite mapM_cons. cbn [foldl]. unfold step at 2.
      assert (principal_member name m = (vals ← stringOrArray m.2 (name +:+ "." +:+ m.1); Ok (m.1, vals))) as -> by done.
      cbn [mbind result_bind].
      destruct (stringOrArray m.2 (name +:+ "." +:+ m.1)) as [vals|e]; cbn [mbind result_bind].
      + rewrite IH. cbn [Wildcard Values]. split.
        * intros (kvs & Hk & ->). exists ((m.1, vals) :: kvs). rewrite Hk. split; [done|]. cbn. by rewrite orb_assoc.
        * intros (kvs & Hk & ->). destruct (mapM (principal_member name) ms') as [kvs'|]; [|done].
          injection Hk as <-. exists kvs'. split; [done|]. cbn. by rewrite orb_assoc.
      + rewrite Herr. split; [done|]. intros (? & ? & _). done. }
  rewrite (Hgen ms). done.
Qed.

Lemma insert_fold_perm {B} (l l' : list (string * B)) (m : gmap string B) :
  l ≡ₚ l' -> NoDup l.*1 ->
  foldl (fun m kv => <[kv.1 := kv.2]> m) m l = foldl (fun m kv => <[kv.1 := kv.2]> m) m l'.
Proof.
  intros Hp. revert m. induction Hp as [|x l l' _ IH|[k v] [k' v'] l|l l' l'' Hp1 IH1 _ IH2]; intros m Hnd; cbn.
  - done.
  - apply NoDup_cons in Hnd as [_ ?]. by apply IH.
  - cbn in Hnd. apply NoDup_cons in Hnd as [Hk _]. rewrite insert_insert_ne; [done|]. set_solver.
  - rewrite IH1 by done. apply IH2. by rewrite <- Hp1.
Qed.

Lemma existsb_perm {A} (f : A -> bool) l l' : l ≡ₚ l' -> existsb f l = existsb f l'.
Proof.
  induction 1 as [|x l l' _ IH|x y l|]; cbn; [done|by rewrite IH| |congruence].
  destruct (f x), (f y); done.
Qed.

Lemma decodePrincipal_norm v name p :
  wf_json v -> decodePrincipal v name = Ok p -> decodePrincipal (norm v) name = Ok p.
Proof.
  intros Hwf. destruct v as [| | | | |ms]; try done. inversion Hwf as [| | | | |? Hnd _ _]; subst.
  intros (kvs & Hm & ->)%decodePrincipal_object. rewrite object_norm. apply decodePrincipal_object.
  pose proof (sort_slice_perm member_less ms) as Hp. symmetry in Hp.
  destruct (mapM_perm _ _ _ _ Hp Hm) as (kvs' & Hm' & Hp'). exists kvs'. split.
  - rewrite mapM_map. eapply mapM_ext_ok; [|exact Hm']. intros [k x] b _. unfold principal_member, map_snd. cbn [fst snd].
    by rewrite stringOrArray_norm.
  - assert (kvs.*1 = ms.*1) as Hk.
    { apply mapM_Ok in Hm. clear -Hm. induction Hm as [|m kv ms kvs H _ IH]; cbn; [done|].
      unfold principal_member in H. apply bind_Ok in H as (? & _ & [= <-]). cbn. by rewrite IH. }
    f_equal; [by apply existsb_perm|]. apply insert_fold_perm; [done|]. by rewrite Hk.
Qed.

(** ** Conditions *)

Definition condition_entry (op : string) (k : string * json) : result ConditionEntry :=
  vals ← condition_values k.2; Ok {| Operator := op; Key := k.1; CondValues := vals |}.

Definition condition_operator (op : string * json) : result (list ConditionEntry) :=
  match op.2 with
  | JObject ks => mapM (condition_entry op.1) ks
  | _ => derr ("Condition operator " +:+ op.1 +:+ " is not an object")
  end.

Lemma decodeCondition_object ops cs :
  decodeCondition (JObject ops) = Ok cs <->
  exists out, mapM condition_operator ops = Ok out /\ cs = sort_slice (less_by condition_keys) (concat out).
Proof.
  change (decodeCondition (JObject ops)) with
    (out ← mapM condition_operator ops; Ok (sort_slice (less_by condition_keys) (concat out))).
  rewrite bind_Ok. naive_solver.
Qed.

Lemma condition_operator_norm op out :
  wf_json op.2 -> condition_operator op = Ok out ->
  exists out', condition_operator (map_snd norm op) = Ok out' /\ out ≡ₚ out' /\
    NoDup (Key <$> out) /\ Forall (fun e => Operator e = op.1) out.
Proof.
  destruct op as [o v]. unfold condition_operator, map_snd. cbn [fst snd]. intros Hwf.
  destruct v as [| | | | |ks]; try done. inversion Hwf as [| | | | |? Hnd _ _]; subst. intros Hm.
  rewrite object_norm. pose proof (sort_slice_perm member_less ks) as Hp. symmetry in Hp.
  destruct (mapM_perm _ _ _ _ Hp Hm) as (out' & Hm' & Hp'). exists out'. split_and!.
  - rewrite mapM_map. eapply mapM_ext_ok; [|exact Hm']. intros [k x] b _.
    unfold condition_entry, map_snd. cbn [fst snd]. by rewrite condition_values_norm.
  - done.
  - assert (Key <$> out = ks.*1) as ->; [|done]. apply mapM_Ok in Hm. clear -Hm.
    induction Hm as [|k e ks out H _ IH]; cbn; [done|].
    unfold condition_entry in H. apply bind_Ok in H as (? & _ & [= <-]). cbn. by rewrite IH.
  - apply mapM_Ok in Hm. clear -Hm. induction Hm as [|k e ks out H _ IH]; constructor; [|done].
    unfold condition_entry in H. by apply bind_Ok in H as (? & _ & [= <-]).
Qed.

Lemma decodeCondition_norm v cs : wf_json v -> decodeCondition v = Ok cs -> decodeCondition (norm v) = Ok cs.
Proof.
  intros Hwf. destruct v as [| | | | |ops]; try done. inversion Hwf as [| | | | |? Hnd _ Hw]; subst.
  intros (out & Hm & ->)%decodeCondition_object. rewrite object_norm. apply decodeCondition_object.
  assert (exists out1, mapM (fun op => condition_operator (map_snd norm op)) ops = Ok out1 /\ concat out ≡ₚ concat out1 /\
            NoDup (condition_keys <$> concat out) /\ Forall (fun e => Operator e ∈ ops.*1) (concat out)) as (out1 & Hm1 & Hp1 & Hnd1 & _).
  { apply mapM_Ok in Hm. clear Hwf. induction Hm as [|op es ops out Ho _ IH].
    - exists []. repeat split; constructor.
    - apply Forall_cons in Hw as [Hwo Hw]. cbn in Hnd. apply NoDup_cons in Hnd as [Hop Hnd].
      destruct (condition_operator_norm op es Hwo Ho) as (es' & Ho' & Hp & Hk & Hall).
      destruct (IH Hnd Hw) as (out1 & Hm1 & Hp1 & Hnd1 & Hin). exists (es' :: out1). split_and!.
      + rewrite mapM_cons, Ho', Hm1. done.
      + cbn. by rewrite Hp, Hp1.
      + cbn. rewrite fmap_app. apply NoDup_app. split_and!; [|intros x|done].
        * clear -Hk Hall. induction es as [|e es IH]; cbn in *; [constructor|].
          apply NoDup_cons in Hk as [Hk Hk']. apply Forall_cons in Hall as [He Hall].
          constructor; [|by apply IH]. intros (e' & E & Hin)%list_elem_of_fmap. destruct Hk.
          injection E as _ E. rewrite E. by apply list_elem_of_fmap_2.
        * intros (e & -> & He)%list_elem_of_fmap (e' & E & He')%list_elem_of_fmap.
          rewrite Forall_forall in Hall, Hin. specialize (Hall e He). specialize (Hin e' He').
          injection E as E _. destruct Hop. by rewrite <- Hall, E.
      + cbn. apply Forall_app. split.
        * eapply Forall_impl; [exact Hall|]. intros e ->. left.
        * eapply Forall_impl; [exact Hin|]. intros e He. by right. }
  pose proof (sort_slice_perm member_less ops) as Hp. symmetry in Hp.
  destruct (mapM_perm _ _ _ _ Hp Hm1) as (out2 & Hm2 & Hp2). exists out2. split; [by rewrite mapM_map|].
  apply (sort_slice_on_unique condition_keys lex_lt); [done|]. rewrite Hp1. clear -Hp2.
  induction Hp2 as [|x l l' _ IH|x y l|]; cbn; [done|by rewrite IH| |by etrans].
  rewrite !app_assoc. by rewrite (Permutation_app_comm x y).
Qed.

(** * Statements by name *)

Definition ok_value {A} (r : result A) : option A := match r with Ok a => Some a | Err _ => None end.

(** The decoded member [K], if present and well typed. *)
Definition look {A} (dec : json -> result A) (K : string) (ms : list (string * json)) : option A :=
  assoc K ms ≫= (fun v => ok_value (dec v)).

Definition sid_dec (v : json) : result string :=
  match v with JString s => Ok s | _ => derr "Sid is not a string" end.

Definition known_members : list string :=
  ["Sid"; "Effect"; "Action"; "NotAction"; "Resource"; "NotResource"; "Principal"; "NotPrincipal"; "Condition"].

Definition unknown_names (ms : list (string * json)) : list string :=
  List.filter (fun k => negb (bool_decide (k ∈ known_members))) ms.*1.

(** What the loop holds after the members [ms]. *)
Definition partial_statement (raw : string) (ms : list (string * json)) : Statement :=
  {| st_Sid := default "" (look sid_dec "Sid" ms);
     st_Effect := default "" (look effect_dec "Effect" ms);
     st_Action := default [] (look (fun v => stringOrArray v "Action") "Action" ms);
     st_NotAction := default [] (look (fun v => stringOrArray v "NotAction") "NotAction" ms);
     st_IsNotAction := false;
     st_Resource := look (fun v => stringOrArray v "Resource") "Resource" ms;
     st_NotResource := look (fun v => stringOrArray v "NotResource") "NotResource" ms;
     st_Principal := look (fun v => decodePrincipal v "Principal") "Principal" ms;
     st_NotPrincipal := look (fun v => decodePrincipal v "NotPrincipal") "NotPrincipal" ms;
     st_Conditions := default [] (look decodeCondition "Condition" ms);
     st_Raw := raw;
     st_Unknown := unknown_names ms |}.

Definition partial_decoding (raw : string) (ms : list (string * json)) : decoding :=
  {| dc_st := partial_statement raw ms;
     dc_hasAction := bool_decide (is_Some (assoc "Action" ms));
     dc_hasNotAction := bool_decide (is_Some (assoc "NotAction" ms)) |}.

(** A member whose value has the type its name asks for. *)
Definition member_ok (m : string * json) : bool :=
  let '(k, v) := m in
  if (k =? "Sid")%string then is_Ok (sid_dec v)
  else if (k =? "Effect")%string then is_Ok (effect_dec v)
  else if (k =? "Action")%string then is_Ok (stringOrArray v "Action")
  else if (k =? "NotAction")%string then is_Ok (stringOrArray v "NotAction")
  else if (k =? "Resource")%string then is_Ok (stringOrArray v "Resource")
  else if (k =? "NotResource")%string then is_Ok (stringOrArray v "NotResource")
  else if (k =? "Principal")%string then is_Ok (decodePrincipal v "Principal")
  else if (k =? "NotPrincipal")%string then is_Ok (decodePrincipal v "NotPrincipal")
  else if (k =? "Condition")%string then is_Ok (decodeCondition v)
  else true.

Lemma look_snoc {A} (dec : json -> result A) K k v l :
  k ∉ l.*1 -> look dec K (l ++ [(k, v)]) = if (K =? k)%string then ok_value (dec v) else look dec K l.
Proof. intros Hk. unfold look. rewrite assoc_snoc by done. by destruct (K =? k)%string. Qed.

Lemma unknown_snoc l k v :
  unknown_names (l ++ [(k, v)]) =
  unknown_names l ++ (if bool_decide (k ∈ known_members) then [] else [k]).
Proof.
  unfold unknown_names. rewrite fmap_app, List.filter_app. f_equal. cbn. by destruct (bool_decide _).
Qed.

Lemma bind_step {A B} (r : result A) (k : A -> B) d d' :
  (forall y, r = Ok y -> k y = d') -> (r ≫= fun y => Ok (k y)) = Ok d <-> is_Ok r = true /\ d = d'.
Proof.
  intros H. destruct r as [y|e]; cbn; [|naive_solver]. specialize (H y eq_refl). subst. naive_solver.
Qed.

(** [member_step Hk]: the member [k], new by [Hk], sets its own field. *)
Ltac member_step Hk :=
  apply bind_step; let y := fresh "y" in let Hy := fresh "Hy" in intros y Hy;
  unfold partial_decoding, partial_statement; rewrite !look_snoc, !assoc_snoc, unknown_snoc by exact Hk;
  cbn [String.eqb Ascii.eqb Bool.eqb]; rewrite Hy; cbn; rewrite ?app_nil_r; reflexivity.

Lemma decode_member_step raw l k v d :
  k ∉ l.*1 ->
  decode_member (partial_decoding raw l) (k, v) = Ok d <->
  member_ok (k, v) = true /\ d = partial_decoding raw (l ++ [(k, v)]).
Proof.
  intros Hk. unfold decode_member, member_ok. cbn zeta.
  destruct (String.eqb_spec k "Sid") as [->|N1].
  { unfold sid_dec at 1. destruct v as [| | |s| |]; try (split; [discriminate|by intros [? _]]).
    unfold partial_decoding, partial_statement. rewrite !look_snoc, !assoc_snoc, unknown_snoc by done.
    cbn. rewrite app_nil_r. naive_solver. }
  destruct (String.eqb_spec k "Effect") as [->|N2].
  { unfold effect_dec at 1. destruct v as [| | |s| |]; try (split; [discriminate|by intros [? _]]).
    destruct (_ || _) eqn:E; [|split; [discriminate|by intros [? _]]].
    unfold partial_decoding, partial_statement. rewrite !look_snoc, !assoc_snoc, unknown_snoc by done.
    cbn. rewrite E, app_nil_r. cbn. naive_solver. }
  destruct (String.eqb_spec k "Action") as [->|N3]; [member_step Hk|].
  destruct (String.eqb_spec k "NotAction") as [->|N4]; [member_step Hk|].
  destruct (String.eqb_spec k "Resource") as [->|N5]; [member_step Hk|].
  destruct (String.eqb_spec k "NotResource") as [->|N6]; [member_step Hk|].
  destruct (String.eqb_spec k "Principal") as [->|N7]; [member_step Hk|].
  destruct (String.eqb_spec k "NotPrincipal") as [->|N8]; [member_step Hk|].
  destruct (String.eqb_spec k "Condition") as [->|N9]; [member_step Hk|].
  assert (partial_decoding raw (l ++ [(k, v)]) =
    {| dc_st := set_Unknown (unknown_names l ++ [k]) (partial_statement raw l);
       dc_hasAction := bool_decide (is_Some (assoc "Action" l));
       dc_hasNotAction := bool_decide (is_Some (assoc "NotAction" l)) |}) as ->.
  { unfold partial_decoding, partial_statement. rewrite !look_snoc, !assoc_snoc, unknown_snoc by done.
    rewrite bool_decide_eq_false_2 by (unfold known_members; set_solver).
    repeat match goal with |- context [(?a =? k)%string] =>
      destruct (String.eqb_spec a k) as [E|_]; [by rewrite <- E in *|] end. done. }
  naive_solver.
Qed.

Lemma partial_nil raw : partial_decoding raw [] =
  {| dc_st := empty_statement raw; dc_hasAction := false; dc_hasNotAction := false |}.
Proof. done. Qed.

Lemma decode_members raw ms d :
  NoDup ms.*1 ->
  foldM decode_member {| dc_st := empty_statement raw; dc_hasAction := false; dc_hasNotAction := false |} ms = Ok d <->
  forallb member_ok ms = true /\ d = partial_decoding raw ms.
Proof.
  rewrite <- (partial_nil raw). revert d. induction ms as [|[k v] ms IH] using rev_ind; intros d Hnd.
  - cbn. naive_solver.
  - rewrite fmap_app in Hnd. apply NoDup_app in Hnd as (Hnd & Hk & _).
    assert (k ∉ ms.*1) as Hk' by (intros Hin; eapply Hk; [done|]; cbn; left).
    rewrite foldM_app, forallb_app. cbn [forallb]. rewrite !andb_true_iff. split.
    + intros (x & [Hall ->]%IH & (y & [Hok ->]%decode_member_step & [= <-])%bind_Ok)%bind_Ok; done.
    + intros [[Hall [Hok _]] ->]. apply bind_Ok. exists (partial_decoding raw ms). split; [by apply IH|].
      cbn [foldM]. apply bind_Ok. eexists. split; [by apply decode_member_step|done].
Qed.

(** The checks after the loop. *)
Definition statement_checks (ms : list (string * json)) : bool :=
  negb (is_empty (default "" (look effect_dec "Effect" ms))) &&
  negb (eqb (bool_decide (is_Some (assoc "Action" ms))) (bool_decide (is_Some (assoc "NotAction" ms)))) &&
  negb (bool_decide (is_Some (look (fun v => decodePrincipal v "Principal") "Principal" ms)) &&
        bool_decide (is_Some (look (fun v => decodePrincipal v "NotPrincipal") "NotPrincipal" ms))) &&
  negb (bool_decide (is_Some (look (fun v => stringOrArray v "Resource") "Resource" ms)) &&
        bool_decide (is_Some (look (fun v => stringOrArray v "NotResource") "NotResource" ms))).

Definition statement_of (raw : string) (ms : list (string * json)) : Statement :=
  set_IsNotAction (bool_decide (is_Some (assoc "NotAction" ms)))
    (set_Unknown (sort_slice str_lt (unknown_names ms)) (partial_statement raw ms)).

(** The loop refines the lookups. *)
Lemma decodeStatement_spec ms st :
  NoDup ms.*1 ->
  decodeStatement (JObject ms) = Ok st <->
  forallb member_ok ms = true /\ statement_checks ms = true /\ st = statement_of (writeCanonical (JObject ms)) ms.
Proof.
  intros Hnd. set (raw := writeCanonical (JObject ms)).
  assert (forall d, d = partial_decoding raw ms ->
    (if is_empty (st_Effect (dc_st d)) then derr "no Effect"
     else if eqb (dc_hasAction d) (dc_hasNotAction d) then derr "exactly one of Action and NotAction is required"
     else if bool_decide (is_Some (st_Principal (dc_st d))) && bool_decide (is_Some (st_NotPrincipal (dc_st d)))
     then derr "Principal and NotPrincipal are mutually exclusive"
     else if bool_decide (is_Some (st_Resource (dc_st d))) && bool_decide (is_Some (st_NotResource (dc_st d)))
     then derr "Resource and NotResource are mutually exclusive"
     else Ok (set_IsNotAction (dc_hasNotAction d) (set_Unknown (sort_slice str_lt (st_Unknown (dc_st d))) (dc_st d))))
    = Ok st <-> statement_checks ms = true /\ st = statement_of raw ms) as Hc.
  { intros d ->. unfold statement_checks. cbn [dc_st dc_hasAction dc_hasNotAction partial_decoding partial_statement
      st_Effect st_Principal st_NotPrincipal st_Resource st_NotResource st_Unknown].
    rewrite !andb_true_iff, !negb_true_iff.
    destruct (is_empty _); [split; [discriminate|naive_solver]|].
    destruct (eqb _ _); [split; [discriminate|naive_solver]|].
    destruct (bool_decide _ && bool_decide _); [split; [discriminate|naive_solver]|].
    destruct (bool_decide _ && bool_decide _); [split; [discriminate|naive_solver]|].
    unfold statement_of, partial_statement. cbn. naive_solver. }
  unfold decodeStatement. rewrite bind_Ok. fold raw. split.
  - intros (d & [Hall ->]%decode_members & Hd); [|done]. apply (Hc _ eq_refl) in Hd as [? ?]. done.
  - intros (Hall & Hch & Hst). exists (partial_decoding raw ms). split; [by apply decode_members|].
    by apply (Hc _ eq_refl).
Qed.

(** ** The normal form decodes alike *)

Lemma look_norm {A} (dec : json -> result A) K ms ms' :
  NoDup ms.*1 -> norm (JObject ms) = JObject ms' ->
  (forall v, assoc K ms = Some v -> ok_value (dec (norm v)) = ok_value (dec v)) ->
  look dec K ms' = look dec K ms.
Proof.
  intros Hnd Hn Hd. unfold look. rewrite (assoc_norm K ms ms') by done.
  destruct (assoc K ms) as [v|]; cbn; [|done]. by apply Hd.
Qed.

Lemma ok_value_transfer {A} (f : json -> result A) v :
  is_Ok (f v) = true -> (forall a, f v = Ok a -> f (norm v) = Ok a) -> ok_value (f (norm v)) = ok_value (f v).
Proof. destruct (f v) as [a|]; [|done]. intros _ H. by rewrite (H a). Qed.

Lemma member_ok_norm k v : wf_json v -> member_ok (k, v) = true -> member_ok (k, norm v) = true.
Proof.
  intros Hwf. unfold member_ok. rewrite !stringOrArray_norm.
  assert (sid_dec (norm v) = sid_dec v) as -> by (by destruct v).
  assert (effect_dec (norm v) = effect_dec v) as -> by (by destruct v).
  repeat match goal with |- context [if (k =? ?s)%string then _ else _] => destruct (k =? s)%string; [done || idtac|] end;
    try done.
  - destruct (decodePrincipal v _) as [p|] eqn:E; [|done]. by rewrite (decodePrincipal_norm _ _ _ Hwf E).
  - destruct (decodePrincipal v _) as [p|] eqn:E; [|done]. by rewrite (decodePrincipal_norm _ _ _ Hwf E).
  - destruct (decodeCondition v) as [p|] eqn:E; [|done]. by rewrite (decodeCondition_norm _ _ Hwf E).
Qed.

Lemma decodeStatement_norm v st :
  wf_json v -> decodeStatement v = Ok st -> decodeStatement (norm v) = Ok st.
Proof.
  intros Hwf. destruct v as [| | | | |ms]; try done. inversion Hwf as [| | | | |? Hnd Hval Hw]; subst.
  destruct (norm (JObject ms)) as [| | | | |ms'] eqn:Hn; try discriminate Hn.
  assert (ms'.*1 ≡ₚ ms.*1) as Hk.
  { rewrite object_norm in Hn. injection Hn as <-. rewrite map_snd_fst. by rewrite sort_slice_perm. }
  assert (NoDup ms'.*1) as Hnd' by by rewrite Hk.
  intros (Hall & Hch & ->)%decodeStatement_spec; [|done]. apply decodeStatement_spec; [done|].
  rewrite forallb_forall in Hall. rewrite Forall_forall in Hw.
  assert (forall K v, assoc K ms = Some v -> wf_json v /\ member_ok (K, v) = true) as Hmem.
  { intros K v Hv. apply assoc_elem in Hv; [|done]. split; [by apply (Hw (K, v))|]. apply Hall. by apply list_elem_of_In. }
  assert (forall K, bool_decide (is_Some (assoc K ms')) = bool_decide (is_Some (assoc K ms))) as Has.
  { intros K. rewrite (assoc_norm K ms ms') by done. apply bool_decide_ext. by rewrite fmap_is_Some. }
  assert (look sid_dec "Sid" ms' = look sid_dec "Sid" ms) as L1.
  { apply look_norm; [done..|]. by intros []. }
  assert (look effect_dec "Effect" ms' = look effect_dec "Effect" ms) as L2.
  { apply look_norm; [done..|]. by intros []. }
  assert (forall K name, look (fun v => stringOrArray v name) K ms' = look (fun v => stringOrArray v name) K ms) as L3.
  { intros K name. apply look_norm; [done..|]. intros v _. by rewrite stringOrArray_norm. }
  assert (look (fun v => decodePrincipal v "Principal") "Principal" ms' = look (fun v => decodePrincipal v "Principal") "Principal" ms) as L4.
  { apply look_norm; [done..|]. intros v Hv. apply Hmem in Hv as [Hwv Hok].
    apply (ok_value_transfer (fun v => decodePrincipal v "Principal")); [done|]. intros a. by apply decodePrincipal_norm. }
  assert (look (fun v => decodePrincipal v "NotPrincipal") "NotPrincipal" ms' = look (fun v => decodePrincipal v "NotPrincipal") "NotPrincipal" ms) as L5.
  { apply look_norm; [done..|]. intros v Hv. apply Hmem in Hv as [Hwv Hok].
    apply (ok_value_transfer (fun v => decodePrincipal v "NotPrincipal")); [done|]. intros a. by apply decodePrincipal_norm. }
  assert (look decodeCondition "Condition" ms' = look decodeCondition "Condition" ms) as L6.
  { apply look_norm; [done..|]. intros v Hv. apply Hmem in Hv as [Hwv Hok].
    apply (ok_value_transfer decodeCondition); [done|]. intros a. by apply decodeCondition_norm. }
  split_and!.
  - apply forallb_forall. intros [k w] Hin%list_elem_of_In. apply assoc_elem in Hin; [|done].
    rewrite (assoc_norm k ms ms') in Hin by done. apply fmap_Some in Hin as (v & Hv & ->).
    apply Hmem in Hv as [? ?]. by apply member_ok_norm.
  - unfold statement_checks in *. by rewrite L2, L4, L5, !L3, !Has.
  - unfold statement_of, partial_statement. rewrite L1, L2, L4, L5, L6, !L3, !Has.
    rewrite <- Hn, write_norm.
    assert (sort_slice str_lt (unknown_names ms') = sort_slice str_lt (unknown_names ms)) as ->.
    { apply (sort_slice_unique str_lt). by apply filter_perm. }
    done.
Qed.

(** * Documents *)

Definition top_str (v : json) : result string := match v with JString s => Ok s | _ => derr "not a string" end.

Definition top_ok (m : string * json) : bool :=
  let '(k, v) := m in
  if (k =? "Version")%string || (k =? "Id")%string then is_Ok (top_str v) else true.

Definition top_of (ms : list (string * json)) : string * string * option json :=
  (default "" (look top_str "Version" ms), default "" (look top_str "Id" ms), assoc "Statement" ms).

Lemma decode_top_step l k v t :
  k ∉ l.*1 -> decode_top (top_of l) (k, v) = Ok t <-> top_ok (k, v) = true /\ t = top_of (l ++ [(k, v)]).
Proof.
  intros Hk. unfold decode_top, top_ok, top_of. rewrite !look_snoc, !assoc_snoc by done.
  destruct (String.eqb_spec k "Version") as [->|N1].
  { cbn. destruct v; cbn; naive_solver. }
  destruct (String.eqb_spec k "Id") as [->|N2].
  { cbn. destruct v; cbn; naive_solver. }
  destruct (String.eqb_spec "Version" k); [congruence|]. destruct (String.eqb_spec "Id" k); [congruence|].
  destruct (String.eqb_spec k "Statement") as [->|N3]; [cbn; naive_solver|].
  destruct (String.eqb_spec "Statement" k); [congruence|]. cbn. naive_solver.
Qed.

Lemma decode_top_members ms t :
  NoDup ms.*1 -> foldM decode_top ("", "", None) ms = Ok t <-> forallb top_ok ms = true /\ t = top_of ms.
Proof.
  change ("", "", @None json) with (top_of []). revert t. induction ms as [|[k v] ms IH] using rev_ind; intros t Hnd.
  - cbn. naive_solver.
  - rewrite fmap_app in Hnd. apply NoDup_app in Hnd as (Hnd & Hk & _).
    assert (k ∉ ms.*1) as Hk' by (intros Hin; eapply Hk; [done|]; cbn; left).
    rewrite foldM_app, forallb_app. cbn [forallb]. rewrite !andb_true_iff. split.
    + intros (x & [Hall ->]%IH & (y & [Hok ->]%decode_top_step & [= <-])%bind_Ok)%bind_Ok; done.
    + intros [[Hall [Hok _]] ->]. apply bind_Ok. exists (top_of ms). split; [by apply IH|].
      cbn [foldM]. apply bind_Ok. eexists. split; [by apply decode_top_step|done].
Qed.

(** The document of a parsed value. *)
Definition decode_value (v : json) : result PolicyDocument :=
  match v with
  | JObject ms =>
      '(version, id, stmts) ← foldM decode_top ("", "", None) ms;
      match stmts with
      | None => derr "no Statement"
      | Some sv =>
          list ← match sv with
                 | JObject _ => Ok [sv]
                 | JArray l => Ok l
                 | _ => derr "Statement is neither an object nor an array"
                 end;
          sts ← mapM decodeStatement list;
          Ok {| doc_Version := version; doc_ID := id; doc_Statements := sts |}
      end
  | _ => derr "document is not an object"
  end.

Lemma DecodePolicyDocument_value text doc :
  DecodePolicyDocument text = Ok doc <->
  exists raw v, DecodePolicyText text = Ok raw /\ parseJSON raw = Ok v /\ decode_value v = Ok doc.
Proof.
  unfold DecodePolicyDocument. rewrite bind_Ok. split.
  - intros (raw & Hr & H). destruct (parseJSON raw) as [v|] eqn:E; [|done]. eauto 6.
  - intros (raw & v & Hr & Hp & Hd). exists raw. split; [done|]. rewrite Hp. exact Hd.
Qed.

Lemma decode_value_norm v doc : wf_json v -> decode_value v = Ok doc -> decode_value (norm v) = Ok doc.
Proof.
  intros Hwf. destruct v as [| | | | |ms]; try done. inversion Hwf as [| | | | |? Hnd Hval Hw]; subst.
  destruct (norm (JObject ms)) as [| | | | |ms'] eqn:Hn; try discriminate Hn.
  assert (NoDup ms'.*1) as Hnd'.
  { rewrite object_norm in Hn. injection Hn as <-. rewrite map_snd_fst. by rewrite sort_slice_perm. }
  cbn [decode_value]. intros (t & [Hall ->]%decode_top_members & H)%bind_Ok; [|done]. apply bind_Ok.
  exists (top_of ms'). rewrite Forall_forall in Hw. split.
  - apply decode_top_members; [done|]. split; [|done]. rewrite forallb_forall in *. intros [k w] Hin%list_elem_of_In.
    apply assoc_elem in Hin; [|done]. rewrite (assoc_norm k ms ms') in Hin by done.
    apply fmap_Some in Hin as (v & Hv & ->). apply assoc_elem in Hv; [|done].
    apply list_elem_of_In in Hv. specialize (Hall _ Hv). unfold top_ok in *.
    destruct (_ || _); [|done]. by destruct v.
  - unfold top_of in *.
    assert (forall K, look top_str K ms' = look top_str K ms) as Hlook.
    { intros K. apply look_norm; [done..|]. by intros []. }
    rewrite !Hlook, (assoc_norm "Statement" ms ms') by done.
    destruct (assoc "Statement" ms) as [sv|] eqn:Es; [|done]. cbn [fmap option_fmap option_map].
    apply assoc_elem in Es; [|done]. specialize (Hw _ Es). cbn in Hw.
    apply bind_Ok in H as (l & Hl & (sts & Hs & [= <-])%bind_Ok).
    destruct sv as [| | | |vs|sms]; try discriminate Hl; injection Hl as <-.
    + cbn [norm]. apply bind_Ok. exists (map norm vs). split; [done|]. apply bind_Ok. exists sts. split; [|done].
      rewrite mapM_map. eapply mapM_ext_ok; [|exact Hs]. intros x st Hx. inversion Hw as [| | | |? Hvs|]; subst.
      rewrite Forall_forall in Hvs. by apply decodeStatement_norm, Hvs.
    + destruct (norm (JObject sms)) as [| | | | |sms'] eqn:Hsn; try discriminate Hsn. rewrite <- Hsn.
      apply bind_Ok. exists [norm (JObject sms)]. split; [by rewrite Hsn|]. apply bind_Ok. exists sts. split; [|done].
      apply mapM_Ok. apply mapM_Ok in Hs. inversion Hs as [|? st ? ? Hst Hnil]; subst. inversion Hnil; subst.
      constructor; [by apply decodeStatement_norm|constructor].
Qed.

(** ** Trimming canonical text *)

Lemma chunks_concat n s : (str_length s <= n)%nat -> foldr (fun c t => c.2 +:+ t) "" (chunks_fuel n s) = s.
Proof.
  revert s. induction n as [|n IH]; intros s Hn; [destruct s; [done|cbn in Hn; lia]|]. destruct s as [|c s]; [done|]. cbn [chunks_fuel].
  cbn in Hn. destruct (DecodeRune (String c s)) as [[r k]|] eqn:E; cbn [foldr snd].
  - pose proof (DecodeRune_pos _ _ _ E). rewrite IH, str_take_drop; [done|].
    rewrite str_length_drop. cbn. lia.
  - rewrite IH by lia. done.
Qed.

Lemma high_prefix c w u q :
  byte_val c < 128 -> w +:+ String c "" = u +:+ q -> all_high u ->
  exists b, q = b +:+ String c "" /\ (str_length b + str_length u = str_length w)%nat.
Proof.
  intros Hc. revert u. induction w as [|y w IH]; intros u E Hu.
  - destruct u as [|z u]; [exists ""; by split|]. rewrite str_app_cons in E. injection E as <- E.
    destruct Hu as [Hu _]. lia.
  - destruct u as [|z u]; [exists (String y w); split; [by rewrite E|cbn; lia]|].
    rewrite !str_app_cons in E. injection E as <- E. destruct Hu as [_ Hu].
    destruct (IH _ E Hu) as (b & -> & Hb). exists b. split; [done|]. cbn. lia.
Qed.

Lemma chunks_last n a c :
  (str_length a < n)%nat -> byte_val c < 128 ->
  exists l, chunks_fuel n (a +:+ String c "") = l ++ [(Some (byte_val c), String c "")].
Proof.
  intros Hn Hc. revert a Hn. induction n as [|n IH]; intros a Hn; [lia|].
  destruct a as [|x a].
  - exists []. change ("" +:+ String c "") with (String c ""). cbn. destruct (Z.ltb_spec (byte_val c) 128); [|lia].
    cbn. by destruct n.
  - rewrite str_app_cons. cbn [chunks_fuel]. cbn in Hn.
    destruct (DecodeRune (String x (a +:+ String c ""))) as [[r k]|] eqn:E.
    + apply DecodeRune_inv in E as (rest & Es & -> & Hr). rewrite Es, str_drop_app, str_take_app.
      assert (exists b, rest = b +:+ String c "" /\ (str_length b <= str_length a)%nat) as (b & -> & Hb).
      { destruct (Z.ltb_spec r 128) as [Hlo|Hhi].
        - assert (EncodeRune r = String (byte_of r) "") as Hone.
          { unfold EncodeRune. destruct (Z.ltb_spec r 128); [done|lia]. }
          rewrite Hone, str_app_cons in Es. injection Es as _ Es. exists a. by split.
        - rewrite <- str_app_cons in Es. destruct (high_prefix c _ _ _ Hc Es) as (b & -> & Hb);
            [by apply EncodeRune_high|]. exists b. split; [done|].
          destruct (EncodeRune_cons r) as (y & u & Eu). rewrite Eu in Hb. cbn in Hb. lia. }
      destruct (IH b) as [l ->]; [lia|]. by exists ((Some r, EncodeRune r) :: l).
    + destruct (IH a) as [l ->]; [lia|]. by exists ((None, String x "") :: l).
Qed.

Lemma TrimSpace_braces a : TrimSpace ("{" +:+ a +:+ "}") = "{" +:+ a +:+ "}".
Proof.
  unfold TrimSpace. set (s := "{" +:+ a +:+ "}"). set (n := str_length s).
  destruct (chunks_last n ("{" +:+ a) "}") as [l Hl]; [|done|].
  { unfold n, s. rewrite <- str_app_assoc, (str_length_app ("{" +:+ a)). cbn. lia. }
  assert (chunks_fuel n s = l ++ [(Some 125, "}")]) as Hc by (unfold s; rewrite <- str_app_assoc; exact Hl).
  assert (exists rest, chunks_fuel n s = (Some 123, "{") :: rest) as [rest Hr].
  { unfold n, s. rewrite str_app_cons. cbn. by eexists. }
  assert (drop_spaces (chunks_fuel n s) = chunks_fuel n s) as -> by (by rewrite Hr).
  assert (drop_spaces (rev (chunks_fuel n s)) = rev (chunks_fuel n s)) as ->.
  { rewrite Hc, rev_app_distr. done. }
  rewrite rev_involutive. by apply chunks_concat.
Qed.

Lemma canonical_object_text ms : exists a, writeCanonical (JObject ms) = "{" +:+ a +:+ "}".
Proof. rewrite object_text. by eexists. Qed.

Lemma decode_canonical_object ms doc :
  wf_json (JObject ms) -> (height (JObject ms) <= maxJSONDepth)%nat -> decode_value (JObject ms) = Ok doc ->
  DecodePolicyDocument (writeCanonical (JObject ms)) = Ok doc.
Proof.
  intros Hwf Hh Hd. apply DecodePolicyDocument_value.
  exists (writeCanonical (JObject ms)), (norm (JObject ms)). split_and!.
  - destruct (canonical_object_text ms) as [a E]. unfold DecodePolicyText. rewrite E, TrimSpace_braces.
    rewrite str_app_cons. by destruct a.
  - by apply parse_canonical.
  - by apply decode_value_norm.
Qed.

(** C40 A policy document means what its canonical text means: the stored canonical
    form of a document decodes to the same statements, so two documents with
    one content address are one policy. *)
Theorem canonical_document_same_policy text doc c h :
  DecodePolicyDocument text = Ok doc -> CanonicalDocument text = Ok (c, h) -> DecodePolicyDocument c = Ok doc.
Proof.
  intros (raw & v & Hr & Hp & Hd)%DecodePolicyDocument_value. unfold CanonicalDocument, Canonicalize.
  rewrite Hr. cbn [mbind result_bind]. rewrite Hp. cbn [mbind result_bind].
  intros (_ & _ & [= <- _])%bind_Ok. destruct (parseJSON_wf _ _ Hp) as [Hwf Hh].
  destruct v as [| | | | |ms]; try discriminate Hd. by apply decode_canonical_object.
Qed.

Lemma canonical_document_same_policy_witness :
  exists doc c h,
    DecodePolicyDocument (quoted "%7B'Statement':[{'Resource':'*','Effect':'Allow','Action':['s3:Get*']}]}") = Ok doc /\
    CanonicalDocument (quoted "%7B'Statement':[{'Resource':'*','Effect':'Allow','Action':['s3:Get*']}]}") = Ok (c, h) /\
    DecodePolicyDocument c = Ok doc.
Proof.
  eexists _, _, _. split_and!; [vm_compute; reflexivity..|].
  eapply (canonical_document_same_policy
    (quoted "%7B'Statement':[{'Resource':'*','Effect':'Allow','Action':['s3:Get*']}]}")); vm_compute; reflexivity.
Defined.
