(* ===== verification/TimeFmt.v ===== *)
(** [time.Time] as text: [t.UTC().Format(time.RFC3339Nano)], and the helpers
    [ts], [tsv], [ptrTime] and [nilIfEmpty] of internal/igagov/findings.go. A time is its
    nanoseconds since the Unix epoch, as in Qualify. *)

From stdpp Require Import base list strings.
From Stdlib Require Import Ascii.
From S2P Require Import Prelude Slices Qualify Float64 Utf8 Json Marshal PolicyDoc Catalog Hashes.

(** The civil date of a day number: (year, month, day). *)
Definition civil_from_days (z : Z) : Z * Z * Z :=
  let z := z + 719468 in
  let era := z / 146097 in
  let doe := z mod 146097 in
  let yoe := (doe - doe / 1460 + doe / 36524 - doe / 146096) / 365 in
  let doy := doe - (365 * yoe + yoe / 4 - yoe / 100) in
  let mp := (5 * doy + 2) / 153 in
  let d := doy - (153 * mp + 2) / 5 + 1 in
  let m := if mp <? 10 then mp + 3 else mp - 9 in
  (yoe + era * 400 + (if m <=? 2 then 1 else 0), m, d).

(** Decimal digits, padded with zeros to the width. *)
Fixpoint zeros (n : nat) : string := match n with O => "" | S n => String "0" (zeros n) end.
Definition pad (w : nat) (z : Z) : string :=
  let s := Itoa (Z.abs z) in
  (if z <? 0 then "-" else "") +:+ zeros (w - str_length s) +:+ s.

(** The digits of a fraction of nine digits, trailing zeros dropped. *)
Fixpoint trim_zeros (s : string) : string :=
  match s with
  | "" => ""
  | String c s => match trim_zeros s with
                  | "" => if is_char 48 c then "" else String c ""
                  | t => String c t
                  end
  end.

Definition fraction (ns : Z) : string :=
  match trim_zeros (pad 9 ns) with "" => "" | s => "." +:+ s end.

Definition Second : Z := 1000000000.

(** [t.UTC().Format(time.RFC3339Nano)]. *)
Definition FormatRFC3339Nano (t : Time) : string :=
  let secs := t / Second in
  let '(y, m, d) := civil_from_days (secs / 86400) in
  let s := secs mod 86400 in
  pad 4 y +:+ "-" +:+ pad 2 m +:+ "-" +:+ pad 2 d +:+ "T" +:+ pad 2 (s / 3600) +:+ ":" +:+
  pad 2 (s / 60 mod 60) +:+ ":" +:+ pad 2 (s mod 60) +:+ fraction (t mod Second) +:+ "Z".

Definition IsZero (t : Time) : bool := t =? zeroTime.

(* src: internal/igagov/findings.go:506-512 (ts) *)
Definition ts (t : option Time) : option string :=
  match t with
  | None => None
  | Some t => if IsZero t then None else Some (FormatRFC3339Nano t)
  end.

(* src: internal/igagov/findings.go:514-514 (tsv) *)
Definition tsv (t : Time) : option string := ts (Some t).

(* src: internal/igagov/findings.go:516-521 (ptrTime) *)
Definition ptrTime (t : Time) : option Time := if IsZero t then None else Some t.

(* src: internal/igagov/findings.go:997-1002 (nilIfEmpty) *)
Definition nilIfEmpty (s : string) : option string := if is_empty s then None else Some s.

Example format_times :
  map FormatRFC3339Nano [0; zeroTime; 1709210096123000000; 1709210096000000001; day 9999 12 31 + 86399999999999] =
  ["1970-01-01T00:00:00Z"; "0001-01-01T00:00:00Z"; "2024-02-29T12:34:56.123Z"; "2024-02-29T12:34:56.000000001Z";
   "9999-12-31T23:59:59.999999999Z"].
Proof. vm_compute. reflexivity. Qed.
