(* ===== verification/Live.v ===== *)
(** The discovery-role read of a role and its policies, and the state derived
    from it (internal/igagov/compile.go; the dedicated role's definition hash
    is in internal/igagov/split.go): artifact state, apply precondition and
    role eligibility. *)

From stdpp Require Import base list strings gmap sorting.
From Stdlib Require Import Ascii.
From S2P Require Import Prelude Slices Float64 Utf8 Json JsonCanon Marshal Sha256 PolicyDoc Catalog Routes Hashes.

(** * Vocabulary *)

Definition TagManagedBy : string := "authsec:managed-by".
Definition TagWorkspace : string := "authsec:workspace".
Definition TagControl : string := "authsec:control".
Definition TagPolicy : string := "authsec:policy".
Definition TagChange : string := "authsec:change".
Definition TagManagedByValue : string := "authsec".
Definition RoleTagManagedBy : string := "ManagedBy".
Definition RoleTagManagedByValue : string := "AuthSec".
Definition RoleTagProtected : string := "authsec:protected".
Definition ContinuityRecognition : string := "recognition_only".
Definition pathServiceLinked : string := "/aws-service-role/".
Definition pathAWSReserved : string := "/aws-reserved/".
Definition domainRoleDefinition : string := "authsec.igagov.role_definition.v1".
Definition domainDedicatedRole : string := "authsec.igagov.dedicated_role.v1".

Definition RefuseRoleGone : string := "role_gone".
Definition RefuseRoleRecreated : string := "role_recreated".
Definition RefuseServiceLinked : string := "service_linked_role".
Definition RefuseAWSReserved : string := "aws_reserved_role".
Definition RefuseAuthSecManagedRole : string := "authsec_managed_role".
Definition RefuseProtectedRole : string := "protected_role".
Definition RefuseRecognitionOnly : string := "recognition_only_identity".

(* src: internal/igagov/compile.go:142-145 (Refusal) *)
Record Refusal := {
  ref_Code : string;
  ref_Detail : string
}.

(* src: internal/igagov/compile.go:147-152 (Refusal.String) *)
Definition Refusal_String (r : Refusal) : string :=
  if is_empty (ref_Detail r) then ref_Code r else ref_Code r +:+ ": " +:+ ref_Detail r.

Definition ErrCodeLiveIncomplete : string := "live_read_incomplete".
Definition ErrCodeEvidenceUntrusted : string := "evidence_untrusted".
Definition ErrCodeEvidenceMismatch : string := "evidence_mismatch".
Definition ErrCodeNoArtifact : string := "no_artifact_to_remove".
Definition ErrCodeInvalidIntent : string := "invalid_intent".
Definition ErrCodeInput : string := "invalid_input".

(* src: internal/igagov/compile.go:180-182 (compileErr) *)
Definition compileErr {A} (code : string) (reasons : list string) : result A := Err (CompileError code reasons).

(** * The live read *)

(* src: internal/igagov/compile.go:190-214 (LiveRole) *)
Record LiveRole := {
  lr_RoleID : string;
  lr_ARN : string;
  lr_Name : string;
  lr_Path : string;
  lr_AccountID : string;
  lr_Partition : string;
  lr_Tags : gmap string string;
  lr_Continuity : string;
  lr_BoundaryARN : string;
  lr_ManagedPolicies : list PolicyRef;
  lr_InlinePolicies : list PolicyRef;
  lr_TrustPolicyHash : string;
  lr_Documents : gmap string string
}.

(* src: internal/igagov/compile.go:218-230 (LivePolicy) *)
Record LivePolicy := {
  lp_ARN : string;
  lp_Path : string;
  lp_Name : string;
  lp_Tags : gmap string string;
  lp_DefaultDocument : string;
  lp_VersionCount : Z;
  lp_AttachmentSet : list AttachedEntity
}.

(** [Some None] in [Policies] or [Roles] is NoSuchEntity; a missing key was not
    read. *)
(* src: internal/igagov/compile.go:237-246 (LiveRead) *)
Record LiveRead := {
  ReadAt : Z;
  Role : option LiveRole;
  Policies : gmap string (option LivePolicy);
  Roles : gmap string (option LiveRole);
  Bindings : gmap string string
}.

(** A Go map read of a missing key. *)
Definition tag (tags : gmap string string) (k : string) : string := default "" (tags !! k).

(* src: internal/igagov/compile.go:248-256 (LiveRole.partition) *)
Definition role_partition (r : LiveRole) : string :=
  if negb (is_empty (lr_Partition r)) then lr_Partition r
  else match SplitN 3 ":" (lr_ARN r) with
       | [_; p; _] => if is_empty p then "aws" else p
       | _ => "aws"
       end.

(* src: internal/igagov/compile.go:258-260 (LiveRole.ref) *)
Definition role_ref (r : LiveRole) : RoleRef :=
  {| rr_RoleID := lr_RoleID r; rr_ARN := lr_ARN r; rr_Name := lr_Name r; rr_AccountID := lr_AccountID r;
     rr_Partition := role_partition r |}.

(* src: internal/igagov/compile.go:263-265 (LivePolicy.DocumentHash) *)
Definition policy_DocumentHash (p : LivePolicy) : result string := DocumentHash (lp_DefaultDocument p).

(* src: internal/igagov/compile.go:270-279 (otherUsers) *)
Definition otherUsers (set : list AttachedEntity) (roleID : string) : list AttachedEntity :=
  sort_slice (less_by entity_keys)
    (List.filter (fun e => negb ((ae_Kind e =? "role")%string && (ae_ID e =? roleID)%string &&
                                 (ae_Usage e =? UsageBoundary)%string)) set).

(* src: internal/igagov/compile.go:281-287 (LiveRead.policy) *)
Definition live_policy (lr : LiveRead) (arn : string) : result (option LivePolicy) :=
  match Policies lr !! arn with
  | None => compileErr ErrCodeLiveIncomplete ["policy " +:+ arn +:+ " was not read"]
  | Some p => Ok p
  end.

(* src: internal/igagov/compile.go:295-316 (ArtifactState) *)
Definition ArtifactState (live : LiveRead) : result ArtifactStateFacts :=
  match Role live with
  | None => compileErr ErrCodeLiveIncomplete ["the role was not found"]
  | Some r =>
      let arn := lr_BoundaryARN r in
      if is_empty arn then
        Ok (state_Normalized {| as_RoleID := lr_RoleID r; as_BoundaryARN := None; as_BoundaryDocumentHash := None;
                                as_AttachmentSet := [] |})
      else
        p ← live_policy live arn;
        match p with
        | None => compileErr ErrCodeLiveIncomplete ["the role's boundary " +:+ arn +:+ " returned NoSuchEntity"]
        | Some p =>
            h ← policy_DocumentHash p;
            Ok (state_Normalized {| as_RoleID := lr_RoleID r; as_BoundaryARN := Some arn;
                                    as_BoundaryDocumentHash := Some h; as_AttachmentSet := lp_AttachmentSet p |})
        end
  end.

(* src: internal/igagov/compile.go:320-325 (derefOr) *)
Definition derefOr (p : option string) (def : string) : string := default def p.

(* src: internal/igagov/compile.go:331-339 (protectionTags) *)
Definition protectionTags (tags : gmap string string) : gmap string string :=
  filter (fun kv => kv.1 = RoleTagManagedBy \/ kv.1 = RoleTagProtected) tags.

(* src: internal/igagov/compile.go:342-350 (ApplyPreconditionFor) *)
Definition ApplyPreconditionFor (live : LiveRead) : result ApplyPrecondition :=
  st ← ArtifactState live;
  match Role live with
  | None => compileErr ErrCodeLiveIncomplete ["the role was not found"]
  | Some r =>
      Ok {| ap_ArtifactState := st; ap_RoleARN := lr_ARN r; ap_RolePath := lr_Path r;
            ap_ProtectionTags := protectionTags (lr_Tags r); ap_ManagedPolicies := lr_ManagedPolicies r;
            ap_InlinePolicies := lr_InlinePolicies r |}
  end.

(* src: internal/igagov/compile.go:356-364 (roleDefinitionHash) *)
Definition roleDefinitionHash (r : LiveRole) : result string :=
  HashCanonicalTagged domainRoleDefinition
    (GStruct [("role_arn", GString (lr_ARN r)); ("role_path", GString (lr_Path r));
              ("protection_tags", tags_val (protectionTags (lr_Tags r)));
              ("managed_policies", GSlice (map PolicyRef_val (sortedRefs (lr_ManagedPolicies r))));
              ("inline_policies", GSlice (map PolicyRef_val (sortedRefs (lr_InlinePolicies r))))]).

(* src: internal/igagov/split.go:140-147 (dedicatedSpecHash) *)
Definition dedicatedSpecHash (trust : string) (managed : list string) (inline : list PolicyRef) (boundary : string)
  : result string :=
  HashCanonicalTagged domainDedicatedRole
    (GStruct [("trust_policy_hash", GString trust);
              ("managed_policy_arns", GSlice (map GString (sortedUnique managed)));
              ("inline_policies", GSlice (map PolicyRef_val (sortedRefs inline)));
              ("boundary_arn", GString boundary)]).

(* src: internal/igagov/split.go:132-138 (dedicatedRoleHash) *)
Definition dedicatedRoleHash (r : LiveRole) : result string :=
  dedicatedSpecHash (lr_TrustPolicyHash r) (pr_Ref <$> lr_ManagedPolicies r) (lr_InlinePolicies r) (lr_BoundaryARN r).

(** * Eligibility *)

(* src: internal/igagov/compile.go:373-391 (RoleEligibility) *)
Definition RoleEligibility (r : LiveRole) : list Refusal :=
  (if HasPrefix (lr_Path r) pathServiceLinked then [Build_Refusal RefuseServiceLinked ("path " +:+ lr_Path r)]
   else if HasPrefix (lr_Path r) pathAWSReserved then [Build_Refusal RefuseAWSReserved ("path " +:+ lr_Path r)]
   else []) ++
  (if EqualFold (tag (lr_Tags r) RoleTagManagedBy) RoleTagManagedByValue
   then [Build_Refusal RefuseAuthSecManagedRole "tagged ManagedBy=AuthSec"] else []) ++
  (if EqualFold (tag (lr_Tags r) RoleTagProtected) "true"
   then [Build_Refusal RefuseProtectedRole "tagged authsec:protected=true"] else []) ++
  (if (lr_Continuity r =? ContinuityRecognition)%string
   then [Build_Refusal RefuseRecognitionOnly "identity continuity is recognition_only"] else []).

(* src: internal/igagov/compile.go:394-402 (checkIncarnation) *)
Definition checkIncarnation (live : LiveRead) (roleID : string) : list Refusal :=
  match Role live with
  | None => [Build_Refusal RefuseRoleGone ("role " +:+ roleID +:+ " returned NoSuchEntity")]
  | Some r =>
      if (lr_RoleID r =? roleID)%string then []
      else [Build_Refusal RefuseRoleRecreated ("live RoleId " +:+ lr_RoleID r +:+ " is not " +:+ roleID)]
  end.
