(* ===== verification/Boundary.v ===== *)
(** Boundary documents (internal/igagov/compile.go): the exclusion-only AuthSec
    boundary and what a boundary excludes. *)

From stdpp Require Import base list strings gmap sorting.
From Stdlib Require Import Ascii.
From S2P Require Import Prelude Slices Glob Float64 Utf8 Json JsonCanon Marshal Sha256 PolicyDoc Catalog Text Routes Hashes PolicyCanon Live.

(** * Vocabulary *)

Definition AuthSecBoundarySid : string := "AuthSecAllowAllExceptRemoved".
Definition PolicyVersion20121017 : string := "2012-10-17".
Definition MaxPolicyChars : Z := 6144.


(** * The exclusion-only boundary *)

(* src: internal/igagov/compile.go:410-418 (PolicyChars) *)
Definition PolicyChars (text : string) : Z :=
  Z.of_nat (length (List.filter (fun c => negb (space_chunk c)) (chunks_fuel (str_length text) text))).

(** The [NotAction] entries, in the order of [remove]. *)
Definition exclusion_actions (remove : list string) : result (list string) :=
  mapM (fun s => let ns := ToLower (TrimSpace s) in
                 if reService ns then Ok (ns +:+ ":*")
                 else Err (ErrOther ("igagov: " +:+ Quote s +:+ " is not an IAM service namespace"))) remove.

(** The document as the Go value marshalled. *)
Definition exclusion_value (actions : list string) : goval :=
  GStruct [("Statement", GSlice [GStruct [("Effect", GString EffectAllow);
                                          ("NotAction", GSlice (map GString actions));
                                          ("Resource", GString "*");
                                          ("Sid", GString AuthSecBoundarySid)]]);
           ("Version", GString PolicyVersion20121017)].

(* src: internal/igagov/compile.go:425-448 (ExcludeOnlyDocument) *)
Definition ExcludeOnlyDocument (remove : list string) : result (string * string) :=
  match remove with
  | [] => Err (ErrOther "igagov: an exclusion-only boundary needs at least one removed namespace")
  | _ =>
      actions ← exclusion_actions remove;
      c ← CanonicalizeValue (exclusion_value (sortedUnique actions));
      Ok (c, ContentHash c)
  end.

(** * Exclusions *)

(* src: internal/igagov/compile.go:456-463 (BoundaryExcludes) *)
Definition BoundaryExcludes (doc : PolicyDocument) (ns : string) : bool :=
  negb (existsb (fun st => GrantsNamespace st ns) (doc_Statements doc)).

(** A boundary text decoded; [None] is no boundary. *)
Definition decode_boundary (t : option string) : result (option PolicyDocument) :=
  match t with None => Ok None | Some t => d ← DecodePolicyDocument t; Ok (Some d) end.

Definition excludes (d : option PolicyDocument) (ns : string) : bool :=
  match d with None => false | Some d => BoundaryExcludes d ns end.

Record Changes := { newly : list string; already : list string; unexcluded : list string }.

(* src: internal/igagov/compile.go:469-502 (ExclusionChanges) *)
Definition ExclusionChanges (beforeText afterText : option string) (candidates : list string) : result Changes :=
  b ← decode_boundary beforeText;
  a ← decode_boundary afterText;
  let cs := sortedUnique candidates in
  Ok {| newly := List.filter (fun ns => negb (excludes b ns) && excludes a ns) cs;
        already := List.filter (fun ns => excludes b ns && excludes a ns) cs;
        unexcluded := List.filter (fun ns => excludes b ns && negb (excludes a ns)) cs |}.

(* src: internal/igagov/compile.go:507-527 (notActionNamespaces) *)
Definition notActionNamespaces (text : option string) : list string :=
  match text with
  | None => []
  | Some t =>
      match DecodePolicyDocument t with
      | Err _ => []
      | Ok d =>
          flat_map (fun st =>
            if negb (st_Effect st =? EffectAllow)%string || negb (st_IsNotAction st) then []
            else omap (fun p =>
                   match SplitAction p with
                   | Some (ns, _) => if ContainsAny ns ["*"%char; "?"%char] then None else Some (ToLower ns)
                   | None => None
                   end) (st_NotAction st)) (doc_Statements d)
      end
  end.

(** * What the exclusion-only boundary allows *)

#[local] Opaque CanonicalizeValue ContentHash writeCanonical.

Lemma globs_same p : ContainsAny p [star; qmark] = false -> globs p p.
Proof.
  induction p as [|c p IH]; cbn; [constructor|]. intros [Hc Hp]%orb_false_elim.
  apply bool_decide_eq_false in Hc. apply globs_char; [set_solver..|by apply IH].
Qed.

Lemma exclusion_matches ns0 ns act :
  reService ns0 = true -> lacks ":" ns = true -> lacks ":" act = true ->
  matches (ns0 +:+ ":*") (action_of ns act) <-> ToLower ns = ns0.
Proof.
  intros (_ & Hl & _ & Hk & _ & Hq)%reService_facts Hns Hact. change ":*" with (String ":" "*").
  rewrite matches_colon, Hl by done. split.
  - intros [Hg _]. by apply globs_literal in Hg.
  - intros ->. split; [by apply globs_same|]. apply globs_star. exists (ToLower act), "". split; [by rewrite str_app_nil_r|].
    constructor.
Qed.

Lemma mapM_decode_strings name l :
  mapM (fun el => match el with JString s => Ok s | _ => derr (name +:+ " has a non-string entry") end) (map JString l) = Ok l.
Proof. apply mapM_Ok. induction l; constructor; done. Qed.

(** The boundary's namespaces, as the code normalises them. *)
Definition service_names (remove : list string) : list string := (fun s => ToLower (TrimSpace s)) <$> remove.

Lemma exclusion_actions_spec remove acts :
  exclusion_actions remove = Ok acts <->
  Forall (fun ns => reService ns = true) (service_names remove) /\ acts = (fun ns => ns +:+ ":*") <$> service_names remove.
Proof.
  unfold exclusion_actions, service_names. rewrite mapM_Ok. revert acts.
  induction remove as [|s l IH]; intros acts; cbn zeta in *; rewrite ?fmap_cons; cbn [fmap list_fmap].
  - split; [by inversion 1|]. intros [_ ->]. constructor.
  - split.
    + inversion 1 as [|? a ? as' Ha Hr]; subst. apply IH in Hr as [Hf ->]. destruct (reService _) eqn:E; [|done].
      injection Ha as <-. split; [by constructor|done].
    + intros [[Hs Hf]%Forall_cons ->]. constructor; [by rewrite Hs|]. by apply IH.
Qed.

(** The decoded statement of the boundary. *)
Definition exclusion_statement (raw : string) (actions : list string) : Statement :=
  {| st_Sid := AuthSecBoundarySid; st_Effect := EffectAllow; st_Action := []; st_NotAction := actions;
     st_IsNotAction := true; st_Resource := Some ["*"]; st_NotResource := None; st_Principal := None;
     st_NotPrincipal := None; st_Conditions := []; st_Raw := raw; st_Unknown := [] |}.

(** The document as JSON. *)
Definition exclusion_json (actions : list string) : list (string * json) :=
  [("Statement", JArray [JObject [("Effect", JString EffectAllow); ("NotAction", JArray (map JString actions));
                                  ("Resource", JString "*"); ("Sid", JString AuthSecBoundarySid)]]);
   ("Version", JString PolicyVersion20121017)].

Lemma exclusion_value_ok actions :
  Forall valid_utf8 actions ->
  gok (exclusion_value actions) /\ (gheight (exclusion_value actions) <= maxJSONDepth)%nat /\
  value_of (exclusion_value actions) = JObject (exclusion_json actions).
Proof.
  intros Hv. destruct (slice_gok GString actions 0) as [Hg Hh]; [intros x _; split; [constructor|cbn; lia]|].
  assert (value_of (GSlice (map GString actions)) = JArray (map JString actions)) as Ev.
  { cbn [value_of]. rewrite map_map. f_equal. apply map_ext_Forall. eapply Forall_impl; [exact Hv|]. intros a Ha. cbn.
    by rewrite sanitize_id. }
  unfold exclusion_value. split_and!.
  - repeat first [apply gok_string | exact Hg | apply Forall_nil_2 | apply Forall_cons_2 | apply gok_slice
      | apply gok_struct; [apply (bool_decide_unpack _); vm_compute; done|]].
  - remember (GSlice (map GString actions)) as G. cbn. unfold maxJSONDepth. lia.
  - remember (GSlice (map GString actions)) as G eqn:EG. cbn [value_of map fst snd]. rewrite Ev. reflexivity.
Qed.

Definition exclusion_members (actions : list string) : list (string * json) :=
  [("Effect", JString EffectAllow); ("NotAction", JArray (map JString actions));
   ("Resource", JString "*"); ("Sid", JString AuthSecBoundarySid)].

Lemma statement_of_exclusion raw actions :
  statement_of raw (exclusion_members actions) = exclusion_statement raw actions.
Proof.
  unfold statement_of, partial_statement, exclusion_statement. cbn. by rewrite mapM_decode_strings.
Qed.

Lemma decode_exclusion_statement actions :
  exists raw, decodeStatement (JObject (exclusion_members actions)) = Ok (exclusion_statement raw actions).
Proof.
  exists (writeCanonical (JObject (exclusion_members actions))). apply decodeStatement_spec.
  - apply (bool_decide_unpack _). vm_compute. done.
  - split_and!.
    + cbn. by rewrite mapM_decode_strings.
    + cbn. done.
    + by rewrite statement_of_exclusion.
Qed.

Lemma ExcludeOnlyDocument_Ok remove actions c :
  remove <> [] -> exclusion_actions remove = Ok actions ->
  CanonicalizeValue (exclusion_value (sortedUnique actions)) = Ok c ->
  ExcludeOnlyDocument remove = Ok (c, ContentHash c).
Proof.
  intros Hne Ha Hc. destruct remove as [|r rs]; [done|]. apply bind_Ok. exists actions. split; [exact Ha|].
  apply bind_Ok. exists c. split; [exact Hc|reflexivity].
Qed.

Lemma exclude_only_decodes remove :
  remove <> [] -> Forall (fun ns => reService ns = true) (service_names remove) ->
  exists c raw, ExcludeOnlyDocument remove = Ok (c, ContentHash c) /\
    DecodePolicyDocument c =
      Ok {| doc_Version := PolicyVersion20121017; doc_ID := "";
            doc_Statements := [exclusion_statement raw (sortedUnique ((fun ns => ns +:+ ":*") <$> service_names remove))] |}.
Proof.
  intros Hne Hf. set (acts := (fun ns => ns +:+ ":*") <$> service_names remove).
  assert (exclusion_actions remove = Ok acts) as Ha by (by apply exclusion_actions_spec).
  assert (Forall valid_utf8 (sortedUnique acts)) as Hv.
  { apply Forall_forall. intros a Hin. rewrite elem_of_sortedUnique in Hin. unfold acts in Hin.
    apply list_elem_of_fmap in Hin as (ns & -> & Hns). rewrite Forall_forall in Hf. apply Hf in Hns.
    apply reService_facts in Hns as (_ & _ & Hns & _). apply valid_utf8_app; [done|]. by apply ascii_valid. }
  destruct (exclusion_value_ok (sortedUnique acts) Hv) as (Hg & Hh & Ev).
  pose proof (Marshal_parse _ Hg Hh) as Hp. apply parseJSON_wf in Hp as [Hwf Hht]. rewrite Ev in Hwf, Hht.
  destruct (decode_exclusion_statement (sortedUnique acts)) as [raw Hraw].
  exists (writeCanonical (JObject (exclusion_json (sortedUnique acts)))), raw. split.
  - eapply ExcludeOnlyDocument_Ok; [done..|]. rewrite CanonicalizeValue_ok, Ev by done. done.
  - apply decode_canonical_object; [done..|].
    change (exclusion_json (sortedUnique acts)) with
      [("Statement", JArray [JObject (exclusion_members (sortedUnique acts))]); ("Version", JString PolicyVersion20121017)].
    revert Hraw. generalize (JObject (exclusion_members (sortedUnique acts))). intros v Hv'. cbn. by rewrite Hv'.
Qed.

Lemma exclusion_allows raw names ns act :
  Forall (fun n => reService n = true) names -> lacks ":" ns = true -> lacks ":" act = true ->
  allows (exclusion_statement raw (sortedUnique ((fun n => n +:+ ":*") <$> names))) (action_of ns act) <-> ToLower ns ∉ names.
Proof.
  intros Hf Hns Hact. unfold allows. cbn [exclusion_statement st_Effect st_IsNotAction st_NotAction].
  rewrite Forall_forall. setoid_rewrite elem_of_sortedUnique. setoid_rewrite list_elem_of_fmap.
  rewrite Forall_forall in Hf. split.
  - intros [_ H] Hin. apply (H (ToLower ns +:+ ":*")); [by exists (ToLower ns)|]. apply exclusion_matches; auto.
  - intros Hn. split; [done|]. intros p (n & -> & Hin) Hm. apply exclusion_matches in Hm; [|by apply Hf|done..]. by subst.
Qed.

(** A namespace is covered whole by [n:*] exactly when it is [n]. *)
Lemma exclusion_covers n ns :
  reService n = true -> lacks ":" ns = true -> no_star ns = true ->
  patternCoversWholeNamespace (n +:+ ":*") ns = true <-> ToLower ns = n.
Proof.
  intros Hn Hns Hst. destruct (reService_facts n Hn) as (Hne & Hl & _ & Hk & _ & Hq).
  unfold patternCoversWholeNamespace.
  assert (allStars (n +:+ ":*") = false) as ->.
  { unfold allStars. rewrite (proj2 (andb_false_iff _ _)); [done|right].
    destruct n as [|c n]; [done|]. rewrite str_app_cons. cbn. cbn in Hq. apply orb_false_elim in Hq as [Hq _].
    apply bool_decide_eq_false in Hq. rewrite bool_decide_eq_false_2; [done|set_solver]. }
  assert (SplitAction (n +:+ ":*") = Some (n, "*")) as ->.
  { unfold SplitAction. change ":*" with (String ":" "*").
    assert (cut_byte ":" (n +:+ String ":" "*") = Some (n, "*")) as ->.
    { clear -Hk. induction n as [|c n IH]; [done|]. rewrite str_app_cons. cbn in Hk |- *.
      apply andb_prop in Hk as [Hc Hk]. apply negb_true_iff in Hc. by rewrite Hc, IH. }
    unfold is_empty. by destruct (String.eqb_spec n ""). }
  cbn [orb andb allStars is_empty only_stars]. change (allStars "*") with true. cbn [andb].
  rewrite globMatch_spec, Hl by done. split.
  - intros Hg. by apply globs_literal in Hg.
  - intros ->. by apply globs_same.
Qed.

(** The exclusion-only boundary takes away exactly the selected namespaces:
    for a non-empty list of service names (up to case and surrounding space) it
    is built, its text decodes, it allows an action exactly when the action's
    namespace is not in the list, and [BoundaryExcludes] reports exactly the
    listed namespaces; for any other list no document is produced. *)
Theorem exclude_only_exact remove :
  (remove = [] \/ Exists (fun ns => reService ns = false) (service_names remove) ->
   is_Ok (ExcludeOnlyDocument remove) = false) /\
  (remove <> [] -> Forall (fun ns => reService ns = true) (service_names remove) ->
   exists c doc, ExcludeOnlyDocument remove = Ok (c, ContentHash c) /\ DecodePolicyDocument c = Ok doc /\
     forall ns, lacks ":" ns = true -> no_star ns = true ->
       (forall act, lacks ":" act = true ->
          Exists (fun st => allows st (action_of ns act)) (doc_Statements doc) <-> ToLower ns ∉ service_names remove) /\
       (BoundaryExcludes doc ns = true <-> ToLower ns ∈ service_names remove)).
Proof.
  split.
  - intros H. destruct (ExcludeOnlyDocument remove) as [[c h]|] eqn:E; [|done]. exfalso.
    destruct H as [->|H]; [done|]. destruct remove as [|r rs]; [done|]. unfold ExcludeOnlyDocument in E.
    apply bind_Ok in E as (acts & [Hf _]%exclusion_actions_spec & _). apply Exists_exists in H as (x & Hx & Hn).
    rewrite Forall_forall in Hf. rewrite (Hf x Hx) in Hn. done.
  - intros Hne Hf. destruct (exclude_only_decodes remove Hne Hf) as (c & raw & Hc & Hd).
    eexists c, _. split_and!; [exact Hc|exact Hd|]. intros ns Hns Hst. cbn [doc_Statements]. split.
    + intros act Hact. rewrite <- (exclusion_allows raw (service_names remove) ns act) by done.
      rewrite Exists_cons, Exists_nil. tauto.
    + clear Hc Hd. revert Hf. generalize (service_names remove). intros names Hf.
      unfold BoundaryExcludes. cbn [doc_Statements existsb]. rewrite orb_false_r, negb_true_iff.
      unfold GrantsNamespace. cbn [exclusion_statement st_Effect st_IsNotAction st_NotAction]. change (EffectAllow =? EffectAllow)%string with true.
      cbn [negb]. rewrite negb_false_iff, existsb_exists. setoid_rewrite <- list_elem_of_In.
      setoid_rewrite elem_of_sortedUnique. setoid_rewrite list_elem_of_fmap. rewrite Forall_forall in Hf. split.
      * intros (p & (n & -> & Hin) & Hcov). apply exclusion_covers in Hcov; [by subst|by apply Hf|done..].
      * intros Hin. eexists. split; [by exists (ToLower ns)|]. apply exclusion_covers; auto.
Qed.

Lemma exclude_only_exact_witness :
  exists c doc, ExcludeOnlyDocument [" SQS "; "s3"] = Ok (c, ContentHash c) /\ DecodePolicyDocument c = Ok doc /\
    (BoundaryExcludes doc "sqs" = true <-> ToLower "sqs" ∈ service_names [" SQS "; "s3"]).
Proof.
  destruct (proj2 (exclude_only_exact [" SQS "; "s3"])) as (c & doc & Hc & Hd & H).
  - done.
  - repeat constructor.
  - exists c, doc. split_and!; [exact Hc|exact Hd|]. apply (H "sqs"); reflexivity.
Defined.

(** * What excluded means *)

(** Every Action pattern of the document is one IAM accepts. *)
Definition patterns_ok (doc : PolicyDocument) : Prop :=
  Forall (fun st => Forall pattern_ok (st_Action st)) (doc_Statements doc).

(** The boundary allows an action: no boundary allows everything. *)
Definition boundary_allows (doc : option PolicyDocument) (action : string) : Prop :=
  match doc with None => True | Some d => Exists (fun st => allows st action) (doc_Statements d) end.

Lemma excludes_sound d ns act :
  default True (patterns_ok <$> d) -> lacks ":" ns = true -> no_star ns = true -> lacks ":" act = true ->
  excludes d ns = true -> ~ boundary_allows d (action_of ns act).
Proof.
  destruct d as [d|]; cbn; [|done]. intros Hok Hns Hst Hact Hex (st & Hin & Hall)%Exists_exists.
  unfold BoundaryExcludes in Hex. apply negb_true_iff, not_true_iff_false in Hex. apply Hex, existsb_exists.
  exists st. split; [by apply list_elem_of_In|]. unfold patterns_ok in Hok. rewrite Forall_forall in Hok.
  eapply grants_of_allows; eauto.
Qed.

(** [ExclusionChanges] sorts the candidates by what the change does: a
    candidate is newly excluded, already excluded or no longer excluded exactly
    by whether each boundary excludes it, the lists are sorted, and after the
    change no action of a newly or already excluded namespace is allowed by any
    statement: a removal is never over-claimed. *)
Theorem exclusion_changes_sound before after candidates b a ch :
  decode_boundary before = Ok b -> decode_boundary after = Ok a ->
  default True (patterns_ok <$> a) ->
  ExclusionChanges before after candidates = Ok ch ->
  (forall ns, (ns ∈ newly ch <-> ns ∈ candidates /\ excludes b ns = false /\ excludes a ns = true) /\
              (ns ∈ already ch <-> ns ∈ candidates /\ excludes b ns = true /\ excludes a ns = true) /\
              (ns ∈ unexcluded ch <-> ns ∈ candidates /\ excludes b ns = true /\ excludes a ns = false)) /\
  (forall ns act, ns ∈ newly ch ++ already ch -> lacks ":" ns = true -> no_star ns = true -> lacks ":" act = true ->
     ~ boundary_allows a (action_of ns act)).
Proof.
  intros Hb Ha Hok H. unfold ExclusionChanges in H. rewrite Hb in H. cbn [mbind result_bind] in H. rewrite Ha in H.
  injection H as <-. cbn [newly already unexcluded].
  assert (forall f ns, ns ∈ List.filter f (sortedUnique candidates) <-> ns ∈ candidates /\ f ns = true) as Hmem.
  { intros f ns. rewrite list_elem_of_In, filter_In, <- list_elem_of_In, elem_of_sortedUnique. done. }
  split.
  - intros ns. rewrite !Hmem, !andb_true_iff, !negb_true_iff. done.
  - intros ns act. rewrite elem_of_app, !Hmem, !andb_true_iff. intros Hin Hns Hst Hact.
    apply excludes_sound; [done..|]. tauto.
Qed.

Lemma exclusion_changes_sound_witness :
  let t := quoted "{'Statement':[{'Effect':'Allow','NotAction':['sqs:*'],'Resource':'*'}]}" in
  exists ch, ExclusionChanges None (Some t) ["sqs"; "s3"] = Ok ch /\ newly ch = ["sqs"] /\
    "sqs" ∈ newly ch.
Proof.
  eexists. split_and!; [vm_compute; reflexivity|reflexivity|].
  eapply (exclusion_changes_sound None
    (Some (quoted "{'Statement':[{'Effect':'Allow','NotAction':['sqs:*'],'Resource':'*'}]}")) ["sqs"; "s3"]).
  - reflexivity.
  - vm_compute. reflexivity.
  - cbn. repeat constructor.
  - vm_compute. reflexivity.
  - split_and!; [set_solver|reflexivity|vm_compute; reflexivity].
Defined.
