(* ===== verification/Narrow.v ===== *)
(** Structure-preserving narrowing of a customer boundary, with its subset proof
    (internal/igagov/compile.go). *)

From stdpp Require Import base list strings gmap sorting.
From Stdlib Require Import Ascii.
From S2P Require Import Prelude Slices Glob Float64 Utf8 Json JsonCanon Marshal Sha256 PolicyDoc Catalog Text Routes Hashes PolicyCanon Live Boundary.

Definition RefuseNotNarrowable : string := "customer_boundary_not_narrowable".
Definition RefuseNarrowedEmpty : string := "customer_boundary_would_be_empty".

(** * Narrowing *)

Definition NarrowKept : string := "kept".
Definition NarrowNarrowed : string := "narrowed".
Definition NarrowDeleted : string := "deleted".

(* src: internal/igagov/compile.go:537-543 (NarrowedStatement) *)
Record NarrowedStatement := {
  nws_Index : Z;
  nws_Sid : string;
  nws_Effect : string;
  nws_Result : string;
  nws_RemovedActions : list string
}.

(* src: internal/igagov/compile.go:548-552 (Narrowing) *)
Record Narrowing := {
  nw_Statements : list NarrowedStatement;
  nw_Changed : bool;
  nw_SubsetProof : bool
}.

(* src: internal/igagov/compile.go:557-560 (namespaceWildcard) *)
Definition namespaceWildcard (action : string) : bool :=
  match SplitAction action with
  | None => true
  | Some (ns, _) => ContainsAny ns ["*"%char; "?"%char]
  end.

(** A [map[string]json.RawMessage]: the members of a JSON object, each message
    held as the value its text denotes. *)
Abbreviation rawmap := (list (string * json)).

(** [json.Unmarshal] into such a map. *)
Definition unmarshal_map (text : string) : result rawmap :=
  v ← parseJSON text;
  match v with JObject ms => Ok ms | _ => Err (ErrOther "json: cannot unmarshal into a map") end.

(** [m[k] = v]. *)
Fixpoint map_set (k : string) (v : json) (m : rawmap) : rawmap :=
  match m with
  | [] => [(k, v)]
  | (k', v') :: m => if (k' =? k)%string then (k, v) :: m else (k', v') :: map_set k v m
  end.

(** [delete(m, k)]. *)
Definition map_delete (k : string) (m : rawmap) : rawmap :=
  List.filter (fun kv => negb (kv.1 =? k)%string) m.

(** What [json.Marshal] is given for such a map: its members by name. *)
Definition map_val (m : rawmap) : goval :=
  GStruct (map (fun kv => (kv.1, GRaw kv.2)) (sort_slice (less_by (fun kv : string * json => [kv.1])) m)).

(** The first entry of an Allow statement narrowing cannot handle. *)
(* src: internal/igagov/compile.go:574-586 (NarrowCustomerBoundary, refusals) *)
Definition not_narrowable (i : Z) (st : Statement) : option Refusal :=
  let pre := "statement " +:+ Itoa i +:+ " (" +:+ st_Sid st +:+ ") uses " in
  if negb (st_Effect st =? EffectAllow)%string then None
  else if st_IsNotAction st then Some (Build_Refusal RefuseNotNarrowable (pre +:+ "NotAction"))
  else match List.find namespaceWildcard (st_Action st) with
       | Some a => Some (Build_Refusal RefuseNotNarrowable (pre +:+ Quote a))
       | None => None
       end.

Fixpoint first_refusal (i : Z) (sts : list Statement) : option Refusal :=
  match sts with
  | [] => None
  | st :: sts => match not_narrowable i st with Some r => Some r | None => first_refusal (i + 1) sts end
  end.

(** The action is in a removed namespace. *)
Definition removed_by (remove : list string) (a : string) : bool :=
  bool_decide (ToLower (default "" (fst <$> SplitAction a)) ∈ (ToLower <$> remove)).

(** One statement: its record, and the surviving raw statement. *)
(* src: internal/igagov/compile.go:602-640 (NarrowCustomerBoundary, statements) *)
Definition narrow_statement (remove : list string) (i : Z) (st : Statement) : result (NarrowedStatement * option json) :=
  let rec res removed := {| nws_Index := i; nws_Sid := st_Sid st; nws_Effect := st_Effect st; nws_Result := res;
                            nws_RemovedActions := removed |} in
  if negb (st_Effect st =? EffectAllow)%string then
    raw ← parseJSON (st_Raw st); Ok (rec NarrowKept [], Some raw)
  else
    let removed := List.filter (removed_by remove) (st_Action st) in
    let remaining := List.filter (fun a => negb (removed_by remove a)) (st_Action st) in
    match removed, remaining with
    | [], _ => raw ← parseJSON (st_Raw st); Ok (rec NarrowKept [], Some raw)
    | _, [] => Ok (rec NarrowDeleted removed, None)
    | _, _ =>
        m ← unmarshal_map (st_Raw st);
        Ok (rec NarrowNarrowed removed, Some (JObject (map_set "Action" (JArray (map JString remaining)) m)))
    end.

Fixpoint narrow_statements (remove : list string) (i : Z) (sts : list Statement)
  : result (list (NarrowedStatement * option json)) :=
  match sts with
  | [] => Ok []
  | st :: sts =>
      x ← narrow_statement remove i st;
      xs ← narrow_statements remove (i + 1) sts;
      Ok (x :: xs)
  end.

(* src: internal/igagov/compile.go:709-721 (withoutAction) *)
Definition withoutAction (raw : string) : string :=
  let invalid := String "000" "invalid" in
  match unmarshal_map raw with
  | Err _ => invalid
  | Ok m => match CanonicalizeValue (map_val (map_delete "Action" m)) with Ok c => c | Err _ => invalid end
  end.

(** The entries of [l] occur in [o], in order: the [k] loop. *)
Fixpoint skip_to (a : string) (o : list string) : option (list string) :=
  match o with [] => None | x :: o => if (x =? a)%string then Some o else skip_to a o end.

Fixpoint ordered_subset (l o : list string) : bool :=
  match l with
  | [] => true
  | a :: l => match skip_to a o with Some o => ordered_subset l o | None => false end
  end.

(** The loop over the records; [orig] and [got] are the statements not yet
    reached. *)
Fixpoint subset_loop (recs : list NarrowedStatement) (orig got : list Statement) : bool :=
  match recs, orig with
  | [], _ => match got with [] => true | _ => false end
  | rec :: recs, o :: orig =>
      if (nws_Result rec =? NarrowDeleted)%string then subset_loop recs orig got
      else match got with
      | [] => false
      | g :: got =>
          (withoutAction (st_Raw o) =? withoutAction (st_Raw g))%string &&
          eqb (st_IsNotAction o) (st_IsNotAction g) &&
          ordered_subset (st_Action g) (st_Action o) &&
          negb ((nws_Result rec =? NarrowKept)%string &&
                negb (length (st_Action g) =? length (st_Action o))%nat) &&
          subset_loop recs orig got
      end
  | _ :: _, [] => false
  end.

(* src: internal/igagov/compile.go:674-707 (subsetProof) *)
Definition subsetProof (orig : PolicyDocument) (narrowed : string) (n : Narrowing) : bool :=
  match DecodePolicyDocument narrowed with
  | Err _ => false
  | Ok got => subset_loop (nw_Statements n) (doc_Statements orig) (doc_Statements got)
  end.

Definition is_object (v : option json) : bool := match v with Some (JObject _) => true | _ => false end.

(** The statement member of the narrowed document. *)
Definition narrowed_member (wasObject : bool) (kept : list json) : json :=
  match wasObject, kept with true, [v] => v | _, _ => JArray kept end.

(* src: internal/igagov/compile.go:569-669 (NarrowCustomerBoundary) *)
Definition NarrowCustomerBoundary (text : string) (remove : list string)
  : result (Refusal + (string * string * Narrowing)) :=
  doc ← DecodePolicyDocument text;
  match first_refusal 0 (doc_Statements doc) with
  | Some r => Ok (inl r)
  | None =>
      raw ← DecodePolicyText text;
      top ← match unmarshal_map raw with Ok m => Ok m | Err _ => derr "not a map" end;
      let wasObject := is_object (assoc "Statement" top) in
      xs ← narrow_statements remove 0 (doc_Statements doc);
      let kept := omap snd xs in
      match kept with
      | [] => Ok (inl (Build_Refusal RefuseNarrowedEmpty "every statement of the boundary would be deleted"))
      | _ =>
          c ← CanonicalizeValue (map_val (map_set "Statement" (narrowed_member wasObject kept) top));
          _ ← checkStorable c;
          let n := {| nw_Statements := xs.*1;
                      nw_Changed := existsb (fun r => negb (nws_Result r =? NarrowKept)%string) xs.*1;
                      nw_SubsetProof := false |} in
          if subsetProof doc c n then
            Ok (inr (c, ContentHash c, {| nw_Statements := nw_Statements n; nw_Changed := nw_Changed n;
                                          nw_SubsetProof := true |}))
          else Err (ErrOther "igagov: narrowing produced a document that is not a subset of the original")
      end
  end.

(** * Raw maps *)

#[local] Opaque CanonicalizeValue ContentHash writeCanonical.

Lemma map_set_keys k v m : k ∈ m.*1 -> (map_set k v m).*1 = m.*1.
Proof.
  induction m as [|[k' v'] m IH]; cbn; [set_solver|]. destruct (String.eqb_spec k' k) as [->|Hk]; [done|].
  intros [?|?]%elem_of_cons; [congruence|]. cbn. f_equal. by apply IH.
Qed.

Lemma assoc_map_set K k v (m : rawmap) :
  assoc K (map_set k v m) = if (K =? k)%string then Some v else assoc K m.
Proof.
  induction m as [|[k' v'] m IH]; cbn; [done|].
  destruct (String.eqb_spec k' k) as [->|Hk]; cbn; [by destruct (K =? k)%string|].
  rewrite IH. destruct (String.eqb_spec K k') as [->|]; [|done]. by destruct (String.eqb_spec k' k).
Qed.

Lemma map_delete_cons k k' v' m :
  map_delete k ((k', v') :: m) = if (k' =? k)%string then map_delete k m else (k', v') :: map_delete k m.
Proof. unfold map_delete. cbn. by destruct (k' =? k)%string. Qed.

Lemma map_delete_set k v m : map_delete k (map_set k v m) = map_delete k m.
Proof.
  induction m as [|[k' v'] m IH]; cbn [map_set].
  - by rewrite map_delete_cons, String.eqb_refl.
  - destruct (k' =? k)%string eqn:E.
    + apply String.eqb_eq in E as ->. by rewrite !map_delete_cons, String.eqb_refl.
    + by rewrite !map_delete_cons, E, IH.
Qed.

Lemma map_delete_norm k m : map_delete k (map (map_snd norm) m) = map (map_snd norm) (map_delete k m).
Proof.
  induction m as [|[k' v'] m IH]; [done|]. cbn [map]. unfold map_snd at 1. cbn [fst snd].
  rewrite !map_delete_cons, IH. by destruct (k' =? k)%string.
Qed.

Lemma Forall_map_set (P : string * json -> Prop) k v m : P (k, v) -> Forall P m -> Forall P (map_set k v m).
Proof.
  intros Hv. induction 1 as [|[k' v'] m Hx Hm IH]; cbn; [by repeat constructor|].
  destruct (k' =? k)%string; by constructor.
Qed.

Lemma height_object_le n ms : (forall m, m ∈ ms -> (S (height m.2) <= n)%nat) -> (height (JObject ms) <= n)%nat.
Proof.
  induction ms as [|m ms IH]; intros H; [cbn; lia|]. rewrite height_object.
  assert (S (height m.2) <= n)%nat by (apply H; left). assert (height (JObject ms) <= n)%nat; [|lia].
  apply IH. intros x Hx. apply H. by right.
Qed.

Lemma map_delete_sub k m : map_delete k m `sublist_of` m.
Proof.
  induction m as [|[k' v'] m IH]; [done|]. rewrite map_delete_cons.
  destruct (k' =? k)%string; [by apply sublist_cons|by apply sublist_skip].
Qed.

Lemma wf_map_delete k m :
  wf_json (JObject m) -> wf_json (JObject (map_delete k m)) /\ (height (JObject (map_delete k m)) <= height (JObject m))%nat.
Proof.
  inversion 1 as [| | | | |? Hnd Hv Hw]; subst. pose proof (map_delete_sub k m) as Hs. split.
  - constructor.
    + eapply sublist_NoDup; [done|by apply fmap_sublist].
    + rewrite Forall_forall in *. intros x Hx. apply Hv. by eapply elem_of_sublist.
    + rewrite Forall_forall in *. intros x Hx. apply Hw. by eapply elem_of_sublist.
  - apply height_object_le. intros x Hx. apply height_object_in. by eapply elem_of_sublist.
Qed.

(** Member order and normalised members do not show in canonical text. *)
Lemma write_object_perm m m' :
  NoDup m.*1 -> Forall (fun x => valid_utf8 x.1) m -> m ≡ₚ m' ->
  writeCanonical (JObject (map (map_snd norm) m')) = writeCanonical (JObject m).
Proof.
  intros Hnd Hv Hp. rewrite <- (write_norm (JObject m)). cbn [norm].
  rewrite (sort_members_unique _ (map (map_snd norm) m')).
  - rewrite !object_text, (sort_slice_idem member_less). done.
  - by rewrite map_snd_fst.
  - by apply Forall_map.
  - by rewrite Hp.
Qed.

(** Marshalling a raw map and canonicalising the text gives the canonical text
    of the object. *)
Lemma map_val_text m :
  wf_json (JObject m) -> (height (JObject m) <= maxJSONDepth)%nat ->
  CanonicalizeValue (map_val m) = Ok (writeCanonical (JObject m)).
Proof.
  intros Hwf Hh. inversion Hwf as [| | | | |? Hnd Hv Hw]; subst. unfold map_val.
  set (less := less_by _). pose proof (sort_slice_perm less m) as Hp. set (s := sort_slice less m) in *.
  assert (map (fun kv : string * json => (kv.1, GRaw kv.2)) s = map (map_snd GRaw) s) as -> by done.
  assert (forall x, x ∈ s -> valid_utf8 x.1 /\ wf_json x.2 /\ (S (height x.2) <= maxJSONDepth)%nat) as Hs.
  { rewrite Forall_forall in Hv, Hw. intros x. rewrite Hp. intros Hx. split_and!; auto.
    etrans; [by apply height_object_in|done]. }
  assert (map (fun x : string * goval => sanitize x.1) (map (map_snd GRaw) s) = s.*1) as Hk.
  { rewrite map_map. apply map_ext_Forall, Forall_forall. intros x Hx. by apply sanitize_id, Hs. }
  rewrite CanonicalizeValue_ok.
  - f_equal. cbn [value_of]. rewrite map_map.
    assert (map (fun x => (sanitize (map_snd GRaw x).1, value_of (map_snd GRaw x).2)) s = map (map_snd norm) s) as ->.
    { apply map_ext_Forall, Forall_forall. intros x Hx. unfold map_snd. cbn [fst snd value_of]. by rewrite sanitize_id by apply Hs, Hx. }
    by apply write_object_perm.
  - constructor; [rewrite Hk; by rewrite Hp|]. apply Forall_map, Forall_forall. intros x Hx. constructor. by apply Hs.
  - clear Hk Hp. induction s as [|x s IH]; [cbn; lia|]. cbn [map]. rewrite gheight_struct.
    destruct (Hs x) as (_ & _ & Hx); [left|]. unfold map_snd at 1. cbn [snd].
    change (gheight (GRaw x.2)) with (height x.2).
    assert (gheight (GStruct (map (map_snd GRaw) s)) <= maxJSONDepth)%nat as Hr; [|clear -Hx Hr; lia]. apply IH. intros y Hy. apply Hs. by right.
Qed.

(** The comparison text of a statement: its object without Action. *)
Lemma withoutAction_text m :
  wf_json (JObject m) -> (height (JObject m) <= maxJSONDepth)%nat ->
  withoutAction (writeCanonical (JObject m)) = writeCanonical (JObject (map_delete "Action" m)).
Proof.
  intros Hwf Hh. unfold withoutAction, unmarshal_map. rewrite parse_canonical, object_norm by done.
  cbn [mbind result_bind].
  assert (parseJSON (writeCanonical (JObject m)) = Ok (norm (JObject m))) as [Hwn Hhn]%parseJSON_wf by (by apply parse_canonical).
  rewrite object_norm in Hwn, Hhn. destruct (wf_map_delete "Action" _ Hwn) as [Hwd Hhd].
  rewrite map_val_text by (done || lia). rewrite map_delete_norm.
  destruct (wf_map_delete "Action" _ Hwf) as [Hw' _]. inversion Hw' as [| | | | |? Hnd Hv _]; subst.
  apply write_object_perm; [done..|]. unfold map_delete. apply filter_perm. by rewrite sort_slice_perm.
Qed.

Lemma height_norm v : height (norm v) = height v.
Proof.
  induction v as [| | | |l IH|ms IH] using json_ind'; try done.
  - cbn [norm]. induction IH as [|v l Hv _ IHl]; [done|]. cbn [map]. by rewrite !height_array, Hv, IHl.
  - rewrite object_norm. rewrite <- (height_object_perm _ _ (sort_slice_perm member_less ms)).
    rewrite <- (sort_slice_perm member_less ms) in IH.
    induction IH as [|m l Hm _ IHl]; [done|]. cbn [map]. by rewrite !height_object, IHl, <- Hm.
Qed.

Lemma norm_wf v : wf_json v -> (height v <= maxJSONDepth)%nat -> wf_json (norm v).
Proof.
  intros Hwf Hh. assert (parseJSON (writeCanonical v) = Ok (norm v)) as [? _]%parseJSON_wf by (by apply parse_canonical).
  done.
Qed.

(** * Ordered subsets *)

Lemma ordered_subset_sublist l o : l `sublist_of` o -> ordered_subset l o = true.
Proof.
  revert l. induction o as [|x o IH]; intros [|a l] Hs; try done; [by inversion Hs|].
  cbn [ordered_subset skip_to]. destruct (String.eqb_spec x a) as [->|Hx].
  - apply IH. inversion Hs as [| |? ? ? Hs']; subst; [done|]. etrans; [|exact Hs']. by apply sublist_cons.
  - assert (a :: l `sublist_of` o) as Hs' by (inversion Hs; subst; done). exact (IH (a :: l) Hs').
Qed.

(** * One statement *)

Definition set_Raw x '(Build_Statement a b c d e f g h i j _ l) := Build_Statement a b c d e f g h i j x l.

(** What narrowing makes of a statement, its raw text apart: Deny statements
    and untouched Allow statements stay, an Allow keeps the actions outside the
    removed namespaces, and one left with none is deleted. *)
Definition narrowed (remove : list string) (st : Statement) : option Statement :=
  if negb (st_Effect st =? EffectAllow)%string then Some st
  else match List.filter (removed_by remove) (st_Action st),
             List.filter (fun a => negb (removed_by remove a)) (st_Action st) with
       | _ :: _, [] => None
       | _, remaining => Some (set_Action remaining st)
       end.

(** The checks [subsetProof] makes on one surviving statement. *)
Definition statement_check (rec : NarrowedStatement) (o g : Statement) : bool :=
  (withoutAction (st_Raw o) =? withoutAction (st_Raw g))%string &&
  eqb (st_IsNotAction o) (st_IsNotAction g) &&
  ordered_subset (st_Action g) (st_Action o) &&
  negb ((nws_Result rec =? NarrowKept)%string && negb (length (st_Action g) =? length (st_Action o))%nat).

Lemma statement_check_same rec st : statement_check rec st st = true.
Proof.
  unfold statement_check. rewrite String.eqb_refl, eqb_reflx, ordered_subset_sublist, Nat.eqb_refl by done.
  cbn. by rewrite andb_false_r.
Qed.

Lemma forallb_Forall {A} (f : A -> bool) l : forallb f l = true <-> Forall (fun x => f x = true) l.
Proof. rewrite forallb_forall, Forall_forall. by setoid_rewrite <- list_elem_of_In. Qed.

Lemma look_map_set {A} (dec : json -> result A) K k v m :
  look dec K (map_set k v m) = if (K =? k)%string then ok_value (dec v) else look dec K m.
Proof. unfold look. rewrite assoc_map_set. by destruct (K =? k)%string. Qed.

Lemma stringOrArray_strings name l : stringOrArray (JArray (map JString l)) name = Ok l.
Proof. apply mapM_decode_strings. Qed.

(** Replacing a present Action member changes the decoded Action, and the raw
    text, only. *)
Lemma statement_of_set_action raw raw' l m :
  "Action" ∈ m.*1 ->
  statement_of raw' (map_set "Action" (JArray (map JString l)) m) = set_Raw raw' (set_Action l (statement_of raw m)).
Proof.
  intros Hk. unfold statement_of, partial_statement, unknown_names.
  rewrite !look_map_set, !assoc_map_set, map_set_keys by done.
  rewrite stringOrArray_strings. done.
Qed.

Lemma statement_checks_set_action l m :
  "Action" ∈ m.*1 -> statement_checks (map_set "Action" (JArray (map JString l)) m) = statement_checks m.
Proof.
  intros Hk. unfold statement_checks. rewrite !look_map_set, !assoc_map_set. cbn [String.eqb Ascii.eqb Bool.eqb].
  destruct (assoc "Action" m) as [v|] eqn:E; [|by apply assoc_None in E].
  assert (bool_decide (is_Some (Some v)) = true) as -> by (by apply bool_decide_eq_true).
  done.
Qed.

Lemma decode_set_action l m st :
  NoDup m.*1 -> "Action" ∈ m.*1 -> decodeStatement (JObject m) = Ok st ->
  let u := JObject (map_set "Action" (JArray (map JString l)) m) in
  decodeStatement u = Ok (set_Raw (writeCanonical u) (set_Action l st)).
Proof.
  intros Hnd Hk (Hall & Hch & ->)%decodeStatement_spec; [|done]. cbn zeta.
  apply decodeStatement_spec; [by rewrite map_set_keys|]. split_and!.
  - rewrite forallb_Forall in *. apply Forall_map_set; [|done]. unfold member_ok. cbn [String.eqb Ascii.eqb Bool.eqb].
    by rewrite stringOrArray_strings.
  - by rewrite statement_checks_set_action.
  - symmetry. by apply statement_of_set_action.
Qed.

Lemma stringOrArray_wf v name l : wf_json v -> stringOrArray v name = Ok l -> Forall valid_utf8 l.
Proof.
  intros Hwf. destruct v as [| | |s|vs|]; try done; cbn.
  - intros [= <-]. inversion Hwf; subst. by repeat constructor.
  - intros H%mapM_Ok. inversion Hwf as [| | | |? Hvs|]; subst. clear Hwf.
    induction H as [|x a vs l Hx _ IH]; [constructor|]. apply Forall_cons in Hvs as [Hwx Hvs].
    destruct x as [| | |s| |]; try discriminate Hx. injection Hx as <-. inversion Hwx; subst. constructor; auto.
Qed.

(** The Action member behind the decoded actions. *)
Lemma action_member m st :
  NoDup m.*1 -> decodeStatement (JObject m) = Ok st -> st_IsNotAction st = false ->
  exists v, ("Action", v) ∈ m /\ stringOrArray v "Action" = Ok (st_Action st).
Proof.
  intros Hnd (Hall & Hch & ->)%decodeStatement_spec Hn; [|done]. unfold statement_of, partial_statement, look in *.
  cbn in Hn |- *. unfold statement_checks in Hch. rewrite Hn in Hch.
  destruct (assoc "Action" m) as [v|] eqn:E.
  - apply assoc_elem in E; [|done]. exists v. split; [done|]. rewrite forallb_Forall, Forall_forall in Hall.
    specialize (Hall _ E). cbn in Hall. cbn. by destruct (stringOrArray v "Action").
  - exfalso. rewrite (bool_decide_eq_false_2 (is_Some None)) in Hch by (by intros [? ?]).
    cbn in Hch. by rewrite andb_false_r in Hch.
Qed.

Lemma set_Raw_Action raw l st : set_Raw "" (set_Raw raw (set_Action l st)) = set_Raw "" (set_Action l st).
Proof. by destruct st. Qed.

Lemma set_Action_same st : set_Action (st_Action st) st = st.
Proof. by destruct st. Qed.

(** What one step of the narrowing loop does to the statement [st] of value
    [v]: the record, and a well-formed surviving value that decodes to the
    narrowed statement and passes the subset check. *)
Definition narrows (remove : list string) (v : json) (st : Statement) (x : NarrowedStatement * option json) : Prop :=
  match x.2 with
  | None => narrowed remove st = None /\ nws_Result x.1 = NarrowDeleted
  | Some u =>
      wf_json u /\ (height u <= height v)%nat /\ is_object (Some u) = true /\ nws_Result x.1 <> NarrowDeleted /\
      exists g, decodeStatement u = Ok g /\ set_Raw "" <$> narrowed remove st = Some (set_Raw "" g) /\
        statement_check x.1 st g = true
  end.

Lemma height_strings l : (height (JArray (map JString l)) <= 1)%nat.
Proof.
  induction l as [|a l IH]; [cbn; lia|]. cbn [map]. rewrite height_array. change (height (JString a)) with O. lia.
Qed.

(** An Action some of whose entries can be removed is an array. *)
Lemma action_array v l o :
  stringOrArray v "Action" = Ok o -> l `sublist_of` o -> l <> [] -> l <> o -> (1 <= height v)%nat.
Proof.
  intros Hv Hs Hne Hne'. destruct v as [| | |s|vs|]; try discriminate Hv; cbn in Hv.
  - injection Hv as <-. exfalso. apply sublist_cons_r in Hs as [->%sublist_nil_r|(l' & -> & ->%sublist_nil_r)]; done.
  - destruct vs as [|w vs]; [|rewrite height_array; lia]. injection Hv as <-. by apply sublist_nil_r in Hs.
Qed.

Lemma set_action_shape m l av :
  wf_json (JObject m) -> ("Action", av) ∈ m -> Forall valid_utf8 l -> (1 <= height av)%nat ->
  let u := JObject (map_set "Action" (JArray (map JString l)) m) in
  wf_json u /\ (height u <= height (JObject m))%nat.
Proof.
  intros Hwf Hav Hl H1. inversion Hwf as [| | | | |? Hnd Hval Hw]; subst. cbn zeta.
  assert ("Action" ∈ m.*1) as Hk by (apply list_elem_of_fmap; by exists ("Action", av)). split.
  - constructor; [by rewrite map_set_keys| |].
    + apply Forall_map_set; [by apply ascii_valid|done].
    + apply Forall_map_set; [|done]. constructor. apply Forall_map. eapply Forall_impl; [exact Hl|]. by constructor.
  - apply height_object_le, Forall_forall, Forall_map_set.
    + pose proof (height_strings l). apply height_object_in in Hav. cbn [snd] in *. lia.
    + apply Forall_forall. intros y Hy. by apply height_object_in.
Qed.

Lemma withoutAction_set m l av :
  wf_json (JObject m) -> (height (JObject m) <= maxJSONDepth)%nat -> ("Action", av) ∈ m -> Forall valid_utf8 l ->
  (1 <= height av)%nat ->
  withoutAction (writeCanonical (JObject (map_set "Action" (JArray (map JString l)) m))) =
  withoutAction (writeCanonical (JObject m)).
Proof.
  intros Hwf Hh Hav Hl H1. destruct (set_action_shape m l av Hwf Hav Hl H1) as [Hwu Hhu].
  rewrite !withoutAction_text by (done || lia). by rewrite map_delete_set.
Qed.

Section OneStatement.
Context (remove : list string) (i : Z) (v : json) (st : Statement).
Hypothesis Hwf : wf_json v.
Hypothesis Hh : (height v <= maxJSONDepth)%nat.
Hypothesis Hd : decodeStatement v = Ok st.

Lemma raw_parses : exists m, parseJSON (st_Raw st) = Ok (JObject m) /\ norm v = JObject m.
Proof.
  destruct v as [| | | | |ms]; try discriminate Hd. inversion Hwf as [| | | | |? Hnd _ _]; subst.
  assert (st_Raw st = writeCanonical (JObject ms)) as ->.
  { by apply decodeStatement_spec in Hd as (_ & _ & ->). }
  rewrite parse_canonical by done. eexists. split; [reflexivity|]. cbn [norm]. done.
Qed.

Lemma kept_narrows m rec :
  norm v = JObject m -> nws_Result rec = NarrowKept -> narrowed remove st = Some st ->
  narrows remove v st (rec, Some (JObject m)).
Proof.
  intros Hn Hr Hs. unfold narrows. cbn [fst snd]. rewrite <- Hn.
  split_and!; [by apply norm_wf|by rewrite height_norm|by rewrite Hn|by rewrite Hr|].
  exists st. split_and!; [by apply decodeStatement_norm|by rewrite Hs|apply statement_check_same].
Qed.

Lemma narrowed_narrows m rec l :
  norm v = JObject m -> nws_Result rec = NarrowNarrowed -> st_IsNotAction st = false ->
  l `sublist_of` st_Action st -> l <> [] -> l <> st_Action st -> narrowed remove st = Some (set_Action l st) ->
  narrows remove v st (rec, Some (JObject (map_set "Action" (JArray (map JString l)) m))).
Proof.
  intros Hn Hr Hna Hsub Hne Hne' Hs. unfold narrows. cbn [fst snd].
  pose proof (norm_wf v Hwf Hh) as Hwm. pose proof (decodeStatement_norm v st Hwf Hd) as Hdm.
  rewrite <- (height_norm v) in Hh |- *. rewrite Hn in Hwm, Hdm, Hh |- *.
  inversion Hwm as [| | | | |? Hnd Hval Hw]; subst.
  destruct (action_member m st Hnd Hdm Hna) as (av & Hav & Hsa).
  assert ("Action" ∈ m.*1) as Hk by (apply list_elem_of_fmap; by exists ("Action", av)).
  pose proof (action_array _ _ _ Hsa Hsub Hne Hne') as H1.
  assert (Forall valid_utf8 l) as Hl.
  { rewrite Forall_forall in Hw. pose proof (stringOrArray_wf _ _ _ (Hw _ Hav) Hsa) as Hv. rewrite Forall_forall in Hv.
    apply Forall_forall. intros a Ha. apply Hv. by eapply elem_of_sublist. }
  destruct (set_action_shape m l av Hwm Hav Hl H1) as [Hwu Hhu].
  split_and!; [done..|by rewrite Hr|]. eexists. split_and!; [by apply decode_set_action|by rewrite Hs, set_Raw_Action|].
  assert (st_Raw st = writeCanonical (JObject m)) as Hraw.
  { by apply decodeStatement_spec in Hdm as (_ & _ & ->). }
  pose proof (withoutAction_set m l av Hwm Hh Hav Hl H1) as Hwo. rewrite <- Hraw in Hwo.
  unfold statement_check. rewrite Hr. change (NarrowNarrowed =? NarrowKept)%string with false. cbn [andb negb].
  revert Hwo. generalize (writeCanonical (JObject (map_set "Action" (JArray (map JString l)) m))). intros raw' Hwo.
  clear -Hsub Hwo. destruct st. cbn in *. by rewrite Hwo, String.eqb_refl, eqb_reflx, ordered_subset_sublist.
Qed.

Lemma narrow_statement_ok :
  not_narrowable i st = None ->
  exists x, narrow_statement remove i st = Ok x /\ narrows remove v st x.
Proof.
  intros Hnn. destruct raw_parses as (m & Hp & Hn). unfold narrow_statement, unmarshal_map. rewrite Hp. cbn zeta.
  cbn [mbind result_bind]. unfold not_narrowable in Hnn. cbn zeta in Hnn.
  destruct (negb (st_Effect st =? EffectAllow)%string) eqn:He.
  { eexists. split; [reflexivity|]. apply kept_narrows; [done..|]. unfold narrowed. by rewrite He. }
  destruct (st_IsNotAction st) eqn:Hna; [discriminate|].
  destruct (List.filter (removed_by remove) (st_Action st)) as [|r rs] eqn:Er.
  { eexists. split; [reflexivity|]. apply kept_narrows; [done..|]. unfold narrowed. rewrite He, Er.
    assert (List.filter (fun a => negb (removed_by remove a)) (st_Action st) = st_Action st) as ->.
    { apply filter_all. intros a Ha. by rewrite (filter_nil_false _ _ Er a Ha). }
    by rewrite set_Action_same. }
  destruct (List.filter (fun a => negb (removed_by remove a)) (st_Action st)) as [|k ks] eqn:Ek.
  { eexists. split; [reflexivity|]. split; [|done]. unfold narrowed. by rewrite He, Er, Ek. }
  eexists. split; [reflexivity|]. apply narrowed_narrows; try done.
  - rewrite <- Ek. apply filter_sublist.
  - rewrite <- Ek. intros Heq. assert (r ∈ List.filter (removed_by remove) (st_Action st)) as Hr by (rewrite Er; left).
    apply list_elem_of_In, filter_In in Hr as [Hr Hrr]. rewrite <- Heq in Hr. apply filter_In in Hr as [_ Hr].
    by rewrite Hrr in Hr.
  - unfold narrowed. by rewrite He, Er, Ek.
Qed.
End OneStatement.

(** * The document *)

(** Lists of narrowed statements, raw text apart. *)
Definition narrowed_all (remove : list string) (sts : list Statement) : list Statement :=
  omap (fun st => set_Raw "" <$> narrowed remove st) sts.

Lemma narrow_statements_ok remove i l sts :
  Forall2 (fun v st => decodeStatement v = Ok st) l sts -> Forall wf_json l ->
  Forall (fun v => (height v <= maxJSONDepth)%nat) l -> first_refusal i sts = None ->
  exists xs, narrow_statements remove i sts = Ok xs /\ Forall3 (narrows remove) l sts xs.
Proof.
  intros H. revert i. induction H as [|v st l sts Hv _ IH]; intros i Hwf Hh Hr.
  - exists []. split; [done|constructor].
  - apply Forall_cons in Hwf as [Hwv Hwf], Hh as [Hhv Hh]. cbn in Hr.
    destruct (not_narrowable i st) eqn:En; [discriminate|].
    destruct (narrow_statement_ok remove i v st Hwv Hhv Hv En) as (x & Hx & Hn).
    destruct (IH (i + 1) Hwf Hh Hr) as (xs & Hxs & Hall). exists (x :: xs). split; [|by constructor].
    cbn. rewrite Hx. cbn. by rewrite Hxs.
Qed.

Lemma narrows_kept remove l sts xs :
  Forall3 (narrows remove) l sts xs ->
  Forall wf_json (omap snd xs) /\
  (forall n, Forall (fun v => (height v <= n)%nat) l -> Forall (fun v => (height v <= n)%nat) (omap snd xs)) /\
  Forall (fun u => is_object (Some u) = true) (omap snd xs) /\
  exists gs, mapM decodeStatement (omap snd xs) = Ok gs /\ set_Raw "" <$> gs = narrowed_all remove sts /\
    subset_loop xs.*1 sts gs = true.
Proof.
  induction 1 as [|v st [rec w] l sts xs Hx _ (IHw & IHh & IHo & gs & IHd & IHs & IHp)].
  { split_and!; try constructor. exists []. done. }
  unfold narrows in Hx. cbn [fst snd] in Hx. destruct w as [u|].
  - destruct Hx as (Hw & Hh & Ho & Hr & g & Hg & Hn & Hc).
    change (omap snd ((rec, Some u) :: xs)) with (u :: omap snd xs). split_and!.
    + by constructor.
    + intros n [Hv Hl]%Forall_cons. constructor; [lia|by apply IHh].
    + by constructor.
    + exists (g :: gs). split_and!.
      * rewrite mapM_cons, Hg. cbn. by rewrite IHd.
      * unfold narrowed_all. cbn. rewrite Hn. cbn. by f_equal.
      * rewrite fmap_cons. cbn [subset_loop fst]. apply String.eqb_neq in Hr. rewrite Hr.
        unfold statement_check in Hc. by rewrite Hc, IHp.
  - destruct Hx as [Hn Hr]. change (omap snd ((rec, @None json) :: xs)) with (omap snd xs). split_and!; [done| |done|].
    + intros n [Hv Hl]%Forall_cons. by apply IHh.
    + exists gs. split_and!; [done| |].
      * unfold narrowed_all. cbn. by rewrite Hn.
      * rewrite fmap_cons. cbn [subset_loop fst]. by rewrite Hr.
Qed.

(** The statement values of a document. *)
Definition statement_values (sv : json) : list json :=
  match sv with JObject _ => [sv] | JArray l => l | _ => [] end.

Lemma decode_value_spec ms doc :
  NoDup ms.*1 ->
  decode_value (JObject ms) = Ok doc <->
  forallb top_ok ms = true /\
  exists sv sts, assoc "Statement" ms = Some sv /\ (is_object (Some sv) = true \/ exists l, sv = JArray l) /\
    mapM decodeStatement (statement_values sv) = Ok sts /\
    doc = {| doc_Version := default "" (look top_str "Version" ms); doc_ID := default "" (look top_str "Id" ms);
             doc_Statements := sts |}.
Proof.
  intros Hnd. unfold decode_value. rewrite bind_Ok. split.
  - intros ([[version id] stmts] & [Hall Ht]%decode_top_members & H); [|done]. unfold top_of in Ht.
    injection Ht as -> -> ->. split; [done|]. destruct (assoc "Statement" ms) as [sv|]; [|done].
    apply bind_Ok in H as (l & Hl & (sts & Hs & [= <-])%bind_Ok). exists sv, sts. split; [done|].
    destruct sv; try discriminate Hl; injection Hl as <-; split_and!; eauto.
  - intros (Hall & sv & sts & Ha & Hsv & Hs & ->). eexists. split; [by apply decode_top_members|].
    unfold top_of. rewrite Ha. apply bind_Ok. exists (statement_values sv). split.
    + destruct Hsv as [Ho|[l ->]]; [|done]. by destruct sv.
    + apply bind_Ok. by exists sts.
Qed.

Lemma height_array_le n l : (forall v, v ∈ l -> (S (height v) <= n)%nat) -> (height (JArray l) <= n)%nat.
Proof.
  induction l as [|v l IH]; intros H; [cbn; lia|]. rewrite height_array.
  assert (S (height v) <= n)%nat by (apply H; left). assert (height (JArray l) <= n)%nat; [|lia].
  apply IH. intros x Hx. apply H. by right.
Qed.

(** The narrowed Statement member: shape, size and statements. *)
Lemma narrowed_member_ok remove sv sts xs :
  wf_json sv -> is_object (Some sv) = true \/ (exists l, sv = JArray l) ->
  Forall3 (narrows remove) (statement_values sv) sts xs -> omap snd xs <> [] ->
  let sv' := narrowed_member (is_object (Some sv)) (omap snd xs) in
  wf_json sv' /\ (height sv' <= height sv)%nat /\ (is_object (Some sv') = true \/ exists l, sv' = JArray l) /\
  statement_values sv' = omap snd xs.
Proof.
  intros Hwf Hsv H3 Hne. destruct (narrows_kept _ _ _ _ H3) as (Hw & Hh & Ho & _). cbn zeta.
  destruct Hsv as [Hobj|[l ->]].
  - destruct sv as [| | | | |sms]; try discriminate Hobj. cbn [statement_values is_object] in *.
    inversion H3 as [|? ? x ? ? ? Hx Hrest]; subst. inversion Hrest; subst.
    destruct x as [rec [u|]]; [|done]. change (omap snd [(rec, Some u)]) with [u] in *. cbn [narrowed_member].
    apply Forall_cons in Hw as [Hw _], Ho as [Ho _]. split_and!; [done| |by left|].
    + specialize (Hh (height (JObject sms))). apply Forall_cons in Hh as [Hh _]; [done|]. by repeat constructor.
    + by destruct u.
  - cbn [is_object narrowed_member statement_values] in *. split_and!; [by constructor| |by right; eexists|done].
    apply height_array_le. intros u Hu.
    assert (Forall (fun v => (height v <= pred (height (JArray l)))%nat) l) as Hl.
    { apply Forall_forall. intros v Hv. apply height_array_in in Hv. lia. }
    apply Hh in Hl. rewrite Forall_forall in Hl. specialize (Hl u Hu). destruct l as [|v l].
    { inversion H3; subst. done. }
    rewrite height_array in *. lia.
Qed.

Lemma narrowed_document ms sv sv' doc sts' :
  wf_json (JObject ms) -> decode_value (JObject ms) = Ok doc ->
  assoc "Statement" ms = Some sv -> wf_json sv' -> (height sv' <= height sv)%nat ->
  (is_object (Some sv') = true \/ exists l, sv' = JArray l) -> mapM decodeStatement (statement_values sv') = Ok sts' ->
  let top' := JObject (map_set "Statement" sv' ms) in
  wf_json top' /\ (height top' <= height (JObject ms))%nat /\
  decode_value top' = Ok {| doc_Version := doc_Version doc; doc_ID := doc_ID doc; doc_Statements := sts' |}.
Proof.
  intros Hwf Hd Ha Hw' Hh' Hsv' Hs'. inversion Hwf as [| | | | |? Hnd Hval Hw]; subst. cbn zeta.
  pose proof Ha as Hin. apply assoc_elem in Hin; [|done].
  assert ("Statement" ∈ ms.*1) as Hk by (apply list_elem_of_fmap; by exists ("Statement", sv)). split_and!.
  - constructor; [by rewrite map_set_keys| |by apply Forall_map_set].
    apply Forall_map_set; [by apply ascii_valid|done].
  - apply height_object_le, Forall_forall, Forall_map_set.
    + apply height_object_in in Hin. cbn [snd] in *. lia.
    + apply Forall_forall. intros y Hy. by apply height_object_in.
  - apply decode_value_spec in Hd as (Hall & sv0 & sts0 & _ & _ & _ & ->); [|done].
    apply decode_value_spec; [by rewrite map_set_keys|]. split.
    + rewrite forallb_Forall in *. by apply Forall_map_set.
    + exists sv', sts'. rewrite assoc_map_set, !look_map_set. done.
Qed.

(** The refusal of the first loop names an Allow narrowing cannot handle. *)
Lemma first_refusal_spec i sts r :
  first_refusal i sts = Some r ->
  ref_Code r = RefuseNotNarrowable /\
  Exists (fun st => st_Effect st = EffectAllow /\
            (st_IsNotAction st = true \/ Exists (fun a => namespaceWildcard a = true) (st_Action st))) sts.
Proof.
  revert i. induction sts as [|st sts IH]; intros i; [done|]. cbn. destruct (not_narrowable i st) as [r'|] eqn:E.
  - intros [= <-]. unfold not_narrowable in E. cbn zeta in E.
    destruct (String.eqb_spec (st_Effect st) EffectAllow) as [He|]; [|done]. cbn [negb] in E.
    destruct (st_IsNotAction st) eqn:Hn; [injection E as <-; split; [done|]; left; auto|].
    destruct (List.find _ _) as [a|] eqn:Ef; [|done]. injection E as <-. split; [done|]. left. split; [done|]. right.
    apply find_some in Ef as [Hin Ha]. apply Exists_exists. exists a. split; [by apply list_elem_of_In|done].
  - intros H. destruct (IH _ H) as [? ?]. split; [done|]. by right.
Qed.

(** No refusal: every Allow lists actions of literal namespaces. *)
Lemma first_refusal_None i sts :
  first_refusal i sts = None ->
  Forall (fun st => st_Effect st = EffectAllow ->
            st_IsNotAction st = false /\ Forall (fun a => namespaceWildcard a = false) (st_Action st)) sts.
Proof.
  revert i. induction sts as [|st sts IH]; intros i; [constructor|]. cbn.
  destruct (not_narrowable i st) as [r'|] eqn:E; [done|]. intros H. constructor; [|by eapply IH].
  intros He. unfold not_narrowable in E. cbn zeta in E. rewrite He in E.
  change (negb (EffectAllow =? EffectAllow)%string) with false in E. cbn [negb] in E.
  destruct (st_IsNotAction st); [done|]. split; [done|]. destruct (List.find _ _) as [a|] eqn:Ef; [done|].
  apply Forall_forall. intros a Ha. apply (find_none _ _ Ef). by apply list_elem_of_In.
Qed.

(** * The theorems *)

Lemma statement_values_wf sv n :
  wf_json sv -> (height sv <= n)%nat ->
  Forall wf_json (statement_values sv) /\ Forall (fun v => (height v <= n)%nat) (statement_values sv).
Proof.
  intros Hwf Hh. destruct sv as [| | | |l|ms]; cbn [statement_values];
    try (split; repeat constructor; done).
  - inversion Hwf; subst. split; [done|]. apply Forall_forall. intros u Hu%height_array_in. lia.
  - split; (constructor; [done|constructor]).
Qed.

(** The parts of a decoded document. *)
Lemma decoded_parts text doc :
  DecodePolicyDocument text = Ok doc ->
  exists raw ms sv, DecodePolicyText text = Ok raw /\ parseJSON raw = Ok (JObject ms) /\
    wf_json (JObject ms) /\ (height (JObject ms) <= maxJSONDepth)%nat /\ decode_value (JObject ms) = Ok doc /\
    assoc "Statement" ms = Some sv /\ wf_json sv /\ (is_object (Some sv) = true \/ exists l, sv = JArray l) /\
    Forall2 (fun v st => decodeStatement v = Ok st) (statement_values sv) (doc_Statements doc) /\
    Forall wf_json (statement_values sv) /\ Forall (fun v => (height v <= maxJSONDepth)%nat) (statement_values sv).
Proof.
  intros (raw & v & Ht & Hp & Hd)%DecodePolicyDocument_value.
  destruct v as [| | | | |ms]; try discriminate Hd. destruct (parseJSON_wf _ _ Hp) as [Hwf Hh].
  inversion Hwf as [| | | | |? Hnd _ Hw]; subst.
  pose proof Hd as Hspec. apply decode_value_spec in Hspec as (_ & sv & sts & Ha & Hsv & Hs & ->); [|done].
  assert (("Statement", sv) ∈ ms) as Hin by (by apply assoc_elem).
  assert (wf_json sv) as Hwsv by (rewrite Forall_forall in Hw; exact (Hw _ Hin)).
  apply height_object_in in Hin. cbn [snd] in Hin. destruct (statement_values_wf sv maxJSONDepth) as [? ?]; [done|lia|].
  apply mapM_Ok in Hs. by exists raw, ms, sv.
Qed.

(** The narrowing run on a document without refusals. *)
Lemma narrow_run text remove doc :
  DecodePolicyDocument text = Ok doc -> first_refusal 0 (doc_Statements doc) = None ->
  (NarrowCustomerBoundary text remove =
     Ok (inl (Build_Refusal RefuseNarrowedEmpty "every statement of the boundary would be deleted")) /\
   narrowed_all remove (doc_Statements doc) = []) \/
  NarrowCustomerBoundary text remove = Err ErrNotStorable \/
  exists c n doc', NarrowCustomerBoundary text remove = Ok (inr (c, ContentHash c, n)) /\ nw_SubsetProof n = true /\
    DecodePolicyDocument c = Ok doc' /\ doc_Version doc' = doc_Version doc /\ doc_ID doc' = doc_ID doc /\
    set_Raw "" <$> doc_Statements doc' = narrowed_all remove (doc_Statements doc).
Proof.
  intros Hdoc Hr. destruct (decoded_parts text doc Hdoc) as (raw & ms & sv & Ht & Hp & Hwf & Hh & Hd & Ha & Hwsv & Hsv & Hs & Hwv & Hhv).
  destruct (narrow_statements_ok remove 0 _ _ Hs Hwv Hhv Hr) as (xs & Hxs & H3).
  destruct (narrows_kept _ _ _ _ H3) as (_ & _ & _ & gs & Hg & Hgs & Hsub).
  unfold NarrowCustomerBoundary. rewrite Hdoc. cbn [mbind result_bind]. rewrite Hr, Ht. cbn [mbind result_bind].
  unfold unmarshal_map. rewrite Hp. cbn [mbind result_bind]. rewrite Hxs, Ha. cbn [mbind result_bind].
  destruct (omap snd xs) as [|k ks] eqn:Ek.
  { left. split; [done|]. cbn in Hg. injection Hg as <-. by rewrite <- Hgs. }
  right. rewrite <- Ek in *.
  destruct (narrowed_member_ok remove sv _ xs Hwsv Hsv H3) as (Hw' & Hh' & Hsv' & Hvals); [by rewrite Ek|].
  rewrite <- Hvals in Hg.
  destruct (narrowed_document ms sv _ doc gs Hwf Hd Ha Hw' Hh' Hsv' Hg) as (Hwt & Hht & Hdt).
  rewrite map_val_text by (done || lia). cbn [mbind result_bind].
  apply decode_canonical_object in Hdt; [|done|lia].
  set (c := writeCanonical _) in *. unfold checkStorable. destruct (Contains c _); [by left|]. cbn [mbind result_bind]. right.
  unfold subsetProof. rewrite Hdt. cbn [doc_Statements nw_Statements]. rewrite Hsub.
  eexists c, _, _. split_and!; [done|done|exact Hdt|done|done|exact Hgs].
Qed.

Lemma narrow_refused text remove doc r :
  DecodePolicyDocument text = Ok doc -> first_refusal 0 (doc_Statements doc) = Some r ->
  NarrowCustomerBoundary text remove = Ok (inl r).
Proof. intros Hd Hr. unfold NarrowCustomerBoundary. rewrite Hd. cbn [mbind result_bind]. by rewrite Hr. Qed.

(** C21 Narrowing a customer boundary is structure preserving: for a document
    that decodes, the result is a refusal (an Allow uses NotAction or an action
    without a literal namespace, or no statement would survive), or the only
    error is a text that cannot be stored, or a document with the same version
    and id whose statements are the original ones in order, Deny statements and
    untouched Allows unchanged, each other Allow with only the actions outside
    the removed namespaces, those left with none deleted; its content hash is
    the hash of its text, and the code's own subset check always passes. *)
Theorem narrow_boundary_correct text remove doc :
  DecodePolicyDocument text = Ok doc ->
  match NarrowCustomerBoundary text remove with
  | Ok (inl r) =>
      (ref_Code r = RefuseNotNarrowable /\
       Exists (fun st => st_Effect st = EffectAllow /\
                 (st_IsNotAction st = true \/ Exists (fun a => namespaceWildcard a = true) (st_Action st)))
              (doc_Statements doc)) \/
      (ref_Code r = RefuseNarrowedEmpty /\ Forall (fun st => narrowed remove st = None) (doc_Statements doc))
  | Ok (inr (c, h, n)) =>
      h = ContentHash c /\ nw_SubsetProof n = true /\
      exists doc', DecodePolicyDocument c = Ok doc' /\ doc_Version doc' = doc_Version doc /\ doc_ID doc' = doc_ID doc /\
        set_Raw "" <$> doc_Statements doc' = omap (fun st => set_Raw "" <$> narrowed remove st) (doc_Statements doc)
  | Err e => e = ErrNotStorable
  end.
Proof.
  intros Hd. destruct (first_refusal 0 (doc_Statements doc)) as [r|] eqn:Hr.
  - rewrite (narrow_refused text remove doc r Hd Hr). left. by eapply first_refusal_spec.
  - destruct (narrow_run text remove doc Hd Hr) as [[-> He]|[->|(c & n & doc' & -> & Hn & Hc & ? & ? & ?)]]; [right|done|].
    + split; [done|]. apply Forall_forall. intros st Hst.
      destruct (narrowed remove st) as [g|] eqn:E; [|done]. exfalso.
      assert (set_Raw "" g ∈ narrowed_all remove (doc_Statements doc)) as Hin.
      { apply list_elem_of_omap. exists st. by rewrite E. }
      rewrite He in Hin. by apply not_elem_of_nil in Hin.
    + split_and!; [done..|]. by exists doc'.
Qed.

Lemma narrow_boundary_correct_witness :
  let text := quoted "{'Statement':[{'Effect':'Allow','Action':['s3:Get*','sqs:*'],'Resource':'*'}]}" in
  exists c h n, NarrowCustomerBoundary text ["SQS"] = Ok (inr (c, h, n)) /\ h = ContentHash c /\ nw_SubsetProof n = true.
Proof.
  cbn zeta. set (text := quoted "{'Statement':[{'Effect':'Allow','Action':['s3:Get*','sqs:*'],'Resource':'*'}]}").
  assert (exists doc, DecodePolicyDocument text = Ok doc) as [doc Hd] by (eexists; vm_compute; reflexivity).
  assert (exists x, NarrowCustomerBoundary text ["SQS"] = Ok (inr x)) as [[[c h] n] Hx].
  { eexists (_, _, _). vm_compute. reflexivity. }
  exists c, h, n. pose proof (narrow_boundary_correct text ["SQS"] doc Hd) as H. rewrite Hx in H.
  destruct H as (? & ? & _). split_and!; assumption.
Defined.

(** ** What the narrowed boundary allows *)

Lemma ContainsAny_lower s : ContainsAny (ToLower s) [star; qmark] = ContainsAny s [star; qmark].
Proof.
  induction s as [|c s IH]; [done|]. cbn [ToLower ContainsAny]. rewrite IH. f_equal.
  destruct c as [[][][][][][][][]]; reflexivity.
Qed.

(** A pattern of a literal namespace matches actions of that namespace only. *)
Lemma literal_namespace p ns act :
  namespaceWildcard p = false -> lacks ":" ns = true -> lacks ":" act = true -> matches p (action_of ns act) ->
  removed_by [ns] p = true.
Proof.
  unfold namespaceWildcard, removed_by. destruct (SplitAction p) as [[pns pact]|] eqn:E; [|done].
  intros Hw Hns Hact Hm. apply SplitAction_Some in E as (-> & Hpns & _). apply matches_colon in Hm as [Hg _]; [|done..].
  apply globs_literal in Hg; [|by rewrite ContainsAny_lower]. cbn. rewrite Hg. apply bool_decide_eq_true. left.
Qed.

Lemma removed_by_same ns remove p :
  removed_by [ns] p = true -> removed_by remove p = bool_decide (ToLower ns ∈ ToLower <$> remove).
Proof.
  unfold removed_by. intros H%bool_decide_eq_true. cbn in H. apply list_elem_of_singleton in H. by rewrite H.
Qed.

Lemma allows_set_Raw raw st a : allows (set_Raw raw st) a <-> allows st a.
Proof. by destruct st. Qed.

Lemma allows_set_Action l st a :
  st_Effect st = EffectAllow -> st_IsNotAction st = false ->
  allows (set_Action l st) a <-> Exists (fun p => matches p a) l.
Proof. destruct st. cbn. intros -> ->. unfold allows. cbn. naive_solver. Qed.

Lemma narrowed_allows remove st ns act :
  (st_Effect st = EffectAllow ->
   st_IsNotAction st = false /\ Forall (fun a => namespaceWildcard a = false) (st_Action st)) ->
  lacks ":" ns = true -> lacks ":" act = true ->
  (exists g, narrowed remove st = Some g /\ allows g (action_of ns act)) <->
  allows st (action_of ns act) /\ ToLower ns ∉ ToLower <$> remove.
Proof.
  intros Hst Hns Hact. unfold narrowed. destruct (String.eqb_spec (st_Effect st) EffectAllow) as [He|He]; cbn [negb].
  2: { split; [|by intros [[? _] _]]. intros (g & [= <-] & [? _]). done. }
  destruct (Hst He) as [Hna Hlit]. clear Hst.
  set (keep := List.filter (fun a => negb (removed_by remove a)) (st_Action st)).
  assert (Exists (fun p => matches p (action_of ns act)) keep <->
          Exists (fun p => matches p (action_of ns act)) (st_Action st) /\ ToLower ns ∉ ToLower <$> remove) as Hk.
  { rewrite !Exists_exists. rewrite Forall_forall in Hlit. unfold keep. split.
    - intros (p & Hp & Hm). apply list_elem_of_In, filter_In in Hp as [Hp Hr]. apply list_elem_of_In in Hp.
      split; [by exists p|]. rewrite (removed_by_same ns) in Hr by (apply literal_namespace with act; auto).
      by apply negb_true_iff, bool_decide_eq_false in Hr.
    - intros [(p & Hp & Hm) Hn]. exists p. split; [|done]. apply list_elem_of_In, filter_In.
      split; [by apply list_elem_of_In|]. rewrite (removed_by_same ns) by (apply literal_namespace with act; auto).
      by apply negb_true_iff, bool_decide_eq_false. }
  assert ((exists g, Some (set_Action keep st) = Some g /\ allows g (action_of ns act)) <->
          allows st (action_of ns act) /\ ToLower ns ∉ ToLower <$> remove) as Hs.
  { pose proof (allows_set_Action keep st (action_of ns act) He Hna) as H1.
    pose proof (allows_set_Action (st_Action st) st (action_of ns act) He Hna) as H2. rewrite set_Action_same in H2.
    rewrite H2, <- Hk, <- H1. naive_solver. }
  destruct (List.filter (removed_by remove) (st_Action st)) as [|r rs]; [exact Hs|].
  destruct keep as [|k ks]; [|exact Hs]. split; [by intros (g & ? & _)|]. intros [[_ Hall] Hn]. rewrite Hna in Hall.
  assert (Exists (fun p => matches p (action_of ns act)) []) as H by (by apply Hk). by apply Exists_nil in H.
Qed.

(** The narrowed boundary allows exactly what the original allowed outside
    the removed namespaces: an action of a namespace is allowed by it if and
    only if the original allowed it and the namespace is not removed. *)
Theorem narrow_access_exact text remove doc c h n doc' ns act :
  DecodePolicyDocument text = Ok doc -> NarrowCustomerBoundary text remove = Ok (inr (c, h, n)) ->
  DecodePolicyDocument c = Ok doc' -> lacks ":" ns = true -> lacks ":" act = true ->
  Exists (fun st => allows st (action_of ns act)) (doc_Statements doc') <->
  Exists (fun st => allows st (action_of ns act)) (doc_Statements doc) /\ ToLower ns ∉ ToLower <$> remove.
Proof.
  intros Hd Hn Hd' Hns Hact. destruct (first_refusal 0 (doc_Statements doc)) as [r|] eqn:Hr.
  { by rewrite (narrow_refused text remove doc r Hd Hr) in Hn. }
  destruct (narrow_run text remove doc Hd Hr) as [[E _]|[E|(c1 & n1 & d1 & E & _ & Hc & _ & _ & Hs)]]; try congruence.
  rewrite E in Hn. injection Hn as -> _ _. assert (d1 = doc') as -> by congruence.
  assert (Exists (fun st => allows st (action_of ns act)) (doc_Statements doc') <->
          Exists (fun st => allows st (action_of ns act)) (set_Raw "" <$> doc_Statements doc')) as ->.
  { rewrite !Exists_exists. setoid_rewrite list_elem_of_fmap. split.
    - intros (st & Hst & Ha). exists (set_Raw "" st). split; [by exists st|by apply allows_set_Raw].
    - intros (? & (st & -> & Hst) & Ha). exists st. split; [done|by apply allows_set_Raw in Ha]. }
  rewrite Hs. apply first_refusal_None in Hr. rewrite Forall_forall in Hr. rewrite !Exists_exists. unfold narrowed_all.
  setoid_rewrite list_elem_of_omap. split.
  - intros (g & (st & Hst & (g' & Hg & ->)%fmap_Some) & Hall). rewrite allows_set_Raw in Hall.
    destruct (proj1 (narrowed_allows remove st ns act (Hr st Hst) Hns Hact)) as [? ?]; eauto.
  - intros [(st & Hst & Hall) Hnot].
    destruct (proj2 (narrowed_allows remove st ns act (Hr st Hst) Hns Hact)) as (g & Hg & Hag); [done|].
    exists (set_Raw "" g). split; [|by apply allows_set_Raw]. exists st. split; [done|]. apply fmap_Some. by exists g.
Qed.

Lemma narrow_access_exact_witness :
  let text := quoted "{'Statement':[{'Effect':'Allow','Action':['s3:Get*','sqs:*'],'Resource':'*'}]}" in
  exists doc', ~ Exists (fun st => allows st (action_of "sqs" "SendMessage")) (doc_Statements doc').
Proof.
  cbn zeta. set (text := quoted "{'Statement':[{'Effect':'Allow','Action':['s3:Get*','sqs:*'],'Resource':'*'}]}").
  assert (exists doc, DecodePolicyDocument text = Ok doc) as [doc Hd] by (eexists; vm_compute; reflexivity).
  assert (exists x doc', NarrowCustomerBoundary text ["SQS"] = Ok (inr x) /\ DecodePolicyDocument x.1.1 = Ok doc')
    as ([[c h] n] & doc' & Hx & Hd').
  { eexists (_, _, _), _. split; [vm_compute; reflexivity|]. cbn [fst]. vm_compute. reflexivity. }
  exists doc'. rewrite (narrow_access_exact text ["SQS"] doc c h n doc' "sqs" "SendMessage" Hd Hx Hd' eq_refl eq_refl).
  intros [_ Hnot]. apply Hnot. left.
Defined.
