(* ===== verification/Intent.v ===== *)
(** Version intents (internal/igagov/intent.go): their data, the per-subject
    view of a right-size intent, and validation. *)

From stdpp Require Import base list strings gmap sorting.
From Stdlib Require Import Ascii.
From S2P Require Import Prelude Slices Qualify Float64 Utf8 Json JsonCanon Marshal Sha256 PolicyDoc Catalog Text Routes Hashes.

(** * Data *)

Definition IntentRightSizeServices : string := "right_size_services".
Definition IntentRemoveControl : string := "remove_control".
Definition IntentDedicatedIdentity : string := "dedicated_identity".
Definition RetainObserved : string := "observed".
Definition RetainDependency : string := "dependency".
Definition RetainOwner : string := "owner".
Definition RetainUnreviewed : string := "unreviewed".
Definition RemoveNoAttempt : string := "no_attempt".
Definition DeliveryDirect : string := "direct".
Definition DeliveryIaCPR : string := "iac_pr".
Definition DeliveryExport : string := "export".
Definition BindingECSTaskRole : string := "ecs_task_role".
Definition BindingLambdaRole : string := "lambda_role".
Definition BindingEC2InstanceProfile : string := "ec2_instance_profile".
Definition MinObservationDays : Z := 1.
Definition MaxObservationDays : Z := 90.
Definition MinCanaryHours : Z := 1.
Definition MaxCanaryHours : Z := 336.

(* src: internal/igagov/intent.go:56-60 (Subject) *)
Record Subject := {
  sj_IdentityAccountID : string;
  sj_RoleID : string;
  sj_AccountID : string
}.

(* src: internal/igagov/intent.go:69-77 (RetainEntry) *)
Record RetainEntry := {
  re_Service : string;
  re_Basis : string;
  re_LastAttempt : string;
  re_Catalog : string;
  re_Reason : string;
  re_ReviewBy : string;
  re_Subjects : list string
}.

(* src: internal/igagov/intent.go:125-129 (IntentRoute) *)
Record IntentRoute := {
  ir_Resource : string;
  ir_Principal : string;
  ir_Form : string
}.

(* src: internal/igagov/intent.go:132-140 (RemoveEntry) *)
Record RemoveEntry := {
  rm_Service : string;
  rm_Basis : string;
  rm_QualifiedDays : Z;
  rm_GrantAgeBasis : string;
  rm_RouteUsage : string;
  rm_RouteState : string;
  rm_Routes : list IntentRoute
}.

(* src: internal/igagov/intent.go:143-146 (RolloutIntent) *)
Record RolloutIntent := {
  ro_CanaryTarget : string;
  ro_CanaryHours : Z
}.

(* src: internal/igagov/intent.go:149-159 (RightSizeIntent) *)
Record RightSizeIntent := {
  rs_Kind : string;
  rs_Subjects : list Subject;
  rs_Retain : list RetainEntry;
  rs_Remove : list RemoveEntry;
  rs_ObservationDays : Z;
  rs_Rollout : option RolloutIntent;
  rs_Delivery : string;
  rs_FindingIDs : list string;
  rs_EvidenceRev : Z
}.

(* src: internal/igagov/intent.go:162-166 (RemoveControlIntent) *)
Record RemoveControlIntent := {
  rc_Kind : string;
  rc_ControlIDs : list string;
  rc_Reason : string
}.

(* src: internal/igagov/intent.go:169-173 (DedicatedWorkload) *)
Record DedicatedWorkload := {
  dw_WorkloadID : string;
  dw_BindingKind : string;
  dw_BindingRef : string
}.

(* src: internal/igagov/intent.go:176-179 (InlinePolicyRef) *)
Record InlinePolicyRef := {
  ip_Name : string;
  ip_DocumentHash : string
}.

(* src: internal/igagov/intent.go:182-189 (NewRole) *)
Record NewRole := {
  nr_Name : string;
  nr_Path : string;
  nr_TrustPolicyHash : string;
  nr_ManagedPolicyARNs : list string;
  nr_InlinePolicies : list InlinePolicyRef;
  nr_BoundaryARN : string
}.

(* src: internal/igagov/intent.go:192-198 (DedicatedIdentityIntent) *)
Record DedicatedIdentityIntent := {
  di_Kind : string;
  di_Source : Subject;
  di_Workload : DedicatedWorkload;
  di_NewRole : NewRole;
  di_Delivery : string
}.

(* src: internal/igagov/intent.go:202-207 (Intent) *)
Record Intent := {
  in_Kind : string;
  in_RightSize : option RightSizeIntent;
  in_RemoveControl : option RemoveControlIntent;
  in_DedicatedIdentity : option DedicatedIdentityIntent
}.

(* src: internal/igagov/intent.go:223-227 (IntentError) *)
Record IntentError := {
  ie_Field : string;
  ie_Code : string;
  ie_Message : string
}.

(** * The intent of one subject *)

(* src: internal/igagov/intent.go:81-91 (RetainEntry.AppliesTo) *)
Definition AppliesTo (e : RetainEntry) (identityAccountID : string) : bool :=
  match re_Subjects e with
  | [] => true
  | _ => bool_decide (identityAccountID ∈ re_Subjects e)
  end.

Definition scoped (e : RetainEntry) : bool := match re_Subjects e with [] => false | _ => true end.

Definition unscope (e : RetainEntry) : RetainEntry :=
  {| re_Service := re_Service e; re_Basis := re_Basis e; re_LastAttempt := re_LastAttempt e;
     re_Catalog := re_Catalog e; re_Reason := re_Reason e; re_ReviewBy := re_ReviewBy e; re_Subjects := [] |}.

Definition retain_less : RetainEntry -> RetainEntry -> bool := less_by (fun e => [re_Service e]).

(* src: internal/igagov/intent.go:100-122 (RightSizeIntent.ForSubject) *)
Definition ForSubject (r : RightSizeIntent) (identityAccountID : string) : RightSizeIntent :=
  let applying := List.filter (fun e => AppliesTo e identityAccountID) (rs_Retain r) in
  let kept := re_Service <$> List.filter scoped applying in
  {| rs_Kind := rs_Kind r; rs_Subjects := rs_Subjects r;
     rs_Retain := sort_slice retain_less (map (fun e => if scoped e then unscope e else e) applying);
     rs_Remove := List.filter (fun e => negb (bool_decide (rm_Service e ∈ kept))) (rs_Remove r);
     rs_ObservationDays := rs_ObservationDays r; rs_Rollout := rs_Rollout r; rs_Delivery := rs_Delivery r;
     rs_FindingIDs := rs_FindingIDs r; rs_EvidenceRev := rs_EvidenceRev r |}.

(** * Validation *)

Abbreviation errs := (list IntentError).

(* src: internal/igagov/intent.go:297-299 (collector.add) *)
Definition add (field code msg : string) : errs := [{| ie_Field := field; ie_Code := code; ie_Message := msg |}].

Definition add_if (b : bool) (field code msg : string) : errs := if b then add field code msg else [].

(* src: internal/igagov/intent.go:301-307 (collector.result) *)
Definition collector_result (es : errs) : errs := sort_slice (less_by (fun e => [ie_Field e])) es.

(** [fmt.Sprintf("%s[%d]", name, i)]. *)
Definition at_index (name : string) (i : Z) : string := name +:+ "[" +:+ Itoa i +:+ "]".

(** A loop over a slice with its index and the keys seen so far. *)
Fixpoint each {A} (key : A -> string) (body : Z -> A -> bool -> errs) (i : Z) (seen : list string) (l : list A) : errs :=
  match l with
  | [] => []
  | x :: l => body i x (bool_decide (key x ∈ seen)) ++ each key body (i + 1) (key x :: seen) l
  end.

(* src: internal/igagov/intent.go:341-351 (validateSubject) *)
Definition validateSubject (field : string) (s : Subject) : errs :=
  add_if (negb (reUUID (sj_IdentityAccountID s))) (field +:+ ".identity_account_id") "invalid" "must be a UUID" ++
  add_if (negb (reRoleID (sj_RoleID s))) (field +:+ ".role_id") "invalid" "must be an IAM RoleId (AROA…)" ++
  add_if (negb (reAccount (sj_AccountID s))) (field +:+ ".account_id") "invalid" "must be a 12-digit AWS account id".

Definition subject_errs (i : Z) (s : Subject) (dup : bool) : errs :=
  let f := at_index "subjects" i in
  validateSubject f s ++
  add_if dup (f +:+ ".role_id") "duplicate" ("role " +:+ sj_RoleID s +:+ " is listed twice").

(** The [Error()] text of a Go error. *)
Definition error_text (e : goError) : string :=
  match e with
  | ErrOther m | ErrNotIJSON m | ErrPolicyDocument m => m
  | CompileError code reasons => "igagov: compile: " +:+ code +:+ ": " +:+ Join reasons "; "
  | ErrNotStorable => "not storable"
  end.

(** The basis of a retain entry. *)
(* src: internal/igagov/intent.go:413-432 (validateRightSize, retain basis) *)
Definition basis_errs (f : string) (e : RetainEntry) : errs :=
  if (re_Basis e =? RetainObserved)%string then
    add_if (is_empty (re_LastAttempt e) || negb (validDate (re_LastAttempt e))) (f +:+ ".last_attempt") "required"
      "an observed retain needs the last attempt time"
  else if (re_Basis e =? RetainDependency)%string then
    match ParseDependencyRef (re_Catalog e) with
    | Ok _ => []
    | Err err => add (f +:+ ".catalog") "invalid" (error_text err)
    end
  else if (re_Basis e =? RetainOwner)%string then
    add_if (is_empty (TrimSpace (re_Reason e))) (f +:+ ".reason") "required" "an owner retain needs a reason" ++
    add_if (is_empty (re_ReviewBy e) || negb (validDate (re_ReviewBy e))) (f +:+ ".review_by") "required"
      "an owner retain needs a review date (§3.8)"
  else if (re_Basis e =? RetainUnreviewed)%string then []
  else add (f +:+ ".basis") "invalid" "retain basis must be observed, dependency, owner or unreviewed".

(** The loop state: unscoped services, and the (service, subject) pairs of
    scoped retains. *)
Record retains := { rt_all : list string; rt_scoped : list (string * string) }.

(** The subjects of one scoped retain entry. *)
Fixpoint scope_errs (f : string) (svc : string) (subjectIDs : list string) (j : Z) (seen : list (string * string))
    (subjects : list string) : errs * list (string * string) :=
  match subjects with
  | [] => ([], seen)
  | s :: subjects =>
      let here := at_index (f +:+ ".subjects") j in
      let e := add_if (negb (bool_decide (s ∈ subjectIDs))) here "invalid" (s +:+ " is not a subject of this intent") ++
               add_if (bool_decide ((svc, s) ∈ seen)) here "duplicate"
                 ("service " +:+ svc +:+ " is retained twice for " +:+ s) in
      let '(es, seen') := scope_errs f svc subjectIDs (j + 1) ((svc, s) :: seen) subjects in
      (e ++ es, seen')
  end.

(* src: internal/igagov/intent.go:384-433 (validateRightSize, retain) *)
Fixpoint retain_errs (subjectIDs : list string) (i : Z) (st : retains) (l : list RetainEntry) : errs * retains :=
  match l with
  | [] => ([], st)
  | e :: l =>
      let f := at_index "retain" i in
      let svc := add_if (negb (reService (re_Service e))) (f +:+ ".service") "invalid"
                   "must be an IAM service namespace" in
      let '(scope, st') :=
        if scoped e then
          let '(es, seen) := scope_errs f (re_Service e) subjectIDs 0 (rt_scoped st) (re_Subjects e) in
          (add_if (negb (re_Basis e =? RetainOwner)%string) (f +:+ ".subjects") "invalid"
             "only an owner retain is scoped to subjects" ++ es,
           {| rt_all := rt_all st; rt_scoped := seen |})
        else
          (add_if (bool_decide (re_Service e ∈ rt_all st)) (f +:+ ".service") "duplicate"
             ("service " +:+ re_Service e +:+ " is retained twice"),
           {| rt_all := re_Service e :: rt_all st; rt_scoped := rt_scoped st |}) in
      let '(es, st'') := retain_errs subjectIDs (i + 1) st' l in
      (svc ++ scope ++ basis_errs f e ++ es, st'')
  end.

(* src: internal/igagov/intent.go:505-537 (validateRemoveRoutes) *)
Definition validateRemoveRoutes (f : string) (e : RemoveEntry) : errs :=
  let usage := rm_RouteUsage e in
  let state := rm_RouteState e in
  let none := (usage =? RouteUsageNoneObserved)%string in
  let no_routes := match rm_Routes e with [] => true | _ => false end in
  let stated := negb (is_empty state) && negb (state =? RouteStateNoneObserved)%string in
  add_if (negb (is_empty usage) && negb none && negb (usage =? RouteUsageConfirmRequired)%string)
    (f +:+ ".route_usage") "invalid" "route_usage must be none_observed or confirm_required" ++
  add_if (negb (bool_decide (state ∈ [""; RouteStateNoneObserved; RouteStateBypassKnown; RouteStateEffectUnknown;
                                      RouteStateNotAnalysed])))
    (f +:+ ".route_state") "invalid" "unknown route_state" ++
  add_if (none && stated) (f +:+ ".route_state") "conflict"
    "route_usage none_observed requires route_state none_observed (§3.4)" ++
  add_if (none && negb no_routes) (f +:+ ".routes") "conflict" "route_usage none_observed lists no routes" ++
  add_if (stated && no_routes) (f +:+ ".routes") "required"
    ("route_state " +:+ state +:+ " must list its routes or forms") ++
  each (fun _ => "") (fun j rt _ =>
    let rf := at_index (f +:+ ".routes") j in
    add_if (is_empty (ir_Resource rt) && is_empty (ir_Form rt)) rf "required" "a route names a resource or a form" ++
    add_if (negb (is_empty (ir_Resource rt)) && negb (HasPrefix (ir_Resource rt) "arn:")) (rf +:+ ".resource") "invalid"
      "must be an ARN" ++
    add_if (negb (bool_decide (ir_Principal rt ∈ [""; PrincipalRoleARN; PrincipalRoleSession; PrincipalWildcard])))
      (rf +:+ ".principal") "invalid" "principal must be role_arn, role_session or wildcard") 0 [] (rm_Routes e).

(** One removal; [retained] are the unscoped retains. *)
(* src: internal/igagov/intent.go:450-472 (validateRightSize, remove) *)
Definition remove_errs (retained : list string) (i : Z) (e : RemoveEntry) (dup : bool) : errs :=
  let f := at_index "remove" i in
  add_if (negb (reService (rm_Service e))) (f +:+ ".service") "invalid" "must be an IAM service namespace" ++
  add_if dup (f +:+ ".service") "duplicate" ("service " +:+ rm_Service e +:+ " is removed twice") ++
  add_if (bool_decide (rm_Service e ∈ retained)) (f +:+ ".service") "conflict"
    ("service " +:+ rm_Service e +:+ " is both retained and removed") ++
  add_if (negb (rm_Basis e =? RemoveNoAttempt)%string) (f +:+ ".basis") "invalid" "remove basis must be no_attempt" ++
  add_if (rm_QualifiedDays e <? MinQualifiedDays) (f +:+ ".qualified_days") "not_qualified"
    ("a removal needs at least " +:+ Itoa MinQualifiedDays +:+ " qualified days (§2.6)") ++
  add_if (negb (rm_GrantAgeBasis e =? GrantAgeObservedSinceChange)%string &&
          negb (rm_GrantAgeBasis e =? GrantAgePredatesObservation)%string) (f +:+ ".grant_age_basis") "invalid"
    "grant_age_basis must be observed_since_change or predates_observation; an unknown grant is unreviewed, never removed" ++
  validateRemoveRoutes f e.

Definition rollout_errs (roles : list string) (r : option RolloutIntent) : errs :=
  match r with
  | None => []
  | Some ro =>
      add_if (negb (is_empty (ro_CanaryTarget ro)) && negb (bool_decide (ro_CanaryTarget ro ∈ roles)))
        "rollout.canary_target" "invalid" "the canary must be one of the subjects" ++
      add_if (negb (ro_CanaryHours ro =? 0) && ((ro_CanaryHours ro <? MinCanaryHours) || (MaxCanaryHours <? ro_CanaryHours ro)))
        "rollout.canary_hours" "out_of_range" ("must be " +:+ Itoa MinCanaryHours +:+ ".." +:+ Itoa MaxCanaryHours)
  end.

Definition id_errs (name what : string) (i : Z) (id : string) (dup : bool) : errs :=
  let f := at_index name i in
  add_if (negb (reUUID id)) f "invalid" "must be a UUID" ++ add_if dup f "duplicate" (what +:+ " listed twice").

(** The map of scoped services is walked in key order; the source walks it in
    the unspecified order of a Go map. *)
(* src: internal/igagov/intent.go:361-503 (validateRightSize) *)
Definition validateRightSize (r : RightSizeIntent) : errs :=
  let roles := sj_RoleID <$> rs_Subjects r in
  let '(retain, st) := retain_errs (sj_IdentityAccountID <$> rs_Subjects r) 0 {| rt_all := []; rt_scoped := [] |}
                         (rs_Retain r) in
  add_if (negb (rs_Kind r =? IntentRightSizeServices)%string) "kind" "invalid"
    ("kind must be " +:+ IntentRightSizeServices) ++
  add_if (match rs_Subjects r with [] => true | _ => false end) "subjects" "required"
    "at least one subject is required (no selector targets in R1a, P-06)" ++
  each sj_RoleID subject_errs 0 [] (rs_Subjects r) ++
  retain ++
  flat_map (fun svc => add_if (bool_decide (svc ∈ rt_all st)) "retain" "duplicate"
              ("service " +:+ svc +:+ " is retained for every subject and again for some"))
    (sortedUnique (rt_scoped st).*1) ++
  add_if (match rs_Remove r with [] => true | _ => false end) "remove" "required"
    "a right_size_services intent removes at least one service" ++
  each (fun _ => "") (fun i s _ =>
    add_if (match rs_Remove r with [] => false | _ => true end &&
            match rs_Remove (ForSubject r (sj_IdentityAccountID s)) with [] => true | _ => false end)
      (at_index "subjects" i) "nothing_to_remove"
      ("the owners' retains leave nothing to remove for role " +:+ sj_RoleID s)) 0 [] (rs_Subjects r) ++
  each rm_Service (remove_errs (rt_all st)) 0 [] (rs_Remove r) ++
  add_if ((rs_ObservationDays r <? MinObservationDays) || (MaxObservationDays <? rs_ObservationDays r))
    "observation_days" "out_of_range" ("must be " +:+ Itoa MinObservationDays +:+ ".." +:+ Itoa MaxObservationDays) ++
  rollout_errs roles (rs_Rollout r) ++
  add_if (negb (bool_decide (rs_Delivery r ∈ [DeliveryDirect; DeliveryIaCPR; DeliveryExport]))) "delivery" "invalid"
    "delivery must be direct, iac_pr or export" ++
  each id (id_errs "finding_ids" "finding") 0 [] (rs_FindingIDs r) ++
  add_if (rs_EvidenceRev r <=? 0) "evidence_rev" "required" "the revision the intent was proposed from is required".

(* src: internal/igagov/intent.go:539-560 (validateRemoveControl) *)
Definition validateRemoveControl (r : RemoveControlIntent) : errs :=
  add_if (negb (rc_Kind r =? IntentRemoveControl)%string) "kind" "invalid" ("kind must be " +:+ IntentRemoveControl) ++
  add_if (match rc_ControlIDs r with [] => true | _ => false end) "control_ids" "required"
    "at least one control is required" ++
  each id (id_errs "control_ids" "control") 0 [] (rc_ControlIDs r) ++
  add_if (is_empty (TrimSpace (rc_Reason r))) "reason" "required" "removing AuthSec control needs a reason".

(* src: internal/igagov/intent.go:562-619 (validateDedicated) *)
Definition validateDedicated (d : DedicatedIdentityIntent) : errs :=
  let w := di_Workload d in
  let nr := di_NewRole d in
  add_if (negb (di_Kind d =? IntentDedicatedIdentity)%string) "kind" "invalid"
    ("kind must be " +:+ IntentDedicatedIdentity) ++
  validateSubject "source" (di_Source d) ++
  add_if (negb (reUUID (dw_WorkloadID w))) "workload.workload_id" "invalid" "must be a UUID" ++
  add_if (negb (bool_decide (dw_BindingKind w ∈ [BindingECSTaskRole; BindingLambdaRole; BindingEC2InstanceProfile])))
    "workload.binding_kind" "invalid"
    "binding_kind must be ecs_task_role, lambda_role or ec2_instance_profile (§11)" ++
  add_if (negb (reARN (dw_BindingRef w))) "workload.binding_ref" "invalid" "must be an ARN" ++
  add_if (negb (reRoleName (nr_Name nr))) "new_role.name" "invalid" "must be a valid IAM role name" ++
  add_if (negb (reRolePath (nr_Path nr))) "new_role.path" "invalid"
    (quoted "must be an IAM path ('/' or '/a/b/')") ++
  add_if (negb (reHash (nr_TrustPolicyHash nr))) "new_role.trust_policy_hash" "invalid" "must be sha256:<64 hex>" ++
  each id (fun i a dup =>
    let f := at_index "new_role.managed_policy_arns" i in
    add_if (negb (reARN a)) f "invalid" "must be an ARN" ++ add_if dup f "duplicate" "policy listed twice")
    0 [] (nr_ManagedPolicyARNs nr) ++
  each ip_Name (fun i p dup =>
    let f := at_index "new_role.inline_policies" i in
    add_if (negb (reInlineNm (ip_Name p))) (f +:+ ".name") "invalid" "must be a valid inline policy name" ++
    add_if dup (f +:+ ".name") "duplicate" "inline policy listed twice" ++
    add_if (negb (reHash (ip_DocumentHash p))) (f +:+ ".document_hash") "invalid" "must be sha256:<64 hex>")
    0 [] (nr_InlinePolicies nr) ++
  add_if (negb (is_empty (nr_BoundaryARN nr)) && negb (reARN (nr_BoundaryARN nr))) "new_role.boundary_arn" "invalid"
    "must be an ARN" ++
  add_if (negb (di_Delivery d =? DeliveryIaCPR)%string && negb (di_Delivery d =? DeliveryExport)%string)
    "delivery" "invalid"
    "a dedicated identity is delivered only as iac_pr or export (§11; 050 iga_gov_plan_kind_chk)".

(** The empty list is nil. *)
(* src: internal/igagov/intent.go:314-339 (ValidateIntent) *)
Definition ValidateIntent (i : Intent) : errs :=
  let no_body kind := add "kind" "shape" (kind +:+ " intent has no body") in
  collector_result
    (if (in_Kind i =? IntentRightSizeServices)%string then
       match in_RightSize i with Some r => validateRightSize r | None => no_body IntentRightSizeServices end
     else if (in_Kind i =? IntentRemoveControl)%string then
       match in_RemoveControl i with Some r => validateRemoveControl r | None => no_body IntentRemoveControl end
     else if (in_Kind i =? IntentDedicatedIdentity)%string then
       match in_DedicatedIdentity i with Some d => validateDedicated d | None => no_body IntentDedicatedIdentity end
     else add "kind" "unknown_kind" ("unknown intent kind " +:+ Quote (in_Kind i))).

(** * What validation accepts *)

Lemma add_if_nil b f c m : add_if b f c m = [] <-> b = false.
Proof. by destruct b. Qed.

Lemma each_nil {A} (key : A -> string) body (P : A -> Prop) :
  (forall i x dup, body i x dup = [] <-> P x /\ dup = false) ->
  forall l i seen, each key body i seen l = [] <->
    Forall P l /\ NoDup (key <$> l) /\ (forall x, x ∈ l -> key x ∉ seen).
Proof.
  intros Hb. induction l as [|x l IH]; intros i seen; cbn [each].
  { split; [|done]. intros _. repeat split; [constructor|constructor|]. intros x Hx. by apply not_elem_of_nil in Hx. }
  rewrite app_nil, Hb, IH, Forall_cons, fmap_cons, NoDup_cons, bool_decide_eq_false. split.
  - intros ([Hx Hs] & Hl & Hnd & Hd). split_and!; [done..| |done|].
    + intros (y & E & Hy)%list_elem_of_fmap. apply (Hd y Hy). rewrite <- E. left.
    + intros y [->|Hy]%elem_of_cons; [done|]. specialize (Hd y Hy). set_solver.
  - intros ([Hx Hl] & [Hn Hnd] & Hd). split_and!; [done|by apply Hd; left|done|done|].
    intros y Hy. rewrite not_elem_of_cons. split; [|by apply Hd; right].
    intros E. apply Hn. rewrite <- E. apply list_elem_of_fmap. by exists y.
Qed.

Lemma each_nil_all {A} (key : A -> string) body (P : A -> Prop) :
  (forall i x dup, body i x dup = [] <-> P x) ->
  forall l i seen, each key body i seen l = [] <-> Forall P l.
Proof.
  intros Hb. induction l as [|x l IH]; intros i seen; cbn [each]; [split; [constructor|done]|].
  by rewrite app_nil, Hb, IH, Forall_cons.
Qed.

(** A subject named by well-formed identifiers. *)
Definition subject_ok (s : Subject) : Prop :=
  reUUID (sj_IdentityAccountID s) = true /\ reRoleID (sj_RoleID s) = true /\ reAccount (sj_AccountID s) = true.

(** A retain's basis comes with its evidence. *)
Definition basis_ok (e : RetainEntry) : Prop :=
  (re_Basis e = RetainObserved /\ validDate (re_LastAttempt e) = true) \/
  (re_Basis e = RetainDependency /\ is_Ok (ParseDependencyRef (re_Catalog e)) = true) \/
  (re_Basis e = RetainOwner /\ TrimSpace (re_Reason e) <> "" /\ validDate (re_ReviewBy e) = true) \/
  re_Basis e = RetainUnreviewed.

Definition retain_ok (subjectIDs : list string) (e : RetainEntry) : Prop :=
  reService (re_Service e) = true /\ basis_ok e /\
  (scoped e = true -> re_Basis e = RetainOwner /\ Forall (fun s => s ∈ subjectIDs) (re_Subjects e)).

(** The services retained for every subject, and the (service, subject) pairs
    of the scoped retains. *)
Definition retained_all (l : list RetainEntry) : list string := re_Service <$> List.filter (fun e => negb (scoped e)) l.
Definition retained_for (l : list RetainEntry) : list (string * string) :=
  flat_map (fun e => map (fun s => (re_Service e, s)) (re_Subjects e)) l.

(** A route evidence that is consistent with its usage and state. *)
Definition route_ok (rt : IntentRoute) : Prop :=
  (ir_Resource rt <> "" \/ ir_Form rt <> "") /\ (ir_Resource rt <> "" -> HasPrefix (ir_Resource rt) "arn:" = true) /\
  ir_Principal rt ∈ [""; PrincipalRoleARN; PrincipalRoleSession; PrincipalWildcard].

Definition routes_ok (e : RemoveEntry) : Prop :=
  rm_RouteUsage e ∈ [""; RouteUsageNoneObserved; RouteUsageConfirmRequired] /\
  rm_RouteState e ∈ [""; RouteStateNoneObserved; RouteStateBypassKnown; RouteStateEffectUnknown; RouteStateNotAnalysed] /\
  (rm_RouteUsage e = RouteUsageNoneObserved -> rm_RouteState e ∈ [""; RouteStateNoneObserved] /\ rm_Routes e = []) /\
  (rm_Routes e = [] -> rm_RouteState e ∈ [""; RouteStateNoneObserved]) /\ Forall route_ok (rm_Routes e).

(** A removal with enough evidence, of a service not retained for everyone. *)
Definition remove_ok (retained : list string) (e : RemoveEntry) : Prop :=
  reService (rm_Service e) = true /\ (rm_Service e ∉ retained) /\ rm_Basis e = RemoveNoAttempt /\
  MinQualifiedDays <= rm_QualifiedDays e /\
  (rm_GrantAgeBasis e = GrantAgeObservedSinceChange \/ rm_GrantAgeBasis e = GrantAgePredatesObservation) /\ routes_ok e.

Definition rollout_ok (r : RightSizeIntent) : Prop :=
  match rs_Rollout r with
  | None => True
  | Some ro =>
      (ro_CanaryTarget ro = "" \/ ro_CanaryTarget ro ∈ (sj_RoleID <$> rs_Subjects r)) /\
      (ro_CanaryHours ro = 0 \/ MinCanaryHours <= ro_CanaryHours ro <= MaxCanaryHours)
  end.

(** A right-size intent the product accepts. *)
Definition right_size_ok (r : RightSizeIntent) : Prop :=
  rs_Kind r = IntentRightSizeServices /\
  rs_Subjects r <> [] /\ Forall subject_ok (rs_Subjects r) /\ NoDup (sj_RoleID <$> rs_Subjects r) /\
  Forall (retain_ok (sj_IdentityAccountID <$> rs_Subjects r)) (rs_Retain r) /\
  NoDup (retained_all (rs_Retain r)) /\ NoDup (retained_for (rs_Retain r)) /\
  (forall svc s, (svc, s) ∈ retained_for (rs_Retain r) -> svc ∉ retained_all (rs_Retain r)) /\
  rs_Remove r <> [] /\ Forall (remove_ok (retained_all (rs_Retain r))) (rs_Remove r) /\
  NoDup (rm_Service <$> rs_Remove r) /\
  Forall (fun s => rs_Remove (ForSubject r (sj_IdentityAccountID s)) <> []) (rs_Subjects r) /\
  MinObservationDays <= rs_ObservationDays r <= MaxObservationDays /\ rollout_ok r /\
  rs_Delivery r ∈ [DeliveryDirect; DeliveryIaCPR; DeliveryExport] /\
  Forall (fun i => reUUID i = true) (rs_FindingIDs r) /\ NoDup (rs_FindingIDs r) /\ 0 < rs_EvidenceRev r.

Lemma validDate_nonempty s : is_empty s || negb (validDate s) = false <-> validDate s = true.
Proof.
  destruct (validDate s) eqn:E; cbn [negb]; [|by rewrite orb_true_r]. rewrite orb_false_r. split; [done|]. intros _.
  destruct s; [vm_compute in E; discriminate|done].
Qed.

Lemma basis_errs_nil f e : basis_errs f e = [] <-> basis_ok e.
Proof.
  unfold basis_errs, basis_ok.
  destruct (String.eqb_spec (re_Basis e) RetainObserved) as [->|H1].
  { rewrite add_if_nil, validDate_nonempty. naive_solver. }
  destruct (String.eqb_spec (re_Basis e) RetainDependency) as [->|H2].
  { destruct (ParseDependencyRef (re_Catalog e)); naive_solver. }
  destruct (String.eqb_spec (re_Basis e) RetainOwner) as [->|H3].
  { rewrite app_nil, !add_if_nil, validDate_nonempty, <- not_true_iff_false, is_empty_true. naive_solver. }
  destruct (String.eqb_spec (re_Basis e) RetainUnreviewed) as [->|H4]; naive_solver.
Qed.

Lemma scope_errs_spec f svc ids subjects j seen es seen' :
  scope_errs f svc ids j seen subjects = (es, seen') ->
  (es = [] <-> Forall (fun s => s ∈ ids) subjects /\ NoDup subjects /\ (forall s, s ∈ subjects -> (svc, s) ∉ seen)) /\
  (forall p, p ∈ seen' <-> p ∈ seen \/ exists s, s ∈ subjects /\ p = (svc, s)).
Proof.
  revert j seen es. induction subjects as [|s l IH]; intros j seen es; cbn [scope_errs].
  { intros [= <- <-]. split; [|set_solver]. split; [|done]. intros _. split_and!; [constructor|constructor|set_solver]. }
  destruct (scope_errs f svc ids (j + 1) ((svc, s) :: seen) l) as [es1 seen1] eqn:E. intros [= <- <-].
  destruct (IH _ _ _ E) as [H1 H2]. split.
  - rewrite !app_nil, !add_if_nil, negb_false_iff, bool_decide_eq_true, bool_decide_eq_false, H1, Forall_cons, NoDup_cons.
    split.
    + intros ([Hs Hn] & Hl & Hnd & Hd). split_and!; [done..| |done|].
      * intros Hin. apply (Hd s Hin). left.
      * intros t [->|Ht]%elem_of_cons; [done|]. specialize (Hd t Ht). set_solver.
    + intros ([Hs Hl] & [Hn Hnd] & Hd). split_and!; [done|by apply Hd; left|done|done|].
      intros t Ht. rewrite not_elem_of_cons. split; [naive_solver|]. by apply Hd; right.
  - intros p. rewrite H2. setoid_rewrite elem_of_cons. naive_solver.
Qed.

Lemma scoped_true e : scoped e = true <-> re_Subjects e <> [].
Proof. unfold scoped. by destruct (re_Subjects e). Qed.

Lemma pairs_nodup svc (l : list string) (k : list (string * string)) :
  NoDup (((fun s => (svc, s)) <$> l) ++ k) <-> NoDup l /\ NoDup k /\ (forall s, s ∈ l -> (svc, s) ∉ k).
Proof.
  rewrite NoDup_app. setoid_rewrite list_elem_of_fmap. split.
  - intros (Hl & Hd & Hk). split_and!; [by eapply NoDup_fmap_1|done|]. intros s Hs. apply Hd. by exists s.
  - intros (Hl & Hk & Hd). split_and!; [|naive_solver|done]. apply NoDup_fmap_2; [|done]. by intros ? ? [= ->].
Qed.

(** The retain loop: silent exactly on entries that are well formed and
    retained once, and its state is what it has seen. *)
Lemma retain_errs_spec ids l i st es st' :
  retain_errs ids i st l = (es, st') ->
  (es = [] <-> Forall (retain_ok ids) l /\
     NoDup (retained_all l) /\ (forall x, x ∈ retained_all l -> x ∉ rt_all st) /\
     NoDup (retained_for l) /\ (forall p, p ∈ retained_for l -> p ∉ rt_scoped st)) /\
  (forall x, x ∈ rt_all st' <-> x ∈ retained_all l \/ x ∈ rt_all st) /\
  (forall p, p ∈ rt_scoped st' <-> p ∈ retained_for l \/ p ∈ rt_scoped st).
Proof.
  revert i st es. induction l as [|e l IH]; intros i st es; cbn [retain_errs].
  { intros [= <- <-]. unfold retained_all, retained_for. cbn. split_and!; [|set_solver..].
    split; [|done]. intros _. split_and!; try constructor; set_solver. }
  assert (retained_for (e :: l) = ((fun s => (re_Service e, s)) <$> re_Subjects e) ++ retained_for l) as Hfor by done.
  assert (retained_all (e :: l) = if scoped e then retained_all l else re_Service e :: retained_all l) as Hall.
  { unfold retained_all. cbn. by destruct (scoped e). }
  rewrite Hfor, Hall. unfold retain_ok at 1. rewrite Forall_cons. destruct (scoped e) eqn:Es.
  - destruct (scope_errs _ _ _ _ _ _) as [es1 seen1] eqn:E1. destruct (retain_errs _ _ _ _) as [es2 st2] eqn:E2.
    intros [= <- <-]. destruct (scope_errs_spec _ _ _ _ _ _ _ _ E1) as [H1 H2]. destruct (IH _ _ _ E2) as (H3 & H4 & H5).
    cbn [rt_all rt_scoped] in *. split_and!.
    + rewrite !app_nil, !add_if_nil, !negb_false_iff, basis_errs_nil, String.eqb_eq, H1, H3, pairs_nodup.
      setoid_rewrite elem_of_app. setoid_rewrite H2. setoid_rewrite list_elem_of_fmap. naive_solver.
    + done.
    + intros p. rewrite H5, H2, elem_of_app, list_elem_of_fmap. naive_solver.
  - destruct (retain_errs _ _ _ _) as [es2 st2] eqn:E2. intros [= <- <-]. destruct (IH _ _ _ E2) as (H3 & H4 & H5).
    assert (re_Subjects e = []) as -> by (apply dec_stable; by rewrite <- scoped_true, Es). cbn [fmap list_fmap app rt_all rt_scoped] in *.
    split_and!.
    + rewrite !app_nil, !add_if_nil, negb_false_iff, basis_errs_nil, bool_decide_eq_false, H3, NoDup_cons.
      setoid_rewrite elem_of_cons. set_unfold. naive_solver.
    + intros x. rewrite H4, !elem_of_cons. naive_solver.
    + done.
Qed.

Lemma nil_match {A} (l : list A) : match l with [] => true | _ => false end = false <-> l <> [].
Proof. by destruct l. Qed.

Lemma is_empty_false s : is_empty s = false <-> s <> "".
Proof. by rewrite <- not_true_iff_false, is_empty_true. Qed.

Lemma eqb_false s t : (s =? t)%string = false <-> s <> t.
Proof. apply String.eqb_neq. Qed.

(** Booleans of the guards as propositions. *)
Ltac guards := rewrite ?add_if_nil, ?andb_false_iff, ?orb_false_iff, ?negb_false_iff, ?bool_decide_eq_true,
  ?bool_decide_eq_false, ?is_empty_true, ?is_empty_false, ?String.eqb_eq, ?eqb_false, ?nil_match, ?Z.ltb_ge, ?Z.leb_gt.

Lemma route_errs_nil f l :
  each (fun _ => "") (fun j rt _ =>
    let rf := at_index (f +:+ ".routes") j in
    add_if (is_empty (ir_Resource rt) && is_empty (ir_Form rt)) rf "required" "a route names a resource or a form" ++
    add_if (negb (is_empty (ir_Resource rt)) && negb (HasPrefix (ir_Resource rt) "arn:")) (rf +:+ ".resource") "invalid"
      "must be an ARN" ++
    add_if (negb (bool_decide (ir_Principal rt ∈ [""; PrincipalRoleARN; PrincipalRoleSession; PrincipalWildcard])))
      (rf +:+ ".principal") "invalid" "principal must be role_arn, role_session or wildcard") 0 [] l = [] <->
  Forall route_ok l.
Proof.
  apply each_nil_all. intros j rt _. cbn zeta. rewrite !app_nil. unfold route_ok. guards.
  destruct (decide (ir_Resource rt = "")); naive_solver.
Qed.

Lemma validateRemoveRoutes_nil f e : validateRemoveRoutes f e = [] <-> routes_ok e.
Proof.
  unfold validateRemoveRoutes, routes_ok. cbn zeta. rewrite !app_nil, route_errs_nil. guards.
  assert ((rm_RouteUsage e ∈ [""; RouteUsageNoneObserved; RouteUsageConfirmRequired]) <->
    (rm_RouteUsage e = "" \/ rm_RouteUsage e = RouteUsageNoneObserved) \/ rm_RouteUsage e = RouteUsageConfirmRequired) as ->
    by set_solver.
  assert (rm_RouteState e ∈ [""; RouteStateNoneObserved] <-> rm_RouteState e = "" \/ rm_RouteState e = RouteStateNoneObserved) as ->
    by set_solver.
  assert (match rm_Routes e with [] => true | _ => false end = true <-> rm_Routes e = []) as -> by (by destruct (rm_Routes e)).
  destruct (decide (rm_RouteUsage e = RouteUsageNoneObserved)), (decide (rm_Routes e = []));
    destruct (decide (rm_RouteState e = "")), (decide (rm_RouteState e = RouteStateNoneObserved)); naive_solver.
Qed.

Lemma remove_errs_nil retained i e dup :
  remove_errs retained i e dup = [] <-> remove_ok retained e /\ dup = false.
Proof.
  unfold remove_errs, remove_ok. cbn zeta. rewrite !app_nil, validateRemoveRoutes_nil. guards. naive_solver.
Qed.

Lemma subject_errs_nil i s dup : subject_errs i s dup = [] <-> subject_ok s /\ dup = false.
Proof. unfold subject_errs, validateSubject, subject_ok. cbn zeta. rewrite !app_nil. guards. naive_solver. Qed.

Lemma id_errs_nil name what i x dup : id_errs name what i x dup = [] <-> reUUID x = true /\ dup = false.
Proof. unfold id_errs. cbn zeta. rewrite app_nil. guards. done. Qed.

Lemma rollout_errs_nil r : rollout_errs (sj_RoleID <$> rs_Subjects r) (rs_Rollout r) = [] <-> rollout_ok r.
Proof.
  unfold rollout_errs, rollout_ok. destruct (rs_Rollout r) as [ro|]; [|done]. rewrite app_nil. guards.
  rewrite Z.eqb_eq. naive_solver lia.
Qed.

Lemma remove_ok_ext l l' e : (forall x, x ∈ l <-> x ∈ l') -> remove_ok l e <-> remove_ok l' e.
Proof. intros H. unfold remove_ok. by rewrite H. Qed.

Lemma validateRightSize_nil r : validateRightSize r = [] <-> right_size_ok r.
Proof.
  unfold validateRightSize, right_size_ok. cbn zeta.
  destruct (retain_errs _ _ _ _) as [es st] eqn:E. destruct (retain_errs_spec _ _ _ _ _ _ E) as (H1 & H2 & H3).
  cbn [rt_all rt_scoped] in *.
  rewrite !app_nil, H1, rollout_errs_nil.
  rewrite (each_nil sj_RoleID subject_errs subject_ok) by (intros; apply subject_errs_nil).
  rewrite (each_nil rm_Service (remove_errs (rt_all st)) (remove_ok (rt_all st))) by (intros; apply remove_errs_nil).
  rewrite (each_nil id (id_errs "finding_ids" "finding") (fun x => reUUID x = true)) by (intros; apply id_errs_nil).
  rewrite (each_nil_all _ _ (fun s => ~ (rs_Remove r <> [] /\ rs_Remove (ForSubject r (sj_IdentityAccountID s)) = []))).
  2: { intros i s dup. guards. destruct (rs_Remove r), (rs_Remove (ForSubject _ _)); naive_solver. }
  assert (forall x, x ∈ rt_all st <-> x ∈ retained_all (rs_Retain r)) as Hall by (intros x; rewrite H2; set_solver).
  assert (forall p, p ∈ rt_scoped st <-> p ∈ retained_for (rs_Retain r)) as Hfor by (intros p; rewrite H3; set_solver).
  assert (forall l, Forall (remove_ok (rt_all st)) l <-> Forall (remove_ok (retained_all (rs_Retain r))) l) as ->.
  { intros l. apply Forall_iff. intros e. by apply remove_ok_ext. }
  assert ((forall svc, svc ∈ sortedUnique (rt_scoped st).*1 ->
             add_if (bool_decide (svc ∈ rt_all st)) "retain" "duplicate"
               ("service " +:+ svc +:+ " is retained for every subject and again for some") = []) <->
          (forall svc s, (svc, s) ∈ retained_for (rs_Retain r) -> svc ∉ retained_all (rs_Retain r))) as Hdup.
  { split.
    - intros H svc s Hin. rewrite <- Hall. specialize (H svc). rewrite add_if_nil, bool_decide_eq_false in H. apply H.
      rewrite elem_of_sortedUnique, list_elem_of_fmap. exists (svc, s). by rewrite Hfor.
    - intros H svc. rewrite elem_of_sortedUnique, list_elem_of_fmap, add_if_nil, bool_decide_eq_false, Hall.
      intros ([svc' s] & -> & Hin). apply (H _ s). by rewrite <- Hfor. }
  rewrite flat_map_nil, Hdup. guards. rewrite list_fmap_id.
  assert (forall A (P : A -> Prop), (forall x, x ∈ @nil A -> P x)) as Hnil by (intros A P x Hx; by apply not_elem_of_nil in Hx).
  split.
  - intros. destruct_and!. split_and!; try done.
    match goal with H : Forall (fun s => ~ _) _ |- _ => eapply Forall_impl; [exact H|] end. naive_solver.
  - intros. destruct_and!. split_and!; try done; try (intros ? _ Hn; by apply not_elem_of_nil in Hn).
    match goal with H : Forall (fun s => rs_Remove _ <> []) _ |- _ => eapply Forall_impl; [exact H|] end. naive_solver.
Qed.

(** C35 [ValidateIntent] accepts exactly the well-formed right-size intents: it
    reports no problem if and only if every subject, retain, removal, route and
    bound of the intent satisfies the written rules (each service retained or
    removed once and never both, every removal qualified by at least thirty days
    of evidence, every basis documented, something left to remove for each
    subject). *)
Theorem right_size_validation_exact r :
  ValidateIntent {| in_Kind := IntentRightSizeServices; in_RightSize := Some r; in_RemoveControl := None;
                    in_DedicatedIdentity := None |} = [] <-> right_size_ok r.
Proof.
  unfold ValidateIntent, collector_result. cbn zeta. cbn [in_Kind in_RightSize].
  change (IntentRightSizeServices =? IntentRightSizeServices)%string with true. cbn match.
  by rewrite sort_slice_nil, validateRightSize_nil.
Qed.

(** * One subject's intent *)

Lemma retained_for_elem svc s l :
  (svc, s) ∈ retained_for l <-> exists x, x ∈ l /\ re_Service x = svc /\ s ∈ re_Subjects x.
Proof.
  unfold retained_for. rewrite list_elem_of_In, in_flat_map. split.
  - intros (x & Hx & (s' & E & Hs)%in_map_iff). injection E as <- <-. exists x. by rewrite !list_elem_of_In.
  - intros (x & Hx & <- & Hs). exists x. split; [by apply list_elem_of_In|]. apply in_map_iff. exists s.
    split; [done|by apply list_elem_of_In].
Qed.

Lemma kept_spec r s svc :
  svc ∈ re_Service <$> List.filter scoped (List.filter (fun e => AppliesTo e s) (rs_Retain r)) <->
  (svc, s) ∈ retained_for (rs_Retain r).
Proof.
  rewrite retained_for_elem, list_elem_of_fmap. setoid_rewrite elem_of_filter_b. setoid_rewrite elem_of_filter_b.
  unfold AppliesTo, scoped. split.
  - intros (e & -> & [[He Ha] Hs]). exists e. split_and!; [done..|].
    destruct (re_Subjects e) as [|x xs]; [done|]. by apply bool_decide_eq_true in Ha.
  - intros (e & He & <- & Hs). exists e. split; [done|].
    destruct (re_Subjects e); [by apply not_elem_of_nil in Hs|]. split_and!; [done|by apply bool_decide_eq_true|done].
Qed.

Lemma for_subject_retain r s e :
  e ∈ rs_Retain (ForSubject r s) <->
  exists e0, e0 ∈ rs_Retain r /\ AppliesTo e0 s = true /\ e = if scoped e0 then unscope e0 else e0.
Proof.
  unfold ForSubject. cbn [rs_Retain]. rewrite elem_of_sort_slice, list_elem_of_In, in_map_iff.
  setoid_rewrite <- list_elem_of_In. setoid_rewrite elem_of_filter_b. naive_solver.
Qed.

Lemma for_subject_remove r s e :
  e ∈ rs_Remove (ForSubject r s) <-> e ∈ rs_Remove r /\ (rm_Service e, s) ∉ retained_for (rs_Retain r).
Proof. unfold ForSubject. cbn [rs_Remove]. by rewrite elem_of_filter_b, negb_true_iff, bool_decide_eq_false, kept_spec. Qed.

(** The intent of one subject of a valid intent: it still removes something;
    it retains for every subject (no scope left); no service is both retained
    and removed; a service is removed for the subject exactly when the policy
    removes it and no owner retains it for this subject, so one owner's retain
    never changes another subject's role; and reading it again for the same
    subject changes nothing. *)
Theorem for_subject_correct r s :
  right_size_ok r -> s ∈ sj_IdentityAccountID <$> rs_Subjects r ->
  let r' := ForSubject r s in
  rs_Remove r' <> [] /\ Forall (fun e => re_Subjects e = []) (rs_Retain r') /\
  (forall e e', e ∈ rs_Retain r' -> e' ∈ rs_Remove r' -> re_Service e <> rm_Service e') /\
  (forall e, e ∈ rs_Remove r' <->
     e ∈ rs_Remove r /\ ~ exists x, x ∈ rs_Retain r /\ re_Service x = rm_Service e /\ s ∈ re_Subjects x) /\
  ForSubject r' s = r'.
Proof.
  intros (_ & _ & _ & _ & _ & _ & _ & _ & _ & Hrm & _ & Hne & _) Hs. cbn zeta.
  assert (Forall (fun e => re_Subjects e = []) (rs_Retain (ForSubject r s))) as Hun.
  { apply Forall_forall. intros e (e0 & _ & _ & ->)%for_subject_retain. unfold scoped.
    destruct (re_Subjects e0) eqn:E; [exact E|done]. }
  split_and!; [|done|..].
  - apply list_elem_of_fmap in Hs as (sj & -> & Hsj). rewrite Forall_forall in Hne. by apply Hne.
  - intros e e' (e0 & He0 & Ha & ->)%for_subject_retain [He' Hk]%for_subject_remove E.
    rewrite Forall_forall in Hrm. destruct (Hrm e' He') as (_ & Hnr & _).
    destruct (scoped e0) eqn:Es; cbn [unscope re_Service] in E.
    + apply Hk. rewrite <- E, <- kept_spec. apply list_elem_of_fmap. exists e0. split; [done|].
      by rewrite !elem_of_filter_b.
    + apply Hnr. rewrite <- E. apply list_elem_of_fmap. exists e0. split; [done|]. by rewrite elem_of_filter_b, Es.
  - intros e. rewrite for_subject_remove. apply and_iff_compat_l, not_iff_compat. apply retained_for_elem.
  - assert (Forall (fun e => AppliesTo e s = true /\ scoped e = false) (rs_Retain (ForSubject r s))) as Hall.
    { eapply Forall_impl; [exact Hun|]. intros e He. unfold AppliesTo, scoped. by rewrite He. }
    rewrite Forall_forall in Hall. unfold ForSubject at 1. set (r' := ForSubject r s) in *.
    rewrite (filter_all _ (rs_Retain r')) by (intros e He; by apply Hall).
    rewrite (filter_none scoped (rs_Retain r')) by (intros e He; by apply Hall).
    rewrite filter_all by (intros e _; cbn; by rewrite bool_decide_eq_false_2 by apply not_elem_of_nil).
    assert (map (fun e => if scoped e then unscope e else e) (rs_Retain r') = rs_Retain r') as ->.
    { rewrite <- (map_id (rs_Retain r')) at 2. apply map_ext_in. intros e He%list_elem_of_In.
      destruct (Hall e He) as [_ ->]. done. }
    assert (sort_slice retain_less (rs_Retain r') = rs_Retain r') as ->.
    { unfold r', ForSubject. cbn [rs_Retain]. apply (sort_slice_idem retain_less). }
    by destruct r'.
Qed.

Lemma for_subject_correct_witness :
  let sub i := {| sj_IdentityAccountID := i; sj_RoleID := "AROAEXAMPLE1" +:+ str_drop 35 i; sj_AccountID := "123456789012" |} in
  let a := "11111111-1111-1111-1111-11111111111A" in
  let b := "11111111-1111-1111-1111-11111111111B" in
  let rm svc := {| rm_Service := svc; rm_Basis := RemoveNoAttempt; rm_QualifiedDays := 45;
                   rm_GrantAgeBasis := GrantAgePredatesObservation; rm_RouteUsage := ""; rm_RouteState := "";
                   rm_Routes := [] |} in
  let keep := {| re_Service := "sqs"; re_Basis := RetainOwner; re_LastAttempt := ""; re_Catalog := "";
                 re_Reason := "batch job"; re_ReviewBy := "2027-01-31"; re_Subjects := [a] |} in
  let r := {| rs_Kind := IntentRightSizeServices; rs_Subjects := [sub a; sub b]; rs_Retain := [keep];
              rs_Remove := [rm "sqs"; rm "sns"]; rs_ObservationDays := 7; rs_Rollout := None;
              rs_Delivery := DeliveryExport; rs_FindingIDs := []; rs_EvidenceRev := 3 |} in
  rm_Service <$> rs_Remove (ForSubject r a) = ["sns"] /\ rm_Service <$> rs_Remove (ForSubject r b) = ["sqs"; "sns"] /\
  rs_Remove (ForSubject r a) <> [].
Proof.
  cbn zeta. split_and!; [vm_compute; reflexivity..|].
  eapply for_subject_correct; [|left]. apply validateRightSize_nil. vm_compute. reflexivity.
Defined.
