(* ===== verification/Bundle.v ===== *)
(** Evidence bundles (internal/igagov/bundle.go): sources and their trust, gaps,
    the canonical facts, and the classification of a bundle's trust. *)

From stdpp Require Import base list strings gmap sorting.
From Stdlib Require Import Ascii.
From S2P Require Import Prelude Slices Qualify Float64 Utf8 Json JsonCanon Marshal Sha256 PolicyDoc Catalog Text Routes Hashes TimeFmt.

(** * Data *)

Definition BundleFormat : string := "igagov.bundle/1".
Definition TrustTrusted : string := "trusted".
Definition TrustPartial : string := "partial".
Definition TrustUntrusted : string := "untrusted".
Definition SourceAWSPublication : string := "aws_publication".
Definition SourceK8sSweep : string := "k8s_sweep".
Definition GapResourcePolicyCoverage : string := "resource_policy_coverage".
Definition GapUnanalysedForm : string := "unanalysed_form".
Definition GapPolicyUnparseable : string := "policy_unparseable".
Definition GapConsumersUnresolved : string := "consumers_unresolved".
Definition EvidenceCollected : string := "collected".
Definition EvidenceNotCollected : string := "not_collected".
Definition CoveragePartial : string := "partial".

(** Durations are nanoseconds. *)
(* src: internal/igagov/bundle.go:48-50 (TrustRules) *)
Record TrustRules := { MaxSourceAge : Z }.

(* src: internal/igagov/bundle.go:53-53 (DefaultTrustRules) *)
Definition DefaultTrustRules : TrustRules := {| MaxSourceAge := 24 * Hour |}.

(* src: internal/igagov/bundle.go:58-72 (BundleSource) *)
Record BundleSource := {
  bs_Kind : string;
  bs_Rev : Z;
  bs_PublishedAt : option string;
  bs_ConnectorID : string;
  bs_ConnectorRun : string;
  bs_Authenticated : bool;
  bs_Ordered : bool;
  bs_Trust : string;
  bs_TrustReasons : list string;
  bs_FreshnessHours : Z;
  bs_ActivityReportGeneratedAt : option string;
  bs_ResourcePolicyCoverage : string;
  bs_ResourcePolicyRun : option string
}.

(* src: internal/igagov/bundle.go:75-88 (BundleSourceInput) *)
Record BundleSourceInput := {
  si_Kind : string;
  si_Rev : Z;
  si_PublishedAt : Time;
  si_ConnectorID : string;
  si_ConnectorRun : string;
  si_Authenticated : bool;
  si_Ordered : bool;
  si_ActivityReportGeneratedAt : option Time;
  si_ResourcePolicyCoverage : string;
  si_ResourcePolicyRun : string
}.

(* src: internal/igagov/bundle.go:91-96 (BundleTarget) *)
Record BundleTarget := {
  bt_AccountID : string;
  bt_RoleID : string;
  bt_RoleARN : string;
  bt_EstateScope : string
}.

(* src: internal/igagov/bundle.go:99-105 (BundleGrant) *)
Record BundleGrant := {
  bg_PolicyARN : string;
  bg_AssignmentKind : string;
  bg_StatementKey : string;
  bg_StatementHash : string;
  bg_Services : list string
}.

(* src: internal/igagov/bundle.go:108-116 (BundleActivity) *)
Record BundleActivity := {
  ba_Service : string;
  ba_State : string;
  ba_Outcome : string;
  ba_LastAuthenticatedAt : option string;
  ba_GrantAgeBasis : string;
  ba_VerifiedGrantFrom : option string;
  ba_QualifiedDays : Z
}.

(* src: internal/igagov/bundle.go:119-123 (ActivityFromQualification) *)
Definition ActivityFromQualification (q : Qualification) : BundleActivity :=
  {| ba_Service := q_Service q; ba_State := EvidenceCollected; ba_Outcome := q_Outcome q;
     ba_LastAuthenticatedAt := ts (q_LastAuthenticatedAt q); ba_GrantAgeBasis := q_GrantAgeBasis q;
     ba_VerifiedGrantFrom := ts (q_VerifiedGrantFrom q); ba_QualifiedDays := q_QualifiedDays q |}.

(* src: internal/igagov/bundle.go:126-135 (Gap) *)
Record Gap := {
  ga_Kind : string;
  ga_Key : string;
  ga_Service : string;
  ga_Form : string;
  ga_Region : string;
  ga_Resource : string;
  ga_Reason : string;
  ga_Count : Z
}.

(* src: internal/igagov/bundle.go:146-160 (BundleFacts) *)
Record BundleFacts := {
  bf_Format : string;
  bf_Catalog : string;
  bf_BuiltAt : string;
  bf_Sources : list BundleSource;
  bf_Target : BundleTarget;
  bf_RemovedServices : list string;
  bf_Grants : list BundleGrant;
  bf_Consumers : list ImpactConsumer;
  bf_ConsumersUnresolved : Z;
  bf_Owners : list string;
  bf_Activity : list BundleActivity;
  bf_Routes : list Route;
  bf_Gaps : list Gap
}.

(* src: internal/igagov/bundle.go:165-178 (BundleInput) *)
Record BundleInput := {
  bi_BuiltAt : Time;
  bi_Sources : list BundleSourceInput;
  bi_Target : BundleTarget;
  bi_RemovedServices : list string;
  bi_Grants : list BundleGrant;
  bi_Consumers : list ImpactConsumer;
  bi_ConsumersUnresolved : Z;
  bi_Owners : list string;
  bi_Activity : list BundleActivity;
  bi_RouteAnalyses : list RouteAnalysis
}.

(* src: internal/igagov/bundle.go:181-190 (Bundle) *)
Record Bundle := {
  bd_Facts : BundleFacts;
  bd_Canonical : string;
  bd_Hash : string;
  bd_Trust : string;
  bd_TrustReasons : list string;
  bd_GapRefs : list GapRef
}.

(** * JSON *)

Definition omit_int (k : string) (z : Z) : list (string * goval) := if z =? 0 then [] else [(k, GInt z)].

Definition Gap_val (g : Gap) : goval :=
  GStruct ([("kind", GString (ga_Kind g)); ("key", GString (ga_Key g))] ++ omit_empty "service" (ga_Service g) ++
           omit_empty "form" (ga_Form g) ++ omit_empty "region" (ga_Region g) ++
           omit_empty "resource" (ga_Resource g) ++ omit_empty "reason" (ga_Reason g) ++ omit_int "count" (ga_Count g)).

(* src: internal/igagov/bundle.go:138-138 (GapHash) *)
Definition GapHash (g : Gap) : result string := HashCanonicalTagged DomainGap (Gap_val g).

Definition BundleSource_val (s : BundleSource) : goval :=
  GStruct [("kind", GString (bs_Kind s)); ("rev", GInt (bs_Rev s)); ("published_at", opt_val (bs_PublishedAt s));
           ("connector_id", GString (bs_ConnectorID s)); ("connector_run", GString (bs_ConnectorRun s));
           ("authenticated", GBool (bs_Authenticated s)); ("ordered", GBool (bs_Ordered s));
           ("trust", GString (bs_Trust s)); ("trust_reasons", GSlice (map GString (bs_TrustReasons s)));
           ("freshness_hours", GInt (bs_FreshnessHours s));
           ("activity_report_generated_at", opt_val (bs_ActivityReportGeneratedAt s));
           ("resource_policy_coverage", GString (bs_ResourcePolicyCoverage s));
           ("resource_policy_run", opt_val (bs_ResourcePolicyRun s))].

Definition BundleTarget_val (t : BundleTarget) : goval :=
  GStruct [("account_id", GString (bt_AccountID t)); ("role_id", GString (bt_RoleID t));
           ("role_arn", GString (bt_RoleARN t)); ("estate_scope", GString (bt_EstateScope t))].

Definition BundleGrant_val (g : BundleGrant) : goval :=
  GStruct [("policy_arn", GString (bg_PolicyARN g)); ("assignment_kind", GString (bg_AssignmentKind g));
           ("statement_key", GString (bg_StatementKey g)); ("statement_hash", GString (bg_StatementHash g));
           ("services", GSlice (map GString (bg_Services g)))].

Definition BundleActivity_val (a : BundleActivity) : goval :=
  GStruct [("service", GString (ba_Service a)); ("state", GString (ba_State a)); ("outcome", GString (ba_Outcome a));
           ("last_authenticated_at", opt_val (ba_LastAuthenticatedAt a));
           ("grant_age_basis", GString (ba_GrantAgeBasis a)); ("verified_grant_from", opt_val (ba_VerifiedGrantFrom a));
           ("qualified_days", GInt (ba_QualifiedDays a))].

Definition BundleFacts_val (f : BundleFacts) : goval :=
  GStruct [("format", GString (bf_Format f)); ("catalog", GString (bf_Catalog f)); ("built_at", GString (bf_BuiltAt f));
           ("sources", GSlice (map BundleSource_val (bf_Sources f))); ("target", BundleTarget_val (bf_Target f));
           ("removed_services", GSlice (map GString (bf_RemovedServices f)));
           ("grants", GSlice (map BundleGrant_val (bf_Grants f)));
           ("consumers", GSlice (map ImpactConsumer_val (bf_Consumers f)));
           ("consumers_unresolved", GInt (bf_ConsumersUnresolved f)); ("owners", GSlice (map GString (bf_Owners f)));
           ("activity", GSlice (map BundleActivity_val (bf_Activity f))); ("routes", GSlice (map Route_val (bf_Routes f)));
           ("gaps", GSlice (map Gap_val (bf_Gaps f)))].

(** * Coverage and gaps *)

(** The not-analysed routes of a form in the coverage analysis. *)
Definition form_incomplete (ev : ResourcePolicyEvidence) (enabledRegions : list string) (f : PolicyBearingForm)
  : list Route :=
  List.filter (fun r => (rt_Effect r =? RouteEffectNotAnalysed)%string && (rt_Form r =? frm_Name f)%string)
    (ra_Routes (AnalyzeRoutes (frm_Namespace f) {| rr_RoleID := ""; rr_ARN := ""; rr_Name := ""; rr_AccountID := "";
                                                   rr_Partition := "" |} (Some (coverageOnly ev)) enabledRegions)).

Definition collected_forms : list PolicyBearingForm :=
  List.filter (fun f => (frm_State f =? FormCollected)%string) AllForms.

(* src: internal/igagov/bundle.go:196-212 (SummarizeCoverage) *)
Definition SummarizeCoverage (ev : option ResourcePolicyEvidence) (enabledRegions : list string) : string :=
  match ev with
  | None => CoverageNotCollected
  | Some ev =>
      match Coverage ev with
      | [] => CoverageNotCollected
      | _ => if existsb (fun f => match form_incomplete ev enabledRegions f with [] => false | _ => true end)
                  collected_forms
             then CoveragePartial else CoverageComplete
      end
  end.

(* src: internal/igagov/bundle.go:214-231 (gapFor) *)
Definition gapFor (r : Route) : Gap :=
  let gap kind key form region resource :=
    {| ga_Kind := kind; ga_Key := key; ga_Service := rt_Service r; ga_Form := form; ga_Region := region;
       ga_Resource := resource; ga_Reason := rt_Reason r; ga_Count := 0 |} in
  if (rt_Reason r =? "form_not_collected")%string then
    gap GapUnanalysedForm ("unanalysed_form:" +:+ rt_Form r) (rt_Form r) "" ""
  else if (rt_Reason r =? "policy_unparseable")%string then
    gap GapPolicyUnparseable ("policy_unparseable:" +:+ rt_Resource r) (rt_Form r) (rt_Region r) (rt_Resource r)
  else if (rt_Reason r =? "no_resource_policy_coverage")%string then
    gap GapResourcePolicyCoverage ("resource_policy_coverage:" +:+ rt_Service r +:+ ":*") "" "" ""
  else
    gap GapResourcePolicyCoverage
      ("resource_policy_coverage:" +:+ rt_Form r +:+ ":" +:+ (if is_empty (rt_Region r) then "*" else rt_Region r))
      (rt_Form r) (rt_Region r) "".

(** * Sources *)

(** Why a source is untrusted, and why only partly trusted. *)
Definition untrusted_reasons (i : BundleSourceInput) (age : Z) (rules : TrustRules) : list string :=
  (if (si_Kind i =? SourceAWSPublication)%string then []
   else if (si_Kind i =? SourceK8sSweep)%string then ["provider_not_supported:K-1"] else ["source_kind_not_supported"]) ++
  (if si_Authenticated i then [] else ["unauthenticated"]) ++
  (if si_Ordered i then [] else ["unordered"]) ++
  (if MaxSourceAge rules <? age then ["stale"] else []).

Definition source_coverage (i : BundleSourceInput) : string :=
  if is_empty (si_ResourcePolicyCoverage i) then CoverageNotCollected else si_ResourcePolicyCoverage i.

Definition partial_reasons (i : BundleSourceInput) : list string :=
  if (source_coverage i =? CoverageComplete)%string then [] else ["resource_policy_coverage_" +:+ source_coverage i].

(** The age of the source's evidence. *)
Definition source_age (i : BundleSourceInput) (builtAt : Time) : Z :=
  Z.max 0 (time_sub builtAt (default (si_PublishedAt i) (si_ActivityReportGeneratedAt i))).

(* src: internal/igagov/bundle.go:233-285 (sourceTrust) *)
Definition sourceTrust (i : BundleSourceInput) (builtAt : Time) (rules : TrustRules) : BundleSource :=
  let age := source_age i builtAt in
  let untrusted := untrusted_reasons i age rules in
  let partial := partial_reasons i in
  let '(trust, reasons) :=
    match untrusted, partial with
    | _ :: _, _ => (TrustUntrusted, untrusted ++ partial)
    | [], _ :: _ => (TrustPartial, partial)
    | [], [] => (TrustTrusted, [])
    end in
  {| bs_Kind := si_Kind i; bs_Rev := si_Rev i; bs_PublishedAt := tsv (si_PublishedAt i);
     bs_ConnectorID := si_ConnectorID i; bs_ConnectorRun := si_ConnectorRun i; bs_Authenticated := si_Authenticated i;
     bs_Ordered := si_Ordered i; bs_Trust := trust; bs_TrustReasons := sort_slice str_lt reasons;
     bs_FreshnessHours := age / Hour; bs_ActivityReportGeneratedAt := ts (si_ActivityReportGeneratedAt i);
     bs_ResourcePolicyCoverage := source_coverage i; bs_ResourcePolicyRun := nilIfEmpty (si_ResourcePolicyRun i) |}.

(** * Trust *)

(** [act[svc]]: the last activity fact of the service. *)
Definition activity_of (activity : list BundleActivity) (svc : string) : option BundleActivity :=
  last (List.filter (fun a => (ba_Service a =? svc)%string) activity).

Definition source_reasons (trust : string) (s : BundleSource) : list string :=
  if (bs_Trust s =? trust)%string
  then (fun r => "source " +:+ bs_Kind s +:+ ":" +:+ bs_ConnectorRun s +:+ ": " +:+ r) <$> bs_TrustReasons s else [].

(* src: internal/igagov/bundle.go:293-328 (ClassifyBundleTrust) *)
Definition ClassifyBundleTrust (f : BundleFacts) : string * list string :=
  let untrusted :=
    flat_map (fun s =>
      source_reasons TrustUntrusted s ++
      (if (bs_Trust s =? TrustUntrusted)%string && match bs_TrustReasons s with [] => true | _ => false end
       then ["source " +:+ bs_Kind s +:+ ":" +:+ bs_ConnectorRun s +:+ ": untrusted"] else [])) (bf_Sources f) ++
    flat_map (fun svc =>
      match activity_of (bf_Activity f) svc with
      | Some a => if (ba_State a =? EvidenceCollected)%string then [] else ["activity_not_collected:" +:+ svc]
      | None => ["activity_not_collected:" +:+ svc]
      end) (bf_RemovedServices f) in
  let partial := flat_map (source_reasons TrustPartial) (bf_Sources f) ++ ((fun g => "gap " +:+ ga_Key g) <$> bf_Gaps f) in
  match untrusted, partial with
  | _ :: _, _ => (TrustUntrusted, sortedUnique (untrusted ++ partial))
  | [], _ :: _ => (TrustPartial, sortedUnique partial)
  | [], [] => (TrustTrusted, [])
  end.

(** * Building *)

Definition source_less (a b : BundleSource) : bool :=
  if negb (bs_Kind a =? bs_Kind b)%string then str_lt (bs_Kind a) (bs_Kind b)
  else if negb (bs_ConnectorID a =? bs_ConnectorID b)%string then str_lt (bs_ConnectorID a) (bs_ConnectorID b)
  else if negb (bs_Rev a =? bs_Rev b) then bs_Rev a <? bs_Rev b
  else str_lt (bs_ConnectorRun a) (bs_ConnectorRun b).

Definition grant_keys (g : BundleGrant) : list string := [bg_PolicyARN g; bg_StatementKey g; bg_StatementHash g].

Definition sort_services (g : BundleGrant) : BundleGrant :=
  {| bg_PolicyARN := bg_PolicyARN g; bg_AssignmentKind := bg_AssignmentKind g; bg_StatementKey := bg_StatementKey g;
     bg_StatementHash := bg_StatementHash g; bg_Services := sortedUnique (bg_Services g) |}.

(** The first service listed twice in a row. *)
Fixpoint repeated_service (l : list BundleActivity) : option string :=
  match l with
  | a :: (b :: _) as l' => if (ba_Service a =? ba_Service b)%string then Some (ba_Service b) else repeated_service l'
  | _ => None
  end.

(** The routes of the removed services. *)
Definition removed_routes (removed : list string) (analyses : list RouteAnalysis) : list Route :=
  flat_map (fun ra => if bool_decide (ra_Service ra ∈ removed) then ra_Routes ra else []) analyses.

Definition not_analysed_route (r : Route) : bool := (rt_Effect r =? RouteEffectNotAnalysed)%string.

(** [gaps]: the last gap of each key. *)
Definition gap_map (routes : list Route) (unresolved : Z) : gmap string Gap :=
  let m := foldl (fun m r => let g := gapFor r in <[ga_Key g := g]> m) ∅ (List.filter not_analysed_route routes) in
  if 0 <? unresolved then
    <[GapConsumersUnresolved :=
        {| ga_Kind := GapConsumersUnresolved; ga_Key := GapConsumersUnresolved; ga_Service := ""; ga_Form := "";
           ga_Region := ""; ga_Resource := ""; ga_Reason := ""; ga_Count := unresolved |}]> m
  else m.

Definition scope_target (t : BundleTarget) : BundleTarget :=
  {| bt_AccountID := bt_AccountID t; bt_RoleID := bt_RoleID t; bt_RoleARN := bt_RoleARN t;
     bt_EstateScope := if is_empty (bt_EstateScope t) then "aws:account:" +:+ bt_AccountID t else bt_EstateScope t |}.

(** The facts of an input that passed the checks. *)
(* src: internal/igagov/bundle.go:350-423 (BuildBundle, facts) *)
Definition bundle_facts (i : BundleInput) (rules : TrustRules) : BundleFacts :=
  let removed := sortedUnique (bi_RemovedServices i) in
  let routes := removed_routes removed (bi_RouteAnalyses i) in
  let gaps := gap_map routes (bi_ConsumersUnresolved i) in
  {| bf_Format := BundleFormat; bf_Catalog := CatalogLabel; bf_BuiltAt := default "" (tsv (bi_BuiltAt i));
     bf_Sources := sort_slice source_less (map (fun s => sourceTrust s (bi_BuiltAt i) rules) (bi_Sources i));
     bf_Target := scope_target (bi_Target i); bf_RemovedServices := removed;
     bf_Grants := sort_slice (less_by grant_keys) (map sort_services (bi_Grants i));
     bf_Consumers := uniqueConsumers (sort_slice (less_by consumer_keys) (bi_Consumers i));
     bf_ConsumersUnresolved := bi_ConsumersUnresolved i; bf_Owners := sortedUnique (bi_Owners i);
     bf_Activity := sort_slice (less_by (fun a => [ba_Service a])) (bi_Activity i);
     bf_Routes := SortRoutes (List.filter (fun r => negb (not_analysed_route r)) routes);
     bf_Gaps := omap (fun k => gaps !! k) (sortedKeys gaps) |}.

(* src: internal/igagov/bundle.go:337-442 (BuildBundle) *)
Definition BuildBundle (i : BundleInput) (rules : TrustRules) : result Bundle :=
  let err msg := Err (ErrOther ("igagov: " +:+ msg)) in
  match bi_Sources i with
  | [] => err "an evidence bundle must name at least one source"
  | _ =>
      let t := bi_Target i in
      if IsZero (bi_BuiltAt i) then err "an evidence bundle needs its build time"
      else if negb (reAccount (bt_AccountID t)) || is_empty (bt_RoleID t) || is_empty (bt_RoleARN t)
      then err "an evidence bundle needs its target account, RoleId and ARN"
      else if bi_ConsumersUnresolved i <? 0 then err "consumers_unresolved cannot be negative"
      else
        let f := bundle_facts i rules in
        match repeated_service (bf_Activity f) with
        | Some svc => err ("activity lists " +:+ svc +:+ " twice")
        | None =>
            canon ← CanonicalizeValue (BundleFacts_val f);
            _ ← checkStorable canon;
            refs ← mapM (fun g => h ← GapHash g; Ok {| gr_Key := ga_Key g; gr_Hash := h |}) (bf_Gaps f);
            let '(trust, reasons) := ClassifyBundleTrust f in
            Ok {| bd_Facts := f; bd_Canonical := canon; bd_Hash := ContentHash canon; bd_Trust := trust;
                  bd_TrustReasons := reasons; bd_GapRefs := refs |}
        end
  end.

(** * What the trust says *)

#[local] Opaque CanonicalizeValue ContentHash.

(** A supported, authenticated, ordered and fresh source. *)
Definition source_ok (i : BundleSourceInput) (builtAt : Time) (rules : TrustRules) : Prop :=
  si_Kind i = SourceAWSPublication /\ si_Authenticated i = true /\ si_Ordered i = true /\
  source_age i builtAt <= MaxSourceAge rules.

Lemma untrusted_nil i age rules :
  untrusted_reasons i age rules = [] <->
  si_Kind i = SourceAWSPublication /\ si_Authenticated i = true /\ si_Ordered i = true /\ age <= MaxSourceAge rules.
Proof.
  unfold untrusted_reasons. rewrite !app_nil.
  destruct (String.eqb_spec (si_Kind i) SourceAWSPublication), (si_Authenticated i), (si_Ordered i),
    (Z.ltb_spec (MaxSourceAge rules) age); try (destruct (si_Kind i =? SourceK8sSweep)%string); naive_solver lia.
Qed.

Lemma source_ok_untrusted i b rules : untrusted_reasons i (source_age i b) rules = [] <-> source_ok i b rules.
Proof. apply untrusted_nil. Qed.

Lemma partial_reasons_nil i : partial_reasons i = [] <-> source_coverage i = CoverageComplete.
Proof. unfold partial_reasons. destruct (String.eqb_spec (source_coverage i) CoverageComplete); naive_solver. Qed.

Lemma fmap_nil_iff {A B} (f : A -> B) l : f <$> l = [] <-> l = [].
Proof. by destruct l. Qed.

Lemma sort_str_nil l : sort_slice str_lt l = [] <-> l = [].
Proof. apply sort_slice_nil. Qed.

(** The reasons a derived source contributes. *)
Lemma source_contributes i b rules :
  let s := sourceTrust i b rules in
  let bad := source_reasons TrustUntrusted s ++
             (if (bs_Trust s =? TrustUntrusted)%string && match bs_TrustReasons s with [] => true | _ => false end
              then ["source " +:+ bs_Kind s +:+ ":" +:+ bs_ConnectorRun s +:+ ": untrusted"] else []) in
  (bad = [] <-> source_ok i b rules) /\
  (source_ok i b rules -> source_reasons TrustPartial s = [] <-> source_coverage i = CoverageComplete).
Proof.
  cbn zeta. unfold sourceTrust, source_reasons. rewrite <- source_ok_untrusted, <- partial_reasons_nil.
  destruct (untrusted_reasons i (source_age i b) rules) as [|u us] eqn:Eu.
  - destruct (partial_reasons i) as [|p ps] eqn:Ep; cbn [bs_Trust bs_TrustReasons bs_Kind bs_ConnectorRun].
    + split; [done|]. done.
    + split; [done|]. intros _. change (TrustPartial =? TrustPartial)%string with true. cbn match.
      rewrite fmap_nil_iff, sort_str_nil. done.
  - cbn [bs_Trust bs_TrustReasons]. change (TrustUntrusted =? TrustUntrusted)%string with true. cbn match.
    split; [|done]. split; [|done]. rewrite app_nil, fmap_nil_iff, sort_str_nil. by intros [? _].
Qed.

(** The activity facts name each service once. *)
Lemma repeated_service_None l :
  StronglySorted (not_after (less_by (fun a => [ba_Service a]))) l -> repeated_service l = None -> NoDup (ba_Service <$> l).
Proof.
  induction 1 as [|a l Hs IH Ha]; intros Hr; [constructor|]. destruct l as [|c l]; [apply NoDup_singleton|].
  cbn [repeated_service] in Hr. destruct (String.eqb_spec (ba_Service a) (ba_Service c)) as [|Hac]; [done|].
  rewrite fmap_cons. constructor; [|by apply IH]. intros (b & E & Hb)%list_elem_of_fmap.
  apply Forall_cons in Ha as [Hc Ha]. assert (not_after (less_by (fun a => [ba_Service a])) c b) as Hcb.
  { apply elem_of_cons in Hb as [->|Hb]; [apply (less_irrefl (less:=lex_lt))|]. inversion Hs as [|? ? ? Hf]; subst.
    rewrite Forall_forall in Hf. by apply Hf. }
  assert ([ba_Service a] = [ba_Service c]) as [= ?]; [|done].
  apply (less_tri (less:=lex_lt)); [|exact Hc]. unfold not_after, less_by in Hcb. by rewrite <- E in Hcb.
Qed.

Lemma activity_of_spec l svc a :
  NoDup (ba_Service <$> l) -> activity_of l svc = Some a <-> a ∈ l /\ ba_Service a = svc.
Proof.
  unfold activity_of. intros Hnd. split.
  - intros H. apply last_Some_elem_of in H. apply elem_of_filter_b in H as [H E]. by apply String.eqb_eq in E.
  - intros [Hin <-]. assert (List.filter (fun b => (ba_Service b =? ba_Service a)%string) l = [a]) as ->; [|done].
    induction l as [|b l IH]; [by apply not_elem_of_nil in Hin|]. rewrite fmap_cons, NoDup_cons in Hnd.
    destruct Hnd as [Hb Hnd]. cbn [List.filter]. destruct (String.eqb_spec (ba_Service b) (ba_Service a)) as [E|E].
    + apply elem_of_cons in Hin as [->|Hin].
      * f_equal. apply filter_none. intros c Hc. apply String.eqb_neq. intros E'. apply Hb. rewrite <- E'.
        apply list_elem_of_fmap. by exists c.
      * exfalso. apply Hb. rewrite E. apply list_elem_of_fmap. by exists a.
    + apply elem_of_cons in Hin as [->|Hin]; [done|]. by apply IH.
Qed.

(** The removed service has a collected activity fact. *)
Definition activity_collected (i : BundleInput) (svc : string) : Prop :=
  exists a, a ∈ bi_Activity i /\ ba_Service a = svc /\ ba_State a = EvidenceCollected.

(** A not-analysed route of a removed service. *)
Definition unanalysed (i : BundleInput) : Prop :=
  exists ra r, ra ∈ bi_RouteAnalyses i /\ ra_Service ra ∈ bi_RemovedServices i /\ r ∈ ra_Routes ra /\
    rt_Effect r = RouteEffectNotAnalysed.

Lemma elem_of_removed_routes removed l r :
  r ∈ removed_routes removed l <-> exists ra, ra ∈ l /\ ra_Service ra ∈ removed /\ r ∈ ra_Routes ra.
Proof.
  unfold removed_routes. rewrite list_elem_of_In, in_flat_map. split.
  - intros (ra & Hra & Hr). apply list_elem_of_In in Hra. case_bool_decide; [|done]. exists ra. by rewrite (list_elem_of_In _ r).
  - intros (ra & Hra & Hs & Hr). exists ra. split; [by apply list_elem_of_In|]. rewrite bool_decide_eq_true_2 by done.
    by apply list_elem_of_In.
Qed.

Lemma gap_fold_spec l (m : gmap string Gap) k :
  is_Some (foldl (fun m r => let g := gapFor r in <[ga_Key g := g]> m) m l !! k) <->
  is_Some (m !! k) \/ exists r, r ∈ l /\ ga_Key (gapFor r) = k.
Proof.
  revert m. induction l as [|r l IH]; intros m; cbn [foldl].
  - split; [by left|]. intros [?|(r & Hr & _)]; [done|by apply not_elem_of_nil in Hr].
  - rewrite IH. cbn zeta. setoid_rewrite elem_of_cons. destruct (decide (ga_Key (gapFor r) = k)) as [<-|Hk].
    + rewrite lookup_insert_eq. naive_solver.
    + rewrite lookup_insert_ne by done. naive_solver.
Qed.

Definition route_gaps (l : list Route) : gmap string Gap :=
  foldl (fun m r => let g := gapFor r in <[ga_Key g := g]> m) ∅ l.

Lemma route_gaps_spec routes k :
  is_Some (route_gaps (List.filter not_analysed_route routes) !! k) <->
  exists r, r ∈ routes /\ rt_Effect r = RouteEffectNotAnalysed /\ ga_Key (gapFor r) = k.
Proof.
  unfold route_gaps. rewrite gap_fold_spec, lookup_empty. setoid_rewrite elem_of_filter_b. unfold not_analysed_route.
  setoid_rewrite String.eqb_eq. split; [intros [[? [=]]|?]; naive_solver|naive_solver].
Qed.

(** The keys of the gap map: those of the not-analysed routes, and the
    unresolved consumers. *)
Lemma gap_map_spec routes n k :
  is_Some (gap_map routes n !! k) <->
  (exists r, r ∈ routes /\ rt_Effect r = RouteEffectNotAnalysed /\ ga_Key (gapFor r) = k) \/
  (0 < n /\ k = GapConsumersUnresolved).
Proof.
  unfold gap_map. cbn zeta. fold (route_gaps (List.filter not_analysed_route routes)).
  pose proof (route_gaps_spec routes) as H.
  destruct (Z.ltb_spec 0 n) as [Hn|Hn].
  - destruct (decide (k = GapConsumersUnresolved)) as [->|Hk].
    + rewrite lookup_insert_eq. naive_solver.
    + rewrite lookup_insert_ne, H by done. naive_solver.
  - rewrite H. naive_solver lia.
Qed.

Lemma gap_map_key routes n k g : gap_map routes n !! k = Some g -> ga_Key g = k.
Proof.
  unfold gap_map. cbn zeta. set (m := foldl _ ∅ _).
  assert (forall k g, m !! k = Some g -> ga_Key g = k) as Hm.
  { unfold m. set (l := List.filter _ _). assert (forall l (m0 : gmap string Gap), (forall k g, m0 !! k = Some g -> ga_Key g = k) ->
      forall k g, foldl (fun m r => let g := gapFor r in <[ga_Key g := g]> m) m0 l !! k = Some g -> ga_Key g = k) as Hl.
    { clear. induction l as [|r l IH]; intros m0 H0; [done|]. cbn [foldl]. apply IH. intros k g.
      rewrite lookup_insert_Some. naive_solver. }
    apply Hl. intros ? ? Hx. by rewrite lookup_empty in Hx. }
  destruct (0 <? n); [|apply Hm]. rewrite lookup_insert_Some. intros [[<- <-]|[_ H]]; [done|by apply Hm].
Qed.

Lemma sortedKeys_sorted {V} (m : gmap string V) : StronglySorted (not_after str_lt) (sortedKeys m).
Proof. apply (sort_slice_sorted str_lt). Qed.

Lemma elem_of_gaps (m : gmap string Gap) g : g ∈ omap (fun k => m !! k) (sortedKeys m) <-> exists k, m !! k = Some g.
Proof.
  rewrite list_elem_of_omap. split; [naive_solver|]. intros [k Hk]. exists k. split; [|done].
  rewrite elem_of_sortedKeys. by exists g.
Qed.

(** * Trust from the facts *)

Definition activity_errs (l : list BundleActivity) (svc : string) : list string :=
  match activity_of l svc with
  | Some a => if (ba_State a =? EvidenceCollected)%string then [] else ["activity_not_collected:" +:+ svc]
  | None => ["activity_not_collected:" +:+ svc]
  end.

Lemma activity_errs_nil l svc :
  NoDup (ba_Service <$> l) ->
  activity_errs l svc = [] <-> exists a, a ∈ l /\ ba_Service a = svc /\ ba_State a = EvidenceCollected.
Proof.
  intros Hnd. unfold activity_errs. destruct (activity_of l svc) as [a|] eqn:E.
  - apply activity_of_spec in E as [Hin <-]; [|done].
    destruct (String.eqb_spec (ba_State a) EvidenceCollected) as [Hc|Hc]; [naive_solver|]. split; [done|].
    intros (b & Hb & Es & Hs). exfalso. assert (activity_of l (ba_Service a) = Some b) as Hb' by (by apply activity_of_spec).
    assert (activity_of l (ba_Service a) = Some a) as Ha' by (by apply activity_of_spec). congruence.
  - split; [done|]. intros (b & Hb & Es & _). assert (activity_of l svc = Some b) by (by apply activity_of_spec). congruence.
Qed.

Definition source_errs (s : BundleSource) : list string :=
  source_reasons TrustUntrusted s ++
  (if (bs_Trust s =? TrustUntrusted)%string && match bs_TrustReasons s with [] => true | _ => false end
   then ["source " +:+ bs_Kind s +:+ ":" +:+ bs_ConnectorRun s +:+ ": untrusted"] else []).

(** The trust level by its two lists of reasons. *)
Lemma classify_levels f :
  let bad := flat_map source_errs (bf_Sources f) ++ flat_map (activity_errs (bf_Activity f)) (bf_RemovedServices f) in
  let part := flat_map (source_reasons TrustPartial) (bf_Sources f) ++ ((fun g => "gap " +:+ ga_Key g) <$> bf_Gaps f) in
  ((ClassifyBundleTrust f).1 = TrustUntrusted <-> bad <> []) /\
  ((ClassifyBundleTrust f).1 = TrustTrusted <-> bad = [] /\ part = []) /\
  ((ClassifyBundleTrust f).1 = TrustPartial <-> bad = [] /\ part <> []).
Proof.
  unfold ClassifyBundleTrust. fold source_errs. fold (activity_errs (bf_Activity f)). cbn zeta.
  destruct (flat_map source_errs (bf_Sources f) ++ _) as [|x l]; [|cbn; naive_solver].
  destruct (flat_map (source_reasons TrustPartial) (bf_Sources f) ++ _) as [|y k]; cbn; naive_solver.
Qed.

(** The checks a built bundle passed. *)
Lemma BuildBundle_Ok i rules b :
  BuildBundle i rules = Ok b ->
  bd_Facts b = bundle_facts i rules /\ bd_Hash b = ContentHash (bd_Canonical b) /\
  CanonicalizeValue (BundleFacts_val (bundle_facts i rules)) = Ok (bd_Canonical b) /\
  (bd_Trust b, bd_TrustReasons b) = ClassifyBundleTrust (bundle_facts i rules) /\
  gr_Key <$> bd_GapRefs b = ga_Key <$> bf_Gaps (bundle_facts i rules) /\
  0 <= bi_ConsumersUnresolved i /\ NoDup (ba_Service <$> bf_Activity (bundle_facts i rules)).
Proof.
  unfold BuildBundle. destruct (bi_Sources i); [done|]. cbn zeta. destruct (IsZero _); [done|].
  destruct (negb _ || _ || _); [done|]. destruct (Z.ltb_spec (bi_ConsumersUnresolved i) 0) as [|Hu]; [done|].
  set (f := bundle_facts i rules). destruct (repeated_service (bf_Activity f)) eqn:Er; [done|].
  intros (canon & Hc & (u & _ & (refs & Hrefs & H)%bind_Ok)%bind_Ok)%bind_Ok.
  destruct (ClassifyBundleTrust f) as [trust reasons]. injection H as <-.
  cbn [bd_Facts bd_Canonical bd_Hash bd_Trust bd_TrustReasons bd_GapRefs]. split_and!; try done.
  - apply mapM_Ok in Hrefs. clear -Hrefs. induction Hrefs as [|g r l k Hg _ IH]; [done|]. cbn.
    apply bind_Ok in Hg as (h & _ & [= <-]). cbn. by f_equal.
  - apply repeated_service_None; [|done]. unfold f, bundle_facts. cbn [bf_Activity].
    apply (sort_slice_sorted (less_by (fun a => [ba_Service a]))).
Qed.

Lemma flat_map_nonnil {A B} (f : A -> list B) l : flat_map f l <> [] <-> exists x, x ∈ l /\ f x <> [].
Proof.
  induction l as [|x l IH]; cbn [flat_map].
  - split; [done|]. intros (x & Hx & _). by apply not_elem_of_nil in Hx.
  - setoid_rewrite elem_of_cons. destruct (f x) as [|y ys] eqn:E; cbn [app]; [naive_solver congruence|].
    split; [|done]. intros _. exists x. rewrite E. auto.
Qed.

Lemma app_nonnil {A} (l k : list A) : l ++ k <> [] <-> l <> [] \/ k <> [].
Proof. destruct l; naive_solver. Qed.

Lemma elem_of_sources i rules s :
  s ∈ bf_Sources (bundle_facts i rules) <-> exists x, x ∈ bi_Sources i /\ s = sourceTrust x (bi_BuiltAt i) rules.
Proof.
  unfold bundle_facts. cbn [bf_Sources]. rewrite elem_of_sort_slice, list_elem_of_In, in_map_iff.
  setoid_rewrite <- list_elem_of_In. naive_solver.
Qed.

Lemma bad_reasons i rules :
  NoDup (ba_Service <$> bf_Activity (bundle_facts i rules)) ->
  let f := bundle_facts i rules in
  flat_map source_errs (bf_Sources f) ++ flat_map (activity_errs (bf_Activity f)) (bf_RemovedServices f) <> [] <->
  (exists s, s ∈ bi_Sources i /\ ~ source_ok s (bi_BuiltAt i) rules) \/
  (exists svc, svc ∈ bi_RemovedServices i /\ ~ activity_collected i svc).
Proof.
  intros Hnd. cbn zeta. rewrite app_nonnil, !flat_map_nonnil. setoid_rewrite elem_of_sources. f_equiv.
  - split.
    + intros (s & (x & Hx & ->) & He). exists x. split; [done|]. intros Hok. apply He.
      by apply (source_contributes x (bi_BuiltAt i) rules).
    + intros (x & Hx & Hn). eexists. split; [by exists x|]. intros He. apply Hn.
      by apply (source_contributes x (bi_BuiltAt i) rules).
  - assert (forall svc, activity_collected i svc <-> activity_errs (bf_Activity (bundle_facts i rules)) svc = []) as H.
    { intros svc. rewrite activity_errs_nil by done. unfold activity_collected, bundle_facts. cbn [bf_Activity].
      by setoid_rewrite elem_of_sort_slice. }
    setoid_rewrite H. unfold bundle_facts. cbn [bf_RemovedServices]. by setoid_rewrite elem_of_sortedUnique.
Qed.

Lemma gaps_nonnil i rules :
  0 <= bi_ConsumersUnresolved i ->
  bf_Gaps (bundle_facts i rules) <> [] <-> unanalysed i \/ 0 < bi_ConsumersUnresolved i.
Proof.
  intros Hu. unfold bundle_facts. cbn [bf_Gaps]. set (routes := removed_routes _ _). set (m := gap_map _ _).
  assert (omap (fun k => m !! k) (sortedKeys m) <> [] <-> exists k, is_Some (m !! k)) as ->.
  { split.
    - destruct (omap _ _) as [|g l] eqn:E; [done|]. intros _.
      destruct (proj1 (elem_of_gaps m g)) as [k Hk]; [rewrite E; left|]. exists k. by exists g.
    - intros (k & g & Hk) E. assert (g ∈ omap (fun k => m !! k) (sortedKeys m)) as Hg by (apply elem_of_gaps; by exists k).
      rewrite E in Hg. by apply not_elem_of_nil in Hg. }
  unfold m. setoid_rewrite gap_map_spec. unfold routes. setoid_rewrite elem_of_removed_routes. unfold unanalysed.
  setoid_rewrite elem_of_sortedUnique. split.
  - intros (k & [(r & (ra & Hra & Hs & Hr) & He & _)|[? _]]); [left; by exists ra, r|by right].
  - intros [(ra & r & Hra & Hs & Hr & He)|?]; [|exists GapConsumersUnresolved; by right].
    eexists. left. exists r. split; [by exists ra|done].
Qed.

(** C33 A bundle's trust is exactly what its evidence supports: it is untrusted
    when a source is unsupported, unauthenticated, unordered or stale, or a
    removed service has no collected activity; trusted when none of that holds,
    every source covered resource policies completely, no route of a removed
    service was left unanalysed and every consumer was resolved; partial
    otherwise. *)
Theorem bundle_trust_exact i rules b :
  BuildBundle i rules = Ok b ->
  let bad := (exists s, s ∈ bi_Sources i /\ ~ source_ok s (bi_BuiltAt i) rules) \/
             (exists svc, svc ∈ bi_RemovedServices i /\ ~ activity_collected i svc) in
  let gaps := (exists s, s ∈ bi_Sources i /\ source_coverage s <> CoverageComplete) \/ unanalysed i \/
              0 < bi_ConsumersUnresolved i in
  (bd_Trust b = TrustUntrusted <-> bad) /\ (bd_Trust b = TrustTrusted <-> ~ bad /\ ~ gaps) /\
  (bd_Trust b = TrustPartial <-> ~ bad /\ gaps).
Proof.
  intros (_ & _ & _ & Ht & _ & Hu & Hnd)%BuildBundle_Ok. cbn zeta.
  pose proof (bad_reasons i rules Hnd) as Hbad. cbn zeta in Hbad.
  destruct (classify_levels (bundle_facts i rules)) as (H1 & H2 & H3). rewrite <- Ht in H1, H2, H3. cbn [fst] in *.
  rewrite H1, H2, H3. clear H1 H2 H3 Ht. set (bad := flat_map source_errs _ ++ _) in *.
  set (bad_prop := (exists s, s ∈ bi_Sources i /\ ~ _) \/ _) in *.
  assert (bad = [] <-> ~ bad_prop) as Hbad' by (rewrite <- Hbad; destruct bad; naive_solver).
  assert (bad = [] -> flat_map (source_reasons TrustPartial) (bf_Sources (bundle_facts i rules)) ++
            ((fun g => "gap " +:+ ga_Key g) <$> bf_Gaps (bundle_facts i rules)) <> [] <->
          (exists s, s ∈ bi_Sources i /\ source_coverage s <> CoverageComplete) \/ unanalysed i \/
          0 < bi_ConsumersUnresolved i) as Hpart.
  { intros Hb%Hbad'. rewrite app_nonnil, fmap_nil_iff, gaps_nonnil, flat_map_nonnil by done.
    setoid_rewrite elem_of_sources. f_equiv.
    assert (forall x, x ∈ bi_Sources i ->
      source_reasons TrustPartial (sourceTrust x (bi_BuiltAt i) rules) = [] <-> source_coverage x = CoverageComplete) as Hx.
    { intros x Hx. apply (source_contributes x (bi_BuiltAt i) rules). apply source_ok_untrusted.
      destruct (untrusted_reasons _ _ _) eqn:E; [done|]. exfalso. apply Hb. left. exists x. split; [done|].
      rewrite <- source_ok_untrusted, E. done. }
    split.
    - intros (s & (x & Hin & ->) & He). exists x. by rewrite <- Hx.
    - intros (x & Hin & He). eexists. split; [by exists x|]. by rewrite Hx. }
  set (part := flat_map (source_reasons TrustPartial) _ ++ _) in *.
  set (gaps := (exists s, s ∈ bi_Sources i /\ source_coverage s <> CoverageComplete) \/ _) in *.
  clearbody bad part bad_prop gaps. clear Hu Hnd. destruct bad; [|naive_solver]. destruct part; naive_solver.
Qed.

(** A source read one hour before the bundle was built. *)
Definition sample_source : BundleSourceInput :=
  {| si_Kind := SourceAWSPublication; si_Rev := 7; si_PublishedAt := day 2026 7 1; si_ConnectorID := "c";
     si_ConnectorRun := "run"; si_Authenticated := true; si_Ordered := true; si_ActivityReportGeneratedAt := None;
     si_ResourcePolicyCoverage := CoverageComplete; si_ResourcePolicyRun := "run" |}.

Definition sample_input : BundleInput :=
  {| bi_BuiltAt := day 2026 7 1 + Hour; bi_Sources := [sample_source];
     bi_Target := {| bt_AccountID := "123456789012"; bt_RoleID := "AROAX"; bt_RoleARN := "arn:aws:iam::123456789012:role/x";
                     bt_EstateScope := "" |};
     bi_RemovedServices := ["sqs"]; bi_Grants := []; bi_Consumers := []; bi_ConsumersUnresolved := 0; bi_Owners := [];
     bi_Activity := [{| ba_Service := "sqs"; ba_State := EvidenceCollected; ba_Outcome := "no_attempt";
                        ba_LastAuthenticatedAt := None; ba_GrantAgeBasis := GrantAgePredatesObservation;
                        ba_VerifiedGrantFrom := None; ba_QualifiedDays := 40 |}];
     bi_RouteAnalyses := [{| ra_Service := "sqs"; ra_Usage := RouteUsageNoneObserved; ra_State := RouteStateNoneObserved;
                             ra_Routes := [] |}] |}.

Lemma bundle_trust_exact_witness :
  exists b, BuildBundle sample_input DefaultTrustRules = Ok b /\ bd_Trust b = TrustTrusted /\ ~ unanalysed sample_input.
Proof.
  assert (exists b, BuildBundle sample_input DefaultTrustRules = Ok b /\ bd_Trust b = TrustTrusted) as (b & Hb & Ht).
  { eexists. split; vm_compute; reflexivity. }
  exists b. split; [exact Hb|]. split; [exact Ht|].
  destruct (bundle_trust_exact sample_input DefaultTrustRules b Hb) as (_ & H & _). apply H in Ht as [_ Hg].
  intros Hu. apply Hg. right. left. exact Hu.
Defined.

(** Nothing the analysis left open is lost: every route of a removed service
    appears in the bundle as itself or, if it was not analysed, under a gap with
    its key; unresolved consumers are a gap; every gap comes from one of these;
    the gap keys are sorted without repeats, and the bundle's gap references
    list exactly these keys. *)
Theorem bundle_accounts_for_routes i rules b :
  BuildBundle i rules = Ok b ->
  let f := bd_Facts b in
  let gap_keys := ga_Key <$> bf_Gaps f in
  (forall ra r, ra ∈ bi_RouteAnalyses i -> ra_Service ra ∈ bi_RemovedServices i -> r ∈ ra_Routes ra ->
     if not_analysed_route r then ga_Key (gapFor r) ∈ gap_keys else r ∈ bf_Routes f) /\
  (0 < bi_ConsumersUnresolved i -> GapConsumersUnresolved ∈ gap_keys) /\
  (forall k, k ∈ gap_keys -> k = GapConsumersUnresolved \/
     exists ra r, ra ∈ bi_RouteAnalyses i /\ ra_Service ra ∈ bi_RemovedServices i /\ r ∈ ra_Routes ra /\
       not_analysed_route r = true /\ ga_Key (gapFor r) = k) /\
  StronglySorted (not_after str_lt) gap_keys /\ NoDup gap_keys /\ gr_Key <$> bd_GapRefs b = gap_keys.
Proof.
  intros (Hf & _ & _ & _ & Hrefs & _)%BuildBundle_Ok. cbn zeta. rewrite Hf, Hrefs. unfold bundle_facts.
  cbn [bf_Gaps bf_Routes]. set (m := gap_map _ _).
  assert (ga_Key <$> omap (fun k => m !! k) (sortedKeys m) = sortedKeys m) as ->.
  { assert (Forall (fun k => is_Some (m !! k)) (sortedKeys m)) as Hk.
    { apply Forall_forall. intros k. by rewrite elem_of_sortedKeys. }
    induction Hk as [|k l [g Hg] _ IH]; [done|]. cbn. rewrite Hg. cbn. rewrite IH. f_equal. by apply gap_map_key in Hg. }
  assert (forall k, k ∈ sortedKeys m <->
    (exists r, (exists ra, ra ∈ bi_RouteAnalyses i /\ ra_Service ra ∈ bi_RemovedServices i /\ r ∈ ra_Routes ra) /\
               rt_Effect r = RouteEffectNotAnalysed /\ ga_Key (gapFor r) = k) \/
    (0 < bi_ConsumersUnresolved i /\ k = GapConsumersUnresolved)) as Hk.
  { intros k. rewrite elem_of_sortedKeys. unfold m. rewrite gap_map_spec. setoid_rewrite elem_of_removed_routes.
    by setoid_rewrite elem_of_sortedUnique. }
  unfold not_analysed_route. split_and!.
  - intros ra r Hra Hs Hr. destruct (String.eqb_spec (rt_Effect r) RouteEffectNotAnalysed) as [He|He].
    + apply Hk. left. exists r. split; [by exists ra|done].
    + unfold SortRoutes. rewrite elem_of_sort_slice, elem_of_filter_b, elem_of_removed_routes. split.
      * exists ra. by rewrite elem_of_sortedUnique.
      * apply negb_true_iff. by apply String.eqb_neq.
  - intros Hu. apply Hk. by right.
  - intros k [(r & (ra & Hra & Hs & Hr) & He & E)|[_ ->]]%Hk; [right|by left]. exists ra, r. split_and!; try done.
    by apply String.eqb_eq.
  - apply sortedKeys_sorted.
  - unfold sortedKeys. rewrite sort_slice_perm. apply NoDup_fst_map_to_list.
  - done.
Qed.

Lemma bundle_accounts_for_routes_witness :
  exists b, BuildBundle sample_input DefaultTrustRules = Ok b /\ NoDup (ga_Key <$> bf_Gaps (bd_Facts b)).
Proof.
  eexists. split; [vm_compute; reflexivity|].
  apply (bundle_accounts_for_routes sample_input DefaultTrustRules). vm_compute. reflexivity.
Defined.
