(* ===== verification/FirstAttach.v ===== *)
(** The first-attachment proof (internal/igagov/compile.go): whether the evidence
    of one scan allows a role without a boundary to get one. *)

From stdpp Require Import base list strings gmap sorting.
From Stdlib Require Import Ascii.
From S2P Require Import Prelude Slices Qualify Float64 Utf8 Json JsonCanon Marshal Sha256 PolicyDoc Catalog Text Routes Hashes TimeFmt Bundle Live.

Definition RefuseEvidenceIncomplete : string := "resource_policy_evidence_incomplete".
Definition RefuseBlocksBoundary : string := "resource_policy_blocks_boundary".
Definition unanalysedOtherAccount : string := "other_accounts".

(* src: internal/igagov/compile.go:729-733 (IncompleteForm) *)
Record IncompleteForm := {
  if_Form : string;
  if_Region : string;
  if_State : string
}.

(* src: internal/igagov/compile.go:738-744 (Blocker) *)
Record Blocker := {
  bl_Kind : string;
  bl_Form : string;
  bl_Region : string;
  bl_Resource : string;
  bl_Sid : string
}.

Definition BlockerDenyNotPrincipal : string := "deny_not_principal".
Definition BlockerUnparseable : string := "unparseable".

(* src: internal/igagov/compile.go:754-765 (FirstAttachmentProof) *)
Record FirstAttachmentProof := {
  fa_ScanRunID : string;
  fa_Incomplete : list IncompleteForm;
  fa_Blockers : list Blocker;
  fa_Unanalysed : list UnanalysedItem;
  fa_CoveredByGaps : list string
}.

(* src: internal/igagov/compile.go:768-768 (FirstAttachmentProof.Blocked) *)
Definition Blocked (p : FirstAttachmentProof) : bool :=
  match fa_Incomplete p, fa_Blockers p with [], [] => false | _, _ => true end.

(* src: internal/igagov/compile.go:771-784 (FirstAttachmentProof.Refusals) *)
Definition proof_Refusals (p : FirstAttachmentProof) : list Refusal :=
  map (fun f => {| ref_Code := RefuseEvidenceIncomplete;
                   ref_Detail := if is_empty (if_Region f) then if_Form f +:+ " " +:+ if_State f
                                 else if_Form f +:+ " in " +:+ if_Region f +:+ " " +:+ if_State f |}) (fa_Incomplete p) ++
  map (fun b => {| ref_Code := RefuseBlocksBoundary; ref_Detail := bl_Kind b +:+ " " +:+ bl_Resource b |}) (fa_Blockers p).

(* src: internal/igagov/compile.go:786-794 (notPrincipalExempts) *)
Definition notPrincipalExempts (p : option Principal) (role : RoleRef) : bool :=
  match p with
  | None => false
  | Some pr => Wildcard pr || principalLists p role
  end.

(** The blockers of one observation. *)
(* src: internal/igagov/compile.go:827-842 (ProveFirstAttachment, observations) *)
Definition observation_blockers (role : RoleRef) (ob : ResourcePolicyObservation) : list Blocker :=
  let blocker kind sid := {| bl_Kind := kind; bl_Form := ob_Form ob; bl_Region := ob_Region ob;
                             bl_Resource := ob_ResourceARN ob; bl_Sid := sid |} in
  if negb (ob_PolicyPresent ob) then []
  else if (ob_ParseState ob =? ParseUnparseable)%string then [blocker BlockerUnparseable ""]
  else match ob_Document ob with
       | None => [blocker BlockerUnparseable ""]
       | Some doc =>
           flat_map (fun st => if (st_Effect st =? EffectDeny)%string && notPrincipalExempts (st_NotPrincipal st) role
                               then [blocker BlockerDenyNotPrincipal (st_Sid st)] else []) (doc_Statements doc)
       end.

(** The incomplete coverage of a collected form. *)
(* src: internal/igagov/compile.go:811-825 (ProveFirstAttachment, forms) *)
Definition incomplete_of (ev : option ResourcePolicyEvidence) (enabledRegions : list string) (f : PolicyBearingForm)
  : list IncompleteForm :=
  match ev with
  | None => [{| if_Form := frm_Name f; if_Region := ""; if_State := CoverageNotCollected |}]
  | Some ev => map (fun r => {| if_Form := frm_Name f; if_Region := rt_Region r; if_State := rt_Reason r |})
                 (form_incomplete ev enabledRegions f)
  end.

Definition uncollected_forms (accountServices : option (list string)) : list PolicyBearingForm :=
  List.filter (fun f => (frm_State f =? FormUncollected)%string &&
                        match accountServices with None => true | Some l => bool_decide (frm_Namespace f ∈ l) end) AllForms.

Definition form_key (f : PolicyBearingForm) : string := "unanalysed_form:" +:+ frm_Name f.

Definition blocker_keys (b : Blocker) : list string := [bl_Resource b; bl_Kind b; bl_Sid b].

(* src: internal/igagov/compile.go:808-878 (ProveFirstAttachment) *)
Definition ProveFirstAttachment (role : RoleRef) (scanRunID : string) (ev : option ResourcePolicyEvidence)
    (enabledRegions : list string) (accountServices : option (list string)) (gaps : list Gap) : FirstAttachmentProof :=
  let listed f := bool_decide (form_key f ∈ ga_Key <$> gaps) in
  let forms := uncollected_forms accountServices in
  {| fa_ScanRunID := scanRunID;
     fa_Incomplete := flat_map (incomplete_of ev enabledRegions) collected_forms;
     fa_Blockers := sort_slice (less_by blocker_keys)
                      match ev with None => [] | Some ev => flat_map (observation_blockers role) (Observations ev) end;
     fa_Unanalysed :=
       sortedUnanalysed
         (map (fun f => {| ui_Key := form_key f; ui_Form := frm_Name f; ui_Reason := "form_not_collected" |})
              (List.filter (fun f => negb (listed f)) forms) ++
          [{| ui_Key := unanalysedOtherAccount; ui_Form := ""; ui_Reason := "resources_in_other_accounts" |}]);
     fa_CoveredByGaps := frm_Name <$> List.filter listed forms |}.

(** * What the proof says *)

(** No observed policy denies by NotPrincipal in a way that names the role, and
    every one was parsed. *)
Definition no_blocker (role : RoleRef) (ob : ResourcePolicyObservation) : Prop :=
  ob_PolicyPresent ob = true ->
  ob_ParseState ob <> ParseUnparseable /\
  exists doc, ob_Document ob = Some doc /\
    forall st, st ∈ doc_Statements doc -> st_Effect st = EffectDeny -> notPrincipalExempts (st_NotPrincipal st) role = false.

Lemma observation_blockers_nil role ob : observation_blockers role ob = [] <-> no_blocker role ob.
Proof.
  unfold observation_blockers, no_blocker. cbn zeta. destruct (ob_PolicyPresent ob); cbn [negb]; [|done].
  destruct (String.eqb_spec (ob_ParseState ob) ParseUnparseable) as [He|He]; [naive_solver|].
  destruct (ob_Document ob) as [doc|]; [|naive_solver]. rewrite flat_map_nil. split.
  - intros H _. split; [done|]. exists doc. split; [done|]. intros st Hst Hd. specialize (H st Hst).
    rewrite Hd in H. change (EffectDeny =? EffectDeny)%string with true in H. cbn [andb] in H.
    by destruct (notPrincipalExempts (st_NotPrincipal st) role).
  - intros H. destruct H as (_ & d & [= <-] & Hd); [done|]. intros st Hst.
    destruct (String.eqb_spec (st_Effect st) EffectDeny) as [E|]; [|done]. cbn [andb]. by rewrite (Hd st Hst E).
Qed.

(** ** Coverage *)

(** The routes of a form name it and are not analysed. *)
Lemma form_routes_form service ev rs f r :
  r ∈ form_routes service ev rs f -> rt_Form r = frm_Name f /\ rt_Effect r = RouteEffectNotAnalysed.
Proof.
  assert (forall rows k, r ∈ incomplete_route service (frm_Name f) rows k ->
            rt_Form r = frm_Name f /\ rt_Effect r = RouteEffectNotAnalysed) as Hi.
  { intros rows k. unfold incomplete_route. destruct (rows !! k) as [c|]; [destruct (_ =? _)%string|];
      intros H; apply list_elem_of_In in H; cbn in H; naive_solver. }
  unfold form_routes. cbn zeta. destruct (_ =? FormUncollected)%string.
  { intros ->%list_elem_of_singleton. done. }
  destruct (_ =? ScopeAccount)%string; intros [H|H]%elem_of_app.
  - case_bool_decide; [|by apply not_elem_of_nil in H]. by apply list_elem_of_singleton in H as ->.
  - apply list_elem_of_In, in_flat_map in H as (k & _ & H). apply list_elem_of_In in H. by eapply Hi.
  - destruct (EnabledRegionsUnknown ev); [|by apply not_elem_of_nil in H]. by apply list_elem_of_singleton in H as ->.
  - apply list_elem_of_In, in_flat_map in H as (k & _ & H). apply list_elem_of_In in H. by eapply Hi.
Qed.

(** A catalogued form is complete in the coverage analysis exactly when the scan
    covered it. *)
Lemma form_incomplete_nil ev rs f :
  f ∈ policyBearingForms -> form_incomplete ev rs f = [] <-> fully_covered ev rs f.
Proof.
  intros Hin. unfold form_incomplete. set (role := Build_RoleRef _ _ _ _ _).
  assert (forall r, r ∈ ra_Routes (AnalyzeRoutes (frm_Namespace f) role (Some (coverageOnly ev)) rs) <->
          exists g, g ∈ FormsForNamespace (frm_Namespace f) /\ r ∈ form_routes (frm_Namespace f) (coverageOnly ev) rs g) as Hr.
  { intros r. rewrite AnalyzeRoutes_raw. unfold finish, raw_routes. cbn [ra_Routes]. unfold SortRoutes.
    rewrite elem_of_sort_slice. unfold coverageOnly at 2. cbn [Observations flat_map]. rewrite app_nil_r.
    rewrite list_elem_of_In, in_flat_map. by setoid_rewrite <- list_elem_of_In. }
  change (fully_covered ev rs f) with (fully_covered (coverageOnly ev) rs f).
  rewrite <- (form_routes_nil (frm_Namespace f)). split.
  - intros H. destruct (form_routes (frm_Namespace f) (coverageOnly ev) rs f) as [|r l] eqn:E; [done|]. exfalso.
    assert (r ∈ form_routes (frm_Namespace f) (coverageOnly ev) rs f) as Hrin by (rewrite E; left).
    destruct (form_routes_form _ _ _ _ _ Hrin) as [H1 H2]. eapply not_elem_of_nil. rewrite <- H. apply elem_of_filter_b.
    split; [|by rewrite H1, H2, !String.eqb_refl]. apply Hr. exists f. split; [|done]. by apply elem_of_FormsForNamespace.
  - intros H. apply filter_none. intros r (g & [Hg _]%elem_of_FormsForNamespace & Hrg)%Hr.
    destruct (form_routes_form _ _ _ _ _ Hrg) as [H1 H2]. rewrite H1, H2.
    apply andb_false_iff. right. apply String.eqb_neq. intros E. rewrite (form_names_unique g f Hg Hin E), H in Hrg.
    by apply not_elem_of_nil in Hrg.
Qed.

Lemma elem_of_collected f : f ∈ collected_forms <-> f ∈ policyBearingForms /\ frm_State f = FormCollected.
Proof. unfold collected_forms, AllForms. by rewrite elem_of_filter_b, elem_of_sort_slice, String.eqb_eq. Qed.

Lemma elem_of_uncollected l f :
  f ∈ uncollected_forms l <->
  f ∈ policyBearingForms /\ frm_State f = FormUncollected /\ (forall s, l = Some s -> frm_Namespace f ∈ s).
Proof.
  unfold uncollected_forms, AllForms. rewrite elem_of_filter_b, elem_of_sort_slice, andb_true_iff, String.eqb_eq.
  destruct l as [s|]; [rewrite bool_decide_eq_true|]; naive_solver.
Qed.

Lemma Blocked_false p : Blocked p = false <-> fa_Incomplete p = [] /\ fa_Blockers p = [].
Proof. unfold Blocked. destruct (fa_Incomplete p), (fa_Blockers p); naive_solver. Qed.

Lemma map_nil_iff {A B} (f : A -> B) l : map f l = [] <-> l = [].
Proof. by destruct l. Qed.

Lemma unanalysed_keys role run ev rs services gaps key :
  key ∈ ui_Key <$> fa_Unanalysed (ProveFirstAttachment role run ev rs services gaps) <->
  key = unanalysedOtherAccount \/
  exists f, f ∈ uncollected_forms services /\ key = form_key f /\ key ∉ ga_Key <$> gaps.
Proof.
  unfold ProveFirstAttachment, sortedUnanalysed. cbn [fa_Unanalysed].
  set (forms := List.filter _ _).
  assert (forall f, f ∈ forms <-> f ∈ uncollected_forms services /\ form_key f ∉ ga_Key <$> gaps) as Hf.
  { intros f. unfold forms. by rewrite elem_of_filter_b, negb_true_iff, bool_decide_eq_false. }
  rewrite (sort_slice_perm (less_by (fun u => [ui_Key u])) _), fmap_app, elem_of_app, !list_elem_of_fmap. split.
  - intros [(u & -> & Hu)|(u & -> & ->%list_elem_of_singleton)]; [right|by left].
    apply list_elem_of_In, in_map_iff in Hu as (f & <- & Hin%list_elem_of_In). apply Hf in Hin as [? ?]. by exists f.
  - intros [->|(f & Hin & -> & Hn)]; [right|left].
    + eexists. split; [|left]. done.
    + eexists. split; [|apply list_elem_of_In, in_map_iff; exists f; split; [reflexivity|apply list_elem_of_In; by apply Hf]].
      done.
Qed.

(** C34 A first attachment is let through exactly when the evidence supports it:
    the scan collected resource policies, every form the product collects is
    complete wherever its policies could be, every observed policy was parsed,
    and none denies by a NotPrincipal that exempts the role (a boundary would
    then lock it out). Otherwise the proof carries a refusal. What the scan
    cannot analyse is put to the approver once: each uncollected form of the
    account's services is an item to accept unless the evidence bundle already
    lists it as a gap, and resources in other accounts always are. *)
Theorem first_attachment_sound role run ev rs services gaps :
  let p := ProveFirstAttachment role run ev rs services gaps in
  (Blocked p = false <->
   exists e, ev = Some e /\
     (forall f, f ∈ policyBearingForms -> frm_State f = FormCollected -> fully_covered e rs f) /\
     (forall ob, ob ∈ Observations e -> no_blocker role ob)) /\
  (proof_Refusals p = [] <-> Blocked p = false) /\
  (forall key, key ∈ ui_Key <$> fa_Unanalysed p <->
     key = unanalysedOtherAccount \/
     exists f, f ∈ uncollected_forms services /\ key = form_key f /\ key ∉ ga_Key <$> gaps).
Proof.
  cbn zeta. split_and!; [| |apply unanalysed_keys].
  - rewrite Blocked_false. unfold ProveFirstAttachment. cbn [fa_Incomplete fa_Blockers].
    rewrite sort_slice_nil, flat_map_nil. destruct ev as [e|]; cbn [incomplete_of].
    + rewrite flat_map_nil. setoid_rewrite observation_blockers_nil. setoid_rewrite elem_of_collected. split.
      * intros [Hf Ho]. exists e. split_and!; [done| |done]. intros f Hf1 Hf2. apply form_incomplete_nil; [done|].
        specialize (Hf f (conj Hf1 Hf2)). by apply map_eq_nil in Hf.
      * intros (? & [= <-] & Hf & Ho). split; [|done]. intros f [Hf1 Hf2]. by rewrite (proj2 (form_incomplete_nil e rs f Hf1)) by auto.
    + split; [|naive_solver]. intros [Hf _]. exfalso.
      assert (exists f, f ∈ collected_forms) as [f Hin].
      { destruct collected_forms as [|f l] eqn:E; [by vm_compute in E|]. exists f. left. }
      by specialize (Hf f Hin).
  - unfold proof_Refusals. by rewrite app_nil, Blocked_false, !map_nil_iff.
Qed.

