(* ===== verification/Findings.v ===== *)
(** The evaluation of one revision (internal/igagov/findings.go): the snapshot
    it reads, the grant paths of a role, and the findings, evidence and unknown
    conditions it derives. The lifecycle of stored findings is in Lifecycle. *)

From stdpp Require Import base list strings gmap sorting.
From Stdlib Require Import Ascii.
From S2P Require Import Prelude Slices Qualify Float64 Utf8 Json JsonCanon Marshal Sha256 PolicyDoc Catalog Text Routes Hashes TimeFmt Bundle.

(** * Vocabulary *)

Definition KindUnusedService : string := "unused_service".
Definition KindBroadGrant : string := "broad_grant".
Definition KindSharedRole : string := "shared_role".
Definition KindMissingOwner : string := "missing_owner".
Definition KindMissingReviewDate : string := "missing_review_date".
Definition KindActivityNotRead : string := "activity_not_read".
Definition FamilyGovernance : string := "governance".
Definition FamilyCloudAccess : string := "cloud_access".
Definition SeverityHigh : string := "high".
Definition SeverityMedium : string := "medium".
Definition SeverityLow : string := "low".
Definition SeverityInfo : string := "info".
Definition AssignBoundary : string := "boundary".
Definition RuleRequireReviewDate : string := "require_review_date".
Definition RuleUnusedWindow : string := "unused_window".
Definition OwnerAccountable : string := "accountable".
Definition OwnerObjectWorkload : string := "workload".
Definition OwnerObjectIdentity : string := "identity_account".

(* src: internal/igagov/findings.go:99-105 (FindingFamily) *)
Definition FindingFamily (kind : string) : string :=
  if (kind =? KindMissingOwner)%string || (kind =? KindMissingReviewDate)%string then FamilyGovernance
  else FamilyCloudAccess.

(** * The snapshot *)

(* src: internal/igagov/findings.go:131-145 (RunEvidence) *)
Record RunEvidence := {
  rv_RunID : string;
  rv_ConnectorID : string;
  rv_AccountID : string;
  rv_ConnectorFirstPublishedAt : Time;
  rv_EnabledRegions : list string;
  rv_ResourcePolicy : option ResourcePolicyEvidence
}.

(* src: internal/igagov/findings.go:148-151 (TimeRange) *)
Record TimeRange := { tr_From : Time; tr_To : option Time }.

(* src: internal/igagov/findings.go:155-160 (PolicyAssignment) *)
Record PolicyAssignment := {
  pa_PolicyKey : string;
  pa_PolicyARN : string;
  pa_Kind : string;
  pa_Intervals : list TimeRange
}.

(* src: internal/igagov/findings.go:164-171 (StatementRevision) *)
Record StatementRevision := {
  sr_PolicyKey : string;
  sr_StatementKey : string;
  sr_Hash : string;
  sr_Statement : Statement;
  sr_From : Time;
  sr_To : option Time
}.

(* src: internal/igagov/findings.go:174-177 (ServiceActivity) *)
Record ServiceActivity := { sa_Service : string; sa_LastAuthenticatedAt : option Time }.

(* src: internal/igagov/findings.go:181-187 (ActivityReport) *)
Record ActivityReport := {
  rp_ScanRunID : string;
  rp_State : string;
  rp_Reason : string;
  rp_GeneratedAt : Time;
  rp_Services : list ServiceActivity
}.

(* src: internal/igagov/findings.go:190-193 (Consumer) *)
Record Consumer := { cs_WorkloadID : string; cs_Relationship : string }.

(* src: internal/igagov/findings.go:196-216 (RoleSnapshot) *)
Record RoleSnapshot := {
  sn_IdentityAccountID : string;
  sn_RoleID : string;
  sn_ARN : string;
  sn_Name : string;
  sn_Path : string;
  sn_AccountID : string;
  sn_ConnectorID : string;
  sn_PartitionKey : string;
  sn_Partition : string;
  sn_CreatedAt : Time;
  sn_Tags : gmap string string;
  sn_Assignments : list PolicyAssignment;
  sn_Statements : list StatementRevision;
  sn_Activity : option ActivityReport;
  sn_Consumers : list Consumer;
  sn_UnmatchedOwnerTags : list string
}.

(* src: internal/igagov/findings.go:219-226 (WorkloadSnapshot) *)
Record WorkloadSnapshot := {
  wl_ID : string;
  wl_Name : string;
  wl_RuntimeKind : string;
  wl_Stage : string;
  wl_Classification : string;
  wl_UnmatchedOwnerTags : list string
}.

(* src: internal/igagov/findings.go:229-237 (OwnerRecord) *)
Record OwnerRecord := {
  ow_ID : string;
  ow_ObjectKind : string;
  ow_WorkloadID : string;
  ow_IdentityAccountID : string;
  ow_UserID : string;
  ow_Role : string;
  ow_ReviewDueAt : option Time
}.

(* src: internal/igagov/findings.go:242-246 (RuleScope) *)
Record RuleScope := {
  sc_RuntimeKinds : list string;
  sc_Stages : list string;
  sc_Classifications : list string
}.

(* src: internal/igagov/findings.go:249-256 (FindingRule) *)
Record FindingRule := {
  fr_ID : string;
  fr_Kind : string;
  fr_Enabled : bool;
  fr_Scope : RuleScope;
  fr_WindowDays : Z
}.

(* src: internal/igagov/findings.go:113-128 (Snapshot) *)
Record Snapshot := {
  ss_Rev : Z;
  ss_EvaluatedAt : Time;
  ss_Manifest : gmap string string;
  ss_Runs : gmap string RunEvidence;
  ss_Roles : list RoleSnapshot;
  ss_Workloads : list WorkloadSnapshot;
  ss_Owners : list OwnerRecord;
  ss_Rules : list FindingRule;
  ss_DefaultWindowDays : Z
}.

(* src: internal/igagov/findings.go:286-299 (RuleScope.matches) *)
Definition scope_matches (s : RuleScope) (w : WorkloadSnapshot) : bool :=
  let within l v := match l with [] => true | _ => bool_decide (v ∈ l) end in
  within (sc_RuntimeKinds s) (wl_RuntimeKind w) && within (sc_Stages s) (wl_Stage w) &&
  within (sc_Classifications s) (wl_Classification w).

(** * The output *)

(* src: internal/igagov/findings.go:305-318 (ActivityEvidence) *)
Record ActivityEvidence := {
  ae_IdentityAccountID : string;
  ae_RoleID : string;
  ae_Service : string;
  ae_State : string;
  ae_Reason : string;
  ae_LastAuthenticatedAt : option Time;
  ae_ReportGeneratedAt : option Time;
  ae_GrantObservedSince : option Time;
  ae_GrantAgeBasis : string;
  ae_TrackingFrom : option Time;
  ae_ScanRunID : string;
  ae_RouteUsage : string
}.

(* src: internal/igagov/findings.go:323-336 (Finding) *)
Record Finding := {
  fd_Fingerprint : string;
  fd_Kind : string;
  fd_Family : string;
  fd_Severity : string;
  fd_Confidence : string;
  fd_IdentityAccountID : string;
  fd_WorkloadID : string;
  fd_RoleID : string;
  fd_ConnectorID : string;
  fd_DetailKey : string;
  fd_Detail : string;
  fd_EvidenceScanRunID : string
}.

(* src: internal/igagov/findings.go:342-347 (ConditionScope) *)
Record ConditionScope := {
  cd_RoleID : string;
  cd_Kind : string;
  cd_DetailKey : string;
  cd_Reason : string
}.

(* src: internal/igagov/findings.go:352-360 (RouteFacts) *)
Record RouteFacts := {
  rf_AccountID : string;
  rf_RoleID : string;
  rf_Service : string;
  rf_RouteUsage : string;
  rf_RouteState : string;
  rf_Routes : list Route;
  rf_ScanRunID : string
}.

(* src: internal/igagov/findings.go:364-367 (RoleAssessment) *)
Record RoleAssessment := { as_RoleID' : string; as_Qualification : Qualification }.

(* src: internal/igagov/findings.go:370-373 (SkippedRole) *)
Record SkippedRole := { sk_RoleID : string; sk_Reason : string }.

(* src: internal/igagov/findings.go:377-389 (Evaluation) *)
Record Evaluation := {
  ev_Rev : Z;
  ev_EvaluatedAt : Time;
  ev_Evidence : list ActivityEvidence;
  ev_Findings : list Finding;
  ev_Unknown : list ConditionScope;
  ev_Routes : list RouteFacts;
  ev_Assessments : list RoleAssessment;
  ev_PresentRoles : list string;
  ev_Skipped : list SkippedRole
}.

(** * Checks and selection *)

(* src: internal/igagov/findings.go:402-412 (skipReason) *)
Definition skipReason (r : RoleSnapshot) : string :=
  if HasPrefix (sn_Path r) "/aws-service-role/" then "service_linked_role"
  else if HasPrefix (sn_Path r) "/aws-reserved/" then "aws_reserved_role"
  else if (default "" (sn_Tags r !! "ManagedBy") =? "AuthSec")%string then "authsec_managed_role"
  else "".

Definition ierr {A} (msg : string) : result A := Err (ErrOther ("igagov: " +:+ msg)).

Fixpoint check_roles (seen : list string) (l : list RoleSnapshot) : result unit :=
  match l with
  | [] => Ok tt
  | r :: l =>
      if is_empty (sn_RoleID r) || is_empty (sn_IdentityAccountID r)
      then ierr ("role " +:+ Quote (sn_ARN r) +:+ " lacks its RoleId or identity id")
      else if bool_decide (sn_RoleID r ∈ seen) then ierr ("role " +:+ sn_RoleID r +:+ " appears twice")
      else check_roles (sn_RoleID r :: seen) l
  end.

(** The runs are walked in key order; the source walks a Go map. *)
Fixpoint check_runs (l : list (string * RunEvidence)) : result unit :=
  match l with
  | [] => Ok tt
  | (id, run) :: l =>
      if negb (rv_RunID run =? id)%string then ierr ("run " +:+ rv_RunID run +:+ " is keyed as " +:+ id)
      else if IsZero (rv_ConnectorFirstPublishedAt run)
      then ierr ("run " +:+ id +:+ " lacks its connector's first publication time")
      else check_runs l
  end.

(* src: internal/igagov/findings.go:414-440 (validateSnapshot) *)
Definition validateSnapshot (s : Snapshot) : result unit :=
  if ss_Rev s <=? 0 then ierr "snapshot revision must be positive"
  else if IsZero (ss_EvaluatedAt s) then ierr "snapshot needs the evaluation time"
  else _ ← check_roles [] (ss_Roles s);
       check_runs (omap (fun k => (fun v => (k, v)) <$> ss_Runs s !! k) (sortedKeys (ss_Runs s))).

(* src: internal/igagov/findings.go:525-527 (liveRelationship) *)
Definition liveRelationship (rel : string) : bool :=
  (rel =? RelExecutesAs)%string || (rel =? RelTaskExecutionRole)%string.

(** The state of the role's activity, its reason, the run and its evidence. *)
(* src: internal/igagov/findings.go:529-554 (evalIndex.activityState) *)
Definition activityState (s : Snapshot) (r : RoleSnapshot) : string * string * string * option RunEvidence :=
  match ss_Manifest s !! sn_PartitionKey r with
  | None => (EvidenceNotCollected, "partition_not_in_manifest", "", None)
  | Some runID =>
      if is_empty (sn_PartitionKey r) then (EvidenceNotCollected, "partition_not_in_manifest", "", None)
      else match ss_Runs s !! runID with
      | None => (EvidenceNotCollected, "run_evidence_missing", runID, None)
      | Some run =>
          let out state reason := (state, reason, runID, Some run) in
          match sn_Activity r with
          | None => out EvidenceNotCollected "not_in_activity_sample"
          | Some rep =>
              if negb (rp_State rep =? EvidenceCollected)%string then
                out EvidenceNotCollected (if is_empty (rp_Reason rep) then "report_not_collected" else rp_Reason rep)
              else if negb (rp_ScanRunID rep =? runID)%string then out EvidenceNotCollected "report_run_mismatch"
              else if IsZero (rp_GeneratedAt rep) then out EvidenceNotCollected "report_time_missing"
              else out EvidenceCollected ""
          end
      end
  end.

(* src: internal/igagov/findings.go:556-575 (evalIndex.windowFor) *)
Definition windowFor (s : Snapshot) (consumers : list WorkloadSnapshot) : Z :=
  let best := foldl (fun best rule =>
    if negb (fr_Enabled rule) || negb (fr_Kind rule =? RuleUnusedWindow)%string then best
    else foldl (fun best wl => if scope_matches (fr_Scope rule) wl && (best <? fr_WindowDays rule)
                               then fr_WindowDays rule else best) best consumers) 0 (ss_Rules s) in
  if 0 <? best then ClampWindowDays best else ClampWindowDays (ss_DefaultWindowDays s).

(** * Grant paths *)

(** The revisions of a statement key in a policy. *)
Definition revisions_of (r : RoleSnapshot) (policy key : string) : list StatementRevision :=
  List.filter (fun sr => (sr_PolicyKey sr =? policy)%string && (sr_StatementKey sr =? key)%string) (sn_Statements r).

Definition statement_keys (r : RoleSnapshot) (policy : string) : list string :=
  sortedUnique (sr_StatementKey <$> List.filter (fun sr => (sr_PolicyKey sr =? policy)%string) (sn_Statements r)).

(* src: internal/igagov/findings.go:582-617 (GrantPathsFor) *)
Definition GrantPathsFor (r : RoleSnapshot) (ns : string) (observationStart : Time) : list GrantPath :=
  let iv from to := {| iv_From := from; iv_To := to; iv_OpenStart := negb (observationStart <? from) |} in
  let assigns := sort_slice (less_by (fun a => [pa_PolicyKey a])) (sn_Assignments r) in
  flat_map (fun a =>
    if (pa_Kind a =? AssignBoundary)%string then []
    else
      let aIv := map (fun tr => iv (tr_From tr) (tr_To tr)) (pa_Intervals a) in
      omap (fun key =>
        let sIv := map (fun rev => iv (sr_From rev) (sr_To rev))
                     (List.filter (fun rev => GrantsNamespace (sr_Statement rev) ns) (revisions_of r (pa_PolicyKey a) key)) in
        match sIv, aIv with
        | [], _ | _, [] => None
        | _, _ => Some {| gp_Key := pa_PolicyKey a +:+ "#" +:+ key; gp_Components := [aIv; sIv] |}
        end) (statement_keys r (pa_PolicyKey a))) assigns.

(* src: internal/igagov/findings.go:619-622 (liveStatement) *)
Record liveStatement := { ls_assign : PolicyAssignment; ls_rev : StatementRevision }.

(* src: internal/igagov/findings.go:624-626 (holdsAt) *)
Definition holdsAt (tr : TimeRange) (at_ : Time) : bool :=
  negb (at_ <? tr_From tr) && match tr_To tr with None => true | Some e => at_ <? e end.

(** [live[k]]: the last assignment of the policy that holds, not a boundary. *)
Definition live_assignment (r : RoleSnapshot) (at_ : Time) (policy : string) : option PolicyAssignment :=
  last (List.filter (fun a => negb (pa_Kind a =? AssignBoundary)%string && (pa_PolicyKey a =? policy)%string &&
                              existsb (fun tr => holdsAt tr at_) (pa_Intervals a)) (sn_Assignments r)).

(* src: internal/igagov/findings.go:630-657 (liveStatements) *)
Definition liveStatements (r : RoleSnapshot) (at_ : Time) : list liveStatement :=
  sort_slice (less_by (fun ls => [sr_PolicyKey (ls_rev ls); sr_StatementKey (ls_rev ls)]))
    (omap (fun sr =>
       match live_assignment r at_ (sr_PolicyKey sr) with
       | Some a => if holdsAt {| tr_From := sr_From sr; tr_To := sr_To sr |} at_
                   then Some {| ls_assign := a; ls_rev := sr |} else None
       | None => None
       end) (sn_Statements r)).

(** * Findings *)

(* src: internal/igagov/findings.go:659-664 (grantRef) *)
Record grantRef := {
  gr_PolicyKey : string;
  gr_PolicyARN : string;
  gr_StatementKey : string;
  gr_StatementHash : string
}.

Definition grantRef_val (g : grantRef) : goval :=
  GStruct [("policy_key", GString (gr_PolicyKey g)); ("policy_arn", GString (gr_PolicyARN g));
           ("statement_key", GString (gr_StatementKey g)); ("statement_hash", GString (gr_StatementHash g))].

(** A nil slice is written as [null]. *)
Definition nil_slice (l : list goval) : goval := match l with [] => GNull | _ => GSlice l end.

(** [strings.ReplaceAll] of one byte. *)
Fixpoint ReplaceByte (c : ascii) (by_ : string) (s : string) : string :=
  match s with
  | "" => ""
  | String a s => if bool_decide (a = c) then by_ +:+ ReplaceByte c by_ s else String a (ReplaceByte c by_ s)
  end.

Definition percent : ascii := "%".

(* src: internal/igagov/findings.go:676-681 (BroadGrantDetailKey) *)
Definition BroadGrantDetailKey (statementKey : string) : string :=
  if negb (ContainsAny statementKey [percent; unitSep]) then statementKey
  else ReplaceByte unitSep "%1F" (ReplaceByte percent "%25" statementKey).

(* src: internal/igagov/findings.go:683-702 (evalIndex.newFinding) *)
Definition newFinding (kind severity confidence : string) (r : RoleSnapshot) (detailKey runID : string)
    (detail : goval) : result Finding :=
  fp ← Fingerprint kind (sn_RoleID r) detailKey;
  d ← CanonicalizeValue detail;
  _ ← checkStorable d;
  Ok {| fd_Fingerprint := fp; fd_Kind := kind; fd_Family := FindingFamily kind; fd_Severity := severity;
        fd_Confidence := confidence; fd_IdentityAccountID := sn_IdentityAccountID r; fd_WorkloadID := "";
        fd_RoleID := sn_RoleID r; fd_ConnectorID := sn_ConnectorID r; fd_DetailKey := detailKey; fd_Detail := d;
        fd_EvidenceScanRunID := if (FindingFamily kind =? FamilyCloudAccess)%string then runID else "" |}.

(** [ix.workloads]: the last workload of an id wins. *)
Definition workload_index (s : Snapshot) : gmap string WorkloadSnapshot :=
  foldl (fun m w => <[wl_ID w := w]> m) ∅ (ss_Workloads s).

(** ** Consumers *)

(** The first consumer of each key of [consumerSet]. *)
Fixpoint first_by_key (seen : list string) (l : list Consumer) : list Consumer :=
  match l with
  | [] => []
  | c :: l =>
      let k := cs_WorkloadID c +:+ String unitSep (cs_Relationship c) in
      if negb (liveRelationship (cs_Relationship c)) || bool_decide (k ∈ seen) then first_by_key seen l
      else c :: first_by_key (k :: seen) l
  end.

(* src: internal/igagov/findings.go:708-728 (evaluateRole, part) *)
Definition live_consumers (r : RoleSnapshot) : list Consumer :=
  sort_slice (less_by (fun c => [cs_WorkloadID c; cs_Relationship c])) (first_by_key [] (sn_Consumers r)).

(* src: internal/igagov/findings.go:729-733 (evaluateRole, part) *)
Definition workload_ids (r : RoleSnapshot) : list string := sortedUnique (cs_WorkloadID <$> live_consumers r).

(* src: internal/igagov/findings.go:734-741 (evaluateRole, part) *)
Definition consuming_workloads (s : Snapshot) (r : RoleSnapshot) : list WorkloadSnapshot :=
  map (fun id => match workload_index s !! id with
                 | Some w => w
                 | None => {| wl_ID := id; wl_Name := ""; wl_RuntimeKind := ""; wl_Stage := "";
                              wl_Classification := ""; wl_UnmatchedOwnerTags := [] |}
                 end) (workload_ids r).

(* src: internal/igagov/findings.go:743-746 (evaluateRole, part) *)
Definition consumer_detail (r : RoleSnapshot) : goval :=
  GSlice (map (fun c => ImpactConsumer_val {| ic_WorkloadID := cs_WorkloadID c; ic_Relationship := cs_Relationship c |})
              (live_consumers r)).

(** ** What one role adds to the evaluation *)

Record RoleOutput := {
  ro_Evidence : list ActivityEvidence;
  ro_Findings : list Finding;
  ro_Unknown : list ConditionScope;
  ro_Routes : list RouteFacts;
  ro_Assessments : list RoleAssessment
}.

Definition ro_empty : RoleOutput :=
  {| ro_Evidence := []; ro_Findings := []; ro_Unknown := []; ro_Routes := []; ro_Assessments := [] |}.

Definition ro_app (a b : RoleOutput) : RoleOutput :=
  {| ro_Evidence := ro_Evidence a ++ ro_Evidence b; ro_Findings := ro_Findings a ++ ro_Findings b;
     ro_Unknown := ro_Unknown a ++ ro_Unknown b; ro_Routes := ro_Routes a ++ ro_Routes b;
     ro_Assessments := ro_Assessments a ++ ro_Assessments b |}.

Definition ro_finding (f : Finding) : RoleOutput :=
  {| ro_Evidence := []; ro_Findings := [f]; ro_Unknown := []; ro_Routes := []; ro_Assessments := [] |}.

(* src: internal/igagov/findings.go:763-772 (evaluateRole, part) *)
Definition qualify_input (s : Snapshot) (r : RoleSnapshot) (rep : ActivityReport) (run : RunEvidence)
    (sa : ServiceActivity) : QualifyInput :=
  let track := TrackingStart (sa_Service sa) (rv_EnabledRegions run) in
  {| qi_Service := sa_Service sa; qi_ReportGeneratedAt := rp_GeneratedAt rep;
     qi_LastAuthenticatedAt := sa_LastAuthenticatedAt sa; qi_RoleCreatedAt := sn_CreatedAt r;
     qi_TrackingFrom := match track with inl t => Some t | inr _ => None end;
     qi_TrackingReason := match track with inl _ => "" | inr why => why end;
     qi_RequestedWindowDays := windowFor s (consuming_workloads s r);
     qi_Paths := GrantPathsFor r (sa_Service sa) (rv_ConnectorFirstPublishedAt run); qi_At := ss_EvaluatedAt s |}.

Definition snapshot_ref (r : RoleSnapshot) : RoleRef :=
  {| rr_RoleID := sn_RoleID r; rr_ARN := sn_ARN r; rr_Name := sn_Name r; rr_AccountID := sn_AccountID r;
     rr_Partition := sn_Partition r |}.

(* src: internal/igagov/findings.go:790-796 (evaluateRole, part) *)
Definition service_grants (s : Snapshot) (r : RoleSnapshot) (service : string) : list grantRef :=
  omap (fun ls => if GrantsNamespace (sr_Statement (ls_rev ls)) service
                  then Some {| gr_PolicyKey := sr_PolicyKey (ls_rev ls); gr_PolicyARN := pa_PolicyARN (ls_assign ls);
                               gr_StatementKey := sr_StatementKey (ls_rev ls); gr_StatementHash := sr_Hash (ls_rev ls) |}
                  else None) (liveStatements r (ss_EvaluatedAt s)).

(** [json.Marshal] writes a map by key. *)
(* src: internal/igagov/findings.go:797-815 (evaluateRole, part) *)
Definition unused_detail (q : Qualification) (ra : RouteAnalysis) (service : string) (grants : list grantRef) : goval :=
  GStruct [("coverage_start", opt_val (tsv (q_CoverageStart q)));
           ("covered_until", opt_val (tsv (q_CoveredUntil q)));
           ("grant_age_basis", GString (q_GrantAgeBasis q));
           ("grants", nil_slice (map grantRef_val grants));
           ("last_authenticated_at", opt_val (ts (q_LastAuthenticatedAt q)));
           ("qualified_days", GInt (q_QualifiedDays q));
           ("report_generated_at", opt_val (tsv (q_ReportGeneratedAt q)));
           ("requested_window_days", GInt (q_RequestedWindowDays q));
           ("role_created_at", opt_val (tsv (q_RoleFrom q)));
           ("route_state", GString (ra_State ra));
           ("route_usage", GString (ra_Usage ra));
           ("routes", GSlice (map Route_val (ra_Routes ra)));
           ("scope", GString "identity_policies");
           ("service", GString service);
           ("tracking_from", opt_val (ts (q_TrackingFrom q)));
           ("verified_grant_from", opt_val (ts (q_VerifiedGrantFrom q)));
           ("window_start", opt_val (tsv (q_WindowStart q)))].

(** One line of the role's report. *)
(* src: internal/igagov/findings.go:762-821 (evaluateRole, part) *)
Definition service_line (s : Snapshot) (r : RoleSnapshot) (rep : ActivityReport) (runID : string) (run : RunEvidence)
    (sa : ServiceActivity) : result RoleOutput :=
  let q := Qualify (qualify_input s r rep run sa) in
  let ra := AnalyzeRoutes (sa_Service sa) (snapshot_ref r) (rv_ResourcePolicy run) (rv_EnabledRegions run) in
  fs ← (if (q_Outcome q =? QualNoAttempt)%string then
          f ← newFinding KindUnusedService SeverityMedium (q_Confidence q) r (sa_Service sa) runID
                (unused_detail q ra (sa_Service sa) (service_grants s r (sa_Service sa)));
          Ok [f]
        else Ok []);
  Ok {| ro_Evidence := [{| ae_IdentityAccountID := sn_IdentityAccountID r; ae_RoleID := sn_RoleID r;
                           ae_Service := sa_Service sa; ae_State := EvidenceCollected; ae_Reason := q_Reason q;
                           ae_LastAuthenticatedAt := sa_LastAuthenticatedAt sa;
                           ae_ReportGeneratedAt := Some (rp_GeneratedAt rep);
                           ae_GrantObservedSince := q_VerifiedGrantFrom q; ae_GrantAgeBasis := q_GrantAgeBasis q;
                           ae_TrackingFrom := q_TrackingFrom q; ae_ScanRunID := runID; ae_RouteUsage := ra_Usage ra |}];
        ro_Findings := fs;
        ro_Unknown := if (q_Outcome q =? QualUnreviewed)%string
                      then [{| cd_RoleID := sn_RoleID r; cd_Kind := KindUnusedService; cd_DetailKey := sa_Service sa;
                               cd_Reason := q_Reason q |}] else [];
        ro_Routes := [{| rf_AccountID := sn_AccountID r; rf_RoleID := sn_RoleID r; rf_Service := sa_Service sa;
                         rf_RouteUsage := ra_Usage ra; rf_RouteState := ra_State ra; rf_Routes := RemainingRoutes ra;
                         rf_ScanRunID := runID |}];
        ro_Assessments := [{| as_RoleID' := sn_RoleID r; as_Qualification := q |}] |}.

Fixpoint service_lines (s : Snapshot) (r : RoleSnapshot) (rep : ActivityReport) (runID : string) (run : RunEvidence)
    (seen : list string) (report : list ServiceActivity) : result RoleOutput :=
  match report with
  | [] => Ok ro_empty
  | sa :: report =>
      if bool_decide (sa_Service sa ∈ seen)
      then ierr ("role " +:+ sn_RoleID r +:+ " report lists " +:+ sa_Service sa +:+ " twice")
      else o ← service_line s r rep runID run sa;
           o' ← service_lines s r rep runID run (sa_Service sa :: seen) report;
           Ok (ro_app o o')
  end.

(* src: internal/igagov/findings.go:824-846 (evaluateRole, part) *)
Definition not_collected (s : Snapshot) (r : RoleSnapshot) (reason runID : string) : result RoleOutput :=
  let granted := flat_map (fun ls => ExplicitNamespaces (sr_Statement (ls_rev ls))) (liveStatements r (ss_EvaluatedAt s)) in
  fs ← match workload_ids r with
       | [] => Ok []
       | _ => f ← newFinding KindActivityNotRead SeverityInfo ConfidenceNotApplicable r "" runID
                    (GStruct [("connector_id", opt_val (nilIfEmpty (sn_ConnectorID r)));
                              ("consumers", consumer_detail r); ("reason", GString reason);
                              ("scan_run_id", opt_val (nilIfEmpty runID))]);
              Ok [f]
       end;
  Ok {| ro_Evidence := map (fun svc =>
          {| ae_IdentityAccountID := sn_IdentityAccountID r; ae_RoleID := sn_RoleID r; ae_Service := svc;
             ae_State := EvidenceNotCollected; ae_Reason := reason; ae_LastAuthenticatedAt := None;
             ae_ReportGeneratedAt := None; ae_GrantObservedSince := None; ae_GrantAgeBasis := GrantAgeUnknown;
             ae_TrackingFrom := None; ae_ScanRunID := runID; ae_RouteUsage := RouteUsageConfirmRequired |})
          (sortedUnique granted);
        ro_Findings := fs;
        ro_Unknown := [{| cd_RoleID := sn_RoleID r; cd_Kind := KindUnusedService; cd_DetailKey := ""; cd_Reason := reason |}];
        ro_Routes := []; ro_Assessments := [] |}.

(* src: internal/igagov/findings.go:751-847 (evaluateRole, part) *)
Definition activity_output (s : Snapshot) (r : RoleSnapshot) : result RoleOutput :=
  match activityState s r, sn_Activity r with
  | (state, reason, runID, Some run), Some rep =>
      if (state =? EvidenceCollected)%string then
        service_lines s r rep runID run [] (sort_slice (less_by (fun sa => [sa_Service sa])) (rp_Services rep))
      else not_collected s r reason runID
  | (_, reason, runID, _), _ => not_collected s r reason runID
  end.

(** ** Broad grants *)

(* src: internal/igagov/findings.go:857-870 (evaluateRole, part) *)
Definition service_wildcards (st : Statement) : list string :=
  if ResourceIsWildcard st then
    omap (fun p => if allStars p then None
                   else match SplitAction p with
                        | Some (ns, act) => if allStars act then Some (ToLower ns) else None
                        | None => None
                        end) (st_Action st)
  else [].

(* src: internal/igagov/findings.go:856-877 (evaluateRole, part) *)
Definition broad_reasons (st : Statement) : list string :=
  (if ResourceIsWildcard st then
     (if st_IsNotAction st then ["not_action_on_all_resources"] else []) ++
     map (fun _ => "full_wildcard") (List.filter allStars (st_Action st))
   else []) ++
  (match service_wildcards st with [] => [] | _ => ["service_wildcard"] end) ++
  (match EscalationsGranted st with [] => [] | _ => ["escalation"] end).

(* src: internal/igagov/findings.go:886-894 (evaluateRole, part) *)
Definition broad_severity (reasons : list string) : string :=
  if existsb (fun why => (why =? "full_wildcard")%string || (why =? "not_action_on_all_resources")%string ||
                         (why =? "escalation")%string) reasons
  then SeverityHigh else SeverityMedium.

(* src: internal/igagov/findings.go:895-900 (evaluateRole, part) *)
Definition broad_detail (ls : liveStatement) : goval :=
  let st := sr_Statement (ls_rev ls) in
  GStruct [("assignment_kind", GString (pa_Kind (ls_assign ls)));
           ("escalations", nil_slice (map GString (EscalationsGranted st)));
           ("has_condition", GBool (negb (bool_decide (st_Conditions st = []))));
           ("policy_arn", GString (pa_PolicyARN (ls_assign ls)));
           ("policy_key", GString (sr_PolicyKey (ls_rev ls)));
           ("reasons", GSlice (map GString (sortedUnique (broad_reasons st))));
           ("service_wildcards", GSlice (map GString (sortedUnique (service_wildcards st))));
           ("sid", GString (st_Sid st));
           ("statement_hash", GString (sr_Hash (ls_rev ls)));
           ("statement_key", GString (sr_StatementKey (ls_rev ls)))].

(* src: internal/igagov/findings.go:849-906 (evaluateRole, part) *)
Fixpoint broad_grants (r : RoleSnapshot) (runID : string) (seenKeys : list string) (live : list liveStatement)
    : result (list Finding) :=
  match live with
  | [] => Ok []
  | ls :: live =>
      let st := sr_Statement (ls_rev ls) in
      let key := sr_StatementKey (ls_rev ls) in
      if negb (st_Effect st =? EffectAllow)%string || bool_decide (broad_reasons st = [])
      then broad_grants r runID seenKeys live
      else if bool_decide (key ∈ seenKeys)
      then ierr ("role " +:+ sn_RoleID r +:+ " has two live statements keyed " +:+ Quote key)
      else f ← newFinding KindBroadGrant (broad_severity (broad_reasons st)) ConfidenceNotApplicable r
                 (BroadGrantDetailKey key) runID (broad_detail ls);
           fs ← broad_grants r runID (key :: seenKeys) live;
           Ok (f :: fs)
  end.

(** ** Shared roles and ownership *)

(* src: internal/igagov/findings.go:908-916 (evaluateRole, part) *)
Definition shared_role (r : RoleSnapshot) (runID : string) : result (list Finding) :=
  if (2 <=? length (workload_ids r))%nat then
    f ← newFinding KindSharedRole SeverityMedium ConfidenceNotApplicable r "" runID
          (GStruct [("consumers", consumer_detail r); ("workload_count", GInt (Z.of_nat (length (workload_ids r))))]);
    Ok [f]
  else Ok [].

Definition review_rules (s : Snapshot) (workloads : list WorkloadSnapshot) : list FindingRule :=
  List.filter (fun rule => fr_Enabled rule && (fr_Kind rule =? RuleRequireReviewDate)%string &&
                           existsb (scope_matches (fr_Scope rule)) workloads) (ss_Rules s).

(** [matched]: the ids of the workloads some enabled rule's scope selects. *)
Definition review_matched (s : Snapshot) (workloads : list WorkloadSnapshot) (id : string) : bool :=
  existsb (fun rule => existsb (fun w => scope_matches (fr_Scope rule) w && (wl_ID w =? id)%string) workloads)
    (review_rules s workloads).

(** The accountable owners the rules ask a review date of, and that have none. *)
Definition undated_owners (s : Snapshot) (workloads : list WorkloadSnapshot) (accountable : list OwnerRecord)
    : list OwnerRecord :=
  List.filter (fun o => ((ow_ObjectKind o =? OwnerObjectIdentity)%string || review_matched s workloads (ow_WorkloadID o)) &&
                        bool_decide (ow_ReviewDueAt o = None)) accountable.

(* src: internal/igagov/findings.go:957-995 (evalIndex.reviewDate) *)
Definition reviewDate (s : Snapshot) (r : RoleSnapshot) (workloads : list WorkloadSnapshot)
    (accountable : list OwnerRecord) : result (list Finding) :=
  match review_rules s workloads, undated_owners s workloads accountable with
  | [], _ | _, [] => Ok []
  | rules, missing =>
      f ← newFinding KindMissingReviewDate SeverityLow ConfidenceNotApplicable r "" ""
            (GStruct [("owner_ids_without_review_date", GSlice (map GString (sortedUnique (ow_ID <$> missing))));
                      ("rule_ids", GSlice (map GString (sortedUnique (fr_ID <$> rules))))]);
      Ok [f]
  end.

(* src: internal/igagov/findings.go:924-933 (evaluateRole, part) *)
Definition accountable_owners (s : Snapshot) (r : RoleSnapshot) : list OwnerRecord :=
  List.filter (fun o =>
    (ow_Role o =? OwnerAccountable)%string &&
    (((ow_ObjectKind o =? OwnerObjectIdentity)%string && (ow_IdentityAccountID o =? sn_IdentityAccountID r)%string) ||
     ((ow_ObjectKind o =? OwnerObjectWorkload)%string && bool_decide (ow_WorkloadID o ∈ workload_ids r)))) (ss_Owners s).

(* src: internal/igagov/findings.go:918-949 (evaluateRole, part) *)
Definition ownership (s : Snapshot) (r : RoleSnapshot) : result (list Finding) :=
  match workload_ids r with
  | [] => Ok []
  | _ =>
      let workloads := consuming_workloads s r in
      match accountable_owners s r with
      | [] =>
          let tags := sn_UnmatchedOwnerTags r ++ flat_map wl_UnmatchedOwnerTags workloads in
          f ← newFinding KindMissingOwner SeverityMedium ConfidenceNotApplicable r "" ""
                (GStruct [("consumers", consumer_detail r);
                          ("unmatched_owner_tags", GSlice (map GString (sortedUnique tags)))]);
          Ok [f]
      | accountable => reviewDate s r workloads accountable
      end
  end.

(** ** Roles and the revision *)

(* src: internal/igagov/findings.go:704-951 (evalIndex.evaluateRole) *)
Definition evaluateRole (s : Snapshot) (r : RoleSnapshot) : result RoleOutput :=
  let '(_, _, runID, _) := activityState s r in
  activity ← activity_output s r;
  broad ← broad_grants r runID [] (liveStatements r (ss_EvaluatedAt s));
  shared ← shared_role r runID;
  own ← ownership s r;
  Ok {| ro_Evidence := ro_Evidence activity; ro_Findings := ro_Findings activity ++ broad ++ shared ++ own;
        ro_Unknown := ro_Unknown activity; ro_Routes := ro_Routes activity; ro_Assessments := ro_Assessments activity |}.

(** The roles in order: the RoleIds, the skipped roles and what the others add. *)
Fixpoint evaluate_roles (s : Snapshot) (roles : list RoleSnapshot) : result (list SkippedRole * RoleOutput) :=
  match roles with
  | [] => Ok ([], ro_empty)
  | r :: roles =>
      if negb (is_empty (skipReason r)) then
        '(skipped, o) ← evaluate_roles s roles;
        Ok ({| sk_RoleID := sn_RoleID r; sk_Reason := skipReason r |} :: skipped, o)
      else
        o ← evaluateRole s r;
        '(skipped, o') ← evaluate_roles s roles;
        Ok (skipped, ro_app o o')
  end.

(* src: internal/igagov/findings.go:450-504 (Evaluate) *)
Definition Evaluate (s : Snapshot) : result Evaluation :=
  _ ← validateSnapshot s;
  let roles := sort_slice (less_by (fun r => [sn_RoleID r])) (ss_Roles s) in
  '(skipped, o) ← evaluate_roles s roles;
  Ok {| ev_Rev := ss_Rev s; ev_EvaluatedAt := ss_EvaluatedAt s;
        ev_Evidence := sort_slice (less_by (fun a => [ae_IdentityAccountID a; ae_Service a])) (ro_Evidence o);
        ev_Findings := sort_slice (less_by (fun f => [fd_Fingerprint f])) (ro_Findings o);
        ev_Unknown := sort_slice (less_by (fun c => [cd_RoleID c; cd_Kind c; cd_DetailKey c])) (ro_Unknown o);
        ev_Routes := sort_slice (less_by (fun f => [rf_RoleID f; rf_Service f])) (ro_Routes o);
        ev_Assessments := sort_slice (less_by (fun a => [as_RoleID' a; q_Service (as_Qualification a)])) (ro_Assessments o);
        ev_PresentRoles := sn_RoleID <$> roles; ev_Skipped := skipped |}.
