(* ===== verification/FindingFacts.v ===== *)
(** What the evaluation of Findings derives: the grant paths of a role, the
    detail key of a broad grant, and which roles and services get which findings. *)

From stdpp Require Import base list strings gmap sorting.
From Stdlib Require Import Ascii.
From S2P Require Import Prelude Slices Qualify Float64 Utf8 Json JsonCanon Marshal Sha256 PolicyDoc Catalog Text Routes Hashes TimeFmt Bundle Findings.

#[local] Opaque CanonicalizeValue ContentHash writeCanonical checkStorable Fingerprint Qualify AnalyzeRoutes Evaluate.

(** * Grant paths *)

Lemma covers_ranges {A} obs (from : A -> Time) (to : A -> option Time) l t :
  covers (map (fun x => {| iv_From := from x; iv_To := to x; iv_OpenStart := negb (obs <? from x) |}) l) t <->
  exists x, x ∈ l /\ holdsAt {| tr_From := from x; tr_To := to x |} t = true.
Proof.
  unfold covers. split.
  - intros (iv & Hin & Hc). apply list_elem_of_In, in_map_iff in Hin as (x & <- & Hx).
    exists x. split; [by apply list_elem_of_In|done].
  - intros (x & Hx & Hh).
    exists {| iv_From := from x; iv_To := to x; iv_OpenStart := negb (obs <? from x) |}. split; [|exact Hh].
    apply list_elem_of_In, in_map_iff. exists x. split; [done|by apply list_elem_of_In].
Qed.

Lemma path_of_pair p q a b t :
  path_holds {| gp_Key := p +:+ q; gp_Components := [a; b] |} t <-> covers a t /\ covers b t.
Proof.
  unfold path_holds. cbn. rewrite !Forall_cons. split; [by intros (_ & ? & ? & _)|].
  intros [? ?]. split; [done|]. split_and!; done.
Qed.

(** The grant paths of a service say when it was granted: at an instant some path
    holds exactly when a policy that is not a boundary was assigned then, and a
    statement of that policy in force then grants the service's namespace. *)
Theorem grant_paths_exact r ns obs t :
  granted (GrantPathsFor r ns obs) t <->
  exists a tr rev,
    a ∈ sn_Assignments r /\ pa_Kind a <> AssignBoundary /\ tr ∈ pa_Intervals a /\ holdsAt tr t = true /\
    rev ∈ sn_Statements r /\ sr_PolicyKey rev = pa_PolicyKey a /\ GrantsNamespace (sr_Statement rev) ns = true /\
    holdsAt {| tr_From := sr_From rev; tr_To := sr_To rev |} t = true.
Proof.
  unfold granted, GrantPathsFor. split.
  - intros (p & Hp & Hh). apply list_elem_of_In, in_flat_map in Hp as (a & Ha%list_elem_of_In & Hp).
    rewrite elem_of_sort_slice in Ha. destruct (pa_Kind a =? AssignBoundary)%string eqn:Hk; [done|]. bool_prop.
    apply list_elem_of_In, list_elem_of_omap in Hp as (key & Hkey & Hp). cbn zeta in Hp.
    repeat case_match; try done. injection Hp as <-. simplify_eq.
    revert Hh. rewrite <- H, <- H0, (path_of_pair (pa_PolicyKey a)).
    rewrite (covers_ranges obs tr_From tr_To), (covers_ranges obs sr_From sr_To).
    intros [(tr & ? & ?) (rev & Hrev & ?)]. exists a, tr, rev.
    apply elem_of_filter_b in Hrev as [Hrev ?]. unfold revisions_of in Hrev.
    apply elem_of_filter_b in Hrev as [Hrev ?]. bool_prop. destruct tr. naive_solver.
  - intros (a & tr & rev & Ha & Hk & Htr & Hat & Hrev & Hpk & Hg & Hsr).
    set (aIv := map (fun tr => {| iv_From := tr_From tr; iv_To := tr_To tr; iv_OpenStart := negb (obs <? tr_From tr) |})
                    (pa_Intervals a)).
    set (sIv := map (fun rev => {| iv_From := sr_From rev; iv_To := sr_To rev; iv_OpenStart := negb (obs <? sr_From rev) |})
                  (List.filter (fun rev => GrantsNamespace (sr_Statement rev) ns)
                     (revisions_of r (pa_PolicyKey a) (sr_StatementKey rev)))).
    assert (covers aIv t) as Hca.
    { apply (covers_ranges obs tr_From tr_To). exists tr. by destruct tr. }
    assert (covers sIv t) as Hcs.
    { apply (covers_ranges obs sr_From sr_To). exists rev. split; [|done].
      apply elem_of_filter_b. split; [|done]. apply elem_of_filter_b. split; [done|].
      by rewrite Hpk, !String.eqb_refl. }
    exists {| gp_Key := pa_PolicyKey a +:+ "#" +:+ sr_StatementKey rev; gp_Components := [aIv; sIv] |}.
    split; [|by apply path_of_pair].
    apply list_elem_of_In, in_flat_map. exists a. split; [by apply list_elem_of_In, elem_of_sort_slice|].
    apply String.eqb_neq in Hk. rewrite Hk. apply list_elem_of_In, list_elem_of_omap.
    exists (sr_StatementKey rev). split.
    + apply elem_of_sortedUnique, list_elem_of_fmap. exists rev. split; [done|].
      apply elem_of_filter_b. split; [done|]. by rewrite Hpk, String.eqb_refl.
    + cbn zeta. fold aIv sIv. destruct aIv; [by apply covers_nil in Hca|]. destruct sIv; [by apply covers_nil in Hcs|]. done.
Qed.

(** * Detail keys *)

Lemma ReplaceByte_app c b s t : ReplaceByte c b (s +:+ t) = ReplaceByte c b s +:+ ReplaceByte c b t.
Proof.
  induction s as [|a s IH]; [done|]. rewrite str_app_cons. cbn. rewrite IH.
  case_bool_decide; [by rewrite str_app_assoc|done].
Qed.

(** The escape of one byte, and of a key byte by byte. *)
Definition key_byte (c : ascii) : string :=
  if bool_decide (c = percent) then "%25" else if bool_decide (c = unitSep) then "%1F" else String c "".

Fixpoint key_bytes (s : string) : string :=
  match s with "" => "" | String c s => key_byte c +:+ key_bytes s end.

Lemma detail_key_bytes s : BroadGrantDetailKey s = key_bytes s.
Proof.
  assert (ReplaceByte unitSep "%1F" (ReplaceByte percent "%25" s) = key_bytes s) as E.
  { induction s as [|c s IH]; [done|]. cbn [ReplaceByte key_bytes]. unfold key_byte. case_bool_decide.
    - rewrite ReplaceByte_app, IH. done.
    - cbn [ReplaceByte]. rewrite IH. by case_bool_decide. }
  unfold BroadGrantDetailKey. destruct (negb _) eqn:Hc; [|done]. apply negb_true_iff in Hc. clear E.
  induction s as [|c s IH]; [done|]. cbn in Hc. bool_prop. cbn. rewrite <- IH by done. unfold key_byte.
  rewrite !bool_decide_eq_false_2 by set_solver. done.
Qed.

Lemma key_bytes_lacks s : lacks unitSep (key_bytes s) = true.
Proof.
  induction s as [|c s IH]; [done|]. cbn. rewrite lacks_app, IH, andb_true_r. unfold key_byte.
  case_bool_decide; [done|]. case_bool_decide; [done|]. cbn. by rewrite bool_decide_eq_false_2.
Qed.

Lemma key_bytes_inj s t : key_bytes s = key_bytes t -> s = t.
Proof.
  revert t. induction s as [|c s IH]; intros [|d t]; cbn; unfold key_byte;
    repeat case_bool_decide; rewrite ?str_app_cons; cbn; intros [=]; subst; try done; f_equal; auto.
Qed.

Lemma lacks_Contains c s : lacks c s = true -> Contains s (String c "") = false.
Proof.
  induction s as [|a s IH]; [done|]. cbn. intros H. bool_prop. rewrite IH by done.
  rewrite bool_decide_eq_false_2 by congruence. done.
Qed.

(** The detail key of a broad grant never holds the fingerprint's separator, so the
    finding always has a fingerprint when its role id is not empty and free of it; two statement keys never share a
    detail key; and a key free of both escaped bytes is left alone. *)
Theorem broad_grant_key_safe k k' :
  lacks unitSep (BroadGrantDetailKey k) = true /\
  (BroadGrantDetailKey k = BroadGrantDetailKey k' -> k = k') /\
  (lacks unitSep k = true -> lacks percent k = true -> BroadGrantDetailKey k = k) /\
  (forall r, r <> "" -> lacks unitSep r = true -> exists fp, Fingerprint KindBroadGrant r (BroadGrantDetailKey k) = Ok fp).
Proof.
  rewrite !detail_key_bytes. split_and!; [apply key_bytes_lacks|apply key_bytes_inj|..].
  - clear. induction k as [|c k IH]; [done|]. cbn. intros H1 H2. bool_prop. rewrite IH by done.
    unfold key_byte. by rewrite !bool_decide_eq_false_2.
  - intros r Hne Hr. eexists. with_strategy transparent [Fingerprint] unfold Fingerprint. cbn [existsb].
    rewrite (lacks_Contains _ r Hr), (lacks_Contains _ _ (key_bytes_lacks k)). destruct r; [done|]. reflexivity.
Qed.

Lemma broad_grant_key_safe_witness :
  BroadGrantDetailKey ("p" +:+ String unitSep "Sid%1") = "p%1FSid%251" /\
  (exists fp, Fingerprint KindBroadGrant "AROA1" (BroadGrantDetailKey ("p" +:+ String unitSep "Sid%1")) = Ok fp).
Proof.
  split; [vm_compute; reflexivity|].
  apply (broad_grant_key_safe ("p" +:+ String unitSep "Sid%1") ""); [done|vm_compute; reflexivity].
Defined.

(** * The roles of an evaluation *)

Lemma evaluate_roles_spec s roles sk o :
  evaluate_roles s roles = Ok (sk, o) ->
  (forall r, r ∈ roles -> skipReason r = "" -> exists o', evaluateRole s r = Ok o') /\
  (forall f, f ∈ ro_Findings o <->
     exists r o', r ∈ roles /\ skipReason r = "" /\ evaluateRole s r = Ok o' /\ f ∈ ro_Findings o') /\
  (forall u, u ∈ ro_Unknown o <->
     exists r o', r ∈ roles /\ skipReason r = "" /\ evaluateRole s r = Ok o' /\ u ∈ ro_Unknown o').
Proof.
  revert sk o. induction roles as [|r roles IH]; intros sk o; cbn [evaluate_roles].
  { intros [= <- <-]. split_and!; [set_solver|..]; intros ?; cbn; split; set_solver. }
  destruct (is_empty (skipReason r)) eqn:Hs; cbn [negb].
  - apply is_empty_true in Hs. intros H. apply bind_Ok in H as (o1 & H1 & H).
    apply bind_Ok in H as ([sk' o2] & H2 & [= <- <-]). destruct (IH _ _ H2) as (Ha & Hf & Hu).
    split_and!.
    + intros r' [->|Hr']%elem_of_cons Hsk; eauto.
    + intros f. cbn. rewrite elem_of_app, Hf. split.
      * intros [?|(r' & o' & ? & ?)]; [exists r, o1|exists r', o']; set_solver.
      * intros (r' & o' & [->|?]%elem_of_cons & ? & ? & ?); [left; congruence|right; eauto 10].
    + intros u. cbn. rewrite elem_of_app, Hu. split.
      * intros [?|(r' & o' & ? & ?)]; [exists r, o1|exists r', o']; set_solver.
      * intros (r' & o' & [->|?]%elem_of_cons & ? & ? & ?); [left; congruence|right; eauto 10].
  - intros H. apply bind_Ok in H as ([sk' o2] & H2 & [= <- <-]). destruct (IH _ _ H2) as (Ha & Hf & Hu).
    assert (skipReason r <> "") by (intros E; by rewrite E in Hs).
    split_and!; [|intros f; rewrite Hf|intros u; rewrite Hu];
      [intros r' [->|?]%elem_of_cons; [done|eauto]|..]; split; set_solver.
Qed.

Lemma check_roles_unique seen l :
  check_roles seen l = Ok tt ->
  NoDup (sn_RoleID <$> l) /\ (forall r, r ∈ l -> (sn_RoleID r ∉ seen) /\ sn_RoleID r <> "").
Proof.
  revert seen. induction l as [|r l IH]; intros seen; cbn.
  { intros _. split; [constructor|set_solver]. }
  destruct (is_empty (sn_RoleID r)) eqn:E1; [done|]. cbn. destruct (is_empty (sn_IdentityAccountID r)); [done|].
  case_bool_decide as Hin; [done|]. intros [Hnd Hall]%IH.
  assert (sn_RoleID r <> "") by (intros E; by rewrite E in E1). split.
  - constructor; [|done]. intros (r' & E & Hr')%list_elem_of_fmap. destruct (Hall r' Hr') as [Hn _].
    apply Hn. rewrite <- E. left.
  - intros r' [->|Hr']%elem_of_cons; [done|]. destruct (Hall r' Hr'). set_solver.
Qed.

Lemma Evaluate_spec s ev :
  Evaluate s = Ok ev ->
  ev_Rev ev = ss_Rev s /\ ev_EvaluatedAt ev = ss_EvaluatedAt s /\
  (forall id, id ∈ ev_PresentRoles ev <-> exists r, r ∈ ss_Roles s /\ sn_RoleID r = id) /\
  NoDup (sn_RoleID <$> ss_Roles s) /\
  (forall r, r ∈ ss_Roles s -> skipReason r = "" -> exists o', evaluateRole s r = Ok o') /\
  (forall f, f ∈ ev_Findings ev <->
     exists r o', r ∈ ss_Roles s /\ skipReason r = "" /\ evaluateRole s r = Ok o' /\ f ∈ ro_Findings o') /\
  (forall u, u ∈ ev_Unknown ev <->
     exists r o', r ∈ ss_Roles s /\ skipReason r = "" /\ evaluateRole s r = Ok o' /\ u ∈ ro_Unknown o').
Proof.
  with_strategy transparent [Evaluate] unfold Evaluate. intros H. apply bind_Ok in H as ([] & Hv & H). apply bind_Ok in H as ([sk o] & He & [= <-]).
  apply evaluate_roles_spec in He as (Ha & Hf & Hu). cbn [ev_Rev ev_EvaluatedAt ev_PresentRoles ev_Findings ev_Unknown].
  assert (NoDup (sn_RoleID <$> ss_Roles s)) as Hnd.
  { unfold validateSnapshot in Hv. destruct (_ <=? _); [done|]. destruct (IsZero _); [done|].
    apply bind_Ok in Hv as ([] & Hr & _). by apply check_roles_unique in Hr as [? _]. }
  split_and!; [done|done| |done|..].
  - intros id. rewrite list_elem_of_fmap. setoid_rewrite elem_of_sort_slice. naive_solver.
  - intros r Hr. apply Ha. by apply elem_of_sort_slice.
  - intros f. rewrite elem_of_sort_slice, Hf. by setoid_rewrite elem_of_sort_slice.
  - intros u. rewrite elem_of_sort_slice, Hu. by setoid_rewrite elem_of_sort_slice.
Qed.

(** * One role *)

Lemma newFinding_fields kind sev conf r dk runID d f :
  newFinding kind sev conf r dk runID d = Ok f ->
  fd_Kind f = kind /\ fd_RoleID f = sn_RoleID r /\ fd_DetailKey f = dk /\ fd_Confidence f = conf /\
  fd_Severity f = sev /\ Fingerprint kind (sn_RoleID r) dk = Ok (fd_Fingerprint f) /\
  fd_EvidenceScanRunID f = (if (FindingFamily kind =? FamilyCloudAccess)%string then runID else "").
Proof.
  unfold newFinding. intros H. apply bind_Ok in H as (fp & Hfp & H). apply bind_Ok in H as (t & _ & H).
  apply bind_Ok in H as (u & _ & [= <-]). done.
Qed.

(** The evidence a role is judged on: the run its partition has in the manifest,
    and a collected report of that run. *)
Definition own_evidence (s : Snapshot) (r : RoleSnapshot) (runID : string) (run : RunEvidence) (rep : ActivityReport) : Prop :=
  sn_PartitionKey r <> "" /\ ss_Manifest s !! sn_PartitionKey r = Some runID /\ ss_Runs s !! runID = Some run /\
  sn_Activity r = Some rep /\ rp_State rep = EvidenceCollected /\ rp_ScanRunID rep = runID /\
  rp_GeneratedAt rep <> zeroTime.

Lemma activityState_cases s r :
  (exists runID run rep, own_evidence s r runID run rep /\ activityState s r = (EvidenceCollected, "", runID, Some run)) \/
  (exists reason runID run, activityState s r = (EvidenceNotCollected, reason, runID, run) /\
     forall runID' run' rep, ~ own_evidence s r runID' run' rep).
Proof.
  unfold activityState, own_evidence. destruct (ss_Manifest s !! sn_PartitionKey r) as [runID|]; [|right; naive_solver].
  destruct (is_empty (sn_PartitionKey r)) eqn:He; [apply is_empty_true in He; right; naive_solver|].
  assert (sn_PartitionKey r <> "") by (intros E; by rewrite E in He).
  destruct (ss_Runs s !! runID) as [run|] eqn:Hrun; [|right; naive_solver].
  destruct (sn_Activity r) as [rep|]; [|right; naive_solver].
  destruct (rp_State rep =? EvidenceCollected)%string eqn:E1; bool_prop; cbn [negb]; [|right; naive_solver].
  destruct (rp_ScanRunID rep =? runID)%string eqn:E2; bool_prop; cbn [negb]; [|right; naive_solver].
  unfold IsZero. destruct (Z.eqb_spec (rp_GeneratedAt rep) zeroTime); [right; naive_solver|].
  left. exists runID, run, rep. naive_solver.
Qed.

(** A line of the report that earns the role an [unused_service] finding, and one
    whose condition is unknown. *)
Definition unused_line (s : Snapshot) (r : RoleSnapshot) (rep : ActivityReport) (run : RunEvidence) (sa : ServiceActivity)
    : Prop := q_Outcome (Qualify (qualify_input s r rep run sa)) = QualNoAttempt.

Definition unreviewed_line (s : Snapshot) (r : RoleSnapshot) (rep : ActivityReport) (run : RunEvidence)
    (sa : ServiceActivity) : Prop := q_Outcome (Qualify (qualify_input s r rep run sa)) = QualUnreviewed.

Definition is_unused (r : RoleSnapshot) (runID service : string) (f : Finding) : Prop :=
  fd_Kind f = KindUnusedService /\ fd_RoleID f = sn_RoleID r /\ fd_DetailKey f = service /\
  fd_EvidenceScanRunID f = runID.

Lemma service_line_spec s r rep runID run sa o :
  service_line s r rep runID run sa = Ok o ->
  (unused_line s r rep run sa <-> exists f, f ∈ ro_Findings o) /\
  Forall (is_unused r runID (sa_Service sa)) (ro_Findings o) /\
  (forall u, u ∈ ro_Unknown o -> unreviewed_line s r rep run sa /\ cd_RoleID u = sn_RoleID r /\
     cd_Kind u = KindUnusedService /\ cd_DetailKey u = sa_Service sa) /\
  (unreviewed_line s r rep run sa -> exists u, u ∈ ro_Unknown o /\ cd_DetailKey u = sa_Service sa).
Proof.
  unfold service_line, unused_line, unreviewed_line. set (q := Qualify _). intros H.
  apply bind_Ok in H as (fs & Hfs & H). injection H as H. subst o. cbn [ro_Findings ro_Unknown].
  split_and!.
  - destruct (q_Outcome q =? QualNoAttempt)%string eqn:E; bool_prop.
    + apply bind_Ok in Hfs as (f & _ & [= <-]). split; [|done]. intros _. exists f. set_solver.
    + injection Hfs as <-. split; [done|]. intros [f Hf]. set_solver.
  - destruct (q_Outcome q =? QualNoAttempt)%string; [|injection Hfs as <-; constructor].
    apply bind_Ok in Hfs as (f & Hf & [= <-]). apply newFinding_fields in Hf as (?&?&?&?&?&?&?).
    apply Forall_singleton. done.
  - intros u Hu. destruct (q_Outcome q =? QualUnreviewed)%string eqn:E; [|set_solver]. bool_prop.
    apply list_elem_of_singleton in Hu as ->. done.
  - intros ->. eexists. split; [left|done].
Qed.

Lemma service_lines_spec s r rep runID run seen report o :
  service_lines s r rep runID run seen report = Ok o ->
  NoDup (sa_Service <$> report) /\
  (forall f, f ∈ ro_Findings o -> exists sa, sa ∈ report /\ unused_line s r rep run sa /\ is_unused r runID (sa_Service sa) f) /\
  (forall sa, sa ∈ report -> unused_line s r rep run sa -> exists f, f ∈ ro_Findings o /\ is_unused r runID (sa_Service sa) f) /\
  (forall u, u ∈ ro_Unknown o -> exists sa, sa ∈ report /\ unreviewed_line s r rep run sa /\
     cd_RoleID u = sn_RoleID r /\ cd_Kind u = KindUnusedService /\ cd_DetailKey u = sa_Service sa) /\
  (forall sa, sa ∈ report -> sa_Service sa ∉ seen).
Proof.
  revert seen o. induction report as [|sa report IH]; intros seen o; cbn [service_lines].
  { intros [= <-]. split_and!; [constructor|..]; set_solver. }
  case_bool_decide as Hseen; [done|]. intros H. apply bind_Ok in H as (o1 & H1 & H).
  apply bind_Ok in H as (o2 & H2 & [= <-]). apply service_line_spec in H1 as (Hf & Hall & Hu & _).
  apply IH in H2 as (Hnd & Hf2 & Hl2 & Hu2 & Hs2). rewrite Forall_forall in Hall.
  split_and!; cbn [ro_app ro_Findings ro_Unknown].
  - rewrite fmap_cons. constructor; [|done]. intros (sa' & E & Hsa')%list_elem_of_fmap.
    apply (Hs2 sa' Hsa'). rewrite <- E. left.
  - intros f [Hin|Hin]%elem_of_app.
    + exists sa. split; [left|]. split; [apply Hf; eauto|eauto].
    + destruct (Hf2 f Hin) as (sa' & ? & ?). exists sa'. split; [by right|done].
  - intros sa' [->|Hsa']%elem_of_cons Hq.
    + apply Hf in Hq as [f Hin]. exists f. split; [apply elem_of_app; by left|eauto].
    + destruct (Hl2 sa' Hsa' Hq) as (f & ? & ?). exists f. split; [apply elem_of_app; by right|done].
  - intros u [Hin|Hin]%elem_of_app.
    + exists sa. split; [left|]. by apply Hu.
    + destruct (Hu2 u Hin) as (sa' & ? & ?). exists sa'. split; [by right|done].
  - intros sa' [->|Hsa']%elem_of_cons; [done|]. specialize (Hs2 sa' Hsa'). set_solver.
Qed.

(** Findings of the role, of some kinds. *)
Definition of_kinds (r : RoleSnapshot) (kinds : list string) (fs : list Finding) : Prop :=
  Forall (fun f => fd_Kind f ∈ kinds /\ fd_RoleID f = sn_RoleID r) fs.

Lemma of_kinds_new r kinds kind sev conf dk runID d f :
  kind ∈ kinds -> newFinding kind sev conf r dk runID d = Ok f -> of_kinds r kinds [f].
Proof. intros ? (Hk & Hid & _)%newFinding_fields. apply Forall_singleton. by rewrite Hk, Hid. Qed.

Lemma of_kinds_cons r kinds f fs : of_kinds r kinds (f :: fs) <-> of_kinds r kinds [f] /\ of_kinds r kinds fs.
Proof. unfold of_kinds. by rewrite Forall_cons, Forall_singleton. Qed.

Lemma of_kinds_weaken r kinds kinds' fs : kinds ⊆ kinds' -> of_kinds r kinds fs -> of_kinds r kinds' fs.
Proof. intros Hs H. eapply Forall_impl; [exact H|]. intros f [? ?]. auto. Qed.

Lemma of_kinds_without r kinds fs kind f : of_kinds r kinds fs -> f ∈ fs -> fd_Kind f = kind -> kind ∈ kinds.
Proof. unfold of_kinds. rewrite Forall_forall. intros H Hin <-. by apply H. Qed.

Lemma not_collected_spec s r reason runID o :
  not_collected s r reason runID = Ok o ->
  of_kinds r [KindActivityNotRead] (ro_Findings o) /\
  (forall u, u ∈ ro_Unknown o -> cd_RoleID u = sn_RoleID r /\ cd_Kind u = KindUnusedService /\ cd_DetailKey u = "").
Proof.
  unfold not_collected. intros Hr. apply bind_Ok in Hr as (fs & Hfs & [= <-]). cbn [ro_Findings ro_Unknown]. split.
  - destruct (workload_ids r); [injection Hfs as <-; constructor|].
    apply bind_Ok in Hfs as (f & Hf & [= <-]). eapply of_kinds_new; [|done]. left.
  - intros u ->%list_elem_of_singleton. done.
Qed.

(** The shape of the activity block: the lines of the role's own report, or nothing
    concluded. *)
Lemma activity_output_cases s r o :
  activity_output s r = Ok o ->
  (exists runID run rep, own_evidence s r runID run rep /\
     service_lines s r rep runID run [] (sort_slice (less_by (fun sa => [sa_Service sa])) (rp_Services rep)) = Ok o) \/
  ((forall runID run rep, ~ own_evidence s r runID run rep) /\
   exists reason runID, not_collected s r reason runID = Ok o).
Proof.
  unfold activity_output. destruct (activityState_cases s r) as [(runID & run & rep & Hown & ->)|(reason & runID & run & -> & Hno)].
  - pose proof Hown as (_ & _ & _ & Hact & _). rewrite Hact. intros H. left. by exists runID, run, rep.
  - intros H. right. split; [done|]. exists reason, runID. by destruct run, (sn_Activity r).
Qed.

Lemma activity_output_kind s r o :
  activity_output s r = Ok o -> of_kinds r [KindUnusedService; KindActivityNotRead] (ro_Findings o).
Proof.
  intros [(runID & run & rep & _ & (_ & Hl & _)%service_lines_spec)|(_ & reason & runID & [Hk _]%not_collected_spec)]%activity_output_cases.
  - apply Forall_forall. intros f Hin. destruct (Hl f Hin) as (sa & _ & _ & Hk & Hid & _).
    cbn beta. rewrite Hk, Hid. split; [left|done].
  - eapply of_kinds_weaken; [|done]. set_solver.
Qed.

Lemma broad_grants_kind r runID seen live fs :
  broad_grants r runID seen live = Ok fs -> of_kinds r [KindBroadGrant] fs.
Proof.
  revert seen fs. induction live as [|ls live IH]; intros seen fs; cbn [broad_grants].
  { intros [= <-]. constructor. }
  destruct (negb _ || _); [by apply IH|]. case_bool_decide; [done|]. intros Hr.
  apply bind_Ok in Hr as (f & Hf & Hr). apply bind_Ok in Hr as (fs' & Hfs & [= <-]).
  apply of_kinds_cons. split; [|by eapply IH]. eapply of_kinds_new; [|done]. left.
Qed.

Lemma shared_role_spec r runID fs :
  shared_role r runID = Ok fs -> of_kinds r [KindSharedRole] fs /\ (fs <> [] <-> (2 <= length (workload_ids r))%nat).
Proof.
  unfold shared_role. destruct (Nat.leb_spec 2 (length (workload_ids r))) as [Hl|Hl]; intros Hr.
  - apply bind_Ok in Hr as (f & Hf & [= <-]). split; [|done]. eapply of_kinds_new; [|done]. left.
  - injection Hr as <-. split; [constructor|]. split; [done|lia].
Qed.

Lemma reviewDate_spec s r ws acc fs :
  reviewDate s r ws acc = Ok fs ->
  of_kinds r [KindMissingReviewDate] fs /\ (fs <> [] <-> review_rules s ws <> [] /\ undated_owners s ws acc <> []).
Proof.
  unfold reviewDate. destruct (review_rules s ws) as [|rule rules]; [intros [= <-]; split; [constructor|naive_solver]|].
  destruct (undated_owners s ws acc) as [|x xs]; [intros [= <-]; split; [constructor|naive_solver]|].
  intros Hr. apply bind_Ok in Hr as (f & Hf & [= <-]). split; [|done]. eapply of_kinds_new; [|done]. left.
Qed.

(** Blocks that add findings of one kind. *)
Lemma one_kind_has r kind fs : of_kinds r [kind] fs -> (exists f, f ∈ fs /\ fd_Kind f = kind) <-> fs <> [].
Proof.
  intros H. split; [by intros (f & Hf & _) ->; apply not_elem_of_nil in Hf|].
  destruct fs as [|f fs]; [done|]. intros _. exists f. split; [left|].
  apply of_kinds_cons in H as [H _]. apply Forall_singleton in H as [H _]. by apply list_elem_of_singleton.
Qed.

Lemma other_kind r kinds fs kind : of_kinds r kinds fs -> bool_decide (kind ∈ kinds) = false -> ~ exists f, f ∈ fs /\ fd_Kind f = kind.
Proof. intros H Hn%bool_decide_eq_false (f & Hf & Hk). by eapply Hn, of_kinds_without. Qed.

Lemma ownership_spec s r fs :
  ownership s r = Ok fs ->
  of_kinds r [KindMissingOwner; KindMissingReviewDate] fs /\
  ((exists f, f ∈ fs /\ fd_Kind f = KindMissingOwner) <-> workload_ids r <> [] /\ accountable_owners s r = []) /\
  ((exists f, f ∈ fs /\ fd_Kind f = KindMissingReviewDate) <->
     workload_ids r <> [] /\ review_rules s (consuming_workloads s r) <> [] /\
     undated_owners s (consuming_workloads s r) (accountable_owners s r) <> []).
Proof.
  unfold ownership. destruct (workload_ids r) as [|w ws] eqn:Hw.
  { intros [= <-]. split_and!; [constructor|split; [by intros (? & ?%not_elem_of_nil & _)|by intros [? _]]..]. }
  destruct (accountable_owners s r) as [|o os].
  - intros Hr. apply bind_Ok in Hr as (f & Hf & [= <-]).
    assert (of_kinds r [KindMissingOwner] [f]) as Hk by (eapply of_kinds_new; [|done]; left).
    rewrite (one_kind_has r _ _ Hk). split_and!; [eapply of_kinds_weaken; [|done]; set_solver|done|].
    split; [|by intros (_ & _ & ?)]. intros Hex. by destruct (other_kind _ _ _ KindMissingReviewDate Hk eq_refl Hex).
  - intros [Hk Hne]%reviewDate_spec. rewrite (one_kind_has r _ _ Hk), Hne.
    split_and!; [eapply of_kinds_weaken; [|done]; set_solver| |naive_solver].
    split; [|naive_solver]. intros Hex. by destruct (other_kind _ _ _ KindMissingOwner Hk eq_refl Hex).
Qed.

Lemma evaluateRole_inv s r o :
  evaluateRole s r = Ok o ->
  exists act runID broad shared own,
    activity_output s r = Ok act /\ broad_grants r runID [] (liveStatements r (ss_EvaluatedAt s)) = Ok broad /\
    shared_role r runID = Ok shared /\ ownership s r = Ok own /\
    ro_Findings o = ro_Findings act ++ broad ++ shared ++ own /\ ro_Unknown o = ro_Unknown act.
Proof.
  unfold evaluateRole. destruct (activityState s r) as [[[? ?] runID] ?]. intros H.
  apply bind_Ok in H as (act & Ha & H). apply bind_Ok in H as (broad & Hb & H).
  apply bind_Ok in H as (shared & Hs & H). apply bind_Ok in H as (own & Ho & [= <-]).
  exists act, runID, broad, shared, own. done.
Qed.

(** The [unused_service] findings of a role. *)
Lemma evaluateRole_unused s r o :
  evaluateRole s r = Ok o ->
  (forall f, f ∈ ro_Findings o -> fd_Kind f = KindUnusedService ->
     exists runID run rep sa, own_evidence s r runID run rep /\ sa ∈ rp_Services rep /\ unused_line s r rep run sa /\
       is_unused r runID (sa_Service sa) f) /\
  (forall runID run rep sa, own_evidence s r runID run rep -> sa ∈ rp_Services rep -> unused_line s r rep run sa ->
     exists f, f ∈ ro_Findings o /\ is_unused r runID (sa_Service sa) f) /\
  (forall u, u ∈ ro_Unknown o -> cd_RoleID u = sn_RoleID r /\ cd_Kind u = KindUnusedService /\
     ((forall runID run rep, ~ own_evidence s r runID run rep) \/
      exists runID run rep sa, own_evidence s r runID run rep /\ NoDup (sa_Service <$> rp_Services rep) /\
        sa ∈ rp_Services rep /\ unreviewed_line s r rep run sa /\ cd_DetailKey u = sa_Service sa)).
Proof.
  intros (act & run0 & broad & shared & own & Ha & Hb%broad_grants_kind & (Hs & _)%shared_role_spec
    & (Ho & _)%ownership_spec & Hf & Hu)%evaluateRole_inv.
  assert (forall f, f ∈ ro_Findings o -> fd_Kind f = KindUnusedService -> f ∈ ro_Findings act) as Hact.
  { intros f Hin Hk. rewrite Hf, !elem_of_app in Hin.
    destruct Hin as [?|[Hin|[Hin|Hin]]]; [done|..]; exfalso.
    - eapply (other_kind _ _ _ KindUnusedService Hb eq_refl); eauto.
    - eapply (other_kind _ _ _ KindUnusedService Hs eq_refl); eauto.
    - eapply (other_kind _ _ _ KindUnusedService Ho eq_refl); eauto. }
  destruct (activity_output_cases s r act Ha) as [(runID & run & rep & Hown & Hl)|(Hno & reason & runID & Hnc)].
  - apply service_lines_spec in Hl as (Hnd & Hl1 & Hl2 & Hl3 & _). setoid_rewrite elem_of_sort_slice in Hl1.
    setoid_rewrite elem_of_sort_slice in Hl2. setoid_rewrite elem_of_sort_slice in Hl3. split_and!.
    + intros f Hin Hk. destruct (Hl1 f) as (sa & ? & ? & ?); [by apply Hact|]. by exists runID, run, rep, sa.
    + intros runID' run' rep' sa Hown' Hsa Hq.
      assert (runID' = runID /\ run' = run /\ rep' = rep) as (-> & -> & ->).
      { destruct Hown as (_ & ? & ? & ? & _), Hown' as (_ & ? & ? & ? & _). simplify_eq. done. }
      destruct (Hl2 sa Hsa Hq) as (f & ? & ?). exists f. split; [rewrite Hf; apply elem_of_app; by left|done].
    + intros u Hin. rewrite Hu in Hin. destruct (Hl3 u Hin) as (sa & ? & ? & ? & ? & ?).
      split_and!; [done|done|]. right. exists runID, run, rep, sa. split_and!; try done.
      by rewrite sort_slice_perm in Hnd.
  - apply not_collected_spec in Hnc as [Hk Hun]. split_and!.
    + intros f Hin E. exfalso. apply (other_kind _ _ _ KindUnusedService Hk eq_refl). eauto.
    + intros ???? Hown. by apply Hno in Hown.
    + intros u Hin. rewrite Hu in Hin. destruct (Hun u Hin) as (? & ? & ?). split_and!; try done. by left.
Qed.

Lemma evaluateRole_ids s r o f : evaluateRole s r = Ok o -> f ∈ ro_Findings o -> fd_RoleID f = sn_RoleID r.
Proof.
  intros (act & run0 & broad & shared & own & Ha%activity_output_kind & Hb%broad_grants_kind & (Hs & _)%shared_role_spec
    & (Ho & _)%ownership_spec & Hf & _)%evaluateRole_inv. unfold of_kinds in *.
  rewrite Forall_forall in Ha, Hb, Hs, Ho. rewrite Hf, !elem_of_app.
  intros [Hin|[Hin|[Hin|Hin]]]; [apply Ha|apply Hb|apply Hs|apply Ho]; done.
Qed.

Lemma has_app (P : Finding -> Prop) l k : (exists f, f ∈ l ++ k /\ P f) <-> (exists f, f ∈ l /\ P f) \/ (exists f, f ∈ k /\ P f).
Proof. setoid_rewrite elem_of_app. naive_solver. Qed.

Lemma evaluateRole_kinds s r o :
  evaluateRole s r = Ok o ->
  let has kind := exists f, f ∈ ro_Findings o /\ fd_Kind f = kind in
  (has KindSharedRole <-> (2 <= length (workload_ids r))%nat) /\
  (has KindMissingOwner <-> workload_ids r <> [] /\ accountable_owners s r = []) /\
  (has KindMissingReviewDate <-> workload_ids r <> [] /\ review_rules s (consuming_workloads s r) <> [] /\
     undated_owners s (consuming_workloads s r) (accountable_owners s r) <> []).
Proof.
  intros (act & run0 & broad & shared & own & Ha%activity_output_kind & Hb%broad_grants_kind & (Hsk & Hs)%shared_role_spec
    & (Hok & Ho1 & Ho2)%ownership_spec & Hf & _)%evaluateRole_inv. cbn zeta.
  rewrite Hf, <- Ho1, <- Ho2, <- Hs, <- (one_kind_has r _ _ Hsk), !has_app.
  pose proof (fun kind => other_kind _ _ _ kind Ha) as Na. pose proof (fun kind => other_kind _ _ _ kind Hb) as Nb.
  pose proof (fun kind => other_kind _ _ _ kind Hsk) as Ns. pose proof (fun kind => other_kind _ _ _ kind Hok) as No.
  split_and!.
  - specialize (Na KindSharedRole eq_refl). specialize (Nb KindSharedRole eq_refl). specialize (No KindSharedRole eq_refl). tauto.
  - specialize (Na KindMissingOwner eq_refl). specialize (Nb KindMissingOwner eq_refl). specialize (Ns KindMissingOwner eq_refl). tauto.
  - specialize (Na KindMissingReviewDate eq_refl). specialize (Nb KindMissingReviewDate eq_refl).
    specialize (Ns KindMissingReviewDate eq_refl). tauto.
Qed.

(** * Theorems *)

Lemma NoDup_key {A} (key : A -> string) l x y : NoDup (key <$> l) -> x ∈ l -> y ∈ l -> key x = key y -> x = y.
Proof.
  induction l as [|z l IH]; [set_solver|]. rewrite fmap_cons. intros [Hz Hnd]%NoDup_cons.
  rewrite !elem_of_cons. intros [->|Hx] [->|Hy] E; auto; destruct Hz; apply list_elem_of_fmap; eauto.
Qed.

(** C29 Absence is only concluded from the role's own evidence: a role has an
    [unused_service] finding for a service exactly when the role is evaluated, the run its
    partition has in the manifest is known, its report is a collected report of that
    very run, and the qualification of the service's line is [no_attempt]; the finding
    names that run. *)
Theorem unused_service_exact s ev id service runID :
  Evaluate s = Ok ev ->
  (exists f, f ∈ ev_Findings ev /\ fd_Kind f = KindUnusedService /\ fd_RoleID f = id /\ fd_DetailKey f = service /\
     fd_EvidenceScanRunID f = runID) <->
  (exists r run rep sa,
     r ∈ ss_Roles s /\ sn_RoleID r = id /\ skipReason r = "" /\ own_evidence s r runID run rep /\
     sa ∈ rp_Services rep /\ sa_Service sa = service /\
     q_Outcome (Qualify (qualify_input s r rep run sa)) = QualNoAttempt).
Proof.
  intros (_ & _ & _ & _ & Hok & Hf & _)%Evaluate_spec. split.
  - intros (f & Hin & Hk & <- & <- & <-). apply Hf in Hin as (r & o & Hr & Hsk & Ho & Hin).
    apply evaluateRole_unused in Ho as (H1 & _). destruct (H1 f Hin Hk) as (runID & run & rep & sa & Hown & Hsa & Hq & Hu).
    destruct Hu as (_ & -> & -> & ->). by exists r, run, rep, sa.
  - intros (r & run & rep & sa & Hr & <- & Hsk & Hown & Hsa & <- & Hq).
    destruct (Hok r Hr Hsk) as [o Ho]. pose proof Ho as (_ & H2 & _)%evaluateRole_unused.
    destruct (H2 _ _ _ _ Hown Hsa Hq) as (f & Hin & Hk & Hid & Hdk & Hrun). exists f. split_and!; try done.
    apply Hf. by exists r, o.
Qed.

(** A revision never says both: a condition that could not be evaluated (for
    the whole role or for the service) has no [unused_service] finding, so stored findings are
    either judged or left alone. *)
Theorem unknown_has_no_finding s ev f u :
  Evaluate s = Ok ev -> f ∈ ev_Findings ev -> u ∈ ev_Unknown ev ->
  (forall r rep sa, r ∈ ss_Roles s -> sn_Activity r = Some rep -> sa ∈ rp_Services rep -> sa_Service sa <> "") ->
  cd_RoleID u = fd_RoleID f -> cd_Kind u = fd_Kind f -> ~ (cd_DetailKey u = "" \/ cd_DetailKey u = fd_DetailKey f).
Proof.
  intros (_ & _ & _ & Hnd & _ & Hf & Hu)%Evaluate_spec Hin Hun Hne Hid Hk Hdk.
  apply Hf in Hin as (r & o & Hr & Hsk & Ho & Hin). apply Hu in Hun as (r' & o' & Hr' & Hsk' & Ho' & Hun).
  apply evaluateRole_unused in Ho as (H1 & _). apply evaluateRole_unused in Ho' as (_ & _ & H3).
  destruct (H3 u Hun) as (Hid' & Hk' & Hcase). rewrite Hk in Hk'.
  destruct (H1 f Hin Hk') as (runID & run & rep & sa & Hown & Hsa & Hq & Hfu).
  destruct Hfu as (_ & Hfid & Hfdk & _).
  assert (r' = r) as -> by (apply (NoDup_key sn_RoleID (ss_Roles s)); congruence).
  destruct Hcase as [Hno|(runID' & run' & rep' & sa' & Hown' & Hnds & Hsa' & Hq' & Hdk')].
  { by apply Hno in Hown. }
  assert (runID' = runID /\ run' = run /\ rep' = rep) as (-> & -> & ->).
  { destruct Hown as (_ & ? & ? & ? & _), Hown' as (_ & ? & ? & ? & _). simplify_eq. done. }
  destruct Hdk as [Hdk|Hdk].
  { destruct Hown as (_ & _ & _ & Hact & _). apply (Hne r rep sa'); congruence. }
  assert (sa' = sa) as -> by (apply (NoDup_key sa_Service (rp_Services rep)); congruence).
  unfold unused_line, unreviewed_line in *. rewrite Hq in Hq'. discriminate.
Qed.

(** Ownership and sharing: a role has a [shared_role] finding exactly when two or more
    workloads run as it, a [missing_owner] finding exactly when some workload does and nobody is
    accountable for the role or for one of them, and a [missing_review_date] finding exactly when an
    enabled rule asks an accountable owner for a review date and there is none; roles AWS
    or AuthSec manages get none of them. *)
Theorem ownership_findings_exact s ev r :
  Evaluate s = Ok ev -> r ∈ ss_Roles s ->
  let has kind := exists f, f ∈ ev_Findings ev /\ fd_RoleID f = sn_RoleID r /\ fd_Kind f = kind in
  let workloads := consuming_workloads s r in
  (has KindSharedRole <-> skipReason r = "" /\ (2 <= length (workload_ids r))%nat) /\
  (has KindMissingOwner <-> skipReason r = "" /\ workload_ids r <> [] /\ accountable_owners s r = []) /\
  (has KindMissingReviewDate <-> skipReason r = "" /\ workload_ids r <> [] /\ review_rules s workloads <> [] /\
     undated_owners s workloads (accountable_owners s r) <> []).
Proof.
  intros HE Hr. cbn zeta. apply Evaluate_spec in HE as (_ & _ & _ & Hnd & Hok & Hf & _).
  assert (forall kind, (exists f, f ∈ ev_Findings ev /\ fd_RoleID f = sn_RoleID r /\ fd_Kind f = kind) <->
            skipReason r = "" /\ exists o f, evaluateRole s r = Ok o /\ f ∈ ro_Findings o /\ fd_Kind f = kind) as Hrole.
  { intros kind. split.
    - intros (f & Hin & Hid & Hk). apply Hf in Hin as (r' & o & Hr' & Hsk & Ho & Hin).
      assert (r' = r) as ->; [|eauto 10]. apply (NoDup_key sn_RoleID (ss_Roles s)); try done.
      rewrite <- Hid. symmetry. by eapply evaluateRole_ids.
    - intros (Hsk & o & f & Ho & Hin & Hk). exists f. split_and!; [apply Hf; eauto 10|by eapply evaluateRole_ids|done]. }
  rewrite !Hrole. destruct (is_empty (skipReason r)) eqn:Hsk.
  2:{ assert (skipReason r <> "") by (intros E; by rewrite E in Hsk). tauto. }
  apply is_empty_true in Hsk. destruct (Hok r Hr Hsk) as [o Ho]. rewrite Ho.
  destruct (evaluateRole_kinds s r o Ho) as (H1 & H2 & H3). rewrite <- H1, <- H2, <- H3.
  split_and!; (split; [intros (_ & o' & f & [= <-] & ? & ?); eauto|intros (_ & f & ? & ?); eauto 10]).
Qed.

(** * A revision with an unused service, an unreviewed one and an unowned shared role *)

Definition sample_statement : Statement :=
  {| st_Sid := "A"; st_Effect := EffectAllow; st_Action := ["s3:*"]; st_NotAction := []; st_IsNotAction := false;
     st_Resource := Some ["*"]; st_NotResource := None; st_Principal := None; st_NotPrincipal := None;
     st_Conditions := []; st_Raw := ""; st_Unknown := [] |}.

Definition sample_report : ActivityReport :=
  {| rp_ScanRunID := "run1"; rp_State := EvidenceCollected; rp_Reason := ""; rp_GeneratedAt := day 2024 6 1;
     rp_Services := [{| sa_Service := "zzz"; sa_LastAuthenticatedAt := None |};
                     {| sa_Service := "s3"; sa_LastAuthenticatedAt := None |}] |}.

Definition sample_role : RoleSnapshot :=
  {| sn_IdentityAccountID := "ia1"; sn_RoleID := "AROA1"; sn_ARN := "arn:aws:iam::1:role/r"; sn_Name := "r"; sn_Path := "/";
     sn_AccountID := "1"; sn_ConnectorID := "c1"; sn_PartitionKey := "p"; sn_Partition := "aws";
     sn_CreatedAt := day 2023 1 1; sn_Tags := ∅;
     sn_Assignments := [{| pa_PolicyKey := "P"; pa_PolicyARN := "arn:p"; pa_Kind := "attached";
                           pa_Intervals := [{| tr_From := day 2024 1 10; tr_To := None |}] |}];
     sn_Statements := [{| sr_PolicyKey := "P"; sr_StatementKey := "k"; sr_Hash := "h"; sr_Statement := sample_statement;
                          sr_From := day 2024 1 10; sr_To := None |}];
     sn_Activity := Some sample_report;
     sn_Consumers := [{| cs_WorkloadID := "w2"; cs_Relationship := RelExecutesAs |};
                      {| cs_WorkloadID := "w1"; cs_Relationship := RelExecutesAs |}];
     sn_UnmatchedOwnerTags := [] |}.

Definition sample_run : RunEvidence :=
  {| rv_RunID := "run1"; rv_ConnectorID := "c1"; rv_AccountID := "1"; rv_ConnectorFirstPublishedAt := day 2024 1 1;
     rv_EnabledRegions := ["us-east-1"]; rv_ResourcePolicy := None |}.

Definition sample_snapshot : Snapshot :=
  {| ss_Rev := 7; ss_EvaluatedAt := day 2024 6 1; ss_Manifest := {["p" := "run1"]}; ss_Runs := {["run1" := sample_run]};
     ss_Roles := [sample_role]; ss_Workloads := []; ss_Owners := []; ss_Rules := []; ss_DefaultWindowDays := 0 |}.

Definition sample_evaluation : Evaluation :=
  match Evaluate sample_snapshot with
  | Ok ev => ev
  | Err _ => {| ev_Rev := 0; ev_EvaluatedAt := 0; ev_Evidence := []; ev_Findings := []; ev_Unknown := []; ev_Routes := [];
                ev_Assessments := []; ev_PresentRoles := []; ev_Skipped := [] |}
  end.

Lemma sample_evaluates : Evaluate sample_snapshot = Ok sample_evaluation.
Proof. vm_compute. reflexivity. Qed.

Lemma sample_own_evidence : own_evidence sample_snapshot sample_role "run1" sample_run sample_report.
Proof. unfold own_evidence. split_and!; try (vm_compute; reflexivity); discriminate. Qed.

Lemma unused_service_exact_witness :
  exists f, f ∈ ev_Findings sample_evaluation /\ fd_Kind f = KindUnusedService /\ fd_RoleID f = "AROA1" /\
    fd_DetailKey f = "s3" /\ fd_EvidenceScanRunID f = "run1".
Proof.
  apply (unused_service_exact sample_snapshot sample_evaluation "AROA1" "s3" "run1" sample_evaluates).
  exists sample_role, sample_run, sample_report, {| sa_Service := "s3"; sa_LastAuthenticatedAt := None |}.
  split_and!; [left|done|done|exact sample_own_evidence|right; left|done|vm_compute; reflexivity].
Defined.

Lemma ownership_findings_exact_witness :
  exists f, f ∈ ev_Findings sample_evaluation /\ fd_RoleID f = "AROA1" /\ fd_Kind f = KindMissingOwner.
Proof.
  apply (ownership_findings_exact sample_snapshot sample_evaluation sample_role sample_evaluates); [left|].
  split_and!; vm_compute; [reflexivity|discriminate|reflexivity].
Defined.

Lemma unknown_has_no_finding_witness :
  exists f u, nth_error (ev_Findings sample_evaluation) 2 = Some f /\ nth_error (ev_Unknown sample_evaluation) 0 = Some u /\
  ~ (cd_DetailKey u = "" \/ cd_DetailKey u = fd_DetailKey f).
Proof.
  destruct (nth_error (ev_Findings sample_evaluation) 2) as [f|] eqn:Hf; [|exfalso; vm_compute in Hf; discriminate].
  destruct (nth_error (ev_Unknown sample_evaluation) 0) as [u|] eqn:Hu; [|exfalso; vm_compute in Hu; discriminate].
  exists f, u. split_and!; [done|done|]. pose proof (nth_error_In _ _ Hf) as Hf'. pose proof (nth_error_In _ _ Hu) as Hu'.
  apply (unknown_has_no_finding sample_snapshot sample_evaluation f u sample_evaluates).
  - by apply list_elem_of_In.
  - by apply list_elem_of_In.
  - intros r rep sa Hr. apply list_elem_of_singleton in Hr as ->. intros [= <-].
    intros [->|[->|[]%not_elem_of_nil]%elem_of_cons]%elem_of_cons; discriminate.
  - vm_compute in Hf, Hu. by injection Hf as <-; injection Hu as <-.
  - vm_compute in Hf, Hu. by injection Hf as <-; injection Hu as <-.
Defined.
