(* ===== verification/Lifecycle.v ===== *)
(** The lifecycle of stored findings (internal/igagov/findings.go): which rows a
    revision's evaluation inserts or updates, and with which status. *)

From stdpp Require Import base list strings gmap sorting.
From S2P Require Import Prelude Slices Qualify Routes Findings.

(** * Statuses *)

Definition StatusOpen : string := "open".
Definition StatusUnderReview : string := "under_review".
Definition StatusExcepted : string := "excepted".
Definition StatusMitigated : string := "mitigated".
Definition StatusResolved : string := "resolved".
Definition StatusCleared : string := "cleared".
Definition StatusSuperseded : string := "superseded".
Definition StatusReopened : string := "reopened".

Definition OutcomeNotRemoved : string := "not_removed".
Definition OutcomeRemoved : string := "removed".
Definition OutcomeExcludedRoutesRemain : string := "excluded_routes_remain".
Definition OutcomeExcludedRoutesUnknown : string := "excluded_routes_unknown".

(** * Rows and updates *)

(* src: internal/igagov/findings.go:1007-1015 (StoredFinding) *)
Record StoredFinding := {
  sf_Fingerprint : string;
  sf_Kind : string;
  sf_RoleID : string;
  sf_DetailKey : string;
  sf_Status : string;
  sf_LastEvaluatedRev : Z;
  sf_ExceptedUntil : option Time
}.

(* src: internal/igagov/findings.go:1022-1032 (FindingUpdate) *)
Record FindingUpdate := {
  fu_Fingerprint : string;
  fu_Insert : bool;
  fu_Finding : option Finding;
  fu_Status : string;
  fu_StatusChanged : bool;
  fu_ClearException : bool;
  fu_FirstSeenRev : Z;
  fu_LastEvaluatedRev : Z;
  fu_HasResult : bool
}.

(** Role and service. *)
(* src: internal/igagov/findings.go:1035-1038 (PostureKey) *)
Definition PostureKey : Type := string * string.

(* src: internal/igagov/findings.go:1049-1056 (Evaluation.unknown) *)
Definition unknown (e : Evaluation) (f : StoredFinding) : bool :=
  existsb (fun u => (cd_RoleID u =? sf_RoleID f)%string && (cd_Kind u =? sf_Kind f)%string &&
                    (is_empty (cd_DetailKey u) || (cd_DetailKey u =? sf_DetailKey f)%string)) (ev_Unknown e).

(* src: internal/igagov/findings.go:1061-1073 (postureStatus) *)
Definition postureStatus (current outcome : string) : string * bool :=
  if (outcome =? OutcomeRemoved)%string then (StatusResolved, true)
  else if (outcome =? OutcomeExcludedRoutesRemain)%string || (outcome =? OutcomeExcludedRoutesUnknown)%string
  then (StatusMitigated, true)
  else if (outcome =? OutcomeNotRemoved)%string &&
          ((current =? StatusResolved)%string || (current =? StatusMitigated)%string) then (StatusReopened, true)
  else (current, false).

(* src: internal/igagov/findings.go:1080-1087 (PostureFindingStatus) *)
Definition PostureFindingStatus (current outcome : string) : string * bool :=
  if (current =? StatusSuperseded)%string || (current =? StatusExcepted)%string then (current, false)
  else let '(next, changed) := postureStatus current outcome in
       (next, changed && negb (next =? current)%string).

(** [holds]: the finding of a fingerprint; the last one wins. *)
Definition holds (ev : Evaluation) : gmap string Finding :=
  foldl (fun m f => <[fd_Fingerprint f := f]> m) ∅ (ev_Findings ev).

Definition role_present (ev : Evaluation) (id : string) : bool := bool_decide (id ∈ ev_PresentRoles ev).

(** The update that inserts a new finding. *)
(* src: internal/igagov/findings.go:1116-1124 (PlanFindingUpdates, part) *)
Definition insert_update (ev : Evaluation) (posture : gmap PostureKey string) (fp : string) (f : Finding) : FindingUpdate :=
  let status :=
    if (fd_Kind f =? KindUnusedService)%string then
      match posture !! (fd_RoleID f, fd_DetailKey f) with
      | Some o => (postureStatus StatusOpen o).1
      | None => StatusOpen
      end
    else StatusOpen in
  {| fu_Fingerprint := fp; fu_Insert := true; fu_Finding := Some f; fu_Status := status; fu_StatusChanged := false;
     fu_ClearException := false; fu_FirstSeenRev := ev_Rev ev; fu_LastEvaluatedRev := ev_Rev ev; fu_HasResult := true |}.

(** The status before the posture is looked at. *)
(* src: internal/igagov/findings.go:1134-1154 (PlanFindingUpdates, part) *)
Definition condition_status (ev : Evaluation) (s : StoredFinding) (isHeld : bool) : string :=
  if negb (role_present ev (sf_RoleID s)) then StatusSuperseded
  else if isHeld then
    if (sf_Status s =? StatusCleared)%string || (sf_Status s =? StatusSuperseded)%string then StatusReopened
    else if (sf_Status s =? StatusExcepted)%string then
      match sf_ExceptedUntil s with
      | None => StatusOpen
      | Some until => if negb (ev_EvaluatedAt ev <? until) then StatusOpen else sf_Status s
      end
    else sf_Status s
  else if (sf_Status s =? StatusOpen)%string || (sf_Status s =? StatusReopened)%string ||
          (sf_Status s =? StatusExcepted)%string then StatusCleared
  else sf_Status s.

(* src: internal/igagov/findings.go:1134-1161 (PlanFindingUpdates, part) *)
Definition next_status (ev : Evaluation) (posture : gmap PostureKey string) (s : StoredFinding) (isHeld : bool) : string :=
  let next := condition_status ev s isHeld in
  if (sf_Kind s =? KindUnusedService)%string && negb (next =? StatusSuperseded)%string && negb (next =? StatusExcepted)%string
  then match posture !! (sf_RoleID s, sf_DetailKey s) with
       | Some o => let '(ps, changed) := postureStatus next o in if changed then ps else next
       | None => next
       end
  else next.

(** A stored finding the revision judges. *)
(* src: internal/igagov/findings.go:1127-1133 (PlanFindingUpdates, part) *)
Definition judged (ev : Evaluation) (s : StoredFinding) : bool :=
  (sf_LastEvaluatedRev s <? ev_Rev ev) &&
  negb (bool_decide (holds ev !! sf_Fingerprint s = None) && role_present ev (sf_RoleID s) && unknown ev s).

(* src: internal/igagov/findings.go:1126-1170 (PlanFindingUpdates, part) *)
Definition stored_update (ev : Evaluation) (posture : gmap PostureKey string) (s : StoredFinding) : FindingUpdate :=
  let f := holds ev !! sf_Fingerprint s in
  let isHeld := bool_decide (is_Some f) in
  let next := next_status ev posture s isHeld in
  {| fu_Fingerprint := sf_Fingerprint s; fu_Insert := false; fu_Finding := f; fu_Status := next;
     fu_StatusChanged := negb (next =? sf_Status s)%string;
     fu_ClearException := (sf_Status s =? StatusExcepted)%string && negb (next =? StatusExcepted)%string;
     fu_FirstSeenRev := 0; fu_LastEvaluatedRev := ev_Rev ev; fu_HasResult := isHeld |}.

(* src: internal/igagov/findings.go:1097-1173 (PlanFindingUpdates) *)
Definition PlanFindingUpdates (ev : Evaluation) (stored : list StoredFinding) (posture : gmap PostureKey string)
    : list FindingUpdate :=
  let inserts := omap (fun fp => if bool_decide (fp ∈ sf_Fingerprint <$> stored) then None
                                 else insert_update ev posture fp <$> holds ev !! fp) (sortedKeys (holds ev)) in
  let updates := map (stored_update ev posture) (List.filter (judged ev) stored) in
  sort_slice (less_by (fun u => [fu_Fingerprint u])) (inserts ++ updates).

(** * What a revision does to a finding *)

Definition statuses : list string :=
  [StatusOpen; StatusUnderReview; StatusExcepted; StatusMitigated; StatusResolved; StatusCleared; StatusSuperseded;
   StatusReopened].

Lemma postureStatus_cases current outcome :
  (exists st, st ∈ [StatusResolved; StatusMitigated; StatusReopened] /\ postureStatus current outcome = (st, true)) \/
  postureStatus current outcome = (current, false).
Proof.
  unfold postureStatus. repeat case_match; [left; eexists; split; [|done]; set_solver..|by right].
Qed.

Lemma condition_status_in ev s h : sf_Status s ∈ statuses -> condition_status ev s h ∈ statuses.
Proof. intros Hs. unfold condition_status, statuses. repeat case_match; try done; set_solver. Qed.

Lemma next_status_in ev posture s h : sf_Status s ∈ statuses -> next_status ev posture s h ∈ statuses.
Proof.
  intros Hs%(condition_status_in ev s h). unfold next_status. case_match; [|done].
  destruct (posture !! _) as [o|]; [|done].
  destruct (postureStatus_cases (condition_status ev s h) o) as [(st & Hst & ->)| ->]; [|done].
  unfold statuses. set_solver.
Qed.

(** A revision leaves a finding excepted only while the exception runs. *)
Lemma next_status_excepted ev posture s h :
  next_status ev posture s h = StatusExcepted <->
  role_present ev (sf_RoleID s) = true /\ h = true /\ sf_Status s = StatusExcepted /\
  exists until, sf_ExceptedUntil s = Some until /\ ev_EvaluatedAt ev < until.
Proof.
  assert (next_status ev posture s h = StatusExcepted <-> condition_status ev s h = StatusExcepted) as ->.
  { unfold next_status. destruct (condition_status ev s h =? StatusExcepted)%string eqn:E.
    { by rewrite !andb_false_r. }
    apply String.eqb_neq in E. case_match; [|done]. destruct (posture !! _) as [o|]; [|done].
    destruct (postureStatus_cases (condition_status ev s h) o) as [(st & Hst & ->)| ->]; [|done].
    split; [intros ->|done]. exfalso. set_solver. }
  unfold condition_status. destruct (role_present _ _); cbn [negb]; [|naive_solver].
  destruct h.
  - destruct (sf_Status s =? StatusCleared)%string eqn:E1; bool_prop; cbn [orb].
    { rewrite E1. naive_solver. }
    destruct (sf_Status s =? StatusSuperseded)%string eqn:E2; bool_prop; [rewrite E2; naive_solver|].
    destruct (sf_Status s =? StatusExcepted)%string eqn:E3; bool_prop; [|naive_solver].
    destruct (sf_ExceptedUntil s) as [until|]; [|naive_solver].
    destruct (Z.ltb_spec (ev_EvaluatedAt ev) until); cbn [negb]; [naive_solver|].
    split; [done|]. intros (_ & _ & _ & u & [= <-] & ?). lia.
  - split; [|naive_solver]. repeat case_match; try done. intros E. rewrite E in *. bool_prop. done.
Qed.
