(* ===== verification/FindingStore.v ===== *)
(** The table of stored findings (iga_gov_finding, one workspace) and everything
    that writes it: the evaluator (services/iga_gov_evaluator.go,
    repository/iga_gov_evaluation_repository.go), the enforcement observer and the drift
    worker (services/iga_gov_deploy_observer.go, iga_gov_deploy_drift.go), exceptions
    (services/iga_gov_finding_rules.go) and policy authoring
    (services/iga_gov_authoring_service.go). The writers interleave as
    transactions; [step] is one of them. *)

From stdpp Require Import base list strings gmap sorting relations.
From S2P Require Import Prelude Slices Qualify Catalog Routes TimeFmt Findings Lifecycle.

(** * Rows *)

(** A uuid is its canonical text. *)
(* src: models/iga_gov_policy.go:170-193 (IGAGovFinding) *)
Record FindingRow := {
  rw_ID : string;
  rw_Fingerprint : string;
  rw_Kind : string;
  rw_Family : string;
  rw_Severity : string;
  rw_Confidence : string;
  rw_IdentityAccountID : option string;
  rw_WorkloadID : option string;
  rw_RoleID : option string;
  rw_ConnectorID : option string;
  rw_DetailKey : string;
  rw_Detail : string;
  rw_Status : string;
  rw_ExceptedUntil : option Time;
  rw_ExceptionReason : string;
  rw_FirstSeenRev : Z;
  rw_LastEvaluatedRev : Z;
  rw_ResolvedByDeploymentID : option string;
  rw_FirstSeenAt : Time;
  rw_LastEvaluatedAt : Time;
  rw_StatusChangedAt : Time
}.

(* src: models/iga_gov_policy.go:199-207 (IGAGovFindingResult) *)
Record FindingResult := {
  rs_Rev : Z;
  rs_FindingID : string;
  rs_Severity : string;
  rs_Confidence : string;
  rs_Detail : string;
  rs_EvidenceScanRunID : option string
}.

(** The rows by fingerprint, which is unique in a workspace. *)
Abbreviation Table := (gmap string FindingRow).

(** [UPDATE ... WHERE p]. *)
Definition update_rows (p : FindingRow -> bool) (g : FindingRow -> FindingRow) (t : Table) : Table :=
  (fun r => if p r then g r else r) <$> t.

(** The columns the writers other than the evaluator set. *)
Definition with_status (status : string) (until : option Time) (reason : string) (resolved : option string) (now : Time)
    (r : FindingRow) : FindingRow :=
  {| rw_ID := rw_ID r; rw_Fingerprint := rw_Fingerprint r; rw_Kind := rw_Kind r; rw_Family := rw_Family r;
     rw_Severity := rw_Severity r; rw_Confidence := rw_Confidence r; rw_IdentityAccountID := rw_IdentityAccountID r;
     rw_WorkloadID := rw_WorkloadID r; rw_RoleID := rw_RoleID r; rw_ConnectorID := rw_ConnectorID r;
     rw_DetailKey := rw_DetailKey r; rw_Detail := rw_Detail r; rw_Status := status; rw_ExceptedUntil := until;
     rw_ExceptionReason := reason; rw_FirstSeenRev := rw_FirstSeenRev r; rw_LastEvaluatedRev := rw_LastEvaluatedRev r;
     rw_ResolvedByDeploymentID := resolved; rw_FirstSeenAt := rw_FirstSeenAt r;
     rw_LastEvaluatedAt := rw_LastEvaluatedAt r; rw_StatusChangedAt := now |}.

(** * The evaluator's write *)

Section Write.
(** [uuid.Parse] of github.com/google/uuid: the uuid of a text, if it is one. *)
Variable uuid_Parse : string -> option string.

(* src: services/iga_gov_evaluator.go:591-600 (uuidPtr) *)
Definition uuidPtr (s : string) : option string := if is_empty s then None else uuid_Parse s.

(* src: repository/iga_gov_evaluation_repository.go:99-103 (FindingCondition) *)
Record FindingCondition := { fc_Severity : string; fc_Confidence : string; fc_Detail : string }.

(* src: repository/iga_gov_evaluation_repository.go:86-96 (FindingEvalUpdate) *)
Record FindingEvalUpdate := {
  eu_Rev : Z;
  eu_Status : string;
  eu_StatusChanged : bool;
  eu_ClearException : bool;
  eu_Condition : option FindingCondition;
  eu_At : Time
}.

(** The columns [UpdateFindingTx] sets. *)
(* src: repository/iga_gov_evaluation_repository.go:208-224 (UpdateFindingTx, part) *)
Definition eval_row (u : FindingEvalUpdate) (r : FindingRow) : FindingRow :=
  {| rw_ID := rw_ID r; rw_Fingerprint := rw_Fingerprint r; rw_Kind := rw_Kind r; rw_Family := rw_Family r;
     rw_Severity := match eu_Condition u with Some c => fc_Severity c | None => rw_Severity r end;
     rw_Confidence := match eu_Condition u with Some c => fc_Confidence c | None => rw_Confidence r end;
     rw_IdentityAccountID := rw_IdentityAccountID r; rw_WorkloadID := rw_WorkloadID r; rw_RoleID := rw_RoleID r;
     rw_ConnectorID := rw_ConnectorID r; rw_DetailKey := rw_DetailKey r;
     rw_Detail := match eu_Condition u with Some c => fc_Detail c | None => rw_Detail r end;
     rw_Status := eu_Status u;
     rw_ExceptedUntil := if eu_ClearException u then None else rw_ExceptedUntil r;
     rw_ExceptionReason := if eu_ClearException u then "" else rw_ExceptionReason r;
     rw_FirstSeenRev := rw_FirstSeenRev r; rw_LastEvaluatedRev := eu_Rev u;
     rw_ResolvedByDeploymentID := rw_ResolvedByDeploymentID r; rw_FirstSeenAt := rw_FirstSeenAt r;
     rw_LastEvaluatedAt := eu_At u;
     rw_StatusChangedAt := if eu_StatusChanged u then eu_At u else rw_StatusChangedAt r |}.

(** [affectedOne]: an update that changes no row is an error. *)
(* src: repository/iga_gov_evaluation_repository.go:207-227 (UpdateFindingTx) *)
Definition UpdateFindingTx (t : Table) (id : string) (u : FindingEvalUpdate) : result Table :=
  let hit r := (rw_ID r =? id)%string && (rw_LastEvaluatedRev r <? eu_Rev u) in
  if existsb (fun kr => hit kr.2) (map_to_list t) then Ok (update_rows hit (eval_row u) t)
  else Err (ErrOther "not found").

(** The database refuses a second row of a fingerprint. *)
(* src: repository/iga_gov_evaluation_repository.go:203-205 (InsertFindingTx) *)
Definition InsertFindingTx (t : Table) (row : FindingRow) : result Table :=
  match t !! rw_Fingerprint row with
  | Some _ => Err (ErrOther "duplicate key value")
  | None => Ok (<[rw_Fingerprint row := row]> t)
  end.

(** The row of a new finding, with the id the database generates. *)
(* src: services/iga_gov_evaluator.go:381-392 (GovEvaluator.writeTx, part) *)
Definition new_row (id : string) (at_ : Time) (u : FindingUpdate) (f : Finding) : FindingRow :=
  {| rw_ID := id; rw_Fingerprint := fd_Fingerprint f; rw_Kind := fd_Kind f; rw_Family := fd_Family f;
     rw_Severity := fd_Severity f; rw_Confidence := fd_Confidence f;
     rw_IdentityAccountID := uuidPtr (fd_IdentityAccountID f); rw_WorkloadID := uuidPtr (fd_WorkloadID f);
     rw_RoleID := nilIfEmpty (fd_RoleID f); rw_ConnectorID := uuidPtr (fd_ConnectorID f);
     rw_DetailKey := fd_DetailKey f; rw_Detail := fd_Detail f; rw_Status := fu_Status u;
     rw_ExceptedUntil := None; rw_ExceptionReason := ""; rw_FirstSeenRev := fu_FirstSeenRev u;
     rw_LastEvaluatedRev := fu_LastEvaluatedRev u; rw_ResolvedByDeploymentID := None; rw_FirstSeenAt := at_;
     rw_LastEvaluatedAt := at_; rw_StatusChangedAt := at_ |}.

(* src: services/iga_gov_evaluator.go:404-409 (GovEvaluator.writeTx, part) *)
Definition eval_update (rev : Z) (at_ : Time) (u : FindingUpdate) : FindingEvalUpdate :=
  {| eu_Rev := rev; eu_Status := fu_Status u; eu_StatusChanged := fu_StatusChanged u;
     eu_ClearException := fu_ClearException u;
     eu_Condition := (fun f => {| fc_Severity := fd_Severity f; fc_Confidence := fd_Confidence f;
                                  fc_Detail := fd_Detail f |}) <$> fu_Finding u;
     eu_At := at_ |}.

(* src: services/iga_gov_evaluator.go:366-373 (GovEvaluator.writeTx, part) *)
Definition stored_of (r : FindingRow) : StoredFinding :=
  {| sf_Fingerprint := rw_Fingerprint r; sf_Kind := rw_Kind r; sf_RoleID := default "" (rw_RoleID r);
     sf_DetailKey := rw_DetailKey r; sf_Status := rw_Status r; sf_LastEvaluatedRev := rw_LastEvaluatedRev r;
     sf_ExceptedUntil := rw_ExceptedUntil r |}.

(** The rows in fingerprint order. *)
(* src: repository/iga_gov_evaluation_repository.go:196-201 (LockFindingsTx) *)
Definition LockFindingsTx (t : Table) : list FindingRow := omap (fun fp => t !! fp) (sortedKeys t).

(* src: services/iga_gov_evaluator.go:417-421 (GovEvaluator.writeTx, part) *)
Definition result_of (rev : Z) (id : string) (u : FindingUpdate) : list FindingResult :=
  match fu_Finding u with
  | Some f => if fu_HasResult u
              then [{| rs_Rev := rev; rs_FindingID := id; rs_Severity := fd_Severity f; rs_Confidence := fd_Confidence f;
                       rs_Detail := fd_Detail f; rs_EvidenceScanRunID := uuidPtr (fd_EvidenceScanRunID f) |}]
              else []
  | None => []
  end.

(** One planned update; [fresh] is the id the database generates for a fingerprint,
    [locked] the rows as they were read. An insert
    always carries its finding: without one the code would dereference nil. *)
(* src: services/iga_gov_evaluator.go:378-416 (GovEvaluator.writeTx, part) *)
Definition write_update (fresh : string -> string) (rev : Z) (at_ : Time) (locked : Table) (t : Table) (u : FindingUpdate)
    : result (Table * list FindingResult) :=
  if fu_Insert u then
    match fu_Finding u with
    | None => Err (ErrOther "insert without a finding")
    | Some f => t' ← InsertFindingTx t (new_row (fresh (fd_Fingerprint f)) at_ u f);
                Ok (t', result_of rev (fresh (fd_Fingerprint f)) u)
    end
  else
    match locked !! fu_Fingerprint u with
    | None => Err (ErrOther ("planned update of unknown finding " +:+ fu_Fingerprint u))
    | Some cur => t' ← UpdateFindingTx t (rw_ID cur) (eval_update rev at_ u);
                  Ok (t', result_of rev (rw_ID cur) u)
    end.

Fixpoint write_updates (fresh : string -> string) (rev : Z) (at_ : Time) (locked : Table) (t : Table)
    (plan : list FindingUpdate) : result (Table * list FindingResult) :=
  match plan with
  | [] => Ok (t, [])
  | u :: plan =>
      '(t, rs) ← write_update fresh rev at_ locked t u;
      '(t, rs') ← write_updates fresh rev at_ locked t plan;
      Ok (t, rs ++ rs')
  end.

(* src: services/iga_gov_evaluator.go:359-422 (GovEvaluator.writeTx, part) *)
Definition write_findings (fresh : string -> string) (ev : Evaluation) (posture : gmap PostureKey string) (t : Table)
    : result (Table * list FindingResult) :=
  let stored := stored_of <$> LockFindingsTx t in
  write_updates fresh (ev_Rev ev) (ev_EvaluatedAt ev) t t (PlanFindingUpdates ev stored posture).

End Write.

(** * The other writers *)

(** The statement of the observer for one control's role: [outcomes] are the posture
    outcomes by service, [resolvedBy] the deployment, if any. *)
(* src: services/iga_gov_deploy_observer.go:281-311 (GovDeployments.observeTx, part) *)
Definition observe_posture (roleID : string) (outcomes : gmap string string) (resolvedBy : option string) (now : Time)
    (t : Table) : Table :=
  update_rows
    (fun r => (rw_Kind r =? KindUnusedService)%string && bool_decide (rw_RoleID r = Some roleID) &&
              match outcomes !! rw_DetailKey r with
              | Some o => (PostureFindingStatus (rw_Status r) o).2
              | None => false
              end)
    (fun r => let next := (PostureFindingStatus (rw_Status r) (default "" (outcomes !! rw_DetailKey r))).1 in
              with_status next (rw_ExceptedUntil r) (rw_ExceptionReason r)
                (match resolvedBy with
                 | Some d => if (next =? StatusResolved)%string then Some d else rw_ResolvedByDeploymentID r
                 | None => rw_ResolvedByDeploymentID r
                 end) now r) t.

(* src: services/iga_gov_deploy_drift.go:272-278 (GovDeployments.recordDrift, part) *)
Definition supersede_role (roleID : string) (now : Time) (t : Table) : Table :=
  update_rows (fun r => bool_decide (rw_RoleID r = Some roleID) && negb (rw_Status r =? StatusSuperseded)%string)
    (fun r => with_status StatusSuperseded None (rw_ExceptionReason r) (rw_ResolvedByDeploymentID r) now r) t.

Definition GovMaxFindingExceptionDays : Z := 365.

(** The row of an id, under lock. *)
(* src: services/iga_gov_finding_rules.go:425-435 (GovFindingRules.lockFinding) *)
Definition lockFinding (t : Table) (id : string) : result FindingRow :=
  match List.find (fun kr => (rw_ID kr.2 =? id)%string) (map_to_list t) with
  | Some kr => Ok kr.2
  | None => Err (ErrOther "not_found")
  end.

Definition by_id (id : string) (r : FindingRow) : bool := (rw_ID r =? id)%string.

(** [t.Truncate(time.Second)]. *)
Definition truncate_second (t : Time) : Time := t - (t - zeroTime) mod Second.

(** [reason] is trimmed and [until] the parsed RFC 3339 time, if it parses. *)
(* src: services/iga_gov_finding_rules.go:444-492 (GovFindingRules.RecordException) *)
Definition RecordException (id : string) (until : option Time) (reason : string) (now : Time) (t : Table) : result Table :=
  if is_empty reason || (2000 <? Z.of_nat (str_length reason)) then Err (ErrOther "invalid_parameter: reason")
  else match until with
  | None => Err (ErrOther "invalid_parameter: until must be an RFC 3339 time.")
  | Some until =>
      if negb (now <? until) then Err (ErrOther "invalid_parameter: until must be in the future.")
      else if now + GovMaxFindingExceptionDays * (24 * Hour) <? until then Err (ErrOther "invalid_parameter: until")
      else
        f ← lockFinding t id;
        if (rw_Status f =? StatusOpen)%string || (rw_Status f =? StatusReopened)%string ||
           (rw_Status f =? StatusExcepted)%string
        then Ok (update_rows (by_id id)
                   (fun r => with_status StatusExcepted (Some (truncate_second until)) reason (rw_ResolvedByDeploymentID r) now r) t)
        else Err (ErrOther "finding_not_exceptable")
  end.

(* src: services/iga_gov_finding_rules.go:495-530 (GovFindingRules.ClearException) *)
Definition ClearException (id : string) (reason : string) (now : Time) (t : Table) : result Table :=
  if 2000 <? Z.of_nat (str_length reason) then Err (ErrOther "invalid_parameter: reason")
  else
    f ← lockFinding t id;
    if negb (rw_Status f =? StatusExcepted)%string then Err (ErrOther "finding_not_excepted")
    else Ok (update_rows (by_id id)
               (fun r => with_status StatusOpen None "" (rw_ResolvedByDeploymentID r) now r) t).

(** The findings a version closes over go back to open. *)
(* src: services/iga_gov_authoring_service.go:811-817 (GovAuthoring.closeVersionTx, part) *)
Definition release_findings (ids : list string) (now : Time) (t : Table) : Table :=
  update_rows (fun r => bool_decide (rw_ID r ∈ ids) && (rw_Status r =? StatusUnderReview)%string)
    (fun r => with_status StatusOpen (rw_ExceptedUntil r) (rw_ExceptionReason r) (rw_ResolvedByDeploymentID r) now r) t.

(* src: services/iga_gov_authoring_service.go:1406-1418 (GovAuthoring.markFindingsUnderReview) *)
Definition markFindingsUnderReview (ids : list string) (now : Time) (t : Table) : Table :=
  update_rows (fun r => bool_decide (rw_ID r ∈ ids) &&
                        ((rw_Status r =? StatusOpen)%string || (rw_Status r =? StatusReopened)%string))
    (fun r => with_status StatusUnderReview (rw_ExceptedUntil r) (rw_ExceptionReason r) (rw_ResolvedByDeploymentID r) now r) t.

(** * Histories *)

(** The ids the database generates are new. *)
Definition fresh_ids (fresh : string -> string) (t : Table) : Prop :=
  (forall a b, fresh a = fresh b -> a = b) /\ (forall fp fp' r, t !! fp' = Some r -> fresh fp <> rw_ID r).

(** One transaction of one writer. *)
Inductive step (uuid_Parse : string -> option string) : Table -> Table -> Prop :=
  | step_evaluate fresh ev posture t t' rs :
      fresh_ids fresh t -> write_findings uuid_Parse fresh ev posture t = Ok (t', rs) -> step uuid_Parse t t'
  | step_observe roleID outcomes resolvedBy now t : step uuid_Parse t (observe_posture roleID outcomes resolvedBy now t)
  | step_supersede roleID now t : step uuid_Parse t (supersede_role roleID now t)
  | step_except id until reason now t t' : RecordException id until reason now t = Ok t' -> step uuid_Parse t t'
  | step_clear id reason now t t' : ClearException id reason now t = Ok t' -> step uuid_Parse t t'
  | step_review ids now t : step uuid_Parse t (markFindingsUnderReview ids now t)
  | step_release ids now t : step uuid_Parse t (release_findings ids now t).

(** What the table's CHECK constraints ask of a row (048_iga_gov_findings.sql). *)
Definition row_ok (r : FindingRow) : Prop :=
  rw_Status r ∈ statuses /\ (rw_Status r = StatusExcepted <-> is_Some (rw_ExceptedUntil r)) /\
  rw_FirstSeenRev r <= rw_LastEvaluatedRev r.

(** Keys, checks and unique ids. *)
Definition table_ok (t : Table) : Prop :=
  (forall fp r, t !! fp = Some r -> rw_Fingerprint r = fp /\ row_ok r) /\
  (forall fp fp' r r', t !! fp = Some r -> t !! fp' = Some r' -> rw_ID r = rw_ID r' -> fp = fp').

(** * Plans *)

Lemma holds_fold_fingerprint l (m : gmap string Finding) :
  (forall fp f, m !! fp = Some f -> fd_Fingerprint f = fp) ->
  forall fp f, foldl (fun m f => <[fd_Fingerprint f := f]> m) m l !! fp = Some f -> fd_Fingerprint f = fp.
Proof.
  revert m. induction l as [|g l IH]; intros m Hm; [exact Hm|]. apply IH.
  intros fp' f'. rewrite lookup_insert_Some. intros [[<- <-]|[_ ?]]; [done|by apply Hm].
Qed.

Lemma holds_fingerprint ev fp f : holds ev !! fp = Some f -> fd_Fingerprint f = fp.
Proof. apply holds_fold_fingerprint. by intros. Qed.

Lemma elem_of_plan ev stored posture u :
  u ∈ PlanFindingUpdates ev stored posture <->
  (exists fp f, holds ev !! fp = Some f /\ (fp ∉ sf_Fingerprint <$> stored) /\ u = insert_update ev posture fp f) \/
  (exists s, s ∈ stored /\ judged ev s = true /\ u = stored_update ev posture s).
Proof.
  unfold PlanFindingUpdates. rewrite elem_of_sort_slice, elem_of_app. f_equiv.
  - rewrite list_elem_of_omap. split.
    + intros (fp & _ & H). case_bool_decide; [done|]. destruct (holds ev !! fp) as [f|] eqn:E; [|done].
      injection H as <-. by exists fp, f.
    + intros (fp & f & Hf & Hn & ->). exists fp. split; [apply elem_of_sortedKeys; eauto|].
      by rewrite bool_decide_eq_false_2, Hf.
  - rewrite list_elem_of_fmap. setoid_rewrite elem_of_filter_b. naive_solver.
Qed.

Lemma sortedKeys_NoDup {V} (m : gmap string V) : NoDup (sortedKeys m).
Proof. unfold sortedKeys. rewrite sort_slice_perm. apply NoDup_fst_map_to_list. Qed.

Lemma plan_NoDup ev stored posture :
  NoDup (sf_Fingerprint <$> stored) -> NoDup (fu_Fingerprint <$> PlanFindingUpdates ev stored posture).
Proof.
  intros Hnd. unfold PlanFindingUpdates. rewrite sort_slice_perm, fmap_app. apply NoDup_app. split_and!.
  - eapply sublist_NoDup; [apply (sortedKeys_NoDup (holds ev))|].
    induction (sortedKeys (holds ev)) as [|k l IH]; [constructor|]. cbn. case_bool_decide; [by constructor|].
    destruct (holds ev !! k); cbn; by constructor.
  - intros fp (u & -> & Hu)%list_elem_of_fmap (u' & E & Hu')%list_elem_of_fmap.
    apply list_elem_of_omap in Hu as (fp & _ & Hu). case_bool_decide as Hn; [done|].
    destruct (holds ev !! fp); [|done]. injection Hu as <-. cbn in E.
    apply list_elem_of_fmap in Hu' as (s & -> & Hs%elem_of_filter_b). cbn in E. apply Hn. rewrite E.
    apply list_elem_of_fmap. exists s. naive_solver.
  - eapply sublist_NoDup; [exact Hnd|].
    induction stored as [|s l IH]; [constructor|]. rewrite fmap_cons in Hnd. apply NoDup_cons in Hnd as [_ Hnd].
    cbn. destruct (judged ev s); constructor; by apply IH.
Qed.

(** * The evaluator's write, row by row *)

Section WriteSpec.
Context (uuid_Parse : string -> option string) (fresh : string -> string) (ev : Evaluation).
Context (posture : gmap PostureKey string) (locked : Table).
Context (Hok : table_ok locked) (Hfresh : fresh_ids fresh locked).

(** The id of a fingerprint's row, before or after the write. *)
Definition id_of (fp : string) : string := match locked !! fp with Some r => rw_ID r | None => fresh fp end.

Lemma id_of_inj a b : id_of a = id_of b -> a = b.
Proof.
  destruct Hok as [_ Hu], Hfresh as [Hinj Hnew]. unfold id_of.
  destruct (locked !! a) eqn:Ea, (locked !! b) eqn:Eb; intros E; [by eapply Hu| | |by apply Hinj].
  - symmetry in E. by apply (Hnew b) in Ea.
  - by apply (Hnew a) in Eb.
Qed.

Definition ids_match (t : Table) : Prop := forall fp r, t !! fp = Some r -> rw_ID r = id_of fp.

Lemma update_one t fp r u :
  ids_match t -> t !! fp = Some r -> rw_LastEvaluatedRev r < eu_Rev u ->
  UpdateFindingTx t (id_of fp) u = Ok (<[fp := eval_row u r]> t).
Proof.
  intros Hids Hr Hrev. unfold UpdateFindingTx.
  assert (existsb (fun kr : string * FindingRow => (rw_ID kr.2 =? id_of fp)%string && (rw_LastEvaluatedRev kr.2 <? eu_Rev u))
            (map_to_list t) = true) as ->.
  { apply existsb_exists. exists (fp, r). split; [by apply list_elem_of_In, elem_of_map_to_list|]. cbn.
    rewrite (Hids _ _ Hr), String.eqb_refl. by apply Z.ltb_lt. }
  f_equal. apply map_eq. intros fp'. unfold update_rows. rewrite lookup_fmap.
  destruct (decide (fp' = fp)) as [->|Hne].
  - rewrite lookup_insert_eq, Hr. cbn. rewrite (Hids _ _ Hr), String.eqb_refl. apply Z.ltb_lt in Hrev. by rewrite Hrev.
  - rewrite lookup_insert_ne by done. destruct (t !! fp') as [r'|] eqn:E; [|done]. cbn. rewrite (Hids _ _ E).
    destruct (String.eqb_spec (id_of fp') (id_of fp)) as [?%id_of_inj|]; [by subst|done].
Qed.

(** The row an update leaves, and when the update can be made. *)
Definition written (u : FindingUpdate) : option FindingRow :=
  match locked !! fu_Fingerprint u with
  | None => new_row uuid_Parse (fresh (fu_Fingerprint u)) (ev_EvaluatedAt ev) u <$> fu_Finding u
  | Some r => Some (eval_row (eval_update (ev_Rev ev) (ev_EvaluatedAt ev) u) r)
  end.

Definition ready (u : FindingUpdate) : Prop :=
  match locked !! fu_Fingerprint u with
  | None => fu_Insert u = true /\ exists f, fu_Finding u = Some f /\ fd_Fingerprint f = fu_Fingerprint u
  | Some r => fu_Insert u = false /\ rw_LastEvaluatedRev r < ev_Rev ev
  end.

Lemma write_one t u :
  ids_match t -> t !! fu_Fingerprint u = locked !! fu_Fingerprint u -> ready u ->
  exists row, written u = Some row /\
    write_update uuid_Parse fresh (ev_Rev ev) (ev_EvaluatedAt ev) locked t u =
      Ok (<[fu_Fingerprint u := row]> t, result_of uuid_Parse (ev_Rev ev) (id_of (fu_Fingerprint u)) u) /\
    rw_ID row = id_of (fu_Fingerprint u).
Proof.
  intros Hids Ht. unfold ready, written, write_update. destruct (locked !! fu_Fingerprint u) as [r|] eqn:El.
  - intros [-> Hrev]. eexists. split; [done|].
    assert (rw_ID r = id_of (fu_Fingerprint u)) as Hid by (unfold id_of; by rewrite El). split; [|done].
    rewrite Hid. apply bind_Ok. eexists. split; [by apply update_one|done].
  - intros (-> & f & Hf & Hfp). rewrite Hf. eexists. split; [done|].
    assert (fresh (fu_Fingerprint u) = id_of (fu_Fingerprint u)) as Hid by (unfold id_of; by rewrite El).
    split; [|done]. rewrite Hfp, Hid. apply bind_Ok. eexists. split; [|done].
    unfold InsertFindingTx. cbn [rw_Fingerprint new_row]. rewrite Hfp, Ht. done.
Qed.

Lemma write_all t plan :
  ids_match t -> NoDup (fu_Fingerprint <$> plan) ->
  (forall u, u ∈ plan -> ready u /\ t !! fu_Fingerprint u = locked !! fu_Fingerprint u) ->
  exists t', write_updates uuid_Parse fresh (ev_Rev ev) (ev_EvaluatedAt ev) locked t plan =
      Ok (t', flat_map (fun u => result_of uuid_Parse (ev_Rev ev) (id_of (fu_Fingerprint u)) u) plan) /\
    (forall u, u ∈ plan -> t' !! fu_Fingerprint u = written u) /\
    (forall fp, fp ∉ fu_Fingerprint <$> plan -> t' !! fp = t !! fp).
Proof.
  revert t. induction plan as [|u plan IH]; intros t Hids Hnd Hready.
  { exists t. split_and!; [done|set_solver|done]. }
  rewrite fmap_cons in Hnd. apply NoDup_cons in Hnd as [Hu Hnd].
  destruct (Hready u) as [Hr Ht]; [left|]. destruct (write_one t u Hids Ht Hr) as (row & Hw & Hone & Hid).
  destruct (IH (<[fu_Fingerprint u := row]> t)) as (t' & Hall & Hin & Hout).
  - intros fp r. rewrite lookup_insert_Some. intros [[<- <-]|[_ ?]]; [done|by apply Hids].
  - done.
  - intros v Hv. destruct (Hready v) as [? Hv']; [by right|]. split; [done|]. rewrite lookup_insert_ne; [done|].
    intros E. apply Hu. rewrite E. apply list_elem_of_fmap. eauto.
  - exists t'. split_and!.
    + cbn [write_updates]. apply bind_Ok. eexists. split; [exact Hone|]. cbn. apply bind_Ok. eexists. split; [exact Hall|]. done.
    + intros v [->|Hv]%elem_of_cons; [|by apply Hin]. rewrite Hout by done. by rewrite lookup_insert_eq.
    + intros fp Hfp. rewrite fmap_cons in Hfp. apply not_elem_of_cons in Hfp as [? ?].
      rewrite Hout by done. by rewrite lookup_insert_ne.
Qed.

(** What a revision makes of a fingerprint. *)
Definition settle (fp : string) : option FindingRow :=
  match locked !! fp with
  | Some r =>
      if judged ev (stored_of r)
      then Some (eval_row (eval_update (ev_Rev ev) (ev_EvaluatedAt ev) (stored_update ev posture (stored_of r))) r)
      else Some r
  | None => (fun f => new_row uuid_Parse (fresh fp) (ev_EvaluatedAt ev) (insert_update ev posture fp f) f) <$> holds ev !! fp
  end.

Lemma LockFindings_elem r : r ∈ LockFindingsTx locked <-> locked !! rw_Fingerprint r = Some r.
Proof.
  unfold LockFindingsTx. rewrite list_elem_of_omap. split.
  - intros (fp & _ & Hr). destruct Hok as [Hk _]. by destruct (Hk fp r Hr) as [-> _].
  - intros Hr. exists (rw_Fingerprint r). split; [apply elem_of_sortedKeys; eauto|done].
Qed.

Lemma locked_fingerprints : sf_Fingerprint <$> (stored_of <$> LockFindingsTx locked) = sortedKeys locked.
Proof.
  unfold LockFindingsTx. rewrite <- list_fmap_compose.
  assert (forall l : list string, (forall fp, fp ∈ l -> is_Some (locked !! fp)) ->
            (sf_Fingerprint ∘ stored_of) <$> omap (fun fp => locked !! fp) l = l) as H.
  { intros l. induction l as [|fp l IH]; intros Hl; [done|]. cbn.
    destruct (Hl fp) as [r Hr]; [left|]. rewrite Hr. cbn. destruct Hok as [Hk _]. destruct (Hk fp r Hr) as [-> _].
    f_equal. apply IH. intros. apply Hl. by right. }
  apply H. intros fp. apply elem_of_sortedKeys.
Qed.

(** A finding the revision records a result of. *)
Definition has_result (fp : string) : Prop :=
  is_Some (holds ev !! fp) /\ match locked !! fp with Some r => judged ev (stored_of r) = true | None => True end.

Lemma plan_results plan rs :
  plan = PlanFindingUpdates ev (stored_of <$> LockFindingsTx locked) posture ->
  rs = flat_map (fun u => result_of uuid_Parse (ev_Rev ev) (id_of (fu_Fingerprint u)) u) plan ->
  forall fp, (exists x, x ∈ rs /\ rs_FindingID x = id_of fp) <-> has_result fp.
Proof.
  intros -> -> fp. unfold has_result. split.
  - intros (x & (u & Hu%list_elem_of_In & Hx)%list_elem_of_In%in_flat_map & Hid).
    assert (fu_Fingerprint u = fp) as <-.
    { unfold result_of in Hx. destruct (fu_Finding u); [|done]. destruct (fu_HasResult u); [|done].
      destruct Hx as [<-|[]]. by apply id_of_inj. }
    apply elem_of_plan in Hu as [(fp & f & Hf & Hn & ->)|(s & Hs & Hj & ->)].
    + rewrite locked_fingerprints, elem_of_sortedKeys in Hn. apply eq_None_not_Some in Hn. cbn. by rewrite Hf, Hn.
    + apply list_elem_of_fmap in Hs as (r & -> & Hr%LockFindings_elem). cbn. rewrite Hr, Hj.
      unfold result_of in Hx. cbn in Hx. by destruct (holds ev !! rw_Fingerprint r).
  - intros [[f Hf] Hr].
    assert (exists u, u ∈ PlanFindingUpdates ev (stored_of <$> LockFindingsTx locked) posture /\ fu_Fingerprint u = fp /\
              fu_Finding u = Some f /\ fu_HasResult u = true) as (u & Hu & Hfp & Hfu & Hres).
    { destruct (locked !! fp) as [r|] eqn:El.
      - assert (rw_Fingerprint r = fp) as E by (destruct Hok as [Hk _]; by apply Hk).
        exists (stored_update ev posture (stored_of r)). cbn. rewrite E, Hf. split_and!; [|done|done|done].
        apply elem_of_plan. right. exists (stored_of r). split_and!; [|done|done]. apply list_elem_of_fmap. exists r.
        split; [done|]. apply LockFindings_elem. by rewrite E.
      - exists (insert_update ev posture fp f). split_and!; [|done|done|done]. apply elem_of_plan. left. exists fp, f.
        split_and!; [done| |done]. rewrite locked_fingerprints, elem_of_sortedKeys. by apply eq_None_not_Some. }
    eexists. split; [apply list_elem_of_In, in_flat_map; exists u; split; [by apply list_elem_of_In|]|].
    { unfold result_of. rewrite Hfu, Hres. by left. }
    cbn. by rewrite Hfp.
Qed.

Lemma write_findings_settles :
  exists t' rs, write_findings uuid_Parse fresh ev posture locked = Ok (t', rs) /\ (forall fp, t' !! fp = settle fp) /\
    (forall fp, (exists x, x ∈ rs /\ rs_FindingID x = id_of fp) <-> has_result fp).
Proof.
  set (plan := PlanFindingUpdates ev (stored_of <$> LockFindingsTx locked) posture).
  assert (forall u, u ∈ plan -> ready u /\ written u = settle (fu_Fingerprint u)) as Hplan.
  { intros u Hu. apply elem_of_plan in Hu as [(fp & f & Hf & Hn & ->)|(s & Hs & Hj & ->)].
    - rewrite locked_fingerprints, elem_of_sortedKeys in Hn. apply eq_None_not_Some in Hn.
      unfold ready, written, settle. cbn. rewrite Hn, Hf. split; [|done]. split; [done|]. exists f.
      split; [done|by apply holds_fingerprint in Hf].
    - apply list_elem_of_fmap in Hs as (r & -> & Hr%LockFindings_elem).
      unfold ready, written, settle. cbn. rewrite Hr, Hj. split; [|done]. split; [done|].
      unfold judged in Hj. bool_prop. done. }
  destruct (write_all locked plan) as (t' & Hw & Hin & Hout).
  - intros fp r Hr. unfold id_of. by rewrite Hr.
  - apply plan_NoDup. rewrite locked_fingerprints. apply sortedKeys_NoDup.
  - intros u Hu. split; [by apply Hplan|done].
  - exists t'. eexists. split; [exact Hw|]. split; [|by eapply plan_results]. intros fp.
    destruct (decide (fp ∈ fu_Fingerprint <$> plan)) as [(u & -> & Hu)%list_elem_of_fmap|Hn].
    { rewrite Hin by done. by apply Hplan. }
    rewrite Hout by done. unfold settle. destruct (locked !! fp) as [r|] eqn:Er.
    + destruct (judged ev (stored_of r)) eqn:Hj; [|done]. destruct Hn. apply list_elem_of_fmap.
      assert (rw_Fingerprint r = fp) as <- by (destruct Hok as [Hk _]; by apply Hk).
      exists (stored_update ev posture (stored_of r)). split; [done|]. apply elem_of_plan. right.
      exists (stored_of r). split_and!; [|done|done]. apply list_elem_of_fmap. exists r. split; [done|by apply LockFindings_elem].
    + destruct (holds ev !! fp) as [f|] eqn:Ef; [|done]. destruct Hn. apply list_elem_of_fmap.
      exists (insert_update ev posture fp f). split; [done|]. apply elem_of_plan. left. exists fp, f.
      split_and!; [done| |done]. rewrite locked_fingerprints, elem_of_sortedKeys. by apply eq_None_not_Some.
Qed.
End WriteSpec.

(** * The invariant *)

Lemma update_rows_ok p g t :
  table_ok t -> (forall r, rw_ID (g r) = rw_ID r /\ rw_Fingerprint (g r) = rw_Fingerprint r) ->
  (forall r, p r = true -> row_ok r -> row_ok (g r)) -> table_ok (update_rows p g t).
Proof.
  intros [Hk Hu] Hid Hrow. unfold update_rows. split.
  - intros fp r. rewrite lookup_fmap. intros (r0 & Hr & ->)%fmap_Some. destruct (Hk fp r0 Hr) as [<- ?].
    destruct (p r0) eqn:Hp; [|done]. split; [apply Hid|by apply Hrow].
  - intros fp fp' r r'. rewrite !lookup_fmap. intros (r0 & Hr & ->)%fmap_Some (r1 & Hr' & ->)%fmap_Some E.
    apply (Hu fp fp' r0 r1 Hr Hr').
    destruct (p r0), (p r1); rewrite ?(proj1 (Hid r0)), ?(proj1 (Hid r1)) in E; done.
Qed.

(** Leaving or keeping out of [excepted]. *)
Lemma with_status_ok st until reason d now r :
  st ∈ statuses -> (st = StatusExcepted <-> is_Some until) -> row_ok r -> row_ok (with_status st until reason d now r).
Proof. intros ? ? (_ & _ & ?). done. Qed.

Lemma insert_status_cases ev posture fp f :
  exists st, st ∈ [StatusOpen; StatusResolved; StatusMitigated; StatusReopened] /\
    fu_Status (insert_update ev posture fp f) = st.
Proof.
  eexists. split; [|done]. cbn. destruct (fd_Kind f =? KindUnusedService)%string; [|set_solver].
  destruct (posture !! _) as [o|]; [|set_solver].
  destruct (postureStatus_cases StatusOpen o) as [(st & Hst & ->)| ->]; cbn; set_solver.
Qed.

Lemma settle_ok uuid_Parse fresh ev posture t t' :
  table_ok t -> fresh_ids fresh t -> (forall fp, t' !! fp = settle uuid_Parse fresh ev posture t fp) -> table_ok t'.
Proof.
  intros Hok Hf Hs. pose proof Hok as [Hk Hu]. split.
  - intros fp r. rewrite Hs. unfold settle. destruct (t !! fp) as [r0|] eqn:E.
    + destruct (Hk fp r0 E) as (<- & Hst & Hex & Hrev). destruct (judged _ _) eqn:Hj; intros [= <-]; [|done].
      split; [done|]. unfold judged in Hj. bool_prop. cbn in *. unfold row_ok. cbn. split_and!.
      * by apply next_status_in.
      * set (h := bool_decide _). pose proof (next_status_excepted ev posture (stored_of r0) h) as Hn.
        destruct (next_status ev posture (stored_of r0) h =? StatusExcepted)%string eqn:En; bool_prop.
        -- cbn. rewrite andb_false_r. pose proof (proj1 Hn En) as (_ & _ & E1 & _). cbn in E1. rewrite <- Hex. tauto.
        -- cbn. rewrite andb_true_r. split; [done|]. destruct (rw_Status r0 =? StatusExcepted)%string eqn:E1; bool_prop; cbn.
           { by intros [? ?]. }
           rewrite <- Hex. done.
      * lia.
    + intros (f & Hfd & ->)%fmap_Some. split; [cbn; by apply holds_fingerprint in Hfd|]. unfold row_ok.
      cbn [new_row rw_Status rw_ExceptedUntil rw_FirstSeenRev rw_LastEvaluatedRev].
      split_and!; [| |cbn; lia].
      * destruct (insert_status_cases ev posture fp f) as [st [Hst ->]]. unfold statuses. set_solver.
      * destruct (insert_status_cases ev posture fp f) as [st [Hst ->]]. split; [intros ->; exfalso; set_solver|by intros [? ?]].
  - assert (forall fp r, t' !! fp = Some r -> rw_ID r = id_of fresh t fp) as Hid.
    { intros fp r. rewrite Hs. unfold settle, id_of. destruct (t !! fp) as [r0|].
      - destruct (judged _ _); by intros [= <-].
      - by intros (f & _ & ->)%fmap_Some. }
    intros fp fp' r r' Hr Hr' E. apply (id_of_inj fresh t Hok Hf). by rewrite <- (Hid _ _ Hr), <- (Hid _ _ Hr').
Qed.

(** What no writer changes of a row, and the revision that only grows. *)
Definition row_keeps (r r' : FindingRow) : Prop :=
  rw_ID r' = rw_ID r /\ rw_Fingerprint r' = rw_Fingerprint r /\ rw_Kind r' = rw_Kind r /\ rw_RoleID r' = rw_RoleID r /\
  rw_DetailKey r' = rw_DetailKey r /\ rw_FirstSeenRev r' = rw_FirstSeenRev r /\
  rw_LastEvaluatedRev r <= rw_LastEvaluatedRev r'.

Definition table_keeps (t t' : Table) : Prop :=
  forall fp r, t !! fp = Some r -> exists r', t' !! fp = Some r' /\ row_keeps r r'.

#[export] Instance row_keeps_preorder : PreOrder row_keeps.
Proof.
  unfold row_keeps. split; [intros r; split_and!; done || lia|].
  intros a b c (?&?&?&?&?&?&?) (?&?&?&?&?&?&?). split_and!; congruence || lia.
Qed.

#[export] Instance table_keeps_preorder : PreOrder table_keeps.
Proof.
  split.
  - intros t fp r Hr. exists r. by split.
  - intros t1 t2 t3 H1 H2 fp r Hr. destruct (H1 fp r Hr) as (r2 & Hr2 & ?). destruct (H2 fp r2 Hr2) as (r3 & ? & ?).
    exists r3. split; [done|by etrans].
Qed.

Lemma update_rows_keeps p g t : (forall r, row_keeps r (g r)) -> table_keeps t (update_rows p g t).
Proof.
  intros Hg fp r Hr. unfold update_rows. rewrite lookup_fmap, Hr. eexists. split; [done|]. cbn. by destruct (p r).
Qed.

Lemma with_status_keeps st until reason d now r : row_keeps r (with_status st until reason d now r).
Proof. unfold row_keeps. cbn. split_and!; done || lia. Qed.

Lemma settle_keeps uuid_Parse fresh ev posture t t' :
  (forall fp, t' !! fp = settle uuid_Parse fresh ev posture t fp) -> table_keeps t t'.
Proof.
  intros Hs fp r Hr. rewrite Hs. unfold settle. rewrite Hr. destruct (judged ev (stored_of r)) eqn:Hj; [|by exists r].
  eexists. split; [done|]. unfold judged in Hj. bool_prop. cbn in *. unfold row_keeps. cbn. split_and!; done || lia.
Qed.

Lemma PostureFindingStatus_cases st o :
  (PostureFindingStatus st o).2 = true ->
  st <> StatusExcepted /\ (PostureFindingStatus st o).1 ∈ [StatusResolved; StatusMitigated; StatusReopened].
Proof.
  unfold PostureFindingStatus. destruct (st =? StatusSuperseded)%string; [done|].
  destruct (String.eqb_spec st StatusExcepted) as [->|Hne]; [done|]. cbn [orb].
  destruct (postureStatus_cases st o) as [(st' & Hst & ->)| ->]; cbn; [|done]. done.
Qed.

Lemma lockFinding_row t id r : table_ok t -> lockFinding t id = Ok r -> t !! rw_Fingerprint r = Some r /\ rw_ID r = id.
Proof.
  intros [Hk _]. unfold lockFinding. destruct (List.find _ _) as [[fp r']|] eqn:E; [|done]. cbn. intros [= <-].
  apply find_some in E as [Hin Hid]. cbn in Hid. bool_prop. apply list_elem_of_In, elem_of_map_to_list in Hin.
  by destruct (Hk fp r' Hin) as [-> _].
Qed.

(** A writer that only sets the status columns. *)
Lemma status_writer_ok p st until reason d now t :
  table_ok t ->
  (forall r, p r = true -> row_ok r -> st r ∈ statuses /\ (st r = StatusExcepted <-> is_Some (until r))) ->
  let t' := update_rows p (fun r => with_status (st r) (until r) (reason r) (d r) now r) t in
  table_ok t' /\ table_keeps t t'.
Proof.
  intros Hok Hst. split; [|apply update_rows_keeps; intros r; apply with_status_keeps].
  apply update_rows_ok; [done|done|]. intros r Hp Hr. destruct (Hst r Hp Hr). by apply with_status_ok.
Qed.

(** Statuses set on rows that are not excepted. *)
Lemma not_excepted_ok st r : st ∈ statuses -> st <> StatusExcepted -> rw_Status r <> StatusExcepted -> row_ok r ->
  st ∈ statuses /\ (st = StatusExcepted <-> is_Some (rw_ExceptedUntil r)).
Proof. intros Hs Hn Hr (_ & <- & _). done. Qed.

Lemma step_ok uuid_Parse t t' : step uuid_Parse t t' -> table_ok t -> table_ok t' /\ table_keeps t t'.
Proof.
  intros Hstep Hok. destruct Hstep as [fresh ev posture t t' rs Hf Hw|roleID outcomes rb now t|roleID now t
    |id until reason now t t' Hw|id reason now t t' Hw|ids now t|ids now t].
  - destruct (write_findings_settles uuid_Parse fresh ev posture t Hok Hf) as (t2 & rs2 & Hw2 & Hs & _).
    rewrite Hw in Hw2. injection Hw2 as <- <-. split; [by eapply settle_ok|by eapply settle_keeps].
  - apply status_writer_ok; [done|]. intros r Hp Hr. bool_prop.
    destruct (outcomes !! rw_DetailKey r) as [o|]; [|done]. cbn [default from_option id].
    apply PostureFindingStatus_cases in H0 as [Hne Hin]. apply not_excepted_ok; [unfold statuses; set_solver| |done|done].
    intros E. rewrite E in Hin. set_solver.
  - apply status_writer_ok; [done|]. intros r Hp Hr. split; [unfold statuses; set_solver|]. split; [done|by intros [? ?]].
  - unfold RecordException in Hw. destruct (is_empty _ || _); [done|]. destruct until as [until|]; [|done].
    destruct (negb _); [done|]. destruct (_ <? until); [done|]. apply bind_Ok in Hw as (f & Hl & Hw).
    case_match; [|done]. injection Hw as <-. apply status_writer_ok; [done|]. intros r Hp Hr.
    split; [unfold statuses; set_solver|by split].
  - unfold ClearException in Hw. destruct (_ <? _); [done|]. apply bind_Ok in Hw as (f & Hl & Hw).
    destruct (negb _); [done|]. injection Hw as <-. apply status_writer_ok; [done|]. intros r Hp Hr.
    split; [unfold statuses; set_solver|]. split; [done|by intros [? ?]].
  - apply status_writer_ok; [done|]. intros r Hp Hr. apply not_excepted_ok; [unfold statuses; set_solver|done| |done].
    intros E. rewrite E, andb_false_r in Hp. done.
  - apply status_writer_ok; [done|]. intros r Hp Hr. apply not_excepted_ok; [unfold statuses; set_solver|done| |done].
    intros E. rewrite E, andb_false_r in Hp. done.
Qed.

(** The status a judged finding leaves a revision with. *)
Lemma next_status_facts ev posture s h :
  let next := next_status ev posture s h in
  (role_present ev (sf_RoleID s) = false -> next = StatusSuperseded) /\
  (role_present ev (sf_RoleID s) = true -> h = true -> next <> StatusCleared /\ next <> StatusSuperseded) /\
  (role_present ev (sf_RoleID s) = true -> h = false -> next <> StatusOpen /\ next <> StatusExcepted).
Proof.
  cbn zeta. unfold next_status. destruct (role_present ev (sf_RoleID s)) eqn:Hp.
  2:{ unfold condition_status. rewrite Hp. cbn [negb]. rewrite andb_false_r. done. }
  assert ((h = true -> condition_status ev s h <> StatusCleared /\ condition_status ev s h <> StatusSuperseded) /\
          (h = false -> condition_status ev s h <> StatusOpen /\ condition_status ev s h <> StatusExcepted)) as [H1 H2].
  { unfold condition_status. rewrite Hp. cbn [negb].
    split; intros ->; repeat case_match; bool_prop; try done; split; intros E; rewrite E in *; done. }
  split; [done|]. destruct (_ && _); [|tauto]. destruct (posture !! _) as [o|]; [|tauto].
  destruct (postureStatus_cases (condition_status ev s h) o) as [(st & Hst & ->)| ->]; [|tauto].
  split; intros _ _; split; intros ->; set_solver.
Qed.

(** * Theorems *)

(** C30 The evaluator's write, one row at a time in fingerprint order, is the
    simultaneous settlement of every fingerprint: it never fails (no planned row is missing,
    no insert collides), leaves every row as [settle] says, and records a result for exactly
    the findings that hold and were judged. *)
Theorem evaluation_write_refines uuid_Parse fresh ev posture t :
  table_ok t -> fresh_ids fresh t ->
  exists t' rs, write_findings uuid_Parse fresh ev posture t = Ok (t', rs) /\
    (forall fp, t' !! fp = settle uuid_Parse fresh ev posture t fp) /\
    (forall fp, (exists x, x ∈ rs /\ rs_FindingID x = id_of fresh t fp) <-> has_result ev t fp).
Proof. intros. by apply write_findings_settles. Qed.

(** C1 Whatever the writers do, in whatever order, from an empty table: every row
    keeps the table's checks (a known status, an end date exactly when excepted, the first
    revision not after the last), fingerprints and ids stay unique, no row disappears, its
    identity never changes and its last evaluated revision never goes back. *)
Theorem finding_table_invariant uuid_Parse t t' :
  rtc (step uuid_Parse) ∅ t -> rtc (step uuid_Parse) t t' -> table_ok t' /\ table_keeps t t'.
Proof.
  assert (forall t t', rtc (step uuid_Parse) t t' -> table_ok t -> table_ok t' /\ table_keeps t t') as Hrtc.
  { intros x y H. induction H as [x|x y z Hs _ IH]; intros Hx; [by split|].
    destruct (step_ok _ _ _ Hs Hx) as [Hy ?]. destruct (IH Hy). split; [done|by etrans]. }
  intros H0 H1. apply Hrtc; [done|]. eapply Hrtc; [exact H0|]. split; intros; simplify_map_eq.
Qed.

(** Evaluating a revision again changes nothing: after a revision's write, writing
    the same evaluation once more, with any posture and any new ids, updates no row, inserts
    none and records no result. *)
Theorem replay_is_noop uuid_Parse fresh fresh' ev posture posture' t t' rs :
  table_ok t -> fresh_ids fresh t -> fresh_ids fresh' t' ->
  write_findings uuid_Parse fresh ev posture t = Ok (t', rs) ->
  write_findings uuid_Parse fresh' ev posture' t' = Ok (t', []).
Proof.
  intros Hok Hf Hf' Hw. destruct (write_findings_settles uuid_Parse fresh ev posture t Hok Hf) as (t2 & rs2 & Hw2 & Hs & _).
  rewrite Hw in Hw2. injection Hw2 as <- <-. clear Hw.
  assert (table_ok t') as Hok' by by eapply settle_ok.
  assert (forall fp r, t' !! fp = Some r -> judged ev (stored_of r) = false) as Hj.
  { intros fp r. rewrite Hs. unfold settle. destruct (t !! fp) as [r0|].
    - destruct (judged ev (stored_of r0)) eqn:Hj; intros [= <-]; [|done]. unfold judged. cbn. by rewrite Z.ltb_irrefl.
    - intros (f & _ & ->)%fmap_Some. unfold judged. cbn. by rewrite Z.ltb_irrefl. }
  unfold write_findings. assert (PlanFindingUpdates ev (stored_of <$> LockFindingsTx t') posture' = []) as ->; [|done].
  destruct (PlanFindingUpdates _ _ _) as [|u l] eqn:E; [done|]. exfalso.
  assert (u ∈ PlanFindingUpdates ev (stored_of <$> LockFindingsTx t') posture') as Hu by (rewrite E; left).
  apply elem_of_plan in Hu as [(fp & f & Hfd & Hn & _)|(s & (r & -> & Hr)%list_elem_of_fmap & Hjs & _)].
  - rewrite (locked_fingerprints _ Hok'), elem_of_sortedKeys in Hn. apply eq_None_not_Some in Hn. rewrite Hs in Hn.
    unfold settle in Hn. rewrite Hfd in Hn. destruct (t !! fp) as [r|]; [|done]. by destruct (judged ev (stored_of r)).
  - apply (LockFindings_elem _ Hok'), Hj in Hr. congruence.
Qed.

(** What a revision does to a stored finding: nothing at all when it was evaluated at
    this or a later revision, or when its condition is unknown; otherwise a finding of a
    vanished role is superseded, one that holds is never left cleared or superseded, one that
    does not hold is never left open or excepted, and an exception outlives the
    revision exactly when the finding holds and the exception runs past the evaluation time. *)
Theorem revision_verdict uuid_Parse fresh ev posture t t' rs fp r :
  table_ok t -> fresh_ids fresh t -> write_findings uuid_Parse fresh ev posture t = Ok (t', rs) -> t !! fp = Some r ->
  let s := stored_of r in
  let present := role_present ev (sf_RoleID s) = true in
  let held := is_Some (holds ev !! fp) in
  exists r', t' !! fp = Some r' /\
    (rw_LastEvaluatedRev r >= ev_Rev ev \/ (~ held /\ present /\ unknown ev s = true) -> r' = r) /\
    (rw_LastEvaluatedRev r < ev_Rev ev -> ~ (~ held /\ present /\ unknown ev s = true) ->
       rw_LastEvaluatedRev r' = ev_Rev ev /\
       (~ present -> rw_Status r' = StatusSuperseded) /\
       (present -> held -> rw_Status r' <> StatusCleared /\ rw_Status r' <> StatusSuperseded) /\
       (present -> ~ held -> rw_Status r' <> StatusOpen /\ rw_Status r' <> StatusExcepted) /\
       (rw_Status r' = StatusExcepted <-> present /\ held /\ rw_Status r = StatusExcepted /\
          exists until, rw_ExceptedUntil r = Some until /\ ev_EvaluatedAt ev < until)).
Proof.
  intros Hok Hf Hw Hr. destruct (write_findings_settles uuid_Parse fresh ev posture t Hok Hf) as (t2 & rs2 & Hw2 & Hs & _).
  rewrite Hw in Hw2. injection Hw2 as <- <-. specialize (Hs fp). unfold settle in Hs. rewrite Hr in Hs. cbn zeta.
  assert (rw_Fingerprint r = fp) as Hfp by (by destruct (proj1 Hok fp r Hr)).
  set (s := stored_of r) in *. set (h := bool_decide (is_Some (holds ev !! fp))).
  assert (h = true <-> is_Some (holds ev !! fp)) as Hh by (unfold h; by rewrite bool_decide_eq_true).
  assert (judged ev s = true <-> rw_LastEvaluatedRev r < ev_Rev ev /\
            ~ (~ is_Some (holds ev !! fp) /\ role_present ev (sf_RoleID s) = true /\ unknown ev s = true)) as Hj.
  { unfold judged, s. cbn [sf_Fingerprint sf_LastEvaluatedRev stored_of]. rewrite Hfp, <- eq_None_not_Some.
    rewrite andb_true_iff, Z.ltb_lt, negb_true_iff, <- not_true_iff_false, !andb_true_iff, bool_decide_eq_true. tauto. }
  destruct (judged ev s) eqn:Ej.
  - destruct (proj1 Hj eq_refl) as [Hrev Hun]. exists (eval_row (eval_update (ev_Rev ev) (ev_EvaluatedAt ev) (stored_update ev posture s)) r).
    split; [done|]. split; [intros [?|?]; [lia|tauto]|]. intros _ _.
    assert (rw_Status (eval_row (eval_update (ev_Rev ev) (ev_EvaluatedAt ev) (stored_update ev posture s)) r) =
              next_status ev posture s h) as -> by (unfold h; by rewrite <- Hfp).
    destruct (next_status_facts ev posture s h) as (H1 & H2 & H3). split; [done|]. split_and!.
    + intros Hp. apply H1. by apply not_true_iff_false.
    + intros Hp Hheld. apply H2; tauto.
    + intros Hp Hheld. apply H3; [done|]. apply not_true_iff_false. tauto.
    + rewrite next_status_excepted, Hh. done.
  - exists r. split; [done|]. split; [done|]. intros ? ?. assert (false = true) by tauto. done.
Qed.

(** * A table with a running exception, a lapsed one and a finding to insert *)

Definition sample_finding (fp role : string) : Finding :=
  {| fd_Fingerprint := fp; fd_Kind := KindUnusedService; fd_Family := FamilyCloudAccess; fd_Severity := SeverityMedium;
     fd_Confidence := "qualified"; fd_IdentityAccountID := "ia"; fd_WorkloadID := ""; fd_RoleID := role;
     fd_ConnectorID := "c"; fd_DetailKey := "s3"; fd_Detail := "{}"; fd_EvidenceScanRunID := "run" |}.

Definition sample_row (id fp role status : string) (until : option Time) : FindingRow :=
  {| rw_ID := id; rw_Fingerprint := fp; rw_Kind := KindUnusedService; rw_Family := FamilyCloudAccess;
     rw_Severity := SeverityMedium; rw_Confidence := "qualified"; rw_IdentityAccountID := None; rw_WorkloadID := None;
     rw_RoleID := Some role; rw_ConnectorID := None; rw_DetailKey := "s3"; rw_Detail := "{}"; rw_Status := status;
     rw_ExceptedUntil := until; rw_ExceptionReason := ""; rw_FirstSeenRev := 1; rw_LastEvaluatedRev := 1;
     rw_ResolvedByDeploymentID := None; rw_FirstSeenAt := 0; rw_LastEvaluatedAt := 0; rw_StatusChangedAt := 0 |}.

Definition sample_table : Table :=
  {["fp1" := sample_row "id1" "fp1" "R1" StatusExcepted (Some 100); "fp2" := sample_row "id2" "fp2" "R2" StatusExcepted (Some 50)]}.

Definition sample_rev : Evaluation :=
  {| ev_Rev := 2; ev_EvaluatedAt := 50; ev_Evidence := []; ev_Unknown := [];
     ev_Findings := [sample_finding "fp1" "R1"; sample_finding "fp2" "R2"; sample_finding "fp3" "R3"];
     ev_Routes := []; ev_Assessments := []; ev_PresentRoles := ["R1"; "R2"; "R3"]; ev_Skipped := [] |}.

Definition new_id (fp : string) : string := "new-" +:+ fp.

Definition sample_written : Table :=
  match write_findings Some new_id sample_rev ∅ sample_table with Ok (t, _) => t | Err _ => ∅ end.

Lemma sample_table_ok : table_ok sample_table.
Proof.
  split.
  - intros fp r. unfold sample_table. rewrite lookup_insert_Some, lookup_singleton_Some.
    intros [[<- <-]|[_ [<- <-]]]; (split; [done|]; unfold row_ok; cbn; split_and!;
      [unfold statuses; set_solver|split; [by eexists|done]|lia]).
  - intros fp fp' r r'. unfold sample_table. rewrite !lookup_insert_Some, !lookup_singleton_Some.
    intros [[<- <-]|[_ [<- <-]]] [[<- <-]|[_ [<- <-]]]; done.
Qed.

Lemma sample_fresh : fresh_ids new_id sample_table.
Proof.
  split; [by intros a b [=]|]. intros fp fp' r. unfold sample_table. rewrite lookup_insert_Some, lookup_singleton_Some.
  intros [[<- <-]|[_ [<- <-]]]; done.
Qed.

Lemma sample_write_ok : exists rs, write_findings Some new_id sample_rev ∅ sample_table = Ok (sample_written, rs).
Proof. eexists. vm_compute. reflexivity. Qed.

Lemma evaluation_write_refines_witness :
  exists t' rs, write_findings Some new_id sample_rev ∅ sample_table = Ok (t', rs) /\
    t' !! "fp3" = settle Some new_id sample_rev ∅ sample_table "fp3".
Proof.
  destruct (evaluation_write_refines Some new_id sample_rev ∅ sample_table sample_table_ok sample_fresh) as (t' & rs & H & Hs & _).
  exists t', rs. split; [exact H|apply Hs].
Defined.

Lemma revision_verdict_witness :
  exists r1 r2, sample_written !! "fp1" = Some r1 /\ rw_Status r1 = StatusExcepted /\
    sample_written !! "fp2" = Some r2 /\ rw_Status r2 <> StatusExcepted.
Proof.
  destruct sample_write_ok as [rs Hw].
  destruct (revision_verdict Some new_id sample_rev ∅ sample_table sample_written rs "fp1"
    (sample_row "id1" "fp1" "R1" StatusExcepted (Some 100)) sample_table_ok sample_fresh Hw eq_refl) as (r1 & Hr1 & _ & H1).
  destruct (revision_verdict Some new_id sample_rev ∅ sample_table sample_written rs "fp2"
    (sample_row "id2" "fp2" "R2" StatusExcepted (Some 50)) sample_table_ok sample_fresh Hw eq_refl) as (r2 & Hr2 & _ & H2).
  exists r1, r2. split; [exact Hr1|]. split; [|split; [exact Hr2|]].
  - destruct H1 as (_ & _ & _ & _ & ->); [done|intros (_ & _ & E); discriminate E|].
    split; [vm_compute; reflexivity|]. split; [exists (sample_finding "fp1" "R1"); vm_compute; reflexivity|].
    split; [reflexivity|]. exists 100. split; reflexivity.
  - destruct H2 as (_ & _ & _ & _ & ->); [done|intros (_ & _ & E); discriminate E|].
    intros (_ & _ & _ & u & [= <-] & Hu). discriminate Hu.
Defined.

Definition again_id (fp : string) : string := "again-" +:+ fp.

Lemma again_fresh : fresh_ids again_id sample_written.
Proof.
  split; [by intros a b [=]|]. intros fp fp' r Hr%elem_of_map_to_list%list_elem_of_In E.
  assert (forallb (fun kr : string * FindingRow => negb (HasPrefix (rw_ID kr.2) "again-")) (map_to_list sample_written) = true)
    as H by (vm_compute; reflexivity).
  rewrite forallb_forall in H. specialize (H _ Hr). cbn [snd] in H. rewrite <- E in H. destruct fp; vm_compute in H; discriminate H.
Qed.

Lemma replay_is_noop_witness : write_findings Some again_id sample_rev ∅ sample_written = Ok (sample_written, []).
Proof.
  destruct sample_write_ok as [rs Hw].
  exact (replay_is_noop Some new_id again_id sample_rev ∅ ∅ sample_table sample_written rs sample_table_ok sample_fresh again_fresh Hw).
Defined.

Lemma finding_table_invariant_witness :
  exists t, rtc (step Some) ∅ t /\ table_ok t /\ table_keeps t (markFindingsUnderReview ["new-fp1"] 60 t) /\ t !! "fp1" <> None.
Proof.
  destruct (write_findings Some new_id sample_rev ∅ ∅) as [[t rs]|] eqn:Hw; [|vm_compute in Hw; discriminate Hw].
  exists t. assert (step Some ∅ t) as Hs.
  { apply (step_evaluate Some new_id sample_rev ∅ ∅ t rs); [|exact Hw]. split; [by intros a b [=]|].
    intros ??? H. by rewrite lookup_empty in H. }
  destruct (finding_table_invariant Some t (markFindingsUnderReview ["new-fp1"] 60 t)) as [Hok Hk];
    [by apply rtc_once|apply rtc_once, step_review|].
  split; [by apply rtc_once|]. split; [|split; [exact Hk|]].
  - apply (step_ok Some ∅ t Hs). split; intros; simplify_map_eq.
  - vm_compute in Hw. injection Hw as <- _. vm_compute. discriminate.
Defined.
