(* ===== verification/Plan.v ===== *)
(** Compiled plans (internal/igagov/compile.go): operations, facts, the plan row,
    the storage checks it must pass and its impact. *)

From stdpp Require Import base list strings gmap sorting.
From Stdlib Require Import Ascii.
From S2P Require Import Prelude Slices Qualify Float64 Utf8 Json JsonCanon Marshal Sha256 PolicyDoc Catalog Text Routes Hashes PolicyCanon TimeFmt Live Boundary Narrow Intent Bundle FirstAttach.

#[local] Opaque CanonicalizeValue ContentHash writeCanonical.

(** * Vocabulary *)

Definition PlanApply : string := "apply".
Definition PlanUndo : string := "undo".
Definition PlanRemoveControl : string := "remove_control".
Definition PlanSplit : string := "split".
Definition PlanSplitRevert : string := "split_revert".
Definition EligibilityEligible : string := "eligible".
Definition EligibilityIaCOnly : string := "iac_only".
Definition EligibilityIneligible : string := "ineligible".
Definition AttachmentPresent : string := "present".
Definition AttachmentAbsent : string := "absent".
Definition AttachmentUnchanged : string := "unchanged".
Definition DispositionKeep : string := "keep".
Definition DispositionDelete : string := "delete".
Definition DispositionRetainShared : string := "retain_shared".
Definition BasisLiveRead : string := "live_read".
Definition DeploymentPlaceholder : string := "${deployment_id}".

Definition OpCreatePolicy : string := "CreatePolicy".
Definition OpCreatePolicyVersion : string := "CreatePolicyVersion".
Definition OpDeletePolicyVersion : string := "DeletePolicyVersion".
Definition OpTagPolicy : string := "TagPolicy".
Definition OpDeletePolicy : string := "DeletePolicy".
Definition OpPutRolePermissionsBoundary : string := "PutRolePermissionsBoundary".
Definition OpDeleteRolePermissionsBoundary : string := "DeleteRolePermissionsBoundary".
Definition OpCreateRole : string := "CreateRole".
Definition OpBindSubject : string := "BindSubject".
Definition OpDeleteRole : string := "DeleteRole".

(** * Data *)

(* src: internal/igagov/compile.go:886-910 (Op) *)
Record Op := {
  op_Op : string;
  op_RoleName : string;
  op_RoleARN : string;
  op_PolicyARN : string;
  op_PolicyName : string;
  op_Path : string;
  op_DocumentHash : string;
  op_SetAsDefault : bool;
  op_Tags : gmap string string;
  op_Select : string;
  op_IfVersionsAtLeast : Z;
  op_SubjectARN : string;
  op_TrustPolicyHash : string;
  op_ResourceARN : string;
  op_Principal : string;
  op_InlineName : string;
  op_InstanceProfile : string;
  op_OnlyIfUnused : bool;
  op_Binding : string;
  op_Steps : list string
}.

Definition omit_false (k : string) (b : bool) : list (string * goval) := if b then [(k, GBool b)] else [].

Definition Op_val (o : Op) : goval :=
  GStruct ([("op", GString (op_Op o))] ++ omit_empty "role_name" (op_RoleName o) ++
    omit_empty "role_arn" (op_RoleARN o) ++ omit_empty "policy_arn" (op_PolicyARN o) ++
    omit_empty "policy_name" (op_PolicyName o) ++ omit_empty "path" (op_Path o) ++
    omit_empty "document_hash" (op_DocumentHash o) ++ omit_false "set_as_default" (op_SetAsDefault o) ++
    (if bool_decide (op_Tags o = ∅) then [] else [("tags", tags_val (op_Tags o))]) ++
    omit_empty "select" (op_Select o) ++ omit_int "if_versions_at_least" (op_IfVersionsAtLeast o) ++
    omit_empty "subject_arn" (op_SubjectARN o) ++ omit_empty "trust_policy_hash" (op_TrustPolicyHash o) ++
    omit_empty "resource_arn" (op_ResourceARN o) ++ omit_empty "principal" (op_Principal o) ++
    omit_empty "inline_name" (op_InlineName o) ++ omit_empty "instance_profile" (op_InstanceProfile o) ++
    omit_false "only_if_unused" (op_OnlyIfUnused o) ++ omit_empty "binding" (op_Binding o) ++
    match op_Steps o with [] => [] | l => [("steps", GSlice (map GString l))] end).

(* src: internal/igagov/recover.go:60-69 (Fact) *)
Record Fact := {
  fa_Key : string;
  fa_Kind : string;
  fa_Subject : string;
  fa_Before : string;
  fa_After : string;
  fa_OnlyBefore : bool
}.

(* src: internal/igagov/compile.go:913-916 (BoundaryRef) *)
Record BoundaryRef := { br_ARN : string; br_DocumentHash : string }.

(* src: internal/igagov/split.go:58-64 (CompatibilityItem) *)
Record CompatibilityItem := {
  ci_Kind : string;
  ci_Resource : string;
  ci_Form : string;
  ci_Principal : string;
  ci_Handling : string
}.

(* src: internal/igagov/split.go:67-80 (SplitDetail) *)
Record SplitDetail := {
  sd_SourceRoleARN : string;
  sd_NewRoleARN : string;
  sd_NewRoleHash : string;
  sd_SubjectKind : string;
  sd_SubjectARN : string;
  sd_SubjectARNs : list string;
  sd_FromWorkloadKeys : list string;
  sd_Compatibility : list CompatibilityItem
}.

(* src: internal/igagov/split.go:83-88 (SplitDetail.Subjects) *)
Definition split_Subjects (d : SplitDetail) : list string :=
  match sd_SubjectARNs d with [] => [sd_SubjectARN d] | l => l end.

(* src: internal/igagov/compile.go:922-934 (PlanDiff) *)
Record PlanDiff := {
  df_Case : string;
  df_BoundaryBefore : option BoundaryRef;
  df_BoundaryAfter : option BoundaryRef;
  df_NewlyExcluded : list string;
  df_AlreadyExcluded : list string;
  df_NewlyUnexcluded : list string;
  df_Narrowing : option Narrowing;
  df_FirstAttachment : option FirstAttachmentProof;
  df_Split : option SplitDetail;
  df_Notes : list string;
  df_Facts : list Fact
}.

(* src: internal/igagov/compile.go:963-966 (ArchivedDocument) *)
Record ArchivedDocument := { ad_Hash : string; ad_Canonical : string }.

(** The JSON columns are kept as their canonical text. *)
(* src: internal/igagov/compile.go:970-1002 (Plan) *)
Record Plan := {
  pl_ControlID : string;
  pl_Kind : string;
  pl_Delivery : string;
  pl_Eligibility : string;
  pl_IneligibleReason : string;
  pl_Refusals : list Refusal;
  pl_Basis : string;
  pl_BasisReadAt : Z;
  pl_Precondition : string;
  pl_PreconditionHash : string;
  pl_BeforeDocumentHash : option string;
  pl_DesiredAttachment : string;
  pl_DesiredBoundaryARN : option string;
  pl_DesiredDocumentHash : option string;
  pl_ReplacedBoundaryARN : option string;
  pl_ArtifactDisposition : string;
  pl_BundleHash : string;
  pl_EvidenceRev : Z;
  pl_ResourcePolicyScanRunID : option string;
  pl_FirstAttachment : bool;
  pl_Unanalysed : list UnanalysedItem;
  pl_Impact : Impact;
  pl_ImpactHash : string;
  pl_Ops : list Op;
  pl_Diff : PlanDiff;
  pl_PlanHash : string;
  pl_MaterialHash : string;
  pl_GapRefs : list GapRef;
  pl_Documents : list ArchivedDocument;
  pl_Facts : list Fact
}.

(* src: internal/igagov/compile.go:1006-1006 (Plan.Eligible) *)
Definition Eligible (p : Plan) : bool := negb (pl_Eligibility p =? EligibilityIneligible)%string.

(* src: internal/igagov/compile.go:1009-1015 (Plan.HashInput) *)
Definition HashInput (p : Plan) : PlanHashInput :=
  {| ph_ControlID := pl_ControlID p; ph_Kind := pl_Kind p; ph_Delivery := pl_Delivery p;
     ph_DesiredAttachment := pl_DesiredAttachment p; ph_DesiredBoundaryARN := pl_DesiredBoundaryARN p;
     ph_DesiredDocumentHash := pl_DesiredDocumentHash p; ph_ReplacedBoundaryARN := pl_ReplacedBoundaryARN p;
     ph_ArtifactDisposition := pl_ArtifactDisposition p; ph_BundleHash := pl_BundleHash p;
     ph_EvidenceRev := pl_EvidenceRev p; ph_ResourcePolicyScanRunID := pl_ResourcePolicyScanRunID p;
     ph_FirstAttachment := pl_FirstAttachment p; ph_Unanalysed := pl_Unanalysed p;
     ph_PreconditionHash := pl_PreconditionHash p; ph_Ops := Some (GSlice (map Op_val (pl_Ops p))) |}.

Definition FactPolicyDocument : string := "policy_document".

(* src: internal/igagov/compile.go:1019-1027 (Plan.PoliciesToRead) *)
Definition PoliciesToRead (p : Plan) : list string :=
  sortedUnique (fa_Subject <$> List.filter (fun f => (fa_Kind f =? FactPolicyDocument)%string) (pl_Facts p)).

(** * Storage checks *)

Definition is_nil {A} (o : option A) : bool := match o with None => true | Some _ => false end.

(** The checks a row fails, by constraint name. *)
(* src: internal/igagov/compile.go:1032-1069 (Plan.CheckStorable) *)
Definition failed_checks (p : Plan) : list string :=
  let inel := (pl_Eligibility p =? EligibilityIneligible)%string in
  let att a := (pl_DesiredAttachment p =? a)%string in
  let kind k := (pl_Kind p =? k)%string in
  let disp d := (pl_ArtifactDisposition p =? d)%string in
  let split := kind PlanSplit || kind PlanSplitRevert in
  (if negb (Bool.eqb inel (negb (is_empty (pl_IneligibleReason p)))) then ["iga_gov_plan_ineligible_chk"] else []) ++
  (if negb inel then
     if att AttachmentPresent then
       if is_nil (pl_DesiredBoundaryARN p) || is_nil (pl_DesiredDocumentHash p) then ["iga_gov_plan_attachment_chk"] else []
     else if negb (is_nil (pl_DesiredBoundaryARN p)) || negb (is_nil (pl_DesiredDocumentHash p))
     then ["iga_gov_plan_attachment_chk"] else []
   else []) ++
  (if negb (Bool.eqb split (att AttachmentUnchanged)) ||
      (kind PlanApply && negb (att AttachmentPresent)) ||
      (split && negb (pl_Delivery p =? DeliveryIaCPR)%string && negb (pl_Delivery p =? DeliveryExport)%string)
   then ["iga_gov_plan_kind_chk"] else []) ++
  (if (att AttachmentAbsent && negb (disp DispositionDelete) && negb (disp DispositionRetainShared)) ||
      (negb (kind PlanUndo) && negb (kind PlanRemoveControl) && negb (disp DispositionKeep)) ||
      (negb (disp DispositionKeep) &&
       match pl_ReplacedBoundaryARN p, pl_DesiredBoundaryARN p with
       | None, _ => true
       | Some r, Some d => (r =? d)%string
       | Some _, None => false
       end)
   then ["iga_gov_plan_disposition_chk"] else []) ++
  (if pl_FirstAttachment p && (negb (att AttachmentPresent) || is_nil (pl_ResourcePolicyScanRunID p))
   then ["iga_gov_plan_first_attachment_chk"] else []).

(* src: internal/igagov/compile.go:1032-1069 (Plan.CheckStorable) *)
Definition CheckStorable (p : Plan) : result unit :=
  match failed_checks p with
  | [] => Ok tt
  | errs => Err (ErrOther ("igagov: plan violates " +:+ Join errs ", "))
  end.

(** * Controls and evidence *)

(* src: internal/igagov/compile.go:1073-1083 (ControlRef) *)
Record ControlRef := {
  ct_ID : string;
  ct_PolicyID : string;
  ct_AccountID : string;
  ct_RoleID : string;
  ct_WorkspaceRef : string;
  ct_OwnedPolicyARNs : list string
}.

(* src: internal/igagov/compile.go:1085-1090 (ControlRef.validate) *)
Definition control_validate (c : ControlRef) : result unit :=
  if is_empty (ct_ID c) || is_empty (ct_RoleID c) || negb (reAccount (ct_AccountID c)) || is_empty (ct_WorkspaceRef c)
  then compileErr ErrCodeInput ["the control needs an id, account, RoleId and workspace ref"] else Ok tt.

(* src: internal/igagov/compile.go:1092-1099 (ControlRef.owns) *)
Definition owns (c : ControlRef) (arn : string) : bool := bool_decide (arn ∈ ct_OwnedPolicyARNs c).

(* src: internal/igagov/compile.go:1102-1107 (ownerValue) *)
Definition ownerValue (tags : gmap string string) : string :=
  if negb (tag tags TagManagedBy =? TagManagedByValue)%string then "customer"
  else "authsec:" +:+ tag tags TagWorkspace +:+ ":" +:+ tag tags TagControl.

(* src: internal/igagov/compile.go:1109-1109 (ControlRef.ownerValue) *)
Definition control_ownerValue (c : ControlRef) : string := "authsec:" +:+ ct_WorkspaceRef c +:+ ":" +:+ ct_ID c.

(* src: internal/igagov/compile.go:1111-1114 (ControlRef.createTags) *)
Definition createTags (c : ControlRef) : gmap string string :=
  {[TagManagedBy := TagManagedByValue; TagWorkspace := ct_WorkspaceRef c; TagControl := ct_ID c;
    TagPolicy := ct_PolicyID c; TagChange := DeploymentPlaceholder]}.

(* src: internal/igagov/compile.go:1116-1118 (ControlRef.changeTags) *)
Definition changeTags (c : ControlRef) : gmap string string :=
  {[TagPolicy := ct_PolicyID c; TagChange := DeploymentPlaceholder]}.

(* src: internal/igagov/compile.go:1123-1127 (EvidenceRef) *)
Record EvidenceRef := { er_Bundle : Bundle; er_EvidenceRev : Z; er_ScanRunID : string }.

(* src: internal/igagov/compile.go:1129-1151 (EvidenceRef.validate) *)
Definition evidence_validate (e : EvidenceRef) (roleID : string) : result unit :=
  let facts := bd_Facts (er_Bundle e) in
  let sources := bf_Sources facts in
  if is_empty (bd_Hash (er_Bundle e)) || bool_decide (length sources = 0%nat)
  then compileErr ErrCodeInput ["a plan needs its evidence bundle"]
  else if (bd_Trust (er_Bundle e) =? TrustUntrusted)%string
  then compileErr ErrCodeEvidenceUntrusted (bd_TrustReasons (er_Bundle e))
  else if (er_EvidenceRev e <=? 0) || is_empty (er_ScanRunID e)
  then compileErr ErrCodeInput ["a plan needs its evidence revision and resource-policy scan run"]
  else if negb (bt_RoleID (bf_Target facts) =? roleID)%string
  then compileErr ErrCodeEvidenceMismatch ["the bundle is for role " +:+ bt_RoleID (bf_Target facts)]
  else
    let revOK := existsb (fun s => bs_Rev s =? er_EvidenceRev e) sources in
    let runOK := existsb (fun s => (bs_ConnectorRun s =? er_ScanRunID e)%string ||
                                   (derefOr (bs_ResourcePolicyRun s) "" =? er_ScanRunID e)%string) sources in
    if negb revOK || negb runOK
    then compileErr ErrCodeEvidenceMismatch ["the evidence revision and scan run must be the bundle's source"]
    else Ok tt.

(** * Impact *)

(* src: internal/igagov/compile.go:1226-1251 (impactFor) *)
Definition impactFor (b : BundleFacts) (remove : list RemoveEntry) (retain : list RetainEntry) : Impact :=
  let rm s := bool_decide (s ∈ rm_Service <$> remove) in
  {| im_Consumers := bf_Consumers b; im_OwnerUserIDs := bf_Owners b;
     im_Removed := map (fun e => {| is_Service := rm_Service e; is_Basis := rm_Basis e |}) remove;
     im_Retained := map (fun e => {| is_Service := re_Service e; is_Basis := re_Basis e |}) retain;
     im_StatementRevisions := bg_StatementHash <$> List.filter (fun g => existsb rm (bg_Services g)) (bf_Grants b);
     im_Routes := List.filter (fun r => rm (rt_Service r)) (bf_Routes b); im_Restored := [] |}.
