(* ===== verification/Recover.v ===== *)
(** The classifier of internal/igagov/recover.go: a live read gives every fact of a
    plan an observed value, and the values place the plan before, in the middle of, after or
    outside its operation order; what to do with an operation whose outcome is
    unknown, and with an AWS answer. *)

From stdpp Require Import base list strings gmap sorting relations.
From Stdlib Require Import Ascii.
From S2P Require Import Prelude Slices Float64 Utf8 Json JsonCanon Marshal Sha256 PolicyDoc Catalog Text Routes Hashes Live Intent Plan.

#[local] Opaque CanonicalizeValue ContentHash writeCanonical.

(** * Vocabulary *)

Definition FactRole : string := "role_incarnation".
Definition FactRoleDefinition : string := "role_definition".
Definition FactRoleBoundary : string := "role_boundary".
Definition FactPolicyOwner : string := "policy_owner".
Definition FactPolicyUsers : string := "policy_users".
Definition FactBinding : string := "workload_binding".
Definition FactNewRole : string := "new_role".
Definition ValueNone : string := "none".
Definition ValueAbsent : string := "absent".
Definition ClassBefore : string := "before".
Definition ClassIntermediate : string := "intermediate".
Definition ClassAfter : string := "after".
Definition ClassConflict : string := "conflict".
Definition AtBefore : string := "before".
Definition AtAfter : string := "after".
Definition AtBoth : string := "both".
Definition AtNeither : string := "neither".
Definition ConflictRoleGone : string := "role_gone".
Definition ConflictRoleRecreated : string := "role_recreated".
Definition ConflictOwnedElsewhere : string := "artifact_owned_elsewhere".
Definition ConflictConsumersChanged : string := "artifact_consumers_changed".
Definition ConflictChangedOutside : string := "artifact_changed_outside_authsec".
Definition ConflictPlanChanged : string := "plan_changed".
Definition ConflictNotAPrefix : string := "not_a_prefix_of_op_order".
Definition ConflictRoleDefinition : string := "role_definition_changed".
Definition ConflictBindingUnexpected : string := "binding_unexpected".

(** * Facts *)

(* src: internal/igagov/recover.go:72-72 (Fact.Changes) *)
Definition Changes (f : Fact) : bool := negb (fa_Before f =? fa_After f)%string.

(* src: internal/igagov/recover.go:74-79 (factKey) *)
Definition factKey (kind subject : string) : string :=
  if is_empty subject then kind else kind +:+ ":" +:+ subject.

Definition mkFact (key kind subject before after : string) : Fact :=
  {| fa_Key := key; fa_Kind := kind; fa_Subject := subject; fa_Before := before; fa_After := after; fa_OnlyBefore := false |}.

(* src: internal/igagov/recover.go:81-83 (factRole) *)
Definition factRole (roleID : string) : Fact := mkFact FactRole FactRole "" roleID roleID.

(* src: internal/igagov/recover.go:85-87 (factBoundary) *)
Definition factBoundary (before after : string) : Fact := mkFact FactRoleBoundary FactRoleBoundary "" before after.

(* src: internal/igagov/recover.go:89-91 (factPolicyDoc) *)
Definition factPolicyDoc (arn before after : string) : Fact :=
  mkFact (factKey FactPolicyDocument arn) FactPolicyDocument arn before after.

(* src: internal/igagov/recover.go:93-95 (factPolicyOwner) *)
Definition factPolicyOwner (arn before after : string) : Fact :=
  mkFact (factKey FactPolicyOwner arn) FactPolicyOwner arn before after.

(* src: internal/igagov/recover.go:97-106 (usersValue) *)
Definition usersValue (set : list AttachedEntity) : string :=
  let st := state_Normalized {| as_RoleID := "x"; as_BoundaryARN := None; as_BoundaryDocumentHash := None;
                                as_AttachmentSet := set |} in
  match CanonicalizeValue (GSlice (map AttachedEntity_val (as_AttachmentSet st))) with
  | Ok c => c
  | Err _ => String "000" "invalid"
  end.

(* src: internal/igagov/recover.go:108-110 (factPolicyUsers) *)
Definition factPolicyUsers (arn : string) (before after : list AttachedEntity) : Fact :=
  mkFact (factKey FactPolicyUsers arn) FactPolicyUsers arn (usersValue before) (usersValue after).

(* src: internal/igagov/recover.go:112-114 (sortFacts) *)
Definition sortFacts (fs : list Fact) : list Fact := sort_slice (less_by (fun f => [fa_Key f])) fs.

(** * Observation *)

(** [roleID]: the before value of the last role fact. *)
Definition fact_roleID (facts : list Fact) : string :=
  default "" (fa_Before <$> last (List.filter (fun f => (fa_Kind f =? FactRole)%string) facts)).

(* src: internal/igagov/recover.go:145-214 (ObserveFacts, part) *)
Definition observe_fact (roleID : string) (live : LiveRead) (f : Fact) : result string :=
  let kind k := (fa_Kind f =? k)%string in
  if kind FactRole then Ok (match Role live with Some r => lr_RoleID r | None => ValueAbsent end)
  else if kind FactRoleDefinition then
    match Role live with Some r => roleDefinitionHash r | None => Ok ValueAbsent end
  else if kind FactRoleBoundary then
    Ok (match Role live with
        | Some r => if is_empty (lr_BoundaryARN r) then ValueNone else lr_BoundaryARN r
        | None => ValueAbsent
        end)
  else if kind FactPolicyDocument || kind FactPolicyOwner || kind FactPolicyUsers then
    match Policies live !! fa_Subject f with
    | None => compileErr ErrCodeLiveIncomplete ["policy " +:+ fa_Subject f +:+ " was not read"]
    | Some None => Ok (if kind FactPolicyUsers then usersValue [] else ValueAbsent)
    | Some (Some p) =>
        if kind FactPolicyDocument then policy_DocumentHash p
        else if kind FactPolicyOwner then Ok (ownerValue (lp_Tags p))
        else Ok (usersValue (otherUsers (lp_AttachmentSet p) roleID))
    end
  else if kind FactBinding then
    match Bindings live !! fa_Subject f with
    | None => compileErr ErrCodeLiveIncomplete ["binding of " +:+ fa_Subject f +:+ " was not read"]
    | Some b => Ok b
    end
  else if kind FactNewRole then
    match Roles live !! fa_Subject f with
    | None => compileErr ErrCodeLiveIncomplete ["role " +:+ fa_Subject f +:+ " was not read"]
    | Some None => Ok ValueAbsent
    | Some (Some r) => dedicatedRoleHash r
    end
  else Err (ErrOther ("igagov: unknown fact kind " +:+ Quote (fa_Kind f))).

Fixpoint observe_all (roleID : string) (live : LiveRead) (out : gmap string string) (facts : list Fact)
    : result (gmap string string) :=
  match facts with
  | [] => Ok out
  | f :: facts => v ← observe_fact roleID live f; observe_all roleID live (<[fa_Key f := v]> out) facts
  end.

(* src: internal/igagov/recover.go:137-216 (ObserveFacts) *)
Definition ObserveFacts (facts : list Fact) (live : LiveRead) : result (gmap string string) :=
  observe_all (fact_roleID facts) live ∅ facts.

(** * Classification *)

(** The embedded fact, and what the read showed. *)
(* src: internal/igagov/recover.go:254-258 (FactResult) *)
Record FactResult := { fx_Fact : Fact; fx_Observed : string; fx_At : string }.

(* src: internal/igagov/recover.go:261-276 (Classification) *)
Record Classification := {
  cl_Class : string;
  cl_NextOp : Z;
  cl_Visible : Z;
  cl_Total : Z;
  cl_Facts : list FactResult;
  cl_Conflicts : list FactResult;
  cl_Reason : string
}.

(* src: internal/igagov/recover.go:279-298 (opEffects) *)
Definition opEffects (op : Op) : list string :=
  let op_is o := (op_Op op =? o)%string in
  if op_is OpCreatePolicy || op_is OpDeletePolicy then
    [factKey FactPolicyDocument (op_PolicyARN op); factKey FactPolicyOwner (op_PolicyARN op)]
  else if op_is OpCreatePolicyVersion then [factKey FactPolicyDocument (op_PolicyARN op)]
  else if op_is OpPutRolePermissionsBoundary || op_is OpDeleteRolePermissionsBoundary then
    if is_empty (op_RoleARN op) then [FactRoleBoundary] else []
  else if op_is OpCreateRole || op_is OpDeleteRole then [factKey FactNewRole (op_RoleARN op)]
  else if op_is OpBindSubject then [factKey FactBinding (op_SubjectARN op)]
  else [].

(* src: internal/igagov/recover.go:305-305 (OpObservable) *)
Definition OpObservable (op : Op) : bool := match opEffects op with [] => false | _ => true end.

Fixpoint prefix_states_from (cur : gset string) (ops : list Op) : list (gset string) :=
  match ops with
  | [] => [cur]
  | op :: ops => cur :: prefix_states_from (cur ∪ list_to_set (opEffects op)) ops
  end.

(* src: internal/igagov/recover.go:309-325 (prefixStates) *)
Definition prefixStates (ops : list Op) : list (gset string) := prefix_states_from ∅ ops.

(* src: internal/igagov/recover.go:347-356 (classifyObserved, part) *)
Definition position (f : Fact) (v : string) : string :=
  if (v =? fa_Before f)%string && (v =? fa_After f)%string then AtBoth
  else if (v =? fa_Before f)%string then AtBefore
  else if (v =? fa_After f)%string then AtAfter
  else AtNeither.

Definition fact_result (obs : gmap string string) (f : Fact) : FactResult :=
  let v := default "" (obs !! fa_Key f) in
  {| fx_Fact := f; fx_Observed := v; fx_At := position f v |}.

(** [at]: the position of a key; the last fact of the key wins. *)
Definition at_map (rs : list FactResult) : gmap string string :=
  foldl (fun m r => <[fa_Key (fx_Fact r) := fx_At r]> m) ∅ rs.

(** The fact values of a set of moved keys. *)
(* src: internal/igagov/recover.go:407-420 (classifyObserved, part) *)
Definition match_state (facts : list Fact) (at_ : gmap string string) (st : gset string) : bool :=
  forallb (fun f => fa_OnlyBefore f || negb (Changes f) ||
                    (default "" (at_ !! fa_Key f) =? (if bool_decide (fa_Key f ∈ st) then AtAfter else AtBefore))%string) facts.

Definition first_of_kind (k : string) (cs : list FactResult) : option FactResult :=
  List.find (fun r => (fa_Kind (fx_Fact r) =? k)%string) cs.

(* src: internal/igagov/recover.go:432-459 (conflictReason) *)
Definition conflictReason (p : Plan) (cs : list FactResult) : string :=
  match first_of_kind FactRole cs with
  | Some r => if (fx_Observed r =? ValueAbsent)%string then ConflictRoleGone else ConflictRoleRecreated
  | None =>
      if match first_of_kind FactPolicyOwner cs with
         | Some r => HasPrefix (fx_Observed r) "authsec:"
         | None => false
         end then ConflictOwnedElsewhere
      else if match first_of_kind FactPolicyUsers cs with Some _ => true | None => false end then ConflictConsumersChanged
      else if match first_of_kind FactBinding cs with Some _ => true | None => false end then ConflictBindingUnexpected
      else if (pl_Kind p =? PlanUndo)%string || (pl_Kind p =? PlanRemoveControl)%string ||
              (pl_Kind p =? PlanSplitRevert)%string then ConflictChangedOutside
      else ConflictPlanChanged
  end.

Definition at_is (a : string) (r : FactResult) : bool := (fx_At r =? a)%string.

(** The index of the first prefix state that matches. *)
(* src: internal/igagov/recover.go:405-425 (classifyObserved, part) *)
Fixpoint first_match (facts : list Fact) (at_ : gmap string string) (k : Z) (sts : list (gset string)) : option Z :=
  match sts with
  | [] => None
  | st :: sts => if match_state facts at_ st then Some k else first_match facts at_ (k + 1) sts
  end.

(* src: internal/igagov/recover.go:340-430 (classifyObserved) *)
Definition classifyObserved (p : Plan) (facts : list Fact) (obs : gmap string string) : Classification :=
  let rs := map (fact_result obs) facts in
  let compared := List.filter (fun r => negb (fa_OnlyBefore (fx_Fact r))) rs in
  let changing := List.filter (fun r => Changes (fx_Fact r)) compared in
  let conflicts := List.filter (at_is AtNeither) compared in
  let defMismatch := last (List.filter (fun r => fa_OnlyBefore (fx_Fact r) && negb (at_is AtBoth r)) rs) in
  let anyBefore := existsb (at_is AtBefore) compared in
  let anyAfter := existsb (at_is AtAfter) compared in
  let out class next conflicts reason :=
    {| cl_Class := class; cl_NextOp := next; cl_Visible := Z.of_nat (length (List.filter (at_is AtAfter) changing));
       cl_Total := Z.of_nat (length changing); cl_Facts := rs; cl_Conflicts := conflicts; cl_Reason := reason |} in
  let reachable class :=
    if negb (pl_Delivery p =? DeliveryDirect)%string then out class (-1) [] ""
    else match first_match facts (at_map rs) 0 (prefixStates (pl_Ops p)) with
         | Some k => out class k [] ""
         | None => out ClassConflict (-1) [] ConflictNotAPrefix
         end in
  match conflicts with
  | _ :: _ => out ClassConflict (-1) conflicts (conflictReason p conflicts)
  | [] =>
      if anyBefore && negb anyAfter then
        match defMismatch with
        | Some r => out ClassConflict (-1) [r] ConflictRoleDefinition
        | None => reachable ClassBefore
        end
      else if anyBefore && anyAfter then reachable ClassIntermediate
      else reachable ClassAfter
  end.

(* src: internal/igagov/recover.go:328-338 (Classify) *)
Definition Classify (p : Plan) (live : LiveRead) : result Classification :=
  match pl_Facts p with
  | [] => Err (ErrOther "igagov: plan has no facts to classify")
  | facts => obs ← ObserveFacts facts live; Ok (classifyObserved p facts obs)
  end.

(** * One operation *)

Definition ResolvedApplied : string := "applied".
Definition ResolvedNotApplied : string := "not_applied".
Definition ResolvedUnobservable : string := "unobservable_idempotent".
Definition ResolvedConflict : string := "conflict".

(* src: internal/igagov/recover.go:482-485 (OpResolution) *)
Record OpResolution := { or_Resolution : string; or_Classification : Classification }.

(** The positions of the classified facts, one by one. *)
(* src: internal/igagov/recover.go:516-530 (ResolveUnknownOp, part) *)
Definition match_results (rs : list FactResult) (st : gset string) : bool :=
  forallb (fun r => fa_OnlyBefore (fx_Fact r) || negb (Changes (fx_Fact r)) ||
                    (fx_At r =? (if bool_decide (fa_Key (fx_Fact r) ∈ st) then AtAfter else AtBefore))%string) rs.

(* src: internal/igagov/recover.go:494-541 (ResolveUnknownOp) *)
Definition ResolveUnknownOp (p : Plan) (opIndex : Z) (live : LiveRead) : result OpResolution :=
  if negb (pl_Delivery p =? DeliveryDirect)%string then
    Err (ErrOther "igagov: only direct plans have AuthSec ops to resolve")
  else if (opIndex <? 0) || (Z.of_nat (length (pl_Ops p)) <=? opIndex) then
    Err (ErrOther ("igagov: op " +:+ Itoa opIndex +:+ " is not in the plan"))
  else
    cl ← Classify p live;
    let res r := Ok {| or_Resolution := r; or_Classification := cl |} in
    if (cl_Class cl =? ClassConflict)%string then res ResolvedConflict
    else
      let i := Z.to_nat opIndex in
      match pl_Ops p !! i, prefixStates (pl_Ops p) !! i, prefixStates (pl_Ops p) !! S i with
      | Some op, Some before, Some after =>
          if negb (OpObservable op) then res ResolvedUnobservable
          else if match_results (cl_Facts cl) after then res ResolvedApplied
          else if match_results (cl_Facts cl) before then res ResolvedNotApplied
          else res ResolvedConflict
      | _, _, _ => Err (ErrOther "index out of range")
      end.

(** * AWS answers *)

Definition OutcomeOK : string := "ok".
Definition OutcomeRetryable : string := "retryable".
Definition OutcomeTerminal : string := "terminal".
Definition OutcomeRecognisedDone : string := "recognised_done".
Definition OutcomeNotNeeded : string := "not_needed".
Definition OutcomeUnknown : string := "unknown".

(* src: internal/igagov/recover.go:554-557 (OpOutcome) *)
Record OpOutcome := { oo_Outcome : string; oo_Reason : string }.

(* src: internal/igagov/recover.go:560-560 (ResponseKind) *)
Inductive ResponseKind := RespOK | RespError | RespNoAnswer.

(* src: internal/igagov/recover.go:692-698 (IsIAMThrottle) *)
Definition IsIAMThrottle (errorCode : string) : bool :=
  bool_decide (errorCode ∈ ["Throttling"; "ThrottlingException"; "RequestLimitExceeded"; "TooManyRequestsException"]).

Definition terminal (why : string) : OpOutcome := {| oo_Outcome := OutcomeTerminal; oo_Reason := why |}.
Definition outcome (o : string) : OpOutcome := {| oo_Outcome := o; oo_Reason := "" |}.

(** What the operation's own error codes and the read say, if anything. *)
(* src: internal/igagov/recover.go:596-664 (ClassifyOpResponse, part) *)
Definition recognise (p : Plan) (op : Op) (code : string) (live : LiveRead) : option OpOutcome :=
  let op_is o := (op_Op op =? o)%string in
  let code_is c := (code =? c)%string in
  let pol := Policies live !! op_PolicyARN op in
  let hash_is pp := match policy_DocumentHash pp with Ok h => (h =? op_DocumentHash op)%string | Err _ => false end in
  if op_is OpCreatePolicy then
    if code_is "EntityAlreadyExists" then
      match pol with
      | Some (Some pp) =>
          if (tag (lp_Tags pp) TagManagedBy =? TagManagedByValue)%string && negb (is_empty (tag (op_Tags op) TagWorkspace)) &&
             negb (tag (lp_Tags pp) TagWorkspace =? tag (op_Tags op) TagWorkspace)%string
          then Some (terminal ConflictOwnedElsewhere)
          else if (tag (lp_Tags pp) TagControl =? tag (op_Tags op) TagControl)%string && hash_is pp
          then Some (outcome OutcomeRecognisedDone)
          else Some (terminal "blocked: exists with another document or control")
      | _ => Some (terminal "exists_but_unreadable")
      end
    else None
  else if op_is OpCreatePolicyVersion then
    if match pol with Some (Some pp) => hash_is pp | _ => false end then Some (outcome OutcomeNotNeeded)
    else if code_is "LimitExceeded" then Some (terminal "version_limit_after_prune") else None
  else if op_is OpDeletePolicyVersion then
    if code_is "NoSuchEntity" then Some (outcome OutcomeRecognisedDone)
    else if code_is "DeleteConflict" then Some (terminal "blocked: version is the default") else None
  else if op_is OpTagPolicy then
    if code_is "NoSuchEntity" then Some (terminal "blocked: policy gone") else None
  else if op_is OpPutRolePermissionsBoundary then
    if match Role live with Some r => (lr_BoundaryARN r =? op_PolicyARN op)%string | None => false end
    then Some (outcome OutcomeRecognisedDone)
    else if code_is "AccessDenied" || code_is "AccessDeniedException" then Some (terminal "binding_partial")
    else if code_is "NoSuchEntity" then Some (terminal ConflictRoleGone) else None
  else if op_is OpDeleteRolePermissionsBoundary then
    match Role live with
    | Some r =>
        if is_empty (lr_BoundaryARN r) then Some (outcome OutcomeRecognisedDone)
        else if existsb (fun f => (fa_Kind f =? FactRoleBoundary)%string && negb (lr_BoundaryARN r =? fa_Before f)%string) (pl_Facts p)
        then Some (terminal "blocked: another boundary is attached") else None
    | None => None
    end
  else if op_is OpDeletePolicy then
    if code_is "NoSuchEntity" then Some (outcome OutcomeRecognisedDone)
    else if code_is "DeleteConflict" then Some (terminal "attached_elsewhere") else None
  else None.

(* src: internal/igagov/recover.go:578-676 (ClassifyOpResponse) *)
Definition ClassifyOpResponse (p : Plan) (opIndex : Z) (kind : ResponseKind) (errorCode : string) (live : LiveRead) : OpOutcome :=
  match (if opIndex <? 0 then None else pl_Ops p !! Z.to_nat opIndex) with
  | None => terminal "op_not_in_plan"
  | Some op =>
      match kind with
      | RespOK => outcome OutcomeOK
      | RespNoAnswer => {| oo_Outcome := OutcomeUnknown; oo_Reason := "no_answer_not_retried" |}
      | RespError =>
          if IsIAMThrottle errorCode then {| oo_Outcome := OutcomeRetryable; oo_Reason := "throttled" |}
          else if bool_decide (errorCode ∈ ["ServiceFailure"; "InternalFailure"; "ServiceUnavailable"])
          then {| oo_Outcome := OutcomeUnknown; oo_Reason := "service_failure_not_retried" |}
          else match recognise p op errorCode live with
               | Some o => o
               | None => if (errorCode =? "LimitExceeded")%string then terminal "quota_exceeded" else terminal errorCode
               end
      end
  end.
