(* ===== verification/Resume.v ===== *)
(** What the classifier of Recover guarantees to an executor that stops anywhere
    and resumes at the operation it names. *)

From stdpp Require Import base list strings gmap sorting relations.
From S2P Require Import Prelude Slices Json Marshal Hashes Live Intent Plan Recover.

(** * States of a plan *)

(** The keys moved by the first [k] operations. *)
Definition moved (ops : list Op) (k : nat) : gset string := list_to_set (flat_map opEffects (take k ops)).

(** The value of a fact once the keys of [st] are moved. *)
Definition value_in (st : gset string) (f : Fact) : string := if bool_decide (fa_Key f ∈ st) then fa_After f else fa_Before f.

(** The observation shows exactly the state [st]. *)
Definition shows (facts : list Fact) (obs : gmap string string) (st : gset string) : Prop :=
  forall f, f ∈ facts -> obs !! fa_Key f = Some (value_in st f).

(** An operation moves the facts of its effects to their after value. *)
Definition run_op (facts : list Fact) (op : Op) (obs : gmap string string) : gmap string string :=
  foldl (fun o f => if bool_decide (fa_Key f ∈ opEffects op) then <[fa_Key f := fa_After f]> o else o) obs facts.

(** Facts with their own keys; those that only tell [before] apart never change. *)
Definition facts_ok (facts : list Fact) : Prop :=
  NoDup (fa_Key <$> facts) /\ forall f, f ∈ facts -> fa_OnlyBefore f = true -> Changes f = false.

Lemma prefix_states_lookup cur ops k :
  (k <= length ops)%nat -> prefix_states_from cur ops !! k = Some (cur ∪ moved ops k).
Proof.
  revert cur k. induction ops as [|op ops IH]; intros cur k Hk.
  - assert (k = 0%nat) as -> by (cbn in Hk; lia). unfold moved. cbn. f_equal. set_solver.
  - destruct k as [|k]; [unfold moved; cbn; f_equal; set_solver|]. cbn [prefix_states_from lookup list_lookup].
    cbn in Hk. rewrite IH by lia. unfold moved. cbn. f_equal. rewrite list_to_set_app_L. set_solver.
Qed.

Lemma prefixStates_lookup ops k : (k <= length ops)%nat -> prefixStates ops !! k = Some (moved ops k).
Proof. intros Hk. unfold prefixStates. rewrite prefix_states_lookup by done. f_equal. set_solver. Qed.

Lemma prefixStates_length ops : length (prefixStates ops) = S (length ops).
Proof. unfold prefixStates. generalize (∅ : gset string). induction ops as [|op ops IH]; intros cur; cbn; [done|]. by rewrite IH. Qed.

Lemma moved_S ops k op : ops !! k = Some op -> moved ops (S k) = moved ops k ∪ list_to_set (opEffects op).
Proof.
  intros Hop. unfold moved. rewrite (take_S_r _ _ _ Hop), flat_map_app, list_to_set_app_L. cbn. by rewrite app_nil_r.
Qed.

Lemma Changes_spec f : Changes f = true <-> fa_Before f <> fa_After f.
Proof. unfold Changes. rewrite negb_true_iff. apply String.eqb_neq. Qed.

(** ** Running operations *)

Lemma run_op_other facts op obs k :
  k ∉ fa_Key <$> facts -> run_op facts op obs !! k = obs !! k.
Proof.
  unfold run_op. revert obs. induction facts as [|f facts IH]; intros obs Hk; [done|]. cbn.
  rewrite fmap_cons in Hk. apply not_elem_of_cons in Hk as [Hne Hk]. rewrite IH by done.
  case_bool_decide; [|done]. by rewrite lookup_insert_ne.
Qed.

Lemma run_op_shows facts op obs st :
  NoDup (fa_Key <$> facts) -> shows facts obs st -> shows facts (run_op facts op obs) (st ∪ list_to_set (opEffects op)).
Proof.
  revert obs. induction facts as [|f facts IH]; intros obs Hnd Hs; [by intros g []%not_elem_of_nil|].
  rewrite fmap_cons in Hnd. apply NoDup_cons in Hnd as [Hf Hnd].
  assert (shows facts (if bool_decide (fa_Key f ∈ opEffects op) then <[fa_Key f := fa_After f]> obs else obs) st) as Hs'.
  { intros g Hg. assert (fa_Key f <> fa_Key g) by (intros E; apply Hf; rewrite E; apply list_elem_of_fmap; eauto).
    case_bool_decide; [rewrite lookup_insert_ne by done|]; apply Hs; by right. }
  specialize (IH _ Hnd Hs'). intros g [->|Hg]%elem_of_cons; [|by apply IH].
  unfold run_op. cbn [foldl]. fold (run_op facts op (if bool_decide (fa_Key f ∈ opEffects op) then <[fa_Key f := fa_After f]> obs else obs)).
  rewrite run_op_other by done. unfold value_in. case_bool_decide as He.
  - rewrite lookup_insert_eq, bool_decide_eq_true_2; [done|]. set_solver.
  - rewrite Hs by left. unfold value_in. f_equal. case_bool_decide as H1; case_bool_decide as H2; done || set_solver.
Qed.

(** ** Classifying a state *)

Lemma fact_result_at facts obs st f :
  shows facts obs st -> f ∈ facts ->
  fx_At (fact_result obs f) = (if Changes f then if bool_decide (fa_Key f ∈ st) then AtAfter else AtBefore else AtBoth).
Proof.
  intros Hs Hf. unfold fact_result. cbn. rewrite (Hs f Hf). cbn. unfold position, value_in, Changes.
  destruct (String.eqb_spec (fa_Before f) (fa_After f)) as [E|E]; cbn [negb].
  - rewrite E. case_bool_decide; by rewrite String.eqb_refl.
  - case_bool_decide.
    + rewrite (proj2 (String.eqb_neq (fa_After f) (fa_Before f))) by congruence. cbn. by rewrite String.eqb_refl.
    + rewrite String.eqb_refl, (proj2 (String.eqb_neq _ _) E). done.
Qed.

Lemma at_fold_other obs facts (m : gmap string string) k :
  k ∉ fa_Key <$> facts ->
  foldl (fun m r => <[fa_Key (fx_Fact r) := fx_At r]> m) m (map (fact_result obs) facts) !! k = m !! k.
Proof.
  revert m. induction facts as [|g facts IH]; intros m Hk; [done|]. rewrite fmap_cons in Hk.
  apply not_elem_of_cons in Hk as [Hne Hk]. cbn [map foldl]. rewrite IH by done. by apply lookup_insert_ne.
Qed.

Lemma at_map_lookup obs facts f :
  NoDup (fa_Key <$> facts) -> f ∈ facts ->
  at_map (map (fact_result obs) facts) !! fa_Key f = Some (fx_At (fact_result obs f)).
Proof.
  unfold at_map. generalize (∅ : gmap string string) as m.
  induction facts as [|g facts IH]; intros m Hnd Hf; [by apply not_elem_of_nil in Hf|].
  rewrite fmap_cons in Hnd. apply NoDup_cons in Hnd as [Hg Hnd]. cbn [map foldl].
  apply elem_of_cons in Hf as [->|Hf]; [|by apply IH]. rewrite at_fold_other by done. by rewrite lookup_insert_eq.
Qed.

(** Which states an observation matches. *)
Lemma match_state_spec facts obs st :
  NoDup (fa_Key <$> facts) ->
  match_state facts (at_map (map (fact_result obs) facts)) st = true <->
  forall f, f ∈ facts -> fa_OnlyBefore f = false -> Changes f = true ->
    fx_At (fact_result obs f) = (if bool_decide (fa_Key f ∈ st) then AtAfter else AtBefore).
Proof.
  intros Hnd. unfold match_state. rewrite forallb_forall. setoid_rewrite <- list_elem_of_In. split.
  - intros H f Hf Ho Hc. specialize (H f Hf). rewrite Ho, Hc in H. cbn [negb orb] in H. bool_prop.
    by rewrite at_map_lookup in H.
  - intros H f Hf. rewrite at_map_lookup by done. cbn [default from_option]. destruct (fa_OnlyBefore f) eqn:Ho; [done|].
    destruct (Changes f) eqn:Hc; [|done]. cbn [negb orb]. apply String.eqb_eq. by apply H.
Qed.

Lemma first_match_spec facts at_ z sts :
  match first_match facts at_ z sts with
  | Some k => exists i st, k = z + Z.of_nat i /\ sts !! i = Some st /\ match_state facts at_ st = true /\
                forall j st', sts !! j = Some st' -> match_state facts at_ st' = true -> (i <= j)%nat
  | None => forall j st', sts !! j = Some st' -> match_state facts at_ st' = false
  end.
Proof.
  revert z. induction sts as [|st sts IH]; intros z; cbn; [by intros []|].
  destruct (match_state facts at_ st) eqn:E.
  - exists 0%nat, st. split_and!; [lia|done|done|]. lia.
  - specialize (IH (z + 1)). destruct (first_match facts at_ (z + 1) sts) as [k|].
    + destruct IH as (i & st' & -> & Hi & Hm & Hmin). exists (S i), st'. split_and!; [lia|done|done|].
      intros [|j] st2 Hj Hm2; cbn in Hj; [simplify_eq; congruence|]. specialize (Hmin j st2 Hj Hm2). lia.
    + intros [|j] st' Hj; cbn in Hj; [by simplify_eq|by eapply IH].
Qed.

Lemma position_neither f v : position f v <> AtNeither -> v = fa_Before f \/ v = fa_After f.
Proof.
  unfold position. destruct (String.eqb_spec v (fa_Before f)) as [->|]; [by left|].
  destruct (String.eqb_spec v (fa_After f)) as [->|]; [by right|done].
Qed.

Lemma position_inv f v st :
  Changes f = true -> position f v = (if bool_decide (fa_Key f ∈ st) then AtAfter else AtBefore) -> v = value_in st f.
Proof.
  intros Hc%Changes_spec. unfold position, value_in.
  destruct (String.eqb_spec v (fa_Before f)), (String.eqb_spec v (fa_After f)); case_bool_decide; cbn; done || congruence.
Qed.

(** A classification of a direct plan that is no conflict comes from a prefix. *)
Lemma classify_prefix p facts obs :
  pl_Delivery p = DeliveryDirect -> NoDup (fa_Key <$> facts) ->
  cl_Class (classifyObserved p facts obs) <> ClassConflict ->
  exists k, (k <= length (pl_Ops p))%nat /\ cl_NextOp (classifyObserved p facts obs) = Z.of_nat k /\
    (forall f, f ∈ facts -> fa_OnlyBefore f = false -> default "" (obs !! fa_Key f) = value_in (moved (pl_Ops p) k) f).
Proof.
  intros Hd Hnd. unfold classifyObserved. rewrite Hd, String.eqb_refl. cbn [negb].
  set (rs := map (fact_result obs) facts). set (cs := List.filter (fun r => negb (fa_OnlyBefore (fx_Fact r))) rs).
  destruct (List.filter (at_is AtNeither) cs) as [|r l] eqn:Ec; [|done].
  assert (forall st, match_state facts (at_map rs) st = true -> forall f, f ∈ facts -> fa_OnlyBefore f = false ->
            default "" (obs !! fa_Key f) = value_in st f) as Hval.
  { intros st Hm f Hf Ho. unfold rs in Hm. rewrite match_state_spec in Hm by done.
    destruct (Changes f) eqn:Hc; [apply position_inv; [done|by apply Hm]|].
    assert (at_is AtNeither (fact_result obs f) = false) as Hn.
    { eapply filter_nil_false; [exact Ec|]. apply elem_of_filter_b. cbn. rewrite Ho. split; [|done].
      apply list_elem_of_In, in_map, list_elem_of_In, Hf. }
    unfold at_is in Hn. bool_prop. cbn in Hn. apply position_neither in Hn. unfold Changes in Hc. bool_prop.
    unfold value_in. case_bool_decide; naive_solver congruence. }
  pose proof (first_match_spec facts (at_map rs) 0 (prefixStates (pl_Ops p))) as Hfm.
  destruct (first_match facts (at_map rs) 0 (prefixStates (pl_Ops p))) as [k|].
  - destruct Hfm as (i & st & -> & Hi & Hm & _). intros Hcl. exists i.
    pose proof (lookup_lt_Some _ _ _ Hi) as Hlt. rewrite prefixStates_length in Hlt.
    rewrite prefixStates_lookup in Hi by lia. injection Hi as <-. split; [lia|]. split; [|by apply Hval].
    revert Hcl. repeat case_match; done.
  - intros Hcl. exfalso. revert Hcl. repeat case_match; done.
Qed.

(** The class of a state: nothing moved, some of it, or all of it. *)
Definition class_of (facts : list Fact) (st : gset string) : string :=
  let changing := List.filter Changes facts in
  if forallb (fun f => bool_decide (fa_Key f ∈ st)) changing then ClassAfter
  else if existsb (fun f => bool_decide (fa_Key f ∈ st)) changing then ClassIntermediate
  else ClassBefore.

Lemma existsb_compared facts obs a :
  existsb (at_is a) (List.filter (fun r => negb (fa_OnlyBefore (fx_Fact r))) (map (fact_result obs) facts)) =
  existsb (fun f => negb (fa_OnlyBefore f) && (fx_At (fact_result obs f) =? a)%string) facts.
Proof.
  induction facts as [|f facts IH]; [done|]. cbn. destruct (fa_OnlyBefore f); cbn; rewrite IH; done.
Qed.

Lemma existsb_ext_in {A} (g h : A -> bool) l : (forall x, x ∈ l -> g x = h x) -> existsb g l = existsb h l.
Proof.
  induction l as [|x l IH]; intros H; [done|]. cbn. rewrite (H x) by left. f_equal. apply IH. intros. apply H. by right.
Qed.

Lemma existsb_filter {A} (g h : A -> bool) l : existsb g (List.filter h l) = existsb (fun x => h x && g x) l.
Proof. induction l as [|x l IH]; [done|]. cbn. destruct (h x); cbn; by rewrite IH. Qed.

Lemma forallb_existsb {A} (g : A -> bool) l : forallb g l = negb (existsb (fun x => negb (g x)) l).
Proof. induction l as [|x l IH]; [done|]. cbn. rewrite IH. by destruct (g x). Qed.

(** The first matching prefix of a state that a prefix shows is a state of it. *)
Lemma first_match_shows facts ops obs i :
  facts_ok facts -> (i <= length ops)%nat -> shows facts obs (moved ops i) ->
  exists k, (k <= i)%nat /\ shows facts obs (moved ops k) /\
    first_match facts (at_map (map (fact_result obs) facts)) 0 (prefixStates ops) = Some (Z.of_nat k).
Proof.
  intros [Hnd Hob] Hi Hs. set (at_ := at_map _).
  assert (match_state facts at_ (moved ops i) = true) as Hm.
  { apply match_state_spec; [done|]. intros f Hf Ho Hc. rewrite (fact_result_at facts obs (moved ops i)) by done. by rewrite Hc. }
  pose proof (first_match_spec facts at_ 0 (prefixStates ops)) as Hfm.
  destruct (first_match facts at_ 0 (prefixStates ops)) as [z|].
  2:{ specialize (Hfm i _ (prefixStates_lookup ops i Hi)). congruence. }
  destruct Hfm as (k & st & -> & Hk & Hmk & Hmin).
  pose proof (Hmin i _ (prefixStates_lookup ops i Hi) Hm) as Hki. rewrite prefixStates_lookup in Hk by lia.
  injection Hk as <-. exists k. split; [done|]. split; [|f_equal; lia]. intros f Hf. rewrite (Hs f Hf). f_equal.
  destruct (Changes f) eqn:Hc.
  - assert (fa_OnlyBefore f = false) as Ho.
    { destruct (fa_OnlyBefore f) eqn:Ho; [|done]. by rewrite (Hob f Hf Ho) in Hc. }
    unfold at_ in Hmk. rewrite match_state_spec in Hmk by done. specialize (Hmk f Hf Ho Hc).
    apply position_inv in Hmk; [|done]. rewrite <- Hmk. by rewrite (Hs f Hf).
  - unfold Changes in Hc. bool_prop. unfold value_in. by repeat case_bool_decide.
Qed.

(** An observation that shows a prefix is classified by it. *)
Lemma classify_shows p obs i :
  let facts := pl_Facts p in let ops := pl_Ops p in
  pl_Delivery p = DeliveryDirect -> facts_ok facts -> (i <= length ops)%nat -> shows facts obs (moved ops i) ->
  exists k, (k <= i)%nat /\ shows facts obs (moved ops k) /\ cl_NextOp (classifyObserved p facts obs) = Z.of_nat k /\
    cl_Class (classifyObserved p facts obs) = class_of facts (moved ops i).
Proof.
  intros facts ops Hd [Hnd Hob] Hi Hs. unfold classifyObserved. rewrite Hd, String.eqb_refl. cbn [negb].
  rewrite !existsb_compared. set (st := moved ops i) in *.
  assert (forall f, f ∈ facts -> fx_At (fact_result obs f) =
            (if Changes f then if bool_decide (fa_Key f ∈ st) then AtAfter else AtBefore else AtBoth)) as Hat.
  { intros f Hf. by apply fact_result_at with facts. }
  rewrite (filter_none (at_is AtNeither)).
  2:{ intros r [Hr _]%elem_of_filter_b. apply list_elem_of_In, in_map_iff in Hr as (f & <- & Hf%list_elem_of_In).
      unfold at_is. rewrite Hat by done. by destruct (Changes f), (bool_decide (fa_Key f ∈ st)). }
  rewrite (filter_none (fun r => fa_OnlyBefore (fx_Fact r) && negb (at_is AtBoth r))).
  2:{ intros r Hr. apply list_elem_of_In, in_map_iff in Hr as (f & <- & Hf%list_elem_of_In).
      change (fx_Fact (fact_result obs f)) with f. destruct (fa_OnlyBefore f) eqn:Ho; [|done]. unfold at_is. rewrite Hat by done. by rewrite (Hob f Hf Ho). }
  assert (existsb (fun f => negb (fa_OnlyBefore f) && (fx_At (fact_result obs f) =? AtBefore)%string) facts =
          existsb (fun f => Changes f && negb (bool_decide (fa_Key f ∈ st))) facts) as ->.
  { apply existsb_ext_in. intros f Hf. rewrite Hat by done.
    destruct (fa_OnlyBefore f) eqn:Ho; [by rewrite (Hob f Hf Ho)|]. by destruct (Changes f), (bool_decide (fa_Key f ∈ st)). }
  assert (existsb (fun f => negb (fa_OnlyBefore f) && (fx_At (fact_result obs f) =? AtAfter)%string) facts =
          existsb (fun f => Changes f && bool_decide (fa_Key f ∈ st)) facts) as ->.
  { apply existsb_ext_in. intros f Hf. rewrite Hat by done.
    destruct (fa_OnlyBefore f) eqn:Ho; [by rewrite (Hob f Hf Ho)|]. by destruct (Changes f), (bool_decide (fa_Key f ∈ st)). }
  assert (exists k, (k <= i)%nat /\ shows facts obs (moved ops k) /\
            first_match facts (at_map (map (fact_result obs) facts)) 0 (prefixStates (pl_Ops p)) = Some (Z.of_nat k))
    as (k & Hk & Hsk & ->).
  { by apply first_match_shows. }
  exists k. split; [done|]. split; [done|]. unfold class_of. rewrite forallb_existsb, !existsb_filter.
  by destruct (existsb (fun f => Changes f && negb (bool_decide (fa_Key f ∈ st))) facts),
           (existsb (fun f => Changes f && bool_decide (fa_Key f ∈ st)) facts).
Qed.

(** * Stopping and resuming *)

(** A direct plan with facts to classify. *)
Definition plan_ok (p : Plan) : Prop := pl_Delivery p = DeliveryDirect /\ facts_ok (pl_Facts p).

(** An executor runs the next operation, or has stopped anywhere (its record of what ran is lost) and
    resumes at the operation the classifier names. *)
Inductive exec (p : Plan) : gmap string string * nat -> gmap string string * nat -> Prop :=
  | exec_run obs i op : pl_Ops p !! i = Some op -> exec p (obs, i) (run_op (pl_Facts p) op obs, S i)
  | exec_resume obs i k :
      cl_Class (classifyObserved p (pl_Facts p) obs) <> ClassConflict ->
      cl_NextOp (classifyObserved p (pl_Facts p) obs) = Z.of_nat k -> exec p (obs, i) (obs, k).

(** The state an executor at operation [i] left behind. *)
Definition at_op (p : Plan) (x : gmap string string * nat) : Prop :=
  (x.2 <= length (pl_Ops p))%nat /\ shows (pl_Facts p) x.1 (moved (pl_Ops p) x.2).

Lemma exec_at_op p x y : plan_ok p -> exec p x y -> at_op p x -> at_op p y.
Proof.
  intros [Hd Hf] [obs i op Hop|obs i k Hc Hn] [Hi Hs]; cbn [fst snd] in *.
  - split; cbn [fst snd]; [by apply lookup_lt_Some in Hop|]. rewrite (moved_S _ _ op) by done. apply run_op_shows; [apply Hf|done].
  - destruct (classify_shows p obs i Hd Hf Hi Hs) as (k' & Hk & Hsk & Hn' & _). rewrite Hn in Hn'.
    apply Nat2Z.inj in Hn' as ->. split; cbn [fst snd]; [lia|done].
Qed.

Lemma exec_rtc p x y : plan_ok p -> rtc (exec p) x y -> at_op p x -> at_op p y.
Proof. intros Hp H. induction H as [|x y z Hs _ IH]; [done|]. intros Hx. apply IH. by eapply exec_at_op. Qed.

Lemma run_to_end p obs i :
  plan_ok p -> at_op p (obs, i) -> exists obs', rtc (exec p) (obs, i) (obs', length (pl_Ops p)).
Proof.
  intros Hp. remember (length (pl_Ops p) - i)%nat as n eqn:En. revert obs i En.
  induction n as [|n IH]; intros obs i En [Hi Hs]; cbn [fst snd] in *.
  - assert (i = length (pl_Ops p)) as -> by lia. by exists obs.
  - destruct (lookup_lt_is_Some_2 (pl_Ops p) i) as [op Hop]; [lia|].
    assert (exec p (obs, i) (run_op (pl_Facts p) op obs, S i)) as He by by constructor.
    destruct (IH (run_op (pl_Facts p) op obs) (S i)) as [obs' H]; [lia|by eapply exec_at_op|].
    exists obs'. by eapply rtc_l.
Qed.

(** Every fact read has a value. *)
Lemma observe_all_total roleID live facts out obs :
  observe_all roleID live out facts = Ok obs ->
  (forall k, is_Some (out !! k) -> is_Some (obs !! k)) /\ (forall f, f ∈ facts -> is_Some (obs !! fa_Key f)).
Proof.
  revert out. induction facts as [|g facts IH]; intros out; cbn [observe_all].
  { intros [= <-]. split; [done|]. by intros f []%not_elem_of_nil. }
  intros H. apply bind_Ok in H as (v & _ & H). destruct (IH _ H) as [H1 H2]. split.
  - intros k Hk. apply H1. destruct (decide (k = fa_Key g)) as [->|]; [by rewrite lookup_insert_eq|by rewrite lookup_insert_ne].
  - intros f [->|Hf]%elem_of_cons; [|by apply H2]. apply H1. by rewrite lookup_insert_eq.
Qed.

(** * Theorems *)

(** What a classification means: a direct plan that is not in conflict is exactly
    at a prefix of its operations; every compared fact has the value it has once the
    operations before [NextOp] ran, and no other. *)
Theorem classification_sound p live c :
  pl_Delivery p = DeliveryDirect -> NoDup (fa_Key <$> pl_Facts p) ->
  Classify p live = Ok c -> cl_Class c <> ClassConflict ->
  exists k obs, (k <= length (pl_Ops p))%nat /\ cl_NextOp c = Z.of_nat k /\ ObserveFacts (pl_Facts p) live = Ok obs /\
    (forall f, f ∈ pl_Facts p -> fa_OnlyBefore f = false -> obs !! fa_Key f = Some (value_in (moved (pl_Ops p) k) f)).
Proof.
  intros Hd Hnd Hc Hcl. unfold Classify in Hc. destruct (pl_Facts p) as [|f0 fs] eqn:Ef; [done|].
  apply bind_Ok in Hc as (obs & Ho & [= <-]). destruct (classify_prefix p (f0 :: fs) obs Hd Hnd Hcl) as (k & Hk & Hn & Hv).
  exists k, obs. split_and!; [done|done|done|]. intros f Hf Hob. specialize (Hv f Hf Hob).
  assert (is_Some (obs !! fa_Key f)) as [v E] by (eapply observe_all_total; [exact Ho|done]). rewrite E in *. cbn in Hv. by rewrite Hv.
Qed.

(** C2 An executor may stop anywhere and resume where the classifier says: however often it does,
    from the state the plan was compiled for, the observation is at every moment the one the
    operations before its position leave, the classifier never reports a conflict, its class
    is the class of that state, and it never sends the executor past the work that is done. *)
Theorem recovery_sound p obs0 obs i :
  plan_ok p -> shows (pl_Facts p) obs0 ∅ -> rtc (exec p) (obs0, 0%nat) (obs, i) ->
  shows (pl_Facts p) obs (moved (pl_Ops p) i) /\
  cl_Class (classifyObserved p (pl_Facts p) obs) = class_of (pl_Facts p) (moved (pl_Ops p) i) /\
  0 <= cl_NextOp (classifyObserved p (pl_Facts p) obs) <= Z.of_nat i /\ (i <= length (pl_Ops p))%nat.
Proof.
  intros Hp H0 Hr. apply (exec_rtc p _ _ Hp) in Hr as [Hi Hs]; [|split; cbn [fst snd]; [lia|exact H0]]. cbn [fst snd] in *.
  split; [done|]. destruct Hp as [Hd Hf]. destruct (classify_shows p obs i Hd Hf Hi Hs) as (k & Hk & _ & -> & ->). split_and!; done || lia.
Qed.

(** Recovery makes progress: from every state an interrupted execution can reach, the executor
    can run to the end, and when the operations move every changing fact the plan is
    then classified [after] with every fact at its after value. *)
Theorem recovery_completes p obs0 obs i :
  plan_ok p -> shows (pl_Facts p) obs0 ∅ ->
  (forall f, f ∈ pl_Facts p -> Changes f = true -> fa_Key f ∈ moved (pl_Ops p) (length (pl_Ops p))) ->
  rtc (exec p) (obs0, 0%nat) (obs, i) ->
  exists obs', rtc (exec p) (obs, i) (obs', length (pl_Ops p)) /\
    cl_Class (classifyObserved p (pl_Facts p) obs') = ClassAfter /\
    (forall f, f ∈ pl_Facts p -> obs' !! fa_Key f = Some (fa_After f)).
Proof.
  intros Hp H0 Hall Hr. apply (exec_rtc p _ _ Hp) in Hr as Hat; [|split; cbn [fst snd]; [lia|exact H0]].
  destruct (run_to_end p obs i Hp Hat) as [obs' He]. exists obs'. split; [done|].
  destruct (exec_rtc p _ _ Hp He Hat) as [Hi Hs]. cbn [fst snd] in *. destruct Hp as [Hd Hf].
  destruct (classify_shows p obs' _ Hd Hf Hi Hs) as (k & _ & _ & _ & ->). split.
  - unfold class_of. assert (forallb (fun f => bool_decide (fa_Key f ∈ moved (pl_Ops p) (length (pl_Ops p)))) (List.filter Changes (pl_Facts p)) = true) as ->; [|done].
    apply forallb_forall. intros f [Hin Hc]%List.filter_In. apply bool_decide_eq_true. apply Hall; [by apply list_elem_of_In|done].
  - intros f Hin. rewrite (Hs f Hin). f_equal. unfold value_in. case_bool_decide as Hn; [done|].
    destruct (Changes f) eqn:Hc; [by destruct Hn; apply Hall|]. unfold Changes in Hc. by bool_prop.
Qed.

Lemma match_results_spec facts obs st :
  match_results (map (fact_result obs) facts) st = true <->
  forall f, f ∈ facts -> fa_OnlyBefore f = false -> Changes f = true ->
    fx_At (fact_result obs f) = (if bool_decide (fa_Key f ∈ st) then AtAfter else AtBefore).
Proof.
  unfold match_results. rewrite forallb_forall. split.
  - intros H f Hf Ho Hc. specialize (H (fact_result obs f)). cbn [fx_Fact fact_result] in H. rewrite Ho, Hc in H.
    apply String.eqb_eq, H, in_map, list_elem_of_In, Hf.
  - intros H r (f & <- & Hf%list_elem_of_In)%in_map_iff. change (fx_Fact (fact_result obs f)) with f.
    destruct (fa_OnlyBefore f) eqn:Ho; [done|]. destruct (Changes f) eqn:Hc; [|done]. apply String.eqb_eq. by apply H.
Qed.

(** The compared facts that change have the values of the state. *)
Definition shows_changes (facts : list Fact) (obs : gmap string string) (st : gset string) : Prop :=
  forall f, f ∈ facts -> fa_OnlyBefore f = false -> Changes f = true -> default "" (obs !! fa_Key f) = value_in st f.

Lemma match_results_shows facts obs st : match_results (map (fact_result obs) facts) st = true <-> shows_changes facts obs st.
Proof.
  rewrite match_results_spec. unfold shows_changes. split; intros H f Hf Ho Hc.
  - apply position_inv; [done|]. by apply H.
  - cbn. rewrite (H f Hf Ho Hc). pose proof Hc as Hne%Changes_spec. unfold position, value_in. case_bool_decide.
    + rewrite (proj2 (String.eqb_neq _ _) (not_eq_sym Hne)). cbn. by rewrite String.eqb_refl.
    + rewrite String.eqb_refl, (proj2 (String.eqb_neq _ _) Hne). done.
Qed.

Lemma classify_facts p facts obs : cl_Facts (classifyObserved p facts obs) = map (fact_result obs) facts.
Proof. unfold classifyObserved. repeat case_match; done. Qed.

(** An operation whose outcome is unknown is resolved by what the read shows:
    [applied] only when the changing facts are as the operation leaves them, [not_applied] only when
    they are as before it and not as after it, [unobservable_idempotent] exactly when the
    operation moves no fact and the plan is not in conflict. *)
Theorem unknown_op_resolution p i live res :
  ResolveUnknownOp p i live = Ok res ->
  exists obs op, ObserveFacts (pl_Facts p) live = Ok obs /\ pl_Ops p !! Z.to_nat i = Some op /\ 0 <= i /\
    let before := moved (pl_Ops p) (Z.to_nat i) in let after := moved (pl_Ops p) (S (Z.to_nat i)) in
    (or_Resolution res = ResolvedApplied -> shows_changes (pl_Facts p) obs after) /\
    (or_Resolution res = ResolvedNotApplied ->
       shows_changes (pl_Facts p) obs before /\ ~ shows_changes (pl_Facts p) obs after) /\
    (or_Resolution res = ResolvedUnobservable <->
       opEffects op = [] /\ cl_Class (or_Classification res) <> ClassConflict).
Proof.
  unfold ResolveUnknownOp. destruct (negb _); [done|]. destruct (i <? 0) eqn:E1; [done|]. cbn [orb].
  destruct (Z.of_nat (length (pl_Ops p)) <=? i) eqn:E2; [done|]. bool_prop. intros H. apply bind_Ok in H as (cl & Hc & H).
  unfold Classify in Hc. destruct (pl_Facts p) as [|f0 fs] eqn:Ef; [done|]. rewrite <- Ef in *.
  assert (exists obs, ObserveFacts (pl_Facts p) live = Ok obs /\ cl = classifyObserved p (pl_Facts p) obs) as (obs & Ho & ->).
  { rewrite Ef in *. by apply bind_Ok in Hc as (obs & ? & [= <-]); exists obs. }
  destruct (lookup_lt_is_Some_2 (pl_Ops p) (Z.to_nat i)) as [op Hop]; [lia|]. exists obs, op.
  split; [done|]. split; [done|]. split; [done|]. cbn zeta.
  rewrite Hop, !prefixStates_lookup in H by lia. rewrite classify_facts in H. unfold OpObservable in H.
  rewrite <- !match_results_shows.
  destruct (String.eqb_spec (cl_Class (classifyObserved p (pl_Facts p) obs)) ClassConflict) as [Ecl|Ecl].
  { injection H as <-. cbn. split_and!; [done|done|]. split; [done|]. by intros [_ ?]. }
  destruct (opEffects op); cbn [negb] in H; [by injection H as <-|].
  destruct (match_results _ (moved (pl_Ops p) (S (Z.to_nat i)))); [injection H as <-; split_and!; [done|done|by split; [|intros [? _]]]|].
  destruct (match_results _ _); injection H as <-; split_and!; try done; by split; [|intros [? _]].
Qed.

(** Only an answer that proves the request was refused is retried: an outcome is retryable
    exactly when the operation is in the plan and AWS answered with a throttling error; a call
    without an answer, or with a server failure, is unknown and never retried; and a create that
    finds the policy already there counts as done only when the document and the control tag are
    the plan's own. *)
Theorem retry_only_when_refused p i kind code live :
  let o := ClassifyOpResponse p i kind code live in
  let planned op := 0 <= i /\ pl_Ops p !! Z.to_nat i = Some op in
  (oo_Outcome o = OutcomeRetryable <-> (exists op, planned op) /\ kind = RespError /\ IsIAMThrottle code = true) /\
  (oo_Outcome o = OutcomeUnknown <->
     (exists op, planned op) /\
     (kind = RespNoAnswer \/ kind = RespError /\ code ∈ ["ServiceFailure"; "InternalFailure"; "ServiceUnavailable"])) /\
  (forall op, planned op -> kind = RespError -> op_Op op = OpCreatePolicy -> oo_Outcome o = OutcomeRecognisedDone ->
     exists pp, Policies live !! op_PolicyARN op = Some (Some pp) /\ policy_DocumentHash pp = Ok (op_DocumentHash op) /\
       tag (lp_Tags pp) TagControl = tag (op_Tags op) TagControl).
Proof.
  cbn zeta. unfold ClassifyOpResponse.
  assert (forall op c, recognise p op c live = None \/
            exists o, recognise p op c live = Some o /\ oo_Outcome o ∈ [OutcomeTerminal; OutcomeRecognisedDone; OutcomeNotNeeded]) as Hrec.
  { intros op c. unfold recognise, terminal, outcome. repeat case_match; first [by left|right; eexists; split; [done|]; set_solver]. }
  destruct (i <? 0) eqn:Ei; bool_prop.
  { split_and!; [split; [done|intros ((op & ? & _) & _); lia]..|]. intros op [? _]. lia. }
  destruct (pl_Ops p !! Z.to_nat i) as [op|] eqn:Hop.
  2:{ split_and!; [split; [done|by intros ((op & _ & ?) & _)]..|]. by intros op [_ ?]. }
  assert (exists op', 0 <= i /\ Some op = Some op') as Hex by eauto.
  destruct kind; [by split_and!; [split; [done|intros (_ & ? & _); done]|split; [done|intros (_ & [?|[? _]]); done]|]| |].
  2:{ split_and!; [split; [done|by intros (_ & ? & _)]|split; [|done]; intros _; split; [done|by left]|done]. }
  destruct (IsIAMThrottle code) eqn:Eth.
  { split_and!; [done| |done]. split; [done|]. intros (_ & [?|[_ Hin]]); [done|]. exfalso. revert Eth.
    rewrite !elem_of_cons in Hin. destruct Hin as [->|[->|[->|[]%not_elem_of_nil]]]; vm_compute; discriminate. }
  case_bool_decide as Hsf.
  { split_and!; [split; [done|by intros (_ & _ & ?)]| |done]. split; [|done]. intros _. split; [done|by right]. }
  assert (forall o, oo_Outcome o ∈ [OutcomeTerminal; OutcomeRecognisedDone; OutcomeNotNeeded] ->
            oo_Outcome o <> OutcomeRetryable /\ oo_Outcome o <> OutcomeUnknown) as Hne.
  { intros o Ho. split; intros E; rewrite E in Ho; set_solver. }
  assert (~ (RespError = RespNoAnswer \/ RespError = RespError /\ code ∈ ["ServiceFailure"; "InternalFailure"; "ServiceUnavailable"])) as Hno
    by (intros [?|[_ ?]]; done).
  assert (oo_Outcome (match recognise p op code live with Some o => o
             | None => if (code =? "LimitExceeded")%string then terminal "quota_exceeded" else terminal code end)
            ∈ [OutcomeTerminal; OutcomeRecognisedDone; OutcomeNotNeeded]) as Hin.
  { destruct (Hrec op code) as [->|(o & -> & Ho)]; [|done]. destruct (_ =? _)%string; set_solver. }
  destruct (Hne _ Hin) as [H1 H2]. split_and!; [split; [tauto|by intros (_ & _ & ?)]|tauto|].
  intros op' [_ [= <-]] _ Hcp Hdone. destruct (recognise p op code live) as [o|] eqn:Er.
  - unfold recognise in Er. rewrite Hcp in Er. cbn [String.eqb] in Er.
    destruct (OpCreatePolicy =? OpCreatePolicy)%string eqn:Ecp; [|by rewrite String.eqb_refl in Ecp].
    destruct (code =? _)%string; [|done]. destruct (Policies live !! op_PolicyARN op) as [[pp|]|] eqn:Ep.
    + repeat match type of Er with context [if ?b then _ else _] => destruct b eqn:? end;
        injection Er as <-; try discriminate Hdone.
      destruct (policy_DocumentHash pp) as [h|] eqn:Eh; [|by rewrite andb_false_r in *]. bool_prop. subst h. by exists pp.
    + by injection Er as <-.
    + by injection Er as <-.
  - by destruct (code =? "LimitExceeded")%string.
Qed.

(** * A plan that creates a boundary and attaches it *)

Definition sample_op (op policy : string) : Op :=
  {| op_Op := op; op_RoleName := "r"; op_RoleARN := ""; op_PolicyARN := policy; op_PolicyName := ""; op_Path := "";
     op_DocumentHash := "h"; op_SetAsDefault := false; op_Tags := ∅; op_Select := ""; op_IfVersionsAtLeast := 0;
     op_SubjectARN := ""; op_TrustPolicyHash := ""; op_ResourceARN := ""; op_Principal := ""; op_InlineName := "";
     op_InstanceProfile := ""; op_OnlyIfUnused := false; op_Binding := ""; op_Steps := [] |}.

Definition sample_facts : list Fact :=
  [factRole "AROA1"; factPolicyDoc "arn:b" ValueAbsent "h"; factPolicyOwner "arn:b" ValueAbsent "authsec:ws:c";
   factBoundary ValueNone "arn:b"].

Definition sample_plan : Plan :=
  {| pl_ControlID := "c"; pl_Kind := PlanApply; pl_Delivery := DeliveryDirect; pl_Eligibility := EligibilityEligible;
     pl_IneligibleReason := ""; pl_Refusals := []; pl_Basis := BasisLiveRead; pl_BasisReadAt := 0; pl_Precondition := "";
     pl_PreconditionHash := ""; pl_BeforeDocumentHash := None; pl_DesiredAttachment := AttachmentPresent;
     pl_DesiredBoundaryARN := Some "arn:b"; pl_DesiredDocumentHash := Some "h"; pl_ReplacedBoundaryARN := None;
     pl_ArtifactDisposition := DispositionKeep; pl_BundleHash := ""; pl_EvidenceRev := 1;
     pl_ResourcePolicyScanRunID := None; pl_FirstAttachment := false; pl_Unanalysed := [];
     pl_Impact := {| im_Consumers := []; im_OwnerUserIDs := []; im_Removed := []; im_Retained := [];
                     im_StatementRevisions := []; im_Routes := []; im_Restored := [] |};
     pl_ImpactHash := "";
     pl_Ops := [sample_op OpCreatePolicy "arn:b"; sample_op OpTagPolicy "arn:b"; sample_op OpPutRolePermissionsBoundary "arn:b"];
     pl_Diff := {| df_Case := ""; df_BoundaryBefore := None; df_BoundaryAfter := None; df_NewlyExcluded := [];
                   df_AlreadyExcluded := []; df_NewlyUnexcluded := []; df_Narrowing := None; df_FirstAttachment := None;
                   df_Split := None; df_Notes := []; df_Facts := [] |};
     pl_PlanHash := ""; pl_MaterialHash := ""; pl_GapRefs := []; pl_Documents := []; pl_Facts := sample_facts |}.

Definition sample_live : LiveRead :=
  {| ReadAt := 0;
     Role := Some {| lr_RoleID := "AROA1"; lr_ARN := "arn:r"; lr_Name := "r"; lr_Path := "/"; lr_AccountID := "1";
                     lr_Partition := "aws"; lr_Tags := ∅; lr_Continuity := "immutable"; lr_BoundaryARN := "";
                     lr_ManagedPolicies := []; lr_InlinePolicies := []; lr_TrustPolicyHash := ""; lr_Documents := ∅ |};
     Policies := {["arn:b" := None]}; Roles := ∅; Bindings := ∅ |}.

Definition sample_before : gmap string string :=
  {["role_incarnation" := "AROA1"; "policy_document:arn:b" := ValueAbsent; "policy_owner:arn:b" := ValueAbsent;
    "role_boundary" := ValueNone]}.

Lemma sample_plan_ok : plan_ok sample_plan.
Proof.
  split; [done|]. split; [apply (bool_decide_eq_true_1 _); vm_compute; reflexivity|].
  intros f Hf. apply list_elem_of_In in Hf. cbn in Hf. destruct_or! Hf; subst; done.
Qed.

Lemma sample_shows : shows sample_facts sample_before ∅.
Proof. intros f Hf. apply list_elem_of_In in Hf. cbn in Hf. destruct_or! Hf; subst; vm_compute; done. Qed.

(** The executor creates and tags the policy, stops, and is sent back to the tagging. *)
Lemma sample_run :
  exists obs, rtc (exec sample_plan) (sample_before, 0%nat) (obs, 1%nat) /\ obs !! "policy_document:arn:b" = Some "h".
Proof.
  set (o1 := run_op sample_facts (sample_op OpCreatePolicy "arn:b") sample_before).
  set (o2 := run_op sample_facts (sample_op OpTagPolicy "arn:b") o1).
  exists o2. split; [|vm_compute; reflexivity].
  eapply rtc_l; [apply (exec_run sample_plan sample_before 0 (sample_op OpCreatePolicy "arn:b")); done|].
  eapply rtc_l; [apply (exec_run sample_plan o1 1 (sample_op OpTagPolicy "arn:b")); done|].
  apply rtc_once. apply (exec_resume sample_plan o2 2 1); vm_compute; [discriminate|reflexivity].
Qed.

Lemma recovery_sound_witness :
  exists obs, rtc (exec sample_plan) (sample_before, 0%nat) (obs, 1%nat) /\
    cl_Class (classifyObserved sample_plan sample_facts obs) = class_of sample_facts (moved (pl_Ops sample_plan) 1).
Proof.
  destruct sample_run as (obs & Hr & _). exists obs. split; [exact Hr|].
  apply (recovery_sound sample_plan sample_before obs 1 sample_plan_ok sample_shows Hr).
Defined.

Lemma recovery_completes_witness :
  exists obs obs', rtc (exec sample_plan) (sample_before, 0%nat) (obs, 1%nat) /\
    rtc (exec sample_plan) (obs, 1%nat) (obs', 3%nat) /\ cl_Class (classifyObserved sample_plan sample_facts obs') = ClassAfter.
Proof.
  destruct sample_run as (obs & Hr & _).
  destruct (recovery_completes sample_plan sample_before obs 1 sample_plan_ok sample_shows) as (obs' & He & Hc & _); [|exact Hr|].
  - intros f Hf. apply list_elem_of_In in Hf. cbn in Hf. destruct_or! Hf; subst; try done; intros _;
      apply (bool_decide_eq_true_1 _); vm_compute; reflexivity.
  - exists obs, obs'. split; [exact Hr|]. split; [exact He|exact Hc].
Defined.

Lemma classification_sound_witness :
  exists c, Classify sample_plan sample_live = Ok c /\
    exists k obs, (k <= 3)%nat /\ cl_NextOp c = Z.of_nat k /\ ObserveFacts sample_facts sample_live = Ok obs.
Proof.
  destruct (Classify sample_plan sample_live) as [c|] eqn:Hc; [|vm_compute in Hc; discriminate Hc].
  exists c. split; [reflexivity|]. destruct (classification_sound sample_plan sample_live c) as (k & obs & Hk & Hn & Ho & _);
    [reflexivity|apply sample_plan_ok|exact Hc|vm_compute in Hc; injection Hc as <-; discriminate|].
  exists k, obs. split; [exact Hk|]. split; [exact Hn|exact Ho].
Defined.

Lemma unknown_op_resolution_witness :
  exists res obs, ResolveUnknownOp sample_plan 0 sample_live = Ok res /\ or_Resolution res = ResolvedNotApplied /\
    shows_changes sample_facts obs (moved (pl_Ops sample_plan) 0).
Proof.
  destruct (ResolveUnknownOp sample_plan 0 sample_live) as [res|] eqn:Hr; [|vm_compute in Hr; discriminate Hr].
  destruct (unknown_op_resolution sample_plan 0 sample_live res Hr) as (obs & op & _ & _ & _ & _ & Hn & _).
  assert (or_Resolution res = ResolvedNotApplied) as E by (vm_compute in Hr; injection Hr as <-; reflexivity).
  exists res, obs. split; [reflexivity|]. split; [exact E|]. apply Hn, E.
Defined.
