(* ===== verification/Health.v ===== *)
(** The canary gates, the health dimensions and the observation rule
    (internal/igagov/health.go), with the rollout's reading of the gates
    (services/iga_gov_rollout_service.go).

    After a boundary is attached, CloudTrail events of the role's sessions,
    declared validations and owner reports decide five gates; the rollout
    expands only when every gate passed or is [not_available] and accepted.
    [EvaluateCanary] is modelled gate by gate, in the order of the source. *)

From stdpp Require Import base list strings gmap sorting.
From Stdlib Require Import Ascii.
From S2P Require Import Prelude Slices Qualify PolicyDoc Catalog Text Routes.

(** * Vocabulary *)

(* src: internal/igagov/health.go:17-17 (GateArtifactVerified) *)
Definition GateArtifactVerified : string := "artifact_verified".
(* src: internal/igagov/health.go:18-18 (GateNoUnexpectedFailures) *)
Definition GateNoUnexpectedFailures : string := "no_unexpected_failures".
(* src: internal/igagov/health.go:19-19 (GateRequiredOperations) *)
Definition GateRequiredOperations : string := "required_operations".
(* src: internal/igagov/health.go:20-20 (GateNoProblemReports) *)
Definition GateNoProblemReports : string := "no_problem_reports".
(* src: internal/igagov/health.go:21-21 (GateWindowElapsed) *)
Definition GateWindowElapsed : string := "window_elapsed".
(* src: internal/igagov/health.go:23-23 (OutcomePassed) *)
Definition OutcomePassed : string := "passed".
(* src: internal/igagov/health.go:24-24 (OutcomeFailed) *)
Definition OutcomeFailed : string := "failed".
(* src: internal/igagov/health.go:25-25 (OutcomeAwaitingEvidence) *)
Definition OutcomeAwaitingEvidence : string := "awaiting_evidence".
(* src: internal/igagov/health.go:26-26 (OutcomeNotAvailable) *)
Definition OutcomeNotAvailable : string := "not_available".
(* src: internal/igagov/health.go:27-27 (OutcomeNotApplicable) *)
Definition OutcomeNotApplicable : string := "not_applicable".
(* src: internal/igagov/health.go:29-29 (AttributionNotApplicable) *)
Definition AttributionNotApplicable : string := "not_applicable".
(* src: internal/igagov/health.go:30-30 (AttributionBoundary) *)
Definition AttributionBoundary : string := "boundary_attributed".
(* src: internal/igagov/health.go:31-31 (AttributionCauseUnknown) *)
Definition AttributionCauseUnknown : string := "cause_unknown".
(* src: internal/igagov/health.go:32-32 (AttributionValidation) *)
Definition AttributionValidation : string := "validation_request".
(* src: internal/igagov/health.go:34-34 (ExpectDenied) *)
Definition ExpectDenied : string := "denied".
(* src: internal/igagov/health.go:35-35 (ExpectAllowed) *)
Definition ExpectAllowed : string := "allowed".
(* src: internal/igagov/health.go:37-37 (DenialPermissionsBoundary) *)
Definition DenialPermissionsBoundary : string := "permissions_boundary".
(* src: internal/igagov/health.go:39-39 (ReportProblem) *)
Definition ReportProblem : string := "problem".
(* src: internal/igagov/health.go:40-40 (ReportWorking) *)
Definition ReportWorking : string := "working".

(* src: internal/igagov/health.go:48-51 (authorizationErrorCodes) *)
Definition authorizationErrorCodes : list string :=
  ["AccessDenied"; "AccessDeniedException"; "UnauthorizedOperation"; "Client.UnauthorizedOperation"].

(* src: internal/igagov/health.go:55-55 (IsAuthorizationDenial) *)
Definition IsAuthorizationDenial (code : string) : bool := bool_decide (code ∈ authorizationErrorCodes).

(** [strings.HasSuffix] and [strings.TrimSuffix]. *)
Definition HasSuffix (s suf : string) : bool :=
  (str_length suf <=? str_length s)%nat && (str_drop (str_length s - str_length suf) s =? suf)%string.
Definition TrimSuffix (s suf : string) : string :=
  if HasSuffix s suf then String.substring 0 (str_length s - str_length suf) s else s.

(** [time.Duration(h) * time.Hour]: an [int64] product, which wraps. *)
Definition int64 (z : Z) : Z := (z + 2 ^ 63) mod 2 ^ 64 - 2 ^ 63.
Definition hours (h : Z) : Z := int64 (h * Hour).

(** * Events *)

(* src: internal/igagov/health.go:61-65 (eventSourceNamespace) *)
Definition eventSourceNamespace : list (string * string) :=
  [("monitoring", "cloudwatch"); ("email", "ses"); ("tagging", "tag")].

(* src: internal/igagov/health.go:93-95 (eventActionAlias) *)
Definition eventActionAlias : list (string * string) := [("s3:ListBuckets", "s3:ListAllMyBuckets")].

(* src: internal/igagov/health.go:70-87 (ActionForEvent) *)
Definition ActionForEvent (eventSource eventName : string) : option string :=
  let host := ToLower eventSource in
  if negb (HasSuffix host ".amazonaws.com") || is_empty eventName then None
  else
    let label := default "" (head (SplitN 2 "."%char (TrimSuffix host ".amazonaws.com"))) in
    let label := default label (assoc label eventSourceNamespace) in
    if negb (reService label) then None
    else
      let a := label +:+ ":" +:+ eventName in
      Some (default a (assoc a eventActionAlias)).

(* src: internal/igagov/health.go:99-112 (TrailEvent) *)
Record TrailEvent := {
  te_EventTime : Time;
  te_PrincipalID : string;
  te_SessionName : string;
  te_EventSource : string;
  te_EventName : string;
  te_ErrorCode : string;
  te_DenialPolicyType : string }.

(* src: internal/igagov/health.go:114-117 (TrailEvent.action) *)
Definition te_action (e : TrailEvent) : string :=
  default "" (ActionForEvent (te_EventSource e) (te_EventName e)).

(* src: internal/igagov/health.go:120-129 (TrailEvent.rawAction) *)
Definition te_rawAction (e : TrailEvent) : string :=
  match ActionForEvent (te_EventSource e) (te_EventName e) with
  | None => ""
  | Some a => match SplitAction a with Some (ns, _) => ns +:+ ":" +:+ te_EventName e | None => a end
  end.

(** The namespace [SplitAction] answers, empty when it refuses. *)
Definition action_ns (a : string) : string :=
  match SplitAction a with Some (ns, _) => ns | None => "" end.

(* src: internal/igagov/health.go:131-134 (TrailEvent.service) *)
Definition te_service (e : TrailEvent) : string := action_ns (te_action e).

(* src: internal/igagov/health.go:136-136 (TrailEvent.denied) *)
Definition te_denied (e : TrailEvent) : bool := IsAuthorizationDenial (te_ErrorCode e).

(** * Evidence and results *)

(* src: internal/igagov/health.go:139-142 (ValidationItem) *)
Record ValidationItem := { vi_Action : string; vi_Expected : string }.

(* src: internal/igagov/health.go:145-152 (Validation) *)
Record Validation := {
  va_ID : string; va_RoleID : string; va_SessionName : string;
  va_WindowStart : Time; va_WindowEnd : Time; va_Items : list ValidationItem }.

(* src: internal/igagov/health.go:155-159 (HealthReport) *)
Record HealthReport := { hr_Kind : string; hr_Service : string; hr_CreatedAt : Time }.

(* src: internal/igagov/health.go:163-167 (TrailRead) *)
Record TrailRead := { tr_From : Time; tr_To : Time; tr_CapHit : bool }.

(* src: internal/igagov/health.go:171-180 (RetainedService) *)
Record RetainedService := {
  rs_Service : string; rs_ActiveInQualifiedInterval : bool; rs_DataEventsOnly : bool }.

(* src: internal/igagov/health.go:184-202 (CanaryInput) *)
Record CanaryInput := {
  ci_RoleID : string;
  ci_AppliedAt : Time;
  ci_Now : Time;
  ci_CanaryHours : Z;
  ci_RemovesServices : bool;
  ci_Removed : list string;
  ci_Retained : list RetainedService;
  ci_Events : list TrailEvent;
  ci_Validations : list Validation;
  ci_Reports : list HealthReport;
  ci_Trail : list TrailRead;
  ci_PublishedAfterApply : bool;
  ci_ArtifactOutcome : string }.

(* src: internal/igagov/health.go:205-210 (GateResult) *)
Record GateResult := { gr_Gate : string; gr_Outcome : string; gr_Reason : string; gr_Evidence : list string }.

(* src: internal/igagov/health.go:213-217 (DimensionResult) *)
Record DimensionResult := { dr_Outcome : string; dr_Attribution : string; dr_Reason : string }.

(* src: internal/igagov/health.go:222-229 (ItemResult) *)
Record ItemResult := {
  ir_Action : string; ir_Expected : string; ir_Result : string;
  ir_MatchedEvents : Z; ir_OppositeEvents : Z; ir_BoundaryAttested : bool }.

(* src: internal/igagov/health.go:232-236 (ValidationResult) *)
Record ValidationResult := { vr_ID : string; vr_Result : string; vr_Items : list ItemResult }.

(* src: internal/igagov/health.go:240-240 (DeniedRetainedService) *)
Definition DeniedRetainedService : string := "denied_retained_service".
(* src: internal/igagov/health.go:241-241 (DeniedRemovedService) *)
Definition DeniedRemovedService : string := "denied_removed_service".
(* src: internal/igagov/health.go:242-242 (DeniedOtherService) *)
Definition DeniedOtherService : string := "denied_other_service".

(* src: internal/igagov/health.go:246-253 (UnexpectedFailure) *)
Record UnexpectedFailure := {
  uf_EventTime : Time; uf_Action : string; uf_SessionName : string;
  uf_ErrorCode : string; uf_Class : string; uf_DenialPolicyType : string }.

(* src: internal/igagov/health.go:256-268 (CanaryResult) *)
Record CanaryResult := {
  cr_Gates : list GateResult;
  cr_Pass : bool;
  cr_Pause : bool;
  cr_NotAvailable : list string;
  cr_ApplicationHealth : DimensionResult;
  cr_Restriction : DimensionResult;
  cr_ServiceRestriction : gmap string string;
  cr_Validations : list ValidationResult;
  cr_UnexpectedFailures : list UnexpectedFailure }.

(** * Coverage of the trail *)

(** [in.AppliedAt.Add(time.Duration(in.CanaryHours) * time.Hour)]. *)
Definition fullEnd (ci : CanaryInput) : Time := ci_AppliedAt ci + hours (ci_CanaryHours ci).

(* src: internal/igagov/health.go:271-277 (CanaryInput.windowEnd) *)
Definition windowEnd (ci : CanaryInput) : Time :=
  if ci_Now ci <? fullEnd ci then ci_Now ci else fullEnd ci.

Definition read_less (a b : TrailRead) : bool := tr_From a <? tr_From b.

(** The loop of [trailCovers] over the sorted reads; [cur] is the end of what
    is covered so far and [n] the number of reads. *)
(* src: internal/igagov/health.go:288-308 (trailCovers, part) *)
Fixpoint trail_loop (n : nat) (from to cur : Time) (rs : list TrailRead) : bool * string :=
  match rs with
  | [] =>
      if cur <? to then (false, if (n =? 0)%nat then "no_cloudtrail_coverage" else "cloudtrail_coverage_gap")
      else (true, "")
  | r :: rs =>
      if negb (from <? tr_To r) || (to <? tr_From r) then trail_loop n from to cur rs
      else if tr_CapHit r then (false, "cloudtrail_event_cap_hit")
      else if cur <? tr_From r then (false, "cloudtrail_coverage_gap")
      else trail_loop n from to (if cur <? tr_To r then tr_To r else cur) rs
  end.

(* src: internal/igagov/health.go:281-309 (trailCovers) *)
Definition trailCovers (reads : list TrailRead) (from to : Time) : bool * string :=
  if negb (from <? to) then (true, "")
  else let rs := sort_slice read_less reads in trail_loop (length rs) from to from rs.

(** * Validations *)

(* src: internal/igagov/health.go:313-317 (belongs) *)
Definition belongs (e : TrailEvent) (v : Validation) (it : ValidationItem) : bool :=
  (te_PrincipalID e =? va_RoleID v)%string && (te_SessionName e =? va_SessionName v)%string &&
  (EqualFold (te_action e) (vi_Action it) || EqualFold (te_rawAction e) (vi_Action it)) &&
  negb (te_EventTime e <? va_WindowStart v) && negb (va_WindowEnd v <? te_EventTime e).

(** One event of the item's loop. *)
(* src: internal/igagov/health.go:329-342 (CorrelateValidations, part) *)
Definition count_event (v : Validation) (it : ValidationItem) (ir : ItemResult) (e : TrailEvent) : ItemResult :=
  if negb (belongs e v it) then ir
  else if Bool.eqb (vi_Expected it =? ExpectDenied)%string (te_denied e) then
    {| ir_Action := ir_Action ir; ir_Expected := ir_Expected ir; ir_Result := ir_Result ir;
       ir_MatchedEvents := ir_MatchedEvents ir + 1; ir_OppositeEvents := ir_OppositeEvents ir;
       ir_BoundaryAttested := ir_BoundaryAttested ir ||
         (te_denied e && (te_DenialPolicyType e =? DenialPermissionsBoundary)%string) |}
  else
    {| ir_Action := ir_Action ir; ir_Expected := ir_Expected ir; ir_Result := ir_Result ir;
       ir_MatchedEvents := ir_MatchedEvents ir; ir_OppositeEvents := ir_OppositeEvents ir + 1;
       ir_BoundaryAttested := ir_BoundaryAttested ir |}.

(* src: internal/igagov/health.go:328-354 (CorrelateValidations, part) *)
Definition correlate_item (v : Validation) (events : list TrailEvent) (it : ValidationItem) : ItemResult :=
  let ir := fold_left (count_event v it) events
    {| ir_Action := vi_Action it; ir_Expected := vi_Expected it; ir_Result := "";
       ir_MatchedEvents := 0; ir_OppositeEvents := 0; ir_BoundaryAttested := false |} in
  {| ir_Action := ir_Action ir; ir_Expected := ir_Expected ir;
     ir_Result := if 0 <? ir_OppositeEvents ir then "contradicted"
                  else if 0 <? ir_MatchedEvents ir then "matched" else "not_seen";
     ir_MatchedEvents := ir_MatchedEvents ir; ir_OppositeEvents := ir_OppositeEvents ir;
     ir_BoundaryAttested := ir_BoundaryAttested ir |}.

(** The number of items with a result: the three counters of the loop. *)
Definition items_with (res : string) (l : list ItemResult) : nat :=
  length (List.filter (fun ir => (ir_Result ir =? res)%string) l).

(* src: internal/igagov/health.go:356-365 (CorrelateValidations, part) *)
Definition request_result (l : list ItemResult) : string :=
  if (0 <? items_with "contradicted" l)%nat then "contradicted"
  else if (0 <? items_with "matched" l)%nat && (items_with "not_seen" l =? 0)%nat then "matched"
  else if (0 <? items_with "matched" l)%nat then "partial"
  else "not_seen".

(* src: internal/igagov/health.go:322-369 (CorrelateValidations) *)
Definition CorrelateValidations (vs : list Validation) (events : list TrailEvent) : list ValidationResult :=
  map (fun v =>
    let items := map (correlate_item v events) (va_Items v) in
    {| vr_ID := va_ID v; vr_Result := request_result items; vr_Items := items |}) vs.

(** * The gates *)

(** The declared items with their results: [in.Validations[vi].Items[ii]] and
    [vrs[vi].Items[ii]] for the indices of the source's nested loops. *)
Definition item_pairs (ci : CanaryInput) (vrs : list ValidationResult) : list (ValidationItem * ItemResult) :=
  concat (zip_with (fun v vr => zip (va_Items v) (vr_Items vr)) (ci_Validations ci) vrs).

(* src: internal/igagov/health.go:406-408 (EvaluateCanary, inWindow) *)
Definition inWindow (ci : CanaryInput) (e : TrailEvent) : bool :=
  (te_PrincipalID e =? ci_RoleID ci)%string && negb (te_EventTime e <? ci_AppliedAt ci) &&
  negb (windowEnd ci <? te_EventTime e).

Definition gate (name outcome reason : string) (evidence : list string) : GateResult :=
  {| gr_Gate := name; gr_Outcome := outcome; gr_Reason := reason; gr_Evidence := evidence |}.

(* src: internal/igagov/health.go:411-418 (EvaluateCanary, artifact_verified) *)
Definition gate_artifact (ci : CanaryInput) : GateResult :=
  gate GateArtifactVerified
    (if (ci_ArtifactOutcome ci =? OutcomePassed)%string then OutcomePassed
     else if (ci_ArtifactOutcome ci =? OutcomeFailed)%string then OutcomeFailed
     else OutcomeAwaitingEvidence) "" [].

(** An expected=denied item the event belongs to. *)
(* src: internal/igagov/health.go:426-433 (EvaluateCanary, exempt) *)
Definition exempt (ci : CanaryInput) (e : TrailEvent) : bool :=
  existsb (fun v => existsb (fun it => (vi_Expected it =? ExpectDenied)%string && belongs e v it) (va_Items v))
    (ci_Validations ci).

(* src: internal/igagov/health.go:437-444 (EvaluateCanary, class) *)
Definition denial_class (ci : CanaryInput) (svc : string) : string :=
  if bool_decide (svc ∈ ci_Removed ci) then DeniedRemovedService
  else if bool_decide (svc ∈ map rs_Service (ci_Retained ci)) then DeniedRetainedService
  else DeniedOtherService.

(* src: internal/igagov/health.go:445-446 (EvaluateCanary, failure) *)
Definition failure_of (ci : CanaryInput) (e : TrailEvent) : UnexpectedFailure :=
  {| uf_EventTime := te_EventTime e; uf_Action := te_action e; uf_SessionName := te_SessionName e;
     uf_ErrorCode := te_ErrorCode e; uf_Class := denial_class ci (te_service e);
     uf_DenialPolicyType := te_DenialPolicyType e |}.

(* src: internal/igagov/health.go:421-450 (EvaluateCanary, failures) *)
Definition unexpected_failures (ci : CanaryInput) : list UnexpectedFailure :=
  sort_slice (fun a b => uf_EventTime a <? uf_EventTime b)
    (map (failure_of ci) (List.filter (fun e => inWindow ci e && te_denied e && negb (exempt ci e)) (ci_Events ci))).

(* src: internal/igagov/health.go:451-462 (EvaluateCanary, no_unexpected_failures) *)
Definition gate_failures (ci : CanaryInput) (ufs : list UnexpectedFailure) : GateResult :=
  let (covered, covReason) := trailCovers (ci_Trail ci) (ci_AppliedAt ci) (windowEnd ci) in
  match ufs with
  | f :: _ =>
      gate GateNoUnexpectedFailures OutcomeFailed (uf_Class f)
        (map (fun f => uf_Class f +:+ " " +:+ uf_Action f +:+ " by " +:+ uf_SessionName f) ufs)
  | [] =>
      if negb covered then gate GateNoUnexpectedFailures OutcomeNotAvailable covReason []
      else gate GateNoUnexpectedFailures OutcomePassed "" []
  end.

(* src: internal/igagov/health.go:466-481 (EvaluateCanary, contradictedAllowed) *)
Definition contradicted_allowed (ci : CanaryInput) (vrs : list ValidationResult) : list string :=
  omap (fun p => if (ir_Expected p.2 =? ExpectAllowed)%string && (ir_Result p.2 =? "contradicted")%string
                 then Some (ir_Action p.2) else None) (item_pairs ci vrs).

(* src: internal/igagov/health.go:467-481 (EvaluateCanary, allowedMatched) *)
Definition allowed_matched (ci : CanaryInput) (vrs : list ValidationResult) : list string :=
  omap (fun p => if (ir_Expected p.2 =? ExpectAllowed)%string && (ir_Result p.2 =? "matched")%string
                 then Some (ToLower (action_ns (vi_Action p.1))) else None) (item_pairs ci vrs).

(** A report of the kind at or after [applied_at]. *)
Definition report_after (ci : CanaryInput) (kind : string) (r : HealthReport) : bool :=
  (hr_Kind r =? kind)%string && negb (hr_CreatedAt r <? ci_AppliedAt ci).

(* src: internal/igagov/health.go:482-487 (EvaluateCanary, working) *)
Definition working (ci : CanaryInput) : list string :=
  map hr_Service (List.filter (report_after ci ReportWorking) (ci_Reports ci)).

(* src: internal/igagov/health.go:488-493 (EvaluateCanary, succeeded) *)
Definition succeeded (ci : CanaryInput) : list string :=
  map te_service (List.filter (fun e => inWindow ci e && is_empty (te_ErrorCode e)) (ci_Events ci)).

(* src: internal/igagov/health.go:499-502 (EvaluateCanary, ok) *)
Definition has_evidence (ci : CanaryInput) (vrs : list ValidationResult) (r : RetainedService) : bool :=
  bool_decide (rs_Service r ∈ allowed_matched ci vrs) || bool_decide (rs_Service r ∈ working ci) ||
  (negb (rs_DataEventsOnly r) && bool_decide (rs_Service r ∈ succeeded ci)).

(* src: internal/igagov/health.go:494-504 (EvaluateCanary, missing) *)
Definition missing (ci : CanaryInput) (vrs : list ValidationResult) : list string :=
  sort_slice str_lt (map rs_Service
    (List.filter (fun r => rs_ActiveInQualifiedInterval r && negb (has_evidence ci vrs r)) (ci_Retained ci))).

(** [elapsed := !in.Now.Before(fullEnd)]. *)
Definition elapsed (ci : CanaryInput) : bool := negb (ci_Now ci <? fullEnd ci).

(* src: internal/igagov/health.go:465-514 (EvaluateCanary, required_operations) *)
Definition gate_operations (ci : CanaryInput) (vrs : list ValidationResult) : GateResult :=
  let ca := contradicted_allowed ci vrs in
  let ms := missing ci vrs in
  if negb (length ca =? 0)%nat then gate GateRequiredOperations OutcomeFailed "allowed_validation_denied" ca
  else if (length ms =? 0)%nat then gate GateRequiredOperations OutcomePassed "" []
  else if elapsed ci then gate GateRequiredOperations OutcomeNotAvailable "no_success_evidence_in_window" ms
  else gate GateRequiredOperations OutcomeAwaitingEvidence "awaiting_success_evidence" ms.

(* src: internal/igagov/health.go:517-526 (EvaluateCanary, no_problem_reports) *)
Definition gate_reports (ci : CanaryInput) : GateResult :=
  match List.filter (report_after ci ReportProblem) (ci_Reports ci) with
  | [] => gate GateNoProblemReports OutcomePassed "" []
  | rs => gate GateNoProblemReports OutcomeFailed "problem_reported" (map hr_Service rs)
  end.

(* src: internal/igagov/health.go:529-539 (EvaluateCanary, window_elapsed) *)
Definition gate_window (ci : CanaryInput) : GateResult :=
  let (covered, covReason) := trailCovers (ci_Trail ci) (ci_AppliedAt ci) (windowEnd ci) in
  if negb (elapsed ci) then gate GateWindowElapsed OutcomeAwaitingEvidence "canary_hours_not_elapsed" []
  else if negb covered then gate GateWindowElapsed OutcomeNotAvailable covReason []
  else if negb (ci_PublishedAfterApply ci) then gate GateWindowElapsed OutcomeAwaitingEvidence "no_publication_after_apply" []
  else gate GateWindowElapsed OutcomePassed "" [].

Definition outcome_is (o : string) (g : GateResult) : bool := (gr_Outcome g =? o)%string.

(* src: internal/igagov/health.go:556-572 (EvaluateCanary, application_health) *)
Definition application_health (hg : list GateResult) : DimensionResult :=
  {| dr_Outcome := if existsb (outcome_is OutcomeFailed) hg then OutcomeFailed
                   else if forallb (outcome_is OutcomePassed) hg then OutcomePassed
                   else if existsb (outcome_is OutcomeNotAvailable) hg then OutcomeNotAvailable
                   else OutcomeAwaitingEvidence;
     dr_Attribution := AttributionNotApplicable; dr_Reason := "" |}.

(** * Restriction *)

(** A declared expected=denied item that was contradicted, or matched by a
    boundary-attributed denial, among the namespaces that satisfy [f]. *)
Definition denied_item (f : string -> bool) (test : ItemResult -> bool) (p : ValidationItem * ItemResult) : bool :=
  (ir_Expected p.2 =? ExpectDenied)%string && f (ToLower (action_ns (vi_Action p.1))) && test p.2.
Definition item_contradicted (ir : ItemResult) : bool := (ir_Result ir =? "contradicted")%string.
Definition item_attested (ir : ItemResult) : bool := (ir_Result ir =? "matched")%string && ir_BoundaryAttested ir.

(** An authorization denial of the role at or after [applied_at]. *)
Definition role_denial (ci : CanaryInput) (e : TrailEvent) : bool :=
  (te_PrincipalID e =? ci_RoleID ci)%string && negb (te_EventTime e <? ci_AppliedAt ci) && te_denied e.
Definition boundary_denial (e : TrailEvent) : bool := (te_DenialPolicyType e =? DenialPermissionsBoundary)%string.

(* src: internal/igagov/health.go:585-628 (restriction) *)
Definition restriction (ci : CanaryInput) (vrs : list ValidationResult) : DimensionResult :=
  let dim o a r := {| dr_Outcome := o; dr_Attribution := a; dr_Reason := r |} in
  if negb (ci_RemovesServices ci) then dim OutcomeNotApplicable AttributionNotApplicable ""
  else
    let removed s := bool_decide (s ∈ ci_Removed ci) in
    let pairs := item_pairs ci vrs in
    if existsb (denied_item removed item_contradicted) pairs
    then dim OutcomeFailed AttributionValidation "expected_denial_was_allowed"
    else if existsb (denied_item removed item_attested) pairs
    then dim OutcomePassed AttributionValidation ""
    else
      let denials := List.filter (fun e => role_denial ci e && removed (te_service e)) (ci_Events ci) in
      if existsb boundary_denial denials then dim OutcomePassed AttributionBoundary ""
      else match denials with
           | _ :: _ => dim OutcomeAwaitingEvidence AttributionCauseUnknown "denied_cause_not_attributed"
           | [] => dim OutcomeAwaitingEvidence AttributionNotApplicable "not_observed"
           end.

(* src: internal/igagov/health.go:632-632 (RestrictionNotObserved) *)
Definition RestrictionNotObserved : string := "not_observed".
(* src: internal/igagov/health.go:633-633 (RestrictionObserved) *)
Definition RestrictionObserved : string := "observed".
(* src: internal/igagov/health.go:634-634 (RestrictionContradicted) *)
Definition RestrictionContradicted : string := "contradicted".

(* src: internal/igagov/health.go:638-664 (serviceRestriction) *)
Definition serviceRestriction (ci : CanaryInput) (vrs : list ValidationResult) (svc : string) : string :=
  let here s := (s =? svc)%string in
  let pairs := item_pairs ci vrs in
  if existsb (denied_item here item_contradicted) pairs then RestrictionContradicted
  else if existsb (denied_item here item_attested) pairs ||
          existsb (fun e => role_denial ci e && here (te_service e) && boundary_denial e) (ci_Events ci)
  then RestrictionObserved else RestrictionNotObserved.

(* src: internal/igagov/health.go:391-578 (EvaluateCanary) *)
Definition EvaluateCanary (ci : CanaryInput) : CanaryResult :=
  let vrs := CorrelateValidations (ci_Validations ci) (ci_Events ci) in
  let ufs := unexpected_failures ci in
  let nuf := gate_failures ci ufs in
  let rop := gate_operations ci vrs in
  let npr := gate_reports ci in
  let gates := [gate_artifact ci; nuf; rop; npr; gate_window ci] in
  {| cr_Gates := gates;
     cr_Pass := forallb (outcome_is OutcomePassed) gates;
     cr_Pause := existsb (outcome_is OutcomeFailed) gates;
     cr_NotAvailable := map gr_Gate (List.filter (outcome_is OutcomeNotAvailable) gates);
     cr_ApplicationHealth := application_health [nuf; rop; npr];
     cr_Restriction := restriction ci vrs;
     cr_ServiceRestriction :=
       list_to_map (map (fun s => (s, serviceRestriction ci vrs s)) (sortedUnique (ci_Removed ci)));
     cr_Validations := vrs;
     cr_UnexpectedFailures := ufs |}.

(** * Observation *)

(* src: internal/igagov/health.go:672-674 (ObserveEvidenceRequiredAfter) *)
Definition ObserveEvidenceRequiredAfter (observeUntil : Time) : Time := observeUntil + ReportingLag.

(* src: internal/igagov/health.go:678-689 (ObservationTarget) *)
Record ObservationTarget := {
  ot_RoleID : string;
  ot_EvidenceReportAt : Time;
  ot_ReportGeneratedAt : option Time;
  ot_LastAttempts : gmap string (option Time) }.

(* src: internal/igagov/health.go:692-696 (AttemptDuringObservation) *)
Record AttemptDuringObservation := { at_RoleID : string; at_Service : string; at_At : Time }.

(* src: internal/igagov/health.go:699-707 (ObservationResult) *)
Record ObservationResult := {
  or_RequiredAfter : Time;
  or_Complete : bool;
  or_BackToDraft : list AttemptDuringObservation;
  or_AwaitingReport : list string;
  or_NeedsRefresh : bool }.

(* src: internal/igagov/health.go:718-722 (EvaluateObservation, part) *)
Definition target_attempts (t : ObservationTarget) : list AttemptDuringObservation :=
  omap (fun svc =>
    match ot_LastAttempts t !! svc with
    | Some (Some a) =>
        if ot_EvidenceReportAt t <? a then Some {| at_RoleID := ot_RoleID t; at_Service := svc; at_At := a |} else None
    | _ => None
    end) (sortedKeys (ot_LastAttempts t)).

(* src: internal/igagov/health.go:723-725 (EvaluateObservation, part) *)
Definition awaits_report (requiredAfter : Time) (t : ObservationTarget) : bool :=
  match ot_ReportGeneratedAt t with None => true | Some g => g <? requiredAfter end.

(* src: internal/igagov/health.go:714-731 (EvaluateObservation) *)
Definition EvaluateObservation (observeUntil now : Time) (targets : list ObservationTarget) : ObservationResult :=
  let req := ObserveEvidenceRequiredAfter observeUntil in
  let back := concat (map target_attempts targets) in
  let awaiting := sort_slice str_lt (map ot_RoleID (List.filter (awaits_report req) targets)) in
  {| or_RequiredAfter := req;
     or_Complete := negb (now <? observeUntil) && (length awaiting =? 0)%nat && (length back =? 0)%nat;
     or_BackToDraft := back;
     or_AwaitingReport := awaiting;
     or_NeedsRefresh := negb (now <? observeUntil) && negb (length awaiting =? 0)%nat |}.

(** * The rollout's reading of the gates *)

(** The part of a [gateEval] the decision reads: whether the deployment has
    been applied, the gates' result, and the [not_available] gates a person
    has accepted for this window. *)
(* src: services/iga_gov_rollout_service.go:1154-1160 (gateEval) *)
Record gateEval := { ge_applied : bool; ge_result : CanaryResult; ge_accepted : gset string }.

(* src: services/iga_gov_rollout_service.go:1229-1245 (canaryResultOf) *)
Definition canaryResultOf (gates : list GateResult) (ufs : list UnexpectedFailure)
    (dims : gmap string DimensionResult) : CanaryResult :=
  let dim k := default {| dr_Outcome := ""; dr_Attribution := ""; dr_Reason := "" |} (dims !! k) in
  {| cr_Gates := gates;
     cr_Pass := forallb (outcome_is OutcomePassed) gates;
     cr_Pause := existsb (outcome_is OutcomeFailed) gates;
     cr_NotAvailable := map gr_Gate (List.filter (outcome_is OutcomeNotAvailable) gates);
     cr_ApplicationHealth := dim "application_health";
     cr_Restriction := dim "restriction";
     cr_ServiceRestriction := ∅;
     cr_Validations := [];
     cr_UnexpectedFailures := ufs |}.

(** A gate the decision lets through. *)
Definition gate_ok (ev : gateEval) (extra : gset string) (g : GateResult) : bool :=
  outcome_is OutcomePassed g ||
  (outcome_is OutcomeNotAvailable g && (bool_decide (gr_Gate g ∈ ge_accepted ev) || bool_decide (gr_Gate g ∈ extra))).

(* src: services/iga_gov_rollout_service.go:1249-1262 (gateEval.passes) *)
Definition passes (ev : gateEval) (extra : gset string) : bool :=
  if negb (ge_applied ev) || (length (cr_Gates (ge_result ev)) =? 0)%nat then false
  else forallb (gate_ok ev extra) (cr_Gates (ge_result ev)).

(* src: services/iga_gov_rollout_service.go:1264-1273 (gateEval.failing) *)
Definition failing (ev : gateEval) (extra : gset string) : list GateResult :=
  List.filter (fun g => negb (gate_ok ev extra g)) (cr_Gates (ge_result ev)).
