(* ===== verification/HealthFacts.v ===== *)
(** What the canary gates, the restriction dimension and the observation rule
    decide, against the evidence they read (the definitions are in Health.v). *)

From stdpp Require Import base list strings gmap sorting.
From S2P Require Import Prelude Slices Qualify PolicyDoc Catalog Text Routes Health.

(** * Coverage of the trail *)

(** A read that touches the interval, and the promise of [trailCovers]: no
    such read stopped at the event cap and no instant is left unread. *)
Definition touches (from to : Time) (r : TrailRead) : Prop := from < tr_To r /\ tr_From r <= to.

Definition trail_complete (reads : list TrailRead) (from to : Time) : Prop :=
  from < to ->
  (forall r, r ∈ reads -> touches from to r -> tr_CapHit r = false) /\
  (forall t, from <= t < to -> exists r, r ∈ reads /\ tr_From r <= t < tr_To r).

#[local] Instance read_less_weak : StrictWeak read_less.
Proof. unfold read_less. split; intros *; rewrite ?Z.ltb_lt, ?Z.ltb_ge; lia. Qed.

Lemma reads_ascend r rs : StronglySorted (not_after read_less) (r :: rs) -> forall q, q ∈ rs -> tr_From r <= tr_From q.
Proof.
  intros (_ & Hf)%StronglySorted_inv q Hq. rewrite Forall_forall in Hf. specialize (Hf q Hq).
  unfold not_after, read_less in Hf. bool_prop. lia.
Qed.

Lemma trail_loop_spec n from to cur rs :
  from <= cur -> StronglySorted (not_after read_less) rs ->
  (trail_loop n from to cur rs).1 = true <->
  (forall r, r ∈ rs -> touches from to r -> tr_CapHit r = false) /\
  (forall t, cur <= t < to -> exists r, r ∈ rs /\ tr_From r <= t < tr_To r).
Proof.
  revert cur. induction rs as [|r rs IH]; intros cur Hcur Hs; cbn [trail_loop].
  { destruct (cur <? to) eqn:E; bool_prop; cbn; (split; [|set_solver by lia]).
    - done.
    - intros _. split; [set_solver|lia]. }
  pose proof (reads_ascend _ _ Hs) as Hasc. apply StronglySorted_inv in Hs as [Hs _].
  destruct (negb (from <? tr_To r) || (to <? tr_From r)) eqn:E1.
  { rewrite (IH cur Hcur Hs). setoid_rewrite elem_of_cons. unfold touches.
    assert (~ (from < tr_To r /\ tr_From r <= to)) as Hn.
    { intros []. apply orb_prop in E1 as [E1|E1]; [apply negb_true_iff in E1|]; bool_prop; lia. }
    split; intros [Hc Hk].
    - split; [naive_solver|]. intros t Ht. destruct (Hk t Ht) as (q & ? & ?). eauto.
    - split; [naive_solver|]. intros t Ht. destruct (Hk t Ht) as (q & [->|?] & ?); [lia|eauto]. }
  apply orb_false_iff in E1 as [E1 E2]. apply negb_false_iff in E1. bool_prop.
  assert (touches from to r) as Ht by done.
  destruct (tr_CapHit r) eqn:Ec.
  { cbn. split; [done|]. intros [Hc _]. rewrite (Hc r) in Ec; [done|left|done]. }
  destruct (cur <? tr_From r) eqn:E3; bool_prop.
  { cbn. split; [done|]. intros [_ Hk]. destruct Ht. destruct (Hk cur) as (q & Hq & ?); [lia|].
    apply elem_of_cons in Hq as [->|Hq]; [lia|]. specialize (Hasc q Hq). lia. }
  rewrite IH by (try done; case_match; bool_prop; lia). setoid_rewrite elem_of_cons.
  split; intros [Hc Hk]; (split; [naive_solver|]).
  - intros t Hb. destruct (decide (t < tr_To r)) as [?|Hge]; [exists r; split; [by left|lia]|].
    destruct (Hk t) as (q & ? & ?); [case_match; bool_prop; lia|eauto].
  - intros t Hb. destruct (Hk t) as (q & [->|?] & ?); [case_match; bool_prop; lia| |eauto].
    case_match; bool_prop; lia.
Qed.

Lemma trailCovers_spec reads from to : (trailCovers reads from to).1 = true <-> trail_complete reads from to.
Proof.
  unfold trailCovers, trail_complete. destruct (from <? to) eqn:E; bool_prop; cbn [negb].
  - rewrite trail_loop_spec; [|lia|apply sort_slice_sorted, _].
    setoid_rewrite elem_of_sort_slice. naive_solver.
  - split; [lia|done].
Qed.

(** * Validations *)

(** The events of an item that agree with its expected outcome, and those
    that do not. *)
Definition agrees (it : ValidationItem) (e : TrailEvent) : bool :=
  Bool.eqb (vi_Expected it =? ExpectDenied)%string (te_denied e).
Definition counted (f : TrailEvent -> bool) (l : list TrailEvent) : Z := Z.of_nat (length (List.filter f l)).

Lemma count_events v it events ir :
  let out := fold_left (count_event v it) events ir in
  ir_Action out = ir_Action ir /\ ir_Expected out = ir_Expected ir /\
  ir_MatchedEvents out = ir_MatchedEvents ir + counted (fun e => belongs e v it && agrees it e) events /\
  ir_OppositeEvents out = ir_OppositeEvents ir + counted (fun e => belongs e v it && negb (agrees it e)) events /\
  ir_BoundaryAttested out = ir_BoundaryAttested ir ||
    existsb (fun e => belongs e v it && agrees it e && (te_denied e && boundary_denial e)) events.
Proof.
  revert ir. induction events as [|e l IH]; intros ir; cbn [fold_left existsb].
  { unfold counted. cbn. rewrite orb_false_r. repeat split; lia. }
  destruct (IH (count_event v it ir e)) as (-> & -> & -> & -> & ->). clear IH.
  unfold count_event, counted, agrees, boundary_denial. cbn [List.filter].
  destruct (belongs e v it); cbn; [|done].
  destruct (Bool.eqb _ _); cbn [andb negb orb ir_Action ir_Expected ir_MatchedEvents ir_OppositeEvents
    ir_BoundaryAttested length]; rewrite ?orb_false_r, ?orb_assoc; repeat split; lia.
Qed.

Lemma correlate_item_spec v events it :
  let ir := correlate_item v events it in
  ir_Action ir = vi_Action it /\ ir_Expected ir = vi_Expected it /\
  ir_MatchedEvents ir = counted (fun e => belongs e v it && agrees it e) events /\
  ir_OppositeEvents ir = counted (fun e => belongs e v it && negb (agrees it e)) events /\
  ir_BoundaryAttested ir = existsb (fun e => belongs e v it && agrees it e && (te_denied e && boundary_denial e)) events.
Proof.
  destruct (count_events v it events {| ir_Action := vi_Action it; ir_Expected := vi_Expected it; ir_Result := "";
    ir_MatchedEvents := 0; ir_OppositeEvents := 0; ir_BoundaryAttested := false |}) as (H1 & H2 & H3 & H4 & H5).
  unfold correlate_item. cbn in *. rewrite H1, H2, H3, H4, H5. repeat split; lia.
Qed.

Lemma counted_nonneg f l : 0 <= counted f l.
Proof. unfold counted. lia. Qed.

Lemma counted_pos f l : 0 < counted f l <-> exists e, e ∈ l /\ f e = true.
Proof.
  unfold counted. setoid_rewrite <- elem_of_filter_b.
  destruct (List.filter f l) as [|e k]; cbn; [split; [lia|set_solver]|].
  split; [intros _; exists e; left|lia].
Qed.

(** The result of an item, as the events that belong to it decide it. *)
Lemma item_contradicted_iff v events it :
  item_contradicted (correlate_item v events it) = true <->
  exists e, e ∈ events /\ belongs e v it = true /\ agrees it e = false.
Proof.
  destruct (correlate_item_spec v events it) as (_ & _ & Hm & Ho & _).
  assert (item_contradicted (correlate_item v events it) = (0 <? ir_OppositeEvents (correlate_item v events it))) as ->.
  { unfold item_contradicted, correlate_item. cbn. repeat case_match; done. }
  rewrite Z.ltb_lt, Ho, counted_pos.
  apply exist_proper. intros e. by rewrite andb_true_iff, negb_true_iff.
Qed.

Lemma item_matched_iff v events it :
  (ir_Result (correlate_item v events it) =? "matched")%string = true <->
  (exists e, e ∈ events /\ belongs e v it = true) /\
  (forall e, e ∈ events -> belongs e v it = true -> agrees it e = true).
Proof.
  destruct (correlate_item_spec v events it) as (_ & _ & Hm & Ho & _).
  assert ((ir_Result (correlate_item v events it) =? "matched")%string =
    negb (0 <? ir_OppositeEvents (correlate_item v events it)) && (0 <? ir_MatchedEvents (correlate_item v events it))) as ->.
  { unfold correlate_item. cbn. repeat case_match; done. }
  rewrite andb_true_iff, negb_true_iff, Z.ltb_ge, Z.ltb_lt, Hm, Ho, counted_pos.
  split.
  - intros [Hno (e & He & [Hb Ha]%andb_true_iff)]. split; [by exists e|]. intros e' He' Hb'. apply not_false_is_true. intros Hf.
    assert (0 < counted (fun e => belongs e v it && negb (agrees it e)) events); [|lia].
    apply counted_pos. exists e'. by rewrite Hb', Hf.
  - intros [(e & He & Hb) Hall]. split; [|exists e; by rewrite Hb, Hall].
    apply Z.nlt_ge. intros (e' & He' & [Hb' Ha']%andb_true_iff)%counted_pos.
    by rewrite Hall in Ha'.
Qed.

(** The pairs the source's index loops visit, for the results of
    [CorrelateValidations] on the same input. *)
Lemma elem_of_item_pairs ci p :
  p ∈ item_pairs ci (CorrelateValidations (ci_Validations ci) (ci_Events ci)) <->
  exists v it, v ∈ ci_Validations ci /\ it ∈ va_Items v /\ p = (it, correlate_item v (ci_Events ci) it).
Proof.
  unfold item_pairs, CorrelateValidations. generalize (ci_Validations ci) as vs, (ci_Events ci) as es. intros vs es.
  assert (forall v (l : list ValidationItem), zip l (map (correlate_item v es) l) = (fun it => (it, correlate_item v es it)) <$> l) as Hz.
  { intros v l. induction l as [|x l IH]; [done|]. cbn. by f_equal. }
  induction vs as [|v vs IH]; cbn; [set_solver|].
  rewrite elem_of_app, IH, Hz, list_elem_of_fmap. setoid_rewrite elem_of_cons. naive_solver.
Qed.

(** * The gates against the evidence *)

(** An authorization denial of the role in the window that no declared
    expected=denied item explains. *)
Definition unexplained (ci : CanaryInput) (e : TrailEvent) : Prop :=
  e ∈ ci_Events ci /\ te_PrincipalID e = ci_RoleID ci /\
  ci_AppliedAt ci <= te_EventTime e <= windowEnd ci /\
  te_ErrorCode e ∈ authorizationErrorCodes /\
  forall v it, v ∈ ci_Validations ci -> it ∈ va_Items v -> vi_Expected it = ExpectDenied -> belongs e v it = false.

(** A declared expected=allowed item one of whose events was denied. *)
Definition allowed_denied (ci : CanaryInput) : Prop :=
  exists v it e, v ∈ ci_Validations ci /\ it ∈ va_Items v /\ vi_Expected it = ExpectAllowed /\
    e ∈ ci_Events ci /\ belongs e v it = true /\ te_denied e = true.

(** Success evidence of a retained service: a declared expected=allowed item
    of its namespace with an event and no denial, an owner's report, or a
    call of it in the window that answered without an error. *)
Definition evidenced (ci : CanaryInput) (r : RetainedService) : Prop :=
  (exists v it, v ∈ ci_Validations ci /\ it ∈ va_Items v /\ vi_Expected it = ExpectAllowed /\
     ToLower (action_ns (vi_Action it)) = rs_Service r /\
     (exists e, e ∈ ci_Events ci /\ belongs e v it = true) /\
     (forall e, e ∈ ci_Events ci -> belongs e v it = true -> te_denied e = false)) \/
  (exists rep, rep ∈ ci_Reports ci /\ hr_Kind rep = ReportWorking /\ ci_AppliedAt ci <= hr_CreatedAt rep /\
     hr_Service rep = rs_Service r) \/
  (rs_DataEventsOnly r = false /\
   exists e, e ∈ ci_Events ci /\ te_PrincipalID e = ci_RoleID ci /\
     ci_AppliedAt ci <= te_EventTime e <= windowEnd ci /\ te_ErrorCode e = "" /\ te_service e = rs_Service r).

Lemma inWindow_iff ci e :
  inWindow ci e = true <-> te_PrincipalID e = ci_RoleID ci /\ ci_AppliedAt ci <= te_EventTime e <= windowEnd ci.
Proof.
  unfold inWindow. rewrite !andb_true_iff, !negb_true_iff, String.eqb_eq, !Z.ltb_ge. tauto.
Qed.

Lemma te_denied_iff e : te_denied e = true <-> te_ErrorCode e ∈ authorizationErrorCodes.
Proof. unfold te_denied, IsAuthorizationDenial. apply bool_decide_eq_true. Qed.

Lemma exempt_false ci e :
  exempt ci e = false <->
  forall v it, v ∈ ci_Validations ci -> it ∈ va_Items v -> vi_Expected it = ExpectDenied -> belongs e v it = false.
Proof.
  rewrite <- not_true_iff_false. unfold exempt. rewrite existsb_elem. split.
  - intros Hn v it Hv Hit He. apply not_true_is_false. intros Hb. apply Hn. exists v. split; [done|].
    apply existsb_elem. exists it. split; [done|]. by rewrite Hb, He.
  - intros Hall (v & Hv & (it & Hit & [He%String.eqb_eq Hb]%andb_true_iff)%existsb_elem).
    by rewrite (Hall v it) in Hb.
Qed.

Lemma unexpected_failures_iff ci : unexpected_failures ci = [] <-> forall e, ~ unexplained ci e.
Proof.
  unfold unexpected_failures. rewrite sort_slice_nil.
  assert (forall e, inWindow ci e && te_denied e && negb (exempt ci e) = true /\ e ∈ ci_Events ci <-> unexplained ci e) as Hu.
  { intros e. unfold unexplained. rewrite !andb_true_iff, negb_true_iff, exempt_false, inWindow_iff, te_denied_iff. tauto. }
  split.
  - intros Hn%map_eq_nil e He%Hu. destruct He as [Hb Hin]. by rewrite (filter_nil_false _ _ Hn e Hin) in Hb.
  - intros Hn. rewrite filter_none; [done|]. intros e He. apply not_true_is_false. intros Hb. by apply (Hn e), Hu.
Qed.

Lemma gate_failures_failed ci :
  gr_Outcome (gate_failures ci (unexpected_failures ci)) = OutcomeFailed <-> exists e, unexplained ci e.
Proof.
  pose proof (unexpected_failures_iff ci) as Hu. unfold gate_failures.
  destruct (trailCovers _ _ _) as [c r]. destruct (unexpected_failures ci) as [|f l] eqn:E.
  - split; [by destruct c|]. intros [e He]. destruct Hu as [Hu _]. by destruct (Hu eq_refl e).
  - split; [intros _|done]. destruct (List.filter (fun e => inWindow ci e && te_denied e && negb (exempt ci e)) (ci_Events ci))
      as [|e k] eqn:Ef; [unfold unexpected_failures in E; by rewrite Ef in E|].
    exists e. assert (e ∈ e :: k) as He by left. rewrite <- Ef in He. apply elem_of_filter_b in He as [Hin Hb].
    rewrite !andb_true_iff, negb_true_iff, exempt_false, inWindow_iff, te_denied_iff in Hb. unfold unexplained. tauto.
Qed.

Lemma gate_failures_passed ci :
  gr_Outcome (gate_failures ci (unexpected_failures ci)) = OutcomePassed <->
  (forall e, ~ unexplained ci e) /\ trail_complete (ci_Trail ci) (ci_AppliedAt ci) (windowEnd ci).
Proof.
  rewrite <- unexpected_failures_iff, <- trailCovers_spec. unfold gate_failures.
  destruct (trailCovers _ _ _) as [[] r]; destruct (unexpected_failures ci); cbn; naive_solver.
Qed.

Lemma agrees_allowed it e : vi_Expected it = ExpectAllowed -> agrees it e = negb (te_denied e).
Proof. unfold agrees. intros ->. by destruct (te_denied e). Qed.

Lemma agrees_denied it e : vi_Expected it = ExpectDenied -> agrees it e = te_denied e.
Proof. unfold agrees. intros ->. by destruct (te_denied e). Qed.

Abbreviation results ci := (CorrelateValidations (ci_Validations ci) (ci_Events ci)).

Lemma elem_of_contradicted ci a :
  a ∈ contradicted_allowed ci (results ci) <->
  exists v it e, v ∈ ci_Validations ci /\ it ∈ va_Items v /\ vi_Expected it = ExpectAllowed /\
    e ∈ ci_Events ci /\ belongs e v it = true /\ te_denied e = true /\ vi_Action it = a.
Proof.
  unfold contradicted_allowed. rewrite list_elem_of_omap. setoid_rewrite elem_of_item_pairs. split.
  - intros (p & (v & it & Hv & Hit & ->) & Hs). cbn [fst snd] in Hs.
    destruct (correlate_item_spec v (ci_Events ci) it) as (Hac & Hxp & _). rewrite Hxp, Hac in Hs.
    destruct (_ && _) eqn:Hb in Hs; [|done]. apply andb_true_iff in Hb as [Hx%String.eqb_eq Hc]. injection Hs as <-.
    apply item_contradicted_iff in Hc as (e & He & Hb & Ha). rewrite agrees_allowed in Ha by done.
    apply negb_false_iff in Ha. by exists v, it, e.
  - intros (v & it & e & Hv & Hit & Hx & He & Hb & Hd & <-). exists (it, correlate_item v (ci_Events ci) it).
    split; [eauto|]. cbn [fst snd]. destruct (correlate_item_spec v (ci_Events ci) it) as (-> & -> & _).
    assert (item_contradicted (correlate_item v (ci_Events ci) it) = true) as Hc.
    { apply item_contradicted_iff. exists e. by rewrite agrees_allowed, Hd. }
    unfold item_contradicted in Hc. by rewrite Hx, Hc.
Qed.

Lemma contradicted_allowed_cons ci : contradicted_allowed ci (results ci) <> [] <-> allowed_denied ci.
Proof.
  pose proof (elem_of_contradicted ci) as Hel. unfold allowed_denied.
  destruct (contradicted_allowed ci (results ci)) as [|a l].
  - split; [done|]. intros (v & it & e & H). exfalso. apply (not_elem_of_nil (vi_Action it)), Hel. exists v, it, e. tauto.
  - split; [intros _|done]. destruct (proj1 (Hel a)) as (v & it & e & H); [left|]. exists v, it, e. tauto.
Qed.

Lemma contradicted_allowed_iff ci : contradicted_allowed ci (results ci) = [] <-> ~ allowed_denied ci.
Proof. rewrite <- contradicted_allowed_cons. destruct (contradicted_allowed _ _); naive_solver. Qed.

Lemma allowed_matched_iff ci s :
  s ∈ allowed_matched ci (results ci) <->
  exists v it, v ∈ ci_Validations ci /\ it ∈ va_Items v /\ vi_Expected it = ExpectAllowed /\
    ToLower (action_ns (vi_Action it)) = s /\
    (exists e, e ∈ ci_Events ci /\ belongs e v it = true) /\
    (forall e, e ∈ ci_Events ci -> belongs e v it = true -> te_denied e = false).
Proof.
  unfold allowed_matched. rewrite list_elem_of_omap. setoid_rewrite elem_of_item_pairs.
  assert (forall v it, vi_Expected it = ExpectAllowed ->
    (forall e, e ∈ ci_Events ci -> belongs e v it = true -> agrees it e = true) <->
    (forall e, e ∈ ci_Events ci -> belongs e v it = true -> te_denied e = false)) as Ha.
  { intros v it Hx. split; intros Hall e He Hb; specialize (Hall e He Hb); rewrite agrees_allowed in * by done;
      by destruct (te_denied e). }
  split.
  - intros (p & (v & it & Hv & Hit & ->) & Hs). cbn [fst snd] in Hs.
    destruct (correlate_item_spec v (ci_Events ci) it) as (_ & Hxp & _). rewrite Hxp in Hs.
    destruct (_ && _) eqn:Hb in Hs; [|done]. apply andb_true_iff in Hb as [Hx%String.eqb_eq Hm].
    apply item_matched_iff in Hm as [Hm1 Hm2]. exists v, it. rewrite (Ha v it Hx) in Hm2. naive_solver.
  - intros (v & it & Hv & Hit & Hx & <- & Hm1 & Hm2). exists (it, correlate_item v (ci_Events ci) it).
    split; [eauto|]. cbn [fst snd]. destruct (correlate_item_spec v (ci_Events ci) it) as (_ & -> & _).
    rewrite <- (Ha v it Hx) in Hm2. by rewrite Hx, (proj2 (item_matched_iff v (ci_Events ci) it) (conj Hm1 Hm2)).
Qed.

Lemma report_after_iff ci k r :
  report_after ci k r = true <-> hr_Kind r = k /\ ci_AppliedAt ci <= hr_CreatedAt r.
Proof. unfold report_after. by rewrite andb_true_iff, negb_true_iff, String.eqb_eq, Z.ltb_ge. Qed.

Lemma working_iff ci s :
  s ∈ working ci <->
  exists rep, rep ∈ ci_Reports ci /\ hr_Kind rep = ReportWorking /\ ci_AppliedAt ci <= hr_CreatedAt rep /\ hr_Service rep = s.
Proof.
  unfold working. rewrite elem_of_map_filter. apply exist_proper. intros rep. rewrite report_after_iff. tauto.
Qed.

Lemma succeeded_iff ci s :
  s ∈ succeeded ci <->
  exists e, e ∈ ci_Events ci /\ te_PrincipalID e = ci_RoleID ci /\
    ci_AppliedAt ci <= te_EventTime e <= windowEnd ci /\ te_ErrorCode e = "" /\ te_service e = s.
Proof.
  unfold succeeded. rewrite elem_of_map_filter. apply exist_proper. intros e.
  rewrite andb_true_iff, inWindow_iff, is_empty_true. tauto.
Qed.

Lemma has_evidence_iff ci r : has_evidence ci (results ci) r = true <-> evidenced ci r.
Proof.
  unfold has_evidence, evidenced.
  rewrite !orb_true_iff, andb_true_iff, negb_true_iff, !bool_decide_eq_true, allowed_matched_iff, working_iff, succeeded_iff.
  tauto.
Qed.

Lemma missing_nil ci :
  missing ci (results ci) = [] <->
  forall r, r ∈ ci_Retained ci -> rs_ActiveInQualifiedInterval r = true -> evidenced ci r.
Proof.
  unfold missing. rewrite sort_slice_nil. setoid_rewrite <- has_evidence_iff. split.
  - intros Hn%map_eq_nil r Hr Ha. pose proof (filter_nil_false _ _ Hn r Hr) as Hf. cbn in Hf. rewrite Ha in Hf.
    by apply negb_false_iff.
  - intros Hall. rewrite filter_none; [done|]. intros r Hr.
    destruct (rs_ActiveInQualifiedInterval r) eqn:Ha; [|done]. by rewrite Hall.
Qed.

Lemma gate_operations_passed ci :
  gr_Outcome (gate_operations ci (results ci)) = OutcomePassed <->
  ~ allowed_denied ci /\ forall r, r ∈ ci_Retained ci -> rs_ActiveInQualifiedInterval r = true -> evidenced ci r.
Proof.
  rewrite <- contradicted_allowed_iff, <- missing_nil. unfold gate_operations.
  destruct (contradicted_allowed _ _), (missing _ _), (elapsed ci); cbn; naive_solver.
Qed.

Lemma gate_operations_failed ci :
  gr_Outcome (gate_operations ci (results ci)) = OutcomeFailed <-> allowed_denied ci.
Proof.
  rewrite <- contradicted_allowed_cons.
  unfold gate_operations. destruct (contradicted_allowed _ _), (missing _ _), (elapsed ci); cbn; naive_solver.
Qed.

Lemma gate_reports_passed ci :
  gr_Outcome (gate_reports ci) = OutcomePassed <->
  forall rep, rep ∈ ci_Reports ci -> hr_Kind rep = ReportProblem -> hr_CreatedAt rep < ci_AppliedAt ci.
Proof.
  unfold gate_reports. destruct (List.filter _ _) as [|r l] eqn:E; cbn.
  - split; [intros _ rep Hr Hk|done]. apply Z.nle_gt. intros Hc.
    pose proof (filter_nil_false _ _ E rep Hr) as Hf. by rewrite (proj2 (report_after_iff ci ReportProblem rep)) in Hf.
  - split; [done|]. intros Hall. assert (r ∈ r :: l) as Hr by left. rewrite <- E in Hr.
    apply elem_of_filter_b in Hr as [Hr [Hk Hc]%report_after_iff]. specialize (Hall r Hr Hk). lia.
Qed.

Lemma gate_window_passed ci :
  gr_Outcome (gate_window ci) = OutcomePassed <->
  fullEnd ci <= ci_Now ci /\ trail_complete (ci_Trail ci) (ci_AppliedAt ci) (windowEnd ci) /\ ci_PublishedAfterApply ci = true.
Proof.
  rewrite <- trailCovers_spec. unfold gate_window, elapsed. rewrite <- Z.ltb_ge.
  destruct (trailCovers _ _ _) as [[] r], (ci_Now ci <? fullEnd ci), (ci_PublishedAfterApply ci); cbn; naive_solver.
Qed.

Lemma gate_artifact_passed ci : gr_Outcome (gate_artifact ci) = OutcomePassed <-> ci_ArtifactOutcome ci = OutcomePassed.
Proof.
  unfold gate_artifact. cbn [gr_Outcome gate].
  destruct (String.eqb_spec (ci_ArtifactOutcome ci) OutcomePassed) as [E|E]; [done|].
  by destruct (ci_ArtifactOutcome ci =? OutcomeFailed)%string.
Qed.

(** A gate passes exactly on the evidence it names. *)
Lemma canary_pass_iff ci :
  cr_Pass (EvaluateCanary ci) = true <->
  gr_Outcome (gate_artifact ci) = OutcomePassed /\
  gr_Outcome (gate_failures ci (unexpected_failures ci)) = OutcomePassed /\
  gr_Outcome (gate_operations ci (results ci)) = OutcomePassed /\
  gr_Outcome (gate_reports ci) = OutcomePassed /\ gr_Outcome (gate_window ci) = OutcomePassed.
Proof.
  cbn [EvaluateCanary cr_Pass forallb]. unfold outcome_is. rewrite !andb_true_iff, !String.eqb_eq. tauto.
Qed.

(** The canary passes exactly when the artifact was verified, no
    authorization denial of the role in the window is left unexplained by a
    declared expected=denied item, the CloudTrail reads cover the window
    without a hole or a capped read, no declared expected=allowed item was
    denied, every retained service active in the qualified interval has
    success evidence, no problem was reported since the change, the canary
    hours have elapsed and a publication followed. *)
Theorem canary_pass_exact ci :
  cr_Pass (EvaluateCanary ci) = true <->
  ci_ArtifactOutcome ci = OutcomePassed /\
  (forall e, ~ unexplained ci e) /\
  trail_complete (ci_Trail ci) (ci_AppliedAt ci) (fullEnd ci) /\
  ~ allowed_denied ci /\
  (forall r, r ∈ ci_Retained ci -> rs_ActiveInQualifiedInterval r = true -> evidenced ci r) /\
  (forall rep, rep ∈ ci_Reports ci -> hr_Kind rep = ReportProblem -> hr_CreatedAt rep < ci_AppliedAt ci) /\
  fullEnd ci <= ci_Now ci /\ ci_PublishedAfterApply ci = true.
Proof.
  rewrite canary_pass_iff, gate_artifact_passed, gate_failures_passed, gate_operations_passed, gate_reports_passed,
    gate_window_passed.
  assert (fullEnd ci <= ci_Now ci -> windowEnd ci = fullEnd ci) as Hw.
  { unfold windowEnd. intros. case_match; bool_prop; lia. }
  split.
  - intros (Ha & (Hu & Ht) & Ho & Hr & Hf & _ & Hp). rewrite (Hw Hf) in Ht. tauto.
  - intros (Ha & Hu & Ht & Hd & He & Hr & Hf & Hp). rewrite (Hw Hf). tauto.
Qed.

Lemma gate_reports_failed ci :
  gr_Outcome (gate_reports ci) = OutcomeFailed <->
  exists rep, rep ∈ ci_Reports ci /\ hr_Kind rep = ReportProblem /\ ci_AppliedAt ci <= hr_CreatedAt rep.
Proof.
  unfold gate_reports. setoid_rewrite <- report_after_iff. setoid_rewrite <- elem_of_filter_b.
  destruct (List.filter _ _) as [|r l]; cbn; [split; [done|set_solver]|].
  split; [intros _; exists r; left|done].
Qed.

Lemma gate_window_not_failed ci : gr_Outcome (gate_window ci) <> OutcomeFailed.
Proof. unfold gate_window. destruct (trailCovers _ _ _). by repeat case_match. Qed.

Lemma gate_artifact_failed ci : gr_Outcome (gate_artifact ci) = OutcomeFailed <-> ci_ArtifactOutcome ci = OutcomeFailed.
Proof.
  unfold gate_artifact. cbn [gr_Outcome gate].
  destruct (String.eqb_spec (ci_ArtifactOutcome ci) OutcomePassed) as [E|E]; [by rewrite E|].
  by destruct (String.eqb_spec (ci_ArtifactOutcome ci) OutcomeFailed).
Qed.

(** A canary pauses the rollout exactly when the artifact failed, a denial
    of the role in the window is unexplained, a declared expected=allowed item
    was denied, or a problem was reported since the change; whether the
    CloudTrail reads are complete does not matter to a denial that was seen. *)
Theorem canary_pause_exact ci :
  cr_Pause (EvaluateCanary ci) = true <->
  ci_ArtifactOutcome ci = OutcomeFailed \/ (exists e, unexplained ci e) \/ allowed_denied ci \/
  (exists rep, rep ∈ ci_Reports ci /\ hr_Kind rep = ReportProblem /\ ci_AppliedAt ci <= hr_CreatedAt rep).
Proof.
  cbn [EvaluateCanary cr_Pause existsb]. unfold outcome_is.
  rewrite !orb_true_iff, !String.eqb_eq, gate_artifact_failed, gate_failures_failed, gate_operations_failed, gate_reports_failed.
  pose proof (gate_window_not_failed ci). intuition congruence.
Qed.

(** * Restriction *)

(** Restriction of the whole removal against the per-service posture: one
    loop over a set of namespaces is the union of the loops over each. *)
Lemma denied_item_union (R : list string) test pairs :
  existsb (denied_item (fun s => bool_decide (s ∈ R)) test) pairs = true <->
  exists s, s ∈ R /\ existsb (denied_item (fun x => (x =? s)%string) test) pairs = true.
Proof.
  setoid_rewrite existsb_elem. unfold denied_item. split.
  - intros (p & Hp & [[Hx Hs%bool_decide_eq_true]%andb_true_iff Ht]%andb_true_iff).
    eexists. split; [exact Hs|]. exists p. by rewrite Hx, String.eqb_refl, Ht.
  - intros (s & Hs & p & Hp & [[Hx <-%String.eqb_eq]%andb_true_iff Ht]%andb_true_iff).
    exists p. by rewrite Hx, Ht, (bool_decide_eq_true_2 _ Hs).
Qed.

(** The boundary-attributed denials of one service. *)
Definition service_denial (ci : CanaryInput) (s : string) (e : TrailEvent) : bool :=
  role_denial ci e && (te_service e =? s)%string && boundary_denial e.

Lemma boundary_denial_union ci (R : list string) :
  existsb boundary_denial (List.filter (fun e => role_denial ci e && bool_decide (te_service e ∈ R)) (ci_Events ci)) = true <->
  exists s, s ∈ R /\ existsb (service_denial ci s) (ci_Events ci) = true.
Proof.
  setoid_rewrite existsb_elem. unfold service_denial. split.
  - intros (e & [He [Hr Hs%bool_decide_eq_true]%andb_true_iff]%elem_of_filter_b & Hb).
    eexists. split; [exact Hs|]. exists e. by rewrite Hr, String.eqb_refl, Hb.
  - intros (s & Hs & e & He & [[Hr <-%String.eqb_eq]%andb_true_iff Hb]%andb_true_iff).
    exists e. split; [|done]. apply elem_of_filter_b. by rewrite Hr, (bool_decide_eq_true_2 _ Hs).
Qed.

Lemma serviceRestriction_contradicted ci s :
  serviceRestriction ci (results ci) s = RestrictionContradicted <->
  existsb (denied_item (fun x => (x =? s)%string) item_contradicted) (item_pairs ci (results ci)) = true.
Proof. unfold serviceRestriction. by repeat case_match. Qed.

Lemma serviceRestriction_observed ci s :
  serviceRestriction ci (results ci) s = RestrictionObserved <->
  serviceRestriction ci (results ci) s <> RestrictionContradicted /\
  (existsb (denied_item (fun x => (x =? s)%string) item_attested) (item_pairs ci (results ci)) = true \/
   existsb (service_denial ci s) (ci_Events ci) = true).
Proof.
  unfold serviceRestriction, service_denial. rewrite <- orb_true_iff.
  destruct (existsb (denied_item _ item_contradicted) _); [by split; [|intros []]|].
  destruct (existsb (denied_item _ item_attested) _ || _); naive_solver.
Qed.

Lemma restriction_failed ci :
  ci_RemovesServices ci = true ->
  dr_Outcome (restriction ci (results ci)) = OutcomeFailed <->
  exists s, s ∈ ci_Removed ci /\ serviceRestriction ci (results ci) s = RestrictionContradicted.
Proof.
  intros Hr. setoid_rewrite serviceRestriction_contradicted. rewrite <- denied_item_union.
  unfold restriction. rewrite Hr. cbn [negb]. by repeat case_match.
Qed.

Lemma restriction_passed ci :
  ci_RemovesServices ci = true ->
  dr_Outcome (restriction ci (results ci)) = OutcomePassed <->
  (forall s, s ∈ ci_Removed ci -> serviceRestriction ci (results ci) s <> RestrictionContradicted) /\
  exists s, s ∈ ci_Removed ci /\ serviceRestriction ci (results ci) s = RestrictionObserved.
Proof.
  intros Hr. pose proof (restriction_failed ci Hr) as Hf.
  transitivity (dr_Outcome (restriction ci (results ci)) <> OutcomeFailed /\
    ((exists s, s ∈ ci_Removed ci /\ existsb (denied_item (fun x => (x =? s)%string) item_attested) (item_pairs ci (results ci)) = true) \/
     (exists s, s ∈ ci_Removed ci /\ existsb (service_denial ci s) (ci_Events ci) = true))).
  - rewrite <- denied_item_union, <- boundary_denial_union. unfold restriction. rewrite Hr. cbn [negb].
    destruct (existsb (denied_item _ item_contradicted) _); [cbn; naive_solver|].
    destruct (existsb (denied_item _ item_attested) _); [cbn; naive_solver|].
    destruct (existsb boundary_denial _); [cbn; naive_solver|].
    destruct (List.filter _ _); cbn; naive_solver.
  - rewrite Hf. setoid_rewrite serviceRestriction_observed. naive_solver.
Qed.

Lemma lookup_service_restriction ci s r :
  cr_ServiceRestriction (EvaluateCanary ci) !! s = Some r <->
  s ∈ ci_Removed ci /\ serviceRestriction ci (results ci) s = r.
Proof.
  cbn [EvaluateCanary cr_ServiceRestriction]. rewrite <- (elem_of_sortedUnique s).
  pose proof (sortedUnique_NoDup (ci_Removed ci)) as Hnd.
  rewrite <- elem_of_list_to_map.
  - rewrite list_elem_of_In, in_map_iff. setoid_rewrite <- list_elem_of_In. naive_solver.
  - change (map ?f ?l) with (f <$> l). rewrite <- list_fmap_compose. by rewrite (list_fmap_id _).
Qed.

(** The restriction dimension and the posture of each removed service
    agree. A plan that removes no service is not applicable. Otherwise the
    dimension failed exactly when some removed service is contradicted, and
    passed exactly when none is and the boundary was observed to act on at
    least one; and a service is contradicted exactly when a call declared
    expected=denied in its namespace was answered without a denial. *)
Theorem restriction_consistent ci (R := EvaluateCanary ci) :
  (ci_RemovesServices ci = false -> dr_Outcome (cr_Restriction R) = OutcomeNotApplicable) /\
  (ci_RemovesServices ci = true ->
     (dr_Outcome (cr_Restriction R) = OutcomeFailed <->
        exists s, cr_ServiceRestriction R !! s = Some RestrictionContradicted) /\
     (dr_Outcome (cr_Restriction R) = OutcomePassed <->
        (forall s, cr_ServiceRestriction R !! s <> Some RestrictionContradicted) /\
        exists s, cr_ServiceRestriction R !! s = Some RestrictionObserved)) /\
  (forall s, cr_ServiceRestriction R !! s = Some RestrictionContradicted <->
     s ∈ ci_Removed ci /\
     exists v it e, v ∈ ci_Validations ci /\ it ∈ va_Items v /\ vi_Expected it = ExpectDenied /\
       ToLower (action_ns (vi_Action it)) = s /\ e ∈ ci_Events ci /\ belongs e v it = true /\ te_denied e = false).
Proof.
  subst R. split; [|split].
  - intros Hr. cbn. unfold restriction. by rewrite Hr.
  - intros Hr. change (cr_Restriction (EvaluateCanary ci)) with (restriction ci (results ci)).
    rewrite restriction_failed, restriction_passed by done. setoid_rewrite lookup_service_restriction. naive_solver.
  - intros s. rewrite lookup_service_restriction, serviceRestriction_contradicted, existsb_elem.
    setoid_rewrite elem_of_item_pairs. apply and_iff_compat_l. unfold denied_item. split.
    + intros (p & (v & it & Hv & Hit & ->) & Hb). cbn [fst snd] in Hb.
      apply andb_true_iff in Hb as [[Hx%String.eqb_eq Hs%String.eqb_eq]%andb_true_iff (e & He & Hb & Ha)%item_contradicted_iff].
      destruct (correlate_item_spec v (ci_Events ci) it) as (_ & Hxp & _). rewrite Hxp in Hx.
      rewrite agrees_denied in Ha by done. by exists v, it, e.
    + intros (v & it & e & Hv & Hit & Hx & Hs & He & Hb & Hd). eexists. split; [by exists v, it|]. cbn [fst snd].
      destruct (correlate_item_spec v (ci_Events ci) it) as (_ & -> & _). rewrite Hx, Hs, !String.eqb_refl. cbn [andb].
      apply item_contradicted_iff. exists e. by rewrite agrees_denied, Hd.
Qed.

(** * Validation results *)

(** The constraint of the stored item results (051 [iga_gov_vi_result_chk]). *)
Definition item_check (ir : ItemResult) : Prop :=
  (ir_Result ir = "contradicted" /\ 0 < ir_OppositeEvents ir) \/
  (ir_Result ir = "matched" /\ 0 < ir_MatchedEvents ir /\ ir_OppositeEvents ir = 0) \/
  (ir_Result ir = "not_seen" /\ ir_MatchedEvents ir = 0 /\ ir_OppositeEvents ir = 0).

Lemma correlate_item_check v events it : item_check (correlate_item v events it).
Proof.
  destruct (correlate_item_spec v events it) as (_ & _ & Hm & Ho & _).
  pose proof (counted_nonneg (fun e => belongs e v it && agrees it e) events).
  pose proof (counted_nonneg (fun e => belongs e v it && negb (agrees it e)) events).
  unfold item_check, correlate_item in *. cbn [ir_Result ir_MatchedEvents ir_OppositeEvents] in *.
  repeat case_match; bool_prop; [left|right; left|right; right]; repeat split; lia.
Qed.

Lemma counted_split f g l : counted (fun e => f e && g e) l + counted (fun e => f e && negb (g e)) l = counted f l.
Proof.
  unfold counted. induction l as [|e l IH]; [done|]. cbn [List.filter].
  destruct (f e), (g e); cbn [andb negb length]; lia.
Qed.

Lemma items_with_zero res l : items_with res l = O <-> forall ir, ir ∈ l -> ir_Result ir <> res.
Proof.
  unfold items_with. rewrite length_zero_iff_nil. split.
  - intros Hn ir Hir. apply String.eqb_neq. by apply (filter_nil_false _ _ Hn).
  - intros Hall. apply filter_none. intros ir Hir. by apply String.eqb_neq, Hall.
Qed.

Lemma items_with_pos res l : (0 <? items_with res l)%nat = true <-> exists ir, ir ∈ l /\ ir_Result ir = res.
Proof.
  unfold items_with. rewrite Nat.ltb_lt.
  assert (forall ir, ir ∈ List.filter (fun ir => (ir_Result ir =? res)%string) l <-> ir ∈ l /\ ir_Result ir = res) as Hf.
  { intros ir. by rewrite elem_of_filter_b, String.eqb_eq. }
  setoid_rewrite <- Hf.
  destruct (List.filter _ _) as [|x k]; cbn; [split; [lia|set_solver]|]. split; [intros _; exists x; left|lia].
Qed.

Lemma request_result_spec l :
  (forall ir, ir ∈ l -> ir_Result ir = "contradicted" \/ ir_Result ir = "matched" \/ ir_Result ir = "not_seen") ->
  (request_result l = "contradicted" <-> exists ir, ir ∈ l /\ ir_Result ir = "contradicted") /\
  (request_result l = "matched" <-> l <> [] /\ forall ir, ir ∈ l -> ir_Result ir = "matched") /\
  (request_result l = "not_seen" <-> forall ir, ir ∈ l -> ir_Result ir = "not_seen").
Proof.
  intros Hres. pose proof (items_with_pos "contradicted" l) as Hc. pose proof (items_with_pos "matched" l) as Hm.
  pose proof (items_with_zero "not_seen" l) as Hn. unfold request_result.
  destruct (0 <? items_with "contradicted" l)%nat.
  { destruct (proj1 Hc eq_refl) as (ir & Hir & Hx). repeat split; try done.
    - by exists ir.
    - intros [_ Hall]. by rewrite Hall in Hx.
    - intros Hall. by rewrite Hall in Hx. }
  assert (forall ir, ir ∈ l -> ir_Result ir <> "contradicted") as Hnc.
  { intros ir Hir Hx. by assert (false = true) by (apply Hc; eauto). }
  assert (forall r, r <> "contradicted" -> r = "contradicted" <-> exists ir, ir ∈ l /\ ir_Result ir = "contradicted") as Hno.
  { intros r Hr. split; [done|]. intros (q & Hq & Hx). by destruct (Hnc q Hq). }
  destruct (0 <? items_with "matched" l)%nat.
  - destruct (proj1 Hm eq_refl) as (ir & Hir & Hx). assert (l <> []) by (by intros ->; apply not_elem_of_nil in Hir).
    destruct (Nat.eqb_spec (items_with "not_seen" l) 0) as [E|E]; (split; [by apply Hno|]).
    + pose proof (proj1 Hn E) as Hns. split.
      * split; [intros _; split; [done|]|done]. intros q Hq. by destruct (Hres q Hq) as [?%(Hnc q Hq)|[?|?%(Hns q Hq)]].
      * split; [done|]. intros Hall. by destruct (Hns ir Hir (Hall ir Hir)).
    + split.
      * split; [done|]. intros [_ Hall]. destruct E. apply Hn. intros q Hq. by rewrite Hall.
      * split; [done|]. intros Hall. by rewrite (Hall ir Hir) in Hx.
  - assert (forall ir, ir ∈ l -> ir_Result ir <> "matched") as Hnm.
    { intros ir Hir Hx. by assert (false = true) by (apply Hm; eauto). }
    split; [by apply Hno|]. split.
    + split; [done|]. intros [Hl Hall]. destruct l as [|q l]; [done|]. destruct (Hnm q); [left|]. apply Hall. left.
    + split; [|done]. intros _ q Hq. by destruct (Hres q Hq) as [?%(Hnc q Hq)|[?%(Hnm q Hq)|?]].
Qed.

(** Every stored validation result is consistent. The items of a request
    are the declared ones in order, each satisfies the table's constraint and
    counts each event that belongs to it exactly once; the request is
    contradicted exactly when an item is, matched exactly when it has items
    and all of them matched, and not_seen exactly when none was seen. *)
Theorem validation_results_consistent vs events vr :
  vr ∈ CorrelateValidations vs events ->
  exists v, v ∈ vs /\ vr_ID vr = va_ID v /\ length (vr_Items vr) = length (va_Items v) /\
  (forall i it, va_Items v !! i = Some it -> exists ir, vr_Items vr !! i = Some ir /\
     ir_Action ir = vi_Action it /\ ir_Expected ir = vi_Expected it /\ item_check ir /\
     ir_MatchedEvents ir + ir_OppositeEvents ir = counted (fun e => belongs e v it) events) /\
  (vr_Result vr = "contradicted" <-> exists ir, ir ∈ vr_Items vr /\ ir_Result ir = "contradicted") /\
  (vr_Result vr = "matched" <-> vr_Items vr <> [] /\ forall ir, ir ∈ vr_Items vr -> ir_Result ir = "matched") /\
  (vr_Result vr = "not_seen" <-> forall ir, ir ∈ vr_Items vr -> ir_Result ir = "not_seen").
Proof.
  unfold CorrelateValidations. rewrite list_elem_of_In, in_map_iff. intros (v & <- & Hv%list_elem_of_In).
  exists v. cbn [vr_ID vr_Items vr_Result]. split; [done|]. split; [done|]. split; [apply length_map|]. split.
  { intros i it Hi. exists (correlate_item v events it).
    destruct (correlate_item_spec v events it) as (Ha & Hx & Hm & Ho & _).
    split; [by rewrite list_lookup_fmap, Hi|]. repeat split; [done|done|apply correlate_item_check|].
    rewrite Hm, Ho. apply counted_split. }
  assert (forall ir, ir ∈ map (correlate_item v events) (va_Items v) -> item_check ir) as Hck.
  { intros ir. rewrite list_elem_of_In, in_map_iff. intros (it & <- & _). apply correlate_item_check. }
  generalize dependent (map (correlate_item v events) (va_Items v)). intros l Hck.
  assert (forall ir, ir ∈ l -> ir_Result ir = "contradicted" \/ ir_Result ir = "matched" \/ ir_Result ir = "not_seen") as Hres.
  { intros ir Hir. destruct (Hck ir Hir) as [[? _]|[[? _]|[? _]]]; auto. }
  apply request_result_spec, Hres.
Qed.

(** A validation with one contradicted item (a call expected to be denied that
    was answered), one matched item and one never seen. *)
Definition w_event (name code : string) : TrailEvent :=
  {| te_EventTime := 5; te_PrincipalID := "AROA1"; te_SessionName := "check"; te_EventSource := "sqs.amazonaws.com";
     te_EventName := name; te_ErrorCode := code; te_DenialPolicyType := "permissions_boundary" |}.
Definition w_validation : Validation :=
  {| va_ID := "v1"; va_RoleID := "AROA1"; va_SessionName := "check"; va_WindowStart := 0; va_WindowEnd := 10;
     va_Items := [{| vi_Action := "sqs:ListQueues"; vi_Expected := "denied" |};
                  {| vi_Action := "sqs:SendMessage"; vi_Expected := "denied" |};
                  {| vi_Action := "sqs:PurgeQueue"; vi_Expected := "allowed" |}] |}.
Definition w_events : list TrailEvent := [w_event "ListQueues" ""; w_event "SendMessage" "AccessDenied"].

Lemma validation_results_consistent_witness :
  exists vr, vr ∈ CorrelateValidations [w_validation] w_events /\ vr_Result vr = "contradicted" /\
  (vr_Result vr = "contradicted" <-> exists ir, ir ∈ vr_Items vr /\ ir_Result ir = "contradicted").
Proof.
  eexists. split; [left|]. split; [vm_compute; reflexivity|].
  refine (match validation_results_consistent [w_validation] w_events _ ltac:(left) with
          | ex_intro _ v (conj _ (conj _ (conj _ (conj _ (conj H _))))) => H end).
Defined.

(** * Observation *)

Lemma elem_of_target_attempts t a :
  a ∈ target_attempts t <->
  at_RoleID a = ot_RoleID t /\ ot_LastAttempts t !! at_Service a = Some (Some (at_At a)) /\ ot_EvidenceReportAt t < at_At a.
Proof.
  unfold target_attempts. rewrite list_elem_of_omap. setoid_rewrite elem_of_sortedKeys. split.
  - intros (svc & _ & Hs). destruct (ot_LastAttempts t !! svc) as [[x|]|] eqn:E; [|done|done].
    destruct (ot_EvidenceReportAt t <? x) eqn:Hl; [|done]. injection Hs as <-. cbn. bool_prop. done.
  - intros (Hr & Hl & Hlt). exists (at_Service a). rewrite Hl. split; [eauto|].
    rewrite (proj2 (Z.ltb_lt _ _) Hlt). by destruct a; cbn in *; subst.
Qed.

Lemma elem_of_back u now ts a :
  a ∈ or_BackToDraft (EvaluateObservation u now ts) <-> exists t, t ∈ ts /\ a ∈ target_attempts t.
Proof.
  cbn. rewrite list_elem_of_In, in_concat. setoid_rewrite in_map_iff. setoid_rewrite <- list_elem_of_In. naive_solver.
Qed.

Lemma elem_of_awaiting u now ts r :
  r ∈ or_AwaitingReport (EvaluateObservation u now ts) <->
  exists t, t ∈ ts /\ ot_RoleID t = r /\ forall g, ot_ReportGeneratedAt t = Some g -> g < u + ReportingLag.
Proof.
  cbn. rewrite elem_of_sort_slice, elem_of_map_filter. apply exist_proper. intros t.
  assert (awaits_report (ObserveEvidenceRequiredAfter u) t = true <->
    forall g, ot_ReportGeneratedAt t = Some g -> g < u + ReportingLag) as ->; [|tauto].
  unfold awaits_report, ObserveEvidenceRequiredAfter. destruct (ot_ReportGeneratedAt t); [|done].
  rewrite Z.ltb_lt. naive_solver.
Qed.

Lemma length_zero {A} (l : list A) : (length l =? 0)%nat = true <-> forall x, ~ x ∈ l.
Proof.
  destruct l as [|x l]; cbn; [split; [intros _ x; apply not_elem_of_nil|done]|].
  split; [done|]. intros Hn. by destruct (Hn x); left.
Qed.

(** Observation sends back to draft exactly the removed services attempted
    after the report their removal was proposed from; it completes exactly
    when [observe_until] has passed, every target has a report generated at
    least the reporting lag after it, and nothing goes back to draft; a refresh
    is asked for exactly when the time has passed and some report is missing. *)
Theorem observation_exact u now ts (r := EvaluateObservation u now ts) :
  (forall a, a ∈ or_BackToDraft r <-> exists t, t ∈ ts /\ at_RoleID a = ot_RoleID t /\
     ot_LastAttempts t !! at_Service a = Some (Some (at_At a)) /\ ot_EvidenceReportAt t < at_At a) /\
  (or_Complete r = true <->
     u <= now /\
     (forall t, t ∈ ts -> exists g, ot_ReportGeneratedAt t = Some g /\ u + ReportingLag <= g) /\
     (forall t svc at_, t ∈ ts -> ot_LastAttempts t !! svc = Some (Some at_) -> at_ <= ot_EvidenceReportAt t)) /\
  (or_NeedsRefresh r = true <-> u <= now /\ exists t, t ∈ ts /\
     forall g, ot_ReportGeneratedAt t = Some g -> g < u + ReportingLag).
Proof.
  subst r. pose proof (elem_of_back u now ts) as Hb. pose proof (elem_of_awaiting u now ts) as Ha.
  setoid_rewrite elem_of_target_attempts in Hb. split; [exact Hb|]. split.
  - transitivity (u <= now /\ (forall x, ~ x ∈ or_AwaitingReport (EvaluateObservation u now ts)) /\
      (forall x, ~ x ∈ or_BackToDraft (EvaluateObservation u now ts))).
    { rewrite <- !length_zero, <- Z.ltb_ge, <- negb_true_iff, <- !andb_true_iff, andb_assoc. done. }
    setoid_rewrite Hb. setoid_rewrite Ha. apply and_iff_compat_l. f_equiv.
    + split.
      * intros Hn t Ht. destruct (ot_ReportGeneratedAt t) as [g|] eqn:Eg.
        { exists g. split; [done|]. apply Z.nlt_ge. intros Hlt. apply (Hn (ot_RoleID t)). exists t. naive_solver. }
        destruct (Hn (ot_RoleID t)). exists t. naive_solver.
      * intros Hall x (t & Ht & _ & Hg). destruct (Hall t Ht) as (g & Eg & Hge). specialize (Hg g Eg). lia.
    + split.
      * intros Hn t svc a Ht Hl. apply Z.nlt_ge. intros Hlt.
        apply (Hn {| at_RoleID := ot_RoleID t; at_Service := svc; at_At := a |}). by exists t.
      * intros Hall a (t & Ht & _ & Hl & Hlt). specialize (Hall t _ _ Ht Hl). lia.
  - transitivity (u <= now /\ (length (or_AwaitingReport (EvaluateObservation u now ts)) =? 0)%nat = false).
    { rewrite <- Z.ltb_ge, <- !negb_true_iff, <- !andb_true_iff. done. }
    apply and_iff_compat_l. clear Hb. destruct (or_AwaitingReport _) as [|x l]; cbn.
    + split; [done|]. intros (t & Ht & Hg). exfalso. apply (not_elem_of_nil (ot_RoleID t)), Ha. by exists t.
    + split; [intros _|done]. destruct (proj1 (Ha x)) as (t & Ht & _ & Hg); [left|by exists t].
Qed.

(** * The rollout's decision *)

Lemma outcome_is_iff o g : outcome_is o g = true <-> gr_Outcome g = o.
Proof. apply String.eqb_eq. Qed.

(** A gate passed, or was not available and is accepted. *)
Definition let_through (acc : gset string) (g : GateResult) : Prop :=
  gr_Outcome g = OutcomePassed \/ (gr_Outcome g = OutcomeNotAvailable /\ gr_Gate g ∈ acc).

Lemma gate_ok_iff ev extra g : gate_ok ev extra g = true <-> let_through (ge_accepted ev ∪ extra) g.
Proof.
  unfold gate_ok, let_through.
  rewrite orb_true_iff, andb_true_iff, orb_true_iff, !bool_decide_eq_true, !outcome_is_iff, elem_of_union. done.
Qed.

Lemma through_failures ci acc :
  let_through acc (gate_failures ci (unexpected_failures ci)) <->
  (forall e, ~ unexplained ci e) /\
  (trail_complete (ci_Trail ci) (ci_AppliedAt ci) (windowEnd ci) \/ GateNoUnexpectedFailures ∈ acc).
Proof.
  rewrite <- unexpected_failures_iff, <- trailCovers_spec. unfold let_through, gate_failures.
  destruct (trailCovers _ _ _) as [[] r]; destruct (unexpected_failures ci); cbn; naive_solver.
Qed.

Lemma through_operations ci acc :
  let_through acc (gate_operations ci (results ci)) <->
  ~ allowed_denied ci /\
  ((forall r, r ∈ ci_Retained ci -> rs_ActiveInQualifiedInterval r = true -> evidenced ci r) \/
   (elapsed ci = true /\ GateRequiredOperations ∈ acc)).
Proof.
  rewrite <- contradicted_allowed_iff, <- missing_nil. unfold let_through, gate_operations.
  destruct (contradicted_allowed _ _), (missing _ _), (elapsed ci); cbn; naive_solver.
Qed.

Lemma through_window ci acc :
  let_through acc (gate_window ci) <->
  elapsed ci = true /\
  ((trailCovers (ci_Trail ci) (ci_AppliedAt ci) (windowEnd ci)).1 = true /\ ci_PublishedAfterApply ci = true \/
   (trailCovers (ci_Trail ci) (ci_AppliedAt ci) (windowEnd ci)).1 = false /\ GateWindowElapsed ∈ acc).
Proof.
  unfold let_through, gate_window.
  destruct (trailCovers _ _ _) as [[] r], (elapsed ci), (ci_PublishedAfterApply ci); cbn; naive_solver.
Qed.

Lemma through_artifact ci acc : let_through acc (gate_artifact ci) <-> ci_ArtifactOutcome ci = OutcomePassed.
Proof.
  unfold let_through. rewrite gate_artifact_passed. split; [intros [?|[Ho _]]|by left]; [done|].
  unfold gate_artifact in Ho. cbn in Ho. by repeat case_match.
Qed.

Lemma through_reports ci acc : let_through acc (gate_reports ci) <-> gr_Outcome (gate_reports ci) = OutcomePassed.
Proof.
  unfold let_through. split; [intros [?|[Ho _]]|by left]; [done|].
  unfold gate_reports in Ho. by destruct (List.filter _ _).
Qed.

(** Every declared validation looks at or after the change only. *)
Definition validated_after (ci : CanaryInput) : Prop :=
  forall v, v ∈ ci_Validations ci -> ci_AppliedAt ci <= va_WindowStart v.

(** The success evidence the gate is documented to need, all of it of this
    change, that is, of no time before it was applied. *)
Definition evidenced_after (ci : CanaryInput) (r : RetainedService) : Prop :=
  (exists v it, v ∈ ci_Validations ci /\ it ∈ va_Items v /\ vi_Expected it = ExpectAllowed /\
     ToLower (action_ns (vi_Action it)) = rs_Service r /\
     (exists e, e ∈ ci_Events ci /\ belongs e v it = true /\ ci_AppliedAt ci <= te_EventTime e) /\
     (forall e, e ∈ ci_Events ci -> belongs e v it = true -> te_denied e = false)) \/
  (exists rep, rep ∈ ci_Reports ci /\ hr_Kind rep = ReportWorking /\ ci_AppliedAt ci <= hr_CreatedAt rep /\
     hr_Service rep = rs_Service r) \/
  (rs_DataEventsOnly r = false /\
   exists e, e ∈ ci_Events ci /\ te_PrincipalID e = ci_RoleID ci /\
     ci_AppliedAt ci <= te_EventTime e <= windowEnd ci /\ te_ErrorCode e = "" /\ te_service e = rs_Service r).

Lemma belongs_starts e v it : belongs e v it = true -> va_WindowStart v <= te_EventTime e.
Proof. unfold belongs. rewrite !andb_true_iff, !negb_true_iff, !Z.ltb_ge. tauto. Qed.

Lemma evidenced_after_iff ci r : validated_after ci -> evidenced ci r <-> evidenced_after ci r.
Proof.
  intros Hv. unfold evidenced, evidenced_after. split; (intros [(v & it & Hin & ? & ? & ? & (e & ? & Hb) & ?)|?]; [left|by right]).
  - exists v, it. split_and!; [done..| |done]. exists e. split_and!; [done..|].
    apply belongs_starts in Hb. specialize (Hv v Hin). lia.
  - exists v, it. split_and!; [done..| |done]. exists e. naive_solver.
Qed.

(** What the gates let through, for any windows of the validations. *)
Lemma expansion_gates ci accepted extra :
  passes {| ge_applied := true; ge_result := EvaluateCanary ci; ge_accepted := accepted |} extra = true <->
  ci_ArtifactOutcome ci = OutcomePassed /\ (forall e, ~ unexplained ci e) /\ ~ allowed_denied ci /\
  (forall rep, rep ∈ ci_Reports ci -> hr_Kind rep = ReportProblem -> hr_CreatedAt rep < ci_AppliedAt ci) /\
  fullEnd ci <= ci_Now ci /\
  ((forall r, r ∈ ci_Retained ci -> rs_ActiveInQualifiedInterval r = true -> evidenced ci r) \/
   GateRequiredOperations ∈ accepted ∪ extra) /\
  ((trail_complete (ci_Trail ci) (ci_AppliedAt ci) (fullEnd ci) /\ ci_PublishedAfterApply ci = true) \/
   (~ trail_complete (ci_Trail ci) (ci_AppliedAt ci) (fullEnd ci) /\
    {[GateNoUnexpectedFailures; GateWindowElapsed]} ⊆ accepted ∪ extra)).
Proof.
  unfold passes. cbn [ge_applied ge_result negb orb EvaluateCanary cr_Gates length Nat.eqb forallb].
  rewrite !andb_true_iff, !gate_ok_iff. cbn [ge_accepted].
  rewrite through_artifact, through_failures, through_operations, through_reports, gate_reports_passed, through_window.
  rewrite <- !trailCovers_spec. unfold elapsed. rewrite negb_true_iff, Z.ltb_ge.
  assert (fullEnd ci <= ci_Now ci -> windowEnd ci = fullEnd ci) as Hw.
  { unfold windowEnd. intros. case_match; bool_prop; lia. }
  rewrite union_subseteq, !singleton_subseteq_l.
  split.
  - intros (Ha & (Hu & Ht) & (Hd & He) & Hr & (Hf & Hp) & _). rewrite (Hw Hf) in Ht, Hp.
    destruct (trailCovers _ _ _).1; intuition congruence.
  - intros (Ha & Hu & Hd & Hr & Hf & He & Hp). rewrite (Hw Hf).
    destruct (trailCovers _ _ _).1; intuition congruence.
Qed.

(** C31. What a rollout can be expanded over, where every declared validation's
    window starts at or after the change ([validated_after]). With any set of
    accepted gates, the gates let a canary through exactly when the artifact
    was verified, no denial is unexplained, no expected=allowed item was
    denied, no problem was reported, the canary hours have elapsed, and each of
    the two kinds of missing evidence, the trail of the window and the success
    of a retained service, is either there or accepted by name; the success is
    of no time before the change was applied; with a complete trail a
    publication must have followed. So accepting gates never overrides a
    failure, an unverified artifact or the waiting time. Without the condition
    on the windows the code does not ask for it: a matched item of a validation
    declared from an earlier time counts with events before the change
    ([evidence_before_apply]). *)
Theorem expansion_exact ci accepted extra :
  validated_after ci ->
  passes {| ge_applied := true; ge_result := EvaluateCanary ci; ge_accepted := accepted |} extra = true <->
  ci_ArtifactOutcome ci = OutcomePassed /\ (forall e, ~ unexplained ci e) /\ ~ allowed_denied ci /\
  (forall rep, rep ∈ ci_Reports ci -> hr_Kind rep = ReportProblem -> hr_CreatedAt rep < ci_AppliedAt ci) /\
  fullEnd ci <= ci_Now ci /\
  ((forall r, r ∈ ci_Retained ci -> rs_ActiveInQualifiedInterval r = true -> evidenced_after ci r) \/
   GateRequiredOperations ∈ accepted ∪ extra) /\
  ((trail_complete (ci_Trail ci) (ci_AppliedAt ci) (fullEnd ci) /\ ci_PublishedAfterApply ci = true) \/
   (~ trail_complete (ci_Trail ci) (ci_AppliedAt ci) (fullEnd ci) /\
    {[GateNoUnexpectedFailures; GateWindowElapsed]} ⊆ accepted ∪ extra)).
Proof.
  intros Hv. rewrite expansion_gates.
  assert ((forall r, r ∈ ci_Retained ci -> rs_ActiveInQualifiedInterval r = true -> evidenced ci r) <->
    (forall r, r ∈ ci_Retained ci -> rs_ActiveInQualifiedInterval r = true -> evidenced_after ci r)) as ->; [|done].
  split; intros H r Hr Ha; by apply (evidenced_after_iff ci r Hv), H.
Qed.

(** A canary that passes: ten hours covered by one read, a call of the
    retained service answered, a publication after the change. *)
Definition w_canary (removed : list TrailEvent) : CanaryInput :=
  {| ci_RoleID := "AROA1"; ci_AppliedAt := 0; ci_Now := 20 * Hour; ci_CanaryHours := 10; ci_RemovesServices := true;
     ci_Removed := ["sns"];
     ci_Retained := [{| rs_Service := "sqs"; rs_ActiveInQualifiedInterval := true; rs_DataEventsOnly := false |}];
     ci_Events := w_event "ListQueues" "" :: removed; ci_Validations := []; ci_Reports := [];
     ci_Trail := [{| tr_From := - Hour; tr_To := 11 * Hour; tr_CapHit := false |}];
     ci_PublishedAfterApply := true; ci_ArtifactOutcome := "passed" |}.

Example canary_passes : cr_Pass (EvaluateCanary (w_canary [])) = true.
Proof. vm_compute. reflexivity. Qed.

(** One denied call of the removed service fails the gate and pauses, while
    the same event shows that the boundary acts: the two are reported side by
    side. *)
Example canary_denial_pauses :
  let r := EvaluateCanary (w_canary [{| te_EventTime := 7; te_PrincipalID := "AROA1"; te_SessionName := "job";
    te_EventSource := "sns.amazonaws.com"; te_EventName := "Publish"; te_ErrorCode := "AccessDenied";
    te_DenialPolicyType := "permissions_boundary" |}]) in
  cr_Pause r = true /\ dr_Outcome (cr_Restriction r) = OutcomePassed /\ cr_ServiceRestriction r !! "sns" = Some "observed".
Proof. vm_compute. done. Qed.

(** The success evidence of a matched expected=allowed item may lie before the
    change: the correlation looks at the validation's window only. *)
Example evidence_before_apply :
  let v := {| va_ID := "v"; va_RoleID := "AROA1"; va_SessionName := "check"; va_WindowStart := 0; va_WindowEnd := 10;
              va_Items := [{| vi_Action := "sqs:ListQueues"; vi_Expected := "allowed" |}] |} in
  let ci := {| ci_RoleID := "AROA1"; ci_AppliedAt := 100; ci_Now := 20 * Hour; ci_CanaryHours := 10; ci_RemovesServices := true;
     ci_Removed := ["sns"]; ci_Retained := ci_Retained (w_canary []);
     ci_Events := [w_event "ListQueues" ""]; ci_Validations := [v]; ci_Reports := []; ci_Trail := ci_Trail (w_canary []);
     ci_PublishedAfterApply := true; ci_ArtifactOutcome := "passed" |} in
  cr_Pass (EvaluateCanary ci) = true /\ Forall (fun e => te_EventTime e < ci_AppliedAt ci) (ci_Events ci).
Proof. split; [vm_compute; reflexivity|]. repeat constructor. Qed.

(** A canary whose retained service is shown by a matched item, declared from
    the time of the change: the gates let it through with nothing accepted, so
    the item's success is of no time before the change. *)
Definition w_validated : CanaryInput :=
  let v := {| va_ID := "v"; va_RoleID := "AROA1"; va_SessionName := "check"; va_WindowStart := 0; va_WindowEnd := 10;
              va_Items := [{| vi_Action := "sqs:ListQueues"; vi_Expected := "allowed" |}] |} in
  {| ci_RoleID := "AROA1"; ci_AppliedAt := 0; ci_Now := 20 * Hour; ci_CanaryHours := 10; ci_RemovesServices := true;
     ci_Removed := ["sns"];
     ci_Retained := [{| rs_Service := "sqs"; rs_ActiveInQualifiedInterval := true; rs_DataEventsOnly := true |}];
     ci_Events := [w_event "ListQueues" ""]; ci_Validations := [v]; ci_Reports := []; ci_Trail := ci_Trail (w_canary []);
     ci_PublishedAfterApply := true; ci_ArtifactOutcome := "passed" |}.

Lemma expansion_exact_witness :
  validated_after w_validated /\
  passes {| ge_applied := true; ge_result := EvaluateCanary w_validated; ge_accepted := ∅ |} ∅ = true /\
  evidenced_after w_validated {| rs_Service := "sqs"; rs_ActiveInQualifiedInterval := true; rs_DataEventsOnly := true |} /\
  trail_complete (ci_Trail w_validated) 0 (10 * Hour).
Proof.
  assert (validated_after w_validated) as Hv.
  { intros v ->%list_elem_of_singleton. cbn. lia. }
  assert (passes {| ge_applied := true; ge_result := EvaluateCanary w_validated; ge_accepted := ∅ |} ∅ = true) as Hp
    by (vm_compute; reflexivity).
  destruct (proj1 (expansion_exact w_validated ∅ ∅ Hv) Hp) as (_ & _ & _ & _ & _ & He & Ht).
  split_and!; [exact Hv|exact Hp| |].
  - destruct He as [He|He]; [apply He; [left|reflexivity]|exfalso; set_solver].
  - destruct Ht as [[Ht _]|[_ Ht]]; [exact Ht|exfalso; set_solver].
Defined.
