(* ===== verification/Authz.v ===== *)
(** Authorization of HTTP requests (internal/authz).

    Every protected route runs [Require], [RequireAll] or [RequireAny] on the
    claims of the caller's token; [Allows] states the same permission without
    enforcing it. A permission comes from the [perms] claim, from a scope with
    wildcards, or from a role binding in the database. The log lines of the
    source have no effect on the decision and are left out. *)

From stdpp Require Import base list strings gmap sorting.
From Stdlib Require Import Ascii.
From S2P Require Import Prelude Slices Qualify PolicyDoc Catalog PolicyCanon.

(** * Claims *)

(* src: internal/authz/policy.go:5-8 (Perm) *)
Record Perm := { pm_R : string; pm_A : list string }.

(* src: internal/authz/authz.go:15-15 (Need) *)
Record Need := { nd_Resource : string; nd_Action : string }.

(** A dynamically typed Go value, with the dynamic types the package switches
    on; [AOther] is any other type. A [map[string]any] is an association
    list. *)
Inductive any :=
  | AString (s : string)
  | AAnys (l : list any)
  | AStrings (l : list string)
  | APerms (l : list Perm)
  | AMap (m : list (string * any))
  | AMaps (l : list (list (string * any)))
  | AOther.

(** [jwt.MapClaims]. *)
Abbreviation MapClaims := (gmap string any).

(** [s, _ := v.(string)]: the empty string when the type differs. *)
Definition as_string (v : option any) : string :=
  match v with Some (AString s) => s | _ => "" end.

(** [strings.Fields]: the maximal runs of non-space characters. *)
Fixpoint fields_loop (cur : string) (cs : list (option Z * string)) : list string :=
  let flush := if is_empty cur then [] else [cur] in
  match cs with
  | [] => flush
  | c :: cs => if space_chunk c then flush ++ fields_loop "" cs else fields_loop (cur +:+ c.2) cs
  end.
Definition Fields (s : string) : list string := fields_loop "" (chunks_fuel (str_length s) s).

(** * Scopes *)

(** [strings.SplitN(s, ":", 2)] with exactly two parts. *)
Definition split_scope (s : string) : option (string * string) :=
  match SplitN 2 ":"%char s with [r; a] => Some (r, a) | _ => None end.

Definition star_eq (have need : string) : bool :=
  (have =? need)%string || (have =? "*")%string || (need =? "*")%string.

(* src: internal/authz/authz.go:400-432 (wildcardMatch) *)
Definition wildcardMatch (have : list string) (needed : string) : bool :=
  match split_scope needed with
  | None => false
  | Some (nr, na) =>
      existsb (fun h => match split_scope h with
                        | None => false
                        | Some (hr, ha) => star_eq hr nr && star_eq ha na
                        end) have
  end.

(* src: internal/authz/policy.go:46-55 (MatchScope, loop) *)
Fixpoint match_scopes (nr na : string) (have : list string) : bool :=
  match have with
  | [] => false
  | s :: have =>
      match split_scope s with
      | Some (hr, ha) =>
          if ((hr =? nr)%string || (hr =? "*")%string || (nr =? "*")%string) &&
             ((ha =? na)%string || (ha =? "*")%string || (na =? "*")%string)
          then true else match_scopes nr na have
      | None => match_scopes nr na have
      end
  end.

(* src: internal/authz/policy.go:40-57 (MatchScope) *)
Definition MatchScope (have : list string) (needed : string) : bool :=
  match split_scope needed with Some (nr, na) => match_scopes nr na have | None => false end.

(** The map of action sets [FromScopes] builds; Go ranges over it in an
    unspecified order, the model in the order of the map's keys. *)
(* src: internal/authz/policy.go:13-25 (FromScopes, part) *)
Definition scope_sets (scopeNames : list string) : gmap string (gset string) :=
  fold_left (fun m sc =>
    match split_scope sc with
    | Some (r, a) => <[r := {[a]} ∪ default ∅ (m !! r)]> m
    | None => m
    end) scopeNames ∅.

(* src: internal/authz/policy.go:12-36 (FromScopes) *)
Definition FromScopes (scopeNames : list string) : list Perm :=
  map (fun ka => {| pm_R := ka.1; pm_A := elements ka.2 |}) (map_to_list (scope_sets scopeNames)).

(** * The three tests of a claim *)

(* src: internal/authz/authz.go:235-323 (hasPerm) *)
Definition hasPerm (claims : MapClaims) (r a : string) : bool :=
  match claims !! "perms" with
  | Some (APerms arr) => existsb (fun p => star_eq (pm_R p) r && existsb (fun act => star_eq act a) (pm_A p)) arr
  | Some (AAnys arr) =>
      existsb (fun p => match p with
        | AMap m =>
            (as_string (assoc "r" m) =? r)%string &&
            match assoc "a" m with
            | Some (AAnys acts) => existsb (fun v => (as_string (Some v) =? a)%string) acts
            | Some (AStrings acts) => existsb (fun act => (act =? a)%string) acts
            | _ => false
            end
        | _ => false
        end) arr
  | Some (AMaps arr) =>
      existsb (fun m =>
        (as_string (assoc "r" m) =? r)%string &&
        match assoc "a" m with
        | Some (AAnys acts) => existsb (fun v => (as_string (Some v) =? a)%string) acts
        | _ => false
        end) arr
  | _ => false
  end.

(* src: internal/authz/authz.go:325-368 (hasScope) *)
Definition hasScope (claims : MapClaims) (needed : string) : bool :=
  (match claims !! "scope" with
   | Some (AString s) => negb (is_empty s) && wildcardMatch (Fields s) needed
   | _ => false
   end) ||
  match claims !! "scopes" with
  | Some (AAnys arr) =>
      wildcardMatch (List.filter (fun s => negb (is_empty s)) (map (fun v => as_string (Some v)) arr)) needed
  | Some (AStrings arr) => wildcardMatch arr needed
  | _ => false
  end.

(* src: internal/authz/authz.go:370-397 (hasResource) *)
Definition hasResource (claims : MapClaims) (resource : string) : bool :=
  match claims !! "resources" with
  | Some (AAnys arr) => existsb (fun v => (as_string (Some v) =? resource)%string) arr
  | Some (AStrings arr) => existsb (fun s => (s =? resource)%string) arr
  | _ => false
  end.

(* src: internal/authz/authz.go:221-228 (firstClaimString) *)
Fixpoint firstClaimString (claims : MapClaims) (keys : list string) : string :=
  match keys with
  | [] => ""
  | key :: keys =>
      match claims !! key with
      | Some (AString v) => if is_empty v then firstClaimString claims keys else v
      | _ => firstClaimString claims keys
      end
  end.

(** * Role bindings *)

(** The rows of the four tables the permission query joins. NULL columns are
    [None]; ids are the texts of UUIDs. *)
Record RoleBinding := { rb_UserID : option string; rb_WorkspaceID : option string; rb_RoleID : string; rb_ExpiresAt : option Time }.
Record RolePermission := { rp_RoleID : string; rp_PermissionID : string }.
Record Permission := { p_ID : string; p_WorkspaceID : option string; p_Resource : string; p_Action : string }.
Record Database := {
  role_bindings : list RoleBinding; roles : list string;
  role_permissions : list RolePermission; permissions : list Permission }.

Section Handlers.
(** [uuid.Parse] of github.com/google/uuid: the canonical id, if the text is
    one. [config.DB] is absent before start-up; a query may fail. *)
Context (uuid_Parse : string -> option string).
Context (db : option Database) (query_fails : bool) (now : Time).
(** [AUTH_ENFORCE_RESOURCE_LIST]. *)
Context (enforceResourceList : bool).

(** The rows the query counts: a binding of the user in the workspace that has
    not expired, joined with its role's permissions that cover the need. *)
(* src: internal/authz/authz.go:204-213 (hasDBPermission, query) *)
Definition permission_count (d : Database) (workspaceID userID resource action : string) : Z :=
  Z.of_nat (length (
    rb ← role_bindings d; r ← roles d; rp ← role_permissions d; p ← permissions d;
    if (r =? rb_RoleID rb)%string && (rp_RoleID rp =? r)%string && (p_ID p =? rp_PermissionID rp)%string &&
       bool_decide (rb_UserID rb = Some userID) && bool_decide (rb_WorkspaceID rb = Some workspaceID) &&
       (bool_decide (p_WorkspaceID p = Some workspaceID) || bool_decide (p_WorkspaceID p = None)) &&
       ((p_Resource p =? resource)%string || (p_Resource p =? "*")%string) &&
       ((p_Action p =? action)%string || (p_Action p =? "*")%string) &&
       match rb_ExpiresAt rb with None => true | Some t => now <? t end
    then [tt] else [])).

(* src: internal/authz/authz.go:180-219 (hasDBPermission) *)
Definition hasDBPermission (claims : MapClaims) (resource action : string) : bool :=
  match db with
  | None => false
  | Some d =>
      let workspaceIDStr := firstClaimString claims ["workspace_id"] in
      let userIDStr := firstClaimString claims ["user_id"; "sub"] in
      if is_empty workspaceIDStr || is_empty userIDStr then false
      else match uuid_Parse workspaceIDStr with
      | None => false
      | Some workspaceID =>
          match uuid_Parse userIDStr with
          | None => false
          | Some userID =>
              if query_fails then false
              else 0 <? permission_count d workspaceID userID resource action
          end
      end
  end.

(** * The middleware *)

(** What a request's context holds under ["claims"], and what the middleware
    does with the request: pass it on, abort it with a status, or panic on the
    unchecked type assertion. *)
Inductive ClaimsValue := NoClaims | Claims (m : MapClaims) | OtherClaims.

Record Denial := { dn_required : list string; dn_description : string; dn_header : string }.

Inductive Response :=
  | Next
  | Unauthorized
  | Forbidden (d : Denial)
  | Panic.

(** [strings.ReplaceAll(s, q, ')] for the double quote. *)
Fixpoint unquote (s : string) : string :=
  match s with
  | "" => ""
  | String c s => String (if bool_decide (c = ascii_of_N 34) then ascii_of_N 39 else c) (unquote s)
  end.
Definition dq : string := String (ascii_of_N 34) "".

(* src: internal/authz/authz.go:152-178 (denyInsufficientScope) *)
Definition denyInsufficientScope (needs : list Need) : Response :=
  let required := map (fun n => nd_Resource n +:+ ":" +:+ nd_Action n) needs in
  let description :=
    if negb (length required =? 0)%nat
    then "Your token is missing the permission required for this endpoint: " +:+ Join required " OR " +:+
         ". Ask an AuthSec admin to grant a role that includes it."
    else "Your token does not include the permission this endpoint requires." in
  let scopeHeader := Join required " " in
  Forbidden
    {| dn_required := required;
       dn_description := description;
       dn_header :=
         if is_empty scopeHeader then "Bearer error=" +:+ dq +:+ "insufficient_scope" +:+ dq
         else "Bearer error=" +:+ dq +:+ "insufficient_scope" +:+ dq +:+ ", scope=" +:+ dq +:+ scopeHeader +:+ dq +:+
              ", error_description=" +:+ dq +:+ unquote description +:+ dq |}.

(** One need: a permission, a scope or a role binding. *)
Definition granted_need (claims : MapClaims) (n : Need) : bool :=
  hasPerm claims (nd_Resource n) (nd_Action n) ||
  hasScope claims (nd_Resource n +:+ ":" +:+ nd_Action n) ||
  hasDBPermission claims (nd_Resource n) (nd_Action n).

(** The loops of the middleware that deny the first need [f] refuses. *)
Fixpoint deny_first (f : Need -> bool) (needs : list Need) (k : Response) : Response :=
  match needs with
  | [] => k
  | n :: needs => if f n then deny_first f needs k else denyInsufficientScope [n]
  end.

(* src: internal/authz/authz.go:26-82 (RequireAll) *)
Definition RequireAll (needs : list Need) (c : ClaimsValue) : Response :=
  match c with
  | NoClaims => Unauthorized
  | OtherClaims => Panic
  | Claims claims =>
      let checked := deny_first (granted_need claims) needs Next in
      if enforceResourceList then deny_first (fun n => hasResource claims (nd_Resource n)) needs checked
      else checked
  end.

(* src: internal/authz/authz.go:21-23 (Require) *)
Definition Require_ (resource action : string) (c : ClaimsValue) : Response :=
  RequireAll [{| nd_Resource := resource; nd_Action := action |}] c.

(* src: internal/authz/authz.go:85-143 (RequireAny) *)
Definition RequireAny (needs : list Need) (c : ClaimsValue) : Response :=
  match c with
  | NoClaims => Unauthorized
  | OtherClaims => Panic
  | Claims claims =>
      if enforceResourceList && negb (existsb (fun n => hasResource claims (nd_Resource n)) needs)
      then denyInsufficientScope needs
      else if existsb (granted_need claims) needs then Next
      else denyInsufficientScope needs
  end.

(* src: internal/authz/allowed.go:22-37 (Allows) *)
Definition Allows (c : ClaimsValue) (resource action : string) : bool :=
  match c with
  | Claims claims =>
      if enforceResourceList && negb (hasResource claims resource) then false
      else hasPerm claims resource action || hasScope claims (resource +:+ ":" +:+ action) ||
           hasDBPermission claims resource action
  | _ => false
  end.

(** * What the middleware decides *)

Lemma deny_first_Next f needs k : deny_first f needs k = Next <-> (forall n, n ∈ needs -> f n = true) /\ k = Next.
Proof.
  induction needs as [|n needs IH]; cbn; [set_solver|]. setoid_rewrite elem_of_cons.
  destruct (f n) eqn:E; [rewrite IH; naive_solver|].
  split; [done|]. intros [Hall _]. by rewrite Hall in E; [|left].
Qed.

(** [Allows] on the claims of a request. *)
Lemma Allows_iff m n :
  Allows (Claims m) (nd_Resource n) (nd_Action n) = true <->
  granted_need m n = true /\ (enforceResourceList = true -> hasResource m (nd_Resource n) = true).
Proof.
  cbn [Allows]. fold (granted_need m n). destruct enforceResourceList, (hasResource m _); cbn; naive_solver.
Qed.

(** A need as the denial names it. *)
Definition need_text (n : Need) : string := nd_Resource n +:+ ":" +:+ nd_Action n.

Lemma deny_first_answer f needs k r :
  deny_first f needs k = r -> r = k \/ exists n, n ∈ needs /\ f n = false /\ r = denyInsufficientScope [n].
Proof.
  induction needs as [|n needs IH]; cbn; [by left|]. destruct (f n) eqn:E.
  - intros [?|(n' & ? & ?)]%IH; [by left|]. right. exists n'. split; [by right|done].
  - intros <-. right. exists n. split; [left|done].
Qed.

(** What [RequireAll] answers on claims: it passes the request on, or denies
    it over one need that [Allows] refuses. *)
Lemma RequireAll_answer needs m :
  RequireAll needs (Claims m) = Next \/
  exists n, n ∈ needs /\ Allows (Claims m) (nd_Resource n) (nd_Action n) = false /\
    RequireAll needs (Claims m) = denyInsufficientScope [n].
Proof.
  assert (forall n, (granted_need m n = false \/ (enforceResourceList = true /\ hasResource m (nd_Resource n) = false)) ->
    Allows (Claims m) (nd_Resource n) (nd_Action n) = false) as Hf.
  { intros n Hn. apply not_true_is_false. rewrite Allows_iff. intros [Hg Hr].
    destruct Hn as [Hn|[He Hn]]; [congruence|]. rewrite Hr in Hn by done. done. }
  assert (forall r, deny_first (granted_need m) needs Next = r -> r = Next \/ exists n, n ∈ needs /\
    Allows (Claims m) (nd_Resource n) (nd_Action n) = false /\ r = denyInsufficientScope [n]) as Hg.
  { intros r [?|(n & Hin & Hn & ?)]%deny_first_answer; [by left|right; exists n].
    split_and!; [done| |done]. apply Hf. by left. }
  cbn [RequireAll]. destruct enforceResourceList eqn:E; [|by apply Hg].
  remember (deny_first (fun n => hasResource m (nd_Resource n)) needs _) as r eqn:Hd. symmetry in Hd.
  apply deny_first_answer in Hd as [Hd|(n & Hin & Hn & Hd)]; [by apply Hg|]. right. exists n. split_and!; [done| |done].
  apply Hf. by right.
Qed.

Lemma RequireAll_Next needs c :
  RequireAll needs c = Next <->
  exists m, c = Claims m /\ forall n, n ∈ needs -> Allows c (nd_Resource n) (nd_Action n) = true.
Proof.
  destruct c as [|m|]; cbn [RequireAll]; [naive_solver| |naive_solver].
  transitivity (forall n, n ∈ needs -> Allows (Claims m) (nd_Resource n) (nd_Action n) = true); [|naive_solver].
  setoid_rewrite Allows_iff. destruct enforceResourceList; rewrite ?deny_first_Next; naive_solver.
Qed.

Lemma RequireAny_Next needs c :
  RequireAny needs c = Next <->
  exists m, c = Claims m /\ (exists n, n ∈ needs /\ granted_need m n = true) /\
    (enforceResourceList = true -> exists n, n ∈ needs /\ hasResource m (nd_Resource n) = true).
Proof.
  destruct c as [|m|]; cbn [RequireAny]; [naive_solver| |naive_solver].
  transitivity (existsb (granted_need m) needs = true /\
    (enforceResourceList = true -> existsb (fun n => hasResource m (nd_Resource n)) needs = true)).
  - assert (denyInsufficientScope needs <> Next) by done.
    destruct enforceResourceList, (existsb (granted_need m) needs),
      (existsb (fun n => hasResource m (nd_Resource n)) needs); cbn [andb negb]; intuition congruence.
  - rewrite !existsb_elem. split; [intros H; by exists m|]. intros (m' & [= <-] & H). exact H.
Qed.

Lemma RequireAll_Unauthorized needs c : RequireAll needs c = Unauthorized <-> c = NoClaims.
Proof.
  destruct c as [|m|]; [done| |done]. split; [|done].
  destruct (RequireAll_answer needs m) as [->|(n & _ & _ & ->)]; done.
Qed.

Lemma RequireAll_Forbidden needs c d :
  RequireAll needs c = Forbidden d ->
  exists n, n ∈ needs /\ dn_required d = [need_text n] /\ Allows c (nd_Resource n) (nd_Action n) = false.
Proof.
  destruct c as [|m|]; [done| |done]. destruct (RequireAll_answer needs m) as [->|(n & Hn & Ha & ->)]; [done|].
  intros [= <-]. by exists n.
Qed.

Lemma existsb_none {A} (f : A -> bool) l : existsb f l = false <-> forall x, x ∈ l -> f x = false.
Proof.
  rewrite <- not_true_iff_false, existsb_elem. split; [|intros Hall (x & Hx & Hf); by rewrite Hall in Hf].
  intros Hn x Hx. apply not_true_is_false. intros Hf. apply Hn. by exists x.
Qed.

(** C36. The middleware and the statement of a permission agree: a request
    passes [RequireAll] exactly when it carries claims that [Allows] every
    need, so [Require] exactly when it [Allows] the one; it passes
    [RequireAny] exactly when some need is granted and, with the resource list
    enforced, the resource of some need is listed. All three answer 401 exactly
    when the request has no claims. The one need a 403 of [RequireAll] reports
    is among the needs and [Allows] refuses it; a 403 of [Require] reports the
    permission it requires, which [Allows] refuses; a 403 of [RequireAny]
    reports all the needs, and every one of them is ungranted or, with the
    resource list enforced, every one's resource is unlisted. *)
Theorem require_agrees_with_allows needs c :
  (RequireAll needs c = Next <->
     exists m, c = Claims m /\ forall n, n ∈ needs -> Allows c (nd_Resource n) (nd_Action n) = true) /\
  (RequireAny needs c = Next <->
     exists m, c = Claims m /\ (exists n, n ∈ needs /\ granted_need m n = true) /\
       (enforceResourceList = true -> exists n, n ∈ needs /\ hasResource m (nd_Resource n) = true)) /\
  (forall r a, Require_ r a c = Next <-> Allows c r a = true) /\
  (RequireAll needs c = Unauthorized <-> c = NoClaims) /\
  (RequireAny needs c = Unauthorized <-> c = NoClaims) /\
  (forall r a, Require_ r a c = Unauthorized <-> c = NoClaims) /\
  (forall d, RequireAll needs c = Forbidden d -> exists n, n ∈ needs /\ dn_required d = [need_text n] /\
     Allows c (nd_Resource n) (nd_Action n) = false) /\
  (forall r a d, Require_ r a c = Forbidden d -> dn_required d = [r +:+ ":" +:+ a] /\ Allows c r a = false) /\
  (forall d, RequireAny needs c = Forbidden d -> dn_required d = map need_text needs /\
     exists m, c = Claims m /\
       ((forall n, n ∈ needs -> granted_need m n = false) \/
        (enforceResourceList = true /\ forall n, n ∈ needs -> hasResource m (nd_Resource n) = false))).
Proof.
  split; [apply RequireAll_Next|]. split; [apply RequireAny_Next|].
  split; [|split_and!].
  - intros r a. unfold Require_. rewrite RequireAll_Next. setoid_rewrite list_elem_of_singleton. split; [naive_solver|].
    intros Ha. destruct c as [|m|]; [done| |done]. exists m. split; [done|]. by intros n ->.
  - apply RequireAll_Unauthorized.
  - destruct c as [|m|]; cbn [RequireAny]; [done| |done]. by repeat case_match.
  - intros r a. apply RequireAll_Unauthorized.
  - apply RequireAll_Forbidden.
  - intros r a d (n & ->%list_elem_of_singleton & Hd & Ha)%RequireAll_Forbidden. done.
  - intros d Hd. destruct c as [|m|]; cbn [RequireAny] in Hd; [done| |done].
    destruct (_ && _) eqn:He in Hd.
    + injection Hd as <-. split; [done|]. exists m. split; [done|]. right.
      apply andb_true_iff in He as [He Hn%negb_true_iff]. split; [done|]. by apply existsb_none.
    + destruct (existsb _ _) eqn:Hg in Hd; [done|]. injection Hd as <-. split; [done|]. exists m. split; [done|].
      left. by apply existsb_none.
Qed.

(** A binding that grants the need: of the user in the workspace, not expired,
    of a role with a permission of that workspace or of none. *)
Definition binding_grants (d : Database) (ws user resource action : string) : Prop :=
  exists rb rp p, rb ∈ role_bindings d /\ rp ∈ role_permissions d /\ p ∈ permissions d /\
    rb_RoleID rb ∈ roles d /\ rp_RoleID rp = rb_RoleID rb /\ p_ID p = rp_PermissionID rp /\
    rb_UserID rb = Some user /\ rb_WorkspaceID rb = Some ws /\
    (p_WorkspaceID p = Some ws \/ p_WorkspaceID p = None) /\
    (p_Resource p = resource \/ p_Resource p = "*") /\ (p_Action p = action \/ p_Action p = "*") /\
    (forall t, rb_ExpiresAt rb = Some t -> now < t).

Lemma length_pos {A} (l : list A) : 0 < Z.of_nat (length l) <-> exists x, x ∈ l.
Proof. destruct l as [|x l]; cbn; [split; [lia|intros [x Hx%not_elem_of_nil]; done]|]. split; [exists x; left|lia]. Qed.

Lemma permission_count_pos d ws user resource action :
  0 < permission_count d ws user resource action <-> binding_grants d ws user resource action.
Proof.
  unfold permission_count, binding_grants. rewrite length_pos. split.
  - intros (x & Hx). apply list_elem_of_bind in Hx as (rb & Hx & Hrb). apply list_elem_of_bind in Hx as (r & Hx & Hr).
    apply list_elem_of_bind in Hx as (rp & Hx & Hrp). apply list_elem_of_bind in Hx as (p & Hx & Hp).
    destruct (_ && _) eqn:Hb in Hx; [|by apply not_elem_of_nil in Hx]. clear Hx x.
    rewrite !andb_true_iff, !orb_true_iff, !String.eqb_eq, !bool_decide_eq_true in Hb.
    destruct Hb as [[[[[[[[-> Hr1] Hp1] Hu] Hw] Hpw] Hres] Hact] Hexp].
    exists rb, rp, p. repeat (split; [done|]). intros t Ht. rewrite Ht in Hexp. by apply Z.ltb_lt.
  - intros (rb & rp & p & Hrb & Hrp & Hp & Hro & Hr1 & Hp1 & Hu & Hw & Hpw & Hres & Hact & Hexp). exists tt.
    apply list_elem_of_bind. exists rb. split; [|done]. apply list_elem_of_bind. exists (rb_RoleID rb). split; [|done].
    apply list_elem_of_bind. exists rp. split; [|done]. apply list_elem_of_bind. exists p. split; [|done].
    assert (match rb_ExpiresAt rb with None => true | Some t => now <? t end = true) as ->.
    { destruct (rb_ExpiresAt rb) as [t|]; [|done]. apply Z.ltb_lt. by apply Hexp. }
    match goal with |- _ ∈ (if ?b then _ else _) => replace b with true; [left|symmetry] end.
    rewrite !andb_true_iff, !orb_true_iff, !String.eqb_eq, !bool_decide_eq_true. tauto.
Qed.

Lemma first_claim_one m k s : s <> "" -> firstClaimString m [k] = s <-> m !! k = Some (AString s).
Proof.
  intros Hs. cbn. destruct (m !! k) as [[]|]; try naive_solver.
  destruct (is_empty s0) eqn:E; [apply is_empty_true in E as ->|]; naive_solver.
Qed.

Lemma first_claim_two m k1 k2 s :
  s <> "" -> firstClaimString m [k1; k2] = s <->
  m !! k1 = Some (AString s) \/ (forall s', m !! k1 = Some (AString s') -> s' = "") /\ m !! k2 = Some (AString s).
Proof.
  intros Hs. rewrite <- (first_claim_one m k2 s Hs). change (firstClaimString m [k1; k2]) with
    (match m !! k1 with Some (AString v) => if is_empty v then firstClaimString m [k2] else v | _ => firstClaimString m [k2] end).
  destruct (m !! k1) as [[]|]; try naive_solver.
  destruct (is_empty s0) eqn:E; [apply is_empty_true in E as ->; naive_solver|].
  assert (s0 <> "") by (by intros ->). naive_solver.
Qed.

(** The role-binding check fails closed and grants exactly what the tables
    hold: it answers yes only with a database, a query that succeeds and well
    formed workspace and user claims ([user_id] before [sub]), and then exactly
    when an unexpired binding of that user in that workspace leads to a
    permission, of the workspace or global, for the resource and the action or
    their wildcard. *)
Theorem db_permission_exact m resource action :
  hasDBPermission m resource action = true <->
  exists d ws user wst ust, db = Some d /\ query_fails = false /\
    m !! "workspace_id" = Some (AString wst) /\ wst <> "" /\ uuid_Parse wst = Some ws /\
    (m !! "user_id" = Some (AString ust) \/
     (forall s, m !! "user_id" = Some (AString s) -> s = "") /\ m !! "sub" = Some (AString ust)) /\
    ust <> "" /\ uuid_Parse ust = Some user /\ binding_grants d ws user resource action.
Proof.
  unfold hasDBPermission. destruct db as [d|]; [|split; [done|intros (?&?&?&?&?&?&_); done]].
  pose proof (first_claim_two m "user_id" "sub") as Hu. pose proof (first_claim_one m "workspace_id") as Hw.
  split.
  - destruct (is_empty _ || is_empty _) eqn:E; [done|]. apply orb_false_iff in E as [Ew Eu].
    destruct (uuid_Parse (firstClaimString m ["workspace_id"])) as [ws|] eqn:Pw; [|done].
    destruct (uuid_Parse (firstClaimString m ["user_id"; "sub"])) as [user|] eqn:Pu; [|done].
    destruct query_fails; [done|]. rewrite Z.ltb_lt, permission_count_pos. intros Hg.
    assert (forall s, is_empty s = false -> s <> "") as Hne by (by intros s Hs ->).
    exists d, ws, user, (firstClaimString m ["workspace_id"]), (firstClaimString m ["user_id"; "sub"]).
    repeat split; auto; [apply Hw|apply Hu]; auto.
  - intros (d' & ws & user & wst & ust & [= <-] & -> & Hws & Hwne & Pw & Hus & Hune & Pu & Hg).
    rewrite (proj2 (Hw wst Hwne) Hws), (proj2 (Hu ust Hune) Hus), Pw, Pu.
    destruct wst as [|c1 w1]; [done|]. destruct ust as [|c2 w2]; [done|]. cbn [is_empty orb].
    apply Z.ltb_lt, permission_count_pos, Hg.
Qed.
End Handlers.

(** * Scopes and permissions *)

Lemma split_scope_cut s : split_scope s = cut_byte ":" s.
Proof. unfold split_scope. cbn. by destruct (cut_byte ":" s) as [[l r]|]. Qed.

Lemma cut_byte_app c l r : lacks c l = true -> cut_byte c (l +:+ String c r) = Some (l, r).
Proof.
  induction l as [|x l IH]; intros Hl.
  - change ("" +:+ String c r) with (String c r). cbn. by rewrite bool_decide_true.
  - rewrite str_app_cons. cbn in *. apply andb_true_iff in Hl as [Hx Hl]. apply negb_true_iff in Hx.
    by rewrite Hx, IH.
Qed.

Lemma split_scope_app r a : lacks ":" r = true -> split_scope (r +:+ ":" +:+ a) = Some (r, a).
Proof. intros Hr. rewrite split_scope_cut. by apply cut_byte_app. Qed.

(** A scope that covers the need, wildcards on either side. *)
Definition scope_covers (have : list string) (r a : string) : Prop :=
  exists h hr ha, h ∈ have /\ split_scope h = Some (hr, ha) /\ star_eq hr r = true /\ star_eq ha a = true.

Lemma match_scopes_iff r a have : match_scopes r a have = true <-> scope_covers have r a.
Proof.
  unfold scope_covers. induction have as [|h have IH]; cbn [match_scopes].
  { split; [done|]. intros (h & ? & ? & Hh%not_elem_of_nil & _). done. }
  setoid_rewrite elem_of_cons.
  destruct (split_scope h) as [[hr ha]|] eqn:E.
  - fold (star_eq hr r). fold (star_eq ha a). destruct (star_eq hr r && star_eq ha a) eqn:Eb.
    + apply andb_true_iff in Eb as [??]. split; [|done]. intros _. exists h, hr, ha. auto.
    + rewrite IH. split; [naive_solver|]. intros (h' & hr' & ha' & [->|Hh] & Es & H1 & H2); [|naive_solver].
      rewrite E in Es. injection Es as <- <-. by rewrite H1, H2 in Eb.
  - rewrite IH. split; [naive_solver|]. intros (h' & hr' & ha' & [->|Hh] & Es & H1 & H2); [by rewrite E in Es|naive_solver].
Qed.

Lemma wildcardMatch_iff r a have :
  lacks ":" r = true -> wildcardMatch have (r +:+ ":" +:+ a) = true <-> scope_covers have r a.
Proof.
  intros Hr. unfold wildcardMatch. rewrite split_scope_app, existsb_elem by done. unfold scope_covers. split.
  - intros (h & Hh & Hb). destruct (split_scope h) as [[hr ha]|] eqn:E; [|done]. apply andb_true_iff in Hb as [??].
    exists h, hr, ha. auto.
  - intros (h & hr & ha & Hh & E & H1 & H2). exists h. split; [done|]. by rewrite E, H1, H2.
Qed.

Lemma scope_sets_lookup names r a :
  a ∈ default ∅ (scope_sets names !! r) <-> exists s, s ∈ names /\ split_scope s = Some (r, a).
Proof.
  unfold scope_sets.
  assert (forall m : gmap string (gset string), a ∈ default ∅ (fold_left (fun m sc => match split_scope sc with
      | Some (r, a) => <[r := {[a]} ∪ default ∅ (m !! r)]> m | None => m end) names m !! r) <->
    a ∈ default ∅ (m !! r) \/ exists s, s ∈ names /\ split_scope s = Some (r, a)) as H; [|rewrite H, lookup_empty; set_solver].
  induction names as [|sc names IH]; intros m; cbn [fold_left]; [set_solver|].
  rewrite IH. setoid_rewrite elem_of_cons. destruct (split_scope sc) as [[r' a']|] eqn:E; [|naive_solver].
  destruct (decide (r' = r)) as [->|Hne].
  - rewrite lookup_insert_eq. cbn. rewrite elem_of_union, elem_of_singleton. naive_solver.
  - rewrite lookup_insert_ne by done. naive_solver.
Qed.

Lemma elem_of_FromScopes names r a :
  (exists p, p ∈ FromScopes names /\ pm_R p = r /\ a ∈ pm_A p) <-> exists s, s ∈ names /\ split_scope s = Some (r, a).
Proof.
  rewrite <- scope_sets_lookup. unfold FromScopes. split.
  - intros (p & Hp & <- & Ha). rewrite list_elem_of_In, List.in_map_iff in Hp. destruct Hp as ([k v] & <- & Hkv%list_elem_of_In).
    apply elem_of_map_to_list in Hkv. cbn in *. rewrite Hkv. cbn. by apply elem_of_elements.
  - destruct (scope_sets names !! r) as [v|] eqn:E; cbn; [|set_solver]. intros Ha.
    exists {| pm_R := r; pm_A := elements v |}. split; [|split; [done|cbn; by apply elem_of_elements]].
    rewrite list_elem_of_In, List.in_map_iff. exists (r, v). split; [done|]. by apply list_elem_of_In, elem_of_map_to_list.
Qed.

(** Scopes and the permissions made from them grant the same needs: for a
    need without a colon in its resource, the scope matcher of the middleware,
    the exported [MatchScope] and the permission check on [FromScopes] of the
    scopes (in whatever order the map is ranged over) all answer whether some
    scope [resource:action] equals the need up to a wildcard on either side. *)
Theorem scopes_and_perms_agree have r a ps claims :
  lacks ":" r = true -> Permutation ps (FromScopes have) -> claims !! "perms" = Some (APerms ps) ->
  (wildcardMatch have (r +:+ ":" +:+ a) = true <-> scope_covers have r a) /\
  MatchScope have (r +:+ ":" +:+ a) = wildcardMatch have (r +:+ ":" +:+ a) /\
  hasPerm claims r a = wildcardMatch have (r +:+ ":" +:+ a).
Proof.
  intros Hr Hps Hc. split; [by apply wildcardMatch_iff|]. split; apply eq_true_iff_eq; rewrite wildcardMatch_iff by done.
  - unfold MatchScope. rewrite split_scope_app by done. apply match_scopes_iff.
  - unfold hasPerm. rewrite Hc, existsb_elem. unfold scope_covers. split.
    + intros (p & Hp & [H1 (act & Ha & H2)%existsb_elem]%andb_true_iff). rewrite Hps in Hp.
      destruct (proj1 (elem_of_FromScopes have (pm_R p) act)) as (s & Hs & E); [by exists p|].
      exists s, (pm_R p), act. auto.
    + intros (h & hr & ha & Hh & E & H1 & H2).
      destruct (proj2 (elem_of_FromScopes have hr ha)) as (p & Hp & <- & Ha); [by exists h|].
      exists p. rewrite Hps. split; [done|]. rewrite H1. cbn [andb]. apply existsb_elem. by exists ha.
Qed.

Lemma scopes_and_perms_agree_witness :
  hasPerm {[ "perms" := APerms (FromScopes ["users:*"; "billing:read"]) ]} "users" "delete" = true /\
  MatchScope ["users:*"; "billing:read"] "users:delete" = wildcardMatch ["users:*"; "billing:read"] "users:delete".
Proof.
  split; [vm_compute; reflexivity|].
  refine (proj1 (proj2 (scopes_and_perms_agree ["users:*"; "billing:read"] "users" "delete"
    (FromScopes ["users:*"; "billing:read"]) {[ "perms" := APerms (FromScopes ["users:*"; "billing:read"]) ]} eq_refl _ eq_refl))).
  reflexivity.
Defined.

(** The same permissions decoded from JSON are compared without wildcards. *)
Example json_perms_lose_wildcards :
  let json := AAnys [AMap [("r", AString "users"); ("a", AAnys [AString "*"])]] in
  hasPerm {[ "perms" := APerms (FromScopes ["users:*"]) ]} "users" "delete" = true /\
  hasPerm {[ "perms" := json ]} "users" "delete" = false /\ hasPerm {[ "perms" := json ]} "users" "*" = true.
Proof. vm_compute. done. Qed.

(** With the resource list enforced, [RequireAny] lets a request through that
    [Allows] none of the needs: one resource is listed, another one granted. *)
Example require_any_mixes_needs :
  let m : MapClaims := {[ "resources" := AStrings ["users"]; "scope" := AString "billing:read" ]} in
  let needs := [{| nd_Resource := "users"; nd_Action := "read" |}; {| nd_Resource := "billing"; nd_Action := "read" |}] in
  RequireAny (fun _ => None) None false 0 true needs (Claims m) = Next /\
  forallb (fun n => negb (Allows (fun _ => None) None false 0 true (Claims m) (nd_Resource n) (nd_Action n))) needs = true.
Proof. vm_compute. done. Qed.
