(* ===== verification/Pdp.v ===== *)
(** The policy decision point of token issuance (internal/policy) and the gate
    that consults it (controllers/platform/oauth_as_controller.go).

    [SimplePDP.Decide] matches an issuance request against three tables in one
    query and lets an explicit deny win; the gate blocks only in enforce mode
    and records every decision. The query is modelled on the rows of its
    tables: NULL columns are [None], ids are texts. *)

From stdpp Require Import base list strings gmap sorting.
From S2P Require Import Prelude Slices Float64.

(* src: internal/policy/pdp.go:10-19 (Effect, constants) *)
Inductive Effect := EffectPermit | EffectDeny | EffectNoPolicy.
#[export] Instance Effect_eq : EqDecision Effect.
Proof. solve_decision. Defined.

(* src: internal/policy/pdp.go:22-30 (PolicyRequest) *)
Record PolicyRequest := {
  pq_WorkspaceID : string; pq_ClientID : string; pq_SubjectType : string; pq_SubjectID : string;
  pq_ResourceServerID : string; pq_TokenFamily : string; pq_RequestedScopes : string }.

(* src: internal/policy/pdp.go:33-36 (PolicyDecision) *)
Record PolicyDecision := { pd_Effect : Effect; pd_Reason : string }.

(* src: internal/policy/simple_pdp.go:13-22 (policyRow) *)
Record policyRow := {
  pr_ID : string; pr_SubjectType : option string; pr_SubjectID : option string; pr_ClientID : option string;
  pr_ResourceServerID : option string; pr_TokenFamily : string; pr_Effect : string; pr_Priority : Z }.

(** The rows of [policies], [a2a_brokering_policies] and
    [delegation_policies] that the query reads. *)
Record PolicyRec := { po_WorkspaceID : string; po_IsActive : bool; po_row : policyRow }.
Record BrokeringRec := {
  br_ID : string; br_WorkspaceID : string; br_Side : string; br_ClientID : option string;
  br_ResourceServerID : option string; br_Effect : string }.
Record DelegationRec := { de_ID : string; de_WorkspaceID : string; de_ClientID : option string; de_Enabled : bool }.
Record PolicyTables := {
  policies : list PolicyRec; a2a_brokering_policies : list BrokeringRec; delegation_policies : list DelegationRec }.

(** A selector: NULL or equal to the request's value. *)
Definition selects (sel : option string) (v : string) : bool :=
  match sel with None => true | Some s => (s =? v)%string end.

(* src: internal/policy/simple_pdp.go:70-78 (loadMatchingPolicies, policies) *)
Definition policy_matches (req : PolicyRequest) (p : PolicyRec) : bool :=
  let r := po_row p in
  (po_WorkspaceID p =? pq_WorkspaceID req)%string && po_IsActive p &&
  (selects (pr_SubjectType r) (pq_SubjectType req) || bool_decide (pr_SubjectType r = Some "*")) &&
  selects (pr_SubjectID r) (pq_SubjectID req) &&
  selects (pr_ClientID r) (pq_ClientID req) &&
  selects (pr_ResourceServerID r) (pq_ResourceServerID req) &&
  ((pr_TokenFamily r =? "*")%string || (pr_TokenFamily r =? pq_TokenFamily req)%string).

(* src: internal/policy/simple_pdp.go:85-92 (loadMatchingPolicies, a2a_brokering_policies) *)
Definition brokering_matches (req : PolicyRequest) (b : BrokeringRec) : bool :=
  (br_WorkspaceID b =? pq_WorkspaceID req)%string && (br_Side b =? "redemption")%string &&
  (pq_TokenFamily req =? "xaa")%string && selects (br_ClientID b) (pq_ClientID req) &&
  selects (br_ResourceServerID b) (pq_ResourceServerID req).
Definition brokering_row (b : BrokeringRec) : policyRow :=
  {| pr_ID := br_ID b; pr_SubjectType := None; pr_SubjectID := None; pr_ClientID := br_ClientID b;
     pr_ResourceServerID := br_ResourceServerID b; pr_TokenFamily := "xaa"; pr_Effect := br_Effect b; pr_Priority := 0 |}.

(* src: internal/policy/simple_pdp.go:100-106 (loadMatchingPolicies, delegation_policies) *)
Definition delegation_matches (req : PolicyRequest) (d : DelegationRec) : bool :=
  (de_WorkspaceID d =? pq_WorkspaceID req)%string &&
  ((pq_TokenFamily req =? "m2m")%string || (pq_TokenFamily req =? "xaa")%string) &&
  selects (de_ClientID d) (pq_ClientID req).
Definition delegation_row (d : DelegationRec) : policyRow :=
  {| pr_ID := de_ID d; pr_SubjectType := None; pr_SubjectID := None; pr_ClientID := de_ClientID d;
     pr_ResourceServerID := None; pr_TokenFamily := "xaa"; pr_Effect := if de_Enabled d then "permit" else "deny";
     pr_Priority := 0 |}.

(** The union of the three selections, [ORDER BY priority DESC]; the database
    leaves the order of equal priorities open. *)
(* src: internal/policy/simple_pdp.go:68-144 (SimplePDP.loadMatchingPolicies) *)
Definition loadMatchingPolicies (db : result PolicyTables) (req : PolicyRequest) : result (list policyRow) :=
  match db with
  | Err e => Err e
  | Ok t => Ok (sort_slice (fun a b => pr_Priority b <? pr_Priority a)
      (map po_row (List.filter (policy_matches req) (policies t)) ++
       map brokering_row (List.filter (brokering_matches req) (a2a_brokering_policies t)) ++
       map delegation_row (List.filter (delegation_matches req) (delegation_policies t))))
  end.

Definition error_text (e : goError) : string := match e with ErrOther m => m | _ => "" end.

(* src: internal/policy/simple_pdp.go:38-58 (SimplePDP.Decide) *)
Definition Decide (db : result PolicyTables) (req : PolicyRequest) : PolicyDecision * option goError :=
  match loadMatchingPolicies db req with
  | Err e => ({| pd_Effect := EffectNoPolicy; pd_Reason := "policy load error: " +:+ error_text e |}, Some e)
  | Ok [] => ({| pd_Effect := EffectNoPolicy; pd_Reason := "no policy matched" |}, None)
  | Ok rows =>
      match List.find (fun r => (pr_Effect r =? "deny")%string) rows with
      | Some r => ({| pd_Effect := EffectDeny;
                      pd_Reason := "policy " +:+ pr_ID r +:+ ": explicit deny (priority " +:+ Itoa (pr_Priority r) +:+ ")" |}, None)
      | None => ({| pd_Effect := EffectPermit; pd_Reason := "permit policy matched" |}, None)
      end
  end.

(** The audit row, without the columns copied from the request. *)
(* src: internal/policy/simple_pdp.go:147-160 (IssuanceAuditRow) *)
Record IssuanceAuditRow := {
  ia_Request : PolicyRequest; ia_PDPEffect : Effect; ia_GateEffect : string; ia_PDPAgrees : bool;
  ia_ScopesGranted : string; ia_PDPReason : string }.

(** The gate: whether the issuance is blocked, and the audit row it writes.
    [pdp] is [None] unless the engine runs in shadow or enforce mode. *)
(* src: controllers/platform/oauth_as_controller.go:79-112 (OAuthASController.evalPDP) *)
Definition evalPDP (pdp : option (result PolicyTables)) (mode : option string) (req : PolicyRequest) (grantedScopes : string)
    : bool * option IssuanceAuditRow :=
  match pdp with
  | None => (false, None)
  | Some db =>
      let m := default "shadow" mode in
      let decision := (Decide db req).1 in
      ((m =? "enforce")%string && bool_decide (pd_Effect decision = EffectDeny),
       Some {| ia_Request := req; ia_PDPEffect := pd_Effect decision; ia_GateEffect := "permit";
               ia_PDPAgrees := negb (bool_decide (pd_Effect decision = EffectDeny));
               ia_ScopesGranted := grantedScopes; ia_PDPReason := pd_Reason decision |})
  end.

(** * What is decided *)

(** A row of one of the three tables that applies to the request, with its
    effect. *)
Definition applies (t : PolicyTables) (req : PolicyRequest) (effect : string) : Prop :=
  (exists p, p ∈ policies t /\ policy_matches req p = true /\ pr_Effect (po_row p) = effect) \/
  (exists b, b ∈ a2a_brokering_policies t /\ brokering_matches req b = true /\ br_Effect b = effect) \/
  (exists d, d ∈ delegation_policies t /\ delegation_matches req d = true /\ effect = if de_Enabled d then "permit" else "deny").

Lemma loaded_effects t req rows effect :
  loadMatchingPolicies (Ok t) req = Ok rows ->
  (exists r, r ∈ rows /\ pr_Effect r = effect) <-> applies t req effect.
Proof.
  cbn. intros [= <-]. setoid_rewrite elem_of_sort_slice. setoid_rewrite elem_of_app. setoid_rewrite elem_of_app.
  setoid_rewrite elem_of_map_filter. unfold applies. split.
  - intros (r & [(x & Hx & Hm & <-)|[(x & Hx & Hm & <-)|(x & Hx & Hm & <-)]] & He); [left|right; left|right; right];
      exists x; cbn in He; auto.
  - intros [(x & Hx & Hm & He)|[(x & Hx & Hm & He)|(x & Hx & Hm & ->)]]; eexists; split; [left|exact He|right; left| |right; right|];
      try (exists x; by auto); done.
Qed.

Lemma Decide_effect t req :
  (pd_Effect (Decide (Ok t) req).1 = EffectDeny <-> applies t req "deny") /\
  (pd_Effect (Decide (Ok t) req).1 = EffectNoPolicy <-> forall effect, ~ applies t req effect).
Proof.
  unfold Decide. destruct (loadMatchingPolicies (Ok t) req) as [rows|] eqn:El; [|done].
  pose proof (fun e => loaded_effects t req rows e El) as Hl. setoid_rewrite <- Hl. clear El Hl.
  destruct rows as [|r0 l].
  { split; [split; [done|]|split; [|done]]; cbn.
    - intros (r & Hr%not_elem_of_nil & _). done.
    - intros _ e (r & Hr%not_elem_of_nil & _). done. }
  destruct (List.find _ (r0 :: l)) as [r|] eqn:Ef; cbn [pd_Effect fst].
  - apply List.find_some in Ef as [Hr He%String.eqb_eq]. apply list_elem_of_In in Hr. split.
    + split; [|done]. intros _. by exists r.
    + split; [done|]. intros Hn. destruct (Hn (pr_Effect r)). by exists r.
  - pose proof (List.find_none _ _ Ef) as Hn. split.
    + split; [done|]. intros (r & Hr%list_elem_of_In & He). specialize (Hn r Hr). cbn in Hn. by rewrite He in Hn.
    + split; [done|]. intros Hno. destruct (Hno (pr_Effect r0)). exists r0. split; [left|done].
Qed.

(** C37. Issuance is blocked exactly when a policy engine is configured, it runs
    in enforce mode, the policies could be read and some row that applies to
    the request denies it: a deny wins over every permit and every priority,
    and a load error, like the absence of policies, never blocks. The audit
    row written for each decision says the engine disagreed exactly when an
    applying row denies, whatever the mode. *)
Theorem issuance_blocked_exact pdp mode req scopes :
  ((evalPDP pdp mode req scopes).1 = true <->
     exists t, pdp = Some (Ok t) /\ mode = Some "enforce" /\ applies t req "deny") /\
  (forall row, (evalPDP pdp mode req scopes).2 = Some row ->
     (ia_PDPAgrees row = false <-> exists t, pdp = Some (Ok t) /\ applies t req "deny") /\
     (ia_PDPEffect row = EffectNoPolicy <-> forall t, pdp = Some (Ok t) -> forall effect, ~ applies t req effect)).
Proof.
  destruct pdp as [[t|e]|]; cbn [evalPDP fst snd].
  - destruct (Decide_effect t req) as [Hd Hn]. split.
    + rewrite andb_true_iff, bool_decide_eq_true, Hd, String.eqb_eq.
      destruct mode as [m|]; cbn; naive_solver.
    + intros row [= <-]. cbn [ia_PDPAgrees ia_PDPEffect]. rewrite negb_false_iff, bool_decide_eq_true, Hd, Hn. naive_solver.
  - split; [|intros row [= <-]]; cbn; [|split]; (split; [|naive_solver]); rewrite ?andb_false_r; done.
  - split; [naive_solver|done].
Qed.
