(* ===== verification/PlanSet.v ===== *)
(** Field updates of plans and their diffs: the assignments [p.F = v] of the
    compilers in internal/igagov/compile.go, on the records of Plan. *)

From stdpp Require Import base list strings gmap sorting.
From S2P Require Import Prelude Slices Qualify Float64 Utf8 Json JsonCanon Marshal PolicyDoc Catalog Text Routes Hashes PolicyCanon TimeFmt Live Boundary Narrow Intent Bundle FirstAttach Plan.

Declare Scope plan_scope.
Delimit Scope plan_scope with plan.
Notation "x |> f" := (f x) (at level 50, left associativity, only parsing) : plan_scope.

(** * The diff *)

Definition diff_Case (v : string) (d : PlanDiff) : PlanDiff :=
  {| df_Case := v; df_BoundaryBefore := df_BoundaryBefore d; df_BoundaryAfter := df_BoundaryAfter d;
     df_NewlyExcluded := df_NewlyExcluded d; df_AlreadyExcluded := df_AlreadyExcluded d;
     df_NewlyUnexcluded := df_NewlyUnexcluded d; df_Narrowing := df_Narrowing d;
     df_FirstAttachment := df_FirstAttachment d; df_Split := df_Split d; df_Notes := df_Notes d;
     df_Facts := df_Facts d |}.

Definition diff_BoundaryBefore (v : option BoundaryRef) (d : PlanDiff) : PlanDiff :=
  {| df_Case := df_Case d; df_BoundaryBefore := v; df_BoundaryAfter := df_BoundaryAfter d;
     df_NewlyExcluded := df_NewlyExcluded d; df_AlreadyExcluded := df_AlreadyExcluded d;
     df_NewlyUnexcluded := df_NewlyUnexcluded d; df_Narrowing := df_Narrowing d;
     df_FirstAttachment := df_FirstAttachment d; df_Split := df_Split d; df_Notes := df_Notes d;
     df_Facts := df_Facts d |}.

Definition diff_BoundaryAfter (v : option BoundaryRef) (d : PlanDiff) : PlanDiff :=
  {| df_Case := df_Case d; df_BoundaryBefore := df_BoundaryBefore d; df_BoundaryAfter := v;
     df_NewlyExcluded := df_NewlyExcluded d; df_AlreadyExcluded := df_AlreadyExcluded d;
     df_NewlyUnexcluded := df_NewlyUnexcluded d; df_Narrowing := df_Narrowing d;
     df_FirstAttachment := df_FirstAttachment d; df_Split := df_Split d; df_Notes := df_Notes d;
     df_Facts := df_Facts d |}.

Definition diff_NewlyExcluded (v : list string) (d : PlanDiff) : PlanDiff :=
  {| df_Case := df_Case d; df_BoundaryBefore := df_BoundaryBefore d; df_BoundaryAfter := df_BoundaryAfter d;
     df_NewlyExcluded := v; df_AlreadyExcluded := df_AlreadyExcluded d; df_NewlyUnexcluded := df_NewlyUnexcluded d;
     df_Narrowing := df_Narrowing d; df_FirstAttachment := df_FirstAttachment d; df_Split := df_Split d;
     df_Notes := df_Notes d; df_Facts := df_Facts d |}.

Definition diff_AlreadyExcluded (v : list string) (d : PlanDiff) : PlanDiff :=
  {| df_Case := df_Case d; df_BoundaryBefore := df_BoundaryBefore d; df_BoundaryAfter := df_BoundaryAfter d;
     df_NewlyExcluded := df_NewlyExcluded d; df_AlreadyExcluded := v; df_NewlyUnexcluded := df_NewlyUnexcluded d;
     df_Narrowing := df_Narrowing d; df_FirstAttachment := df_FirstAttachment d; df_Split := df_Split d;
     df_Notes := df_Notes d; df_Facts := df_Facts d |}.

Definition diff_NewlyUnexcluded (v : list string) (d : PlanDiff) : PlanDiff :=
  {| df_Case := df_Case d; df_BoundaryBefore := df_BoundaryBefore d; df_BoundaryAfter := df_BoundaryAfter d;
     df_NewlyExcluded := df_NewlyExcluded d; df_AlreadyExcluded := df_AlreadyExcluded d; df_NewlyUnexcluded := v;
     df_Narrowing := df_Narrowing d; df_FirstAttachment := df_FirstAttachment d; df_Split := df_Split d;
     df_Notes := df_Notes d; df_Facts := df_Facts d |}.

Definition diff_Narrowing (v : option Narrowing) (d : PlanDiff) : PlanDiff :=
  {| df_Case := df_Case d; df_BoundaryBefore := df_BoundaryBefore d; df_BoundaryAfter := df_BoundaryAfter d;
     df_NewlyExcluded := df_NewlyExcluded d; df_AlreadyExcluded := df_AlreadyExcluded d;
     df_NewlyUnexcluded := df_NewlyUnexcluded d; df_Narrowing := v; df_FirstAttachment := df_FirstAttachment d;
     df_Split := df_Split d; df_Notes := df_Notes d; df_Facts := df_Facts d |}.

Definition diff_FirstAttachment (v : option FirstAttachmentProof) (d : PlanDiff) : PlanDiff :=
  {| df_Case := df_Case d; df_BoundaryBefore := df_BoundaryBefore d; df_BoundaryAfter := df_BoundaryAfter d;
     df_NewlyExcluded := df_NewlyExcluded d; df_AlreadyExcluded := df_AlreadyExcluded d;
     df_NewlyUnexcluded := df_NewlyUnexcluded d; df_Narrowing := df_Narrowing d; df_FirstAttachment := v;
     df_Split := df_Split d; df_Notes := df_Notes d; df_Facts := df_Facts d |}.

Definition diff_Split (v : option SplitDetail) (d : PlanDiff) : PlanDiff :=
  {| df_Case := df_Case d; df_BoundaryBefore := df_BoundaryBefore d; df_BoundaryAfter := df_BoundaryAfter d;
     df_NewlyExcluded := df_NewlyExcluded d; df_AlreadyExcluded := df_AlreadyExcluded d;
     df_NewlyUnexcluded := df_NewlyUnexcluded d; df_Narrowing := df_Narrowing d;
     df_FirstAttachment := df_FirstAttachment d; df_Split := v; df_Notes := df_Notes d; df_Facts := df_Facts d |}.

Definition diff_Notes (v : list string) (d : PlanDiff) : PlanDiff :=
  {| df_Case := df_Case d; df_BoundaryBefore := df_BoundaryBefore d; df_BoundaryAfter := df_BoundaryAfter d;
     df_NewlyExcluded := df_NewlyExcluded d; df_AlreadyExcluded := df_AlreadyExcluded d;
     df_NewlyUnexcluded := df_NewlyUnexcluded d; df_Narrowing := df_Narrowing d;
     df_FirstAttachment := df_FirstAttachment d; df_Split := df_Split d; df_Notes := v; df_Facts := df_Facts d |}.

Definition diff_Facts (v : list Fact) (d : PlanDiff) : PlanDiff :=
  {| df_Case := df_Case d; df_BoundaryBefore := df_BoundaryBefore d; df_BoundaryAfter := df_BoundaryAfter d;
     df_NewlyExcluded := df_NewlyExcluded d; df_AlreadyExcluded := df_AlreadyExcluded d;
     df_NewlyUnexcluded := df_NewlyUnexcluded d; df_Narrowing := df_Narrowing d;
     df_FirstAttachment := df_FirstAttachment d; df_Split := df_Split d; df_Notes := df_Notes d; df_Facts := v |}.

(** * The plan *)

Definition set_Eligibility (v : string) (p : Plan) : Plan :=
  {| pl_ControlID := pl_ControlID p; pl_Kind := pl_Kind p; pl_Delivery := pl_Delivery p; pl_Eligibility := v;
     pl_IneligibleReason := pl_IneligibleReason p; pl_Refusals := pl_Refusals p; pl_Basis := pl_Basis p;
     pl_BasisReadAt := pl_BasisReadAt p; pl_Precondition := pl_Precondition p;
     pl_PreconditionHash := pl_PreconditionHash p; pl_BeforeDocumentHash := pl_BeforeDocumentHash p;
     pl_DesiredAttachment := pl_DesiredAttachment p; pl_DesiredBoundaryARN := pl_DesiredBoundaryARN p;
     pl_DesiredDocumentHash := pl_DesiredDocumentHash p; pl_ReplacedBoundaryARN := pl_ReplacedBoundaryARN p;
     pl_ArtifactDisposition := pl_ArtifactDisposition p; pl_BundleHash := pl_BundleHash p;
     pl_EvidenceRev := pl_EvidenceRev p; pl_ResourcePolicyScanRunID := pl_ResourcePolicyScanRunID p;
     pl_FirstAttachment := pl_FirstAttachment p; pl_Unanalysed := pl_Unanalysed p; pl_Impact := pl_Impact p;
     pl_ImpactHash := pl_ImpactHash p; pl_Ops := pl_Ops p; pl_Diff := pl_Diff p; pl_PlanHash := pl_PlanHash p;
     pl_MaterialHash := pl_MaterialHash p; pl_GapRefs := pl_GapRefs p; pl_Documents := pl_Documents p;
     pl_Facts := pl_Facts p |}.

Definition set_IneligibleReason (v : string) (p : Plan) : Plan :=
  {| pl_ControlID := pl_ControlID p; pl_Kind := pl_Kind p; pl_Delivery := pl_Delivery p;
     pl_Eligibility := pl_Eligibility p; pl_IneligibleReason := v; pl_Refusals := pl_Refusals p;
     pl_Basis := pl_Basis p; pl_BasisReadAt := pl_BasisReadAt p; pl_Precondition := pl_Precondition p;
     pl_PreconditionHash := pl_PreconditionHash p; pl_BeforeDocumentHash := pl_BeforeDocumentHash p;
     pl_DesiredAttachment := pl_DesiredAttachment p; pl_DesiredBoundaryARN := pl_DesiredBoundaryARN p;
     pl_DesiredDocumentHash := pl_DesiredDocumentHash p; pl_ReplacedBoundaryARN := pl_ReplacedBoundaryARN p;
     pl_ArtifactDisposition := pl_ArtifactDisposition p; pl_BundleHash := pl_BundleHash p;
     pl_EvidenceRev := pl_EvidenceRev p; pl_ResourcePolicyScanRunID := pl_ResourcePolicyScanRunID p;
     pl_FirstAttachment := pl_FirstAttachment p; pl_Unanalysed := pl_Unanalysed p; pl_Impact := pl_Impact p;
     pl_ImpactHash := pl_ImpactHash p; pl_Ops := pl_Ops p; pl_Diff := pl_Diff p; pl_PlanHash := pl_PlanHash p;
     pl_MaterialHash := pl_MaterialHash p; pl_GapRefs := pl_GapRefs p; pl_Documents := pl_Documents p;
     pl_Facts := pl_Facts p |}.

Definition set_Refusals (v : list Refusal) (p : Plan) : Plan :=
  {| pl_ControlID := pl_ControlID p; pl_Kind := pl_Kind p; pl_Delivery := pl_Delivery p;
     pl_Eligibility := pl_Eligibility p; pl_IneligibleReason := pl_IneligibleReason p; pl_Refusals := v;
     pl_Basis := pl_Basis p; pl_BasisReadAt := pl_BasisReadAt p; pl_Precondition := pl_Precondition p;
     pl_PreconditionHash := pl_PreconditionHash p; pl_BeforeDocumentHash := pl_BeforeDocumentHash p;
     pl_DesiredAttachment := pl_DesiredAttachment p; pl_DesiredBoundaryARN := pl_DesiredBoundaryARN p;
     pl_DesiredDocumentHash := pl_DesiredDocumentHash p; pl_ReplacedBoundaryARN := pl_ReplacedBoundaryARN p;
     pl_ArtifactDisposition := pl_ArtifactDisposition p; pl_BundleHash := pl_BundleHash p;
     pl_EvidenceRev := pl_EvidenceRev p; pl_ResourcePolicyScanRunID := pl_ResourcePolicyScanRunID p;
     pl_FirstAttachment := pl_FirstAttachment p; pl_Unanalysed := pl_Unanalysed p; pl_Impact := pl_Impact p;
     pl_ImpactHash := pl_ImpactHash p; pl_Ops := pl_Ops p; pl_Diff := pl_Diff p; pl_PlanHash := pl_PlanHash p;
     pl_MaterialHash := pl_MaterialHash p; pl_GapRefs := pl_GapRefs p; pl_Documents := pl_Documents p;
     pl_Facts := pl_Facts p |}.

Definition set_Precondition (v : string) (p : Plan) : Plan :=
  {| pl_ControlID := pl_ControlID p; pl_Kind := pl_Kind p; pl_Delivery := pl_Delivery p;
     pl_Eligibility := pl_Eligibility p; pl_IneligibleReason := pl_IneligibleReason p; pl_Refusals := pl_Refusals p;
     pl_Basis := pl_Basis p; pl_BasisReadAt := pl_BasisReadAt p; pl_Precondition := v;
     pl_PreconditionHash := pl_PreconditionHash p; pl_BeforeDocumentHash := pl_BeforeDocumentHash p;
     pl_DesiredAttachment := pl_DesiredAttachment p; pl_DesiredBoundaryARN := pl_DesiredBoundaryARN p;
     pl_DesiredDocumentHash := pl_DesiredDocumentHash p; pl_ReplacedBoundaryARN := pl_ReplacedBoundaryARN p;
     pl_ArtifactDisposition := pl_ArtifactDisposition p; pl_BundleHash := pl_BundleHash p;
     pl_EvidenceRev := pl_EvidenceRev p; pl_ResourcePolicyScanRunID := pl_ResourcePolicyScanRunID p;
     pl_FirstAttachment := pl_FirstAttachment p; pl_Unanalysed := pl_Unanalysed p; pl_Impact := pl_Impact p;
     pl_ImpactHash := pl_ImpactHash p; pl_Ops := pl_Ops p; pl_Diff := pl_Diff p; pl_PlanHash := pl_PlanHash p;
     pl_MaterialHash := pl_MaterialHash p; pl_GapRefs := pl_GapRefs p; pl_Documents := pl_Documents p;
     pl_Facts := pl_Facts p |}.

Definition set_PreconditionHash (v : string) (p : Plan) : Plan :=
  {| pl_ControlID := pl_ControlID p; pl_Kind := pl_Kind p; pl_Delivery := pl_Delivery p;
     pl_Eligibility := pl_Eligibility p; pl_IneligibleReason := pl_IneligibleReason p; pl_Refusals := pl_Refusals p;
     pl_Basis := pl_Basis p; pl_BasisReadAt := pl_BasisReadAt p; pl_Precondition := pl_Precondition p;
     pl_PreconditionHash := v; pl_BeforeDocumentHash := pl_BeforeDocumentHash p;
     pl_DesiredAttachment := pl_DesiredAttachment p; pl_DesiredBoundaryARN := pl_DesiredBoundaryARN p;
     pl_DesiredDocumentHash := pl_DesiredDocumentHash p; pl_ReplacedBoundaryARN := pl_ReplacedBoundaryARN p;
     pl_ArtifactDisposition := pl_ArtifactDisposition p; pl_BundleHash := pl_BundleHash p;
     pl_EvidenceRev := pl_EvidenceRev p; pl_ResourcePolicyScanRunID := pl_ResourcePolicyScanRunID p;
     pl_FirstAttachment := pl_FirstAttachment p; pl_Unanalysed := pl_Unanalysed p; pl_Impact := pl_Impact p;
     pl_ImpactHash := pl_ImpactHash p; pl_Ops := pl_Ops p; pl_Diff := pl_Diff p; pl_PlanHash := pl_PlanHash p;
     pl_MaterialHash := pl_MaterialHash p; pl_GapRefs := pl_GapRefs p; pl_Documents := pl_Documents p;
     pl_Facts := pl_Facts p |}.

Definition set_BeforeDocumentHash (v : option string) (p : Plan) : Plan :=
  {| pl_ControlID := pl_ControlID p; pl_Kind := pl_Kind p; pl_Delivery := pl_Delivery p;
     pl_Eligibility := pl_Eligibility p; pl_IneligibleReason := pl_IneligibleReason p; pl_Refusals := pl_Refusals p;
     pl_Basis := pl_Basis p; pl_BasisReadAt := pl_BasisReadAt p; pl_Precondition := pl_Precondition p;
     pl_PreconditionHash := pl_PreconditionHash p; pl_BeforeDocumentHash := v;
     pl_DesiredAttachment := pl_DesiredAttachment p; pl_DesiredBoundaryARN := pl_DesiredBoundaryARN p;
     pl_DesiredDocumentHash := pl_DesiredDocumentHash p; pl_ReplacedBoundaryARN := pl_ReplacedBoundaryARN p;
     pl_ArtifactDisposition := pl_ArtifactDisposition p; pl_BundleHash := pl_BundleHash p;
     pl_EvidenceRev := pl_EvidenceRev p; pl_ResourcePolicyScanRunID := pl_ResourcePolicyScanRunID p;
     pl_FirstAttachment := pl_FirstAttachment p; pl_Unanalysed := pl_Unanalysed p; pl_Impact := pl_Impact p;
     pl_ImpactHash := pl_ImpactHash p; pl_Ops := pl_Ops p; pl_Diff := pl_Diff p; pl_PlanHash := pl_PlanHash p;
     pl_MaterialHash := pl_MaterialHash p; pl_GapRefs := pl_GapRefs p; pl_Documents := pl_Documents p;
     pl_Facts := pl_Facts p |}.

Definition set_DesiredAttachment (v : string) (p : Plan) : Plan :=
  {| pl_ControlID := pl_ControlID p; pl_Kind := pl_Kind p; pl_Delivery := pl_Delivery p;
     pl_Eligibility := pl_Eligibility p; pl_IneligibleReason := pl_IneligibleReason p; pl_Refusals := pl_Refusals p;
     pl_Basis := pl_Basis p; pl_BasisReadAt := pl_BasisReadAt p; pl_Precondition := pl_Precondition p;
     pl_PreconditionHash := pl_PreconditionHash p; pl_BeforeDocumentHash := pl_BeforeDocumentHash p;
     pl_DesiredAttachment := v; pl_DesiredBoundaryARN := pl_DesiredBoundaryARN p;
     pl_DesiredDocumentHash := pl_DesiredDocumentHash p; pl_ReplacedBoundaryARN := pl_ReplacedBoundaryARN p;
     pl_ArtifactDisposition := pl_ArtifactDisposition p; pl_BundleHash := pl_BundleHash p;
     pl_EvidenceRev := pl_EvidenceRev p; pl_ResourcePolicyScanRunID := pl_ResourcePolicyScanRunID p;
     pl_FirstAttachment := pl_FirstAttachment p; pl_Unanalysed := pl_Unanalysed p; pl_Impact := pl_Impact p;
     pl_ImpactHash := pl_ImpactHash p; pl_Ops := pl_Ops p; pl_Diff := pl_Diff p; pl_PlanHash := pl_PlanHash p;
     pl_MaterialHash := pl_MaterialHash p; pl_GapRefs := pl_GapRefs p; pl_Documents := pl_Documents p;
     pl_Facts := pl_Facts p |}.

Definition set_DesiredBoundaryARN (v : option string) (p : Plan) : Plan :=
  {| pl_ControlID := pl_ControlID p; pl_Kind := pl_Kind p; pl_Delivery := pl_Delivery p;
     pl_Eligibility := pl_Eligibility p; pl_IneligibleReason := pl_IneligibleReason p; pl_Refusals := pl_Refusals p;
     pl_Basis := pl_Basis p; pl_BasisReadAt := pl_BasisReadAt p; pl_Precondition := pl_Precondition p;
     pl_PreconditionHash := pl_PreconditionHash p; pl_BeforeDocumentHash := pl_BeforeDocumentHash p;
     pl_DesiredAttachment := pl_DesiredAttachment p; pl_DesiredBoundaryARN := v;
     pl_DesiredDocumentHash := pl_DesiredDocumentHash p; pl_ReplacedBoundaryARN := pl_ReplacedBoundaryARN p;
     pl_ArtifactDisposition := pl_ArtifactDisposition p; pl_BundleHash := pl_BundleHash p;
     pl_EvidenceRev := pl_EvidenceRev p; pl_ResourcePolicyScanRunID := pl_ResourcePolicyScanRunID p;
     pl_FirstAttachment := pl_FirstAttachment p; pl_Unanalysed := pl_Unanalysed p; pl_Impact := pl_Impact p;
     pl_ImpactHash := pl_ImpactHash p; pl_Ops := pl_Ops p; pl_Diff := pl_Diff p; pl_PlanHash := pl_PlanHash p;
     pl_MaterialHash := pl_MaterialHash p; pl_GapRefs := pl_GapRefs p; pl_Documents := pl_Documents p;
     pl_Facts := pl_Facts p |}.

Definition set_DesiredDocumentHash (v : option string) (p : Plan) : Plan :=
  {| pl_ControlID := pl_ControlID p; pl_Kind := pl_Kind p; pl_Delivery := pl_Delivery p;
     pl_Eligibility := pl_Eligibility p; pl_IneligibleReason := pl_IneligibleReason p; pl_Refusals := pl_Refusals p;
     pl_Basis := pl_Basis p; pl_BasisReadAt := pl_BasisReadAt p; pl_Precondition := pl_Precondition p;
     pl_PreconditionHash := pl_PreconditionHash p; pl_BeforeDocumentHash := pl_BeforeDocumentHash p;
     pl_DesiredAttachment := pl_DesiredAttachment p; pl_DesiredBoundaryARN := pl_DesiredBoundaryARN p;
     pl_DesiredDocumentHash := v; pl_ReplacedBoundaryARN := pl_ReplacedBoundaryARN p;
     pl_ArtifactDisposition := pl_ArtifactDisposition p; pl_BundleHash := pl_BundleHash p;
     pl_EvidenceRev := pl_EvidenceRev p; pl_ResourcePolicyScanRunID := pl_ResourcePolicyScanRunID p;
     pl_FirstAttachment := pl_FirstAttachment p; pl_Unanalysed := pl_Unanalysed p; pl_Impact := pl_Impact p;
     pl_ImpactHash := pl_ImpactHash p; pl_Ops := pl_Ops p; pl_Diff := pl_Diff p; pl_PlanHash := pl_PlanHash p;
     pl_MaterialHash := pl_MaterialHash p; pl_GapRefs := pl_GapRefs p; pl_Documents := pl_Documents p;
     pl_Facts := pl_Facts p |}.

Definition set_ReplacedBoundaryARN (v : option string) (p : Plan) : Plan :=
  {| pl_ControlID := pl_ControlID p; pl_Kind := pl_Kind p; pl_Delivery := pl_Delivery p;
     pl_Eligibility := pl_Eligibility p; pl_IneligibleReason := pl_IneligibleReason p; pl_Refusals := pl_Refusals p;
     pl_Basis := pl_Basis p; pl_BasisReadAt := pl_BasisReadAt p; pl_Precondition := pl_Precondition p;
     pl_PreconditionHash := pl_PreconditionHash p; pl_BeforeDocumentHash := pl_BeforeDocumentHash p;
     pl_DesiredAttachment := pl_DesiredAttachment p; pl_DesiredBoundaryARN := pl_DesiredBoundaryARN p;
     pl_DesiredDocumentHash := pl_DesiredDocumentHash p; pl_ReplacedBoundaryARN := v;
     pl_ArtifactDisposition := pl_ArtifactDisposition p; pl_BundleHash := pl_BundleHash p;
     pl_EvidenceRev := pl_EvidenceRev p; pl_ResourcePolicyScanRunID := pl_ResourcePolicyScanRunID p;
     pl_FirstAttachment := pl_FirstAttachment p; pl_Unanalysed := pl_Unanalysed p; pl_Impact := pl_Impact p;
     pl_ImpactHash := pl_ImpactHash p; pl_Ops := pl_Ops p; pl_Diff := pl_Diff p; pl_PlanHash := pl_PlanHash p;
     pl_MaterialHash := pl_MaterialHash p; pl_GapRefs := pl_GapRefs p; pl_Documents := pl_Documents p;
     pl_Facts := pl_Facts p |}.

Definition set_ArtifactDisposition (v : string) (p : Plan) : Plan :=
  {| pl_ControlID := pl_ControlID p; pl_Kind := pl_Kind p; pl_Delivery := pl_Delivery p;
     pl_Eligibility := pl_Eligibility p; pl_IneligibleReason := pl_IneligibleReason p; pl_Refusals := pl_Refusals p;
     pl_Basis := pl_Basis p; pl_BasisReadAt := pl_BasisReadAt p; pl_Precondition := pl_Precondition p;
     pl_PreconditionHash := pl_PreconditionHash p; pl_BeforeDocumentHash := pl_BeforeDocumentHash p;
     pl_DesiredAttachment := pl_DesiredAttachment p; pl_DesiredBoundaryARN := pl_DesiredBoundaryARN p;
     pl_DesiredDocumentHash := pl_DesiredDocumentHash p; pl_ReplacedBoundaryARN := pl_ReplacedBoundaryARN p;
     pl_ArtifactDisposition := v; pl_BundleHash := pl_BundleHash p; pl_EvidenceRev := pl_EvidenceRev p;
     pl_ResourcePolicyScanRunID := pl_ResourcePolicyScanRunID p; pl_FirstAttachment := pl_FirstAttachment p;
     pl_Unanalysed := pl_Unanalysed p; pl_Impact := pl_Impact p; pl_ImpactHash := pl_ImpactHash p;
     pl_Ops := pl_Ops p; pl_Diff := pl_Diff p; pl_PlanHash := pl_PlanHash p; pl_MaterialHash := pl_MaterialHash p;
     pl_GapRefs := pl_GapRefs p; pl_Documents := pl_Documents p; pl_Facts := pl_Facts p |}.

Definition set_FirstAttachment (v : bool) (p : Plan) : Plan :=
  {| pl_ControlID := pl_ControlID p; pl_Kind := pl_Kind p; pl_Delivery := pl_Delivery p;
     pl_Eligibility := pl_Eligibility p; pl_IneligibleReason := pl_IneligibleReason p; pl_Refusals := pl_Refusals p;
     pl_Basis := pl_Basis p; pl_BasisReadAt := pl_BasisReadAt p; pl_Precondition := pl_Precondition p;
     pl_PreconditionHash := pl_PreconditionHash p; pl_BeforeDocumentHash := pl_BeforeDocumentHash p;
     pl_DesiredAttachment := pl_DesiredAttachment p; pl_DesiredBoundaryARN := pl_DesiredBoundaryARN p;
     pl_DesiredDocumentHash := pl_DesiredDocumentHash p; pl_ReplacedBoundaryARN := pl_ReplacedBoundaryARN p;
     pl_ArtifactDisposition := pl_ArtifactDisposition p; pl_BundleHash := pl_BundleHash p;
     pl_EvidenceRev := pl_EvidenceRev p; pl_ResourcePolicyScanRunID := pl_ResourcePolicyScanRunID p;
     pl_FirstAttachment := v; pl_Unanalysed := pl_Unanalysed p; pl_Impact := pl_Impact p;
     pl_ImpactHash := pl_ImpactHash p; pl_Ops := pl_Ops p; pl_Diff := pl_Diff p; pl_PlanHash := pl_PlanHash p;
     pl_MaterialHash := pl_MaterialHash p; pl_GapRefs := pl_GapRefs p; pl_Documents := pl_Documents p;
     pl_Facts := pl_Facts p |}.

Definition set_Unanalysed (v : list UnanalysedItem) (p : Plan) : Plan :=
  {| pl_ControlID := pl_ControlID p; pl_Kind := pl_Kind p; pl_Delivery := pl_Delivery p;
     pl_Eligibility := pl_Eligibility p; pl_IneligibleReason := pl_IneligibleReason p; pl_Refusals := pl_Refusals p;
     pl_Basis := pl_Basis p; pl_BasisReadAt := pl_BasisReadAt p; pl_Precondition := pl_Precondition p;
     pl_PreconditionHash := pl_PreconditionHash p; pl_BeforeDocumentHash := pl_BeforeDocumentHash p;
     pl_DesiredAttachment := pl_DesiredAttachment p; pl_DesiredBoundaryARN := pl_DesiredBoundaryARN p;
     pl_DesiredDocumentHash := pl_DesiredDocumentHash p; pl_ReplacedBoundaryARN := pl_ReplacedBoundaryARN p;
     pl_ArtifactDisposition := pl_ArtifactDisposition p; pl_BundleHash := pl_BundleHash p;
     pl_EvidenceRev := pl_EvidenceRev p; pl_ResourcePolicyScanRunID := pl_ResourcePolicyScanRunID p;
     pl_FirstAttachment := pl_FirstAttachment p; pl_Unanalysed := v; pl_Impact := pl_Impact p;
     pl_ImpactHash := pl_ImpactHash p; pl_Ops := pl_Ops p; pl_Diff := pl_Diff p; pl_PlanHash := pl_PlanHash p;
     pl_MaterialHash := pl_MaterialHash p; pl_GapRefs := pl_GapRefs p; pl_Documents := pl_Documents p;
     pl_Facts := pl_Facts p |}.

Definition set_Impact (v : Impact) (p : Plan) : Plan :=
  {| pl_ControlID := pl_ControlID p; pl_Kind := pl_Kind p; pl_Delivery := pl_Delivery p;
     pl_Eligibility := pl_Eligibility p; pl_IneligibleReason := pl_IneligibleReason p; pl_Refusals := pl_Refusals p;
     pl_Basis := pl_Basis p; pl_BasisReadAt := pl_BasisReadAt p; pl_Precondition := pl_Precondition p;
     pl_PreconditionHash := pl_PreconditionHash p; pl_BeforeDocumentHash := pl_BeforeDocumentHash p;
     pl_DesiredAttachment := pl_DesiredAttachment p; pl_DesiredBoundaryARN := pl_DesiredBoundaryARN p;
     pl_DesiredDocumentHash := pl_DesiredDocumentHash p; pl_ReplacedBoundaryARN := pl_ReplacedBoundaryARN p;
     pl_ArtifactDisposition := pl_ArtifactDisposition p; pl_BundleHash := pl_BundleHash p;
     pl_EvidenceRev := pl_EvidenceRev p; pl_ResourcePolicyScanRunID := pl_ResourcePolicyScanRunID p;
     pl_FirstAttachment := pl_FirstAttachment p; pl_Unanalysed := pl_Unanalysed p; pl_Impact := v;
     pl_ImpactHash := pl_ImpactHash p; pl_Ops := pl_Ops p; pl_Diff := pl_Diff p; pl_PlanHash := pl_PlanHash p;
     pl_MaterialHash := pl_MaterialHash p; pl_GapRefs := pl_GapRefs p; pl_Documents := pl_Documents p;
     pl_Facts := pl_Facts p |}.

Definition set_ImpactHash (v : string) (p : Plan) : Plan :=
  {| pl_ControlID := pl_ControlID p; pl_Kind := pl_Kind p; pl_Delivery := pl_Delivery p;
     pl_Eligibility := pl_Eligibility p; pl_IneligibleReason := pl_IneligibleReason p; pl_Refusals := pl_Refusals p;
     pl_Basis := pl_Basis p; pl_BasisReadAt := pl_BasisReadAt p; pl_Precondition := pl_Precondition p;
     pl_PreconditionHash := pl_PreconditionHash p; pl_BeforeDocumentHash := pl_BeforeDocumentHash p;
     pl_DesiredAttachment := pl_DesiredAttachment p; pl_DesiredBoundaryARN := pl_DesiredBoundaryARN p;
     pl_DesiredDocumentHash := pl_DesiredDocumentHash p; pl_ReplacedBoundaryARN := pl_ReplacedBoundaryARN p;
     pl_ArtifactDisposition := pl_ArtifactDisposition p; pl_BundleHash := pl_BundleHash p;
     pl_EvidenceRev := pl_EvidenceRev p; pl_ResourcePolicyScanRunID := pl_ResourcePolicyScanRunID p;
     pl_FirstAttachment := pl_FirstAttachment p; pl_Unanalysed := pl_Unanalysed p; pl_Impact := pl_Impact p;
     pl_ImpactHash := v; pl_Ops := pl_Ops p; pl_Diff := pl_Diff p; pl_PlanHash := pl_PlanHash p;
     pl_MaterialHash := pl_MaterialHash p; pl_GapRefs := pl_GapRefs p; pl_Documents := pl_Documents p;
     pl_Facts := pl_Facts p |}.

Definition set_Ops (v : list Op) (p : Plan) : Plan :=
  {| pl_ControlID := pl_ControlID p; pl_Kind := pl_Kind p; pl_Delivery := pl_Delivery p;
     pl_Eligibility := pl_Eligibility p; pl_IneligibleReason := pl_IneligibleReason p; pl_Refusals := pl_Refusals p;
     pl_Basis := pl_Basis p; pl_BasisReadAt := pl_BasisReadAt p; pl_Precondition := pl_Precondition p;
     pl_PreconditionHash := pl_PreconditionHash p; pl_BeforeDocumentHash := pl_BeforeDocumentHash p;
     pl_DesiredAttachment := pl_DesiredAttachment p; pl_DesiredBoundaryARN := pl_DesiredBoundaryARN p;
     pl_DesiredDocumentHash := pl_DesiredDocumentHash p; pl_ReplacedBoundaryARN := pl_ReplacedBoundaryARN p;
     pl_ArtifactDisposition := pl_ArtifactDisposition p; pl_BundleHash := pl_BundleHash p;
     pl_EvidenceRev := pl_EvidenceRev p; pl_ResourcePolicyScanRunID := pl_ResourcePolicyScanRunID p;
     pl_FirstAttachment := pl_FirstAttachment p; pl_Unanalysed := pl_Unanalysed p; pl_Impact := pl_Impact p;
     pl_ImpactHash := pl_ImpactHash p; pl_Ops := v; pl_Diff := pl_Diff p; pl_PlanHash := pl_PlanHash p;
     pl_MaterialHash := pl_MaterialHash p; pl_GapRefs := pl_GapRefs p; pl_Documents := pl_Documents p;
     pl_Facts := pl_Facts p |}.

Definition set_Diff (v : PlanDiff) (p : Plan) : Plan :=
  {| pl_ControlID := pl_ControlID p; pl_Kind := pl_Kind p; pl_Delivery := pl_Delivery p;
     pl_Eligibility := pl_Eligibility p; pl_IneligibleReason := pl_IneligibleReason p; pl_Refusals := pl_Refusals p;
     pl_Basis := pl_Basis p; pl_BasisReadAt := pl_BasisReadAt p; pl_Precondition := pl_Precondition p;
     pl_PreconditionHash := pl_PreconditionHash p; pl_BeforeDocumentHash := pl_BeforeDocumentHash p;
     pl_DesiredAttachment := pl_DesiredAttachment p; pl_DesiredBoundaryARN := pl_DesiredBoundaryARN p;
     pl_DesiredDocumentHash := pl_DesiredDocumentHash p; pl_ReplacedBoundaryARN := pl_ReplacedBoundaryARN p;
     pl_ArtifactDisposition := pl_ArtifactDisposition p; pl_BundleHash := pl_BundleHash p;
     pl_EvidenceRev := pl_EvidenceRev p; pl_ResourcePolicyScanRunID := pl_ResourcePolicyScanRunID p;
     pl_FirstAttachment := pl_FirstAttachment p; pl_Unanalysed := pl_Unanalysed p; pl_Impact := pl_Impact p;
     pl_ImpactHash := pl_ImpactHash p; pl_Ops := pl_Ops p; pl_Diff := v; pl_PlanHash := pl_PlanHash p;
     pl_MaterialHash := pl_MaterialHash p; pl_GapRefs := pl_GapRefs p; pl_Documents := pl_Documents p;
     pl_Facts := pl_Facts p |}.

Definition set_PlanHash (v : string) (p : Plan) : Plan :=
  {| pl_ControlID := pl_ControlID p; pl_Kind := pl_Kind p; pl_Delivery := pl_Delivery p;
     pl_Eligibility := pl_Eligibility p; pl_IneligibleReason := pl_IneligibleReason p; pl_Refusals := pl_Refusals p;
     pl_Basis := pl_Basis p; pl_BasisReadAt := pl_BasisReadAt p; pl_Precondition := pl_Precondition p;
     pl_PreconditionHash := pl_PreconditionHash p; pl_BeforeDocumentHash := pl_BeforeDocumentHash p;
     pl_DesiredAttachment := pl_DesiredAttachment p; pl_DesiredBoundaryARN := pl_DesiredBoundaryARN p;
     pl_DesiredDocumentHash := pl_DesiredDocumentHash p; pl_ReplacedBoundaryARN := pl_ReplacedBoundaryARN p;
     pl_ArtifactDisposition := pl_ArtifactDisposition p; pl_BundleHash := pl_BundleHash p;
     pl_EvidenceRev := pl_EvidenceRev p; pl_ResourcePolicyScanRunID := pl_ResourcePolicyScanRunID p;
     pl_FirstAttachment := pl_FirstAttachment p; pl_Unanalysed := pl_Unanalysed p; pl_Impact := pl_Impact p;
     pl_ImpactHash := pl_ImpactHash p; pl_Ops := pl_Ops p; pl_Diff := pl_Diff p; pl_PlanHash := v;
     pl_MaterialHash := pl_MaterialHash p; pl_GapRefs := pl_GapRefs p; pl_Documents := pl_Documents p;
     pl_Facts := pl_Facts p |}.

Definition set_MaterialHash (v : string) (p : Plan) : Plan :=
  {| pl_ControlID := pl_ControlID p; pl_Kind := pl_Kind p; pl_Delivery := pl_Delivery p;
     pl_Eligibility := pl_Eligibility p; pl_IneligibleReason := pl_IneligibleReason p; pl_Refusals := pl_Refusals p;
     pl_Basis := pl_Basis p; pl_BasisReadAt := pl_BasisReadAt p; pl_Precondition := pl_Precondition p;
     pl_PreconditionHash := pl_PreconditionHash p; pl_BeforeDocumentHash := pl_BeforeDocumentHash p;
     pl_DesiredAttachment := pl_DesiredAttachment p; pl_DesiredBoundaryARN := pl_DesiredBoundaryARN p;
     pl_DesiredDocumentHash := pl_DesiredDocumentHash p; pl_ReplacedBoundaryARN := pl_ReplacedBoundaryARN p;
     pl_ArtifactDisposition := pl_ArtifactDisposition p; pl_BundleHash := pl_BundleHash p;
     pl_EvidenceRev := pl_EvidenceRev p; pl_ResourcePolicyScanRunID := pl_ResourcePolicyScanRunID p;
     pl_FirstAttachment := pl_FirstAttachment p; pl_Unanalysed := pl_Unanalysed p; pl_Impact := pl_Impact p;
     pl_ImpactHash := pl_ImpactHash p; pl_Ops := pl_Ops p; pl_Diff := pl_Diff p; pl_PlanHash := pl_PlanHash p;
     pl_MaterialHash := v; pl_GapRefs := pl_GapRefs p; pl_Documents := pl_Documents p; pl_Facts := pl_Facts p |}.

Definition set_Documents (v : list ArchivedDocument) (p : Plan) : Plan :=
  {| pl_ControlID := pl_ControlID p; pl_Kind := pl_Kind p; pl_Delivery := pl_Delivery p;
     pl_Eligibility := pl_Eligibility p; pl_IneligibleReason := pl_IneligibleReason p; pl_Refusals := pl_Refusals p;
     pl_Basis := pl_Basis p; pl_BasisReadAt := pl_BasisReadAt p; pl_Precondition := pl_Precondition p;
     pl_PreconditionHash := pl_PreconditionHash p; pl_BeforeDocumentHash := pl_BeforeDocumentHash p;
     pl_DesiredAttachment := pl_DesiredAttachment p; pl_DesiredBoundaryARN := pl_DesiredBoundaryARN p;
     pl_DesiredDocumentHash := pl_DesiredDocumentHash p; pl_ReplacedBoundaryARN := pl_ReplacedBoundaryARN p;
     pl_ArtifactDisposition := pl_ArtifactDisposition p; pl_BundleHash := pl_BundleHash p;
     pl_EvidenceRev := pl_EvidenceRev p; pl_ResourcePolicyScanRunID := pl_ResourcePolicyScanRunID p;
     pl_FirstAttachment := pl_FirstAttachment p; pl_Unanalysed := pl_Unanalysed p; pl_Impact := pl_Impact p;
     pl_ImpactHash := pl_ImpactHash p; pl_Ops := pl_Ops p; pl_Diff := pl_Diff p; pl_PlanHash := pl_PlanHash p;
     pl_MaterialHash := pl_MaterialHash p; pl_GapRefs := pl_GapRefs p; pl_Documents := v; pl_Facts := pl_Facts p |}.

Definition set_Facts (v : list Fact) (p : Plan) : Plan :=
  {| pl_ControlID := pl_ControlID p; pl_Kind := pl_Kind p; pl_Delivery := pl_Delivery p;
     pl_Eligibility := pl_Eligibility p; pl_IneligibleReason := pl_IneligibleReason p; pl_Refusals := pl_Refusals p;
     pl_Basis := pl_Basis p; pl_BasisReadAt := pl_BasisReadAt p; pl_Precondition := pl_Precondition p;
     pl_PreconditionHash := pl_PreconditionHash p; pl_BeforeDocumentHash := pl_BeforeDocumentHash p;
     pl_DesiredAttachment := pl_DesiredAttachment p; pl_DesiredBoundaryARN := pl_DesiredBoundaryARN p;
     pl_DesiredDocumentHash := pl_DesiredDocumentHash p; pl_ReplacedBoundaryARN := pl_ReplacedBoundaryARN p;
     pl_ArtifactDisposition := pl_ArtifactDisposition p; pl_BundleHash := pl_BundleHash p;
     pl_EvidenceRev := pl_EvidenceRev p; pl_ResourcePolicyScanRunID := pl_ResourcePolicyScanRunID p;
     pl_FirstAttachment := pl_FirstAttachment p; pl_Unanalysed := pl_Unanalysed p; pl_Impact := pl_Impact p;
     pl_ImpactHash := pl_ImpactHash p; pl_Ops := pl_Ops p; pl_Diff := pl_Diff p; pl_PlanHash := pl_PlanHash p;
     pl_MaterialHash := pl_MaterialHash p; pl_GapRefs := pl_GapRefs p; pl_Documents := pl_Documents p;
     pl_Facts := v |}.

