(* ===== verification/Compile.v ===== *)
(** The compilers of right-size plans (internal/igagov/compile.go):
    [CompileTarget] turns an intent, a live read and an evidence bundle into an
    apply plan and its undo, by the kind of boundary the role has today;
    [CompileRemoveControl] restores a control's baseline; [ResolveControl]
    keeps one policy per role.

    A Go method that assigns fields of its plan is a function that returns the
    updated plan ([PlanSet]). *)

From stdpp Require Import base list strings gmap sorting.
From Stdlib Require Import Ascii.
From S2P Require Import Prelude Slices Qualify Float64 Utf8 Json JsonCanon Marshal Sha256 PolicyDoc Catalog Text Routes Hashes PolicyCanon TimeFmt Live Boundary Narrow Intent Bundle FirstAttach Plan Recover PlanSet.

#[local] Open Scope plan_scope.

(** * Vocabulary *)

Definition AuthSecPolicyPath : string := "/authsec/".
Definition AuthSecBoundaryPrefix : string := "AuthSecBoundary-".
Definition MaxPolicyNameLen : nat := 128.
Definition MaxPolicyVersions : Z := 5.
Definition SelectOldestNonDefault : string := "oldest_non_default".
Definition SelectAllNonDefault : string := "all_non_default".
Definition RefuseNotInActivityReport : string := "service_not_in_activity_report".
Definition RefuseRemovalNotJustified : string := "removal_not_justified".
Definition RefuseRemovalIsDependency : string := "removal_is_dependency".
Definition RefuseDocumentTooLarge : string := "document_too_large".
Definition RefuseCustomerBoundaryDirect : string := "customer_boundary_requires_iac".
Definition RefuseArtifactOwnedElsewhere : string := "artifact_owned_elsewhere".
Definition RefuseArtifactOtherControl : string := "artifact_owned_by_other_control".
Definition RefuseConsumersChanged : string := "artifact_consumers_changed".
Definition RefuseChangedOutsideAuthSec : string := "artifact_changed_outside_authsec".
Definition RefusePolicyNameInUse : string := "boundary_policy_name_in_use".
Definition RefusePolicyNameTooLong : string := "policy_name_too_long".
Definition RefuseBaselineMissing : string := "baseline_boundary_missing".
Definition RefuseDirectNeedsAuthSecTarget : string := "direct_requires_authsec_boundary".
Definition CaseNoneToAuthSec : string := "none_to_authsec".
Definition CaseAuthSecVersion : string := "authsec_version".
Definition CaseCustomerInPlace : string := "customer_in_place".
Definition CaseCustomerSplit : string := "customer_split".
Definition CaseUndoDeleteNew : string := "undo_delete_new_boundary".
Definition CaseUndoEarlierDocument : string := "undo_earlier_document".
Definition CaseUndoCustomerInPlace : string := "undo_customer_in_place".
Definition CaseUndoSplit : string := "undo_split_copy".
Definition CaseRemoveDetach : string := "remove_detach".
Definition CaseRemoveInPlace : string := "remove_restore_in_place".
Definition CaseRemoveRepoint : string := "remove_repoint_baseline".
Definition NoteAlreadyInPlace : string := "already_in_place".
Definition NoteNothingToNarrow : string := "customer_boundary_already_excludes".
Definition NoteBaselineDocChanged : string := "baseline_document_changed".
Definition NoteCopyRetained : string := "copy_retained_for_other_users".
Definition NotePolicyRetained : string := "policy_retained_for_other_users".

(** * Plans *)

Definition empty_impact : Impact :=
  {| im_Consumers := []; im_OwnerUserIDs := []; im_Removed := []; im_Retained := []; im_StatementRevisions := [];
     im_Routes := []; im_Restored := [] |}.

(* src: internal/igagov/compile.go:1156-1163 (EvidenceRef.plan) *)
Definition start_plan (e : EvidenceRef) (controlID kind delivery : string) (readAt : Z) : Plan :=
  {| pl_ControlID := controlID; pl_Kind := kind; pl_Delivery := delivery; pl_Eligibility := EligibilityEligible;
     pl_IneligibleReason := ""; pl_Refusals := []; pl_Basis := BasisLiveRead; pl_BasisReadAt := readAt;
     pl_Precondition := ""; pl_PreconditionHash := ""; pl_BeforeDocumentHash := None; pl_DesiredAttachment := "";
     pl_DesiredBoundaryARN := None; pl_DesiredDocumentHash := None; pl_ReplacedBoundaryARN := None;
     pl_ArtifactDisposition := DispositionKeep; pl_BundleHash := bd_Hash (er_Bundle e); pl_EvidenceRev := er_EvidenceRev e;
     pl_ResourcePolicyScanRunID := Some (er_ScanRunID e); pl_FirstAttachment := false; pl_Unanalysed := [];
     pl_Impact := empty_impact; pl_ImpactHash := ""; pl_Ops := [];
     pl_Diff := {| df_Case := ""; df_BoundaryBefore := None; df_BoundaryAfter := None; df_NewlyExcluded := [];
                   df_AlreadyExcluded := []; df_NewlyUnexcluded := []; df_Narrowing := None; df_FirstAttachment := None;
                   df_Split := None; df_Notes := []; df_Facts := [] |};
     pl_PlanHash := ""; pl_MaterialHash := ""; pl_GapRefs := bd_GapRefs (er_Bundle e); pl_Documents := []; pl_Facts := [] |}.

(* src: internal/igagov/compile.go:1165-1167 (Plan.refuse) *)
Definition refuse (rs : list Refusal) (p : Plan) : Plan := set_Refusals (pl_Refusals p ++ rs) p.
Definition refuse_if (b : bool) (code detail : string) (p : Plan) : Plan :=
  if b then refuse [{| ref_Code := code; ref_Detail := detail |}] p else p.

(* src: internal/igagov/compile.go:1169-1177 (Plan.archive) *)
Definition archive (hash canonical : string) (p : Plan) : Plan :=
  if existsb (fun d => (ad_Hash d =? hash)%string) (pl_Documents p) then p
  else set_Documents (sort_slice (less_by (fun d => [ad_Hash d]))
         (pl_Documents p ++ [{| ad_Hash := hash; ad_Canonical := canonical |}])) p.

(* src: internal/igagov/compile.go:1179-1186 (Plan.archiveText) *)
Definition archiveText (text : string) (p : Plan) : result (string * Plan) :=
  '(c, h) ← CanonicalDocument text; Ok (h, archive h c p).

(** What [seal] does before it hashes. *)
(* src: internal/igagov/compile.go:1192-1206 (Plan.seal, part) *)
Definition settle (p : Plan) : Plan :=
  let p :=
    match pl_Refusals p with
    | [] => p
    | rs => p |> set_Eligibility EligibilityIneligible
              |> set_IneligibleReason (Join (map Refusal_String rs) "; ")
              |> set_Ops []
    end in
  let facts := sortFacts (pl_Facts p) in
  p |> set_Facts facts |> set_Diff (diff_Facts facts (pl_Diff p)) |> set_Impact (impact_Normalized (pl_Impact p)).

(* src: internal/igagov/compile.go:1191-1220 (Plan.seal) *)
Definition seal (p : Plan) : result Plan :=
  let p := settle p in
  ih ← ImpactHash (pl_Impact p);
  let input := HashInput p in
  ph ← PlanHash input;
  mh ← MaterialHash {| mh_Plan := input; mh_ImpactHash := ih; mh_Gaps := pl_GapRefs p |};
  let p := p |> set_ImpactHash ih |> set_PlanHash ph |> set_MaterialHash mh in
  _ ← CheckStorable p;
  Ok p.

(* src: internal/igagov/compile.go:1292-1294 (AuthSecBoundaryARN) *)
Definition AuthSecBoundaryARN (partition account roleID : string) : string :=
  "arn:" +:+ partition +:+ ":iam::" +:+ account +:+ ":policy" +:+ AuthSecPolicyPath +:+ AuthSecBoundaryPrefix +:+ roleID.

(* src: internal/igagov/compile.go:1298-1304 (SplitCopyARN) *)
Definition SplitCopyARN (partition account path sharedName roleID : string) : string * string :=
  let path := if is_empty path then "/" else path in
  let name := sharedName +:+ "-" +:+ roleID in
  ("arn:" +:+ partition +:+ ":iam::" +:+ account +:+ ":policy" +:+ path +:+ name, name).

(* src: internal/igagov/compile.go:1306-1306 (isAuthSecPath) *)
Definition isAuthSecPath (arn : string) : bool := Contains arn (":policy" +:+ AuthSecPolicyPath).

(** * Removals *)

(* src: internal/igagov/compile.go:1475-1489 (justifyRemovals, part) *)
Definition justify_one (act : gmap string BundleActivity) (ctxs : list DependencyContext) (e : RemoveEntry) : list Refusal :=
  let svc := rm_Service e in
  let not_justified why := [{| ref_Code := RefuseRemovalNotJustified; ref_Detail := svc +:+ ": " +:+ why |}] in
  match act !! svc with
  | Some a =>
      if negb (ba_State a =? EvidenceCollected)%string then [{| ref_Code := RefuseNotInActivityReport; ref_Detail := svc |}]
      else if negb (ba_Outcome a =? QualNoAttempt)%string then not_justified ("activity outcome " +:+ ba_Outcome a)
      else if ba_QualifiedDays a <? MinQualifiedDays then not_justified (Itoa (ba_QualifiedDays a) +:+ " qualified days")
      else if negb (ba_GrantAgeBasis a =? GrantAgeObservedSinceChange)%string &&
              negb (ba_GrantAgeBasis a =? GrantAgePredatesObservation)%string
      then not_justified ("grant age " +:+ ba_GrantAgeBasis a)
      else []
  | None => [{| ref_Code := RefuseNotInActivityReport; ref_Detail := svc |}]
  end ++
  match IsDependency svc ctxs with
  | Some d => [{| ref_Code := RefuseRemovalIsDependency; ref_Detail := svc +:+ " (" +:+ dep_Catalog d +:+ ")" |}]
  | None => []
  end.

(** The activity facts by service; a later fact of a service replaces an
    earlier one. *)
Definition activity_map (activity : list BundleActivity) : gmap string BundleActivity :=
  fold_left (fun m a => <[ba_Service a := a]> m) activity ∅.

(* src: internal/igagov/compile.go:1469-1492 (justifyRemovals) *)
Definition justifyRemovals (remove : list RemoveEntry) (activity : list BundleActivity) (ctxs : list DependencyContext)
    : list Refusal :=
  flat_map (justify_one (activity_map activity) ctxs) remove.

(** * Operations *)

Definition mk_op (op role arn name path doc : string) (default_ : bool) (tags : gmap string string) (sel : string) (n : Z) : Op :=
  {| op_Op := op; op_RoleName := role; op_RoleARN := ""; op_PolicyARN := arn; op_PolicyName := name; op_Path := path;
     op_DocumentHash := doc; op_SetAsDefault := default_; op_Tags := tags; op_Select := sel; op_IfVersionsAtLeast := n;
     op_SubjectARN := ""; op_TrustPolicyHash := ""; op_ResourceARN := ""; op_Principal := ""; op_InlineName := "";
     op_InstanceProfile := ""; op_OnlyIfUnused := false; op_Binding := ""; op_Steps := [] |}.
Definition create_policy (arn name path doc : string) (tags : gmap string string) : Op :=
  mk_op OpCreatePolicy "" arn name path doc false tags "" 0.
Definition put_boundary (role arn : string) : Op := mk_op OpPutRolePermissionsBoundary role arn "" "" "" false ∅ "" 0.
Definition delete_boundary (role : string) : Op := mk_op OpDeleteRolePermissionsBoundary role "" "" "" "" false ∅ "" 0.
Definition create_version (arn doc : string) : Op := mk_op OpCreatePolicyVersion "" arn "" "" doc true ∅ "" 0.
Definition tag_policy (arn : string) (tags : gmap string string) : Op := mk_op OpTagPolicy "" arn "" "" "" false tags "" 0.
Definition delete_versions (arn : string) : Op := mk_op OpDeletePolicyVersion "" arn "" "" "" false ∅ SelectAllNonDefault 0.
Definition delete_policy (arn : string) : Op := mk_op OpDeletePolicy "" arn "" "" "" false ∅ "" 0.

(* src: internal/igagov/compile.go:1664-1666 (pruneOp) *)
Definition pruneOp (arn : string) : Op :=
  mk_op OpDeletePolicyVersion "" arn "" "" "" false ∅ SelectOldestNonDefault MaxPolicyVersions.

(** * Apply and undo *)

(* src: internal/igagov/compile.go:1259-1272 (TargetInput) *)
Record TargetInput := {
  ti_Control : ControlRef;
  ti_Intent : RightSizeIntent;
  ti_Live : LiveRead;
  ti_Evidence : EvidenceRef;
  ti_ScanEvidence : option ResourcePolicyEvidence;
  ti_EnabledRegions : list string;
  ti_AccountServices : option (list string);
  ti_DependencyContexts : list DependencyContext }.

(* src: internal/igagov/compile.go:1276-1279 (TargetPlans) *)
Record TargetPlans := { tp_Apply : Plan; tp_Undo : option Plan }.

(** The context of one target; the plan it builds is passed along. *)
(* src: internal/igagov/compile.go:1494-1504 (applyCtx) *)
Record applyCtx := {
  ac_in : TargetInput;
  ac_role : LiveRole;
  ac_part : string;
  ac_acct : string;
  ac_curHash : string;
  ac_curOthers : list AttachedEntity;
  ac_defHash : string }.

(* src: internal/igagov/compile.go:1506-1512 (applyCtx.removed) *)
Definition ac_removed (c : applyCtx) : list string := sortedUnique (map rm_Service (rs_Remove (ti_Intent (ac_in c)))).

(* src: internal/igagov/compile.go:1515-1524 (applyCtx.candidates) *)
Definition ac_candidates (c : applyCtx) (texts : list (option string)) : list string :=
  sortedUnique (ac_removed c ++ map re_Service (rs_Retain (ti_Intent (ac_in c))) ++ flat_map notActionNamespaces texts).

(* src: internal/igagov/compile.go:1526-1530 (applyCtx.checkSize) *)
Definition checkSize (canonical : string) (p : Plan) : Plan :=
  let n := PolicyChars canonical in
  refuse_if (MaxPolicyChars <? n) RefuseDocumentTooLarge
    (Itoa n +:+ " characters excluding whitespace (limit " +:+ Itoa MaxPolicyChars +:+ ")") p.

(* src: internal/igagov/compile.go:1532-1541 (applyCtx.setDiff) *)
Definition setDiff (c : applyCtx) (caseName : string) (before after : option BoundaryRef) (beforeText afterText : option string)
    (p : Plan) : result Plan :=
  ch ← ExclusionChanges beforeText afterText (ac_candidates c [beforeText; afterText]);
  Ok (set_Diff (pl_Diff p |> diff_Case caseName |> diff_BoundaryBefore before |> diff_BoundaryAfter after
       |> diff_NewlyExcluded (newly ch) |> diff_AlreadyExcluded (already ch) |> diff_NewlyUnexcluded (unexcluded ch)) p).

Definition add_notes (notes : list string) (p : Plan) : Plan := set_Diff (diff_Notes (df_Notes (pl_Diff p) ++ notes) (pl_Diff p)) p.

(** The canonical precondition of an artifact state, and its hash. *)
(* src: internal/igagov/compile.go:2085-2095 (statePrecondition) *)
Definition statePrecondition (st : ArtifactStateFacts) (p : Plan) : result Plan :=
  pc ← CanonicalizeValue (GStruct [("artifact_state", ArtifactStateFacts_val (state_Normalized st))]);
  h ← StatePreconditionHash st;
  Ok (p |> set_Precondition pc |> set_PreconditionHash h).

(** [p] is the apply plan at the point of the call. *)
(* src: internal/igagov/compile.go:1545-1565 (applyCtx.undoBase) *)
Definition undoBase (c : applyCtx) (p : Plan) (post : ArtifactStateFacts) : result Plan :=
  let i := ac_in c in
  let u := start_plan (ti_Evidence i) (ct_ID (ti_Control i)) PlanUndo (rs_Delivery (ti_Intent i)) (ReadAt (ti_Live i))
           |> set_Eligibility (pl_Eligibility p) in
  u ← statePrecondition post u;
  Ok (u |> set_BeforeDocumentHash (as_BoundaryDocumentHash post)
        |> set_Impact {| im_Consumers := im_Consumers (pl_Impact p); im_OwnerUserIDs := im_OwnerUserIDs (pl_Impact p);
                         im_Removed := []; im_Retained := []; im_StatementRevisions := []; im_Routes := []; im_Restored := [] |}
        |> set_Documents (pl_Documents p)).

Definition add_restored (basis : string) (svcs : list string) (im : Impact) : Impact :=
  {| im_Consumers := im_Consumers im; im_OwnerUserIDs := im_OwnerUserIDs im; im_Removed := im_Removed im;
     im_Retained := im_Retained im; im_StatementRevisions := im_StatementRevisions im; im_Routes := im_Routes im;
     im_Restored := im_Restored im ++ map (fun s => {| is_Service := s; is_Basis := basis |}) svcs |}.

(* src: internal/igagov/compile.go:1567-1571 (applyCtx.restoredImpact) *)
Definition restoredImpact (u : Plan) : Plan :=
  set_Impact (add_restored "undo" (df_NewlyUnexcluded (pl_Diff u)) (pl_Impact u)) u.

(* src: internal/igagov/compile.go:1573-1579 (applyCtx.roleFacts) *)
Definition roleFacts (c : applyCtx) (withDefinition : bool) : list Fact :=
  factRole (lr_RoleID (ac_role c)) ::
  (if withDefinition
   then [{| fa_Key := FactRoleDefinition; fa_Kind := FactRoleDefinition; fa_Subject := ""; fa_Before := ac_defHash c;
            fa_After := ac_defHash c; fa_OnlyBefore := true |}]
   else []).

(* src: internal/igagov/compile.go:1581-1585 (applyCtx.postState) *)
Definition postState (c : applyCtx) (arn docHash : string) (others : list AttachedEntity) : ArtifactStateFacts :=
  state_Normalized
    {| as_RoleID := lr_RoleID (ac_role c); as_BoundaryARN := Some arn; as_BoundaryDocumentHash := Some docHash;
       as_AttachmentSet := others ++ [{| ae_Kind := "role"; ae_ID := lr_RoleID (ac_role c); ae_Name := lr_Name (ac_role c);
                                         ae_Usage := UsageBoundary |}] |}.

Definition ref (arn h : string) : option BoundaryRef := Some {| br_ARN := arn; br_DocumentHash := h |}.

(** The policy read under the ARN, if it exists. *)
Definition existing (live : LiveRead) (arn : string) : option LivePolicy := default None (Policies live !! arn).

(* src: internal/igagov/compile.go:1588-1656 (applyCtx.none) *)
Definition compile_none (c : applyCtx) (p : Plan) : result (Plan * option Plan) :=
  let i := ac_in c in
  let ctl := ti_Control i in
  let arn := AuthSecBoundaryARN (ac_part c) (ac_acct c) (lr_RoleID (ac_role c)) in
  let name := AuthSecBoundaryPrefix +:+ lr_RoleID (ac_role c) in
  let p := refuse_if (MaxPolicyNameLen <? str_length name)%nat RefusePolicyNameTooLong name p in
  '(doc, h) ← ExcludeOnlyDocument (ac_removed c);
  let p := p |> archive h doc |> checkSize doc |> set_DesiredBoundaryARN (Some arn) |> set_DesiredDocumentHash (Some h)
             |> set_FirstAttachment true in
  let p := match existing (ti_Live i) arn with
           | Some e =>
               if (tag (lp_Tags e) TagManagedBy =? TagManagedByValue)%string &&
                  negb (tag (lp_Tags e) TagWorkspace =? ct_WorkspaceRef ctl)%string
               then refuse_if true RefuseArtifactOwnedElsewhere arn p else refuse_if true RefusePolicyNameInUse arn p
           | None => p
           end in
  let proof := ProveFirstAttachment (role_ref (ac_role c)) (er_ScanRunID (ti_Evidence i)) (ti_ScanEvidence i)
                 (ti_EnabledRegions i) (ti_AccountServices i) (bf_Gaps (bd_Facts (er_Bundle (ti_Evidence i)))) in
  let p := p |> refuse (proof_Refusals proof) |> set_Unanalysed (fa_Unanalysed proof) in
  let p := p |> set_Diff (diff_FirstAttachment (Some proof) (pl_Diff p))
             |> set_Ops [create_policy arn name AuthSecPolicyPath h (createTags ctl); put_boundary (lr_Name (ac_role c)) arn] in
  p ← setDiff c CaseNoneToAuthSec None (ref arn h) None (Some doc) p;
  let owner := control_ownerValue ctl in
  let p := set_Facts (roleFacts c true ++
    [factBoundary ValueNone arn; factPolicyDoc arn ValueAbsent h; factPolicyOwner arn ValueAbsent owner; factPolicyUsers arn [] []]) p in
  u ← undoBase c p (postState c arn h []);
  let u := u |> set_DesiredAttachment AttachmentAbsent |> set_ReplacedBoundaryARN (Some arn)
             |> set_ArtifactDisposition DispositionDelete
             |> set_Ops [delete_boundary (lr_Name (ac_role c)); delete_versions arn; delete_policy arn] in
  u ← setDiff c CaseUndoDeleteNew (ref arn h) None (Some doc) None u;
  let u := restoredImpact u |> set_Facts (roleFacts c false ++
    [factBoundary arn ValueNone; factPolicyDoc arn h ValueAbsent; factPolicyOwner arn owner ValueAbsent; factPolicyUsers arn [] []]) in
  Ok (p, Some u).

(* src: internal/igagov/compile.go:1669-1743 (applyCtx.authsec) *)
Definition compile_authsec (c : applyCtx) (cur : LivePolicy) (p : Plan) : result (Plan * option Plan) :=
  let arn := lr_BoundaryARN (ac_role c) in
  let ctl := ti_Control (ac_in c) in
  let others := ac_curOthers c in
  let owner := control_ownerValue ctl in
  let p :=
    if (tag (lp_Tags cur) TagManagedBy =? TagManagedByValue)%string &&
       negb (tag (lp_Tags cur) TagWorkspace =? ct_WorkspaceRef ctl)%string
    then refuse_if true RefuseArtifactOwnedElsewhere arn p
    else refuse_if (negb (ownerValue (lp_Tags cur) =? owner)%string || negb (owns ctl arn)) RefuseArtifactOtherControl arn p in
  let p := refuse_if (negb (length others =? 0)%nat) RefuseConsumersChanged
             (arn +:+ " is used by " +:+ Itoa (Z.of_nat (length others)) +:+ " other entities") p in
  '(doc, h) ← ExcludeOnlyDocument (ac_removed c);
  let p := p |> archive h doc |> checkSize doc |> set_DesiredBoundaryARN (Some arn) |> set_DesiredDocumentHash (Some h) in
  let same := (h =? ac_curHash c)%string in
  let version doc := [create_version arn doc; tag_policy arn (changeTags ctl)] in
  let p := if same then add_notes [NoteAlreadyInPlace] p
           else set_Ops ((if MaxPolicyVersions <=? lp_VersionCount cur then [pruneOp arn] else []) ++ version h) p in
  p ← setDiff c CaseAuthSecVersion (ref arn (ac_curHash c)) (ref arn h) (Some (lp_DefaultDocument cur)) (Some doc) p;
  let p := set_Facts (roleFacts c true ++
    [factBoundary arn arn; factPolicyDoc arn (ac_curHash c) h; factPolicyOwner arn owner owner; factPolicyUsers arn others others]) p in
  u ← undoBase c p (postState c arn h others);
  let u := u |> set_DesiredAttachment AttachmentPresent |> set_DesiredBoundaryARN (Some arn)
             |> set_DesiredDocumentHash (Some (ac_curHash c)) in
  let post := if MaxPolicyVersions <=? lp_VersionCount cur then MaxPolicyVersions else lp_VersionCount cur + 1 in
  let u := if same then add_notes [NoteAlreadyInPlace] u
           else set_Ops ((if MaxPolicyVersions <=? post then [pruneOp arn] else []) ++ version (ac_curHash c)) u in
  u ← setDiff c CaseUndoEarlierDocument (ref arn h) (ref arn (ac_curHash c)) (Some doc) (Some (lp_DefaultDocument cur)) u;
  let u := restoredImpact u |> set_Facts (roleFacts c false ++
    [factBoundary arn arn; factPolicyDoc arn h (ac_curHash c); factPolicyOwner arn owner owner; factPolicyUsers arn others others]) in
  Ok (p, Some u).

(** The narrowed document, or the plan with the refusal recorded. *)
(* src: internal/igagov/compile.go:1746-1758 (applyCtx.narrow) *)
Definition narrow (c : applyCtx) (cur : LivePolicy) (p : Plan) : result (Plan * option (string * string * Narrowing)) :=
  r ← NarrowCustomerBoundary (lp_DefaultDocument cur) (ac_removed c);
  match r with
  | inl rf => Ok (refuse [rf] p, None)
  | inr (doc, h, n) => Ok (p |> archive h doc |> checkSize doc, Some (doc, h, n))
  end.

(* src: internal/igagov/compile.go:1762-1814 (applyCtx.customerExclusive) *)
Definition compile_exclusive (c : applyCtx) (cur : LivePolicy) (p : Plan) : result (Plan * option Plan) :=
  let arn := lr_BoundaryARN (ac_role c) in
  let p := p |> set_Eligibility EligibilityIaCOnly
             |> refuse_if (pl_Delivery p =? DeliveryDirect)%string RefuseCustomerBoundaryDirect
                  (arn +:+ " is a customer boundary; AuthSec never edits it in AWS (J2/J1 only)") in
  '(p, r) ← narrow c cur p;
  match r with
  | None => Ok (p |> set_DesiredBoundaryARN (Some arn) |> set_Facts (roleFacts c true), None)
  | Some (doc, h, n) =>
      let p := p |> set_Diff (diff_Narrowing (Some n) (pl_Diff p)) |> set_DesiredBoundaryARN (Some arn)
                 |> set_DesiredDocumentHash (Some h) in
      let p := if nw_Changed n then set_Ops [create_version arn h] p else add_notes [NoteNothingToNarrow; NoteAlreadyInPlace] p in
      p ← setDiff c CaseCustomerInPlace (ref arn (ac_curHash c)) (ref arn h) (Some (lp_DefaultDocument cur)) (Some doc) p;
      let p := set_Facts (roleFacts c true ++
        [factBoundary arn arn; factPolicyDoc arn (ac_curHash c) h; factPolicyUsers arn [] []]) p in
      u ← undoBase c p (postState c arn h []);
      let u := u |> set_DesiredAttachment AttachmentPresent |> set_DesiredBoundaryARN (Some arn)
                 |> set_DesiredDocumentHash (Some (ac_curHash c)) in
      let u := if nw_Changed n then set_Ops [create_version arn (ac_curHash c)] u else add_notes [NoteAlreadyInPlace] u in
      u ← setDiff c CaseUndoCustomerInPlace (ref arn h) (ref arn (ac_curHash c)) (Some doc) (Some (lp_DefaultDocument cur)) u;
      let u := restoredImpact u |> set_Facts (roleFacts c false ++
        [factBoundary arn arn; factPolicyDoc arn h (ac_curHash c); factPolicyUsers arn [] []]) in
      Ok (p, Some u)
  end.

(* src: internal/igagov/compile.go:1819-1909 (applyCtx.customerShared) *)
Definition compile_shared (c : applyCtx) (cur : LivePolicy) (p : Plan) : result (Plan * option Plan) :=
  let shared := lr_BoundaryARN (ac_role c) in
  let others := ac_curOthers c in
  let ch := ac_curHash c in
  let before := Some (lp_DefaultDocument cur) in
  let role := lr_Name (ac_role c) in
  let p := p |> set_Eligibility EligibilityIaCOnly
             |> refuse_if (pl_Delivery p =? DeliveryDirect)%string RefuseCustomerBoundaryDirect
                  (shared +:+ " is a shared customer boundary; AuthSec proposes a split copy only through J2/J1") in
  let '(copyARN, copyName) := SplitCopyARN (ac_part c) (ac_acct c) (lp_Path cur) (lp_Name cur) (lr_RoleID (ac_role c)) in
  let p := refuse_if (MaxPolicyNameLen <? str_length copyName)%nat RefusePolicyNameTooLong copyName p in
  '(p, r) ← narrow c cur p;
  match r with
  | None => Ok (p |> set_DesiredBoundaryARN (Some copyARN) |> set_Facts (roleFacts c true), None)
  | Some (doc, h, n) =>
      let p := set_Diff (diff_Narrowing (Some n) (pl_Diff p)) p in
      if negb (nw_Changed n) then
        let p := p |> set_DesiredBoundaryARN (Some shared) |> set_DesiredDocumentHash (Some ch)
                   |> add_notes [NoteNothingToNarrow; NoteAlreadyInPlace] in
        let kept := [factBoundary shared shared; factPolicyDoc shared ch ch; factPolicyUsers shared others others] in
        p ← setDiff c CaseCustomerSplit (ref shared ch) (ref shared ch) before before p;
        let p := set_Facts (roleFacts c true ++ kept) p in
        u ← undoBase c p (postState c shared ch others);
        let u := u |> set_DesiredAttachment AttachmentPresent |> set_DesiredBoundaryARN (Some shared)
                   |> set_DesiredDocumentHash (Some ch) |> add_notes [NoteAlreadyInPlace] in
        u ← setDiff c CaseUndoSplit (ref shared ch) (ref shared ch) before before u;
        Ok (p, Some (set_Facts (roleFacts c false ++ kept) u))
      else
        let p := refuse_if (bool_decide (is_Some (existing (ti_Live (ac_in c)) copyARN))) RefusePolicyNameInUse copyARN p in
        let p := p |> set_DesiredBoundaryARN (Some copyARN) |> set_DesiredDocumentHash (Some h)
                   |> set_ReplacedBoundaryARN (Some shared)
                   |> set_Ops [create_policy copyARN copyName (lp_Path cur) h ∅; put_boundary role copyARN] in
        p ← setDiff c CaseCustomerSplit (ref shared ch) (ref copyARN h) before (Some doc) p;
        let kept := [factPolicyDoc shared ch ch; factPolicyUsers shared others others] in
        let p := set_Facts (roleFacts c true ++
          [factBoundary shared copyARN; factPolicyDoc copyARN ValueAbsent h; factPolicyUsers copyARN [] []] ++ kept) p in
        u ← undoBase c p (postState c copyARN h []);
        let u := u |> set_DesiredAttachment AttachmentPresent |> set_DesiredBoundaryARN (Some shared)
                   |> set_DesiredDocumentHash (Some ch) |> set_ReplacedBoundaryARN (Some copyARN)
                   |> set_ArtifactDisposition DispositionDelete
                   |> set_Ops [put_boundary role shared; delete_versions copyARN; delete_policy copyARN] in
        u ← setDiff c CaseUndoSplit (ref copyARN h) (ref shared ch) (Some doc) before u;
        let u := restoredImpact u |> set_Facts (roleFacts c false ++
          [factBoundary copyARN shared; factPolicyDoc copyARN h ValueAbsent; factPolicyUsers copyARN [] []] ++ kept) in
        Ok (p, Some u)
  end.

(* src: internal/igagov/compile.go:1445-1463 (goneRolePrecondition) *)
Definition goneRolePrecondition (live : LiveRead) (roleID : string) (p : Plan) : result Plan :=
  pre ← match Role live with
        | Some _ => ApplyPreconditionFor live
        | None => Ok {| ap_ArtifactState := {| as_RoleID := roleID; as_BoundaryARN := None; as_BoundaryDocumentHash := None;
                                               as_AttachmentSet := [] |};
                        ap_RoleARN := ""; ap_RolePath := ""; ap_ProtectionTags := ∅; ap_ManagedPolicies := [];
                        ap_InlinePolicies := [] |}
        end;
  c ← precondition_Canonical pre;
  h ← ApplyPreconditionHash pre;
  Ok (p |> set_Precondition c |> set_PreconditionHash h).

(* src: internal/igagov/intent.go:232-238 (IntentErrors.Error) *)
Definition IntentErrors_Error (es : errs) : string :=
  "invalid intent: " +:+ Join (map (fun e => ie_Field e +:+ ": " +:+ ie_Message e) es) "; ".

(** The checks before a plan is started. *)
(* src: internal/igagov/compile.go:1327-1349 (CompileTarget, inputs) *)
Definition check_target (i : TargetInput) : result unit :=
  _ ← control_validate (ti_Control i);
  match ValidateIntent {| in_Kind := IntentRightSizeServices; in_RightSize := Some (ti_Intent i); in_RemoveControl := None;
                          in_DedicatedIdentity := None |} with
  | (_ :: _) as es => compileErr ErrCodeInvalidIntent [IntentErrors_Error es]
  | [] =>
      if negb (existsb (fun s => (sj_RoleID s =? ct_RoleID (ti_Control i))%string &&
                                 (sj_AccountID s =? ct_AccountID (ti_Control i))%string) (rs_Subjects (ti_Intent i)))
      then compileErr ErrCodeInput ["the control's role is not a subject of the intent"]
      else
        _ ← evidence_validate (ti_Evidence i) (ct_RoleID (ti_Control i));
        if negb (Join (sortedUnique (map rm_Service (rs_Remove (ti_Intent i)))) "," =?
                 Join (bf_RemovedServices (bd_Facts (er_Bundle (ti_Evidence i)))) ",")%string
        then compileErr ErrCodeEvidenceMismatch ["the bundle was built for another removal set"] else Ok tt
  end.

(** The role's boundary today decides the case. *)
(* src: internal/igagov/compile.go:1386-1429 (CompileTarget, current boundary) *)
Definition compile_case (i : TargetInput) (role : LiveRole) (defHash : string) (p : Plan) : result (Plan * option Plan) :=
  let ctx curHash others :=
    {| ac_in := i; ac_role := role; ac_part := role_partition role; ac_acct := lr_AccountID role; ac_curHash := curHash;
       ac_curOthers := others; ac_defHash := defHash |} in
  if is_empty (lr_BoundaryARN role) then compile_none (ctx "" []) p
  else
    cur ← live_policy (ti_Live i) (lr_BoundaryARN role);
    match cur with
    | None => compileErr ErrCodeLiveIncomplete ["the role's boundary returned NoSuchEntity"]
    | Some cur =>
        '(h, p) ← archiveText (lp_DefaultDocument cur) p;
        let p := set_BeforeDocumentHash (Some h) p in
        let others := otherUsers (lp_AttachmentSet cur) (lr_RoleID role) in
        let c := ctx h others in
        if isAuthSecPath (lr_BoundaryARN role) then compile_authsec c cur p
        else if (length others =? 0)%nat then compile_exclusive c cur p
        else compile_shared c cur p
    end.

(** The undo of an eligible plan is never nil ([target_undo] in CompileFacts);
    the code would panic on it.

    A [return v, v.seal()] of the source returns the sealed value: the calls
    of a return statement are evaluated before its variables are copied. *)
(* src: internal/igagov/compile.go:1326-1440 (CompileTarget) *)
Definition CompileTarget (i : TargetInput) : result TargetPlans :=
  _ ← check_target i;
  let ctl := ti_Control i in
  let live := ti_Live i in
  let facts := bd_Facts (er_Bundle (ti_Evidence i)) in
  let p := start_plan (ti_Evidence i) (ct_ID ctl) PlanApply (rs_Delivery (ti_Intent i)) (ReadAt live)
           |> set_DesiredAttachment AttachmentPresent
           |> set_Impact (impactFor facts (rs_Remove (ti_Intent i)) (rs_Retain (ti_Intent i))) in
  match checkIncarnation live (ct_RoleID ctl), Role live with
  | [], Some role =>
      let p := p |> refuse (RoleEligibility role)
                 |> refuse (justifyRemovals (rs_Remove (ti_Intent i)) (bf_Activity facts) (ti_DependencyContexts i)) in
      pre ← ApplyPreconditionFor live;
      pc ← precondition_Canonical pre;
      ph ← ApplyPreconditionHash pre;
      defHash ← roleDefinitionHash role;
      '(p, undo) ← compile_case i role defHash (p |> set_Precondition pc |> set_PreconditionHash ph);
      p ← seal p;
      if negb (Eligible p) then Ok {| tp_Apply := p; tp_Undo := None |}
      else match undo with
           | None => Err (ErrOther "nil undo plan")
           | Some u => u ← seal u; Ok {| tp_Apply := p; tp_Undo := Some u |}
           end
  | rs, _ =>
      p ← goneRolePrecondition live (ct_RoleID ctl) (refuse rs p);
      p ← seal p;
      Ok {| tp_Apply := p; tp_Undo := None |}
  end.

(** * Removing a control *)

(* src: internal/igagov/compile.go:2103-2109 (Baseline) *)
Record Baseline := { bl_BoundaryARN : option string; bl_DocumentHash : option string; bl_Document : string }.

(* src: internal/igagov/compile.go:2112-2125 (RemoveControlInput) *)
Record RemoveControlInput := {
  rc_Control : ControlRef;
  rc_Baseline : Baseline;
  rc_LastDeployed : BoundaryRef;
  rc_Delivery : string;
  rc_Live : LiveRead;
  rc_Evidence : EvidenceRef;
  rc_ExcludedServices : list string }.

(** The role and its boundary as read: what the three cases share. *)
Record removeCtx := {
  rx_role : LiveRole;
  rx_cur : string;
  rx_curHash : string;
  rx_curPol : LivePolicy;
  rx_others : list AttachedEntity;
  rx_owner : string }.

(* src: internal/igagov/compile.go:2185-2190 (CompileRemoveControl, curOwnerFacts) *)
Definition curOwnerFacts (x : removeCtx) (before after : string) : list Fact :=
  if isAuthSecPath (rx_cur x) then [factPolicyOwner (rx_cur x) before after] else [].

(** No boundary before AuthSec: detach, and delete the policy when nobody else
    uses it. *)
(* src: internal/igagov/compile.go:2195-2214 (CompileRemoveControl, detach) *)
Definition remove_detach (x : removeCtx) (p : Plan) : Plan :=
  let cur := rx_cur x in
  let ch := rx_curHash x in
  let base := [factRole (lr_RoleID (rx_role x)); factBoundary cur ValueNone] in
  let p := p |> set_DesiredAttachment AttachmentAbsent |> set_ReplacedBoundaryARN (Some cur)
             |> set_Diff (diff_Case CaseRemoveDetach (pl_Diff p)) in
  match rx_others x with
  | [] =>
      p |> set_ArtifactDisposition DispositionDelete
        |> set_Ops [delete_boundary (lr_Name (rx_role x)); delete_versions cur; delete_policy cur]
        |> set_Facts (base ++ [factPolicyDoc cur ch ValueAbsent; factPolicyUsers cur [] []] ++
                      curOwnerFacts x (rx_owner x) ValueAbsent)
  | others =>
      p |> set_ArtifactDisposition DispositionRetainShared
        |> set_Ops [delete_boundary (lr_Name (rx_role x))]
        |> add_notes [NotePolicyRetained]
        |> set_Facts (base ++ [factPolicyDoc cur ch ch; factPolicyUsers cur others others] ++
                      curOwnerFacts x (rx_owner x) (rx_owner x))
  end.

(** The baseline is the current policy: restore its document. *)
(* src: internal/igagov/compile.go:2215-2247 (CompileRemoveControl, in place) *)
Definition remove_in_place (i : RemoveControlInput) (x : removeCtx) (p : Plan) : result Plan :=
  let cur := rx_cur x in
  let ch := rx_curHash x in
  let others := rx_others x in
  '(bh, p) ← archiveText (bl_Document (rc_Baseline i)) p;
  if negb (bh =? derefOr (bl_DocumentHash (rc_Baseline i)) "")%string
  then compileErr ErrCodeInput ["the baseline document does not hash to the recorded baseline"]
  else
    let p := refuse_if (negb (length others =? 0)%nat) RefuseConsumersChanged
               (cur +:+ " is used by " +:+ Itoa (Z.of_nat (length others)) +:+
                " other entities; restoring its document would change them") p in
    let p := p |> set_DesiredAttachment AttachmentPresent |> set_DesiredBoundaryARN (Some cur)
               |> set_DesiredDocumentHash (Some bh) |> set_Diff (diff_Case CaseRemoveInPlace (pl_Diff p)) in
    let p :=
      if (bh =? ch)%string then add_notes [NoteAlreadyInPlace] p
      else if isAuthSecPath cur then
        set_Ops ((if MaxPolicyVersions <=? lp_VersionCount (rx_curPol x) then [pruneOp cur] else []) ++
                 [create_version cur bh; tag_policy cur (changeTags (rc_Control i))]) p
      else set_Ops [create_version cur bh] p in
    Ok (set_Facts ([factRole (lr_RoleID (rx_role x)); factBoundary cur cur; factPolicyDoc cur ch bh;
                    factPolicyUsers cur others others] ++ curOwnerFacts x (rx_owner x) (rx_owner x)) p).

(** Another policy was the baseline: point the role back at it as it is now.
    The second component is the baseline's document. *)
(* src: internal/igagov/compile.go:2248-2289 (CompileRemoveControl, repoint) *)
Definition remove_repoint (i : RemoveControlInput) (x : removeCtx) (b : string) (p : Plan) : result (Plan * option string) :=
  let cur := rx_cur x in
  let ch := rx_curHash x in
  bp ← live_policy (rc_Live i) b;
  let p := p |> set_DesiredAttachment AttachmentPresent |> set_DesiredBoundaryARN (Some b)
             |> set_ReplacedBoundaryARN (Some cur) |> set_Diff (diff_Case CaseRemoveRepoint (pl_Diff p)) in
  match bp with
  | None => Ok (refuse_if true RefuseBaselineMissing b p, None)
  | Some bp =>
      '(bh, p) ← archiveText (lp_DefaultDocument bp) p;
      let p := if negb (bh =? derefOr (bl_DocumentHash (rc_Baseline i)) "")%string then add_notes [NoteBaselineDocChanged] p else p in
      let bOthers := otherUsers (lp_AttachmentSet bp) (lr_RoleID (rx_role x)) in
      let put := put_boundary (lr_Name (rx_role x)) b in
      let base := [factRole (lr_RoleID (rx_role x)); factBoundary cur b; factPolicyDoc b bh bh; factPolicyUsers b bOthers bOthers] in
      let p := set_DesiredDocumentHash (Some bh) p in
      Ok (match rx_others x with
          | [] =>
              p |> set_ArtifactDisposition DispositionDelete
                |> set_Ops [put; delete_versions cur; delete_policy cur]
                |> set_Facts (base ++ [factPolicyDoc cur ch ValueAbsent; factPolicyUsers cur [] []] ++
                              curOwnerFacts x (rx_owner x) ValueAbsent)
          | others =>
              p |> set_ArtifactDisposition DispositionRetainShared
                |> set_Ops [put]
                |> add_notes [NoteCopyRetained]
                |> set_Facts (base ++ [factPolicyDoc cur ch ch; factPolicyUsers cur others others] ++
                              curOwnerFacts x (rx_owner x) (rx_owner x))
          end, Some (lp_DefaultDocument bp))
  end.

(** An operation that names a policy outside AuthSec's path. *)
Definition foreign_op (op : Op) : bool := negb (is_empty (op_PolicyARN op)) && negb (isAuthSecPath (op_PolicyARN op)).

(** The diff, the access that returns, and what direct delivery may write. *)
(* src: internal/igagov/compile.go:2290-2317 (CompileRemoveControl, end) *)
Definition remove_finish (i : RemoveControlInput) (x : removeCtx) (afterText : option string) (p : Plan) : result Plan :=
  let curText := Some (lp_DefaultDocument (rx_curPol x)) in
  let after := match pl_DesiredBoundaryARN p, pl_DesiredDocumentHash p with
               | Some a, Some h => ref a h
               | _, _ => None
               end in
  ch ← ExclusionChanges curText afterText (rc_ExcludedServices i ++ notActionNamespaces curText);
  let p := set_Diff (pl_Diff p |> diff_BoundaryBefore (ref (rx_cur x) (rx_curHash x)) |> diff_BoundaryAfter after
             |> diff_NewlyExcluded (newly ch) |> diff_AlreadyExcluded (already ch) |> diff_NewlyUnexcluded (unexcluded ch)) p in
  let p := set_Impact (add_restored "remove_control" (unexcluded ch) (pl_Impact p)) p in
  let p := if (pl_Delivery p =? DeliveryDirect)%string then
             match List.find foreign_op (pl_Ops p) with
             | Some op => refuse_if true RefuseDirectNeedsAuthSecTarget (op_PolicyARN op) p
             | None => p
             end
           else p in
  let p := if (pl_Eligibility p =? EligibilityEligible)%string &&
              (negb (isAuthSecPath (rx_cur x)) ||
               match pl_DesiredBoundaryARN p with Some a => negb (isAuthSecPath a) | None => false end)
           then set_Eligibility EligibilityIaCOnly p else p in
  seal p.

(* src: internal/igagov/compile.go:2130-2143 (CompileRemoveControl, inputs) *)
Definition check_remove (i : RemoveControlInput) : result unit :=
  _ ← control_validate (rc_Control i);
  if negb (bool_decide (rc_Delivery i ∈ [DeliveryDirect; DeliveryIaCPR; DeliveryExport]))
  then compileErr ErrCodeInput ["delivery must be direct, iac_pr or export"]
  else
    _ ← evidence_validate (rc_Evidence i) (ct_RoleID (rc_Control i));
    if negb (Bool.eqb (is_nil (bl_BoundaryARN (rc_Baseline i))) (is_nil (bl_DocumentHash (rc_Baseline i))))
    then compileErr ErrCodeInput ["baseline ARN and document hash are set together"] else Ok tt.

(* src: internal/igagov/compile.go:2129-2318 (CompileRemoveControl) *)
Definition CompileRemoveControl (i : RemoveControlInput) : result Plan :=
  _ ← check_remove i;
  let ctl := rc_Control i in
  let live := rc_Live i in
  let facts := bd_Facts (er_Bundle (rc_Evidence i)) in
  let p := start_plan (rc_Evidence i) (ct_ID ctl) PlanRemoveControl (rc_Delivery i) (ReadAt live)
           |> set_Impact {| im_Consumers := bf_Consumers facts; im_OwnerUserIDs := bf_Owners facts; im_Removed := [];
                            im_Retained := []; im_StatementRevisions := []; im_Routes := []; im_Restored := [] |} in
  match checkIncarnation live (ct_RoleID ctl), Role live with
  | [], Some role =>
      st ← ArtifactState live;
      match as_BoundaryARN st, as_BoundaryDocumentHash st with
      | Some cur, Some curHash =>
          p ← statePrecondition st p;
          let p := set_BeforeDocumentHash (Some curHash) p in
          pol ← live_policy live cur;
          match pol with
          | None => Err (ErrOther "nil boundary policy")
          | Some curPol =>
              '(_, p) ← archiveText (lp_DefaultDocument curPol) p;
              let last := rc_LastDeployed i in
              let p := refuse_if (negb (cur =? br_ARN last)%string || negb (curHash =? br_DocumentHash last)%string)
                         RefuseChangedOutsideAuthSec
                         ("the role's boundary is " +:+ cur +:+ " / " +:+ curHash +:+ ", not what AuthSec last deployed (" +:+
                          br_ARN last +:+ " / " +:+ br_DocumentHash last +:+ ")") p in
              let x := {| rx_role := role; rx_cur := cur; rx_curHash := curHash; rx_curPol := curPol;
                          rx_others := otherUsers (as_AttachmentSet st) (lr_RoleID role); rx_owner := control_ownerValue ctl |} in
              match bl_BoundaryARN (rc_Baseline i) with
              | None => remove_finish i x None (remove_detach x p)
              | Some b =>
                  if (b =? cur)%string then
                    p ← remove_in_place i x p; remove_finish i x (Some (bl_Document (rc_Baseline i))) p
                  else
                    '(p, after) ← remove_repoint i x b p; remove_finish i x after p
              end
          end
      | _, _ => compileErr ErrCodeNoArtifact ["the role has no boundary; the control can be retired without a plan"]
      end
  | rs, _ =>
      let p := refuse rs p |> set_DesiredAttachment AttachmentAbsent |> set_ArtifactDisposition DispositionDelete
               |> set_ReplacedBoundaryARN (Some (br_ARN (rc_LastDeployed i))) in
      p ← statePrecondition {| as_RoleID := ct_RoleID ctl; as_BoundaryARN := None; as_BoundaryDocumentHash := None;
                               as_AttachmentSet := [] |} p;
      seal p
  end.

(** * One control per role *)

(* src: internal/igagov/compile.go:2325-2331 (LiveControl) *)
Record LiveControl := { lc_ID : string; lc_PolicyID : string; lc_AccountID : string; lc_RoleID : string; lc_State : string }.

(** [inl] is the 409 [ErrRoleControlledByPolicy] with the control and the
    policy that owns the role. *)
(* src: internal/igagov/compile.go:2347-2359 (ResolveControl) *)
Fixpoint ResolveControl (controls : list LiveControl) (accountID roleID policyID : string)
    : (string * string) + option LiveControl :=
  match controls with
  | [] => inr None
  | c :: controls =>
      if (lc_State c =? "removed")%string || negb (lc_AccountID c =? accountID)%string || negb (lc_RoleID c =? roleID)%string
      then ResolveControl controls accountID roleID policyID
      else if negb (lc_PolicyID c =? policyID)%string then inl (lc_ID c, lc_PolicyID c)
      else inr (Some c)
  end.
