(* ===== verification/CompileFacts.v ===== *)
(** What the compilers of Compile guarantee: an apply and its undo mirror each
    other, their facts and operations fit the classifier of Recover, a plan
    never writes a policy another entity uses, and direct delivery stays under
    AuthSec's path. *)

From stdpp Require Import base list strings gmap sorting.
From S2P Require Import Prelude Slices Qualify Float64 Utf8 Json JsonCanon Marshal Sha256 PolicyDoc Catalog Text Routes Hashes PolicyCanon TimeFmt Live Boundary Narrow Intent Bundle FirstAttach Plan Recover Resume PlanSet Compile.

#[local] Open Scope plan_scope.
#[local] Opaque CanonicalizeValue ContentHash writeCanonical checkStorable ExcludeOnlyDocument ExclusionChanges NarrowCustomerBoundary
  ProveFirstAttachment ImpactHash PlanHash MaterialHash StatePreconditionHash CanonicalDocument usersValue PolicyChars
  ApplyPreconditionFor ApplyPreconditionHash precondition_Canonical roleDefinitionHash ValidateIntent justifyRemovals RoleEligibility
  ac_candidates ac_removed notActionNamespaces impact_Normalized Join proof_Refusals.

(** * Fields through the helpers *)

Lemma refuse_if_core b code d p :
  refuse_if b code d p = refuse (if b then [{| ref_Code := code; ref_Detail := d |}] else []) p.
Proof. destruct b; cbn; [done|]. unfold refuse, set_Refusals. rewrite app_nil_r. by destruct p. Qed.

(** The fields the decisions below read, apart from the archived documents. *)
Record core := {
  co_Kind : string; co_Delivery : string; co_Eligibility : string; co_Attachment : string; co_ARN : option string;
  co_Hash : option string; co_Replaced : option string; co_Disposition : string; co_First : bool; co_Scan : option string;
  co_Ops : list Op; co_Facts : list Fact; co_Refusals : list Refusal; co_Reason : string }.

Definition core_of (p : Plan) : core :=
  {| co_Kind := pl_Kind p; co_Delivery := pl_Delivery p; co_Eligibility := pl_Eligibility p; co_Attachment := pl_DesiredAttachment p;
     co_ARN := pl_DesiredBoundaryARN p; co_Hash := pl_DesiredDocumentHash p; co_Replaced := pl_ReplacedBoundaryARN p;
     co_Disposition := pl_ArtifactDisposition p; co_First := pl_FirstAttachment p; co_Scan := pl_ResourcePolicyScanRunID p;
     co_Ops := pl_Ops p; co_Facts := pl_Facts p; co_Refusals := pl_Refusals p; co_Reason := pl_IneligibleReason p |}.

(** The helpers only assign: every plan they return is the argument with its
    documents, refusals or diff replaced. *)
Lemma archive_eq h d p : exists ds, archive h d p = set_Documents ds p.
Proof.
  unfold archive. destruct (existsb _ _); [|by eexists]. exists (pl_Documents p). by destruct p.
Qed.

Lemma checkSize_eq d p : exists rs, checkSize d p = refuse rs p.
Proof. unfold checkSize. rewrite refuse_if_core. by eexists. Qed.

Lemma setDiff_eq c k b a bt t p q : setDiff c k b a bt t p = Ok q -> exists d, q = set_Diff d p.
Proof. intros (ch & _ & [= <-])%bind_Ok. by eexists. Qed.

Lemma statePrecondition_eq st p q : statePrecondition st p = Ok q -> exists pc h, q = p |> set_Precondition pc |> set_PreconditionHash h.
Proof. intros (pc & _ & (h & _ & [= <-])%bind_Ok)%bind_Ok. by exists pc, h. Qed.

(** The undo plan before its case assigns to it. *)
Definition undo_core (c : applyCtx) (elig : string) : core :=
  {| co_Kind := PlanUndo; co_Delivery := rs_Delivery (ti_Intent (ac_in c)); co_Eligibility := elig; co_Attachment := "";
     co_ARN := None; co_Hash := None; co_Replaced := None; co_Disposition := DispositionKeep; co_First := false;
     co_Scan := Some (er_ScanRunID (ti_Evidence (ac_in c))); co_Ops := []; co_Facts := []; co_Refusals := []; co_Reason := "" |}.

Lemma undoBase_core c p post u : undoBase c p post = Ok u -> core_of u = undo_core c (pl_Eligibility p).
Proof.
  unfold undoBase. intros (u0 & H & [= <-])%bind_Ok. apply statePrecondition_eq in H as (pc & h & ->). done.
Qed.

(** What a case decides: the desired state of the apply plan and of its undo. *)
Record target := {
  tg_ARN : option string; tg_Hash : option string; tg_Replaced : option string; tg_First : bool; tg_Ops : list Op; tg_Facts : list Fact }.
Record undo_target := {
  ut_Attachment : string; ut_ARN : option string; ut_Hash : option string; ut_Replaced : option string; ut_Disposition : string;
  ut_Ops : list Op; ut_Facts : list Fact }.

Definition apply_core (p : Plan) (elig : string) (t : target) (rs : list Refusal) : core :=
  {| co_Kind := pl_Kind p; co_Delivery := pl_Delivery p; co_Eligibility := elig; co_Attachment := pl_DesiredAttachment p;
     co_ARN := tg_ARN t; co_Hash := tg_Hash t; co_Replaced := tg_Replaced t; co_Disposition := pl_ArtifactDisposition p;
     co_First := tg_First t; co_Scan := pl_ResourcePolicyScanRunID p; co_Ops := tg_Ops t; co_Facts := tg_Facts t;
     co_Refusals := pl_Refusals p ++ rs; co_Reason := pl_IneligibleReason p |}.

Definition undone_core (c : applyCtx) (elig : string) (t : undo_target) : core :=
  {| co_Kind := PlanUndo; co_Delivery := rs_Delivery (ti_Intent (ac_in c)); co_Eligibility := elig;
     co_Attachment := ut_Attachment t; co_ARN := ut_ARN t; co_Hash := ut_Hash t; co_Replaced := ut_Replaced t;
     co_Disposition := ut_Disposition t; co_First := false; co_Scan := Some (er_ScanRunID (ti_Evidence (ac_in c)));
     co_Ops := ut_Ops t; co_Facts := ut_Facts t; co_Refusals := []; co_Reason := "" |}.

(** A plan just started has nothing to keep. *)
Definition fresh_plan (p : Plan) : Prop :=
  pl_ReplacedBoundaryARN p = None /\ pl_FirstAttachment p = false /\ pl_Ops p = [] /\ pl_Facts p = [].

Lemma core_inv u k : core_of u = k ->
  pl_Kind u = co_Kind k /\ pl_Delivery u = co_Delivery k /\ pl_Eligibility u = co_Eligibility k /\
  pl_DesiredAttachment u = co_Attachment k /\ pl_DesiredBoundaryARN u = co_ARN k /\ pl_DesiredDocumentHash u = co_Hash k /\
  pl_ReplacedBoundaryARN u = co_Replaced k /\ pl_ArtifactDisposition u = co_Disposition k /\ pl_FirstAttachment u = co_First k /\
  pl_ResourcePolicyScanRunID u = co_Scan k /\ pl_Ops u = co_Ops k /\ pl_Facts u = co_Facts k /\ pl_Refusals u = co_Refusals k /\
  pl_IneligibleReason u = co_Reason k.
Proof. intros <-. done. Qed.

(** Resolves the helpers of a case into assignments, then compares fields. *)
Ltac plan_eqs :=
  repeat match goal with
  | |- context [archive ?h ?d ?p] => let ds := fresh "ds" in destruct (archive_eq h d p) as [ds ->]
  | |- context [checkSize ?d ?p] => let rs := fresh "rs" in destruct (checkSize_eq d p) as [rs ->]
  | |- context [refuse_if ?b ?c ?d ?p] => rewrite (refuse_if_core b c d p)
  end.

(** The steps after the document is known: a diff, or the start of the undo. *)
Ltac diff_step H :=
  apply bind_Ok in H as (?q & ?Hq & H);
  match goal with
  | Hq : setDiff _ _ _ _ _ _ _ = Ok _ |- _ => let d := fresh "d" in apply setDiff_eq in Hq as [d ->]
  | Hq : undoBase _ _ _ = Ok ?u |- _ =>
      let Hu := fresh "Hundo" in pose proof (undoBase_core _ _ _ _ Hq) as Hu; clear Hq
  end.
Ltac plan_core Hfr :=
  destruct Hfr as (Hfr1 & Hfr2 & Hfr3 & Hfr4); unfold core_of, apply_core; cbn; rewrite ?Hfr1, ?Hfr2, ?Hfr3, <- ?app_assoc; reflexivity.
Ltac undo_core_tac :=
  match goal with
  | Hu : core_of ?u = undo_core _ _ |- _ =>
      destruct u; unfold core_of, undo_core in Hu; cbn in Hu; injection Hu; intros; subst; reflexivity
  end.

(** * The cases *)

Definition none_target (c : applyCtx) (h : string) : target :=
  let ctl := ti_Control (ac_in c) in
  let role := lr_RoleID (ac_role c) in
  let arn := AuthSecBoundaryARN (ac_part c) (ac_acct c) role in
  {| tg_ARN := Some arn; tg_Hash := Some h; tg_Replaced := None; tg_First := true;
     tg_Ops := [create_policy arn (AuthSecBoundaryPrefix +:+ role) AuthSecPolicyPath h (createTags ctl);
                put_boundary (lr_Name (ac_role c)) arn];
     tg_Facts := roleFacts c true ++ [factBoundary ValueNone arn; factPolicyDoc arn ValueAbsent h;
                   factPolicyOwner arn ValueAbsent (control_ownerValue ctl); factPolicyUsers arn [] []] |}.

Definition none_undo (c : applyCtx) (h : string) : undo_target :=
  let ctl := ti_Control (ac_in c) in
  let arn := AuthSecBoundaryARN (ac_part c) (ac_acct c) (lr_RoleID (ac_role c)) in
  {| ut_Attachment := AttachmentAbsent; ut_ARN := None; ut_Hash := None; ut_Replaced := Some arn;
     ut_Disposition := DispositionDelete;
     ut_Ops := [delete_boundary (lr_Name (ac_role c)); delete_versions arn; delete_policy arn];
     ut_Facts := roleFacts c false ++ [factBoundary arn ValueNone; factPolicyDoc arn h ValueAbsent;
                   factPolicyOwner arn (control_ownerValue ctl) ValueAbsent; factPolicyUsers arn [] []] |}.

(** The proof a first attachment needs. *)
Definition first_proof (c : applyCtx) : FirstAttachmentProof :=
  let i := ac_in c in
  ProveFirstAttachment (role_ref (ac_role c)) (er_ScanRunID (ti_Evidence i)) (ti_ScanEvidence i)
    (ti_EnabledRegions i) (ti_AccountServices i) (bf_Gaps (bd_Facts (er_Bundle (ti_Evidence i)))).

Lemma compile_none_shape c p p' uo :
  fresh_plan p -> compile_none c p = Ok (p', uo) ->
  exists h rs u, uo = Some u /\ core_of p' = apply_core p (pl_Eligibility p) (none_target c h) rs /\
    core_of u = undone_core c (pl_Eligibility p) (none_undo c h) /\
    (rs = [] -> proof_Refusals (first_proof c) = [] /\
       existing (ti_Live (ac_in c)) (AuthSecBoundaryARN (ac_part c) (ac_acct c) (lr_RoleID (ac_role c))) = None).
Proof.
  intros Hfr H. unfold compile_none in H. cbv zeta in H. apply bind_Ok in H as ([doc h] & _ & H). cbv beta iota in H.
  revert H. plan_eqs. intros H. diff_step H. diff_step H. diff_step H. injection H as <- <-. unfold first_proof.
  destruct (existing _ _) as [e|]; [destruct (_ && _)|]; exists h; eexists; eexists; (split; [reflexivity|]);
    (split; [plan_core Hfr|split; [undo_core_tac|]]); intros E; repeat (apply app_nil in E as [? E]); by repeat split.
Qed.

Definition authsec_target (c : applyCtx) (cur : LivePolicy) (h : string) : target :=
  let ctl := ti_Control (ac_in c) in
  let arn := lr_BoundaryARN (ac_role c) in
  let owner := control_ownerValue ctl in
  {| tg_ARN := Some arn; tg_Hash := Some h; tg_Replaced := None; tg_First := false;
     tg_Ops := if (h =? ac_curHash c)%string then []
               else (if MaxPolicyVersions <=? lp_VersionCount cur then [pruneOp arn] else []) ++
                    [create_version arn h; tag_policy arn (changeTags ctl)];
     tg_Facts := roleFacts c true ++ [factBoundary arn arn; factPolicyDoc arn (ac_curHash c) h; factPolicyOwner arn owner owner;
                   factPolicyUsers arn (ac_curOthers c) (ac_curOthers c)] |}.

(** The apply leaves at most [MaxPolicyVersions] versions. *)
Definition versions_after (cur : LivePolicy) : Z :=
  if MaxPolicyVersions <=? lp_VersionCount cur then MaxPolicyVersions else lp_VersionCount cur + 1.

Definition authsec_undo (c : applyCtx) (cur : LivePolicy) (h : string) : undo_target :=
  let ctl := ti_Control (ac_in c) in
  let arn := lr_BoundaryARN (ac_role c) in
  let owner := control_ownerValue ctl in
  {| ut_Attachment := AttachmentPresent; ut_ARN := Some arn; ut_Hash := Some (ac_curHash c); ut_Replaced := None;
     ut_Disposition := DispositionKeep;
     ut_Ops := if (h =? ac_curHash c)%string then []
               else (if MaxPolicyVersions <=? versions_after cur then [pruneOp arn] else []) ++
                    [create_version arn (ac_curHash c); tag_policy arn (changeTags ctl)];
     ut_Facts := roleFacts c false ++ [factBoundary arn arn; factPolicyDoc arn h (ac_curHash c); factPolicyOwner arn owner owner;
                   factPolicyUsers arn (ac_curOthers c) (ac_curOthers c)] |}.

(** The role's boundary is this control's own, and nobody else uses it. *)
Definition authsec_owned (c : applyCtx) (cur : LivePolicy) : Prop :=
  let ctl := ti_Control (ac_in c) in
  ac_curOthers c = [] /\ ownerValue (lp_Tags cur) = control_ownerValue ctl /\ owns ctl (lr_BoundaryARN (ac_role c)) = true.

Lemma authsec_not_refused c cur r r' rs :
  (if negb (ownerValue (lp_Tags cur) =? control_ownerValue (ti_Control (ac_in c)))%string ||
      negb (owns (ti_Control (ac_in c)) (lr_BoundaryARN (ac_role c))) then [r] else []) ++
  (if negb (length (ac_curOthers c) =? 0)%nat then [r'] else []) ++ rs = ([] : list Refusal) -> authsec_owned c cur.
Proof.
  intros [E1 [E2 _]%app_nil]%app_nil. destruct (_ || _) eqn:Eo; [done|]. apply orb_false_iff in Eo as [Eo1 Eo2].
  apply negb_false_iff in Eo1, Eo2. apply String.eqb_eq in Eo1. unfold authsec_owned. cbv zeta. rewrite Eo1, Eo2.
  by destruct (ac_curOthers c).
Qed.

Lemma compile_authsec_shape c cur p p' uo :
  fresh_plan p -> compile_authsec c cur p = Ok (p', uo) ->
  exists h rs u, uo = Some u /\ core_of p' = apply_core p (pl_Eligibility p) (authsec_target c cur h) rs /\
    core_of u = undone_core c (pl_Eligibility p) (authsec_undo c cur h) /\ (rs = [] -> authsec_owned c cur).
Proof.
  intros Hfr H. unfold compile_authsec in H. cbv zeta in H. apply bind_Ok in H as ([doc h] & _ & H). cbv beta iota in H.
  revert H. plan_eqs. unfold authsec_target, authsec_undo. fold (versions_after cur).
  destruct (h =? ac_curHash c)%string eqn:Eh; intros H; diff_step H; diff_step H; diff_step H; injection H as <- <-;
    destruct (_ && _); exists h; eexists; eexists; rewrite Eh; (split; [reflexivity|]);
    (split; [plan_core Hfr|split; [undo_core_tac|]]); intros E; (eapply authsec_not_refused; exact E) || discriminate E.
Qed.

(** A refused narrowing leaves the role's facts only, and no undo. *)
Definition refused_target (c : applyCtx) (arn : string) : target :=
  {| tg_ARN := Some arn; tg_Hash := None; tg_Replaced := None; tg_First := false; tg_Ops := []; tg_Facts := roleFacts c true |}.

Definition exclusive_target (c : applyCtx) (h : string) (changed : bool) : target :=
  let arn := lr_BoundaryARN (ac_role c) in
  {| tg_ARN := Some arn; tg_Hash := Some h; tg_Replaced := None; tg_First := false;
     tg_Ops := if changed then [create_version arn h] else [];
     tg_Facts := roleFacts c true ++ [factBoundary arn arn; factPolicyDoc arn (ac_curHash c) h; factPolicyUsers arn [] []] |}.

Definition exclusive_undo (c : applyCtx) (h : string) (changed : bool) : undo_target :=
  let arn := lr_BoundaryARN (ac_role c) in
  {| ut_Attachment := AttachmentPresent; ut_ARN := Some arn; ut_Hash := Some (ac_curHash c); ut_Replaced := None;
     ut_Disposition := DispositionKeep; ut_Ops := if changed then [create_version arn (ac_curHash c)] else [];
     ut_Facts := roleFacts c false ++ [factBoundary arn arn; factPolicyDoc arn h (ac_curHash c); factPolicyUsers arn [] []] |}.

Lemma narrow_eq c cur p p' r :
  narrow c cur p = Ok (p', r) ->
  match r with
  | None => exists rf, p' = refuse [rf] p
  | Some _ => exists ds rs, p' = p |> set_Documents ds |> refuse rs
  end.
Proof.
  unfold narrow. intros ([rf|[[doc h] n]] & _ & [= <- <-])%bind_Ok; [by eexists|].
  plan_eqs. by eexists _, _.
Qed.

(** Delivery through AWS itself is refused for a customer's boundary. *)
Definition direct_refused (p : Plan) (rs : list Refusal) : Prop := pl_Delivery p = DeliveryDirect -> rs <> [].

Lemma direct_refused_if p code d rs :
  direct_refused p ((if (pl_Delivery p =? DeliveryDirect)%string then [{| ref_Code := code; ref_Detail := d |}] else []) ++ rs).
Proof. by intros ->. Qed.

Lemma compile_exclusive_shape c cur p p' uo :
  fresh_plan p -> pl_DesiredDocumentHash p = None -> compile_exclusive c cur p = Ok (p', uo) ->
  exists rs, direct_refused p rs /\
  match uo with
  | None => rs <> [] /\ core_of p' = apply_core p EligibilityIaCOnly (refused_target c (lr_BoundaryARN (ac_role c))) rs
  | Some u => exists h changed, core_of p' = apply_core p EligibilityIaCOnly (exclusive_target c h changed) rs /\
      core_of u = undone_core c EligibilityIaCOnly (exclusive_undo c h changed)
  end.
Proof.
  intros Hfr Hh H. unfold compile_exclusive in H. cbv zeta in H. revert H. plan_eqs. intros H.
  apply bind_Ok in H as ([q r] & Hn & H). apply narrow_eq in Hn. destruct r as [[[doc h] n]|].
  - destruct Hn as (ds & rs & ->). unfold exclusive_target, exclusive_undo.
    destruct (nw_Changed n) eqn:Ech; diff_step H; diff_step H; diff_step H; injection H as <- <-;
      eexists; (split; [apply direct_refused_if|]); exists h, (nw_Changed n); rewrite Ech; (split; [plan_core Hfr|undo_core_tac]).
  - destruct Hn as (rf & ->). injection H as <- <-. eexists. split; [apply direct_refused_if|].
    apply and_comm. destruct Hfr as (Hfr1 & Hfr2 & Hfr3 & Hfr4). 
    split; [unfold core_of, apply_core; cbn; rewrite Hh, Hfr1, Hfr2, Hfr3, <- ?app_assoc; reflexivity
           |by destruct (_ =? _)%string].
Qed.

(** The split copy of a shared boundary. *)
Definition copy_arn (c : applyCtx) (cur : LivePolicy) : string :=
  (SplitCopyARN (ac_part c) (ac_acct c) (lp_Path cur) (lp_Name cur) (lr_RoleID (ac_role c))).1.
Definition copy_name (c : applyCtx) (cur : LivePolicy) : string :=
  (SplitCopyARN (ac_part c) (ac_acct c) (lp_Path cur) (lp_Name cur) (lr_RoleID (ac_role c))).2.

Definition shared_facts (c : applyCtx) : list Fact :=
  let arn := lr_BoundaryARN (ac_role c) in
  [factPolicyDoc arn (ac_curHash c) (ac_curHash c); factPolicyUsers arn (ac_curOthers c) (ac_curOthers c)].

Definition shared_target (c : applyCtx) (cur : LivePolicy) (h : string) (changed : bool) : target :=
  let arn := lr_BoundaryARN (ac_role c) in
  let copy := copy_arn c cur in
  if changed then
    {| tg_ARN := Some copy; tg_Hash := Some h; tg_Replaced := Some arn; tg_First := false;
       tg_Ops := [create_policy copy (copy_name c cur) (lp_Path cur) h ∅; put_boundary (lr_Name (ac_role c)) copy];
       tg_Facts := roleFacts c true ++
         [factBoundary arn copy; factPolicyDoc copy ValueAbsent h; factPolicyUsers copy [] []] ++ shared_facts c |}
  else
    {| tg_ARN := Some arn; tg_Hash := Some (ac_curHash c); tg_Replaced := None; tg_First := false; tg_Ops := [];
       tg_Facts := roleFacts c true ++ factBoundary arn arn :: shared_facts c |}.

Definition shared_undo (c : applyCtx) (cur : LivePolicy) (h : string) (changed : bool) : undo_target :=
  let arn := lr_BoundaryARN (ac_role c) in
  let copy := copy_arn c cur in
  if changed then
    {| ut_Attachment := AttachmentPresent; ut_ARN := Some arn; ut_Hash := Some (ac_curHash c); ut_Replaced := Some copy;
       ut_Disposition := DispositionDelete;
       ut_Ops := [put_boundary (lr_Name (ac_role c)) arn; delete_versions copy; delete_policy copy];
       ut_Facts := roleFacts c false ++
         [factBoundary copy arn; factPolicyDoc copy h ValueAbsent; factPolicyUsers copy [] []] ++ shared_facts c |}
  else
    {| ut_Attachment := AttachmentPresent; ut_ARN := Some arn; ut_Hash := Some (ac_curHash c); ut_Replaced := None;
       ut_Disposition := DispositionKeep; ut_Ops := []; ut_Facts := roleFacts c false ++ factBoundary arn arn :: shared_facts c |}.

Lemma compile_shared_shape c cur p p' uo :
  fresh_plan p -> pl_DesiredDocumentHash p = None -> compile_shared c cur p = Ok (p', uo) ->
  exists rs, direct_refused p rs /\
  match uo with
  | None => rs <> [] /\ core_of p' = apply_core p EligibilityIaCOnly (refused_target c (copy_arn c cur)) rs
  | Some u => exists h changed, core_of p' = apply_core p EligibilityIaCOnly (shared_target c cur h changed) rs /\
      core_of u = undone_core c EligibilityIaCOnly (shared_undo c cur h changed) /\
      (rs = [] -> changed = true -> existing (ti_Live (ac_in c)) (copy_arn c cur) = None)
  end.
Proof.
  intros Hfr Hh H. unfold compile_shared in H. cbv zeta in H.
  rewrite (surjective_pairing (SplitCopyARN _ _ _ _ _)) in H. fold (copy_arn c cur) (copy_name c cur) in H. cbv beta iota in H.
  revert H. plan_eqs. intros H. apply bind_Ok in H as ([q r] & Hn & H). apply narrow_eq in Hn. destruct r as [[[doc h] n]|].
  - destruct Hn as (ds & rs & ->). cbv beta iota in H. unfold shared_target, shared_undo.
    destruct (nw_Changed n) eqn:Ech; cbn [negb] in H.
    + revert H. plan_eqs. intros H. diff_step H. diff_step H. diff_step H. injection H as <- <-.
      eexists; (split; [apply direct_refused_if|]); exists h, true; (split; [plan_core Hfr|split; [undo_core_tac|]]).
      intros Hnil _. repeat apply app_nil in Hnil as [_ Hnil]. case_bool_decide as He; [done|]. by apply eq_None_not_Some.
    + diff_step H. diff_step H. diff_step H. injection H as <- <-.
      eexists; (split; [apply direct_refused_if|]); exists h, false; (split; [plan_core Hfr|split; [undo_core_tac|done]]).
  - destruct Hn as (rf & ->). injection H as <- <-. eexists. split; [apply direct_refused_if|].
    apply and_comm. destruct Hfr as (Hfr1 & Hfr2 & Hfr3 & Hfr4). 
    split; [unfold core_of, apply_core; cbn; rewrite Hh, Hfr1, Hfr2, Hfr3, <- ?app_assoc; reflexivity
           |intros E; repeat apply app_nil in E as [_ E]; done].
Qed.

(** * A compiled target *)

(** The boundary the role has today, as read. *)
Definition boundary_read (c : applyCtx) (cur : LivePolicy) : Prop :=
  lr_BoundaryARN (ac_role c) <> "" /\ Policies (ti_Live (ac_in c)) !! lr_BoundaryARN (ac_role c) = Some (Some cur) /\
  policy_DocumentHash cur = Ok (ac_curHash c) /\
  ac_curOthers c = otherUsers (lp_AttachmentSet cur) (lr_RoleID (ac_role c)).

(** The four ways a target and its undo are made; [rs] are the refusals the
    case adds. *)
Inductive pair_kind (c : applyCtx) (rs : list Refusal) : string -> target -> undo_target -> Prop :=
  | pk_none h :
      lr_BoundaryARN (ac_role c) = "" ->
      (rs = [] -> proof_Refusals (first_proof c) = [] /\
         existing (ti_Live (ac_in c)) (AuthSecBoundaryARN (ac_part c) (ac_acct c) (lr_RoleID (ac_role c))) = None) ->
      pair_kind c rs EligibilityEligible (none_target c h) (none_undo c h)
  | pk_authsec cur h :
      boundary_read c cur ->
      isAuthSecPath (lr_BoundaryARN (ac_role c)) = true ->
      (rs = [] -> authsec_owned c cur) ->
      pair_kind c rs EligibilityEligible (authsec_target c cur h) (authsec_undo c cur h)
  | pk_exclusive cur h changed :
      boundary_read c cur ->
      ac_curOthers c = [] -> isAuthSecPath (lr_BoundaryARN (ac_role c)) = false ->
      pair_kind c rs EligibilityIaCOnly (exclusive_target c h changed) (exclusive_undo c h changed)
  | pk_shared cur h changed :
      boundary_read c cur -> isAuthSecPath (lr_BoundaryARN (ac_role c)) = false ->
      (rs = [] -> changed = true -> existing (ti_Live (ac_in c)) (copy_arn c cur) = None) ->
      pair_kind c rs EligibilityIaCOnly (shared_target c cur h changed) (shared_undo c cur h changed).

(** The context [compile_case] builds for a role. *)
Definition mk_ctx (i : TargetInput) (role : LiveRole) (defHash h : string) (others : list AttachedEntity) : applyCtx :=
  {| ac_in := i; ac_role := role; ac_part := role_partition role; ac_acct := lr_AccountID role; ac_curHash := h;
     ac_curOthers := others; ac_defHash := defHash |}.

Lemma live_policy_read live arn p : live_policy live arn = Ok p -> Policies live !! arn = Some p.
Proof. unfold live_policy. destruct (Policies live !! arn) as [q|]; by intros [= ->]. Qed.

Lemma Contains_app a s t : Contains (a +:+ s +:+ t) s = true.
Proof.
  induction a as [|c a IH].
  - change ("" +:+ s +:+ t) with (s +:+ t). pose proof (HasPrefix_same s t) as Hp.
    destruct (s +:+ t); cbn [Contains]; by rewrite Hp.
  - rewrite str_app_cons. cbn [Contains]. rewrite IH. apply orb_true_r.
Qed.

Lemma AuthSecBoundaryARN_path part acct role : isAuthSecPath (AuthSecBoundaryARN part acct role) = true.
Proof.
  unfold isAuthSecPath, AuthSecBoundaryARN.
  replace ("arn:" +:+ part +:+ ":iam::" +:+ acct +:+ ":policy" +:+ AuthSecPolicyPath +:+ AuthSecBoundaryPrefix +:+ role)
    with (("arn:" +:+ part +:+ ":iam::" +:+ acct) +:+ (":policy" +:+ AuthSecPolicyPath) +:+ (AuthSecBoundaryPrefix +:+ role)).
  - apply Contains_app.
  - by rewrite !str_app_assoc.
Qed.

Lemma compile_case_shape i role d p p' uo :
  fresh_plan p -> pl_DesiredDocumentHash p = None -> pl_Eligibility p = EligibilityEligible ->
  compile_case i role d p = Ok (p', uo) ->
  exists h others rs (c := mk_ctx i role d h others),
  match uo with
  | None => rs <> [] /\ exists arn, core_of p' = apply_core p EligibilityIaCOnly (refused_target c arn) rs
  | Some u => exists elig t ut, pair_kind c rs elig t ut /\ core_of p' = apply_core p elig t rs /\
      core_of u = undone_core c elig ut /\ (rs = [] -> pl_Delivery p = DeliveryDirect -> elig = EligibilityEligible)
  end.
Proof.
  intros Hfr Hh He H. unfold compile_case in H. cbv zeta in H.
  destruct (is_empty (lr_BoundaryARN role)) eqn:Eb.
  { apply is_empty_true in Eb. apply compile_none_shape in H as (h & rs & u & -> & Hp & Hu & Hrs); [|done]. rewrite He in *.
    exists "", [], rs. eexists _, _, _. by split; [apply (pk_none (mk_ctx i role d "" []) rs h)|]. }
  assert (lr_BoundaryARN role <> "") as Hne by (by intros E; rewrite E in Eb).
  apply bind_Ok in H as (cur & Hc & H). destruct cur as [cur|]; [|done]. apply live_policy_read in Hc.
  apply bind_Ok in H as ([h q] & Hq & H). cbv beta iota in H.
  apply bind_Ok in Hq as ([txt h'] & Hd & [= <- <-]). destruct (archive_eq h' txt p) as [ds Hds]. rewrite Hds in H. clear Hds.
  set (others := otherUsers (lp_AttachmentSet cur) (lr_RoleID role)) in *.
  change (Build_applyCtx i role (role_partition role) (lr_AccountID role) h' others d) with (mk_ctx i role d h' others) in H.
  assert (boundary_read (mk_ctx i role d h' others) cur) as Hbr.
  { split_and!; [done|done| |done]. unfold policy_DocumentHash, DocumentHash. cbn. by rewrite Hd. }
  set (p0 := set_BeforeDocumentHash (Some h') (set_Documents ds p)) in *.
  assert (fresh_plan p0) as Hf0 by done. assert (pl_DesiredDocumentHash p0 = None) as Hh0 by done.
  exists h', others.
  destruct (isAuthSecPath (lr_BoundaryARN role)) eqn:Ea; [|destruct (length others =? 0)%nat eqn:El].
  - apply compile_authsec_shape in H as (h & rs & u & -> & Hp & Hu & Hrs); [|done].
    change (pl_Eligibility p0) with (pl_Eligibility p) in *. rewrite He in *.
    exists rs. eexists _, _, _. by split; [apply (pk_authsec _ _ cur h)|].
  - apply compile_exclusive_shape in H as (rs & Hdr & H); [|done|done]. exists rs. destruct uo as [u|].
    + destruct H as (h & ch & Hp & Hu). eexists _, _, _.
      split; [apply (pk_exclusive _ _ cur h ch); [done|by apply length_zero_iff_nil, Nat.eqb_eq, El|done]|].
      split; [exact Hp|]. split; [exact Hu|]. intros Hn Hdel. by destruct (Hdr Hdel).
    + destruct H as [Hrs Hp]. split; [done|]. by eexists.
  - apply compile_shared_shape in H as (rs & Hdr & H); [|done|done]. exists rs. destruct uo as [u|].
    + destruct H as (h & ch & Hp & Hu & Hex). eexists _, _, _. split; [by apply (pk_shared _ _ cur h ch)|].
      split; [exact Hp|]. split; [exact Hu|]. intros Hn Hdel. by destruct (Hdr Hdel).
    + destruct H as [Hrs Hp]. split; [done|]. by eexists.
Qed.

(** * Sealing *)

Definition settle_core (k : core) : core :=
  let inel := match co_Refusals k with [] => false | _ => true end in
  {| co_Kind := co_Kind k; co_Delivery := co_Delivery k;
     co_Eligibility := if inel then EligibilityIneligible else co_Eligibility k;
     co_Attachment := co_Attachment k; co_ARN := co_ARN k; co_Hash := co_Hash k; co_Replaced := co_Replaced k;
     co_Disposition := co_Disposition k; co_First := co_First k; co_Scan := co_Scan k;
     co_Ops := if inel then [] else co_Ops k; co_Facts := sortFacts (co_Facts k); co_Refusals := co_Refusals k;
     co_Reason := if inel then Join (map Refusal_String (co_Refusals k)) "; " else co_Reason k |}.

Lemma settle_core_of p : core_of (settle p) = settle_core (core_of p).
Proof. destruct p as [? ? ? ? ? [|r rs] ? ? ? ? ? ? ? ? ? ? ? ? ? ? ? ? ? ? ? ? ? ? ? ?]; reflexivity. Qed.

Lemma seal_core p q : seal p = Ok q -> core_of q = settle_core (core_of p).
Proof.
  unfold seal. cbv zeta. intros (ih & _ & (ph & _ & (mh & _ & (? & _ & [= <-])%bind_Ok)%bind_Ok)%bind_Ok)%bind_Ok.
  rewrite <- settle_core_of. reflexivity.
Qed.

(** The apply of an eligible target. *)
Definition applied_core (i : TargetInput) (elig : string) (t : target) : core :=
  {| co_Kind := PlanApply; co_Delivery := rs_Delivery (ti_Intent i); co_Eligibility := elig;
     co_Attachment := AttachmentPresent; co_ARN := tg_ARN t; co_Hash := tg_Hash t; co_Replaced := tg_Replaced t;
     co_Disposition := DispositionKeep; co_First := tg_First t; co_Scan := Some (er_ScanRunID (ti_Evidence i));
     co_Ops := tg_Ops t; co_Facts := sortFacts (tg_Facts t); co_Refusals := []; co_Reason := "" |}.

Definition sealed_undo_core (c : applyCtx) (elig : string) (t : undo_target) : core :=
  {| co_Kind := PlanUndo; co_Delivery := rs_Delivery (ti_Intent (ac_in c)); co_Eligibility := elig;
     co_Attachment := ut_Attachment t; co_ARN := ut_ARN t; co_Hash := ut_Hash t; co_Replaced := ut_Replaced t;
     co_Disposition := ut_Disposition t; co_First := false; co_Scan := Some (er_ScanRunID (ti_Evidence (ac_in c)));
     co_Ops := ut_Ops t; co_Facts := sortFacts (ut_Facts t); co_Refusals := []; co_Reason := "" |}.

(** An eligible target comes from the role the control names, with nothing
    refused on the way. *)
Record compiled (i : TargetInput) (ap u : Plan) (c : applyCtx) (elig : string) (t : target) (ut : undo_target) : Prop := {
  cm_in : ac_in c = i;
  cm_role : Role (ti_Live i) = Some (ac_role c);
  cm_def : roleDefinitionHash (ac_role c) = Ok (ac_defHash c);
  cm_incarnation : lr_RoleID (ac_role c) = ct_RoleID (ti_Control i);
  cm_eligible_role : RoleEligibility (ac_role c) = [];
  cm_justified : justifyRemovals (rs_Remove (ti_Intent i)) (bf_Activity (bd_Facts (er_Bundle (ti_Evidence i))))
                   (ti_DependencyContexts i) = [];
  cm_pair : pair_kind c [] elig t ut;
  cm_apply : core_of ap = applied_core i elig t;
  cm_undo : core_of u = sealed_undo_core c elig ut;
  cm_direct : rs_Delivery (ti_Intent i) = DeliveryDirect -> elig = EligibilityEligible }.

Lemma pair_kind_eligible c rs elig t ut : pair_kind c rs elig t ut -> elig <> EligibilityIneligible.
Proof. by destruct 1. Qed.

(** A refused target: no undo, no operations, the refusals recorded. *)
Definition refused (tp : TargetPlans) : Prop :=
  tp_Undo tp = None /\ pl_Eligibility (tp_Apply tp) = EligibilityIneligible /\ pl_Ops (tp_Apply tp) = [] /\
  pl_Refusals (tp_Apply tp) <> [].

Lemma seal_refused p q : seal p = Ok q -> pl_Refusals p <> [] ->
  pl_Eligibility q = EligibilityIneligible /\ pl_Ops q = [] /\ pl_Refusals q = pl_Refusals p.
Proof.
  intros Hq%seal_core%core_inv. revert Hq. unfold settle_core. cbn. destruct (pl_Refusals p) eqn:E; naive_solver.
Qed.

(** A plan with recorded refusals and no operations. *)
Definition refused_plan (p : Plan) : Prop :=
  pl_Eligibility p = EligibilityIneligible /\ pl_Ops p = [] /\ pl_Refusals p <> [].

Lemma seal_refused_plan p q : seal p = Ok q -> pl_Refusals p <> [] -> refused_plan q.
Proof. intros H Hr. destruct (seal_refused p q H Hr) as (He & Ho & E). split_and!; [done|done|]. by rewrite E. Qed.

Lemma checkIncarnation_inv live id : checkIncarnation live id = [] -> exists r, Role live = Some r /\ lr_RoleID r = id.
Proof.
  unfold checkIncarnation. destruct (Role live) as [r|]; [|done]. destruct (_ =? _)%string eqn:E; [|done].
  intros _. exists r. split; [done|]. by apply String.eqb_eq.
Qed.

Lemma target_inv i tp :
  CompileTarget i = Ok tp ->
  refused tp \/ exists u c elig t ut, tp_Undo tp = Some u /\ compiled i (tp_Apply tp) u c elig t ut.
Proof.
  intros H. unfold CompileTarget in H. cbv zeta in H. apply bind_Ok in H as (_ & _ & H).
  destruct (checkIncarnation (ti_Live i) (ct_RoleID (ti_Control i))) as [|r rs] eqn:Ei.
  2:{ left. apply bind_Ok in H as (p & Hp & (q & Hq & [= <-])%bind_Ok). unfold goneRolePrecondition in Hp.
      apply bind_Ok in Hp as (pre & _ & (pc & _ & (ph & _ & [= <-])%bind_Ok)%bind_Ok).
      apply seal_refused in Hq as (He & Ho & Hr); [|done]. split_and!; [done|done|done|]. cbn [tp_Apply]. by rewrite Hr. }
  apply checkIncarnation_inv in Ei as (role & Hrole & Hid). rewrite Hrole in H.
  apply bind_Ok in H as (pre & _ & (pc & _ & (ph & _ & (d & Hd & (r & Hcase & H)%bind_Ok)%bind_Ok)%bind_Ok)%bind_Ok).
  destruct r as [p uo]. cbv beta iota in H. apply compile_case_shape in Hcase; [|done..].
  destruct Hcase as (h & others & rs & Hcase). cbv zeta in Hcase. apply bind_Ok in H as (q & Hq & H).
  destruct (decide (pl_Refusals p = [])) as [Hn|Hn].
  2:{ left. apply seal_refused in Hq as (He & Ho & Hr); [|done]. unfold Eligible in H. rewrite He in H. injection H as <-.
      split_and!; [done|done|done|]. cbn [tp_Apply]. by rewrite Hr. }
  right. apply seal_core in Hq. destruct uo as [u|].
  2:{ destruct Hcase as (Hrs & arn & Hp). apply core_inv in Hp. cbn in Hp.
      destruct Hp as (_ & _ & _ & _ & _ & _ & _ & _ & _ & _ & _ & _ & Hp & _). rewrite Hp in Hn. by apply app_nil in Hn as [_ Hn]. }
  destruct Hcase as (elig & t & ut & Hpk & Hp & Hu & Hdir).
  assert (co_Refusals (core_of p) = []) as Hn' by exact Hn. rewrite Hp in Hq, Hn'. cbn in Hn'.
  apply app_nil in Hn' as [[Hrole' Hjust]%app_nil ->].
  assert (core_of q = applied_core i elig t) as Hq'.
  { rewrite Hq. unfold apply_core. cbn. rewrite Hrole', Hjust. reflexivity. }
  pose proof (core_inv _ _ Hq') as (_ & _ & He & _). cbn in He. unfold Eligible in H. rewrite He in H.
  rewrite (proj2 (String.eqb_neq _ _) (pair_kind_eligible _ _ _ _ _ Hpk)) in H. cbn [negb] in H.
  apply bind_Ok in H as (u' & Hu' & [= <-]). apply seal_core in Hu'. rewrite Hu in Hu'.
  exists u', (mk_ctx i role d h others), elig, t, ut. split; [done|]. split; try done. intros Hdel. by apply Hdir.
Qed.
