(* ===== verification/TargetFacts.v ===== *)
(** What a compiled target guarantees: its undo mirrors it, its operations touch
    no policy another entity uses, an eligible plan is a justified one, and a
    direct apply followed by its undo, each interrupted and resumed at will,
    brings every compared fact back. *)

From stdpp Require Import base list strings gmap sorting relations.
From S2P Require Import Prelude Slices Qualify Float64 Utf8 Json JsonCanon Marshal Sha256 PolicyDoc Catalog Text Routes Hashes PolicyCanon TimeFmt Live Boundary Narrow Intent Bundle FirstAttach Plan Recover Resume PlanSet Compile CompileFacts.

#[local] Opaque CanonicalizeValue ContentHash writeCanonical checkStorable ExcludeOnlyDocument ExclusionChanges NarrowCustomerBoundary
  ProveFirstAttachment ImpactHash PlanHash MaterialHash StatePreconditionHash CanonicalDocument usersValue PolicyChars
  ApplyPreconditionFor ApplyPreconditionHash precondition_Canonical roleDefinitionHash ValidateIntent RoleEligibility
  notActionNamespaces impact_Normalized Join proof_Refusals isAuthSecPath.

(** * Mirrored facts *)

Definition compared (f : Fact) : bool := negb (fa_OnlyBefore f).
Definition swap_fact (f : Fact) : Fact := mkFact (fa_Key f) (fa_Kind f) (fa_Subject f) (fa_After f) (fa_Before f).

Lemma pair_mirror c rs elig t ut : pair_kind c rs elig t ut -> ut_Facts ut = swap_fact <$> List.filter compared (tg_Facts t).
Proof. destruct 1 as [| | |? ? []]; reflexivity. Qed.

Lemma mirror_facts i ap u c elig t ut :
  compiled i ap u c elig t ut -> pl_Facts u ≡ₚ swap_fact <$> List.filter compared (pl_Facts ap).
Proof.
  intros H. pose proof (core_inv _ _ (cm_apply _ _ _ _ _ _ _ H)) as (_ & _ & _ & _ & _ & _ & _ & _ & _ & _ & _ & -> & _).
  pose proof (core_inv _ _ (cm_undo _ _ _ _ _ _ _ H)) as (_ & _ & _ & _ & _ & _ & _ & _ & _ & _ & _ & -> & _). cbn.
  unfold sortFacts. rewrite sort_slice_perm, (pair_mirror _ _ _ _ _ (cm_pair _ _ _ _ _ _ _ H)).
  apply fmap_Permutation, filter_perm. by rewrite sort_slice_perm.
Qed.

(** The undo wants what the role had. *)
Lemma pair_restores c rs elig t ut :
  Role (ti_Live (ac_in c)) = Some (ac_role c) -> pair_kind c rs elig t ut ->
  exists st, ArtifactState (ti_Live (ac_in c)) = Ok st /\ ut_ARN ut = as_BoundaryARN st /\ ut_Hash ut = as_BoundaryDocumentHash st.
Proof.
  intros Hr Hp. unfold ArtifactState, live_policy. rewrite Hr.
  destruct Hp as [h Hb _|cur h (Hne & Hl & Hh & _) _ _|cur h ch (Hne & Hl & Hh & _) _ _|cur h ch (Hne & Hl & Hh & _) _ _].
  1: rewrite Hb; by eexists.
  all: cbv zeta; destruct (is_empty (lr_BoundaryARN (ac_role c))) eqn:E; [by apply is_empty_true in E|].
  all: rewrite Hl; cbn; rewrite Hh; cbn; eexists; split; [done|]; first [done|by destruct ch].
Qed.

(** * Operations *)

(** The operations that change a policy: its document, its versions, its tags or its existence. *)
Definition writes (op : Op) : Prop :=
  op_Op op ∈ [OpCreatePolicy; OpCreatePolicyVersion; OpTagPolicy; OpDeletePolicyVersion; OpDeletePolicy].

(** In the live read no entity but the role's own boundary uses the policy. *)
Definition unshared (live : LiveRead) (roleID arn : string) : Prop :=
  forall pol, Policies live !! arn = Some (Some pol) -> otherUsers (lp_AttachmentSet pol) roleID = [].

Lemma existing_unshared live roleID arn : existing live arn = None -> unshared live roleID arn.
Proof. unfold existing. intros H pol Hp. by rewrite Hp in H. Qed.

Lemma put_boundary_writes role arn : ~ writes (put_boundary role arn).
Proof. unfold writes. cbn. rewrite !elem_of_cons. intros H. destruct_or! H; try discriminate. by apply elem_of_nil in H. Qed.

Lemma delete_boundary_writes role : ~ writes (delete_boundary role).
Proof. unfold writes. cbn. rewrite !elem_of_cons. intros H. destruct_or! H; try discriminate. by apply elem_of_nil in H. Qed.

Ltac each_op := repeat first [apply Forall_nil_2|apply Forall_cons_2]; auto.

(** Every policy operation names a policy nobody else uses. *)
Definition writes_own (live : LiveRead) (roleID : string) (ops : list Op) : Prop :=
  Forall (fun op => unshared live roleID (op_PolicyARN op) \/ ~ writes op) ops.

Lemma pair_writes c elig t ut :
  pair_kind c [] elig t ut ->
  writes_own (ti_Live (ac_in c)) (lr_RoleID (ac_role c)) (tg_Ops t ++ ut_Ops ut).
Proof.
  pose proof put_boundary_writes as Hpb. pose proof delete_boundary_writes as Hdb. unfold writes_own. intros H. apply Forall_app.
  assert (forall arn, unshared (ti_Live (ac_in c)) (lr_RoleID (ac_role c)) arn -> forall op, op_PolicyARN op = arn ->
    unshared (ti_Live (ac_in c)) (lr_RoleID (ac_role c)) (op_PolicyARN op) \/ ~ writes op) as Hw by (intros ? ? ? ->; by left).
  destruct H as [h Hb Hn|cur h (Hne & Hl & Hh & Ho) Ha Hn|cur h ch (Hne & Hl & Hh & Ho) Hno _|cur h ch (Hne & Hl & Hh & Ho) _ Hn].
  - specialize (Hw _ (existing_unshared _ _ _ (proj2 (Hn eq_refl)))). cbn. split; each_op.
  - destruct (Hn eq_refl) as [Hno _]. assert (unshared (ti_Live (ac_in c)) (lr_RoleID (ac_role c)) (lr_BoundaryARN (ac_role c))) as Hu
      by (intros pol; rewrite Hl; congruence). specialize (Hw _ Hu). cbn.
    destruct (_ =? _)%string; [by split; each_op|].
    destruct (_ <=? lp_VersionCount cur), (_ <=? versions_after _); cbn; split; each_op.
  - assert (unshared (ti_Live (ac_in c)) (lr_RoleID (ac_role c)) (lr_BoundaryARN (ac_role c))) as Hu
      by (intros pol; rewrite Hl; congruence). destruct ch; split; each_op.
  - destruct ch; [|by split; each_op]. specialize (Hw _ (existing_unshared _ _ _ (Hn eq_refl eq_refl))).
    split; each_op.
Qed.

(** Direct delivery names AuthSec's own policies only. *)
Lemma pair_direct c t ut :
  pair_kind c [] EligibilityEligible t ut ->
  Forall (fun op => op_PolicyARN op = "" \/ isAuthSecPath (op_PolicyARN op) = true) (tg_Ops t ++ ut_Ops ut).
Proof.
  intros H. apply Forall_app. inversion H as [h Hb Hn|cur h Hbr Ha Hn| |]; subst; cbn.
  - pose proof (AuthSecBoundaryARN_path (ac_part c) (ac_acct c) (lr_RoleID (ac_role c))). split; each_op.
  - destruct (_ =? _)%string; [by split; each_op|].
    destruct (_ <=? lp_VersionCount cur), (_ <=? versions_after _); cbn; split; each_op.
Qed.

(** * Facts *)

Lemma facts_ok_perm fs gs : fs ≡ₚ gs -> facts_ok fs -> facts_ok gs.
Proof.
  intros H [Hnd Ho]. split; [by rewrite <- H|]. intros f Hf. apply Ho. by rewrite H.
Qed.

Lemma mem_of_In {A} (x : A) l : x ∈ l -> List.In x l.
Proof. apply list_elem_of_In. Qed.

Ltac each_fact Hf := apply mem_of_In in Hf; cbn in Hf; destruct_or! Hf; try subst; try done.

(** Concrete keys are apart; the rest is in the context. *)
Ltac keys_nodup :=
  repeat (apply NoDup_cons; split); try apply NoDup_nil_2; rewrite ?not_elem_of_cons; split_and?; try done; apply not_elem_of_nil.

Lemma policy_keys_NoDup arn :
  NoDup [FactRole; FactRoleDefinition; FactRoleBoundary; factKey FactPolicyDocument arn; factKey FactPolicyOwner arn;
         factKey FactPolicyUsers arn].
Proof.
  unfold factKey. destruct (is_empty arn); keys_nodup.
Qed.

Lemma pair_facts_ok c rs t ut : pair_kind c rs EligibilityEligible t ut -> facts_ok (tg_Facts t).
Proof.
  intros H. inversion H as [h Hb Hn|cur h Hbr Ha Hn| |]; subst.
  all: split; [apply policy_keys_NoDup|intros f Hf; each_fact Hf].
  all: intros _; unfold Changes; cbn; by rewrite String.eqb_refl.
Qed.

Lemma mirror_facts_ok fs : facts_ok fs -> facts_ok (swap_fact <$> List.filter compared fs).
Proof.
  intros [Hnd _]. split.
  - rewrite <- list_fmap_compose. change (NoDup (fa_Key <$> List.filter compared fs)). revert Hnd.
    induction fs as [|f fs IH]; [done|]. rewrite fmap_cons. intros [Hf Hnd]%NoDup_cons. cbn [List.filter].
    destruct (compared f); [|by apply IH]. rewrite fmap_cons. apply NoDup_cons. split; [|by apply IH].
    intros (g & E & Hg)%list_elem_of_fmap. apply elem_of_filter_b in Hg as [Hg _]. apply Hf. apply list_elem_of_fmap. eauto.
  - intros f (g & -> & _)%list_elem_of_fmap. done.
Qed.

(** The operations move every fact that changes. *)
Definition covers (ops : list Op) (fs : list Fact) : Prop :=
  forall f, f ∈ fs -> Changes f = true -> fa_Key f ∈ flat_map opEffects ops.

Lemma unchanged f : fa_Before f = fa_After f -> Changes f = true -> False.
Proof. intros E H%Changes_spec. done. Qed.

Lemma pair_covers c rs t ut :
  pair_kind c rs EligibilityEligible t ut -> covers (tg_Ops t) (tg_Facts t) /\ covers (ut_Ops ut) (ut_Facts ut).
Proof.
  intros H. inversion H as [h Hb Hn|cur h Hbr Ha Hn| |]; subst.
  - split; intros f Hf; each_fact Hf; intros Hc; first [by apply unchanged in Hc|cbn; set_solver].
  - cbn [authsec_target authsec_undo tg_Ops ut_Ops].
    destruct (String.eqb_spec h (ac_curHash c)) as [->|Hne];
      [split; intros f Hf; each_fact Hf; intros Hc; by apply unchanged in Hc|].
    destruct (_ <=? lp_VersionCount cur), (_ <=? versions_after _);
      split; intros f Hf; each_fact Hf; intros Hc; first [by apply unchanged in Hc|cbn; set_solver].
Qed.

(** ** What an operation leaves *)

(** The value a successful operation leaves for a kind of fact it moves. *)
Definition delivered (op : Op) (kind : string) : string :=
  if (kind =? FactPolicyDocument)%string then if (op_Op op =? OpDeletePolicy)%string then ValueAbsent else op_DocumentHash op
  else if (kind =? FactPolicyOwner)%string then
    if (op_Op op =? OpDeletePolicy)%string then ValueAbsent else ownerValue (op_Tags op)
  else if (op_Op op =? OpDeleteRolePermissionsBoundary)%string then ValueNone else op_PolicyARN op.

(** Every operation leaves the after values of the facts it moves. *)
Definition delivers (ops : list Op) (fs : list Fact) : Prop :=
  forall op f, op ∈ ops -> f ∈ fs -> fa_Key f ∈ opEffects op -> fa_After f = delivered op (fa_Kind f).

Lemma createTags_owner ctl : ownerValue (createTags ctl) = control_ownerValue ctl.
Proof. reflexivity. Qed.

(** Keys of different kinds, or of different policies, are apart. *)
Lemma factKey_inj kind a b : factKey kind a = factKey kind b -> a = b.
Proof.
  unfold factKey. destruct (is_empty a) eqn:Ea, (is_empty b) eqn:Eb; rewrite ?is_empty_true in Ea, Eb.
  - by subst.
  - intros E. exfalso. apply (f_equal str_length) in E. rewrite !str_length_app in E. cbn in E. lia.
  - intros E. exfalso. apply (f_equal str_length) in E. rewrite !str_length_app in E. cbn in E. lia.
  - by intros ?%(inj (String.append kind))%(inj (String.append ":")).
Qed.

Definition policy_kinds : list string := [FactPolicyDocument; FactPolicyOwner; FactPolicyUsers].

Lemma factKey_kind k1 k2 a b : k1 ∈ policy_kinds -> k2 ∈ policy_kinds -> factKey k1 a = factKey k2 b -> k1 = k2.
Proof.
  intros H1 H2. apply mem_of_In in H1, H2. cbn in H1, H2. unfold factKey.
  destruct_or! H1; destruct_or! H2; subst; try done; destruct (is_empty a), (is_empty b); discriminate.
Qed.

Lemma factKey_role k a : k ∈ policy_kinds -> factKey k a <> FactRole /\ factKey k a <> FactRoleDefinition /\ factKey k a <> FactRoleBoundary.
Proof.
  intros H. apply mem_of_In in H. cbn in H. unfold factKey. destruct_or! H; subst; try done; destruct (is_empty a); split_and!; discriminate.
Qed.

#[local] Arguments factKey : simpl never.

(** Each operation against each fact: either the fact is the one it moves, or the keys are apart. *)
Ltac key_apart :=
  match goal with
  | H : factKey ?k ?a = factKey ?k ?b |- _ => apply factKey_inj in H; congruence
  | H : factKey ?k1 ?a = factKey ?k2 ?b |- _ =>
      exfalso; apply factKey_kind in H; [discriminate H|apply (bool_decide_eq_true_1 _); reflexivity..]
  | H : factKey ?k ?a = ?s |- _ =>
      exfalso; destruct (factKey_role k a) as (? & ? & ?); [apply (bool_decide_eq_true_1 _); reflexivity|congruence]
  end.
Ltac each_delivery :=
  let op := fresh "op" in let f := fresh "f" in let Hop := fresh in let Hf := fresh in let Hk := fresh in
  intros op f Hop Hf Hk; each_fact Hop; each_fact Hf; apply mem_of_In in Hk; cbn in Hk; destruct_or! Hk; try done;
  first [reflexivity|key_apart|symmetry in Hk; key_apart].

Lemma pair_delivers c elig t ut :
  pair_kind c [] elig t ut -> delivers (tg_Ops t) (tg_Facts t) /\ delivers (ut_Ops ut) (ut_Facts ut).
Proof.
  destruct 1 as [h Hb Hn|cur h Hbr Ha Hn|cur h ch Hbr Ho Ha|cur h ch Hbr Ha Hn].
  - split; each_delivery.
  - cbn [authsec_target authsec_undo tg_Ops ut_Ops]. destruct (String.eqb_spec h (ac_curHash c)) as [->|Hne]; [split; each_delivery|].
    destruct (_ <=? lp_VersionCount cur), (_ <=? versions_after _); split; each_delivery.
  - destruct ch; split; each_delivery.
  - destruct ch; [|split; each_delivery].
    assert (lr_BoundaryARN (ac_role c) <> copy_arn c cur) as Hne.
    { intros E. specialize (Hn eq_refl eq_refl). rewrite <- E in Hn. destruct Hbr as (_ & Hl & _). unfold existing in Hn. by rewrite Hl in Hn. }
    unfold shared_target, shared_undo, shared_facts. cbn [tg_Ops tg_Facts ut_Ops ut_Facts].
    generalize dependent (copy_arn c cur). intros copy _ Hne. split; each_delivery.
Qed.

(** * Observation of the live read the plan was compiled from *)

Lemma observe_all_get id live facts out obs :
  observe_all id live out facts = Ok obs -> NoDup (fa_Key <$> facts) ->
  (forall k, k ∉ fa_Key <$> facts -> obs !! k = out !! k) /\
  (forall f, f ∈ facts -> exists v, observe_fact id live f = Ok v /\ obs !! fa_Key f = Some v).
Proof.
  revert out. induction facts as [|g facts IH]; intros out; cbn [observe_all].
  { intros [= <-] _. split; [done|]. by intros f []%not_elem_of_nil. }
  intros (v & Hv & H)%bind_Ok. rewrite fmap_cons. intros [Hg Hnd]%NoDup_cons. destruct (IH _ H Hnd) as [H1 H2]. split.
  - intros k [Hk1 Hk2]%not_elem_of_cons. rewrite H1 by done. by apply lookup_insert_ne.
  - intros f [->|Hf]%elem_of_cons; [|by apply H2]. exists v. split; [done|]. rewrite H1 by done. apply lookup_insert_eq.
Qed.

Lemma fact_roleID_perm fs gs id :
  fs ≡ₚ gs -> List.filter (fun f => (fa_Kind f =? FactRole)%string) gs = [factRole id] -> fact_roleID fs = id.
Proof.
  intros H%(filter_perm (fun f => (fa_Kind f =? FactRole)%string)) E. rewrite E in H. apply Permutation_singleton_r in H.
  unfold fact_roleID. by rewrite H.
Qed.

(** The before values are what the live read shows. *)
Lemma pair_observed c t ut f v :
  Role (ti_Live (ac_in c)) = Some (ac_role c) -> roleDefinitionHash (ac_role c) = Ok (ac_defHash c) ->
  pair_kind c [] EligibilityEligible t ut -> f ∈ tg_Facts t ->
  observe_fact (lr_RoleID (ac_role c)) (ti_Live (ac_in c)) f = Ok v -> v = fa_Before f.
Proof.
  intros Hr Hd H Hf. unfold observe_fact. rewrite Hr.
  inversion H as [h Hb Hn|cur h (Hne & Hl & Hh & Ho) Ha Hn| |]; subst.
  - destruct (Hn eq_refl) as [_ He]. unfold existing in He. each_fact Hf; cbn.
    all: rewrite ?Hb, ?Hd; try by intros [= <-].
    all: destruct (Policies _ !! _) as [[q|]|]; cbn in He; try done; by intros [= <-].
  - destruct (Hn eq_refl) as (Hno & How & _). each_fact Hf; cbn; rewrite ?Hd, ?Hl, ?Hh, ?How, <- ?Ho, ?Hno.
    all: try by intros [= <-].
    destruct (is_empty (lr_BoundaryARN (ac_role c))) eqn:E; [by apply is_empty_true in E|by intros [= <-]].
Qed.

Lemma compiled_shows i ap u c t ut obs :
  compiled i ap u c EligibilityEligible t ut -> ObserveFacts (pl_Facts ap) (ti_Live i) = Ok obs -> shows (pl_Facts ap) obs ∅.
Proof.
  intros [<- Hr Hd Hid _ _ Hpk Ha _ _] Ho.
  pose proof (core_inv _ _ Ha) as (_ & _ & _ & _ & _ & _ & _ & _ & _ & _ & _ & Hfs & _). cbn in Hfs.
  assert (pl_Facts ap ≡ₚ tg_Facts t) as Hperm by (rewrite Hfs; apply sort_slice_perm).
  unfold ObserveFacts in Ho. rewrite (fact_roleID_perm _ _ (lr_RoleID (ac_role c)) Hperm) in Ho.
  2:{ by inversion Hpk; subst. }
  apply observe_all_get in Ho as [_ Ho].
  2:{ rewrite Hperm. by apply (pair_facts_ok _ _ _ _ Hpk). }
  intros f Hf. destruct (Ho f Hf) as (v & Hv & ->). f_equal. rewrite Hperm in Hf. by apply (pair_observed c t ut f v).
Qed.

(** * Runs *)

(** An execution, interrupted and resumed any number of times, to the end of the operations. *)
Definition runs (p : Plan) (obs obs' : gmap string string) : Prop :=
  rtc (exec p) (obs, 0%nat) (obs', length (pl_Ops p)).

(** A plan an executor can take from its before values to its after values. *)
Definition executable (p : Plan) : Prop := plan_ok p /\ covers (pl_Ops p) (pl_Facts p).

Lemma runs_exists p obs : executable p -> shows (pl_Facts p) obs ∅ -> exists obs', runs p obs obs'.
Proof. intros [Hp _] Hs. apply run_to_end; [done|]. split; cbn; [lia|done]. Qed.

Lemma runs_after p obs obs' :
  executable p -> shows (pl_Facts p) obs ∅ -> runs p obs obs' -> forall f, f ∈ pl_Facts p -> obs' !! fa_Key f = Some (fa_After f).
Proof.
  intros [Hp Hc] Hs Hr f Hf. destruct (exec_rtc p _ _ Hp Hr) as [_ Hs']; [split; cbn; [lia|done]|]. cbn in Hs'.
  rewrite (Hs' f Hf). f_equal. unfold value_in, moved. rewrite firstn_all. case_bool_decide as Hn; [done|].
  destruct (Changes f) eqn:Ec; [|unfold Changes in Ec; by bool_prop]. destruct Hn. apply elem_of_list_to_set. by apply Hc.
Qed.

Lemma exec_other p x y k : k ∉ fa_Key <$> pl_Facts p -> rtc (exec p) x y -> y.1 !! k = x.1 !! k.
Proof.
  intros Hk H. induction H as [|x y z Hs _ IH]; [done|]. rewrite IH. destruct Hs; cbn; [by apply run_op_other|done].
Qed.

Lemma class_after p obs :
  plan_ok p -> (forall f, f ∈ pl_Facts p -> obs !! fa_Key f = Some (fa_After f)) -> covers (pl_Ops p) (pl_Facts p) ->
  cl_Class (classifyObserved p (pl_Facts p) obs) = ClassAfter.
Proof.
  intros [Hd Hf] Ha Hc.
  assert (forall f, f ∈ pl_Facts p -> Changes f = true -> fa_Key f ∈ moved (pl_Ops p) (length (pl_Ops p))) as Hm.
  { intros f Hin Hch. unfold moved. rewrite firstn_all. apply elem_of_list_to_set. by apply Hc. }
  destruct (classify_shows p obs (length (pl_Ops p)) Hd Hf (le_n _)) as (k & _ & _ & _ & ->).
  - intros f Hin. rewrite (Ha f Hin). f_equal. unfold value_in. case_bool_decide as Hn; [done|].
    destruct (Changes f) eqn:Ec; [by destruct Hn; apply Hm|unfold Changes in Ec; by bool_prop].
  - unfold class_of. rewrite (proj2 (forallb_forall _ _)); [done|].
    intros f [Hin Hch]%List.filter_In. apply bool_decide_eq_true. apply Hm; [by apply list_elem_of_In|done].
Qed.

Lemma covers_perm ops fs gs : fs ≡ₚ gs -> covers ops fs -> covers ops gs.
Proof. intros H Hc f Hf. apply Hc. by rewrite H. Qed.

Lemma compiled_executable i ap u c elig t ut :
  compiled i ap u c elig t ut -> rs_Delivery (ti_Intent i) = DeliveryDirect ->
  elig = EligibilityEligible /\ executable ap /\ executable u.
Proof.
  intros H Hd. pose proof (cm_direct _ _ _ _ _ _ _ H Hd) as ->. split; [done|].
  pose proof (mirror_facts _ _ _ _ _ _ _ H) as Hm. destruct H as [<- Hr _ Hid _ _ Hpk Ha Hu _].
  pose proof (core_inv _ _ Ha) as (_ & Hda & _ & _ & _ & _ & _ & _ & _ & _ & Hoa & Hfa & _). cbn in Hda, Hoa, Hfa.
  pose proof (core_inv _ _ Hu) as (_ & Hdu & _ & _ & _ & _ & _ & _ & _ & _ & Hou & Hfu & _). cbn in Hdu, Hou, Hfu.
  assert (tg_Facts t ≡ₚ pl_Facts ap) as Hpa by (rewrite Hfa; symmetry; apply sort_slice_perm).
  assert (ut_Facts ut ≡ₚ pl_Facts u) as Hpu by (rewrite Hfu; symmetry; apply sort_slice_perm).
  pose proof (facts_ok_perm _ _ Hpa (pair_facts_ok _ _ _ _ Hpk)) as Hok. destruct (pair_covers _ _ _ _ Hpk) as [Hca Hcu].
  split; (split; [split|]).
  - congruence.
  - done.
  - rewrite Hoa. by apply (covers_perm _ _ _ Hpa).
  - congruence.
  - eapply facts_ok_perm; [symmetry; exact Hm|by apply mirror_facts_ok].
  - rewrite Hou. by apply (covers_perm _ _ _ Hpu).
Qed.

Lemma value_in_empty f : value_in ∅ f = fa_Before f.
Proof. unfold value_in. case_bool_decide as H; [by apply elem_of_empty in H|done]. Qed.

(** The undo starts where the apply ended. *)
Lemma mirror_shows fs gs obs :
  gs ≡ₚ swap_fact <$> List.filter compared fs -> (forall f, f ∈ fs -> obs !! fa_Key f = Some (fa_After f)) -> shows gs obs ∅.
Proof.
  intros H Ha g Hg. rewrite H in Hg. apply list_elem_of_fmap in Hg as (f & -> & [Hf _]%elem_of_filter_b).
  rewrite value_in_empty. exact (Ha f Hf).
Qed.

Lemma fact_by_key fs f g : NoDup (fa_Key <$> fs) -> f ∈ fs -> g ∈ fs -> fa_Key f = fa_Key g -> f = g.
Proof.
  intros Hnd [i Hi]%list_elem_of_lookup [j Hj]%list_elem_of_lookup E.
  assert (i = j) as ->; [|congruence]. eapply NoDup_lookup; [exact Hnd|rewrite list_lookup_fmap, Hi; done|].
  rewrite list_lookup_fmap, Hj. cbn. by rewrite E.
Qed.

Lemma undo_restores ap u obs0 obs1 obs2 :
  facts_ok (pl_Facts ap) -> pl_Facts u ≡ₚ swap_fact <$> List.filter compared (pl_Facts ap) -> executable u ->
  shows (pl_Facts ap) obs0 ∅ -> (forall f, f ∈ pl_Facts ap -> obs1 !! fa_Key f = Some (fa_After f)) -> runs u obs1 obs2 ->
  forall f, f ∈ pl_Facts ap -> obs2 !! fa_Key f = obs0 !! fa_Key f.
Proof.
  intros [Hnd Hob] Hm Hx H0 H1 Hr f Hf. rewrite (H0 f Hf).
  rewrite value_in_empty. destruct (compared f) eqn:Ec.
  - apply (runs_after u obs1 obs2 Hx (mirror_shows _ _ _ Hm H1) Hr (swap_fact f)). rewrite Hm.
    apply list_elem_of_fmap. exists f. split; [done|]. by apply elem_of_filter_b.
  - assert (fa_Key f ∉ fa_Key <$> pl_Facts u) as Hk.
    { rewrite Hm, <- list_fmap_compose. intros (g & E & [Hg Hcg]%elem_of_filter_b)%list_elem_of_fmap. cbn in E.
      rewrite (fact_by_key _ _ _ Hnd Hf Hg E) in Ec. congruence. }
    pose proof (exec_other u _ _ _ Hk Hr) as E. cbn in E. rewrite E.
    rewrite (H1 f Hf). unfold compared in Ec. apply negb_false_iff in Ec. specialize (Hob f Hf Ec).
    unfold Changes in Hob. apply negb_false_iff, String.eqb_eq in Hob. by rewrite Hob.
Qed.

(** * Justified removals *)

(** The evidence that lets a service go. *)
Definition justified (i : TargetInput) (e : RemoveEntry) : Prop :=
  exists a, activity_map (bf_Activity (bd_Facts (er_Bundle (ti_Evidence i)))) !! rm_Service e = Some a /\
    ba_State a = EvidenceCollected /\ ba_Outcome a = QualNoAttempt /\ MinQualifiedDays <= ba_QualifiedDays a /\
    (ba_GrantAgeBasis a = GrantAgeObservedSinceChange \/ ba_GrantAgeBasis a = GrantAgePredatesObservation) /\
    IsDependency (rm_Service e) (ti_DependencyContexts i) = None.

Lemma justify_one_nil act ctxs e :
  justify_one act ctxs e = [] <->
  exists a, act !! rm_Service e = Some a /\
    ba_State a = EvidenceCollected /\ ba_Outcome a = QualNoAttempt /\ MinQualifiedDays <= ba_QualifiedDays a /\
    (ba_GrantAgeBasis a = GrantAgeObservedSinceChange \/ ba_GrantAgeBasis a = GrantAgePredatesObservation) /\
    IsDependency (rm_Service e) ctxs = None.
Proof.
  unfold justify_one. cbv zeta. split.
  - intros [H Hd]%app_nil. destruct (act !! rm_Service e) as [a|]; [|done]. exists a. split; [done|].
    destruct (String.eqb_spec (ba_State a) EvidenceCollected); [|done]. cbn [negb] in H.
    destruct (String.eqb_spec (ba_Outcome a) QualNoAttempt); [|done]. cbn [negb] in H.
    destruct (ba_QualifiedDays a <? MinQualifiedDays) eqn:Eq; [done|]. apply Z.ltb_ge in Eq.
    split_and!; [done..| |by destruct (IsDependency _ _)].
    destruct (String.eqb_spec (ba_GrantAgeBasis a) GrantAgeObservedSinceChange); [by left|].
    destruct (String.eqb_spec (ba_GrantAgeBasis a) GrantAgePredatesObservation); [by right|done].
  - intros (a & -> & -> & -> & Hq & Hg & ->). rewrite !String.eqb_refl. cbn [negb].
    rewrite (proj2 (Z.ltb_ge _ _) Hq). by destruct Hg as [-> | ->].
Qed.

Lemma justifyRemovals_nil i :
  justifyRemovals (rs_Remove (ti_Intent i)) (bf_Activity (bd_Facts (er_Bundle (ti_Evidence i)))) (ti_DependencyContexts i) = [] ->
  forall e, e ∈ rs_Remove (ti_Intent i) -> justified i e.
Proof.
  unfold justifyRemovals. intros H e He. apply justify_one_nil. apply list_elem_of_In in He.
  destruct (justify_one _ _ e) as [|r l] eqn:E; [done|]. exfalso.
  assert (List.In r (flat_map (justify_one (activity_map (bf_Activity (bd_Facts (er_Bundle (ti_Evidence i)))))
    (ti_DependencyContexts i)) (rs_Remove (ti_Intent i)))) as Hin by (apply in_flat_map; exists e; split; [done|rewrite E; by left]).
  by rewrite H in Hin.
Qed.

(** * Theorems *)

(** An apply and its undo mirror each other. When a target compiles to an eligible plan, nothing was refused, its undo
    exists, is as deliverable as the apply, wants exactly the boundary and document the role has in the live read, and
    compares the facts of the apply with before and after exchanged; otherwise the refusals are recorded and there is no
    undo and no operation. *)
Theorem undo_mirrors_apply i tp :
  CompileTarget i = Ok tp ->
  let ap := tp_Apply tp in
  match tp_Undo tp with
  | Some u =>
      Eligible ap = true /\ pl_Refusals ap = [] /\ pl_Eligibility u = pl_Eligibility ap /\ pl_Delivery u = pl_Delivery ap /\
      (exists st, ArtifactState (ti_Live i) = Ok st /\ pl_DesiredBoundaryARN u = as_BoundaryARN st /\
         pl_DesiredDocumentHash u = as_BoundaryDocumentHash st) /\
      pl_Facts u ≡ₚ swap_fact <$> List.filter compared (pl_Facts ap)
  | None => Eligible ap = false /\ pl_Refusals ap <> [] /\ pl_Ops ap = []
  end.
Proof.
  intros [(Hu & He & Ho & Hr)|(u & c & elig & t & ut & Hu & H)]%target_inv; cbv zeta; rewrite Hu.
  { unfold Eligible. by rewrite He. }
  pose proof (mirror_facts _ _ _ _ _ _ _ H) as Hm. destruct H as [<- Hr _ _ _ _ Hpk Ha Hc _].
  apply core_inv in Ha as (_ & Hda & Hea & _ & _ & _ & _ & _ & _ & _ & _ & _ & Hra & _).
  apply core_inv in Hc as (_ & Hdu & Heu & _ & Hau & Hhu & _). cbn in Hda, Hea, Hra, Hdu, Heu, Hau, Hhu.
  unfold Eligible. rewrite Hea, Heu, Hda, Hdu, Hra, Hau, Hhu, (proj2 (String.eqb_neq _ _) (pair_kind_eligible _ _ _ _ _ Hpk)).
  split_and!; [done..|by eapply pair_restores|done].
Qed.

(** The operations do what the facts say: in the apply and in the undo, every operation that moves a fact leaves exactly
    the value the plan expects after it, the document hash it writes, the owner its tags name, the boundary it sets, or
    their absence. *)
Theorem target_ops_deliver i tp p op f :
  CompileTarget i = Ok tp -> p = tp_Apply tp \/ tp_Undo tp = Some p ->
  op ∈ pl_Ops p -> f ∈ pl_Facts p -> fa_Key f ∈ opEffects op -> fa_After f = delivered op (fa_Kind f).
Proof.
  intros [(Hu & He & Ho & Hr)|(u & c & elig & t & ut & Hu & H)]%target_inv Hp.
  { destruct Hp as [->|Hp]; [|congruence]. rewrite Ho. by intros ?%elem_of_nil. }
  destruct (pair_delivers _ _ _ _ (cm_pair _ _ _ _ _ _ _ H)) as [Hda Hdu].
  pose proof (core_inv _ _ (cm_apply _ _ _ _ _ _ _ H)) as (_ & _ & _ & _ & _ & _ & _ & _ & _ & _ & Hoa & Hfa & _).
  pose proof (core_inv _ _ (cm_undo _ _ _ _ _ _ _ H)) as (_ & _ & _ & _ & _ & _ & _ & _ & _ & _ & Hou & Hfu & _).
  cbn in Hoa, Hfa, Hou, Hfu. intros Hop Hf.
  destruct Hp as [->|Hp]; [rewrite Hoa in Hop; rewrite Hfa in Hf|assert (p = u) as -> by congruence; rewrite Hou in Hop; rewrite Hfu in Hf];
    apply elem_of_sort_slice in Hf; eauto.
Qed.

(** C4. A plan changes no policy that someone else uses: every operation of the apply or of its undo that writes a
    policy (its document, versions, tags or existence) names one that, in the live read, nothing but the role's own
    boundary uses, and direct delivery names policies under AuthSec's path only. *)
Theorem target_writes_own_policies i tp role op :
  CompileTarget i = Ok tp -> Role (ti_Live i) = Some role ->
  op ∈ pl_Ops (tp_Apply tp) ++ from_option pl_Ops [] (tp_Undo tp) ->
  (writes op -> unshared (ti_Live i) (lr_RoleID role) (op_PolicyARN op)) /\
  (rs_Delivery (ti_Intent i) = DeliveryDirect -> op_PolicyARN op = "" \/ isAuthSecPath (op_PolicyARN op) = true).
Proof.
  intros [(Hu & He & Ho & Hr)|(u & c & elig & t & ut & Hu & H)]%target_inv Hrole; rewrite Hu; cbn [from_option].
  { rewrite Ho. by intros ?%elem_of_nil. }
  pose proof (cm_direct _ _ _ _ _ _ _ H) as Hd. destruct H as [<- Hr _ _ _ _ Hpk Ha Hc _].
  apply core_inv in Ha as (_ & _ & _ & _ & _ & _ & _ & _ & _ & _ & Hoa & _).
  apply core_inv in Hc as (_ & _ & _ & _ & _ & _ & _ & _ & _ & _ & Hou & _). cbn in Hoa, Hou. rewrite Hoa, Hou.
  rewrite Hr in Hrole. injection Hrole as <-. intros Hop. split.
  - intros Hw. pose proof (pair_writes _ _ _ _ Hpk) as Hf. unfold writes_own in Hf. rewrite Forall_forall in Hf.
    by destruct (Hf _ Hop).
  - intros Hdel. rewrite (Hd Hdel) in Hpk. pose proof (pair_direct _ _ _ Hpk) as Hf. rewrite Forall_forall in Hf. by apply Hf.
Qed.

(** C23. An eligible apply is a justified one: the live role is the incarnation the control names and passes the role
    checks, every removed service has collected evidence of no attempt over at least [MinQualifiedDays] qualified
    days with a known grant age and is no dependency, and a first attachment carries a proof with nothing refused. *)
Theorem eligible_target_justified i tp :
  CompileTarget i = Ok tp -> Eligible (tp_Apply tp) = true ->
  exists role, Role (ti_Live i) = Some role /\ lr_RoleID role = ct_RoleID (ti_Control i) /\ RoleEligibility role = [] /\
    (forall e, e ∈ rs_Remove (ti_Intent i) -> justified i e) /\
    (lr_BoundaryARN role = "" ->
       proof_Refusals (ProveFirstAttachment (role_ref role) (er_ScanRunID (ti_Evidence i)) (ti_ScanEvidence i)
         (ti_EnabledRegions i) (ti_AccountServices i) (bf_Gaps (bd_Facts (er_Bundle (ti_Evidence i))))) = []).
Proof.
  intros [(_ & He & _)|(u & c & elig & t & ut & Hu & H)]%target_inv Hel.
  { unfold Eligible in Hel. by rewrite He in Hel. }
  destruct H as [<- Hr _ Hid Hrel Hj Hpk _ _ _]. exists (ac_role c). split_and!; try done.
  - by apply justifyRemovals_nil.
  - intros Hb. destruct Hpk as [h _ Hn|cur h (Hne & _)|cur h ch (Hne & _)|cur h ch (Hne & _)]; [|done..].
    by destruct (Hn eq_refl).
Qed.

(** C3. A direct change can be taken and taken back. From the state its live read shows, the apply can run to its end;
    however it is interrupted and resumed, it ends with every fact at its after value and classified [after]; from
    there the undo can run, and, interrupted and resumed or not, it ends with every fact of the plan as it was. *)
Theorem direct_round_trip i tp u obs0 :
  CompileTarget i = Ok tp -> tp_Undo tp = Some u -> rs_Delivery (ti_Intent i) = DeliveryDirect ->
  ObserveFacts (pl_Facts (tp_Apply tp)) (ti_Live i) = Ok obs0 ->
  let ap := tp_Apply tp in
  (exists obs1, runs ap obs0 obs1) /\
  forall obs1, runs ap obs0 obs1 ->
    (forall f, f ∈ pl_Facts ap -> obs1 !! fa_Key f = Some (fa_After f)) /\
    cl_Class (classifyObserved ap (pl_Facts ap) obs1) = ClassAfter /\
    (exists obs2, runs u obs1 obs2) /\
    forall obs2, runs u obs1 obs2 -> forall f, f ∈ pl_Facts ap -> obs2 !! fa_Key f = obs0 !! fa_Key f.
Proof.
  intros [(Hu & _)|(u' & c & elig & t & ut & Hu & H)]%target_inv Hu' Hd Ho; [congruence|]. cbv zeta.
  assert (u' = u) as -> by congruence. destruct (compiled_executable _ _ _ _ _ _ _ H Hd) as (-> & Hxa & Hxu).
  pose proof (compiled_shows _ _ _ _ _ _ _ H Ho) as Hs. pose proof (mirror_facts _ _ _ _ _ _ _ H) as Hm.
  split; [by apply runs_exists|]. intros obs1 Hr1. pose proof (runs_after _ _ _ Hxa Hs Hr1) as Hafter.
  split; [done|]. split; [by apply class_after; [apply Hxa| |apply Hxa]|].
  split; [apply runs_exists; [done|by eapply mirror_shows]|]. intros obs2 Hr2.
  eapply undo_restores; [apply Hxa|exact Hm|exact Hxu|exact Hs|exact Hafter|exact Hr2].
Qed.

(** * A role under AuthSec's boundary *)

Definition sample_boundary : string := "arn:aws:iam::123456789012:policy/authsec/AuthSecBoundary-AROAEXAMPLEROLE00001".

Definition sample_control : ControlRef :=
  {| ct_ID := "ctl"; ct_PolicyID := "pol"; ct_AccountID := "123456789012"; ct_RoleID := "AROAEXAMPLEROLE00001"; ct_WorkspaceRef := "ws";
     ct_OwnedPolicyARNs := [sample_boundary] |}.

Definition sample_intent : RightSizeIntent :=
  {| rs_Kind := IntentRightSizeServices;
     rs_Subjects := [{| sj_IdentityAccountID := "00000000-0000-0000-0000-000000000001"; sj_RoleID := "AROAEXAMPLEROLE00001";
                        sj_AccountID := "123456789012" |}];
     rs_Retain := [];
     rs_Remove := [{| rm_Service := "sqs"; rm_Basis := RemoveNoAttempt; rm_QualifiedDays := 40;
                      rm_GrantAgeBasis := GrantAgePredatesObservation; rm_RouteUsage := RouteUsageNoneObserved;
                      rm_RouteState := RouteStateNoneObserved; rm_Routes := [] |}];
     rs_ObservationDays := 30; rs_Rollout := None; rs_Delivery := DeliveryDirect; rs_FindingIDs := []; rs_EvidenceRev := 7 |}.

(** The role has AuthSec's boundary, which excludes nothing yet. *)
Definition sample_boundary_policy : LivePolicy :=
  {| lp_ARN := sample_boundary; lp_Path := AuthSecPolicyPath; lp_Name := "AuthSecBoundary-AROAEXAMPLEROLE00001";
     lp_Tags := {[TagManagedBy := TagManagedByValue; TagWorkspace := "ws"; TagControl := "ctl"]};
     lp_DefaultDocument := match ExcludeOnlyDocument ["s3"] with Ok (d, _) => d | Err _ => "" end;
     lp_VersionCount := 5;
     lp_AttachmentSet := [{| ae_Kind := "role"; ae_ID := "AROAEXAMPLEROLE00001"; ae_Name := "x"; ae_Usage := UsageBoundary |}] |}.

Definition sample_target_live : LiveRead :=
  {| ReadAt := day 2026 7 1;
     Role := Some {| lr_RoleID := "AROAEXAMPLEROLE00001"; lr_ARN := "arn:aws:iam::123456789012:role/x"; lr_Name := "x"; lr_Path := "/";
                     lr_AccountID := "123456789012"; lr_Partition := "aws"; lr_Tags := ∅; lr_Continuity := "immutable";
                     lr_BoundaryARN := sample_boundary; lr_ManagedPolicies := []; lr_InlinePolicies := [];
                     lr_TrustPolicyHash := ""; lr_Documents := ∅ |};
     Policies := {[sample_boundary := Some sample_boundary_policy]}; Roles := ∅; Bindings := ∅ |}.

Definition sample_bundle_input : BundleInput :=
  {| bi_BuiltAt := bi_BuiltAt sample_input; bi_Sources := bi_Sources sample_input;
     bi_Target := {| bt_AccountID := "123456789012"; bt_RoleID := "AROAEXAMPLEROLE00001";
                     bt_RoleARN := "arn:aws:iam::123456789012:role/x"; bt_EstateScope := "" |};
     bi_RemovedServices := bi_RemovedServices sample_input; bi_Grants := []; bi_Consumers := []; bi_ConsumersUnresolved := 0;
     bi_Owners := []; bi_Activity := bi_Activity sample_input; bi_RouteAnalyses := bi_RouteAnalyses sample_input |}.

Definition sample_bundle : Bundle :=
  match BuildBundle sample_bundle_input DefaultTrustRules with
  | Ok b => b
  | Err _ => {| bd_Facts := {| bf_Format := ""; bf_Catalog := ""; bf_BuiltAt := ""; bf_Sources := [];
                               bf_Target := bi_Target sample_bundle_input; bf_RemovedServices := []; bf_Grants := [];
                               bf_Consumers := []; bf_ConsumersUnresolved := 0; bf_Owners := []; bf_Activity := [];
                               bf_Routes := []; bf_Gaps := [] |};
                bd_Canonical := ""; bd_Hash := ""; bd_Trust := TrustUntrusted; bd_TrustReasons := []; bd_GapRefs := [] |}
  end.

Definition sample_target : TargetInput :=
  {| ti_Control := sample_control; ti_Intent := sample_intent; ti_Live := sample_target_live;
     ti_Evidence := {| er_Bundle := sample_bundle; er_EvidenceRev := 7; er_ScanRunID := "run" |};
     ti_ScanEvidence := None; ti_EnabledRegions := []; ti_AccountServices := None; ti_DependencyContexts := [] |}.

(** It compiles to a pruned version change with its undo, and its facts are read back. *)
Definition compiles_to (n : nat) (i : TargetInput) : bool :=
  match CompileTarget i with
  | Ok tp =>
      match tp_Undo tp, ObserveFacts (pl_Facts (tp_Apply tp)) (ti_Live i) with
      | Some _, Ok _ => (length (pl_Ops (tp_Apply tp)) =? n)%nat
      | _, _ => false
      end
  | Err _ => false
  end.

Lemma compiles_to_spec n i :
  compiles_to n i = true ->
  exists tp u obs, CompileTarget i = Ok tp /\ tp_Undo tp = Some u /\
    ObserveFacts (pl_Facts (tp_Apply tp)) (ti_Live i) = Ok obs /\ length (pl_Ops (tp_Apply tp)) = n.
Proof.
  unfold compiles_to. destruct (CompileTarget i) as [tp|]; [|done]. destruct (tp_Undo tp) as [u|] eqn:Hu; [|done].
  destruct (ObserveFacts _ _) as [obs|] eqn:Ho; [|done]. intros H%Nat.eqb_eq. by exists tp, u, obs.
Qed.

Lemma sample_compiles : compiles_to 3 sample_target = true.
Proof. vm_compute. reflexivity. Qed.

(** Some operation of the apply moves some fact. *)
Definition moves_one (i : TargetInput) : bool :=
  match CompileTarget i with
  | Ok tp => existsb (fun op => existsb (fun f => bool_decide (fa_Key f ∈ opEffects op)) (pl_Facts (tp_Apply tp))) (pl_Ops (tp_Apply tp))
  | Err _ => false
  end.

Lemma sample_moves : moves_one sample_target = true.
Proof. vm_compute. reflexivity. Qed.

Lemma undo_mirrors_apply_witness :
  exists tp u, CompileTarget sample_target = Ok tp /\ tp_Undo tp = Some u /\
    pl_Facts u ≡ₚ swap_fact <$> List.filter compared (pl_Facts (tp_Apply tp)).
Proof.
  destruct (compiles_to_spec _ _ sample_compiles) as (tp & u & obs & Hc & Hu & _). exists tp, u. split; [exact Hc|]. split; [exact Hu|].
  pose proof (undo_mirrors_apply sample_target tp Hc) as H. cbv zeta in H. rewrite Hu in H. apply H.
Defined.

Lemma target_writes_own_policies_witness :
  exists tp op role, CompileTarget sample_target = Ok tp /\ Role sample_target_live = Some role /\ op ∈ pl_Ops (tp_Apply tp) /\
    (op_PolicyARN op = "" \/ isAuthSecPath (op_PolicyARN op) = true).
Proof.
  destruct (compiles_to_spec _ _ sample_compiles) as (tp & u & obs & Hc & Hu & _ & Hl). destruct (pl_Ops (tp_Apply tp)) as [|op ops] eqn:Eo; [discriminate Hl|].
  assert (exists role, Role sample_target_live = Some role) as [role Hr] by (eexists; reflexivity). exists tp, op, role.
  rewrite Eo. split; [exact Hc|]. split; [exact Hr|]. split; [left|].
  apply (target_writes_own_policies sample_target tp role op Hc Hr); [rewrite Eo; left|reflexivity].
Defined.

Lemma target_ops_deliver_witness :
  exists tp op f, CompileTarget sample_target = Ok tp /\ op ∈ pl_Ops (tp_Apply tp) /\ f ∈ pl_Facts (tp_Apply tp) /\
    fa_After f = delivered op (fa_Kind f).
Proof.
  destruct (compiles_to_spec _ _ sample_compiles) as (tp & u & obs & Hc & _).
  assert (exists op f, op ∈ pl_Ops (tp_Apply tp) /\ f ∈ pl_Facts (tp_Apply tp) /\ fa_Key f ∈ opEffects op) as (op & f & Hop & Hf & Hk).
  { pose proof sample_moves as Hm. unfold moves_one in Hm. rewrite Hc in Hm.
    apply existsb_exists in Hm as (op & Hop & (f & Hf & Hk)%existsb_exists). exists op, f.
    rewrite !list_elem_of_In. split_and!; [exact Hop|exact Hf|]. apply list_elem_of_In. by apply bool_decide_eq_true in Hk. }
  exists tp, op, f. split; [exact Hc|]. split; [exact Hop|]. split; [exact Hf|].
  exact (target_ops_deliver sample_target tp (tp_Apply tp) op f Hc (or_introl eq_refl) Hop Hf Hk).
Defined.

Lemma eligible_target_justified_witness :
  exists tp role, CompileTarget sample_target = Ok tp /\ Role sample_target_live = Some role /\ RoleEligibility role = [].
Proof.
  destruct (compiles_to_spec _ _ sample_compiles) as (tp & u & obs & Hc & Hu & _ & Hl).
  assert (Eligible (tp_Apply tp) = true) as He.
  { destruct (target_inv _ _ Hc) as [(E & _)|(u' & c & elig & t & ut & _ & H)]; [congruence|].
    unfold Eligible. pose proof (core_inv _ _ (cm_apply _ _ _ _ _ _ _ H)) as (_ & _ & -> & _).
    apply negb_true_iff, String.eqb_neq, (pair_kind_eligible _ _ _ _ _ (cm_pair _ _ _ _ _ _ _ H)). }
  destruct (eligible_target_justified sample_target tp Hc He) as (role & Hr & _ & Hel & _).
  exists tp, role. split; [exact Hc|]. split; [exact Hr|exact Hel].
Defined.

Lemma direct_round_trip_witness :
  exists tp u obs0 obs1 obs2, CompileTarget sample_target = Ok tp /\ runs (tp_Apply tp) obs0 obs1 /\ runs u obs1 obs2 /\
    forall f, f ∈ pl_Facts (tp_Apply tp) -> obs2 !! fa_Key f = obs0 !! fa_Key f.
Proof.
  destruct (compiles_to_spec _ _ sample_compiles) as (tp & u & obs0 & Hc & Hu & Ho & _).
  destruct (direct_round_trip sample_target tp u obs0 Hc Hu eq_refl Ho) as [[obs1 H1] H].
  destruct (H obs1 H1) as (_ & _ & [obs2 H2] & Hback). exists tp, u, obs0, obs1, obs2.
  split; [exact Hc|]. split; [exact H1|]. split; [exact H2|]. exact (Hback obs2 H2).
Defined.
