(* ===== verification/RemoveFacts.v ===== *)
(** What a plan that removes a control guarantees: it starts from what AuthSec
    last deployed, ends at the baseline, writes no policy another entity uses,
    and a direct one runs to its end however it is interrupted. *)

From stdpp Require Import base list strings gmap sorting relations.
From S2P Require Import Prelude Slices Qualify Float64 Utf8 Json JsonCanon Marshal Sha256 PolicyDoc Catalog Text Routes Hashes PolicyCanon TimeFmt Live Boundary Narrow Intent Bundle FirstAttach Plan Recover Resume PlanSet Compile CompileFacts TargetFacts.

#[local] Open Scope plan_scope.
#[local] Opaque CanonicalizeValue ContentHash writeCanonical checkStorable ExclusionChanges
  ImpactHash PlanHash MaterialHash StatePreconditionHash CanonicalDocument usersValue
  notActionNamespaces impact_Normalized Join isAuthSecPath.

(** * The cases *)

(** What a case decides. *)
Record removal := {
  rv_Attachment : string; rv_ARN : option string; rv_Hash : option string; rv_Replaced : option string; rv_Disposition : string;
  rv_Ops : list Op; rv_Facts : list Fact }.

Definition removal_core (p : Plan) (elig : string) (r : removal) (rs : list Refusal) : core :=
  {| co_Kind := pl_Kind p; co_Delivery := pl_Delivery p; co_Eligibility := elig; co_Attachment := rv_Attachment r;
     co_ARN := rv_ARN r; co_Hash := rv_Hash r; co_Replaced := rv_Replaced r; co_Disposition := rv_Disposition r;
     co_First := pl_FirstAttachment p; co_Scan := pl_ResourcePolicyScanRunID p; co_Ops := rv_Ops r; co_Facts := rv_Facts r;
     co_Refusals := pl_Refusals p ++ rs; co_Reason := pl_IneligibleReason p |}.

(** The current policy goes when nobody else uses it. *)
Definition cur_gone (x : removeCtx) : bool := match rx_others x with [] => true | _ => false end.
Definition cur_disposition (x : removeCtx) : string := if cur_gone x then DispositionDelete else DispositionRetainShared.
Definition cur_ops (x : removeCtx) : list Op :=
  if cur_gone x then [delete_versions (rx_cur x); delete_policy (rx_cur x)] else [].
Definition cur_facts (x : removeCtx) : list Fact :=
  let after v := if cur_gone x then ValueAbsent else v in
  [factPolicyDoc (rx_cur x) (rx_curHash x) (after (rx_curHash x)); factPolicyUsers (rx_cur x) (rx_others x) (rx_others x)] ++
  curOwnerFacts x (rx_owner x) (after (rx_owner x)).

Definition detach (x : removeCtx) : removal :=
  {| rv_Attachment := AttachmentAbsent; rv_ARN := None; rv_Hash := None; rv_Replaced := Some (rx_cur x);
     rv_Disposition := cur_disposition x; rv_Ops := delete_boundary (lr_Name (rx_role x)) :: cur_ops x;
     rv_Facts := factRole (lr_RoleID (rx_role x)) :: factBoundary (rx_cur x) ValueNone :: cur_facts x |}.

Definition in_place (i : RemoveControlInput) (x : removeCtx) (bh : string) : removal :=
  let cur := rx_cur x in
  {| rv_Attachment := AttachmentPresent; rv_ARN := Some cur; rv_Hash := Some bh; rv_Replaced := None;
     rv_Disposition := DispositionKeep;
     rv_Ops := if (bh =? rx_curHash x)%string then []
               else if isAuthSecPath cur then
                 (if MaxPolicyVersions <=? lp_VersionCount (rx_curPol x) then [pruneOp cur] else []) ++
                 [create_version cur bh; tag_policy cur (changeTags (rc_Control i))]
               else [create_version cur bh];
     rv_Facts := [factRole (lr_RoleID (rx_role x)); factBoundary cur cur; factPolicyDoc cur (rx_curHash x) bh;
                  factPolicyUsers cur (rx_others x) (rx_others x)] ++ curOwnerFacts x (rx_owner x) (rx_owner x) |}.

Definition repoint (x : removeCtx) (b bh : string) (bOthers : list AttachedEntity) : removal :=
  {| rv_Attachment := AttachmentPresent; rv_ARN := Some b; rv_Hash := Some bh; rv_Replaced := Some (rx_cur x);
     rv_Disposition := cur_disposition x; rv_Ops := put_boundary (lr_Name (rx_role x)) b :: cur_ops x;
     rv_Facts := [factRole (lr_RoleID (rx_role x)); factBoundary (rx_cur x) b; factPolicyDoc b bh bh;
                  factPolicyUsers b bOthers bOthers] ++ cur_facts x |}.

(** The baseline decides the case. *)
Inductive removal_kind (i : RemoveControlInput) (x : removeCtx) : removal -> Prop :=
  | vk_detach : bl_BoundaryARN (rc_Baseline i) = None -> removal_kind i x (detach x)
  | vk_in_place bh :
      bl_BoundaryARN (rc_Baseline i) = Some (rx_cur x) -> DocumentHash (bl_Document (rc_Baseline i)) = Ok bh ->
      derefOr (bl_DocumentHash (rc_Baseline i)) "" = bh -> rx_others x = [] -> removal_kind i x (in_place i x bh)
  | vk_repoint b bp bh :
      bl_BoundaryARN (rc_Baseline i) = Some b -> b <> rx_cur x -> Policies (rc_Live i) !! b = Some (Some bp) ->
      policy_DocumentHash bp = Ok bh ->
      removal_kind i x (repoint x b bh (otherUsers (lp_AttachmentSet bp) (lr_RoleID (rx_role x)))).

Lemma detach_core x p :
  fresh_plan p -> pl_DesiredBoundaryARN p = None -> pl_DesiredDocumentHash p = None ->
  core_of (remove_detach x p) = removal_core p (pl_Eligibility p) (detach x) [].
Proof.
  intros (H1 & H2 & H3 & H4) Ha Hh. unfold remove_detach, detach, cur_disposition, cur_ops, cur_facts, cur_gone, core_of, removal_core.
  destruct (rx_others x); cbn; rewrite ?Ha, ?Hh, ?app_nil_r; reflexivity.
Qed.

Lemma in_place_core i x p q :
  fresh_plan p -> pl_ArtifactDisposition p = DispositionKeep -> remove_in_place i x p = Ok q ->
  exists bh rs, DocumentHash (bl_Document (rc_Baseline i)) = Ok bh /\ derefOr (bl_DocumentHash (rc_Baseline i)) "" = bh /\
    core_of q = removal_core p (pl_Eligibility p) (in_place i x bh) rs /\ (rs = [] -> rx_others x = []).
Proof.
  intros (H1 & H2 & H3 & H4) Hd H. unfold remove_in_place in H. cbv zeta in H. apply bind_Ok in H as ([bh p'] & Ht & H).
  apply bind_Ok in Ht as ([txt h] & Hdoc & [= <- <-]). cbv beta iota in H.
  destruct (String.eqb_spec h (derefOr (bl_DocumentHash (rc_Baseline i)) "")) as [Eh|]; [|done]. cbn [negb] in H.
  revert H. plan_eqs. intros [= <-]. exists h. eexists.
  split; [unfold DocumentHash; by rewrite Hdoc|]. split; [done|]. split.
  - unfold in_place, core_of, removal_core. destruct (h =? rx_curHash x)%string; [|destruct (isAuthSecPath (rx_cur x))]; cbn;
      rewrite ?H1, ?H2, ?H3, ?Hd; reflexivity.
  - intros E. by destruct (rx_others x).
Qed.

Lemma repoint_core i x b p q after :
  fresh_plan p -> remove_repoint i x b p = Ok (q, after) ->
  pl_Refusals q <> [] /\ pl_Eligibility q = pl_Eligibility p \/
  exists bp bh, Policies (rc_Live i) !! b = Some (Some bp) /\ policy_DocumentHash bp = Ok bh /\
    core_of q = removal_core p (pl_Eligibility p) (repoint x b bh (otherUsers (lp_AttachmentSet bp) (lr_RoleID (rx_role x)))) [].
Proof.
  intros (H1 & H2 & H3 & H4) H. unfold remove_repoint in H. cbv zeta in H. apply bind_Ok in H as ([bp|] & Hl & H).
  2:{ injection H as <- _. left. cbn. split; [by destruct (pl_Refusals p)|done]. }
  right. apply live_policy_read in Hl. apply bind_Ok in H as ([bh p'] & Ht & H).
  apply bind_Ok in Ht as ([txt h] & Hdoc & [= <- <-]). cbv beta iota in H. revert H. plan_eqs. intros [= <- _].
  exists bp, h. split; [done|]. split; [unfold policy_DocumentHash, DocumentHash; by rewrite Hdoc|].
  unfold repoint, cur_disposition, cur_ops, cur_facts, cur_gone, core_of, removal_core.
  destruct (negb _), (rx_others x); cbn; rewrite ?app_nil_r; reflexivity.
Qed.

(** * A compiled removal *)

(** The end of the compiler keeps what the case decided; direct delivery is
    refused for an operation on a policy that is not AuthSec's. *)
Lemma finish_core i x after p q :
  remove_finish i x after p = Ok q -> pl_Eligibility p = EligibilityEligible ->
  refused_plan q \/
  exists elig, elig <> EligibilityIneligible /\ pl_Refusals p = [] /\ core_of q = settle_core (core_of (set_Eligibility elig p)) /\
    (pl_Delivery p = DeliveryDirect -> forall op, op ∈ pl_Ops p -> foreign_op op = false).
Proof.
  unfold remove_finish. cbv zeta. intros H He. apply bind_Ok in H as (ch & _ & H).
  match type of H with seal ?r = _ => destruct (decide (pl_Refusals r = [])) as [Hn|Hn] end; [|left; by eapply seal_refused_plan].
  right. revert H Hn. cbn [set_Diff set_Impact pl_Delivery pl_Ops].
  destruct (pl_Delivery p =? DeliveryDirect)%string eqn:Ed; [destruct (List.find foreign_op (pl_Ops p)) as [op|] eqn:Ef|].
  - intros _ Hn. exfalso. revert Hn. match goal with |- context [if ?b then set_Eligibility _ _ else _] => destruct b end; cbn;
      by destruct (pl_Refusals p).
  - intros H Hn. pose proof (find_none _ _ Ef) as Hall. match type of H with context [if ?b then _ else _] => destruct b end;
      apply seal_core in H; [exists EligibilityIaCOnly|exists (pl_Eligibility p)]; (split; [by rewrite ?He|]); (split; [exact Hn|]);
      (split; [rewrite H; reflexivity|]); intros _ op Hop; apply Hall; by apply list_elem_of_In.
  - intros H Hn. apply String.eqb_neq in Ed. match type of H with context [if ?b then _ else _] => destruct b end;
      apply seal_core in H; [exists EligibilityIaCOnly|exists (pl_Eligibility p)]; (split; [by rewrite ?He|]); (split; [exact Hn|]);
      (split; [rewrite H; reflexivity|done]).
Qed.

(** The sealed plan of a removal. *)
Definition removed_core (i : RemoveControlInput) (elig : string) (r : removal) : core :=
  {| co_Kind := PlanRemoveControl; co_Delivery := rc_Delivery i; co_Eligibility := elig; co_Attachment := rv_Attachment r;
     co_ARN := rv_ARN r; co_Hash := rv_Hash r; co_Replaced := rv_Replaced r; co_Disposition := rv_Disposition r;
     co_First := false; co_Scan := Some (er_ScanRunID (rc_Evidence i)); co_Ops := rv_Ops r; co_Facts := sortFacts (rv_Facts r);
     co_Refusals := []; co_Reason := "" |}.

(** A removal that was not refused: the role is the control's, and its boundary
    is what AuthSec last deployed. *)
Record removes (i : RemoveControlInput) (p : Plan) (x : removeCtx) (elig : string) (r : removal) : Prop := {
  rm_role : Role (rc_Live i) = Some (rx_role x);
  rm_incarnation : lr_RoleID (rx_role x) = ct_RoleID (rc_Control i);
  rm_boundary : lr_BoundaryARN (rx_role x) = rx_cur x;
  rm_some : rx_cur x <> "";
  rm_read : Policies (rc_Live i) !! rx_cur x = Some (Some (rx_curPol x));
  rm_hash : policy_DocumentHash (rx_curPol x) = Ok (rx_curHash x);
  rm_others : rx_others x = otherUsers (lp_AttachmentSet (rx_curPol x)) (lr_RoleID (rx_role x));
  rm_owner : rx_owner x = control_ownerValue (rc_Control i);
  rm_last : rx_cur x = br_ARN (rc_LastDeployed i) /\ rx_curHash x = br_DocumentHash (rc_LastDeployed i);
  rm_kind : removal_kind i x r;
  rm_elig : elig <> EligibilityIneligible;
  rm_core : core_of p = removed_core i elig r;
  rm_direct : rc_Delivery i = DeliveryDirect -> forall op, op ∈ rv_Ops r -> foreign_op op = false }.

(** The recorded baseline has both its parts or neither. *)
Lemma check_remove_baseline i p : CompileRemoveControl i = Ok p -> is_Some (bl_BoundaryARN (rc_Baseline i)) ->
  exists h, bl_DocumentHash (rc_Baseline i) = Some h.
Proof.
  unfold CompileRemoveControl. intros (u & H & _)%bind_Ok [b Hb]. unfold check_remove in H.
  apply bind_Ok in H as (_ & _ & H). destruct (negb (bool_decide _)); [done|]. apply bind_Ok in H as (_ & _ & H).
  rewrite Hb in H. destruct (bl_DocumentHash (rc_Baseline i)) as [h|]; [by exists h|done].
Qed.

Lemma otherUsers_sorted l id : otherUsers (sort_slice (less_by entity_keys) l) id = otherUsers l id.
Proof. unfold otherUsers. apply sort_slice_unique; [apply _|]. apply filter_perm. by rewrite sort_slice_perm. Qed.

Lemma ArtifactState_inv live r st cur h :
  ArtifactState live = Ok st -> Role live = Some r -> as_BoundaryARN st = Some cur -> as_BoundaryDocumentHash st = Some h ->
  lr_BoundaryARN r = cur /\ cur <> "" /\ exists pol, Policies live !! cur = Some (Some pol) /\ policy_DocumentHash pol = Ok h /\
    forall id, otherUsers (as_AttachmentSet st) id = otherUsers (lp_AttachmentSet pol) id.
Proof.
  unfold ArtifactState. intros H Hr. rewrite Hr in H. cbv zeta in H.
  destruct (is_empty (lr_BoundaryARN r)) eqn:Ee; [by injection H as <-|].
  apply bind_Ok in H as (pol & Hp & H). destruct pol as [pol|]; [|done]. apply bind_Ok in H as (h' & Hh & [= <-]).
  intros [= <-] [= ->]. apply live_policy_read in Hp. split; [done|]. split; [intros E; by rewrite E in Ee|].
  exists pol. split_and!; [done|done|]. intros id. apply otherUsers_sorted.
Qed.

Lemma ArtifactState_hash live st cur :
  ArtifactState live = Ok st -> as_BoundaryARN st = Some cur -> exists h, as_BoundaryDocumentHash st = Some h.
Proof.
  unfold ArtifactState. destruct (Role live) as [r|]; [|done]. cbv zeta. destruct (is_empty _); [by intros [= <-]|].
  intros (pol & _ & H)%bind_Ok. destruct pol as [pol|]; [|done]. apply bind_Ok in H as (h & _ & [= <-]). intros _. by exists h.
Qed.

(** From the case's plan to the sealed one. *)
Lemma finish_case i x after p0 p rs r q :
  fresh_plan p0 -> pl_Kind p0 = PlanRemoveControl -> pl_Delivery p0 = rc_Delivery i ->
  pl_ResourcePolicyScanRunID p0 = Some (er_ScanRunID (rc_Evidence i)) -> pl_IneligibleReason p0 = "" ->
  pl_Eligibility p0 = EligibilityEligible -> core_of p = removal_core p0 EligibilityEligible r rs ->
  remove_finish i x after p = Ok q ->
  refused_plan q \/
  exists elig, elig <> EligibilityIneligible /\ pl_Refusals p0 = [] /\ rs = [] /\ core_of q = removed_core i elig r /\
    (rc_Delivery i = DeliveryDirect -> forall op, op ∈ rv_Ops r -> foreign_op op = false).
Proof.
  intros (H1 & H2 & H3 & H4) Hk Hd Hs Hr He Hp Hf. pose proof (core_inv _ _ Hp) as (_ & Hdel & Hel & _ & _ & _ & _ & _ & _ & _ & Hops & _ & Href & _).
  cbn in Hdel, Hel, Hops, Href. apply finish_core in Hf as [Hf|(elig & Hne & Hn & Hq & Hdir)]; [by left| |done].
  right. exists elig. rewrite Href in Hn. apply app_nil in Hn as [Hn ->]. rewrite Hdel, Hd, Hops in Hdir.
  split_and!; try done. rewrite Hq.
  assert (core_of (set_Eligibility elig p) = removal_core p0 elig r []) as ->.
  { destruct p; unfold core_of, removal_core in *; cbn in *. injection Hp; intros; subst; reflexivity. }
  unfold removal_core, settle_core, removed_core. cbn. rewrite Hn, Hk, Hd, H2, Hs, Hr. reflexivity.
Qed.

Lemma remove_inv i p : CompileRemoveControl i = Ok p -> refused_plan p \/ exists x elig r, removes i p x elig r.
Proof.
  intros H. unfold CompileRemoveControl in H. cbv zeta in H. apply bind_Ok in H as (_ & _ & H).
  destruct (checkIncarnation (rc_Live i) (ct_RoleID (rc_Control i))) as [|rf rs] eqn:Ei.
  2:{ left. apply bind_Ok in H as (p0 & (pc & h & ->)%statePrecondition_eq & H). by eapply seal_refused_plan. }
  apply checkIncarnation_inv in Ei as (role & Hrole & Hid). rewrite Hrole in H.
  apply bind_Ok in H as (st & Hst & H). destruct (as_BoundaryARN st) as [cur|] eqn:Ea; [|done].
  destruct (as_BoundaryDocumentHash st) as [h|] eqn:Eh; [|done].
  destruct (ArtifactState_inv _ _ _ _ _ Hst Hrole Ea Eh) as (Hb & Hne & pol & Hl & Hh & Ho).
  apply bind_Ok in H as (p0 & (pc & ph & ->)%statePrecondition_eq & H). apply bind_Ok in H as (pol' & Hl' & H).
  apply live_policy_read in Hl'. assert (pol' = Some pol) as -> by congruence.
  apply bind_Ok in H as ([txt p1] & Ht & H). apply bind_Ok in Ht as ([txt' h'] & _ & [= <- <-]). cbv beta iota in H.
  set (last := rc_LastDeployed i) in *. revert H. plan_eqs. intros H.
  match type of H with context [refuse ?rs ?p] => set (rsl := rs) in H; set (p1 := refuse rsl p) in H end.
  set (x := Build_removeCtx role cur h pol (otherUsers (as_AttachmentSet st) (lr_RoleID role)) (control_ownerValue (rc_Control i))) in H.
  assert (fresh_plan p1) as Hfr by done.
  assert (pl_Refusals p1 = [] -> cur = br_ARN last /\ h = br_DocumentHash last) as Hlast.
  { unfold p1, rsl. cbn. destruct (_ || _) eqn:E; [done|]. intros _. apply orb_false_iff in E as [E1 E2].
    by apply negb_false_iff, String.eqb_eq in E1, E2. }
  assert (forall r elig, removal_kind i x r -> elig <> EligibilityIneligible -> pl_Refusals p1 = [] -> core_of p = removed_core i elig r ->
    (rc_Delivery i = DeliveryDirect -> forall op, op ∈ rv_Ops r -> foreign_op op = false) -> removes i p x elig r) as Hmk.
  { intros r elig Hk Hel Hn Hc Hd. split; try done; cbn; [by apply Ho|by apply Hlast]. }
  destruct (bl_BoundaryARN (rc_Baseline i)) as [b|] eqn:Eb; [destruct (String.eqb_spec b cur) as [->|Hbc]|].
  - apply bind_Ok in H as (p2 & Hp2 & H). apply in_place_core in Hp2 as (bh & rs & Hd & Hbh & Hc & Hrs); [|done|done].
    destruct (finish_case i x _ p1 p2 rs _ p Hfr eq_refl eq_refl eq_refl eq_refl eq_refl Hc H)
      as [Hp|(elig & Hel & Hn & -> & Hq & Hdir)]; [by left|].
    right. exists x, elig, (in_place i x bh). apply Hmk; try done. apply vk_in_place; try done. by apply Hrs.
  - apply bind_Ok in H as ([p2 after] & Hp2 & H). cbv beta iota in H. apply repoint_core in Hp2 as [[Hr He]|(bp & bh & Hbp & Hbh & Hc)]; [| |done].
    + left. by apply finish_core in H as [H|(elig & _ & Hn & _)].
    + destruct (finish_case i x _ p1 _ [] _ p Hfr eq_refl eq_refl eq_refl eq_refl eq_refl Hc H)
      as [Hp|(elig & Hel & Hn & _ & Hq & Hdir)]; [by left|].
      right. exists x, elig. eexists. apply Hmk; try done. by apply (vk_repoint i x b bp bh).
  - pose proof (detach_core x p1 Hfr eq_refl eq_refl) as Hc.
    destruct (finish_case i x _ p1 _ [] _ p Hfr eq_refl eq_refl eq_refl eq_refl eq_refl Hc H)
      as [Hp|(elig & Hel & Hn & _ & Hq & Hdir)]; [by left|].
    right. exists x, elig, (detach x). apply Hmk; try done. by apply vk_detach.
Qed.

(** * Facts of a removal *)

(** The keys of two policies. *)
Lemma two_policy_keys_NoDup a b :
  a <> b ->
  NoDup [FactRole; FactRoleBoundary; factKey FactPolicyDocument a; factKey FactPolicyUsers a; factKey FactPolicyDocument b;
         factKey FactPolicyUsers b; factKey FactPolicyOwner b].
Proof.
  intros Hne. pose proof (factKey_inj FactPolicyDocument a b) as Hd. pose proof (factKey_inj FactPolicyUsers a b) as Hu.
  assert (factKey FactPolicyDocument a <> factKey FactPolicyDocument b) as Hd' by auto.
  assert (factKey FactPolicyUsers a <> factKey FactPolicyUsers b) as Hu' by auto. clear Hd Hu. revert Hd' Hu'.
  unfold factKey. destruct (is_empty a), (is_empty b); intros; keys_nodup.
Qed.

Lemma one_policy_keys_NoDup arn :
  NoDup [FactRole; FactRoleBoundary; factKey FactPolicyDocument arn; factKey FactPolicyUsers arn; factKey FactPolicyOwner arn].
Proof. unfold factKey. destruct (is_empty arn); keys_nodup. Qed.

(** The owner fact is the last one, when it is there. *)
Lemma owner_keys_NoDup x keys before after :
  NoDup (keys ++ [factKey FactPolicyOwner (rx_cur x)]) -> NoDup (keys ++ (fa_Key <$> curOwnerFacts x before after)).
Proof. unfold curOwnerFacts. destruct (isAuthSecPath _); [done|]. intros [? _]%NoDup_app. cbn. by rewrite app_nil_r. Qed.

Lemma removal_facts_ok i x r : removal_kind i x r -> facts_ok (rv_Facts r).
Proof.
  intros H. split.
  - destruct H as [Hb|bh Hb Hd Hh Ho|b bp bh Hb Hne Hp Hh]; unfold detach, in_place, repoint, cur_facts; cbn [rv_Facts].
    + apply (owner_keys_NoDup x [_; _; _; _]), one_policy_keys_NoDup.
    + apply (owner_keys_NoDup x [_; _; _; _]), one_policy_keys_NoDup.
    + apply (owner_keys_NoDup x [_; _; _; _; _; _]). by apply two_policy_keys_NoDup.
  - assert (forall f, f ∈ rv_Facts r -> fa_OnlyBefore f = false) as Hn; [|intros f Hf; by rewrite (Hn f Hf)].
    destruct H as [Hb|bh Hb Hd Hh Ho|b bp bh Hb Hne Hp Hh]; unfold detach, in_place, repoint, cur_facts, curOwnerFacts;
      cbn [rv_Facts]; destruct (isAuthSecPath _); intros f Hf; each_fact Hf.
Qed.

Lemma removal_covers i x r : removal_kind i x r -> covers (rv_Ops r) (rv_Facts r).
Proof.
  destruct 1 as [Hb|bh Hb Hd Hh Ho|b bp bh Hb Hne Hp Hh];
    unfold detach, in_place, repoint, cur_facts, cur_ops, curOwnerFacts; cbn [rv_Facts rv_Ops].
  - destruct (cur_gone x), (isAuthSecPath _); intros f Hf; each_fact Hf; intros Hc;
      first [by apply unchanged in Hc|cbn; set_solver].
  - destruct (String.eqb_spec bh (rx_curHash x)) as [->|Hne], (isAuthSecPath _); try destruct (_ <=? _);
      intros f Hf; each_fact Hf; intros Hc; first [by apply unchanged in Hc|cbn; set_solver].
  - destruct (cur_gone x), (isAuthSecPath _); intros f Hf; each_fact Hf; intros Hc;
      first [by apply unchanged in Hc|cbn; set_solver].
Qed.

(** The before values are what the live read shows, when AuthSec's boundary still carries the control's tags. *)
Lemma removal_observed i p x elig r f v :
  removes i p x elig r -> (isAuthSecPath (rx_cur x) = true -> ownerValue (lp_Tags (rx_curPol x)) = rx_owner x) -> f ∈ rv_Facts r ->
  observe_fact (lr_RoleID (rx_role x)) (rc_Live i) f = Ok v -> v = fa_Before f.
Proof.
  intros [Hr Hid Hb Hne Hl Hh Ho Hown _ Hk _ _ _] Howner Hf. unfold observe_fact. rewrite Hr.
  assert (is_empty (lr_BoundaryARN (rx_role x)) = false) as He.
  { rewrite Hb. destruct (is_empty (rx_cur x)) eqn:E; [by apply is_empty_true in E|done]. }
  destruct Hk as [_|bh _ _ _ _|b bp bh _ Hbc Hbp Hbh]; revert Hf; unfold detach, in_place, repoint, cur_facts, curOwnerFacts;
    cbn [rv_Facts]; destruct (isAuthSecPath (rx_cur x)); intros Hf; each_fact Hf; cbn;
    rewrite ?Hl, ?Hbp, ?Hh, ?Hbh, ?He, <- ?Ho, ?Howner by done; by intros [= <-].
Qed.

Lemma removal_role_fact i x r :
  removal_kind i x r -> List.filter (fun f => (fa_Kind f =? FactRole)%string) (rv_Facts r) = [factRole (lr_RoleID (rx_role x))].
Proof.
  destruct 1; unfold detach, in_place, repoint, cur_facts, curOwnerFacts; cbn [rv_Facts]; by destruct (isAuthSecPath _).
Qed.

Lemma removal_shows i p x elig r obs :
  removes i p x elig r -> (isAuthSecPath (rx_cur x) = true -> ownerValue (lp_Tags (rx_curPol x)) = rx_owner x) ->
  ObserveFacts (pl_Facts p) (rc_Live i) = Ok obs -> shows (pl_Facts p) obs ∅.
Proof.
  intros H Howner Ho. pose proof (rm_kind _ _ _ _ _ H) as Hk.
  pose proof (core_inv _ _ (rm_core _ _ _ _ _ H)) as (_ & _ & _ & _ & _ & _ & _ & _ & _ & _ & _ & Hfs & _). cbn in Hfs.
  assert (pl_Facts p ≡ₚ rv_Facts r) as Hperm by (rewrite Hfs; apply sort_slice_perm).
  unfold ObserveFacts in Ho. rewrite (fact_roleID_perm _ _ (lr_RoleID (rx_role x)) Hperm) in Ho by by eapply removal_role_fact.
  apply observe_all_get in Ho as [_ Ho]; [|rewrite Hperm; by apply (removal_facts_ok _ _ _ Hk)].
  intros f Hf. destruct (Ho f Hf) as (v & Hv & ->). rewrite value_in_empty. f_equal. rewrite Hperm in Hf.
  by apply (removal_observed i p x elig r f v).
Qed.

Lemma removal_executable i p x elig r : removes i p x elig r -> rc_Delivery i = DeliveryDirect -> executable p.
Proof.
  intros H Hd. pose proof (rm_kind _ _ _ _ _ H) as Hk.
  pose proof (core_inv _ _ (rm_core _ _ _ _ _ H)) as (_ & Hdel & _ & _ & _ & _ & _ & _ & _ & _ & Hops & Hfs & _). cbn in Hdel, Hops, Hfs.
  assert (rv_Facts r ≡ₚ pl_Facts p) as Hperm by (rewrite Hfs; symmetry; apply sort_slice_perm).
  split; [split; [congruence|]|rewrite Hops].
  - eapply facts_ok_perm; [exact Hperm|by eapply removal_facts_ok].
  - eapply covers_perm; [exact Hperm|by eapply removal_covers].
Qed.

#[local] Arguments factKey : simpl never.

Lemma removal_delivers i x r : removal_kind i x r -> delivers (rv_Ops r) (rv_Facts r).
Proof.
  destruct 1 as [_|bh _ _ _ E|b bp bh _ Hne _ _]; unfold detach, in_place, repoint, cur_ops, cur_facts, curOwnerFacts; cbn [rv_Ops rv_Facts].
  - destruct (cur_gone x), (isAuthSecPath _); each_delivery.
  - destruct (String.eqb_spec bh (rx_curHash x)) as [->|Hne], (isAuthSecPath _); try destruct (_ <=? _); each_delivery.
  - destruct (cur_gone x), (isAuthSecPath _); each_delivery.
Qed.

(** Writes of a removal. *)
Lemma removal_writes i p x elig r : removes i p x elig r -> writes_own (rc_Live i) (lr_RoleID (rx_role x)) (rv_Ops r).
Proof.
  intros [Hr Hid Hb Hne Hl Hh Ho Hown _ Hk _ _ _]. unfold writes_own.
  pose proof put_boundary_writes as Hpb. pose proof delete_boundary_writes as Hdb.
  assert (rx_others x = [] -> forall op, op_PolicyARN op = rx_cur x ->
    unshared (rc_Live i) (lr_RoleID (rx_role x)) (op_PolicyARN op) \/ ~ writes op) as Hw.
  { intros E op ->. left. intros pol. rewrite Hl. congruence. }
  destruct Hk as [_|bh _ _ _ E|b bp bh _ _ _ _]; unfold detach, in_place, repoint, cur_ops, cur_gone; cbn [rv_Ops].
  - destruct (rx_others x) eqn:E; each_op.
  - destruct (bh =? _)%string; [each_op|]. destruct (isAuthSecPath _); try destruct (_ <=? _); each_op.
  - destruct (rx_others x) eqn:E; each_op.
Qed.

(** * Theorems *)

(** What a role has under a plan's desired state. *)
Definition desired_boundary (p : Plan) : string := default ValueNone (pl_DesiredBoundaryARN p).

(** C22. Removing a control puts the baseline back. An eligible plan was compiled for the control's own role while its
    boundary was exactly what AuthSec last deployed; its desired boundary is the baseline's (none when there was
    none), a document restored in place is the recorded baseline; every operation that writes a policy names one
    nobody else uses and leaves the values the plan's facts expect, and direct delivery names AuthSec's policies only. A plan that is not eligible has no operations. *)
Theorem remove_restores_baseline i p :
  CompileRemoveControl i = Ok p ->
  if Eligible p then
    exists role, Role (rc_Live i) = Some role /\ lr_RoleID role = ct_RoleID (rc_Control i) /\
      lr_BoundaryARN role = br_ARN (rc_LastDeployed i) /\
      (exists pol, Policies (rc_Live i) !! lr_BoundaryARN role = Some (Some pol) /\
         policy_DocumentHash pol = Ok (br_DocumentHash (rc_LastDeployed i))) /\
      pl_DesiredBoundaryARN p = bl_BoundaryARN (rc_Baseline i) /\
      (bl_BoundaryARN (rc_Baseline i) = Some (lr_BoundaryARN role) ->
         pl_DesiredDocumentHash p = bl_DocumentHash (rc_Baseline i) /\
         forall h, bl_DocumentHash (rc_Baseline i) = Some h -> DocumentHash (bl_Document (rc_Baseline i)) = Ok h) /\
      forall op, op ∈ pl_Ops p ->
        (writes op -> unshared (rc_Live i) (lr_RoleID role) (op_PolicyARN op)) /\
        (rc_Delivery i = DeliveryDirect -> op_PolicyARN op = "" \/ isAuthSecPath (op_PolicyARN op) = true) /\
        (forall f, f ∈ pl_Facts p -> fa_Key f ∈ opEffects op -> fa_After f = delivered op (fa_Kind f))
  else pl_Ops p = [] /\ pl_Refusals p <> [].
Proof.
  intros Hc. pose proof Hc as [(He & Ho & Hr)|(x & elig & r & H)]%remove_inv.
  { unfold Eligible. by rewrite He. }
  pose proof (core_inv _ _ (rm_core _ _ _ _ _ H)) as (_ & _ & Hel & _ & Harn & Hh & _ & _ & _ & _ & Hops & Hfs & _).
  cbn in Hel, Harn, Hh, Hops, Hfs. unfold Eligible. rewrite Hel, (proj2 (String.eqb_neq _ _) (rm_elig _ _ _ _ _ H)). cbn [negb].
  exists (rx_role x). rewrite Harn, Hh, Hops, (rm_boundary _ _ _ _ _ H). pose proof (rm_kind _ _ _ _ _ H) as Hk.
  destruct (rm_last _ _ _ _ _ H) as [_ <-]. split_and!; [apply H..| | | |].
  - exists (rx_curPol x). split; apply H.
  - by destruct Hk as [->|bh -> _ _ _|b bp bh -> _ _ _].
  - destruct Hk as [->|bh Eb Hd Hbh _|b bp bh -> Hne _ _]; [done| |congruence]. intros _. cbn.
    destruct (check_remove_baseline _ _ Hc) as [h Hb]; [by rewrite Eb|]. rewrite Hb in *. cbn in Hbh. subst h. split; [done|congruence].
  - intros op Hop. split_and!.
    + intros Hw. pose proof (removal_writes _ _ _ _ _ H) as Hf. unfold writes_own in Hf. rewrite Forall_forall in Hf.
      by destruct (Hf _ Hop).
    + intros Hd. pose proof (rm_direct _ _ _ _ _ H Hd op Hop) as Hf. unfold foreign_op in Hf.
      destruct (is_empty (op_PolicyARN op)) eqn:E; [left; by apply is_empty_true|]. right. by apply negb_false_iff.
    + intros f Hf. rewrite Hfs in Hf. apply elem_of_sort_slice in Hf. by apply (removal_delivers _ _ _ Hk).
Qed.

(** C24. A direct removal can always be finished: from the state its live read shows, provided AuthSec's boundary still
    carries the control's tags, the plan can run to its end, and however it was interrupted and resumed the role then
    has the plan's desired boundary, every fact is at its after value and the plan is classified [after]. *)
Theorem direct_removal_completes i p role pol obs0 :
  CompileRemoveControl i = Ok p -> Eligible p = true -> rc_Delivery i = DeliveryDirect ->
  Role (rc_Live i) = Some role -> Policies (rc_Live i) !! lr_BoundaryARN role = Some (Some pol) ->
  (isAuthSecPath (lr_BoundaryARN role) = true -> ownerValue (lp_Tags pol) = control_ownerValue (rc_Control i)) ->
  ObserveFacts (pl_Facts p) (rc_Live i) = Ok obs0 ->
  (exists obs1, runs p obs0 obs1) /\
  forall obs1, runs p obs0 obs1 ->
    obs1 !! FactRoleBoundary = Some (desired_boundary p) /\
    (forall f, f ∈ pl_Facts p -> obs1 !! fa_Key f = Some (fa_After f)) /\
    cl_Class (classifyObserved p (pl_Facts p) obs1) = ClassAfter.
Proof.
  intros [(He & _)|(x & elig & r & H)]%remove_inv Hel Hd Hr Hpol Hown Ho.
  { unfold Eligible in Hel. by rewrite He in Hel. }
  pose proof H as [Hrx _ Hb _ Hl _ _ Hox _ Hk _ Hcore _]. assert (rx_role x = role) as <- by congruence.
  rewrite Hb in *. assert (rx_curPol x = pol) as <- by congruence. rewrite <- Hox in Hown.
  pose proof (removal_executable _ _ _ _ _ H Hd) as Hx. pose proof (removal_shows _ _ _ _ _ _ H Hown Ho) as Hs.
  split; [by apply runs_exists|]. intros obs1 Hrun. pose proof (runs_after _ _ _ Hx Hs Hrun) as Hafter.
  split; [|split; [done|apply class_after; [apply Hx|done|apply Hx]]].
  apply core_inv in Hcore as (_ & _ & _ & _ & Harn & _ & _ & _ & _ & _ & _ & Hfs & _). cbn in Harn, Hfs.
  unfold desired_boundary. rewrite Harn.
  assert (exists f, f ∈ rv_Facts r /\ fa_Key f = FactRoleBoundary /\ fa_After f = default ValueNone (rv_ARN r)) as (f & Hf & <- & <-).
  { destruct Hk; eexists; (split; [right; left|done]). }
  apply Hafter. rewrite Hfs. by apply elem_of_sort_slice.
Qed.

(** * A control whose role had no boundary before *)

Definition sample_removal : RemoveControlInput :=
  {| rc_Control := sample_control; rc_Baseline := {| bl_BoundaryARN := None; bl_DocumentHash := None; bl_Document := "" |};
     rc_LastDeployed := {| br_ARN := sample_boundary;
                           br_DocumentHash := match policy_DocumentHash sample_boundary_policy with Ok h => h | Err _ => "" end |};
     rc_Delivery := DeliveryDirect; rc_Live := sample_target_live; rc_Evidence := ti_Evidence sample_target;
     rc_ExcludedServices := ["s3"] |}.

Definition removes_with (n : nat) (i : RemoveControlInput) : bool :=
  match CompileRemoveControl i with
  | Ok p => Eligible p && (length (pl_Ops p) =? n)%nat &&
            match ObserveFacts (pl_Facts p) (rc_Live i) with Ok _ => true | Err _ => false end
  | Err _ => false
  end.

Lemma removes_with_spec n i :
  removes_with n i = true ->
  exists p obs, CompileRemoveControl i = Ok p /\ Eligible p = true /\ ObserveFacts (pl_Facts p) (rc_Live i) = Ok obs /\
    length (pl_Ops p) = n.
Proof.
  unfold removes_with. destruct (CompileRemoveControl i) as [p|]; [|done]. intros [[He Hl%Nat.eqb_eq]%andb_true_iff Ho]%andb_true_iff.
  destruct (ObserveFacts _ _) as [obs|] eqn:E; [|done]. by exists p, obs.
Qed.

Lemma sample_removes : removes_with 3 sample_removal = true.
Proof. vm_compute. reflexivity. Qed.

Lemma remove_restores_baseline_witness :
  exists p, CompileRemoveControl sample_removal = Ok p /\ Eligible p = true /\ length (pl_Ops p) = 3%nat /\
    pl_DesiredBoundaryARN p = None.
Proof.
  destruct (removes_with_spec _ _ sample_removes) as (p & obs & Hc & He & _ & Hl). exists p.
  split; [exact Hc|]. split; [exact He|]. split; [exact Hl|].
  pose proof (remove_restores_baseline sample_removal p Hc) as H. rewrite He in H.
  destruct H as (role & _ & _ & _ & _ & H & _). exact H.
Defined.

Lemma direct_removal_completes_witness :
  exists p obs0 obs1, CompileRemoveControl sample_removal = Ok p /\ runs p obs0 obs1 /\
    obs1 !! FactRoleBoundary = Some (desired_boundary p).
Proof.
  destruct (removes_with_spec _ _ sample_removes) as (p & obs0 & Hc & He & Ho & _).
  assert (exists role, Role sample_target_live = Some role /\ lr_BoundaryARN role = sample_boundary) as (role & Hr & Hb)
    by (eexists; split; reflexivity).
  destruct (direct_removal_completes sample_removal p role sample_boundary_policy obs0 Hc He eq_refl Hr) as [[obs1 H1] H].
  - rewrite Hb. vm_compute. reflexivity.
  - intros _. vm_compute. reflexivity.
  - exact Ho.
  - exists p, obs0, obs1. split; [exact Hc|]. split; [exact H1|]. apply (H obs1 H1).
Defined.
