(* ===== verification/Split.v ===== *)
(** The compiler of dedicated identities (internal/igagov/split.go): a [split]
    plan that moves a workload to a role of its own with the source role's
    policies, and the [split_revert] plan that moves it back. Both are delivered
    as a pull request or an export only. *)

From stdpp Require Import base list strings gmap sorting.
From Stdlib Require Import Ascii.
From S2P Require Import Prelude Slices Qualify Float64 Utf8 Json JsonCanon Marshal Sha256 PolicyDoc Catalog Text Routes Hashes PolicyCanon TimeFmt Live Boundary Narrow Intent Bundle FirstAttach Plan Recover PlanSet Compile.

#[local] Open Scope plan_scope.

(** * Vocabulary *)

Definition OpAttachRolePolicy : string := "AttachRolePolicy".
Definition OpPutRolePolicy : string := "PutRolePolicy".
Definition OpAddResourcePolicyPrincipal : string := "AddResourcePolicyPrincipal".
Definition OpRemoveResourcePolicyPrincipal : string := "RemoveResourcePolicyPrincipal".
Definition OpAddTrustPolicyPrincipal : string := "AddTrustPolicyPrincipal".
Definition OpRemoveTrustPolicyPrincipal : string := "RemoveTrustPolicyPrincipal".
Definition domainSplitPrecondition : string := "authsec.igagov.precondition.split.v1".
Definition domainSplitRevertPrecondition : string := "authsec.igagov.precondition.split_revert.v1".
Definition RefuseMigrationEvidence : string := "migration_evidence_unavailable".
Definition RefuseSubjectBindingMismatch : string := "subject_binding_mismatch".
Definition RefuseNewRoleNameInUse : string := "new_role_name_in_use".
Definition RefuseNewRoleNotBaselinePreserve : string := "new_role_not_baseline_preserving".
Definition RefuseSplitDirect : string := "split_requires_iac".
Definition SubjectECSService : string := "ecs_service".
Definition SubjectLambdaFunction : string := "lambda_function".
Definition SubjectEC2ASG : string := "ec2_auto_scaling_group".
Definition SubjectEC2Instance : string := "ec2_instance".
Definition HandlingPR : string := "pr_adds_new_role".
Definition HandlingOwnerConfirm : string := "owner_confirmation".
Definition HandlingEffectUnknown : string := "effect_unknown".
Definition CompatResourcePolicy : string := "resource_policy".
Definition CompatTrustPolicy : string := "trust_policy".
Definition CompatPrincipalCondKey : string := "principal_condition".
Definition CaseSplitIsolate : string := "split_isolate".
Definition CaseSplitRevert : string := "split_revert".

(** * Inputs *)

(** [MappedResources] is the set of ARNs mapped to true. *)
(* src: internal/igagov/split.go:91-121 (SplitInput) *)
Record SplitInput := {
  si_Control : ControlRef;
  si_Intent : DedicatedIdentityIntent;
  si_Live : LiveRead;
  si_Evidence : EvidenceRef;
  si_SubjectKind : string;
  si_SubjectARN : string;
  si_SubjectARNs : list string;
  si_FromWorkloadKeys : list string;
  si_TaskFamily : string;
  si_Aliases : list string;
  si_UnaliasedVersions : list string;
  si_ScanEvidence : option ResourcePolicyEvidence;
  si_AccountServices : option (list string);
  si_TrustReferences : list string;
  si_MappedResources : gset string;
  si_MigrationEvidenceAvailable : bool }.

(* src: internal/igagov/split.go:125-128 (SplitPlans) *)
Record SplitPlans := { sp_Split : Plan; sp_Revert : option Plan }.

(* src: internal/igagov/split.go:149-159 (bindingSubjectOK) *)
Definition bindingSubjectOK (binding subject : string) : bool :=
  if (binding =? BindingECSTaskRole)%string then (subject =? SubjectECSService)%string
  else if (binding =? BindingLambdaRole)%string then (subject =? SubjectLambdaFunction)%string
  else if (binding =? BindingEC2InstanceProfile)%string then
    (subject =? SubjectEC2ASG)%string || (subject =? SubjectEC2Instance)%string
  else false.

(* src: internal/igagov/split.go:162-184 (bindSteps) *)
Definition bindSteps (subject : string) (aliases : list string) (toSource : bool) : list string :=
  if (subject =? SubjectECSService)%string then ["RegisterTaskDefinition:taskRoleArn"; "UpdateService"]
  else if (subject =? SubjectLambdaFunction)%string then
    ["UpdateFunctionConfiguration:Role"; "PublishVersion"] ++ map (fun a => "UpdateAlias:" +:+ a) (sortedUnique aliases)
  else if (subject =? SubjectEC2ASG)%string then
    if toSource then ["CreateLaunchTemplateVersion:source_profile"; "StartInstanceRefresh"]
    else ["CreateInstanceProfile"; "AddRoleToInstanceProfile"; "CreateLaunchTemplateVersion"; "StartInstanceRefresh"]
  else if (subject =? SubjectEC2Instance)%string then
    if toSource then ["ReplaceIamInstanceProfileAssociation:source_profile"]
    else ["CreateInstanceProfile"; "AddRoleToInstanceProfile"; "ReplaceIamInstanceProfileAssociation"]
  else [].

(** * References to the source role *)

(** The items one statement of an observed policy gives, in order. *)
(* src: internal/igagov/split.go:216-228 (compatibilityItems, statement) *)
Definition statement_items (role : RoleRef) (handling : string -> string) (ob : ResourcePolicyObservation) (st : Statement)
    : list CompatibilityItem :=
  match st_Principal st with
  | Some pr =>
      flat_map (fun v =>
        let k := classifyAWSPrincipal v role in
        if (k =? PrincipalRoleARN)%string || (k =? PrincipalRoleSession)%string
        then [{| ci_Kind := CompatResourcePolicy; ci_Resource := ob_ResourceARN ob; ci_Form := ob_Form ob; ci_Principal := k;
                 ci_Handling := handling (ob_ResourceARN ob) |}]
        else []) (default [] (Values pr !! "AWS"))
  | None => []
  end ++
  flat_map (fun c =>
    let key := ToLower (Key c) in
    if (key =? "aws:principalarn")%string || (key =? "aws:userid")%string
    then [{| ci_Kind := CompatPrincipalCondKey; ci_Resource := ob_ResourceARN ob; ci_Form := ob_Form ob; ci_Principal := "";
             ci_Handling := HandlingEffectUnknown |}]
    else []) (st_Conditions st).

(* src: internal/igagov/split.go:211-231 (compatibilityItems, observations) *)
Definition observation_items (role : RoleRef) (handling : string -> string) (ob : ResourcePolicyObservation)
    : list CompatibilityItem :=
  match ob_PolicyPresent ob, ob_Document ob with
  | true, Some doc => flat_map (statement_items role handling ob) (doc_Statements doc)
  | _, _ => []
  end.

Definition item_seen_key (it : CompatibilityItem) : string :=
  ci_Kind it +:+ String unitSep "" +:+ ci_Resource it +:+ String unitSep "" +:+ ci_Principal it.

(** [add]: the first item of a key is kept. *)
Fixpoint add_items (seen : list string) (its : list CompatibilityItem) : list CompatibilityItem :=
  match its with
  | [] => []
  | it :: its =>
      if bool_decide (item_seen_key it ∈ seen) then add_items seen its else it :: add_items (item_seen_key it :: seen) its
  end.

Definition item_keys (it : CompatibilityItem) : list string := [ci_Resource it; ci_Kind it; ci_Principal it].

(* src: internal/igagov/split.go:193-248 (compatibilityItems) *)
Definition compatibilityItems (role : RoleRef) (ev : option ResourcePolicyEvidence) (trustRefs : list string) (mapped : gset string)
    : list CompatibilityItem :=
  let handling resource := if bool_decide (resource ∈ mapped) then HandlingPR else HandlingOwnerConfirm in
  let found := match ev with Some ev => flat_map (observation_items role handling) (Observations ev) | None => [] end in
  let trust := map (fun r => {| ci_Kind := CompatTrustPolicy; ci_Resource := r; ci_Form := ""; ci_Principal := "";
                                ci_Handling := handling r |}) (sortedUnique trustRefs) in
  sort_slice (less_by item_keys) (add_items [] (found ++ trust)).

(** * Operations *)

Definition iac_op (op roleARN policyARN path doc : string) (tags : gmap string string)
    (subject trust resource principal inline : string) (onlyIfUnused : bool) (binding : string) (steps : list string) : Op :=
  {| op_Op := op; op_RoleName := ""; op_RoleARN := roleARN; op_PolicyARN := policyARN; op_PolicyName := ""; op_Path := path;
     op_DocumentHash := doc; op_SetAsDefault := false; op_Tags := tags; op_Select := ""; op_IfVersionsAtLeast := 0;
     op_SubjectARN := subject; op_TrustPolicyHash := trust; op_ResourceARN := resource; op_Principal := principal;
     op_InlineName := inline; op_InstanceProfile := ""; op_OnlyIfUnused := onlyIfUnused; op_Binding := binding;
     op_Steps := steps |}.
Definition create_role (role path trust : string) (tags : gmap string string) : Op :=
  iac_op OpCreateRole role "" path "" tags "" trust "" "" "" false "" [].
Definition attach_policy (role policy : string) : Op := iac_op OpAttachRolePolicy role policy "" "" ∅ "" "" "" "" "" false "" [].
Definition put_inline (role name doc : string) : Op := iac_op OpPutRolePolicy role "" "" doc ∅ "" "" "" "" name false "" [].
Definition role_boundary (role policy : string) : Op :=
  iac_op OpPutRolePermissionsBoundary role policy "" "" ∅ "" "" "" "" "" false "" [].
Definition resource_principal (op resource principal : string) : Op :=
  iac_op op "" "" "" "" ∅ "" "" resource principal "" false "" [].
Definition trust_principal (op role principal : string) : Op := iac_op op role "" "" "" ∅ "" "" "" principal "" false "" [].
Definition bind_subject (subject role binding : string) (steps : list string) : Op :=
  iac_op OpBindSubject role "" "" "" ∅ subject "" "" "" "" false binding steps.
Definition delete_role (role : string) (steps : list string) : Op :=
  iac_op OpDeleteRole role "" "" "" ∅ "" "" "" "" "" true "" steps.

(** The operations of an item the pull request handles, and their inverses. *)
(* src: internal/igagov/split.go:414-426 (CompileSplit, compatibility operations) *)
Definition compat_op (res trust : string) (newARN : string) (it : CompatibilityItem) : list Op :=
  if negb (ci_Handling it =? HandlingPR)%string then []
  else if (ci_Kind it =? CompatResourcePolicy)%string then [resource_principal res (ci_Resource it) newARN]
  else if (ci_Kind it =? CompatTrustPolicy)%string then [trust_principal trust (ci_Resource it) newARN]
  else [].

(** * Compilation *)

(** What both plans are made from. *)
Record splitCtx := {
  sx_in : SplitInput;
  sx_src : LiveRole;
  sx_newARN : string;
  sx_newHash : string;
  sx_subjects : list string;
  sx_multi : list string;
  sx_inline : list PolicyRef;
  sx_compat : list CompatibilityItem;
  sx_st : ArtifactStateFacts }.

Definition subject_val (kind arn role : string) : goval :=
  GStruct [("kind", GString kind); ("arn", GString arn); ("role_arn", GString role)].
Definition subjects_val (x : splitCtx) (role : string) : list (string * goval) :=
  let kind := si_SubjectKind (sx_in x) in
  ("subject", subject_val kind (si_SubjectARN (sx_in x)) role) ::
  match sx_multi x with [] => [] | l => [("subjects", GSlice (map (fun a => subject_val kind a role) l))] end.

(* src: internal/igagov/split.go:347-359 (CompileSplit, precondition) *)
Definition split_pre (x : splitCtx) : goval :=
  GStruct (("artifact_state", ArtifactStateFacts_val (sx_st x)) :: subjects_val x (lr_ARN (sx_src x)) ++
           [("new_role", GStruct [("arn", GString (sx_newARN x)); ("exists", GBool false)])]).

(* src: internal/igagov/split.go:368-380 (CompileSplit, compatibility routes) *)
Definition item_route (it : CompatibilityItem) : list Route :=
  if (ci_Kind it =? CompatResourcePolicy)%string || (ci_Kind it =? CompatPrincipalCondKey)%string then
    let eff := if (ci_Principal it =? PrincipalRoleSession)%string then RouteEffectBypassKnown
               else if (ci_Principal it =? PrincipalRoleARN)%string then RouteEffectLimited else RouteEffectEffectUnknown in
    [{| rt_Service := match LookupForm (ci_Form it) with Some f => frm_Namespace f | None => "" end;
        rt_Form := ci_Form it; rt_Region := ""; rt_Resource := ci_Resource it; rt_Principal := ci_Principal it;
        rt_Effect := eff; rt_Reason := ci_Handling it |}]
  else [].

(* src: internal/igagov/split.go:385-395 (CompileSplit, unanalysed) *)
Definition split_unanalysed (i : SplitInput) (src : LiveRole) : list UnanalysedItem :=
  let proof := ProveFirstAttachment (role_ref src) (er_ScanRunID (si_Evidence i)) None [] (si_AccountServices i)
                 (bf_Gaps (bd_Facts (er_Bundle (si_Evidence i)))) in
  sortedUnanalysed (fa_Unanalysed proof ++
    [{| ui_Key := "kms_grants"; ui_Form := ""; ui_Reason := "kms_grants_not_collected" |};
     {| ui_Key := "scp_rcp"; ui_Form := ""; ui_Reason := "organization_policies_not_analysed" |}] ++
    (if (si_SubjectKind i =? SubjectECSService)%string && negb (is_empty (si_TaskFamily i))
     then [{| ui_Key := "standalone_tasks:" +:+ si_TaskFamily i; ui_Form := ""; ui_Reason := "standalone_or_scheduled_tasks" |}]
     else []) ++
    map (fun v => {| ui_Key := "lambda_version_without_alias:" +:+ v; ui_Form := "";
                     ui_Reason := "direct_invocation_by_qualified_arn" |}) (sortedUnique (si_UnaliasedVersions i))).

(** The source role's tags, less AuthSec's own. *)
(* src: internal/igagov/split.go:397-402 (CompileSplit, tags) *)
Definition copied_tags (tags : gmap string string) : gmap string string := filter (fun kv => HasPrefix kv.1 "authsec:" = false) tags.

(* src: internal/igagov/split.go:403-430 (CompileSplit, operations) *)
Definition split_ops (x : splitCtx) : list Op :=
  let i := sx_in x in
  let nr := di_NewRole (si_Intent i) in
  let newARN := sx_newARN x in
  [create_role newARN (nr_Path nr) (nr_TrustPolicyHash nr) (copied_tags (lr_Tags (sx_src x)))] ++
  map (attach_policy newARN) (sortedUnique (nr_ManagedPolicyARNs nr)) ++
  map (fun ip => put_inline newARN (pr_Ref ip) (pr_DocumentHash ip)) (sortedRefs (sx_inline x)) ++
  (if is_empty (nr_BoundaryARN nr) then [] else [role_boundary newARN (nr_BoundaryARN nr)]) ++
  flat_map (compat_op OpAddResourcePolicyPrincipal OpAddTrustPolicyPrincipal newARN) (sx_compat x) ++
  map (fun a => bind_subject a newARN (dw_BindingKind (di_Workload (si_Intent i)))
                  (bindSteps (si_SubjectKind i) (si_Aliases i) false)) (sx_subjects x).

(** The subjects' bindings and the new role, before and after. *)
(* src: internal/igagov/split.go:447-455 (CompileSplit, facts) *)
Definition split_facts (x : splitCtx) (roleBefore roleAfter from to : string) : list Fact :=
  let b := if is_empty (lr_BoundaryARN (sx_src x)) then ValueNone else lr_BoundaryARN (sx_src x) in
  [factRole (lr_RoleID (sx_src x)); factBoundary b b;
   mkFact (factKey FactNewRole (sx_newARN x)) FactNewRole (sx_newARN x) roleBefore roleAfter] ++
  map (fun a => mkFact (factKey FactBinding a) FactBinding a from to) (sx_subjects x).

(** The documents the new role copies. *)
(* src: internal/igagov/split.go:433-441 (CompileSplit, documents) *)
Definition archive_copied (x : splitCtx) (p : Plan) : Plan :=
  fold_left (fun p h => match lr_Documents (sx_src x) !! h with Some c => archive h c p | None => p end)
    (nr_TrustPolicyHash (di_NewRole (si_Intent (sx_in x))) :: map pr_DocumentHash (sx_inline x)) p.

(* src: internal/igagov/split.go:443-444 (CompileSplit, detail) *)
Definition split_detail (x : splitCtx) : SplitDetail :=
  let i := sx_in x in
  {| sd_SourceRoleARN := lr_ARN (sx_src x); sd_NewRoleARN := sx_newARN x; sd_NewRoleHash := sx_newHash x;
     sd_SubjectKind := si_SubjectKind i; sd_SubjectARN := si_SubjectARN i; sd_SubjectARNs := sx_multi x;
     sd_FromWorkloadKeys := sortedUnique (si_FromWorkloadKeys i); sd_Compatibility := sx_compat x |}.

(** The checks before a plan is started. *)
(* src: internal/igagov/split.go:252-275 (CompileSplit, inputs) *)
Definition check_split (i : SplitInput) : result unit :=
  _ ← control_validate (si_Control i);
  match ValidateIntent {| in_Kind := IntentDedicatedIdentity; in_RightSize := None; in_RemoveControl := None;
                          in_DedicatedIdentity := Some (si_Intent i) |} with
  | (_ :: _) as es => compileErr ErrCodeInvalidIntent [IntentErrors_Error es]
  | [] =>
      let src := di_Source (si_Intent i) in
      if negb (sj_RoleID src =? ct_RoleID (si_Control i))%string || negb (sj_AccountID src =? ct_AccountID (si_Control i))%string
      then compileErr ErrCodeInput ["the intent's source is not the control's role"]
      else if is_empty (si_SubjectARN i) then compileErr ErrCodeInput ["a split moves a named subject"]
      else if (1 <? length (sortedUnique (si_SubjectARNs i ++ [si_SubjectARN i])))%nat &&
              negb (si_SubjectKind i =? SubjectECSService)%string
      then compileErr ErrCodeInput ["only an ECS task role moves more than one subject"]
      else evidence_validate (si_Evidence i) (ct_RoleID (si_Control i))
  end.

Definition canonical_or_empty (g : goval) : string := match CanonicalizeValue g with Ok c => c | Err _ => "" end.
Definition refs_val (l : list PolicyRef) : goval := GSlice (map PolicyRef_val (sortedRefs l)).

(** The new role keeps the source role's authorization. *)
(* src: internal/igagov/split.go:313-330 (CompileSplit, baseline) *)
Definition baseline_refusals (nr : NewRole) (inline : list PolicyRef) (src : LiveRole) : list Refusal :=
  let mismatch (b : bool) field :=
    if b then [{| ref_Code := RefuseNewRoleNotBaselinePreserve; ref_Detail := field +:+ " differs from the source role's" |}] else [] in
  mismatch (negb (nr_TrustPolicyHash nr =? lr_TrustPolicyHash src)%string) "trust policy" ++
  mismatch (negb (Join (sortedUnique (nr_ManagedPolicyARNs nr)) "," =? Join (sortedUnique (map pr_Ref (lr_ManagedPolicies src))) ",")%string)
    "managed policies" ++
  mismatch (negb (canonical_or_empty (refs_val inline) =? canonical_or_empty (refs_val (lr_InlinePolicies src)))%string)
    "inline policies" ++
  mismatch (negb (nr_BoundaryARN nr =? lr_BoundaryARN src)%string) "permissions boundary".

(** The plan both directions start from. *)
Definition start_split (i : SplitInput) (kind : string) (im : Impact) : Plan :=
  start_plan (si_Evidence i) (ct_ID (si_Control i)) kind (di_Delivery (si_Intent i)) (ReadAt (si_Live i))
  |> set_Eligibility EligibilityIaCOnly |> set_DesiredAttachment AttachmentUnchanged |> set_Impact im.

(** The steps that empty the new role before it is deleted. *)
(* src: internal/igagov/split.go:495-508 (CompileSplit, delete steps) *)
Definition delete_steps (x : splitCtx) : list string :=
  let nr := di_NewRole (si_Intent (sx_in x)) in
  let kind := si_SubjectKind (sx_in x) in
  (if is_empty (nr_BoundaryARN nr) then [] else ["DeleteRolePermissionsBoundary"]) ++
  map (fun ip => "DeleteRolePolicy:" +:+ pr_Ref ip) (sortedRefs (sx_inline x)) ++
  map (fun m => "DetachRolePolicy:" +:+ m) (sortedUnique (nr_ManagedPolicyARNs nr)) ++
  (if (kind =? SubjectEC2ASG)%string || (kind =? SubjectEC2Instance)%string
   then ["RemoveRoleFromInstanceProfile"; "DeleteInstanceProfile"] else []) ++
  ["DeleteRole"].

(* src: internal/igagov/split.go:471-483 (CompileSplit, revert precondition) *)
Definition revert_pre (x : splitCtx) : goval :=
  GStruct (("new_role", GStruct [("arn", GString (sx_newARN x)); ("hash", GString (sx_newHash x))]) ::
           subjects_val x (sx_newARN x) ++ [("new_role_consumers", GSlice (map GString (sx_subjects x)))]).

(* src: internal/igagov/split.go:489-511 (CompileSplit, revert operations) *)
Definition revert_ops (x : splitCtx) : list Op :=
  let i := sx_in x in
  map (fun a => bind_subject a (lr_ARN (sx_src x)) (dw_BindingKind (di_Workload (si_Intent i)))
                  (bindSteps (si_SubjectKind i) (si_Aliases i) true)) (sx_subjects x) ++
  flat_map (compat_op OpRemoveResourcePolicyPrincipal OpRemoveTrustPolicyPrincipal (sx_newARN x)) (sx_compat x) ++
  [delete_role (sx_newARN x) (delete_steps x)].

(** [sp] is the sealed split. *)
(* src: internal/igagov/split.go:467-525 (CompileSplit, revert) *)
Definition compile_revert (x : splitCtx) (sp : Plan) : result Plan :=
  pre ← CanonicalizeValue (revert_pre x);
  let rv := start_split (sx_in x) PlanSplitRevert (pl_Impact sp)
            |> set_Precondition pre |> set_PreconditionHash (taggedHash domainSplitRevertPrecondition [pre])
            |> set_BeforeDocumentHash (as_BoundaryDocumentHash (sx_st x))
            |> set_Ops (revert_ops x) in
  let rv := rv |> set_Diff (pl_Diff rv |> diff_Case CaseSplitRevert |> diff_Split (Some (split_detail x)))
               |> set_Facts (split_facts x (sx_newHash x) ValueAbsent (sx_newARN x) (lr_ARN (sx_src x))) in
  seal (fold_left (fun p d => archive (ad_Hash d) (ad_Canonical d) p) (pl_Documents sp) rv).

(** The split from its context; [p] carries the refusals so far. *)
(* src: internal/igagov/split.go:360-459 (CompileSplit, split) *)
Definition compile_split (x : splitCtx) (p : Plan) : result Plan :=
  let i := sx_in x in
  pre ← CanonicalizeValue (split_pre x);
  let im := pl_Impact p in
  let p := p |> set_Precondition pre |> set_PreconditionHash (taggedHash domainSplitPrecondition [pre])
             |> set_BeforeDocumentHash (as_BoundaryDocumentHash (sx_st x))
             |> set_Impact {| im_Consumers := im_Consumers im; im_OwnerUserIDs := im_OwnerUserIDs im; im_Removed := im_Removed im;
                              im_Retained := im_Retained im; im_StatementRevisions := im_StatementRevisions im;
                              im_Routes := im_Routes im ++ flat_map item_route (sx_compat x); im_Restored := im_Restored im |}
             |> set_Unanalysed (split_unanalysed i (sx_src x))
             |> set_Ops (split_ops x) in
  let p := archive_copied x p in
  let p := p |> set_Diff (pl_Diff p |> diff_Case CaseSplitIsolate |> diff_Split (Some (split_detail x)))
             |> set_Facts (split_facts x ValueAbsent (sx_newHash x) (lr_ARN (sx_src x)) (sx_newARN x)) in
  seal (refuse_if (di_Delivery (si_Intent i) =? DeliveryDirect)%string RefuseSplitDirect
          "isolation is delivered only as a PR or export (§11)" p).

(* src: internal/igagov/split.go:251-526 (CompileSplit) *)
Definition CompileSplit (i : SplitInput) : result SplitPlans :=
  _ ← check_split i;
  let subjects := sortedUnique (si_SubjectARNs i ++ [si_SubjectARN i]) in
  let multi := if (1 <? length subjects)%nat then subjects else [] in
  let facts := bd_Facts (er_Bundle (si_Evidence i)) in
  let live := si_Live i in
  let roleID := ct_RoleID (si_Control i) in
  let p := start_split i PlanSplit {| im_Consumers := bf_Consumers facts; im_OwnerUserIDs := bf_Owners facts; im_Removed := [];
             im_Retained := []; im_StatementRevisions := []; im_Routes := []; im_Restored := [] |} in
  match checkIncarnation live roleID, Role live with
  | [], Some src =>
      let nr := di_NewRole (si_Intent i) in
      let binding := dw_BindingKind (di_Workload (si_Intent i)) in
      let newARN := "arn:" +:+ role_partition src +:+ ":iam::" +:+ lr_AccountID src +:+ ":role" +:+ nr_Path nr +:+ nr_Name nr in
      let inline := map (fun ip => {| pr_Ref := ip_Name ip; pr_DocumentHash := ip_DocumentHash ip |}) (nr_InlinePolicies nr) in
      let p := p |> refuse (RoleEligibility src)
                 |> refuse_if (negb (si_MigrationEvidenceAvailable i)) RefuseMigrationEvidence
                      "the connector's discovery template cannot read migration evidence; update the template"
                 |> refuse_if (negb (bindingSubjectOK binding (si_SubjectKind i))) RefuseSubjectBindingMismatch
                      (binding +:+ " cannot move a " +:+ si_SubjectKind i) in
      match Roles live !! newARN with
      | None => compileErr ErrCodeLiveIncomplete ["the new role " +:+ newARN +:+ " was not read"]
      | Some taken =>
          let p := p |> refuse_if (negb (is_nil taken)) RefuseNewRoleNameInUse newARN |> refuse (baseline_refusals nr inline src) in
          newHash ← dedicatedSpecHash (nr_TrustPolicyHash nr) (nr_ManagedPolicyARNs nr) inline (nr_BoundaryARN nr);
          st ← ArtifactState live;
          let x := {| sx_in := i; sx_src := src; sx_newARN := newARN; sx_newHash := newHash; sx_subjects := subjects;
                      sx_multi := multi; sx_inline := inline;
                      sx_compat := compatibilityItems (role_ref src) (si_ScanEvidence i) (si_TrustReferences i) (si_MappedResources i);
                      sx_st := st |} in
          sp ← compile_split x p;
          if negb (Eligible sp) then Ok {| sp_Split := sp; sp_Revert := None |}
          else rv ← compile_revert x sp; Ok {| sp_Split := sp; sp_Revert := Some rv |}
      end
  | rs, _ =>
      p ← goneRolePrecondition live roleID (refuse rs p);
      p ← seal p;
      Ok {| sp_Split := p; sp_Revert := None |}
  end.
