(* ===== verification/SplitFacts.v ===== *)
(** What the compiler of dedicated identities guarantees: the new role has the
    authorization of the source role, nothing else is touched, the revert
    mirrors the split, and no reference to the source role is lost. *)

From stdpp Require Import base list strings gmap sorting relations.
From Stdlib Require Import Ascii.
From S2P Require Import Prelude Slices Qualify Float64 Utf8 Json JsonCanon Marshal Sha256 PolicyDoc Catalog Text Routes Hashes PolicyCanon TimeFmt Live Boundary Narrow Intent Bundle FirstAttach Plan Recover Resume PlanSet Compile CompileFacts TargetFacts Split.

#[local] Open Scope plan_scope.

(** * The same authorization, the same hash *)

(** The record two roles are compared by. *)
Definition spec_val (trust : string) (managed : list string) (inline : list PolicyRef) (boundary : string) : goval :=
  GStruct [("trust_policy_hash", GString trust); ("managed_policy_arns", GSlice (map GString (sortedUnique managed)));
           ("inline_policies", refs_val inline); ("boundary_arn", GString boundary)].

Lemma PolicyRef_gok p : gok (PolicyRef_val p) /\ (gheight (PolicyRef_val p) <= 1)%nat.
Proof. split; [constructor; [apply (bool_decide_unpack _); vm_compute; done|repeat constructor]|cbn; lia]. Qed.

Lemma refs_gok l : gok (refs_val l) /\ (gheight (refs_val l) <= 2)%nat.
Proof. apply slice_gok. intros x _. apply PolicyRef_gok. Qed.

Lemma spec_gok trust managed inline boundary :
  gok (spec_val trust managed inline boundary) /\ (gheight (spec_val trust managed inline boundary) <= maxJSONDepth)%nat.
Proof.
  destruct (refs_gok inline) as [Hr1 Hr2].
  destruct (slice_gok GString (sortedUnique managed) 0) as [Hm1 Hm2]; [intros s _; split; [constructor|cbn; lia]|].
  split.
  - constructor; [apply (bool_decide_unpack _); vm_compute; done|].
    repeat first [apply Forall_cons_2|apply Forall_nil_2]; cbn [snd]; first [exact Hr1|exact Hm1|constructor].
  - unfold spec_val. etrans; [|apply (Nat.leb_le 4); vm_compute; reflexivity].
    generalize dependent (refs_val inline). generalize dependent (GSlice (map GString (sortedUnique managed))). intros. cbn. lia.
Qed.

Lemma canonical_refs l : canonical_or_empty (refs_val l) = writeCanonical (value_of (refs_val l)).
Proof.
  unfold canonical_or_empty. destruct (refs_gok l) as [Hg Hh].
  rewrite CanonicalizeValue_ok; [done|done|]. etrans; [exact Hh|]. apply Nat.leb_le. vm_compute. reflexivity.
Qed.

Lemma spec_hash_eq trust managed managed' inline inline' boundary h :
  sortedUnique managed = sortedUnique managed' ->
  canonical_or_empty (refs_val inline) = canonical_or_empty (refs_val inline') ->
  dedicatedSpecHash trust managed inline boundary = Ok h -> dedicatedSpecHash trust managed' inline' boundary = Ok h.
Proof.
  intros Hm Hi. unfold dedicatedSpecHash. fold (refs_val inline) (refs_val inline').
  fold (spec_val trust managed inline boundary) (spec_val trust managed' inline' boundary).
  enough (CanonicalizeValue (spec_val trust managed inline boundary) = CanonicalizeValue (spec_val trust managed' inline' boundary)) as E
    by (unfold HashCanonicalTagged; by rewrite E).
  destruct (spec_gok trust managed inline boundary) as [Hg Hh], (spec_gok trust managed' inline' boundary) as [Hg' Hh'].
  rewrite !CanonicalizeValue_ok by done. f_equal. rewrite !canonical_refs in Hi.
  destruct (parseJSON_wf _ _ (Marshal_parse _ Hg Hh)) as [Hw1 Hw2]. destruct (parseJSON_wf _ _ (Marshal_parse _ Hg' Hh')) as [Hw1' Hw2'].
  apply norm_text; [done..|]. apply jeq_norm; [done|]. unfold spec_val. cbn [value_of map fst snd].
  rewrite Hm. eapply je_object; [reflexivity|].
  assert (jeq (value_of (refs_val inline)) (value_of (refs_val inline'))) as Hr.
  { destruct (refs_gok inline) as [Hr Hrh], (refs_gok inline') as [Hr' Hrh'].
    assert (2 <= maxJSONDepth)%nat as Hmax by (apply Nat.leb_le; vm_compute; reflexivity).
    eapply (CanonicalizeValue_eq _ _ _ Hr Hr'); [lia|lia| |rewrite CanonicalizeValue_ok by (done || lia); reflexivity].
    rewrite CanonicalizeValue_ok by (done || lia). by rewrite Hi. }
  repeat apply Forall2_cons_2; try apply Forall2_nil_2; (split; [done|]); cbn [snd]; first [exact Hr|apply je_string|apply je_array].
  clear. induction (sortedUnique managed'); cbn; repeat constructor; done.
Qed.

(** Lists joined by a comma are equal when no element is empty or holds one. *)
Definition comma_free (s : string) : Prop := s <> "" /\ lacks ","%char s = true.

Lemma Join_comma_nil l : Forall comma_free l -> Join l "," = "" -> l = [].
Proof. intros H E. destruct H as [|s l [Hs _] Hl]; [done|]. destruct s; [done|]. destruct l; discriminate E. Qed.

Lemma Join_comma_inj l l' : Forall comma_free l -> Forall comma_free l' -> Join l "," = Join l' "," -> l = l'.
Proof.
  intros H. revert l'. induction H as [|s l [Hs Hc] Hl IH]; intros l' Hl' E.
  { symmetry. by apply Join_comma_nil. }
  destruct Hl' as [|s' l' [Hs' Hc'] Hl']; [by apply Join_comma_nil; [constructor|]|].
  destruct l as [|t l], l' as [|t' l'].
  - cbn in E. by subst.
  - exfalso. change (s = s' +:+ String ","%char (Join (t' :: l') ",")) in E. symmetry in E. by apply lacks_no_cut in E.
  - exfalso. change (s +:+ String ","%char (Join (t :: l) ",") = s') in E. by apply lacks_no_cut in E.
  - change (s +:+ String ","%char (Join (t :: l) ",") = s' +:+ String ","%char (Join (t' :: l') ",")) in E.
    apply lacks_cut in E as [-> E]; [|done..]. f_equal. by apply IH.
Qed.

Lemma sortedUnique_Forall (P : string -> Prop) l : Forall P l -> Forall P (sortedUnique l).
Proof. rewrite !Forall_forall. intros H x Hx. apply H. by apply elem_of_sortedUnique. Qed.

(** A plan with no baseline refusal copies the source's boundary and policies. *)
Lemma baseline_boundary nr inline src : baseline_refusals nr inline src = [] -> nr_BoundaryARN nr = lr_BoundaryARN src.
Proof.
  intros H. unfold baseline_refusals in H. cbv zeta in H. apply app_nil in H as [_ [_ [_ H4]%app_nil]%app_nil].
  by destruct (String.eqb_spec (nr_BoundaryARN nr) (lr_BoundaryARN src)).
Qed.

Lemma baseline_managed nr inline src :
  Forall comma_free (nr_ManagedPolicyARNs nr) -> Forall comma_free (pr_Ref <$> lr_ManagedPolicies src) ->
  baseline_refusals nr inline src = [] -> sortedUnique (nr_ManagedPolicyARNs nr) = sortedUnique (pr_Ref <$> lr_ManagedPolicies src).
Proof.
  intros Hm Hm' H. unfold baseline_refusals in H. cbv zeta in H. apply app_nil in H as [_ [H2 _]%app_nil].
  destruct (_ =? _)%string eqn:E2 in H2; [|done]. apply String.eqb_eq in E2.
  apply Join_comma_inj; [by apply sortedUnique_Forall..|exact E2].
Qed.

(** A plan with no baseline refusal creates a role that hashes as the source. *)
Lemma baseline_same_hash nr inline src h :
  Forall comma_free (nr_ManagedPolicyARNs nr) -> Forall comma_free (pr_Ref <$> lr_ManagedPolicies src) ->
  baseline_refusals nr inline src = [] ->
  dedicatedSpecHash (nr_TrustPolicyHash nr) (nr_ManagedPolicyARNs nr) inline (nr_BoundaryARN nr) = Ok h ->
  dedicatedRoleHash src = Ok h /\ nr_TrustPolicyHash nr = lr_TrustPolicyHash src /\ nr_BoundaryARN nr = lr_BoundaryARN src.
Proof.
  intros Hm Hm' H Hh. pose proof (baseline_managed _ _ _ Hm Hm' H) as Em. unfold baseline_refusals in H. cbv zeta in H.
  apply app_nil in H as [H1 [_ [H3 H4]%app_nil]%app_nil].
  destruct (String.eqb_spec (nr_TrustPolicyHash nr) (lr_TrustPolicyHash src)) as [E1|]; [|done].
  destruct (String.eqb_spec (nr_BoundaryARN nr) (lr_BoundaryARN src)) as [E4|]; [|done].
  destruct (_ =? _)%string eqn:E3 in H3; [|done].
  apply String.eqb_eq in E3. split; [|done]. unfold dedicatedRoleHash. rewrite <- E1, <- E4. by eapply spec_hash_eq.
Qed.

#[local] Opaque CanonicalizeValue ContentHash writeCanonical checkStorable ProveFirstAttachment ImpactHash PlanHash MaterialHash
  StatePreconditionHash CanonicalDocument precondition_Canonical ValidateIntent RoleEligibility impact_Normalized Join
  baseline_refusals bindingSubjectOK dedicatedSpecHash compatibilityItems split_pre revert_pre split_unanalysed.

(** * A compiled split *)

Definition isolate_core (i : SplitInput) (kind : string) (ops : list Op) (facts : list Fact) : core :=
  {| co_Kind := kind; co_Delivery := di_Delivery (si_Intent i); co_Eligibility := EligibilityIaCOnly;
     co_Attachment := AttachmentUnchanged; co_ARN := None; co_Hash := None; co_Replaced := None;
     co_Disposition := DispositionKeep; co_First := false; co_Scan := Some (er_ScanRunID (si_Evidence i));
     co_Ops := ops; co_Facts := sortFacts facts; co_Refusals := []; co_Reason := "" |}.

(** What an eligible split was compiled from. *)
Record isolates (i : SplitInput) (sp rv : Plan) (x : splitCtx) : Prop := {
  is_in : sx_in x = i;
  is_role : Role (si_Live i) = Some (sx_src x);
  is_incarnation : lr_RoleID (sx_src x) = ct_RoleID (si_Control i);
  is_eligible : RoleEligibility (sx_src x) = [];
  is_evidence : si_MigrationEvidenceAvailable i = true;
  is_binding : bindingSubjectOK (dw_BindingKind (di_Workload (si_Intent i))) (si_SubjectKind i) = true;
  is_free : Roles (si_Live i) !! sx_newARN x = Some None;
  is_baseline : baseline_refusals (di_NewRole (si_Intent i)) (sx_inline x) (sx_src x) = [];
  is_hash : dedicatedSpecHash (nr_TrustPolicyHash (di_NewRole (si_Intent i))) (nr_ManagedPolicyARNs (di_NewRole (si_Intent i)))
              (sx_inline x) (nr_BoundaryARN (di_NewRole (si_Intent i))) = Ok (sx_newHash x);
  is_subjects : sx_subjects x = sortedUnique (si_SubjectARNs i ++ [si_SubjectARN i]);
  is_compat : sx_compat x = compatibilityItems (role_ref (sx_src x)) (si_ScanEvidence i) (si_TrustReferences i) (si_MappedResources i);
  is_delivery : di_Delivery (si_Intent i) <> DeliveryDirect;
  is_detail : df_Split (pl_Diff sp) = Some (split_detail x);
  is_split : core_of sp = isolate_core i PlanSplit (split_ops x) (split_facts x ValueAbsent (sx_newHash x) (lr_ARN (sx_src x)) (sx_newARN x));
  is_revert : core_of rv = isolate_core i PlanSplitRevert (revert_ops x)
                (split_facts x (sx_newHash x) ValueAbsent (sx_newARN x) (lr_ARN (sx_src x))) }.

Lemma fold_documents {A} (f : Plan -> A -> Plan) l p :
  (forall p a, exists ds, f p a = set_Documents ds p) -> exists ds, fold_left f l p = set_Documents ds p.
Proof.
  intros Hf. revert p. induction l as [|a l IH]; intros p; cbn; [exists (pl_Documents p); by destruct p|].
  destruct (Hf p a) as [ds' ->]. destruct (IH (set_Documents ds' p)) as [ds ->]. by exists ds.
Qed.

Lemma archive_copied_eq x p : exists ds, archive_copied x p = set_Documents ds p.
Proof.
  apply fold_documents. intros q h. destruct (_ !! h); [apply archive_eq|]. exists (pl_Documents q). by destruct q.
Qed.

Lemma seal_split p q : seal p = Ok q -> df_Split (pl_Diff q) = df_Split (pl_Diff p).
Proof.
  unfold seal. cbv zeta. intros (ih & _ & (ph & _ & (mh & _ & (? & _ & [= <-])%bind_Ok)%bind_Ok)%bind_Ok)%bind_Ok.
  unfold settle. by destruct (pl_Refusals p).
Qed.

Lemma compile_split_shape x p q :
  fresh_plan p -> pl_ArtifactDisposition p = DispositionKeep -> pl_DesiredBoundaryARN p = None -> pl_DesiredDocumentHash p = None ->
  compile_split x p = Ok q ->
  refused_plan q \/
  (pl_Refusals p = [] /\ di_Delivery (si_Intent (sx_in x)) <> DeliveryDirect /\ df_Split (pl_Diff q) = Some (split_detail x) /\
   core_of q = settle_core (core_of (p |> set_Ops (split_ops x)
     |> set_Facts (split_facts x ValueAbsent (sx_newHash x) (lr_ARN (sx_src x)) (sx_newARN x))))).
Proof.
  intros (H1 & H2 & H3 & H4) Hd Ha Hh H. unfold compile_split in H. cbv zeta in H. apply bind_Ok in H as (pre & _ & H). revert H.
  match goal with |- context [archive_copied x ?p] => destruct (archive_copied_eq x p) as [ds ->] end. plan_eqs. intros H.
  destruct (String.eqb_spec (di_Delivery (si_Intent (sx_in x))) DeliveryDirect) as [Hdel|Hdel].
  { left. eapply seal_refused_plan; [exact H|]. cbn. by destruct (pl_Refusals p). }
  destruct (decide (pl_Refusals p = [])) as [Hn|Hn].
  - right. split; [done|]. split; [done|]. split; [by apply seal_split in H|]. apply seal_core in H. rewrite H. cbn. unfold settle_core. cbn. rewrite Hn. reflexivity.
  - left. eapply seal_refused_plan; [exact H|]. cbn. by destruct (pl_Refusals p).
Qed.

Lemma compile_revert_shape x sp rv :
  compile_revert x sp = Ok rv ->
  core_of rv = isolate_core (sx_in x) PlanSplitRevert (revert_ops x)
                 (split_facts x (sx_newHash x) ValueAbsent (sx_newARN x) (lr_ARN (sx_src x))).
Proof.
  intros H. unfold compile_revert in H. cbv zeta in H. apply bind_Ok in H as (pre & _ & H). revert H.
  match goal with |- context [fold_left ?f ?l ?p] => destruct (fold_documents f l p) as [ds ->] end; [intros; apply archive_eq|].
  intros H%seal_core. rewrite H. reflexivity.
Qed.

Lemma split_inv i ps :
  CompileSplit i = Ok ps ->
  (sp_Revert ps = None /\ refused_plan (sp_Split ps)) \/
  exists rv x, sp_Revert ps = Some rv /\ isolates i (sp_Split ps) rv x.
Proof.
  intros H. unfold CompileSplit in H. cbv zeta in H. apply bind_Ok in H as (_ & _ & H).
  destruct (checkIncarnation (si_Live i) (ct_RoleID (si_Control i))) as [|rf rs] eqn:Ei.
  2:{ left. apply bind_Ok in H as (p & Hp & (q & Hq & [= <-])%bind_Ok). unfold goneRolePrecondition in Hp.
      apply bind_Ok in Hp as (pre & _ & (pc & _ & (ph & _ & [= <-])%bind_Ok)%bind_Ok).
      split; [done|]. by eapply seal_refused_plan. }
  apply checkIncarnation_inv in Ei as (src & Hsrc & Hid). rewrite Hsrc in H. revert H. plan_eqs.
  match goal with |- context [Roles (si_Live i) !! ?a] => set (newARN := a) end.
  destruct (Roles (si_Live i) !! newARN) as [taken|] eqn:Et; [|done]. plan_eqs. intros H.
  apply bind_Ok in H as (h & Hh & (st & Hst & (sp & Hsp & H)%bind_Ok)%bind_Ok).
  apply compile_split_shape in Hsp as [Hr|(Hn & Hdel & Hdt & Hc)]; [| |done..].
  { left. destruct Hr as (He & Ho & Hrf). unfold Eligible in H. rewrite He in H. injection H as <-. split; [done|]. by split_and!. }
  right. cbn in Hn. apply app_nil in Hn as [[[[Hel Hme]%app_nil Hbs]%app_nil Hfr]%app_nil Hbl].
  assert (Eligible sp = true) as He.
  { apply core_inv in Hc as (_ & _ & Hc & _). cbn in Hc. unfold Eligible. rewrite Hel, Hme, Hbs, Hfr, Hbl in Hc. by rewrite Hc. }
  rewrite He in H. apply bind_Ok in H as (rv & Hrv & [= <-]). apply compile_revert_shape in Hrv.
  match type of Hrv with core_of _ = isolate_core (sx_in ?x) _ _ _ => exists rv, x end.
  split; [done|]. destruct taken; [done|].
  constructor; [reflexivity|exact Hsrc|exact Hid|exact Hel|by destruct (si_MigrationEvidenceAvailable i)
    |by destruct (bindingSubjectOK _ _)|exact Et|exact Hbl|exact Hh|reflexivity|reflexivity|exact Hdel|exact Hdt| |exact Hrv].
  etransitivity; [exact Hc|]. cbn. unfold settle_core. cbn. rewrite Hel, Hme, Hbs, Hbl. reflexivity.
Qed.

(** * References to the source role *)

(** The last separator of a text. *)
Lemma lacks_cut_last c a b p q :
  lacks c p = true -> lacks c q = true -> a +:+ String c p = b +:+ String c q -> a = b /\ p = q.
Proof.
  intros Hp Hq. revert b. induction a as [|x a IH]; intros [|y b] E.
  - by injection E as ->.
  - exfalso. injection E as <- E. symmetry in E. by apply lacks_no_cut in E.
  - exfalso. injection E as -> E. by apply lacks_no_cut in E.
  - injection E as -> E. apply IH in E as [-> ->]. done.
Qed.

(** Items as the scan makes them: kind and principal from a fixed vocabulary. *)
Definition plain_item (it : CompatibilityItem) : Prop :=
  lacks unitSep (ci_Kind it) = true /\ lacks unitSep (ci_Principal it) = true.

Lemma item_key_inj it it' :
  plain_item it -> plain_item it' -> item_seen_key it = item_seen_key it' ->
  ci_Kind it = ci_Kind it' /\ ci_Resource it = ci_Resource it' /\ ci_Principal it = ci_Principal it'.
Proof.
  intros [Hk Hp] [Hk' Hp']. unfold item_seen_key. intros E.
  change (ci_Kind it +:+ String unitSep (ci_Resource it +:+ String unitSep (ci_Principal it)) =
          ci_Kind it' +:+ String unitSep (ci_Resource it' +:+ String unitSep (ci_Principal it'))) in E.
  apply lacks_cut in E as [-> E]; [|done..]. by apply lacks_cut_last in E as [-> ->].
Qed.

Lemma elem_of_add_items seen its it : it ∈ add_items seen its -> it ∈ its.
Proof.
  revert seen. induction its as [|y its IH]; intros seen; cbn; [done|]. case_bool_decide.
  - intros H'%IH. by right.
  - rewrite elem_of_cons. intros [->|H'%IH]; [left|by right].
Qed.

Lemma add_items_keeps seen its it :
  it ∈ its -> item_seen_key it ∈ seen \/ exists it', it' ∈ add_items seen its /\ item_seen_key it' = item_seen_key it.
Proof.
  revert seen. induction its as [|y its IH]; intros seen; [by intros ?%elem_of_nil|]. rewrite elem_of_cons. cbn.
  case_bool_decide as Hs; intros [->|Hin].
  - by left.
  - by apply IH.
  - right. exists y. split; [left|done].
  - destruct (IH (item_seen_key y :: seen) Hin) as [Hk|(it' & Hit & E)].
    + apply elem_of_cons in Hk as [E|Hk]; [|by left]. right. exists y. split; [left|done].
    + right. exists it'. split; [by right|done].
Qed.

Lemma statement_items_plain role handling ob st it : it ∈ statement_items role handling ob st -> plain_item it.
Proof.
  unfold statement_items. rewrite elem_of_app. intros [H|H]; apply list_elem_of_In in H.
  - destruct (st_Principal st); [|done]. apply in_flat_map in H as (v & _ & H).
    destruct (String.eqb_spec (classifyAWSPrincipal v role) PrincipalRoleARN) as [E|_];
      [|destruct (String.eqb_spec (classifyAWSPrincipal v role) PrincipalRoleSession) as [E|_]]; cbn in H; [..|done];
      destruct H as [<-|[]]; unfold plain_item; cbn; by rewrite E.
  - apply in_flat_map in H as (c & _ & H). destruct (_ || _); [|done]. by destruct H as [<-|[]].
Qed.

(** [handling] decides every item but the conditions, whose effect is unknown. *)
Definition handled (handling : string -> string) (it : CompatibilityItem) : Prop :=
  ci_Handling it = if (ci_Kind it =? CompatPrincipalCondKey)%string then HandlingEffectUnknown else handling (ci_Resource it).

Lemma statement_items_handled role handling ob st it : it ∈ statement_items role handling ob st -> handled handling it.
Proof.
  unfold statement_items. rewrite elem_of_app. intros [H|H]; apply list_elem_of_In in H.
  - destruct (st_Principal st); [|done]. apply in_flat_map in H as (v & _ & H). destruct (_ || _); [|done]. by destruct H as [<-|[]].
  - apply in_flat_map in H as (c & _ & H). destruct (_ || _); [|done]. by destruct H as [<-|[]].
Qed.

Lemma observation_items_made role handling ob it :
  it ∈ observation_items role handling ob -> plain_item it /\ handled handling it.
Proof.
  unfold observation_items. destruct (ob_PolicyPresent ob), (ob_Document ob); intros H; apply list_elem_of_In in H; try done.
  apply in_flat_map in H as (st & _ & H%list_elem_of_In).
  split; [by apply statement_items_plain in H|by apply statement_items_handled in H].
Qed.

(** How the plan handles a resource whose policy it cannot change itself. *)
Definition handling_of (mapped : gset string) (resource : string) : string :=
  if bool_decide (resource ∈ mapped) then HandlingPR else HandlingOwnerConfirm.

(** Every reference made by the scan is in the list, under its own handling. *)
Lemma compat_complete role ev trust mapped it :
  it ∈ (match ev with Some ev => flat_map (observation_items role (handling_of mapped)) (Observations ev) | None => [] end ++
        map (fun r => {| ci_Kind := CompatTrustPolicy; ci_Resource := r; ci_Form := ""; ci_Principal := "";
                         ci_Handling := handling_of mapped r |}) (sortedUnique trust)) ->
  exists it', it' ∈ compatibilityItems role ev trust mapped /\ handled (handling_of mapped) it' /\
    ci_Kind it' = ci_Kind it /\ ci_Resource it' = ci_Resource it /\ ci_Principal it' = ci_Principal it.
Proof.
  Transparent compatibilityItems. unfold compatibilityItems. cbv zeta. fold (handling_of mapped). set (all := _ ++ _). intros Hit.
  assert (forall y, y ∈ all -> plain_item y /\ handled (handling_of mapped) y) as Hplain.
  { intros y Hy. unfold all in Hy. apply elem_of_app in Hy as [Hy|Hy]; apply list_elem_of_In in Hy.
    - destruct ev; [|done]. apply in_flat_map in Hy as (ob & _ & Hy%list_elem_of_In). by apply observation_items_made in Hy.
    - apply in_map_iff in Hy as (r & <- & _). done. }
  destruct (add_items_keeps [] all it Hit) as [Hn|(it' & Hin & E)]; [by apply elem_of_nil in Hn|].
  exists it'. rewrite elem_of_sort_slice. split; [done|]. pose proof (elem_of_add_items _ _ _ Hin) as Hin'.
  split; [by apply Hplain|]. apply item_key_inj; [by apply Hplain..|done].
Qed.

(** * Facts and operations of the pair *)

#[local] Arguments factKey : simpl never.

Lemma split_mirror x h a b : swap_fact <$> split_facts x ValueAbsent h a b = split_facts x h ValueAbsent b a.
Proof.
  unfold split_facts. cbv zeta. rewrite fmap_app. f_equal. induction (sx_subjects x) as [|s l IH]; [done|]. cbn. by f_equal.
Qed.

Lemma split_facts_ok x rb ra f t : NoDup (sx_subjects x) -> facts_ok (split_facts x rb ra f t).
Proof.
  intros Hnd. unfold split_facts. cbv zeta. split.
  - rewrite fmap_app. change (NoDup ([FactRole; FactRoleBoundary; factKey FactNewRole (sx_newARN x)] ++
      (fa_Key <$> ((fun a => mkFact (factKey FactBinding a) FactBinding a f t) <$> sx_subjects x)))).
    rewrite <- list_fmap_compose. apply NoDup_app. split_and!.
    + unfold factKey. destruct (is_empty _); keys_nodup.
    + intros k Hk (a & -> & _)%list_elem_of_fmap. revert Hk. cbn. rewrite !elem_of_cons. unfold factKey.
      destruct (is_empty a), (is_empty (sx_newARN x)); intros [?|[?|[?|Hn]]]; try discriminate; by apply elem_of_nil in Hn.
    + apply NoDup_fmap_2; [|done]. intros a b E. by apply factKey_inj in E.
  - intros g [Hg|Hg]%elem_of_app Ho; [by each_fact Hg|].
    apply list_elem_of_In, in_map_iff in Hg as (a & <- & _). done.
Qed.

(** Both plans move every fact that changes. *)
Lemma split_covers x h a b : covers (split_ops x) (split_facts x ValueAbsent h a b).
Proof.
  unfold split_facts. cbv zeta. intros f [Hf|Hf]%elem_of_app.
  - each_fact Hf; intros Hc; [by apply unchanged in Hc..|]. unfold split_ops. cbv zeta. left.
  - apply list_elem_of_In, in_map_iff in Hf as (s & <- & Hs). intros _. cbn [fa_Key mkFact].
    apply list_elem_of_In, in_flat_map. exists (bind_subject s (sx_newARN x) (dw_BindingKind (di_Workload (si_Intent (sx_in x))))
      (bindSteps (si_SubjectKind (sx_in x)) (si_Aliases (sx_in x)) false)).
    split; [|by left]. unfold split_ops. cbv zeta. rewrite !in_app_iff. do 5 right.
    apply in_map_iff. by exists s.
Qed.

Lemma revert_covers x h a b : covers (revert_ops x) (split_facts x h ValueAbsent b a).
Proof.
  unfold split_facts. cbv zeta. intros f [Hf|Hf]%elem_of_app.
  - each_fact Hf; intros Hc; [by apply unchanged in Hc..|]. apply list_elem_of_In, in_flat_map.
    exists (delete_role (sx_newARN x) (delete_steps x)). split; [|by left]. unfold revert_ops. cbv zeta. rewrite !in_app_iff.
    right. right. by left.
  - apply list_elem_of_In, in_map_iff in Hf as (s & <- & Hs). intros _. cbn [fa_Key mkFact].
    apply list_elem_of_In, in_flat_map. exists (bind_subject s (lr_ARN (sx_src x)) (dw_BindingKind (di_Workload (si_Intent (sx_in x))))
      (bindSteps (si_SubjectKind (sx_in x)) (si_Aliases (sx_in x)) true)).
    split; [|by left]. unfold revert_ops. cbv zeta. rewrite !in_app_iff. left. apply in_map_iff. by exists s.
Qed.

(** Where an operation of the compatibility list comes from. *)
Lemma elem_of_compat_ops res trust newARN items op :
  op ∈ flat_map (compat_op res trust newARN) items <->
  exists it, it ∈ items /\ ci_Handling it = HandlingPR /\
    ((ci_Kind it = CompatResourcePolicy /\ op = resource_principal res (ci_Resource it) newARN) \/
     (ci_Kind it = CompatTrustPolicy /\ op = trust_principal trust (ci_Resource it) newARN)).
Proof.
  rewrite list_elem_of_In, in_flat_map. setoid_rewrite <- list_elem_of_In. unfold compat_op. split.
  - intros (it & Hit & Hop). exists it. split; [done|]. destruct (String.eqb_spec (ci_Handling it) HandlingPR); cbn [negb] in Hop.
    2:{ by apply elem_of_nil in Hop. }
    split; [done|]. destruct (String.eqb_spec (ci_Kind it) CompatResourcePolicy).
    { apply list_elem_of_singleton in Hop. by left. }
    destruct (String.eqb_spec (ci_Kind it) CompatTrustPolicy); [|by apply elem_of_nil in Hop].
    apply list_elem_of_singleton in Hop. by right.
  - intros (it & Hit & Hh & Hk). exists it. split; [done|]. rewrite Hh. cbn [negb String.eqb].
    destruct Hk as [[-> ->]|[-> ->]]; apply list_elem_of_singleton; reflexivity.
Qed.

(** Which principals the compatibility operations name. *)
Lemma resource_in_compat res trust newARN items r p :
  res <> trust ->
  resource_principal res r p ∈ flat_map (compat_op res trust newARN) items <->
  p = newARN /\ exists it, it ∈ items /\ ci_Handling it = HandlingPR /\ ci_Kind it = CompatResourcePolicy /\ ci_Resource it = r.
Proof.
  intros Hne. rewrite elem_of_compat_ops. split.
  - intros (it & Hit & Hh & [[Hk E]|[_ E]]); injection E; intros; [|congruence]. split; [done|]. exists it. by split_and!.
  - intros (-> & it & Hit & Hh & Hk & <-). exists it. split_and!; [done|done|]. by left.
Qed.

Lemma trust_in_compat res trust newARN items r p :
  res <> trust ->
  trust_principal trust r p ∈ flat_map (compat_op res trust newARN) items <->
  p = newARN /\ exists it, it ∈ items /\ ci_Handling it = HandlingPR /\ ci_Kind it = CompatTrustPolicy /\ ci_Resource it = r.
Proof.
  intros Hne. rewrite elem_of_compat_ops. split.
  - intros (it & Hit & Hh & [[_ E]|[Hk E]]); injection E; intros; [congruence|]. split; [done|]. exists it. by split_and!.
  - intros (-> & it & Hit & Hh & Hk & <-). exists it. split_and!; [done|done|]. by right.
Qed.

(** The other operations have their own names. *)
Lemma in_split_compat x op :
  op_Op op ∉ [OpCreateRole; OpAttachRolePolicy; OpPutRolePolicy; OpPutRolePermissionsBoundary; OpBindSubject] ->
  op ∈ split_ops x <-> op ∈ flat_map (compat_op OpAddResourcePolicyPrincipal OpAddTrustPolicyPrincipal (sx_newARN x)) (sx_compat x).
Proof.
  intros Hn. unfold split_ops. cbv zeta. rewrite !elem_of_app. split; [|tauto]. rewrite !not_elem_of_cons in Hn.
  destruct Hn as (N1 & N2 & N3 & N4 & N5 & _). intros [H|[H|[H|[H|[H|H]]]]]; [..|done|].
  - by apply list_elem_of_singleton in H as ->.
  - by apply list_elem_of_In, in_map_iff in H as (? & <- & _).
  - by apply list_elem_of_In, in_map_iff in H as (? & <- & _).
  - destruct (is_empty _); [by apply elem_of_nil in H|by apply list_elem_of_singleton in H as ->].
  - by apply list_elem_of_In, in_map_iff in H as (? & <- & _).
Qed.

Lemma in_revert_compat x op :
  op_Op op ∉ [OpDeleteRole; OpBindSubject] ->
  op ∈ revert_ops x <-> op ∈ flat_map (compat_op OpRemoveResourcePolicyPrincipal OpRemoveTrustPolicyPrincipal (sx_newARN x)) (sx_compat x).
Proof.
  intros Hn. unfold revert_ops. cbv zeta. rewrite !elem_of_app. split; [|tauto]. rewrite !not_elem_of_cons in Hn.
  destruct Hn as (N1 & N2 & _). intros [H|[H|H]]; [|done|].
  - by apply list_elem_of_In, in_map_iff in H as (? & <- & _).
  - by apply list_elem_of_singleton in H as ->.
Qed.

(** Items of the list carry the scan's vocabulary. *)
Lemma compat_sound role ev trust mapped it :
  it ∈ compatibilityItems role ev trust mapped ->
  handled (handling_of mapped) it /\ (ci_Kind it = CompatTrustPolicy -> ci_Resource it ∈ trust).
Proof.
  Transparent compatibilityItems. unfold compatibilityItems. cbv zeta. fold (handling_of mapped).
  rewrite elem_of_sort_slice. intros Hin%elem_of_add_items. apply elem_of_app in Hin as [Hy|Hy]; apply list_elem_of_In in Hy.
  - destruct ev; [|done]. apply in_flat_map in Hy as (ob & _ & Hy%list_elem_of_In).
    pose proof Hy as [_ Hh]%observation_items_made. split; [done|]. intros E. exfalso. revert Hy. unfold observation_items.
    destruct (ob_PolicyPresent ob), (ob_Document ob); intros H; apply list_elem_of_In in H; try done.
    apply in_flat_map in H as (st & _ & H). unfold statement_items in H. apply in_app_iff in H as [H|H].
    + destruct (st_Principal st); [|done]. apply in_flat_map in H as (v & _ & H). destruct (_ || _); [|done]. by destruct H as [<-|[]].
    + apply in_flat_map in H as (c & _ & H). destruct (_ || _); [|done]. by destruct H as [<-|[]].
  - apply in_map_iff in Hy as (r & <- & Hr). split; [done|]. intros _. cbn. by apply elem_of_sortedUnique, list_elem_of_In.
Qed.

Lemma handled_PR mapped it :
  handled (handling_of mapped) it -> ci_Handling it = HandlingPR -> ci_Resource it ∈ mapped.
Proof.
  unfold handled, handling_of. intros -> H. destruct (_ =? _)%string; [done|]. by case_bool_decide.
Qed.

(** ** Which intents pass *)

Lemma check_split_intent i ps : CompileSplit i = Ok ps -> validateDedicated (si_Intent i) = [].
Proof.
  unfold CompileSplit. intros (u & H & _)%bind_Ok. unfold check_split in H. apply bind_Ok in H as (_ & _ & H).
  destruct (ValidateIntent _) as [|e es] eqn:E; [|done].
  Transparent ValidateIntent. unfold ValidateIntent, collector_result in E. cbn in E. by apply sort_slice_nil in E.
Qed.

Lemma dedicated_ARNs d :
  validateDedicated d = [] ->
  Forall (fun a => reARN a = true) (nr_ManagedPolicyARNs (di_NewRole d)) /\
  (nr_BoundaryARN (di_NewRole d) = "" \/ reARN (nr_BoundaryARN (di_NewRole d)) = true).
Proof.
  unfold validateDedicated. cbv zeta. rewrite !app_nil. intros (_ & _ & _ & _ & _ & _ & _ & _ & Hm & _ & Hb & _). split.
  - rewrite (each_nil id _ (fun a => reARN a = true)) in Hm; [apply Hm|].
    intros i x dup. rewrite app_nil, !add_if_nil, negb_false_iff. by destruct dup.
  - rewrite add_if_nil in Hb. apply andb_false_iff in Hb. rewrite !negb_false_iff, is_empty_true in Hb. exact Hb.
Qed.

(** The ARNs of the policies AWS manages: the account is the word [aws]. *)
Definition aws_managed (arn : string) : bool := HasPrefix arn "arn:aws:iam::aws:".

Lemma aws_managed_not_reARN arn : aws_managed arn = true -> reARN arn = false.
Proof.
  unfold aws_managed. intros H. destruct (HasPrefix_app _ _ H) as [rest ->].
  unfold reARN.
  assert (exists t, SplitN 6 ":" ("arn:aws:iam::aws:" +:+ rest) = ["arn"; "aws"; "iam"; ""; "aws"; t]) as [t ->] by (by eexists).
  reflexivity.
Qed.

(** What the sealed pair shows. *)
Lemma isolate_inv i kind ops facts p : core_of p = isolate_core i kind ops facts ->
  pl_Delivery p = di_Delivery (si_Intent i) /\ Eligible p = true /\ pl_DesiredAttachment p = AttachmentUnchanged /\
  pl_Ops p = ops /\ pl_Facts p = sortFacts facts.
Proof.
  intros (_ & Hd & He & Ha & _ & _ & _ & _ & _ & _ & Ho & Hf & _)%core_inv. unfold Eligible. by rewrite He.
Qed.

(** * Theorems *)

(** C25. Isolation keeps the source role's declared access and touches nothing else: an eligible split is compiled for the
    control's own role, creates a role whose name is free and whose authorization hashes exactly as the source role's
    (managed policies, copied inline policies, trust policy, boundary; ARNs without commas), is never delivered
    directly, leaves the boundary unchanged, and every operation acts on the new role or adds it as a principal to a
    resource or trust policy of the mapped IaC source. *)
Theorem split_preserves_access i ps :
  CompileSplit i = Ok ps -> Eligible (sp_Split ps) = true ->
  exists src d, Role (si_Live i) = Some src /\ lr_RoleID src = ct_RoleID (si_Control i) /\
    df_Split (pl_Diff (sp_Split ps)) = Some d /\ Roles (si_Live i) !! sd_NewRoleARN d = Some None /\
    (Forall comma_free (nr_ManagedPolicyARNs (di_NewRole (si_Intent i))) -> Forall comma_free (pr_Ref <$> lr_ManagedPolicies src) ->
       dedicatedRoleHash src = Ok (sd_NewRoleHash d)) /\
    pl_Delivery (sp_Split ps) <> DeliveryDirect /\ pl_DesiredAttachment (sp_Split ps) = AttachmentUnchanged /\
    forall op, op ∈ pl_Ops (sp_Split ps) ->
      op_RoleARN op = sd_NewRoleARN d \/
      exists r, r ∈ si_MappedResources i /\
        (op = resource_principal OpAddResourcePolicyPrincipal r (sd_NewRoleARN d) \/
         (r ∈ si_TrustReferences i /\ op = trust_principal OpAddTrustPolicyPrincipal r (sd_NewRoleARN d))).
Proof.
  intros [(_ & He & _)|(rv & x & Hrv & H)]%split_inv Hel.
  { unfold Eligible in Hel. by rewrite He in Hel. }
  destruct H as [<- Hr Hid _ _ _ Hfree Hbl Hh _ Hcp Hdel Hdt Hsp _].
  apply isolate_inv in Hsp as (Hdl & _ & Hat & Hops & _).
  exists (sx_src x), (split_detail x). split_and!; [done|done|done|done| |congruence|done|].
  - intros Hm Hm'. by apply (baseline_same_hash _ _ _ _ Hm Hm' Hbl Hh).
  - intros op Hop. rewrite Hops in Hop. unfold split_ops in Hop. cbv zeta in Hop. rewrite !elem_of_app in Hop. cbn [sd_NewRoleARN split_detail].
    destruct Hop as [Hop|[Hop|[Hop|[Hop|[Hop|Hop]]]]].
    + left. by apply list_elem_of_singleton in Hop as ->.
    + left. by apply list_elem_of_In, in_map_iff in Hop as (? & <- & _).
    + left. by apply list_elem_of_In, in_map_iff in Hop as (? & <- & _).
    + left. destruct (is_empty _); [by apply elem_of_nil in Hop|by apply list_elem_of_singleton in Hop as ->].
    + right. apply elem_of_compat_ops in Hop as (it & Hit & Hh' & Hk). rewrite Hcp in Hit. apply compat_sound in Hit as [Hhd Ht].
      exists (ci_Resource it). split; [by eapply handled_PR|]. destruct Hk as [[_ ->]|[Hk ->]]; [by left|right]. split; [by apply Ht|done].
    + left. by apply list_elem_of_In, in_map_iff in Hop as (? & <- & _).
Qed.

(** The revert takes the split back: it exists exactly for an eligible split, compares the same facts with before and
    after exchanged, and the operations of both plans move every fact that changes; every principal the split adds to a
    resource or trust policy is one the revert removes, and no other. *)
Theorem split_revert_mirrors i ps :
  CompileSplit i = Ok ps ->
  match sp_Revert ps with
  | Some rv =>
      let sp := sp_Split ps in
      Eligible sp = true /\ Eligible rv = true /\ pl_Delivery rv = pl_Delivery sp /\
      facts_ok (pl_Facts sp) /\ pl_Facts rv ≡ₚ swap_fact <$> pl_Facts sp /\
      covers (pl_Ops sp) (pl_Facts sp) /\ covers (pl_Ops rv) (pl_Facts rv) /\
      forall r p,
        (resource_principal OpAddResourcePolicyPrincipal r p ∈ pl_Ops sp <->
           resource_principal OpRemoveResourcePolicyPrincipal r p ∈ pl_Ops rv) /\
        (trust_principal OpAddTrustPolicyPrincipal r p ∈ pl_Ops sp <->
           trust_principal OpRemoveTrustPolicyPrincipal r p ∈ pl_Ops rv)
  | None => Eligible (sp_Split ps) = false /\ pl_Ops (sp_Split ps) = [] /\ pl_Refusals (sp_Split ps) <> []
  end.
Proof.
  intros [(-> & He & Ho & Hr)|(rv & x & -> & H)]%split_inv.
  { unfold Eligible. by rewrite He. }
  destruct H as [<- _ _ _ _ _ _ _ _ Hsub _ _ _ Hsp Hrv]. cbv zeta.
  apply isolate_inv in Hsp as (-> & -> & _ & -> & ->), Hrv as (-> & -> & _ & -> & ->).
  unfold sortFacts. split_and!; [done|done|done| | | | |].
  - eapply facts_ok_perm; [symmetry; apply sort_slice_perm|]. apply split_facts_ok. rewrite Hsub. apply sortedUnique_NoDup.
  - rewrite !sort_slice_perm. by rewrite split_mirror.
  - eapply covers_perm; [symmetry; apply sort_slice_perm|apply split_covers].
  - eapply covers_perm; [symmetry; apply sort_slice_perm|apply revert_covers].
  - intros r p.
    rewrite !in_split_compat, !in_revert_compat by (apply (bool_decide_eq_true_1 _); reflexivity).
    by rewrite !resource_in_compat, !trust_in_compat by done.
Qed.

(** No access granted to the source role by name is forgotten: for every resource policy the scan read that names the
    role's ARN or one of its sessions as a principal, and for every role that trusts it, an eligible split either adds
    the new role there (the policy is in the mapped IaC source) or lists it for the owner to confirm. *)
Theorem split_references_kept i ps src d :
  CompileSplit i = Ok ps -> Eligible (sp_Split ps) = true -> Role (si_Live i) = Some src ->
  df_Split (pl_Diff (sp_Split ps)) = Some d ->
  let listed kind resource principal :=
    exists it, it ∈ sd_Compatibility d /\ ci_Kind it = kind /\ ci_Resource it = resource /\ ci_Principal it = principal /\
      ci_Handling it = HandlingOwnerConfirm in
  (forall ev ob doc st pr v, si_ScanEvidence i = Some ev -> ob ∈ Observations ev -> ob_PolicyPresent ob = true ->
     ob_Document ob = Some doc -> st ∈ doc_Statements doc -> st_Principal st = Some pr -> v ∈ default [] (Values pr !! "AWS") ->
     classifyAWSPrincipal v (role_ref src) ∈ [PrincipalRoleARN; PrincipalRoleSession] ->
     if bool_decide (ob_ResourceARN ob ∈ si_MappedResources i)
     then resource_principal OpAddResourcePolicyPrincipal (ob_ResourceARN ob) (sd_NewRoleARN d) ∈ pl_Ops (sp_Split ps)
     else listed CompatResourcePolicy (ob_ResourceARN ob) (classifyAWSPrincipal v (role_ref src))) /\
  (forall r, r ∈ si_TrustReferences i ->
     if bool_decide (r ∈ si_MappedResources i)
     then trust_principal OpAddTrustPolicyPrincipal r (sd_NewRoleARN d) ∈ pl_Ops (sp_Split ps)
     else listed CompatTrustPolicy r "").
Proof.
  intros [(_ & He & _)|(rv & x & Hrv & H)]%split_inv Hel Hsrc Hd.
  { unfold Eligible in Hel. by rewrite He in Hel. }
  destruct H as [<- Hr _ _ _ _ _ _ _ _ Hcp _ Hdt Hsp _]. cbv zeta.
  assert (sx_src x = src) as <- by congruence. assert (d = split_detail x) as -> by congruence.
  apply isolate_inv in Hsp as (_ & _ & _ & -> & _).
  cbn [sd_Compatibility sd_NewRoleARN split_detail]. split.
  - intros ev ob doc st pr v Hev Hob Hpr Hdoc Hst Hprin Hv Hk.
    destruct (compat_complete (role_ref (sx_src x)) (si_ScanEvidence (sx_in x)) (si_TrustReferences (sx_in x)) (si_MappedResources (sx_in x))
      {| ci_Kind := CompatResourcePolicy; ci_Resource := ob_ResourceARN ob; ci_Form := ob_Form ob;
         ci_Principal := classifyAWSPrincipal v (role_ref (sx_src x)); ci_Handling := handling_of (si_MappedResources (sx_in x)) (ob_ResourceARN ob) |})
      as (it & Hit & Hh & E1 & E2 & E3).
    + rewrite Hev. apply elem_of_app. left. apply list_elem_of_In, in_flat_map. exists ob. split; [by apply list_elem_of_In|].
      unfold observation_items. rewrite Hpr, Hdoc. apply in_flat_map. exists st. split; [by apply list_elem_of_In|].
      unfold statement_items. apply in_app_iff. left. rewrite Hprin. apply in_flat_map. exists v. split; [by apply list_elem_of_In|].
      assert ((classifyAWSPrincipal v (role_ref (sx_src x)) =? PrincipalRoleARN)%string ||
              (classifyAWSPrincipal v (role_ref (sx_src x)) =? PrincipalRoleSession)%string = true) as ->; [|by left].
      rewrite !elem_of_cons in Hk. rewrite orb_true_iff, !String.eqb_eq. destruct Hk as [?|[?|Hk%elem_of_nil]]; [by left|by right|done].
    + cbn in E1, E2, E3. rewrite <- Hcp in Hit. unfold handled in Hh. rewrite E1, E2 in Hh. cbn in Hh. unfold handling_of in Hh.
      case_bool_decide.
      * apply in_split_compat; [apply (bool_decide_eq_true_1 _); reflexivity|]. apply resource_in_compat; [done|].
        split; [done|]. by exists it.
      * by exists it.
  - intros r Hrf.
    destruct (compat_complete (role_ref (sx_src x)) (si_ScanEvidence (sx_in x)) (si_TrustReferences (sx_in x)) (si_MappedResources (sx_in x))
      {| ci_Kind := CompatTrustPolicy; ci_Resource := r; ci_Form := ""; ci_Principal := "";
         ci_Handling := handling_of (si_MappedResources (sx_in x)) r |}) as (it & Hit & Hh & E1 & E2 & E3).
    + apply elem_of_app. right. apply list_elem_of_In, in_map_iff. exists r. split; [done|].
      by apply list_elem_of_In, elem_of_sortedUnique.
    + cbn in E1, E2, E3. rewrite <- Hcp in Hit. unfold handled in Hh. rewrite E1, E2 in Hh. cbn in Hh. unfold handling_of in Hh.
      case_bool_decide.
      * apply in_split_compat; [apply (bool_decide_eq_true_1 _); reflexivity|]. apply trust_in_compat; [done|].
        split; [done|]. by exists it.
      * by exists it.
Qed.


(** * An ECS service that gets a role of its own *)

Definition sample_hash : string := "sha256:0000000000000000000000000000000000000000000000000000000000000001".
Definition sample_new_role : string := "arn:aws:iam::123456789012:role/x-orders".
Definition sample_queue : string := "arn:aws:sqs:eu-west-1:123456789012:q".

Definition sample_source_role : LiveRole :=
  {| lr_RoleID := "AROAEXAMPLEROLE00001"; lr_ARN := "arn:aws:iam::123456789012:role/x"; lr_Name := "x"; lr_Path := "/";
     lr_AccountID := "123456789012"; lr_Partition := "aws"; lr_Tags := {["team" := "orders"]}; lr_Continuity := "immutable";
     lr_BoundaryARN := ""; lr_ManagedPolicies := [{| pr_Ref := "arn:aws:iam::123456789012:policy/read-only"; pr_DocumentHash := "" |}];
     lr_InlinePolicies := []; lr_TrustPolicyHash := sample_hash; lr_Documents := ∅ |}.

(** A queue policy that names the role. *)
Definition sample_queue_statement : Statement :=
  {| st_Sid := "s"; st_Effect := EffectAllow; st_Action := ["sqs:SendMessage"]; st_NotAction := []; st_IsNotAction := false;
     st_Resource := None; st_NotResource := None;
     st_Principal := Some {| Wildcard := false; Values := {["AWS" := ["arn:aws:iam::123456789012:role/x"]]} |};
     st_NotPrincipal := None; st_Conditions := []; st_Raw := ""; st_Unknown := [] |}.

Definition sample_observation : ResourcePolicyObservation :=
  {| ob_Form := "sqs_queue_policy"; ob_Region := "eu-west-1"; ob_ResourceARN := sample_queue; ob_PolicyPresent := true;
     ob_DocumentHash := ""; ob_ParseState := ""; ob_Document := Some {| doc_Version := ""; doc_ID := ""; doc_Statements := [sample_queue_statement] |} |}.

Definition sample_split_intent : DedicatedIdentityIntent :=
  {| di_Kind := IntentDedicatedIdentity;
     di_Source := {| sj_IdentityAccountID := "00000000-0000-0000-0000-000000000001"; sj_RoleID := "AROAEXAMPLEROLE00001";
                     sj_AccountID := "123456789012" |};
     di_Workload := {| dw_WorkloadID := "00000000-0000-0000-0000-000000000002"; dw_BindingKind := BindingECSTaskRole;
                       dw_BindingRef := "arn:aws:ecs:eu-west-1:123456789012:service/c/orders" |};
     di_NewRole := {| nr_Name := "x-orders"; nr_Path := "/"; nr_TrustPolicyHash := sample_hash;
                      nr_ManagedPolicyARNs := ["arn:aws:iam::123456789012:policy/read-only"]; nr_InlinePolicies := []; nr_BoundaryARN := "" |};
     di_Delivery := DeliveryIaCPR |}.

Definition sample_split_input : SplitInput :=
  {| si_Control := sample_control; si_Intent := sample_split_intent;
     si_Live := {| ReadAt := day 2026 7 1; Role := Some sample_source_role; Policies := ∅; Roles := {[sample_new_role := None]};
                   Bindings := ∅ |};
     si_Evidence := ti_Evidence sample_target; si_SubjectKind := SubjectECSService;
     si_SubjectARN := "arn:aws:ecs:eu-west-1:123456789012:service/c/orders"; si_SubjectARNs := []; si_FromWorkloadKeys := [];
     si_TaskFamily := "orders"; si_Aliases := []; si_UnaliasedVersions := [];
     si_ScanEvidence := Some {| Coverage := []; Observations := [sample_observation]; EnabledRegionsUnknown := false |};
     si_AccountServices := None; si_TrustReferences := []; si_MappedResources := {[sample_queue]};
     si_MigrationEvidenceAvailable := true |}.

Definition isolates_with (n : nat) (newARN : string) (i : SplitInput) : bool :=
  match CompileSplit i with
  | Ok ps => Eligible (sp_Split ps) && (length (pl_Ops (sp_Split ps)) =? n)%nat &&
             match df_Split (pl_Diff (sp_Split ps)) with Some d => (sd_NewRoleARN d =? newARN)%string | None => false end
  | Err _ => false
  end.

Lemma isolates_with_spec n newARN i :
  isolates_with n newARN i = true ->
  exists ps d, CompileSplit i = Ok ps /\ Eligible (sp_Split ps) = true /\ length (pl_Ops (sp_Split ps)) = n /\
    df_Split (pl_Diff (sp_Split ps)) = Some d /\ sd_NewRoleARN d = newARN.
Proof.
  unfold isolates_with. destruct (CompileSplit i) as [ps|]; [|done].
  intros [[He Hl%Nat.eqb_eq]%andb_true_iff Hd]%andb_true_iff. destruct (df_Split _) as [d|] eqn:Ed; [|done].
  exists ps, d. apply String.eqb_eq in Hd. by split_and!.
Qed.

Lemma sample_isolates : isolates_with 4 sample_new_role sample_split_input = true.
Proof. vm_compute. reflexivity. Qed.

Lemma split_preserves_access_witness :
  exists ps d, CompileSplit sample_split_input = Ok ps /\ df_Split (pl_Diff (sp_Split ps)) = Some d /\
    dedicatedRoleHash sample_source_role = Ok (sd_NewRoleHash d).
Proof.
  destruct (isolates_with_spec _ _ _ sample_isolates) as (ps & d & Hc & He & _ & Hd & _).
  destruct (split_preserves_access sample_split_input ps Hc He) as (src & d' & Hr & _ & Hd' & _ & Hh & _).
  exists ps, d'. split; [exact Hc|]. split; [exact Hd'|].
  change (Some sample_source_role = Some src) in Hr. injection Hr as <-.
  apply Hh; (apply Forall_cons_2; [split; [discriminate|reflexivity]|apply Forall_nil_2]).
Defined.

Lemma split_revert_mirrors_witness :
  exists ps rv, CompileSplit sample_split_input = Ok ps /\ sp_Revert ps = Some rv /\
    pl_Facts rv ≡ₚ swap_fact <$> pl_Facts (sp_Split ps).
Proof.
  destruct (isolates_with_spec _ _ _ sample_isolates) as (ps & d & Hc & He & _).
  pose proof (split_revert_mirrors sample_split_input ps Hc) as H. destruct (sp_Revert ps) as [rv|] eqn:Hrv.
  - exists ps, rv. split; [exact Hc|]. split; [exact Hrv|]. apply H.
  - exfalso. destruct H as [H _]. congruence.
Defined.

Lemma split_references_kept_witness :
  exists ps, CompileSplit sample_split_input = Ok ps /\
    resource_principal OpAddResourcePolicyPrincipal sample_queue sample_new_role ∈ pl_Ops (sp_Split ps).
Proof.
  destruct (isolates_with_spec _ _ _ sample_isolates) as (ps & d & Hc & He & _ & Hd & Hn). exists ps. split; [exact Hc|].
  destruct (split_references_kept sample_split_input ps sample_source_role d Hc He eq_refl Hd) as [H _].
  specialize (H {| Coverage := []; Observations := [sample_observation]; EnabledRegionsUnknown := false |} sample_observation
    {| doc_Version := ""; doc_ID := ""; doc_Statements := [sample_queue_statement] |} sample_queue_statement
    {| Wildcard := false; Values := {["AWS" := ["arn:aws:iam::123456789012:role/x"]]} |} "arn:aws:iam::123456789012:role/x").
  rewrite Hn in H. apply H; try reflexivity; try left; apply (bool_decide_eq_true_1 _); vm_compute; reflexivity.
Defined.

(** The same service on a role with an AWS-managed policy. *)
Definition sample_aws_role : LiveRole :=
  {| lr_RoleID := "AROAEXAMPLEROLE00001"; lr_ARN := "arn:aws:iam::123456789012:role/x"; lr_Name := "x"; lr_Path := "/";
     lr_AccountID := "123456789012"; lr_Partition := "aws"; lr_Tags := ∅; lr_Continuity := "immutable"; lr_BoundaryARN := "";
     lr_ManagedPolicies := [{| pr_Ref := "arn:aws:iam::aws:policy/ReadOnlyAccess"; pr_DocumentHash := "" |}];
     lr_InlinePolicies := []; lr_TrustPolicyHash := sample_hash; lr_Documents := ∅ |}.

Definition sample_aws_split : SplitInput :=
  {| si_Control := sample_control; si_Intent := sample_split_intent;
     si_Live := {| ReadAt := day 2026 7 1; Role := Some sample_aws_role; Policies := ∅; Roles := {[sample_new_role := None]};
                   Bindings := ∅ |};
     si_Evidence := ti_Evidence sample_target; si_SubjectKind := SubjectECSService;
     si_SubjectARN := "arn:aws:ecs:eu-west-1:123456789012:service/c/orders"; si_SubjectARNs := []; si_FromWorkloadKeys := [];
     si_TaskFamily := "orders"; si_Aliases := []; si_UnaliasedVersions := []; si_ScanEvidence := None; si_AccountServices := None;
     si_TrustReferences := []; si_MappedResources := ∅; si_MigrationEvidenceAvailable := true |}.

Definition split_compiles (i : SplitInput) : bool := match CompileSplit i with Ok _ => true | Err _ => false end.

Lemma sample_aws_compiles : split_compiles sample_aws_split = true.
Proof. vm_compute. reflexivity. Qed.


(** ** One ARN for two policies *)

(** The role carries a policy of the account and one of AWS; the intent names one
    policy whose name is their join. It passes [reARN] and has the same join. *)
Definition joined_arn : string := "arn:aws:iam::123456789012:policy/a,arn:aws:iam::aws:policy/ReadOnlyAccess".

Definition joined_role : LiveRole :=
  {| lr_RoleID := "AROAEXAMPLEROLE00001"; lr_ARN := "arn:aws:iam::123456789012:role/x"; lr_Name := "x"; lr_Path := "/";
     lr_AccountID := "123456789012"; lr_Partition := "aws"; lr_Tags := ∅; lr_Continuity := "immutable"; lr_BoundaryARN := "";
     lr_ManagedPolicies := [{| pr_Ref := "arn:aws:iam::123456789012:policy/a"; pr_DocumentHash := "" |};
                            {| pr_Ref := "arn:aws:iam::aws:policy/ReadOnlyAccess"; pr_DocumentHash := "" |}];
     lr_InlinePolicies := []; lr_TrustPolicyHash := sample_hash; lr_Documents := ∅ |}.

Definition joined_split : SplitInput :=
  {| si_Control := sample_control;
     si_Intent := {| di_Kind := di_Kind sample_split_intent; di_Source := di_Source sample_split_intent; di_Workload := di_Workload sample_split_intent;
                     di_NewRole := {| nr_Name := "x-orders"; nr_Path := "/"; nr_TrustPolicyHash := sample_hash; nr_ManagedPolicyARNs := [joined_arn];
                                      nr_InlinePolicies := []; nr_BoundaryARN := "" |}; di_Delivery := DeliveryIaCPR |};
     si_Live := {| ReadAt := day 2026 7 1; Role := Some joined_role; Policies := ∅; Roles := {[sample_new_role := None]}; Bindings := ∅ |};
     si_Evidence := si_Evidence sample_split_input; si_SubjectKind := SubjectECSService;
     si_SubjectARN := si_SubjectARN sample_split_input; si_SubjectARNs := []; si_FromWorkloadKeys := [];
     si_TaskFamily := "orders"; si_Aliases := []; si_UnaliasedVersions := []; si_ScanEvidence := si_ScanEvidence sample_split_input;
     si_AccountServices := None; si_TrustReferences := []; si_MappedResources := {[sample_queue]}; si_MigrationEvidenceAvailable := true |}.

(** The split is accepted although the new role would carry neither policy. *)
Example joined_arns_pass :
  match CompileSplit joined_split with Ok ps => Eligible (sp_Split ps) && negb (length (pl_Ops (sp_Split ps)) =? 0)%nat | Err _ => false end = true.
Proof. vm_compute. reflexivity. Qed.
