(* ===== verification/RoleOnly.v ===== *)
(** The role-only recovery of internal/igagov/compile.go: when the policy an
    apply installed has gained other users, [CompileRoleOnlyRecovery] restores
    this role's earlier state without touching that policy. It reads the state
    the apply left from the undo plan's stored precondition. *)

From stdpp Require Import base list strings gmap sorting.
From Stdlib Require Import Ascii.
From S2P Require Import Prelude Slices Qualify Float64 Utf8 Json JsonCanon Marshal Sha256 PolicyDoc Catalog Text Routes Hashes PolicyCanon TimeFmt Live Boundary Narrow Intent Bundle FirstAttach Plan Recover PlanSet Compile.

#[local] Open Scope plan_scope.

Definition RefuseRoleOnlyNotNeeded : string := "role_only_recovery_not_needed".
Definition RefuseRoleOnlyUnavailable : string := "role_only_recovery_unavailable".
Definition CaseRecoverDetach : string := "role_only_detach".
Definition CaseRecoverNewPolicy : string := "role_only_new_policy".
Definition CaseRecoverSplit : string := "role_only_repoint_shared".

(** * [json.Unmarshal] of a stored precondition

    Preconditions are stored as the canonical text [CanonicalizeValue] writes,
    so the text is read with the parser of canonical.go; [encoding/json] differs
    from it only on texts that are not I-JSON (repeated names, lone surrogates,
    bytes that are not UTF-8). Names match without regard to case, null leaves a
    string alone and clears a pointer or a slice, a value of another type is an
    error, and unknown names are skipped. *)

Definition name_is (key name : string) : bool := EqualFold key name.

Definition into_string (v : json) (old : string) : option string :=
  match v with JNull => Some old | JString s => Some s | _ => None end.

Definition into_pointer (v : json) : option (option string) :=
  match v with JNull => Some None | JString s => Some (Some s) | _ => None end.

Definition into_fields {A} (field : string -> json -> A -> option A) (v : json) (x : A) : option A :=
  match v with
  | JNull => Some x
  | JObject ms => foldl (fun acc m => acc ≫= field m.1 m.2) (Some x) ms
  | _ => None
  end.

Definition zero_entity : AttachedEntity := {| ae_Kind := ""; ae_ID := ""; ae_Name := ""; ae_Usage := "" |}.
Definition zero_state : ArtifactStateFacts :=
  {| as_RoleID := ""; as_BoundaryARN := None; as_BoundaryDocumentHash := None; as_AttachmentSet := [] |}.

Definition entity_field (key : string) (v : json) (e : AttachedEntity) : option AttachedEntity :=
  let '(Build_AttachedEntity k i n u) := e in
  if name_is key "kind" then s ← into_string v k; Some (Build_AttachedEntity s i n u)
  else if name_is key "id" then s ← into_string v i; Some (Build_AttachedEntity k s n u)
  else if name_is key "name" then s ← into_string v n; Some (Build_AttachedEntity k i s u)
  else if name_is key "usage" then s ← into_string v u; Some (Build_AttachedEntity k i n s)
  else Some e.

Definition into_entities (v : json) : option (list AttachedEntity) :=
  match v with
  | JNull => Some []
  | JArray l => mapM (fun v => into_fields entity_field v zero_entity) l
  | _ => None
  end.

Definition state_field (key : string) (v : json) (st : ArtifactStateFacts) : option ArtifactStateFacts :=
  let '(Build_ArtifactStateFacts r a h l) := st in
  if name_is key "role_id" then s ← into_string v r; Some (Build_ArtifactStateFacts s a h l)
  else if name_is key "boundary_arn" then p ← into_pointer v; Some (Build_ArtifactStateFacts r p h l)
  else if name_is key "boundary_document_hash" then p ← into_pointer v; Some (Build_ArtifactStateFacts r a p l)
  else if name_is key "attachment_set" then es ← into_entities v; Some (Build_ArtifactStateFacts r a h es)
  else Some st.

Definition precondition_field (key : string) (v : json) (st : ArtifactStateFacts) : option ArtifactStateFacts :=
  if name_is key "artifact_state" then into_fields state_field v st else Some st.

(* src: internal/igagov/compile.go:1961-1966 (CompileRoleOnlyRecovery, precondition) *)
Definition unmarshal_state (text : string) : option ArtifactStateFacts :=
  match parseJSON text with
  | Ok v => into_fields precondition_field v zero_state
  | Err _ => None
  end.

(** * The recovery plan *)

(* src: internal/igagov/compile.go:1917-1931 (RecoveryInput) *)
Record RecoveryInput := {
  ri_Control : ControlRef;
  ri_Undo : Plan;
  ri_UndoneDeploymentID : string;
  ri_EarlierDocument : string;
  ri_Live : LiveRead;
  ri_Evidence : EvidenceRef }.

(** [strings.ReplaceAll(s, "-", "")] *)
Fixpoint drop_hyphens (s : string) : string :=
  match s with
  | "" => ""
  | String c s => if bool_decide (c = "-"%char) then drop_hyphens s else String c (drop_hyphens s)
  end.

(* src: internal/igagov/compile.go:1934-1941 (RecoveryPolicyARN) *)
Definition RecoveryPolicyARN (partition account roleID deploymentID : string) : string * string :=
  let hex := drop_hyphens (ToLower deploymentID) in
  let hex := if (8 <? str_length hex)%nat then String.substring 0 8 hex else hex in
  let name := AuthSecBoundaryPrefix +:+ roleID +:+ "-u" +:+ hex in
  ("arn:" +:+ partition +:+ ":iam::" +:+ account +:+ ":policy" +:+ AuthSecPolicyPath +:+ name, name).

(** The role, what the apply installed on it, and who else uses it now. *)
Record recoverCtx := {
  vx_role : LiveRole;
  vx_installed : string;
  vx_docHash : string;
  vx_others : list AttachedEntity;
  vx_owner : string }.

(** There was no boundary before the apply: detach. *)
(* src: internal/igagov/compile.go:2004-2010 (CompileRoleOnlyRecovery, detach) *)
Definition recover_detach (x : recoverCtx) (p : Plan) : Plan :=
  let b := vx_installed x in
  let h := vx_docHash x in
  p |> set_DesiredAttachment AttachmentAbsent
    |> set_Ops [delete_boundary (lr_Name (vx_role x))]
    |> set_Diff (pl_Diff p |> diff_Case CaseRecoverDetach |> diff_BoundaryBefore (ref b h))
    |> set_Facts [factRole (lr_RoleID (vx_role x)); factBoundary b ValueNone; factPolicyDoc b h h;
                  factPolicyOwner b (vx_owner x) (vx_owner x); factPolicyUsers b (vx_others x) (vx_others x)].

(** The earlier AuthSec document, under a policy of its own. *)
(* src: internal/igagov/compile.go:2011-2038 (CompileRoleOnlyRecovery, new policy) *)
Definition recover_new_policy (i : RecoveryInput) (x : recoverCtx) (p : Plan) : result Plan :=
  if is_empty (ri_EarlierDocument i) then compileErr ErrCodeInput ["the earlier document's text is needed for a -u policy"]
  else
    '(eh, p) ← archiveText (ri_EarlierDocument i) p;
    if negb (eh =? derefOr (pl_DesiredDocumentHash (ri_Undo i)) "")%string
    then compileErr ErrCodeInput ["the earlier document does not hash to the undo's desired document"]
    else
      let role := vx_role x in
      let b := vx_installed x in
      let h := vx_docHash x in
      let '(uarn, uname) := RecoveryPolicyARN (role_partition role) (lr_AccountID role) (lr_RoleID role) (ri_UndoneDeploymentID i) in
      let p := refuse_if (bool_decide (is_Some (existing (ri_Live i) uarn))) RefusePolicyNameInUse uarn p in
      Ok (p |> set_DesiredAttachment AttachmentPresent |> set_DesiredBoundaryARN (Some uarn) |> set_DesiredDocumentHash (Some eh)
            |> set_Ops [create_policy uarn uname AuthSecPolicyPath eh (createTags (ri_Control i)); put_boundary (lr_Name role) uarn]
            |> set_Diff (pl_Diff p |> diff_Case CaseRecoverNewPolicy |> diff_BoundaryBefore (ref b h) |> diff_BoundaryAfter (ref uarn eh))
            |> set_Facts [factRole (lr_RoleID role); factBoundary b uarn; factPolicyDoc uarn ValueAbsent eh;
                          factPolicyOwner uarn ValueAbsent (vx_owner x); factPolicyUsers uarn [] []; factPolicyDoc b h h;
                          factPolicyOwner b (vx_owner x) (vx_owner x); factPolicyUsers b (vx_others x) (vx_others x)]).

(** A split copy gained users: back to the shared boundary as it is now. *)
(* src: internal/igagov/compile.go:2038-2065 (CompileRoleOnlyRecovery, shared) *)
Definition recover_shared (i : RecoveryInput) (x : recoverCtx) (shared : string) (p : Plan) : result Plan :=
  let role := vx_role x in
  let b := vx_installed x in
  let h := vx_docHash x in
  sp ← live_policy (ri_Live i) shared;
  match sp with
  | None => Ok (refuse_if true RefuseBaselineMissing shared p
                |> set_DesiredAttachment AttachmentPresent |> set_DesiredBoundaryARN (Some shared))
  | Some sp =>
      '(sh, p) ← archiveText (lp_DefaultDocument sp) p;
      let sOthers := otherUsers (lp_AttachmentSet sp) (lr_RoleID role) in
      Ok (p |> set_DesiredAttachment AttachmentPresent |> set_DesiredBoundaryARN (Some shared) |> set_DesiredDocumentHash (Some sh)
            |> set_Ops [put_boundary (lr_Name role) shared]
            |> set_Diff (pl_Diff p |> diff_Case CaseRecoverSplit |> diff_BoundaryBefore (ref b h) |> diff_BoundaryAfter (ref shared sh)
                           |> diff_Notes (df_Notes (pl_Diff p) ++ [NoteCopyRetained]))
            |> set_Facts [factRole (lr_RoleID role); factBoundary b shared; factPolicyDoc b h h;
                          factPolicyUsers b (vx_others x) (vx_others x); factPolicyDoc shared sh sh;
                          factPolicyUsers shared sOthers sOthers])
  end.

(** The undo decides the case. *)
(* src: internal/igagov/compile.go:2003-2071 (CompileRoleOnlyRecovery, cases) *)
Definition recover_case (i : RecoveryInput) (x : recoverCtx) (p : Plan) : result Plan :=
  let u := ri_Undo i in
  if (pl_DesiredAttachment u =? AttachmentAbsent)%string then Ok (recover_detach x p)
  else if is_nil (pl_ReplacedBoundaryARN u) && isAuthSecPath (derefOr (pl_DesiredBoundaryARN u) "") then recover_new_policy i x p
  else match pl_ReplacedBoundaryARN u, pl_DesiredBoundaryARN u with
       | Some _, Some shared => recover_shared i x shared p
       | _, _ =>
           Ok (refuse_if true RefuseRoleOnlyUnavailable
                 "the boundary is a customer document narrowed in place; restore it through the customer's own change" p
               |> set_DesiredAttachment (pl_DesiredAttachment u))
       end.

(** The note, and what direct delivery may write: every foreign operation is
    refused. *)
(* src: internal/igagov/compile.go:2072-2082 (CompileRoleOnlyRecovery, end) *)
Definition recover_finish (p : Plan) : result Plan :=
  let c := df_Case (pl_Diff p) in
  let p := if negb (c =? CaseRecoverSplit)%string && negb (is_empty c) then add_notes [NotePolicyRetained] p else p in
  let p := if (pl_Delivery p =? DeliveryDirect)%string
           then refuse (map (fun op => {| ref_Code := RefuseDirectNeedsAuthSecTarget; ref_Detail := op_PolicyARN op |})
                          (List.filter foreign_op (pl_Ops p))) p
           else p in
  seal p.

(* src: internal/igagov/compile.go:1946-2083 (CompileRoleOnlyRecovery) *)
Definition CompileRoleOnlyRecovery (i : RecoveryInput) : result Plan :=
  let ctl := ri_Control i in
  let u := ri_Undo i in
  let live := ri_Live i in
  _ ← control_validate ctl;
  if negb (pl_Kind u =? PlanUndo)%string || negb (pl_ControlID u =? ct_ID ctl)%string
  then compileErr ErrCodeInput ["role-only recovery derives from this control's undo plan"]
  else
    _ ← evidence_validate (ri_Evidence i) (ct_RoleID ctl);
    let p := start_plan (ri_Evidence i) (ct_ID ctl) PlanUndo (pl_Delivery u) (ReadAt live)
             |> set_Eligibility (pl_Eligibility u) |> set_ArtifactDisposition DispositionRetainShared |> set_Impact (pl_Impact u) in
    match unmarshal_state (pl_Precondition u) with
    | None => compileErr ErrCodeInput ["the undo plan's precondition is not an artifact_state"]
    | Some us =>
        match checkIncarnation live (ct_RoleID ctl), Role live with
        | [], Some role =>
            st ← ArtifactState live;
            p ← statePrecondition st p;
            let installed := derefOr (as_BoundaryARN us) "" in
            let none o := derefOr o "none" in
            let p := p |> set_BeforeDocumentHash (as_BoundaryDocumentHash st) |> set_ReplacedBoundaryARN (Some installed)
                       |> refuse_if (is_empty installed || negb (derefOr (as_BoundaryARN st) "" =? installed)%string ||
                                     negb (derefOr (as_BoundaryDocumentHash st) "" =? derefOr (as_BoundaryDocumentHash us) "")%string)
                            RefuseChangedOutsideAuthSec
                            ("boundary " +:+ none (as_BoundaryARN st) +:+ " / " +:+ none (as_BoundaryDocumentHash st) +:+
                             " is not what the apply left (" +:+ installed +:+ " / " +:+ none (as_BoundaryDocumentHash us) +:+ ")") in
            let others := otherUsers (as_AttachmentSet st) (lr_RoleID role) in
            let p := refuse_if (length others =? 0)%nat RefuseRoleOnlyNotNeeded
                       (installed +:+ " has no other users; run the undo itself") p in
            let x := {| vx_role := role; vx_installed := installed; vx_docHash := derefOr (as_BoundaryDocumentHash us) "";
                        vx_others := others; vx_owner := control_ownerValue ctl |} in
            p ← recover_case i x p;
            recover_finish p
        | rs, _ =>
            let p := refuse rs p |> set_DesiredAttachment (pl_DesiredAttachment u)
                     |> set_ReplacedBoundaryARN (Some (derefOr (as_BoundaryARN us) "unknown")) in
            p ← statePrecondition {| as_RoleID := ct_RoleID ctl; as_BoundaryARN := None; as_BoundaryDocumentHash := None;
                                     as_AttachmentSet := [] |} p;
            seal p
        end
    end.
