(* ===== verification/RoleOnlyFacts.v ===== *)
(** What a role-only recovery guarantees: the state the apply left is read back
    from the undo plan, and the plan restores the role without writing any policy
    that was there. *)

From stdpp Require Import base list strings gmap sorting relations.
From Stdlib Require Import Ascii.
From S2P Require Import Prelude Slices Qualify Float64 Utf8 Json JsonCanon Marshal Sha256 PolicyDoc Catalog Text Routes Hashes PolicyCanon TimeFmt Live Boundary Narrow Intent Bundle FirstAttach Plan Recover Resume PlanSet Compile CompileFacts TargetFacts RemoveFacts RoleOnly.

#[local] Open Scope plan_scope.

(** * The stored precondition is read back *)

(** Strings that survive JSON. *)
Definition entity_valid (e : AttachedEntity) : Prop :=
  Forall valid_utf8 [ae_Kind e; ae_ID e; ae_Name e; ae_Usage e].
Record state_valid (st : ArtifactStateFacts) : Prop := {
  sv_role : valid_utf8 (as_RoleID st);
  sv_arn : forall s, as_BoundaryARN st = Some s -> valid_utf8 s;
  sv_hash : forall s, as_BoundaryDocumentHash st = Some s -> valid_utf8 s;
  sv_set : Forall entity_valid (as_AttachmentSet st) }.

Lemma entity_value e : entity_valid e ->
  value_of (AttachedEntity_val e) =
  JObject [("kind", JString (ae_Kind e)); ("id", JString (ae_ID e)); ("name", JString (ae_Name e)); ("usage", JString (ae_Usage e))].
Proof.
  unfold entity_valid. rewrite !Forall_cons. intros (Hk & Hi & Hn & Hu & _). unfold AttachedEntity_val. cbn [value_of map fst snd].
  rewrite (sanitize_id (ae_Kind e)), (sanitize_id (ae_ID e)), (sanitize_id (ae_Name e)), (sanitize_id (ae_Usage e)) by done.
  reflexivity.
Qed.

Lemma entity_decodes e : entity_valid e -> into_fields entity_field (norm (value_of (AttachedEntity_val e))) zero_entity = Some e.
Proof. intros H. rewrite entity_value by done. destruct e. reflexivity. Qed.

Lemma entities_decode l : Forall entity_valid l -> into_entities (norm (value_of (GSlice (map AttachedEntity_val l)))) = Some l.
Proof.
  intros H. cbn [value_of norm into_entities]. rewrite !map_map.
  apply mapM_Some. induction H as [|e l He _ IH]; [constructor|]. constructor; [by apply entity_decodes|done].
Qed.

Lemma opt_value o : (forall s, o = Some s -> valid_utf8 s) -> value_of (opt_val o) = match o with Some s => JString s | None => JNull end.
Proof. destruct o as [s|]; [|done]. intros H. cbn. by rewrite sanitize_id by by apply H. Qed.

Lemma state_decodes st :
  state_valid st -> into_fields state_field (norm (value_of (ArtifactStateFacts_val st))) zero_state = Some st.
Proof.
  intros [Hr Ha Hh Hs]. unfold ArtifactStateFacts_val.
  pose proof (entities_decode _ Hs) as He. set (es := GSlice (map AttachedEntity_val (as_AttachmentSet st))) in *. clearbody es.
  cbn [value_of map fst snd]. rewrite (opt_value _ Ha), (opt_value _ Hh), (sanitize_id (as_RoleID st)) by done.
  set (a := match as_BoundaryARN st with Some s => JString s | None => JNull end).
  set (h := match as_BoundaryDocumentHash st with Some s => JString s | None => JNull end).
  assert (norm (JObject [(sanitize "role_id", JString (as_RoleID st)); (sanitize "boundary_arn", a);
                         (sanitize "boundary_document_hash", h); (sanitize "attachment_set", value_of es)]) =
          JObject [("attachment_set", norm (value_of es)); ("boundary_arn", norm a); ("boundary_document_hash", norm h);
                   ("role_id", JString (as_RoleID st))]) as -> by reflexivity.
  cbn [into_fields foldl state_field zero_state]. cbn. rewrite He. cbn. destruct st as [r [a'|] [h'|] l]; reflexivity.
Qed.

Lemma AttachedEntity_gok e : gok (AttachedEntity_val e) /\ (gheight (AttachedEntity_val e) <= 1)%nat.
Proof. split; [constructor; [apply (bool_decide_unpack _); vm_compute; done|repeat constructor]|cbn; lia]. Qed.

Lemma state_pre_gok st :
  let g := GStruct [("artifact_state", ArtifactStateFacts_val st)] in gok g /\ (gheight g <= maxJSONDepth)%nat.
Proof.
  cbv zeta. destruct (slice_gok AttachedEntity_val (as_AttachmentSet st) 1) as [Hs Hh]; [intros e _; apply AttachedEntity_gok|].
  unfold ArtifactStateFacts_val.
  assert (forall o, gok (opt_val o) /\ (gheight (opt_val o) <= 0)%nat) as Ho.
  { intros [s|]; (split; [constructor|cbn; lia]). }
  destruct (Ho (as_BoundaryARN st)) as [Ha1 Ha2], (Ho (as_BoundaryDocumentHash st)) as [Hb1 Hb2]. clear Ho.
  generalize dependent (opt_val (as_BoundaryARN st)). generalize dependent (opt_val (as_BoundaryDocumentHash st)).
  generalize dependent (GSlice (map AttachedEntity_val (as_AttachmentSet st))). intros es He Hes b Hb1 Hb2 a Ha1 Ha2. split.
  - constructor; [apply (bool_decide_unpack _); vm_compute; done|]. apply Forall_cons_2; [|apply Forall_nil_2]. cbn [snd].
    constructor; [apply (bool_decide_unpack _); vm_compute; done|].
    repeat first [apply Forall_cons_2|apply Forall_nil_2]; cbn [snd]; first [done|constructor].
  - etrans; [|apply (Nat.leb_le 6); vm_compute; reflexivity]. cbn. lia.
Qed.

#[local] Opaque writeCanonical CanonicalizeValue.

Lemma precondition_decodes st pc :
  state_valid st -> CanonicalizeValue (GStruct [("artifact_state", ArtifactStateFacts_val st)]) = Ok pc -> unmarshal_state pc = Some st.
Proof.
  intros Hv. destruct (state_pre_gok st) as [Hg Hh]. rewrite CanonicalizeValue_ok by done. intros [= <-].
  destruct (parseJSON_wf _ _ (Marshal_parse _ Hg Hh)) as [Hw Hd]. unfold unmarshal_state. rewrite parse_canonical by done.
  cbn [value_of map fst snd]. change (norm (JObject [(sanitize "artifact_state", value_of (ArtifactStateFacts_val st))]))
    with (JObject [("artifact_state", norm (value_of (ArtifactStateFacts_val st)))]).
  cbn [into_fields foldl fst snd mbind option_bind]. unfold precondition_field.
  change (name_is "artifact_state" "artifact_state") with true. cbv iota. by apply state_decodes.
Qed.

#[local] Opaque ContentHash checkStorable ImpactHash PlanHash MaterialHash StatePreconditionHash CanonicalDocument usersValue
  impact_Normalized Join isAuthSecPath unmarshal_state.

(** * The cases *)

Definition kept_facts (x : recoverCtx) (owned : bool) : list Fact :=
  let b := vx_installed x in
  factPolicyDoc b (vx_docHash x) (vx_docHash x) :: factPolicyUsers b (vx_others x) (vx_others x) ::
  (if owned then [factPolicyOwner b (vx_owner x) (vx_owner x)] else []).

Definition recovery (x : recoverCtx) (attachment : string) (arn hash : option string) (ops : list Op) (facts : list Fact) : removal :=
  {| rv_Attachment := attachment; rv_ARN := arn; rv_Hash := hash; rv_Replaced := Some (vx_installed x);
     rv_Disposition := DispositionRetainShared; rv_Ops := ops; rv_Facts := facts |}.

Definition rec_arn (i : RecoveryInput) (x : recoverCtx) : string :=
  (RecoveryPolicyARN (role_partition (vx_role x)) (lr_AccountID (vx_role x)) (lr_RoleID (vx_role x)) (ri_UndoneDeploymentID i)).1.
Definition rec_name (i : RecoveryInput) (x : recoverCtx) : string :=
  (RecoveryPolicyARN (role_partition (vx_role x)) (lr_AccountID (vx_role x)) (lr_RoleID (vx_role x)) (ri_UndoneDeploymentID i)).2.

Definition role_base (x : recoverCtx) (after : string) : list Fact :=
  [factRole (lr_RoleID (vx_role x)); factBoundary (vx_installed x) after].

(** The three recoveries; the facts are listed up to their order. *)
Inductive recovery_kind (i : RecoveryInput) (x : recoverCtx) : removal -> Prop :=
  | rk_detach facts :
      pl_DesiredAttachment (ri_Undo i) = AttachmentAbsent -> facts ≡ₚ role_base x ValueNone ++ kept_facts x true ->
      recovery_kind i x (recovery x AttachmentAbsent None None [delete_boundary (lr_Name (vx_role x))] facts)
  | rk_new eh facts (uarn := rec_arn i x) :
      pl_DesiredAttachment (ri_Undo i) <> AttachmentAbsent ->
      DocumentHash (ri_EarlierDocument i) = Ok eh -> derefOr (pl_DesiredDocumentHash (ri_Undo i)) "" = eh ->
      existing (ri_Live i) uarn = None ->
      facts ≡ₚ role_base x uarn ++ kept_facts x true ++
        [factPolicyDoc uarn ValueAbsent eh; factPolicyOwner uarn ValueAbsent (vx_owner x); factPolicyUsers uarn [] []] ->
      recovery_kind i x (recovery x AttachmentPresent (Some uarn) (Some eh)
        [create_policy uarn (rec_name i x) AuthSecPolicyPath eh (createTags (ri_Control i)); put_boundary (lr_Name (vx_role x)) uarn] facts)
  | rk_shared shared sp sh facts (others := otherUsers (lp_AttachmentSet sp) (lr_RoleID (vx_role x))) :
      pl_DesiredAttachment (ri_Undo i) <> AttachmentAbsent -> pl_DesiredBoundaryARN (ri_Undo i) = Some shared ->
      Policies (ri_Live i) !! shared = Some (Some sp) -> policy_DocumentHash sp = Ok sh ->
      facts ≡ₚ role_base x shared ++ kept_facts x false ++ [factPolicyDoc shared sh sh; factPolicyUsers shared others others] ->
      recovery_kind i x (recovery x AttachmentPresent (Some shared) (Some sh) [put_boundary (lr_Name (vx_role x)) shared] facts).

Lemma recover_case_shape i x p q :
  fresh_plan (set_ReplacedBoundaryARN None p) -> pl_ReplacedBoundaryARN p = Some (vx_installed x) ->
  pl_ArtifactDisposition p = DispositionRetainShared -> pl_DesiredBoundaryARN p = None -> pl_DesiredDocumentHash p = None ->
  recover_case i x p = Ok q ->
  pl_Refusals q <> [] \/
  exists r, recovery_kind i x r /\ core_of q = removal_core p (pl_Eligibility p) r [].
Proof.
  intros (_ & H2 & H3 & H4) Hr Hd Ha Hh H. unfold recover_case in H. cbv zeta in H.
  destruct (String.eqb_spec (pl_DesiredAttachment (ri_Undo i)) AttachmentAbsent) as [E|E].
  { injection H as <-. right. eexists. split; [apply rk_detach; [done|]|].
    2:{ unfold recover_detach, recovery, core_of, removal_core. cbn. by rewrite Ha, Hh, Hr, Hd, app_nil_r. }
    unfold role_base, kept_facts. cbn [app]. do 3 apply perm_skip. apply Permutation_swap. }
  destruct (_ && _).
  - unfold recover_new_policy in H. destruct (is_empty _); [done|]. apply bind_Ok in H as ([eh p'] & Ht & H).
    apply bind_Ok in Ht as ([txt h] & Hdoc & [= <- <-]). cbv beta iota in H.
    destruct (String.eqb_spec h (derefOr (pl_DesiredDocumentHash (ri_Undo i)) "")) as [Eh|]; [|done]. cbn [negb] in H. cbv zeta in H.
    rewrite (surjective_pairing (RecoveryPolicyARN _ _ _ _)) in H. fold (rec_arn i x) (rec_name i x) in H. cbv beta iota in H.
    revert H. plan_eqs. intros [= <-]. case_bool_decide as He; [left; cbn; by destruct (pl_Refusals p)|].
    right. eexists. split; [apply (rk_new i x h); [done|unfold DocumentHash; by rewrite Hdoc|done|by apply eq_None_not_Some|]|].
    2:{ unfold recovery, core_of, removal_core. cbn. by rewrite Hr, Hd, app_nil_r. }
    unfold role_base, kept_facts. cbn [app]. do 2 apply perm_skip.
    apply Permutation_trans with (l' := [factPolicyDoc (vx_installed x) (vx_docHash x) (vx_docHash x);
      factPolicyOwner (vx_installed x) (vx_owner x) (vx_owner x); factPolicyUsers (vx_installed x) (vx_others x) (vx_others x)] ++
      [factPolicyDoc (rec_arn i x) ValueAbsent h; factPolicyOwner (rec_arn i x) ValueAbsent (vx_owner x); factPolicyUsers (rec_arn i x) [] []]);
      [apply (Permutation_app_comm [_; _; _])|]. cbn [app]. apply perm_skip, Permutation_swap.
  - destruct (pl_ReplacedBoundaryARN (ri_Undo i)); [destruct (pl_DesiredBoundaryARN (ri_Undo i)) as [shared|] eqn:Es|].
    2-3: injection H as <-; left; cbn; by destruct (pl_Refusals p).
    unfold recover_shared in H. cbv zeta in H. apply bind_Ok in H as (sp & Hl & H). apply live_policy_read in Hl.
    destruct sp as [sp|]; [|injection H as <-; left; cbn; by destruct (pl_Refusals p)].
    apply bind_Ok in H as ([sh p'] & Ht & H). apply bind_Ok in Ht as ([txt h] & Hdoc & [= <- <-]). cbv beta iota in H.
    revert H. plan_eqs. intros [= <-]. right. eexists.
    split; [apply (rk_shared i x shared sp h); [done|done|done|unfold policy_DocumentHash, DocumentHash; by rewrite Hdoc|reflexivity]|].
    unfold recovery, core_of, removal_core. cbn. by rewrite Hr, Hd, app_nil_r.
Qed.

(** * A compiled recovery *)

Definition recovered_core (i : RecoveryInput) (r : removal) : core :=
  {| co_Kind := PlanUndo; co_Delivery := pl_Delivery (ri_Undo i); co_Eligibility := pl_Eligibility (ri_Undo i);
     co_Attachment := rv_Attachment r; co_ARN := rv_ARN r; co_Hash := rv_Hash r; co_Replaced := rv_Replaced r;
     co_Disposition := rv_Disposition r; co_First := false; co_Scan := Some (er_ScanRunID (ri_Evidence i));
     co_Ops := rv_Ops r; co_Facts := sortFacts (rv_Facts r); co_Refusals := []; co_Reason := "" |}.

(** What a recovery with nothing refused was compiled from. *)
Record recovers (i : RecoveryInput) (p : Plan) (us : ArtifactStateFacts) (x : recoverCtx) (r : removal) : Prop := {
  rc_state : unmarshal_state (pl_Precondition (ri_Undo i)) = Some us;
  rc_role : Role (ri_Live i) = Some (vx_role x);
  rc_incarnation : lr_RoleID (vx_role x) = ct_RoleID (ri_Control i);
  rc_installed : as_BoundaryARN us = Some (vx_installed x) /\ lr_BoundaryARN (vx_role x) = vx_installed x /\ vx_installed x <> "";
  rc_policy : exists pol, Policies (ri_Live i) !! vx_installed x = Some (Some pol) /\ policy_DocumentHash pol = Ok (vx_docHash x) /\
                vx_others x = otherUsers (lp_AttachmentSet pol) (lr_RoleID (vx_role x));
  rc_hash : derefOr (as_BoundaryDocumentHash us) "" = vx_docHash x;
  rc_others : vx_others x <> [];
  rc_owner : vx_owner x = control_ownerValue (ri_Control i);
  rc_kind : recovery_kind i x r;
  rc_core : core_of p = recovered_core i r;
  rc_direct : pl_Delivery (ri_Undo i) = DeliveryDirect -> forall op, op ∈ rv_Ops r -> foreign_op op = false }.

Lemma recover_finish_core p q :
  recover_finish p = Ok q ->
  refused_plan q \/
  (pl_Refusals p = [] /\ core_of q = settle_core (core_of p) /\
   (pl_Delivery p = DeliveryDirect -> forall op, op ∈ pl_Ops p -> foreign_op op = false)).
Proof.
  unfold recover_finish. cbv zeta. intros H.
  set (p1 := if _ && _ then add_notes [NotePolicyRetained] p else p) in H.
  assert (core_of p1 = core_of p) as Hc by (unfold p1; by destruct (_ && _)).
  assert (pl_Delivery p1 = pl_Delivery p /\ pl_Ops p1 = pl_Ops p /\ pl_Refusals p1 = pl_Refusals p) as (Ed & Eo & Er)
    by (unfold p1; by destruct (_ && _)).
  clearbody p1. rewrite Ed, Eo in H. destruct (String.eqb_spec (pl_Delivery p) DeliveryDirect) as [E|E].
  - destruct (decide (pl_Refusals p = [] /\ List.filter foreign_op (pl_Ops p) = [])) as [[Hn Hf]|Hn].
    + right. split; [done|]. apply seal_core in H. split.
      * rewrite H, Hf. cbn [map]. assert (core_of (refuse [] p1) = core_of p1) as ->; [|by rewrite Hc].
        unfold core_of, refuse, set_Refusals. cbn. by rewrite app_nil_r.
      * intros _ op Hop. eapply filter_nil_false; [exact Hf|done].
    + left. eapply seal_refused_plan; [exact H|]. cbn. rewrite Er. intros [H1 H2]%app_nil. apply Hn. split; [done|].
      by destruct (List.filter foreign_op (pl_Ops p)).
  - destruct (decide (pl_Refusals p = [])) as [Hn|Hn].
    + right. split; [done|]. apply seal_core in H. split; [by rewrite H, Hc|done].
    + left. eapply seal_refused_plan; [exact H|]. by rewrite Er.
Qed.

Lemma recover_inv i p :
  CompileRoleOnlyRecovery i = Ok p -> Eligible p = true -> exists us x r, recovers i p us x r.
Proof.
  intros H Hel. unfold CompileRoleOnlyRecovery in H. cbv zeta in H. apply bind_Ok in H as (_ & _ & H).
  destruct (_ || _); [done|]. apply bind_Ok in H as (_ & _ & H).
  destruct (unmarshal_state (pl_Precondition (ri_Undo i))) as [us|] eqn:Eus; [|done].
  assert (refused_plan p -> False) as Hno by (intros (He & _); unfold Eligible in Hel; by rewrite He in Hel).
  destruct (checkIncarnation (ri_Live i) (ct_RoleID (ri_Control i))) as [|rf rs] eqn:Ei.
  2:{ exfalso. apply bind_Ok in H as (p0 & (pc & h & ->)%statePrecondition_eq & H). apply Hno. by eapply seal_refused_plan. }
  apply checkIncarnation_inv in Ei as (role & Hrole & Hid). rewrite Hrole in H.
  apply bind_Ok in H as (st & Hst & H). apply bind_Ok in H as (p0 & (pc & ph & ->)%statePrecondition_eq & H).
  revert H. plan_eqs. intros H. apply bind_Ok in H as (q & Hq & H).
  match type of Hq with recover_case i ?x ?p = _ => set (x0 := x) in *; set (p1 := p) in * end.
  apply recover_finish_core in H as [H|(Hn & Hc & Hdir)]; [by destruct Hno|].
  apply recover_case_shape in Hq as [Hr|(r & Hk & Hcq)]; [done| |done..].
  rewrite Hcq in Hc. pose proof (core_inv _ _ Hcq) as (_ & Ed & _ & _ & _ & _ & _ & _ & _ & _ & Eo & _ & Er & _). cbn in Ed, Eo, Er.
  rewrite Er, app_nil_r in Hn. unfold p1 in Hn. cbn in Hn.
  assert (core_of p = recovered_core i r) as Hcore.
  { rewrite Hc. unfold settle_core, removal_core, recovered_core, p1. cbn. rewrite Hn. reflexivity. }
  apply app_nil in Hn as [Hn1 Hn2].
  destruct (_ || _) eqn:Ech in Hn1; [done|]. apply orb_false_iff in Ech as [[Ech1 Ech2]%orb_false_iff Ech3].
  apply negb_false_iff, String.eqb_eq in Ech2, Ech3.
  destruct (as_BoundaryARN us) as [inst|] eqn:Ea; [|done]. cbn in Ech1, Ech2.
  destruct (as_BoundaryARN st) as [cur|] eqn:Ec; [|cbn in Ech2; by subst]. cbn in Ech2. subst cur.
  pose proof (ArtifactState_hash _ _ _ Hst Ec) as [h Eh].
  destruct (ArtifactState_inv _ _ _ _ _ Hst Hrole Ec Eh) as (Hb & Hne & pol & Hl & Hh & Ho).
  exists us, x0, r. split; try done.
  - exists pol. split; [done|]. split; [|by apply Ho]. rewrite Hh. f_equal. cbn. rewrite Eh in Ech3. exact Ech3.
  - cbn. intros E. by rewrite E in Hn2.
  - rewrite Ed, Eo in Hdir. exact Hdir.
Qed.

#[local] Arguments factKey : simpl never.

(** The installed policy is there, so it is not the new one. *)
Lemma recovers_apart i p us x r : recovers i p us x r -> existing (ri_Live i) (rec_arn i x) = None -> rec_arn i x <> vx_installed x.
Proof. intros H Hn E. destruct (rc_policy _ _ _ _ _ H) as (pol & Hl & _). unfold existing in Hn. rewrite E, Hl in Hn. done. Qed.

Lemma recovers_delivers i p us x r : recovers i p us x r -> delivers (rv_Ops r) (rv_Facts r).
Proof.
  intros H. pose proof (recovers_apart _ _ _ _ _ H) as Hap. pose proof (rc_owner _ _ _ _ _ H) as Ho.
  destruct (rc_kind _ _ _ _ _ H) as [facts _ Hp|eh facts uarn _ _ _ Hn Hp|shared sp sh facts others _ _ _ _ Hp]; cbn [rv_Ops rv_Facts recovery];
    intros op f Hop Hf; rewrite Hp in Hf; revert op f Hop Hf; clear Hp H; unfold role_base, kept_facts; rewrite ?Ho.
  - each_delivery.
  - specialize (Hap Hn). subst uarn. clear Hn. generalize dependent (rec_arn i x). intros uarn Hne. each_delivery.
  - each_delivery.
Qed.

(** A recovery only writes a policy it creates. *)
Lemma recovers_writes i p us x r op :
  recovers i p us x r -> op ∈ rv_Ops r -> writes op -> op_Op op = OpCreatePolicy /\ existing (ri_Live i) (op_PolicyARN op) = None.
Proof.
  intros H. destruct (rc_kind _ _ _ _ _ H) as [facts _ Hp|eh facts uarn _ _ _ Hn Hp|shared sp sh facts others _ _ _ _ Hp]; cbn [rv_Ops recovery];
    intros Hop Hw; each_fact Hop; first [by apply put_boundary_writes in Hw|by apply delete_boundary_writes in Hw].
Qed.

(** * Theorems *)

(** The state a plan was compiled on survives its stored precondition: for a state of valid UTF-8 strings, reading
    the precondition [statePrecondition] stores gives back the role, its boundary and document hash, and the boundary's
    users, the latter in their canonical order. *)
Theorem stored_state_read_back st p q :
  statePrecondition st p = Ok q -> state_valid st ->
  exists us, unmarshal_state (pl_Precondition q) = Some us /\
    as_RoleID us = as_RoleID st /\ as_BoundaryARN us = as_BoundaryARN st /\
    as_BoundaryDocumentHash us = as_BoundaryDocumentHash st /\ as_AttachmentSet us ≡ₚ as_AttachmentSet st.
Proof.
  intros (pc & Hpc & (h & _ & [= <-])%bind_Ok)%bind_Ok [Hr Ha Hh Hs]. exists (state_Normalized st). split_and!; try done.
  - cbn. apply precondition_decodes; [|done]. split; try done. cbn. rewrite Forall_forall in *. intros e He%elem_of_sort_slice. auto.
  - cbn. apply sort_slice_perm.
Qed.

(** C27. Role-only recovery restores the role and leaves shared policies alone. When the plan may run, the role is the
    control's own incarnation and still has the boundary and document the apply left, that boundary has users besides
    the role, and it is retained. The role ends without a boundary when the undo wanted none, and otherwise under a new
    policy with the undo's document or under the undo's own boundary. The only policy written is one created under a
    name that was free, operations of a direct plan name AuthSec's policies only, and every operation leaves the after
    value of each fact it moves. *)
Theorem role_only_recovery_sound i p :
  CompileRoleOnlyRecovery i = Ok p -> Eligible p = true ->
  exists role us pol,
    Role (ri_Live i) = Some role /\ lr_RoleID role = ct_RoleID (ri_Control i) /\
    unmarshal_state (pl_Precondition (ri_Undo i)) = Some us /\ as_BoundaryARN us = Some (lr_BoundaryARN role) /\
    Policies (ri_Live i) !! lr_BoundaryARN role = Some (Some pol) /\
    policy_DocumentHash pol = Ok (derefOr (as_BoundaryDocumentHash us) "") /\
    otherUsers (lp_AttachmentSet pol) (lr_RoleID role) <> [] /\
    pl_ArtifactDisposition p = DispositionRetainShared /\ pl_ReplacedBoundaryARN p = Some (lr_BoundaryARN role) /\
    match pl_DesiredBoundaryARN p with
    | None => pl_DesiredAttachment (ri_Undo i) = AttachmentAbsent
    | Some arn =>
        pl_DesiredAttachment (ri_Undo i) <> AttachmentAbsent /\
        (existing (ri_Live i) arn = None /\ is_Some (pl_DesiredDocumentHash p) /\
           derefOr (pl_DesiredDocumentHash p) "" = derefOr (pl_DesiredDocumentHash (ri_Undo i)) "" \/
         pl_DesiredBoundaryARN (ri_Undo i) = Some arn /\ is_Some (existing (ri_Live i) arn))
    end /\
    forall op, op ∈ pl_Ops p ->
      (writes op -> op_Op op = OpCreatePolicy /\ existing (ri_Live i) (op_PolicyARN op) = None) /\
      (pl_Delivery (ri_Undo i) = DeliveryDirect -> op_PolicyARN op = "" \/ isAuthSecPath (op_PolicyARN op) = true) /\
      (forall f, f ∈ pl_Facts p -> fa_Key f ∈ opEffects op -> fa_After f = delivered op (fa_Kind f)).
Proof.
  intros Hc Hel. destruct (recover_inv _ _ Hc Hel) as (us & x & r & H).
  pose proof (core_inv _ _ (rc_core _ _ _ _ _ H)) as (_ & _ & _ & _ & Harn & Hh & Hrep & Hdis & _ & _ & Hops & Hfs & _).
  cbn in Harn, Hh, Hrep, Hdis, Hops, Hfs.
  destruct (rc_installed _ _ _ _ _ H) as (Hu & Hb & _), (rc_policy _ _ _ _ _ H) as (pol & Hl & Hd & Ho).
  exists (vx_role x), us, pol. rewrite Harn, Hh, Hrep, Hdis, Hops, Hb, (rc_hash _ _ _ _ _ H), <- Ho.
  pose proof (rc_kind _ _ _ _ _ H) as Hk. split_and!; try apply H; try done.
  1-2: by destruct Hk.
  - destruct Hk as [facts Hq _|eh facts uarn Hq Hd1 Hd2 Hn _|shared sp sh facts others Hq Hs Hp _ _]; cbn; [done| |]; (split; [done|]).
    + left. split_and!; [done|by eexists|done].
    + right. split; [done|]. unfold existing. rewrite Hp. by eexists.
  - intros op Hop. split_and!.
    + by eapply recovers_writes.
    + intros Hdir. pose proof (rc_direct _ _ _ _ _ H Hdir op Hop) as Hf. unfold foreign_op in Hf.
      destruct (is_empty (op_PolicyARN op)) eqn:E; [left; by apply is_empty_true|]. right. by apply negb_false_iff.
    + intros f Hf. rewrite Hfs in Hf. apply elem_of_sort_slice in Hf. by apply (recovers_delivers _ _ _ _ _ H).
Qed.

(** * The boundary of a control has gained a second role *)

Definition sample_installed (h : string) : LivePolicy :=
  {| lp_ARN := sample_boundary; lp_Path := AuthSecPolicyPath; lp_Name := lp_Name sample_boundary_policy;
     lp_Tags := lp_Tags sample_boundary_policy; lp_DefaultDocument := h; lp_VersionCount := 5;
     lp_AttachmentSet := lp_AttachmentSet sample_boundary_policy ++
       [{| ae_Kind := "role"; ae_ID := "AROAEXAMPLEROLE00002"; ae_Name := "y"; ae_Usage := UsageBoundary |}] |}.

Definition sample_recovery (u : Plan) : RecoveryInput :=
  {| ri_Control := sample_control; ri_Undo := u; ri_UndoneDeploymentID := "0A1B2C3D-0000-0000-0000-000000000000";
     ri_EarlierDocument := lp_DefaultDocument sample_boundary_policy;
     ri_Live := {| ReadAt := day 2026 7 2; Role := Role sample_target_live;
                   Policies := {[sample_boundary := Some (sample_installed
                     match ExcludeOnlyDocument ["sqs"] with Ok (d, _) => d | Err _ => "" end)]};
                   Roles := ∅; Bindings := ∅ |};
     ri_Evidence := ti_Evidence sample_target |}.

(** The apply of [sample_target] compiles, and its undo is recovered for this role alone. *)
Definition recovers_with (n : nat) (i : TargetInput) : bool :=
  match CompileTarget i with
  | Ok tp =>
      match tp_Undo tp with
      | Some u => match CompileRoleOnlyRecovery (sample_recovery u) with
                  | Ok p => Eligible p && (length (pl_Ops p) =? n)%nat
                  | Err _ => false
                  end
      | None => false
      end
  | Err _ => false
  end.

Lemma recovers_with_spec n i :
  recovers_with n i = true ->
  exists tp u p, CompileTarget i = Ok tp /\ tp_Undo tp = Some u /\ CompileRoleOnlyRecovery (sample_recovery u) = Ok p /\
    Eligible p = true /\ length (pl_Ops p) = n.
Proof.
  unfold recovers_with. destruct (CompileTarget i) as [tp|]; [|done]. destruct (tp_Undo tp) as [u|] eqn:Eu; [|done].
  destruct (CompileRoleOnlyRecovery (sample_recovery u)) as [p|] eqn:Ep; [|done].
  intros [He Hl%Nat.eqb_eq]%andb_true_iff. by exists tp, u, p.
Qed.

Lemma sample_recovers : recovers_with 2 sample_target = true.
Proof. vm_compute. reflexivity. Qed.

Lemma role_only_recovery_sound_witness :
  exists tp u p, CompileTarget sample_target = Ok tp /\ tp_Undo tp = Some u /\
    CompileRoleOnlyRecovery (sample_recovery u) = Ok p /\ length (pl_Ops p) = 2%nat /\
    pl_ArtifactDisposition p = DispositionRetainShared.
Proof.
  destruct (recovers_with_spec _ _ sample_recovers) as (tp & u & p & Ht & Hu & Hc & He & Hl). exists tp, u, p.
  split; [exact Ht|]. split; [exact Hu|]. split; [exact Hc|]. split; [exact Hl|].
  destruct (role_only_recovery_sound (sample_recovery u) p Hc He) as (role & us & pol & _ & _ & _ & _ & _ & _ & _ & H & _). exact H.
Defined.

Definition sample_state : ArtifactStateFacts :=
  {| as_RoleID := "AROAEXAMPLEROLE00001"; as_BoundaryARN := Some sample_boundary; as_BoundaryDocumentHash := Some "h";
     as_AttachmentSet := [{| ae_Kind := "role"; ae_ID := "b"; ae_Name := "y"; ae_Usage := UsageBoundary |};
                          {| ae_Kind := "role"; ae_ID := "a"; ae_Name := "x"; ae_Usage := UsageBoundary |}] |}.

Lemma sample_state_valid : state_valid sample_state.
Proof.
  split; [by apply ascii_valid|intros s [= <-]; by apply ascii_valid|intros s [= <-]; by apply ascii_valid|].
  unfold entity_valid. each_op; cbn; each_op; by apply ascii_valid.
Qed.

Lemma sample_state_stores p : exists q, statePrecondition sample_state p = Ok q.
Proof.
  unfold statePrecondition. destruct (CanonicalizeValue _) as [pc|] eqn:E1; [|exfalso; revert E1; vm_compute; discriminate]. cbn [mbind].
  destruct (StatePreconditionHash sample_state) as [h|] eqn:E2; [|exfalso; revert E2; vm_compute; discriminate]. by eexists.
Qed.

Lemma stored_state_read_back_witness :
  exists q us, statePrecondition sample_state (start_plan (ti_Evidence sample_target) "ctl" PlanUndo DeliveryDirect 0) = Ok q /\
    unmarshal_state (pl_Precondition q) = Some us /\ as_AttachmentSet us ≡ₚ as_AttachmentSet sample_state.
Proof.
  destruct (sample_state_stores (start_plan (ti_Evidence sample_target) "ctl" PlanUndo DeliveryDirect 0)) as [q Hq].
  destruct (stored_state_read_back _ _ _ Hq sample_state_valid) as (us & Hus & _ & _ & _ & Hs). exists q, us.
  split; [exact Hq|]. split; [exact Hus|exact Hs].
Defined.
