(* ===== verification/JobQueue.v ===== *)
(** Durable jobs (repository/iga_gov_job_repository.go) and the fence a worker
    holds on one (services/iga_gov_job_worker.go). The table iga_gov_job is a
    map from ids to rows; every statement is a function on it, and [job_step]
    is one statement of any worker. The fence is the lease version, never a
    clock: what is proved is that a fence lost once is lost for good. *)

From stdpp Require Import base list strings gmap sorting relations.
From S2P Require Import Prelude Slices Qualify.

(** * Rows *)

Definition GovJobQueued : string := "queued".
Definition GovJobRunning : string := "running".
Definition GovJobComplete : string := "complete".
Definition GovJobFailed : string := "failed".
Definition GovJobAbandoned : string := "abandoned".
Definition GovJobDeploy : string := "deploy".

(* src: repository/iga_gov_job_repository.go:47-51 (GovJobKinds) *)
Definition GovJobKinds : list string :=
  ["evaluate_owner_rules"; "compile_plans"; "notify"; "refresh_activity"; "observe_tick"; GovJobDeploy; "verify"; "drift_check";
   "verify_binding"; "iac_sync"; "prune_evidence"; "metrics_rollup"; "resolve_unknown"].

Definition MaxConcurrentDeploysPerWorkspace : nat := 10.

Definition second : Z := 1000000000.
Definition minute : Z := 60 * second.

(* src: services/iga_gov_job_worker.go:67-74 (PolicyJobLease) *)
Definition PolicyJobLease : Z := 2 * minute.
Definition PolicyJobExternalMargin : Z := 60 * second.

Definition ErrPolicyJobLeaseLost : goError := ErrOther "policy job lease no longer held".
Definition ErrPolicyJobLeaseShort : goError := ErrOther "policy job lease has too little time left".

#[export] Instance goError_eq_dec : EqDecision goError.
Proof. solve_decision. Defined.

(** A uuid is its text; [uuid.Nil] is the empty text here. *)
(* src: models/iga_gov_ops.go:42-59 (IGAGovJob) *)
Record Job := {
  jb_ID : string;
  jb_WorkspaceID : string;
  jb_Kind : string;
  jb_SubjectID : option string;
  jb_Rev : option Z;
  jb_DedupeKey : string;
  jb_Status : string;
  jb_RunAfter : Time;
  jb_LeaseOwner : string;
  jb_LeaseExpiresAt : option Time;
  jb_LeaseVersion : Z;
  jb_Attempts : Z;
  jb_MaxAttempts : Z;
  jb_LastError : string;
  jb_CreatedAt : Time;
  jb_CompletedAt : option Time }.

Abbreviation Jobs := (gmap string Job).

(* src: repository/iga_gov_job_repository.go:59-63 (PolicyJobFence) *)
Record PolicyJobFence := { fc_JobID : string; fc_Owner : string; fc_Version : Z }.

(** What the statements below assign. *)
Definition set_run (status : string) (runAfter : Time) (owner : string) (expires : option Time) (version attempts : Z)
    (lastError : string) (completed : option Time) (j : Job) : Job :=
  {| jb_ID := jb_ID j; jb_WorkspaceID := jb_WorkspaceID j; jb_Kind := jb_Kind j; jb_SubjectID := jb_SubjectID j;
     jb_Rev := jb_Rev j; jb_DedupeKey := jb_DedupeKey j; jb_Status := status; jb_RunAfter := runAfter;
     jb_LeaseOwner := owner; jb_LeaseExpiresAt := expires; jb_LeaseVersion := version; jb_Attempts := attempts;
     jb_MaxAttempts := jb_MaxAttempts j; jb_LastError := lastError; jb_CreatedAt := jb_CreatedAt j;
     jb_CompletedAt := completed |}.

(** The lease is given up. *)
Definition release (status : string) (runAfter : Time) (attempts : Z) (lastError : string) (completed : option Time) (j : Job) : Job :=
  set_run status runAfter "" None (jb_LeaseVersion j) attempts lastError completed j.

Definition is_open (j : Job) : bool := bool_decide (jb_Status j ∈ [GovJobQueued; GovJobRunning]).

(* src: repository/cloud_scan_run_repository.go:569-575 (truncateError) *)
Definition truncateError (s : string) : string :=
  if (str_length s <=? 2000)%nat then s
  else String.substring 0 2000 s +:+ String (Ascii.ascii_of_nat 226) (String (Ascii.ascii_of_nat 128) (String (Ascii.ascii_of_nat 166) " (truncated)")).

(** * Enqueue *)

Definition same_key (a b : Job) : bool :=
  (jb_WorkspaceID a =? jb_WorkspaceID b)%string && (jb_Kind a =? jb_Kind b)%string && (jb_DedupeKey a =? jb_DedupeKey b)%string.

Definition exists_row (p : Job -> bool) (t : Jobs) : bool := existsb (fun kv => p kv.2) (map_to_list t).

(** The once rule, and the periodic window; [every] in nanoseconds. *)
(* src: repository/iga_gov_job_repository.go:177-183 (igaGovJobRepository.enqueue, part) *)
Definition suppressed (once : bool) (every dbnow : Z) (job p : Job) : bool :=
  same_key p job &&
  (once || ((0 <? every) && (jb_Status p =? GovJobComplete)%string &&
            match jb_CompletedAt p with Some c => dbnow - every <? c | None => false end)).

(** [job] with the defaults enqueue fills in; [fresh] is [uuid.New], [now] is
    [time.Now] and [dbnow] the database's clock. *)
(* src: repository/iga_gov_job_repository.go:161-172 (igaGovJobRepository.enqueue, part) *)
Definition with_defaults (fresh : string) (runAfter : option Time) (now dbnow : Time) (job : Job) : Job :=
  {| jb_ID := if is_empty (jb_ID job) then fresh else jb_ID job; jb_WorkspaceID := jb_WorkspaceID job; jb_Kind := jb_Kind job;
     jb_SubjectID := jb_SubjectID job; jb_Rev := jb_Rev job; jb_DedupeKey := jb_DedupeKey job; jb_Status := GovJobQueued;
     jb_RunAfter := default now runAfter; jb_LeaseOwner := ""; jb_LeaseExpiresAt := None; jb_LeaseVersion := 0; jb_Attempts := 0;
     jb_MaxAttempts := if jb_MaxAttempts job =? 0 then 5 else jb_MaxAttempts job; jb_LastError := ""; jb_CreatedAt := dbnow;
     jb_CompletedAt := None |}.

(** The returned job is the inserted row, the open one that was found, or the
    argument with its id cleared. *)
(* src: repository/iga_gov_job_repository.go:160-213 (igaGovJobRepository.enqueue) *)
Definition enqueue (fresh : string) (runAfter : option Time) (now dbnow : Time) (job : Job) (every : Z) (once : bool) (t : Jobs)
  : result (Jobs * Job * bool) :=
  if is_empty (jb_WorkspaceID job) || is_empty (jb_Kind job) || is_empty (jb_DedupeKey job)
  then Err (ErrOther "a policy job needs a workspace, a kind and a dedupe key")
  else
    let job := with_defaults fresh runAfter now dbnow job in
    if exists_row (suppressed once every dbnow job) t || exists_row (fun p => is_open p && same_key p job) t then
      match List.filter (fun kv => is_open kv.2 && same_key kv.2 job) (map_to_list t) with
      | (_, open) :: _ => Ok (t, open, false)
      | [] => Ok (t, {| jb_ID := ""; jb_WorkspaceID := jb_WorkspaceID job; jb_Kind := jb_Kind job; jb_SubjectID := jb_SubjectID job;
                        jb_Rev := jb_Rev job; jb_DedupeKey := jb_DedupeKey job; jb_Status := jb_Status job;
                        jb_RunAfter := jb_RunAfter job; jb_LeaseOwner := jb_LeaseOwner job;
                        jb_LeaseExpiresAt := jb_LeaseExpiresAt job; jb_LeaseVersion := jb_LeaseVersion job;
                        jb_Attempts := jb_Attempts job; jb_MaxAttempts := jb_MaxAttempts job; jb_LastError := jb_LastError job;
                        jb_CreatedAt := jb_CreatedAt job; jb_CompletedAt := jb_CompletedAt job |}, false)
      end
    else if negb (bool_decide (jb_Kind job ∈ GovJobKinds)) then Err (ErrOther "iga_gov_job_kind_check")
    else match t !! jb_ID job with
         | Some _ => Err (ErrOther "iga_gov_job_pkey")
         | None => Ok (<[jb_ID job := job]> t, job, true)
         end.

(* src: repository/iga_gov_job_repository.go:145-147 (igaGovJobRepository.EnqueueTx) *)
Definition EnqueueTx fresh runAfter now dbnow job t := enqueue fresh runAfter now dbnow job 0 false t.

(* src: repository/iga_gov_job_repository.go:149-154 (igaGovJobRepository.EnqueuePeriodicTx) *)
Definition EnqueuePeriodicTx fresh runAfter now dbnow job every t : result (Jobs * Job * bool) :=
  if every <=? 0 then Err (ErrOther "a periodic job needs a positive interval")
  else enqueue fresh runAfter now dbnow job every false t.

(* src: repository/iga_gov_job_repository.go:156-158 (igaGovJobRepository.EnqueueOnceTx) *)
Definition EnqueueOnceTx fresh runAfter now dbnow job t := enqueue fresh runAfter now dbnow job 0 true t.

(** * Claim *)

Definition lapsed (now : Time) (j : Job) : bool :=
  match jb_LeaseExpiresAt j with None => true | Some e => e <=? now end.

(** Running deploy jobs of the workspace whose lease is good, other than [j]. *)
(* src: repository/iga_gov_job_repository.go:245-248 (igaGovJobRepository.Claim, part) *)
Definition running_deploys (now : Time) (j : Job) (t : Jobs) : nat :=
  length (List.filter (fun kv => let d := kv.2 in
    (jb_WorkspaceID d =? jb_WorkspaceID j)%string && (jb_Kind d =? GovJobDeploy)%string && negb (jb_ID d =? jb_ID j)%string &&
    (jb_Status d =? GovJobRunning)%string && match jb_LeaseExpiresAt d with Some e => now <? e | None => false end) (map_to_list t)).

(* src: repository/iga_gov_job_repository.go:234-248 (igaGovJobRepository.Claim, part) *)
Definition claimable (kinds : list string) (now : Time) (t : Jobs) (j : Job) : bool :=
  bool_decide (jb_Kind j ∈ kinds) && (jb_Attempts j <? jb_MaxAttempts j) &&
  (((jb_Status j =? GovJobQueued)%string && (jb_RunAfter j <=? now)) || ((jb_Status j =? GovJobRunning)%string && lapsed now j)) &&
  (negb (jb_Kind j =? GovJobDeploy)%string || (running_deploys now j t <? MaxConcurrentDeploysPerWorkspace)%nat).

(** [ORDER BY run_after, created_at]. *)
Definition earlier (a b : Job) : bool :=
  (jb_RunAfter a <? jb_RunAfter b) || ((jb_RunAfter a =? jb_RunAfter b) && (jb_CreatedAt a <? jb_CreatedAt b)).

Definition first_job (l : list Job) : option Job :=
  foldr (fun j acc => match acc with Some k => Some (if earlier k j then k else j) | None => Some j end) None l.

(** [locked] are the rows other transactions hold, which SKIP LOCKED passes by. *)
(* src: repository/iga_gov_job_repository.go:215-262 (igaGovJobRepository.Claim) *)
Definition Claim (locked : list string) (owner : string) (lease now : Z) (kinds : list string) (t : Jobs) : result (Jobs * option Job) :=
  if is_empty owner then Err (ErrOther "a claim needs an owner")
  else if lease <=? 0 then Err (ErrOther "a claim needs a positive lease")
  else
    let kinds := match kinds with [] => GovJobKinds | _ => kinds end in
    match first_job (List.filter (fun j => negb (bool_decide (jb_ID j ∈ locked)) && claimable kinds now t j) (snd <$> map_to_list t)) with
    | None => Ok (t, None)
    | Some j =>
        let j' := set_run GovJobRunning (jb_RunAfter j) owner (Some (now + lease)) (jb_LeaseVersion j + 1) (jb_Attempts j + 1)
                    (jb_LastError j) (jb_CompletedAt j) j in
        Ok (<[jb_ID j := j']> t, Some j')
    end.

(** * Fenced statements *)

(** The condition of every fenced UPDATE. *)
Definition holds (f : PolicyJobFence) (j : Job) : bool :=
  (jb_LeaseOwner j =? fc_Owner f)%string && (jb_LeaseVersion j =? fc_Version f) && (jb_Status j =? GovJobRunning)%string.

Definition owned (t : Jobs) (f : PolicyJobFence) : bool :=
  match t !! fc_JobID f with Some j => holds f j | None => false end.

(* src: repository/iga_gov_job_repository.go:379-384 (fencedJob) *)
Definition fencedJob (f : PolicyJobFence) (g : Job -> Job) (t : Jobs) : result Jobs :=
  match t !! fc_JobID f with
  | Some j => if holds f j then Ok (<[fc_JobID f := g j]> t) else Err ErrPolicyJobLeaseLost
  | None => Err ErrPolicyJobLeaseLost
  end.

(* src: repository/iga_gov_job_repository.go:264-266 (igaGovJobRepository.Renew) *)
Definition Renew (f : PolicyJobFence) (lease now : Z) : Jobs -> result Jobs :=
  fencedJob f (fun j => set_run (jb_Status j) (jb_RunAfter j) (jb_LeaseOwner j) (Some (now + lease)) (jb_LeaseVersion j) (jb_Attempts j)
                          (jb_LastError j) (jb_CompletedAt j) j).

(* src: repository/iga_gov_job_repository.go:268-280 (igaGovJobRepository.LeaseRemaining) *)
Definition LeaseRemaining (f : PolicyJobFence) (now : Time) (t : Jobs) : result Z :=
  match t !! fc_JobID f with
  | Some j => if holds f j then match jb_LeaseExpiresAt j with Some e => Ok (time_sub e now) | None => Err ErrPolicyJobLeaseLost end
              else Err ErrPolicyJobLeaseLost
  | None => Err ErrPolicyJobLeaseLost
  end.

(* src: repository/iga_gov_job_repository.go:282-291 (igaGovJobRepository.AssertOwnedTx) *)
Definition AssertOwnedTx (f : PolicyJobFence) (t : Jobs) : result unit :=
  if owned t f then Ok tt else Err ErrPolicyJobLeaseLost.

(* src: repository/iga_gov_job_repository.go:295-302 (igaGovJobRepository.CompleteTx) *)
Definition CompleteTx (f : PolicyJobFence) (dbnow : Time) : Jobs -> result Jobs :=
  fencedJob f (fun j => release GovJobComplete (jb_RunAfter j) (jb_Attempts j) (jb_LastError j) (Some dbnow) j).

(* src: repository/iga_gov_job_repository.go:304-321 (igaGovJobRepository.Fail) *)
Definition Fail_ (f : PolicyJobFence) (reason : string) (retryAfter now dbnow : Z) : Jobs -> result Jobs :=
  let retryAfter := if retryAfter <? 0 then 0 else retryAfter in
  fencedJob f (fun j =>
    if jb_Attempts j <? jb_MaxAttempts j
    then release GovJobQueued (now + retryAfter) (jb_Attempts j) (truncateError reason) None j
    else release GovJobFailed (jb_RunAfter j) (jb_Attempts j) (truncateError reason) (Some dbnow) j).

(* src: repository/iga_gov_job_repository.go:323-331 (igaGovJobRepository.Abandon) *)
Definition Abandon (f : PolicyJobFence) (reason : string) (dbnow : Time) : Jobs -> result Jobs :=
  fencedJob f (fun j => release GovJobAbandoned (jb_RunAfter j) (jb_Attempts j) (truncateError reason) (Some dbnow) j).

(* src: repository/iga_gov_job_repository.go:333-345 (igaGovJobRepository.Requeue) *)
Definition Requeue (f : PolicyJobFence) (after now : Z) : Jobs -> result Jobs :=
  let after := if after <? 0 then 0 else after in
  fencedJob f (fun j => release GovJobQueued (now + after) (Z.max (jb_Attempts j - 1) 0) (jb_LastError j) (jb_CompletedAt j) j).

(** * Sweeping *)

(* src: repository/iga_gov_job_repository.go:352-362 (igaGovJobRepository.FailExhaustedJobs) *)
Definition FailExhaustedJobs (now dbnow : Time) (t : Jobs) : Jobs :=
  (fun j =>
     if (jb_Status j =? GovJobRunning)%string && (jb_MaxAttempts j <=? jb_Attempts j) && lapsed now j
     then release GovJobFailed (jb_RunAfter j) (jb_Attempts j)
            (if is_empty (jb_LastError j) then "lease expired with no attempts left"
             else jb_LastError j +:+ " (lease expired with no attempts left)") (Some dbnow) j
     else j) <$> t.

Definition finished_before (before : Time) (j : Job) : bool :=
  bool_decide (jb_Status j ∈ [GovJobComplete; GovJobAbandoned]) && match jb_CompletedAt j with Some c => c <? before | None => false end.

(* src: repository/iga_gov_job_repository.go:364-367 (igaGovJobRepository.PruneFinished) *)
Definition PruneFinished (before : Time) (t : Jobs) : Jobs := filter (fun kv => finished_before before kv.2 = false) t.

(** * A run's fence *)

(* src: services/iga_gov_job_worker.go:565-571 (PolicyJobRun.CheckFence) *)
Definition CheckFence (f : PolicyJobFence) (now : Time) (t : Jobs) : result unit := _ ← LeaseRemaining f now t; Ok tt.

(** [now1], [now2] and [now3] are the clock at the first reading, at the renewal
    and at the second reading. *)
(* src: services/iga_gov_job_worker.go:575-599 (PolicyJobRun.EnsureMargin) *)
Definition EnsureMargin (f : PolicyJobFence) (lease margin now1 now2 now3 : Z) (t : Jobs) : result Jobs :=
  left ← LeaseRemaining f now1 t;
  if margin <=? left then Ok t
  else
    t ← Renew f lease now2 t;
    left ← LeaseRemaining f now3 t;
    if left <? margin then Err ErrPolicyJobLeaseShort else Ok t.

(** How a handler ended. *)
Inductive handled := HandlerOk | HandlerAbandon (reason : string) | HandlerRetryLater (after : Z) | HandlerError (e : goError) (text : string).

(** [lost] is the run's own mark, [cancelled] says that the worker's context
    ended; the second component asks for the kind's exhaustion hook. *)
(* src: services/iga_gov_job_worker.go:451-486 (PolicyJobWorker.finish) *)
Definition finish (lost cancelled : bool) (job : Job) (f : PolicyJobFence) (backoff : Z) (h : handled) (now dbnow : Time) (t : Jobs)
  : Jobs * bool :=
  let keep r := match r with Ok t' => t' | Err _ => t end in
  if lost || match h with HandlerError e _ => bool_decide (e = ErrPolicyJobLeaseLost) | _ => false end then (t, false)
  else match h with
  | HandlerOk => (keep (CompleteTx f dbnow t), false)
  | HandlerAbandon reason => (keep (Abandon f reason dbnow t), false)
  | HandlerRetryLater after => (keep (Requeue f after now t), false)
  | HandlerError _ text =>
      if cancelled then (keep (Requeue f 0 now t), false)
      else match Fail_ f text backoff now dbnow t with
           | Ok t' => (t', jb_MaxAttempts job <=? jb_Attempts job)
           | Err _ => (t, false)
           end
  end.

(** * The table's invariant *)

(** What the columns say of each other; the rules of a status are those of its
    statements, not CHECK constraints. *)
Record job_ok (id : string) (j : Job) : Prop := {
  jo_id : jb_ID j = id;
  jo_kind : jb_Kind j ∈ GovJobKinds;
  jo_status : jb_Status j ∈ [GovJobQueued; GovJobRunning; GovJobComplete; GovJobFailed; GovJobAbandoned];
  jo_lease : if (jb_Status j =? GovJobRunning)%string then jb_LeaseOwner j <> "" /\ is_Some (jb_LeaseExpiresAt j) /\ 0 < jb_LeaseVersion j
             else jb_LeaseOwner j = "" /\ jb_LeaseExpiresAt j = None;
  jo_version : 0 <= jb_LeaseVersion j;
  jo_attempts : 0 <= jb_Attempts j <= Z.max 0 (jb_MaxAttempts j);
  jo_completed : is_open j = bool_decide (jb_CompletedAt j = None) }.

(** uq_iga_gov_job_open. *)
Definition open_unique (t : Jobs) : Prop :=
  forall a b j k, t !! a = Some j -> t !! b = Some k -> is_open j = true -> is_open k = true -> same_key j k = true -> a = b.

Definition jobs_ok (t : Jobs) : Prop := map_Forall job_ok t /\ open_unique t.

Lemma same_key_sym a b : same_key a b = same_key b a.
Proof.
  unfold same_key. by rewrite (String.eqb_sym (jb_WorkspaceID a)), (String.eqb_sym (jb_Kind a)), (String.eqb_sym (jb_DedupeKey a)).
Qed.

Lemma exists_row_false p t : exists_row p t = false <-> forall id j, t !! id = Some j -> p j = false.
Proof.
  unfold exists_row. split.
  - intros H id j Hj. apply not_true_is_false. intros Hp. apply not_true_iff_false in H. apply H. apply existsb_exists.
    exists (id, j). split; [|done]. apply list_elem_of_In. by apply elem_of_map_to_list.
  - intros H. apply not_true_is_false. intros ([id j] & Hin & Hp)%existsb_exists. apply list_elem_of_In, elem_of_map_to_list in Hin.
    cbn in Hp. by rewrite (H _ _ Hin) in Hp.
Qed.

(** A row may be replaced by one that keeps its key and does not reopen. *)
Lemma jobs_ok_replace t id j j' :
  jobs_ok t -> t !! id = Some j -> job_ok id j' -> same_key j j' = true -> (is_open j' = true -> is_open j = true) ->
  (forall k, same_key j' k = same_key j k) -> jobs_ok (<[id := j']> t).
Proof.
  intros [Hr Hu] Hj Hok Hk Ho Hs. split; [by apply map_Forall_insert_2|].
  intros a b x y. rewrite !lookup_insert_Some. intros [[<- <-]|[Ha Hx]] [[<- <-]|[Hb Hy]] Ox Oy Hxy; [done| | |by eauto].
  - apply (Hu id b j y); [done..|by auto|done|]. by rewrite <- Hs.
  - apply (Hu a id x j); [done..|by auto|]. rewrite same_key_sym, <- Hs, same_key_sym. done.
Qed.

Lemma set_run_key s r o e v a l c j k : same_key (set_run s r o e v a l c j) k = same_key j k.
Proof. done. Qed.

Lemma same_key_refl j : same_key j j = true.
Proof. unfold same_key. by rewrite !String.eqb_refl. Qed.

Lemma fencedJob_inv f g t t' : fencedJob f g t = Ok t' -> exists j, t !! fc_JobID f = Some j /\ holds f j = true /\ t' = <[fc_JobID f := g j]> t.
Proof.
  unfold fencedJob. destruct (t !! fc_JobID f) as [j|]; [|done]. destruct (holds f j) eqn:E; [|done]. intros [= <-]. by exists j.
Qed.

Lemma holds_running f j : holds f j = true -> jb_Status j = GovJobRunning.
Proof. unfold holds. intros H. by bool_prop. Qed.

Lemma running_open j : jb_Status j = GovJobRunning -> is_open j = true.
Proof. unfold is_open. by intros ->. Qed.

(** A fenced write that keeps the key. *)
Lemma fenced_ok f g t t' :
  (forall j, holds f j = true -> job_ok (fc_JobID f) j -> job_ok (fc_JobID f) (g j)) -> (forall j k, same_key (g j) k = same_key j k) ->
  jobs_ok t -> fencedJob f g t = Ok t' -> jobs_ok t'.
Proof.
  intros Hg Hk Ht (j & Hj & Hh & ->)%fencedJob_inv. pose proof (proj1 Ht _ _ Hj) as Hok. cbn in Hok.
  eapply jobs_ok_replace; [done|done|by apply Hg|by rewrite same_key_sym, Hk, same_key_refl| |done].
  intros _. by apply running_open, (holds_running f).
Qed.

(** Giving a lease up. *)
Lemma release_ok id status runAfter attempts lastError completed j :
  job_ok id j -> jb_Status j = GovJobRunning -> status ∈ [GovJobQueued; GovJobComplete; GovJobFailed; GovJobAbandoned] ->
  0 <= attempts <= jb_Attempts j ->
  bool_decide (status = GovJobQueued) = bool_decide (completed = None) ->
  job_ok id (release status runAfter attempts lastError completed j).
Proof.
  intros [Hid Hk Hst Hl Hv Ha Hc] Hrun Hs Hat Hco. split; try done; cbn.
  - apply list_elem_of_In in Hs. cbn in Hs. destruct_or! Hs; subst; set_solver.
  - apply list_elem_of_In in Hs. cbn in Hs. destruct_or! Hs; by subst.
  - lia.
  - unfold is_open. cbn. rewrite <- Hco. apply list_elem_of_In in Hs. cbn in Hs. by destruct_or! Hs; subst.
Qed.

Lemma enqueue_inv fresh ra now dbnow job every once t t' j b :
  enqueue fresh ra now dbnow job every once t = Ok (t', j, b) ->
  t' = t \/ (exists_row (fun p => is_open p && same_key p j) t = false /\ t !! jb_ID j = None /\ jb_Kind j ∈ GovJobKinds /\
             j = with_defaults fresh ra now dbnow job /\ t' = <[jb_ID j := j]> t).
Proof.
  unfold enqueue. destruct (_ || _ || _); [done|]. cbv zeta. destruct (_ || _) eqn:E.
  { destruct (List.filter _ _) as [|[]]; intros [= <- _ _]; by left. }
  apply orb_false_iff in E as [_ E]. destruct (bool_decide _) eqn:Ek; cbn [negb]; [|done]. apply bool_decide_eq_true in Ek.
  destruct (t !! _) eqn:El; [done|]. intros [= <- <- _]. right. by split_and!.
Qed.

Lemma enqueue_ok fresh ra now dbnow job every once t t' j b :
  jobs_ok t -> enqueue fresh ra now dbnow job every once t = Ok (t', j, b) -> jobs_ok t'.
Proof.
  intros [Hr Hu] [->|(Hn & Hl & Hk & Ej & ->)]%enqueue_inv; [done|].
  assert (is_open j = true) as Ho by by rewrite Ej.
  split.
  - apply map_Forall_insert_2; [|done]. rewrite Ej in Hk |- *. split; try done; cbn; [set_solver|lia].
  - rewrite exists_row_false in Hn. intros a c x y. rewrite !lookup_insert_Some. intros [[<- <-]|[Ha Hx]] [[<- <-]|[Hb Hy]] Ox Oy Hxy;
      [done| | |by eauto].
    + specialize (Hn _ _ Hy). rewrite Oy, same_key_sym, Hxy in Hn. done.
    + specialize (Hn _ _ Hx). rewrite Ox, Hxy in Hn. done.
Qed.

Lemma first_job_spec l j : first_job l = Some j -> j ∈ l /\ forall k, k ∈ l -> earlier k j = false.
Proof.
  assert (forall a, earlier a a = false) as Hirr by (intros a; unfold earlier; rewrite !Z.ltb_irrefl; by destruct (_ =? _)).
  revert j. induction l as [|x l IH]; intros j; [done|]. cbn. destruct (foldr _ None l) as [m|] eqn:E.
  - destruct (IH m E) as [Hm Hk]. destruct (earlier m x) eqn:Ex; intros [= <-].
    + split; [by right|]. intros k [->|Hin]%elem_of_cons; [|by apply Hk]. apply not_true_is_false. intros Hxm.
      unfold earlier in Ex, Hxm. rewrite !orb_true_iff, !andb_true_iff, !Z.ltb_lt, !Z.eqb_eq in Ex, Hxm. lia.
    + split; [by left|]. intros k [->|Hin]%elem_of_cons; [done|]. specialize (Hk _ Hin). unfold earlier in Ex, Hk |- *.
      rewrite !orb_false_iff, !andb_false_iff, !Z.ltb_ge, !Z.eqb_neq in Ex, Hk |- *. lia.
  - destruct l as [|y l]; [|cbn in E; by destruct (foldr _ None l)]. intros [= <-]. split; [by left|].
    intros k ->%list_elem_of_singleton. done.
Qed.

Definition fence_of (j : Job) : PolicyJobFence := {| fc_JobID := jb_ID j; fc_Owner := jb_LeaseOwner j; fc_Version := jb_LeaseVersion j |}.

Lemma Claim_inv locked owner lease now kinds t t' o :
  Claim locked owner lease now kinds t = Ok (t', o) ->
  owner <> "" /\ 0 < lease /\
  match o with
  | None => t' = t
  | Some j' =>
      exists id j (kinds' := match kinds with [] => GovJobKinds | _ => kinds end),
        t !! id = Some j /\ (jb_ID j ∉ locked) /\ claimable kinds' now t j = true /\
        (forall k id, t !! id = Some k -> jb_ID k ∉ locked -> claimable kinds' now t k = true -> earlier k j = false) /\
        j' = set_run GovJobRunning (jb_RunAfter j) owner (Some (now + lease)) (jb_LeaseVersion j + 1) (jb_Attempts j + 1)
               (jb_LastError j) (jb_CompletedAt j) j /\ t' = <[jb_ID j := j']> t
  end.
Proof.
  unfold Claim. destruct (is_empty owner) eqn:Eo; [done|]. destruct (lease <=? 0) eqn:El; [done|]. cbv zeta.
  assert (owner <> "") by (intros ->; discriminate Eo). apply Z.leb_gt in El.
  destruct (first_job _) as [j|] eqn:E; intros [= <- <-]; (split; [done|split; [done|]]); [|done].
  apply first_job_spec in E as [Hin Hmin]. apply elem_of_filter_b in Hin as [Hin Hc].
  apply list_elem_of_fmap in Hin as ([id j0] & -> & Hin%elem_of_map_to_list). cbn [snd] in *. apply andb_true_iff in Hc as [Hc1 Hc2].
  exists id, j0. split_and!; [done|by bool_prop|done| |done|done].
  intros k idk Hk Hn Hck. apply Hmin. apply elem_of_filter_b. split.
  - apply list_elem_of_fmap. exists (idk, k). split; [done|]. by apply elem_of_map_to_list.
  - rewrite Hck, andb_true_r. apply negb_true_iff, bool_decide_eq_false. done.
Qed.

Lemma claimable_status kinds now t j :
  claimable kinds now t j = true -> jb_Attempts j < jb_MaxAttempts j /\ is_open j = true /\
  (jb_Status j = GovJobRunning -> lapsed now j = true).
Proof.
  unfold claimable. intros [[[_ Ha]%andb_true_iff Hs]%andb_true_iff _]%andb_true_iff. apply Z.ltb_lt in Ha. split; [done|].
  apply orb_true_iff in Hs as [[Hs _]%andb_true_iff|[Hs Hl]%andb_true_iff]; apply String.eqb_eq in Hs.
  - split; [unfold is_open; by rewrite Hs|intros E; by rewrite Hs in E].
  - split; [by apply running_open|done].
Qed.

Lemma Claim_ok locked owner lease now kinds t t' o : jobs_ok t -> Claim locked owner lease now kinds t = Ok (t', o) -> jobs_ok t'.
Proof.
  intros Ht (Ho & Hl & H)%Claim_inv. destruct o as [j'|]; [|by subst]. destruct H as (id & j & Hj & _ & Hc & _ & Ej & ->).
  pose proof (proj1 Ht _ _ Hj) as Hok. cbn in Hok. pose proof (jo_id _ _ Hok) as Eid. rewrite Eid in *.
  apply claimable_status in Hc as (Ha & Hop & _). subst j'.
  eapply jobs_ok_replace; [done|done| |by rewrite same_key_sym, set_run_key, same_key_refl|done|done].
  destruct Hok as [_ Hk Hs _ Hv Hat Hco]. split; cbn; try done; [set_solver|by split_and!; [done|eexists|lia]|lia|lia|].
  change (is_open _) with true. by rewrite <- Hco.
Qed.

Lemma exhausted_ok now dbnow t : jobs_ok t -> jobs_ok (FailExhaustedJobs now dbnow t).
Proof.
  intros [Hr Hu]. unfold FailExhaustedJobs. match goal with |- jobs_ok (?h <$> _) => set (g := h) end.
  assert (forall id j, t !! id = Some j -> job_ok id (g j)) as Hg.
  { intros id j Hj. specialize (Hr _ _ Hj). cbn in Hr. unfold g. destruct (_ && _) eqn:E; [|done]. bool_prop.
    apply release_ok; [done|done|set_solver|destruct Hr; lia|done]. }
  assert (forall j, is_open (g j) = true -> is_open j = true) as Hop by (intros j; unfold g; by destruct (_ && _)).
  assert (forall j k, same_key (g j) k = same_key j k) as Hkey by (intros j k; unfold g; by destruct (_ && _)).
  split.
  - intros id j' H. apply lookup_fmap_Some in H as (j & <- & Hj). by apply Hg.
  - intros a b x y Hx Hy. apply lookup_fmap_Some in Hx as (x' & <- & Hx), Hy as (y' & <- & Hy). intros Ox%Hop Oy%Hop.
    rewrite Hkey, same_key_sym, Hkey, same_key_sym. by eauto.
Qed.

Lemma prune_ok before t : jobs_ok t -> jobs_ok (PruneFinished before t).
Proof.
  intros [Hr Hu]. split.
  - intros id j [Hj _]%map_lookup_filter_Some. by apply Hr.
  - intros a b x y [Hx _]%map_lookup_filter_Some [Hy _]%map_lookup_filter_Some. by eauto.
Qed.

(** * One statement *)

(** The table and the ids ever given to a job: [uuid.New] does not repeat. *)
Definition system : Type := Jobs * gset string.

Inductive job_step : system -> system -> Prop :=
  | js_enqueue fresh ra now dbnow job every once t u t' j b :
      jb_ID (with_defaults fresh ra now dbnow job) ∉ u ->
      enqueue fresh ra now dbnow job every once t = Ok (t', j, b) ->
      job_step (t, u) (t', {[jb_ID (with_defaults fresh ra now dbnow job)]} ∪ u)
  | js_claim locked owner lease now kinds t u t' o : Claim locked owner lease now kinds t = Ok (t', o) -> job_step (t, u) (t', u)
  | js_renew f lease now t u t' : Renew f lease now t = Ok t' -> job_step (t, u) (t', u)
  | js_complete f dbnow t u t' : CompleteTx f dbnow t = Ok t' -> job_step (t, u) (t', u)
  | js_fail f reason ra now dbnow t u t' : Fail_ f reason ra now dbnow t = Ok t' -> job_step (t, u) (t', u)
  | js_abandon f reason dbnow t u t' : Abandon f reason dbnow t = Ok t' -> job_step (t, u) (t', u)
  | js_requeue f after now t u t' : Requeue f after now t = Ok t' -> job_step (t, u) (t', u)
  | js_exhausted now dbnow t u : job_step (t, u) (FailExhaustedJobs now dbnow t, u)
  | js_prune before t u : job_step (t, u) (PruneFinished before t, u).

Lemma Fail_ok f reason ra now dbnow t t' : jobs_ok t -> Fail_ f reason ra now dbnow t = Ok t' -> jobs_ok t'.
Proof.
  intros Ht. apply fenced_ok; [|intros j k; by destruct (_ <? _)|done].
  intros j Hh%holds_running Hj. pose proof (jo_attempts _ _ Hj). destruct (_ <? _); (apply release_ok; [done|done|set_solver|lia|done]).
Qed.

Lemma job_step_ok s s' : job_step s s' -> jobs_ok s.1 -> jobs_ok s'.1.
Proof.
  destruct 1; cbn [fst]; intros Ht.
  - by eapply enqueue_ok.
  - by eapply Claim_ok.
  - eapply fenced_ok; [| |exact Ht|done]; [|done]. intros j Hh [Hid Hk Hs Hl Hv Ha Hc].
    split; cbn; try done. rewrite (holds_running _ _ Hh) in Hl |- *. destruct Hl as (? & _ & ?). by split_and!.
  - eapply fenced_ok; [| |exact Ht|done]; [|done]. intros j Hh%holds_running Hj. pose proof (jo_attempts _ _ Hj).
    apply release_ok; [done|done|set_solver|lia|done].
  - by eapply Fail_ok.
  - eapply fenced_ok; [| |exact Ht|done]; [|done]. intros j Hh%holds_running Hj. pose proof (jo_attempts _ _ Hj).
    apply release_ok; [done|done|set_solver|lia|done].
  - eapply fenced_ok; [| |exact Ht|done]; [|done]. intros j Hh%holds_running Hj. pose proof (jo_attempts _ _ Hj).
    apply release_ok; [done|done|set_solver|lia|]. pose proof (jo_completed _ _ Hj) as Hc. by rewrite running_open in Hc.
  - by apply exhausted_ok.
  - by apply prune_ok.
Qed.

(** ** Fences *)

(** The fence belongs to a lease that was given up or taken over. *)
Definition dead (f : PolicyJobFence) (s : system) : Prop :=
  fc_JobID f ∈ s.2 /\
  forall j, s.1 !! fc_JobID f = Some j -> fc_Version f <= jb_LeaseVersion j /\ holds f j = false.

Lemma released_holds f s r a l c j : s <> GovJobRunning -> holds f (release s r a l c j) = false.
Proof. intros H. unfold holds. cbn. apply String.eqb_neq in H. by rewrite H, andb_false_r. Qed.

(** What a statement does to a job: nothing, it renews the lease, gives it up, or takes it over. *)
Inductive moved (j : Job) : Job -> Prop :=
  | moved_same : moved j j
  | moved_renew e : moved j (set_run (jb_Status j) (jb_RunAfter j) (jb_LeaseOwner j) e (jb_LeaseVersion j) (jb_Attempts j) (jb_LastError j)
                               (jb_CompletedAt j) j)
  | moved_release s r a l c : s <> GovJobRunning -> moved j (release s r a l c j)
  | moved_claim owner e : moved j (set_run GovJobRunning (jb_RunAfter j) owner e (jb_LeaseVersion j + 1) (jb_Attempts j + 1)
                                     (jb_LastError j) (jb_CompletedAt j) j).

Lemma fenced_moved f g t t' id j' :
  (forall j, moved j (g j)) -> fencedJob f g t = Ok t' -> t' !! id = Some j' -> exists j, t !! id = Some j /\ moved j j'.
Proof.
  intros Hg (j & Hj & _ & ->)%fencedJob_inv. rewrite lookup_insert_Some. intros [[<- <-]|[_ H]]; [by exists j|].
  exists j'. split; [done|constructor].
Qed.

Lemma step_moved s s' id j' :
  job_step s s' -> jobs_ok s.1 -> s'.1 !! id = Some j' -> s.2 ⊆ s'.2 /\ (id ∈ s.2 -> exists j, s.1 !! id = Some j /\ moved j j').
Proof.
  intros H Ht Hj. destruct H as [fresh ra now dbnow job every once t u t' j b Hu He|locked owner lease now kinds t u t' o He|
    f lease now t u t' He|f dbnow t u t' He|f reason ra now dbnow t u t' He|f reason dbnow t u t' He|f after now t u t' He|now dbnow t u|before t u];
    cbn [fst snd] in *; (split; [set_solver|intros Hid]).
  3-7: eapply fenced_moved; [|exact He|exact Hj]; intros j; repeat destruct (_ <? _); first [apply moved_renew|by apply moved_release].
  - apply enqueue_inv in He as [->|(_ & _ & _ & Ej & ->)]; [exists j'; split; [done|constructor]|].
    rewrite lookup_insert_Some in Hj. destruct Hj as [[<- <-]|[_ Hj]]; [|exists j'; split; [done|constructor]].
    rewrite Ej in Hid. done.
  - apply Claim_inv in He as (_ & _ & He). destruct o as [jc|]; [|subst; exists j'; split; [done|constructor]].
    destruct He as (idc & j & Hjc & _ & _ & _ & -> & ->). pose proof (jo_id _ _ (proj1 Ht _ _ Hjc)) as Eid. rewrite Eid in Hj.
    rewrite lookup_insert_Some in Hj. destruct Hj as [[<- <-]|[_ Hj]]; [exists j|exists j']; (split; [done|constructor]).
  - apply lookup_fmap_Some in Hj as (j & <- & Hj). exists j. split; [done|]. destruct (_ && _); by constructor.
  - apply map_lookup_filter_Some in Hj as [Hj _]. exists j'. split; [done|constructor].
Qed.

Lemma step_used s s' : job_step s s' -> s.2 ⊆ s'.2.
Proof. destruct 1; cbn; set_solver. Qed.

Lemma dead_step f s s' : jobs_ok s.1 -> job_step s s' -> dead f s -> dead f s'.
Proof.
  intros Ht Hs [Hid Hd]. split; [by apply (step_used _ _ Hs)|]. intros j' Hj'.
  destruct (step_moved _ _ _ _ Hs Ht Hj') as [_ H]. destruct (H Hid) as (j & Hj & Hm). destruct (Hd _ Hj) as [Hv Hn].
  destruct Hm; cbn; [done|split; [done|exact Hn]|split; [done|by apply released_holds]|].
  split; [lia|]. unfold holds. cbn. destruct (_ =? fc_Version f) eqn:E; [lia|]. by rewrite andb_false_r.
Qed.

Lemma reachable_ok s s' : rtc job_step s s' -> jobs_ok s.1 -> jobs_ok s'.1.
Proof. induction 1 as [|s1 s2 s3 H _ IH]; [done|]. intros Ht. by apply IH, (job_step_ok _ _ H). Qed.

Lemma jobs_reachable t u : rtc job_step (∅, ∅) (t, u) -> jobs_ok t.
Proof.
  intros H. apply (reachable_ok _ _ H). split; [apply map_Forall_empty|]. intros a b j k Hj. cbn in Hj. by rewrite lookup_empty in Hj.
Qed.

(** C15. Every statement of the job repository keeps the table's invariant, in any order and from any worker: ids are
    keys, an open job is the only one of its workspace, kind and dedupe key, a running job has an owner, an expiry and a
    positive lease version and no other job has a lease, attempts stay within the maximum, and a job has a completion
    time exactly when it is not open. *)
Theorem job_table_invariant t u : rtc job_step (∅, ∅) (t, u) -> jobs_ok t.
Proof. apply jobs_reachable. Qed.

(** C14. A lease lost once is lost for good. Once the fence of a claim (job, owner, lease version) no longer holds, because
    the job was taken over, handed back, finished, or pruned, no sequence of statements of any workers makes it hold
    again: every later fenced write of that worker fails with [ErrPolicyJobLeaseLost] and changes nothing. *)
Theorem lost_fence_stays_lost t u t' u' f g :
  rtc job_step (∅, ∅) (t, u) -> rtc job_step (t, u) (t', u') ->
  fc_JobID f ∈ u -> (forall j, t !! fc_JobID f = Some j -> fc_Version f <= jb_LeaseVersion j) -> owned t f = false ->
  AssertOwnedTx f t' = Err ErrPolicyJobLeaseLost /\ fencedJob f g t' = Err ErrPolicyJobLeaseLost.
Proof.
  intros H0 H Hid Hv Ho. assert (jobs_ok t) as Ht by by eapply jobs_reachable.
  assert (dead f (t, u)) as Hd.
  { split; [done|]. intros j Hj. cbn in Hj. split; [by apply Hv|]. unfold owned in Ho. by rewrite Hj in Ho. }
  assert (dead f (t', u')) as [_ Hd'].
  { clear -H Ht Hd. remember (t, u) as s eqn:Es. remember (t', u') as s' eqn:Es'. assert (jobs_ok s.1) as Hok by by subst.
    clear Es Ht t u Es' t' u'. induction H as [|s1 s2 s3 H _ IH]; [done|]. apply IH; [by eapply dead_step|by eapply job_step_ok]. }
  cbn in Hd'. unfold AssertOwnedTx, owned, fencedJob. destruct (t' !! fc_JobID f) as [j|]; [|done].
  destruct (Hd' j eq_refl) as [_ ->]. done.
Qed.

(** * A worker that stalls *)

Definition sample_job : Job :=
  {| jb_ID := "j1"; jb_WorkspaceID := "ws"; jb_Kind := GovJobDeploy; jb_SubjectID := None; jb_Rev := None; jb_DedupeKey := "deployment:d1";
     jb_Status := ""; jb_RunAfter := 0; jb_LeaseOwner := ""; jb_LeaseExpiresAt := None; jb_LeaseVersion := 0; jb_Attempts := 0;
     jb_MaxAttempts := 0; jb_LastError := ""; jb_CreatedAt := 0; jb_CompletedAt := None |}.

(** Queued, claimed by w1, and claimed by w2 when the lease of w1 has lapsed. *)
Definition sample_jobs (n : nat) : Jobs :=
  let t := match enqueue "" None 0 0 sample_job 0 false ∅ with Ok (t, _, _) => t | Err _ => ∅ end in
  let claim owner now t := match Claim [] owner PolicyJobLease now [] t with Ok (t, _) => t | Err _ => ∅ end in
  match n with O => t | S O => claim "w1" 1 t | _ => claim "w2" (3 * minute) (claim "w1" 1 t) end.

Lemma sample_claims n : (n <= 2)%nat -> rtc job_step (∅, ∅) (sample_jobs n, {["j1"]}).
Proof.
  intros Hn.
  assert (job_step (∅, ∅) (sample_jobs 0, {["j1"]})) as H0.
  { pose proof (js_enqueue "" None 0 0 sample_job 0 false ∅ ∅ (sample_jobs 0) (with_defaults "" None 0 0 sample_job) true) as H.
    rewrite union_empty_r_L in H. apply H; [set_solver|vm_compute; reflexivity]. }
  assert (job_step (sample_jobs 0, {["j1"]}) (sample_jobs 1, {["j1"]})) as H1.
  { apply (js_claim [] "w1" PolicyJobLease 1 [] _ _ _ (sample_jobs 1 !! "j1")). vm_compute. reflexivity. }
  assert (job_step (sample_jobs 1, {["j1"]}) (sample_jobs 2, {["j1"]})) as H2.
  { apply (js_claim [] "w2" PolicyJobLease (3 * minute) [] _ _ _ (sample_jobs 2 !! "j1")). vm_compute. reflexivity. }
  destruct n as [|[|[|n]]]; [| | |lia].
  - by apply rtc_once.
  - by eapply rtc_l, rtc_once.
  - by eapply rtc_l, rtc_l, rtc_once.
Qed.

Lemma job_table_invariant_witness : jobs_ok (sample_jobs 2) /\ (jb_LeaseVersion <$> sample_jobs 2 !! "j1") = Some 2.
Proof. split; [apply (job_table_invariant _ {["j1"]}), (sample_claims 2); lia|reflexivity]. Defined.

Lemma lost_fence_stays_lost_witness :
  owned (sample_jobs 1) {| fc_JobID := "j1"; fc_Owner := "w1"; fc_Version := 1 |} = true /\
  CompleteTx {| fc_JobID := "j1"; fc_Owner := "w1"; fc_Version := 1 |} 0 (sample_jobs 2) = Err ErrPolicyJobLeaseLost.
Proof.
  split; [reflexivity|].
  apply (lost_fence_stays_lost (sample_jobs 2) {["j1"]} (sample_jobs 2) {["j1"]} {| fc_JobID := "j1"; fc_Owner := "w1"; fc_Version := 1 |}).
  - apply (sample_claims 2). lia.
  - apply rtc_refl.
  - set_solver.
  - intros j. vm_compute. intros [= <-]. vm_compute. discriminate.
  - reflexivity.
Defined.
