(* ===== verification/AttemptLog.v ===== *)
(** The write-ahead attempt log (services/iga_gov_attempt_log.go): every AWS
    mutation of a deployment is recorded as prepared, then dispatched, before it
    is sent, and as completed or unknown after. Each function below is one
    transaction on the database of a workspace, fenced on the lease of the job
    that runs it; transactions are atomic (the job row is locked for their whole
    length). *)

From stdpp Require Import base list strings gmap sorting relations.
From S2P Require Import Prelude Slices Qualify Float64 Marshal TimeFmt JobQueue.

Definition GovAttemptPrepared : string := "prepared".
Definition GovAttemptDispatched : string := "dispatched".
Definition GovAttemptCompleted : string := "completed".
Definition GovAttemptUnknown : string := "unknown".
Definition GovAttemptAbandoned : string := "abandoned".

Definition GovDeployApplying : string := "applying".
Definition GovDeployOutcomeUnknown : string := "outcome_unknown".

Definition AttemptOutcomeOK : string := "ok".
Definition AttemptOutcomeRetryable : string := "retryable".
Definition AttemptOutcomeTerminal : string := "terminal".
Definition AttemptOutcomeRecognisedDone : string := "recognised_done".
Definition AttemptOutcomeNotNeeded : string := "not_needed".

Definition AttemptResolvedApplied : string := "applied".
Definition AttemptResolvedNotApplied : string := "not_applied".

(* src: services/iga_gov_attempt_log.go:82-82 (DefaultAttemptSettleWindow) *)
Definition DefaultAttemptSettleWindow : Z := 15 * minute.

Definition ErrAttemptOpen : goError := ErrOther "the deployment already has an open attempt".
Definition ErrAttemptState : goError := ErrOther "the attempt is not in the state this step needs".

(** * Tables *)

(* src: models/iga_gov_rollout.go:163-184 (IGAGovAttempt) *)
Record Attempt := {
  at_ID : string;
  at_DeploymentID : string;
  at_OpSeq : Z;
  at_AttemptNo : Z;
  at_LeaseVersion : Z;
  at_Operation : string;
  at_RequestHash : string;
  at_DocumentHash : option string;
  at_Status : string;
  at_PreparedAt : Time;
  at_SignedAt : option Time;
  at_DispatchedAt : option Time;
  at_CompletedAt : option Time;
  at_RequestID : string;
  at_Outcome : option string;
  at_ErrorCode : string;
  at_ErrorMessage : string;
  at_ResolvedAs : option string;
  at_ResolvedAt : option Time }.

(** An entry of completed_ops: the columns every reader looks at. *)
Record CompletedOp := { co_OpSeq : Z; co_Operation : string; co_AttemptID : option string; co_Outcome : string; co_Basis : option string }.

(** The columns the log and the executor read or write. *)
(* src: models/iga_gov_rollout.go:129-156 (IGAGovDeployment) *)
Record Deployment := {
  dp_ID : string;
  dp_VersionID : string;
  dp_ControlID : string;
  dp_Kind : string;
  dp_Delivery : string;
  dp_State : string;
  dp_StateReason : string;
  dp_CompletedOps : list CompletedOp;
  dp_Attempts : Z;
  dp_OutcomeUnknownOp : string;
  dp_SettleAfter : option Time }.

(* src: models/iga_gov_rollout.go:246-260 (IGAGovArtifact) *)
Record Artifact := {
  ar_ID : string;
  ar_ControlID : string;
  ar_Kind : string;
  ar_NativeARN : string;
  ar_OwnedBy : string;
  ar_State : string;
  ar_DocumentHash : option string;
  ar_AWSVersionID : string;
  ar_LastReadbackAt : option Time;
  ar_LastReadbackHash : string;
  ar_LastDeploymentID : string }.

Record Event := { ev_Event : string; ev_DeploymentID : string; ev_Payload : list (string * goval) }.

(** A workspace's rows. Events are appended, newest first. *)
Record DB := {
  db_Jobs : Jobs;
  db_Deployments : gmap string Deployment;
  db_Attempts : gmap string Attempt;
  db_Documents : gmap string string;
  db_Artifacts : gmap string Artifact;
  db_Events : list Event }.

Definition set_Jobs (t : Jobs) (d : DB) : DB :=
  {| db_Jobs := t; db_Deployments := db_Deployments d; db_Attempts := db_Attempts d; db_Documents := db_Documents d;
     db_Artifacts := db_Artifacts d; db_Events := db_Events d |}.
Definition set_Deployments (t : gmap string Deployment) (d : DB) : DB :=
  {| db_Jobs := db_Jobs d; db_Deployments := t; db_Attempts := db_Attempts d; db_Documents := db_Documents d;
     db_Artifacts := db_Artifacts d; db_Events := db_Events d |}.
Definition set_Attempts (t : gmap string Attempt) (d : DB) : DB :=
  {| db_Jobs := db_Jobs d; db_Deployments := db_Deployments d; db_Attempts := t; db_Documents := db_Documents d;
     db_Artifacts := db_Artifacts d; db_Events := db_Events d |}.
Definition set_Documents (t : gmap string string) (d : DB) : DB :=
  {| db_Jobs := db_Jobs d; db_Deployments := db_Deployments d; db_Attempts := db_Attempts d; db_Documents := t;
     db_Artifacts := db_Artifacts d; db_Events := db_Events d |}.
Definition set_Artifacts (t : gmap string Artifact) (d : DB) : DB :=
  {| db_Jobs := db_Jobs d; db_Deployments := db_Deployments d; db_Attempts := db_Attempts d; db_Documents := db_Documents d;
     db_Artifacts := t; db_Events := db_Events d |}.
Definition add_event (e : Event) (d : DB) : DB :=
  {| db_Jobs := db_Jobs d; db_Deployments := db_Deployments d; db_Attempts := db_Attempts d; db_Documents := db_Documents d;
     db_Artifacts := db_Artifacts d; db_Events := e :: db_Events d |}.

Definition put_attempt (a : Attempt) (d : DB) : DB := set_Attempts (<[at_ID a := a]> (db_Attempts d)) d.

(** [UPDATE iga_gov_deployment ... WHERE id = ...]. *)
Definition alter_deployment (id : string) (g : Deployment -> Deployment) (d : DB) : DB :=
  set_Deployments (alter g id (db_Deployments d)) d.

Definition set_deploy (state reason unknownOp : string) (settle : option Time) (ops : list CompletedOp) (attempts : Z) (p : Deployment) : Deployment :=
  {| dp_ID := dp_ID p; dp_VersionID := dp_VersionID p; dp_ControlID := dp_ControlID p; dp_Kind := dp_Kind p; dp_Delivery := dp_Delivery p;
     dp_State := state; dp_StateReason := reason; dp_CompletedOps := ops; dp_Attempts := attempts;
     dp_OutcomeUnknownOp := unknownOp; dp_SettleAfter := settle |}.

(** [completed_ops || entry]. *)
Definition append_completed (e : CompletedOp) (p : Deployment) : Deployment :=
  set_deploy (dp_State p) (dp_StateReason p) (dp_OutcomeUnknownOp p) (dp_SettleAfter p) (dp_CompletedOps p ++ [e]) (dp_Attempts p) p.

(** The status columns of an attempt; the prepared request stays. *)
Definition set_attempt (status : string) (signed dispatched completed : option Time) (requestID : string) (outcome : option string)
    (code message : string) (resolvedAs : option string) (resolvedAt : option Time) (a : Attempt) : Attempt :=
  {| at_ID := at_ID a; at_DeploymentID := at_DeploymentID a; at_OpSeq := at_OpSeq a; at_AttemptNo := at_AttemptNo a;
     at_LeaseVersion := at_LeaseVersion a; at_Operation := at_Operation a; at_RequestHash := at_RequestHash a;
     at_DocumentHash := at_DocumentHash a; at_Status := status; at_PreparedAt := at_PreparedAt a; at_SignedAt := signed;
     at_DispatchedAt := dispatched; at_CompletedAt := completed; at_RequestID := requestID; at_Outcome := outcome;
     at_ErrorCode := code; at_ErrorMessage := message; at_ResolvedAs := resolvedAs; at_ResolvedAt := resolvedAt |}.

(** Prepared, dispatched, or unknown and unresolved (uq_iga_gov_attempt_open). *)
Definition attempt_open (a : Attempt) : bool :=
  bool_decide (at_Status a ∈ [GovAttemptPrepared; GovAttemptDispatched]) ||
  ((at_Status a =? GovAttemptUnknown)%string && bool_decide (at_ResolvedAs a = None)).

Definition attempts_where (p : Attempt -> bool) (d : DB) : list Attempt := List.filter p (snd <$> map_to_list (db_Attempts d)).

(* src: services/iga_gov_attempt_log.go:642-647 (truncate) *)
Definition truncate (s : string) (n : nat) : string := if (str_length s <=? n)%nat then s else String.substring 0 n s.

(* src: services/iga_gov_attempt_log.go:623-640 (IGAGovAttemptLog.event) *)
Definition attempt_event (a : Attempt) (name : string) (extra : list (string * goval)) : DB -> DB :=
  add_event {| ev_Event := name; ev_DeploymentID := at_DeploymentID a;
               ev_Payload := [("attempt_id", GString (at_ID a)); ("op_seq", GInt (at_OpSeq a)); ("attempt_no", GInt (at_AttemptNo a));
                              ("operation", GString (at_Operation a)); ("lease_version", GInt (at_LeaseVersion a));
                              ("status", GString (at_Status a))] ++ extra |}.

(** A fenced transaction: nothing changes when the fence is lost or the body fails. *)
(* src: services/iga_gov_job_worker.go:551-561 (PolicyJobRun.InTx) *)
Definition InTx {A} (f : PolicyJobFence) (fn : DB -> result (DB * A)) (d : DB) : result (DB * A) :=
  _ ← AssertOwnedTx f (db_Jobs d); fn d.

(** * The steps *)

(* src: services/iga_gov_attempt_log.go:100-111 (AttemptRequest) *)
Record AttemptRequest := {
  aq_DeploymentID : string;
  aq_OpSeq : Z;
  aq_Operation : string;
  aq_RequestHash : string;
  aq_DocumentHash : string }.

(* src: services/iga_gov_attempt_log.go:116-121 (AttemptAnswer) *)
Record AttemptAnswer := { an_Outcome : string; an_RequestID : string; an_ErrorCode : string; an_ErrorMessage : string }.

(** [COALESCE(MAX(attempt_no), 0) + 1]. *)
(* src: services/iga_gov_attempt_log.go:186-190 (IGAGovAttemptLog.Prepare, part) *)
Definition next_attempt_no (dep : string) (op : Z) (d : DB) : Z :=
  foldr Z.max 0 (at_AttemptNo <$> attempts_where (fun a => (at_DeploymentID a =? dep)%string && (at_OpSeq a =? op)) d) + 1.

(** The inserted row; [fresh] is [uuid.New]. *)
(* src: services/iga_gov_attempt_log.go:191-199 (IGAGovAttemptLog.Prepare, part) *)
Definition prepared_row (fresh : string) (no version : Z) (req : AttemptRequest) (now : Time) : Attempt :=
  {| at_ID := fresh; at_DeploymentID := aq_DeploymentID req; at_OpSeq := aq_OpSeq req; at_AttemptNo := no; at_LeaseVersion := version;
     at_Operation := aq_Operation req; at_RequestHash := aq_RequestHash req;
     at_DocumentHash := if is_empty (aq_DocumentHash req) then None else Some (aq_DocumentHash req);
     at_Status := GovAttemptPrepared; at_PreparedAt := now; at_SignedAt := None; at_DispatchedAt := None; at_CompletedAt := None;
     at_RequestID := ""; at_Outcome := None; at_ErrorCode := ""; at_ErrorMessage := ""; at_ResolvedAs := None; at_ResolvedAt := None |}.

(* src: services/iga_gov_attempt_log.go:180-217 (IGAGovAttemptLog.Prepare) *)
Definition Prepare (fresh : string) (now : Time) (f : PolicyJobFence) (req : AttemptRequest) (d : DB) : result (DB * Attempt) :=
  if is_empty (aq_Operation req) || is_empty (aq_RequestHash req) || (aq_OpSeq req <? 0)
  then Err (ErrOther "an attempt needs an operation, a request hash and op_seq >= 0")
  else InTx f (fun d =>
    let a := prepared_row fresh (next_attempt_no (aq_DeploymentID req) (aq_OpSeq req) d) (fc_Version f) req now in
    if bool_decide (is_Some (db_Attempts d !! fresh)) then Err (ErrOther "iga_gov_attempt_pkey")
    else if negb (bool_decide (is_Some (db_Deployments d !! aq_DeploymentID req)))
    then Err (ErrOther "iga_gov_attempt_workspace_id_deployment_id_fkey")
    else if negb (is_empty (aq_DocumentHash req)) && negb (bool_decide (is_Some (db_Documents d !! aq_DocumentHash req)))
    then Err (ErrOther "iga_gov_attempt_workspace_id_document_hash_fkey")
    else match attempts_where (fun b => (at_DeploymentID b =? aq_DeploymentID req)%string && attempt_open b) d with
         | _ :: _ => Err ErrAttemptOpen
         | [] =>
             let d := put_attempt a d in
             let d := alter_deployment (aq_DeploymentID req)
                        (fun p => set_deploy (dp_State p) (dp_StateReason p) (dp_OutcomeUnknownOp p) (dp_SettleAfter p) (dp_CompletedOps p)
                                    (dp_Attempts p + 1) p) d in
             Ok (attempt_event a "attempt.prepared" [] d, a)
         end) d.

(** [UPDATE iga_gov_attempt ... WHERE id AND status [AND lease_version]]: the row,
    when exactly one matches. *)
Definition row_in (id status : string) (version : option Z) (d : DB) : option Attempt :=
  match db_Attempts d !! id with
  | Some a => if (at_Status a =? status)%string && match version with Some v => at_LeaseVersion a =? v | None => true end then Some a else None
  | None => None
  end.

Definition dispatched_row (now : Time) (a : Attempt) : Attempt :=
  set_attempt GovAttemptDispatched (Some now) (Some now) (at_CompletedAt a) (at_RequestID a) (at_Outcome a) (at_ErrorCode a)
    (at_ErrorMessage a) (at_ResolvedAs a) (at_ResolvedAt a) a.

(* src: services/iga_gov_attempt_log.go:223-251 (IGAGovAttemptLog.Dispatch) *)
Definition Dispatch (margin : Z) (now : Time) (f : PolicyJobFence) (att : Attempt) : DB -> result (DB * Attempt) :=
  InTx f (fun d =>
    let short := match db_Jobs d !! fc_JobID f with
                 | Some j => match jb_LeaseExpiresAt j with Some e => time_sub e now <? margin | None => true end
                 | None => true
                 end in
    if short then Err ErrPolicyJobLeaseShort
    else match row_in (at_ID att) GovAttemptPrepared (Some (fc_Version f)) d with
         | None => Err ErrAttemptState
         | Some a =>
             let a := dispatched_row now a in
             Ok (attempt_event a "attempt.dispatched" [] (put_attempt a d), a)
         end).

(* src: services/iga_gov_attempt_log.go:301-303 (OpDone) *)
Definition OpDone (outcome : string) : bool :=
  bool_decide (outcome ∈ [AttemptOutcomeOK; AttemptOutcomeRecognisedDone; AttemptOutcomeNotNeeded]).

Definition completed_row (now : Time) (ans : AttemptAnswer) (a : Attempt) : Attempt :=
  set_attempt GovAttemptCompleted (at_SignedAt a) (at_DispatchedAt a) (Some now) (an_RequestID ans) (Some (an_Outcome ans)) (an_ErrorCode ans)
    (truncate (an_ErrorMessage ans) 2000) (at_ResolvedAs a) (at_ResolvedAt a) a.

(* src: services/iga_gov_attempt_log.go:258-298 (IGAGovAttemptLog.Complete) *)
Definition Complete (now : Time) (f : PolicyJobFence) (att : Attempt) (ans : AttemptAnswer) (d : DB) : result (DB * Attempt) :=
  if negb (bool_decide (an_Outcome ans ∈ [AttemptOutcomeOK; AttemptOutcomeRetryable; AttemptOutcomeTerminal; AttemptOutcomeRecognisedDone;
                                          AttemptOutcomeNotNeeded]))
  then Err (ErrOther ("attempt outcome " +:+ an_Outcome ans +:+ " is not one of 051's"))
  else InTx f (fun d =>
    match row_in (at_ID att) GovAttemptDispatched (Some (fc_Version f)) d with
    | None => Err ErrAttemptState
    | Some a =>
        let a := completed_row now ans a in
        let d := put_attempt a d in
        let d := if OpDone (an_Outcome ans)
                 then alter_deployment (at_DeploymentID att)
                        (append_completed {| co_OpSeq := at_OpSeq att; co_Operation := at_Operation att; co_AttemptID := Some (at_ID att);
                                             co_Outcome := an_Outcome ans; co_Basis := None |}) d
                 else d in
        Ok (attempt_event a "attempt.completed" [("outcome", GString (an_Outcome ans)); ("request_id", GString (an_RequestID ans));
                                                 ("error_code", GString (an_ErrorCode ans))] d, a)
    end) d.

Definition unknown_row (a : Attempt) : Attempt :=
  set_attempt GovAttemptUnknown (at_SignedAt a) (at_DispatchedAt a) (at_CompletedAt a) (at_RequestID a) (at_Outcome a) (at_ErrorCode a)
    (at_ErrorMessage a) (at_ResolvedAs a) (at_ResolvedAt a) a.

Definition LateMutationNote : string :=
  "the deployment was not applying; its state is unchanged and the control is watched for a late mutation".

(** [settle] is the settle window. An applying deployment waits on the request; any
    other keeps its state. *)
(* src: services/iga_gov_attempt_log.go:322-371 (IGAGovAttemptLog.markUnknownTx) *)
Definition markUnknownTx (settleWindow : Z) (now : Time) (att : Attempt) (version : option Z) (reason : string) (d : DB)
  : result (DB * Time) :=
  match row_in (at_ID att) GovAttemptDispatched version d with
  | None => Err ErrAttemptState
  | Some a =>
      let a := unknown_row a in
      let d := put_attempt a d in
      let settle := default now (at_SignedAt att) + settleWindow in
      let op := Itoa (at_OpSeq att) +:+ ":" +:+ at_Operation att in
      let applying := match db_Deployments d !! at_DeploymentID att with Some p => (dp_State p =? GovDeployApplying)%string | None => false end in
      let d := if applying
               then alter_deployment (at_DeploymentID att)
                      (fun p => set_deploy GovDeployOutcomeUnknown (truncate reason 500) op (Some settle) (dp_CompletedOps p) (dp_Attempts p) p) d
               else d in
      let extra := [("reason", GString reason); ("settle_after", GString (FormatRFC3339Nano settle))] ++
                   (if applying then []
                    else match db_Deployments d !! at_DeploymentID att with
                         | Some p => [("deployment_state", GString (dp_State p))]
                         | None => []
                         end ++ [("note", GString LateMutationNote)]) in
      Ok (attempt_event a "attempt.unknown" extra d, settle)
  end.

(* src: services/iga_gov_attempt_log.go:309-317 (IGAGovAttemptLog.MarkUnknown) *)
Definition MarkUnknown (settleWindow : Z) (now : Time) (f : PolicyJobFence) (att : Attempt) (reason : string) : DB -> result (DB * Time) :=
  InTx f (markUnknownTx settleWindow now att (Some (fc_Version f)) reason).

Definition abandoned_row (now : Time) (a : Attempt) : Attempt :=
  set_attempt GovAttemptAbandoned (at_SignedAt a) (at_DispatchedAt a) (Some now) (at_RequestID a) (at_Outcome a) (at_ErrorCode a)
    (at_ErrorMessage a) (at_ResolvedAs a) (at_ResolvedAt a) a.

(** The event is written whether or not the row was still prepared. *)
(* src: services/iga_gov_attempt_log.go:592-605 (IGAGovAttemptLog.abandonOwnReason) *)
Definition abandonOwnReason (now : Time) (f : PolicyJobFence) (att : Attempt) (reason : string) : DB -> result (DB * unit) :=
  InTx f (fun d =>
    let d := match row_in (at_ID att) GovAttemptPrepared (Some (fc_Version f)) d with
             | Some a => put_attempt (abandoned_row now a) d
             | None => d
             end in
    Ok (attempt_event (abandoned_row now att) "attempt.abandoned" [("reason", GString reason)] d, tt)).

(** * Recovery *)

Definition RecoveryContinue : string := "continue".
Definition RecoveryReprepare : string := "reprepare".
Definition RecoveryOutcomeUnknown : string := "outcome_unknown".
Definition RecoveryHold : string := "hold".

(* src: services/iga_gov_attempt_log.go:389-393 (AttemptRecovery) *)
Record AttemptRecovery := { rc_Action : string; rc_Attempt : option Attempt; rc_SettleAfter : option Time }.

Definition open_attempts (dep : string) (d : DB) : list Attempt :=
  attempts_where (fun a => (at_DeploymentID a =? dep)%string && attempt_open a) d.

(* src: services/iga_gov_attempt_log.go:415-467 (IGAGovAttemptLog.RecoverTx) *)
Definition RecoverTx (settleWindow : Z) (now : Time) (dep : string) (d : DB) : result (DB * AttemptRecovery) :=
  match open_attempts dep d with
  | [] => Ok (d, {| rc_Action := RecoveryContinue; rc_Attempt := None; rc_SettleAfter := None |})
  | att :: _ =>
      if (at_Status att =? GovAttemptPrepared)%string then
        let a := abandoned_row now att in
        Ok (attempt_event a "attempt.abandoned" [("reason", GString "prepared, never sent; found by a replacement worker")] (put_attempt a d),
            {| rc_Action := RecoveryReprepare; rc_Attempt := Some a; rc_SettleAfter := None |})
      else if (at_Status att =? GovAttemptDispatched)%string then
        '(d, settle) ← markUnknownTx settleWindow now att None
                         "dispatched with no answer recorded; found by a replacement worker (never re-sent)" d;
        Ok (d, {| rc_Action := RecoveryOutcomeUnknown; rc_Attempt := Some (unknown_row att); rc_SettleAfter := Some settle |})
      else
        Ok (d, {| rc_Action := RecoveryHold; rc_Attempt := Some att;
                  rc_SettleAfter := match db_Deployments d !! dep with Some p => dp_SettleAfter p | None => None end |})
  end.

(* src: services/iga_gov_attempt_log.go:398-409 (IGAGovAttemptLog.Recover) *)
Definition Recover (settleWindow : Z) (now : Time) (f : PolicyJobFence) (dep : string) : DB -> result (DB * AttemptRecovery) :=
  InTx f (RecoverTx settleWindow now dep).

Definition resolved_row (now : Time) (as_ : string) (a : Attempt) : Attempt :=
  set_attempt (at_Status a) (at_SignedAt a) (at_DispatchedAt a) (at_CompletedAt a) (at_RequestID a) (at_Outcome a) (at_ErrorCode a)
    (at_ErrorMessage a) (Some as_) (Some now) a.

(** Refused as a whole when the deployment is not waiting on it. *)
(* src: services/iga_gov_attempt_log.go:474-505 (IGAGovAttemptLog.ResolveUnknown) *)
Definition ResolveUnknown (now : Time) (f : PolicyJobFence) (att : Attempt) (resolvedAs : string) (d : DB) : result (DB * Attempt) :=
  if negb (bool_decide (resolvedAs ∈ [AttemptResolvedApplied; AttemptResolvedNotApplied]))
  then Err (ErrOther ("resolved_as " +:+ resolvedAs +:+ " is not applied or not_applied"))
  else InTx f (fun d =>
    match row_in (at_ID att) GovAttemptUnknown None d with
    | Some a =>
        if negb (bool_decide (at_ResolvedAs a = None)) then Err ErrAttemptState
        else match db_Deployments d !! at_DeploymentID att with
             | Some p =>
                 if negb (dp_State p =? GovDeployOutcomeUnknown)%string then Err ErrAttemptState
                 else
                   let a := resolved_row now resolvedAs a in
                   let d := alter_deployment (at_DeploymentID att)
                              (fun p => set_deploy GovDeployApplying ("outcome of " +:+ at_Operation att +:+ " resolved: " +:+ resolvedAs)
                                          (dp_OutcomeUnknownOp p) (dp_SettleAfter p) (dp_CompletedOps p) (dp_Attempts p) p)
                              (put_attempt a d) in
                   Ok (attempt_event a "attempt.resolved" [("resolved_as", GString resolvedAs)] d, a)
             | None => Err ErrAttemptState
             end
    | None => Err ErrAttemptState
    end) d.

(* src: services/iga_gov_attempt_log.go:610-621 (IGAGovAttemptLog.OpenAttempt) *)
Definition OpenAttempt (dep : string) (d : DB) : option Attempt := head (open_attempts dep d).
