(* ===== verification/AttemptFacts.v ===== *)
(** The attempt log under any interleaving of workers, crashes, stalled calls and
    other writers: what iga_gov_attempt can hold, and which requests can have
    reached AWS. *)

From stdpp Require Import base list strings gmap sorting relations.
From S2P Require Import Prelude Slices Qualify Float64 Marshal TimeFmt JobQueue AttemptLog.

(** * The table's constraints *)

(* src: migrations/master/001_bootstrap.sql:9064-9088 (iga_gov_attempt_transition) *)
Definition attempt_transition (old new : Attempt) : Prop :=
  (at_DeploymentID new = at_DeploymentID old /\ at_OpSeq new = at_OpSeq old /\ at_AttemptNo new = at_AttemptNo old /\
   at_LeaseVersion new = at_LeaseVersion old /\ at_Operation new = at_Operation old /\ at_RequestHash new = at_RequestHash old /\
   at_DocumentHash new = at_DocumentHash old) /\
  (at_Status new = at_Status old \/
   (at_Status old = GovAttemptPrepared /\ at_Status new ∈ [GovAttemptDispatched; GovAttemptAbandoned]) \/
   (at_Status old = GovAttemptDispatched /\ at_Status new ∈ [GovAttemptCompleted; GovAttemptUnknown])) /\
  (is_Some (at_ResolvedAs old) -> at_ResolvedAs new = at_ResolvedAs old).

Definition known_outcomes : list string :=
  [AttemptOutcomeOK; AttemptOutcomeRetryable; AttemptOutcomeTerminal; AttemptOutcomeRecognisedDone; AttemptOutcomeNotNeeded].

(* src: migrations/master/001_bootstrap.sql:9200-9214 (iga_gov_attempt) *)
Definition attempt_check (a : Attempt) : Prop :=
  ((at_ResolvedAs a = None \/ at_Status a = GovAttemptUnknown) /\ (at_ResolvedAs a = None <-> at_ResolvedAt a = None)) /\
  ((at_Status a = GovAttemptPrepared /\ at_SignedAt a = None /\ at_DispatchedAt a = None /\ at_CompletedAt a = None /\ at_Outcome a = None) \/
   (at_Status a = GovAttemptAbandoned /\ at_DispatchedAt a = None /\ is_Some (at_CompletedAt a) /\ at_Outcome a = None) \/
   (at_Status a = GovAttemptDispatched /\ is_Some (at_SignedAt a) /\ is_Some (at_DispatchedAt a) /\ at_CompletedAt a = None /\
    at_Outcome a = None) \/
   (at_Status a = GovAttemptCompleted /\ is_Some (at_SignedAt a) /\ is_Some (at_DispatchedAt a) /\ is_Some (at_CompletedAt a) /\
    is_Some (at_Outcome a)) \/
   (at_Status a = GovAttemptUnknown /\ is_Some (at_SignedAt a) /\ is_Some (at_DispatchedAt a) /\ at_Outcome a = None)) /\
  1 <= at_AttemptNo a /\ 0 <= at_OpSeq a /\
  (forall o, at_Outcome a = Some o -> o ∈ known_outcomes) /\
  (forall r, at_ResolvedAs a = Some r -> r ∈ [AttemptResolvedApplied; AttemptResolvedNotApplied]).

(** * Workers *)

(** Where a worker is in [ExecuteChecked]; an answer is [None] when there was
    none before the timeout. *)
Inductive wstate :=
  | WIdle
  | WPrepared (a : Attempt)
  | WCalling (a : Attempt)
  | WAnswered (a : Attempt) (ans : option AttemptAnswer).

Record worker := { wk_Fence : PolicyJobFence; wk_State : wstate }.

(** The database, the workers, the calls that were started and have not been
    sent yet (a call outlives its worker's interest in it), and the requests that
    reached AWS, newest first; a request is named by its attempt. *)
Record protocol := {
  pr_DB : DB;
  pr_Workers : gmap string worker;
  pr_Calls : gset string;
  pr_Sent : list string }.

Definition set_worker (w : string) (f : PolicyJobFence) (s : wstate) (d : DB) (p : protocol) : protocol :=
  {| pr_DB := d; pr_Workers := <[w := {| wk_Fence := f; wk_State := s |}]> (pr_Workers p); pr_Calls := pr_Calls p; pr_Sent := pr_Sent p |}.

Definition with_db (d : DB) (p : protocol) : protocol :=
  {| pr_DB := d; pr_Workers := pr_Workers p; pr_Calls := pr_Calls p; pr_Sent := pr_Sent p |}.

(* src: services/iga_gov_attempt_log.go:531-585 (IGAGovAttemptLog.ExecuteChecked) *)
Inductive proto_step : protocol -> protocol -> Prop :=
  (** Everything but the attempts may change under the workers' feet. *)
  | ps_other p d : db_Attempts d = db_Attempts (pr_DB p) -> proto_step p (with_db d p)
  | ps_start p w f : pr_Workers p !! w = None -> proto_step p (set_worker w f WIdle (pr_DB p) p)
  | ps_crash p w :
      proto_step p {| pr_DB := pr_DB p; pr_Workers := delete w (pr_Workers p); pr_Calls := pr_Calls p; pr_Sent := pr_Sent p |}
  (** A transaction or the run failed: the worker is done with the attempt. *)
  | ps_fail p w f s : pr_Workers p !! w = Some {| wk_Fence := f; wk_State := s |} -> proto_step p (set_worker w f WIdle (pr_DB p) p)
  | ps_prepare p w f fresh now req d a :
      pr_Workers p !! w = Some {| wk_Fence := f; wk_State := WIdle |} -> Prepare fresh now f req (pr_DB p) = Ok (d, a) ->
      proto_step p (set_worker w f (WPrepared a) d p)
  | ps_refuse p w f a now reason d :
      pr_Workers p !! w = Some {| wk_Fence := f; wk_State := WPrepared a |} -> abandonOwnReason now f a reason (pr_DB p) = Ok (d, tt) ->
      proto_step p (set_worker w f WIdle d p)
  | ps_dispatch p w f a margin now d a' :
      pr_Workers p !! w = Some {| wk_Fence := f; wk_State := WPrepared a |} -> Dispatch margin now f a (pr_DB p) = Ok (d, a') ->
      let q := set_worker w f (WCalling a') d p in
      proto_step p {| pr_DB := pr_DB q; pr_Workers := pr_Workers q; pr_Calls := {[at_ID a]} ∪ pr_Calls q; pr_Sent := pr_Sent q |}
  | ps_send p id :
      id ∈ pr_Calls p ->
      proto_step p {| pr_DB := pr_DB p; pr_Workers := pr_Workers p; pr_Calls := pr_Calls p ∖ {[id]}; pr_Sent := id :: pr_Sent p |}
  | ps_drop p id :
      proto_step p {| pr_DB := pr_DB p; pr_Workers := pr_Workers p; pr_Calls := pr_Calls p ∖ {[id]}; pr_Sent := pr_Sent p |}
  (** A definitive answer answers a request. *)
  | ps_answer p w f a ans :
      pr_Workers p !! w = Some {| wk_Fence := f; wk_State := WCalling a |} -> at_ID a ∈ pr_Sent p ->
      proto_step p (set_worker w f (WAnswered a (Some ans)) (pr_DB p) p)
  | ps_timeout p w f a :
      pr_Workers p !! w = Some {| wk_Fence := f; wk_State := WCalling a |} ->
      proto_step p (set_worker w f (WAnswered a None) (pr_DB p) p)
  | ps_complete p w f a ans now d a' :
      pr_Workers p !! w = Some {| wk_Fence := f; wk_State := WAnswered a (Some ans) |} -> Complete now f a ans (pr_DB p) = Ok (d, a') ->
      proto_step p (set_worker w f WIdle d p)
  | ps_unknown p w f a window now reason d t :
      pr_Workers p !! w = Some {| wk_Fence := f; wk_State := WAnswered a None |} -> MarkUnknown window now f a reason (pr_DB p) = Ok (d, t) ->
      proto_step p (set_worker w f WIdle d p)
  (** A replacement worker or the sweeper, and the resolution of an unknown outcome. *)
  | ps_recover p window now dep d r : RecoverTx window now dep (pr_DB p) = Ok (d, r) -> proto_step p (with_db d p)
  | ps_resolve p now f att as_ d a : ResolveUnknown now f att as_ (pr_DB p) = Ok (d, a) -> proto_step p (with_db d p).

(** * The invariant *)

Definition was_dispatched (a : Attempt) : Prop := at_Status a ∈ [GovAttemptDispatched; GovAttemptCompleted; GovAttemptUnknown].

Definition worker_ok (p : protocol) (s : wstate) : Prop :=
  match s with
  | WIdle => True
  | WPrepared a | WCalling a => exists b, db_Attempts (pr_DB p) !! at_ID a = Some b
  | WAnswered a None => True
  | WAnswered a (Some _) => at_ID a ∈ pr_Sent p
  end.

Record protocol_ok (p : protocol) : Prop := {
  po_rows : forall id a, db_Attempts (pr_DB p) !! id = Some a -> at_ID a = id /\ attempt_check a;
  po_open : forall i j a b, db_Attempts (pr_DB p) !! i = Some a -> db_Attempts (pr_DB p) !! j = Some b ->
              at_DeploymentID a = at_DeploymentID b -> attempt_open a = true -> attempt_open b = true -> i = j;
  po_sent : forall id, id ∈ pr_Sent p \/ id ∈ pr_Calls p -> exists a, db_Attempts (pr_DB p) !! id = Some a /\ was_dispatched a;
  po_once : NoDup (pr_Sent p) /\ forall id, id ∈ pr_Calls p -> id ∉ pr_Sent p;
  po_answered : forall id a, db_Attempts (pr_DB p) !! id = Some a -> at_Status a = GovAttemptCompleted -> id ∈ pr_Sent p;
  po_workers : forall w k, pr_Workers p !! w = Some k -> worker_ok p (wk_State k) }.

(** ** What a transaction does to the attempts *)

(** A row as a statement leaves it: the prepared request kept, a status further on. *)
Definition advances (old new : Attempt) : Prop :=
  at_ID new = at_ID old /\ attempt_transition old new /\ (attempt_check old -> attempt_check new) /\
  (attempt_open new = true -> attempt_open old = true).

Definition inserts (t : gmap string Attempt) (a : Attempt) : Prop :=
  t !! at_ID a = None /\ at_Status a = GovAttemptPrepared /\ attempt_check a /\
  forall id b, t !! id = Some b -> at_DeploymentID b = at_DeploymentID a -> attempt_open b = false.

Lemma InTx_Ok {A} f (fn : DB -> result (DB * A)) d r : InTx f fn d = Ok r -> owned (db_Jobs d) f = true /\ fn d = Ok r.
Proof. unfold InTx, AssertOwnedTx. destruct (owned _ _) eqn:E; [|done]. done. Qed.

Lemma row_in_Some id s v d a : row_in id s v d = Some a -> db_Attempts d !! id = Some a /\ at_Status a = s.
Proof. unfold row_in. destruct (_ !! id) as [b|]; [|done]. destruct (_ && _) eqn:E; [|done]. intros [= <-]. by bool_prop. Qed.

Lemma elem_of_attempts p d a : a ∈ attempts_where p d <-> p a = true /\ exists id, db_Attempts d !! id = Some a.
Proof.
  unfold attempts_where. rewrite elem_of_filter_b, list_elem_of_fmap. split.
  - intros [([id b] & -> & H%elem_of_map_to_list) Hp]. split; [done|]. by exists id.
  - intros [Hp [id H]]. split; [|done]. exists (id, a). split; [done|]. by apply elem_of_map_to_list.
Qed.

Lemma next_no_pos dep op d : 1 <= next_attempt_no dep op d.
Proof.
  unfold next_attempt_no. assert (forall l, 0 <= foldr Z.max 0 l) as H by (induction l as [|x l IH]; cbn; lia).
  specialize (H (at_AttemptNo <$> attempts_where (fun a => (at_DeploymentID a =? dep)%string && (at_OpSeq a =? op)) d)). lia.
Qed.

Lemma Prepare_rows fresh now f req d d' a :
  Prepare fresh now f req d = Ok (d', a) ->
  at_ID a = fresh /\ db_Attempts d' = <[fresh := a]> (db_Attempts d) /\ inserts (db_Attempts d) a.
Proof.
  unfold Prepare. destruct (_ || _ || _) eqn:E; [done|]. apply orb_false_iff in E as [_ Hop%Z.ltb_ge].
  intros [_ H]%InTx_Ok. cbv zeta in H. case_bool_decide as Hf; [done|]. destruct (negb _); [done|]. destruct (negb _ && negb _); [done|].
  destruct (attempts_where _ _) as [|b l] eqn:Ew; [|done]. injection H as <- <-. split; [done|]. split; [done|]. cbn.
  split; [by apply eq_None_not_Some|]. split; [done|]. split.
  - pose proof (next_no_pos (aq_DeploymentID req) (aq_OpSeq req) d). unfold attempt_check. cbn. split_and!; try done; by left.
  - intros id b Hb Hd. destruct (attempt_open b) eqn:Eo; [|done]. exfalso.
    assert (b ∈ attempts_where (fun b => (at_DeploymentID b =? aq_DeploymentID req)%string && attempt_open b) d) as Hin.
    { apply elem_of_attempts. split; [|by exists id]. by rewrite Hd, String.eqb_refl, Eo. }
    rewrite Ew in Hin. by apply not_elem_of_nil in Hin.
Qed.

Lemma dispatched_advances now a : at_Status a = GovAttemptPrepared -> advances a (dispatched_row now a).
Proof.
  intros Hs. unfold advances, attempt_transition, attempt_open. rewrite Hs. cbn. split; [done|]. split; [|split; [|done]].
  - split_and!; try done. right. left. split; [done|]. set_solver.
  - unfold attempt_check. rewrite Hs. cbn. intros ((Hr & Hra) & H & Hno & Hop & Ho & Hrs).
    destruct_or! H; destruct_and! H; try discriminate. destruct Hr as [Hr|Hr]; [|discriminate]. rewrite Hr in *.
    split_and!; try done; try by left. right. right. left. split_and!; eauto.
Qed.

Lemma completed_advances now ans a :
  at_Status a = GovAttemptDispatched -> an_Outcome ans ∈ known_outcomes -> advances a (completed_row now ans a).
Proof.
  intros Hs Hk. unfold advances, attempt_transition, attempt_open. rewrite Hs. cbn. split; [done|]. split; [|split; [|done]].
  - split_and!; try done. right. right. split; [done|]. set_solver.
  - unfold attempt_check. rewrite Hs. cbn. intros ((Hr & Hra) & H & Hno & Hop & Ho & Hrs).
    destruct_or! H; destruct_and! H; try discriminate. destruct Hr as [Hr|Hr]; [|discriminate]. rewrite Hr in *.
    split_and!; try done; [by left|do 3 right; left; split_and!; eauto|by intros o [= <-]].
Qed.

Lemma unknown_advances a : at_Status a = GovAttemptDispatched -> advances a (unknown_row a).
Proof.
  intros Hs. unfold advances, attempt_transition, attempt_open. rewrite Hs. cbn. split; [done|]. split; [|split; [|done]].
  - split_and!; try done. right. right. split; [done|]. set_solver.
  - unfold attempt_check. rewrite Hs. cbn. intros ((Hr & Hra) & H & Hno & Hop & Ho & Hrs).
    destruct_or! H; destruct_and! H; try discriminate. split_and!; try done; try by right. do 4 right. split_and!; eauto.
Qed.

Lemma abandoned_advances now a : at_Status a = GovAttemptPrepared -> advances a (abandoned_row now a).
Proof.
  intros Hs. unfold advances, attempt_transition, attempt_open. rewrite Hs. cbn. split; [done|]. split; [|split; [|done]].
  - split_and!; try done. right. left. split; [done|]. set_solver.
  - unfold attempt_check. rewrite Hs. cbn. intros ((Hr & Hra) & H & Hno & Hop & Ho & Hrs).
    destruct_or! H; destruct_and! H; try discriminate. destruct Hr as [Hr|Hr]; [|discriminate]. rewrite Hr in *.
    split_and!; try done; try by left. right. left. split_and!; eauto.
Qed.

Lemma resolved_advances now as_ a :
  at_Status a = GovAttemptUnknown -> at_ResolvedAs a = None -> as_ ∈ [AttemptResolvedApplied; AttemptResolvedNotApplied] ->
  advances a (resolved_row now as_ a).
Proof.
  intros Hs Hn Hk. unfold advances, attempt_transition, attempt_open. cbn. rewrite Hs, Hn. cbn. split; [done|]. split; [|split; [|done]].
  - split_and!; try done; try by left.
  - unfold attempt_check. cbn. rewrite Hs, Hn. intros ((Hr & Hra) & H & Hno & Hop & Ho & Hrs).
    split_and!; try done; try by right. by intros r [= <-].
Qed.

Lemma Dispatch_rows margin now f a d d' a' :
  Dispatch margin now f a d = Ok (d', a') ->
  exists b, db_Attempts d !! at_ID a = Some b /\ at_Status b = GovAttemptPrepared /\ a' = dispatched_row now b /\
    db_Attempts d' = <[at_ID a' := a']> (db_Attempts d).
Proof.
  intros [_ H]%InTx_Ok. cbv zeta in H. destruct (match db_Jobs d !! fc_JobID f with Some _ => _ | None => _ end); [done|].
  destruct (row_in _ _ _ d) as [b|] eqn:E; [|done]. apply row_in_Some in E as [Hb Hs]. injection H as <- <-. by exists b.
Qed.

Lemma Complete_rows now f a ans d d' a' :
  Complete now f a ans d = Ok (d', a') ->
  exists b, db_Attempts d !! at_ID a = Some b /\ at_Status b = GovAttemptDispatched /\ an_Outcome ans ∈ known_outcomes /\
    db_Attempts d' = <[at_ID b := completed_row now ans b]> (db_Attempts d).
Proof.
  unfold Complete. case_bool_decide as Hk; cbn [negb]; [|done]. intros [_ H]%InTx_Ok.
  destruct (row_in _ _ _ d) as [b|] eqn:E; [|done]. apply row_in_Some in E as [Hb Hs]. cbv zeta in H. injection H as <- <-.
  exists b. split_and!; try done. by destruct (OpDone _).
Qed.

Lemma markUnknown_rows window now a v reason d d' t :
  markUnknownTx window now a v reason d = Ok (d', t) ->
  exists b, db_Attempts d !! at_ID a = Some b /\ at_Status b = GovAttemptDispatched /\
    db_Attempts d' = <[at_ID b := unknown_row b]> (db_Attempts d).
Proof.
  unfold markUnknownTx. destruct (row_in _ _ _ d) as [b|] eqn:E; [|done]. apply row_in_Some in E as [Hb Hs]. cbv zeta.
  intros [= <- <-]. exists b. split_and!; try done. by destruct (match db_Deployments _ !! _ with Some _ => _ | None => _ end).
Qed.

(** The transactions that do not move a row to dispatched or completed. *)
Lemma abandonOwn_rows now f a reason d d' u :
  abandonOwnReason now f a reason d = Ok (d', u) ->
  db_Attempts d' = db_Attempts d \/
  exists b, db_Attempts d !! at_ID a = Some b /\ at_Status b = GovAttemptPrepared /\
    db_Attempts d' = <[at_ID b := abandoned_row now b]> (db_Attempts d).
Proof.
  intros [_ H]%InTx_Ok. cbv zeta in H. injection H as <- <-. destruct (row_in _ _ _ d) as [b|] eqn:E; [|by left].
  apply row_in_Some in E as [Hb Hs]. right. by exists b.
Qed.

Lemma Recover_rows window now dep d d' r :
  RecoverTx window now dep d = Ok (d', r) ->
  db_Attempts d' = db_Attempts d \/
  exists id b c, db_Attempts d !! id = Some b /\ db_Attempts d' = <[at_ID b := c]> (db_Attempts d) /\
    ((at_Status b = GovAttemptPrepared /\ c = abandoned_row now b) \/
     (exists i, db_Attempts d !! at_ID i = Some b) /\ at_Status b = GovAttemptDispatched /\ c = unknown_row b).
Proof.
  unfold RecoverTx. destruct (open_attempts dep d) as [|att l] eqn:Eo; [intros [= <- <-]; by left|].
  assert (exists id, db_Attempts d !! id = Some att) as [id Hid].
  { assert (att ∈ open_attempts dep d) as [_ H]%elem_of_attempts by (rewrite Eo; left). done. }
  destruct (String.eqb_spec (at_Status att) GovAttemptPrepared) as [Hs|_].
  { cbv zeta. intros [= <- <-]. right. exists id, att, (abandoned_row now att). split_and!; try done. by left. }
  destruct (_ =? _)%string; [|intros [= <- <-]; by left].
  intros ([d1 t] & (b & Hb & Hs & E)%markUnknown_rows & [= <- <-])%bind_Ok. right. exists (at_ID att), b, (unknown_row b).
  split_and!; try done. right. split; [by exists att|done].
Qed.

Lemma Resolve_rows now f att as_ d d' a :
  ResolveUnknown now f att as_ d = Ok (d', a) ->
  exists b, db_Attempts d !! at_ID att = Some b /\ at_Status b = GovAttemptUnknown /\ at_ResolvedAs b = None /\
    as_ ∈ [AttemptResolvedApplied; AttemptResolvedNotApplied] /\ db_Attempts d' = <[at_ID b := resolved_row now as_ b]> (db_Attempts d).
Proof.
  unfold ResolveUnknown. case_bool_decide as Hk; cbn [negb]; [|done]. intros [_ H]%InTx_Ok.
  destruct (row_in _ _ _ d) as [b|] eqn:E; [|done]. apply row_in_Some in E as [Hb Hs].
  case_bool_decide as Hn; cbn [negb] in H; [|done]. destruct (db_Deployments d !! _) as [p|]; [|done].
  destruct (_ =? _)%string; cbn [negb] in H; [|done]. cbv zeta in H. injection H as <- <-. by exists b.
Qed.

(** ** Preservation *)

Lemma advance_ok p d b c :
  protocol_ok p -> db_Attempts (pr_DB p) !! at_ID b = Some b -> advances b c ->
  (at_Status c = GovAttemptCompleted -> at_ID b ∈ pr_Sent p) -> (was_dispatched b -> was_dispatched c) ->
  db_Attempts d = <[at_ID b := c]> (db_Attempts (pr_DB p)) ->
  protocol_ok (with_db d p).
Proof.
  intros [Hr Ho Hs Hn Ha Hw] Hb (Hid & Htr & Hck & Hop) Hc Hd E.
  assert (forall id a, db_Attempts d !! id = Some a -> exists a0, db_Attempts (pr_DB p) !! id = Some a0 /\
            (a0 = a \/ (id = at_ID b /\ a0 = b /\ a = c))) as Hold.
  { intros id a. rewrite E, lookup_insert_Some. intros [[<- <-]|[_ H]]; [exists b|exists a]; (split; [done|]); auto. }
  assert (at_DeploymentID c = at_DeploymentID b) as Edep by apply Htr.
  split; cbn [pr_DB with_db pr_Sent pr_Calls pr_Workers].
  - intros id a (a0 & H0 & [->|(-> & -> & ->)])%Hold; [by apply Hr|]. destruct (Hr _ _ Hb). split; [done|by apply Hck].
  - intros i j a a' (a0 & H0 & Ea)%Hold (a1 & H1 & Ea')%Hold Hdep Oa Oa'.
    apply (Ho i j a0 a1); [done|done| | |].
    + destruct Ea as [->|(-> & -> & ->)], Ea' as [->|(-> & -> & ->)]; congruence.
    + destruct Ea as [->|(-> & -> & ->)]; [done|by apply Hop].
    + destruct Ea' as [->|(-> & -> & ->)]; [done|by apply Hop].
  - intros id Hin. destruct (Hs id Hin) as (a & Hl & Hda). rewrite E. destruct (decide (id = at_ID b)) as [->|Hne].
    + rewrite lookup_insert_eq. exists c. split; [done|]. apply Hd. congruence.
    + rewrite lookup_insert_ne by done. by exists a.
  - done.
  - intros id a (a0 & H0 & [->|(-> & -> & ->)])%Hold Hst; [by eapply Ha|by apply Hc].
  - intros w k Hk. specialize (Hw _ _ Hk). unfold worker_ok in *. cbn [pr_DB with_db pr_Sent].
    destruct (wk_State k) as [|a|a|a [ans|]]; try done; destruct Hw as [x Hx]; rewrite E;
      (destruct (decide (at_ID a = at_ID b)) as [->|Hne]; [rewrite lookup_insert_eq|rewrite lookup_insert_ne by done]); by eexists.
Qed.

Lemma row_id p id a : protocol_ok p -> db_Attempts (pr_DB p) !! id = Some a -> db_Attempts (pr_DB p) !! at_ID a = Some a.
Proof. intros H Hl. destruct (po_rows _ H _ _ Hl) as [-> _]. done. Qed.

Lemma worker_set_ok p w f s d : protocol_ok (with_db d p) -> worker_ok (with_db d p) s -> protocol_ok (set_worker w f s d p).
Proof.
  intros [Hr Ho Hs Hn Ha Hw] Hok. split; try done. intros v k. cbn [pr_Workers set_worker]. rewrite lookup_insert_Some.
  intros [[<- <-]|[_ Hk]]; [exact Hok|by apply (Hw v k)].
Qed.

Lemma same_rows_ok p d : protocol_ok p -> db_Attempts d = db_Attempts (pr_DB p) -> protocol_ok (with_db d p).
Proof.
  intros [Hr Ho Hs Hn Ha Hw] E. split; cbn [pr_DB with_db pr_Sent pr_Calls pr_Workers]; rewrite ?E; try done.
  intros w k Hk. specialize (Hw _ _ Hk). unfold worker_ok in *. cbn [pr_DB with_db pr_Sent]. by rewrite E.
Qed.

Lemma with_db_id p : with_db (pr_DB p) p = p.
Proof. by destruct p. Qed.

Lemma abandoned_was now b : at_Status b = GovAttemptPrepared -> was_dispatched b -> was_dispatched (abandoned_row now b).
Proof. intros Hs. unfold was_dispatched. rewrite Hs. intros H. apply list_elem_of_In in H. cbn in H. by destruct_or! H. Qed.

Lemma unknown_was b : was_dispatched (unknown_row b).
Proof. unfold was_dispatched. cbn. set_solver. Qed.

Lemma completed_was now ans b : was_dispatched (completed_row now ans b).
Proof. unfold was_dispatched. cbn. set_solver. Qed.

#[local] Hint Resolve unknown_was completed_was : core.

Lemma insert_ok p d a : protocol_ok p -> inserts (db_Attempts (pr_DB p)) a -> db_Attempts d = <[at_ID a := a]> (db_Attempts (pr_DB p)) ->
  protocol_ok (with_db d p).
Proof.
  intros [Hr Ho Hs Hn Ha Hw] (Hf & Hst & Hck & Hop) E. split; cbn [pr_DB with_db pr_Sent pr_Calls pr_Workers]; rewrite ?E.
  - intros id b. rewrite lookup_insert_Some. intros [[<- <-]|[_ H]]; [done|by apply Hr].
  - intros i j b c. rewrite !lookup_insert_Some. intros [[<- <-]|[_ Hb]] [[<- <-]|[_ Hc]] Hd Ob Oc; [done| | |by eauto].
    + by rewrite (Hop _ _ Hc) in Oc.
    + by rewrite (Hop _ _ Hb) in Ob.
  - intros id Hin. destruct (Hs id Hin) as (b & Hb & Hd). exists b. split; [|done]. rewrite lookup_insert_ne; [done|congruence].
  - done.
  - intros id b. rewrite lookup_insert_Some. intros [[<- <-]|[_ Hb]] Hc; [by rewrite Hst in Hc|by eapply Ha].
  - intros w k Hk. specialize (Hw _ _ Hk). unfold worker_ok in *. cbn [pr_DB with_db pr_Sent]. rewrite E.
    destruct (wk_State k) as [|b|b|b [ans|]]; try done; destruct Hw as [x Hx];
      (destruct (decide (at_ID b = at_ID a)) as [->|Hne]; [rewrite lookup_insert_eq|rewrite lookup_insert_ne by done]); by eexists.
Qed.

(** The transaction's effect on the rows, and whose statuses it leaves. *)
Lemma recover_step_ok p window now dep d r : protocol_ok p -> RecoverTx window now dep (pr_DB p) = Ok (d, r) -> protocol_ok (with_db d p).
Proof.
  intros Hp [E|(id & b & c & Hb & E & Hc)]%Recover_rows; [by apply same_rows_ok|]. apply (row_id _ _ _ Hp) in Hb.
  destruct Hc as [[Hs ->]|(_ & Hs & ->)]; (eapply advance_ok; [done|exact Hb| | | |exact E]); try done.
  - by apply abandoned_advances.
  - by apply abandoned_was.
  - by apply unknown_advances.
Qed.

Lemma dispatch_step_ok p w f a margin now d a' :
  protocol_ok p -> Dispatch margin now f a (pr_DB p) = Ok (d, a') ->
  let q := set_worker w f (WCalling a') d p in
  protocol_ok {| pr_DB := pr_DB q; pr_Workers := pr_Workers q; pr_Calls := {[at_ID a]} ∪ pr_Calls q; pr_Sent := pr_Sent q |}.
Proof.
  intros Hp (b & Hb & Hs & -> & E)%Dispatch_rows. cbv zeta. pose proof (proj1 (po_rows _ Hp _ _ Hb)) as Eid.
  pose proof (row_id _ _ _ Hp Hb) as Hb'.
  assert (at_ID a ∉ pr_Sent p /\ at_ID a ∉ pr_Calls p) as [Hn1 Hn2].
  { split; intros Hin; [destruct (po_sent _ Hp (at_ID a) (or_introl Hin)) as (x & Hx & Hd)|
                        destruct (po_sent _ Hp (at_ID a) (or_intror Hin)) as (x & Hx & Hd)];
      rewrite Hb in Hx; injection Hx as <-; unfold was_dispatched in Hd; rewrite Hs in Hd; apply list_elem_of_In in Hd; cbn in Hd; by destruct_or! Hd. }
  assert (protocol_ok (set_worker w f (WCalling (dispatched_row now b)) d p)) as [Hr Ho Hse Hon Han Hw].
  { apply worker_set_ok; [|cbn [worker_ok with_db pr_DB]; rewrite E, lookup_insert_eq; by eexists].
    eapply advance_ok; [done|exact Hb'|by apply dispatched_advances|done| |exact E]. intros _. unfold was_dispatched. cbn. set_solver. }
  split; cbn [pr_DB pr_Sent pr_Calls pr_Workers set_worker] in *; try done.
  - intros id Hid. destruct (decide (id = at_ID a)) as [->|Hne]; [|apply Hse; set_solver].
    exists (dispatched_row now b). rewrite E. cbn [at_ID dispatched_row set_attempt]. rewrite Eid, lookup_insert_eq. split; [done|].
    unfold was_dispatched. cbn. set_solver.
  - split; [apply Hon|]. intros id [->%elem_of_singleton|Hid]%elem_of_union; [done|by apply Hon].
Qed.

Lemma step_protocol_ok p q : proto_step p q -> protocol_ok p -> protocol_ok q.
Proof.
  destruct 1 as [p d E|p w f Hw|p w|p w f s Hw|p w f fresh now req d a Hw H|p w f a now reason d Hw H|p w f a margin now d a' Hw H q|
    p id Hid|p id|p w f a ans Hw Hin|p w f a Hw|p w f a ans now d a' Hw H|p w f a window now reason d t Hw H|p window now dep d r H|
    p now f att as_ d a H]; intros Hp.
  - by apply same_rows_ok.
  - apply worker_set_ok; [by rewrite with_db_id|done].
  - destruct Hp as [Hr Ho Hs Hn Ha Hk]. split; try done. intros v k Hv. cbn in Hv. apply lookup_delete_Some in Hv as [_ Hv]. by apply (Hk v).
  - apply worker_set_ok; [by rewrite with_db_id|done].
  - apply Prepare_rows in H as (Hid & E & Hi). apply worker_set_ok; [eapply insert_ok; [done|exact Hi|by rewrite Hid]|].
    cbn [worker_ok with_db pr_DB]. rewrite E, Hid, lookup_insert_eq. by eexists.
  - apply worker_set_ok; [|done]. apply abandonOwn_rows in H as [E|(b & Hb & Hs & E)]; [by apply same_rows_ok|].
    eapply advance_ok; [done|by eapply row_id|by apply abandoned_advances|done|by apply abandoned_was|exact E].
  - by eapply dispatch_step_ok.
  - destruct Hp as [Hr Ho Hs Hn Ha Hk]. split; cbn [pr_DB pr_Sent pr_Calls pr_Workers] in *; try done.
    + intros i [[->|Hi]%elem_of_cons|Hi]; apply Hs; [by right|by left|right; set_solver].
    + destruct Hn as [Hnd Hdis]. split; [apply NoDup_cons; split; [by apply Hdis|done]|].
      intros i [Hi Hne]%elem_of_difference. rewrite not_elem_of_cons. split; [set_solver|by apply Hdis].
    + intros i a Hi Hc. right. by eapply Ha.
    + intros v k Hv. specialize (Hk _ _ Hv). unfold worker_ok in *. cbn [pr_DB pr_Sent].
      destruct (wk_State k) as [|a|a|a [ans|]]; try done. by right.
  - destruct Hp as [Hr Ho Hs Hn Ha Hk]. split; cbn [pr_DB pr_Sent pr_Calls pr_Workers] in *; try done.
    + intros i [Hi|Hi]; apply Hs; [by left|right; set_solver].
    + split; [apply Hn|]. intros i Hi. apply Hn. set_solver.
  - apply worker_set_ok; [by rewrite with_db_id|exact Hin].
  - apply worker_set_ok; [by rewrite with_db_id|done].
  - apply worker_set_ok; [|done]. apply Complete_rows in H as (b & Hb & Hs & Hk & E). pose proof (row_id _ _ _ Hp Hb) as Hb'.
    eapply advance_ok; [done|exact Hb'|by apply completed_advances| |by auto|exact E].
    intros _. rewrite (proj1 (po_rows _ Hp _ _ Hb)). apply (po_workers _ Hp _ _ Hw).
  - apply worker_set_ok; [|done]. apply InTx_Ok in H as [_ (b & Hb & Hs & E)%markUnknown_rows].
    eapply advance_ok; [done|by eapply row_id|by apply unknown_advances|done|by auto|exact E].
  - by eapply recover_step_ok.
  - apply Resolve_rows in H as (b & Hb & Hs & Hn & Hk & E).
    eapply advance_ok; [done|by eapply row_id|by apply resolved_advances| |done|exact E]. cbn. by rewrite Hs.
Qed.

Lemma reachable_protocol p q : rtc proto_step p q -> protocol_ok p -> protocol_ok q.
Proof. induction 1 as [|p1 p2 p3 H _ IH]; [done|]. intros Hp. by apply IH, (step_protocol_ok _ _ H). Qed.

(** A database whose deployments have no attempts, and no worker. *)
Definition start (d : DB) : protocol := {| pr_DB := set_Attempts ∅ d; pr_Workers := ∅; pr_Calls := ∅; pr_Sent := [] |}.

Lemma start_ok d : protocol_ok (start d).
Proof.
  split; cbn; try (intros *; rewrite ?lookup_empty; done).
  - intros id [H|H]; [by apply not_elem_of_nil in H|set_solver].
  - split; [constructor|set_solver].
Qed.

(** Every row of a transaction's result, against the row it was. *)
Definition row_moves (t t' : gmap string Attempt) : Prop :=
  forall id b, t' !! id = Some b -> match t !! id with Some a => attempt_transition a b | None => at_Status b = GovAttemptPrepared end.

Lemma moves_refl t : row_moves t t.
Proof.
  intros id b ->. split; [done|]. split; [by left|done].
Qed.

Lemma moves_advance t b c : t !! at_ID b = Some b -> advances b c -> row_moves t (<[at_ID b := c]> t).
Proof.
  intros Hb (_ & Htr & _) id x. rewrite lookup_insert_Some. intros [[<- <-]|[_ Hx]]; [by rewrite Hb|by apply moves_refl].
Qed.

Lemma step_moves p q : protocol_ok p -> proto_step p q -> row_moves (db_Attempts (pr_DB p)) (db_Attempts (pr_DB q)).
Proof.
  intros Hp. destruct 1 as [p d E|p w f Hw|p w|p w f s Hw|p w f fresh now req d a Hw H|p w f a now reason d Hw H|p w f a margin now d a' Hw H q|
    p id Hid|p id|p w f a ans Hw Hin|p w f a Hw|p w f a ans now d a' Hw H|p w f a window now reason d t Hw H|p window now dep d r H|
    p now f att as_ d a H]; cbn [pr_DB set_worker with_db] in *; try apply moves_refl.
  - rewrite E. apply moves_refl.
  - apply Prepare_rows in H as (<- & -> & Hf & Hs & _). intros id b. rewrite lookup_insert_Some. intros [[<- <-]|[_ Hb]]; [by rewrite Hf|].
    by apply moves_refl.
  - apply abandonOwn_rows in H as [->|(b & Hb & Hs & ->)]; [apply moves_refl|].
    apply moves_advance; [by eapply row_id|by apply abandoned_advances].
  - apply Dispatch_rows in H as (b & Hb & Hs & -> & E). subst q. cbn [pr_DB set_worker]. rewrite E.
    apply (moves_advance _ b); [by eapply row_id|by apply dispatched_advances].
  - apply Complete_rows in H as (b & Hb & Hs & Hk & ->). apply moves_advance; [by eapply row_id|by apply completed_advances].
  - apply InTx_Ok in H as [_ (b & Hb & Hs & ->)%markUnknown_rows]. apply moves_advance; [by eapply row_id|by apply unknown_advances].
  - apply Recover_rows in H as [->|(id & b & c & Hb & -> & Hc)]; [apply moves_refl|]. apply (row_id _ _ _ Hp) in Hb.
    apply moves_advance; [done|]. destruct Hc as [[Hs ->]|(_ & Hs & ->)]; [by apply abandoned_advances|by apply unknown_advances].
  - apply Resolve_rows in H as (b & Hb & Hs & Hn & Hk & ->). apply moves_advance; [by eapply row_id|by apply resolved_advances].
Qed.

(** * Theorems *)

(** C12. Requests are recorded before they are sent, and never sent twice. However workers interleave, stall, crash and
    time out, and whatever else writes the database: every attempt is sent at most once; a request that reached AWS
    belongs to a row that had been dispatched, with its signing time; a call still in flight has not been sent; and a
    prepared or abandoned attempt never reached AWS, so preparing the operation again is safe. *)
Theorem write_ahead d p :
  rtc proto_step (start d) p ->
  NoDup (pr_Sent p) /\ (forall id, id ∈ pr_Calls p -> id ∉ pr_Sent p) /\
  forall id, id ∈ pr_Sent p \/ id ∈ pr_Calls p ->
    exists a, db_Attempts (pr_DB p) !! id = Some a /\ is_Some (at_SignedAt a) /\
      at_Status a <> GovAttemptPrepared /\ at_Status a <> GovAttemptAbandoned.
Proof.
  intros H. apply reachable_protocol in H; [|apply start_ok]. split; [apply H|]. split; [apply H|]. intros id Hid.
  destruct (po_sent _ H _ Hid) as (a & Ha & Hd). exists a. split; [done|].
  destruct (po_rows _ H _ _ Ha) as [_ (_ & Hc & _)]. unfold was_dispatched in Hd. apply list_elem_of_In in Hd. cbn in Hd.
  destruct_or! Hd; rewrite <- Hd in *; destruct_or! Hc; destruct_and! Hc; done.
Qed.

(** C13. A deployment waits for each outcome before it acts again: at most one of its attempts is open (prepared,
    dispatched, or unknown and unresolved). While one is, every other attempt of the deployment either has a recorded
    answer of AWS to its request, or was abandoned and never sent, or was resolved as applied or not applied; so no
    request is prepared while the effect of an earlier one is undetermined. *)
Theorem one_open_attempt d p i a j b :
  rtc proto_step (start d) p ->
  db_Attempts (pr_DB p) !! i = Some a -> attempt_open a = true ->
  db_Attempts (pr_DB p) !! j = Some b -> at_DeploymentID b = at_DeploymentID a -> i <> j ->
  (at_Status b = GovAttemptCompleted /\ j ∈ pr_Sent p /\ exists o, at_Outcome b = Some o /\ o ∈ known_outcomes) \/
  (at_Status b = GovAttemptAbandoned /\ j ∉ pr_Sent p /\ j ∉ pr_Calls p) \/
  (at_Status b = GovAttemptUnknown /\ exists r, at_ResolvedAs b = Some r /\ r ∈ [AttemptResolvedApplied; AttemptResolvedNotApplied]).
Proof.
  intros H Ha Oa Hb Hd Hne. apply reachable_protocol in H; [|apply start_ok].
  assert (attempt_open b = false) as Ob.
  { destruct (attempt_open b) eqn:E; [|done]. destruct Hne. by eapply (po_open _ H). }
  destruct (po_rows _ H _ _ Hb) as [_ (_ & Hc & _ & _ & Hout & Hres)]. unfold attempt_open in Ob.
  assert (at_Status b = GovAttemptAbandoned -> j ∈ pr_Sent p \/ j ∈ pr_Calls p -> False) as Hab.
  { intros Es Hj. destruct (po_sent _ H _ Hj) as (x & Hx & Hdx). rewrite Hb in Hx. injection Hx as <-. unfold was_dispatched in Hdx.
    rewrite Es in Hdx. apply list_elem_of_In in Hdx. cbn in Hdx. by destruct_or! Hdx. }
  destruct_or! Hc; destruct Hc as [Es Hc]; rewrite Es in Ob; try discriminate Ob.
  - right. left. split; [done|]. split; intros Hj; apply (Hab Es); [by left|by right].
  - left. destruct Hc as (_ & _ & _ & [o Ho]). split_and!; [done|by eapply (po_answered _ H)|]. exists o. split; [done|by apply Hout].
  - right. right. split; [done|]. cbn in Ob. case_bool_decide as En; [done|]. destruct (at_ResolvedAs b) as [r|]; [|done].
    exists r. split; [done|by apply Hres].
Qed.

(** The table's trigger and CHECK constraints never refuse the log: every transaction leaves each row as a
    transition the trigger iga_gov_attempt_transition allows, with the prepared request unchanged, inserts rows only as
    prepared, and keeps the columns of every status as the CHECK constraints of iga_gov_attempt require. *)
Theorem attempt_constraints_hold d p q id b :
  rtc proto_step (start d) p -> proto_step p q -> db_Attempts (pr_DB q) !! id = Some b ->
  attempt_check b /\
  match db_Attempts (pr_DB p) !! id with Some a => attempt_transition a b | None => at_Status b = GovAttemptPrepared end.
Proof.
  intros H Hs Hb. apply reachable_protocol in H; [|apply start_ok]. pose proof (step_protocol_ok _ _ Hs H) as Hq.
  split; [by apply (po_rows _ Hq _ _ Hb)|]. by apply (step_moves _ _ H Hs).
Qed.

(** * A throttled request, tried again *)

Definition sample_fence : PolicyJobFence := {| fc_JobID := "j1"; fc_Owner := "w1"; fc_Version := 1 |}.
Definition sample_request : AttemptRequest :=
  {| aq_DeploymentID := "d1"; aq_OpSeq := 0; aq_Operation := "TagPolicy"; aq_RequestHash := "h"; aq_DocumentHash := "" |}.
Definition sample_db : DB :=
  {| db_Jobs := sample_jobs 1;
     db_Deployments := {["d1" := {| dp_ID := "d1"; dp_VersionID := "v1"; dp_ControlID := "c1"; dp_Kind := "apply"; dp_Delivery := "direct";
                                    dp_State := GovDeployApplying; dp_StateReason := ""; dp_CompletedOps := []; dp_Attempts := 0;
                                    dp_OutcomeUnknownOp := ""; dp_SettleAfter := None |}]};
     db_Attempts := ∅; db_Documents := ∅; db_Artifacts := ∅; db_Events := [] |}.
Definition throttled : AttemptAnswer :=
  {| an_Outcome := AttemptOutcomeRetryable; an_RequestID := "r1"; an_ErrorCode := "Throttling"; an_ErrorMessage := "" |}.

Definition sample_attempts : result (DB * DB * DB * DB * Attempt * Attempt) :=
  '(d1, a1) ← Prepare "a1" 2 sample_fence sample_request sample_db;
  '(d2, a2) ← Dispatch PolicyJobExternalMargin 3 sample_fence a1 d1;
  '(d3, _) ← Complete 4 sample_fence a2 throttled d2;
  '(d4, a4) ← Prepare "a2" 5 sample_fence sample_request d3;
  Ok (d1, d2, d3, d4, a1, a4).

Lemma sample_attempts_run :
  match sample_attempts with
  | Ok (d1, d2, d3, d4, a1, a4) =>
      exists p, rtc proto_step (start sample_db) p /\ pr_DB p = d4 /\ pr_Sent p = ["a1"] /\
        exists q, proto_step q p /\ rtc proto_step (start sample_db) q /\ pr_DB q = d3
  | Err _ => False
  end.
Proof.
  unfold sample_attempts.
  destruct (Prepare "a1" 2 sample_fence sample_request sample_db) as [[d1 a1]|] eqn:E1; [|vm_compute in E1; discriminate E1].
  cbn [mbind result_bind].
  destruct (Dispatch PolicyJobExternalMargin 3 sample_fence a1 d1) as [[d2 a2]|] eqn:E2.
  2:{ vm_compute in E1. injection E1 as <- <-. vm_compute in E2. discriminate E2. }
  cbn [mbind result_bind].
  destruct (Complete 4 sample_fence a2 throttled d2) as [[d3 a3]|] eqn:E3.
  2:{ vm_compute in E1. injection E1 as <- <-. vm_compute in E2. injection E2 as <- <-. vm_compute in E3. discriminate E3. }
  cbn [mbind result_bind].
  destruct (Prepare "a2" 5 sample_fence sample_request d3) as [[d4 a4]|] eqn:E4.
  2:{ vm_compute in E1. injection E1 as <- <-. vm_compute in E2. injection E2 as <- <-. vm_compute in E3. injection E3 as <- <-.
      vm_compute in E4. discriminate E4. }
  cbn [mbind result_bind].
  assert (at_ID a1 = "a1" /\ at_ID a2 = "a1") as [I1 I2].
  { split; [by apply Prepare_rows in E1 as [-> _]|]. apply Prepare_rows in E1 as (E & Er & _). apply Dispatch_rows in E2 as (b & Hb & _ & -> & _).
    rewrite Er, E, lookup_insert_eq in Hb. injection Hb as <-. exact E. }
  pose proof (ps_start (start sample_db) "w" sample_fence (lookup_empty _)) as S0.
  match type of S0 with proto_step _ ?p => pose proof (ps_prepare p "w" sample_fence "a1" 2 sample_request d1 a1 (lookup_insert_eq _ _ _) E1) as S1 end.
  match type of S1 with proto_step _ ?p => pose proof (ps_dispatch p "w" sample_fence a1 _ 3 d2 a2 (lookup_insert_eq _ _ _) E2) as S2 end.
  cbv zeta in S2.
  match type of S2 with proto_step _ ?p => pose proof (ps_send p (at_ID a1)) as S3 end. cbn [pr_Calls] in S3. specialize (S3 ltac:(set_solver)).
  match type of S3 with proto_step _ ?p => pose proof (ps_answer p "w" sample_fence a2 throttled (lookup_insert_eq _ _ _)) as S4 end.
  cbn [pr_Sent] in S4. rewrite I1, I2 in S4. specialize (S4 ltac:(left)). rewrite <- I1 in S4.
  match type of S4 with proto_step _ ?p => pose proof (ps_complete p "w" sample_fence a2 throttled 4 d3 a3 (lookup_insert_eq _ _ _) E3) as S5 end.
  match type of S5 with proto_step _ ?p => pose proof (ps_prepare p "w" sample_fence "a2" 5 sample_request d4 a4 (lookup_insert_eq _ _ _) E4) as S6 end.
  eexists. split; [eapply rtc_l; [exact S0|]; eapply rtc_l; [exact S1|]; eapply rtc_l; [exact S2|]; eapply rtc_l; [exact S3|];
    eapply rtc_l; [exact S4|]; eapply rtc_l; [exact S5|]; apply rtc_once; exact S6|].
  split; [done|]. split; [cbn; by rewrite I1|]. eexists. split; [exact S6|]. split; [|done].
  eapply rtc_l; [exact S0|]; eapply rtc_l; [exact S1|]; eapply rtc_l; [exact S2|]; eapply rtc_l; [exact S3|];
    eapply rtc_l; [exact S4|]; apply rtc_once; exact S5.
Qed.

Lemma sample_attempts_state :
  match sample_attempts with
  | Ok (_, _, d3, d4, _, a4) =>
      match db_Attempts d4 !! "a1", db_Attempts d4 !! "a2", db_Attempts d3 !! "a2" with
      | Some a, Some b, None => attempt_open b = true /\ at_DeploymentID a = at_DeploymentID b /\ at_Status a = GovAttemptCompleted
      | _, _, _ => False
      end
  | Err _ => False
  end.
Proof. vm_compute. repeat split. Qed.

Lemma write_ahead_witness : exists p, rtc proto_step (start sample_db) p /\ pr_Sent p = ["a1"] /\ NoDup (pr_Sent p).
Proof.
  pose proof sample_attempts_run as H. destruct sample_attempts as [[[[[[d1 d2] d3] d4] a1] a4]|]; [|destruct H].
  destruct H as (p & Hp & _ & Hs & _). exists p. split; [exact Hp|]. split; [exact Hs|]. exact (proj1 (write_ahead sample_db p Hp)).
Defined.

Lemma one_open_attempt_witness : exists p b, rtc proto_step (start sample_db) p /\ db_Attempts (pr_DB p) !! "a1" = Some b /\ "a1" ∈ pr_Sent p.
Proof.
  pose proof sample_attempts_run as H. pose proof sample_attempts_state as Hst.
  destruct sample_attempts as [[[[[[d1 d2] d3] d4] a1] a4]|]; [|destruct H]. destruct H as (p & Hp & Hd & Hs & _).
  destruct (db_Attempts d4 !! "a1") as [a|] eqn:Ea; [|destruct Hst]. destruct (db_Attempts d4 !! "a2") as [b|] eqn:Eb; [|destruct Hst].
  destruct (db_Attempts d3 !! "a2"); [destruct Hst|]. destruct Hst as (Ho & Hdep & Hc). rewrite <- Hd in Ea, Eb.
  exists p, a. split; [exact Hp|]. split; [exact Ea|].
  destruct (one_open_attempt sample_db p "a2" b "a1" a Hp Eb Ho Ea Hdep ltac:(discriminate)) as [(_ & Hin & _)|[(E & _)|(E & _)]];
    [exact Hin|rewrite Hc in E; discriminate E|rewrite Hc in E; discriminate E].
Defined.

Lemma attempt_constraints_hold_witness : exists p q b, proto_step p q /\ db_Attempts (pr_DB q) !! "a2" = Some b /\ attempt_check b.
Proof.
  pose proof sample_attempts_run as H. pose proof sample_attempts_state as Hst.
  destruct sample_attempts as [[[[[[d1 d2] d3] d4] a1] a4]|]; [|destruct H]. destruct H as (q & _ & Hd & _ & p & Hs & Hp & _).
  destruct (db_Attempts d4 !! "a1") as [a|] eqn:Ea; [|destruct Hst]. destruct (db_Attempts d4 !! "a2") as [b|] eqn:Eb; [|destruct Hst].
  rewrite <- Hd in Eb. exists p, q, b. split; [exact Hs|]. split; [exact Eb|].
  exact (proj1 (attempt_constraints_hold sample_db p q "a2" b Hp Hs Eb)).
Defined.
