(* ===== verification/AwsAdapter.v ===== *)
(** The AWS side of a deployment (internal/awsenforce): how an operation of a
    plan becomes one IAM request (deploy.go), what a call's error proves, and the
    discovery role's reads (reads.go). AWS itself is a parameter: an interface of
    calls on a world [W] that any call may find changed. *)

From stdpp Require Import base list strings gmap sorting.
From Stdlib Require Import Ascii.
From S2P Require Import Prelude Slices Qualify Float64 Utf8 Json JsonCanon Marshal Sha256 PolicyDoc Catalog Text Routes Hashes PolicyCanon TimeFmt Live Boundary Narrow Intent Bundle FirstAttach Plan Recover PlanSet Compile.

(** * Errors of a call *)

(** What [errors.As] and [errors.Is] find in the error of a call: the AWS error
    code (empty: none), the HTTP status of a response error, an ended context,
    a network error, the request id and the text. *)
Record callError := {
  ce_Code : string;
  ce_Status : option Z;
  ce_Ended : bool;
  ce_Net : bool;
  ce_RequestID : string;
  ce_Text : string }.

(** A call's answer. *)
Abbreviation answer A := (A + callError)%type.

(* src: internal/awsenforce/selftest.go:237-243 (ErrorCode) *)
Definition ErrorCode (e : callError) : string := ce_Code e.

(* src: internal/awsenforce/reads.go:69-69 (IsNoSuchEntity) *)
Definition IsNoSuchEntity (e : callError) : bool := (ErrorCode e =? "NoSuchEntity")%string.

(* src: internal/awsenforce/selftest.go:269-275 (trimMessage) *)
Definition trimMessage (e : callError) : string :=
  if (300 <? str_length (ce_Text e))%nat then String.substring 0 300 (ce_Text e) +:+ "..." else ce_Text e.

(** * Requests *)

(* src: internal/awsenforce/deploy.go:38-50 (Request) *)
Record Request := {
  rq_Op : string;
  rq_RoleName : string;
  rq_PolicyARN : string;
  rq_PolicyName : string;
  rq_Path : string;
  rq_DocumentHash : string;
  rq_SetAsDefault : bool;
  rq_Tags : gmap string string;
  rq_VersionID : string }.

(** Every message is the sentinel's: what the code tells apart is the sentinel. *)
Definition ErrUnresolvedOp : goError := ErrOther "awsenforce: the op cannot be sent as it is".
Definition ErrOpRoleMismatch : goError := ErrOther "awsenforce: the op names a role other than the control's".

(** [strings.ReplaceAll] for a non-empty [old]; the fuel is the length. *)
Fixpoint replace_fuel (fuel : nat) (s old new : string) : string :=
  match fuel, s with
  | _, "" => ""
  | O, _ => s
  | S fuel, String c t =>
      if HasPrefix s old then new +:+ replace_fuel fuel (str_drop (str_length old) s) old new
      else String c (replace_fuel fuel t old new)
  end.
Definition ReplaceAll (s old new : string) : string := replace_fuel (str_length s) s old new.

Definition enforcement_ops : list string :=
  [OpCreatePolicy; OpCreatePolicyVersion; OpDeletePolicyVersion; OpTagPolicy; OpDeletePolicy; OpPutRolePermissionsBoundary;
   OpDeleteRolePermissionsBoundary].

(* src: internal/awsenforce/deploy.go:131-133 (needsDocument) *)
Definition needsDocument (op : string) : bool := (op =? OpCreatePolicy)%string || (op =? OpCreatePolicyVersion)%string.

(* src: internal/awsenforce/deploy.go:137-137 (Request.SendsDocument) *)
Definition SendsDocument (r : Request) : bool := needsDocument (rq_Op r).

(* src: internal/awsenforce/deploy.go:116-128 (CheckOpRole) *)
Definition CheckOpRole (op : Op) (controlRole : string) : result unit :=
  if (op_Op op =? OpPutRolePermissionsBoundary)%string || (op_Op op =? OpDeleteRolePermissionsBoundary)%string then
    if is_empty controlRole || negb (op_RoleName op =? controlRole)%string then Err ErrOpRoleMismatch else Ok tt
  else if negb (is_empty (op_RoleName op)) then Err ErrOpRoleMismatch else Ok tt.

(* src: internal/awsenforce/deploy.go:72-112 (NewRequest) *)
Definition NewRequest (op : Op) (deploymentID versionID controlRole : string) : result Request :=
  if negb (bool_decide (op_Op op ∈ enforcement_ops)) then Err ErrUnresolvedOp
  else if negb (is_empty (op_RoleARN op)) then Err ErrUnresolvedOp
  else
    _ ← CheckOpRole op controlRole;
    if existsb (fun kv => Contains kv.1 DeploymentPlaceholder) (map_to_list (op_Tags op)) then Err ErrUnresolvedOp
    else if existsb (fun f => Contains f "${") [op_RoleName op; op_PolicyARN op; op_PolicyName op; op_Path op; op_DocumentHash op]
    then Err ErrUnresolvedOp
    else if (op_Op op =? OpDeletePolicyVersion)%string && is_empty versionID then Err ErrUnresolvedOp
    else if negb (op_Op op =? OpDeletePolicyVersion)%string && negb (is_empty versionID) then Err ErrUnresolvedOp
    else if needsDocument (op_Op op) && is_empty (op_DocumentHash op) then Err ErrUnresolvedOp
    else Ok {| rq_Op := op_Op op; rq_RoleName := op_RoleName op; rq_PolicyARN := op_PolicyARN op; rq_PolicyName := op_PolicyName op;
               rq_Path := op_Path op; rq_DocumentHash := op_DocumentHash op; rq_SetAsDefault := op_SetAsDefault op;
               rq_Tags := (fun v => ReplaceAll v DeploymentPlaceholder deploymentID) <$> op_Tags op; rq_VersionID := versionID |}.

(* src: internal/awsenforce/deploy.go:38-50 (Request, json) *)
Definition Request_val (r : Request) : goval :=
  GStruct ([("op", GString (rq_Op r))] ++ omit_empty "role_name" (rq_RoleName r) ++ omit_empty "policy_arn" (rq_PolicyARN r) ++
    omit_empty "policy_name" (rq_PolicyName r) ++ omit_empty "path" (rq_Path r) ++ omit_empty "document_hash" (rq_DocumentHash r) ++
    omit_false "set_as_default" (rq_SetAsDefault r) ++
    (if bool_decide (rq_Tags r = ∅) then [] else [("tags", tags_val (rq_Tags r))]) ++ omit_empty "version_id" (rq_VersionID r)).

(* src: internal/awsenforce/deploy.go:141-147 (Request.Hash) *)
Definition Request_Hash (r : Request) : result string := c ← CanonicalizeValue (Request_val r); Ok (ContentHash c).

(** * Sending *)

(** The enforcement role's calls; a call may leave any world behind. *)
(* src: internal/awsenforce/selftest.go:132-141 (IAM) *)
Record IAM (W : Type) := {
  CreatePolicy : string -> string -> string -> gmap string string -> W -> W * answer string;
  CreatePolicyVersion : string -> string -> bool -> W -> W * answer string;
  DeletePolicyVersion : string -> string -> W -> W * option callError;
  PutRolePermissionsBoundary : string -> string -> W -> W * option callError;
  DeleteRolePermissionsBoundary : string -> W -> W * option callError;
  DeletePolicy : string -> W -> W * option callError;
  TagPolicyCall : string -> gmap string string -> W -> W * option callError;
  (** The request id the client recorded for the last call. *)
  RecordedRequestID : W -> string }.
Arguments CreatePolicy {W}.
Arguments CreatePolicyVersion {W}.
Arguments DeletePolicyVersion {W}.
Arguments PutRolePermissionsBoundary {W}.
Arguments DeleteRolePermissionsBoundary {W}.
Arguments DeletePolicy {W}.
Arguments TagPolicyCall {W}.
Arguments RecordedRequestID {W}.

(* src: internal/awsenforce/deploy.go:150-161 (Response) *)
Record Response := {
  rp_Kind : ResponseKind;
  rp_ErrorCode : string;
  rp_Message : string;
  rp_RequestID : string;
  rp_VersionID : string;
  rp_Err : option callError }.

(* src: internal/awsenforce/deploy.go:201-204 (noAnswerCodes) *)
Definition noAnswerCodes : list string :=
  ["ServiceFailure"; "InternalFailure"; "ServiceUnavailable"; "InternalError"; "RequestTimeout"; "RequestTimeoutException"].

(** Whether the error proves nothing about the request. *)
(* src: internal/awsenforce/deploy.go:216-241 (ClassifyCallError, part) *)
Definition no_answer (e : callError) : bool :=
  is_empty (ce_Code e) || match ce_Status e with Some s => 500 <=? s | None => false end ||
  bool_decide (ce_Code e ∈ noAnswerCodes) || ce_Ended e || ce_Net e.

(* src: internal/awsenforce/deploy.go:211-243 (ClassifyCallError) *)
Definition ClassifyCallError (err : option callError) : Response :=
  match err with
  | None => {| rp_Kind := RespOK; rp_ErrorCode := ""; rp_Message := ""; rp_RequestID := ""; rp_VersionID := ""; rp_Err := None |}
  | Some e => {| rp_Kind := if no_answer e then RespNoAnswer else RespError; rp_ErrorCode := ce_Code e; rp_Message := trimMessage e;
                 rp_RequestID := ce_RequestID e; rp_VersionID := ""; rp_Err := Some e |}
  end.

Section Calls.
Context {W : Type}.

Definition answered {A} (r : W * answer A) : W * option A * option callError :=
  match r.2 with inl a => (r.1, Some a, None) | inr e => (r.1, None, Some e) end.

(* src: internal/awsenforce/deploy.go:168-197 (Send) *)
Definition Send (c : IAM W) (req : Request) (document : string) (w : W) : W * Response :=
  let op_is o := (rq_Op req =? o)%string in
  let done (w : W) (version : string) (err : option callError) :=
    let out := ClassifyCallError err in
    (w, {| rp_Kind := rp_Kind out; rp_ErrorCode := rp_ErrorCode out; rp_Message := rp_Message out;
           rp_RequestID := if is_empty (rp_RequestID out) then RecordedRequestID c w else rp_RequestID out;
           rp_VersionID := version; rp_Err := rp_Err out |}) in
  let simple (r : W * option callError) := done r.1 "" r.2 in
  if op_is OpCreatePolicy then
    let '(w, _, err) := answered (CreatePolicy c (rq_Path req) (rq_PolicyName req) document (rq_Tags req) w) in done w "" err
  else if op_is OpCreatePolicyVersion then
    let '(w, v, err) := answered (CreatePolicyVersion c (rq_PolicyARN req) document (rq_SetAsDefault req) w) in done w (default "" v) err
  else if op_is OpDeletePolicyVersion then simple (DeletePolicyVersion c (rq_PolicyARN req) (rq_VersionID req) w)
  else if op_is OpTagPolicy then simple (TagPolicyCall c (rq_PolicyARN req) (rq_Tags req) w)
  else if op_is OpDeletePolicy then simple (DeletePolicy c (rq_PolicyARN req) w)
  else if op_is OpPutRolePermissionsBoundary then simple (PutRolePermissionsBoundary c (rq_RoleName req) (rq_PolicyARN req) w)
  else if op_is OpDeleteRolePermissionsBoundary then simple (DeleteRolePermissionsBoundary c (rq_RoleName req) w)
  else (w, {| rp_Kind := RespError; rp_ErrorCode := "UnsupportedOperation"; rp_Message := rq_Op req; rp_RequestID := "";
              rp_VersionID := ""; rp_Err := None |}).

End Calls.

(** * Reads *)

(* src: internal/awsenforce/reads.go:40-50 (RoleInfo) *)
Record RoleInfo := {
  ro_RoleID : string;
  ro_ARN : string;
  ro_Name : string;
  ro_Path : string;
  ro_Tags : gmap string string;
  ro_BoundaryARN : string;
  ro_TrustDocument : string }.

(* src: internal/awsenforce/reads.go:53-59 (PolicyInfo) *)
Record PolicyInfo := { pi_ARN : string; pi_Path : string; pi_Name : string; pi_Tags : gmap string string; pi_DefaultVersionID : string }.

(* src: internal/awsenforce/reads.go:62-66 (PolicyVersionInfo) *)
Record PolicyVersionInfo := { vi_VersionID : string; vi_IsDefault : bool; vi_CreateDate : Time }.

(* src: internal/awsenforce/reads.go:26-37 (DiscoveryIAM) *)
Record DiscoveryIAM (W : Type) := {
  GetRole : string -> W -> W * answer RoleInfo;
  ListAttachedRolePolicies : string -> W -> W * answer (list string);
  ListRolePolicies : string -> W -> W * answer (list string);
  GetRolePolicy : string -> string -> W -> W * answer string;
  GetPolicy : string -> W -> W * answer PolicyInfo;
  GetPolicyVersion : string -> string -> W -> W * answer string;
  ListPolicyVersions : string -> W -> W * answer (list PolicyVersionInfo);
  ListEntitiesForPolicy : string -> W -> W * answer (list AttachedEntity) }.
Arguments GetRole {W}.
Arguments ListAttachedRolePolicies {W}.
Arguments ListRolePolicies {W}.
Arguments GetRolePolicy {W}.
Arguments GetPolicy {W}.
Arguments GetPolicyVersion {W}.
Arguments ListPolicyVersions {W}.
Arguments ListEntitiesForPolicy {W}.

(** A computation that calls AWS. *)
Definition io (W A : Type) : Type := W -> W * result A.

Section Reads.
Context {W : Type} (r : DiscoveryIAM W).

Definition io_ret {A} (a : A) : io W A := fun w => (w, Ok a).
Definition io_err {A} (e : goError) : io W A := fun w => (w, Err e).
Definition io_bind {A B} (m : io W A) (k : A -> io W B) : io W B :=
  fun w => match m w with (w, Ok a) => k a w | (w, Err e) => (w, Err e) end.
Notation "x ⇐ m ; k" := (io_bind m (fun x => k)) (at level 20, m at level 100, k at level 200, only parsing).

(** A call whose error ends the read, and one whose NoSuchEntity is an answer. *)
Definition must {A} (what : string) (call : W -> W * answer A) : io W A :=
  fun w => match call w with (w, inl a) => (w, Ok a) | (w, inr e) => (w, Err (ErrOther (what +:+ ": " +:+ ce_Text e))) end.
Definition may_lack {A} (what : string) (call : W -> W * answer A) : io W (option A) :=
  fun w => match call w with
           | (w, inl a) => (w, Ok (Some a))
           | (w, inr e) => (w, if IsNoSuchEntity e then Ok None else Err (ErrOther (what +:+ ": " +:+ ce_Text e)))
           end.
Definition io_lift {A} (x : result A) : io W A := fun w => (w, x).

(* src: internal/awsenforce/reads.go:321-327 (arnAccount) *)
Definition arnAccount (arn : string) : string * string :=
  match SplitN 6 ":"%char arn with _ :: partition :: _ :: _ :: account :: _ => (account, partition) | _ => ("", "") end.

(* src: internal/awsenforce/reads.go:163-177 (ReadRole, attached) *)
Fixpoint read_attached (arns : list string) : io W (list PolicyRef) :=
  match arns with
  | [] => io_ret []
  | arn :: arns =>
      pi ⇐ must ("GetPolicy " +:+ arn) (GetPolicy r arn);
      doc ⇐ must ("GetPolicyVersion " +:+ arn +:+ " " +:+ pi_DefaultVersionID pi) (GetPolicyVersion r arn (pi_DefaultVersionID pi));
      h ⇐ io_lift (DocumentHash doc);
      rest ⇐ read_attached arns;
      io_ret ({| pr_Ref := arn; pr_DocumentHash := h |} :: rest)
  end.

(* src: internal/awsenforce/reads.go:178-193 (ReadRole, inline) *)
Fixpoint read_inline (roleName : string) (names : list string) : io W (list (PolicyRef * string)) :=
  match names with
  | [] => io_ret []
  | n :: names =>
      doc ⇐ must ("GetRolePolicy " +:+ roleName +:+ " " +:+ n) (GetRolePolicy r roleName n);
      ch ⇐ io_lift (CanonicalDocument doc);
      rest ⇐ read_inline roleName names;
      io_ret (({| pr_Ref := n; pr_DocumentHash := ch.2 |}, ch.1) :: rest)
  end.

(* src: internal/awsenforce/reads.go:140-194 (ReadRole) *)
Definition ReadRole (roleName : string) : io W (option LiveRole) :=
  found ⇐ may_lack ("GetRole " +:+ roleName) (GetRole r roleName);
  match found with
  | None => io_ret None
  | Some info =>
      let '(acct, part) := arnAccount (ro_ARN info) in
      let trust := if is_empty (ro_TrustDocument info) then None
                   else match CanonicalDocument (ro_TrustDocument info) with Ok (c, h) => Some (c, h) | Err _ => None end in
      attached ⇐ must ("ListAttachedRolePolicies " +:+ roleName) (ListAttachedRolePolicies r roleName);
      managed ⇐ read_attached attached;
      names ⇐ must ("ListRolePolicies " +:+ roleName) (ListRolePolicies r roleName);
      inline ⇐ read_inline roleName names;
      let docs := fold_left (fun m x => <[pr_DocumentHash x.1 := x.2]> m) inline
                    (match trust with Some (c, h) => {[h := c]} | None => ∅ end) in
      io_ret (Some {| lr_RoleID := ro_RoleID info; lr_ARN := ro_ARN info; lr_Name := ro_Name info; lr_Path := ro_Path info;
                      lr_AccountID := acct; lr_Partition := part; lr_Tags := ro_Tags info; lr_Continuity := "";
                      lr_BoundaryARN := ro_BoundaryARN info; lr_ManagedPolicies := managed; lr_InlinePolicies := fst <$> inline;
                      lr_TrustPolicyHash := match trust with Some (_, h) => h | None => "" end; lr_Documents := docs |})
  end.

(* src: internal/awsenforce/reads.go:199-233 (ReadPolicy) *)
Definition ReadPolicy (arn : string) : io W (option (LivePolicy * string)) :=
  pi ⇐ may_lack ("GetPolicy " +:+ arn) (GetPolicy r arn);
  match pi with
  | None => io_ret None
  | Some pi =>
      doc ⇐ may_lack ("GetPolicyVersion " +:+ arn +:+ " " +:+ pi_DefaultVersionID pi) (GetPolicyVersion r arn (pi_DefaultVersionID pi));
      match doc with
      | None => io_ret None
      | Some doc =>
          versions ⇐ may_lack ("ListPolicyVersions " +:+ arn) (ListPolicyVersions r arn);
          match versions with
          | None => io_ret None
          | Some versions =>
              set ⇐ may_lack ("ListEntitiesForPolicy " +:+ arn) (ListEntitiesForPolicy r arn);
              match set with
              | None => io_ret None
              | Some set =>
                  io_ret (Some ({| lp_ARN := arn; lp_Path := pi_Path pi; lp_Name := pi_Name pi; lp_Tags := pi_Tags pi;
                                   lp_DefaultDocument := doc; lp_VersionCount := Z.of_nat (length versions);
                                   lp_AttachmentSet := set |}, pi_DefaultVersionID pi))
              end
          end
      end
  end.

(* src: internal/awsenforce/reads.go:81-105 (PolicyARNsFor) *)
Definition PolicyARNsFor (p : Plan) (roleBoundary : string) : list string :=
  let named o := match o with Some a => if is_empty a then [] else [a] | None => [] end in
  sortedUnique (PoliciesToRead p ++ named (pl_DesiredBoundaryARN p) ++ named (pl_ReplacedBoundaryARN p) ++
                List.filter (fun a => negb (is_empty a)) (op_PolicyARN <$> pl_Ops p) ++ named (Some roleBoundary)).

Fixpoint read_policies (arns : list string) : io W (gmap string (option LivePolicy) * gmap string string) :=
  match arns with
  | [] => io_ret (∅, ∅)
  | arn :: arns =>
      found ⇐ ReadPolicy arn;
      rest ⇐ read_policies arns;
      io_ret match found with
             | Some (lp, ver) => (<[arn := Some lp]> rest.1, <[arn := ver]> rest.2)
             | None => (<[arn := None]> rest.1, rest.2)
             end
  end.

(** The second component is [ReadDetail.DefaultVersion]. *)
(* src: internal/awsenforce/reads.go:113-136 (ReadForPlan) *)
Definition ReadForPlan (roleName : string) (p : Plan) (now : Time) : io W (LiveRead * gmap string string) :=
  role ⇐ ReadRole roleName;
  pols ⇐ read_policies (PolicyARNsFor p match role with Some role => lr_BoundaryARN role | None => "" end);
  io_ret ({| ReadAt := now; Role := role; Policies := pols.1; Roles := ∅; Bindings := ∅ |}, pols.2).

(** ** Version selectors *)

Definition ErrNotDeletable : goError := ErrOther "awsenforce: version selector cannot be resolved".

(* src: internal/awsenforce/reads.go:312-318 (versionNumber) *)
Definition versionNumber (id : string) : Z :=
  let s := ToLower id in
  match Atoi (if HasPrefix s "v" then str_drop 1 s else s) with Some n => n | None => 2 ^ 30 end.

Definition older (a b : PolicyVersionInfo) : bool :=
  if negb (vi_CreateDate a =? vi_CreateDate b) then vi_CreateDate a <? vi_CreateDate b
  else versionNumber (vi_VersionID a) <? versionNumber (vi_VersionID b).

(* src: internal/awsenforce/reads.go:238-241 (VersionToDelete) *)
Record VersionToDelete := { vd_VersionID : string; vd_Document : string }.

(** The versions a selector chooses among those listed. *)
(* src: internal/awsenforce/reads.go:270-296 (ResolveVersionSelector, part) *)
Definition choose_versions (op : Op) (versions : list PolicyVersionInfo) : result (list PolicyVersionInfo) :=
  let nonDefault := sort_slice older (List.filter (fun v => negb (vi_IsDefault v)) versions) in
  if (op_Select op =? SelectOldestNonDefault)%string then
    if (0 <? op_IfVersionsAtLeast op) && (Z.of_nat (length versions) <? op_IfVersionsAtLeast op) then Ok [] else Ok (take 1 nonDefault)
  else if (op_Select op =? SelectAllNonDefault)%string then Ok nonDefault
  else Err ErrNotDeletable.

Fixpoint read_versions (arn : string) (vs : list PolicyVersionInfo) : io W (list VersionToDelete) :=
  match vs with
  | [] => io_ret []
  | v :: vs =>
      doc ⇐ may_lack ("GetPolicyVersion " +:+ arn +:+ " " +:+ vi_VersionID v) (GetPolicyVersion r arn (vi_VersionID v));
      rest ⇐ read_versions arn vs;
      io_ret match doc with Some doc => {| vd_VersionID := vi_VersionID v; vd_Document := doc |} :: rest | None => rest end
  end.

(* src: internal/awsenforce/reads.go:259-309 (ResolveVersionSelector) *)
Definition ResolveVersionSelector (op : Op) : io W (list VersionToDelete) :=
  if negb (op_Op op =? OpDeletePolicyVersion)%string then io_err ErrNotDeletable
  else
    versions ⇐ may_lack ("ListPolicyVersions " +:+ op_PolicyARN op) (ListPolicyVersions r (op_PolicyARN op));
    match versions with
    | None => io_ret []
    | Some versions => chosen ⇐ io_lift (choose_versions op versions); read_versions (op_PolicyARN op) chosen
    end.

End Reads.
