(* ===== verification/Executor.v ===== *)
(** The executor of direct deployments (services/iga_gov_aws_executor.go): one
    run of a plan against AWS through the attempt log. Everything outside the
    run is a parameter of [env]: AWS, the binding, the clock, fresh ids, whatever
    other transactions do to the database between two statements, and the
    statements that fail.
    Messages meant for people ([DeployOutcome.Detail]) and the fault injection of
    tests are left out. *)

From stdpp Require Import base list strings gmap sorting.
From Stdlib Require Import Ascii.
From S2P Require Import Prelude Slices Qualify Float64 Utf8 Json JsonCanon Marshal Sha256 PolicyDoc Catalog Text Routes Hashes PolicyCanon TimeFmt Live Boundary Narrow Intent Bundle FirstAttach Plan Recover PlanSet Compile JobQueue AttemptLog AwsAdapter.

(** * Outcomes *)

Definition DeployApplied : string := "applied".
Definition DeployBlocked : string := "blocked".
Definition DeployFailed : string := "failed".
Definition DeployOutcomeUnknown : string := "outcome_unknown".
Definition DeployHold : string := "hold".
Definition DeployRetryLater : string := "retry_later".
Definition DeployRefused : string := "refused".

Definition DeployReasonIneligible : string := "plan_ineligible".
Definition DeployReasonNotDirect : string := "not_direct_delivery".
Definition DeployReasonPlanMismatch : string := "plan_mismatch".
Definition DeployReasonNotApplying : string := "deployment_not_applying".
Definition DeployReasonUnknownPending : string := "outcome_unknown_pending".
Definition DeployReasonNoAnswer : string := "dispatched_without_answer".
Definition DeployReasonReadFailed : string := "discovery_read_failed".
Definition DeployReasonAwaitConsistency : string := "awaiting_consistency".
Definition DeployReasonNotVisible : string := "completed_op_not_visible".
Definition DeployReasonReadbackNotSettled : string := "readback_not_settled".
Definition DeployReasonThrottled : string := "throttled".
Definition DeployReasonRetriesExhausted : string := "retries_exhausted".
Definition DeployReasonDocumentMissing : string := "document_not_archived".
Definition DeployReasonVersionUnarchived : string := "version_document_not_archived".
Definition DeployReasonOpUnresolvable : string := "op_unresolvable".
Definition DeployReasonOpRoleMismatch : string := "op_role_mismatch".

Definition OpBasisAttempt : string := "attempt".
Definition OpBasisLiveRead : string := "live_read".
Definition OpBasisSelector : string := "selector".

(* src: services/iga_gov_aws_executor.go:218-230 (DeployOpRecord) *)
Record DeployOpRecord := {
  dr_OpSeq : Z;
  dr_Operation : string;
  dr_VersionID : string;
  dr_Outcome : string;
  dr_Basis : string;
  dr_AttemptID : option string;
  dr_AttemptNo : Z;
  dr_Request : string;
  dr_RequestID : string;
  dr_ErrorCode : string;
  dr_Reason : string }.

(* src: services/iga_gov_aws_executor.go:240-245 (DeployLedgerChange) *)
Record DeployLedgerChange := { lc_Kind : string; lc_NativeARN : string; lc_From : string; lc_To : string }.

(* src: services/iga_gov_aws_executor.go:248-255 (DeployReadback) *)
Record DeployReadback := {
  rb_Reads : list Classification;
  rb_State : option ArtifactStateFacts;
  rb_StateHash : string;
  rb_ReadAt : option Time;
  rb_Ledger : list DeployLedgerChange }.

(* src: services/iga_gov_aws_executor.go:258-277 (DeployOutcome) *)
Record DeployOutcome := {
  do_Result : string;
  do_Reason : string;
  do_Recovery : string;
  do_Start : option Classification;
  do_Last : option Classification;
  do_Ops : list DeployOpRecord;
  do_Readback : option DeployReadback;
  do_SettleAfter : option Time;
  do_RetryAfter : Z;
  do_Attempt : option Attempt }.

Definition no_outcome : DeployOutcome :=
  {| do_Result := ""; do_Reason := ""; do_Recovery := ""; do_Start := None; do_Last := None; do_Ops := []; do_Readback := None;
     do_SettleAfter := None; do_RetryAfter := 0; do_Attempt := None |}.

Definition set_result (r reason : string) (o : DeployOutcome) : DeployOutcome :=
  {| do_Result := r; do_Reason := reason; do_Recovery := do_Recovery o; do_Start := do_Start o; do_Last := do_Last o; do_Ops := do_Ops o;
     do_Readback := do_Readback o; do_SettleAfter := do_SettleAfter o; do_RetryAfter := do_RetryAfter o; do_Attempt := do_Attempt o |}.
Definition set_recovery (r : string) (settle : option Time) (a : option Attempt) (o : DeployOutcome) : DeployOutcome :=
  {| do_Result := do_Result o; do_Reason := do_Reason o; do_Recovery := r; do_Start := do_Start o; do_Last := do_Last o; do_Ops := do_Ops o;
     do_Readback := do_Readback o; do_SettleAfter := settle; do_RetryAfter := do_RetryAfter o; do_Attempt := a |}.
Definition set_start (c : Classification) (o : DeployOutcome) : DeployOutcome :=
  {| do_Result := do_Result o; do_Reason := do_Reason o; do_Recovery := do_Recovery o;
     do_Start := match do_Start o with None => Some c | s => s end; do_Last := do_Last o; do_Ops := do_Ops o;
     do_Readback := do_Readback o; do_SettleAfter := do_SettleAfter o; do_RetryAfter := do_RetryAfter o; do_Attempt := do_Attempt o |}.
Definition set_last (c : Classification) (o : DeployOutcome) : DeployOutcome :=
  {| do_Result := do_Result o; do_Reason := do_Reason o; do_Recovery := do_Recovery o; do_Start := do_Start o; do_Last := Some c;
     do_Ops := do_Ops o; do_Readback := do_Readback o; do_SettleAfter := do_SettleAfter o; do_RetryAfter := do_RetryAfter o;
     do_Attempt := do_Attempt o |}.
Definition add_op (r : DeployOpRecord) (o : DeployOutcome) : DeployOutcome :=
  {| do_Result := do_Result o; do_Reason := do_Reason o; do_Recovery := do_Recovery o; do_Start := do_Start o; do_Last := do_Last o;
     do_Ops := do_Ops o ++ [r]; do_Readback := do_Readback o; do_SettleAfter := do_SettleAfter o; do_RetryAfter := do_RetryAfter o;
     do_Attempt := do_Attempt o |}.
Definition set_readback (r : DeployReadback) (o : DeployOutcome) : DeployOutcome :=
  {| do_Result := do_Result o; do_Reason := do_Reason o; do_Recovery := do_Recovery o; do_Start := do_Start o; do_Last := do_Last o;
     do_Ops := do_Ops o; do_Readback := Some r; do_SettleAfter := do_SettleAfter o; do_RetryAfter := do_RetryAfter o;
     do_Attempt := do_Attempt o |}.
Definition set_retry (d : Z) (o : DeployOutcome) : DeployOutcome :=
  {| do_Result := do_Result o; do_Reason := do_Reason o; do_Recovery := do_Recovery o; do_Start := do_Start o; do_Last := do_Last o;
     do_Ops := do_Ops o; do_Readback := do_Readback o; do_SettleAfter := do_SettleAfter o; do_RetryAfter := d; do_Attempt := do_Attempt o |}.
Definition set_unknown (a : Attempt) (settle : Time) (o : DeployOutcome) : DeployOutcome :=
  {| do_Result := do_Result o; do_Reason := do_Reason o; do_Recovery := do_Recovery o; do_Start := do_Start o; do_Last := do_Last o;
     do_Ops := do_Ops o; do_Readback := do_Readback o; do_SettleAfter := Some settle; do_RetryAfter := do_RetryAfter o;
     do_Attempt := Some a |}.

(** * What a run never executes *)

(** [uuid.Nil] in its text form. *)
Definition uuid_Nil : string := "00000000-0000-0000-0000-000000000000".

(* src: services/iga_gov_aws_executor.go:426-431 (requestRefusal) *)
Definition requestRefusal (e : goError) : string :=
  if bool_decide (e = ErrOpRoleMismatch) then DeployReasonOpRoleMismatch else DeployReasonOpUnresolvable.

(* src: services/iga_gov_aws_executor.go:435-440 (versionPlaceholder) *)
Definition versionPlaceholder (op : Op) : string := if (op_Op op =? OpDeletePolicyVersion)%string then "v0" else "".

(** The text after the last slash. *)
(* src: services/iga_gov_aws_executor.go:442-447 (roleNameOfARN) *)
Definition roleNameOfARN (arn : string) : string := List.last (SplitN (S (str_length arn)) "/"%char arn) arn.

Fixpoint first_refusal (ops : list Op) (role : string) : string :=
  match ops with
  | [] => ""
  | op :: ops => match NewRequest op uuid_Nil (versionPlaceholder op) role with Err e => requestRefusal e | Ok _ => first_refusal ops role end
  end.

(* src: services/iga_gov_aws_executor.go:401-423 (refuseDirect) *)
Definition refuseDirect (dep : Deployment) (p : Plan) (role : string) : string :=
  if negb (pl_ControlID p =? dp_ControlID dep)%string || negb (pl_Kind p =? dp_Kind dep)%string || negb (pl_Delivery p =? dp_Delivery dep)%string
  then DeployReasonPlanMismatch
  else if (pl_Kind p =? PlanSplit)%string || (pl_Kind p =? PlanSplitRevert)%string then DeployReasonNotDirect
  else if negb (pl_Delivery p =? DeliveryDirect)%string then DeployReasonNotDirect
  else if (pl_Eligibility p =? EligibilityIaCOnly)%string then DeployReasonNotDirect
  else if negb (Eligible p) then DeployReasonIneligible
  else match pl_Facts p with [] => DeployReasonIneligible | _ => first_refusal (pl_Ops p) role end.

(** * The environment and the run *)

(** An error of the connector's access or of the binding check: a code and its
    text when it is an [EnforcementError] or a [GovError], else any error. *)
Inductive refusal := Refusal (code text : string) | OtherError (e : goError) (text : string).

Definition refusal_text (r : refusal) : string := match r with Refusal _ t | OtherError _ t => t end.

(** The control's columns the executor reads. *)
Record Control := { cl_ID : string; cl_RoleARN : string; cl_ConnectorID : string }.

Record env (W : Type) := {
  en_Disc : DiscoveryIAM W;
  en_IAM : IAM W;
  (** The control of the deployment. *)
  en_Control : W -> W * result Control;
  (** Access to the two roles. *)
  en_Discovery : W -> W * option refusal;
  en_Enforcement : W -> W * option refusal;
  (** The binding, re-read before a dispatch. *)
  en_Binding : W -> W * option refusal;
  (** Whether the call's context ends before its answer. *)
  en_Timeout : W -> W * bool;
  (** The wait between two reads; an error when the job's context ends. *)
  en_Sleep : W -> W * option goError;
  en_Now : W -> W * Time;
  en_Fresh : W -> W * string;
  (** [time.Duration(float64(d) * j)] for a random [j] between 0.8 and 1.2. *)
  en_Jitter : Z -> W -> W * Z;
  (** Other transactions, before a statement of the run; the statement's own failure. *)
  en_Others : W -> DB -> W * DB * option goError }.
Arguments en_Disc {W}.
Arguments en_IAM {W}.
Arguments en_Control {W}.
Arguments en_Discovery {W}.
Arguments en_Enforcement {W}.
Arguments en_Binding {W}.
Arguments en_Timeout {W}.
Arguments en_Sleep {W}.
Arguments en_Now {W}.
Arguments en_Fresh {W}.
Arguments en_Jitter {W}.
Arguments en_Others {W}.

(* src: services/iga_gov_aws_executor.go:50-90 (IGAGovAWSExecutor) *)
Record settings := {
  st_ReadbackRounds : nat;
  st_MaxOpAttempts : Z;
  st_RetryWindow : Z;
  st_RetryBase : Z;
  st_ConsistencyWindow : Z;
  st_Margin : Z;
  st_Lease : Z;
  st_Settle : Z }.

(** The defaults. *)
(* src: services/iga_gov_aws_executor.go:124-157 (readbackRounds, maxOpAttempts, retryWindow, retryBase, consistencyWindow) *)
Definition default_settings : settings :=
  {| st_ReadbackRounds := 3; st_MaxOpAttempts := 5; st_RetryWindow := 15 * minute; st_RetryBase := 30 * second;
     st_ConsistencyWindow := 2 * minute; st_Margin := PolicyJobExternalMargin; st_Lease := PolicyJobLease;
     st_Settle := DefaultAttemptSettleWindow |}.

(** What a run asked of AWS, in its order: a request of an operation, a read for
    the plan with the world and the time it was made at and its answer, the wait
    between two reads. *)
Inductive log_entry (W : Type) :=
  | LogSend (k : Z)
  | LogRead (w : W) (t : Time) (answer : result (LiveRead * gmap string string))
  | LogWait.
Arguments LogSend {W}.
Arguments LogRead {W}.
Arguments LogWait {W}.

(** The state of one call of [ExecutePlan]; [xs_Sent] is the history of calls of
    [Send], newest first: the operation, the request and the database it found;
    [xs_Log] is the history of [log_entry], newest first. Nothing of the run reads
    the two histories. *)
(* src: services/iga_gov_aws_executor.go:316-330 (execRun) *)
Record xstate (W : Type) := {
  xs_W : W;
  xs_DB : DB;
  xs_Out : DeployOutcome;
  xs_Completed : gset Z;
  xs_Intended : bool;
  xs_Assumed : bool;
  xs_Sent : list (Z * Request * DB);
  xs_Log : list (log_entry W) }.
Arguments xs_W {W}.
Arguments xs_DB {W}.
Arguments xs_Out {W}.
Arguments xs_Completed {W}.
Arguments xs_Intended {W}.
Arguments xs_Assumed {W}.
Arguments xs_Sent {W}.
Arguments xs_Log {W}.
Arguments Build_xstate {W}.

(** A value, the end of the run with its outcome set ([errStop]), an error, or
    fuel that did not last. *)
Inductive xres (A : Type) := XOk (a : A) | XStop | XErr (e : goError) | XFuel.
Arguments XOk {A}.
Arguments XStop {A}.
Arguments XErr {A}.
Arguments XFuel {A}.

(* src: services/iga_gov_aws_executor.go:496-498 (isLeaseErr) *)
Definition isLeaseErr (e : goError) : bool := bool_decide (e = ErrPolicyJobLeaseLost) || bool_decide (e = ErrPolicyJobLeaseShort).

(** [errors.Join], by what [errors.Is] is asked of it. *)
Definition errors_Join (a b : goError) : goError := if isLeaseErr a then a else b.

(** The zero [LiveRead]. *)
Definition no_live : LiveRead := {| ReadAt := 0; Role := None; Policies := ∅; Roles := ∅; Bindings := ∅ |}.

(** * The artifact ledger *)

Definition ArtifactBoundaryPolicy : string := "boundary_policy".
Definition ArtifactBoundaryAttachment : string := "boundary_attachment".
Definition ArtifactIntended : string := "intended".
Definition ArtifactPresent : string := "present".
Definition ArtifactRemoved : string := "removed".
Definition ArtifactReleased : string := "released".
Definition ArtifactDrifted : string := "drifted".
Definition ArtifactOwnedDirect : string := "authsec_direct".
Definition ArtifactOwnedCustomerIaC : string := "customer_iac".

(* src: services/iga_gov_aws_executor.go:997-1002 (ownedBy) *)
Definition ownedBy (policyARN : string) : string :=
  if Contains policyARN (":policy" +:+ AuthSecPolicyPath) then ArtifactOwnedDirect else ArtifactOwnedCustomerIaC.

Definition ledger_live (a : Artifact) : bool := bool_decide (ar_State a ∈ [ArtifactIntended; ArtifactPresent; ArtifactDrifted]).

(* src: services/iga_gov_aws_executor.go:1010-1021 (liveLedgerRow) *)
Definition liveLedgerRow (control kind : string) (d : DB) : option Artifact :=
  head (List.filter (fun a => (ar_ControlID a =? control)%string && (ar_Kind a =? kind)%string && ledger_live a) (snd <$> map_to_list (db_Artifacts d))).

Definition put_artifact (a : Artifact) (d : DB) : DB := set_Artifacts (<[ar_ID a := a]> (db_Artifacts d)) d.

(** The foreign key of document_hash. *)
Definition archived (hash : option string) (d : DB) : bool :=
  match hash with Some h => bool_decide (is_Some (db_Documents d !! h)) | None => true end.

(** Inserted once; the table holds it afterwards. *)
(* src: services/iga_gov_aws_executor.go:820-833 (archiveDocumentTx) *)
Definition archiveDocumentTx (canonical hash : string) (d : DB) : result (DB * unit) :=
  let d := match db_Documents d !! hash with Some _ => d | None => set_Documents (<[hash := canonical]> (db_Documents d)) d end in
  match db_Documents d !! hash with Some _ => Ok (d, tt) | None => Err (ErrOther ("document " +:+ hash +:+ " is not archived")) end.

(** [d] doubled up to five minutes, [n] times at most. *)
(* src: services/iga_gov_aws_executor.go:972-978 (IGAGovAWSExecutor.backoff, part) *)
Fixpoint doubled (n : nat) (d : Z) : Z :=
  match n with
  | O => Z.min d (5 * minute)
  | S n => if d <? 5 * minute then doubled n (2 * d) else Z.min d (5 * minute)
  end.

(** * The run *)

Section Run.
Context {W : Type} (en : env W) (cfg : settings) (fence : PolicyJobFence).

Definition X (A : Type) : Type := xstate W -> xstate W * xres A.

Definition ret {A} (a : A) : X A := fun s => (s, XOk a).
Definition fail {A} (e : goError) : X A := fun s => (s, XErr e).
Definition bind {A B} (m : X A) (k : A -> X B) : X B :=
  fun s => match m s with (s, XOk a) => k a s | (s, XStop) => (s, XStop) | (s, XErr e) => (s, XErr e) | (s, XFuel) => (s, XFuel) end.
Notation "x ⇐ m ; k" := (bind m (fun x => k)) (at level 20, m at level 100, k at level 200, only parsing).
Notation "m ;; k" := (bind m (fun _ => k)) (at level 100, k at level 200, only parsing).

Definition set_W (w : W) (s : xstate W) : xstate W :=
  Build_xstate w (xs_DB s) (xs_Out s) (xs_Completed s) (xs_Intended s) (xs_Assumed s) (xs_Sent s) (xs_Log s).
Definition set_DB (d : DB) (s : xstate W) : xstate W :=
  Build_xstate (xs_W s) d (xs_Out s) (xs_Completed s) (xs_Intended s) (xs_Assumed s) (xs_Sent s) (xs_Log s).
Definition out (g : DeployOutcome -> DeployOutcome) : X unit :=
  fun s => (Build_xstate (xs_W s) (xs_DB s) (g (xs_Out s)) (xs_Completed s) (xs_Intended s) (xs_Assumed s) (xs_Sent s) (xs_Log s), XOk tt).
Definition get {A} (f : xstate W -> A) : X A := fun s => (s, XOk (f s)).
Definition set_completed (c : gset Z) : X unit :=
  fun s => (Build_xstate (xs_W s) (xs_DB s) (xs_Out s) c (xs_Intended s) (xs_Assumed s) (xs_Sent s) (xs_Log s), XOk tt).
Definition complete (k : Z) : X unit := c ⇐ get xs_Completed; set_completed ({[k]} ∪ c).
Definition set_flags (intended assumed : bool) : X unit :=
  fun s => (Build_xstate (xs_W s) (xs_DB s) (xs_Out s) (xs_Completed s) intended assumed (xs_Sent s) (xs_Log s), XOk tt).
Definition lift {A} (r : result A) : X A := fun s => (s, match r with Ok a => XOk a | Err e => XErr e end).

(** The world answers. *)
Definition world {A} (f : W -> W * A) : X A := fun s => let '(w, a) := f (xs_W s) in (set_W w s, XOk a).

(** Other transactions get their turn; the next statement may fail. *)
Definition turn : X (option goError) :=
  fun s => let '(w, d, e) := en_Others en (xs_W s) (xs_DB s) in (set_DB d (set_W w s), XOk e).

(** A statement outside a transaction, and a transaction with its result as a value. *)
Definition query {A} (f : DB -> A) : X A := e ⇐ turn; match e with Some e => fail e | None => get (fun s => f (xs_DB s)) end.
Definition try_tx {A} (fn : DB -> result (DB * A)) : X (result A) :=
  e ⇐ turn;
  match e with
  | Some e => ret (Err e)
  | None => fun s => match fn (xs_DB s) with Ok (d, a) => (set_DB d s, XOk (Ok a)) | Err e => (s, XOk (Err e)) end
  end.
Definition tx {A} (fn : DB -> result (DB * A)) : X A := r ⇐ try_tx fn; lift r.

Definition log (e : log_entry W) : X unit :=
  fun s => (Build_xstate (xs_W s) (xs_DB s) (xs_Out s) (xs_Completed s) (xs_Intended s) (xs_Assumed s) (xs_Sent s) (e :: xs_Log s), XOk tt).

Definition now : X Time := world (en_Now en).
Definition fresh : X string := world (en_Fresh en).

(* src: services/iga_gov_aws_executor.go:393-396 (execRun.stop) *)
Definition stop {A} (result reason : string) : X A := out (set_result result reason) ;; fun s => (s, XStop).

(** An external call inside the lease margin; an error of the fence or of a
    statement hides the call's own. *)
(* src: services/iga_gov_job_worker.go:612-627 (PolicyJobRun.External) *)
Definition External {A} (call : X A) : X (result A) :=
  t1 ⇐ now; t2 ⇐ now; t3 ⇐ now;
  m ⇐ try_tx (fun d => t ← EnsureMargin fence (st_Lease cfg) (st_Margin cfg) t1 t2 t3 (db_Jobs d); Ok (set_Jobs t d, tt));
  match m with
  | Err e => ret (Err e)
  | Ok _ =>
      a ⇐ call;
      t4 ⇐ now;
      c ⇐ try_tx (fun d => _ ← CheckFence fence t4 (db_Jobs d); Ok (d, tt));
      ret (_ ← c; Ok a)
  end.

Section Plan_run.
Context (dep : Deployment) (plan : Plan) (ctl : Control) (role : string).

(* src: services/iga_gov_aws_executor.go:1283-1291 (execRun.event) *)
Definition add_event_tx (name : string) (payload : list (string * goval)) (d : DB) : DB :=
  add_event {| ev_Event := name; ev_DeploymentID := dp_ID dep; ev_Payload := payload |} d.

(** ** Access and reads *)

(* src: services/iga_gov_aws_executor.go:450-463 (execRun.accessStop) *)
Definition accessStop {A} (r : refusal) : X A :=
  match r with
  | Refusal code _ =>
      if (code =? "discovery_unavailable")%string then stop DeployBlocked code
      else if (code =? "enforcement_unavailable")%string then stop DeployRetryLater code
      else stop DeployFailed code
  | OtherError e _ => fail e
  end.

(* src: services/iga_gov_aws_executor.go:465-472 (execRun.discovery) *)
Definition discovery : X unit := r ⇐ world (en_Discovery en); match r with Some r => accessStop r | None => ret tt end.

(* src: services/iga_gov_aws_executor.go:476-494 (execRun.enforcement) *)
Definition enforcement : X unit :=
  assumed ⇐ get xs_Assumed;
  if (assumed : bool) then ret tt
  else
    r ⇐ External (world (en_Enforcement en));
    match r with
    | Err e => fail e
    | Ok (Some r) => accessStop r
    | Ok None => i ⇐ get xs_Intended; set_flags i true
    end.

(** A failed read: the job comes back later. *)
Definition read_failed {A} : X A := out (set_retry (30 * second)) ;; stop DeployRetryLater DeployReasonReadFailed.

Definition fenced_read {A} (call : X (result A)) : X A :=
  r ⇐ External call;
  match r with
  | Err e => if isLeaseErr e then fail e else read_failed
  | Ok (Err _) => read_failed
  | Ok (Ok a) => ret a
  end.

(** A read for the plan with its entry in the history. *)
Definition live_read : X (result (LiveRead * gmap string string)) :=
  t ⇐ now;
  w ⇐ get xs_W;
  r ⇐ world (ReadForPlan (en_Disc en) role plan t);
  log (LogRead w t r) ;; ret r.

(* src: services/iga_gov_aws_executor.go:501-517 (execRun.read) *)
Definition read : X (LiveRead * gmap string string) := fenced_read live_read.

(* src: services/iga_gov_aws_executor.go:519-533 (execRun.classify) *)
Definition classify : X Classification :=
  lr ⇐ read;
  cl ⇐ lift (Classify plan lr.1);
  out (set_start cl) ;; ret cl.

(** ** Completed operations *)

(* src: services/iga_gov_aws_executor.go:621-644 (execRun.loadCompleted) *)
Definition loadCompleted (d : DB) : gset Z :=
  match db_Deployments d !! dp_ID dep with
  | Some p => list_to_set (co_OpSeq <$> List.filter (fun e => OpDone (co_Outcome e)) (dp_CompletedOps p))
  | None => ∅
  end.

(* src: services/iga_gov_aws_executor.go:652-670 (execRun.appendCompleted) *)
Definition appendCompleted (r : DeployOpRecord) : X unit :=
  tx (InTx fence (fun d =>
    let d := alter_deployment (dp_ID dep)
               (append_completed {| co_OpSeq := dr_OpSeq r; co_Operation := dr_Operation r; co_AttemptID := dr_AttemptID r;
                                    co_Outcome := dr_Outcome r; co_Basis := Some (dr_Basis r) |}) d in
    Ok (add_event_tx (if (dr_Outcome r =? AttemptOutcomeNotNeeded)%string then "deployment.op_not_needed" else "deployment.op_recognised")
          [("op_seq", GInt (dr_OpSeq r)); ("operation", GString (dr_Operation r)); ("outcome", GString (dr_Outcome r));
           ("basis", GString (dr_Basis r)); ("attempt_id", opt_val (dr_AttemptID r)); ("reason", GString (dr_Reason r))] d, tt))).

Definition op_record (k : Z) (op : Op) (att : option string) (outcome basis reason : string) : DeployOpRecord :=
  {| dr_OpSeq := k; dr_Operation := op_Op op; dr_VersionID := ""; dr_Outcome := outcome; dr_Basis := basis; dr_AttemptID := att;
     dr_AttemptNo := 0; dr_Request := ""; dr_RequestID := ""; dr_ErrorCode := ""; dr_Reason := reason |}.

(** The unknown attempt of an operation that was resolved as applied, the last one. *)
(* src: services/iga_gov_aws_executor.go:684-694 (execRun.recognise, part) *)
Definition resolved_applied (k : Z) (d : DB) : option string :=
  let l := attempts_where (fun a => (at_DeploymentID a =? dp_ID dep)%string && (at_OpSeq a =? k) && (at_Status a =? GovAttemptUnknown)%string &&
                             bool_decide (at_ResolvedAs a = Some AttemptResolvedApplied)) d in
  at_ID <$> head (sort_slice (fun a b => at_AttemptNo b <? at_AttemptNo a) l).

(** The operations from the [j]-th on that stand before [k]. *)
(* src: services/iga_gov_aws_executor.go:675-703 (execRun.recognise) *)
Fixpoint recognise (j : Z) (ops : list Op) (k : Z) : X unit :=
  match ops with
  | [] => ret tt
  | op :: ops =>
      if negb (j <? k) then ret tt
      else
        don ⇐ get xs_Completed;
        (if bool_decide (j ∈ don) then ret tt
         else
           att ⇐ query (resolved_applied j);
           let reason := match att with
                         | Some _ => "the unknown attempt was resolved applied and the live read shows its effect"
                         | None => if OpObservable op then "the live read shows the op's effect"
                                   else "it precedes, in the op order, an op the live read shows done"
                         end in
           let rec := op_record j op att AttemptOutcomeRecognisedDone OpBasisLiveRead reason in
           appendCompleted rec ;; complete j ;; out (add_op rec)) ;;
        recognise (j + 1) ops k
  end.

(** When AWS last answered the operation, by its completed attempts. *)
(* src: services/iga_gov_aws_executor.go:602-607 (execRun.notVisible, part) *)
Definition answered_at (k : Z) (d : DB) : option Time :=
  head (sort_slice (fun a b => b <? a)
    (omap at_CompletedAt
       (attempts_where (fun a => (at_DeploymentID a =? dp_ID dep)%string && (at_OpSeq a =? k) &&
          (at_Status a =? GovAttemptCompleted)%string && match at_Outcome a with Some o => OpDone o | None => false end) d))).

(* src: services/iga_gov_aws_executor.go:601-617 (execRun.notVisible) *)
Definition notVisible {A} (k : Z) (cl : Classification) : X A :=
  answered ⇐ query (answered_at k);
  out (set_last cl) ;;
  match answered with
  | Some c =>
      t ⇐ now;
      if time_sub t c <? st_ConsistencyWindow cfg
      then out (set_retry (15 * second)) ;; stop DeployRetryLater DeployReasonAwaitConsistency
      else stop DeployBlocked DeployReasonNotVisible
  | None => stop DeployBlocked DeployReasonNotVisible
  end.

(** ** One request *)

Definition record_sent (k : Z) (req : Request) : X unit :=
  fun s => (Build_xstate (xs_W s) (xs_DB s) (xs_Out s) (xs_Completed s) (xs_Intended s) (xs_Assumed s) ((k, req, xs_DB s) :: xs_Sent s) (LogSend k :: xs_Log s), XOk tt).

(** The answer with the classifier's reason, or the text of the error. *)
(* src: services/iga_gov_aws_executor.go:866-893 (execRun.attempt, part) *)
Definition call (k : Z) (req : Request) (doc : string) : X ((AttemptAnswer * string) + string) :=
  _ ⇐ turn;
  record_sent k req ;;
  resp ⇐ world (Send (en_IAM en) req doc);
  match rp_Kind resp with
  | RespNoAnswer => ret (inr ("no answer from AWS: " +:+ match rp_Err resp with Some e => ce_Text e | None => "<nil>" end))
  | kind =>
      live ⇐ match kind with
             | RespError => r ⇐ live_read; ret match r with Ok lr => lr.1 | Err _ => no_live end
             | _ => ret no_live
             end;
      let oc := ClassifyOpResponse plan k kind (rp_ErrorCode resp) live in
      if (oo_Outcome oc =? OutcomeUnknown)%string
      then ret (inr (oo_Reason oc +:+ " (" +:+ rp_ErrorCode resp +:+ "): AWS may have applied the request"))
      else
        let msg := if negb (is_empty (oo_Reason oc)) && negb (oo_Reason oc =? rp_ErrorCode resp)%string
                   then oo_Reason oc +:+ ": " +:+ rp_Message resp else rp_Message resp in
        ret (inl ({| an_Outcome := oo_Outcome oc; an_RequestID := rp_RequestID resp; an_ErrorCode := rp_ErrorCode resp;
                     an_ErrorMessage := msg |}, oo_Reason oc))
  end.

(** An answer with the call's note, no answer, or [ErrDispatchRefused]. *)
(* src: services/iga_gov_attempt_log.go:133-143 (AttemptResult) *)
Inductive AttemptResult :=
  | Answered (a : Attempt) (ans : AttemptAnswer) (note : string)
  | Unanswered (a : Attempt) (settle : Time) (callErr : string)
  | DispatchRefused (r : refusal).

(* src: services/iga_gov_attempt_log.go:588-590 (IGAGovAttemptLog.abandonOwn) *)
Definition abandonOwn (a : Attempt) : X (result unit) :=
  t ⇐ now; try_tx (abandonOwnReason t fence a "lease margin short before dispatch; never sent").

(* src: services/iga_gov_attempt_log.go:531-585 (IGAGovAttemptLog.ExecuteChecked) *)
Definition ExecuteChecked (req : AttemptRequest) (preDispatch : X (option refusal)) (call : X ((AttemptAnswer * string) + string))
  : X AttemptResult :=
  id ⇐ fresh; t ⇐ now;
  att ⇐ tx (Prepare id t fence req);
  refused ⇐ preDispatch;
  match refused with
  | Some r =>
      t ⇐ now;
      a ⇐ try_tx (abandonOwnReason t fence att ("refused before dispatch: " +:+ refusal_text r));
      match a with Ok _ => ret (DispatchRefused r) | Err e => fail (match r with OtherError c _ => errors_Join c e | _ => e end) end
  | None =>
      t ⇐ now;
      d ⇐ try_tx (Dispatch (st_Margin cfg) t fence att);
      match d with
      | Err e =>
          if bool_decide (e = ErrPolicyJobLeaseShort)
          then a ⇐ abandonOwn att; match a with Ok _ => fail e | Err a => fail (errors_Join e a) end
          else fail e
      | Ok att =>
          rep ⇐ call;
          timeout ⇐ world (en_Timeout en);
          match (if (timeout : bool) then inr "no answer before the client timeout or cancellation" else rep) with
          | inl (ans, note) => t ⇐ now; att ⇐ tx (Complete t fence att ans); ret (Answered att ans note)
          | inr text => t ⇐ now; settle ⇐ tx (MarkUnknown (st_Settle cfg) t fence att text); ret (Unanswered (unknown_row att) settle text)
          end
      end
  end.

(* src: services/iga_gov_aws_executor.go:949-968 (execRun.bindingStop) *)
Definition bindingStop {A} (r : refusal) : X A := match r with Refusal code _ => stop DeployBlocked code | OtherError e _ => fail e end.

(** The retryable answers inside the window. *)
(* src: services/iga_gov_aws_executor.go:851-856 (execRun.attempt, part) *)
Definition retryable_since (k : Z) (since : Time) (d : DB) : Z :=
  Z.of_nat (length (attempts_where (fun a => (at_DeploymentID a =? dp_ID dep)%string && (at_OpSeq a =? k) &&
    bool_decide (at_Outcome a = Some AttemptOutcomeRetryable) && match at_CompletedAt a with Some c => since <? c | None => false end) d)).

Definition attempt_record (k : Z) (req : Request) (hash : string) (a : Attempt) (outcome requestID code reason : string) : DeployOpRecord :=
  {| dr_OpSeq := k; dr_Operation := rq_Op req; dr_VersionID := rq_VersionID req; dr_Outcome := outcome; dr_Basis := OpBasisAttempt;
     dr_AttemptID := Some (at_ID a); dr_AttemptNo := at_AttemptNo a; dr_Request := hash; dr_RequestID := requestID; dr_ErrorCode := code;
     dr_Reason := reason |}.

(* src: services/iga_gov_aws_executor.go:971-981 (IGAGovAWSExecutor.backoff) *)
Definition backoff (n : Z) : X Z := world (en_Jitter en (doubled (Z.to_nat (n - 1)) (st_RetryBase cfg))).

(* src: services/iga_gov_aws_executor.go:846-939 (execRun.attempt) *)
Definition attempt (k : Z) (req : Request) (doc docHash : string) : X unit :=
  t ⇐ now;
  retryable ⇐ query (retryable_since k (t - st_RetryWindow cfg));
  if st_MaxOpAttempts cfg <=? retryable then stop DeployFailed DeployReasonRetriesExhausted
  else
    hash ⇐ lift (Request_Hash req);
    res ⇐ ExecuteChecked {| aq_DeploymentID := dp_ID dep; aq_OpSeq := k; aq_Operation := rq_Op req; aq_RequestHash := hash;
                             aq_DocumentHash := docHash |} (world (en_Binding en)) (call k req doc);
    match res with
    | DispatchRefused r => bindingStop r
    | Unanswered a settle text =>
        out (add_op (attempt_record k req hash a OutcomeUnknown "" "" text)) ;;
        out (set_unknown a settle) ;;
        stop DeployOutcomeUnknown DeployReasonNoAnswer
    | Answered a ans note =>
        out (add_op (attempt_record k req hash a (an_Outcome ans) (an_RequestID ans) (an_ErrorCode ans) note)) ;;
        if OpDone (an_Outcome ans) then ret tt
        else if (an_Outcome ans =? AttemptOutcomeRetryable)%string then
          b ⇐ backoff (retryable + 1); out (set_retry b) ;; stop DeployRetryLater DeployReasonThrottled
        else
          let reason := if is_empty note then an_ErrorCode ans else note in
          stop (if HasPrefix reason "blocked" then DeployBlocked else DeployFailed) reason
    end.

(** ** The ledger before the first operation *)

(* src: services/iga_gov_aws_executor.go:1078-1086 (execRun.insertArtifact) *)
Definition insertArtifact (id kind arn state : string) (docHash : option string) (version : string) (d : DB) : result DB :=
  let owner := match pl_DesiredBoundaryARN plan with
               | Some b => if (kind =? ArtifactBoundaryAttachment)%string then ownedBy b else ownedBy arn
               | None => ownedBy arn
               end in
  if bool_decide (is_Some (db_Artifacts d !! id)) then Err (ErrOther "iga_gov_artifact_pkey")
  else if negb (archived docHash d) then Err (ErrOther "iga_gov_artifact_workspace_id_document_hash_fkey")
  else Ok (put_artifact {| ar_ID := id; ar_ControlID := cl_ID ctl; ar_Kind := kind; ar_NativeARN := arn; ar_OwnedBy := owner; ar_State := state;
                           ar_DocumentHash := docHash; ar_AWSVersionID := version; ar_LastReadbackAt := None; ar_LastReadbackHash := "";
                           ar_LastDeploymentID := dp_ID dep |} d).

Definition insert_missing (id kind arn : string) (docHash : option string) (d : DB) : result (DB * list string) :=
  match liveLedgerRow (cl_ID ctl) kind d with
  | Some _ => Ok (d, [])
  | None => d ← insertArtifact id kind arn ArtifactIntended docHash "" d; Ok (d, [kind])
  end.

(* src: services/iga_gov_aws_executor.go:1035-1076 (execRun.markIntended) *)
Definition markIntended : X unit :=
  intended ⇐ get xs_Intended;
  assumed ⇐ get xs_Assumed;
  if (intended : bool) then ret tt
  else
    match pl_DesiredBoundaryARN plan, pl_DesiredDocumentHash plan with
    | Some arn, Some hash =>
        if negb (pl_DesiredAttachment plan =? AttachmentPresent)%string then set_flags true assumed
        else
          id1 ⇐ fresh; id2 ⇐ fresh;
          tx (InTx fence (fun d =>
            '(d, w1) ← insert_missing id1 ArtifactBoundaryPolicy arn (Some hash) d;
            '(d, w2) ← insert_missing id2 ArtifactBoundaryAttachment (cl_RoleARN ctl) (Some hash) d;
            match w1 ++ w2 with
            | [] => Ok (d, tt)
            | written => Ok (add_event_tx "deployment.ledger_intended"
                               [("kinds", GSlice (GString <$> written)); ("boundary_arn", GString arn)] d, tt)
            end)) ;;
          set_flags true assumed
    | _, _ => set_flags true assumed
    end.

(** ** One operation *)

(* src: services/iga_gov_aws_executor.go:809-818 (execRun.archive) *)
Definition archive (text : string) : X (result string) :=
  match CanonicalDocument text with
  | Err e => ret (Err e)
  | Ok (c, h) => r ⇐ try_tx (InTx fence (archiveDocumentTx c h)); ret (_ ← r; Ok h)
  end.

(* src: services/iga_gov_aws_executor.go:786-803 (execRun.runVersionDeletes, part) *)
Fixpoint delete_versions (k : Z) (op : Op) (versions : list VersionToDelete) : X unit :=
  match versions with
  | [] => ret tt
  | v :: versions =>
      h ⇐ archive (vd_Document v);
      match h with
      | Err e => if isLeaseErr e then fail e else stop DeployFailed DeployReasonVersionUnarchived
      | Ok h =>
          match NewRequest op (dp_ID dep) (vd_VersionID v) role with
          | Err e => stop DeployFailed (requestRefusal e)
          | Ok req => attempt k req "" h ;; delete_versions k op versions
          end
      end
  end.

(* src: services/iga_gov_aws_executor.go:762-804 (execRun.runVersionDeletes) *)
Definition runVersionDeletes (k : Z) (op : Op) : X unit :=
  versions ⇐ fenced_read (world (ResolveVersionSelector (en_Disc en) op));
  match versions with
  | [] =>
      let rec := op_record k op None AttemptOutcomeNotNeeded OpBasisSelector ("selector " +:+ op_Select op +:+ " chose no version") in
      appendCompleted rec ;; out (add_op rec)
  | _ => delete_versions k op versions
  end.

(** The canonical text of an archived document. *)
(* src: services/iga_gov_aws_executor.go:740-749 (execRun.document) *)
Definition document (hash : string) (d : DB) : option string := db_Documents d !! hash.

(* src: services/iga_gov_aws_executor.go:707-737 (execRun.runOp) *)
Definition runOp (k : Z) (op : Op) : X unit :=
  markIntended ;; enforcement ;;
  if (op_Op op =? OpDeletePolicyVersion)%string then runVersionDeletes k op
  else
    match NewRequest op (dp_ID dep) "" role with
    | Err e => stop DeployFailed (requestRefusal e)
    | Ok req =>
        if SendsDocument req then
          doc ⇐ query (document (rq_DocumentHash req));
          match doc with
          | None => stop DeployFailed DeployReasonDocumentMissing
          | Some doc => attempt k req doc (rq_DocumentHash req)
          end
        else attempt k req "" (rq_DocumentHash req)
    end.

(** ** Readback *)

Definition NotInLedger : string := "none (not in the ledger)".

(** The columns a readback writes; [Some (doc, version, owner)] for a row that
    becomes present. *)
Definition ledger_row (state : string) (at_ : Time) (hash : string) (present : option (option string * string * string)) (a : Artifact) : Artifact :=
  {| ar_ID := ar_ID a; ar_ControlID := ar_ControlID a; ar_Kind := ar_Kind a; ar_NativeARN := ar_NativeARN a;
     ar_OwnedBy := match present with Some (_, _, owner) => owner | None => ar_OwnedBy a end; ar_State := state;
     ar_DocumentHash := match present with Some (doc, _, _) => doc | None => ar_DocumentHash a end;
     ar_AWSVersionID := match present with Some (_, version, _) => version | None => ar_AWSVersionID a end;
     ar_LastReadbackAt := Some at_; ar_LastReadbackHash := hash; ar_LastDeploymentID := dp_ID dep |}.

(* src: services/iga_gov_aws_executor.go:1194-1249 (execRun.writeLedger, part) *)
Definition ledger_set (id : string) (at_ : Time) (hash kind arn to : string) (doc : option string) (version : string) (d : DB)
  : result (DB * list DeployLedgerChange) :=
  let owner := match pl_DesiredBoundaryARN plan with
               | Some b => if (kind =? ArtifactBoundaryAttachment)%string then ownedBy b else ownedBy arn
               | None => ownedBy arn
               end in
  let none := {| lc_Kind := kind; lc_NativeARN := arn; lc_From := "none"; lc_To := NotInLedger |} in
  let create (d : DB) (changes : list DeployLedgerChange) :=
    if (to =? ArtifactPresent)%string then
      if bool_decide (is_Some (db_Artifacts d !! id)) then Err (ErrOther "iga_gov_artifact_pkey")
      else if negb (archived doc d) then Err (ErrOther "iga_gov_artifact_workspace_id_document_hash_fkey")
      else Ok (put_artifact {| ar_ID := id; ar_ControlID := cl_ID ctl; ar_Kind := kind; ar_NativeARN := arn; ar_OwnedBy := owner; ar_State := to;
                               ar_DocumentHash := doc; ar_AWSVersionID := version; ar_LastReadbackAt := Some at_; ar_LastReadbackHash := hash;
                               ar_LastDeploymentID := dp_ID dep |} d,
               changes ++ [{| lc_Kind := kind; lc_NativeARN := arn; lc_From := "none"; lc_To := to |}])
    else Ok (d, changes ++ [none]) in
  match liveLedgerRow (cl_ID ctl) kind d with
  | None => create d []
  | Some row =>
      if negb (ar_NativeARN row =? arn)%string then
        if (to =? ArtifactRemoved)%string || (to =? ArtifactReleased)%string then Ok (d, [none])
        else create (put_artifact (ledger_row ArtifactReleased at_ hash None row) d)
               [{| lc_Kind := kind; lc_NativeARN := ar_NativeARN row; lc_From := ar_State row; lc_To := ArtifactReleased |}]
      else
        let present := if (to =? ArtifactPresent)%string then Some (doc, version, owner) else None in
        if (to =? ArtifactPresent)%string && negb (archived doc d) then Err (ErrOther "iga_gov_artifact_workspace_id_document_hash_fkey")
        else Ok (put_artifact (ledger_row to at_ hash present row) d,
            [{| lc_Kind := kind; lc_NativeARN := arn; lc_From := ar_State row; lc_To := to |}])
  end.

(* src: services/iga_gov_aws_executor.go:1183-1193 (execRun.writeLedger, part) *)
Definition archive_boundary (live : LiveRead) (st : ArtifactStateFacts) (d : DB) : result (DB * unit) :=
  match as_BoundaryARN st with
  | Some arn =>
      match mjoin (Policies live !! arn) with
      | Some pol => '(c, h) ← CanonicalDocument (lp_DefaultDocument pol); archiveDocumentTx c h d
      | None => Ok (d, tt)
      end
  | None => Ok (d, tt)
  end.

(* src: services/iga_gov_aws_executor.go:1250-1259 (execRun.writeLedger, part) *)
Definition ledger_disposed (at_ : Time) (hash : string) (d : DB) : result (DB * list DeployLedgerChange) :=
  match pl_ReplacedBoundaryARN plan with
  | Some arn =>
      if (pl_ArtifactDisposition plan =? DispositionKeep)%string then Ok (d, [])
      else ledger_set "" at_ hash ArtifactBoundaryPolicy arn
             (if (pl_ArtifactDisposition plan =? DispositionRetainShared)%string then ArtifactReleased else ArtifactRemoved) None "" d
  | None => Ok (d, [])
  end.

Definition change_val (c : DeployLedgerChange) : goval :=
  GStruct [("kind", GString (lc_Kind c)); ("native_arn", GString (lc_NativeARN c)); ("from", GString (lc_From c)); ("to", GString (lc_To c))].

(** The transaction's body: the ids are those of rows it may create. *)
(* src: services/iga_gov_aws_executor.go:1178-1281 (execRun.writeLedger) *)
Definition writeLedgerTx (id1 id2 : string) (at_ : Time) (live : LiveRead) (versions : gmap string string) (st : ArtifactStateFacts)
    (hash : string) (d : DB) : result (DB * list DeployLedgerChange) :=
  '(d, _) ← archive_boundary live st d;
  '(d, c0) ← ledger_disposed at_ hash d;
  '(d, cs) ←
    (if (pl_DesiredAttachment plan =? AttachmentPresent)%string then
       match pl_DesiredBoundaryARN plan with
       | Some arn =>
           '(d, c1) ← ledger_set id1 at_ hash ArtifactBoundaryPolicy arn ArtifactPresent (as_BoundaryDocumentHash st)
                        (default "" (versions !! arn)) d;
           '(d, c2) ← ledger_set id2 at_ hash ArtifactBoundaryAttachment (cl_RoleARN ctl) ArtifactPresent (as_BoundaryDocumentHash st) "" d;
           Ok (d, c1 ++ c2)
       | None => Err (ErrOther "invalid memory address or nil pointer dereference")
       end
     else if (pl_DesiredAttachment plan =? AttachmentAbsent)%string
     then ledger_set "" at_ hash ArtifactBoundaryAttachment (cl_RoleARN ctl) ArtifactRemoved None "" d
     else Ok (d, []));
  Ok (add_event_tx "deployment.readback"
        [("plan_kind", GString (pl_Kind plan)); ("state_hash", GString hash); ("boundary_arn", opt_val (as_BoundaryARN st));
         ("boundary_document_hash", opt_val (as_BoundaryDocumentHash st)); ("ledger", GSlice (change_val <$> (c0 ++ cs)))] d, c0 ++ cs).

Definition sleep : X unit := e ⇐ world (en_Sleep en); match e with Some e => fail e | None => log LogWait end.

Definition partial_readback (reads : list Classification) (at_ : option Time) : DeployReadback :=
  {| rb_Reads := reads; rb_State := None; rb_StateHash := ""; rb_ReadAt := at_; rb_Ledger := [] |}.

(** One pair of reads: the conflict that ends the run, the readback that passed,
    or neither yet. *)
(* src: services/iga_gov_aws_executor.go:1103-1160 (execRun.readback, part) *)
Definition readback_round : X (list Classification * bool) :=
  l1 ⇐ read;
  c1 ⇐ lift (Classify plan l1.1);
  sleep ;;
  l2 ⇐ read;
  c2 ⇐ lift (Classify plan l2.1);
  let last := [c1; c2] in
  match List.find (fun c => (cl_Class c =? ClassConflict)%string) last with
  | Some c =>
      out (set_last c) ;; out (set_readback (partial_readback last (Some (ReadAt l2.1)))) ;;
      stop DeployBlocked (cl_Reason c)
  | None =>
      if negb (cl_Class c1 =? ClassAfter)%string || negb (cl_Class c2 =? ClassAfter)%string then ret (last, false)
      else
        st1 ⇐ lift (ArtifactState l1.1);
        st2 ⇐ lift (ArtifactState l2.1);
        h1 ⇐ lift (StatePreconditionHash st1);
        h2 ⇐ lift (StatePreconditionHash st2);
        if negb (h1 =? h2)%string then ret (last, false)
        else
          id1 ⇐ fresh; id2 ⇐ fresh; t ⇐ now;
          ledger ⇐ tx (InTx fence (writeLedgerTx id1 id2 t l2.1 l2.2 st2 h2));
          out (set_readback {| rb_Reads := last; rb_State := Some st2; rb_StateHash := h2; rb_ReadAt := Some (ReadAt l2.1); rb_Ledger := ledger |}) ;;
          out (fun o => set_result DeployApplied (do_Reason o) o) ;;
          ret (last, true)
  end.

(* src: services/iga_gov_aws_executor.go:1095-1164 (execRun.readback) *)
Fixpoint readback (first : bool) (last : list Classification) (rounds : nat) : X unit :=
  match rounds with
  | O =>
      out (set_readback (partial_readback last None)) ;; out (set_retry (30 * second)) ;;
      stop DeployRetryLater DeployReasonReadbackNotSettled
  | S rounds =>
      (if first then ret tt else sleep) ;;
      r ⇐ readback_round;
      if (r.2 : bool) then ret tt else readback false r.1 rounds
  end.

(** ** The loop *)

(** The first of the operations [k], ..., [cursor - 1] that a read can see. *)
(* src: services/iga_gov_aws_executor.go:549-558 (execRun.execute, part) *)
Definition hidden (k cursor : Z) : option Z :=
  List.find (fun j => match pl_Ops plan !! Z.to_nat j with Some op => OpObservable op | None => false end) (seqZ k (cursor - k)).

(* src: services/iga_gov_aws_executor.go:535-587 (execRun.execute) *)
Fixpoint execute (fuel : nat) (cursor : Z) : X unit :=
  match fuel with
  | O => fun s => (s, XFuel)
  | S fuel =>
      cl ⇐ classify;
      if (cl_Class cl =? ClassConflict)%string then out (set_last cl) ;; stop DeployBlocked (cl_Reason cl)
      else
        match (if cl_NextOp cl <? cursor then hidden (cl_NextOp cl) cursor else None) with
        | Some j => notVisible j cl
        | None =>
            let k := Z.max (cl_NextOp cl) cursor in
            recognise 0 (pl_Ops plan) k ;;
            match pl_Ops plan !! Z.to_nat k with
            | None => readback true [] (st_ReadbackRounds cfg)
            | Some op =>
                don ⇐ get xs_Completed;
                if bool_decide (k ∈ don) && OpObservable op then notVisible k cl
                else if bool_decide (k ∈ don) && negb (op_Op op =? OpDeletePolicyVersion)%string then execute fuel (k + 1)
                else runOp k op ;; complete k ;; execute fuel (k + 1)
            end
        end
  end.

(** Every turn moves the cursor past an operation. *)
Definition run_fuel : nat := S (length (pl_Ops plan)).

End Plan_run.

(** ** The run of a deployment *)

(** What the run leaves behind, and [finish]: a stop is an outcome. *)
(* src: services/iga_gov_aws_executor.go:383-391 (execRun.finish) *)
Definition finish_run {A} (r : xstate W * xres A) : xstate W * result DeployOutcome :=
  match r with
  | (s, XOk _) | (s, XStop) => (s, Ok (xs_Out s))
  | (s, XErr e) => (s, Err e)
  | (s, XFuel) => (s, Err (ErrOther "out of fuel"))
  end.

(** [WHERE id = ?]. *)
Definition db_deployment (id : string) (d : DB) : result Deployment :=
  match db_Deployments d !! id with
  | Some p => if (dp_ID p =? id)%string then Ok p else Err (ErrOther "record not found")
  | None => Err (ErrOther "record not found")
  end.

(* src: services/iga_gov_aws_executor.go:341-381 (IGAGovAWSExecutor.ExecutePlan) *)
Definition ExecutePlan_run (dep : Deployment) (plan : Plan) : X unit :=
  t ⇐ now;
  rec ⇐ tx (Recover (st_Settle cfg) t fence (dp_ID dep));
  let action_is a := (rc_Action rec =? a)%string in
  out (set_recovery (rc_Action rec)
         (if action_is RecoveryOutcomeUnknown || action_is RecoveryHold then rc_SettleAfter rec else None)
         (if action_is RecoveryOutcomeUnknown || action_is RecoveryHold then rc_Attempt rec else None)) ;;
  if action_is RecoveryOutcomeUnknown then stop DeployOutcomeUnknown DeployReasonNoAnswer
  else if action_is RecoveryHold then stop DeployHold DeployReasonUnknownPending
  else
    c ⇐ world (en_Control en);
    ctl ⇐ lift c;
    let role := roleNameOfARN (cl_RoleARN ctl) in
    let reason := refuseDirect dep plan role in
    if negb (is_empty reason) then stop DeployRefused reason
    else
      p ⇐ query (db_deployment (dp_ID dep));
      cur ⇐ lift p;
      if negb (dp_State cur =? GovDeployApplying)%string then stop DeployRefused DeployReasonNotApplying
      else
        discovery ;;
        don ⇐ query (loadCompleted cur);
        set_completed don ;;
        execute cur plan ctl role (run_fuel plan) 0.

Definition init_run (w : W) (d : DB) : xstate W := Build_xstate w d no_outcome ∅ false false [] [].

Definition ExecutePlan (dep : Deployment) (plan : Plan) (w : W) (d : DB) : xstate W * result DeployOutcome :=
  finish_run (ExecutePlan_run dep plan (init_run w d)).

(* src: services/iga_gov_aws_executor.go:1297-1301 (UnknownReading) *)
Record UnknownReading := { ur_Attempt : Attempt; ur_Resolution : OpResolution; ur_ReadAt : Time }.

(** A stop is an error with its reason. *)
(* src: services/iga_gov_aws_executor.go:1310-1341 (IGAGovAWSExecutor.ClassifyUnknown) *)
Definition ClassifyUnknown_run (dep : Deployment) (plan : Plan) : X UnknownReading :=
  att ⇐ query (OpenAttempt (dp_ID dep));
  match att with
  | Some att =>
      if negb (at_Status att =? GovAttemptUnknown)%string then fail ErrAttemptState
      else
        c ⇐ world (en_Control en);
        ctl ⇐ lift c;
        discovery ;;
        lr ⇐ read plan (roleNameOfARN (cl_RoleARN ctl));
        res ⇐ lift (ResolveUnknownOp plan (at_OpSeq att) lr.1);
        ret {| ur_Attempt := att; ur_Resolution := res; ur_ReadAt := ReadAt lr.1 |}
  | None => fail ErrAttemptState
  end.

Definition ClassifyUnknown (dep : Deployment) (plan : Plan) (w : W) (d : DB) : xstate W * result UnknownReading :=
  match ClassifyUnknown_run dep plan (init_run w d) with
  | (s, XOk r) => (s, Ok r)
  | (s, XStop) => (s, Err (ErrOther (do_Reason (xs_Out s))))
  | (s, XErr e) => (s, Err e)
  | (s, XFuel) => (s, Err (ErrOther "out of fuel"))
  end.

End Run.
