(* ===== verification/ExecutorFacts.v ===== *)
(** The executor in any environment (services/iga_gov_aws_executor.go): it
    stops, it records each request before it sends it and never sends an
    operation twice, and it reports a plan applied only when two reads show the
    plan's after state. Other transactions may run between any two statements;
    of them the facts assume what the tables enforce. *)

From stdpp Require Import base list strings gmap sorting relations.
From Stdlib Require Import Ascii.
From S2P Require Import Prelude Slices Qualify Float64 Utf8 Json JsonCanon Marshal Sha256 PolicyDoc Catalog Text Routes Hashes PolicyCanon TimeFmt Live Boundary Narrow Intent Bundle FirstAttach Plan Recover PlanSet Compile JobQueue AttemptLog AttemptFacts AwsAdapter Executor.

#[local] Opaque CanonicalizeValue ContentHash writeCanonical CanonicalDocument Request_Hash.

(** * Histories of the tables *)

(** A row is stored under its primary key. *)
Definition keyed (d : DB) : Prop := forall id a, db_Attempts d !! id = Some a -> at_ID a = id.

(** The request of an attempt stays, and a dispatched attempt stays one. *)
Definition later (a b : Attempt) : Prop :=
  at_ID b = at_ID a /\ at_DeploymentID b = at_DeploymentID a /\ at_OpSeq b = at_OpSeq a /\ at_AttemptNo b = at_AttemptNo a /\
  at_LeaseVersion b = at_LeaseVersion a /\ at_Operation b = at_Operation a /\ at_RequestHash b = at_RequestHash a /\
  at_DocumentHash b = at_DocumentHash a /\ (was_dispatched a -> was_dispatched b).

Lemma later_refl a : later a a.
Proof. by unfold later. Qed.

Lemma later_trans a b c : later a b -> later b c -> later a c.
Proof. unfold later. intros H1 H2. destruct_and! H1. destruct_and! H2. split_and!; try congruence. auto. Qed.

Lemma transition_later a b : at_ID b = at_ID a -> attempt_transition a b -> later a b.
Proof.
  intros Hid ((? & ? & ? & ? & ? & ? & ?) & Hs & _). unfold later. split_and!; try done. unfold was_dispatched.
  destruct Hs as [->|[[-> _]|[_ Hs]]]; [done|by intros Hx%list_elem_of_In; cbn in Hx; destruct_or! Hx|]. intros _.
  apply list_elem_of_In in Hs. apply list_elem_of_In. cbn in Hs |- *. tauto.
Qed.

(** The operations a deployment's row records as done. *)
Definition done_ops (p : Deployment) : gset Z := list_to_set (co_OpSeq <$> List.filter (fun e => OpDone (co_Outcome e)) (dp_CompletedOps p)).

(** completed_ops is only ever appended to, and rows of deployments stay. *)
Definition deploys_grow (d d' : DB) : Prop :=
  forall id p, db_Deployments d !! id = Some p -> exists p', db_Deployments d' !! id = Some p' /\ done_ops p ⊆ done_ops p'.

Lemma grow_same d d' : db_Deployments d' = db_Deployments d -> deploys_grow d d'.
Proof. intros E id p H. exists p. by rewrite E. Qed.

Lemma grow_alter d d' id g :
  db_Deployments d' = alter g id (db_Deployments d) -> (forall p, done_ops p ⊆ done_ops (g p)) -> deploys_grow d d'.
Proof.
  intros E Hg i p H. rewrite E. destruct (decide (i = id)) as [->|Hne].
  - exists (g p). by rewrite lookup_alter_eq, H.
  - exists p. by rewrite lookup_alter_ne.
Qed.

Lemma append_grows e p : done_ops p ⊆ done_ops (append_completed e p).
Proof. unfold done_ops. cbn. rewrite List.filter_app, fmap_app, list_to_set_app_L. set_solver. Qed.

Lemma append_done e p : OpDone (co_Outcome e) = true -> co_OpSeq e ∈ done_ops (append_completed e p).
Proof. intros H. unfold done_ops. cbn. rewrite List.filter_app, fmap_app, list_to_set_app_L. cbn. rewrite H. cbn. set_solver. Qed.

(** Documents are insert-once, attempts are never deleted. *)
Record db_later (d d' : DB) : Prop := {
  dl_deploys : deploys_grow d d';
  dl_keyed : keyed d -> keyed d';
  dl_rows : keyed d -> forall id a, db_Attempts d !! id = Some a -> exists b, db_Attempts d' !! id = Some b /\ later a b;
  dl_docs : db_Documents d ⊆ db_Documents d' }.

#[export] Instance db_later_preorder : PreOrder db_later.
Proof.
  split.
  - intros d. split; [by apply grow_same|done| |done]. intros _ id a H. exists a. split; [done|apply later_refl].
  - intros d e f [G1 K1 R1 D1] [G2 K2 R2 D2]. split; [|by auto| |by etrans].
    { intros id p H. destruct (G1 _ _ H) as (p1 & H1 & S1). destruct (G2 _ _ H1) as (p2 & H2 & S2). exists p2. split; [done|by etrans]. }
    intros K id a Ha. destruct (R1 K id a Ha) as (b & Hb & L1).
    destruct (R2 (K1 K) id b Hb) as (c & Hc & L2). exists c. split; [done|by eapply later_trans].
Qed.

Lemma same_later d d' : deploys_grow d d' -> db_Attempts d' = db_Attempts d -> db_Documents d ⊆ db_Documents d' -> db_later d d'.
Proof.
  intros G E D. split; [done|by unfold keyed; rewrite E| |done]. intros _ id a H. rewrite E. exists a. split; [done|apply later_refl].
Qed.

Lemma insert_later d d' id a :
  deploys_grow d d' -> db_Attempts d !! id = None -> at_ID a = id -> db_Attempts d' = <[id := a]> (db_Attempts d) -> db_Documents d' = db_Documents d -> db_later d d'.
Proof.
  intros G Hf Hid E D. split; [done| | |by rewrite D].
  - intros K i b. rewrite E, lookup_insert_Some. intros [[<- <-]|[_ H]]; [done|by apply K].
  - intros _ i b H. exists b. rewrite E, lookup_insert_ne by congruence. split; [done|apply later_refl].
Qed.

Lemma advance_later d d' i b c :
  deploys_grow d d' -> db_Attempts d !! i = Some b -> (keyed d -> at_ID b = i) -> advances b c -> db_Attempts d' = <[at_ID b := c]> (db_Attempts d) ->
  db_Documents d' = db_Documents d -> db_later d d'.
Proof.
  intros G Hb Hi (Hid & Htr & _) E D. split; [done| | |by rewrite D].
  - intros K j x. rewrite E, lookup_insert_Some. intros [[<- <-]|[_ H]]; [done|by apply K].
  - intros K j x H. rewrite E. destruct (decide (j = at_ID b)) as [->|Hne].
    + rewrite (Hi K), Hb in H. injection H as <-. exists c. split; [by rewrite lookup_insert_eq|by apply transition_later].
    + exists x. rewrite lookup_insert_ne by done. split; [done|apply later_refl].
Qed.

(** A transaction that leaves the history legal. *)
Definition legal {A} (fn : DB -> result (DB * A)) : Prop := forall d d' a, fn d = Ok (d', a) -> db_later d d'.

Lemma legal_InTx {A} f (fn : DB -> result (DB * A)) : legal fn -> legal (InTx f fn).
Proof. intros H d d' a [_ E]%InTx_Ok. by apply H in E. Qed.

Lemma legal_Prepare fresh now f req : legal (Prepare fresh now f req).
Proof.
  intros d d' a H. pose proof (Prepare_rows _ _ _ _ _ _ _ H) as (Hid & E & Hf & _). rewrite Hid in Hf.
  assert (deploys_grow d d' /\ db_Documents d' = db_Documents d) as [G D]; [|by eapply insert_later]. clear E Hf Hid. revert H. unfold Prepare. destruct (_ || _ || _); [done|]. intros [_ H]%InTx_Ok. cbv zeta in H.
  case_bool_decide as Hx; [done|]. destruct (negb _); [done|]. destruct (negb _ && negb _); [done|]. destruct (attempts_where _ _); [|done].
  injection H as <- _. split; [|done]. by eapply grow_alter.
Qed.

Lemma legal_Dispatch margin now f a : legal (Dispatch margin now f a).
Proof.
  intros d d' a' H. pose proof (Dispatch_rows _ _ _ _ _ _ _ H) as (b & Hb & Hs & -> & E).
  assert (deploys_grow d d' /\ db_Documents d' = db_Documents d) as [G D]; [|by eapply (advance_later _ _ _ b); [|exact Hb|intros K; apply K|apply dispatched_advances|..]].
  apply InTx_Ok in H as [_ H]. cbv zeta in H. destruct (match db_Jobs d !! fc_JobID f with Some _ => _ | None => _ end); [done|].
  destruct (row_in _ _ _ d); [|done]. injection H as <- _. split; [by apply grow_same|done].
Qed.

Lemma legal_Complete now f a ans : legal (Complete now f a ans).
Proof.
  intros d d' a' H. pose proof (Complete_rows _ _ _ _ _ _ _ H) as (b & Hb & Hs & Hk & E).
  assert (deploys_grow d d' /\ db_Documents d' = db_Documents d) as [G D]; [|by eapply (advance_later _ _ _ b); [|exact Hb|intros K; apply K|apply completed_advances|..]].
  revert H. unfold Complete. case_bool_decide as Hx; cbn [negb]; [|done]. intros [_ H]%InTx_Ok. destruct (row_in _ _ _ d); [|done].
  cbv zeta in H. injection H as <- _. split; [|by destruct (OpDone _)]. destruct (OpDone _); [eapply grow_alter; [done|apply append_grows]|by apply grow_same].
Qed.

Lemma markUnknown_docs window now a v reason d d' t : markUnknownTx window now a v reason d = Ok (d', t) -> deploys_grow d d' /\ db_Documents d' = db_Documents d.
Proof.
  unfold markUnknownTx. destruct (row_in _ _ _ d); [|done]. cbv zeta. intros [= <- _].
  destruct (match db_Deployments _ !! _ with Some _ => _ | None => _ end); [|split; [by apply grow_same|done]].
  split; [by eapply grow_alter|done].
Qed.

Lemma legal_markUnknown window now a v reason : legal (markUnknownTx window now a v reason).
Proof.
  intros d d' t H. pose proof (markUnknown_rows _ _ _ _ _ _ _ _ H) as (b & Hb & Hs & E).
  destruct (markUnknown_docs _ _ _ _ _ _ _ _ H) as [G D].
  eapply (advance_later _ _ _ b); [done|exact Hb|by intros K; apply K|by apply unknown_advances|done|done].
Qed.

Lemma legal_MarkUnknown window now f a reason : legal (MarkUnknown window now f a reason).
Proof. apply legal_InTx, legal_markUnknown. Qed.

Lemma legal_abandon now f a reason : legal (abandonOwnReason now f a reason).
Proof.
  intros d d' u H. pose proof (abandonOwn_rows _ _ _ _ _ _ _ H) as R.
  assert (deploys_grow d d' /\ db_Documents d' = db_Documents d) as [G D].
  { apply InTx_Ok in H as [_ H]. cbv zeta in H. injection H as <- _. by destruct (row_in _ _ _ d); split; try apply grow_same. }
  destruct R as [E|(b & Hb & Hs & E)]; [apply same_later; [done|done|by rewrite D]|].
  eapply (advance_later _ _ _ b); [done|exact Hb|by intros K; apply K|by apply abandoned_advances|done|done].
Qed.

Lemma legal_Recover window now f dep : legal (Recover window now f dep).
Proof.
  apply legal_InTx. intros d d' r H. pose proof (Recover_rows _ _ _ _ _ _ H) as R.
  assert (deploys_grow d d' /\ db_Documents d' = db_Documents d) as [G D].
  { revert H. unfold RecoverTx. destruct (open_attempts dep d) as [|att l]; [intros [= <- _]; split; [by apply grow_same|done]|].
    destruct (_ =? _)%string; [cbv zeta; intros [= <- _]; split; [by apply grow_same|done]|].
    destruct (_ =? _)%string; [|intros [= <- _]; split; [by apply grow_same|done]].
    intros ([d1 t] & H & [= <- _])%bind_Ok. by eapply markUnknown_docs. }
  destruct R as [E|(id & b & c & Hb & E & Hc)]; [apply same_later; [done|done|by rewrite D]|].
  eapply (advance_later _ _ id b); [done|exact Hb|by intros K; apply K| |done|done].
  destruct Hc as [[Hs ->]|(_ & Hs & ->)]; [by apply abandoned_advances|by apply unknown_advances].
Qed.

(** Transactions that touch neither attempts nor stored documents. *)
Lemma archive_later canonical hash d d' u : archiveDocumentTx canonical hash d = Ok (d', u) -> db_later d d' /\ is_Some (db_Documents d' !! hash).
Proof.
  unfold archiveDocumentTx. cbv zeta. destruct (db_Documents d !! hash) as [x|] eqn:E.
  - rewrite E. intros [= <- _]. split; [done|by rewrite E].
  - cbn. rewrite lookup_insert_eq. intros [= <- _]. split; [|by cbn; rewrite lookup_insert_eq]. apply same_later; [by apply grow_same|done|]. cbn. by apply insert_subseteq.
Qed.

Section Facts.
Context {W : Type} (en : env W) (cfg : settings) (fence : PolicyJobFence) (did : string).

(** What the tables enforce of other transactions. *)
Definition others_legal : Prop := forall w d, db_later d (en_Others en w d).1.2.

Context (Hothers : others_legal).

(** Rows under their keys, and the deployment's own row. *)
Definition good (d : DB) : Prop := keyed d /\ is_Some (db_Deployments d !! did).

(** The operations its row records as done. *)
Definition stored (d : DB) : gset Z := match db_Deployments d !! did with Some p => done_ops p | None => ∅ end.

Lemma good_later d d' : db_later d d' -> good d -> good d'.
Proof. intros L [K [p Hp]]. split; [by apply (dl_keyed _ _ L)|]. destruct (dl_deploys _ _ L _ _ Hp) as (p' & Hp' & _). by exists p'. Qed.

Lemma stored_later d d' : db_later d d' -> stored d ⊆ stored d'.
Proof.
  intros L. unfold stored. destruct (db_Deployments d !! did) as [p|] eqn:E; [|set_solver].
  destruct (dl_deploys _ _ L _ _ E) as (p' & -> & H). done.
Qed.

(** * Reasoning about a run *)

(** [Q] of a value, [E] of a stop or an error; the fuel lasts. *)
Definition wp {A} (m : X A) (Q : A -> xstate W -> Prop) (E : xstate W -> Prop) (s : xstate W) : Prop :=
  match m s with (s', XOk a) => Q a s' | (s', XFuel) => False | (s', _) => E s' end.

Lemma wp_mono {A} (m : X A) (Q Q' : A -> xstate W -> Prop) (E E' : xstate W -> Prop) s :
  wp m Q E s -> (forall a s', Q a s' -> Q' a s') -> (forall s', E s' -> E' s') -> wp m Q' E' s.
Proof. unfold wp. intros H HQ HE. destruct (m s) as [s' []]; auto. Qed.

Lemma wp_bind {A B} (m : X A) (k : A -> X B) Q E s : wp m (fun a s' => wp (k a) Q E s') E s -> wp (bind m k) Q E s.
Proof. unfold wp, bind. destruct (m s) as [s' []]; auto. Qed.

(** What a part of a run changes: the requests it sends satisfy [S], and an
    operation it marks completed has a record. *)
Definition entry : Type := Z * Request * DB.

Definition op_accounted (o : DeployOutcome) (k : Z) : Prop := exists r, r ∈ do_Ops o /\ dr_OpSeq r = k /\ OpDone (dr_Outcome r) = true.

Definition accounted (s : xstate W) (k : Z) : Prop := op_accounted (xs_Out s) k /\ k ∈ stored (xs_DB s).

Record changes (S : list entry -> Prop) (s s' : xstate W) : Prop := {
  ch_sent : exists l, xs_Sent s' = l ++ xs_Sent s /\ S l;
  ch_ops : exists l, do_Ops (xs_Out s') = do_Ops (xs_Out s) ++ l;
  ch_done : xs_Completed s ⊆ xs_Completed s';
  ch_accounted : forall k, k ∈ xs_Completed s' -> k ∈ xs_Completed s \/ accounted s' k;
  ch_db : db_later (xs_DB s) (xs_DB s');
  ch_keyed : good (xs_DB s') }.

(** Up to the readback nothing is reported applied. *)
Definition progress (S : list entry -> Prop) (s s' : xstate W) : Prop :=
  changes S s s' /\ (do_Result (xs_Out s) <> DeployApplied -> do_Result (xs_Out s') <> DeployApplied).

Definition nothing (l : list entry) : Prop := l = [].

Lemma changes_trans (S1 S2 S : list entry -> Prop) s1 s2 s3 :
  (forall l1 l2, S1 l1 -> S2 l2 -> S (l2 ++ l1)) -> changes S1 s1 s2 -> changes S2 s2 s3 -> changes S s1 s3.
Proof.
  intros HS [(l1 & E1 & H1) (o1 & O1) D1 A1 B1 K1] [(l2 & E2 & H2) (o2 & O2) D2 A2 B2 K2]. split.
  - exists (l2 ++ l1). rewrite E2, E1, app_assoc. auto.
  - exists (o1 ++ o2). by rewrite O2, O1, app_assoc.
  - by etrans.
  - intros k [Hk|Hk]%A2; [|by right]. apply A1 in Hk as [Hk|[(r & Hr & Hk) Hd]]; [by left|]. right. split; [|by eapply stored_later].
    exists r. split; [|done]. rewrite O2. apply elem_of_app. by left.
  - by etrans.
  - done.
Qed.

Lemma progress_trans (S1 S2 S : list entry -> Prop) s1 s2 s3 :
  (forall l1 l2, S1 l1 -> S2 l2 -> S (l2 ++ l1)) -> progress S1 s1 s2 -> progress S2 s2 s3 -> progress S s1 s3.
Proof. intros HS [C1 R1] [C2 R2]. split; [by eapply changes_trans|by auto]. Qed.

Lemma changes_mono (S S' : list entry -> Prop) s s' : (forall l, S l -> S' l) -> changes S s s' -> changes S' s s'.
Proof. intros HS [(l & E & H) ? ? ? ? ?]. split; try done. exists l. auto. Qed.

Lemma progress_mono (S S' : list entry -> Prop) s s' : (forall l, S l -> S' l) -> progress S s s' -> progress S' s s'.
Proof. intros HS [C R]. split; [by eapply changes_mono|done]. Qed.

(** Only the world, the database, the flags and parts of the outcome move. *)
Lemma quiet_progress s s' :
  good (xs_DB s) -> db_later (xs_DB s) (xs_DB s') -> xs_Sent s' = xs_Sent s -> xs_Completed s' = xs_Completed s ->
  do_Ops (xs_Out s') = do_Ops (xs_Out s) -> (do_Result (xs_Out s) <> DeployApplied -> do_Result (xs_Out s') <> DeployApplied) ->
  progress nothing s s'.
Proof.
  intros K B E1 E2 E3 R. split; [|done]. split; try done.
  - exists []. by rewrite E1.
  - exists []. by rewrite E3, app_nil_r.
  - by rewrite E2.
  - rewrite E2. by left.
  - by eapply good_later.
Qed.

Lemma progress_keyed S s s' : progress S s s' -> good (xs_DB s').
Proof. by intros [[] _]. Qed.

Lemma progress_refl s : good (xs_DB s) -> progress nothing s s.
Proof. intros K. by apply quiet_progress. Qed.

Definition does {A} (S : list entry -> Prop) (m : X A) : Prop :=
  forall s, good (xs_DB s) -> wp m (fun _ => progress S s) (progress S s) s.

Abbreviation quiet := (does nothing).

Lemma does_mono {A} (S S' : list entry -> Prop) (m : X A) : does S m -> (forall l, S l -> S' l) -> does S' m.
Proof. intros H HS s K. eapply wp_mono; [by apply H| |]; intros; by eapply progress_mono. Qed.

Lemma does_bind {A B} (S1 S2 S : list entry -> Prop) (m : X A) (k : A -> X B) :
  does S1 m -> (forall a, does S2 (k a)) -> (forall l, S1 l -> S l) -> (forall l1 l2, S1 l1 -> S2 l2 -> S (l2 ++ l1)) -> does S (bind m k).
Proof.
  intros Hm Hk H1 H2 s K. apply wp_bind. eapply wp_mono; [by apply Hm| |].
  - intros a s' P. eapply wp_mono; [by apply Hk, (progress_keyed _ _ _ P)| |]; intros; (eapply progress_trans; [exact H2|exact P|done]).
  - intros s' P. by eapply progress_mono.
Qed.

Lemma quiet_bind {A B} (m : X A) (k : A -> X B) : quiet m -> (forall a, quiet (k a)) -> quiet (bind m k).
Proof. intros Hm Hk. eapply does_bind; [exact Hm|exact Hk|done|]. by intros ? ? -> ->. Qed.

Lemma after_quiet {A B} S (m : X A) (k : A -> X B) : quiet m -> (forall a, does S (k a)) -> S [] -> does S (bind m k).
Proof. intros Hm Hk H0. eapply does_bind; [exact Hm|exact Hk|by intros ? ->|]. intros l1 l2 -> H. by rewrite app_nil_r. Qed.

Lemma wp_quiet {A B} (m : X A) (k : A -> X B) Q E s :
  quiet m -> good (xs_DB s) ->
  (forall a s', progress nothing s s' -> wp (k a) Q E s') -> (forall s', progress nothing s s' -> E s') -> wp (bind m k) Q E s.
Proof. intros Hm K HQ HE. apply wp_bind. eapply wp_mono; [by apply Hm|auto|auto]. Qed.

(** ** The primitives *)

Lemma q_ret {A} (a : A) : quiet (ret a).
Proof. intros s K. by apply progress_refl. Qed.
Lemma q_fail {A} e : quiet (@fail W A e).
Proof. intros s K. by apply progress_refl. Qed.
Lemma q_get {A} (f : xstate W -> A) : quiet (get f).
Proof. intros s K. by apply progress_refl. Qed.
Lemma q_lift {A} (r : result A) : quiet (lift (W := W) r).
Proof. intros s K. destruct r; by apply progress_refl. Qed.
Lemma q_world {A} (f : W -> W * A) : quiet (world f).
Proof. intros s K. unfold wp, world. destruct (f (xs_W s)) as [w a]. by apply quiet_progress. Qed.
Lemma q_turn : quiet (turn en).
Proof.
  intros s K. unfold wp, turn. pose proof (Hothers (xs_W s) (xs_DB s)) as H. destruct (en_Others en (xs_W s) (xs_DB s)) as [[w d] e].
  by apply quiet_progress.
Qed.
Lemma q_flags i a : quiet (set_flags (W := W) i a).
Proof. intros s K. by apply quiet_progress. Qed.
Lemma q_out g : (forall o, do_Ops (g o) = do_Ops o) -> (forall o, do_Result o <> DeployApplied -> do_Result (g o) <> DeployApplied) -> quiet (out (W := W) g).
Proof. intros H1 H2 s K. apply quiet_progress; cbn; auto. done. Qed.

Lemma q_stop {A} r reason : r <> DeployApplied -> quiet (@stop W A r reason).
Proof. intros H. apply quiet_bind; [by apply q_out|]. intros _ s K. by apply progress_refl. Qed.

Lemma q_try_tx {A} (fn : DB -> result (DB * A)) : legal fn -> quiet (try_tx en fn).
Proof.
  intros L. apply quiet_bind; [apply q_turn|]. intros [e|]; [apply q_ret|]. intros s K. unfold wp.
  destruct (fn (xs_DB s)) as [[d a]|e] eqn:E; [|by apply progress_refl]. apply quiet_progress; try done. by apply L in E.
Qed.

(** ** Parts that send nothing *)

Create HintDb quiet.
#[local] Hint Resolve q_ret q_fail q_get q_lift q_world q_turn q_flags q_try_tx legal_InTx legal_Prepare legal_Dispatch legal_Complete legal_MarkUnknown legal_abandon legal_Recover : quiet.
#[local] Hint Extern 5 (does nothing (stop _ _)) => apply q_stop; by repeat case_match : quiet.
#[local] Hint Extern 5 (does nothing (out _)) => apply q_out; by repeat intro : quiet.

(** Follows the binds, splits the cases, and closes each leaf with the database. *)
Ltac quietly :=
  repeat match goal with
         | |- does nothing (bind _ _) => apply quiet_bind; [|intros ?]
         | |- does nothing (match ?x with _ => _ end) => destruct x
         end;
  eauto with quiet.

Lemma q_tx {A} (fn : DB -> result (DB * A)) : legal fn -> quiet (tx en fn).
Proof. intros L. unfold tx. quietly. Qed.

Lemma q_query {A} (f : DB -> A) : quiet (query en f).
Proof. unfold query. quietly. Qed.

Lemma q_now : quiet (now en).
Proof. apply q_world. Qed.

Lemma q_fresh : quiet (fresh en).
Proof. apply q_world. Qed.

#[local] Hint Resolve q_tx q_query q_now q_fresh : quiet.

Lemma legal_jobs {A} (fn : DB -> result A) (g : A -> DB -> DB) :
  (forall a d, db_Attempts (g a d) = db_Attempts d /\ db_Documents (g a d) = db_Documents d /\ db_Deployments (g a d) = db_Deployments d) ->
  legal (fun d => a ← fn d; Ok (g a d, tt)).
Proof. intros H d d' u (a & _ & [= <- _])%bind_Ok. destruct (H a d) as (E & D & P). apply same_later; [by apply grow_same|done|by rewrite D]. Qed.

Lemma q_External {A} (call : X A) : quiet call -> quiet (External en cfg fence call).
Proof.
  intros Hc. unfold External. quietly.
  - apply q_try_tx, (legal_jobs _ (fun t d => set_Jobs t d)). done.
  - apply q_try_tx, (legal_jobs _ (fun _ d => d)). done.
Qed.

#[local] Hint Resolve q_External : quiet.

Lemma q_accessStop {A} r : quiet (@accessStop W A r).
Proof. unfold accessStop. quietly. Qed.

#[local] Hint Resolve q_accessStop : quiet.

Lemma q_discovery : quiet (discovery en).
Proof. unfold discovery. quietly. Qed.

Lemma q_enforcement : quiet (enforcement en cfg fence).
Proof. unfold enforcement. quietly. Qed.

Lemma q_fenced_read {A} (call : X (result A)) : quiet call -> quiet (fenced_read en cfg fence call).
Proof. intros Hc. unfold fenced_read, read_failed. quietly. Qed.

Lemma q_log e : quiet (log (W := W) e).
Proof. intros s K. by apply quiet_progress. Qed.

#[local] Hint Resolve q_log : quiet.

Lemma q_live_read plan role : quiet (live_read en plan role).
Proof. unfold live_read. quietly. Qed.

#[local] Hint Resolve q_live_read : quiet.

#[local] Hint Resolve q_discovery q_enforcement q_fenced_read : quiet.

Lemma q_read plan role : quiet (read en cfg fence plan role).
Proof. unfold read. quietly. Qed.

#[local] Hint Resolve q_read : quiet.

Lemma q_classify plan role : quiet (classify en cfg fence plan role).
Proof. unfold classify. quietly. Qed.

Lemma q_notVisible {A} dep k cl : quiet (@notVisible W en cfg dep A k cl).
Proof. unfold notVisible. quietly. Qed.

Lemma q_sleep : quiet (sleep en).
Proof. unfold sleep. quietly. Qed.

#[local] Hint Resolve q_classify q_notVisible q_sleep : quiet.

(** Transactions with their results. *)
Lemma nothing_trans s1 s2 s3 : progress nothing s1 s2 -> progress nothing s2 s3 -> progress nothing s1 s3.
Proof. apply progress_trans. by intros ? ? -> ->. Qed.

Lemma progress_pre S s1 s2 s3 : progress nothing s1 s2 -> progress S s2 s3 -> progress S s1 s3.
Proof. apply progress_trans. intros ? ? -> ?. by rewrite app_nil_r. Qed.

Lemma progress_post S s1 s2 s3 : progress S s1 s2 -> progress nothing s2 s3 -> progress S s1 s3.
Proof. apply progress_trans. by intros ? ? ? ->. Qed.

Lemma progress_none S s1 s2 : S [] -> progress nothing s1 s2 -> progress S s1 s2.
Proof. intros H. apply progress_mono. by intros ? ->. Qed.

Lemma wp_try_tx {A} (fn : DB -> result (DB * A)) Q E s :
  legal fn -> good (xs_DB s) ->
  (forall s' d a, progress nothing s s' -> progress nothing s (set_DB d s') -> fn (xs_DB s') = Ok (d, a) -> Q (Ok a) (set_DB d s')) ->
  (forall s' e, progress nothing s s' -> Q (Err e) s') -> wp (try_tx en fn) Q E s.
Proof.
  intros L K HQ HE. unfold wp, try_tx, bind. pose proof (q_turn s K) as H. unfold wp in H. unfold turn in *.
  destruct (en_Others en (xs_W s) (xs_DB s)) as [[w d] e] eqn:Eo. cbn in H |- *. destruct e as [e|]; [by apply HE|]. cbn.
  destruct (fn d) as [[d' a]|e] eqn:E1; [|by apply HE].
  apply (HQ (set_DB d (set_W w s)) d' a); [done| |done]. eapply nothing_trans; [exact H|].
  apply quiet_progress; try done; [by apply (progress_keyed _ _ _ H)|]. by apply L in E1.
Qed.

Lemma wp_tx {A} (fn : DB -> result (DB * A)) Q E s :
  legal fn -> good (xs_DB s) ->
  (forall s' d a, progress nothing s s' -> progress nothing s (set_DB d s') -> fn (xs_DB s') = Ok (d, a) -> Q a (set_DB d s')) ->
  (forall s', progress nothing s s' -> E s') -> wp (tx en fn) Q E s.
Proof.
  intros L K HQ HE. unfold tx. apply wp_bind, wp_try_tx; [done|done| |].
  - intros s' d a P P' E1. by apply (HQ s' d a).
  - intros s' e P. by apply HE.
Qed.

Lemma wp_query {A} (f : DB -> A) Q E s :
  good (xs_DB s) -> (forall s', progress nothing s s' -> Q (f (xs_DB s')) s') -> (forall s', progress nothing s s' -> E s') -> wp (query en f) Q E s.
Proof. intros K HQ HE. unfold query. eapply wp_quiet; [apply q_turn|done| |done]. intros [e|] s1 P1; [by apply HE|by apply HQ]. Qed.

Section Plan_run.
Context (dep : Deployment) (plan : Plan) (ctl : Control) (role : string) (Hdid : dp_ID dep = did).

(** ** Completed operations *)

Lemma wp_appendCompleted r s :
  good (xs_DB s) -> OpDone (dr_Outcome r) = true ->
  wp (appendCompleted en fence dep r) (fun _ s' => progress nothing s s' /\ dr_OpSeq r ∈ stored (xs_DB s')) (progress nothing s) s.
Proof.
  intros K Ho. unfold appendCompleted. apply wp_tx; [|done| |done].
  - apply legal_InTx. intros d d' u. cbv zeta. intros [= <- _]. apply same_later; [|done|done]. eapply grow_alter; [done|]. intros p. apply append_grows.
  - intros s' d [] P P' [_ H]%InTx_Ok. split; [done|]. cbv zeta in H. injection H as <-. destruct P as [[_ _ _ _ _ [_ [p Hp]]] _].
    unfold stored. cbn. rewrite Hdid, lookup_alter_eq, Hp. cbn. by apply append_done.
Qed.

(** An operation is marked together with its record. *)
Lemma wp_mark j r s :
  good (xs_DB s) -> dr_OpSeq r = j -> OpDone (dr_Outcome r) = true -> j ∈ stored (xs_DB s) ->
  wp (bind (complete j) (fun _ => out (add_op r))) (fun _ s' => progress nothing s s' /\ j ∈ xs_Completed s') (fun _ => False) s.
Proof.
  intros K Hj Ho Hs. unfold wp. cbn. split; [|set_solver]. split; [|done]. split; cbn; try done.
  - by exists [].
  - by exists [r].
  - set_solver.
  - intros k [->%elem_of_singleton|Hk]%elem_of_union; [|by left]. right. split; [|done].
    exists r. split_and!; [|done|done]. cbn. apply elem_of_app. right. by left.
Qed.

Lemma wp_recognise ops : forall j k s, good (xs_DB s) ->
  wp (recognise en fence dep j ops k)
    (fun _ s' => progress nothing s s' /\ forall i, j <= i < k -> i < j + Z.of_nat (length ops) -> i ∈ xs_Completed s') (progress nothing s) s.
Proof.
  induction ops as [|op ops IH]; intros j k s K; cbn [recognise].
  { split; [by apply progress_refl|]. cbn [length]. lia. }
  destruct (j <? k) eqn:Ejk; cbn [negb]; [|apply Z.ltb_ge in Ejk; split; [by apply progress_refl|lia]].
  apply wp_bind. unfold wp at 1, get. apply wp_bind.
  apply (wp_mono _ (fun _ s' => progress nothing s s' /\ j ∈ xs_Completed s') _ (progress nothing s)); [|intros _ s1 [P Hj]|by auto].
  - case_bool_decide as Hd; [split; [by apply progress_refl|done]|]. eapply wp_quiet; [apply q_query|done| |by auto]. intros att s1 P1.
    apply wp_bind. eapply wp_mono; [apply wp_appendCompleted; [by eapply progress_keyed|done]| |intros; by eapply nothing_trans]. intros _ s2 [P2 Hj].
    eapply wp_mono; [by apply wp_mark; [eapply progress_keyed|..]| |done]. intros _ s3 [P3 Hc].
    split; [by do 2 (eapply nothing_trans; [done|])|done].
  - eapply wp_mono; [apply IH; by eapply progress_keyed| |intros; by eapply nothing_trans]. intros _ s2 [P2 H2].
    split; [by eapply nothing_trans|]. intros i Hi Hl. cbn [length] in Hl. destruct (decide (i = j)) as [->|Hne]; [by apply P2|]. apply H2; lia.
Qed.

(** ** One request *)

Definition for_request (q : AttemptRequest) (a : Attempt) : Prop :=
  at_DeploymentID a = aq_DeploymentID q /\ at_OpSeq a = aq_OpSeq q /\ at_Operation a = aq_Operation q /\ at_RequestHash a = aq_RequestHash q /\
  at_LeaseVersion a = fc_Version fence /\ at_DocumentHash a = (if is_empty (aq_DocumentHash q) then None else Some (aq_DocumentHash q)).

Lemma for_request_later q a b : later a b -> for_request q a -> for_request q b.
Proof. unfold later, for_request. intros H1 H2. destruct_and! H1. destruct_and! H2. split_and!; congruence. Qed.

(** The attempt [id] is this request's; the document it names is archived. *)
Definition holds_request (q : AttemptRequest) (id : string) (P : Attempt -> Prop) (d : DB) : Prop :=
  (exists a, db_Attempts d !! id = Some a /\ for_request q a /\ P a) /\
  (aq_DocumentHash q <> "" -> is_Some (db_Documents d !! aq_DocumentHash q)).

Lemma holds_request_later q id (P : Attempt -> Prop) d d' :
  db_later d d' -> good d -> (forall a b, later a b -> P a -> P b) -> holds_request q id P d -> holds_request q id P d'.
Proof.
  intros L K HP [(a & Ha & Hr & HPa) Hdoc]. destruct (dl_rows _ _ L (proj1 K) _ _ Ha) as (b & Hb & Hl). split.
  - exists b. split_and!; [done|by eapply for_request_later|by eauto].
  - intros Hne. destruct (Hdoc Hne) as [x Hx]. exists x. eapply lookup_weaken; [exact Hx|apply L].
Qed.

Lemma later_dispatched a b : later a b -> was_dispatched a -> was_dispatched b.
Proof. unfold later. intros H. by destruct_and! H. Qed.

Lemma Prepare_request id t q d d' a : Prepare id t fence q d = Ok (d', a) -> at_ID a = id /\ holds_request q id (fun _ => True) d'.
Proof.
  unfold Prepare. destruct (_ || _ || _); [done|]. intros [_ H]%InTx_Ok. cbv zeta in H. case_bool_decide as Hx; [done|].
  destruct (negb _); [done|]. destruct (negb (is_empty (aq_DocumentHash q)) && _) eqn:Ed; [done|]. destruct (attempts_where _ _); [|done].
  injection H as <- <-. split; [done|]. split.
  - eexists. split; [apply lookup_insert_eq|done].
  - intros Hne. cbn. destruct (is_empty (aq_DocumentHash q)) eqn:Ee; [by apply is_empty_true in Ee|]. cbn in Ed.
    by apply negb_false_iff, bool_decide_eq_true in Ed.
Qed.

Lemma Dispatch_request margin t q a d d' a' :
  good d -> Dispatch margin t fence a d = Ok (d', a') -> holds_request q (at_ID a) (fun _ => True) d ->
  for_request q a' /\ holds_request q (at_ID a) was_dispatched d'.
Proof.
  intros K H Hold. pose proof (Dispatch_rows _ _ _ _ _ _ _ H) as (b & Hb & Hs & -> & E).
  assert (holds_request q (at_ID a) (fun _ => True) d') as [(c & Hc & Hr & _) Hdoc].
  { eapply holds_request_later; [by eapply legal_Dispatch|done|done|done]. }
  pose proof (proj1 K _ _ Hb) as Hid. rewrite E in Hc. cbn in Hc. rewrite Hid, lookup_insert_eq in Hc. injection Hc as <-.
  split; [done|]. split; [|done]. eexists. rewrite E. cbn. rewrite Hid, lookup_insert_eq. split_and!; [done|done|]. unfold was_dispatched. cbn. set_solver.
Qed.

Definition recorded (k : Z) (req : Request) (docHash : string) (d : DB) : Prop :=
  exists hash id, Request_Hash req = Ok hash /\
    holds_request {| aq_DeploymentID := dp_ID dep; aq_OpSeq := k; aq_Operation := rq_Op req; aq_RequestHash := hash; aq_DocumentHash := docHash |}
      id was_dispatched d.

(** At most this request, recorded first. *)
Definition one_request (k : Z) (req : Request) (docHash : string) (l : list entry) : Prop :=
  l = [] \/ exists d, l = [(k, req, d)] /\ recorded k req docHash d.

Lemma does_call k req doc docHash s :
  good (xs_DB s) -> recorded k req docHash (xs_DB s) ->
  wp (call en plan role k req doc) (fun _ => progress (one_request k req docHash) s) (progress (one_request k req docHash) s) s.
Proof.
  intros K (hash & id & Hh & Hr). unfold call. eapply wp_quiet; [apply q_turn|done| |].
  2: { intros s' P. apply progress_none; [by left|done]. }
  intros _ s1 P1. apply wp_bind. unfold wp at 1, record_sent.
  set (s2 := Build_xstate _ _ _ _ _ _ _ _). assert (progress (one_request k req docHash) s s2) as P2.
  { eapply (progress_trans nothing (fun l => l = [(k, req, xs_DB s1)])); [|exact P1|].
    2: { split; [|done]. split; [exists [(k, req, xs_DB s1)]; done|exists []; by rewrite app_nil_r|done|by left|done|by apply (progress_keyed _ _ _ P1)]. }
    intros l1 l2 -> ->. right. exists (xs_DB s1). split; [done|]. exists hash, id. split; [done|].
    eapply holds_request_later; [apply P1|done|by apply later_dispatched|done]. }
  assert (good (xs_DB s2)) as K2 by (by eapply progress_keyed).
  assert (forall m : X ((AttemptAnswer * string) + string), quiet m -> wp m (fun _ => progress (one_request k req docHash) s)
            (progress (one_request k req docHash) s) s2) as Hq.
  { intros m Hm. eapply wp_mono; [by apply Hm|cbn|cbn]; intros; by eapply progress_post. }
  apply Hq. quietly.
Qed.

Lemma wp_after {A} S s s1 (m : X A) : progress S s s1 -> quiet m -> wp m (fun _ => progress S s) (progress S s) s1.
Proof. intros P Hm. eapply wp_mono; [by apply Hm; eapply progress_keyed|cbn|cbn]; intros; by eapply progress_post. Qed.

Lemma Complete_stores t q a ans d d' a' :
  Complete t fence a ans d = Ok (d', a') -> for_request q a -> aq_DeploymentID q = did -> OpDone (an_Outcome ans) = true -> good d ->
  aq_OpSeq q ∈ stored d'.
Proof.
  intros H (Hd & Hk & _) Hq Ho [_ [p Hp]]. revert H. unfold Complete. destruct (negb _); [done|]. intros [_ H]%InTx_Ok.
  destruct (row_in _ _ _ d) as [b|]; [|done]. cbv zeta in H. rewrite Ho in H. injection H as <- _. unfold stored. cbn.
  rewrite Hd, Hq, lookup_alter_eq, Hp. cbn. rewrite <- Hk. by apply (append_done {| co_OpSeq := at_OpSeq a |}).
Qed.

Lemma does_ExecuteChecked k req doc docHash hash :
  Request_Hash req = Ok hash ->
  let q := {| aq_DeploymentID := dp_ID dep; aq_OpSeq := k; aq_Operation := rq_Op req; aq_RequestHash := hash; aq_DocumentHash := docHash |} in
  forall s, good (xs_DB s) ->
  wp (ExecuteChecked en cfg fence q (world (en_Binding en)) (call en plan role k req doc))
    (fun r s' => progress (one_request k req docHash) s s' /\
       match r with Answered _ ans _ => OpDone (an_Outcome ans) = true -> k ∈ stored (xs_DB s') | _ => True end)
    (progress (one_request k req docHash) s) s.
Proof.
  intros Hh q s K. unfold ExecuteChecked. assert (one_request k req docHash []) as H0 by by left.
  eapply wp_quiet; [apply q_fresh|done| |intros; by apply progress_none]. intros id s1 P1.
  eapply wp_quiet; [apply q_now|by eapply progress_keyed| |intros; by apply progress_none; [|eapply nothing_trans]]. intros t s2 P2.
  apply wp_bind, wp_tx; [apply legal_Prepare|by eapply progress_keyed| |intros; by apply progress_none; [|do 2 (eapply nothing_trans; [done|])]].
  intros s3 d3 att _ P3 HP. apply Prepare_request in HP as [Hid HP].
  eapply wp_quiet; [apply q_world|by eapply progress_keyed| |intros; by apply progress_none; [|do 3 (eapply nothing_trans; [done|])]].
  intros refused s4 P4. assert (progress nothing s s4) as P by (by do 3 (eapply nothing_trans; [done|])).
  destruct refused as [r|].
  { eapply wp_quiet; [apply q_now|by eapply progress_keyed| |intros; by apply progress_none; [|eapply nothing_trans]]. intros t' s5 P5.
    eapply wp_quiet; [apply q_try_tx, legal_abandon|by eapply progress_keyed| |intros; by apply progress_none; [|do 2 (eapply nothing_trans; [done|])]].
    intros a s6 P6. assert (progress (one_request k req docHash) s s6) by (by apply progress_none; [|do 2 (eapply nothing_trans; [done|])]).
    by destruct a; [split|]. }
  eapply wp_quiet; [apply q_now|by eapply progress_keyed| |intros; by apply progress_none; [|eapply nothing_trans]]. intros t' s5 P5.
  assert (holds_request q id (fun _ => True) (xs_DB s5)) as H5.
  { eapply holds_request_later; [apply (nothing_trans _ _ _ P4 P5)|by eapply progress_keyed|done|done]. }
  apply wp_bind, wp_try_tx; [apply legal_Dispatch|by eapply progress_keyed| |].
  2: { intros s6 e P6. assert (progress nothing s s6) as P7 by (by do 2 (eapply nothing_trans; [done|])).
       case_bool_decide; [|by apply progress_none]. unfold abandonOwn.
       eapply wp_quiet; [quietly|by eapply progress_keyed| |intros; by apply progress_none; [|eapply nothing_trans]].
       intros a s8 P8. destruct a; by apply progress_none; [|eapply nothing_trans]. }
  intros s6 d6 a6 P6 P6' HD. apply (Dispatch_request _ _ q) in HD as [Hr6 HD]; [|by eapply progress_keyed|].
  2: { rewrite Hid. eapply holds_request_later; [apply P6|by eapply progress_keyed|done|done]. }
  assert (progress nothing s (set_DB d6 s6)) as P7 by (by do 2 (eapply nothing_trans; [done|])).
  apply wp_bind. eapply wp_mono; [apply does_call; [by eapply progress_keyed|]|cbn|cbn; intros; by eapply progress_pre].
  { exists hash, (at_ID att). split; [done|exact HD]. }
  intros rep s7 P8. apply (progress_pre _ _ _ _ P7) in P8.
  apply wp_bind. eapply wp_mono; [by apply (wp_after _ _ _ _ P8), q_world| |by auto]. intros timeout s8 P9.
  destruct (if timeout : bool then _ else _) as [[ans note]|text]; (apply wp_bind; eapply wp_mono; [by apply (wp_after _ _ _ _ P9), q_now| |by auto]); intros t8 s9 P10; cbv beta in P9, P10.
  - apply wp_bind, wp_tx; [apply legal_Complete|by eapply progress_keyed| |intros; by eapply progress_post]. intros s10 d10 a10 P11 P11' HC.
    split; [by eapply progress_post|]. intros Hdone. apply (Complete_stores _ q _ _ _ _ _ HC Hr6 Hdid Hdone), (progress_keyed _ _ _ P11).
  - apply wp_bind, wp_tx; [apply legal_MarkUnknown|by eapply progress_keyed| |intros; by eapply progress_post]. intros s10 d10 a10 P11 P11' _.
    split; [by eapply progress_post|done].
Qed.

Lemma q_add_op r : quiet (out (W := W) (add_op r)).
Proof.
  intros s K. split; [|done]. split; cbn; try done.
  - by exists [].
  - by exists [r].
  - by left.
Qed.

#[local] Hint Resolve q_add_op : quiet.

Lemma wp_stop {A} S s s1 r reason Q : progress S s s1 -> r <> DeployApplied -> wp (@stop W A r reason) Q (progress S s) s1.
Proof.
  intros P H. pose proof (wp_after _ _ _ _ P (q_stop (A := A) r reason H)) as H1. done.
Qed.

Lemma wp_add_op S s s1 r E :
  progress S s s1 -> wp (out (add_op r)) (fun _ s' => progress S s s' /\ r ∈ do_Ops (xs_Out s') /\ xs_DB s' = xs_DB s1) E s1.
Proof.
  intros P. pose proof (wp_after _ _ _ _ P (q_add_op r)) as H. unfold wp, out in *. split; [done|]. split; [|done]. cbn. apply elem_of_app. right. by left.
Qed.

Lemma does_attempt k req doc docHash s :
  good (xs_DB s) ->
  wp (attempt en cfg fence dep plan role k req doc docHash)
    (fun _ s' => progress (one_request k req docHash) s s' /\ accounted s' k) (progress (one_request k req docHash) s) s.
Proof.
  intros K. unfold attempt. assert (one_request k req docHash []) as H0 by by left.
  eapply wp_quiet; [apply q_now|done| |intros; by apply progress_none]. intros t s1 P1.
  eapply wp_quiet; [apply q_query|by eapply progress_keyed| |intros; by apply progress_none; [|eapply nothing_trans]]. intros retryable s2 P2.
  assert (progress nothing s s2) as P by (by eapply nothing_trans).
  destruct (_ <=? _); [by apply wp_stop; [apply progress_none|]|].
  apply wp_bind. unfold wp at 1, lift. destruct (Request_Hash req) as [hash|e] eqn:Eh; [|by apply progress_none].
  apply wp_bind. eapply wp_mono; [by eapply does_ExecuteChecked; [|eapply progress_keyed]| |intros; by eapply progress_pre].
  intros res s3 [P3 Hst]. assert (progress (one_request k req docHash) s s3) as P4 by (by eapply progress_pre).
  assert (forall m : X (W := W) unit, quiet m -> (forall s' a, m s3 <> (s', XOk a)) -> wp m (fun _ s' => progress (one_request k req docHash) s s' /\
    accounted s' k) (progress (one_request k req docHash) s) s3) as Hstop.
  { intros m Hm Hne. pose proof (wp_after _ _ _ m P4 Hm) as H. unfold wp in H |- *. destruct (m s3) as [s' []] eqn:E; try done. by destruct (Hne s' a). }
  destruct res as [a ans note|a settle text|r].
  - apply wp_bind. eapply wp_mono; [by apply (wp_add_op _ _ _ _ (progress (one_request k req docHash) s) P4)| |by auto]. intros _ s4 (P5 & Hr & Hdb).
    destruct (OpDone (an_Outcome ans)) eqn:Eo.
    { split; [done|]. split; [by eexists|]. rewrite Hdb. by apply Hst. } destruct (_ =? _)%string; [|by apply wp_stop; [|case_match]].
    apply wp_bind. eapply wp_mono; [by apply (wp_after _ _ _ _ P5), q_world| |by auto]. intros b s5 P6.
    apply wp_bind. eapply wp_mono; [apply (wp_after _ _ _ _ P6); quietly| |by auto]. intros ? s6 P7. by apply wp_stop.
  - apply Hstop; [quietly|done].
  - apply Hstop; [unfold bindingStop; quietly|]. by destruct r.
Qed.

(** ** The ledger and the archive *)

Definition ledger_only {A} (fn : DB -> result (DB * A)) : Prop :=
  forall d d' a, fn d = Ok (d', a) -> db_Attempts d' = db_Attempts d /\ db_Documents d' = db_Documents d /\ db_Deployments d' = db_Deployments d.

Lemma ledger_only_legal {A} (fn : DB -> result (DB * A)) : ledger_only fn -> legal fn.
Proof. intros H d d' a E. apply H in E as (E & D & G). apply same_later; [by apply grow_same|done|by rewrite D]. Qed.

Lemma insert_missing_only id kind arn h : ledger_only (insert_missing dep plan ctl id kind arn h).
Proof.
  intros d d' w. unfold insert_missing. destruct (liveLedgerRow _ _ _); [by intros [= <- _]|].
  intros (d1 & H & [= <- _])%bind_Ok. revert H. unfold insertArtifact. cbv zeta. case_bool_decide; [done|]. destruct (negb _); [done|]. by intros [= <-].
Qed.

Lemma q_markIntended : quiet (markIntended en fence dep plan ctl).
Proof.
  unfold markIntended. quietly. apply q_tx, legal_InTx, ledger_only_legal. intros d d' u.
  intros ([d1 w1] & H1 & ([d2 w2] & H2 & H3)%bind_Ok)%bind_Ok. apply insert_missing_only in H1 as (E1 & D1 & G1). apply insert_missing_only in H2 as (E2 & D2 & G2).
  cbn in H3. destruct (w1 ++ w2); injection H3 as <- _; cbn; split_and!; congruence.
Qed.

Lemma ledger_set_only id t hash kind arn to doc version : ledger_only (ledger_set dep plan ctl id t hash kind arn to doc version).
Proof.
  intros d d' c. unfold ledger_set. cbv zeta. intros H. repeat case_match; try done; injection H as <- _; done.
Qed.

#[local] Hint Resolve q_markIntended q_enforcement : quiet.

Lemma wp_archive text s :
  good (xs_DB s) ->
  wp (archive en fence text)
    (fun r s' => progress nothing s s' /\ forall h, r = Ok h -> exists c, CanonicalDocument text = Ok (c, h) /\ is_Some (db_Documents (xs_DB s') !! h))
    (progress nothing s) s.
Proof.
  intros K. unfold archive. destruct (CanonicalDocument text) as [[c h]|e]; [|split; [by apply progress_refl|done]].
  apply wp_bind, wp_try_tx; [|done| |].
  - apply legal_InTx. intros d d' u H. by apply archive_later in H as [].
  - intros s' d [] _ P [_ H]%InTx_Ok. split; [done|]. intros h' [= <-]. exists c. split; [done|]. by apply archive_later in H as [].
  - intros s' e P. split; [done|]. by intros h' [=].
Qed.

(** ** One operation *)

(** A version a selector may choose: listed, not the default, its document read. *)
Definition deletable (arn version text : string) : Prop :=
  (exists w vs v, (ListPolicyVersions (en_Disc en) arn w).2 = inl vs /\ v ∈ vs /\ vi_VersionID v = version /\ vi_IsDefault v = false) /\
  exists w, (GetPolicyVersion (en_Disc en) arn version w).2 = inl text.

Lemma choose_versions_listed op versions chosen v :
  choose_versions op versions = Ok chosen -> v ∈ chosen -> v ∈ versions /\ vi_IsDefault v = false.
Proof.
  unfold choose_versions. set (l := sort_slice _ _). intros H Hv. assert (v ∈ l) as Hl.
  { destruct (_ =? _)%string; [destruct (_ && _); injection H as <-; [by apply not_elem_of_nil in Hv|by apply subseteq_take in Hv]|].
    destruct (_ =? _)%string; [by injection H as <-|done]. }
  apply elem_of_sort_slice, elem_of_filter_b in Hl as [Hv' Hd]. split; [done|]. by apply negb_true_iff in Hd.
Qed.

Lemma read_versions_read arn vs : forall w w' out v,
  read_versions (en_Disc en) arn vs w = (w', Ok out) -> v ∈ out ->
  (exists i, i ∈ vs /\ vi_VersionID i = vd_VersionID v) /\ exists w, (GetPolicyVersion (en_Disc en) arn (vd_VersionID v) w).2 = inl (vd_Document v).
Proof.
  induction vs as [|i vs IH]; intros w w' out v; cbn; [intros [= <- <-]; by intros ?%not_elem_of_nil|]. unfold io_bind, may_lack.
  destruct (GetPolicyVersion (en_Disc en) arn (vi_VersionID i) w) as [w1 [doc|e]] eqn:E.
  - destruct (read_versions _ _ vs w1) as [w2 [rest|]] eqn:E2; [|done]. intros [= <- <-]. intros [->|Hv]%elem_of_cons.
    + split; [exists i; split; [by left|done]|]. exists w. cbn. by rewrite E.
    + destruct (IH _ _ _ _ E2 Hv) as [(j & Hj & Ej) H]. split; [|done]. exists j. split; [by right|done].
  - destruct (IsNoSuchEntity e); [|done]. destruct (read_versions _ _ vs w1) as [w2 [rest|]] eqn:E2; [|done]. intros [= <- <-] Hv.
    destruct (IH _ _ _ _ E2 Hv) as [(j & Hj & Ej) H]. split; [|done]. exists j. split; [by right|done].
Qed.

Lemma selector_deletable op w w' vs v :
  ResolveVersionSelector (en_Disc en) op w = (w', Ok vs) -> v ∈ vs -> deletable (op_PolicyARN op) (vd_VersionID v) (vd_Document v).
Proof.
  unfold ResolveVersionSelector. destruct (negb _); [done|]. unfold io_bind, may_lack.
  destruct (ListPolicyVersions (en_Disc en) (op_PolicyARN op) w) as [w1 [l|e]] eqn:E.
  - unfold io_lift. destruct (choose_versions op l) as [chosen|] eqn:Ec; [|done]. intros Hr Hv.
    destruct (read_versions_read _ _ _ _ _ _ Hr Hv) as [(i & Hi & Ei) H]. split; [|done].
    destruct (choose_versions_listed _ _ _ _ Ec Hi) as [Hl Hd]. exists w, l, i. rewrite E. done.
  - destruct (IsNoSuchEntity e); [|done]. intros [= _ <-]. by intros ?%not_elem_of_nil.
Qed.

(** A request of the operation, recorded first, with its document archived: the
    document it sends, or the one of the version it deletes. *)
Definition sent_for (k : Z) (op : Op) (e : entry) : Prop :=
  let '(k', req, d) := e in
  k' = k /\ exists version docHash, NewRequest op (dp_ID dep) version role = Ok req /\ recorded k req docHash d /\
    if (op_Op op =? OpDeletePolicyVersion)%string
    then exists text c, deletable (op_PolicyARN op) version text /\ CanonicalDocument text = Ok (c, docHash)
    else version = "" /\ docHash = rq_DocumentHash req.

Definition op_sends (k : Z) (op : Op) (l : list entry) : Prop :=
  Forall (sent_for k op) l /\ ((op_Op op =? OpDeletePolicyVersion)%string = false -> (length l <= 1)%nat).

Lemma op_sends_nil k op : op_sends k op [].
Proof. split; [done|cbn; lia]. Qed.

Lemma op_sends_app k op l1 l2 : (op_Op op =? OpDeletePolicyVersion)%string = true -> op_sends k op l1 -> op_sends k op l2 -> op_sends k op (l2 ++ l1).
Proof. intros E [F1 _] [F2 _]. split; [by apply Forall_app|by rewrite E]. Qed.

Lemma accounted_mono s s' S k : progress S s s' -> accounted s k -> accounted s' k.
Proof.
  intros [[_ [l E] _ _ L _] _] [(r & Hr & H) Hs]. split; [|by eapply stored_later]. exists r. split; [|done]. rewrite E. apply elem_of_app. by left.
Qed.

Lemma wp_delete_versions k op versions :
  (op_Op op =? OpDeletePolicyVersion)%string = true ->
  (forall v, v ∈ versions -> deletable (op_PolicyARN op) (vd_VersionID v) (vd_Document v)) -> forall s, good (xs_DB s) ->
  wp (delete_versions en cfg fence dep plan role k op versions)
    (fun _ s' => progress (op_sends k op) s s' /\ (versions <> [] -> accounted s' k)) (progress (op_sends k op) s) s.
Proof.
  intros Eop. pose proof (op_sends_nil k op) as H0. induction versions as [|v vs IH]; intros Hv s K; cbn [delete_versions].
  { split; [by apply progress_none, progress_refl|done]. }
  apply wp_bind. eapply wp_mono; [by apply wp_archive| |intros; by apply progress_none]. intros h s1 [P1 Hh].
  destruct h as [h|e]; [|destruct (isLeaseErr e); [by apply progress_none|by apply wp_stop; [apply progress_none|]]].
  destruct (Hh h eq_refl) as (c & Ec & Hdoc).
  destruct (NewRequest op (dp_ID dep) (vd_VersionID v) role) as [req|e] eqn:En.
  2: { apply wp_stop; [by apply progress_none|]. unfold requestRefusal. done. }
  assert (forall l, one_request k req h l -> op_sends k op l) as Hone.
  { intros l [->|(d & -> & Hr)]; [done|]. split; [|cbn; lia]. constructor; [|constructor]. split; [done|]. exists (vd_VersionID v), h.
    split; [done|]. split; [done|]. rewrite Eop. exists (vd_Document v), c. split; [|done]. apply Hv. by left. }
  apply wp_bind. eapply wp_mono; [apply does_attempt; by eapply progress_keyed| |].
  2: { intros s2 P2. eapply progress_mono; [exact Hone|]. by eapply progress_pre. }
  intros [] s2 [P2 Ha]. apply (progress_mono _ _ _ _ Hone) in P2. apply (progress_pre _ _ _ _ P1) in P2.
  eapply wp_mono; [apply IH; [|by eapply progress_keyed]| |].
  - intros x Hx. apply Hv. by right.
  - intros [] s3 [P3 _]. split; [|intros _; by eapply accounted_mono]. eapply progress_trans; [|exact P2|exact P3]. intros l1 l2. by apply op_sends_app.
  - intros s3 P3. eapply progress_trans; [|exact P2|exact P3]. intros l1 l2. by apply op_sends_app.
Qed.

Lemma wp_External {A} (m : X A) (R : A -> Prop) s :
  (forall s, good (xs_DB s) -> wp m (fun a s' => progress nothing s s' /\ R a) (progress nothing s) s) -> good (xs_DB s) ->
  wp (External en cfg fence m) (fun r s' => progress nothing s s' /\ forall a, r = Ok a -> R a) (progress nothing s) s.
Proof.
  intros Hm K. unfold External. eapply wp_quiet; [apply q_now|done| |done]. intros t1 s1 P1.
  eapply wp_quiet; [apply q_now|by eapply progress_keyed| |intros; by eapply nothing_trans]. intros t2 s2 P2.
  assert (progress nothing s s2) as P by (by eapply nothing_trans). clear P1 P2.
  eapply wp_quiet; [apply q_now|by eapply progress_keyed| |intros; by eapply nothing_trans]. intros t3 s3 P3.
  eapply wp_quiet; [|by eapply progress_keyed| |intros; by do 2 (eapply nothing_trans; [done|])].
  { apply q_try_tx, (legal_jobs _ (fun t d => set_Jobs t d)). done. }
  intros c s4 P4. assert (progress nothing s s4) as P' by (by do 2 (eapply nothing_trans; [done|])). clear P P3 P4.
  destruct c as [u|e]; [|by split].
  apply wp_bind. eapply wp_mono; [by apply Hm; eapply progress_keyed| |intros; by eapply nothing_trans]. intros a s5 [P5 Ra].
  apply (nothing_trans _ _ _ P') in P5.
  eapply wp_quiet; [apply q_now|by eapply progress_keyed| |intros; by eapply nothing_trans]. intros t4 s6 P6.
  eapply wp_quiet; [|by eapply progress_keyed| |intros; by do 2 (eapply nothing_trans; [done|])].
  { apply q_try_tx, (legal_jobs _ (fun _ d => d)). done. }
  intros c s7 P7. split; [by do 2 (eapply nothing_trans; [done|])|]. intros x. destruct c as [u1|e]; cbn; [|done]. by intros [= <-].
Qed.

Lemma wp_fenced_read {A} (f : io W A) s :
  good (xs_DB s) -> wp (fenced_read en cfg fence (world f)) (fun a s' => progress nothing s s' /\ exists w w', f w = (w', Ok a)) (progress nothing s) s.
Proof.
  intros K. unfold fenced_read. apply wp_bind.
  eapply wp_mono; [apply (wp_External _ (fun r => exists w w', f w = (w', r))); [|done]| |by auto].
  { intros s1 K1. pose proof (q_world f s1 K1) as H. unfold wp, world in H |- *. destruct (f (xs_W s1)) as [w a] eqn:E. split; [done|by eauto]. }
  intros r s1 [P Hr].
  assert (wp (@read_failed W A) (fun a s' => progress nothing s s' /\ exists w w', f w = (w', Ok a)) (progress nothing s) s1) as Hf.
  { unfold read_failed. eapply wp_quiet; [quietly|by eapply progress_keyed| |intros; by eapply nothing_trans]. intros _ s2 P2.
    apply wp_stop; [by eapply nothing_trans|done]. }
  destruct r as [[a|e]|e]; [|done|by destruct (isLeaseErr e)]. split; [done|]. by apply Hr.
Qed.

Lemma wp_runVersionDeletes k op s :
  good (xs_DB s) -> (op_Op op =? OpDeletePolicyVersion)%string = true ->
  wp (runVersionDeletes en cfg fence dep plan role k op)
    (fun _ s' => progress (op_sends k op) s s' /\ accounted s' k) (progress (op_sends k op) s) s.
Proof.
  intros K Eop. pose proof (op_sends_nil k op) as H0. unfold runVersionDeletes. apply wp_bind.
  eapply wp_mono; [by apply wp_fenced_read| |intros; by apply progress_none]. intros vs s1 [P1 (w & w' & Hw)].
  destruct vs as [|v vs].
  - apply wp_bind. eapply wp_mono; [apply wp_appendCompleted; [by eapply progress_keyed|done]| |intros; by apply progress_none; [|eapply nothing_trans]].
    intros _ s2 [P2 Hst]. eapply wp_mono; [apply (wp_add_op (op_sends k op) s _ _ (progress (op_sends k op) s)); apply progress_none; [done|]; by eapply nothing_trans| |done]. intros _ s3 (P3 & Hr & Hdb).
    split; [done|]. split; [|by rewrite Hdb]. eexists. split_and!; [exact Hr|done|done].
  - eapply wp_mono; [apply wp_delete_versions; [done| |by eapply progress_keyed]| |intros; by eapply progress_pre].
    + intros x Hx. by eapply selector_deletable.
    + intros _ s2 [P2 Ha]. split; [by eapply progress_pre|by apply Ha].
Qed.

Lemma wp_runOp k op s :
  good (xs_DB s) ->
  wp (runOp en cfg fence dep plan ctl role k op) (fun _ s' => progress (op_sends k op) s s' /\ accounted s' k)
    (progress (op_sends k op) s) s.
Proof.
  intros K. pose proof (op_sends_nil k op) as H0. unfold runOp.
  eapply wp_quiet; [apply q_markIntended|done| |intros; by apply progress_none]. intros _ s1 P1.
  eapply wp_quiet; [apply q_enforcement|by eapply progress_keyed| |intros; by apply progress_none; [|eapply nothing_trans]]. intros _ s2 P2.
  assert (progress nothing s s2) as P by (by eapply nothing_trans).
  destruct (op_Op op =? OpDeletePolicyVersion)%string eqn:Eop.
  { eapply wp_mono; [apply wp_runVersionDeletes; [by eapply progress_keyed|done]| |intros; by eapply progress_pre]. intros _ s3 [P3 Ha].
    split; [by eapply progress_pre|done]. }
  destruct (NewRequest op (dp_ID dep) "" role) as [req|e] eqn:En; [|by apply wp_stop; [apply progress_none|]].
  assert (forall l, one_request k req (rq_DocumentHash req) l -> op_sends k op l) as Hone.
  { intros l [->|(d & -> & Hr)]; [done|]. split; [|cbn; lia]. constructor; [|constructor]. split; [done|]. exists "", (rq_DocumentHash req).
    split; [done|]. split; [done|]. by rewrite Eop. }
  assert (forall doc s3, progress nothing s s3 -> wp (attempt en cfg fence dep plan role k req doc (rq_DocumentHash req))
    (fun _ s' => progress (op_sends k op) s s' /\ accounted s' k) (progress (op_sends k op) s) s3) as Hatt.
  { intros doc s3 P3. eapply wp_mono; [apply does_attempt; by eapply progress_keyed| |].
    - intros _ s4 [P4 Ha]. split; [|done]. eapply progress_mono; [exact Hone|by eapply progress_pre].
    - intros s4 P4. eapply progress_mono; [exact Hone|by eapply progress_pre]. }
  destruct (SendsDocument req); [|by apply Hatt].
  eapply wp_quiet; [apply q_query|by eapply progress_keyed| |intros; by apply progress_none; [|eapply nothing_trans]]. intros doc s3 P3.
  destruct doc as [doc|]; [by apply Hatt; eapply nothing_trans|]. apply wp_stop; [by apply progress_none; [|eapply nothing_trans]|done].
Qed.

(** ** Readback *)

Lemma legal_writeLedger id1 id2 t live versions st hash : legal (writeLedgerTx dep plan ctl id1 id2 t live versions st hash).
Proof.
  intros d d' c. unfold writeLedgerTx. intros ([d1 u] & H1 & ([d2 c0] & H2 & ([d3 cs] & H3 & [= <- _])%bind_Ok)%bind_Ok)%bind_Ok.
  assert (db_later d d1) as L1.
  { revert H1. unfold archive_boundary. destruct (as_BoundaryARN st) as [arn|]; [|by intros [= <- _]].
    destruct (mjoin _) as [pol|]; [|by intros [= <- _]]. intros ([c1 h] & _ & H)%bind_Ok. by apply archive_later in H as []. }
  assert (db_later d1 d2) as L2.
  { revert H2. unfold ledger_disposed. destruct (pl_ReplacedBoundaryARN plan) as [arn|]; [|by intros [= <- _]].
    destruct (pl_ArtifactDisposition plan =? DispositionKeep)%string; [by intros [= <- _]|]. intros H. by eapply (ledger_only_legal _ (ledger_set_only _ _ _ _ _ _ _ _)). }
  assert (db_later d2 d3) as L3.
  { destruct (pl_DesiredAttachment plan =? AttachmentPresent)%string.
    - destruct (pl_DesiredBoundaryARN plan) as [arn|]; [|done]. apply bind_Ok in H3 as ([e1 c1] & E1 & ([e2 c2] & E2 & [= <- _])%bind_Ok).
      apply (ledger_only_legal _ (ledger_set_only _ _ _ _ _ _ _ _)) in E1, E2. by etrans.
    - destruct (_ =? _)%string; [|by injection H3 as <- _]. by eapply (ledger_only_legal _ (ledger_set_only _ _ _ _ _ _ _ _)). }
  etrans; [exact L1|]. etrans; [exact L2|]. etrans; [exact L3|]. by apply same_later; [apply grow_same|..].
Qed.

(** ** What a part of a run adds to the history *)

Definition logs {A} (f : list (log_entry W) -> list (log_entry W)) (m : X A) : Prop :=
  forall s s' a, m s = (s', XOk a) -> xs_Log s' = f (xs_Log s).

Lemma bind_XOk {A B} (m : X (W := W) A) (k : A -> X B) s s' b :
  bind m k s = (s', XOk b) -> exists s1 a, m s = (s1, XOk a) /\ k a s1 = (s', XOk b).
Proof. unfold bind. destruct (m s) as [s1 []]; try done. by eauto. Qed.

Lemma wp_bind_log {A B} (m : X A) (k : A -> X B) f Q E s :
  logs f m -> wp m (fun a s' => xs_Log s' = f (xs_Log s) -> wp (k a) Q E s') E s -> wp (bind m k) Q E s.
Proof. intros Hf. unfold wp, bind. specialize (Hf s). destruct (m s) as [s' []]; auto. intros H. eapply H, Hf. done. Qed.

Lemma logs_world {A} (f : W -> W * A) : logs id (world f).
Proof. intros s s' a. unfold world. destruct (f (xs_W s)). by intros [= <- _]. Qed.

Lemma logs_try_tx {A} (fn : DB -> result (DB * A)) : logs id (try_tx en fn).
Proof.
  intros s s' a (s1 & e & H1 & H2)%bind_XOk. unfold turn in H1. destruct (en_Others _ _ _) as [[w d] e']. injection H1 as <- <-.
  destruct e'; [by injection H2 as <- _|]. destruct (fn _) as [[d' b]|]; by injection H2 as <- _.
Qed.

Lemma logs_tx {A} (fn : DB -> result (DB * A)) : logs id (tx en fn).
Proof. intros s s' a (s1 & r & H1%logs_try_tx & H2)%bind_XOk. injection H2 as <- _. exact H1. Qed.

Lemma logs_sleep : logs (cons LogWait) (sleep en).
Proof. intros s s' a (s1 & r & H1%logs_world & H2)%bind_XOk. destruct r; [done|]. injection H2 as <- _. cbn. by rewrite H1. Qed.

Lemma logs_External {A} (m : X A) s s' a :
  External en cfg fence m s = (s', XOk (Ok a)) ->
  exists s1 s2, xs_Log s1 = xs_Log s /\ m s1 = (s2, XOk a) /\ xs_Log s' = xs_Log s2.
Proof.
  unfold External. intros (s1 & t1 & H1%logs_world & H)%bind_XOk. apply bind_XOk in H as (s2 & t2 & H2%logs_world & H).
  apply bind_XOk in H as (s3 & t3 & H3%logs_world & H). apply bind_XOk in H as (s4 & c & H4%logs_try_tx & H).
  destruct c as [u|e]; [|by injection H]. apply bind_XOk in H as (s5 & b & H5 & H). apply bind_XOk in H as (s6 & t4 & H6%logs_world & H).
  apply bind_XOk in H as (s7 & c & H7%logs_try_tx & H). injection H as <- Hc. destruct c; [|done]. injection Hc as ->.
  exists s4, s5. unfold id in *. split_and!; congruence.
Qed.

(** A read adds the entry of its own call: what AWS answered at that time. *)
Lemma logs_read s s' lr :
  read en cfg fence plan role s = (s', XOk lr) ->
  exists w t, xs_Log s' = LogRead w t (Ok lr) :: xs_Log s /\ (ReadForPlan (en_Disc en) role plan t w).2 = Ok lr.
Proof.
  unfold read, fenced_read. intros (s1 & r & H1 & H)%bind_XOk.
  destruct r as [[lr'|e]|e]; [|done|by destruct (isLeaseErr e)]. injection H as <- <-.
  apply logs_External in H1 as (s2 & s3 & E2 & H2 & E3). rewrite E3, <- E2. clear E2 E3.
  apply bind_XOk in H2 as (s4 & t & H4%logs_world & H). apply bind_XOk in H as (s5 & w & H5 & H). injection H5 as <- <-.
  apply bind_XOk in H as (s6 & r & H6 & H). unfold world in H6. destruct (ReadForPlan _ _ _ _ _) as [w' r'] eqn:Er. injection H6 as <- <-.
  injection H as <- ->. exists (xs_W s4), t. cbn. unfold id in H4. rewrite H4, Er. done.
Qed.

(** The last two reads of the run, one after the other with the wait between
    them and no request after the first, both show the plan's after state, with
    one state hash; and the ledger is written from the second one in the run's
    last transaction. *)
Record applied_facts (s : xstate W) : Prop := {
  af_reads : exists l1 l2 c1 c2 st1 st2 versions1 versions2 hash id1 id2 t d ledger,
    (exists w1 t1 w2 t2 before,
       xs_Log s = LogRead w2 t2 (Ok (l2, versions2)) :: LogWait :: LogRead w1 t1 (Ok (l1, versions1)) :: before /\
       (ReadForPlan (en_Disc en) role plan t1 w1).2 = Ok (l1, versions1) /\ (ReadForPlan (en_Disc en) role plan t2 w2).2 = Ok (l2, versions2)) /\
    (Classify plan l1 = Ok c1 /\ cl_Class c1 = ClassAfter) /\ (Classify plan l2 = Ok c2 /\ cl_Class c2 = ClassAfter) /\
    (ArtifactState l1 = Ok st1 /\ StatePreconditionHash st1 = Ok hash) /\ (ArtifactState l2 = Ok st2 /\ StatePreconditionHash st2 = Ok hash) /\
    owned (db_Jobs d) fence = true /\ writeLedgerTx dep plan ctl id1 id2 t l2 versions2 st2 hash d = Ok (xs_DB s, ledger) /\
    do_Readback (xs_Out s) = Some {| rb_Reads := [c1; c2]; rb_State := Some st2; rb_StateHash := hash; rb_ReadAt := Some (ReadAt l2); rb_Ledger := ledger |};
  af_result : do_Result (xs_Out s) = DeployApplied }.

Lemma wp_read s :
  good (xs_DB s) ->
  wp (read en cfg fence plan role)
    (fun lr s' => progress nothing s s' /\ exists w t, xs_Log s' = LogRead w t (Ok lr) :: xs_Log s /\
       (ReadForPlan (en_Disc en) role plan t w).2 = Ok lr) (progress nothing s) s.
Proof.
  intros K. pose proof (q_read plan role s K) as H. unfold wp in H |- *. pose proof (logs_read s) as L.
  destruct (read en cfg fence plan role s) as [s' []]; try done. split; [done|by apply L].
Qed.

Lemma wp_lift {A} (r : result A) Q E (s : xstate W) : (forall a, r = Ok a -> Q a s) -> E s -> wp (lift r) Q E s.
Proof. intros HQ HE. unfold wp, lift. destruct r; auto. Qed.

Lemma wp_readback_round s :
  good (xs_DB s) ->
  wp (readback_round en cfg fence dep plan ctl role)
    (fun r s' => changes nothing s s' /\ if (r.2 : bool) then applied_facts s' else progress nothing s s') (progress nothing s) s.
Proof.
  intros K. unfold readback_round. apply wp_bind. eapply wp_mono; [by apply wp_read| |by auto]. intros [l1 v1] s1 [P1 (w1 & t1 & L1 & R1)].
  apply wp_bind, wp_lift; [|done]. intros c1 C1.
  apply (wp_bind_log _ _ _ _ _ _ logs_sleep). eapply wp_mono; [by apply q_sleep; eapply progress_keyed| |intros; by eapply nothing_trans].
  cbn beta. intros [] s2 P2 L2. rewrite L1 in L2.
  assert (progress nothing s s2) as P by (by eapply nothing_trans). clear P1 P2 L1.
  apply wp_bind. eapply wp_mono; [by apply wp_read; eapply progress_keyed| |intros; by eapply nothing_trans]. intros [l2 v2] s3 [P3 (w2 & t2 & L3 & R3)].
  apply (nothing_trans _ _ _ P) in P3. rewrite L2 in L3. clear P s1 s2 L2. apply wp_bind, wp_lift; [|done]. intros c2 C2. cbv zeta.
  destruct (List.find _ _) as [c|] eqn:Ef.
  { eapply wp_quiet; [quietly|by eapply progress_keyed| |intros; by eapply nothing_trans]. intros [] s4 P4.
    eapply wp_quiet; [quietly|by eapply progress_keyed| |intros; by do 2 (eapply nothing_trans; [done|])]. intros [] s5 P5.
    apply wp_stop; [by do 2 (eapply nothing_trans; [done|])|done]. }
  destruct (negb _ || _) eqn:Ea; [split; [apply P3|done]|]. apply orb_false_iff in Ea as [A1%negb_false_iff%String.eqb_eq A2%negb_false_iff%String.eqb_eq].
  apply wp_bind, wp_lift; [|done]. intros st1 T1. apply wp_bind, wp_lift; [|done]. intros st2 T2.
  apply wp_bind, wp_lift; [|done]. intros h1 H1. apply wp_bind, wp_lift; [|done]. intros h2 H2.
  destruct (negb _) eqn:Eh; [split; [apply P3|done]|]. apply negb_false_iff, String.eqb_eq in Eh. subst h2.
  apply (wp_bind_log _ _ _ _ _ _ (logs_world _)). eapply wp_mono; [by apply q_fresh; eapply progress_keyed| |intros; by eapply nothing_trans].
  cbn beta. intros id1 s4 P4 L4. apply (nothing_trans _ _ _ P3) in P4.
  apply (wp_bind_log _ _ _ _ _ _ (logs_world _)). eapply wp_mono; [by apply q_fresh; eapply progress_keyed| |intros; by eapply nothing_trans].
  cbn beta. intros id2 s5 P5 L5. apply (nothing_trans _ _ _ P4) in P5.
  apply (wp_bind_log _ _ _ _ _ _ (logs_world _)). eapply wp_mono; [by apply q_now; eapply progress_keyed| |intros; by eapply nothing_trans].
  cbn beta. intros t s6 P6 L6. apply (nothing_trans _ _ _ P5) in P6.
  apply (wp_bind_log _ _ _ _ _ _ (logs_tx _)), wp_tx; [apply legal_InTx, legal_writeLedger|by eapply progress_keyed| |intros; by eapply nothing_trans].
  intros s7 d ledger _ P7 [Ho Hw]%InTx_Ok L7. apply (nothing_trans _ _ _ P6) in P7. unfold id in L4, L5, L6, L7. rewrite L6, L5, L4, L3 in L7. cbn in L7. apply wp_bind. unfold wp at 1, out. apply wp_bind. unfold wp at 1, out.
  split.
  - destruct P7 as [[] _]. by split.
  - split; [|done]. exists l1, l2, c1, c2, st1, st2, v1, v2, h1, id1, id2, t, (xs_DB s7), ledger. split_and!; try done.
    exists w1, t1, w2, t2, (xs_Log s). by split_and!.
Qed.

Lemma wp_readback rounds : forall first last s, good (xs_DB s) ->
  wp (readback en cfg fence dep plan ctl role first last rounds) (fun _ s' => changes nothing s s' /\ applied_facts s') (progress nothing s) s.
Proof.
  induction rounds as [|n IH]; intros first last s K; cbn [readback].
  { eapply wp_quiet; [quietly|done| |done]. intros [] s1 P1. eapply wp_quiet; [quietly|by eapply progress_keyed| |intros; by eapply nothing_trans].
    intros [] s2 P2. apply wp_stop; [by eapply nothing_trans|done]. }
  eapply wp_quiet; [destruct first; quietly|done| |done]. intros [] s1 P1.
  apply wp_bind. eapply wp_mono; [by apply wp_readback_round; eapply progress_keyed| |intros; by eapply nothing_trans].
  intros [cs ok] s2 [C2 H2]. cbn in H2 |- *. destruct ok.
  - split; [|done]. eapply changes_trans; [|apply P1|exact C2]. by intros ? ? -> ->.
  - eapply wp_mono; [apply IH; by eapply progress_keyed| |intros; by do 2 (eapply nothing_trans; [done|])].
    intros [] s3 [C3 H3]. split; [|done]. eapply changes_trans; [|exact (proj1 (nothing_trans _ _ _ P1 H2))|exact C3]. by intros ? ? -> ->.
Qed.

(** ** The loop *)

Definition entry_op (e : entry) : Z := e.1.1.

(** Operations that send one request; a version selector sends one per version. *)
Definition single (k : Z) : bool :=
  match pl_Ops plan !! Z.to_nat k with Some op => negb (op_Op op =? OpDeletePolicyVersion)%string | None => false end.

(** Each request is one of an operation at the cursor or after it, and of one not
    yet completed if a read can see its effect; no operation is sent twice. *)
Definition run_sends (cursor : Z) (don : gset Z) (l : list entry) : Prop :=
  Forall (fun e => cursor <= entry_op e /\ exists op, pl_Ops plan !! Z.to_nat (entry_op e) = Some op /\ sent_for (entry_op e) op e /\
            (OpObservable op = true -> entry_op e ∉ don)) l /\
  NoDup (List.filter single (entry_op <$> l)).

Lemma run_sends_nil c don : run_sends c don [].
Proof. split; constructor. Qed.

Lemma single_filter k op l :
  pl_Ops plan !! Z.to_nat k = Some op -> op_sends k op l -> NoDup (List.filter single (entry_op <$> l)) /\
  Forall (fun j => j = k) (entry_op <$> l).
Proof.
  intros Hop [F Hl]. assert (Forall (fun j => j = k) (entry_op <$> l)) as Fk.
  { apply Forall_fmap. eapply Forall_impl; [exact F|]. intros [[j req] d] [H _]. done. }
  split; [|done]. destruct (op_Op op =? OpDeletePolicyVersion)%string eqn:E.
  - assert (List.filter single (entry_op <$> l) = []) as ->; [|constructor].
    induction Fk as [|j js -> _ IH]; [done|]. cbn. unfold single at 1. by rewrite Hop, E.
  - specialize (Hl eq_refl). destruct l as [|e [|e' l]]; cbn in Hl |- *; [constructor| |lia]. destruct (single _); [apply NoDup_singleton|constructor].
Qed.

Lemma run_sends_step c k don don' op l1 l2 :
  0 <= c <= k -> pl_Ops plan !! Z.to_nat k = Some op -> (OpObservable op = true -> k ∉ don) -> don ⊆ don' ->
  op_sends k op l1 -> run_sends (k + 1) don' l2 -> run_sends c don (l2 ++ l1).
Proof.
  intros Hc Hop Hobs Hdon H1 [F2 N2]. destruct (single_filter _ _ _ Hop H1) as [N1 Fk]. destruct H1 as [F1 _]. split.
  - apply Forall_app. split.
    + eapply Forall_impl; [exact F2|]. intros e [Hk (o & Ho & Hs & Hd)]. split; [lia|]. exists o. split_and!; [done|done|]. set_solver.
    + eapply Forall_impl; [exact F1|]. intros [[j req] d] Hs. pose proof Hs as [-> _]. split; [cbn; lia|]. exists op. split_and!; done.
  - rewrite fmap_app, List.filter_app. apply NoDup_app. split_and!; [done| |done].
    intros j [Hj _]%elem_of_filter_b [Hj' _]%elem_of_filter_b. rewrite Forall_forall in Fk. apply Fk in Hj' as ->.
    apply list_elem_of_fmap in Hj as (e & He & Hin). rewrite Forall_forall in F2. destruct (F2 _ Hin) as [Hle _]. lia.
Qed.

Lemma run_sends_mono c c' don don' l : c <= c' -> don ⊆ don' -> run_sends c' don' l -> run_sends c don l.
Proof.
  intros Hc Hd [F N]. split; [|done]. eapply Forall_impl; [exact F|]. intros e [Hk (op & Ho & Hs & Hx)]. split; [lia|]. exists op. set_solver.
Qed.

Definition run_ends (c : Z) (s s' : xstate W) : Prop :=
  changes (run_sends c (xs_Completed s)) s s' /\ applied_facts s' /\ forall j, 0 <= j < Z.of_nat (length (pl_Ops plan)) -> j ∈ xs_Completed s'.

Lemma run_pre c s s1 s' : progress nothing s s1 -> run_ends c s1 s' -> run_ends c s s'.
Proof.
  intros P [C H]. split; [|done]. eapply changes_trans; [|apply P|exact C]. intros l1 l2 -> Hl. rewrite app_nil_r.
  eapply run_sends_mono; [reflexivity|apply P|done].
Qed.

Lemma wp_complete k s s1 S :
  progress S s s1 -> accounted s1 k ->
  wp (complete k) (fun _ s' => progress S s s' /\ k ∈ xs_Completed s') (fun _ => False) s1.
Proof.
  intros P Ha. unfold wp. cbn. split; [|set_solver]. eapply progress_post; [exact P|]. split; [|done]. split; cbn; try done.
  - by exists [].
  - exists []. by rewrite app_nil_r.
  - set_solver.
  - intros j [->%elem_of_singleton|Hj]%elem_of_union; [by right|by left].
  - by eapply progress_keyed.
Qed.

Lemma notVisible_stops j cl s : forall a : unit, (notVisible en cfg dep j cl s).2 <> XOk a.
Proof.
  intros a. unfold notVisible, query, now, world, out, stop, turn, fail, get, bind. repeat case_match; try done; simplify_eq/=; done.
Qed.

Lemma wp_execute fuel : forall cursor s,
  0 <= cursor <= Z.of_nat (length (pl_Ops plan)) -> Z.of_nat (length (pl_Ops plan)) < Z.of_nat fuel + cursor -> good (xs_DB s) ->
  wp (execute en cfg fence dep plan ctl role fuel cursor) (fun _ => run_ends cursor s) (progress (run_sends cursor (xs_Completed s)) s) s.
Proof.
  induction fuel as [|fuel IH]; intros cursor s Hc Hf K; cbn [execute]; [lia|].
  pose proof (run_sends_nil cursor (xs_Completed s)) as H0.
  eapply wp_quiet; [apply q_classify|done| |intros; by apply progress_none]. intros cl s1 P1.
  destruct (_ =? _)%string.
  { eapply wp_quiet; [quietly|by eapply progress_keyed| |intros; by apply progress_none; [|eapply nothing_trans]]. intros [] s2 P2.
    apply wp_stop; [by apply progress_none; [|eapply nothing_trans]|done]. }
  assert (forall j s2, progress nothing s s2 -> wp (notVisible en cfg dep j cl) (fun _ : unit => run_ends cursor s)
            (progress (run_sends cursor (xs_Completed s)) s) s2) as Hnv.
  { intros j s2 P2. pose proof (wp_after _ _ _ _ P2 (q_notVisible (A := unit) dep j cl)) as H. unfold wp in H |- *.
    pose proof (notVisible_stops j cl s2) as Hs. destruct (notVisible en cfg dep j cl s2) as [s3 []]; [by destruct (Hs a)|by apply progress_none..|done]. }
  destruct (if _ <? _ then _ else _) as [j|]; [by apply Hnv|]. cbv zeta. set (k := Z.max _ _).
  apply wp_bind. eapply wp_mono; [apply wp_recognise; by eapply progress_keyed| |intros; by apply progress_none; [|eapply nothing_trans]].
  intros [] s2 [P2 Hr]. apply (nothing_trans _ _ _ P1) in P2. clear P1 s1.
  destruct (pl_Ops plan !! Z.to_nat k) as [op|] eqn:Eop.
  2: { apply lookup_ge_None in Eop. eapply wp_mono; [apply wp_readback; by eapply progress_keyed| |intros; by apply progress_none; [|eapply nothing_trans]].
       intros [] s3 [C3 A3]. split_and!; [|done|].
       - eapply changes_trans; [|apply P2|exact C3]. by intros ? ? -> ->.
       - intros j Hj. apply C3, Hr; lia. }
  pose proof (lookup_lt_Some _ _ _ Eop) as Hk.
  apply wp_bind. unfold wp at 1, get.
  assert (forall s3, progress nothing s s3 -> xs_Completed s3 = xs_Completed s2 ->
    wp (execute en cfg fence dep plan ctl role fuel (k + 1)) (fun _ => run_ends cursor s) (progress (run_sends cursor (xs_Completed s)) s) s3) as Hskip.
  { intros s3 P3 E3. eapply wp_mono; [apply IH; [lia|lia|by eapply progress_keyed]| |].
    - intros [] s4 (C4 & H4). split; [|done]. eapply changes_trans; [|apply P3|exact C4]. intros l1 l2 -> Hl. rewrite app_nil_r.
      eapply run_sends_mono; [|apply P3|exact Hl]. lia.
    - intros s4 P4. eapply progress_trans; [|exact P3|exact P4]. intros l1 l2 -> Hl. rewrite app_nil_r. eapply run_sends_mono; [|apply P3|exact Hl]. lia. }
  destruct (bool_decide (k ∈ xs_Completed s2) && OpObservable op) eqn:Ed; [by apply Hnv|].
  destruct (bool_decide _ && negb _); [by apply Hskip|].
  assert (OpObservable op = true -> k ∉ xs_Completed s) as Hobs.
  { intros Ho Hin. rewrite Ho, andb_true_r in Ed. apply bool_decide_eq_false in Ed. by apply Ed, P2. }
  assert (forall l, op_sends k op l -> run_sends cursor (xs_Completed s) l) as Hops.
  { intros l Hl. apply (run_sends_step cursor k _ (xs_Completed s) op l []); [lia|done|done|done|done|apply run_sends_nil]. }
  apply wp_bind. eapply wp_mono; [apply wp_runOp; by eapply progress_keyed| |].
  2: { intros s3 P3. eapply progress_mono; [exact Hops|by eapply progress_pre]. }
  intros [] s3 [P3 Ha]. apply (progress_pre _ _ _ _ P2) in P3. apply wp_bind.
  eapply wp_mono; [by apply (wp_complete _ _ _ _ P3)| |done]. intros [] s4 [P4 _].
  assert (forall l1 l2, op_sends k op l1 -> run_sends (k + 1) (xs_Completed s4) l2 -> run_sends cursor (xs_Completed s) (l2 ++ l1)) as Hstep.
  { intros l1 l2 H1 H2. eapply run_sends_step; [|done|done| |done|done]; [lia|apply P4]. }
  eapply wp_mono; [apply IH; [lia|lia|by eapply progress_keyed]| |].
  - intros [] s5 (C5 & H5). split; [|done]. eapply changes_trans; [exact Hstep|apply P4|exact C5].
  - intros s5 P5. eapply progress_trans; [exact Hstep|exact P4|exact P5].
Qed.

End Plan_run.

(** ** The run of a deployment *)

(** The requests of a run: none, or those of its loop, for the control's role. *)
Definition run_requests (dep : Deployment) (plan : Plan) (d : DB) (s : xstate W) : Prop :=
  xs_Sent s = [] \/
  exists ctl cur, (exists w, (en_Control en w).2 = Ok ctl) /\ refuseDirect dep plan (roleNameOfARN (cl_RoleARN ctl)) = "" /\ dp_ID cur = dp_ID dep /\
    run_sends cur plan (roleNameOfARN (cl_RoleARN ctl)) 0 (stored d) (xs_Sent s).

Definition run_applied (dep : Deployment) (plan : Plan) (s : xstate W) : Prop :=
  exists ctl cur, (exists w, (en_Control en w).2 = Ok ctl) /\ dp_ID cur = dp_ID dep /\
    applied_facts cur plan ctl (roleNameOfARN (cl_RoleARN ctl)) s /\
    forall j, 0 <= j < Z.of_nat (length (pl_Ops plan)) -> j ∈ stored (xs_DB s).

Lemma wp_ExecutePlan dep plan w d :
  dp_ID dep = did -> good d ->
  wp (ExecutePlan_run en cfg fence dep plan) (fun _ s => run_requests dep plan d s /\ run_applied dep plan s)
    (fun s => run_requests dep plan d s /\ do_Result (xs_Out s) <> DeployApplied) (init_run w d).
Proof.
  intros Hdid K. unfold ExecutePlan_run. set (s0 := init_run w d).
  assert (forall s, progress nothing s0 s -> run_requests dep plan d s /\ do_Result (xs_Out s) <> DeployApplied) as Hq.
  { intros s [[(l & E & ->) _ _ _ _ _] R]. split; [by left|by apply R]. }
  assert (forall A r reason Q s, progress nothing s0 s -> r <> DeployApplied -> wp (@stop W A r reason) Q
    (fun s => run_requests dep plan d s /\ do_Result (xs_Out s) <> DeployApplied) s) as Hstop.
  { intros A r reason Q s P H. eapply wp_mono; [by apply (wp_stop nothing s0 _ _ _ Q)|done|by apply Hq]. }
  eapply wp_quiet; [apply q_now|done| |by apply Hq]. intros t s1 P1.
  eapply wp_quiet; [apply q_tx, legal_Recover|by eapply progress_keyed| |intros; by eapply Hq, nothing_trans]. intros rec s2 P2.
  apply (nothing_trans _ _ _ P1) in P2. clear P1 s1. cbv zeta.
  eapply wp_quiet; [quietly|by eapply progress_keyed| |intros; by eapply Hq, nothing_trans]. intros [] s3 P3.
  apply (nothing_trans _ _ _ P2) in P3. clear P2 s2.
  destruct (_ =? _)%string; [by apply Hstop|]. destruct (_ =? _)%string; [by apply Hstop|].
  apply wp_bind. unfold wp at 1, world. destruct (en_Control en (xs_W s3)) as [w1 c] eqn:Ec.
  assert (progress nothing s0 (set_W w1 s3)) as P4.
  { eapply nothing_trans; [exact P3|]. by apply quiet_progress; [by eapply progress_keyed|..]. }
  apply wp_bind, wp_lift; [|by apply Hq]. intros ctl ->. set (role := roleNameOfARN (cl_RoleARN ctl)).
  destruct (is_empty (refuseDirect dep plan role)) eqn:Er; cbn [negb]; [|by apply Hstop]. apply is_empty_true in Er.
  apply wp_bind, wp_query; [by eapply progress_keyed| |intros; by eapply Hq, nothing_trans]. intros s5 P5.
  apply (nothing_trans _ _ _ P4) in P5. clear P3 P4. apply wp_bind, wp_lift; [|by apply Hq]. intros cur Hcur.
  assert (dp_ID cur = dp_ID dep) as Hid.
  { revert Hcur. unfold db_deployment. destruct (_ !! _) as [p|]; [|done]. destruct (String.eqb_spec (dp_ID p) (dp_ID dep)); [|done]. by intros [= <-]. }
  destruct (negb _); [by apply Hstop|].
  eapply wp_quiet; [apply q_discovery|by eapply progress_keyed| |intros; by eapply Hq, nothing_trans]. intros [] s6 P6.
  apply (nothing_trans _ _ _ P5) in P6. apply wp_bind, wp_query; [by eapply progress_keyed| |intros; by eapply Hq, nothing_trans].
  intros s7 P7. apply (nothing_trans _ _ _ P6) in P7. apply wp_bind. unfold wp at 1, set_completed. set (s8 := Build_xstate _ _ _ _ _ _ _ _).
  assert (xs_Sent s7 = []) as Hs by (destruct P7 as [[(l & E & ->) _ _ _ _ _] _]; exact E).
  assert (loadCompleted cur (xs_DB s7) = stored (xs_DB s7)) as Hload by (by unfold loadCompleted, stored; rewrite Hid, Hdid).
  assert (forall s', changes (run_sends cur plan role 0 (xs_Completed s8)) s8 s' -> run_requests dep plan d s') as Hrr.
  { intros s' [(l & E & Hl) _ _ _ _ _]. right. exists ctl, cur. split_and!; [by exists (xs_W s3); rewrite Ec|done|done|].
    rewrite E. change (xs_Sent s8) with (xs_Sent s7). rewrite Hs, app_nil_r.
    eapply run_sends_mono; [reflexivity| |exact Hl]. cbn. rewrite Hload. apply (stored_later (xs_DB s0)), P7. }
  eapply wp_mono; [apply (wp_execute cur plan ctl role); [by rewrite Hid|lia|unfold run_fuel; lia|by apply (progress_keyed _ _ _ P7)]| |].
  - intros [] s9 (C9 & A9 & D9). split; [by apply Hrr|]. exists ctl, cur. split_and!; [by exists (xs_W s3); rewrite Ec|done|done|].
    intros j Hj. destruct C9 as [_ _ _ Ha L9 _]. destruct (Ha j (D9 j Hj)) as [Hj'|[_ Hj']]; [|done]. eapply stored_later; [exact L9|]. change (j ∈ stored (xs_DB s7)). rewrite <- Hload. exact Hj'.
  - intros s9 [C9 R9]. split; [by apply Hrr|]. apply R9. by apply P7.
Qed.

End Facts.
