(* ===== verification/ExecutorSafety.v ===== *)
(** What the executor guarantees (services/iga_gov_aws_executor.go), and a run of
    a compiled plan against a small IAM that shows the guarantees at work. *)

From stdpp Require Import base list strings gmap sorting relations.
From Stdlib Require Import Ascii.
From S2P Require Import Prelude Slices Qualify Float64 Utf8 Json JsonCanon Marshal Sha256 PolicyDoc Catalog Text Routes Hashes PolicyCanon TimeFmt Live Boundary Narrow Intent Bundle FirstAttach Plan Recover PlanSet Compile CompileFacts TargetFacts JobQueue AttemptLog AttemptFacts AwsAdapter Executor ExecutorFacts.

#[local] Opaque CanonicalizeValue ContentHash writeCanonical CanonicalDocument Request_Hash.

(** * The after state *)

Lemma after_position f v : position f v = AtAfter \/ position f v = AtBoth -> v = fa_After f.
Proof.
  unfold position. destruct (String.eqb_spec v (fa_Before f)), (String.eqb_spec v (fa_After f)); cbn; try done; by intros [?|?].
Qed.

Lemma position_cases f v : position f v ∈ [AtBoth; AtBefore; AtAfter; AtNeither].
Proof. unfold position. repeat case_match; set_solver. Qed.

(** The class is after only when every compared fact has its after value. *)
Lemma observed_after p facts obs f :
  cl_Class (classifyObserved p facts obs) = ClassAfter -> f ∈ facts -> fa_OnlyBefore f = false -> default "" (obs !! fa_Key f) = fa_After f.
Proof.
  intros Hc Hf Ho. unfold classifyObserved in Hc. cbv zeta in Hc. set (rs := map (fact_result obs) facts) in Hc.
  set (compared := List.filter _ rs) in Hc. assert (fact_result obs f ∈ compared) as Hin.
  { apply elem_of_filter_b. split; [apply list_elem_of_fmap; by exists f|by cbn; rewrite Ho]. }
  destruct (List.filter (at_is AtNeither) compared) as [|x l] eqn:En; [|done].
  destruct (existsb (at_is AtBefore) compared) eqn:Eb.
  { exfalso. destruct (existsb (at_is AtAfter) compared); cbn in Hc; repeat case_match; done. }
  apply after_position. pose proof (position_cases f (default "" (obs !! fa_Key f))) as Hp.
  assert (forall a, existsb (at_is a) compared = false -> position f (default "" (obs !! fa_Key f)) <> a) as Hno.
  { intros a Ha E. apply not_true_iff_false in Ha. apply Ha, existsb_exists. exists (fact_result obs f). split; [by apply list_elem_of_In|].
    unfold at_is. cbn. by apply String.eqb_eq. }
  apply Hno in Eb. assert (existsb (at_is AtNeither) compared = false) as Hn%Hno.
  { apply not_true_iff_false. intros (r & Hr & Ha)%existsb_exists. assert (r ∈ List.filter (at_is AtNeither) compared) as H.
    { apply elem_of_filter_b. split; [by apply list_elem_of_In|done]. } rewrite En in H. by apply not_elem_of_nil in H. }
  set_solver.
Qed.

Lemma Classify_after p live cl f :
  Classify p live = Ok cl -> cl_Class cl = ClassAfter -> f ∈ pl_Facts p -> fa_OnlyBefore f = false ->
  exists obs, ObserveFacts (pl_Facts p) live = Ok obs /\ default "" (obs !! fa_Key f) = fa_After f.
Proof.
  unfold Classify. intros H Hc Hf Ho. destruct (pl_Facts p) as [|g l] eqn:E; [done|]. apply bind_Ok in H as (obs & Hobs & [= <-]).
  exists obs. split; [done|]. by eapply observed_after.
Qed.

(** * Theorems *)

(** C16. A run of the executor ends: whatever AWS answers, whatever other transactions do between its statements, and
    however often reads disagree, the loop over the plan's operations stops with an outcome or an error after at most
    one turn per operation and one more, since every turn that goes on moves the cursor past an operation. *)
Theorem executor_terminates {W} (en : env W) cfg fence dep plan w d :
  others_legal en -> good (dp_ID dep) d -> (ExecutePlan_run en cfg fence dep plan (init_run w d)).2 <> XFuel.
Proof.
  intros Ho K E. pose proof (wp_ExecutePlan en cfg fence _ Ho dep plan w d eq_refl K) as H. unfold wp in H.
  destruct (ExecutePlan_run _ _ _ _ _ _) as [s []]; done.
Qed.

Lemma run_requests_of {W} (en : env W) cfg fence dep plan w d :
  others_legal en -> good (dp_ID dep) d -> run_requests en fence (dp_ID dep) dep plan d (ExecutePlan en cfg fence dep plan w d).1.
Proof.
  intros Ho K. pose proof (wp_ExecutePlan en cfg fence _ Ho dep plan w d eq_refl K) as H. unfold wp in H. unfold ExecutePlan, finish_run.
  destruct (ExecutePlan_run _ _ _ _ _ _) as [s []]; try done; apply H.
Qed.

(** C6. Nothing is sent that is not on record. Every request a run sends belongs to an operation of the deployment's plan,
    a plan [refuseDirect] accepts for the control's role, and is the request [NewRequest] resolves from that operation
    for that role. When it is sent the attempt log holds a dispatched attempt with the deployment, the operation, the
    hash of the request and the lease version of the run, whatever other transactions did meanwhile; the document it
    carries is archived; and a version is deleted only if it was listed as not the default, after its own document, as
    read, was archived. *)
Theorem requests_recorded_first {W} (en : env W) cfg fence dep plan w d k req d' :
  others_legal en -> good (dp_ID dep) d -> (k, req, d') ∈ xs_Sent (ExecutePlan en cfg fence dep plan w d).1 ->
  exists ctl op version docHash, let role := roleNameOfARN (cl_RoleARN ctl) in
    (exists w, (en_Control en w).2 = Ok ctl) /\ refuseDirect dep plan role = "" /\
    pl_Ops plan !! Z.to_nat k = Some op /\ NewRequest op (dp_ID dep) version role = Ok req /\
    (exists hash id a, Request_Hash req = Ok hash /\ db_Attempts d' !! id = Some a /\ was_dispatched a /\
       at_DeploymentID a = dp_ID dep /\ at_OpSeq a = k /\ at_RequestHash a = hash /\ at_LeaseVersion a = fc_Version fence) /\
    (docHash <> "" -> is_Some (db_Documents d' !! docHash)) /\
    if (op_Op op =? OpDeletePolicyVersion)%string
    then exists text c, deletable en (op_PolicyARN op) version text /\ CanonicalDocument text = Ok (c, docHash)
    else docHash = rq_DocumentHash req.
Proof.
  intros Ho K Hin. destruct (run_requests_of en cfg fence dep plan w d Ho K) as [E|(ctl & cur & Hctl & Href & Hid & F & _)].
  { rewrite E in Hin. by apply not_elem_of_nil in Hin. }
  rewrite Forall_forall in F. destruct (F _ Hin) as [_ (op & Hop & (_ & version & docHash & Hnew & (hash & id & Hh & Hr) & Hdoc) & _)].
  destruct Hr as [(a & Ha & (Hd & Hk & _ & Hhash & Hv & _) & Hdis) Harch]. cbn in Hop, Hd, Hk, Hhash, Hv, Harch. rewrite Hid in *.
  exists ctl, op, version, docHash. split_and!; [done|done|done|done| |done|].
  - exists hash, id, a. split_and!; done.
  - destruct (_ =? _)%string; [done|by apply Hdoc].
Qed.

(** C7. No operation is sent twice. In one run every operation other than a version selector sends at most one request;
    and an operation whose effect a read can see is never sent once the deployment's completed operations hold it: a
    worker that takes over waits for the effect to show, or reports that it vanished, instead of sending the request
    again. *)
Theorem no_operation_resent {W} (en : env W) cfg fence dep plan w d :
  others_legal en -> good (dp_ID dep) d ->
  let sent := xs_Sent (ExecutePlan en cfg fence dep plan w d).1 in
  NoDup (List.filter (single plan) (entry_op <$> sent)) /\
  forall k req d' op, (k, req, d') ∈ sent -> pl_Ops plan !! Z.to_nat k = Some op -> OpObservable op = true -> k ∉ loadCompleted dep d.
Proof.
  intros Ho K. cbv zeta. destruct (run_requests_of en cfg fence dep plan w d Ho K) as [->|(ctl & cur & _ & _ & Hid & F & N)].
  { split; [constructor|]. by intros k req d' op ?%not_elem_of_nil. }
  split; [done|]. intros k req d' op Hin Hop Hobs. rewrite Forall_forall in F. destruct (F _ Hin) as [_ (op' & Hop' & _ & Hx)].
  cbn in Hop', Hx. rewrite Hop in Hop'. injection Hop' as <-. by apply Hx.
Qed.

(** C5. Applied means applied. When a run reports its plan applied, the last things it asked of AWS, in the order of the
    run's history, are a read for the plan, the wait between reads and a second read for the plan: no request was sent
    after the first of them. Each is an entry of its own, what discovery answered at the time it was made. Both gave every
    fact the plan compares its after value, with the same hash of the artifact state; the artifact ledger was written
    from the second read, under the run's own lease, as the last thing the run did to the database; and every operation
    of the plan is among the completed operations of the deployment's row. *)
Theorem applied_means_after {W} (en : env W) cfg fence dep plan w d s o :
  others_legal en -> good (dp_ID dep) d -> ExecutePlan en cfg fence dep plan w d = (s, Ok o) -> do_Result o = DeployApplied ->
  (forall j, 0 <= j < Z.of_nat (length (pl_Ops plan)) -> j ∈ loadCompleted dep (xs_DB s)) /\
  exists ctl cur w1 t1 l1 versions1 w2 t2 l2 versions2 before st1 st2 hash,
    let role := roleNameOfARN (cl_RoleARN ctl) in
    (exists w, (en_Control en w).2 = Ok ctl) /\
    xs_Log s = LogRead w2 t2 (Ok (l2, versions2)) :: LogWait :: LogRead w1 t1 (Ok (l1, versions1)) :: before /\
    (ReadForPlan (en_Disc en) role plan t1 w1).2 = Ok (l1, versions1) /\ (ReadForPlan (en_Disc en) role plan t2 w2).2 = Ok (l2, versions2) /\
    (ArtifactState l1 = Ok st1 /\ StatePreconditionHash st1 = Ok hash) /\ (ArtifactState l2 = Ok st2 /\ StatePreconditionHash st2 = Ok hash) /\
    (forall l f, l = l1 \/ l = l2 -> f ∈ pl_Facts plan -> fa_OnlyBefore f = false ->
       exists obs, ObserveFacts (pl_Facts plan) l = Ok obs /\ default "" (obs !! fa_Key f) = fa_After f) /\
    exists id1 id2 t d0 ledger, owned (db_Jobs d0) fence = true /\ dp_ID cur = dp_ID dep /\
      writeLedgerTx cur plan ctl id1 id2 t l2 versions2 st2 hash d0 = Ok (xs_DB s, ledger).
Proof.
  intros Ho K E Hres. pose proof (wp_ExecutePlan en cfg fence _ Ho dep plan w d eq_refl K) as H. unfold wp in H.
  unfold ExecutePlan, finish_run in E. destruct (ExecutePlan_run _ _ _ _ _ _) as [s' [u| |e|]]; try done; injection E as <- <-; [|by destruct H].
  destruct H as [_ (ctl & cur & Hctl & Hid & [Hf _] & Hst)]. split; [exact Hst|].
  destruct Hf as (l1 & l2 & c1 & c2 & st1 & st2 & v1 & v2 & hash & id1 & id2 & t & d0 & ledger & (w1 & t1 & w2 & t2 & before & L & R1 & R2) & [C1 A1] & [C2 A2] & T1 & T2 & Hown & Hw & _).
  exists ctl, cur, w1, t1, l1, v1, w2, t2, l2, v2, before, st1, st2, hash. split_and!; [done|done|done|done|apply T1|apply T1|apply T2|apply T2| |].
  - intros l f [-> | ->]; by eapply Classify_after.
  - exists id1, id2, t, d0, ledger. done.
Qed.

(** * A version change *)

(** A small IAM: one role with one boundary policy of up to five versions, a
    clock of a millisecond per reading and fresh ids; nobody else writes. *)
Record cloud := { cd_Versions : list (string * bool * Time * string); cd_Made : Z; cd_Clock : Time; cd_Ids : Z }.

Definition cloud_error {A} (code : string) : answer A :=
  inr {| ce_Code := code; ce_Status := Some 400; ce_Ended := false; ce_Net := false; ce_RequestID := "r"; ce_Text := code |}.

Definition cloud_fails (code : string) : option callError := match cloud_error (A := unit) code with inr e => Some e | inl _ => None end.

Definition default_version (c : cloud) : string := default "" (head ((fun v => v.1.1.1) <$> List.filter (fun v => v.1.1.2) (cd_Versions c))).

Definition cloud_disc : DiscoveryIAM cloud :=
  {| GetRole n c := (c, if (n =? "x")%string
                        then inl {| ro_RoleID := "AROAEXAMPLEROLE00001"; ro_ARN := "arn:aws:iam::123456789012:role/x"; ro_Name := "x"; ro_Path := "/";
                                    ro_Tags := ∅; ro_BoundaryARN := sample_boundary; ro_TrustDocument := "" |}
                        else cloud_error "NoSuchEntity");
     ListAttachedRolePolicies _ c := (c, inl []);
     ListRolePolicies _ c := (c, inl []);
     GetRolePolicy _ _ c := (c, cloud_error "NoSuchEntity");
     GetPolicy a c := (c, if (a =? sample_boundary)%string
                          then inl {| pi_ARN := a; pi_Path := AuthSecPolicyPath; pi_Name := "AuthSecBoundary-AROAEXAMPLEROLE00001";
                                      pi_Tags := lp_Tags sample_boundary_policy; pi_DefaultVersionID := default_version c |}
                          else cloud_error "NoSuchEntity");
     GetPolicyVersion a v c := (c, match List.find (fun x => (x.1.1.1 =? v)%string) (cd_Versions c) with
                                   | Some x => inl x.2
                                   | None => cloud_error "NoSuchEntity"
                                   end);
     ListPolicyVersions a c := (c, inl ((fun x => {| vi_VersionID := x.1.1.1; vi_IsDefault := x.1.1.2; vi_CreateDate := x.1.2 |}) <$> cd_Versions c));
     ListEntitiesForPolicy a c := (c, inl (lp_AttachmentSet sample_boundary_policy)) |}.

Definition with_versions (vs : list (string * bool * Time * string)) (c : cloud) : cloud :=
  {| cd_Versions := vs; cd_Made := cd_Made c + 1; cd_Clock := cd_Clock c; cd_Ids := cd_Ids c |}.

Definition cloud_iam : IAM cloud :=
  {| CreatePolicy _ _ _ _ c := (c, cloud_error "EntityAlreadyExists");
     CreatePolicyVersion a doc def c :=
       if (5 <=? length (cd_Versions c))%nat then (c, cloud_error "LimitExceeded")
       else let v := "v" +:+ Itoa (cd_Made c + 1) in
            (with_versions (((fun x => (x.1.1.1, x.1.1.2 && negb def, x.1.2, x.2)) <$> cd_Versions c) ++ [(v, def, cd_Clock c, doc)]) c, inl v);
     DeletePolicyVersion a v c :=
       if (default_version c =? v)%string then (c, cloud_fails "DeleteConflict")
       else ({| cd_Versions := List.filter (fun x => negb (x.1.1.1 =? v)%string) (cd_Versions c); cd_Made := cd_Made c; cd_Clock := cd_Clock c;
                cd_Ids := cd_Ids c |}, None);
     PutRolePermissionsBoundary _ _ c := (c, cloud_fails "AccessDenied");
     DeleteRolePermissionsBoundary _ c := (c, cloud_fails "AccessDenied");
     DeletePolicy _ c := (c, cloud_fails "DeleteConflict");
     TagPolicyCall _ _ c := (c, None);
     RecordedRequestID _ := "r" |}.

Definition cloud_env : env cloud :=
  {| en_Disc := cloud_disc; en_IAM := cloud_iam;
     en_Control c := (c, Ok {| cl_ID := "ctl"; cl_RoleARN := "arn:aws:iam::123456789012:role/x"; cl_ConnectorID := "con" |});
     en_Discovery c := (c, None); en_Enforcement c := (c, None); en_Binding c := (c, None); en_Timeout c := (c, false); en_Sleep c := (c, None);
     en_Now c := ({| cd_Versions := cd_Versions c; cd_Made := cd_Made c; cd_Clock := cd_Clock c + 1000000; cd_Ids := cd_Ids c |}, cd_Clock c);
     en_Fresh c := ({| cd_Versions := cd_Versions c; cd_Made := cd_Made c; cd_Clock := cd_Clock c; cd_Ids := cd_Ids c + 1 |}, "id" +:+ Itoa (cd_Ids c));
     en_Jitter d c := (c, d); en_Others c d := (c, d, None) |}.

(** Five versions, so the oldest that is not the default has to go first. *)
Definition sample_cloud : cloud :=
  let doc := lp_DefaultDocument sample_boundary_policy in
  {| cd_Versions := [("v1", false, 1, doc); ("v2", false, 2, doc); ("v3", false, 3, doc); ("v4", false, 4, doc); ("v5", true, 5, doc)];
     cd_Made := 5; cd_Clock := 10; cd_Ids := 0 |}.

Definition sample_deployment : Deployment :=
  {| dp_ID := "d1"; dp_VersionID := "v1"; dp_ControlID := "ctl"; dp_Kind := PlanApply; dp_Delivery := DeliveryDirect; dp_State := GovDeployApplying;
     dp_StateReason := ""; dp_CompletedOps := []; dp_Attempts := 0; dp_OutcomeUnknownOp := ""; dp_SettleAfter := None |}.

(** The store with the plan's documents archived. *)
Definition sample_store (p : Plan) : DB :=
  {| db_Jobs := sample_jobs 1; db_Deployments := {["d1" := sample_deployment]}; db_Attempts := ∅;
     db_Documents := list_to_map ((fun a => (ad_Hash a, ad_Canonical a)) <$> pl_Documents p); db_Artifacts := ∅; db_Events := [] |}.

Definition sample_run (p : Plan) : xstate cloud * result DeployOutcome :=
  ExecutePlan cloud_env default_settings sample_fence sample_deployment p sample_cloud (sample_store p).

(** The compiled version change runs to its end: three requests, reported applied. *)
Definition runs_through (i : TargetInput) : bool :=
  match CompileTarget i with
  | Ok tp =>
      match sample_run (tp_Apply tp) with
      | (s, Ok o) => (do_Result o =? DeployApplied)%string && bool_decide (entry_op <$> xs_Sent s = [2; 1; 0])
      | _ => false
      end
  | Err _ => false
  end.

Lemma sample_runs : runs_through sample_target = true.
Proof. vm_compute. reflexivity. Qed.

Lemma sample_run_spec :
  exists p s o, sample_run p = (s, Ok o) /\ do_Result o = DeployApplied /\ entry_op <$> xs_Sent s = [2; 1; 0].
Proof.
  pose proof sample_runs as H. unfold runs_through in H. destruct (CompileTarget sample_target) as [tp|]; [|discriminate H].
  destruct (sample_run (tp_Apply tp)) as [s [o|]] eqn:E; [|discriminate H]. apply andb_true_iff in H as [H1 H2].
  exists (tp_Apply tp), s, o. split_and!; [exact E|by apply String.eqb_eq|by apply bool_decide_eq_true in H2].
Qed.

Lemma cloud_quiet : others_legal cloud_env.
Proof. intros w d. cbn. reflexivity. Qed.

Lemma sample_good p : good "d1" (sample_store p).
Proof. split; [|by exists sample_deployment]. intros id a. cbn. by rewrite lookup_empty. Qed.

Lemma executor_terminates_witness :
  exists p, (ExecutePlan_run cloud_env default_settings sample_fence sample_deployment p (init_run sample_cloud (sample_store p))).2 <> XFuel.
Proof.
  destruct sample_run_spec as (p & s & o & _). exists p.
  apply (executor_terminates cloud_env default_settings sample_fence sample_deployment p); [exact cloud_quiet|exact (sample_good p)].
Defined.

Lemma requests_recorded_first_witness :
  exists p k req d', (k, req, d') ∈ xs_Sent (sample_run p).1 /\ k = 0 /\ exists op, pl_Ops p !! 0%nat = Some op.
Proof.
  destruct sample_run_spec as (p & s & o & Hr & _ & Hs).
  assert (exists req d', (0, req, d') ∈ xs_Sent (sample_run p).1) as (req & d' & Hin).
  { rewrite Hr. cbn [fst]. assert (0 ∈ entry_op <$> xs_Sent s) as Hx by (rewrite Hs; set_solver).
    apply list_elem_of_fmap in Hx as ([[k req] d'] & Hk & Hin). cbn in Hk. subst k. by exists req, d'. }
  exists p, 0, req, d'. split; [exact Hin|]. split; [reflexivity|].
  destruct (requests_recorded_first cloud_env default_settings sample_fence sample_deployment p sample_cloud (sample_store p) 0 req d'
    cloud_quiet (sample_good p) Hin) as (ctl & op & v & h & _ & _ & Hop & _). exists op. exact Hop.
Defined.

Lemma no_operation_resent_witness : exists p, length (xs_Sent (sample_run p).1) = 3%nat /\ NoDup (List.filter (single p) (entry_op <$> xs_Sent (sample_run p).1)).
Proof.
  destruct sample_run_spec as (p & s & o & Hr & _ & Hs). exists p. split.
  - rewrite Hr. cbn [fst]. rewrite <- (length_fmap entry_op), Hs. reflexivity.
  - exact (proj1 (no_operation_resent cloud_env default_settings sample_fence sample_deployment p sample_cloud (sample_store p)
      cloud_quiet (sample_good p))).
Defined.

Lemma applied_means_after_witness :
  exists p s o, sample_run p = (s, Ok o) /\ do_Result o = DeployApplied /\
    (forall j, 0 <= j < Z.of_nat (length (pl_Ops p)) -> j ∈ loadCompleted sample_deployment (xs_DB s)) /\
    exists w1 t1 l1 w2 t2 l2 before, xs_Log s = LogRead w2 t2 (Ok l2) :: LogWait :: LogRead w1 t1 (Ok l1) :: before.
Proof.
  destruct sample_run_spec as (p & s & o & Hr & Ha & _). exists p, s, o. split; [exact Hr|]. split; [exact Ha|].
  destruct (applied_means_after cloud_env default_settings sample_fence sample_deployment p sample_cloud (sample_store p) s o
    cloud_quiet (sample_good p) Hr Ha) as [Hc (ctl & cur & w1 & t1 & l1 & v1 & w2 & t2 & l2 & v2 & before & st1 & st2 & h & _ & L & _)].
  split; [exact Hc|]. exists w1, t1, (l1, v1), w2, t2, (l2, v2), before. exact L.
Defined.
