(* ===== verification/Rollout.v ===== *)
(** The rollout of a policy version (services/iga_gov_rollout_service.go,
    iga_gov_rollout_jobs.go, iga_gov_rollout_canary.go) and the approval rule
    every deployment it creates must satisfy
    (services/iga_gov_approval_service.go, [usableApproval]).

    A rollout observes, waits for its approval, deploys to one canary target,
    and expands to the others when the canary's gates allow; it can be paused at
    any stage before its end. Each [..._tx] below is one database transaction
    on the rows of a workspace: it locks the version and the rollout and is
    atomic, so it is a function from rows to rows or to a refusal that changes
    nothing. A handler ([Start], [Pause], [Resume], [Expand], [tickObserve],
    [tickCanary], ...) reads first, may let the approval service revalidate (a
    transaction of its own), and then runs its transaction. [now] is the clock
    of one transaction. Failures of the database itself abort a transaction and
    are not represented. *)

From stdpp Require Import base list strings gmap sorting relations.
From S2P Require Import Prelude Slices Qualify Float64 Json Marshal TimeFmt Text Hashes PolicyDoc JobQueue Intent Bundle Health.

(** * Vocabularies *)

Definition GovRolloutObserve : string := "observe".
Definition GovRolloutAwaitingApproval : string := "awaiting_approval".
Definition GovRolloutCanary_ : string := "canary".
Definition GovRolloutExpand : string := "expand".
Definition GovRolloutComplete : string := "complete".
Definition GovRolloutPartial : string := "partial".
Definition GovRolloutPaused : string := "paused".
Definition GovRolloutUndone : string := "undone".

Definition GovAcceptGateNotAvailable : string := "gate_not_available".

Definition GovDeployQueued : string := "queued".
Definition GovDeployAppliedUnverified : string := "applied_unverified".
Definition GovDeployVerified : string := "verified".
Definition GovDeployFailed : string := "failed".
Definition GovDeployDrifted : string := "drifted".
Definition GovDeploySuperseded : string := "superseded".
Definition GovDeployRecovered : string := "recovered".
Definition GovDeployUndone : string := "undone".

(** The states of uq_iga_gov_deployment_inflight. *)
(* src: services/iga_gov_rollout_service.go:1018-1018 (GovRollout.createDeploymentTx, part) *)
Definition inflight_states : list string :=
  ["queued"; "applying"; "outcome_unknown"; "outcome_unresolved"; "awaiting_merge"; "awaiting_apply"].

Definition GovRevalidationUnchanged : string := "unchanged".
Definition GovRevalidationMaterialChange : string := "material_change".
Definition GovRevalidationBlocked : string := "blocked".

Definition GovModeEnforce : string := "enforce".
Definition GovReviewCancelled : string := "cancelled".

(** ** Pause kinds *)

Definition GovPauseManual : string := "manual".
Definition GovPauseGateFailed : string := "gate_failed".
Definition GovPauseDeploymentFailed : string := "deployment_failed".
Definition GovPauseDrifted : string := "drifted".
Definition GovPauseReturnedToDraft : string := "returned_to_draft".

(** * Errors *)

(** A refusal of the API (status, code and the identifiers and states of its
    detail; the sentence shown to a person and nested evidence are left out), a
    job given up, or any other error. *)
Inductive govError :=
  | GovError (status : Z) (code : string) (detail : list (string * goval))
  | JobAbandoned (reason : string)
  | OtherError (msg : string).

Inductive outcome (A : Type) := Done (a : A) | Refused (e : govError).
Arguments Done {A} _.
Arguments Refused {A} _.

#[export] Instance outcome_ret : MRet outcome := fun _ a => Done a.
#[export] Instance outcome_bind : MBind outcome := fun _ _ k r => match r with Done a => k a | Refused e => Refused e end.

(* src: services/iga_gov_authoring_service.go:316-318 (govConflict) *)
Definition govConflict (code : string) (detail : list (string * goval)) : govError := GovError 409 code detail.
(* src: services/iga_gov_authoring_service.go:320-322 (govUnprocessable) *)
Definition govUnprocessable (code : string) (detail : list (string * goval)) : govError := GovError 422 code detail.
(* src: services/iga_gov_reads.go:61-61 (GovNotFound) *)
Definition GovNotFound : govError := GovError 404 "not_found" [].
(* src: services/iga_gov_reads.go:56-58 (GovBadParam) *)
Definition GovBadParam (param : string) : govError := GovError 400 "invalid_parameter" [("parameter", GString param)].

(** [errors.As(err, &ge)]: the code and detail of a refusal. *)
Definition as_GovError (e : govError) : option (string * list (string * goval)) :=
  match e with GovError _ c d => Some (c, d) | _ => None end.

Definition ensure (b : bool) (e : govError) : outcome unit := if b then Done tt else Refused e.
Definition unless (e : option govError) : outcome unit := match e with None => Done tt | Some e => Refused e end.
Definition take {A} (o : option A) : outcome A := match o with Some a => Done a | None => Refused (OtherError "record not found") end.

(** * Rows *)

(* src: models/iga_gov_policy.go:261-274 (IGAGovPolicy) *)
Record Policy := { po_ID : string; po_Lifecycle : string; po_OwnerUserID : option string }.

(** [pv_Intent] is the parsed intent column, [None] when it does not parse. *)
(* src: models/iga_gov_policy.go:280-293 (IGAGovPolicyVersion) *)
Record Version := {
  pv_ID : string;
  pv_PolicyID : string;
  pv_VersionNo : Z;
  pv_Intent : option Intent;
  pv_IntentHash : string;
  pv_EvidenceRev : Z;
  pv_Status : string;
  pv_CreatedBy : string;
  pv_CreatedAt : Time;
  pv_StatusChangedAt : Time }.

(* src: models/iga_gov_policy.go:337-346 (IGAGovTarget) *)
Record Target := { tg_ID : string; tg_VersionID : string; tg_ControlID : string; tg_IsCanary : bool }.

(* src: models/iga_gov_policy.go:315-332 (IGAGovControl) *)
Record Control := { cl_ID : string; cl_ConnectorID : string; cl_RoleID : string; cl_IdentityAccountID : string }.

(* src: models/iga_gov_policy.go:407-440 (IGAGovPlan) *)
Record PlanRow := {
  pn_ID : string;
  pn_VersionID : string;
  pn_TargetID : string;
  pn_ControlID : string;
  pn_Kind : string;
  pn_Delivery : string;
  pn_Eligibility : string;
  pn_IneligibleReason : string;
  pn_EvidenceBundleID : string;
  pn_PlanHash : string;
  pn_MaterialHash : string;
  pn_SupersededAt : option Time }.

(* src: models/iga_gov_policy.go:483-500 (IGAGovApproval) *)
Record Approval := {
  ap_ID : string;
  ap_VersionID : string;
  ap_Decision : string;
  ap_DecidedBy : string;
  ap_IntentHash : string;
  ap_PlanHashes : list string;
  ap_ExpiresAt : Time;
  ap_RevokedAt : option Time;
  ap_RevokedReason : string;
  ap_DecidedAt : Time }.

(* src: models/iga_gov_policy.go:506-520 (IGAGovRevalidation) *)
Record Revalidation := {
  rv_ID : string;
  rv_PlanID : string;
  rv_ApprovedMaterialHash : string;
  rv_EvidenceBundleID : string;
  rv_ResourcePolicyScanRunID : option string;
  rv_Result : string;
  rv_BlockedReason : string;
  rv_CreatedAt : Time }.

(* src: models/iga_gov_rollout.go:105-122 (IGAGovAcceptance) *)
Record Acceptance := {
  ac_ID : string;
  ac_Kind : string;
  ac_ItemKey : string;
  ac_ItemHash : string;
  ac_VersionID : string;
  ac_RolloutID : option string;
  ac_Stage : option string;
  ac_WindowStart : option Time;
  ac_WindowEnd : option Time;
  ac_Reason : string;
  ac_AcceptedBy : string;
  ac_AcceptedAt : Time }.

(** The columns the rollout writes or reads. *)
(* src: models/iga_gov_rollout.go:129-156 (IGAGovDeployment) *)
Record DeploymentRow := {
  dw_ID : string;
  dw_VersionID : string;
  dw_PlanID : string;
  dw_ControlID : string;
  dw_ApprovalID : option string;
  dw_Kind : string;
  dw_Delivery : string;
  dw_State : string;
  dw_StateReason : string;
  dw_AppliedAt : option Time;
  dw_RevalidationID : option string;
  dw_RevalidationResult : option string;
  dw_CreatedAt : Time }.

(* src: models/iga_gov_policy.go:148-163 (IGAGovActivityEvidence) *)
Record EvidenceRow := {
  ev_Rev : Z;
  ev_IdentityAccountID : string;
  ev_Service : string;
  ev_State : string;
  ev_LastAuthenticatedAt : option Time;
  ev_ReportGeneratedAt : option Time }.

(* src: models/iga_gov_ops.go:166-187 (IGAGovSettings) *)
Record Settings := { st_EnforcementMode : string; st_DefaultObservationDays : Z; st_CanaryHours : Z }.

(** The review columns [CancelReviewTx] writes. *)
Record Review := { rw_ID : string; rw_Status : string; rw_ClosedAt : option Time }.

(** ** [gate_results] *)

(* src: services/iga_gov_rollout_service.go:410-415 (GovRolloutPause) *)
Record GovRolloutPause := { ps_From : string; ps_Kind : string; ps_Reason : string; ps_At : Time }.

(* src: services/iga_gov_rollout_service.go:418-421 (GovRolloutUndoOffer) *)
Record GovRolloutUndoOffer := { uo_DeploymentID : string; uo_Path : string }.

(** [Targets] is never stored nor read. *)
(* src: services/iga_gov_rollout_service.go:424-429 (GovRolloutObservation) *)
Record GovRolloutObservation := { ob_Rev : Z; ob_EvaluatedAt : Time; ob_Result : ObservationResult }.

(* src: services/iga_gov_rollout_service.go:432-446 (GovRolloutCanary) *)
Record GovRolloutCanary := {
  ca_DeploymentID : string;
  ca_State : string;
  ca_Rev : Z;
  ca_EvaluatedAt : Time;
  ca_WindowStart : option Time;
  ca_WindowEnd : option Time;
  ca_Gates : list GateResult;
  ca_Accepted : list string;
  ca_Pass : bool;
  ca_NotAvailable : list string;
  ca_ApplicationHealth : DimensionResult;
  ca_Restriction : DimensionResult;
  ca_UnexpectedFailures : list UnexpectedFailure }.

(* src: services/iga_gov_rollout_service.go:449-455 (GovRolloutRefusal) *)
Record GovRolloutRefusal := { rf_TargetID : string; rf_RoleID : string; rf_Code : string; rf_Detail : list (string * goval) }.

(* src: services/iga_gov_rollout_service.go:458-462 (GovRolloutExpansion) *)
Record GovRolloutExpansion := { xp_At : Time; xp_Deployments : list string; xp_Refused : list GovRolloutRefusal }.

(* src: services/iga_gov_rollout_service.go:465-471 (GovRolloutResults) *)
Record GovRolloutResults := {
  rr_Observation : option GovRolloutObservation;
  rr_Canary : option GovRolloutCanary;
  rr_Pause : option GovRolloutPause;
  rr_UndoOffered : list GovRolloutUndoOffer;
  rr_Expansion : option GovRolloutExpansion }.

Definition no_results : GovRolloutResults :=
  {| rr_Observation := None; rr_Canary := None; rr_Pause := None; rr_UndoOffered := []; rr_Expansion := None |}.

Definition with_Observation o g : GovRolloutResults :=
  {| rr_Observation := Some o; rr_Canary := rr_Canary g; rr_Pause := rr_Pause g; rr_UndoOffered := rr_UndoOffered g;
     rr_Expansion := rr_Expansion g |}.
Definition with_Canary c g : GovRolloutResults :=
  {| rr_Observation := rr_Observation g; rr_Canary := Some c; rr_Pause := rr_Pause g; rr_UndoOffered := rr_UndoOffered g;
     rr_Expansion := rr_Expansion g |}.
Definition with_Pause p u g : GovRolloutResults :=
  {| rr_Observation := rr_Observation g; rr_Canary := rr_Canary g; rr_Pause := p; rr_UndoOffered := u;
     rr_Expansion := rr_Expansion g |}.
Definition with_Expansion x g : GovRolloutResults :=
  {| rr_Observation := rr_Observation g; rr_Canary := rr_Canary g; rr_Pause := rr_Pause g; rr_UndoOffered := rr_UndoOffered g;
     rr_Expansion := Some x |}.

(** [gate_results] is held as the value [saveTx] marshals and [rolloutResults]
    unmarshals. *)
(* src: models/iga_gov_rollout.go:86-98 (IGAGovRollout) *)
Record Rollout := {
  rl_ID : string;
  rl_VersionID : string;
  rl_Stage : string;
  rl_ObserveUntil : option Time;
  rl_ObserveEvidenceRequiredAfter : option Time;
  rl_CanaryStartedAt : option Time;
  rl_CanaryMinUntil : option Time;
  rl_GateResults : GovRolloutResults;
  rl_PausedReason : string;
  rl_UpdatedAt : Time }.

(** An event with its actor and the columns of [govEventRefs]. *)
Record GovEvent := {
  ge_Event : string; ge_ActorKind : string; ge_ActorID : string; ge_PolicyID : string; ge_VersionID : string;
  ge_DeploymentID : option string; ge_Payload : list (string * goval) }.

(** A notification asked for: channel and recipient. *)
Record Notice := { no_SubjectID : string; no_Channel : string; no_Recipient : string }.

(** The rows of a workspace. Tables read without an order are lists, in the
    order the database returns them; rollouts are keyed by their version
    (UNIQUE version_id). Events and notices are newest first. *)
Record RDB := {
  rd_Policies : gmap string Policy;
  rd_Versions : gmap string Version;
  rd_Targets : list Target;
  rd_Controls : gmap string Control;
  rd_Plans : list PlanRow;
  rd_Approvals : list Approval;
  rd_Revalidations : list Revalidation;
  rd_Reviews : gmap string Review;
  rd_Evidence : list EvidenceRow;
  rd_Settings : Settings;
  rd_Rollouts : gmap string Rollout;
  rd_Deployments : gmap string DeploymentRow;
  rd_Acceptances : list Acceptance;
  rd_Jobs : Jobs;
  rd_Notices : list Notice;
  rd_Events : list GovEvent }.

Definition put_Versions t d : RDB :=
  {| rd_Policies := rd_Policies d; rd_Versions := t; rd_Targets := rd_Targets d; rd_Controls := rd_Controls d;
     rd_Plans := rd_Plans d; rd_Approvals := rd_Approvals d; rd_Revalidations := rd_Revalidations d; rd_Reviews := rd_Reviews d;
     rd_Evidence := rd_Evidence d; rd_Settings := rd_Settings d; rd_Rollouts := rd_Rollouts d; rd_Deployments := rd_Deployments d;
     rd_Acceptances := rd_Acceptances d; rd_Jobs := rd_Jobs d; rd_Notices := rd_Notices d; rd_Events := rd_Events d |}.
Definition put_Approvals t d : RDB :=
  {| rd_Policies := rd_Policies d; rd_Versions := rd_Versions d; rd_Targets := rd_Targets d; rd_Controls := rd_Controls d;
     rd_Plans := rd_Plans d; rd_Approvals := t; rd_Revalidations := rd_Revalidations d; rd_Reviews := rd_Reviews d;
     rd_Evidence := rd_Evidence d; rd_Settings := rd_Settings d; rd_Rollouts := rd_Rollouts d; rd_Deployments := rd_Deployments d;
     rd_Acceptances := rd_Acceptances d; rd_Jobs := rd_Jobs d; rd_Notices := rd_Notices d; rd_Events := rd_Events d |}.
Definition put_Reviews t d : RDB :=
  {| rd_Policies := rd_Policies d; rd_Versions := rd_Versions d; rd_Targets := rd_Targets d; rd_Controls := rd_Controls d;
     rd_Plans := rd_Plans d; rd_Approvals := rd_Approvals d; rd_Revalidations := rd_Revalidations d; rd_Reviews := t;
     rd_Evidence := rd_Evidence d; rd_Settings := rd_Settings d; rd_Rollouts := rd_Rollouts d; rd_Deployments := rd_Deployments d;
     rd_Acceptances := rd_Acceptances d; rd_Jobs := rd_Jobs d; rd_Notices := rd_Notices d; rd_Events := rd_Events d |}.
Definition put_Rollouts t d : RDB :=
  {| rd_Policies := rd_Policies d; rd_Versions := rd_Versions d; rd_Targets := rd_Targets d; rd_Controls := rd_Controls d;
     rd_Plans := rd_Plans d; rd_Approvals := rd_Approvals d; rd_Revalidations := rd_Revalidations d; rd_Reviews := rd_Reviews d;
     rd_Evidence := rd_Evidence d; rd_Settings := rd_Settings d; rd_Rollouts := t; rd_Deployments := rd_Deployments d;
     rd_Acceptances := rd_Acceptances d; rd_Jobs := rd_Jobs d; rd_Notices := rd_Notices d; rd_Events := rd_Events d |}.
Definition put_Deployments t d : RDB :=
  {| rd_Policies := rd_Policies d; rd_Versions := rd_Versions d; rd_Targets := rd_Targets d; rd_Controls := rd_Controls d;
     rd_Plans := rd_Plans d; rd_Approvals := rd_Approvals d; rd_Revalidations := rd_Revalidations d; rd_Reviews := rd_Reviews d;
     rd_Evidence := rd_Evidence d; rd_Settings := rd_Settings d; rd_Rollouts := rd_Rollouts d; rd_Deployments := t;
     rd_Acceptances := rd_Acceptances d; rd_Jobs := rd_Jobs d; rd_Notices := rd_Notices d; rd_Events := rd_Events d |}.
Definition put_Acceptances t d : RDB :=
  {| rd_Policies := rd_Policies d; rd_Versions := rd_Versions d; rd_Targets := rd_Targets d; rd_Controls := rd_Controls d;
     rd_Plans := rd_Plans d; rd_Approvals := rd_Approvals d; rd_Revalidations := rd_Revalidations d; rd_Reviews := rd_Reviews d;
     rd_Evidence := rd_Evidence d; rd_Settings := rd_Settings d; rd_Rollouts := rd_Rollouts d; rd_Deployments := rd_Deployments d;
     rd_Acceptances := t; rd_Jobs := rd_Jobs d; rd_Notices := rd_Notices d; rd_Events := rd_Events d |}.
Definition put_Jobs t d : RDB :=
  {| rd_Policies := rd_Policies d; rd_Versions := rd_Versions d; rd_Targets := rd_Targets d; rd_Controls := rd_Controls d;
     rd_Plans := rd_Plans d; rd_Approvals := rd_Approvals d; rd_Revalidations := rd_Revalidations d; rd_Reviews := rd_Reviews d;
     rd_Evidence := rd_Evidence d; rd_Settings := rd_Settings d; rd_Rollouts := rd_Rollouts d; rd_Deployments := rd_Deployments d;
     rd_Acceptances := rd_Acceptances d; rd_Jobs := t; rd_Notices := rd_Notices d; rd_Events := rd_Events d |}.
Definition put_Notices t d : RDB :=
  {| rd_Policies := rd_Policies d; rd_Versions := rd_Versions d; rd_Targets := rd_Targets d; rd_Controls := rd_Controls d;
     rd_Plans := rd_Plans d; rd_Approvals := rd_Approvals d; rd_Revalidations := rd_Revalidations d; rd_Reviews := rd_Reviews d;
     rd_Evidence := rd_Evidence d; rd_Settings := rd_Settings d; rd_Rollouts := rd_Rollouts d; rd_Deployments := rd_Deployments d;
     rd_Acceptances := rd_Acceptances d; rd_Jobs := rd_Jobs d; rd_Notices := t; rd_Events := rd_Events d |}.
Definition put_Events t d : RDB :=
  {| rd_Policies := rd_Policies d; rd_Versions := rd_Versions d; rd_Targets := rd_Targets d; rd_Controls := rd_Controls d;
     rd_Plans := rd_Plans d; rd_Approvals := rd_Approvals d; rd_Revalidations := rd_Revalidations d; rd_Reviews := rd_Reviews d;
     rd_Evidence := rd_Evidence d; rd_Settings := rd_Settings d; rd_Rollouts := rd_Rollouts d; rd_Deployments := rd_Deployments d;
     rd_Acceptances := rd_Acceptances d; rd_Jobs := rd_Jobs d; rd_Notices := rd_Notices d; rd_Events := t |}.

(** * Services the rollout calls *)

(** What the rollout is told about a deployment ([RolloutDeploymentFacts] is an
    interface; its implementations are not modelled). *)
(* src: services/iga_gov_rollout_service.go:180-207 (RolloutDeploymentGateFacts) *)
Record GateFacts := {
  gf_State : string;
  gf_StateReason : string;
  gf_AppliedAt : option Time;
  gf_Dimensions : gmap string DimensionResult;
  gf_Gates : list GateResult;
  gf_UnexpectedFailures : list UnexpectedFailure;
  gf_Canary : option CanaryInput }.

(** The other services, as functions of the rows they read (the tables that are
    not of [RDB] are part of the function, the clock is an argument of the two
    rules that compare the age of evidence with it): the owner review
    ([CheckGate], [CanaryAcknowledgement]: shared, acknowledged), the plan
    bundle's grants with the Allow/Deny statements of their content hashes
    (effect, actions), the enforcement binding, membership and permissions,
    evidence freshness of a plan, staleness of a revalidation, [Revalidate]
    (a transaction of its own; [None] without a live reader), the deployment
    facts, the remove-control starter, and the notification channels (the
    workspace webhook, email, extra channels that reach a user). *)
Record services := {
  sv_Workspace : string;
  sv_CheckGate : RDB -> string -> option govError;
  sv_Acknowledgement : RDB -> string -> string -> outcome (bool * bool);
  sv_Grants : RDB -> string -> outcome (list BundleGrant);
  sv_Statements : RDB -> list string -> list (string * list string);
  sv_RequireVerified : RDB -> string -> option govError;
  sv_ActiveMember : RDB -> string -> bool;
  sv_Holds : RDB -> string -> string -> string -> bool;
  sv_EvidenceFresh : Time -> RDB -> string -> bool;
  sv_Stale : Time -> RDB -> string -> Revalidation -> list string;
  sv_Revalidate : option (RDB -> string -> RDB * outcome string);
  sv_Facts : RDB -> string -> outcome GateFacts;
  sv_RemoveStarter : option (RDB -> string -> string -> outcome RDB);
  sv_Webhook : bool;
  sv_Email : bool;
  sv_Extra : string -> list string }.

Section Rollouts.
Context (sv : services).

(** * Loading *)

(* src: services/iga_gov_rollout_service.go:483-487 (govRolloutTarget) *)
Record rtarget := { rt_Target : Target; rt_Control : Control; rt_Plan : option PlanRow }.

(* src: services/iga_gov_rollout_service.go:489-495 (govRolloutCtx) *)
Record rctx := {
  cx_Policy : Policy;
  cx_Version : Version;
  cx_Intent : RightSizeIntent;
  cx_Rollout : option Rollout;
  cx_Targets : list rtarget }.

(* src: services/iga_gov_rollout_service.go:502-513 (govRolloutCtx.canary) *)
Definition canary (ts : list rtarget) : outcome rtarget :=
  match List.find (fun t => tg_IsCanary (rt_Target t)) ts, ts with
  | Some t, _ => Done t
  | None, [t] => Done t
  | None, _ => Refused (govConflict "canary_not_chosen" [("targets", GInt (Z.of_nat (length ts)))])
  end.

(* src: services/iga_gov_compile_service.go:294-304 (storedRightSize) *)
Definition storedRightSize (v : Version) : outcome RightSizeIntent :=
  match pv_Intent v with
  | None => Refused (OtherError "intent")
  | Some i => if negb (in_Kind i =? IntentRightSizeServices)%string
              then Refused (govUnprocessable "invalid_intent" [("kind", GString (in_Kind i))])
              else take (in_RightSize i)
  end.

(** The last current apply plan of the target. *)
(* src: services/iga_gov_compile_service.go:416-427 (currentApplyPlans) *)
Definition currentApplyPlan (d : RDB) (vid tid : string) : option PlanRow :=
  last (List.filter (fun p => (pn_VersionID p =? vid)%string && (pn_Kind p =? "apply")%string &&
                              bool_decide (pn_SupersededAt p = None) && (pn_TargetID p =? tid)%string) (rd_Plans d)).

(* src: services/iga_gov_rollout_service.go:535-546 (GovRollout.loadVersionCtx, part) *)
Definition load_target (d : RDB) (vid : string) (t : Target) : outcome rtarget :=
  c ← take (rd_Controls d !! tg_ControlID t);
  Done {| rt_Target := t; rt_Control := c; rt_Plan := currentApplyPlan d vid (tg_ID t) |}.

(* src: services/iga_gov_rollout_service.go:517-560 (GovRollout.loadVersionCtx) *)
Definition loadVersionCtx (d : RDB) (v : Version) : outcome rctx :=
  p ← take (rd_Policies d !! pv_PolicyID v);
  i ← storedRightSize v;
  let ts := sort_slice (fun a b => str_lt (tg_ID a) (tg_ID b)) (List.filter (fun t => (tg_VersionID t =? pv_ID v)%string) (rd_Targets d)) in
  rts ← mapM (load_target d (pv_ID v)) ts;
  Done {| cx_Policy := p; cx_Version := v; cx_Intent := i; cx_Rollout := rd_Rollouts d !! pv_ID v;
          cx_Targets := sort_slice (fun a b => str_lt (cl_RoleID (rt_Control a)) (cl_RoleID (rt_Control b))) rts |}.

(** The version row under its lock, and its context. *)
Definition load_tx (d : RDB) (vid : string) : outcome rctx := v ← take (rd_Versions d !! vid); loadVersionCtx d v.

(** Newest version first. *)
Definition newest (vs : list Version) : option Version := head (sort_slice (fun a b => pv_VersionNo b <? pv_VersionNo a) vs).

Definition versions_of (d : RDB) (policyID : string) (p : Version -> bool) : list Version :=
  List.filter (fun v => (pv_PolicyID v =? policyID)%string && p v) (snd <$> map_to_list (rd_Versions d)).

Definition finished (stage : string) : bool := bool_decide (stage ∈ [GovRolloutComplete; GovRolloutPartial; GovRolloutUndone]).

(* src: services/iga_gov_rollout_service.go:566-603 (GovRollout.policyVersionFor) *)
Definition policyVersionFor (d : RDB) (policyID : string) (versionNo : option Z) (forStart : bool) : outcome Version :=
  match rd_Policies d !! policyID with
  | None => Refused GovNotFound
  | Some _ =>
      match versionNo with
      | Some n => match head (versions_of d policyID (fun v => pv_VersionNo v =? n)) with
                  | Some v => Done v
                  | None => Refused GovNotFound
                  end
      | None =>
          if forStart then
            match newest (versions_of d policyID (fun v => bool_decide (pv_Status v ∈ ["in_review"; "approved"]))) with
            | Some v => Done v
            | None => Refused (govConflict "version_conflict" [])
            end
          else
            match newest (versions_of d policyID (fun v =>
                    match rd_Rollouts d !! pv_ID v with Some r => negb (finished (rl_Stage r)) | None => false end)) with
            | Some v => Done v
            | None => Refused (govConflict "rollout_not_started" [])
            end
      end
  end.

(** * Writing *)

Definition time_val (t : Time) : goval := GString (FormatRFC3339Nano t).
Definition opt_time_val (t : option Time) : goval := match t with Some t => time_val t | None => GNull end.
Definition strings_val (l : list string) : goval := GSlice (GString <$> l).
Definition gate_val (g : GateResult) : goval :=
  GStruct ([("gate", GString (gr_Gate g)); ("outcome", GString (gr_Outcome g))] ++
           (if is_empty (gr_Reason g) then [] else [("reason", GString (gr_Reason g))]) ++
           (match gr_Evidence g with [] => [] | l => [("evidence", strings_val l)] end)).
Definition gates_val (l : list GateResult) : goval := GSlice (gate_val <$> l).
Definition dimension_val (r : DimensionResult) : goval :=
  GStruct ([("outcome", GString (dr_Outcome r)); ("attribution", GString (dr_Attribution r))] ++
           (if is_empty (dr_Reason r) then [] else [("reason", GString (dr_Reason r))])).
Definition failure_val (u : UnexpectedFailure) : goval :=
  GStruct [("event_time", time_val (uf_EventTime u)); ("action", GString (uf_Action u)); ("session_name", GString (uf_SessionName u));
           ("error_code", GString (uf_ErrorCode u)); ("class", GString (uf_Class u));
           ("denial_policy_type", GString (uf_DenialPolicyType u))].
Definition pause_val (p : option GovRolloutPause) : goval :=
  match p with
  | Some p => GStruct [("from", GString (ps_From p)); ("kind", GString (ps_Kind p)); ("reason", GString (ps_Reason p));
                       ("at", time_val (ps_At p))]
  | None => GNull
  end.

(** [uuid.Nil] is the empty text. *)
(* src: services/iga_gov_rollout_service.go:621-626 (actorPair) *)
Definition actorPair (actor : string) : string * string := if is_empty actor then ("system", "rollout") else ("user", actor).

(* src: services/iga_gov_event_vocabulary.go:331-344 (appendGovEvent) *)
Definition appendGovEvent (cx : rctx) (name actor : string) (dep : option string) (payload : list (string * goval)) (d : RDB) : RDB :=
  put_Events ({| ge_Event := name; ge_ActorKind := fst (actorPair actor); ge_ActorID := snd (actorPair actor);
                 ge_PolicyID := po_ID (cx_Policy cx); ge_VersionID := pv_ID (cx_Version cx); ge_DeploymentID := dep;
                 ge_Payload := payload |} :: rd_Events d) d.

(** [ro] as [saveTx] leaves it in memory and in the table. *)
Definition stored (now : Time) (ro : Rollout) (g : GovRolloutResults) : Rollout :=
  {| rl_ID := rl_ID ro; rl_VersionID := rl_VersionID ro; rl_Stage := rl_Stage ro; rl_ObserveUntil := rl_ObserveUntil ro;
     rl_ObserveEvidenceRequiredAfter := rl_ObserveEvidenceRequiredAfter ro; rl_CanaryStartedAt := rl_CanaryStartedAt ro;
     rl_CanaryMinUntil := rl_CanaryMinUntil ro; rl_GateResults := g; rl_PausedReason := rl_PausedReason ro; rl_UpdatedAt := now |}.

(* src: services/iga_gov_rollout_service.go:607-619 (GovRollout.saveTx) *)
Definition saveTx (now : Time) (ro : Rollout) (g : GovRolloutResults) (d : RDB) : RDB :=
  put_Rollouts (<[rl_VersionID ro := stored now ro g]> (rd_Rollouts d)) d.

(** [ro] with its stage and paused reason assigned. *)
Definition at_stage (stage reason : string) (ro : Rollout) : Rollout :=
  {| rl_ID := rl_ID ro; rl_VersionID := rl_VersionID ro; rl_Stage := stage; rl_ObserveUntil := rl_ObserveUntil ro;
     rl_ObserveEvidenceRequiredAfter := rl_ObserveEvidenceRequiredAfter ro; rl_CanaryStartedAt := rl_CanaryStartedAt ro;
     rl_CanaryMinUntil := rl_CanaryMinUntil ro; rl_GateResults := rl_GateResults ro; rl_PausedReason := reason;
     rl_UpdatedAt := rl_UpdatedAt ro |}.

Definition to_stage (stage : string) (ro : Rollout) : Rollout := at_stage stage (rl_PausedReason ro) ro.

(** [ro.CanaryStartedAt, ro.CanaryMinUntil] assigned. *)
Definition with_window (started until : option Time) (ro : Rollout) : Rollout :=
  {| rl_ID := rl_ID ro; rl_VersionID := rl_VersionID ro; rl_Stage := rl_Stage ro; rl_ObserveUntil := rl_ObserveUntil ro;
     rl_ObserveEvidenceRequiredAfter := rl_ObserveEvidenceRequiredAfter ro; rl_CanaryStartedAt := started;
     rl_CanaryMinUntil := until; rl_GateResults := rl_GateResults ro; rl_PausedReason := rl_PausedReason ro;
     rl_UpdatedAt := rl_UpdatedAt ro |}.

(* src: services/iga_gov_rollout_service.go:639-652 (GovRollout.deliveryAllowed) *)
Definition deliveryAllowed (d : RDB) (delivery : string) : outcome unit :=
  if (delivery =? DeliveryExport)%string then Done tt
  else ensure (st_EnforcementMode (rd_Settings d) =? GovModeEnforce)%string
         (govConflict "enforcement_not_enabled" [("enforcement_mode", GString (st_EnforcementMode (rd_Settings d)));
                                                 ("delivery", GString delivery)]).

(* src: services/iga_gov_rollout_service.go:664-672 (policyUsable) *)
Definition policyUsable (p : Policy) : outcome unit :=
  if (po_Lifecycle p =? "archived")%string then Refused (govConflict "policy_archived" [])
  else if (po_Lifecycle p =? "paused")%string then Refused (govConflict "policy_paused" [])
  else Done tt.

(** The rollout section of a version's intent (only right_size_services has one). *)
Definition rollout_intent (v : Version) : option RolloutIntent :=
  match pv_Intent v with
  | Some i => match in_RightSize i with Some r => rs_Rollout r | None => None end
  | None => None
  end.

(* src: services/iga_gov_rollout_canary.go:49-71 (GovCanaryHours) *)
Definition GovCanaryHours (d : RDB) (vid : string) : Z :=
  let setting := if st_CanaryHours (rd_Settings d) <? 1 then 48 else st_CanaryHours (rd_Settings d) in
  match rd_Versions d !! vid ≫= rollout_intent with
  | Some r => if 0 <? ro_CanaryHours r then ro_CanaryHours r else setting
  | None => setting
  end.

(** * Is an approval still usable? *)

(* src: services/iga_gov_approval_service.go:98-108 (liveApproval) *)
Definition liveApproval (d : RDB) (vid : string) : option Approval :=
  List.find (fun a => (ap_VersionID a =? vid)%string && (ap_Decision a =? "approve")%string && bool_decide (ap_RevokedAt a = None))
    (rd_Approvals d).

(* src: services/iga_gov_approval_service.go:592-605 (GovAuthoring.usableApproval, part) *)
Definition approver_reasons (d : RDB) (v : Version) (ap : Approval) : list string :=
  (if (ap_DecidedBy ap =? pv_CreatedBy v)%string then ["approver_is_author"] else []) ++
  (if sv_ActiveMember sv d (ap_DecidedBy ap) then [] else ["approver_not_active_member"]) ++
  (if sv_Holds sv d (ap_DecidedBy ap) "governance" "approve" then [] else ["approver_lacks_governance_approve"]).

(** [ORDER BY created_at DESC, id DESC LIMIT 1]. *)
(* src: services/iga_gov_approval_service.go:634-638 (GovAuthoring.usableApproval, part) *)
Definition latest_revalidation (d : RDB) (p : PlanRow) : option Revalidation :=
  head (sort_slice (fun a b => (rv_CreatedAt b <? rv_CreatedAt a) || ((rv_CreatedAt a =? rv_CreatedAt b) && str_lt (rv_ID b) (rv_ID a)))
          (List.filter (fun r => (rv_PlanID r =? pn_ID p)%string && (rv_ApprovedMaterialHash r =? pn_MaterialHash p)%string)
             (rd_Revalidations d))).

(** One plan of the approval: the revalidation relied on, or [None] when the
    evidence is fresh (or freshness is not asked for). *)
(* src: services/iga_gov_approval_service.go:611-660 (GovAuthoring.usableApproval, part) *)
Definition usable_plan (now : Time) (d : RDB) (v : Version) (ap : Approval) (checkFresh : bool) (id : string) : outcome (option string) :=
  match List.find (fun p => (pn_ID p =? id)%string && (pn_VersionID p =? pv_ID v)%string) (rd_Plans d) with
  | None => Refused GovNotFound
  | Some p =>
      if bool_decide (is_Some (pn_SupersededAt p)) || negb (bool_decide (pn_PlanHash p ∈ ap_PlanHashes ap))
      then Refused (govConflict "plan_changed" [("plan_id", GString (pn_ID p))])
      else if negb checkFresh || sv_EvidenceFresh sv now d (pn_ID p) then Done None
      else
        let needed := Refused (govConflict "revalidation_required" [("plan_id", GString (pn_ID p))]) in
        match latest_revalidation d p with
        | None => needed
        | Some rv =>
            if (rv_CreatedAt rv <? ap_DecidedAt ap) || negb (length (sv_Stale sv now d (pn_ControlID p) rv) =? 0)%nat then needed
            else if (rv_Result rv =? GovRevalidationMaterialChange)%string
            then Refused (govConflict "material_change" [("plan_id", GString (pn_ID p)); ("revalidation_id", GString (rv_ID rv))])
            else if (rv_Result rv =? GovRevalidationBlocked)%string
            then Refused (govConflict "revalidation_blocked" [("plan_id", GString (pn_ID p)); ("revalidation_id", GString (rv_ID rv));
                                                              ("reason", GString (rv_BlockedReason rv))])
            else Done (Some (rv_ID rv))
        end
  end.

(* src: services/iga_gov_approval_service.go:569-662 (GovAuthoring.usableApproval) *)
Definition usableApproval (now : Time) (d : RDB) (vid : string) (planIDs : list string) (checkFresh : bool)
  : outcome (Approval * list (option string)) :=
  match rd_Versions d !! vid with
  | None => Refused GovNotFound
  | Some v =>
      match liveApproval d (pv_ID v), (pv_Status v =? "approved")%string with
      | Some ap, true =>
          if ap_ExpiresAt ap <=? now
          then Refused (govConflict "approval_expired" [("approval_id", GString (ap_ID ap)); ("expired_at", time_val (ap_ExpiresAt ap))])
          else if negb (ap_IntentHash ap =? pv_IntentHash v)%string
          then Refused (govConflict "plan_changed" [("approval_id", GString (ap_ID ap))])
          else match approver_reasons d v ap with
               | (_ :: _) as rs => Refused (govConflict "approval_invalid" [("approval_id", GString (ap_ID ap)); ("reasons", strings_val rs)])
               | [] => rvs ← mapM (usable_plan now d v ap checkFresh) planIDs; Done (ap, rvs)
               end
      | _, _ => Refused (govConflict "approval_required" [("status", GString (pv_Status v))])
      end
  end.

(* src: services/iga_gov_approval_service.go:553-555 (GovAuthoring.UsableApproval) *)
Definition UsableApproval (now : Time) (d : RDB) (vid : string) (planIDs : list string) := usableApproval now d vid planIDs true.

(** * Deployments *)

Definition no_plan (t : rtarget) : govError := govUnprocessable "target_ineligible" [("target_id", GString (tg_ID (rt_Target t)))].

(** The rows after a revalidation, and whether the target may be deployed. *)
(* src: services/iga_gov_rollout_service.go:964-993 (GovRollout.prepare) *)
Definition prepare (now : Time) (vid : string) (t : rtarget) (d : RDB) : RDB * outcome unit :=
  match rt_Plan t with
  | None => (d, Refused (no_plan t))
  | Some p =>
      if (pn_Eligibility p =? "ineligible")%string
      then (d, Refused (govUnprocessable "target_ineligible" [("target_id", GString (tg_ID (rt_Target t)));
                                                             ("reason", GString (pn_IneligibleReason p))]))
      else match UsableApproval now d vid [pn_ID p] with
           | Done _ => (d, Done tt)
           | Refused e =>
               match (if (default "" (fst <$> as_GovError e) =? "revalidation_required")%string then sv_Revalidate sv else None) with
               | None => (d, Refused e)
               | Some revalidate =>
                   let '(d1, r) := revalidate d (pn_ID p) in
                   (d1, res ← r;
                        _ ← ensure (negb (res =? GovRevalidationMaterialChange)%string)
                              (govConflict "material_change" [("plan_id", GString (pn_ID p))]);
                        _ ← UsableApproval now d1 vid [pn_ID p]; Done tt)
               end
           end
  end.

Definition inflight (x : DeploymentRow) : bool := bool_decide (dw_State x ∈ inflight_states).

Definition deployments_where (p : DeploymentRow -> bool) (d : RDB) : list DeploymentRow :=
  List.filter p (snd <$> map_to_list (rd_Deployments d)).

(** The deploy job; a refused insert aborts the transaction. *)
(* src: services/iga_gov_deploy_service.go:366-371 (enqueueJobTx) *)
Definition enqueueJobTx (fresh kind subject : string) (now : Time) (d : RDB) : outcome RDB :=
  match EnqueueTx fresh (Some now) now now
          {| jb_ID := ""; jb_WorkspaceID := sv_Workspace sv; jb_Kind := kind; jb_SubjectID := Some subject; jb_Rev := None;
             jb_DedupeKey := "deployment:" +:+ subject; jb_Status := ""; jb_RunAfter := now; jb_LeaseOwner := ""; jb_LeaseExpiresAt := None;
             jb_LeaseVersion := 0; jb_Attempts := 0; jb_MaxAttempts := 0; jb_LastError := ""; jb_CreatedAt := now; jb_CompletedAt := None |}
          (rd_Jobs d) with
  | Ok (t, _, _) => Done (put_Jobs t d)
  | Err _ => Refused (OtherError "enqueue")
  end.

(* src: services/iga_gov_deploy_service.go:375-377 (EnqueueDeployTx) *)
Definition EnqueueDeployTx (fresh dep : string) (now : Time) (d : RDB) : outcome RDB := enqueueJobTx fresh GovJobDeploy dep now d.

(* src: services/iga_gov_rollout_service.go:1028-1034 (GovRollout.createDeploymentTx, part) *)
Definition new_deployment (fresh : string) (now : Time) (vid : string) (t : rtarget) (p : PlanRow) (ap : Approval) (rv : option string)
  : DeploymentRow :=
  {| dw_ID := fresh; dw_VersionID := vid; dw_PlanID := pn_ID p; dw_ControlID := cl_ID (rt_Control t);
     dw_ApprovalID := Some (ap_ID ap); dw_Kind := pn_Kind p; dw_Delivery := pn_Delivery p; dw_State := GovDeployQueued;
     dw_StateReason := ""; dw_AppliedAt := None; dw_RevalidationID := rv;
     dw_RevalidationResult := (fun _ => GovRevalidationUnchanged) <$> rv; dw_CreatedAt := now |}.

(** [fresh] names the deployment, [fresh ++ ".job"] its job. The index on
    in-flight deployments refuses what the query before it already refuses. *)
(* src: services/iga_gov_rollout_service.go:999-1052 (GovRollout.createDeploymentTx) *)
Definition createDeploymentTx (fresh : string) (now : Time) (actor : string) (cx : rctx) (t : rtarget) (d : RDB)
  : outcome (RDB * DeploymentRow) :=
  match rt_Plan t with
  | None => Refused (no_plan t)
  | Some p =>
      _ ← deliveryAllowed d (pn_Delivery p);
      _ ← (if (pn_Delivery p =? DeliveryDirect)%string then unless (sv_RequireVerified sv d (cl_ConnectorID (rt_Control t))) else Done tt);
      '(ap, rvs) ← UsableApproval now d (pv_ID (cx_Version cx)) [pn_ID p];
      match deployments_where (fun x => (dw_ControlID x =? cl_ID (rt_Control t))%string && inflight x) d with
      | x :: _ => Refused (govConflict "deployment_in_flight" [("deployment_id", GString (dw_ID x)); ("role_id", GString (cl_RoleID (rt_Control t)))])
      | [] =>
          let dep := new_deployment fresh now (pv_ID (cx_Version cx)) t p ap (default None (head rvs)) in
          _ ← ensure (bool_decide (rd_Deployments d !! fresh = None)) (OtherError "iga_gov_deployment_pkey");
          d ← EnqueueDeployTx (fresh +:+ ".job") fresh now (put_Deployments (<[fresh := dep]> (rd_Deployments d)) d);
          Done (appendGovEvent cx "rollout.deployment_created" actor (Some fresh)
                  [("rollout_id", GString (default "" (rl_ID <$> cx_Rollout cx))); ("deployment_id", GString fresh);
                   ("target_id", GString (tg_ID (rt_Target t))); ("role_id", GString (cl_RoleID (rt_Control t)));
                   ("plan_id", GString (pn_ID p)); ("approval_id", GString (ap_ID ap)); ("delivery", GString (pn_Delivery p));
                   ("revalidation_id", match dw_RevalidationID dep with Some i => GString i | None => GNull end);
                   ("canary", GBool (tg_IsCanary (rt_Target t) || (length (cx_Targets cx) =? 1)%nat))] d, dep)
      end
  end.

(** * The canary's choice *)

(* src: services/iga_gov_rollout_canary.go:158-164 (isAdminLevelAction) *)
Definition isAdminLevelAction (a : string) : bool := bool_decide (ToLower a ∈ ["*"; "iam:*"; "organizations:*"]).

(** Why a role is administration-level; empty when it is not. *)
(* src: services/iga_gov_rollout_service.go:907-951 (adminLevelRole) *)
Definition adminLevelRole (d : RDB) (bundleID : string) : outcome (list string) :=
  grants ← sv_Grants sv d bundleID;
  let hashes := List.filter (fun h => negb (is_empty h)) (bg_StatementHash <$> grants) in
  Done (List.filter (fun arn => HasSuffix arn ":policy/AdministratorAccess") (bg_PolicyARN <$> grants) ++
        (if (length hashes =? 0)%nat then []
         else mbind (fun '(eff, acts) => if EqualFold eff "Allow" then List.filter isAdminLevelAction acts else [])
                    (sv_Statements sv d hashes))).

(* src: services/iga_gov_rollout_service.go:880-903 (GovRollout.checkCanaryChoice) *)
Definition checkCanaryChoice (d : RDB) (cx : rctx) (ct : rtarget) : outcome unit :=
  '(shared, acknowledged) ← sv_Acknowledgement sv d (pv_ID (cx_Version cx)) (tg_ID (rt_Target ct));
  _ ← ensure (negb shared || acknowledged)
        (govConflict "canary_not_acknowledged" [("target_id", GString (tg_ID (rt_Target ct))); ("role_id", GString (cl_RoleID (rt_Control ct)))]);
  match rt_Plan ct with
  | Some p =>
      if (length (cx_Targets cx) <? 2)%nat then Done tt
      else why ← adminLevelRole d (pn_EvidenceBundleID p);
           ensure (length why =? 0)%nat
             (govConflict "canary_admin_role" [("target_id", GString (tg_ID (rt_Target ct))); ("role_id", GString (cl_RoleID (rt_Control ct)));
                                               ("grants", strings_val why)])
  | None => Done tt
  end.

(** * Start *)

(* src: services/iga_gov_rollout_service.go:745-760 (GovRollout.Start, part) *)
Definition restart_of (ro : option Rollout) : outcome bool :=
  match ro with
  | None => Done false
  | Some ro =>
      let g := rl_GateResults ro in
      if (rl_Stage ro =? GovRolloutPaused)%string && (default "" (ps_Kind <$> rr_Pause g) =? GovPauseReturnedToDraft)%string then Done true
      else if (rl_Stage ro =? GovRolloutObserve)%string
      then Refused (govConflict "observation_incomplete" [("observe_until", opt_time_val (rl_ObserveUntil ro));
                                                          ("observe_evidence_required_after", opt_time_val (rl_ObserveEvidenceRequiredAfter ro))])
      else if (rl_Stage ro =? GovRolloutPaused)%string then Refused (govConflict "rollout_paused" [("pause", pause_val (rr_Pause g))])
      else Refused (govConflict "rollout_conflict" [("stage", GString (rl_Stage ro))])
  end.

(* src: services/iga_gov_rollout_service.go:764-771 (GovRollout.Start, part) *)
Definition target_deliverable (d : RDB) (t : rtarget) : outcome unit :=
  match rt_Plan t with
  | None => Refused (no_plan t)
  | Some p => deliveryAllowed d (pn_Delivery p)
  end.

(* src: services/iga_gov_rollout_service.go:772-779 (GovRollout.Start, part) *)
Definition observation_days (d : RDB) (i : RightSizeIntent) : Z :=
  let days := rs_ObservationDays i in
  if (days <? MinObservationDays) || (MaxObservationDays <? days) then st_DefaultObservationDays (rd_Settings d) else days.

(** The transaction that starts, or restarts, the observation; [fresh] is the
    id of a new row. *)
(* src: services/iga_gov_rollout_service.go:727-803 (GovRollout.Start, part) *)
Definition start_observe_tx (fresh : string) (now : Time) (actor reason vid : string) (d : RDB) : outcome RDB :=
  cx ← load_tx d vid;
  _ ← policyUsable (cx_Policy cx);
  _ ← ensure (bool_decide (pv_Status (cx_Version cx) ∈ ["in_review"; "approved"]))
        (govConflict "version_conflict" [("status", GString (pv_Status (cx_Version cx)))]);
  restart ← restart_of (cx_Rollout cx);
  _ ← unless (sv_CheckGate sv d vid);
  _ ← mapM (target_deliverable d) (cx_Targets cx);
  let days := observation_days d (cx_Intent cx) in
  let until := now + hours (days * 24) in
  let after := ObserveEvidenceRequiredAfter until in
  let id := default fresh (rl_ID <$> cx_Rollout cx) in
  let ro := {| rl_ID := id; rl_VersionID := vid; rl_Stage := GovRolloutObserve; rl_ObserveUntil := Some until;
               rl_ObserveEvidenceRequiredAfter := Some after; rl_CanaryStartedAt := None; rl_CanaryMinUntil := None;
               rl_GateResults := no_results; rl_PausedReason := ""; rl_UpdatedAt := now |} in
  Done (appendGovEvent cx "rollout.observation_started" actor None
          [("rollout_id", GString id); ("version_no", GInt (pv_VersionNo (cx_Version cx))); ("observation_days", GInt days);
           ("observe_until", time_val until); ("observe_evidence_required_after", time_val after); ("restart", GBool restart);
           ("reason", GString reason)] (saveTx now ro no_results d)).

Definition zero_dimension : DimensionResult := {| dr_Outcome := ""; dr_Attribution := ""; dr_Reason := "" |}.

(** A canary that has not been evaluated. *)
Definition unevaluated (dep state : string) (rev : Z) (now : Time) : GovRolloutCanary :=
  {| ca_DeploymentID := dep; ca_State := state; ca_Rev := rev; ca_EvaluatedAt := now; ca_WindowStart := None; ca_WindowEnd := None;
     ca_Gates := []; ca_Accepted := []; ca_Pass := false; ca_NotAvailable := []; ca_ApplicationHealth := zero_dimension;
     ca_Restriction := zero_dimension; ca_UnexpectedFailures := [] |}.

(** The transaction that creates the canary's deployment. *)
(* src: services/iga_gov_rollout_service.go:831-872 (GovRollout.startCanary, part) *)
Definition start_canary_tx (fresh : string) (now : Time) (actor reason vid : string) (d : RDB) : outcome RDB :=
  cx ← load_tx d vid;
  match cx_Rollout cx with
  | Some ro =>
      _ ← ensure (rl_Stage ro =? GovRolloutAwaitingApproval)%string (govConflict "rollout_conflict" []);
      _ ← unless (sv_CheckGate sv d vid);
      ct ← canary (cx_Targets cx);
      '(d, dep) ← createDeploymentTx fresh now actor cx ct d;
      let h := GovCanaryHours d vid in
      let ro := with_window (Some now) (Some (now + hours h)) (to_stage GovRolloutCanary_ ro) in
      let g := with_Canary (unevaluated (dw_ID dep) (dw_State dep) 0 now) (rl_GateResults ro) in
      Done (appendGovEvent cx "rollout.canary_started" actor (Some (dw_ID dep))
              [("rollout_id", GString (rl_ID ro)); ("deployment_id", GString (dw_ID dep)); ("target_id", GString (tg_ID (rt_Target ct)));
               ("role_id", GString (cl_RoleID (rt_Control ct))); ("canary_hours", GInt h);
               ("single_target", GBool (length (cx_Targets cx) =? 1)%nat); ("reason", GString reason)] (saveTx now ro g d))
  | None => Refused (govConflict "rollout_conflict" [])
  end.

(** Run a transaction on the rows: all of it or nothing. *)
Definition commit (tx : RDB -> outcome RDB) (d : RDB) : RDB * outcome unit :=
  match tx d with Done d' => (d', Done tt) | Refused e => (d, Refused e) end.

(** A read that only answers. *)
Definition reading {A} (r : outcome A) (d : RDB) (k : A -> RDB * outcome unit) : RDB * outcome unit :=
  match r with Done a => k a | Refused e => (d, Refused e) end.

(* src: services/iga_gov_rollout_service.go:811-877 (GovRollout.startCanary) *)
Definition startCanary (fresh : string) (now : Time) (actor reason : string) (v : Version) (d : RDB) : RDB * outcome unit :=
  reading (cx ← loadVersionCtx d v; _ ← policyUsable (cx_Policy cx); ct ← canary (cx_Targets cx);
           _ ← checkCanaryChoice d cx ct; Done ct) d (fun ct =>
    match prepare now (pv_ID v) ct d with
    | (d, Done _) => commit (start_canary_tx fresh now actor reason (pv_ID v)) d
    | (d, Refused e) => (d, Refused e)
    end).

(* src: services/iga_gov_rollout_service.go:1095-1134 (GovRollout.startRemoveControl) *)
Definition startRemoveControl (actor reason : string) (v : Version) (d : RDB) : RDB * outcome unit :=
  reading (p ← take (rd_Policies d !! pv_PolicyID v);
           _ ← ensure (negb (po_Lifecycle p =? "archived")%string) (govConflict "policy_archived" []);
           _ ← ensure (pv_Status v =? "approved")%string (govConflict "approval_required" [("status", GString (pv_Status v))]);
           match sv_RemoveStarter sv with
           | None => Refused (govConflict "remove_control_not_available" [])
           | Some start => start d actor (pv_ID v)
           end) d (fun d' =>
    (put_Events ({| ge_Event := "rollout.remove_control_started"; ge_ActorKind := fst (actorPair actor);
                    ge_ActorID := snd (actorPair actor); ge_PolicyID := pv_PolicyID v; ge_VersionID := pv_ID v; ge_DeploymentID := None;
                    ge_Payload := [("version_no", GInt (pv_VersionNo v)); ("reason", GString reason)] |} :: rd_Events d') d', Done tt)).

(* src: services/iga_gov_rollout_service.go:711-808 (GovRollout.Start) *)
Definition Start (fresh : string) (now : Time) (actor policyID : string) (versionNo : option Z) (reason : string) (d : RDB)
  : RDB * outcome unit :=
  reading (policyVersionFor d policyID versionNo true) d (fun v =>
    if bool_decide ((in_Kind <$> pv_Intent v) = Some IntentRemoveControl) then startRemoveControl actor reason v d
    else reading (loadVersionCtx d v) d (fun cx =>
      if bool_decide ((rl_Stage <$> cx_Rollout cx) = Some GovRolloutAwaitingApproval) then startCanary fresh now actor reason v d
      else commit (start_observe_tx fresh now actor reason (pv_ID v)) d)).

(** * Gates *)

(** [kind = 'apply'], [ORDER BY created_at, id]. *)
(* src: services/iga_gov_rollout_service.go:1147-1151 (GovRollout.versionDeployments) *)
Definition versionDeployments (d : RDB) (vid : string) : list DeploymentRow :=
  sort_slice (fun a b => (dw_CreatedAt a <? dw_CreatedAt b) || ((dw_CreatedAt a =? dw_CreatedAt b) && str_lt (dw_ID a) (dw_ID b)))
    (deployments_where (fun x => (dw_VersionID x =? vid)%string && (dw_Kind x =? "apply")%string) d).

(** Keys in order, as [json.Marshal] writes a map. *)
(* src: services/iga_gov_rollout_service.go:1163-1167 (gateItemHash) *)
Definition gateItemHash (g : GateResult) : string :=
  sha256Label (Marshal (GStruct [("evidence", match gr_Evidence g with [] => GNull | l => strings_val l end);
                                 ("gate", GString (gr_Gate g)); ("outcome", GString (gr_Outcome g)); ("reason", GString (gr_Reason g))])).

(** One evaluation: what was read, the gates with the accepted ones, and the
    record for [gate_results]. *)
(* src: services/iga_gov_rollout_service.go:1154-1160 (gateEval) *)
Record evaluation := { el_facts : GateFacts; el_hours : Z; el_gate : gateEval; el_canary : GovRolloutCanary }.

Definition no_result : CanaryResult :=
  {| cr_Gates := []; cr_Pass := false; cr_Pause := false; cr_NotAvailable := []; cr_ApplicationHealth := zero_dimension;
     cr_Restriction := zero_dimension; cr_ServiceRestriction := ∅; cr_Validations := []; cr_UnexpectedFailures := [] |}.

(* src: services/iga_gov_rollout_service.go:1190-1200 (GovRollout.evaluateGates, part) *)
Definition gates_of (now : Time) (h : Z) (applied : Time) (f : GateFacts) : CanaryResult :=
  match gf_Gates f, gf_Canary f with
  | (_ :: _) as gs, _ => canaryResultOf gs (gf_UnexpectedFailures f) (gf_Dimensions f)
  | [], Some ci =>
      EvaluateCanary
        {| ci_RoleID := ci_RoleID ci; ci_AppliedAt := applied; ci_Now := now; ci_CanaryHours := h;
           ci_RemovesServices := ci_RemovesServices ci; ci_Removed := ci_Removed ci; ci_Retained := ci_Retained ci;
           ci_Events := ci_Events ci; ci_Validations := ci_Validations ci; ci_Reports := ci_Reports ci; ci_Trail := ci_Trail ci;
           ci_PublishedAfterApply := ci_PublishedAfterApply ci;
           ci_ArtifactOutcome := if is_empty (ci_ArtifactOutcome ci)
                                 then dr_Outcome (default zero_dimension (gf_Dimensions f !! "artifact")) else ci_ArtifactOutcome ci |}
  | [], None => no_result
  end.

(** A stored acceptance of this rollout and version for exactly this window. *)
(* src: services/iga_gov_rollout_service.go:1206-1207 (GovRollout.evaluateGates, part) *)
Definition acceptance_of (ro : Rollout) (vid : string) (from to : Time) (a : Acceptance) : bool :=
  bool_decide (ac_RolloutID a = Some (rl_ID ro)) && (ac_VersionID a =? vid)%string && (ac_Kind a =? GovAcceptGateNotAvailable)%string &&
  bool_decide (ac_Stage a = Some "canary"%string) && bool_decide (ac_WindowStart a = Some from) && bool_decide (ac_WindowEnd a = Some to).

Definition accepted_gates (d : RDB) (ro : Rollout) (vid : string) (from to : Time) : gset string :=
  list_to_set (ac_ItemKey <$> List.filter (acceptance_of ro vid from to) (rd_Acceptances d)).

(** The gates recorded as accepted. *)
(* src: services/iga_gov_rollout_service.go:1218-1222 (GovRollout.evaluateGates, part) *)
Definition accepted_list (res : CanaryResult) (accepted : gset string) : list string :=
  gr_Gate <$> List.filter (fun g => outcome_is OutcomeNotAvailable g && bool_decide (gr_Gate g ∈ accepted)) (cr_Gates res).

(* src: services/iga_gov_rollout_service.go:1174-1225 (GovRollout.evaluateGates) *)
Definition evaluateGates (now : Time) (cx : rctx) (depID : string) (rev : Z) (d : RDB) : outcome evaluation :=
  f ← sv_Facts sv d depID;
  let vid := pv_ID (cx_Version cx) in
  let h := GovCanaryHours d vid in
  match gf_AppliedAt f with
  | None =>
      Done {| el_facts := f; el_hours := h; el_gate := {| ge_applied := false; ge_result := no_result; ge_accepted := ∅ |};
              el_canary := unevaluated depID (gf_State f) rev now |}
  | Some applied =>
      let res := gates_of now h applied f in
      let until := applied + hours h in
      let accepted := match cx_Rollout cx with Some ro => accepted_gates d ro vid applied until | None => ∅ end in
      let g := {| ge_applied := true; ge_result := res; ge_accepted := accepted |} in
      Done {| el_facts := f; el_hours := h; el_gate := g;
              el_canary := {| ca_DeploymentID := depID; ca_State := gf_State f; ca_Rev := rev; ca_EvaluatedAt := now;
                              ca_WindowStart := Some applied; ca_WindowEnd := Some until; ca_Gates := cr_Gates res;
                              ca_Accepted := accepted_list res accepted; ca_Pass := passes g ∅;
                              ca_NotAvailable := cr_NotAvailable res; ca_ApplicationHealth := cr_ApplicationHealth res;
                              ca_Restriction := cr_Restriction res; ca_UnexpectedFailures := cr_UnexpectedFailures res |} |}
  end.

(* src: services/iga_gov_rollout_jobs.go:420-426 (healthyState) *)
Definition healthyState (s : string) : bool := bool_decide (s ∈ [GovDeployAppliedUnverified; GovDeployVerified]).

(* src: services/iga_gov_rollout_canary.go:140-142 (canaryHealthy) *)
Definition canaryHealthy (ev : evaluation) (extra : gset string) : bool :=
  ge_applied (el_gate ev) && healthyState (gf_State (el_facts ev)) && negb (cr_Pause (ge_result (el_gate ev))) && passes (el_gate ev) extra.

(** * Pause and resume *)

(** The workspace webhook, then the author and the policy's owner on every
    channel that reaches them. *)
(* src: services/iga_gov_rollout_jobs.go:561-594 (GovRollout.notifyTx) *)
Definition notifyTx (cx : rctx) (ro : Rollout) (d : RDB) : RDB :=
  let author := pv_CreatedBy (cx_Version cx) in
  let users := author :: match po_OwnerUserID (cx_Policy cx) with
                         | Some o => if (o =? author)%string then [] else [o]
                         | None => []
                         end in
  let notice ch r := {| no_SubjectID := rl_ID ro; no_Channel := ch; no_Recipient := r |} in
  let asked := (if sv_Webhook sv then [notice "webhook"%string "workspace_webhook"%string] else []) ++
               mbind (fun u => (if sv_Email sv then [notice "email"%string ("user:" +:+ u)] else []) ++
                               ((fun ch => notice ch ("user:" +:+ u)) <$> sv_Extra sv u)) users in
  put_Notices (rev asked ++ rd_Notices d) d.

(* src: services/iga_gov_rollout_service.go:1370-1395 (GovRollout.pauseTx) *)
Definition pauseTx (now : Time) (actor : string) (cx : rctx) (ro : Rollout) (kind reason : string) (undo : list string) (d : RDB) : RDB :=
  let from := if (kind =? GovPauseReturnedToDraft)%string then "" else rl_Stage ro in
  let p := {| ps_From := from; ps_Kind := kind; ps_Reason := reason; ps_At := now |} in
  let offers := (fun id => {| uo_DeploymentID := id; uo_Path := "/deployments/" +:+ id +:+ "/undo" |}) <$> undo in
  let ro' := at_stage GovRolloutPaused (kind +:+ ": " +:+ reason) ro in
  let d := appendGovEvent cx "rollout.paused" actor None
             [("rollout_id", GString (rl_ID ro)); ("from", GString from); ("kind", GString kind); ("reason", GString reason);
              ("undo_offered", strings_val undo)]
             (saveTx now ro' (with_Pause (Some p) offers (rl_GateResults ro)) d) in
  if (kind =? GovPauseManual)%string then d else notifyTx cx ro' d.

(** [mutateActive]'s transaction. *)
(* src: services/iga_gov_rollout_service.go:1348-1361 (GovRollout.mutateActive, part) *)
Definition active_tx (fn : rctx -> Rollout -> RDB -> outcome RDB) (vid : string) (d : RDB) : outcome RDB :=
  cx ← load_tx d vid;
  match cx_Rollout cx with
  | None => Refused (govConflict "rollout_not_started" [])
  | Some ro => fn cx ro d
  end.

(* src: services/iga_gov_rollout_service.go:1342-1366 (GovRollout.mutateActive) *)
Definition mutateActive (policyID : string) (fn : rctx -> Rollout -> RDB -> outcome RDB) (d : RDB) : RDB * outcome unit :=
  reading (policyVersionFor d policyID None false) d (fun v => commit (active_tx fn (pv_ID v)) d).

Definition pausable : list string := [GovRolloutObserve; GovRolloutAwaitingApproval; GovRolloutCanary_; GovRolloutExpand].

(* src: services/iga_gov_rollout_service.go:1287-1297 (GovRollout.Pause, part) *)
Definition pause_body (now : Time) (actor reason : string) (cx : rctx) (ro : Rollout) (d : RDB) : outcome RDB :=
  if bool_decide (rl_Stage ro ∈ pausable) then Done (pauseTx now actor cx ro GovPauseManual (TrimSpace reason) [] d)
  else if (rl_Stage ro =? GovRolloutPaused)%string then Refused (govConflict "rollout_paused" [])
  else Refused (govConflict "rollout_conflict" [("stage", GString (rl_Stage ro))]).

(* src: services/iga_gov_rollout_service.go:1283-1298 (GovRollout.Pause) *)
Definition Pause (now : Time) (actor policyID reason : string) (d : RDB) : RDB * outcome unit :=
  if is_empty (TrimSpace reason) then (d, Refused (GovBadParam "reason"))
  else mutateActive policyID (pause_body now actor reason) d.

(** The deploy jobs of queued apply deployments become due. *)
(* src: services/iga_gov_rollout_service.go:1328-1331 (GovRollout.Resume, part) *)
Definition release_held (now : Time) (vid : string) (d : RDB) : RDB :=
  let held j := (jb_Kind j =? GovJobDeploy)%string && (jb_Status j =? GovJobQueued)%string && (now <? jb_RunAfter j) &&
                match jb_SubjectID j ≫= (fun s => rd_Deployments d !! s) with
                | Some x => (dw_VersionID x =? vid)%string && (dw_Kind x =? "apply")%string && (dw_State x =? GovDeployQueued)%string
                | None => false
                end in
  put_Jobs ((fun j => if held j then set_run (jb_Status j) now (jb_LeaseOwner j) (jb_LeaseExpiresAt j) (jb_LeaseVersion j) (jb_Attempts j)
                                       (jb_LastError j) (jb_CompletedAt j) j else j) <$> rd_Jobs d) d.

(* src: services/iga_gov_rollout_service.go:1307-1337 (GovRollout.Resume, part) *)
Definition resume_body (now : Time) (actor reason : string) (cx : rctx) (ro : Rollout) (d : RDB) : outcome RDB :=
  _ ← ensure (rl_Stage ro =? GovRolloutPaused)%string (govConflict "rollout_conflict" [("stage", GString (rl_Stage ro))]);
  _ ← policyUsable (cx_Policy cx);
  let g := rl_GateResults ro in
  let refusal := Refused (govConflict "version_conflict" [("pause", pause_val (rr_Pause g))]) in
  match rr_Pause g with
  | None => refusal
  | Some p =>
      if is_empty (ps_From p) || (ps_Kind p =? GovPauseReturnedToDraft)%string then refusal
      else
        let d := saveTx now (at_stage (ps_From p) "" ro) (with_Pause None [] g) d in
        Done (appendGovEvent cx "rollout.resumed" actor None
                [("rollout_id", GString (rl_ID ro)); ("stage", GString (ps_From p)); ("paused", pause_val (Some p));
                 ("reason", GString (TrimSpace reason))] (release_held now (rl_VersionID ro) d))
  end.

(* src: services/iga_gov_rollout_service.go:1303-1338 (GovRollout.Resume) *)
Definition Resume (now : Time) (actor policyID reason : string) (d : RDB) : RDB * outcome unit :=
  if is_empty (TrimSpace reason) then (d, Refused (GovBadParam "reason"))
  else mutateActive policyID (resume_body now actor reason) d.

(** * Expansion *)

(* src: services/iga_gov_rollout_service.go:1136-1142 (refusalOf) *)
Definition refusalOf (t : rtarget) (e : govError) : option GovRolloutRefusal :=
  (fun '(c, dt) => {| rf_TargetID := tg_ID (rt_Target t); rf_RoleID := cl_RoleID (rt_Control t); rf_Code := c; rf_Detail := dt |})
    <$> as_GovError e.

(** Only an expanding rollout settles, and only when no deployment is pending. *)
(* src: services/iga_gov_rollout_service.go:1715-1718 (GovRollout.settleTx, part) *)
Definition latest_by_control (ds : list DeploymentRow) : gmap string DeploymentRow :=
  foldl (fun m x => <[dw_ControlID x := x]> m) ∅ ds.

(* src: services/iga_gov_rollout_service.go:1725-1726 (GovRollout.settleTx, part) *)
Definition ended_badly (x : DeploymentRow) : bool :=
  bool_decide (dw_State x ∈ [GovDeployFailed; GovDeployUndone; GovDeploySuperseded; GovDeployDrifted; GovDeployRecovered]).

Definition verified_row (x : DeploymentRow) : bool := (dw_State x =? GovDeployVerified)%string.

(* src: services/iga_gov_rollout_service.go:1706-1747 (GovRollout.settleTx) *)
Definition settleTx (now : Time) (cx : rctx) (ro : Rollout) (d : RDB) : RDB :=
  if negb (rl_Stage ro =? GovRolloutExpand)%string then d
  else
    let latest := snd <$> map_to_list (latest_by_control (versionDeployments d (pv_ID (cx_Version cx)))) in
    let g := rl_GateResults ro in
    let refused := match rr_Expansion g with Some x => length (xp_Refused x) | None => O end in
    let verified := length (List.filter verified_row latest) in
    let failed := (length (List.filter (fun x => negb (verified_row x) && ended_badly x) latest) + refused)%nat in
    if existsb (fun x => negb (verified_row x) && negb (ended_badly x)) latest then d
    else
      let '(stage, name) := if (0 <? failed)%nat then (GovRolloutPartial, "rollout.partial"%string)
                            else (GovRolloutComplete, "rollout.completed"%string) in
      appendGovEvent cx name "" None
        [("rollout_id", GString (rl_ID ro)); ("verified", GInt (Z.of_nat verified)); ("failed", GInt (Z.of_nat failed))]
        (saveTx now (to_stage stage ro) g d).

(** The loop over the other targets: rows, created deployments, refusals, and
    the first refusal as an error. *)
Record expanding := { xg_DB : RDB; xg_Created : list string; xg_Refused : list GovRolloutRefusal; xg_First : option govError }.

(* src: services/iga_gov_rollout_service.go:1677-1686 (GovRollout.advanceTx, part) *)
Definition record_refusal (actor : string) (cx : rctx) (ro : Rollout) (rf : GovRolloutRefusal) (e : govError) (x : expanding) : expanding :=
  {| xg_DB := appendGovEvent cx "rollout.deployment_refused" actor None
                [("rollout_id", GString (rl_ID ro)); ("target_id", GString (rf_TargetID rf)); ("role_id", GString (rf_RoleID rf));
                 ("code", GString (rf_Code rf)); ("detail", GStruct (rf_Detail rf))] (xg_DB x);
     xg_Created := xg_Created x; xg_Refused := xg_Refused x ++ [rf];
     xg_First := match xg_First x with Some e0 => Some e0 | None => Some e end |}.

(** A refusal inside the savepoint of a target leaves the rows as they were;
    any other error aborts the whole transaction. *)
(* src: services/iga_gov_rollout_service.go:1647-1687 (GovRollout.advanceTx, part) *)
Definition expand_target (fresh : string -> string) (now : Time) (actor : string) (cx : rctx) (ro : Rollout)
    (refused : gmap string GovRolloutRefusal) (x : expanding) (t : rtarget) : outcome expanding :=
  match refused !! tg_ID (rt_Target t) with
  | Some rf => Done (record_refusal actor cx ro rf (govConflict (rf_Code rf) (rf_Detail rf)) x)
  | None =>
      match createDeploymentTx (fresh (tg_ID (rt_Target t))) now actor cx t (xg_DB x) with
      | Done (d, dep) => Done {| xg_DB := d; xg_Created := xg_Created x ++ [dw_ID dep]; xg_Refused := xg_Refused x; xg_First := xg_First x |}
      | Refused e => match refusalOf t e with
                     | None => Refused e
                     | Some rf => Done (record_refusal actor cx ro rf e x)
                     end
      end
  end.

(** [foldM] over the outcome monad. *)
Fixpoint fold_outcome {A B} (f : A -> B -> outcome A) (a : A) (l : list B) : outcome A :=
  match l with [] => Done a | b :: l => a ← f a b; fold_outcome f a l end.

Definition other_targets (ct : rtarget) (ts : list rtarget) : list rtarget :=
  List.filter (fun t => negb (tg_ID (rt_Target t) =? tg_ID (rt_Target ct))%string) ts.

(** The rows, how many deployments were created, and the first refusal. *)
(* src: services/iga_gov_rollout_service.go:1617-1702 (GovRollout.advanceTx) *)
Definition advanceTx (fresh : string -> string) (now : Time) (actor : string) (cx : rctx) (ro : Rollout) (g : GovRolloutResults)
    (c : GovRolloutCanary) (refused : gmap string GovRolloutRefusal) (reason : string) (d : RDB)
  : outcome (RDB * nat * option govError) :=
  if (length (cx_Targets cx) <=? 1)%nat then
    if negb (default "" (dw_State <$> rd_Deployments d !! ca_DeploymentID c) =? GovDeployVerified)%string
    then Done (saveTx now ro g d, O, None)
    else Done (appendGovEvent cx "rollout.completed" actor None
                 [("rollout_id", GString (rl_ID ro)); ("single_target", GBool true); ("accepted_gates", strings_val (ca_Accepted c));
                  ("reason", GString reason)] (saveTx now (to_stage GovRolloutComplete ro) g d), O, None)
  else
    ct ← canary (cx_Targets cx);
    x ← fold_outcome (expand_target fresh now actor cx ro refused)
          {| xg_DB := d; xg_Created := []; xg_Refused := []; xg_First := None |} (other_targets ct (cx_Targets cx));
    let g := with_Expansion {| xp_At := now; xp_Deployments := xg_Created x; xp_Refused := xg_Refused x |} g in
    let ro := to_stage GovRolloutExpand ro in
    let d := appendGovEvent cx "rollout.expanded" actor None
               [("rollout_id", GString (rl_ID ro)); ("deployments", strings_val (xg_Created x));
                ("refused", GInt (Z.of_nat (length (xg_Refused x)))); ("accepted_gates", strings_val (ca_Accepted c));
                ("reason", GString reason)] (saveTx now ro g (xg_DB x)) in
    Done (settleTx now cx (stored now ro g) d, length (xg_Created x), xg_First x).

(* src: services/iga_gov_rollout_service.go:1400-1403 (GovGateAcceptInput) *)
Record GateAccept := { gi_Gate : string; gi_Reason : string }.

(** The gates named; each once, with a reason. *)
(* src: services/iga_gov_rollout_service.go:1417-1426 (GovRollout.Expand, part) *)
Fixpoint accept_input (i : Z) (extra : gset string) (l : list GateAccept) : outcome (gset string) :=
  match l with
  | [] => Done extra
  | a :: l =>
      let bad := Refused (GovBadParam ("accept_not_available[" +:+ Itoa i +:+ "]")) in
      if is_empty (TrimSpace (gi_Reason a)) || is_empty (gi_Gate a) then bad
      else if bool_decide (gi_Gate a ∈ extra) then bad
      else accept_input (i + 1) ({[gi_Gate a]} ∪ extra) l
  end.

Definition not_available_now (ev : evaluation) (a : GateAccept) : bool :=
  existsb (fun g => (gr_Gate g =? gi_Gate a)%string && outcome_is OutcomeNotAvailable g) (cr_Gates (ge_result (el_gate ev))).

(* src: services/iga_gov_rollout_service.go:1587-1611 (expandRefusal) *)
Definition expandRefusal (ev : evaluation) (input : list GateAccept) (extra : gset string) : outcome unit :=
  let f := el_facts ev in
  _ ← ensure (ge_applied (el_gate ev)) (govConflict "gates_not_passed" [("state", GString (gf_State f)); ("gates", GSlice [])]);
  _ ← match list_find (fun a => not_available_now ev a = false) input with
      | Some (i, _) => Refused (GovBadParam ("accept_not_available[" +:+ Itoa (Z.of_nat i) +:+ "].gate"))
      | None => Done tt
      end;
  _ ← ensure (healthyState (gf_State f))
        (govConflict "gates_not_passed" [("state", GString (gf_State f)); ("state_reason", GString (gf_StateReason f));
                                         ("gates", gates_val (cr_Gates (ge_result (el_gate ev))))]);
  ensure (canaryHealthy ev extra)
    (govConflict "gates_not_passed" [("gates", gates_val (failing (el_gate ev) extra));
                                     ("not_available", strings_val (cr_NotAvailable (ge_result (el_gate ev))));
                                     ("accepted", strings_val (ca_Accepted (el_canary ev)))]).

(** The last gate of that name. *)
Definition gate_named (res : CanaryResult) (name : string) : GateResult :=
  default {| gr_Gate := ""; gr_Outcome := ""; gr_Reason := ""; gr_Evidence := [] |}
    (last (List.filter (fun g => (gr_Gate g =? name)%string) (cr_Gates res))).

(** uq_iga_gov_acceptance_gate. *)
Definition same_acceptance (a b : Acceptance) : bool :=
  (ac_Kind a =? GovAcceptGateNotAvailable)%string && (ac_Kind b =? GovAcceptGateNotAvailable)%string &&
  bool_decide (ac_RolloutID a = ac_RolloutID b) && (ac_ItemKey a =? ac_ItemKey b)%string &&
  bool_decide (ac_WindowStart a = ac_WindowStart b) && bool_decide (ac_WindowEnd a = ac_WindowEnd b).

(* src: services/iga_gov_rollout_service.go:1527-1556 (GovRollout.Expand, part) *)
Definition accept_gate (fresh : string -> string) (now : Time) (actor : string) (cx : rctx) (ro : Rollout) (ev : evaluation)
    (st : RDB * gset string) (a : GateAccept) : outcome (RDB * gset string) :=
  let '(d, accepted) := st in
  if bool_decide (gi_Gate a ∈ accepted) then Done (d, accepted)
  else
    let gr := gate_named (ge_result (el_gate ev)) (gi_Gate a) in
    let row := {| ac_ID := fresh (gi_Gate a); ac_Kind := GovAcceptGateNotAvailable; ac_ItemKey := gi_Gate a; ac_ItemHash := gateItemHash gr;
                  ac_VersionID := pv_ID (cx_Version cx); ac_RolloutID := Some (rl_ID ro); ac_Stage := Some GovRolloutCanary_;
                  ac_WindowStart := ca_WindowStart (el_canary ev); ac_WindowEnd := ca_WindowEnd (el_canary ev);
                  ac_Reason := TrimSpace (gi_Reason a); ac_AcceptedBy := actor; ac_AcceptedAt := now |} in
    _ ← ensure (negb (existsb (same_acceptance row) (rd_Acceptances d))) (govConflict "rollout_conflict" [("gate", GString (gi_Gate a))]);
    let dep := ca_DeploymentID (el_canary ev) in
    Done (appendGovEvent cx "rollout.gate_accepted" actor (Some dep)
            [("acceptance_id", GString (ac_ID row)); ("rollout_id", GString (rl_ID ro)); ("gate", GString (gi_Gate a));
             ("item_hash", GString (ac_ItemHash row)); ("gate_reason", GString (gr_Reason gr));
             ("window_start", opt_time_val (ac_WindowStart row)); ("window_end", opt_time_val (ac_WindowEnd row));
             ("reason", GString (ac_Reason row))] (put_Acceptances (rd_Acceptances d ++ [row]) d), {[gi_Gate a]} ∪ accepted).

(** The record of a canary that is expanded from. *)
Definition passed_canary (c : GovRolloutCanary) (accepted : list string) : GovRolloutCanary :=
  {| ca_DeploymentID := ca_DeploymentID c; ca_State := ca_State c; ca_Rev := ca_Rev c; ca_EvaluatedAt := ca_EvaluatedAt c;
     ca_WindowStart := ca_WindowStart c; ca_WindowEnd := ca_WindowEnd c; ca_Gates := ca_Gates c; ca_Accepted := accepted; ca_Pass := true;
     ca_NotAvailable := ca_NotAvailable c; ca_ApplicationHealth := ca_ApplicationHealth c; ca_Restriction := ca_Restriction c;
     ca_UnexpectedFailures := ca_UnexpectedFailures c |}.

(** The transaction of an expansion by hand, deciding on what it reads itself. *)
(* src: services/iga_gov_rollout_service.go:1495-1575 (GovRollout.Expand, part) *)
Definition expand_tx (fresh : string -> string) (now : Time) (actor depID reason : string) (input : list GateAccept) (extra : gset string)
    (refused : gmap string GovRolloutRefusal) (vid : string) (d : RDB) : outcome RDB :=
  cx ← load_tx d vid;
  match cx_Rollout cx with
  | None => Refused (govConflict "rollout_conflict" [])
  | Some ro =>
      _ ← ensure (rl_Stage ro =? GovRolloutCanary_)%string (govConflict "rollout_conflict" []);
      _ ← policyUsable (cx_Policy cx);
      _ ← ensure (bool_decide ((ca_DeploymentID <$> rr_Canary (rl_GateResults ro)) = Some depID)) (govConflict "rollout_conflict" []);
      ev ← evaluateGates now cx depID 0 d;
      _ ← expandRefusal ev input extra;
      '(d, accepted) ← fold_outcome (accept_gate fresh now actor cx ro ev) (d, ge_accepted (el_gate ev)) input;
      let c := passed_canary (el_canary ev) (accepted_list (ge_result (el_gate ev)) accepted) in
      '(d, created, first) ← advanceTx fresh now actor cx ro (with_Canary c (rl_GateResults ro)) c refused reason d;
      match first with
      | Some e => if (created =? 0)%nat && (1 <? length (cx_Targets cx))%nat then Refused e else Done d
      | None => Done d
      end
  end.

(** The other targets' approvals: the rows after any revalidation, and the
    targets refused, or an error that is no refusal. *)
(* src: services/iga_gov_rollout_service.go:1479-1493 (GovRollout.Expand, part) *)
Fixpoint prepare_all (now : Time) (vid : string) (ts : list rtarget) (d : RDB) (refused : gmap string GovRolloutRefusal)
  : RDB * outcome (gmap string GovRolloutRefusal) :=
  match ts with
  | [] => (d, Done refused)
  | t :: ts =>
      match prepare now vid t d with
      | (d, Done _) => prepare_all now vid ts d refused
      | (d, Refused e) => match refusalOf t e with
                          | None => (d, Refused e)
                          | Some rf => prepare_all now vid ts d (<[tg_ID (rt_Target t) := rf]> refused)
                          end
      end
  end.

(** What [Expand] reads before its transaction: the version, the canary's
    deployment and the targets to prepare. *)
(* src: services/iga_gov_rollout_service.go:1427-1478 (GovRollout.Expand, part) *)
Definition expand_read (now : Time) (actor policyID : string) (input : list GateAccept) (extra : gset string) (d : RDB)
  : outcome (string * string * list rtarget) :=
  v ← policyVersionFor d policyID None false;
  _ ← (if bool_decide (extra = ∅) then Done tt
       else _ ← ensure (negb (pv_CreatedBy v =? actor)%string) (GovError 403 "self_approval" []);
            ensure (sv_Holds sv d actor "governance" "approve") (GovError 403 "forbidden" []));
  cx ← loadVersionCtx d v;
  ro ← (match cx_Rollout cx with
        | Some ro => if (rl_Stage ro =? GovRolloutCanary_)%string then Done ro
                     else Refused (govConflict "rollout_conflict" [("stage", GString (rl_Stage ro))])
        | None => Refused (govConflict "rollout_conflict" [("stage", GString "")])
        end);
  _ ← policyUsable (cx_Policy cx);
  c ← match rr_Canary (rl_GateResults ro) with Some c => Done c | None => Refused (govConflict "gates_not_passed" []) end;
  ev ← evaluateGates now cx (ca_DeploymentID c) 0 d;
  _ ← expandRefusal ev input extra;
  ct ← canary (cx_Targets cx);
  Done (pv_ID v, ca_DeploymentID c, other_targets ct (cx_Targets cx)).

(* src: services/iga_gov_rollout_service.go:1415-1580 (GovRollout.Expand) *)
Definition Expand (fresh : string -> string) (now : Time) (actor policyID reason : string) (input : list GateAccept) (d : RDB)
  : RDB * outcome unit :=
  reading (extra ← accept_input 0 ∅ input; r ← expand_read now actor policyID input extra d; Done (extra, r)) d
    (fun '(extra, (vid, depID, others)) =>
       match prepare_all now vid others d ∅ with
       | (d, Refused e) => (d, Refused e)
       | (d, Done refused) => commit (expand_tx fresh now actor depID reason input extra refused vid) d
       end).

(** * The observe_tick job *)

(** Run [fn] in a transaction fenced on the job's lease, if the rollout is
    still in [stage]. *)
(* src: services/iga_gov_rollout_jobs.go:137-152 (GovRollout.locked) *)
Definition locked_tx (f : PolicyJobFence) (stage : string) (fn : rctx -> Rollout -> RDB -> outcome RDB) (vid : string) (d : RDB) : outcome RDB :=
  match AssertOwnedTx f (rd_Jobs d) with
  | Err _ => Refused (OtherError "policy job lease no longer held")
  | Ok _ =>
      cx ← load_tx d vid;
      match cx_Rollout cx with
      | Some ro => if (rl_Stage ro =? stage)%string then fn cx ro d else Done d
      | None => Done d
      end
  end.

(** [max(report_generated_at)]; rows without one do not count. *)
Definition max_report (rows : list EvidenceRow) : option Time :=
  foldr (fun e m => match ev_ReportGeneratedAt e, m with
                    | Some a, Some b => Some (Z.max a b)
                    | Some a, None => Some a
                    | None, m => m
                    end) None rows.

(* src: services/iga_gov_rollout_jobs.go:157-197 (GovRollout.observationTargets) *)
Definition observation_target (d : RDB) (cx : rctx) (rev : Z) (t : rtarget) : ObservationTarget :=
  let identity := cl_IdentityAccountID (rt_Control t) in
  let removed := rm_Service <$> rs_Remove (ForSubject (cx_Intent cx) identity) in
  let rows_at r := List.filter (fun e => (ev_Rev e =? r) && (ev_IdentityAccountID e =? identity)%string &&
                                         (ev_State e =? EvidenceCollected)%string) (rd_Evidence d) in
  let base := max_report (rows_at (pv_EvidenceRev (cx_Version cx))) in
  let rows := List.filter (fun e => bool_decide (is_Some (ev_ReportGeneratedAt e))) (rows_at rev) in
  {| ot_RoleID := cl_RoleID (rt_Control t);
     ot_EvidenceReportAt := default (pv_CreatedAt (cx_Version cx)) base;
     ot_ReportGeneratedAt := max_report rows;
     ot_LastAttempts := foldl (fun m e => if bool_decide (ev_Service e ∈ removed) then <[ev_Service e := ev_LastAuthenticatedAt e]> m else m)
                              ∅ rows |}.

Definition observationTargets (d : RDB) (cx : rctx) (rev : Z) : list ObservationTarget := observation_target d cx rev <$> cx_Targets cx.

(** [t.Format("2006-01-02")] in UTC. *)
Definition format_date (t : Time) : string :=
  let '(y, m, d) := civil_from_days (t / Second / 86400) in pad 4 y +:+ "-" +:+ pad 2 m +:+ "-" +:+ pad 2 d.

(* src: services/iga_gov_owner_review_service.go:1400-1413 (IGAGovOwnerReviewService.CancelReviewTx) *)
Definition CancelReviewTx (now : Time) (cx : rctx) (reason : string) (d : RDB) : RDB :=
  match rd_Reviews d !! pv_ID (cx_Version cx) with
  | Some r =>
      if (rw_Status r =? GovReviewCancelled)%string then d
      else
        let d := put_Reviews (<[pv_ID (cx_Version cx) := {| rw_ID := rw_ID r; rw_Status := GovReviewCancelled; rw_ClosedAt := Some now |}]>
                                (rd_Reviews d)) d in
        put_Events ({| ge_Event := "review.cancelled"; ge_ActorKind := "system"; ge_ActorID := "owner-review";
                       ge_PolicyID := po_ID (cx_Policy cx); ge_VersionID := pv_ID (cx_Version cx); ge_DeploymentID := None;
                       ge_Payload := [("review_id", GString (rw_ID r)); ("reason", GString reason); ("previous_status", GString (rw_Status r))] |}
                    :: rd_Events d) d
  | None => d
  end.

Definition draft_again (now : Time) (v : Version) : Version :=
  {| pv_ID := pv_ID v; pv_PolicyID := pv_PolicyID v; pv_VersionNo := pv_VersionNo v; pv_Intent := pv_Intent v; pv_IntentHash := pv_IntentHash v;
     pv_EvidenceRev := pv_EvidenceRev v; pv_Status := "draft"; pv_CreatedBy := pv_CreatedBy v; pv_CreatedAt := pv_CreatedAt v;
     pv_StatusChangedAt := now |}.

Definition revoke (now : Time) (reason : string) (a : Approval) : Approval :=
  {| ap_ID := ap_ID a; ap_VersionID := ap_VersionID a; ap_Decision := ap_Decision a; ap_DecidedBy := ap_DecidedBy a;
     ap_IntentHash := ap_IntentHash a; ap_PlanHashes := ap_PlanHashes a; ap_ExpiresAt := ap_ExpiresAt a; ap_RevokedAt := Some now;
     ap_RevokedReason := reason; ap_DecidedAt := ap_DecidedAt a |}.

(** The reason names each attempt and its date. *)
(* src: services/iga_gov_rollout_jobs.go:250-255 (GovRollout.backToDraftTx, part) *)
Definition draft_reason (attempts : list AttemptDuringObservation) : string :=
  Join (sort_slice str_lt ((fun a => at_Service a +:+ " was attempted during observation on " +:+ format_date (at_At a)) <$> attempts)) "; ".

(* src: services/iga_gov_rollout_jobs.go:249-275 (GovRollout.backToDraftTx) *)
Definition backToDraftTx (now : Time) (cx : rctx) (ro : Rollout) (attempts : list AttemptDuringObservation) (d : RDB) : RDB :=
  let vid := pv_ID (cx_Version cx) in
  let reason := draft_reason attempts in
  let d := put_Versions (alter (fun v => if bool_decide (pv_Status v ∈ ["in_review"; "approved"]) then draft_again now v else v) vid
                           (rd_Versions d)) d in
  let d := put_Approvals ((fun a => if (ap_VersionID a =? vid)%string && (ap_Decision a =? "approve")%string && bool_decide (ap_RevokedAt a = None)
                                    then revoke now ("version back to draft: " +:+ reason) a else a) <$> rd_Approvals d) d in
  let d := CancelReviewTx now cx ("version back to draft: " +:+ reason) d in
  let d := appendGovEvent cx "rollout.returned_to_draft" "" None
             [("rollout_id", GString (rl_ID ro)); ("version_no", GInt (pv_VersionNo (cx_Version cx)));
              ("previous_status", GString (pv_Status (cx_Version cx)));
              ("attempts", GSlice ((fun a => GStruct [("role_id", GString (at_RoleID a)); ("service", GString (at_Service a));
                                                      ("at", time_val (at_At a))]) <$> attempts));
              ("reason", GString reason)] d in
  pauseTx now "" cx ro GovPauseReturnedToDraft reason [] d.

(** A newer revision was already read. *)
Definition newer_read (rev : Z) (g : GovRolloutResults) : bool :=
  match rr_Observation g with Some o => rev <? ob_Rev o | None => false end.

(** The transaction of an observation's tick; [res] was evaluated before it. *)
(* src: services/iga_gov_rollout_jobs.go:216-244 (GovRollout.tickObserve, part) *)
Definition observe_body (now : Time) (rev : Z) (res : ObservationResult) (cx : rctx) (ro : Rollout) (d : RDB) : outcome RDB :=
  let g := rl_GateResults ro in
  if newer_read rev g then Done d
  else
    let g := with_Observation {| ob_Rev := rev; ob_EvaluatedAt := now; ob_Result := res |} g in
    match or_BackToDraft res with
    | (_ :: _) as attempts => Done (backToDraftTx now cx (stored now ro g) attempts (saveTx now ro g d))
    | [] =>
        if or_Complete res
        then Done (appendGovEvent cx "rollout.observation_completed" "" None
                     [("rollout_id", GString (rl_ID ro)); ("rev", GInt rev); ("required_after", time_val (or_RequiredAfter res));
                      ("version_status", GString (pv_Status (cx_Version cx)))]
                     (saveTx now (to_stage GovRolloutAwaitingApproval ro) g d))
        else Done (appendGovEvent cx "rollout.observation_checked" "" None
                     [("rollout_id", GString (rl_ID ro)); ("rev", GInt rev); ("awaiting_report", strings_val (or_AwaitingReport res));
                      ("needs_refresh", GBool (or_NeedsRefresh res)); ("observe_until", opt_time_val (rl_ObserveUntil ro));
                      ("required_after", time_val (or_RequiredAfter res))]
                     (saveTx now ro g d))
    end.

(* src: services/iga_gov_rollout_jobs.go:199-245 (GovRollout.tickObserve) *)
Definition tickObserve (now : Time) (f : PolicyJobFence) (rev : Z) (cx : rctx) (ro : Rollout) (d : RDB) : RDB * outcome unit :=
  if negb (bool_decide (pv_Status (cx_Version cx) ∈ ["in_review"; "approved"])) then (d, Done tt)
  else if newer_read rev (rl_GateResults ro) then (d, Done tt)
  else match rl_ObserveUntil ro with
       | None => (d, Refused (JobAbandoned "the rollout has no observe_until"))
       | Some until =>
           let res := EvaluateObservation until now (observationTargets d cx rev) in
           commit (locked_tx f GovRolloutObserve (observe_body now rev res) (pv_ID (cx_Version cx))) d
       end.

(* src: services/iga_gov_rollout_jobs.go:277-287 (sameGateOutcomes) *)
Definition sameGateOutcomes (a b : GovRolloutCanary) : bool :=
  let key g := (gr_Gate g, gr_Outcome g, gr_Reason g) in
  (ca_State a =? ca_State b)%string && (length (ca_Accepted a) =? length (ca_Accepted b))%nat &&
  bool_decide ((key <$> ca_Gates a) = (key <$> ca_Gates b)).

(* src: services/iga_gov_rollout_jobs.go:385-390 (GovRollout.tickCanary, part) *)
Definition failed_gates (res : CanaryResult) : string :=
  Join ((fun g => gr_Gate g +:+ " (" +:+ gr_Reason g +:+ ")") <$> List.filter (outcome_is OutcomeFailed) (cr_Gates res)) ", ".

(** The transaction of a canary's tick: the gates are read in it. [prepared]
    says the other targets' approvals were looked at. *)
(* src: services/iga_gov_rollout_jobs.go:335-415 (GovRollout.tickCanary, part) *)
Definition canary_body (fresh : string -> string) (now : Time) (rev : Z) (depID : string) (prepared : bool)
    (refused : gmap string GovRolloutRefusal) (cx : rctx) (ro : Rollout) (d : RDB) : outcome RDB :=
  match rr_Canary (rl_GateResults ro) with
  | None => Done d
  | Some c0 =>
      if negb (ca_DeploymentID c0 =? depID)%string then Done d
      else
        ev ← evaluateGates now cx depID rev d;
        let st := gf_State (el_facts ev) in
        let res := ge_result (el_gate ev) in
        let c := el_canary ev in
        let advance := prepared && canaryHealthy ev ∅ && ((1 <? length (cx_Targets cx))%nat || (st =? GovDeployVerified)%string) in
        let gg := with_Canary c (rl_GateResults ro) in
        let ro := match gf_AppliedAt (el_facts ev) with
                  | Some a => with_window (rl_CanaryStartedAt ro) (Some (a + hours (el_hours ev))) ro
                  | None => ro
                  end in
        let undo := match gf_AppliedAt (el_facts ev) with Some _ => [depID] | None => [] end in
        let saved := saveTx now ro gg d in
        let paused := pauseTx now "" cx (stored now ro gg) in
        let evaluated extra d := appendGovEvent cx "rollout.gates_evaluated" "" (Some depID)
                                   ([("rollout_id", GString (rl_ID ro)); ("rev", GInt rev); ("gates", gates_val (cr_Gates res))] ++ extra) d in
        if (st =? GovDeployUndone)%string
        then Done (appendGovEvent cx "rollout.undone" "" (Some depID) [("rollout_id", GString (rl_ID ro)); ("deployment_id", GString depID)]
                     (saveTx now (to_stage GovRolloutUndone ro) gg d))
        else if (st =? GovDeployFailed)%string
        then Done (paused GovPauseDeploymentFailed ("the canary deployment failed: " +:+ gf_StateReason (el_facts ev)) undo saved)
        else if (st =? GovDeployDrifted)%string then Done (paused GovPauseDrifted "the canary drifted" undo saved)
        else if ge_applied (el_gate ev) && cr_Pause res
        then Done (paused GovPauseGateFailed ("canary gate failed: " +:+ failed_gates res) undo
                     (evaluated [("unexpected_failures", GSlice (failure_val <$> cr_UnexpectedFailures res));
                                 ("application_health", dimension_val (cr_ApplicationHealth res));
                                 ("restriction", dimension_val (cr_Restriction res))] saved))
        else if advance
        then '(d, _, _) ← advanceTx fresh now "" cx ro gg c refused "gates passed"
                            (evaluated [("accepted", strings_val (ca_Accepted c)); ("pass", GBool true)] d);
             Done d
        else if sameGateOutcomes c0 c then Done saved
        else Done (evaluated [("state", GString st); ("not_available", strings_val (cr_NotAvailable res));
                              ("accepted", strings_val (ca_Accepted c)); ("pass", GBool false)] saved)
  end.

(** The first reading, outside the transaction: the canary's deployment and,
    for a healthy one, the other targets' approvals. *)
(* src: services/iga_gov_rollout_jobs.go:295-416 (GovRollout.tickCanary) *)
Definition tickCanary (fresh : string -> string) (now : Time) (f : PolicyJobFence) (rev : Z) (cx : rctx) (ro : Rollout) (d : RDB)
  : RDB * outcome unit :=
  let vid := pv_ID (cx_Version cx) in
  match rr_Canary (rl_GateResults ro) with
  | None => (d, Done tt)
  | Some c =>
      let tx prepared refused := commit (locked_tx f GovRolloutCanary_ (canary_body fresh now rev (ca_DeploymentID c) prepared refused) vid) in
      match evaluateGates now cx (ca_DeploymentID c) rev d with
      | Refused (GovError 404 _ _) => (d, Refused (JobAbandoned "the canary deployment no longer exists"))
      | Refused e => (d, Refused e)
      | Done ev =>
          if canaryHealthy ev ∅ && (1 <? length (cx_Targets cx))%nat then
            reading (canary (cx_Targets cx)) d (fun ct =>
              match prepare_all now vid (other_targets ct (cx_Targets cx)) d ∅ with
              | (d, Refused e) => (d, Refused e)
              | (d, Done refused) => tx true refused d
              end)
          else tx (length (cx_Targets cx) <=? 1)%nat ∅ d
      end
  end.

(* src: services/iga_gov_rollout_jobs.go:431-446 (GovRollout.tickPaused, part) *)
Definition all_undone (d : RDB) (vid : string) : option nat :=
  let ds := versionDeployments d vid in
  let undone x := (dw_State x =? GovDeployUndone)%string in
  let live x := negb (undone x) && bool_decide (is_Some (dw_AppliedAt x)) && negb (dw_State x =? GovDeployFailed)%string &&
                negb (dw_State x =? GovDeploySuperseded)%string in
  if existsb undone ds && negb (existsb live ds) then Some (length (List.filter undone ds)) else None.

(* src: services/iga_gov_rollout_jobs.go:447-455 (GovRollout.tickPaused, part) *)
Definition undone_body (now : Time) (n : nat) (cx : rctx) (ro : Rollout) (d : RDB) : outcome RDB :=
  Done (appendGovEvent cx "rollout.undone" "" None [("rollout_id", GString (rl_ID ro)); ("undone_deployments", GInt (Z.of_nat n))]
          (saveTx now (to_stage GovRolloutUndone ro) (rl_GateResults ro) d)).

(* src: services/iga_gov_rollout_jobs.go:430-456 (GovRollout.tickPaused) *)
Definition tickPaused (now : Time) (f : PolicyJobFence) (cx : rctx) (d : RDB) : RDB * outcome unit :=
  match all_undone d (pv_ID (cx_Version cx)) with
  | None => (d, Done tt)
  | Some n => commit (locked_tx f GovRolloutPaused (undone_body now n) (pv_ID (cx_Version cx))) d
  end.

Definition settle_body (now : Time) (cx : rctx) (ro : Rollout) (d : RDB) : outcome RDB := Done (settleTx now cx ro d).

(* src: services/iga_gov_rollout_jobs.go:91-133 (GovRollout.ObserveTickHandler) *)
Definition ObserveTickHandler (fresh : string -> string) (now : Time) (f : PolicyJobFence) (subject : option string) (rev : option Z) (d : RDB)
  : RDB * outcome unit :=
  match subject with
  | None => (d, Refused (JobAbandoned "observe_tick without a rollout"))
  | Some id =>
      match List.find (fun r => (rl_ID r =? id)%string) (snd <$> map_to_list (rd_Rollouts d)) with
      | None => (d, Refused (JobAbandoned "the rollout no longer exists"))
      | Some r =>
          reading (load_tx d (rl_VersionID r)) d (fun cx =>
            match cx_Rollout cx with
            | None => (d, Done tt)
            | Some ro =>
                let rev := default 0 rev in
                let vid := pv_ID (cx_Version cx) in
                if (rl_Stage ro =? GovRolloutObserve)%string then (if rev =? 0 then (d, Done tt) else tickObserve now f rev cx ro d)
                else if (rl_Stage ro =? GovRolloutCanary_)%string then tickCanary fresh now f rev cx ro d
                else if (rl_Stage ro =? GovRolloutExpand)%string then commit (locked_tx f GovRolloutExpand (settle_body now) vid) d
                else if (rl_Stage ro =? GovRolloutPaused)%string then tickPaused now f cx d
                else (d, Done tt)
            end)
      end
  end.

(** * Held deployments *)

(** A paused rollout holds its queued apply deployments, and only those. *)
(* src: services/iga_gov_rollout_canary.go:80-93 (rolloutHoldsDeploymentTx) *)
Definition rolloutHoldsDeploymentTx (d : RDB) (x : DeploymentRow) : bool :=
  (dw_Kind x =? "apply")%string && (default "" (rl_Stage <$> rd_Rollouts d !! dw_VersionID x) =? GovRolloutPaused)%string.

(** The actions a view offers. *)
(* src: services/iga_gov_rollout_service.go:1800-1814 (GovRollout.view, part) *)
Definition actions (ro : Rollout) : list string :=
  let g := rl_GateResults ro in
  if (rl_Stage ro =? GovRolloutPaused)%string then
    (match rr_Pause g with Some p => if (ps_Kind p =? GovPauseReturnedToDraft)%string then [] else ["resume"%string] | None => [] end) ++
    (match rr_UndoOffered g with [] => [] | _ => ["undo_canary"%string] end)
  else if (rl_Stage ro =? GovRolloutCanary_)%string then ["expand"%string; "pause"%string]
  else if (rl_Stage ro =? GovRolloutAwaitingApproval)%string then ["start"%string; "pause"%string]
  else if bool_decide (rl_Stage ro ∈ [GovRolloutObserve; GovRolloutExpand]) then ["pause"%string]
  else [].

End Rollouts.
