(* ===== verification/RolloutFacts.v ===== *)
(** What a rollout guarantees ([Rollout]). The transactions of the rollout are
    the steps of a machine on the rows of a workspace, interleaved with those of
    the other services; every step moves each rollout along the stages of the
    documented life cycle and keeps what the stage promises. *)

From stdpp Require Import base list strings gmap sorting relations.
From S2P Require Import Prelude Slices Qualify Float64 Marshal JobQueue Intent Bundle Health HealthFacts Rollout.

(** * Outcomes *)

Lemma bind_Done {A B} (r : outcome A) (k : A -> outcome B) b : r ≫= k = Done b <-> exists a, r = Done a /\ k a = Done b.
Proof. destruct r; cbn; naive_solver. Qed.

Lemma ensure_Done b e u : ensure b e = Done u <-> b = true.
Proof. destruct u, b; cbn; naive_solver. Qed.

Lemma take_Done {A} (o : option A) a : take o = Done a <-> o = Some a.
Proof. destruct o; cbn; naive_solver. Qed.

(** Take apart a transaction known to commit. *)
Ltac inv_done H :=
  repeat first
  [ match type of H with
    | mbind _ _ = Done _ => let a := fresh "x" in let Ha := fresh "H" a in apply bind_Done in H as (a & Ha & H)
    | Done _ = Done _ => injection H as H; subst
    | Refused _ = Done _ => discriminate H
    | (let '(_, _) := ?p in _) = Done _ => destruct p
    end ].

Lemma mapM_Done {A B} (f : A -> outcome B) l k : mapM f l = Done k <-> Forall2 (fun a b => f a = Done b) l k.
Proof.
  revert k. induction l as [|x l IH]; intros k; cbn.
  - split; [intros [= <-]; constructor | by inversion 1].
  - rewrite bind_Done. split.
    + intros (b & Hb & (bs & Hbs & [= <-])%bind_Done). constructor; [done|by apply IH].
    + inversion 1 as [|? b ? bs Hb Hbs]; subst. exists b. split; [done|].
      apply bind_Done. exists bs. split; [by apply IH|done].
Qed.

(** * The life cycle of a rollout *)

Inductive active := Observing | Awaiting | Canarying | Expanding.

(** [Held a]: paused from the active phase [a]; [Returned]: paused because the
    version went back to draft. *)
Inductive phase := Active (a : active) | Held (a : active) | Returned | Completed | Partially | Undone.

Definition active_of (stage : string) : option active :=
  if (stage =? GovRolloutObserve)%string then Some Observing
  else if (stage =? GovRolloutAwaitingApproval)%string then Some Awaiting
  else if (stage =? GovRolloutCanary_)%string then Some Canarying
  else if (stage =? GovRolloutExpand)%string then Some Expanding
  else None.

Definition phase_of (r : Rollout) : option phase :=
  if (rl_Stage r =? GovRolloutPaused)%string then
    match rr_Pause (rl_GateResults r) with
    | Some p => if (ps_Kind p =? GovPauseReturnedToDraft)%string then (if is_empty (ps_From p) then Some Returned else None)
                else Held <$> active_of (ps_From p)
    | None => None
    end
  else if (rl_Stage r =? GovRolloutComplete)%string then Some Completed
  else if (rl_Stage r =? GovRolloutPartial)%string then Some Partially
  else if (rl_Stage r =? GovRolloutUndone)%string then Some Undone
  else Active <$> active_of (rl_Stage r).

(** The stages of the file comment of iga_gov_rollout_service.go. *)
Inductive phase_step : option phase -> phase -> Prop :=
  | ph_start : phase_step None (Active Observing)
  | ph_restart : phase_step (Some Returned) (Active Observing)
  | ph_work a : phase_step (Some (Active a)) (Active a)
  | ph_observed : phase_step (Some (Active Observing)) (Active Awaiting)
  | ph_returned : phase_step (Some (Active Observing)) Returned
  | ph_canary : phase_step (Some (Active Awaiting)) (Active Canarying)
  | ph_expand : phase_step (Some (Active Canarying)) (Active Expanding)
  | ph_complete a : a = Canarying \/ a = Expanding -> phase_step (Some (Active a)) Completed
  | ph_partial a : a = Canarying \/ a = Expanding -> phase_step (Some (Active a)) Partially
  | ph_hold a : phase_step (Some (Active a)) (Held a)
  | ph_resume a : phase_step (Some (Held a)) (Active a)
  | ph_undone p : p = Active Canarying \/ p = Returned \/ (exists a, p = Held a) -> phase_step (Some p) Undone.

Definition final (p : phase) : Prop := p = Completed \/ p = Partially \/ p = Undone.

(** What a row promises in its phase. *)
Definition past_observation (p : phase) : bool :=
  match p with Active Observing | Held Observing | Returned | Undone => false | _ => true end.
Definition past_canary (p : phase) : bool :=
  match p with Active (Canarying | Expanding) | Held (Canarying | Expanding) | Completed | Partially => true | _ => false end.

Definition observed (r : Rollout) : Prop :=
  exists o, rr_Observation (rl_GateResults r) = Some o /\ or_Complete (ob_Result o) = true /\ or_BackToDraft (ob_Result o) = [].

Definition observes_until (r : Rollout) : Prop :=
  exists u, rl_ObserveUntil r = Some u /\ rl_ObserveEvidenceRequiredAfter r = Some (u + ReportingLag).

Record row_ok (r : Rollout) (p : phase) : Prop := {
  ok_phase : phase_of r = Some p;
  ok_until : observes_until r;
  ok_observed : past_observation p = true -> observed r;
  ok_canary : past_canary p = true -> is_Some (rr_Canary (rl_GateResults r)) }.

(** ** One row *)

(** [r'] keeps the dates of [r]. *)
Definition same_dates (r r' : Rollout) : Prop :=
  rl_ObserveUntil r' = rl_ObserveUntil r /\ rl_ObserveEvidenceRequiredAfter r' = rl_ObserveEvidenceRequiredAfter r.

(** What one transaction may do to the row of a version. *)
Inductive row_step : option Rollout -> Rollout -> Prop :=
  | rs_start o r' u :
      match o with Some r => phase_of r = Some Returned | None => True end ->
      rl_Stage r' = GovRolloutObserve -> rl_ObserveUntil r' = Some u ->
      rl_ObserveEvidenceRequiredAfter r' = Some (u + ReportingLag) -> row_step o r'
  | rs_checked r r' :
      rl_Stage r = GovRolloutObserve -> rl_Stage r' = GovRolloutObserve -> same_dates r r' -> row_step (Some r) r'
  | rs_observed r r' :
      rl_Stage r = GovRolloutObserve -> rl_Stage r' = GovRolloutAwaitingApproval -> same_dates r r' -> observed r' -> row_step (Some r) r'
  | rs_returned r r' p :
      rl_Stage r = GovRolloutObserve -> rl_Stage r' = GovRolloutPaused -> same_dates r r' ->
      rr_Pause (rl_GateResults r') = Some p -> ps_Kind p = GovPauseReturnedToDraft -> ps_From p = "" -> row_step (Some r) r'
  | rs_canary r r' s :
      rl_Stage r = s -> s = GovRolloutAwaitingApproval \/ s = GovRolloutCanary_ -> rl_Stage r' = GovRolloutCanary_ -> same_dates r r' ->
      rr_Observation (rl_GateResults r') = rr_Observation (rl_GateResults r) -> is_Some (rr_Canary (rl_GateResults r')) -> row_step (Some r) r'
  | rs_pause r r' p :
      rl_Stage r ∈ pausable -> rl_Stage r' = GovRolloutPaused -> same_dates r r' ->
      rr_Pause (rl_GateResults r') = Some p -> ps_From p = rl_Stage r -> ps_Kind p <> GovPauseReturnedToDraft ->
      rr_Observation (rl_GateResults r') = rr_Observation (rl_GateResults r) ->
      rr_Canary (rl_GateResults r') = rr_Canary (rl_GateResults r) \/ is_Some (rr_Canary (rl_GateResults r')) -> row_step (Some r) r'
  | rs_resume r r' p :
      rl_Stage r = GovRolloutPaused -> rr_Pause (rl_GateResults r) = Some p -> ps_Kind p <> GovPauseReturnedToDraft ->
      rl_Stage r' = ps_From p -> same_dates r r' -> rr_Observation (rl_GateResults r') = rr_Observation (rl_GateResults r) ->
      rr_Canary (rl_GateResults r') = rr_Canary (rl_GateResults r) -> row_step (Some r) r'
  | rs_advance r r' s :
      rl_Stage r = GovRolloutCanary_ \/ rl_Stage r = GovRolloutExpand -> rl_Stage r' = s ->
      s = GovRolloutComplete \/ s = GovRolloutPartial \/ s = GovRolloutExpand -> same_dates r r' ->
      rr_Observation (rl_GateResults r') = rr_Observation (rl_GateResults r) ->
      (rr_Canary (rl_GateResults r') = rr_Canary (rl_GateResults r) \/ is_Some (rr_Canary (rl_GateResults r'))) -> row_step (Some r) r'
  | rs_undone r r' :
      rl_Stage r = GovRolloutCanary_ \/ rl_Stage r = GovRolloutPaused -> rl_Stage r' = GovRolloutUndone -> same_dates r r' -> row_step (Some r) r'.

Lemma phase_of_stage r a : active_of (rl_Stage r) = Some a -> phase_of r = Some (Active a).
Proof.
  unfold phase_of, active_of. intros H. revert H.
  repeat match goal with |- context [(rl_Stage r =? ?s)%string] => destruct (String.eqb_spec (rl_Stage r) s) as [-> | ?] end; cbn; naive_solver.
Qed.

(** The phase of a row whose stage is known. *)
Lemma phase_at r s : rl_Stage r = s ->
  phase_of r = (if (s =? GovRolloutPaused)%string then phase_of r
                else if (s =? GovRolloutComplete)%string then Some Completed
                else if (s =? GovRolloutPartial)%string then Some Partially
                else if (s =? GovRolloutUndone)%string then Some Undone
                else Active <$> active_of s).
Proof. intros <-. unfold phase_of. by destruct (rl_Stage r =? GovRolloutPaused)%string. Qed.

Lemma phase_held r a : phase_of r = Some (Held a) <->
  rl_Stage r = GovRolloutPaused /\ exists p, rr_Pause (rl_GateResults r) = Some p /\ ps_Kind p <> GovPauseReturnedToDraft /\
  active_of (ps_From p) = Some a.
Proof.
  unfold phase_of. destruct (String.eqb_spec (rl_Stage r) GovRolloutPaused) as [-> | Hne].
  - destruct (rr_Pause (rl_GateResults r)) as [p|]; [|by split; [|intros (_ & ? & ? & _)]].
    destruct (String.eqb_spec (ps_Kind p) GovPauseReturnedToDraft) as [Hk | Hk].
    + split; [by destruct (is_empty (ps_From p))|]. intros (_ & q & [= <-] & Hq & _). done.
    + destruct (active_of (ps_From p)) as [b|] eqn:Hb; cbn; (split; [intros [= <-] | intros (_ & q & [= <-] & _ & Hq)]).
      * split; [done|]. by exists p.
      * congruence.
      * congruence.
  - split; [|naive_solver].
    repeat match goal with |- context [(rl_Stage r =? ?s)%string] => destruct (rl_Stage r =? s)%string end; try done.
    by destruct (active_of (rl_Stage r)).
Qed.

Lemma phase_returned r p : rl_Stage r = GovRolloutPaused -> rr_Pause (rl_GateResults r) = Some p ->
  ps_Kind p = GovPauseReturnedToDraft -> ps_From p = "" -> phase_of r = Some Returned.
Proof. intros Hs Hp Hk Hf. unfold phase_of. by rewrite Hs, Hp, Hk, Hf. Qed.

Lemma active_pausable s : s ∈ pausable <-> is_Some (active_of s).
Proof.
  unfold pausable, active_of. rewrite !elem_of_cons, elem_of_nil. split.
  - by intros [-> | [-> | [-> | [-> | []]]]]; eexists.
  - intros [a H]. revert H.
    repeat match goal with |- context [(s =? ?t)%string] => destruct (String.eqb_spec s t) as [-> | ?] end; naive_solver.
Qed.

(** A row in an active stage is in that phase. *)
Lemma row_active r p a : active_of (rl_Stage r) = Some a -> row_ok r p -> p = Active a.
Proof. intros Ha [Hp _ _ _]. rewrite (phase_of_stage _ _ Ha) in Hp. congruence. Qed.

Lemma observed_kept r r' : rr_Observation (rl_GateResults r') = rr_Observation (rl_GateResults r) -> observed r -> observed r'.
Proof. unfold observed. by intros ->. Qed.

Lemma dates_kept r r' : same_dates r r' -> observes_until r -> observes_until r'.
Proof. unfold same_dates, observes_until. by intros [-> ->]. Qed.

Definition before (o : option Rollout) (p : option phase) : Prop :=
  match o, p with Some r, Some p => row_ok r p | None, None => True | _, _ => False end.

Lemma row_ok_active r a : active_of (rl_Stage r) = Some a -> observes_until r -> (past_observation (Active a) = true -> observed r) ->
  (past_canary (Active a) = true -> is_Some (rr_Canary (rl_GateResults r))) -> row_ok r (Active a).
Proof. intros. split; [by apply phase_of_stage|done..]. Qed.

Lemma row_pause_ok r r' a q : active_of (rl_Stage r) = Some a -> rl_Stage r' = GovRolloutPaused -> same_dates r r' ->
  rr_Pause (rl_GateResults r') = Some q -> ps_From q = rl_Stage r -> ps_Kind q <> GovPauseReturnedToDraft ->
  rr_Observation (rl_GateResults r') = rr_Observation (rl_GateResults r) ->
  rr_Canary (rl_GateResults r') = rr_Canary (rl_GateResults r) \/ is_Some (rr_Canary (rl_GateResults r')) ->
  row_ok r (Active a) -> row_ok r' (Held a).
Proof.
  intros Ha Hs' Hd Hq Hf Hk Hobs Hc Hb. split.
  - apply phase_held. split; [done|]. exists q. by rewrite Hf.
  - by eapply dates_kept; [|apply Hb].
  - intros Hpo. eapply observed_kept; [done|]. apply Hb. by destruct a.
  - intros Hpc. destruct Hc as [-> | ?]; [|done]. apply Hb. by destruct a.
Qed.

Lemma row_resume_ok r r' q p : rl_Stage r = GovRolloutPaused -> rr_Pause (rl_GateResults r) = Some q ->
  ps_Kind q <> GovPauseReturnedToDraft -> rl_Stage r' = ps_From q -> same_dates r r' ->
  rr_Observation (rl_GateResults r') = rr_Observation (rl_GateResults r) ->
  rr_Canary (rl_GateResults r') = rr_Canary (rl_GateResults r) -> row_ok r p ->
  exists a, p = Held a /\ row_ok r' (Active a).
Proof.
  intros Hs Hq Hk Hs' Hd Hobs Hc Hb. pose proof (ok_phase _ _ Hb) as Hp.
  unfold phase_of in Hp. rewrite Hs, Hq in Hp. cbn in Hp.
  destruct (String.eqb_spec (ps_Kind q) GovPauseReturnedToDraft); [done|].
  destruct (active_of (ps_From q)) as [a|] eqn:Ha; [|done]. injection Hp as <-.
  exists a. split; [done|]. apply row_ok_active; [by rewrite Hs'|by eapply dates_kept; [|apply Hb]| |].
  - intros Hpo. eapply observed_kept; [done|]. apply Hb. by destruct a.
  - intros Hpc. rewrite Hc. apply Hb. by destruct a.
Qed.

Lemma row_advance_ok r r' a p' : a = Canarying \/ a = Expanding -> phase_of r' = Some p' -> same_dates r r' ->
  rr_Observation (rl_GateResults r') = rr_Observation (rl_GateResults r) ->
  rr_Canary (rl_GateResults r') = rr_Canary (rl_GateResults r) \/ is_Some (rr_Canary (rl_GateResults r')) ->
  row_ok r (Active a) -> row_ok r' p'.
Proof.
  intros Ha Hp' Hd Hobs Hc Hb. split; [done|by eapply dates_kept; [|apply Hb]| |].
  - intros _. eapply observed_kept; [done|]. apply Hb. by destruct Ha as [-> | ->].
  - intros _. destruct Hc as [-> | ?]; [|done]. apply Hb. by destruct Ha as [-> | ->].
Qed.

Lemma row_paused_phase r p : rl_Stage r = GovRolloutPaused -> row_ok r p -> p = Returned \/ exists a, p = Held a.
Proof.
  intros Hs Hb. pose proof (ok_phase _ _ Hb) as Hp. unfold phase_of in Hp. rewrite Hs in Hp. cbn in Hp.
  destruct (rr_Pause _) as [q|]; [|done]. destruct (ps_Kind q =? _)%string.
  - destruct (is_empty _); [injection Hp as <-; by left|done].
  - destruct (active_of _) as [a|]; [injection Hp as <-; right; by exists a|done].
Qed.

(** The row in stage [s] is in the phase of [s]. *)
Ltac in_phase a :=
  match goal with
  | Hs : rl_Stage ?r = _, Hb : before (Some ?r) ?p |- _ =>
      destruct p as [p|]; [|done]; pose proof (row_active r p a ltac:(by rewrite Hs) Hb); subst p
  end.

(** Every change of a row is a move of the life cycle, and keeps its promises. *)
Lemma row_step_ok o r' p : row_step o r' -> before o p -> exists p', row_ok r' p' /\ phase_step p p'.
Proof.
  destruct 1 as [o r' u Ho Hs Hu Ha | r r' Hs Hs' Hd | r r' Hs Hs' Hd Hobs | r r' q Hs Hs' Hd Hq Hk Hf
    | r r' s Hs Hss Hs' Hd Hobs Hc | r r' q Hs Hs' Hd Hq Hf Hk Hobs Hc | r r' q Hs Hq Hk Hs' Hd Hobs Hc
    | r r' s Hs Hs' Hss Hd Hobs Hc | r r' Hs Hs' Hd ]; intros Hb.
  - exists (Active Observing). split; [by apply row_ok_active; [rewrite Hs|exists u|..]|].
    destruct o as [r|], p as [p|]; try done; [|constructor].
    destruct Hb as [Hp _ _ _]. assert (p = Returned) as -> by congruence. constructor.
  - in_phase Observing. exists (Active Observing). split; [|constructor].
    apply row_ok_active; [by rewrite Hs'|by eapply dates_kept; [|apply Hb]|done..].
  - in_phase Observing. exists (Active Awaiting). split; [|constructor].
    apply row_ok_active; [by rewrite Hs'|by eapply dates_kept; [|apply Hb]|done..].
  - in_phase Observing. exists Returned. split; [|constructor].
    split; [by eapply phase_returned|by eapply dates_kept; [|apply Hb]|done..].
  - exists (Active Canarying). destruct Hss as [-> | ->]; [in_phase Awaiting|in_phase Canarying]; (split; [|constructor]);
      (apply row_ok_active; [by rewrite Hs'|by eapply dates_kept; [|apply Hb]| |done]);
      (intros _; eapply observed_kept; [done|]; by apply Hb).
  - apply active_pausable in Hs as [a Ha]. destruct p as [p|]; [|done]. pose proof (row_active r p a Ha Hb) as ->.
    exists (Held a). split; [by eapply row_pause_ok|constructor].
  - destruct p as [p|]; [|done]. edestruct (row_resume_ok r r') as (a & -> & ?); [done..|].
    exists (Active a). split; [done|constructor].
  - assert (exists a, p = Some (Active a) /\ (a = Canarying \/ a = Expanding)) as (a & -> & Ha).
    { destruct Hs as [Hs | Hs]; [in_phase Canarying; exists Canarying|in_phase Expanding; exists Expanding]; eauto. }
    destruct Hss as [-> | [-> | ->]]; [exists Completed|exists Partially|exists (Active Expanding)];
      (split; [eapply (row_advance_ok r r' a); [done|by rewrite (phase_at _ _ Hs')|done..]|]);
      [by constructor|by constructor|destruct Ha as [-> | ->]; constructor].
  - destruct p as [p|]; [|done]. exists Undone. split.
    + split; [by rewrite (phase_at _ _ Hs')|by eapply dates_kept; [|apply Hb]|done..].
    + constructor. destruct Hs as [Hs | Hs].
      * left. by eapply row_active; [by rewrite Hs|].
      * right. by eapply row_paused_phase.
Qed.

(** * Transactions *)

(** Rows are stored under their key, and a control has one deployment in flight
    (uq_iga_gov_deployment_inflight). *)
Record tables_ok (d : RDB) : Prop := {
  tk_versions : map_Forall (fun k v => pv_ID v = k) (rd_Versions d);
  tk_rollouts : map_Forall (fun k r => rl_VersionID r = k) (rd_Rollouts d);
  tk_deployments : map_Forall (fun k x => dw_ID x = k) (rd_Deployments d);
  tk_inflight : forall i j x y, rd_Deployments d !! i = Some x -> rd_Deployments d !! j = Some y ->
    inflight x = true -> inflight y = true -> dw_ControlID x = dw_ControlID y -> i = j }.

(** [d'] has the rollouts, versions, policies, targets, controls, plans,
    approvals and settings of [d]. *)
Record work_only (d d' : RDB) : Prop := {
  wo_rollouts : rd_Rollouts d' = rd_Rollouts d;
  wo_versions : rd_Versions d' = rd_Versions d;
  wo_policies : rd_Policies d' = rd_Policies d;
  wo_targets : rd_Targets d' = rd_Targets d;
  wo_controls : rd_Controls d' = rd_Controls d;
  wo_plans : rd_Plans d' = rd_Plans d;
  wo_approvals : rd_Approvals d' = rd_Approvals d;
  wo_settings : rd_Settings d' = rd_Settings d }.

#[global] Instance work_only_preorder : PreOrder work_only.
Proof. split; [by intros ?; split|]. intros a b c [] []. split; congruence. Qed.

(** The primary keys of controls, targets and plans, and the foreign key of a
    plan: its target, version and control are those of one row of iga_gov_target
    (migrations 049 and 050). *)
Record references_ok (d : RDB) : Prop := {
  rk_controls : map_Forall (fun k c => cl_ID c = k) (rd_Controls d);
  rk_targets : forall s t, s ∈ rd_Targets d -> t ∈ rd_Targets d -> tg_ID s = tg_ID t -> s = t;
  rk_plans : forall p q, p ∈ rd_Plans d -> q ∈ rd_Plans d -> pn_ID p = pn_ID q -> p = q;
  rk_plan_target : forall p, p ∈ rd_Plans d ->
    exists t, t ∈ rd_Targets d /\ tg_ID t = pn_TargetID p /\ tg_VersionID t = pn_VersionID p /\ tg_ControlID t = pn_ControlID p }.

(** The primary key of evidence: revision, identity and service (migration 048). *)
Definition evidence_keyed (d : RDB) : Prop :=
  forall e e', e ∈ rd_Evidence d -> e' ∈ rd_Evidence d -> ev_Rev e = ev_Rev e' -> ev_IdentityAccountID e = ev_IdentityAccountID e' ->
    ev_Service e = ev_Service e' -> e = e'.

Section Facts.
Context (sv : services).

Lemma load_tx_Done d vid cx : load_tx d vid = Done cx -> tables_ok d ->
  rd_Versions d !! vid = Some (cx_Version cx) /\ pv_ID (cx_Version cx) = vid /\ cx_Rollout cx = rd_Rollouts d !! vid /\
  rd_Policies d !! pv_PolicyID (cx_Version cx) = Some (cx_Policy cx) /\ storedRightSize (cx_Version cx) = Done (cx_Intent cx).
Proof.
  unfold load_tx, loadVersionCtx. intros H Hk. inv_done H. apply take_Done in Hx, Hx0.
  pose proof (tk_versions _ Hk vid x Hx) as Hid. cbn. by rewrite Hid.
Qed.

Lemma find_true {A} (f : A -> bool) l x : List.find f l = Some x -> x ∈ l /\ f x = true.
Proof. intros H. apply find_some in H as [H1 H2]. by rewrite list_elem_of_In. Qed.

(** An approval a deployment may rely on. *)
Record approved (now : Time) (d : RDB) (v : Version) (ap : Approval) : Prop := {
  apd_live : ap ∈ rd_Approvals d /\ ap_VersionID ap = pv_ID v /\ ap_Decision ap = "approve" /\ ap_RevokedAt ap = None;
  apd_status : pv_Status v = "approved";
  apd_time : now < ap_ExpiresAt ap;
  apd_intent : ap_IntentHash ap = pv_IntentHash v;
  apd_other : ap_DecidedBy ap <> pv_CreatedBy v;
  apd_member : sv_ActiveMember sv d (ap_DecidedBy ap) = true;
  apd_holds : sv_Holds sv d (ap_DecidedBy ap) "governance" "approve" = true }.

(** The evidence of an approved plan is fresh, or its latest revalidation is
    unchanged, made after the approval and itself fresh. *)
Definition evidence_ok (now : Time) (d : RDB) (ap : Approval) (p : PlanRow) (rv : option string) : Prop :=
  match rv with
  | None => sv_EvidenceFresh sv now d (pn_ID p) = true
  | Some id => exists r, latest_revalidation d p = Some r /\ rv_ID r = id /\ ap_DecidedAt ap <= rv_CreatedAt r /\
      sv_Stale sv now d (pn_ControlID p) r = [] /\ rv_Result r <> GovRevalidationMaterialChange /\ rv_Result r <> GovRevalidationBlocked
  end.

(** The plan is current, of this version, and named by the approval. *)
Definition approved_plan (now : Time) (d : RDB) (v : Version) (ap : Approval) (id : string) (rv : option string) : Prop :=
  exists p, p ∈ rd_Plans d /\ pn_ID p = id /\ pn_VersionID p = pv_ID v /\ pn_SupersededAt p = None /\
    pn_PlanHash p ∈ ap_PlanHashes ap /\ evidence_ok now d ap p rv.

Lemma usable_plan_Done now d v ap id rv : usable_plan sv now d v ap true id = Done rv -> approved_plan now d v ap id rv.
Proof.
  unfold usable_plan. destruct (List.find _ _) as [p|] eqn:Hp; [|done]. apply find_true in Hp as [Hin Hp]. bool_prop.
  destruct (bool_decide (is_Some (pn_SupersededAt p)) || _) eqn:Hcur; [done|]. bool_prop.
  apply eq_None_not_Some in H1. cbn [negb orb].
  assert (forall e, evidence_ok now d ap p e -> approved_plan now d v ap id e) as Hgo by (intros e He; by exists p).
  destruct (sv_EvidenceFresh sv now d (pn_ID p)) eqn:Hf; [intros [= <-]; by apply Hgo|].
  destruct (latest_revalidation d p) as [r|] eqn:Hr; [|done].
  destruct ((rv_CreatedAt r <? ap_DecidedAt ap) || _) eqn:Hs; [done|]. bool_prop.
  destruct (String.eqb_spec (rv_Result r) GovRevalidationMaterialChange); [done|].
  destruct (String.eqb_spec (rv_Result r) GovRevalidationBlocked); [done|]. intros [= <-]. apply Hgo.
  exists r. match goal with H : (length _ =? 0)%nat = true |- _ => apply Nat.eqb_eq, length_zero_iff_nil in H end. by split_and!.
Qed.

Lemma UsableApproval_Done now d vid ids ap rvs : UsableApproval sv now d vid ids = Done (ap, rvs) ->
  exists v, rd_Versions d !! vid = Some v /\ approved now d v ap /\ Forall2 (approved_plan now d v ap) ids rvs.
Proof.
  unfold UsableApproval, usableApproval. destruct (rd_Versions d !! vid) as [v|]; [|done].
  unfold liveApproval. destruct (List.find _ _) as [a|] eqn:Ha; [|by destruct (pv_Status v =? "approved")%string].
  apply find_true in Ha as [Hin Ha]. bool_prop. destruct (String.eqb_spec (pv_Status v) "approved") as [Hst | ?]; [|done].
  destruct (ap_ExpiresAt a <=? now) eqn:He; [done|]. destruct (String.eqb_spec (ap_IntentHash a) (pv_IntentHash v)) as [Hi | ?]; [|done].
  destruct (approver_reasons sv d v a) eqn:Hr; [|done]. intros Hok. cbn [negb] in Hok. inv_done Hok.
  exists v. split; [done|]. unfold approver_reasons in Hr.
  destruct (String.eqb_spec (ap_DecidedBy ap) (pv_CreatedBy v)) as [|Hne]; [done|].
  destruct (sv_ActiveMember sv d _) eqn:Hm; [|done]. destruct (sv_Holds sv d _ _ _) eqn:Hh; [|done].
  split; [split; [done..|lia|done|done|done|done]|].
  apply mapM_Done in Hx. eapply Forall2_impl; [done|]. intros i r. apply usable_plan_Done.
Qed.

(** A target of the version with its control and its current apply plan, as the
    transaction reads them. *)
Record loaded (d : RDB) (vid : string) (t : rtarget) : Prop := {
  ld_target : rt_Target t ∈ rd_Targets d;
  ld_version : tg_VersionID (rt_Target t) = vid;
  ld_control : rd_Controls d !! tg_ControlID (rt_Target t) = Some (rt_Control t);
  ld_plan : rt_Plan t = currentApplyPlan d vid (tg_ID (rt_Target t)) }.

Lemma loaded_work d d' vid t : work_only d d' -> loaded d vid t -> loaded d' vid t.
Proof. intros [] []. unfold currentApplyPlan in *. split; unfold currentApplyPlan; congruence. Qed.

Lemma load_tx_loaded d vid cx : load_tx d vid = Done cx -> tables_ok d -> Forall (loaded d vid) (cx_Targets cx).
Proof.
  unfold load_tx, loadVersionCtx. intros H Hk. inv_done H. apply take_Done in Hx. pose proof (tk_versions _ Hk vid x Hx) as Hid.
  apply Forall_forall. intros t. cbn. rewrite elem_of_sort_slice. intros Ht. apply mapM_Done in Hx2.
  apply list_elem_of_lookup in Ht as [i Hi]. destruct (Forall2_lookup_r _ _ _ _ _ Hx2 Hi) as (tg & Htg & Hl).
  apply list_elem_of_lookup_2, elem_of_sort_slice, elem_of_filter_b in Htg as [Hin Hv%String.eqb_eq].
  unfold load_target in Hl. apply bind_Done in Hl as (c & Hc%take_Done & [= <-]). rewrite Hid in *. by split.
Qed.

(** The current apply plan is a row of this version and target. *)
Lemma currentApplyPlan_Some d vid tid p : currentApplyPlan d vid tid = Some p ->
  p ∈ rd_Plans d /\ pn_VersionID p = vid /\ pn_Kind p = "apply" /\ pn_SupersededAt p = None /\ pn_TargetID p = tid.
Proof.
  unfold currentApplyPlan. intros H. apply last_Some_elem_of, elem_of_filter_b in H as [Hin Hb]. bool_prop. by split_and!.
Qed.

Lemma canary_in ts t : canary ts = Done t -> t ∈ ts.
Proof.
  unfold canary. destruct (List.find _ ts) as [x|] eqn:E; [intros [= <-]; by apply find_true in E as []|].
  destruct ts as [|x [|]]; try done. intros [= <-]. by left.
Qed.

(** What the rollout checked of a deployment it created, in the rows it was
    created in. *)
Record authorised (now : Time) (d : RDB) (vid : string) (t : rtarget) (dep : DeploymentRow) : Prop := {
  au_plan : exists v p ap, rd_Versions d !! vid = Some v /\ rt_Plan t = Some p /\ approved now d v ap /\
    approved_plan now d v ap (pn_ID p) (dw_RevalidationID dep) /\
    dep = new_deployment (dw_ID dep) now vid t p ap (dw_RevalidationID dep);
  au_mode : dw_Delivery dep <> DeliveryExport -> st_EnforcementMode (rd_Settings d) = GovModeEnforce;
  au_binding : dw_Delivery dep = DeliveryDirect -> sv_RequireVerified sv d (cl_ConnectorID (rt_Control t)) = None;
  au_alone : forall i x, rd_Deployments d !! i = Some x -> dw_ControlID x = dw_ControlID dep -> inflight x = false }.

Lemma enqueueJobTx_work fresh kind s now d d' : enqueueJobTx sv fresh kind s now d = Done d' ->
  work_only d d' /\ rd_Deployments d' = rd_Deployments d /\ rd_Acceptances d' = rd_Acceptances d.
Proof. unfold enqueueJobTx. destruct (EnqueueTx _ _ _ _ _ _) as [[[t ?] ?]|]; [|done]. intros [= <-]. by split. Qed.

Lemma deliveryAllowed_Done d s u : deliveryAllowed d s = Done u -> s <> DeliveryExport -> st_EnforcementMode (rd_Settings d) = GovModeEnforce.
Proof.
  unfold deliveryAllowed. destruct (String.eqb_spec s DeliveryExport); [done|]. intros H%ensure_Done _. by apply String.eqb_eq.
Qed.

Lemma elem_of_deployments_where f d i x : rd_Deployments d !! i = Some x -> f x = true -> x ∈ deployments_where f d.
Proof.
  intros Hx Hf. unfold deployments_where. rewrite elem_of_filter_b, list_elem_of_fmap. split; [|done].
  exists (i, x). split; [done|]. by apply elem_of_map_to_list.
Qed.

Lemma createDeploymentTx_Done fresh now actor cx t d d' dep :
  createDeploymentTx sv fresh now actor cx t d = Done (d', dep) ->
  work_only d d' /\ rd_Acceptances d' = rd_Acceptances d /\ rd_Deployments d !! fresh = None /\
  rd_Deployments d' = <[fresh := dep]> (rd_Deployments d) /\ dw_ID dep = fresh /\ authorised now d (pv_ID (cx_Version cx)) t dep.
Proof.
  unfold createDeploymentTx. destruct (rt_Plan t) as [p|] eqn:Hp; [|done].
  intros (? & Hmode & (? & Hbind & ([a rvs] & Hua & H)%bind_Done)%bind_Done)%bind_Done.
  destruct (deployments_where _ d) as [|? ?] eqn:Hin; [|done].
  apply bind_Done in H as (? & Hnew%ensure_Done%bool_decide_eq_true & (d1 & Hjob & [= <- <-])%bind_Done).
  apply enqueueJobTx_work in Hjob as (Hw & Hd & Ha). cbn in Hd, Ha.
  apply UsableApproval_Done in Hua as (v & Hv & Hap & Hpl).
  match type of Hpl with Forall2 _ _ ?l => destruct l as [|rv [|]]; [by inversion Hpl| |by inversion Hpl as [|???? _ Hn]; inversion Hn] end.
  apply Forall2_cons in Hpl as [Hpl _].
  split_and!; [by destruct Hw; split | done | done | done | done |]. split; cbn.
  - by exists v, p, a.
  - intros Hne. by eapply deliveryAllowed_Done.
  - intros Hdir. rewrite Hdir in Hbind. cbn in Hbind. by destruct (sv_RequireVerified _ _ _).
  - intros i y Hy Hc. destruct (inflight y) eqn:Hf; [|done].
    assert (y ∈ deployments_where (fun x => (dw_ControlID x =? cl_ID (rt_Control t))%string && inflight x) d) as Hel.
    { eapply elem_of_deployments_where; [done|]. by rewrite Hc, Hf, String.eqb_refl. }
    rewrite Hin in Hel. by apply not_elem_of_nil in Hel.
Qed.

(** The in-flight constraint survives an authorised deployment. *)
Lemma tables_ok_create now d d' fresh vid t dep : tables_ok d -> authorised now d vid t dep -> rd_Deployments d !! fresh = None ->
  dw_ID dep = fresh -> work_only d d' -> rd_Deployments d' = <[fresh := dep]> (rd_Deployments d) -> tables_ok d'.
Proof.
  intros [Hv Hr Hd Hi] Hau Hn Hid [Wr Wv _ _ _ _ _ _] Heq. split; rewrite ?Wv, ?Wr, ?Heq; [done..| |].
  - by apply map_Forall_insert_2.
  - intros i j x y [[<- <-] | [Hne Hx]]%lookup_insert_Some [[<- <-] | [Hne' Hy]]%lookup_insert_Some Fx Fy Hc; [done| | |by eapply Hi].
    + by rewrite (au_alone _ _ _ _ _ Hau j y Hy ltac:(done)) in Fy.
    + by rewrite (au_alone _ _ _ _ _ Hau i x Hx Hc) in Fx.
Qed.

(** ** What a transaction does *)

(** Deployments appear only authorised; nothing of the rest changes. *)
Record grows (now : Time) (vid : string) (d d' : RDB) : Prop := {
  gw_work : work_only d d';
  gw_sub : rd_Deployments d ⊆ rd_Deployments d';
  gw_new : forall i x, rd_Deployments d' !! i = Some x -> rd_Deployments d !! i = Some x \/
    exists dm t, work_only d dm /\ rd_Deployments d ⊆ rd_Deployments dm /\ loaded dm vid t /\ authorised now dm vid t x;
  gw_tables : tables_ok d -> tables_ok d' }.

Lemma grows_refl now vid d d' : work_only d d' -> rd_Deployments d' = rd_Deployments d -> grows now vid d d'.
Proof.
  intros Hw Hd. split; [done|by rewrite Hd|rewrite Hd; by left|].
  intros [Hv Hr Hk Hi]. destruct Hw as [Wr Wv _ _ _ _ _ _]. split; by rewrite ?Wv, ?Wr, ?Hd.
Qed.

Lemma grows_trans now vid a b c : grows now vid a b -> grows now vid b c -> grows now vid a c.
Proof.
  intros [Wab Sab Nab Tab] [Wbc Sbc Nbc Tbc]. split; [by etrans|by etrans| |naive_solver].
  intros i x Hx. destruct (Nbc i x Hx) as [Hb | (dm & t & Wm & Sm & Ha)]; [by apply Nab|].
  right. exists dm, t. split_and!; [by etrans|by etrans|apply Ha..].
Qed.

Lemma createDeploymentTx_grows fresh now actor cx t d d' dep :
  loaded d (pv_ID (cx_Version cx)) t -> createDeploymentTx sv fresh now actor cx t d = Done (d', dep) ->
  grows now (pv_ID (cx_Version cx)) d d'.
Proof.
  intros Hl (Hw & _ & Hn & Hd & Hid & Hau)%createDeploymentTx_Done. split; [done| | |].
  - rewrite Hd. by apply insert_subseteq.
  - intros i x. rewrite Hd. intros [[<- <-] | [_ Hx]]%lookup_insert_Some; [right|by left]. by exists d, t.
  - intros Hk. by eapply tables_ok_create.
Qed.

Lemma expand_target_grows fresh now actor cx ro refused x t y :
  loaded (xg_DB x) (pv_ID (cx_Version cx)) t -> expand_target sv fresh now actor cx ro refused x t = Done y ->
  grows now (pv_ID (cx_Version cx)) (xg_DB x) (xg_DB y).
Proof.
  intros Hl. unfold expand_target. destruct (refused !! _) as [rf|]; [intros [= <-]; by apply grows_refl|].
  destruct (createDeploymentTx _ _ _ _ _ _ _) as [[d' dep]|e] eqn:Hc; [intros [= <-]; by eapply createDeploymentTx_grows|].
  destruct (refusalOf t e); [|done]. intros [= <-]. by apply grows_refl.
Qed.

Lemma fold_outcome_ind {A B} (P : A -> A -> Prop) (f : A -> B -> outcome A) l a b :
  (forall a, P a a) -> (forall a b c, P a b -> P b c -> P a c) -> (forall a x b, f a x = Done b -> P a b) ->
  fold_outcome f a l = Done b -> P a b.
Proof.
  intros Hr Ht Hs. revert a. induction l as [|x l IH]; intros a; cbn; [by intros [= <-]|].
  intros (c & Hc & H)%bind_Done. eauto.
Qed.

Lemma expand_targets_grows fresh now actor cx ro refused ts : forall x y,
  Forall (loaded (xg_DB x) (pv_ID (cx_Version cx))) ts -> fold_outcome (expand_target sv fresh now actor cx ro refused) x ts = Done y ->
  grows now (pv_ID (cx_Version cx)) (xg_DB x) (xg_DB y).
Proof.
  induction ts as [|t ts IH]; intros x y Hl; cbn; [intros [= <-]; by apply grows_refl|].
  apply Forall_cons in Hl as [Ht Hl]. intros (z & Hz%expand_target_grows & H)%bind_Done; [|done].
  eapply grows_trans; [exact Hz|]. apply IH; [|done]. eapply Forall_impl; [exact Hl|]. intros u. apply loaded_work, Hz.
Qed.

(** The effect of a transaction on the rollouts and deployments. *)
Record tx_effect (now : Time) (vid : string) (d d' : RDB) : Prop := {
  te_row : rd_Rollouts d' = rd_Rollouts d \/
    exists r, rd_Rollouts d' = <[vid := r]> (rd_Rollouts d) /\ rl_VersionID r = vid /\ row_step (rd_Rollouts d !! vid) r;
  te_sub : rd_Deployments d ⊆ rd_Deployments d';
  te_new : forall i x, rd_Deployments d' !! i = Some x -> rd_Deployments d !! i = Some x \/
    exists dm t, work_only d dm /\ rd_Deployments d ⊆ rd_Deployments dm /\ loaded dm vid t /\ authorised now dm vid t x;
  te_tables : tables_ok d -> tables_ok d' }.

(** A transaction that lets deployments grow and then writes one row. *)
Lemma tx_effect_row now vid d dm d' r : grows now vid d dm ->
  rd_Rollouts d' = <[vid := r]> (rd_Rollouts dm) -> rl_VersionID r = vid -> row_step (rd_Rollouts d !! vid) r ->
  rd_Deployments d' = rd_Deployments dm -> map_Forall (fun k v => pv_ID v = k) (rd_Versions d') \/ rd_Versions d' = rd_Versions dm ->
  tx_effect now vid d d'.
Proof.
  intros [[Wr Wv _ _ _ _ _ _] Hs Hn Ht] Hr Hid Hst Hd Hv. split.
  - right. exists r. by rewrite Hr, Wr.
  - by rewrite Hd.
  - intros i x. rewrite Hd. apply Hn.
  - intros Hk. destruct (Ht Hk) as [Kv Kr Kd Ki]. split; rewrite ?Hd, ?Hr; [|by apply map_Forall_insert_2|done|done].
    destruct Hv as [? | ->]; done.
Qed.

Lemma tx_effect_none now vid d d' : grows now vid d d' -> tx_effect now vid d d'.
Proof. intros [[Wr _ _ _ _ _ _ _] Hs Hn Ht]. split; [by left|done..]. Qed.

Lemma pauseTx_tables now actor cx ro kind reason undo d :
  let d' := pauseTx sv now actor cx ro kind reason undo d in
  rd_Rollouts d' = <[rl_VersionID ro := stored now (at_stage GovRolloutPaused (kind +:+ ": " +:+ reason) ro)
    (with_Pause (Some {| ps_From := if (kind =? GovPauseReturnedToDraft)%string then "" else rl_Stage ro; ps_Kind := kind;
                         ps_Reason := reason; ps_At := now |})
       ((fun id => {| uo_DeploymentID := id; uo_Path := "/deployments/" +:+ id +:+ "/undo" |}) <$> undo) (rl_GateResults ro))]> (rd_Rollouts d) /\
  rd_Deployments d' = rd_Deployments d /\ rd_Versions d' = rd_Versions d /\ rd_Approvals d' = rd_Approvals d /\
  rd_Policies d' = rd_Policies d.
Proof. cbn zeta. unfold pauseTx. by destruct (kind =? GovPauseManual)%string. Qed.

(** The row [settleTx] leaves, if it writes one. *)
Lemma settleTx_tables now cx ro d :
  let d' := settleTx now cx ro d in
  rd_Deployments d' = rd_Deployments d /\ rd_Versions d' = rd_Versions d /\
  (rd_Rollouts d' = rd_Rollouts d \/
   rl_Stage ro = GovRolloutExpand /\ exists s, (s = GovRolloutComplete \/ s = GovRolloutPartial) /\
     rd_Rollouts d' = <[rl_VersionID ro := stored now (to_stage s ro) (rl_GateResults ro)]> (rd_Rollouts d)).
Proof.
  cbn zeta. unfold settleTx. destruct (String.eqb_spec (rl_Stage ro) GovRolloutExpand) as [Hs | ?]; [|by split_and!; try left].
  cbn [negb]. destruct (existsb _ _); [by split_and!; try left|].
  destruct (0 <? _)%nat; (split_and!; [done..|]); right; (split; [done|]); eexists; (split; [|done]); eauto.
Qed.

Lemma restart_of_Done o b : restart_of o = Done b -> match o with Some r => phase_of r = Some Returned \/ phase_of r = None | None => True end.
Proof.
  destruct o as [r|]; [|done]. unfold restart_of, phase_of.
  destruct (rl_Stage r =? GovRolloutPaused)%string; cbn; [|by destruct (rl_Stage r =? GovRolloutObserve)%string].
  destruct (rr_Pause _) as [p|]; cbn; [|by destruct (rl_Stage r =? GovRolloutObserve)%string].
  destruct (ps_Kind p =? GovPauseReturnedToDraft)%string; [|by destruct (rl_Stage r =? GovRolloutObserve)%string].
  destruct (is_empty (ps_From p)); eauto.
Qed.

(** Rows of a rollout have a phase (an invariant, below). *)
Definition phased (d : RDB) : Prop := map_Forall (fun _ r => exists p, row_ok r p) (rd_Rollouts d).

Lemma start_observe_effect fresh now actor reason vid d d' :
  tables_ok d -> phased d -> start_observe_tx sv fresh now actor reason vid d = Done d' -> tx_effect now vid d d'.
Proof.
  intros Hk Hph. unfold start_observe_tx.
  intros (cx & (Hv & Hid & Hro & _)%load_tx_Done & (? & _ & (? & _ & (b & Hb%restart_of_Done & (? & _ & (? & _ & [= <-])%bind_Done)%bind_Done)%bind_Done)%bind_Done)%bind_Done)%bind_Done; [|done].
  eapply (tx_effect_row _ _ _ d); [by apply grows_refl|done|done| |done|by right].
  eapply rs_start; [|done..]. rewrite Hro in Hb. destruct (rd_Rollouts d !! vid) as [r|] eqn:Hr; [|done].
  destruct Hb as [? | Hn]; [done|]. destruct (Hph vid r Hr) as [p [Hp _ _ _]]. congruence.
Qed.

Lemma start_canary_effect fresh now actor reason vid d d' :
  tables_ok d -> start_canary_tx sv fresh now actor reason vid d = Done d' -> tx_effect now vid d d'.
Proof.
  intros Hk. unfold start_canary_tx. intros (cx & Hcx & H)%bind_Done. pose proof (load_tx_loaded _ _ _ Hcx Hk) as Hl.
  apply load_tx_Done in Hcx as (Hv & Hid & Hro & _); [|done].
  destruct (cx_Rollout cx) as [ro|]; [|done].
  apply bind_Done in H as (? & Hs%ensure_Done%String.eqb_eq & (? & _ & (ct & Hct%canary_in & ([dm dep] & Hc & [= <-])%bind_Done)%bind_Done)%bind_Done).
  rewrite Forall_forall in Hl. apply createDeploymentTx_grows in Hc; [|rewrite Hid; by apply Hl]. rewrite Hid in Hc. symmetry in Hro. pose proof (tk_rollouts _ Hk vid ro Hro) as Hrv.
  eapply tx_effect_row; [done|cbn; by rewrite Hrv|done| |done|by right].
  rewrite Hro. by eapply rs_canary; [exact Hs|left|..].
Qed.

Lemma pause_effect now actor reason vid d d' :
  tables_ok d -> active_tx (pause_body sv now actor reason) vid d = Done d' -> tx_effect now vid d d'.
Proof.
  intros Hk. unfold active_tx, pause_body. intros (cx & (Hv & Hid & Hro & _)%load_tx_Done & H)%bind_Done; [|done].
  destruct (cx_Rollout cx) as [ro|]; [|done]. symmetry in Hro. pose proof (tk_rollouts _ Hk vid ro Hro) as Hrv.
  case_bool_decide as Hs; [|by destruct (_ =? _)%string]. injection H as <-.
  destruct (pauseTx_tables now actor cx ro GovPauseManual (PolicyDoc.TrimSpace reason) [] d) as (Hr & Hd & Hvs & _).
  eapply (tx_effect_row _ _ _ d); [by apply grows_refl|by rewrite Hr, Hrv|done| |done|by right].
  rewrite Hro. by eapply rs_pause; [..|left].
Qed.

Lemma resume_effect now actor reason vid d d' :
  tables_ok d -> active_tx (resume_body now actor reason) vid d = Done d' -> tx_effect now vid d d'.
Proof.
  intros Hk. unfold active_tx, resume_body. intros (cx & (Hv & Hid & Hro & _)%load_tx_Done & H)%bind_Done; [|done].
  destruct (cx_Rollout cx) as [ro|]; [|done]. symmetry in Hro. pose proof (tk_rollouts _ Hk vid ro Hro) as Hrv.
  apply bind_Done in H as (? & Hs%ensure_Done%String.eqb_eq & (? & _ & H)%bind_Done).
  destruct (rr_Pause (rl_GateResults ro)) as [p|] eqn:Hp; [|done].
  destruct (is_empty (ps_From p) || _) eqn:Hf; [done|]. injection H as <-. bool_prop.
  eapply (tx_effect_row _ _ _ d); [by apply grows_refl|cbn; by rewrite Hrv|done| |done|by right].
  rewrite Hro. by eapply rs_resume.
Qed.

(** The row [advanceTx] leaves: the canary goes on waiting, or the rollout is
    past it. *)
Definition advanced (ro r : Rollout) (g : GovRolloutResults) : Prop :=
  rl_VersionID r = rl_VersionID ro /\ same_dates ro r /\ rr_Observation (rl_GateResults r) = rr_Observation g /\
  rr_Canary (rl_GateResults r) = rr_Canary g /\
  (rl_Stage r = rl_Stage ro \/ rl_Stage r = GovRolloutComplete \/ rl_Stage r = GovRolloutPartial \/ rl_Stage r = GovRolloutExpand).

Lemma advanceTx_Done fresh now actor cx ro g c refused reason d d' n e :
  Forall (loaded d (pv_ID (cx_Version cx))) (cx_Targets cx) ->
  advanceTx sv fresh now actor cx ro g c refused reason d = Done (d', n, e) ->
  exists dm r, grows now (pv_ID (cx_Version cx)) d dm /\ rd_Rollouts d' = <[rl_VersionID ro := r]> (rd_Rollouts dm) /\
    rd_Deployments d' = rd_Deployments dm /\ rd_Versions d' = rd_Versions dm /\ advanced ro r g.
Proof.
  intros Hl. unfold advanceTx. destruct (length (cx_Targets cx) <=? 1)%nat.
  - destruct (negb _); intros [= <- _ _]; (eexists d, _; split_and!; [by apply grows_refl|done..|]);
      unfold advanced; cbn; split_and!; eauto; split; done.
  - intros (ct & _ & (x & Hx & [= <- _ _])%bind_Done)%bind_Done.
    apply expand_targets_grows in Hx; cbn in Hx; [|apply Forall_forall; intros t [Ht _]%elem_of_filter_b; by eapply Forall_forall in Ht].
    match goal with |- context [settleTx now cx ?r ?dd] => destruct (settleTx_tables now cx r dd) as (Hd & Hv & Hr) end.
    exists (xg_DB x). destruct Hr as [Hr | (_ & s & Hs & Hr)]; (eexists; split_and!; [done|rewrite Hr; cbn|by rewrite Hd|by rewrite Hv|]).
    + done.
    + unfold advanced; cbn; split_and!; eauto; split; done.
    + by rewrite insert_insert_eq.
    + unfold advanced; cbn; split_and!; [done|split; done|done|done|]. destruct Hs as [-> | ->]; auto.
Qed.

(** A change of the canary's row, by [advanceTx] or by recording an evaluation. *)
Lemma advanced_row_step r ro' r' g :
  rl_Stage r = GovRolloutCanary_ -> rl_Stage ro' = GovRolloutCanary_ -> same_dates r ro' -> advanced ro' r' g ->
  rr_Observation g = rr_Observation (rl_GateResults r) -> is_Some (rr_Canary g) -> row_step (Some r) r'.
Proof.
  intros Hs Hs' [Hd1 Hd2] (_ & [Hd3 Hd4] & Ho & Hc & Hst) Hgo Hgc.
  assert (same_dates r r') by (split; congruence). destruct Hst as [Hst | Hst].
  - eapply (rs_canary r r' GovRolloutCanary_); [done|by right|congruence|done|congruence|by rewrite Hc].
  - eapply rs_advance; [by left|done|naive_solver|done|congruence|right; by rewrite Hc].
Qed.

Lemma accept_gate_grows fresh now actor cx ro ev st a st' :
  accept_gate fresh now actor cx ro ev st a = Done st' -> grows now (pv_ID (cx_Version cx)) st.1 st'.1.
Proof.
  unfold accept_gate. destruct st as [d acc]. case_bool_decide; [intros [= <-]; by apply grows_refl|].
  intros (? & _ & [= <-])%bind_Done. by apply grows_refl.
Qed.

Lemma expand_effect fresh now actor dep reason input extra refused vid d d' :
  tables_ok d -> expand_tx sv fresh now actor dep reason input extra refused vid d = Done d' -> tx_effect now vid d d'.
Proof.
  intros Hk. unfold expand_tx. intros (cx & Hcx & H)%bind_Done. pose proof (load_tx_loaded _ _ _ Hcx Hk) as Hl.
  apply load_tx_Done in Hcx as (Hv & Hid & Hro & _); [|done].
  destruct (cx_Rollout cx) as [ro|]; [|done]. symmetry in Hro. pose proof (tk_rollouts _ Hk vid ro Hro) as Hrv.
  apply bind_Done in H as (? & Hs%ensure_Done%String.eqb_eq & (? & _ & (? & _ & (ev & _ & (? & _ & ([d1 acc] & Hacc & ([[d2 n] first] & Hadv & H)%bind_Done)%bind_Done)%bind_Done)%bind_Done)%bind_Done)%bind_Done).
  assert (d2 = d') as -> by (destruct first; [destruct (_ && _)|]; congruence). clear H.
  apply (fold_outcome_ind (fun a b => grows now (pv_ID (cx_Version cx)) a.1 b.1)) in Hacc;
    [|intros; by apply grows_refl|intros *; apply grows_trans|intros *; apply accept_gate_grows].
  apply advanceTx_Done in Hadv as (dm & r & Hg & Hr & Hd & Hvs & Ha);
    [|rewrite Hid; eapply Forall_impl; [exact Hl|]; intros t; apply loaded_work, Hacc]. rewrite Hid in *.
  eapply tx_effect_row; [by eapply grows_trans|by rewrite Hr, Hrv|destruct Ha; congruence| |done|by right].
  rewrite Hro. by eapply advanced_row_step.
Qed.

Lemma locked_tx_Done f stage fn vid d d' : locked_tx f stage fn vid d = Done d' -> tables_ok d ->
  d' = d \/ exists cx ro, load_tx d vid = Done cx /\ pv_ID (cx_Version cx) = vid /\ rd_Rollouts d !! vid = Some ro /\
    rl_VersionID ro = vid /\ rl_Stage ro = stage /\ cx_Rollout cx = Some ro /\ fn cx ro d = Done d'.
Proof.
  unfold locked_tx. destruct (AssertOwnedTx f (rd_Jobs d)); [|done]. intros (cx & Hcx & H)%bind_Done Hk.
  pose proof Hcx as (Hv & Hid & Hro & _)%load_tx_Done; [|done]. destruct (cx_Rollout cx) as [ro|] eqn:Hr; [|left; congruence].
  destruct (String.eqb_spec (rl_Stage ro) stage) as [Hs | ?]; [|left; congruence]. right. exists cx, ro. symmetry in Hro.
  split_and!; try done. by apply (tk_rollouts _ Hk).
Qed.

Lemma tx_effect_id now vid d : tx_effect now vid d d.
Proof. apply tx_effect_none. by apply grows_refl. Qed.

(** ** Ticks *)

Lemma CancelReviewTx_tables now cx reason d :
  let d' := CancelReviewTx now cx reason d in
  rd_Rollouts d' = rd_Rollouts d /\ rd_Versions d' = rd_Versions d /\ rd_Deployments d' = rd_Deployments d /\ rd_Approvals d' = rd_Approvals d.
Proof. cbn zeta. unfold CancelReviewTx. destruct (rd_Reviews d !! _) as [r|]; [|done]. by destruct (_ =? _)%string. Qed.

Definition draft_versions (now : Time) (vid : string) : gmap string Version -> gmap string Version :=
  alter (fun v => if bool_decide (pv_Status v ∈ ["in_review"; "approved"]) then draft_again now v else v) vid.

Definition revoke_live (now : Time) (vid reason : string) (l : list Approval) : list Approval :=
  (fun a => if (ap_VersionID a =? vid)%string && (ap_Decision a =? "approve")%string && bool_decide (ap_RevokedAt a = None)
            then revoke now ("version back to draft: " +:+ reason) a else a) <$> l.

(** The rows after a version went back to draft. *)
Lemma backToDraftTx_tables now cx ro attempts d :
  let d' := backToDraftTx sv now cx ro attempts d in
  let reason := draft_reason attempts in
  rd_Rollouts d' = <[rl_VersionID ro := stored now (at_stage GovRolloutPaused (GovPauseReturnedToDraft +:+ ": " +:+ reason) ro)
    (with_Pause (Some {| ps_From := ""; ps_Kind := GovPauseReturnedToDraft; ps_Reason := reason; ps_At := now |}) []
       (rl_GateResults ro))]> (rd_Rollouts d) /\
  rd_Deployments d' = rd_Deployments d /\ rd_Versions d' = draft_versions now (pv_ID (cx_Version cx)) (rd_Versions d) /\
  rd_Approvals d' = revoke_live now (pv_ID (cx_Version cx)) reason (rd_Approvals d).
Proof.
  cbn zeta. unfold backToDraftTx.
  match goal with |- context [pauseTx sv now "" cx ro ?k ?re ?u ?dd] => destruct (pauseTx_tables now "" cx ro k re u dd) as (-> & -> & -> & -> & _) end.
  match goal with |- context [CancelReviewTx now cx ?re ?dd] => destruct (CancelReviewTx_tables now cx re dd) as (Hr & Hv & Hd & Ha) end.
  unfold appendGovEvent, put_Events. cbn [rd_Rollouts rd_Deployments rd_Versions rd_Approvals]. by rewrite Hr, Hv, Hd, Ha.
Qed.

Lemma draft_versions_keyed now vid m : map_Forall (fun k v => pv_ID v = k) m -> map_Forall (fun k v => pv_ID v = k) (draft_versions now vid m).
Proof.
  intros H k v. unfold draft_versions. intros [(-> & w & Hw & ->) | [_ Hv]]%lookup_alter_Some; [|by eapply H].
  case_bool_decide; [cbn|]; by eapply H.
Qed.

Lemma observe_effect f now rev res vid d d' :
  tables_ok d -> locked_tx f GovRolloutObserve (observe_body sv now rev res) vid d = Done d' -> tx_effect now vid d d'.
Proof.
  intros Hk H. apply locked_tx_Done in H as [-> | (cx & ro & _ & Hid & Hro & Hrv & Hs & _ & H)]; [apply tx_effect_id| |done].
  unfold observe_body in H. destruct (newer_read rev (rl_GateResults ro)); [injection H as <-; apply tx_effect_id|].
  destruct (or_BackToDraft res) as [|a l] eqn:Hb; [destruct (or_Complete res) eqn:Hc|]; injection H as <-.
  - eapply (tx_effect_row _ _ _ d); [by apply grows_refl|cbn; by rewrite Hrv|done| |done|by right].
    rewrite Hro. apply rs_observed; [done|done|done|]. by eexists.
  - eapply (tx_effect_row _ _ _ d); [by apply grows_refl|cbn; by rewrite Hrv|done| |done|by right].
    rewrite Hro. by apply rs_checked.
  - match goal with |- context [backToDraftTx sv now cx ?r ?at_ ?dd] => destruct (backToDraftTx_tables now cx r at_ dd) as (Hr & Hd & Hv & _) end.
    eapply (tx_effect_row _ _ _ d); [by apply grows_refl| | | |by rewrite Hd|].
    + rewrite Hr. unfold saveTx, put_Rollouts. cbn [rd_Rollouts rl_VersionID stored]. by rewrite Hrv, insert_insert_eq.
    + done.
    + rewrite Hro. by eapply rs_returned.
    + left. rewrite Hv. apply draft_versions_keyed. apply Hk.
Qed.

Lemma pause_canary_effect now actor cx ro ro' kind reason undo vid d dm :
  rd_Rollouts d !! vid = Some ro -> rl_VersionID ro' = vid -> rl_Stage ro = GovRolloutCanary_ -> rl_Stage ro' = GovRolloutCanary_ ->
  same_dates ro ro' -> rr_Observation (rl_GateResults ro') = rr_Observation (rl_GateResults ro) -> is_Some (rr_Canary (rl_GateResults ro')) ->
  kind <> GovPauseReturnedToDraft -> rd_Rollouts dm = <[vid := ro']> (rd_Rollouts d) -> rd_Deployments dm = rd_Deployments d ->
  rd_Versions dm = rd_Versions d -> tx_effect now vid d (pauseTx sv now actor cx ro' kind reason undo dm).
Proof.
  intros Hro Hrv Hs Hs' Hdt Ho Hc Hk Hr Hd Hv.
  destruct (pauseTx_tables now actor cx ro' kind reason undo dm) as (Pr & Pd & Pv & _).
  eapply (tx_effect_row _ _ _ d); [by apply grows_refl|by rewrite Pr, Hr, Hrv, insert_insert_eq|done| |congruence|right; congruence].
  rewrite Hro. eapply rs_pause; [by rewrite Hs; set_solver|done|done|done| |done|done|by right].
  cbn. destruct (String.eqb_spec kind GovPauseReturnedToDraft); [done|]. congruence.
Qed.

(** The row with the window of the canary moved. *)
Definition windowed (ev : evaluation) (ro : Rollout) : Rollout :=
  match gf_AppliedAt (el_facts ev) with
  | Some a => with_window (rl_CanaryStartedAt ro) (Some (a + hours (el_hours ev))) ro
  | None => ro
  end.

Lemma windowed_same ev ro : rl_VersionID (windowed ev ro) = rl_VersionID ro /\ rl_Stage (windowed ev ro) = rl_Stage ro /\
  same_dates ro (windowed ev ro) /\ rl_GateResults (windowed ev ro) = rl_GateResults ro.
Proof. unfold windowed. by destruct (gf_AppliedAt _). Qed.

Lemma canary_effect f fresh now rev dep prepared refused vid d d' : tables_ok d ->
  locked_tx f GovRolloutCanary_ (canary_body sv fresh now rev dep prepared refused) vid d = Done d' -> tx_effect now vid d d'.
Proof.
  intros Hk H. apply locked_tx_Done in H as [-> | (cx & ro & Hcx & Hid & Hro & Hrv & Hs & _ & H)]; [apply tx_effect_id| |done].
  pose proof (load_tx_loaded _ _ _ Hcx Hk) as Hl. unfold canary_body in H. destruct (rr_Canary (rl_GateResults ro)) as [c0|]; [|injection H as <-; apply tx_effect_id].
  destruct (negb _); [injection H as <-; apply tx_effect_id|]. apply bind_Done in H as (ev & _ & H). cbn zeta in H.
  change (match gf_AppliedAt (el_facts ev) with Some a => _ | None => ro end) with (windowed ev ro) in H.
  destruct (windowed_same ev ro) as (Wv & Ws & Wd & Wg). rewrite Hs in Ws.
  repeat match type of H with
  | (if ?b then Done _ else _) = _ => destruct b; [injection H as <-|]
  end.
  - eapply (tx_effect_row _ _ _ d); [by apply grows_refl|cbn; by rewrite Wv, Hrv|cbn; congruence| |done|by right].
    rewrite Hro. by apply rs_undone; [left|..].
  - by eapply pause_canary_effect; [done|cbn; congruence|done|done|done|done|done|done|cbn; by rewrite Wv, Hrv|..].
  - by eapply pause_canary_effect; [done|cbn; congruence|done|done|done|done|done|done|cbn; by rewrite Wv, Hrv|..].
  - by eapply pause_canary_effect; [done|cbn; congruence|done|done|done|done|done|done|cbn; by rewrite Wv, Hrv|..].
  - destruct (prepared && _ && _).
    + apply bind_Done in H as ([[d1 n] e] & Hadv & [= <-]). apply advanceTx_Done in Hadv as (dm & r & Hg & Hr & Hd & Hvs & Ha);
        [|rewrite Hid; eapply Forall_impl; [exact Hl|]; intros t; by apply loaded_work].
      rewrite Hid in Hg. eapply tx_effect_row; [eapply grows_trans; [|done]; by apply grows_refl|by rewrite Hr, Wv, Hrv|destruct Ha; congruence| |done|by right].
      rewrite Hro. by eapply advanced_row_step.
    + destruct (sameGateOutcomes _ _); injection H as <-;
        (eapply (tx_effect_row _ _ _ d); [by apply grows_refl|cbn; by rewrite Wv, Hrv|cbn; congruence| |done|by right]);
        (rewrite Hro; eapply (rs_canary ro _ GovRolloutCanary_); [done|by right|done..]).
Qed.

Lemma undone_effect f now n vid d d' :
  tables_ok d -> locked_tx f GovRolloutPaused (undone_body now n) vid d = Done d' -> tx_effect now vid d d'.
Proof.
  intros Hk H. apply locked_tx_Done in H as [-> | (cx & ro & _ & Hid & Hro & Hrv & Hs & _ & H)]; [apply tx_effect_id| |done].
  injection H as <-. eapply (tx_effect_row _ _ _ d); [by apply grows_refl|cbn; by rewrite Hrv|done| |done|by right].
  rewrite Hro. by apply rs_undone; [right|..].
Qed.

Lemma settle_effect f now vid d d' :
  tables_ok d -> locked_tx f GovRolloutExpand (settle_body now) vid d = Done d' -> tx_effect now vid d d'.
Proof.
  intros Hk H. apply locked_tx_Done in H as [-> | (cx & ro & _ & Hid & Hro & Hrv & Hs & _ & H)]; [apply tx_effect_id| |done].
  injection H as <-. destruct (settleTx_tables now cx ro d) as (Hd & Hv & [Hr | (_ & s & Hss & Hr)]).
  - split; [by left|by rewrite Hd|rewrite Hd; by left|]. intros [Kv Kr Kd Ki]. split; by rewrite ?Hv, ?Hr, ?Hd.
  - eapply (tx_effect_row _ _ _ d); [by apply grows_refl|by rewrite Hr, Hrv|done| |done|by right].
    rewrite Hro. eapply rs_advance; [by right|done|naive_solver|done|done|by left].
Qed.

(** * The machine *)

(** The rollout's transactions on the version [vid]. A tick evaluates the
    observation before its transaction, from the row it read in [d0] (its own
    observe_until) and the evidence it read in [d1], states that were [seen]. *)
Inductive rollout_tx_on (seen : RDB -> Prop) (now : Time) (vid : string) (d d' : RDB) : Prop :=
  | tx_start fresh actor reason : start_observe_tx sv fresh now actor reason vid d = Done d' -> rollout_tx_on seen now vid d d'
  | tx_canary fresh actor reason : start_canary_tx sv fresh now actor reason vid d = Done d' -> rollout_tx_on seen now vid d d'
  | tx_pause actor reason : active_tx (pause_body sv now actor reason) vid d = Done d' -> rollout_tx_on seen now vid d d'
  | tx_resume actor reason : active_tx (resume_body now actor reason) vid d = Done d' -> rollout_tx_on seen now vid d d'
  | tx_expand fresh actor dep reason input extra refused : accept_input 0 ∅ input = Done extra ->
      expand_tx sv fresh now actor dep reason input extra refused vid d = Done d' -> rollout_tx_on seen now vid d d'
  | tx_observe f rev d0 d1 cx ro until : seen d0 -> seen d1 ->
      load_tx d0 vid = Done cx -> cx_Rollout cx = Some ro -> rl_Stage ro = GovRolloutObserve -> rl_ObserveUntil ro = Some until ->
      locked_tx f GovRolloutObserve (observe_body sv now rev (EvaluateObservation until now (observationTargets d1 cx rev))) vid d = Done d' -> rollout_tx_on seen now vid d d'
  | tx_gates f fresh rev dep prepared refused :
      locked_tx f GovRolloutCanary_ (canary_body sv fresh now rev dep prepared refused) vid d = Done d' -> rollout_tx_on seen now vid d d'
  | tx_settle f : locked_tx f GovRolloutExpand (settle_body now) vid d = Done d' -> rollout_tx_on seen now vid d d'
  | tx_undone f n : locked_tx f GovRolloutPaused (undone_body now n) vid d = Done d' -> rollout_tx_on seen now vid d d'.

(** On any reading. *)
Definition rollout_tx : Time -> string -> RDB -> RDB -> Prop := rollout_tx_on (fun _ => True).

Lemma rollout_tx_any seen now vid d d' : rollout_tx_on seen now vid d d' -> rollout_tx now vid d d'.
Proof. destruct 1; [by eapply tx_start|by eapply tx_canary|by eapply tx_pause|by eapply tx_resume|by eapply tx_expand|by eapply tx_observe|by eapply tx_gates|by eapply tx_settle|by eapply tx_undone]. Qed.

(** A transaction of another service: no other code writes rollouts, and the
    keys and the in-flight index hold. *)
Record other_tx (d d' : RDB) : Prop := {
  oth_rollouts : rd_Rollouts d' = rd_Rollouts d;
  oth_tables : tables_ok d -> tables_ok d' }.

Inductive rollout_step (d d' : RDB) : Prop :=
  | step_rollout now vid : rollout_tx now vid d d' -> rollout_step d d'
  | step_other : other_tx d d' -> rollout_step d d'.

Lemma rollout_tx_effect now vid d d' : tables_ok d -> phased d -> rollout_tx now vid d d' -> tx_effect now vid d d'.
Proof.
  intros Hk Hp. destruct 1; eauto using start_observe_effect, start_canary_effect, pause_effect, resume_effect, expand_effect,
    observe_effect, canary_effect, settle_effect, undone_effect.
Qed.

Definition phase_in (d : RDB) (vid : string) : option phase := rd_Rollouts d !! vid ≫= phase_of.

Lemma phased_before d vid : phased d -> before (rd_Rollouts d !! vid) (phase_in d vid).
Proof.
  intros H. unfold phase_in. destruct (rd_Rollouts d !! vid) as [r|] eqn:Hr; [|done]. cbn.
  destruct (H vid r Hr) as [p Hp]. by rewrite (ok_phase _ _ Hp).
Qed.

Definition ok (d : RDB) : Prop := tables_ok d /\ phased d.

Lemma step_ok_phase d d' vid : ok d -> rollout_step d d' ->
  ok d' /\ (phase_in d' vid = phase_in d vid \/ exists p, phase_in d' vid = Some p /\ phase_step (phase_in d vid) p).
Proof.
  intros [Hk Hp] [now v Htx | [Hr Ht]].
  - destruct (rollout_tx_effect _ _ _ _ Hk Hp Htx) as [[Hr | (r & Hr & Hid & Hst)] _ _ Ht].
    + split; [split; [by apply Ht|unfold phased; by rewrite Hr]|]. left. unfold phase_in. by rewrite Hr.
    + destruct (row_step_ok _ _ _ Hst (phased_before d v Hp)) as (p & Hok & Hph). split.
      * split; [by apply Ht|]. unfold phased. rewrite Hr. apply map_Forall_insert_2; [by exists p|done].
      * destruct (decide (v = vid)) as [-> | Hne]; [right|left]; unfold phase_in; rewrite Hr, ?lookup_insert_eq, ?lookup_insert_ne by done; [|done].
        exists p. split; [|done]. apply Hok.
  - split; [split; [by apply Ht|unfold phased; by rewrite Hr]|]. left. unfold phase_in. by rewrite Hr.
Qed.

Lemma final_step p q : final p -> ~ phase_step (Some p) q.
Proof. intros [-> | [-> | ->]] H; inversion H; naive_solver. Qed.

(** ** What a tick reads *)

(** The rows of a removed service that a target's observation reads. *)
Definition removed_row (d : RDB) (cx : rctx) (rev : Z) (t : rtarget) (e : EvidenceRow) : Prop :=
  e ∈ rd_Evidence d /\ ev_Rev e = rev /\ ev_IdentityAccountID e = cl_IdentityAccountID (rt_Control t) /\ ev_State e = EvidenceCollected /\
  is_Some (ev_ReportGeneratedAt e) /\ ev_Service e ∈ rm_Service <$> rs_Remove (ForSubject (cx_Intent cx) (cl_IdentityAccountID (rt_Control t))).

(** The last write of a key wins, and each key is written at most once. *)
Lemma foldl_last_attempts (removed : list string) rows e : forall m : gmap string (option Time),
  (forall e', e' ∈ rows -> ev_Service e' = ev_Service e -> e' = e) -> ev_Service e ∈ removed ->
  e ∈ rows \/ m !! ev_Service e = Some (ev_LastAuthenticatedAt e) ->
  foldl (fun m e => if bool_decide (ev_Service e ∈ removed) then <[ev_Service e := ev_LastAuthenticatedAt e]> m else m) m rows !! ev_Service e =
    Some (ev_LastAuthenticatedAt e).
Proof.
  induction rows as [|x rows IH]; intros m Hk Hin He; cbn.
  { destruct He as [He | ?]; [by apply not_elem_of_nil in He|done]. }
  apply IH; [intros e' He'; apply Hk; by right|done|].
  destruct (decide (ev_Service x = ev_Service e)) as [Hs | Hs].
  - right. rewrite bool_decide_eq_true_2 by (by rewrite Hs). rewrite (Hk x ltac:(by left) Hs). by rewrite lookup_insert_eq.
  - destruct He as [[-> | He]%elem_of_cons | He]; [done|by left|right]. case_bool_decide; [by rewrite lookup_insert_ne|done].
Qed.

Lemma observation_attempts d cx rev t e : evidence_keyed d -> removed_row d cx rev t e ->
  ot_LastAttempts (observation_target d cx rev t) !! ev_Service e = Some (ev_LastAuthenticatedAt e).
Proof.
  intros Hk (Hin & Hr & Hi & Hs & Hg & Hrm). cbn. apply foldl_last_attempts; [|done|].
  - intros e' [[He' Hb]%elem_of_filter_b _]%elem_of_filter_b Hsv. bool_prop. apply Hk; try done; congruence.
  - left. rewrite !elem_of_filter_b. split; [split; [done|]|by rewrite bool_decide_eq_true_2].
    by rewrite Hr, Hi, Hs, Z.eqb_refl, !String.eqb_refl.
Qed.

Lemma max_report_Some rows g : max_report rows = Some g -> exists e, e ∈ rows /\ ev_ReportGeneratedAt e = Some g.
Proof.
  revert g. induction rows as [|e rows IH]; intros g; cbn; [done|].
  destruct (ev_ReportGeneratedAt e) as [a|] eqn:Ea, (foldr _ None rows) as [b|] eqn:Eb; try done.
  - intros [= <-]. destruct (Z.max_spec a b) as [[_ ->] | [_ ->]].
    + destruct (IH b Eb) as (e' & ? & ?). exists e'. split; [by right|done].
    + exists e. split; [by left|done].
  - intros [= <-]. exists e. split; [by left|done].
  - intros [= <-]. destruct (IH b Eb) as (e' & ? & ?). exists e'. split; [by right|done].
Qed.

Lemma observation_report d cx rev t g : ot_ReportGeneratedAt (observation_target d cx rev t) = Some g ->
  exists e, e ∈ rd_Evidence d /\ ev_Rev e = rev /\ ev_IdentityAccountID e = cl_IdentityAccountID (rt_Control t) /\
    ev_State e = EvidenceCollected /\ ev_ReportGeneratedAt e = Some g.
Proof.
  cbn. intros (e & [[He Hb]%elem_of_filter_b _]%elem_of_filter_b & Hg)%max_report_Some. bool_prop. exists e. split_and!; done.
Qed.

(** ** The stored observation *)

(** A stored observation is what a tick evaluated from states that were seen. *)
Definition evaluated_on (seen : RDB -> Prop) (vid : string) (o : GovRolloutObservation) : Prop :=
  exists d0 d1 cx ro until, seen d0 /\ seen d1 /\ load_tx d0 vid = Done cx /\ cx_Rollout cx = Some ro /\ rl_Stage ro = GovRolloutObserve /\
    rl_ObserveUntil ro = Some until /\ ob_Result o = EvaluateObservation until (ob_EvaluatedAt o) (observationTargets d1 cx (ob_Rev o)).

(** The observation of [r'] is that of the row before, or none, or new. *)
Definition observation_kept (seen : RDB -> Prop) (vid : string) (d : RDB) (r' : Rollout) : Prop :=
  forall o, rr_Observation (rl_GateResults r') = Some o ->
    (exists r, rd_Rollouts d !! vid = Some r /\ rr_Observation (rl_GateResults r) = Some o) \/ evaluated_on seen vid o.

Lemma kept_insert seen vid d (m : gmap string Rollout) r r0 r' : rd_Rollouts d !! vid = Some r0 ->
  rr_Observation (rl_GateResults r) = rr_Observation (rl_GateResults r0) -> <[vid := r]> m !! vid = Some r' -> observation_kept seen vid d r'.
Proof. intros Hr Ho. rewrite lookup_insert_eq. intros [= <-] o Hobs. left. exists r0. by rewrite <- Ho. Qed.

Lemma kept_same seen vid d d' r' : rd_Rollouts d' = rd_Rollouts d -> rd_Rollouts d' !! vid = Some r' -> observation_kept seen vid d r'.
Proof. intros -> Hr o Ho. left. by exists r'. Qed.

Lemma start_kept seen fresh now actor reason vid d d' r' : start_observe_tx sv fresh now actor reason vid d = Done d' ->
  rd_Rollouts d' !! vid = Some r' -> observation_kept seen vid d r'.
Proof.
  unfold start_observe_tx. intros (cx & _ & (? & _ & (? & _ & (b & _ & (? & _ & (? & _ & [= <-])%bind_Done)%bind_Done)%bind_Done)%bind_Done)%bind_Done)%bind_Done.
  cbn. rewrite lookup_insert_eq. by intros [= <-].
Qed.

Lemma start_canary_kept seen fresh now actor reason vid d d' r' : tables_ok d -> start_canary_tx sv fresh now actor reason vid d = Done d' ->
  rd_Rollouts d' !! vid = Some r' -> observation_kept seen vid d r'.
Proof.
  intros Hk. unfold start_canary_tx. intros (cx & (_ & Hid & Hro & _)%load_tx_Done & H)%bind_Done; [|done].
  destruct (cx_Rollout cx) as [ro|]; [|done]. symmetry in Hro. pose proof (tk_rollouts _ Hk vid ro Hro) as Hrv.
  apply bind_Done in H as (? & _ & (? & _ & (ct & _ & ([dm dep] & Hc & [= <-])%bind_Done)%bind_Done)%bind_Done).
  cbn. rewrite Hrv. by eapply kept_insert.
Qed.

Lemma pause_kept seen now actor reason vid d d' r' : tables_ok d -> active_tx (pause_body sv now actor reason) vid d = Done d' ->
  rd_Rollouts d' !! vid = Some r' -> observation_kept seen vid d r'.
Proof.
  intros Hk (cx & (_ & _ & Hro & _)%load_tx_Done & H)%bind_Done; [|done]. destruct (cx_Rollout cx) as [ro|]; [|done].
  symmetry in Hro. unfold pause_body in H. case_bool_decide; [|by destruct (rl_Stage ro =? _)%string]. injection H as <-.
  destruct (pauseTx_tables now actor cx ro GovPauseManual (PolicyDoc.TrimSpace reason) [] d) as (Hp & _).
  rewrite Hp, (tk_rollouts _ Hk vid ro Hro). by eapply kept_insert.
Qed.

Lemma resume_kept seen now actor reason vid d d' r' : tables_ok d -> active_tx (resume_body now actor reason) vid d = Done d' ->
  rd_Rollouts d' !! vid = Some r' -> observation_kept seen vid d r'.
Proof.
  intros Hk (cx & (_ & _ & Hro & _)%load_tx_Done & H)%bind_Done; [|done]. destruct (cx_Rollout cx) as [ro|]; [|done].
  symmetry in Hro. unfold resume_body in H. apply bind_Done in H as (? & _ & (? & _ & H)%bind_Done).
  destruct (rr_Pause (rl_GateResults ro)) as [p|]; [|done]. destruct (_ || _); [done|]. injection H as <-.
  cbn. rewrite (tk_rollouts _ Hk vid ro Hro). by eapply kept_insert.
Qed.

Lemma expand_kept seen fresh now actor dep reason input extra refused vid d d' r' : tables_ok d ->
  expand_tx sv fresh now actor dep reason input extra refused vid d = Done d' -> rd_Rollouts d' !! vid = Some r' -> observation_kept seen vid d r'.
Proof.
  intros Hk. unfold expand_tx. intros (cx & Hcx & H)%bind_Done. pose proof (load_tx_loaded _ _ _ Hcx Hk) as Hl.
  apply load_tx_Done in Hcx as (_ & Hid & Hro & _); [|done]. destruct (cx_Rollout cx) as [ro|]; [|done]. symmetry in Hro.
  apply bind_Done in H as (? & _ & (? & _ & (? & _ & (ev & _ & (? & _ & ([d1 acc] & Hacc & ([[d2 n] first] & Hadv & H)%bind_Done)%bind_Done)%bind_Done)%bind_Done)%bind_Done)%bind_Done).
  assert (d2 = d') as -> by (destruct first; [destruct (_ && _)|]; congruence). clear H.
  apply (fold_outcome_ind (fun a b => grows now (pv_ID (cx_Version cx)) a.1 b.1)) in Hacc;
    [|intros; by apply grows_refl|intros *; apply grows_trans|intros *; apply accept_gate_grows].
  apply advanceTx_Done in Hadv as (dm & r & _ & Hr & _ & _ & (_ & _ & Ho & _));
    [|rewrite Hid; eapply Forall_impl; [exact Hl|]; intros t; apply loaded_work, Hacc].
  rewrite Hr, (tk_rollouts _ Hk vid ro Hro). by eapply kept_insert.
Qed.

(** A tick's transaction writes nothing or what the tick evaluated. *)
Lemma observe_body_writes now rev res cx ro vid d d' r' : rd_Rollouts d !! vid = Some ro -> rl_VersionID ro = vid ->
  observe_body sv now rev res cx ro d = Done d' -> rd_Rollouts d' !! vid = Some r' ->
  d' = d \/ rr_Observation (rl_GateResults r') = Some {| ob_Rev := rev; ob_EvaluatedAt := now; ob_Result := res |}.
Proof.
  intros Hro Hrv. unfold observe_body. destruct (newer_read rev (rl_GateResults ro)); [intros [= <-]; by left|]. intros H Hr'. right. revert H Hr'.
  destruct (or_BackToDraft _) as [|a l]; [destruct (or_Complete _)|]; intros [= <-].
  - cbn. rewrite Hrv, lookup_insert_eq. by intros [= <-].
  - cbn. rewrite Hrv, lookup_insert_eq. by intros [= <-].
  - match goal with |- context [backToDraftTx sv now cx ?r ?at_ ?dd] => destruct (backToDraftTx_tables now cx r at_ dd) as (-> & _) end.
    cbn [rl_VersionID stored]. rewrite Hrv, lookup_insert_eq. by intros [= <-].
Qed.

Lemma canary_body_kept seen fresh now rev dep prepared refused cx ro vid d d' r' : Forall (loaded d vid) (cx_Targets cx) ->
  pv_ID (cx_Version cx) = vid -> rd_Rollouts d !! vid = Some ro -> rl_VersionID ro = vid ->
  canary_body sv fresh now rev dep prepared refused cx ro d = Done d' -> rd_Rollouts d' !! vid = Some r' -> observation_kept seen vid d r'.
Proof.
  intros Hl Hid Hro Hrv H Hr'. unfold canary_body in H.
  destruct (rr_Canary (rl_GateResults ro)) as [c0|]; [|injection H as <-; by eapply kept_same].
  destruct (negb _); [injection H as <-; by eapply kept_same|]. apply bind_Done in H as (ev & _ & H). cbn zeta in H.
  change (match gf_AppliedAt (el_facts ev) with Some a => _ | None => ro end) with (windowed ev ro) in H.
  destruct (windowed_same ev ro) as (Wv & _).
  assert (forall k re u dm, Done (pauseTx sv now "" cx (stored now (windowed ev ro) (with_Canary (el_canary ev) (rl_GateResults ro))) k re u dm) = Done d' ->
    observation_kept seen vid d r') as Hpause.
  { intros k re u dm [= <-]. destruct (pauseTx_tables now "" cx (stored now (windowed ev ro) (with_Canary (el_canary ev) (rl_GateResults ro))) k re u dm) as (Hp & _).
    rewrite Hp in Hr'. cbn [rl_VersionID stored] in Hr'. rewrite Wv, Hrv in Hr'. by eapply kept_insert in Hr'. }
  destruct (_ =? GovDeployUndone)%string; [injection H as <-; cbn in Hr'; rewrite Wv, Hrv in Hr'; by eapply kept_insert in Hr'|].
  repeat match type of H with
  | (if ?b then Done (pauseTx _ _ _ _ _ _ _ _ _) else _) = _ => destruct b; [by eapply Hpause|]
  end.
  destruct (prepared && _ && _).
  - apply bind_Done in H as ([[dm n] e] & Hadv & [= <-]). apply advanceTx_Done in Hadv as (dg & r & _ & Hr & _ & _ & (_ & _ & Ho & _));
      [|rewrite Hid; eapply Forall_impl; [exact Hl|]; intros t; by apply loaded_work].
    rewrite Hr, Wv, Hrv in Hr'. by eapply kept_insert in Hr'.
  - destruct (sameGateOutcomes _ _); injection H as <-; cbn in Hr'; rewrite Wv, Hrv in Hr'; by eapply kept_insert in Hr'.
Qed.

(** Only a tick's transaction writes an observation, and it writes what the tick evaluated. *)
Lemma tx_observation seen now vid d d' r' : tables_ok d -> rollout_tx_on seen now vid d d' -> rd_Rollouts d' !! vid = Some r' ->
  observation_kept seen vid d r'.
Proof.
  intros Hk Htx Hr'.
  destruct Htx as [fresh actor reason H | fresh actor reason H | actor reason H | actor reason H | fresh actor dep reason input extra refused Hi H
    | f rev d0 d1 cx0 ro0 u H0 H1 Hl0 Hr0 Hs0 Hu0 H | f fresh rev dep prepared refused H | f H | f n H];
    [by eapply start_kept|by eapply start_canary_kept|by eapply pause_kept|by eapply resume_kept|by eapply expand_kept|..];
    (apply locked_tx_Done in H as [-> | (cx & ro & Hcx & Hid & Hro & Hrv & Hs & _ & H)]; [by eapply kept_same| |done]).
  - eapply observe_body_writes in H as [-> | Ho]; [by eapply kept_same| |done..].
    intros o. rewrite Ho. intros [= <-]. right. by exists d0, d1, cx0, ro0, u.
  - eapply canary_body_kept; [|done..]. by apply load_tx_loaded.
  - injection H as <-. destruct (settleTx_tables now cx ro d) as (_ & _ & [Hr | (_ & s & _ & Hr)]); [by eapply kept_same|].
    rewrite Hr, Hrv in Hr'. by eapply kept_insert in Hr'.
  - injection H as <-. cbn in Hr'. rewrite Hrv in Hr'. by eapply kept_insert in Hr'.
Qed.

(** A transaction writes no row of another version. *)
Lemma tx_other_rows seen now vid vid' d d' : tables_ok d -> phased d -> rollout_tx_on seen now vid d d' -> vid' <> vid ->
  rd_Rollouts d' !! vid' = rd_Rollouts d !! vid'.
Proof.
  intros Hk Hp Htx%rollout_tx_any Hne. destruct (rollout_tx_effect _ _ _ _ Hk Hp Htx) as [[-> | (r & -> & _)] _ _ _]; [done|].
  by rewrite lookup_insert_ne.
Qed.

End Facts.
