(* ===== verification/RolloutSafety.v ===== *)
(** The guarantees of a rollout, from the machine of [RolloutFacts]: its life
    cycle, what stands behind every deployment it creates, what it expands from,
    how it ends, and a rollout run from its start to its end. *)

From stdpp Require Import base list strings gmap sorting relations.
From S2P Require Import Prelude Slices Qualify Float64 Marshal PolicyDoc JobQueue Intent Bundle Health HealthFacts Rollout RolloutFacts.

(** Membership of a known text in a list of texts. *)
Ltac listed := cbn [rl_Stage stored at_stage to_stage with_window]; apply (bool_decide_unpack _); by vm_compute.

Lemma canary_not_past : GovRolloutCanary_ ∉ [GovRolloutExpand; GovRolloutComplete; GovRolloutPartial].
Proof. listed. Qed.

Section Safety.
Context (sv : services).

(** * Life cycle *)

Lemma steps_ok d d' : rtc (rollout_step sv) d d' -> ok d -> ok d'.
Proof. induction 1 as [|d d1 d2 Hs _ IH]; [done|]. intros Hok. apply IH. by eapply (step_ok_phase sv d d1 ""). Qed.

(** C8 The life cycle of a rollout. Every transaction of the rollout service, interleaved in any order with transactions
    of other services, moves each rollout along the documented stages: observe, awaiting approval, canary, expand, and
    then complete or partial; a pause remembers the stage it came from and resuming returns to it; a version sent back to
    draft can only start a new observation; only a canary or a paused rollout becomes undone. The rows keep their keys, one
    deployment in flight per control, observe_until with the report time four hours after it, a complete observation
    behind every stage past observing and a recorded canary behind every stage past awaiting approval. *)
Theorem rollout_life_cycle d d' : ok d -> rollout_step sv d d' ->
  ok d' /\ forall vid, phase_in d' vid = phase_in d vid \/ exists p, phase_in d' vid = Some p /\ phase_step (phase_in d vid) p.
Proof.
  intros Hok Hs. split; [by eapply (step_ok_phase sv d d' "")|]. intros vid. by apply (step_ok_phase sv d d' vid).
Qed.

(** A finished rollout stays finished. *)
Lemma finished_stay d d' vid p : ok d -> rtc (rollout_step sv) d d' -> phase_in d vid = Some p -> final p ->
  phase_in d' vid = Some p.
Proof.
  intros Hok Hs Hp Hf. induction Hs as [|d d1 d2 Hs _ IH]; [done|].
  destruct (step_ok_phase sv d d1 vid Hok Hs) as [Hok1 [He | (q & Hq & Hst)]].
  - apply IH; [done|]. by rewrite He.
  - rewrite Hp in Hst. by destruct (final_step _ _ Hf Hst).
Qed.

(** * Deployments *)

(** C9 Every deployment a rollout creates is authorised when it is created, and it is one of the version's own targets: a
    target of this version gives the control, whose row names the connector; the plan is a row of that target and that
    control, of this version, an apply plan and not superseded. The plan's hash is named by an approval that is live, not
    expired, for this intent, by an active member who holds governance:approve and did not write the version; the plan's
    evidence is fresh or its latest revalidation is unchanged, later than the approval and itself fresh; outside exports
    the workspace enforces, a direct change has a verified binding of that control's connector, and no other deployment of
    the control is in flight. The keys of targets, plans and controls are those of the migrations. *)
Theorem rollout_deployments_authorised now vid d d' i x : ok d -> references_ok d -> rollout_tx sv now vid d d' ->
  rd_Deployments d' !! i = Some x -> rd_Deployments d !! i = None ->
  exists dm v tg ctl p ap, work_only d dm /\ rd_Versions d !! vid = Some v /\
    (tg ∈ rd_Targets d /\ tg_VersionID tg = vid) /\ (rd_Controls d !! tg_ControlID tg = Some ctl /\ cl_ID ctl = tg_ControlID tg) /\
    (p ∈ rd_Plans d /\ pn_TargetID p = tg_ID tg /\ pn_VersionID p = vid /\ pn_ControlID p = tg_ControlID tg /\ pn_Kind p = "apply" /\
     pn_SupersededAt p = None) /\
    x = new_deployment i now vid {| rt_Target := tg; rt_Control := ctl; rt_Plan := Some p |} p ap (dw_RevalidationID x) /\
    approved sv now dm v ap /\ pn_PlanHash p ∈ ap_PlanHashes ap /\ evidence_ok sv now dm ap p (dw_RevalidationID x) /\
    (dw_Delivery x <> DeliveryExport -> st_EnforcementMode (rd_Settings d) = GovModeEnforce) /\
    (dw_Delivery x = DeliveryDirect -> sv_RequireVerified sv dm (cl_ConnectorID ctl) = None) /\
    (forall j y, rd_Deployments d' !! j = Some y -> dw_ControlID y = dw_ControlID x -> inflight y = true -> j = i).
Proof.
  intros [Hk Hp] Href Htx Hx Hn. destruct (rollout_tx_effect sv now vid d d' Hk Hp Htx) as [_ _ Hnew Ht]. specialize (Ht Hk).
  destruct (Hnew i x Hx) as [? | (dm & t & Hw & _ & [Lt Lv Lc Lp] & [(v & p & ap & Hv & Hpl & Ha & (q & Hq & Hqi & _ & _ & Hh & He) & Heq) Hm Hb _])]; [congruence|].
  assert (dw_ID x = i) as Hid by (by apply (tk_deployments _ Ht)). rewrite Hid in Heq.
  rewrite Lp in Hpl. apply currentApplyPlan_Some in Hpl as (Pin & Pv & Pk & Ps & Pt).
  rewrite (wo_targets _ _ Hw) in Lt. rewrite (wo_controls _ _ Hw) in Lc. rewrite (wo_plans _ _ Hw) in Pin, Hq. rewrite (wo_versions _ _ Hw) in Hv.
  assert (q = p) as -> by (by apply (rk_plans _ Href)).
  destruct (rk_plan_target _ Href p Pin) as (tg & Tin & Ti & _ & Tc). assert (tg = rt_Target t) as -> by (apply (rk_targets _ Href); congruence).
  exists dm, v, (rt_Target t), (rt_Control t), p, ap. split_and!; try done.
  - by apply (rk_controls _ Href).
  - intros Hne. rewrite <- (wo_settings _ _ Hw). by apply Hm.
  - intros j y Hy Hc Hf. eapply (tk_inflight _ Ht j i); [done..| |done]. by rewrite Heq.
Qed.

(** * Pause and resume *)

(** What is loaded depends on the rollout only through its own row. *)
Lemma load_tx_same d d' vid cx : load_tx d vid = Done cx -> rd_Versions d' = rd_Versions d -> rd_Policies d' = rd_Policies d ->
  rd_Targets d' = rd_Targets d -> rd_Controls d' = rd_Controls d -> rd_Plans d' = rd_Plans d ->
  load_tx d' vid = Done {| cx_Policy := cx_Policy cx; cx_Version := cx_Version cx; cx_Intent := cx_Intent cx;
                           cx_Rollout := rd_Rollouts d' !! pv_ID (cx_Version cx); cx_Targets := cx_Targets cx |}.
Proof.
  intros (v & Hv & (p & Hp & (i & Hi & (ts & Hts & [= <-])%bind_Done)%bind_Done)%bind_Done)%bind_Done Ev Ep Et Ec En.
  assert (load_target d' (pv_ID v) = load_target d (pv_ID v)) as El by (unfold load_target, currentApplyPlan; by rewrite Ec, En).
  unfold load_tx, loadVersionCtx. rewrite Ev, Hv. cbn [mbind outcome_bind]. rewrite Ep, Hp. cbn [mbind outcome_bind]. rewrite Hi.
  cbn [mbind outcome_bind]. by rewrite Et, El, Hts.
Qed.

Lemma pauseTx_context now actor cx ro kind reason undo d :
  let d' := pauseTx sv now actor cx ro kind reason undo d in
  rd_Targets d' = rd_Targets d /\ rd_Controls d' = rd_Controls d /\ rd_Plans d' = rd_Plans d.
Proof. cbn zeta. unfold pauseTx. by destruct (kind =? GovPauseManual)%string. Qed.

(** C20 Pausing a rollout by hand and resuming it restores it: under a usable policy the resumption succeeds, and the row
    has the stage, dates, observation, canary and expansion it had, with no pause and no offer of undo; no other rollout
    and no deployment has changed. *)
Theorem pause_resume_roundtrip now1 now2 actor1 actor2 reason1 reason2 vid d d1 r :
  tables_ok d -> rd_Rollouts d !! vid = Some r -> active_tx (pause_body sv now1 actor1 reason1) vid d = Done d1 ->
  (forall cx, load_tx d vid = Done cx -> policyUsable (cx_Policy cx) = Done tt) ->
  exists d2, active_tx (resume_body now2 actor2 reason2) vid d1 = Done d2 /\
    rd_Rollouts d2 = <[vid := stored now2 (at_stage (rl_Stage r) "" r) (with_Pause None [] (rl_GateResults r))]> (rd_Rollouts d) /\
    rd_Deployments d2 = rd_Deployments d.
Proof.
  intros Hk Hr Hp Hu. unfold active_tx in Hp. apply bind_Done in Hp as (cx & Hcx & H).
  pose proof Hcx as (Hv & Hid & Hro & Hpol & Hin)%load_tx_Done; [|done]. rewrite Hr in Hro. rewrite Hro in H.
  pose proof (tk_rollouts _ Hk vid r Hr) as Hrv. unfold pause_body in H.
  case_bool_decide as Hst; [|by destruct (rl_Stage r =? GovRolloutPaused)%string]. injection H as <-.
  destruct (pauseTx_tables sv now1 actor1 cx r GovPauseManual (TrimSpace reason1) [] d) as (Pr & Pd & Pv & _ & Pp).
  destruct (pauseTx_context now1 actor1 cx r GovPauseManual (TrimSpace reason1) [] d) as (Pt & Pc & Pn).
  set (d1 := pauseTx sv now1 actor1 cx r GovPauseManual (TrimSpace reason1) [] d) in *. rewrite Hrv in Pr.
  pose proof (load_tx_same d d1 vid cx Hcx Pv Pp Pt Pc Pn) as Hload. rewrite Hid in Hload. clearbody d1.
  eexists. unfold active_tx. rewrite Hload, Pr, lookup_insert_eq. cbn [cx_Rollout mbind outcome_bind]. unfold resume_body.
  cbn [cx_Policy]. rewrite (Hu cx Hcx). cbn -[release_held saveTx appendGovEvent is_empty].
  assert (is_empty (rl_Stage r) = false) as ->.
  { apply active_pausable in Hst as [a Ha]. destruct (is_empty (rl_Stage r)) eqn:E; [|done]. apply is_empty_true in E. by rewrite E in Ha. }
  cbn [orb]. split; [reflexivity|]. cbn. by rewrite Pr, Hrv, insert_insert_eq, Pd.
Qed.

(** * Expansion *)

(** What expanding needs: the deployment of the recorded canary is applied and
    healthy, and each of its gates passed, or is not available and accepted by a
    stored row for this rollout, version and window. *)
Definition healthy_canary (now : Time) (d d' : RDB) (vid : string) (r : Rollout) : Prop :=
  exists c f applied, rr_Canary (rl_GateResults r) = Some c /\ sv_Facts sv d (ca_DeploymentID c) = Done f /\
    gf_AppliedAt f = Some applied /\ healthyState (gf_State f) = true /\
    let h := GovCanaryHours d vid in
    let gates := cr_Gates (gates_of now h applied f) in
    gates <> [] /\ forall g, g ∈ gates -> gr_Outcome g = OutcomePassed \/
      (gr_Outcome g = OutcomeNotAvailable /\
       exists a, a ∈ rd_Acceptances d' /\ acceptance_of r vid applied (applied + hours h) a = true /\ ac_ItemKey a = gr_Gate g).

Lemma accept_input_Done i extra l e : accept_input i extra l = Done e ->
  forall g, g ∈ e <-> g ∈ extra \/ exists a, a ∈ l /\ gi_Gate a = g.
Proof.
  revert i extra. induction l as [|x l IH]; intros i extra; cbn.
  - intros [= <-] g. split; [by left|]. intros [? | (a & Ha & _)]; [done|]. by apply not_elem_of_nil in Ha.
  - destruct (_ || _); [done|]. case_bool_decide; [done|]. intros Hl g. rewrite (IH _ _ Hl). set_solver.
Qed.

Lemma evaluateGates_healthy now cx dep rev d ev extra : evaluateGates sv now cx dep rev d = Done ev -> canaryHealthy ev extra = true ->
  exists f applied, let h := GovCanaryHours d (pv_ID (cx_Version cx)) in
    sv_Facts sv d dep = Done f /\ gf_AppliedAt f = Some applied /\ healthyState (gf_State f) = true /\
    ge_result (el_gate ev) = gates_of now h applied f /\
    ge_accepted (el_gate ev) = match cx_Rollout cx with
                               | Some ro => accepted_gates d ro (pv_ID (cx_Version cx)) applied (applied + hours h)
                               | None => ∅
                               end /\
    ca_WindowStart (el_canary ev) = Some applied /\ ca_WindowEnd (el_canary ev) = Some (applied + hours h) /\
    cr_Gates (ge_result (el_gate ev)) <> [] /\ (forall g, g ∈ cr_Gates (ge_result (el_gate ev)) -> gate_ok (el_gate ev) extra g = true).
Proof.
  unfold evaluateGates. intros (f & Hf & H)%bind_Done Hh. destruct (gf_AppliedAt f) as [applied|] eqn:Ha; injection H as <-; [|done].
  unfold canaryHealthy in Hh. bool_prop. exists f, applied. cbn zeta in *. cbn [el_gate ge_applied ge_result ge_accepted el_canary ca_WindowStart ca_WindowEnd el_facts] in *.
  split_and!; try done.
  - intros E. match goal with H : passes _ _ = true |- _ => unfold passes in H; cbn in H; by rewrite E in H end.
  - match goal with H : passes _ _ = true |- _ => unfold passes in H end. destruct (_ || _); [done|].
    intros g Hg. match goal with H : forallb _ _ = true |- _ => rewrite forallb_forall in H; apply H end. by apply list_elem_of_In.
Qed.

Lemma accepted_row d ro vid from to g : g ∈ accepted_gates d ro vid from to ->
  exists a, a ∈ rd_Acceptances d /\ acceptance_of ro vid from to a = true /\ ac_ItemKey a = g.
Proof.
  unfold accepted_gates. rewrite elem_of_list_to_set, list_elem_of_fmap. intros (a & -> & Ha). apply elem_of_filter_b in Ha as [? ?]. eauto.
Qed.

(** The rows stored for the gates accepted now. *)
Lemma accept_gates_rows fresh now actor cx ro ev input d acc d1 acc1 from to :
  ca_WindowStart (el_canary ev) = Some from -> ca_WindowEnd (el_canary ev) = Some to ->
  fold_outcome (accept_gate fresh now actor cx ro ev) (d, acc) input = Done (d1, acc1) ->
  (forall a, a ∈ rd_Acceptances d -> a ∈ rd_Acceptances d1) /\ acc ⊆ acc1 /\ (forall a, a ∈ input -> gi_Gate a ∈ acc1) /\
  (forall g, g ∈ acc1 -> g ∈ acc \/ exists a, a ∈ rd_Acceptances d1 /\ acceptance_of ro (pv_ID (cx_Version cx)) from to a = true /\ ac_ItemKey a = g).
Proof.
  intros Hf Ht. revert d acc. induction input as [|x l IH]; intros d acc; cbn [fold_outcome].
  - intros [= <- <-]. split_and!; [done|done|set_solver|by left].
  - intros ([d2 acc2] & Hx & H)%bind_Done. destruct (IH _ _ H) as (Ha & Hs & Hin & Hg). unfold accept_gate in Hx.
    case_bool_decide as Hd; [injection Hx as <- <-; split_and!; [done|done|set_solver|done]|].
    apply bind_Done in Hx as (? & _ & [= <- <-]). cbn in Ha. split_and!; [set_solver|set_solver|set_solver|].
    intros g Hgg. destruct (Hg g Hgg) as [[-> %elem_of_singleton | ?]%elem_of_union | ?]; [right|by left|by right].
    eexists. split; [apply Ha, elem_of_app; right; by apply list_elem_of_singleton|]. split; [|done].
    unfold acceptance_of. cbn. rewrite Hf, Ht, !String.eqb_refl, !bool_decide_eq_true_2 by done. done.
Qed.

Lemma expand_target_acceptances fresh now actor cx ro refused x t y :
  expand_target sv fresh now actor cx ro refused x t = Done y -> rd_Acceptances (xg_DB y) = rd_Acceptances (xg_DB x).
Proof.
  unfold expand_target. destruct (refused !! _) as [rf|]; [by intros [= <-]|].
  destruct (createDeploymentTx _ _ _ _ _ _ _) as [[d' dep]|e] eqn:Hc.
  - intros [= <-]. by apply createDeploymentTx_Done in Hc as (_ & ? & _).
  - destruct (refusalOf t e); [|done]. by intros [= <-].
Qed.

Lemma settleTx_acceptances now cx ro d : rd_Acceptances (settleTx now cx ro d) = rd_Acceptances d.
Proof. unfold settleTx. destruct (negb _); [done|]. destruct (existsb _ _); [done|]. by destruct (0 <? _)%nat. Qed.

Lemma advanceTx_acceptances fresh now actor cx ro g c refused reason d d' n e :
  advanceTx sv fresh now actor cx ro g c refused reason d = Done (d', n, e) -> rd_Acceptances d' = rd_Acceptances d.
Proof.
  unfold advanceTx. destruct (length (cx_Targets cx) <=? 1)%nat; [destruct (negb _); by intros [= <- _ _]|].
  intros (ct & _ & (x & Hx & [= <- _ _])%bind_Done)%bind_Done. rewrite settleTx_acceptances. cbn.
  apply (fold_outcome_ind (fun a b => rd_Acceptances (xg_DB b) = rd_Acceptances (xg_DB a))) in Hx;
    [done|done|intros * Hab Hbc; by rewrite Hbc|intros *; apply expand_target_acceptances].
Qed.

(** The gates let through by an evaluation, with the acceptances of [d']. *)
Lemma healthy_canary_of now d d' cx r c rev ev extra :
  cx_Rollout cx = Some r -> rr_Canary (rl_GateResults r) = Some c -> evaluateGates sv now cx (ca_DeploymentID c) rev d = Done ev ->
  canaryHealthy ev extra = true -> (forall a, a ∈ rd_Acceptances d -> a ∈ rd_Acceptances d') ->
  (forall g from to, ca_WindowStart (el_canary ev) = Some from -> ca_WindowEnd (el_canary ev) = Some to -> g ∈ extra -> g ∉ ge_accepted (el_gate ev) ->
     exists a, a ∈ rd_Acceptances d' /\ acceptance_of r (pv_ID (cx_Version cx)) from to a = true /\ ac_ItemKey a = g) ->
  healthy_canary now d d' (pv_ID (cx_Version cx)) r.
Proof.
  intros Hr Hc Hev Hh Hsub Hex. destruct (evaluateGates_healthy now cx _ rev d ev extra Hev Hh) as
    (f & applied & Hf & Ha & Hst & Hres & Hacc & Hws & Hwe & Hne & Hok).
  rewrite Hr in Hacc. exists c, f, applied. split_and!; [done..|]. cbn zeta. rewrite <- Hres. split; [done|]. intros g Hg.
  specialize (Hok g Hg). unfold gate_ok, outcome_is in Hok. apply orb_prop in Hok as [Hp | Hn]; [left; by apply String.eqb_eq|right].
  apply andb_prop in Hn as [Hna%String.eqb_eq Hor]. split; [done|].
  destruct (decide (gr_Gate g ∈ ge_accepted (el_gate ev))) as [Hin | Hnin].
  - rewrite Hacc in Hin. apply accepted_row in Hin as (a & Hain & ? & ?). eauto.
  - apply Hex; [done|done| |done]. apply orb_prop in Hor as [Hb | Hb]; by apply bool_decide_eq_true in Hb.
Qed.

Lemma expand_tx_healthy fresh now actor dep reason input extra refused vid d d' r : tables_ok d -> rd_Rollouts d !! vid = Some r ->
  accept_input 0 ∅ input = Done extra -> expand_tx sv fresh now actor dep reason input extra refused vid d = Done d' ->
  healthy_canary now d d' vid r.
Proof.
  intros Hk Hr Hex. unfold expand_tx. intros (cx & (Hv & Hid & Hro & _)%load_tx_Done & H)%bind_Done; [|done].
  rewrite Hr in Hro. rewrite Hro in H.
  apply bind_Done in H as (? & _ & (? & _ & (? & Hdep%ensure_Done%bool_decide_eq_true & (ev & Hev & (? & Href & ([d1 acc] & Hacc & ([[d2 n] first] & Hadv & H)%bind_Done)%bind_Done)%bind_Done)%bind_Done)%bind_Done)%bind_Done).
  assert (d2 = d') as -> by (destruct first; [destruct (_ && _)|]; congruence). clear H.
  destruct (rr_Canary (rl_GateResults r)) as [c|] eqn:Hc; [|done]. injection Hdep as <-.
  assert (canaryHealthy ev extra = true) as Hh.
  { unfold expandRefusal in Href. by apply bind_Done in Href as (? & _ & (? & _ & (? & _ & ?%ensure_Done)%bind_Done)%bind_Done). }
  apply advanceTx_acceptances in Hadv. rewrite <- Hid. eapply healthy_canary_of; [done..| |].
  - intros a. rewrite Hadv. destruct (evaluateGates_healthy now cx _ 0 d ev extra Hev Hh) as (f & ap & _ & _ & _ & _ & _ & Hws & Hwe & _).
    by destruct (accept_gates_rows fresh now actor cx r ev input d _ d1 acc _ _ Hws Hwe Hacc) as (? & _); eauto.
  - intros g from to Hws Hwe Hg Hn.
    destruct (accept_gates_rows fresh now actor cx r ev input d _ d1 acc from to Hws Hwe Hacc) as (_ & _ & Hin & Hrow).
    rewrite (accept_input_Done _ _ _ _ Hex) in Hg. destruct Hg as [? | (a & Ha & <-)]; [set_solver|].
    rewrite Hadv. by destruct (Hrow _ (Hin a Ha)).
Qed.

Lemma canary_body_healthy fresh now rev dep prepared refused cx r r' vid d d' : pv_ID (cx_Version cx) = vid -> cx_Rollout cx = Some r ->
  rd_Rollouts d !! vid = Some r -> rl_VersionID r = vid -> rl_Stage r = GovRolloutCanary_ ->
  canary_body sv fresh now rev dep prepared refused cx r d = Done d' -> rd_Rollouts d' !! vid = Some r' ->
  rl_Stage r' ∈ [GovRolloutExpand; GovRolloutComplete; GovRolloutPartial] -> healthy_canary now d d' vid r.
Proof.
  intros Hid Hcx Hr Hrv Hs H Hr' Hst. unfold canary_body in H.
  assert (forall d'', rd_Rollouts d'' = rd_Rollouts d -> Done d'' = Done d' -> healthy_canary now d d' vid r) as Hsame.
  { intros d'' He [= ->]. rewrite He, Hr in Hr'. injection Hr' as <-. rewrite Hs in Hst. by apply canary_not_past in Hst. }
  destruct (rr_Canary (rl_GateResults r)) as [c|] eqn:Hc; [|by eapply Hsame].
  destruct (String.eqb_spec (ca_DeploymentID c) dep) as [<- | ?]; [|by eapply Hsame]. cbn [negb] in H.
  apply bind_Done in H as (ev & Hev & H). cbn zeta in H.
  change (match gf_AppliedAt (el_facts ev) with Some a => _ | None => r end) with (windowed ev r) in H.
  destruct (windowed_same ev r) as (Wv & Ws & _).
  assert (forall d'' x, rd_Rollouts d'' = <[vid := x]> (rd_Rollouts d) ->
    rl_Stage x ∉ [GovRolloutExpand; GovRolloutComplete; GovRolloutPartial] -> Done d'' = Done d' -> healthy_canary now d d' vid r) as Hrow.
  { intros d'' x He Hx [= ->]. rewrite He, lookup_insert_eq in Hr'. by injection Hr' as <-. }
  assert (forall k re u dm, rd_Rollouts dm = <[vid := stored now (windowed ev r) (with_Canary (el_canary ev) (rl_GateResults r))]> (rd_Rollouts d) ->
    Done (pauseTx sv now "" cx (stored now (windowed ev r) (with_Canary (el_canary ev) (rl_GateResults r))) k re u dm) = Done d' ->
    healthy_canary now d d' vid r) as Hpause.
  { intros k re u dm Hm Hd. destruct (pauseTx_tables sv now "" cx (stored now (windowed ev r) (with_Canary (el_canary ev) (rl_GateResults r))) k re u dm) as (Hp & _).
    cbn [rl_VersionID stored] in Hp. rewrite Hm, Wv, Hrv, insert_insert_eq in Hp. eapply Hrow; [exact Hp|listed|exact Hd]. }
  destruct (gf_State (el_facts ev) =? GovDeployUndone)%string; [eapply Hrow; [| |exact H]; [cbn; by rewrite Wv, Hrv|listed]|].
  repeat match type of H with
  | (if ?b then Done (pauseTx _ _ _ _ _ _ _ _ _) else _) = _ => destruct b; [eapply Hpause; [|exact H]; cbn; by rewrite Wv, Hrv|]
  end.
  destruct (prepared && canaryHealthy ev ∅ && _) eqn:Hadv.
  - bool_prop. apply bind_Done in H as ([[d1 n] e] & Ha%advanceTx_acceptances & [= <-]). rewrite <- Hid.
    eapply healthy_canary_of; [done..|by rewrite Ha|]. set_solver.
  - destruct (sameGateOutcomes _ _); (eapply Hrow; [| |exact H]; [cbn; by rewrite Wv, Hrv|cbn; rewrite Ws, Hs; listed]).
Qed.

(** A transaction of a stage other than the canary's leaves a canary alone. *)
Lemma locked_other f stage fn vid d d' r : tables_ok d -> rd_Rollouts d !! vid = Some r -> rl_Stage r <> stage ->
  locked_tx f stage fn vid d = Done d' -> d' = d.
Proof. intros Hk Hr Hne [-> | (cx & ro & _ & _ & Hro & _ & Hs & _)]%locked_tx_Done; [done| |done]. congruence. Qed.

(** C10 A rollout leaves its canary for expand, complete or partial only from a healthy one: in the rows the transaction
    itself reads, the canary's deployment is applied and healthy, it has gates, and each of them passed, or is not
    available and accepted by a stored row for this rollout, this version and exactly this window. *)
Theorem expansion_needs_healthy_canary now vid d d' r r' : tables_ok d -> rollout_tx sv now vid d d' ->
  rd_Rollouts d !! vid = Some r -> rl_Stage r = GovRolloutCanary_ ->
  rd_Rollouts d' !! vid = Some r' -> rl_Stage r' ∈ [GovRolloutExpand; GovRolloutComplete; GovRolloutPartial] ->
  healthy_canary now d d' vid r.
Proof.
  intros Hk Htx Hr Hs Hr' Hst.
  assert (d' <> d) as Hne by (intros ->; assert (r' = r) as -> by congruence; rewrite Hs in Hst; by apply canary_not_past in Hst).
  destruct Htx as [fresh actor reason H | fresh actor reason H | actor reason H | actor reason H | fresh actor dep reason input extra refused Hi H
    | f rev d0 d1 cx0 ro0 u _ _ _ _ _ _ H | f fresh rev dep prepared refused H | f H | f n H].
  - apply bind_Done in H as (cx & (_ & _ & Hro & _)%load_tx_Done & (? & _ & (? & _ & (b & Hb & _)%bind_Done)%bind_Done)%bind_Done); [|done].
    rewrite Hro, Hr in Hb. unfold restart_of in Hb. by rewrite Hs in Hb.
  - apply bind_Done in H as (cx & (_ & _ & Hro & _)%load_tx_Done & H); [|done]. rewrite Hro, Hr in H.
    apply bind_Done in H as (? & Ha%ensure_Done & _). by rewrite Hs in Ha.
  - apply bind_Done in H as (cx & (_ & _ & Hro & _)%load_tx_Done & H); [|done]. rewrite Hro, Hr in H. unfold pause_body in H.
    case_bool_decide; [|by destruct (rl_Stage r =? _)%string]. injection H as <-.
    destruct (pauseTx_tables sv now actor cx r GovPauseManual (TrimSpace reason) [] d) as (Hp & _).
    rewrite Hp, (tk_rollouts _ Hk vid r Hr), lookup_insert_eq in Hr'. injection Hr' as <-. exfalso. revert Hst. apply (bool_decide_unpack _). by vm_compute.
  - apply bind_Done in H as (cx & (_ & _ & Hro & _)%load_tx_Done & H); [|done]. rewrite Hro, Hr in H.
    apply bind_Done in H as (? & Ha%ensure_Done & _). by rewrite Hs in Ha.
  - by eapply expand_tx_healthy.
  - by apply (locked_other _ _ _ _ _ _ _ Hk Hr) in H; [|rewrite Hs].
  - apply locked_tx_Done in H as [? | (cx & ro & _ & Hid & Hro & Hrv & _ & Hcx & H)]; [done| |done].
    assert (ro = r) as -> by congruence. by eapply canary_body_healthy.
  - by apply (locked_other _ _ _ _ _ _ _ Hk Hr) in H; [|rewrite Hs].
  - by apply (locked_other _ _ _ _ _ _ _ Hk Hr) in H; [|rewrite Hs].
Qed.

(** * How an expansion ends *)

(** The last deployment of a control, in the order they were created. *)
Lemma latest_by_control_last ds c : latest_by_control ds !! c = last (List.filter (fun x => (dw_ControlID x =? c)%string) ds).
Proof.
  unfold latest_by_control. induction ds as [|x ds IH] using rev_ind; [done|].
  rewrite foldl_app, List.filter_app. cbn. destruct (String.eqb_spec (dw_ControlID x) c) as [<- | Hne].
  - by rewrite lookup_insert_eq, last_snoc.
  - by rewrite lookup_insert_ne, app_nil_r.
Qed.

Lemma existsb_latest (f : DeploymentRow -> bool) (m : gmap string DeploymentRow) :
  existsb f (snd <$> map_to_list m) = true <-> exists c x, m !! c = Some x /\ f x = true.
Proof.
  rewrite existsb_exists. split.
  - intros (x & Hx & Hf). apply list_elem_of_In, list_elem_of_fmap in Hx as ([c y] & -> & Hm). apply elem_of_map_to_list in Hm. eauto.
  - intros (c & x & Hm & Hf). exists x. split; [|done]. apply list_elem_of_In, list_elem_of_fmap. exists (c, x). split; [done|].
    by apply elem_of_map_to_list.
Qed.

Lemma filter_nonempty {A} (f : A -> bool) l : (0 <? length (List.filter f l))%nat = existsb f l.
Proof. induction l as [|x l IH]; cbn; [done|]. by destruct (f x). Qed.

(** The last deployment of a control of the version. *)
Definition latest (d : RDB) (vid c : string) (x : DeploymentRow) : Prop :=
  last (List.filter (fun x => (dw_ControlID x =? c)%string) (versionDeployments d vid)) = Some x.

Definition refused_targets (r : Rollout) : list GovRolloutRefusal :=
  match rr_Expansion (rl_GateResults r) with Some x => xp_Refused x | None => [] end.

(** The deployments [settleTx] looks at. *)
Definition latest_rows (d : RDB) (vid : string) : list DeploymentRow := snd <$> map_to_list (latest_by_control (versionDeployments d vid)).

Lemma existsb_latest_rows f d vid : existsb f (latest_rows d vid) = true <-> exists c x, latest d vid c x /\ f x = true.
Proof. unfold latest_rows, latest. rewrite existsb_latest. by setoid_rewrite latest_by_control_last. Qed.

Definition pending (d : RDB) (vid : string) : Prop := exists c x, latest d vid c x /\ verified_row x = false /\ ended_badly x = false.
Definition unproven (d : RDB) (vid : string) : Prop := exists c x, latest d vid c x /\ verified_row x = false.

Lemma pending_iff d vid : existsb (fun x => negb (verified_row x) && negb (ended_badly x)) (latest_rows d vid) = true <-> pending d vid.
Proof. rewrite existsb_latest_rows. unfold pending. setoid_rewrite andb_true_iff. by setoid_rewrite negb_true_iff. Qed.

Lemma failed_iff d vid n : ~ pending d vid ->
  (0 <? length (List.filter (fun x => negb (verified_row x) && ended_badly x) (latest_rows d vid)) + n)%nat = true <-> n <> O \/ unproven d vid.
Proof.
  intros Hp. transitivity (n <> O \/ existsb (fun x => negb (verified_row x) && ended_badly x) (latest_rows d vid) = true).
  - rewrite <- filter_nonempty, !Nat.ltb_lt. lia.
  - rewrite existsb_latest_rows. setoid_rewrite andb_true_iff. setoid_rewrite negb_true_iff. unfold unproven. split.
    + intros [? | (c & x & ? & ? & _)]; eauto.
    + intros [? | (c & x & Hx & Hv)]; [by left|right]. exists c, x. split_and!; [done..|].
      destruct (ended_badly x) eqn:Hb; [done|]. destruct Hp. by exists c, x.
Qed.

(** C19 How an expansion ends. While the latest deployment of some control is neither verified nor ended, nothing changes;
    otherwise the rollout is complete exactly when no target was refused and the latest deployment of every control is
    verified, and partial in every other case. *)
Theorem expansion_ends_exactly now cx r d : rl_Stage r = GovRolloutExpand ->
  let vid := pv_ID (cx_Version cx) in
  let row s := <[rl_VersionID r := stored now (to_stage s r) (rl_GateResults r)]> (rd_Rollouts d) in
  (pending d vid -> settleTx now cx r d = d) /\
  (~ pending d vid -> refused_targets r <> [] \/ unproven d vid -> rd_Rollouts (settleTx now cx r d) = row GovRolloutPartial) /\
  (refused_targets r = [] -> ~ unproven d vid -> rd_Rollouts (settleTx now cx r d) = row GovRolloutComplete).
Proof.
  intros Hs. cbn zeta. set (vid := pv_ID (cx_Version cx)). unfold settleTx. rewrite Hs, String.eqb_refl. cbn [negb].
  change (snd <$> map_to_list (latest_by_control (versionDeployments d (pv_ID (cx_Version cx))))) with (latest_rows d vid).
  assert (~ unproven d vid -> ~ pending d vid) as Hup by (intros Hn (c & x & ? & ? & _); destruct Hn; by exists c, x).
  assert (match rr_Expansion (rl_GateResults r) with Some x => length (xp_Refused x) | None => O end = length (refused_targets r)) as ->
    by (unfold refused_targets; by destruct (rr_Expansion _)).
  destruct (existsb _ _) eqn:He; [apply pending_iff in He; split_and!; [done|done|intros _ ?; by destruct Hup]|].
  assert (~ pending d vid) as Hp by (rewrite <- pending_iff; congruence). split; [done|].
  pose proof (failed_iff d vid (length (refused_targets r)) Hp) as Hf. rewrite length_zero_iff_nil in Hf.
  destruct (0 <? _)%nat; [destruct (proj1 Hf eq_refl); naive_solver|]. split; [|done].
  intros _ H%Hf. done.
Qed.

(** * Back to draft *)

Lemma locked_tx_fires f stage fn vid d d' r : tables_ok d -> rd_Rollouts d !! vid = Some r -> rl_Stage r = stage ->
  locked_tx f stage fn vid d = Done d' -> exists cx, pv_ID (cx_Version cx) = vid /\ fn cx r d = Done d'.
Proof.
  intros Hk Hr Hs. unfold locked_tx. destruct (AssertOwnedTx f (rd_Jobs d)); [|done].
  intros (cx & (_ & Hid & Hro & _)%load_tx_Done & H)%bind_Done; [|done]. rewrite Hro, Hr, Hs, String.eqb_refl in H. eauto.
Qed.

Lemma revoke_live_none now vid reason l a : a ∈ revoke_live now vid reason l ->
  ~ (ap_VersionID a = vid /\ ap_Decision a = "approve" /\ ap_RevokedAt a = None).
Proof.
  unfold revoke_live. intros (b & -> & _)%list_elem_of_fmap.
  destruct ((ap_VersionID b =? vid)%string && _ && _) eqn:E; [cbn; naive_solver|]. intros (Hv & Hd & Hr).
  by rewrite Hv, Hd, Hr, !String.eqb_refl, bool_decide_eq_true_2 in E.
Qed.

(** A row of the revision shows a removed service attempted after the report
    the removal was proposed from. *)
Definition attempted (d : RDB) (cx : rctx) (rev : Z) (t : rtarget) (e : EvidenceRow) (at_ : Time) : Prop :=
  removed_row d cx rev t e /\ ev_LastAuthenticatedAt e = Some at_ /\ ot_EvidenceReportAt (observation_target d cx rev t) < at_.

Lemma attempted_back d cx rev t e at_ until now : evidence_keyed d -> t ∈ cx_Targets cx -> attempted d cx rev t e at_ ->
  {| at_RoleID := cl_RoleID (rt_Control t); at_Service := ev_Service e; at_At := at_ |}
    ∈ or_BackToDraft (EvaluateObservation until now (observationTargets d cx rev)).
Proof.
  intros Hk Ht (Hrow & Ha & Hlt). apply elem_of_back. exists (observation_target d cx rev t). split; [by apply list_elem_of_fmap_2|].
  apply elem_of_target_attempts. cbn [at_RoleID at_Service at_At]. by rewrite (observation_attempts _ _ _ _ _ Hk Hrow), Ha.
Qed.

(** A returned version cannot be resumed. *)
Lemma returned_not_resumed d vid v r p now actor reason d2 : rd_Versions d !! vid = Some v -> pv_ID v = vid -> rd_Rollouts d !! vid = Some r ->
  rr_Pause (rl_GateResults r) = Some p -> ps_Kind p = GovPauseReturnedToDraft -> active_tx (resume_body now actor reason) vid d <> Done d2.
Proof.
  intros Hv Hid Hr Hp Hk (cx & Hcx & H)%bind_Done.
  assert (cx_Rollout cx = Some r) as Hro.
  { apply bind_Done in Hcx as (v' & Hv'%take_Done & (? & _ & (? & _ & (? & _ & [= <-])%bind_Done)%bind_Done)%bind_Done). cbn.
    assert (v' = v) as -> by congruence. by rewrite Hid. }
  rewrite Hro in H. unfold resume_body in H. apply bind_Done in H as (? & _ & (? & _ & H)%bind_Done). cbn zeta in H. rewrite Hp, Hk in H. by rewrite orb_true_r in H.
Qed.


(** * Handlers *)

(** Revalidation and the removal of a control are transactions of other services;
    a revalidation records itself and creates no deployment. *)
Record service_laws : Prop := {
  sl_revalidate : forall rv d p d' r, sv_Revalidate sv = Some rv -> rv d p = (d', r) -> other_tx d d' /\ rd_Deployments d' = rd_Deployments d;
  sl_remove : forall st d actor vid d', sv_RemoveStarter sv = Some st -> st d actor vid = Done d' -> other_tx d d' }.

(** A call of the API, or a job. *)
Inductive call :=
  | CallStart (fresh actor policy : string) (no : option Z) (reason : string)
  | CallPause (actor policy reason : string)
  | CallResume (actor policy reason : string)
  | CallExpand (fresh : string -> string) (actor policy reason : string) (input : list GateAccept)
  | CallTick (fresh : string -> string) (f : PolicyJobFence) (subject : option string) (rev : option Z).

Definition perform (now : Time) (c : call) (d : RDB) : RDB * outcome unit :=
  match c with
  | CallStart fresh actor policy no reason => Start sv fresh now actor policy no reason d
  | CallPause actor policy reason => Pause sv now actor policy reason d
  | CallResume actor policy reason => Resume now actor policy reason d
  | CallExpand fresh actor policy reason input => Expand sv fresh now actor policy reason input d
  | CallTick fresh f subject rev => ObserveTickHandler sv fresh now f subject rev d
  end.

(** The approval service revalidates a plan. *)
Definition revalidates (d d' : RDB) : Prop := exists rv p r, sv_Revalidate sv = Some rv /\ rv d p = (d', r).

Definition start_removal (actor policy : string) (no : option Z) (d d' : RDB) : Prop :=
  exists v st d1 e, policyVersionFor d policy no true = Done v /\ (in_Kind <$> pv_Intent v) = Some IntentRemoveControl /\
    pv_Status v = "approved" /\ sv_RemoveStarter sv = Some st /\ st d actor (pv_ID v) = Done d1 /\ d' = put_Events (e :: rd_Events d1) d1.

(** All that a call may have done by the time it answers: revalidations and then
    nothing, if it is refused; nothing, if there is nothing to do; revalidations
    and one rollout transaction, whose observation was read when the call began;
    or the start of a removal of control. *)
Inductive performed (now : Time) (c : call) (d d' : RDB) : outcome unit -> Prop :=
  | pf_refused e : rtc revalidates d d' -> performed now c d d' (Refused e)
  | pf_idle : d' = d -> performed now c d d' (Done tt)
  | pf_tx dm vid : rtc revalidates d dm -> rollout_tx_on sv (eq d) now vid dm d' -> performed now c d d' (Done tt)
  | pf_removal fresh actor policy no reason : c = CallStart fresh actor policy no reason -> start_removal actor policy no d d' ->
      performed now c d d' (Done tt).

Definition does (now : Time) (c : call) (d : RDB) (r : RDB * outcome unit) : Prop := performed now c d r.1 r.2.

Lemma does_commit now c d dm vid tx : rtc revalidates d dm -> (forall d', tx dm = Done d' -> rollout_tx_on sv (eq d) now vid dm d') ->
  does now c d (commit tx dm).
Proof. intros Hr H. unfold does, commit. destruct (tx dm) as [d'|] eqn:E; cbn; [by eapply pf_tx; eauto|by constructor]. Qed.

Lemma does_reading {A} now c (r : outcome A) d k : (forall a, r = Done a -> does now c d (k a)) -> does now c d (reading r d k).
Proof. intros H. destruct r; cbn; [by apply H|by constructor]. Qed.

Lemma does_idle now c d : does now c d (d, Done tt).
Proof. by constructor. Qed.

Lemma does_refused now c d dm e : rtc revalidates d dm -> does now c d (dm, Refused e).
Proof. by constructor. Qed.

Lemma prepare_revalidates now vid t d : rtc revalidates d (prepare sv now vid t d).1.
Proof.
  unfold prepare. destruct (rt_Plan t) as [p|]; [|done]. destruct (pn_Eligibility p =? "ineligible")%string; [done|].
  destruct (UsableApproval _ _ _ _ _) as [|e]; [done|].
  destruct (default "" (fst <$> as_GovError e) =? "revalidation_required")%string; [|done].
  destruct (sv_Revalidate sv) as [rv|] eqn:Hrv; [|done]. destruct (rv d (pn_ID p)) as [d1 r] eqn:E. apply rtc_once. by exists rv, (pn_ID p), r.
Qed.

Lemma prepare_all_revalidates now vid ts d refused : rtc revalidates d (prepare_all sv now vid ts d refused).1.
Proof.
  revert d refused. induction ts as [|t ts IH]; intros d refused; cbn; [done|].
  pose proof (prepare_revalidates now vid t d) as Hp. destruct (prepare sv now vid t d) as [d1 [u|e]]; cbn in Hp; [by etrans|].
  destruct (refusalOf t e); cbn; [by etrans|done].
Qed.

Lemma does_startCanary c fresh now actor reason v d : does now c d (startCanary sv fresh now actor reason v d).
Proof.
  unfold startCanary. apply does_reading. intros ct _. pose proof (prepare_revalidates now (pv_ID v) ct d) as Hp.
  destruct (prepare sv now (pv_ID v) ct d) as [d1 [u|e]]; cbn in Hp; [|by apply does_refused].
  apply (does_commit _ _ _ _ (pv_ID v)); [done|]. intros d' H. by eapply tx_canary.
Qed.

Lemma does_Start fresh now actor policy no reason d :
  does now (CallStart fresh actor policy no reason) d (Start sv fresh now actor policy no reason d).
Proof.
  unfold Start. apply does_reading. intros v Hv. case_bool_decide as Hk.
  - unfold startRemoveControl. apply does_reading. intros d1 (? & _ & (? & _ & (? & Hs%ensure_Done%String.eqb_eq & Hok)%bind_Done)%bind_Done)%bind_Done.
    destruct (sv_RemoveStarter sv) as [st|] eqn:Hst; [|done]. eapply pf_removal; [done|]. eexists v, st, d1, _. by split_and!.
  - apply does_reading. intros cx _. case_bool_decide; [apply does_startCanary|].
    apply (does_commit _ _ _ _ (pv_ID v)); [done|]. intros d' Hd. by eapply tx_start.
Qed.

Lemma does_Expand c fresh now actor policy reason input d : does now c d (Expand sv fresh now actor policy reason input d).
Proof.
  unfold Expand. apply does_reading. intros [extra [[vid dep] others]] (e & He & (r & _ & [= -> ->])%bind_Done)%bind_Done.
  pose proof (prepare_all_revalidates now vid others d ∅) as Hp. destruct (prepare_all sv now vid others d ∅) as [d1 [refused|?]]; [|by apply does_refused].
  apply (does_commit _ _ _ _ vid); [done|]. intros d' H. by eapply tx_expand.
Qed.

Lemma does_tickCanary c fresh now f rev cx ro d : does now c d (tickCanary sv fresh now f rev cx ro d).
Proof.
  assert (forall dep prepared refused d1, rtc revalidates d d1 ->
    does now c d (commit (locked_tx f GovRolloutCanary_ (canary_body sv fresh now rev dep prepared refused) (pv_ID (cx_Version cx))) d1)) as Htx.
  { intros * Hr. apply (does_commit _ _ _ _ (pv_ID (cx_Version cx))); [done|]. intros d' H. by eapply tx_gates. }
  unfold tickCanary. destruct (rr_Canary _) as [cn|]; [|apply does_idle].
  destruct (evaluateGates _ _ _ _ _ _) as [ev|e].
  - destruct (canaryHealthy ev ∅ && _); [|by apply Htx]. apply does_reading. intros ct _.
    pose proof (prepare_all_revalidates now (pv_ID (cx_Version cx)) (other_targets ct (cx_Targets cx)) d ∅) as Hp.
    destruct (prepare_all _ _ _ _ _ _) as [d1 [refused|?]]; [by apply Htx|by apply does_refused].
  - repeat case_match; by apply does_refused.
Qed.

Lemma does_tick c fresh now f subject rev d : tables_ok d -> does now c d (ObserveTickHandler sv fresh now f subject rev d).
Proof.
  intros Hk. unfold ObserveTickHandler. destruct subject as [id|]; [|by apply does_refused]. destruct (List.find _ _) as [r|]; [|by apply does_refused].
  apply does_reading. intros cx Hcx. pose proof Hcx as (_ & Hid & _)%load_tx_Done; [|done].
  destruct (cx_Rollout cx) as [ro|] eqn:Hro; [|apply does_idle]. cbn zeta.
  assert (forall tx, (forall d', tx d = Done d' -> rollout_tx_on sv (eq d) now (pv_ID (cx_Version cx)) d d') -> does now c d (commit tx d)) as Htx
    by (intros tx; by apply does_commit).
  destruct (String.eqb_spec (rl_Stage ro) GovRolloutObserve) as [Hs | _].
  { destruct (_ =? 0); [apply does_idle|]. unfold tickObserve. destruct (negb _); [apply does_idle|]. destruct (newer_read _ _); [apply does_idle|].
    destruct (rl_ObserveUntil ro) as [u|] eqn:Hu; [|by apply does_refused]. apply Htx. intros d' H. rewrite Hid in *. by eapply tx_observe. }
  destruct (rl_Stage ro =? GovRolloutCanary_)%string; [apply does_tickCanary|].
  destruct (rl_Stage ro =? GovRolloutExpand)%string; [apply Htx; intros d' H; by eapply tx_settle|].
  destruct (rl_Stage ro =? GovRolloutPaused)%string; [|apply does_idle].
  unfold tickPaused. destruct (all_undone _ _) as [n|]; [|apply does_idle]. apply Htx. intros d' H. by eapply tx_undone.
Qed.

Lemma does_perform now c d : tables_ok d -> does now c d (perform now c d).
Proof.
  intros Hk. destruct c; cbn; [apply does_Start| | |apply does_Expand|by apply does_tick].
  - unfold Pause. destruct (is_empty _); [by apply does_refused|]. apply does_reading. intros v _.
    apply (does_commit _ _ _ _ (pv_ID v)); [done|]. intros d' H. by eapply tx_pause.
  - unfold Resume. destruct (is_empty _); [by apply does_refused|]. apply does_reading. intros v _.
    apply (does_commit _ _ _ _ (pv_ID v)); [done|]. intros d' H. by eapply tx_resume.
Qed.

Context (laws : service_laws).

Abbreviation runs := (rtc (rollout_step sv)).

Lemma revalidates_runs d d' : rtc revalidates d d' -> runs d d' /\ rd_Deployments d' = rd_Deployments d.
Proof.
  induction 1 as [|d d1 d2 (rv & p & r & Hrv & Hd) _ [IH1 IH2]]; [done|]. destruct (sl_revalidate laws _ _ _ _ _ Hrv Hd) as [Ho E].
  split; [by eapply rtc_l; [apply step_other|]|congruence].
Qed.

Lemma performed_runs now c d d' r : performed now c d d' r -> runs d d'.
Proof.
  destruct 1 as [e Hr | -> | dm vid Hr Htx | fresh actor policy no reason _ (v & st & d1 & e & _ & _ & _ & Hst & Hd & ->)]; [|done| |].
  - by apply revalidates_runs.
  - etrans; [by apply revalidates_runs|]. apply rtc_once. eapply step_rollout. by eapply rollout_tx_any.
  - etrans; apply rtc_once, step_other; [by eapply sl_remove|by split; [|intros []]].
Qed.

(** C17 What a call may do to a workspace. A start, pause, resume or expand call and an observe_tick job do one of four
    things: they are refused, having changed nothing but what revalidations of plans recorded; they find nothing to do and
    change nothing; they let plans be revalidated and commit exactly one transaction of the rollout; or, for a start of an
    approved version that removes control, they run the removal's own start and log it. Without the last, no deployment is
    changed or removed, and every deployment added is of a target the transaction read, and was authorised as it was
    created, on the rows the transaction found (the revalidated ones) but for deployments it had already added. In every case the invariant of the rollouts is kept and a rollout that is complete, partial or undone does
    not move. Assumed of the other services: a revalidation and the start of a removal write no rollout and keep the
    keys, and a revalidation creates no deployment. *)
Theorem calls_are_transactions now c d : ok d ->
  let d' := (perform now c d).1 in
  performed now c d d' (perform now c d).2 /\ ok d' /\
  (forall vid p, phase_in d vid = Some p -> final p -> phase_in d' vid = Some p) /\
  ((exists fresh actor policy no reason, c = CallStart fresh actor policy no reason /\ start_removal actor policy no d d') \/
   (rd_Deployments d ⊆ rd_Deployments d' /\
    forall i x, rd_Deployments d' !! i = Some x -> rd_Deployments d !! i = None ->
      exists dr dm vid t, rtc revalidates d dr /\ rollout_tx_on sv (eq d) now vid dr d' /\
        work_only dr dm /\ rd_Deployments dr ⊆ rd_Deployments dm /\ loaded dm vid t /\ authorised sv now dm vid t x)).
Proof.
  intros Hok. cbn zeta. pose proof (does_perform now c d (proj1 Hok)) as Hd. unfold does in Hd.
  pose proof (performed_runs _ _ _ _ _ Hd) as Hruns. split_and!; [done|by eapply steps_ok|intros vid p Hp Hf; by eapply finished_stay|].
  destruct Hd as [e Hr%revalidates_runs | -> | dm vid Hrv Htx | fresh actor policy no reason -> Hrm].
  - right. destruct Hr as [_ ->]. split; [done|]. intros i x ??. congruence.
  - right. split; [done|]. intros i x ??. congruence.
  - right. destruct (revalidates_runs _ _ Hrv) as [Hr E]. pose proof (steps_ok _ _ Hr Hok) as [Hk Hp].
    destruct (rollout_tx_effect sv now vid _ _ Hk Hp (rollout_tx_any _ _ _ _ _ _ Htx)) as [_ Hs Hn _].
    split; [by rewrite <- E|]. intros i x Hx Hnone. destruct (Hn i x Hx) as [? | (dm' & t & Hw & Hsub & Hl & Ha)]; [congruence|].
    by exists dm, dm', vid, t.
  - left. by exists fresh, actor, policy, no, reason.
Qed.

(** The service at work: calls and jobs of the rollout, transactions of others. *)
Inductive system_step (d : RDB) : RDB -> Prop :=
  | sys_call now c : system_step d (perform now c d).1
  | sys_other d' : other_tx d d' -> system_step d d'.

Lemma system_ok d d' : rtc system_step d d' -> ok d -> ok d'.
Proof.
  induction 1 as [|d d1 d2 Hs _ IH]; [done|]. intros Hok. apply IH. destruct Hs as [now c | d' Ho].
  - eapply steps_ok; [|exact Hok]. eapply performed_runs, does_perform, Hok.
  - eapply steps_ok; [|exact Hok]. by apply rtc_once, step_other.
Qed.

End Safety.

(** * Observation before canary *)

(** A history of a workspace: the states it went through, newest first, and the
    one it is in. The services may answer differently at every transaction; a
    tick's transaction stores what the tick evaluated from states of the history. *)
Inductive history : list RDB -> RDB -> Prop :=
  | hist_new d : tables_ok d -> rd_Rollouts d = ∅ -> history [] d
  | hist_tx sv l d d' now vid : history l d -> rollout_tx_on sv (fun s => s ∈ d :: l) now vid d d' -> history (d :: l) d'
  | hist_other l d d' : history l d -> other_tx d d' -> history (d :: l) d'.

Lemma history_ok l d : history l d -> ok d.
Proof.
  induction 1 as [d Hk He | sv l d d' now vid _ IH Htx | l d d' _ IH Ho].
  - split; [done|]. unfold phased. by rewrite He.
  - eapply (step_ok_phase sv d d' ""); [done|]. eapply step_rollout. by eapply rollout_tx_any.
  - destruct IH as [Hk Hp]. split; [by apply Ho|]. unfold phased. by rewrite (oth_rollouts _ _ Ho).
Qed.

(** Every stored observation was evaluated from states of the history. *)
Lemma history_observations l d vid r o : history l d -> rd_Rollouts d !! vid = Some r -> rr_Observation (rl_GateResults r) = Some o ->
  evaluated_on (fun s => s ∈ l) vid o.
Proof.
  intros Hh. revert vid r o. assert (forall s l vid o, evaluated_on (fun x => x ∈ l) vid o -> evaluated_on (fun x => x ∈ s :: l) vid o) as Hmore.
  { intros s l' vid o (d0 & d1 & cx & ro & u & ? & ? & ?). exists d0, d1, cx, ro, u. split; [by right|]. split; [by right|done]. }
  induction Hh as [d Hk He | sv l d d' now vid0 Hh IH Htx | l d d' Hh IH Ho]; intros vid r o Hr Hobs.
  - by rewrite He in Hr.
  - pose proof (history_ok _ _ Hh) as [Hk Hp]. destruct (decide (vid = vid0)) as [-> | Hne].
    + destruct (tx_observation sv _ now vid0 d d' r Hk Htx Hr o Hobs) as [(r0 & Hr0 & Ho0) | Hev]; [|done]. by eapply Hmore, IH.
    + rewrite (tx_other_rows sv _ now vid0 vid d d' Hk Hp Htx Hne) in Hr. by eapply Hmore, IH.
  - rewrite (oth_rollouts _ _ Ho) in Hr. by eapply Hmore, IH.
Qed.

(** The stages past the observation. *)
Definition after_observation : list string :=
  [GovRolloutAwaitingApproval; GovRolloutCanary_; GovRolloutExpand; GovRolloutComplete; GovRolloutPartial].

Lemma after_observation_complete l d vid r : history l d -> rd_Rollouts d !! vid = Some r -> rl_Stage r ∈ after_observation ->
  exists o, rr_Observation (rl_GateResults r) = Some o /\ or_Complete (ob_Result o) = true.
Proof.
  intros [_ Hp]%history_ok Hr Hst. destruct (Hp vid r Hr) as [p [Hph _ Ho _]].
  assert (past_observation p = true) as Hpo.
  { rewrite (phase_at r (rl_Stage r) eq_refl) in Hph. unfold after_observation in Hst. rewrite !elem_of_cons, elem_of_nil in Hst.
    destruct Hst as [E | [E | [E | [E | [E | []]]]]]; rewrite E in Hph; cbn in Hph; injection Hph as <-; done. }
  destruct (Ho Hpo) as (o & ? & ? & _). eauto.
Qed.

(** C11 No stage past observing without an observation that was carried out. In any history from a workspace without
    rollouts, a rollout that waits for its approval, is in canary, expanding, complete or partial stores an observation
    that a tick evaluated from two earlier states of the history. In the first it read the row of this version, then
    observing, with its observe_until; that time had passed when the tick evaluated. In the second it read the evidence of
    the stored revision: for every target of the version a collected row with a report generated at least four hours after
    observe_until, and no row that shows a service the intent removes from the target's identity authenticated after the
    report its removal was proposed from. The observe_until is the one the tick had read: when the version went back to
    draft and was started again between that read and the tick's transaction, it is that of the earlier observation. *)
Theorem canary_after_observation l d vid r : history l d -> (forall s, s ∈ l -> evidence_keyed s) ->
  rd_Rollouts d !! vid = Some r -> rl_Stage r ∈ after_observation ->
  exists o d0 d1 cx ro until, rr_Observation (rl_GateResults r) = Some o /\ d0 ∈ l /\ d1 ∈ l /\
    load_tx d0 vid = Done cx /\ cx_Rollout cx = Some ro /\ rl_Stage ro = GovRolloutObserve /\ rl_ObserveUntil ro = Some until /\
    until <= ob_EvaluatedAt o /\
    forall t, t ∈ cx_Targets cx ->
      (exists e g, e ∈ rd_Evidence d1 /\ ev_Rev e = ob_Rev o /\ ev_IdentityAccountID e = cl_IdentityAccountID (rt_Control t) /\
         ev_State e = EvidenceCollected /\ ev_ReportGeneratedAt e = Some g /\ until + ReportingLag <= g) /\
      (forall e at_, ~ attempted d1 cx (ob_Rev o) t e at_).
Proof.
  intros Hh Hek Hr Hst. destruct (after_observation_complete l d vid r Hh Hr Hst) as (o & Ho & Hc).
  destruct (history_observations l d vid r o Hh Hr Ho) as (d0 & d1 & cx & ro & u & H0 & H1 & Hl & Hro & Hs & Hu & Hres).
  rewrite Hres in Hc. apply observation_exact in Hc as (Hle & Hrep & Hatt).
  exists o, d0, d1, cx, ro, u. split_and!; try done. intros t Ht.
  assert (observation_target d1 cx (ob_Rev o) t ∈ observationTargets d1 cx (ob_Rev o)) as Hin by (by apply list_elem_of_fmap_2). split.
  - destruct (Hrep _ Hin) as (g & (e & ? & ? & ? & ? & ?)%observation_report & ?). exists e, g. by split_and!.
  - intros e at_ (Hrow & Ha & Hlt). specialize (Hatt _ (ev_Service e) at_ Hin).
    rewrite (observation_attempts _ _ _ _ _ (Hek d1 H1) Hrow), Ha in Hatt. specialize (Hatt eq_refl). lia.
Qed.

(** * A rollout from start to end *)

(** Two roles, the first the canary; alice wrote the version, bob approved it.
    The artifact is verified and the window's trail is missing. *)
Definition w_gates : list GateResult :=
  [gate GateArtifactVerified OutcomePassed "" []; gate GateWindowElapsed OutcomeNotAvailable "trail_not_covered" []].

Definition w_services : services :=
  {| sv_Workspace := "ws"; sv_CheckGate _ _ := None; sv_Acknowledgement _ _ _ := Done (false, true); sv_Grants _ _ := Done [];
     sv_Statements _ _ := []; sv_RequireVerified _ _ := None; sv_ActiveMember _ _ := true;
     sv_Holds _ u _ _ := (u =? "bob")%string; sv_EvidenceFresh _ _ _ := true; sv_Stale _ _ _ _ := []; sv_Revalidate := None;
     sv_Facts d id := match rd_Deployments d !! id with
                      | Some x => Done {| gf_State := dw_State x; gf_StateReason := ""; gf_AppliedAt := dw_AppliedAt x; gf_Dimensions := ∅;
                                          gf_Gates := w_gates; gf_UnexpectedFailures := []; gf_Canary := None |}
                      | None => Refused GovNotFound
                      end;
     sv_RemoveStarter := None; sv_Webhook := true; sv_Email := false; sv_Extra _ := [] |}.

Definition w_intent : Intent :=
  {| in_Kind := IntentRightSizeServices;
     in_RightSize := Some {| rs_Kind := IntentRightSizeServices; rs_Subjects := []; rs_Retain := [];
                             rs_Remove := [{| rm_Service := "sqs"; rm_Basis := ""; rm_QualifiedDays := 90; rm_GrantAgeBasis := "";
                                              rm_RouteUsage := ""; rm_RouteState := ""; rm_Routes := [] |}];
                             rs_ObservationDays := 1; rs_Rollout := Some {| ro_CanaryTarget := "A"; ro_CanaryHours := 10 |};
                             rs_Delivery := "direct"; rs_FindingIDs := []; rs_EvidenceRev := 1 |};
     in_RemoveControl := None; in_DedicatedIdentity := None |}.

Definition w_version : Version :=
  {| pv_ID := "v1"; pv_PolicyID := "p1"; pv_VersionNo := 1; pv_Intent := Some w_intent; pv_IntentHash := "ih"; pv_EvidenceRev := 1;
     pv_Status := "approved"; pv_CreatedBy := "alice"; pv_CreatedAt := 0; pv_StatusChangedAt := 0 |}.

Definition w_plan (id target control : string) : PlanRow :=
  {| pn_ID := id; pn_VersionID := "v1"; pn_TargetID := target; pn_ControlID := control; pn_Kind := "apply"; pn_Delivery := "direct";
     pn_Eligibility := "eligible"; pn_IneligibleReason := ""; pn_EvidenceBundleID := "b1"; pn_PlanHash := "h-" +:+ id; pn_MaterialHash := "m";
     pn_SupersededAt := None |}.

Definition w_evidence (identity : string) (attempt : option Time) : EvidenceRow :=
  {| ev_Rev := 2; ev_IdentityAccountID := identity; ev_Service := "sqs"; ev_State := "collected"; ev_LastAuthenticatedAt := attempt;
     ev_ReportGeneratedAt := Some (40 * Hour) |}.

Definition w_job : Job :=
  {| jb_ID := "j1"; jb_WorkspaceID := "ws"; jb_Kind := "observe_tick"; jb_SubjectID := Some "r1"; jb_Rev := Some 2; jb_DedupeKey := "k";
     jb_Status := "running"; jb_RunAfter := 0; jb_LeaseOwner := "w"; jb_LeaseExpiresAt := Some 0; jb_LeaseVersion := 1; jb_Attempts := 1;
     jb_MaxAttempts := 5; jb_LastError := ""; jb_CreatedAt := 0; jb_CompletedAt := None |}.

Definition w_fence : PolicyJobFence := {| fc_JobID := "j1"; fc_Owner := "w"; fc_Version := 1 |}.

Definition world (evidence : list EvidenceRow) : RDB :=
  {| rd_Policies := {["p1" := {| po_ID := "p1"; po_Lifecycle := "active"; po_OwnerUserID := None |}]};
     rd_Versions := {["v1" := w_version]};
     rd_Targets := [{| tg_ID := "t1"; tg_VersionID := "v1"; tg_ControlID := "c1"; tg_IsCanary := true |};
                    {| tg_ID := "t2"; tg_VersionID := "v1"; tg_ControlID := "c2"; tg_IsCanary := false |}];
     rd_Controls := {["c1" := {| cl_ID := "c1"; cl_ConnectorID := "x"; cl_RoleID := "A"; cl_IdentityAccountID := "i1" |};
                      "c2" := {| cl_ID := "c2"; cl_ConnectorID := "x"; cl_RoleID := "B"; cl_IdentityAccountID := "i2" |}]};
     rd_Plans := [w_plan "pl1" "t1" "c1"; w_plan "pl2" "t2" "c2"];
     rd_Approvals := [{| ap_ID := "a1"; ap_VersionID := "v1"; ap_Decision := "approve"; ap_DecidedBy := "bob"; ap_IntentHash := "ih";
                         ap_PlanHashes := ["h-pl1"; "h-pl2"]; ap_ExpiresAt := 200 * Hour; ap_RevokedAt := None; ap_RevokedReason := "";
                         ap_DecidedAt := 0 |}];
     rd_Revalidations := []; rd_Reviews := ∅; rd_Evidence := evidence;
     rd_Settings := {| st_EnforcementMode := "enforce"; st_DefaultObservationDays := 7; st_CanaryHours := 48 |};
     rd_Rollouts := ∅; rd_Deployments := ∅; rd_Acceptances := []; rd_Jobs := {["j1" := w_job]}; rd_Notices := []; rd_Events := [] |}.

(** What the deployment service does: a deployment reaches a state. *)
Definition deployed (id state : string) (applied : Time) (d : RDB) : RDB :=
  put_Deployments (alter (fun x => {| dw_ID := dw_ID x; dw_VersionID := dw_VersionID x; dw_PlanID := dw_PlanID x; dw_ControlID := dw_ControlID x;
    dw_ApprovalID := dw_ApprovalID x; dw_Kind := dw_Kind x; dw_Delivery := dw_Delivery x; dw_State := state; dw_StateReason := "";
    dw_AppliedAt := Some applied; dw_RevalidationID := dw_RevalidationID x; dw_RevalidationResult := dw_RevalidationResult x;
    dw_CreatedAt := dw_CreatedAt x |}) id (rd_Deployments d)) d.

Definition w_fresh (s : string) : string := "new-" +:+ s.
Definition w_start (now : Time) : RDB -> RDB := fun d => (Start w_services "r1" now "alice" "p1" None "go" d).1.
Definition w_tick (now : Time) (rev : Z) : RDB -> RDB := fun d => (ObserveTickHandler w_services w_fresh now w_fence (Some "r1") (Some rev) d).1.
Definition w_expand (now : Time) (actor : string) : RDB -> RDB * outcome unit :=
  Expand w_services w_fresh now actor "p1" "ok" [{| gi_Gate := GateWindowElapsed; gi_Reason := "checked by hand" |}].

Definition w_quiet : list EvidenceRow := [w_evidence "i1" None; w_evidence "i2" None].
Definition w1 : RDB := w_start 0 (world w_quiet).
Definition w2 : RDB := w_tick (50 * Hour) 2 w1.
Definition w3 : RDB := w_start (51 * Hour) w2.
Definition w4 : RDB := w_tick (60 * Hour) 3 (deployed "r1" "applied_unverified" (52 * Hour) w3).
Definition w5 : RDB := (w_expand (61 * Hour) "bob" w4).1.
Definition w6 : RDB := w_tick (70 * Hour) 4 (deployed "new-t2" "verified" (65 * Hour) (deployed "r1" "verified" (52 * Hour) w5)).

Definition stage_in (d : RDB) : option string := rl_Stage <$> rd_Rollouts d !! "v1".

(** Observed, approved, deployed to the canary, expanded by bob who accepts the
    gate that is not available (alice may not), and complete. *)
Example rollout_runs : stage_in <$> [w1; w2; w3; w4; w5; w6] =
  [Some GovRolloutObserve; Some GovRolloutAwaitingApproval; Some GovRolloutCanary_; Some GovRolloutCanary_; Some GovRolloutExpand; Some GovRolloutComplete] /\
  (w_expand (61 * Hour) "alice" w4).2 = Refused (GovError 403 "self_approval" []) /\
  ac_AcceptedBy <$> rd_Acceptances w6 = ["bob"].
Proof. vm_compute. auto. Qed.

(** ** The run is a run of the machine *)

Lemma w_laws : service_laws w_services.
Proof. by split. Qed.

Lemma world_ok e : ok (world e).
Proof.
  split; [split|]; cbn; try (apply map_Forall_empty || by intros ???? ?%lookup_empty_Some).
  apply map_Forall_singleton. done.
Qed.

Lemma deployed_other id s t d : bool_decide (s ∈ inflight_states) = false -> other_tx d (deployed id s t d).
Proof.
  intros Hs. split; [done|]. intros [Kv Kr Kd Ki].
  assert (forall i x, rd_Deployments (deployed id s t d) !! i = Some x -> exists y, rd_Deployments d !! i = Some y /\ dw_ID x = dw_ID y /\
    dw_ControlID x = dw_ControlID y /\ (inflight x = true -> inflight y = true)) as Hback.
  { intros i x. cbn. intros [(-> & y & Hy & ->) | [_ Hx]]%lookup_alter_Some; [|by exists x].
    exists y. split_and!; [done..|]. unfold inflight. cbn. by rewrite Hs. }
  split; [done|done| |].
  - intros i x Hx. destruct (Hback i x Hx) as (y & Hy & -> & _). by apply Kd.
  - intros i j x y Hx Hy Fx Fy Hc. destruct (Hback i x Hx) as (x' & ? & _ & Ex & Ix), (Hback j y Hy) as (y' & ? & _ & Ey & Iy).
    eapply Ki; [done|done|by apply Ix|by apply Iy|congruence].
Qed.

(** A call of the run is a step of the system. *)
Lemma w_call now c d d' : (perform w_services now c d).1 = d' -> system_step w_services d d'.
Proof. intros <-. constructor. Qed.

Lemma w_runs : rtc (system_step w_services) (world w_quiet) w4 /\ rtc (system_step w_services) w4 w6.
Proof.
  pose proof (fun id s t d H => sys_other w_services d _ (deployed_other id s t d H)) as Hd. split.
  - eapply rtc_l; [by apply (w_call 0 (CallStart "r1" "alice" "p1" None "go"))|].
    eapply rtc_l; [by apply (w_call (50 * Hour) (CallTick w_fresh w_fence (Some "r1") (Some 2)))|].
    eapply rtc_l; [by apply (w_call (51 * Hour) (CallStart "r1" "alice" "p1" None "go"))|].
    eapply rtc_l; [by apply (Hd "r1" "applied_unverified"%string (52 * Hour))|].
    apply rtc_once. by apply (w_call (60 * Hour) (CallTick w_fresh w_fence (Some "r1") (Some 3))).
  - eapply rtc_l; [by apply (w_call (61 * Hour) (CallExpand w_fresh "bob" "p1" "ok" [{| gi_Gate := GateWindowElapsed; gi_Reason := "checked by hand" |}]))|].
    eapply rtc_l; [by apply (Hd "r1" "verified"%string (52 * Hour))|].
    eapply rtc_l; [by apply (Hd "new-t2" "verified"%string (65 * Hour))|].
    apply rtc_once. by apply (w_call (70 * Hour) (CallTick w_fresh w_fence (Some "r1") (Some 4))).
Qed.

Lemma w4_ok : ok w4.
Proof. eapply (system_ok w_services w_laws); [apply w_runs|apply world_ok]. Qed.

Lemma w2_ok : ok w2.
Proof.
  eapply (system_ok w_services w_laws); [|apply (world_ok w_quiet)].
  eapply rtc_l; [by apply (w_call 0 (CallStart "r1" "alice" "p1" None "go"))|].
  apply rtc_once. by apply (w_call (50 * Hour) (CallTick w_fresh w_fence (Some "r1") (Some 2))).
Qed.

Definition no_rollout : Rollout :=
  {| rl_ID := ""; rl_VersionID := ""; rl_Stage := ""; rl_ObserveUntil := None; rl_ObserveEvidenceRequiredAfter := None;
     rl_CanaryStartedAt := None; rl_CanaryMinUntil := None; rl_GateResults := no_results; rl_PausedReason := ""; rl_UpdatedAt := 0 |}.
Definition row_in (d : RDB) : Rollout := default no_rollout (rd_Rollouts d !! "v1").

Lemma w_started : rollout_tx w_services 0 "v1" (world w_quiet) w1.
Proof. apply (tx_start _ _ _ _ _ _ "r1" "alice" "go"). vm_compute. reflexivity. Qed.

Lemma w_canaried : rollout_tx w_services (51 * Hour) "v1" w2 w3.
Proof. apply (tx_canary _ _ _ _ _ _ "r1" "alice" "go"). vm_compute. reflexivity. Qed.

Lemma w_expanded : rollout_tx w_services (61 * Hour) "v1" w4 w5.
Proof.
  eapply (tx_expand _ _ _ _ _ _ w_fresh "bob" "r1" "ok" [{| gi_Gate := GateWindowElapsed; gi_Reason := "checked by hand" |}] _ ∅);
    [reflexivity|vm_compute; reflexivity].
Qed.

Lemma rollout_life_cycle_witness : ok (world w_quiet) /\ ok w1 /\ phase_in (world w_quiet) "v1" = None /\ phase_in w1 "v1" = Some (Active Observing).
Proof.
  pose proof (world_ok w_quiet) as H. split; [done|].
  destruct (rollout_life_cycle w_services (world w_quiet) w1 H (step_rollout _ _ _ _ _ w_started)) as [H1 _].
  split; [done|]. split; reflexivity.
Defined.

Definition w_cx : rctx :=
  {| cx_Policy := {| po_ID := "p1"; po_Lifecycle := "active"; po_OwnerUserID := None |}; cx_Version := w_version;
     cx_Intent := default {| rs_Kind := ""; rs_Subjects := []; rs_Retain := []; rs_Remove := []; rs_ObservationDays := 0; rs_Rollout := None;
                             rs_Delivery := ""; rs_FindingIDs := []; rs_EvidenceRev := 0 |} (in_RightSize w_intent);
     cx_Rollout := None; cx_Targets := [] |}.

Definition w_context : rctx := match load_tx w1 "v1" with Done cx => cx | Refused _ => w_cx end.

Lemma w_history : history [deployed "r1" "applied_unverified" (52 * Hour) w3; w3; w2; w1; world w_quiet] w4.
Proof.
  eapply (hist_tx w_services _ _ _ (60 * Hour) "v1").
  - apply hist_other; [|by apply deployed_other].
    eapply (hist_tx w_services _ _ _ (51 * Hour) "v1"); [|apply (tx_canary _ _ _ _ _ _ "r1" "alice" "go"); vm_compute; reflexivity].
    eapply (hist_tx w_services _ _ _ (50 * Hour) "v1").
    + eapply (hist_tx w_services _ _ _ 0 "v1"); [|apply (tx_start _ _ _ _ _ _ "r1" "alice" "go"); vm_compute; reflexivity].
      apply hist_new; [apply world_ok|reflexivity].
    + eapply (tx_observe _ _ _ _ _ _ w_fence 2 w1 w1 w_context (row_in w1) (24 * Hour)); [by left|by left|vm_compute; reflexivity..].
  - apply (tx_gates _ _ _ _ _ _ w_fence w_fresh 3 "r1" false ∅). vm_compute. reflexivity.
Qed.

(** No row of the evidence has the key of another. *)
Definition keyed_evidence (l : list EvidenceRow) : bool :=
  forallb (fun e => forallb (fun e' => negb ((ev_Rev e =? ev_Rev e') && (ev_IdentityAccountID e =? ev_IdentityAccountID e')%string &&
    (ev_Service e =? ev_Service e')%string) || bool_decide ((ev_State e, ev_LastAuthenticatedAt e, ev_ReportGeneratedAt e) =
                                                             (ev_State e', ev_LastAuthenticatedAt e', ev_ReportGeneratedAt e'))) l) l.

Lemma keyed_evidence_sound d : keyed_evidence (rd_Evidence d) = true -> evidence_keyed d.
Proof.
  unfold keyed_evidence. rewrite forallb_forall. intros H e e' He He' Hr Hi Hs. apply list_elem_of_In in He, He'. specialize (H e He).
  rewrite forallb_forall in H. specialize (H e' He'). rewrite Hr, Hi, Hs, Z.eqb_refl, !String.eqb_refl in H. cbn in H.
  apply bool_decide_eq_true in H. destruct e, e'. cbn in *. congruence.
Qed.

Lemma canary_after_observation_witness : rl_Stage (row_in w4) = GovRolloutCanary_ /\
  exists o d1 cx until, rr_Observation (rl_GateResults (row_in w4)) = Some o /\ until <= ob_EvaluatedAt o /\
    forall t, t ∈ cx_Targets cx -> exists e g, e ∈ rd_Evidence d1 /\ ev_IdentityAccountID e = cl_IdentityAccountID (rt_Control t) /\
      ev_ReportGeneratedAt e = Some g /\ until + ReportingLag <= g.
Proof.
  split; [vm_compute; reflexivity|].
  destruct (canary_after_observation _ w4 "v1" (row_in w4) w_history) as (o & d0 & d1 & cx & ro & u & Ho & _ & _ & _ & _ & _ & _ & Hu & Ht).
  - intros s Hs. apply keyed_evidence_sound. rewrite !elem_of_cons, elem_of_nil in Hs.
    destruct Hs as [-> | [-> | [-> | [-> | [-> | []]]]]]; vm_compute; reflexivity.
  - vm_compute. reflexivity.
  - apply (bool_decide_unpack _). vm_compute. exact I.
  - exists o, d1, cx, u. split; [exact Ho|]. split; [exact Hu|]. intros t Hin. destruct (Ht t Hin) as [(e & g & ? & _ & ? & _ & ? & ?) _].
    exists e, g. auto.
Defined.

Definition no_deployment : DeploymentRow :=
  {| dw_ID := ""; dw_VersionID := ""; dw_PlanID := ""; dw_ControlID := ""; dw_ApprovalID := None; dw_Kind := ""; dw_Delivery := ""; dw_State := "";
     dw_StateReason := ""; dw_AppliedAt := None; dw_RevalidationID := None; dw_RevalidationResult := None; dw_CreatedAt := 0 |}.
Definition row_of (d : RDB) (id : string) : DeploymentRow := default no_deployment (rd_Deployments d !! id).

Lemma w2_references : references_ok w2.
Proof.
  split.
  - assert (rd_Controls w2 = rd_Controls (world [])) as -> by (vm_compute; reflexivity). cbn.
    apply map_Forall_insert_2; [done|]. by apply map_Forall_singleton.
  - assert (rd_Targets w2 = rd_Targets (world [])) as -> by (vm_compute; reflexivity). cbn.
    intros s t Hs Ht. rewrite !elem_of_cons, elem_of_nil in Hs, Ht. destruct Hs as [-> | [-> | []]], Ht as [-> | [-> | []]]; done.
  - assert (rd_Plans w2 = rd_Plans (world [])) as -> by (vm_compute; reflexivity). cbn.
    intros s t Hs Ht. rewrite !elem_of_cons, elem_of_nil in Hs, Ht. destruct Hs as [-> | [-> | []]], Ht as [-> | [-> | []]]; done.
  - assert (rd_Plans w2 = rd_Plans (world [])) as -> by (vm_compute; reflexivity).
    assert (rd_Targets w2 = rd_Targets (world [])) as -> by (vm_compute; reflexivity). cbn.
    intros p Hp. rewrite !elem_of_cons, elem_of_nil in Hp. destruct Hp as [-> | [-> | []]];
      [exists {| tg_ID := "t1"; tg_VersionID := "v1"; tg_ControlID := "c1"; tg_IsCanary := true |}
      |exists {| tg_ID := "t2"; tg_VersionID := "v1"; tg_ControlID := "c2"; tg_IsCanary := false |}]; (split; [set_solver|done]).
Qed.

Lemma rollout_deployments_authorised_witness : dw_ApprovalID (row_of w3 "r1") = Some "a1"%string /\
  exists tg ctl p, tg ∈ rd_Targets w2 /\ tg_VersionID tg = "v1" /\ rd_Controls w2 !! tg_ControlID tg = Some ctl /\
    p ∈ rd_Plans w2 /\ pn_TargetID p = tg_ID tg /\ pn_ControlID p = tg_ControlID tg /\ dw_PlanID (row_of w3 "r1") = pn_ID p /\
    dw_ControlID (row_of w3 "r1") = cl_ID ctl.
Proof.
  split; [vm_compute; reflexivity|].
  destruct (rollout_deployments_authorised w_services (51 * Hour) "v1" w2 w3 "r1" (row_of w3 "r1")) as
    (dm & v & tg & ctl & p & ap & _ & _ & [H1 H2] & [H3 _] & (H4 & H5 & _ & H6 & _) & H7 & _).
  - apply w2_ok.
  - apply w2_references.
  - apply w_canaried.
  - vm_compute. reflexivity.
  - vm_compute. reflexivity.
  - exists tg, ctl, p. rewrite H7. auto 10.
Defined.

Lemma expansion_needs_healthy_canary_witness : rl_Stage (row_in w5) = GovRolloutExpand /\ healthy_canary w_services (61 * Hour) w4 w5 "v1" (row_in w4).
Proof.
  split; [vm_compute; reflexivity|].
  apply (expansion_needs_healthy_canary w_services (61 * Hour) "v1" w4 w5 (row_in w4) (row_in w5)).
  - apply w4_ok.
  - apply w_expanded.
  - vm_compute. reflexivity.
  - vm_compute. reflexivity.
  - vm_compute. reflexivity.
  - apply (bool_decide_unpack _). vm_compute. exact I.
Defined.

(** The second role's deployment is still queued, so the rollout does not end. *)
Lemma expansion_ends_exactly_witness : rl_Stage (row_in w5) = GovRolloutExpand /\ settleTx (62 * Hour) w_cx (row_in w5) w5 = w5.
Proof.
  split; [vm_compute; reflexivity|].
  apply (expansion_ends_exactly (62 * Hour) w_cx (row_in w5) w5); [vm_compute; reflexivity|].
  exists "c2", (row_of w5 "new-t2"). split; vm_compute; auto.
Defined.

Definition w_noisy : list EvidenceRow := [w_evidence "i1" (Some (30 * Hour)); w_evidence "i2" None].
Definition n1 : RDB := w_start 0 (world w_noisy).
Definition n_target (role : string) (attempt : option Time) : ObservationTarget :=
  {| ot_RoleID := role; ot_EvidenceReportAt := 0; ot_ReportGeneratedAt := Some (40 * Hour); ot_LastAttempts := {["sqs" := attempt]} |}.
Definition n2 : RDB := w_tick (50 * Hour) 2 n1.

Lemma n1_ok : ok n1.
Proof.
  eapply (system_ok w_services w_laws); [|apply (world_ok w_noisy)].
  apply rtc_once. by apply (w_call 0 (CallStart "r1" "alice" "p1" None "go")).
Qed.

Definition n_context : rctx := match load_tx n1 "v1" with Done cx => cx | Refused _ => w_context end.
Definition n_tg : rtarget := default {| rt_Target := {| tg_ID := ""; tg_VersionID := ""; tg_ControlID := ""; tg_IsCanary := false |};
  rt_Control := {| cl_ID := ""; cl_ConnectorID := ""; cl_RoleID := ""; cl_IdentityAccountID := "" |}; rt_Plan := None |} (head (cx_Targets n_context)).


Definition w_paused : RDB := (Pause w_services (55 * Hour) "bob" "p1" "wait" w4).1.

Lemma pause_resume_roundtrip_witness : stage_in w_paused = Some GovRolloutPaused /\
  exists d, active_tx (resume_body (56 * Hour) "bob" "go on") "v1" w_paused = Done d /\
    rd_Rollouts d = <["v1" := stored (56 * Hour) (at_stage GovRolloutCanary_ "" (row_in w4)) (with_Pause None [] (rl_GateResults (row_in w4)))]> (rd_Rollouts w4).
Proof.
  split; [vm_compute; reflexivity|].
  destruct (pause_resume_roundtrip w_services (55 * Hour) (56 * Hour) "bob" "bob" "wait" "go on" "v1" w4 w_paused (row_in w4))
    as (d & H1 & H2 & _).
  - apply w4_ok.
  - vm_compute. reflexivity.
  - vm_compute. reflexivity.
  - vm_compute. intros cx [= <-]. reflexivity.
  - exists d. split; [exact H1|exact H2].
Defined.

Lemma calls_are_transactions_witness : dw_State (row_of w3 "r1") = GovDeployQueued /\
  performed w_services (51 * Hour) (CallStart "r1" "alice" "p1" None "go") w2 w3 (Done tt) /\ ok w3 /\ rd_Deployments w2 ⊆ rd_Deployments w3.
Proof.
  split; [vm_compute; reflexivity|].
  destruct (calls_are_transactions w_services w_laws (51 * Hour) (CallStart "r1" "alice" "p1" None "go") w2 w2_ok) as (H1 & H2 & _ & H4).
  assert ((perform w_services (51 * Hour) (CallStart "r1" "alice" "p1" None "go") w2).2 = Done tt) as E by (vm_compute; reflexivity).
  rewrite E in H1. split; [exact H1|]. split; [exact H2|]. destruct H4 as [(? & ? & ? & ? & ? & _ & Hrm) | [H4 _]]; [|exact H4].
  destruct Hrm as (v & st & d1 & e & _ & _ & _ & Hst & _). discriminate Hst.
Defined.

(** * A stale evaluation *)

(** The version proposed and approved again after it went back to draft. *)
Definition reapproved (d : RDB) : RDB :=
  put_Approvals (rd_Approvals (world [])) (put_Versions (rd_Versions (world [])) d).

(** Two ticks read the same observation. The one that saw the later revision
    sends the version back to draft; it is approved again and observed anew, until
    73 h. The other then commits what it had evaluated for the first observation. *)
Definition s_result : ObservationResult := EvaluateObservation (24 * Hour) (48 * Hour) [n_target "A" None; n_target "B" None].
Definition s1 : RDB := w_start (49 * Hour) (reapproved (w_tick (48 * Hour) 2 n1)).
Definition s2 : outcome RDB := locked_tx w_fence GovRolloutObserve (observe_body w_services (48 * Hour) 1 s_result) "v1" s1.

(** The new observation ends before its time: [tickObserve] evaluates
    [observe_until] before the transaction and does not compare it again in it. *)
Theorem stale_tick_ends_observation : stage_in s1 = Some GovRolloutObserve /\ rl_ObserveUntil (row_in s1) = Some (73 * Hour) /\
  match s2 with Done d => stage_in d = Some GovRolloutAwaitingApproval /\ rl_ObserveUntil (row_in d) = Some (73 * Hour) | Refused _ => False end.
Proof. vm_compute. auto. Qed.
